(* ===== verification/_CoqProject ===== *)
-Q . S2P
Prelude.v
GoLib.v
Wire.v
WireFacts.v
Schema.v
Tables.v
Leases.v
Commands.v
Finalization.v
Mutations.v
Proposals.v
Decisions.v
OutboxStore.v
CanonicalState.v
Canonical.v
CanonicalFacts.v
CanonicalLoad.v
Mirror.v
Snapshots.v
Recovery.v
Bootstrap.v
System.v
Convergence.v
GoText.v
SavedTables.v
SavedMutations.v
Execution.v
SavedFacts.v
SavedProps.v
SavedCreate.v
ExecutionFacts.v
Lifecycle.v
Progress.v
Activation.v
SavedExamples.v
Opaque.v
Sessions.v
SessionFacts.v
SessionProps.v
SessionExamples.v
Places.v
PlaceProps.v
PlaceExamples.v
HttpText.v
Google.v
HttpApi.v
HttpProps.v
HttpSessions.v
HttpExamples.v
JsonText.v
PlannerMessages.v
StoredEvent.v
Worker.v
Dispatcher.v
DispatchProps.v
DispatchExamples.v
Supervisor.v
SupervisorProps.v
Coordinators.v
CoordinatorProps.v
PlannerRecovery.v
CoordinatorExamples.v
StrictJson.v
Gateway.v
GatewayProps.v
WebSocket.v
WebSocketProps.v
Transport.v
TransportProps.v
GatewayExamples.v
ClientCommands.v
Adapters.v
AdapterProps.v
AdapterExamples.v
StateJson.v
Messages.v
MessageFacts.v
MessageProps.v
Resynchronization.v
MessageExamples.v
