(* ===== verification/Prelude.v ===== *)
(** * LiveRoute backend: a verification library

    LiveRoute keeps a traveller's itinerary in PostgreSQL and mirrors it to a
    C++ planner.  The Go backend ([src/backend]) is the only writer of the
    database; its package [persistence] holds the stores through which the
    gateway, the dispatcher and the runtime supervisor change state.  This
    library models those stores, operation by operation, the workers that carry
    committed commands to the planner and its results back, the HTTP interface,
    and the WebSocket gateway from a client's frame to the envelopes it is
    answered with, and proves what makes them correct.

    ** The program and the files that model it

    The stores share one database.  [Schema.v] is that database: a record of
    tables ([db], each a [gmap] from primary keys to rows), the row types of
    [src/migrations], and a state and error monad [tx] in which an operation is
    a function from a database to a result and a new database.  An operation
    that fails returns [Err] and the caller keeps the old database: the rolled
    back transaction.  [Tables.v] has the statements on the tables with the
    CHECKs, unique indexes and foreign keys the migrations declare.

    - [Prelude.v] (this file): bytes, machine integers with their wrap-around,
      the [result] type, tactics and lemmas on finite maps;
    - [GoLib.v]: what the code uses of the Go library (times, durations,
      [json.Valid] as the package's scanner, SHA-256, uuid text);
    - [Wire.v], [WireFacts.v]: [accepted_plan_wire.go], [snapshot_wire.go] and
      the encoder of [canonical_commands.go], on bytes;
    - [Leases.v]: [leases.go], runtime ownership of a trip;
    - [Commands.v]: [commands.go], recording runtime-first commands;
    - [Finalization.v]: [command_finalization.go] and
      [finalization_confirmation.go];
    - [Mutations.v]: [accepted_mutations.go];
    - [Proposals.v]: [proposals.go] and [proposal_acceptance.go];
    - [Decisions.v]: [proposal_decisions.go] and [accepted_proposal.go];
    - [OutboxStore.v]: [outbox.go];
    - [CanonicalState.v], [CanonicalLoad.v]: [canonical_state.go];
    - [Canonical.v], [CanonicalFacts.v]: [canonical_commands.go];
    - [Mirror.v]: [canonical_mirror.go];
    - [Snapshots.v], [Recovery.v]: [snapshots.go];
    - [Bootstrap.v]: [bootstrap_convergence.go];
    - [System.v], [Convergence.v]: all of the above as one transition system
      ([System.step]) and the convergence of a bootstrapped runtime in it;
    - [GoText.v]: the text, time-zone and identifier helpers of
      [http_authentication.go] the saved-trip stores use;
    - [SavedTables.v]: statements on the tables of migration 4, [saved_trips.go]
      and the two queries of [saved_trip_execution.go] for interrupted transitions;
    - [SavedMutations.v]: [saved_trip_creation.go], [saved_trip_mutations.go]
      and [saved_trip_activity_mutations.go];
    - [Execution.v]: [saved_trip_execution.go];
    - [SavedFacts.v], [SavedProps.v], [SavedCreate.v]: what the mutations do to
      the tables, and their properties;
    - [ExecutionFacts.v], [Lifecycle.v], [Progress.v], [Activation.v]: what the
      execution operations do, the lifecycle invariant as a transition system
      ([saved_step]), that a begun transition can be completed, and the plan an
      activation publishes;
    - [SavedExamples.v]: a concrete server and the history of a trip at which
      the theorems on saved trips are applied;
    - [Opaque.v], [Sessions.v], [SessionFacts.v], [SessionProps.v]: the rest of
      [http_authentication.go] and [authentication.go]: tokens, login nonces,
      Google accounts, sessions, WebSocket tickets and development tokens, as a
      transition system ([session_step]);
    - [Places.v], [PlaceProps.v]: [places.go], resolving an address and creating a place from the result;
    - [Google.v]: [auth/google_oidc.go];
    - [HttpText.v], [HttpApi.v]: [gateway/http_authentication.go]: the parsers
      of headers and identifiers, then admission, every handler and the routing,
      in a monad over the response and the database;
    - [HttpProps.v], [HttpSessions.v]: rules for handlers and the
      properties of the interface;
    - [SessionExamples.v], [PlaceExamples.v], [HttpExamples.v]: concrete servers
      and histories at which the theorems of these files are applied;
    - [JsonText.v], [StrictJson.v]: JSON on bytes, [gateway/schema.go]'s strict
      decoder and [canonicaljson/canonical.go];
    - [PlannerMessages.v], [StoredEvent.v]: the messages of the planner stream and
      [plannerwire/stored_event.go], the form in which the outbox keeps an event;
    - [Worker.v]: a background worker over stores and a planner that others use too
      and that may fail at every call;
    - [Dispatcher.v], [DispatchProps.v], [DispatchExamples.v]:
      [dispatch/dispatcher.go] and [dispatch/runtime_finalizer.go];
    - [Supervisor.v], [SupervisorProps.v]: the sections of
      [dispatch/runtime_supervisor.go] under its mutex, in any interleaving;
    - [Coordinators.v], [CoordinatorProps.v], [PlannerRecovery.v],
      [CoordinatorExamples.v]: [dispatch/bootstrap.go],
      [dispatch/snapshot_coordinator.go], [dispatch/proposal_consumer.go] and
      [dispatch/telemetry.go];
    - [Transport.v], [TransportProps.v]: [plannertransport/client.go];
    - [Gateway.v], [GatewayProps.v]: [gateway/subscription_hub.go] and
      [gateway/trip_admission.go];
    - [WebSocket.v], [WebSocketProps.v], [GatewayExamples.v]: [gateway/handler.go],
      a session with its loops and queues;
    - [ClientCommands.v], [Adapters.v], [AdapterProps.v], [AdapterExamples.v]: the
      command adapters, [gateway/create_trip.go], [replace_current_plan.go],
      [trip_edited.go], [runtime_mutation.go], [proposal_decision.go] and
      [command_dispatcher.go];
    - [StateJson.v]: what a client is told, [gateway/state_json.go],
      [state_envelope.go], [error_envelope.go] and [telemetry.go];
    - [Messages.v], [MessageFacts.v], [MessageProps.v], [Resynchronization.v],
      [MessageExamples.v]: [handleMessage] of [cmd/liveroute-backend/main.go] with
      its handlers and answers, the hooks that publish finalized commands and
      proposals, and the whole of [RuntimeSupervisor.Activate].

    A message passes these parts in order: a frame is read by a session
    ([WebSocket]), queued for its trip ([Gateway]), handled ([Messages]), which may
    record a command ([Adapters], [Commands], [Canonical]); the dispatcher claims
    its outbox row ([Dispatcher]), sends it over the stream ([Transport]) and
    finalizes it with the planner's answer ([Finalization], [Mutations],
    [Decisions], [Mirror]); the hooks tell the trip's subscribers.

    Each file opens with its data as records and inductive types under the
    names of the source, then one definition per operation (and one per loop or
    repeated statement group inside it), then lemmas that describe a successful
    run ([..._ok]), then properties and the examples that instantiate them.

    ** How the model corresponds to the code

    Integers are [Z] with [uint64], [int64], [uint32] and [int32] written at
    every conversion of the source.  A [string] is a [String.string], a [[]byte]
    a list of bytes, a nullable column an [option].  Times in the code are
    nanoseconds, times in the tables microseconds, as [timestamptz] keeps them.
    Every call of [clock_timestamp()] in an operation is an index of a clock
    [clk : nat -> Z] the operation is given, so nothing is assumed about the
    clock unless a theorem says so.  What the code leaves to the server (how
    [jsonb], [uuid] and [text] input is read) is the class [Postgres] with the
    laws [PostgresLaws]; [pg_model] is a concrete server the examples run on.
    The saved-trip stores add [SavedServer] with [SavedServerLaws] (dates, times,
    [format] and stored JSON responses) and [TimeZones], the time-zone database;
    [saved_model] and [zones] are their concrete instances.  The reads of
    [crypto/rand] in an operation are an argument [rng : nat -> _], and so is the
    event builder callback.  The signature check of an identity token, the
    geocoding provider and the parsers of [net/http], [mime] and [encoding/json]
    are parameters or fields of the request.  So are the generated protobuf code
    ([PlannerProto], [ProposalProto]), the compiled JSON schemas
    ([EnvelopeSchemas]), [json.Marshal] of a map ([HttpJson]) and the RFC 8785
    renderer ([rfc8785]); what a theorem needs of them is the class of their laws,
    and the example files have instances.  A worker or a handler is given an
    environment ([WorkerEnv], [AdapterEnv], [MessageEnv]) that decides what other
    transactions and goroutines do before each of its calls, which calls fail and
    whether a failed one was committed, and what the planner answers.  Errors keep
    the identity the callers compare with ([errors.Is]); a failing statement is
    [ErrDatabase] with the operation's text.

    A transaction is one step.  The operations on a running trip lock its row
    first ([FOR UPDATE]) or are a single statement; those on saved trips lock
    the user's or the trip's row, so the database serializes the operations on
    one trip; a lost connection or a failed commit leaves
    the database as it was.  [ClaimDue] uses [SKIP LOCKED]; the rows that other
    transactions hold are its argument [locked].

    ** What the theorems show

    - The system ([System]): in every reachable database a trip has at most one
      command in flight and its finalized sequence is a prefix; a pending
      proposal is computed for the trip's current revision and plan; a command
      waits for the runtime exactly if it has an undelivered outbox row; and that
      row can be claimed ([one_command_in_flight], [pending_proposal_is_current],
      [waiting_iff_undelivered], [flying_command_is_claimed]).
    - The stores, operation by operation: leases fence old epochs
      ([lease_epoch_fences], [acquire_takes_over]); a recorded command takes the
      next sequence ([record_new_command]); finalization, confirmation, accepted
      mutations, proposal decisions and the mirror change exactly the rows they
      should ([terminal_finalization_effect], [confirmation_covers_prefix],
      [accepted_mutation_effect], [persisted_proposal_is_current],
      [acceptance_publishes_plan], [mirror_acknowledged],
      [mirror_mismatch_pauses]); the outbox claims one due row per trip
      ([claim_due_rows], [claim_one_per_trip], [retry_delay_bounds]).
    - Canonical edits refine operations on a list of activities
      ([edits_refine_itinerary], [canonical_edit_effect], [edit_is_idempotent]);
      a created trip is read back ([create_then_load]).
    - Snapshots: a stored snapshot is the one the next runtime starts from, and
      storing it removes only confirmed commands ([persisted_snapshot_recovers],
      [persist_snapshot_effect], [recovery_finds_newest_valid]); a bootstrapped
      runtime settles every canonical-first command ([bootstrap_converges],
      [bootstrap_repeats]).
    - The wire codec: round trip, well-formed results, totality and the exact
      meaning of the proposal comparison (the theorems of [WireFacts]).
    - Saved trips: an activity mutation refines the edit of a list
      ([activity_mutation_refines]); a created trip is read back and a repeated
      request repeats its answer ([created_trip_reads_back],
      [saved_request_replays]); the lifecycle invariant holds in every database
      the saved-trip operations reach ([saved_trip_lifecycle]); a pending
      transition can be completed ([pending_activation_completes],
      [pending_deactivation_completes]); the plan of an activation is the saved
      schedule and loads exactly when the activities do not overlap
      ([activated_plan_loads]).
    - Sessions: in every reachable database at most one session of a family is
      current ([sessions_consistent]); a revoked session never authenticates
      again and a ticket admits one connection ([logout_is_final],
      [ticket_admits_once]); a family ends with its absolute lifetime
      ([family_lifetime]); two first logins of one account settle on one user
      ([login_race_settles]); an identity is trusted exactly under the checks of
      [Verify] ([google_identity_trusted]).
    - Places: a resolution creates at most one place, a resolved place can be
      created, and a repeated request repeats its answer
      ([resolution_creates_once], [resolved_place_is_created],
      [resolution_replays]).
    - The HTTP interface: every request is answered exactly once with a sound
      response ([one_sound_answer]); application data changes only for a request
      with a live session and its CSRF token ([data_changes_authorised]); the
      cookies of a login authenticate the next request ([login_opens_session]);
      identifiers the server draws are accepted when they come back
      ([drawn_ids_accepted]).
    - The workers: whatever fails and whatever else commits, every pass of the
      dispatcher, every bootstrap, capture and stored proposal and every command of
      a client takes the database along steps of [System.step]
      ([dispatcher_refines_system], [coordinators_refine_system],
      [commands_refine_system]), so that the invariants of the system hold for the
      program.  A command is finalized only on the planner's acknowledgement of its
      own event, and a mirrored edit is delivered if nothing fails
      ([finalized_on_acknowledgement], [mirror_is_delivered]); a stored event is
      read back ([stored_event_roundtrip]); the supervisor never exceeds its limit
      and never runs a trip twice ([supervisor_safe], [runtime_state_matches],
      [observations_increase]); a bootstrap leaves no canonical command waiting and
      a captured snapshot is what the next bootstrap sends
      ([full_bootstrap_settles], [captured_snapshot_sent_back]); a proposal passes
      exactly the checks of the consumer and is stored before it is published
      ([proposal_checks_exact], [published_after_stored]); an answer of the planner
      reaches only the call it answers ([planner_calls_correlated]).
    - The gateway: a session handles messages of one authenticated user only, within
      its bounds, and never panics ([session_handles_its_user],
      [session_stays_sound]); messages of a trip are handled in order
      ([admission_fifo]); the strict decoder is total ([strict_json_total_unique]);
      a command changes or is acknowledged for a trip of the sender only, and one
      sent again is not carried out again ([commands_need_ownership],
      [mutation_resent]); what is told about a trip reaches its owner only
      ([states_reach_owners_only]); a client that comes back gets one outcome for
      each message it asks about ([resynchronization_answers_all]).
    - Behaviour that differs from what the code means to do, each proved:
      [snapshot_plan_identity_depends_on_order], [release_resets_epoch],
      [released_trip_stores_no_snapshot],
      [stale_decision_replay_conflicts], [executing_trip_cannot_accept],
      [created_trip_may_not_load], [activated_plan_loads],
      [activating_trip_cannot_be_deactivated], [activation_needs_addresses],
      [deactivating_an_inactive_trip_fails], [rotation_lost_without_csrf],
      [replaced_token_outlives_grace], [session_columns_fixed],
      [csrf_lost_on_key_change], [preflight_methods],
      [failed_login_keeps_binding], [deactivated_activation_runs_on],
      [deactivation_strands_waiters], [stale_renewal_ends_activation],
      [snapshot_bootstrap_skips_delivered], [admission_never_recovers],
      [refused_subscription_leaks], [gateway_identifier_lax],
      [decision_not_resent], [foreign_command_activates],
      [unread_session_fails_hook] and [hook_error_ends_consumer].

    [System.step] and [Lifecycle.saved_step] are two transition systems over the
    same database.  The first has the stores of a running trip, the second the
    operations of the HTTP API; a theorem about one says nothing about
    interleavings with the other.

    ** Bounds and fuel

    Loops over lists are structural recursions.  The protobuf readers consume at
    least one byte per field, so the fuel of [consumeWireFields] is the length
    of the input; [consumeWireFields_total] shows that it is enough.  A varint
    has at most ten bytes and [consumeVarint] stops at ten as the code does.  The
    strict JSON decoder has fuel for twice the length of its input and one, since
    each token consumes a byte and a value takes two calls at most;
    [strict_json_total_unique] shows that it never runs out.  The retry loop of the
    proposal consumer is bounded by the number of delays its context allows, an
    argument.

    ** Not modelled

    Left out: the Mapbox client and the time-zone index ([place]), the development
    token file ([gateway/auth.go]), health probes, metrics and the set-up of the
    HTTP server ([gateway]), readiness and migrations checks, configuration, and
    the rest of the programs under [cmd] (options, wiring, signals, the loop that
    reactivates leased trips), which are I/O around the modelled parts; generated
    code; the C++ planner, the web front end and the benchmarks, which are other
    programs.
    The [UnmarshalJSON] methods of [saved_trip_creation.go] are decoding: a
    request of the model is the decoded value.
*)

From stdpp Require Export base gmap strings list sorting.
From Stdlib Require Export ZArith Lia.
From Stdlib.Strings Require Import Byte.

#[global] Open Scope string_scope.
#[global] Open Scope list_scope.
#[global] Open Scope Z_scope.

(** ** Bytes and strings *)

(** A Go [[]byte].  A Go [string] is a byte sequence as well; it is modelled by
    [String.string], whose characters are 8-bit. *)
Abbreviation bytes := (list Byte.byte).

(** [[]byte(s)] and [string(b)]. *)
Definition bytes_of_string (s : string) : bytes := String.list_byte_of_string s.
Definition string_of_bytes (b : bytes) : string := String.string_of_list_byte b.

Lemma string_of_bytes_of_string s : string_of_bytes (bytes_of_string s) = s.
Proof. apply String.string_of_list_byte_of_string. Qed.

Lemma bytes_of_string_of_bytes b : bytes_of_string (string_of_bytes b) = b.
Proof. apply String.list_byte_of_string_of_list_byte. Qed.

(** The value of a byte, and the byte [byte(z)] of Go's truncating conversion. *)
Definition byte_val (b : Byte.byte) : Z := Z.of_N (Byte.to_N b).
Definition byte_of (z : Z) : Byte.byte :=
  default Byte.x00 (Byte.of_N (Z.to_N (z mod 256))).

Lemma byte_val_range b : 0 <= byte_val b < 256.
Proof. unfold byte_val. pose proof (Byte.to_N_bounded b). lia. Qed.

Lemma byte_val_of z : byte_val (byte_of z) = z mod 256.
Proof.
  unfold byte_val, byte_of.
  pose proof (Z.mod_pos_bound z 256 ltac:(lia)) as Hb.
  destruct (Byte.of_N (Z.to_N (z mod 256))) as [b|] eqn:E; simpl.
  - apply Byte.to_of_N in E. rewrite E. lia.
  - apply Byte.of_N_None_iff in E. lia.
Qed.

Lemma byte_val_of_small z : 0 <= z < 256 -> byte_val (byte_of z) = z.
Proof. intros. rewrite byte_val_of. apply Z.mod_small. lia. Qed.

#[global] Instance byte_eq_dec : EqDecision Byte.byte := Byte.byte_eq_dec.

(** [len] of a Go slice or string. *)
Definition zlen {A} (l : list A) : Z := Z.of_nat (length l).

Lemma zlen_nonneg {A} (l : list A) : 0 <= zlen l.
Proof. unfold zlen. lia. Qed.

Lemma zlen_app {A} (k l : list A) : zlen (k ++ l) = zlen k + zlen l.
Proof. unfold zlen. rewrite length_app. lia. Qed.

(** ** Machine integers

    Go's fixed-width integers are [Z]; a conversion wraps around as the
    language defines it. *)

Definition max_int64 : Z := 2 ^ 63 - 1.
Definition max_int32 : Z := 2 ^ 31 - 1.

(** [uint64(z)], [int64(z)], [uint32(z)], [int32(z)]. *)
Definition uint64 (z : Z) : Z := z mod 2 ^ 64.
Definition int64 (z : Z) : Z := (z + 2 ^ 63) mod 2 ^ 64 - 2 ^ 63.
Definition uint32 (z : Z) : Z := z mod 2 ^ 32.
Definition int32 (z : Z) : Z := (z + 2 ^ 31) mod 2 ^ 32 - 2 ^ 31.

Lemma int64_small z : - 2 ^ 63 <= z <= max_int64 -> int64 z = z.
Proof. unfold int64, max_int64. intros. rewrite Z.mod_small; lia. Qed.

Lemma uint64_small z : 0 <= z < 2 ^ 64 -> uint64 z = z.
Proof. unfold uint64. intros. rewrite Z.mod_small; lia. Qed.

Lemma uint64_range z : 0 <= uint64 z < 2 ^ 64.
Proof. unfold uint64. apply Z.mod_pos_bound. lia. Qed.

Lemma int64_range z : - 2 ^ 63 <= int64 z <= max_int64.
Proof.
  unfold int64, max_int64. pose proof (Z.mod_pos_bound (z + 2 ^ 63) (2 ^ 64) ltac:(lia)). lia.
Qed.

Lemma int64_uint64 z : - 2 ^ 63 <= z <= max_int64 -> int64 (uint64 z) = z.
Proof.
  unfold int64, uint64, max_int64. intros.
  rewrite Zplus_mod_idemp_l, Z.mod_small; lia.
Qed.

Lemma uint32_small z : 0 <= z <= max_int32 -> uint32 z = z.
Proof. unfold uint32, max_int32. intros. apply Z.mod_small. lia. Qed.

Lemma int32_small z : - 2 ^ 31 <= z <= max_int32 -> int32 z = z.
Proof. unfold int32, max_int32. intros. rewrite Z.mod_small; lia. Qed.

(** ** Results

    A Go function returning [(T, error)] is a function into [result T]; the
    error values are those of [Errors]. *)

Inductive res (E A : Type) : Type :=
| Ok (a : A)
| Err (e : E).
Arguments Ok {E A} a.
Arguments Err {E A} e.

#[global] Instance res_ret E : MRet (res E) := fun A a => Ok a.
#[global] Instance res_bind E : MBind (res E) := fun A B f m =>
  match m with Ok a => f a | Err e => Err e end.
#[global] Instance res_fmap E : FMap (res E) := fun A B f m =>
  match m with Ok a => Ok (f a) | Err e => Err e end.

Definition is_ok {E A} (r : res E A) : bool :=
  match r with Ok _ => true | Err _ => false end.

(** [if b { return ..., e }]. *)
Definition reject_if {E} (b : bool) (e : E) : res E unit :=
  if b then Err e else Ok tt.

(** A query for one row: [e] on [pgx.ErrNoRows]. *)
Definition of_option {E A} (o : option A) (e : E) : res E A :=
  match o with Some a => Ok a | None => Err e end.

Lemma bind_ok {E A B} (m : res E A) (f : A -> res E B) b :
  m ≫= f = Ok b <-> exists a, m = Ok a /\ f a = Ok b.
Proof. destruct m as [a|e]; simpl; split; [eauto|intros (?&[=->]&?); done|done|intros (?&[=]&?)]. Qed.

Lemma res_bind_assoc {E A B C} (m : res E A) (f : A -> res E B) (g : B -> res E C) :
  (m ≫= f) ≫= g = m ≫= (fun a => f a ≫= g).
Proof. by destruct m. Qed.

Lemma reject_if_ok {E} b (e : E) u : reject_if b e = Ok u <-> b = false.
Proof. destruct b, u; simpl; split; congruence. Qed.

Lemma of_option_ok {E A} (o : option A) (e : E) a :
  of_option o e = Ok a <-> o = Some a.
Proof. destruct o; simpl; naive_solver. Qed.

(** Runs a list of fallible steps in order, stopping at the first error. *)
Fixpoint fold_res {E A S} (f : S -> A -> res E S) (l : list A) (s : S) : res E S :=
  match l with
  | [] => Ok s
  | x :: l => s' ← f s x; fold_res f l s'
  end.

Lemma fold_res_app {E A S} (f : S -> A -> res E S) k l s :
  fold_res f (k ++ l) s = fold_res f k s ≫= fold_res f l.
Proof. revert s. induction k as [|x k IH]; intros s; simpl; [done|].
  destruct (f s x); simpl; auto. Qed.

Lemma fold_res_inv {E A S} (P : S -> Prop) (f : S -> A -> res E S) l s s' :
  (forall a b x, x ∈ l -> f a x = Ok b -> P a -> P b) ->
  fold_res f l s = Ok s' -> P s -> P s'.
Proof.
  revert s. induction l as [|x l IH]; intros s Hf; simpl; [naive_solver|].
  intros (s1 & H1 & H2)%bind_ok HP.
  eapply IH; eauto using list_elem_of_further, list_elem_of_here.
Qed.

(** A loop that appends one result per element. *)
Lemma fold_res_collect {E A B} (f : A -> res E B) l acc out :
  fold_res (fun acc x => b ← f x; Ok (acc ++ [b])) l acc = Ok out ->
  exists bs, out = acc ++ bs /\ Forall2 (fun x b => f x = Ok b) l bs.
Proof.
  revert acc. induction l as [|x l IH]; intros acc; simpl.
  - intros [= <-]. exists []. by rewrite app_nil_r.
  - intros (s1 & (b & Hb & [= <-])%bind_ok & H2)%bind_ok.
    apply IH in H2 as (bs & -> & Hbs). exists (b :: bs).
    by rewrite <- app_assoc; split; [|constructor].
Qed.

(** Splits a successful run into its successful steps. *)
Ltac inv_res_step :=
  match goal with
  | H : mbind _ _ = Ok _ |- _ => apply bind_ok in H; destruct H as (? & ? & ?)
  | H : reject_if _ _ = Ok _ |- _ => apply reject_if_ok in H
  | H : of_option _ _ = Ok _ |- _ => apply of_option_ok in H
  | H : (_ || _)%bool = false |- _ => apply orb_false_iff in H; destruct H
  | H : (_ && _)%bool = true |- _ => apply andb_true_iff in H; destruct H
  | H : negb _ = false |- _ => apply negb_false_iff in H
  | H : negb _ = true |- _ => apply negb_true_iff in H
  | H : bool_decide _ = true |- _ => apply bool_decide_eq_true in H
  | H : bool_decide _ = false |- _ => apply bool_decide_eq_false in H
  | H : Ok _ = Ok _ |- _ => injection H as H; subst
  | H : Err _ = Ok _ |- _ => discriminate H
  | H : Ok _ = Err _ |- _ => discriminate H
  | H : mret _ = Ok _ |- _ => injection H as H; subst
  | p : _ * _ |- _ => destruct p
  | u : unit |- _ => destruct u
  end.
Ltac inv_res := repeat (inv_res_step; simplify_eq).

(** Turns the boolean integer tests of the code into propositions. *)
Ltac zbool :=
  repeat match goal with
  | H : (_ =? _) = true |- _ => apply Z.eqb_eq in H
  | H : (_ =? _) = false |- _ => apply Z.eqb_neq in H
  | H : (_ <? _) = true |- _ => apply Z.ltb_lt in H
  | H : (_ <? _) = false |- _ => apply Z.ltb_ge in H
  | H : (_ <=? _) = true |- _ => apply Z.leb_le in H
  | H : (_ <=? _) = false |- _ => apply Z.leb_gt in H
  end.

Lemma NoDup_fst_filter {K A} (P : K * A -> bool) (l : list (K * A)) :
  NoDup l.*1 -> NoDup (List.filter P l).*1.
Proof.
  induction l as [|x l IH]; simpl; [done|]. intros [Hx Hl]%NoDup_cons.
  destruct (P x); simpl; [|auto]. constructor; [|auto].
  intros (y & Heq & Hy)%list_elem_of_fmap. apply Hx. apply list_elem_of_fmap.
  exists y. split; [done|]. apply list_elem_of_In, filter_In in Hy as [Hy _].
  by apply list_elem_of_In.
Qed.

(** ** Tables

    A table is a finite map from its primary key to the row.  [SELECT],
    [UPDATE ... WHERE] and [DELETE ... WHERE] range over every row; the
    predicates are the [WHERE] clauses. *)

Section Tables.
Context {K : Type} `{Countable K} {A : Type}.
Implicit Types (m : gmap K A) (P : K -> A -> bool) (f : A -> A).

(** The rows a [WHERE] clause selects, with their keys. *)
Definition rows_where P m : list (K * A) :=
  List.filter (fun kv => P kv.1 kv.2) (map_to_list m).

(** [EXISTS (SELECT ... WHERE P)]. *)
Definition any_row P m : bool := existsb (fun kv => P kv.1 kv.2) (map_to_list m).

(** [count( * )] of the rows selected. *)
Definition count_rows P m : Z := zlen (rows_where P m).

(** [UPDATE ... SET f WHERE P]. *)
Definition update_rows P f m : gmap K A :=
  map_imap (fun k a => Some (if P k a then f a else a)) m.

(** [DELETE ... WHERE P]. *)
Definition delete_rows P m : gmap K A :=
  map_imap (fun k a => if P k a then None else Some a) m.

Lemma elem_of_rows_where P m k a :
  (k, a) ∈ rows_where P m <-> m !! k = Some a /\ P k a = true.
Proof.
  unfold rows_where. rewrite list_elem_of_In, filter_In, <- list_elem_of_In.
  by rewrite elem_of_map_to_list.
Qed.

Lemma any_row_true P m :
  any_row P m = true <-> exists k a, m !! k = Some a /\ P k a = true.
Proof.
  unfold any_row. rewrite existsb_exists. split.
  - intros ([k a] & Hin%list_elem_of_In & HP). exists k, a.
    split; [by apply elem_of_map_to_list|done].
  - intros (k & a & Hk & HP). exists (k, a). split; [|done].
    by apply list_elem_of_In, elem_of_map_to_list.
Qed.

Lemma any_row_false P m :
  any_row P m = false <-> forall k a, m !! k = Some a -> P k a = false.
Proof.
  rewrite <- not_true_iff_false, any_row_true. split.
  - intros Hn k a Hk. apply not_true_iff_false. intros HP. apply Hn. eauto.
  - intros Hf (k & a & Hk & HP). by rewrite (Hf _ _ Hk) in HP.
Qed.

Lemma count_rows_zero P m : count_rows P m = 0 <-> any_row P m = false.
Proof.
  rewrite any_row_false. unfold count_rows, zlen. split.
  - intros Hl k a Hk. apply not_true_iff_false. intros HP.
    assert (Hin : (k, a) ∈ rows_where P m) by (by apply elem_of_rows_where).
    destruct (rows_where P m); [by apply not_elem_of_nil in Hin|simpl in Hl; lia].
  - intros Hf. destruct (rows_where P m) as [|[k a] l] eqn:E; [done|].
    assert (Hin : (k, a) ∈ rows_where P m) by (rewrite E; left).
    apply elem_of_rows_where in Hin as [Hk HP]. by rewrite (Hf _ _ Hk) in HP.
Qed.

Lemma count_rows_nonneg P m : 0 <= count_rows P m.
Proof. apply zlen_nonneg. Qed.

Lemma lookup_update_rows P f m k :
  update_rows P f m !! k = (fun a => if P k a then f a else a) <$> m !! k.
Proof. unfold update_rows. rewrite map_lookup_imap. by destruct (m !! k). Qed.

Lemma lookup_delete_rows P m k :
  delete_rows P m !! k = m !! k ≫= fun a => if P k a then None else Some a.
Proof. unfold delete_rows. apply map_lookup_imap. Qed.

Lemma lookup_update_rows_Some P f m k b :
  update_rows P f m !! k = Some b <->
  exists a, m !! k = Some a /\ b = if P k a then f a else a.
Proof. rewrite lookup_update_rows, fmap_Some. naive_solver. Qed.

Lemma lookup_delete_rows_Some P m k a :
  delete_rows P m !! k = Some a <-> m !! k = Some a /\ P k a = false.
Proof.
  rewrite lookup_delete_rows, bind_Some. split.
  - intros (x & Hk & Hx). destruct (P k x) eqn:E; naive_solver.
  - intros [Hk HP]. exists a. by rewrite HP.
Qed.

Lemma rows_where_NoDup P m : NoDup (rows_where P m).
Proof.
  unfold rows_where. generalize (NoDup_map_to_list m). generalize (map_to_list m).
  induction l as [|x l IH]; simpl; [constructor|]. intros [Hx Hl]%NoDup_cons.
  destruct (P x.1 x.2); [|auto]. constructor; [|auto].
  rewrite list_elem_of_In, filter_In, <- list_elem_of_In. naive_solver.
Qed.

(** The row of a unique key. *)
Lemma rows_where_unique P m k a :
  m !! k = Some a -> P k a = true ->
  (forall k' a', m !! k' = Some a' -> P k' a' = true -> k' = k) ->
  rows_where P m = [(k, a)].
Proof.
  intros Hk HP Hu. pose proof (rows_where_NoDup P m) as Hnd.
  assert (Hin : forall x, x ∈ rows_where P m <-> x = (k, a)).
  { intros [k' a']. rewrite elem_of_rows_where. split; [|naive_solver].
    intros [Hk' HP']. pose proof (Hu _ _ Hk' HP'). by simplify_eq. }
  destruct (rows_where P m) as [|x [|y l]].
  - by destruct (not_elem_of_nil _ (proj2 (Hin _) eq_refl)).
  - f_equal. apply Hin. left.
  - assert (x = (k, a)) as -> by (apply Hin; left).
    assert (y = (k, a)) as -> by (apply Hin; right; left).
    apply NoDup_cons in Hnd as [Hn _]. exfalso. apply Hn. left.
Qed.

Lemma rows_where_none P m : any_row P m = false <-> rows_where P m = [].
Proof.
  rewrite <- count_rows_zero. unfold count_rows, zlen.
  destruct (rows_where P m); simpl; split; try done; lia.
Qed.

Lemma head_rows_where P m k a :
  head (rows_where P m) = Some (k, a) -> m !! k = Some a /\ P k a = true.
Proof.
  destruct (rows_where P m) as [|x l] eqn:E; simpl; [done|]. intros [= ->].
  apply elem_of_rows_where. rewrite E. left.
Qed.

Lemma update_rows_none P f m :
  any_row P m = false -> update_rows P f m = m.
Proof.
  rewrite any_row_false. intros Hf. apply map_eq. intros k.
  rewrite lookup_update_rows. destruct (m !! k) as [a|] eqn:E; simpl; [|done].
  by rewrite (Hf _ _ E).
Qed.
End Tables.

(** ** Tables read in the order of a column

    [ORDER BY] a column that counts from zero: the keys of the rows are the list
    that holds each key at the position its column says. *)
Section Numbered.
Context {K A : Type} `{Countable K} (ord : K * A -> Z).

Definition ord_le (x y : K * A) : Prop := ord x <= ord y.
#[global] Instance ord_le_dec : RelDecision ord_le.
Proof. intros x y. unfold ord_le. apply _. Defined.
#[global] Instance ord_le_total : Total ord_le.
Proof. intros x y. unfold ord_le. lia. Qed.
#[global] Instance ord_le_transitive : Transitive ord_le.
Proof. intros x y z. unfold ord_le. lia. Qed.

Lemma ord_sorted (l : list (K * A)) n :
  (forall i kv, l !! i = Some kv -> ord kv = n + Z.of_nat i) -> StronglySorted ord_le l.
Proof.
  revert n. induction l as [|x l IH]; intros n Hl; constructor.
  - apply (IH (n + 1)). intros i kv Hi. rewrite (Hl (S i) kv Hi). lia.
  - apply Forall_lookup. intros i kv Hi. unfold ord_le.
    rewrite (Hl 0%nat x eq_refl), (Hl (S i) kv Hi). lia.
Qed.

Lemma merge_sort_numbered (R : relation (K * A)) `{!RelDecision R} (rows l : list (K * A)) :
  (forall x y, R x y <-> ord_le x y) ->
  NoDup rows -> NoDup l -> (forall x, x ∈ rows <-> x ∈ l) ->
  (forall i kv, l !! i = Some kv -> ord kv = Z.of_nat i) -> merge_sort R rows = l.
Proof.
  intros HR Hnd1 Hnd2 Hin Hord.
  assert (Total R) by (intros x y; rewrite !HR; apply (total ord_le)).
  assert (Transitive R) by (intros x y z; rewrite !HR; apply (transitivity (R := ord_le))).
  apply (StronglySorted_unique_strong R).
  - intros x y Hx Hy Hle1 Hle2. rewrite merge_sort_Permutation, Hin in Hx.
    apply list_elem_of_lookup in Hx as [i1 Hx], Hy as [i2 Hy].
    assert (i1 = i2) as ->; [|congruence].
    apply HR in Hle1, Hle2. unfold ord_le in *. apply Hord in Hx, Hy. lia.
  - apply StronglySorted_merge_sort; apply _.
  - assert (StronglySorted ord_le l) as Hs
      by (apply (ord_sorted _ 0); intros i kv Hi; by rewrite (Hord i kv)).
    clear -Hs HR. induction Hs as [|x l Hs IH Hx]; constructor; [done|].
    eapply Forall_impl; [exact Hx|]. intros y Hy. by apply HR.
  - by rewrite merge_sort_Permutation; apply NoDup_Permutation.
Qed.

Lemma numbered_list (m : gmap K A) ks n :
  (forall i k, ks !! i = Some k -> exists a, m !! k = Some a /\ ord (k, a) = n + Z.of_nat i) ->
  exists l : list (K * A), l.*1 = ks /\
    forall i kv, l !! i = Some kv -> m !! kv.1 = Some kv.2 /\ ord kv = n + Z.of_nat i.
Proof.
  revert n. induction ks as [|k ks IH]; intros n Hks; [by exists []|].
  destruct (Hks 0%nat k eq_refl) as (a & Ha & Ho).
  destruct (IH (n + 1)) as (l & <- & Hl).
  { intros i k' Hi. destruct (Hks (S i) k' Hi) as (b & Hb & Hob). exists b. split; [done|].
    rewrite Hob. lia. }
  exists ((k, a) :: l). split; [done|]. intros [|i] kv Hi; simpl in Hi; simplify_eq.
  - split; [done|]. simpl. lia.
  - destruct (Hl i kv Hi) as [? ->]. split; [done|lia].
Qed.

Lemma rows_numbered (R : relation (K * A)) `{!RelDecision R} P (m : gmap K A) ks :
  (forall x y, R x y <-> ord_le x y) -> NoDup ks ->
  (forall i k, ks !! i = Some k ->
     exists a, m !! k = Some a /\ ord (k, a) = Z.of_nat i /\ P k a = true) ->
  (forall k a, m !! k = Some a -> P k a = true -> k ∈ ks) ->
  (merge_sort R (rows_where P m)).*1 = ks /\
  forall i kv, merge_sort R (rows_where P m) !! i = Some kv -> ord kv = Z.of_nat i.
Proof.
  intros HR Hnd Hks Hall. destruct (numbered_list m ks 0) as (l & <- & Hl).
  { intros i k Hi. destruct (Hks _ _ Hi) as (a & ? & ? & _). by exists a. }
  assert (merge_sort R (rows_where P m) = l) as ->.
  - apply merge_sort_numbered; [done|apply rows_where_NoDup|by apply (NoDup_fmap_1 fst)| |].
    + intros [k a]. rewrite elem_of_rows_where. split.
      * intros [Ha HP]. pose proof (Hall _ _ Ha HP) as Hin.
        apply list_elem_of_fmap in Hin as ([k' b] & Hk & Hin). simpl in Hk. subst k'.
        apply list_elem_of_lookup in Hin as [i Hi]. pose proof (Hl _ _ Hi) as [Hb _].
        simpl in Hb. rewrite Ha in Hb. simplify_eq. by eapply list_elem_of_lookup_2.
      * intros [i Hi]%list_elem_of_lookup. pose proof (Hl _ _ Hi) as [Hm _]. simpl in Hm.
        destruct (Hks i k) as (b & Hb & _ & HP); [by rewrite list_lookup_fmap, Hi|].
        rewrite Hm in Hb. by simplify_eq.
    + by intros i kv [_ ->]%Hl.
  - split; [done|]. by intros i kv [_ ->]%Hl.
Qed.

Lemma sorted_fst_NoDup (R : relation (K * A)) `{!RelDecision R} P (m : gmap K A) :
  NoDup (merge_sort R (rows_where P m)).*1.
Proof.
  rewrite merge_sort_Permutation. apply NoDup_fst_filter, NoDup_fst_map_to_list.
Qed.
End Numbered.

(** The error of a lookup in a table, and the row found otherwise. *)
Create Rewrite HintDb tables.
#[export] Hint Rewrite @lookup_update_rows_Some @lookup_delete_rows_Some
  @lookup_insert_Some @lookup_delete_Some using typeclasses eauto : tables.
