(* ===== verification/GoLib.v ===== *)
(** * The standard-library functions the backend calls

    [crypto/sha256.Sum256], [encoding/json.Valid] (the byte-at-a-time scanner
    of the package), [time.Duration] accessors, and the identifier test
    [validCanonicalUUID] of [persistence/commands.go].  All definitions
    compute. *)

From S2P Require Import Prelude.
From Stdlib Require Import Ascii.
From Stdlib.Strings Require Import Byte.

(** ** Canonical UUID text ([persistence/commands.go]) *)

Definition uuid_char (index : nat) (c : ascii) : bool :=
  if bool_decide (index ∈ [8; 13; 18; 23]%nat) then bool_decide (c = "-"%char)
  else
    let v := Z.of_N (N_of_ascii c) in
    ((48 <=? v) && (v <=? 57)) || ((97 <=? v) && (v <=? 102)).

Fixpoint uuid_chars (index : nat) (s : string) : bool :=
  match s with
  | EmptyString => true
  | String c s => uuid_char index c && uuid_chars (S index) s
  end.

(** [validCanonicalUUID]: 36 bytes, dashes at 8, 13, 18 and 23, lowercase
    hexadecimal digits elsewhere. *)
Definition validCanonicalUUID (value : string) : bool :=
  bool_decide (String.length value = 36%nat) && uuid_chars 0 value.

Lemma validCanonicalUUID_length s :
  validCanonicalUUID s = true -> String.length s = 36%nat.
Proof. unfold validCanonicalUUID. intros H. inv_res. done. Qed.

Lemma validCanonicalUUID_nonempty s : validCanonicalUUID s = true -> s <> "".
Proof. intros H%validCanonicalUUID_length ->. done. Qed.

(** ** [crypto/sha256] *)

Module Sha256.
Definition w32 (z : Z) : Z := Z.land z 4294967295.
Definition rotr (n x : Z) : Z :=
  w32 (Z.lor (Z.shiftr x n) (Z.shiftl x (32 - n))).
Definition lnot32 (x : Z) : Z := Z.lxor x 4294967295.

Definition K : list Z :=
  [1116352408; 1899447441; 3049323471; 3921009573; 961987163; 1508970993;
   2453635748; 2870763221; 3624381080; 310598401; 607225278; 1426881987;
   1925078388; 2162078206; 2614888103; 3248222580; 3835390401; 4022224774;
   264347078; 604807628; 770255983; 1249150122; 1555081692; 1996064986;
   2554220882; 2821834349; 2952996808; 3210313671; 3336571891; 3584528711;
   113926993; 338241895; 666307205; 773529912; 1294757372; 1396182291;
   1695183700; 1986661051; 2177026350; 2456956037; 2730485921; 2820302411;
   3259730800; 3345764771; 3516065817; 3600352804; 4094571909; 275423344;
   430227734; 506948616; 659060556; 883997877; 958139571; 1322822218;
   1537002063; 1747873779; 1955562222; 2024104815; 2227730452; 2361852424;
   2428436474; 2756734187; 3204031479; 3329325298].

Definition H0 : list Z :=
  [1779033703; 3144134277; 1013904242; 2773480762; 1359893119; 2600822924;
   528734635; 1541459225].

Definition be32 (b : bytes) : Z :=
  fold_left (fun acc x => acc * 256 + byte_val x) b 0.
Definition be_bytes (n : nat) (z : Z) : bytes :=
  (fun i => byte_of (Z.shiftr z (8 * Z.of_nat (n - 1 - i)))) <$> seq 0 n.

Definition pad (m : bytes) : bytes :=
  let zeros := Z.to_nat ((55 - zlen m) mod 64) in
  m ++ [byte_of 128] ++ replicate zeros Byte.x00 ++ be_bytes 8 (8 * zlen m).

Fixpoint chunks {A} (fuel n : nat) (l : list A) : list (list A) :=
  match fuel, l with
  | O, _ | _, [] => []
  | S fuel, _ => take n l :: chunks fuel n (drop n l)
  end.

(** Message schedule: the next word from the last sixteen, most recent first. *)
Definition sched_next (w : list Z) : Z :=
  let nth i := default 0 (w !! i) in
  let s0 := let x := nth 14%nat in
            Z.lxor (Z.lxor (rotr 7 x) (rotr 18 x)) (Z.shiftr x 3) in
  let s1 := let x := nth 1%nat in
            Z.lxor (Z.lxor (rotr 17 x) (rotr 19 x)) (Z.shiftr x 10) in
  w32 (nth 15%nat + s0 + nth 6%nat + s1).
Fixpoint extend (n : nat) (w : list Z) : list Z :=
  match n with O => w | S n => extend n (sched_next w :: w) end.

Definition round (st : list Z) (kw : Z * Z) : list Z :=
  match st with
  | [a; b; c; d; e; f; g; h] =>
    let s1 := Z.lxor (Z.lxor (rotr 6 e) (rotr 11 e)) (rotr 25 e) in
    let ch := Z.lxor (Z.land e f) (Z.land (lnot32 e) g) in
    let t1 := w32 (h + s1 + ch + kw.1 + kw.2) in
    let s0 := Z.lxor (Z.lxor (rotr 2 a) (rotr 13 a)) (rotr 22 a) in
    let maj := Z.lxor (Z.lxor (Z.land a b) (Z.land a c)) (Z.land b c) in
    let t2 := w32 (s0 + maj) in
    [w32 (t1 + t2); a; b; c; w32 (d + t1); e; f; g]
  | _ => st
  end.

Definition compress (st : list Z) (block : bytes) : list Z :=
  let w := extend 48 (reverse (be32 <$> chunks 16 4 block)) in
  zip_with (fun x y => w32 (x + y)) st
    (fold_left round (zip K (reverse w)) st).

Definition sum256 (m : bytes) : bytes :=
  let p := pad m in
  mjoin (be_bytes 4 <$> fold_left compress (chunks (length p) 64 p) H0).
End Sha256.

(** [sha256.Sum256]. *)
Definition sha256 (m : bytes) : bytes := Sha256.sum256 m.

(** [subtle.ConstantTimeCompare(x, y) == 1]. *)
Definition constant_time_eq (x y : bytes) : bool := bool_decide (x = y).

(** The published test vector for the message [abc]. *)
Example sha256_abc :
  byte_val <$> sha256 (bytes_of_string "abc") =
  [186; 120; 22; 191; 143; 1; 207; 234; 65; 65; 64; 222; 93; 174; 34; 35; 176;
   3; 97; 163; 150; 23; 122; 156; 180; 16; 255; 97; 242; 0; 21; 173].
Proof. vm_compute. reflexivity. Qed.

(** ** [encoding/json.Valid] *)

Module JsonScan.
(** The scanner's [parseState] stack entries. *)
Inductive parse_state := ParseObjectKey | ParseObjectValue | ParseArrayValue.

(** The scanner's [step] functions. *)
Inductive state :=
| BeginValueOrEmpty | BeginValue | BeginStringOrEmpty | BeginString
| EndValue | EndTop
| InString | InStringEsc | InStringEscU (remaining : nat)
| Neg | Num1 | Num0 | Dot | Dot0 | Exp | ExpSign | Exp0
| Literal (rest : list Z).

Definition max_nesting_depth : Z := 10000.

Definition is_space (c : Z) : bool :=
  (c =? 32) || (c =? 9) || (c =? 13) || (c =? 10).
Definition is_digit (c : Z) : bool := (48 <=? c) && (c <=? 57).
Definition is_hex (c : Z) : bool :=
  is_digit c || ((97 <=? c) && (c <=? 102)) || ((65 <=? c) && (c <=? 70)).

Definition scan := (state * list parse_state)%type.

Definition push (ps : parse_state) (next : state) (stack : list parse_state)
  : option scan :=
  if zlen stack <? max_nesting_depth
  then Some (next, ps :: stack) else None.

Definition pop (stack : list parse_state) : option scan :=
  match tail stack with
  | [] => Some (EndTop, [])
  | stack => Some (EndValue, stack)
  end.

Definition end_value (stack : list parse_state) (c : Z) : option scan :=
  match stack with
  | [] => if is_space c then Some (EndTop, []) else None
  | ps :: rest =>
    if is_space c then Some (EndValue, stack)
    else match ps with
    | ParseObjectKey =>
      if c =? 58 then Some (BeginValue, ParseObjectValue :: rest) else None
    | ParseObjectValue =>
      if c =? 44 then Some (BeginString, ParseObjectKey :: rest)
      else if c =? 125 then pop stack else None
    | ParseArrayValue =>
      if c =? 44 then Some (BeginValue, stack)
      else if c =? 93 then pop stack else None
    end
  end.

Definition begin_value (stack : list parse_state) (c : Z) : option scan :=
  if is_space c then Some (BeginValue, stack)
  else if c =? 123 then push ParseObjectKey BeginStringOrEmpty stack
  else if c =? 91 then push ParseArrayValue BeginValueOrEmpty stack
  else if c =? 34 then Some (InString, stack)
  else if c =? 45 then Some (Neg, stack)
  else if c =? 48 then Some (Num0, stack)
  else if c =? 116 then Some (Literal [114; 117; 101], stack)
  else if c =? 102 then Some (Literal [97; 108; 115; 101], stack)
  else if c =? 110 then Some (Literal [117; 108; 108], stack)
  else if is_digit c then Some (Num1, stack)
  else None.

Definition begin_string (stack : list parse_state) (c : Z) : option scan :=
  if is_space c then Some (BeginString, stack)
  else if c =? 34 then Some (InString, stack) else None.

Definition is_exp (c : Z) : bool := (c =? 101) || (c =? 69).

Definition num0 (stack : list parse_state) (c : Z) : option scan :=
  if c =? 46 then Some (Dot, stack)
  else if is_exp c then Some (Exp, stack)
  else end_value stack c.

Definition step (s : scan) (c : Z) : option scan :=
  let '(st, stack) := s in
  match st with
  | BeginValueOrEmpty =>
    if is_space c then Some (BeginValueOrEmpty, stack)
    else if c =? 93 then end_value stack c
    else begin_value stack c
  | BeginValue => begin_value stack c
  | BeginStringOrEmpty =>
    if is_space c then Some (BeginStringOrEmpty, stack)
    else if c =? 125 then
      match stack with
      | _ :: rest => end_value (ParseObjectValue :: rest) c
      | [] => None
      end
    else begin_string stack c
  | BeginString => begin_string stack c
  | EndValue => end_value stack c
  | EndTop => if is_space c then Some (EndTop, stack) else None
  | InString =>
    if c =? 34 then Some (EndValue, stack)
    else if c =? 92 then Some (InStringEsc, stack)
    else if c <? 32 then None
    else Some (InString, stack)
  | InStringEsc =>
    if bool_decide (c ∈ [98; 102; 110; 114; 116; 92; 47; 34])
    then Some (InString, stack)
    else if c =? 117 then Some (InStringEscU 4, stack) else None
  | InStringEscU n =>
    if is_hex c then
      Some (match n with S (S m) => InStringEscU (S m) | _ => InString end, stack)
    else None
  | Neg =>
    if c =? 48 then Some (Num0, stack)
    else if is_digit c then Some (Num1, stack) else None
  | Num1 => if is_digit c then Some (Num1, stack) else num0 stack c
  | Num0 => num0 stack c
  | Dot => if is_digit c then Some (Dot0, stack) else None
  | Dot0 =>
    if is_digit c then Some (Dot0, stack)
    else if is_exp c then Some (Exp, stack)
    else end_value stack c
  | Exp =>
    if (c =? 43) || (c =? 45) then Some (ExpSign, stack)
    else if is_digit c then Some (Exp0, stack) else None
  | ExpSign => if is_digit c then Some (Exp0, stack) else None
  | Exp0 => if is_digit c then Some (Exp0, stack) else end_value stack c
  | Literal rest =>
    match rest with
    | x :: rest =>
      if c =? x then
        Some (match rest with [] => EndValue | _ => Literal rest end, stack)
      else None
    | [] => None
    end
  end.

Fixpoint run (s : scan) (input : bytes) : option scan :=
  match input with
  | [] => Some s
  | b :: input => s' ← step s (byte_val b); run s' input
  end.

(** The end of the input: one more space must reach the end of the top value. *)
Definition eof (s : scan) : bool :=
  match s with
  | (EndTop, _) => true
  | _ => match step s 32 with Some (EndTop, _) => true | _ => false end
  end.
End JsonScan.

(** [json.Valid]. *)
Definition json_Valid (data : bytes) : bool :=
  match JsonScan.run (JsonScan.BeginValue, []) data with
  | Some s => JsonScan.eof s
  | None => false
  end.

Example json_Valid_object :
  json_Valid (bytes_of_string "{ }") = true /\
  json_Valid (bytes_of_string "[1, -2.5e3, true, null, {}] ") = true /\
  json_Valid (bytes_of_string "[1,]") = false /\
  json_Valid (bytes_of_string "01") = false /\
  json_Valid (bytes_of_string "") = false.
Proof. vm_compute. done. Qed.

(** ** [time]

    A [time.Duration] is a count of nanoseconds; a database timestamp is a
    count of microseconds since the Unix epoch. *)

Definition Millisecond : Z := 1000000.
Definition Second : Z := 1000000000.

(** [Duration.Milliseconds] and [Duration.Microseconds] truncate toward zero. *)
Definition duration_milliseconds (d : Z) : Z := Z.quot d 1000000.
Definition duration_microseconds (d : Z) : Z := Z.quot d 1000.

(** [($n * interval '1 millisecond')] in the database's microseconds. *)
Definition interval_ms (n : Z) : Z := n * 1000.

(** [time.UnixMilli(ms)] as a database timestamp. *)
Definition unixMilliseconds (ms : Z) : Z := ms * 1000.

(** [t.UnixMilli()]. *)
Definition unix_milli (t : Z) : Z := t / 1000.

(** A [time.Time], in nanoseconds, read from a [timestamptz] and stored in one:
    the column keeps microseconds. *)
Definition of_timestamptz (us : Z) : Z := us * 1000.
Definition to_timestamptz (ns : Z) : Z := ns / 1000.

(** [date_trunc('milliseconds', t)]. *)
Definition trunc_ms (t : Z) : Z := t / 1000 * 1000.
