(* ===== verification/Wire.v ===== *)
(** * Protobuf wire codec of the plan and snapshot payloads

    Models [persistence/accepted_plan_wire.go], [persistence/snapshot_wire.go]
    and the encoders of [persistence/canonical_commands.go].  A parser that
    advances an offset into its input is a function on the input that is left. *)

From S2P Require Import Prelude GoLib.
From Stdlib.Strings Require Import Byte.

(** The parsers' errors.  [WireFuel] is the model's own: it stands for a loop
    that ran out of fuel, and [consumeWireFields_total] shows it never occurs. *)
Inductive wire_error :=
| WireErr (msg : string)
| WireFuel.

Abbreviation wres := (res wire_error).

(** ** Reading *)

(** The loop of [consumeVarint]: [for shift := 0; shift < 64; shift += 7]. *)
Fixpoint consumeVarint_loop (fuel : nat) (shift value : Z) (input : bytes)
  : wres (Z * bytes) :=
  match fuel with
  | O => Err (WireErr "overflowing protobuf varint")
  | S fuel =>
    match input with
    | [] => Err (WireErr "truncated protobuf varint")
    | c :: rest =>
      let current := byte_val c in
      if (shift =? 63) && (1 <? current) then
        Err (WireErr "overflowing protobuf varint")
      else
        let value := Z.lor value (uint64 (Z.shiftl (Z.land current 127) shift)) in
        if current <? 128 then Ok (value, rest)
        else consumeVarint_loop fuel (shift + 7) value rest
    end
  end.

(** Ten iterations: shifts 0, 7, ..., 63. *)
Definition consumeVarint (input : bytes) : wres (Z * bytes) :=
  consumeVarint_loop 10 0 0 input.

Record wireField := WireField {
  wf_number : Z;
  wf_wire : Z;
  wf_value : Z;
  wf_bytes : bytes
}.

(** One iteration of [consumeWireFields]: the field and the input left. *)
Definition consumeWireField (input : bytes) : wres (wireField * bytes) :=
  '(key, rest) ← consumeVarint input;
  let number := Z.shiftr key 3 in
  let wire := Z.land key 7 in
  if number =? 0 then Err (WireErr "protobuf field zero is invalid")
  else if wire =? 0 then
    '(value, rest) ← consumeVarint rest;
    Ok (WireField number wire value [], rest)
  else if wire =? 1 then
    if zlen rest <? 8 then Err (WireErr "truncated fixed64 protobuf field")
    else Ok (WireField number wire 0 [], drop 8 rest)
  else if wire =? 2 then
    '(length, rest) ← consumeVarint rest;
    if zlen rest <? length then Err (WireErr "truncated protobuf bytes field")
    else Ok (WireField number wire 0 (take (Z.to_nat length) rest),
             drop (Z.to_nat length) rest)
  else if wire =? 5 then
    if zlen rest <? 4 then Err (WireErr "truncated fixed32 protobuf field")
    else Ok (WireField number wire 0 [], drop 4 rest)
  else Err (WireErr "unsupported protobuf wire type").

(** [for offset := 0; offset < len(input); { ... }]. *)
Fixpoint consumeWireFields_loop (fuel : nat) (input : bytes)
  : wres (list wireField) :=
  match input with
  | [] => Ok []
  | _ =>
    match fuel with
    | O => Err WireFuel
    | S fuel =>
      '(field, rest) ← consumeWireField input;
      fields ← consumeWireFields_loop fuel rest;
      Ok (field :: fields)
    end
  end.

(** Every iteration consumes at least the key, so the input's length is fuel
    enough. *)
Definition consumeWireFields (input : bytes) : wres (list wireField) :=
  consumeWireFields_loop (length input) input.

(** ** Plans *)

Record currentPlanSegmentWire := Segment {
  seg_activityID : string;
  seg_state : Z;
  seg_start : option Z;
  seg_end : option Z
}.
Definition segment_zero : currentPlanSegmentWire := Segment "" 0 None None.

Record currentPlanWire := PlanWire {
  pw_planID : string;
  pw_planRevision : Z;
  pw_origin : Z;
  pw_segments : list currentPlanSegmentWire;
  pw_createdAtUnixMS : Z;
  pw_sourceProposalID : string
}.
Definition plan_zero : currentPlanWire := PlanWire "" 0 0 [] 0 "".

Definition expect_wire (f : wireField) (wire : Z) (msg : string) : wres unit :=
  reject_if (negb (wf_wire f =? wire)) (WireErr msg).

(** The [switch field.number] of [parseCurrentPlanSegment]. *)
Definition segment_field (r : currentPlanSegmentWire) (f : wireField)
  : wres currentPlanSegmentWire :=
  if wf_number f =? 1 then
    _ ← expect_wire f 2 "activity id has wrong wire type";
    Ok (Segment (string_of_bytes (wf_bytes f)) (seg_state r) (seg_start r) (seg_end r))
  else if wf_number f =? 2 then
    _ ← expect_wire f 0 "plan-entry state has wrong wire type";
    Ok (Segment (seg_activityID r) (wf_value f) (seg_start r) (seg_end r))
  else if wf_number f =? 3 then
    _ ← expect_wire f 0 "segment start has wrong wire type";
    Ok (Segment (seg_activityID r) (seg_state r) (Some (int64 (wf_value f))) (seg_end r))
  else if wf_number f =? 4 then
    _ ← expect_wire f 0 "segment end has wrong wire type";
    Ok (Segment (seg_activityID r) (seg_state r) (seg_start r) (Some (int64 (wf_value f))))
  else Ok r.

(** [result.start == nil || result.end == nil || *result.start >= *result.end]. *)
Definition bad_interval (start fin : option Z) : bool :=
  match start, fin with
  | Some s, Some e => e <=? s
  | _, _ => true
  end.

Definition has_times (start fin : option Z) : bool :=
  match start, fin with None, None => false | _, _ => true end.

Definition parseCurrentPlanSegment (input : bytes) : wres currentPlanSegmentWire :=
  fields ← consumeWireFields input;
  r ← fold_res segment_field fields segment_zero;
  _ ← reject_if (negb (validCanonicalUUID (seg_activityID r)))
        (WireErr "current-plan activity id is invalid");
  if seg_state r =? 1 then
    _ ← reject_if (bad_interval (seg_start r) (seg_end r))
          (WireErr "scheduled current-plan segment is invalid");
    Ok r
  else if seg_state r =? 2 then
    _ ← reject_if (has_times (seg_start r) (seg_end r))
          (WireErr "omitted current-plan segment has times");
    Ok r
  else Err (WireErr "current-plan segment state is invalid").

(** The [switch field.number] of [parseCurrentPlanWithOrigin]. *)
Definition plan_field (r : currentPlanWire) (f : wireField) : wres currentPlanWire :=
  if wf_number f =? 1 then
    _ ← expect_wire f 2 "plan id has wrong wire type";
    Ok (PlanWire (string_of_bytes (wf_bytes f)) (pw_planRevision r) (pw_origin r)
          (pw_segments r) (pw_createdAtUnixMS r) (pw_sourceProposalID r))
  else if wf_number f =? 2 then
    _ ← expect_wire f 0 "plan revision has wrong wire type";
    Ok (PlanWire (pw_planID r) (wf_value f) (pw_origin r)
          (pw_segments r) (pw_createdAtUnixMS r) (pw_sourceProposalID r))
  else if wf_number f =? 3 then
    _ ← expect_wire f 0 "plan origin has wrong wire type";
    Ok (PlanWire (pw_planID r) (pw_planRevision r) (wf_value f)
          (pw_segments r) (pw_createdAtUnixMS r) (pw_sourceProposalID r))
  else if wf_number f =? 4 then
    _ ← expect_wire f 2 "plan segment has wrong wire type";
    segment ← parseCurrentPlanSegment (wf_bytes f);
    Ok (PlanWire (pw_planID r) (pw_planRevision r) (pw_origin r)
          (pw_segments r ++ [segment]) (pw_createdAtUnixMS r) (pw_sourceProposalID r))
  else if wf_number f =? 5 then
    _ ← expect_wire f 0 "plan creation time has wrong wire type";
    Ok (PlanWire (pw_planID r) (pw_planRevision r) (pw_origin r)
          (pw_segments r) (int64 (wf_value f)) (pw_sourceProposalID r))
  else if wf_number f =? 6 then
    _ ← expect_wire f 2 "source proposal id has wrong wire type";
    Ok (PlanWire (pw_planID r) (pw_planRevision r) (pw_origin r)
          (pw_segments r) (pw_createdAtUnixMS r) (string_of_bytes (wf_bytes f)))
  else Ok r.

(** The final loop: no activity twice, scheduled segments in order. *)
Fixpoint plan_order (seen : gset string) (priorEnd : option Z)
    (segments : list currentPlanSegmentWire) : wres unit :=
  match segments with
  | [] => Ok tt
  | s :: rest =>
    _ ← reject_if (bool_decide (seg_activityID s ∈ seen))
          (WireErr "current plan repeats an activity");
    let seen := {[seg_activityID s]} ∪ seen in
    if negb (seg_state s =? 1) then plan_order seen priorEnd rest
    else
      _ ← reject_if
            (match priorEnd, seg_start s with
             | Some e, Some start => start <? e
             | _, _ => false
             end)
            (WireErr "current-plan segments overlap");
      plan_order seen (seg_end s) rest
  end.

Definition parseCurrentPlanWithOrigin (input : bytes) (expectedOrigin : Z)
    (requireSourceProposal : bool) : wres currentPlanWire :=
  fields ← consumeWireFields input;
  r ← fold_res plan_field fields plan_zero;
  _ ← reject_if
        (negb (validCanonicalUUID (pw_planID r)) ||
         (pw_planRevision r =? 0) ||
         negb (pw_origin r =? expectedOrigin) ||
         (requireSourceProposal && negb (validCanonicalUUID (pw_sourceProposalID r))) ||
         (negb requireSourceProposal && negb (bool_decide (pw_sourceProposalID r = ""))))
        (WireErr "accepted current-plan metadata is invalid");
  _ ← plan_order ∅ None (pw_segments r);
  Ok r.

Definition parseCurrentPlan (input : bytes) : wres currentPlanWire :=
  parseCurrentPlanWithOrigin input 2 true.

Definition parseUserCurrentPlan (input : bytes) : wres currentPlanWire :=
  parseCurrentPlanWithOrigin input 1 false.

(** ** Proposals *)

(** The [switch field.number] of [parseProposalSegment]; the second component
    is the local [disposition]. *)
Definition proposal_segment_field (acc : currentPlanSegmentWire * Z) (f : wireField)
  : wres (currentPlanSegmentWire * Z) :=
  let '(r, disposition) := acc in
  if wf_number f =? 1 then
    _ ← expect_wire f 2 "proposal activity id has wrong wire type";
    Ok (Segment (string_of_bytes (wf_bytes f)) (seg_state r) (seg_start r) (seg_end r),
        disposition)
  else if wf_number f =? 4 then
    _ ← expect_wire f 0 "proposal start has wrong wire type";
    Ok (Segment (seg_activityID r) (seg_state r) (Some (int64 (wf_value f))) (seg_end r),
        disposition)
  else if wf_number f =? 5 then
    _ ← expect_wire f 0 "proposal end has wrong wire type";
    Ok (Segment (seg_activityID r) (seg_state r) (seg_start r) (Some (int64 (wf_value f))),
        disposition)
  else if wf_number f =? 7 then
    _ ← expect_wire f 0 "proposal disposition has wrong wire type";
    Ok (r, wf_value f)
  else Ok (r, disposition).

Definition parseProposalSegment (input : bytes) : wres currentPlanSegmentWire :=
  fields ← consumeWireFields input;
  '(r, disposition) ← fold_res proposal_segment_field fields (segment_zero, 0);
  _ ← reject_if (negb (validCanonicalUUID (seg_activityID r)))
        (WireErr "proposal activity id is invalid");
  if disposition =? 4 then
    _ ← reject_if (has_times (seg_start r) (seg_end r))
          (WireErr "skipped proposal segment has times");
    Ok (Segment (seg_activityID r) 2 (seg_start r) (seg_end r))
  else if (disposition =? 1) || (disposition =? 2) || (disposition =? 5) then
    _ ← reject_if (bad_interval (seg_start r) (seg_end r))
          (WireErr "scheduled proposal segment is invalid");
    Ok (Segment (seg_activityID r) 1 (seg_start r) (seg_end r))
  else Err (WireErr "proposal segment disposition is invalid").

(** The last field 1 of wire type 2, [nil] when there is none. *)
Definition stored_proposal_payload (fields : list wireField) : option bytes :=
  fold_left (fun acc f =>
    if (wf_number f =? 1) && (wf_wire f =? 2) then Some (wf_bytes f) else acc)
    fields None.

Definition proposal_segment_step (acc : list currentPlanSegmentWire) (f : wireField)
  : wres (list currentPlanSegmentWire) :=
  if ((wf_number f =? 7) || (wf_number f =? 8)) && (wf_wire f =? 2) then
    segment ← parseProposalSegment (wf_bytes f);
    Ok (acc ++ [segment])
  else Ok acc.

Definition proposalCurrentPlanSegments (input : bytes)
  : wres (list currentPlanSegmentWire) :=
  storedFields ← consumeWireFields input;
  payload ← of_option (stored_proposal_payload storedFields)
              (WireErr "stored proposal has no proposal payload");
  proposalFields ← consumeWireFields payload;
  fold_res proposal_segment_step proposalFields [].

Definition optionalInt64Equal (left right : option Z) : bool :=
  match left, right with
  | Some l, Some r => l =? r
  | None, None => true
  | _, _ => false
  end.

Definition segment_matches (left right : currentPlanSegmentWire) : bool :=
  bool_decide (seg_activityID left = seg_activityID right) &&
  (seg_state left =? seg_state right) &&
  optionalInt64Equal (seg_start left) (seg_start right) &&
  optionalInt64Equal (seg_end left) (seg_end right).

Fixpoint segments_match (expected actual : list currentPlanSegmentWire) : bool :=
  match expected, actual with
  | l :: expected, r :: actual => segment_matches l r && segments_match expected actual
  | [], [] => true
  | _, _ => false
  end.

Definition validateProposalPlanMapping (plan : currentPlanWire)
    (storedProposal : bytes) : wres unit :=
  expected ← proposalCurrentPlanSegments storedProposal;
  _ ← reject_if (negb (bool_decide (length expected = length (pw_segments plan))))
        (WireErr "proposal-to-plan segment count differs");
  reject_if (negb (segments_match expected (pw_segments plan)))
    (WireErr "proposal-to-plan segment differs").

(** ** Writing ([canonical_commands.go]) *)

(** [for value >= 0x80 { ... }]: nine iterations shift a [uint64] to zero. *)
Fixpoint appendVarint_loop (fuel : nat) (value : Z) : bytes :=
  match fuel with
  | O => [byte_of value]
  | S fuel =>
    if value <? 128 then [byte_of value]
    else byte_of (Z.lor (value mod 256) 128) :: appendVarint_loop fuel (Z.shiftr value 7)
  end.
Definition appendVarint (output : bytes) (value : Z) : bytes :=
  output ++ appendVarint_loop 9 value.

Definition appendBytesField (output : bytes) (number : Z) (value : bytes) : bytes :=
  appendVarint (appendVarint output (Z.lor (uint64 (Z.shiftl number 3)) 2)) (zlen value)
  ++ value.

Definition appendVarintField (output : bytes) (number value : Z) : bytes :=
  appendVarint (appendVarint output (uint64 (Z.shiftl number 3))) value.

Record CanonicalPlanSegmentDraft := Draft {
  d_ActivityID : string;
  d_Scheduled : bool;
  d_Start : option Z;
  d_End : option Z
}.

(** The loop body of [userCurrentPlanPayload]: one encoded segment.  The code
    dereferences [Start] and [End] of a scheduled segment; the validators reject
    a scheduled segment without them before the encoder runs. *)
Definition encode_segment (segment : CanonicalPlanSegmentDraft) : bytes :=
  let encoded := appendBytesField [] 1 (bytes_of_string (d_ActivityID segment)) in
  if d_Scheduled segment then
    let encoded := appendVarintField encoded 2 1 in
    let encoded := appendVarintField encoded 3 (uint64 (default 0 (d_Start segment))) in
    appendVarintField encoded 4 (uint64 (default 0 (d_End segment)))
  else appendVarintField encoded 2 2.

Definition userCurrentPlanPayload (planID : string) (planRevision createdAtUnixMS : Z)
    (segments : list CanonicalPlanSegmentDraft) : bytes :=
  let output := appendBytesField [] 1 (bytes_of_string planID) in
  let output := appendVarintField output 2 planRevision in
  let output := appendVarintField output 3 1 in
  let output := fold_left (fun output segment =>
    appendBytesField output 4 (encode_segment segment)) segments output in
  appendVarintField output 5 (uint64 createdAtUnixMS).

(** ** Snapshots ([snapshot_wire.go]) *)

Record snapshotPayloadMetadata := SnapshotMeta {
  sm_tripID : string;
  sm_currentPlanID : string;
  sm_tripRevision : Z;
  sm_acceptedMutationSequence : Z;
  sm_finalizedMutationSequence : Z;
  sm_schemaVersion : Z
}.
Definition snapshot_meta_zero := SnapshotMeta "" "" 0 0 0 0.

(** Checks one field of [validateNestedMessage]. *)
Definition nested_field (messageFields : gset Z) (acc : unit) (f : wireField) : wres unit :=
  if bool_decide (wf_number f ∈ messageFields) then
    _ ← expect_wire f 2 "nested protobuf field has wrong wire type";
    _ ← consumeWireFields (wf_bytes f);
    Ok tt
  else Ok tt.

Definition validateNestedMessage (input : bytes) (messageFields : gset Z) : wres unit :=
  fields ← consumeWireFields input;
  fold_res (nested_field messageFields) fields tt.

Definition timing_field (acc : unit) (f : wireField) : wres unit :=
  if wf_number f =? 1 then
    _ ← expect_wire f 2 "snapshot time window has wrong wire type";
    _ ← consumeWireFields (wf_bytes f);
    Ok tt
  else Ok tt.

Definition activity_field (activityID : string) (f : wireField) : wres string :=
  if wf_number f =? 1 then
    _ ← expect_wire f 2 "snapshot activity id has wrong wire type";
    Ok (string_of_bytes (wf_bytes f))
  else if wf_number f =? 4 then
    _ ← expect_wire f 2 "snapshot location has wrong wire type";
    _ ← consumeWireFields (wf_bytes f);
    Ok activityID
  else if wf_number f =? 11 then
    _ ← expect_wire f 2 "snapshot timing has wrong wire type";
    timingFields ← consumeWireFields (wf_bytes f);
    _ ← fold_res timing_field timingFields tt;
    Ok activityID
  else Ok activityID.

Definition validateActivityWire (input : bytes) : wres unit :=
  fields ← consumeWireFields input;
  activityID ← fold_res activity_field fields "";
  reject_if (negb (validCanonicalUUID activityID))
    (WireErr "snapshot activity id is invalid").

(** The locals of [parseSnapshotTrip]: trip id, owner, time zone, plan id. *)
Definition snapshot_trip_field (acc : string * string * string * string) (f : wireField)
  : wres (string * string * string * string) :=
  let '(tripID, ownerUserID, timeZoneName, currentPlanID) := acc in
  if wf_number f =? 1 then
    _ ← expect_wire f 2 "snapshot trip id has wrong wire type";
    Ok (string_of_bytes (wf_bytes f), ownerUserID, timeZoneName, currentPlanID)
  else if wf_number f =? 2 then
    _ ← expect_wire f 2 "snapshot owner id has wrong wire type";
    Ok (tripID, string_of_bytes (wf_bytes f), timeZoneName, currentPlanID)
  else if wf_number f =? 3 then
    _ ← expect_wire f 2 "snapshot time zone has wrong wire type";
    Ok (tripID, ownerUserID, string_of_bytes (wf_bytes f), currentPlanID)
  else if wf_number f =? 4 then
    _ ← expect_wire f 2 "snapshot activity has wrong wire type";
    _ ← validateActivityWire (wf_bytes f);
    Ok acc
  else if wf_number f =? 7 then
    _ ← expect_wire f 2 "snapshot current-plan id has wrong wire type";
    Ok (tripID, ownerUserID, timeZoneName, string_of_bytes (wf_bytes f))
  else if wf_number f =? 8 then
    _ ← expect_wire f 2 "snapshot travel delay has wrong wire type";
    _ ← validateNestedMessage (wf_bytes f) ∅;
    Ok acc
  else Ok acc.

Definition parseSnapshotTrip (input : bytes) : wres (string * string) :=
  fields ← consumeWireFields input;
  '(tripID, ownerUserID, timeZoneName, currentPlanID) ←
    fold_res snapshot_trip_field fields ("", "", "", "");
  _ ← reject_if
        (negb (validCanonicalUUID tripID) || negb (validCanonicalUUID ownerUserID) ||
         bool_decide (timeZoneName = "") || negb (validCanonicalUUID currentPlanID))
        (WireErr "snapshot trip metadata is invalid");
  Ok (tripID, currentPlanID).

(** The locals of [parseSnapshotCurrentPlan]: the plan read so far, the
    activities seen and the end of the last scheduled segment. *)
Record snapshot_plan_acc := SnapshotPlanAcc {
  spa_plan : currentPlanWire;
  spa_seen : gset string;
  spa_priorEnd : option Z
}.

(** Field 4 of [parseSnapshotCurrentPlan]: one segment. *)
Definition snapshot_plan_segment (acc : snapshot_plan_acc) (f : wireField)
  : wres snapshot_plan_acc :=
  let r := spa_plan acc in
  _ ← expect_wire f 2 "snapshot plan segment has wrong wire type";
  segment ← parseCurrentPlanSegment (wf_bytes f);
  _ ← reject_if (bool_decide (seg_activityID segment ∈ spa_seen acc))
        (WireErr "snapshot plan repeats an activity");
  _ ← reject_if
        ((seg_state segment =? 1) &&
         match spa_priorEnd acc, seg_start segment with
         | Some e, Some start => start <? e
         | _, _ => false
         end)
        (WireErr "snapshot plan segments overlap");
  Ok (SnapshotPlanAcc
        (PlanWire (pw_planID r) (pw_planRevision r) (pw_origin r)
           (pw_segments r ++ [segment]) (pw_createdAtUnixMS r) (pw_sourceProposalID r))
        ({[seg_activityID segment]} ∪ spa_seen acc)
        (if seg_state segment =? 1 then seg_end segment else spa_priorEnd acc)).

Definition snapshot_plan_field (acc : snapshot_plan_acc) (f : wireField)
  : wres snapshot_plan_acc :=
  let r := spa_plan acc in
  let keep p := SnapshotPlanAcc p (spa_seen acc) (spa_priorEnd acc) in
  if wf_number f =? 1 then
    _ ← expect_wire f 2 "snapshot plan id has wrong wire type";
    Ok (keep (PlanWire (string_of_bytes (wf_bytes f)) (pw_planRevision r) (pw_origin r)
                (pw_segments r) (pw_createdAtUnixMS r) (pw_sourceProposalID r)))
  else if wf_number f =? 2 then
    _ ← expect_wire f 0 "snapshot plan revision has wrong wire type";
    Ok (keep (PlanWire (pw_planID r) (wf_value f) (pw_origin r)
                (pw_segments r) (pw_createdAtUnixMS r) (pw_sourceProposalID r)))
  else if wf_number f =? 3 then
    _ ← expect_wire f 0 "snapshot plan origin has wrong wire type";
    Ok (keep (PlanWire (pw_planID r) (pw_planRevision r) (wf_value f)
                (pw_segments r) (pw_createdAtUnixMS r) (pw_sourceProposalID r)))
  else if wf_number f =? 4 then snapshot_plan_segment acc f
  else if wf_number f =? 5 then
    _ ← expect_wire f 0 "snapshot plan creation time has wrong wire type";
    Ok (keep (PlanWire (pw_planID r) (pw_planRevision r) (pw_origin r)
                (pw_segments r) (int64 (wf_value f)) (pw_sourceProposalID r)))
  else if wf_number f =? 6 then
    _ ← expect_wire f 2 "snapshot source proposal has wrong wire type";
    Ok (keep (PlanWire (pw_planID r) (pw_planRevision r) (pw_origin r)
                (pw_segments r) (pw_createdAtUnixMS r) (string_of_bytes (wf_bytes f))))
  else Ok acc.

(** [storedCurrentPlanMetadata] has the fields of [currentPlanWire]. *)
Definition parseSnapshotCurrentPlan (input : bytes) : wres currentPlanWire :=
  fields ← consumeWireFields input;
  acc ← fold_res snapshot_plan_field fields (SnapshotPlanAcc plan_zero ∅ None);
  let r := spa_plan acc in
  _ ← reject_if (negb (validCanonicalUUID (pw_planID r)) || (pw_planRevision r =? 0))
        (WireErr "snapshot plan metadata is invalid");
  if pw_origin r =? 1 then
    _ ← reject_if (negb (bool_decide (pw_sourceProposalID r = "")))
          (WireErr "user snapshot plan has a source proposal");
    Ok r
  else if pw_origin r =? 2 then
    _ ← reject_if (negb (validCanonicalUUID (pw_sourceProposalID r)))
          (WireErr "engine snapshot plan lacks its source proposal");
    Ok r
  else Err (WireErr "snapshot plan origin is invalid").

(** The locals of [parseSnapshotPayload]: the metadata, [tripPresent] and
    [planPresent]. *)
Definition snapshot_payload_field
    (acc : snapshotPayloadMetadata * bool * bool) (f : wireField)
  : wres (snapshotPayloadMetadata * bool * bool) :=
  let '(r, tripPresent, planPresent) := acc in
  if wf_number f =? 1 then
    _ ← expect_wire f 2 "snapshot trip has wrong wire type";
    '(tripID, currentPlanID) ← parseSnapshotTrip (wf_bytes f);
    Ok (SnapshotMeta tripID currentPlanID (sm_tripRevision r)
          (sm_acceptedMutationSequence r) (sm_finalizedMutationSequence r)
          (sm_schemaVersion r), true, planPresent)
  else if wf_number f =? 2 then
    _ ← expect_wire f 0 "snapshot trip revision has wrong wire type";
    Ok (SnapshotMeta (sm_tripID r) (sm_currentPlanID r) (wf_value f)
          (sm_acceptedMutationSequence r) (sm_finalizedMutationSequence r)
          (sm_schemaVersion r), tripPresent, planPresent)
  else if wf_number f =? 3 then
    _ ← expect_wire f 0 "snapshot accepted sequence has wrong wire type";
    Ok (SnapshotMeta (sm_tripID r) (sm_currentPlanID r) (sm_tripRevision r)
          (wf_value f) (sm_finalizedMutationSequence r)
          (sm_schemaVersion r), tripPresent, planPresent)
  else if wf_number f =? 4 then
    _ ← expect_wire f 0 "snapshot finalized sequence has wrong wire type";
    Ok (SnapshotMeta (sm_tripID r) (sm_currentPlanID r) (sm_tripRevision r)
          (sm_acceptedMutationSequence r) (wf_value f)
          (sm_schemaVersion r), tripPresent, planPresent)
  else if wf_number f =? 5 then
    _ ← expect_wire f 2 "snapshot current plan has wrong wire type";
    plan ← parseSnapshotCurrentPlan (wf_bytes f);
    _ ← reject_if
          (negb (bool_decide (sm_currentPlanID r = "")) &&
           negb (bool_decide (pw_planID plan = sm_currentPlanID r)))
          (WireErr "snapshot current-plan identifiers differ");
    Ok (r, tripPresent, true)
  else if wf_number f =? 6 then
    _ ← expect_wire f 0 "snapshot schema has wrong wire type";
    Ok (SnapshotMeta (sm_tripID r) (sm_currentPlanID r) (sm_tripRevision r)
          (sm_acceptedMutationSequence r) (sm_finalizedMutationSequence r)
          (wf_value f), tripPresent, planPresent)
  else Ok acc.

Definition parseSnapshotPayload (input : bytes) : wres snapshotPayloadMetadata :=
  fields ← consumeWireFields input;
  '(r, tripPresent, planPresent) ←
    fold_res snapshot_payload_field fields (snapshot_meta_zero, false, false);
  _ ← reject_if
        (negb tripPresent || negb planPresent || (sm_tripRevision r =? 0) ||
         negb (sm_schemaVersion r =? 1) ||
         negb (sm_acceptedMutationSequence r =? sm_finalizedMutationSequence r))
        (WireErr "snapshot payload metadata is invalid");
  Ok r.
