(* ===== verification/WireFacts.v ===== *)
(** * Properties of the wire codec

    Termination of the field reader, the varint and plan round trips, the
    well-formedness of every plan the parsers return, and the soundness of the
    proposal-to-plan mapping check. *)

From S2P Require Import Prelude GoLib Wire.
From Stdlib.Strings Require Import Byte.

(** ** Varints *)

Lemma lor_shiftl_add a b n : 0 <= a < 2 ^ n -> 0 <= n ->
  Z.lor a (Z.shiftl b n) = a + b * 2 ^ n.
Proof.
  intros Ha Hn. rewrite <- Z.shiftl_mul_pow2 by done.
  symmetry. apply Z.add_nocarry_lor. apply Z.bits_inj'. intros k Hk.
  rewrite Z.land_spec, Z.bits_0. destruct (Z.lt_ge_cases k n).
  - by rewrite Z.shiftl_spec_low, andb_false_r by lia.
  - replace a with (a mod 2 ^ n) by (apply Z.mod_small; lia).
    by rewrite Z.mod_pow2_bits_high by lia.
Qed.

Lemma land_127 z : Z.land z 127 = z mod 128.
Proof. change 127 with (Z.ones 7). apply Z.land_ones. lia. Qed.

Lemma lor_128 z : Z.lor (z mod 256) 128 = z mod 128 + 128.
Proof.
  assert (Hm : z mod 128 = (z mod 256) mod 128).
  { symmetry. apply Z.mod_mod_divide. by exists 2. }
  rewrite Hm. pose proof (Z.mod_pos_bound z 256 ltac:(lia)) as Hb.
  generalize dependent (z mod 256). clear. intros x _ Hx.
  apply (Z.bits_inj'). intros k Hk.
  assert (Hadd : x mod 128 + 128 = Z.lor (x mod 128) (Z.shiftl 1 7)).
  { rewrite lor_shiftl_add; [done| |lia]. apply Z.mod_pos_bound. lia. }
  rewrite Hadd, !Z.lor_spec. change 128 with (2 ^ 7) at 2.
  change (Z.shiftl 1 7) with 128.
  destruct (Z.lt_ge_cases k 7); [by rewrite Z.mod_pow2_bits_low by lia|].
  rewrite Z.mod_pow2_bits_high by lia.
  destruct (decide (k = 7)) as [->|]; [by rewrite orb_true_r|].
  assert (Z.testbit x k = false) as ->; [|done].
  rewrite <- (Z.mod_small x (2 ^ 8)) by lia.
  apply Z.mod_pow2_bits_high. lia.
Qed.

Lemma varint_loop_roundtrip (f : nat) shift acc v rest :
  shift = 63 - 7 * Z.of_nat f -> (f <= 9)%nat ->
  0 <= v < 2 ^ (7 * Z.of_nat f + 1) -> 0 <= acc < 2 ^ shift ->
  consumeVarint_loop (S f) shift acc (appendVarint_loop f v ++ rest)
  = Ok (acc + v * 2 ^ shift, rest).
Proof.
  revert shift acc v. induction f as [|f IH]; intros shift acc v Hs Hf Hv Hacc.
  - subst shift. change (2 ^ (7 * Z.of_nat 0 + 1)) with 2 in Hv.
    cbn [appendVarint_loop app consumeVarint_loop].
    rewrite byte_val_of_small by lia.
    assert (Hlow : (1 <? v) = false) by (apply Z.ltb_ge; lia).
    rewrite Hlow, andb_false_r.
    assert (Hlt : (v <? 128) = true) by (apply Z.ltb_lt; lia). rewrite Hlt.
    rewrite land_127, Z.mod_small by lia.
    rewrite uint64_small, lor_shiftl_add by
      (rewrite ?Z.shiftl_mul_pow2 by lia; lia). done.
  - assert (Hsh : 0 <= shift) by lia.
    assert (Hne : (shift =? 63) = false) by (apply Z.eqb_neq; lia).
    cbn [appendVarint_loop]. destruct (v <? 128) eqn:Hlt.
    + apply Z.ltb_lt in Hlt. cbn [app consumeVarint_loop].
      rewrite Hne, byte_val_of_small by lia. cbn [andb].
      assert (Hlt' : (v <? 128) = true) by (apply Z.ltb_lt; lia). rewrite Hlt'.
      rewrite land_127, Z.mod_small by lia.
      rewrite uint64_small, lor_shiftl_add; [done|lia..|].
      rewrite Z.shiftl_mul_pow2 by lia.
      assert (2 ^ shift <= 2 ^ 56) by (apply Z.pow_le_mono_r; lia). nia.
    + apply Z.ltb_ge in Hlt. cbn [app].
      remember (S f) as g eqn:Hg. cbn [consumeVarint_loop].
      rewrite Hne. cbn [andb].
      rewrite lor_128.
      pose proof (Z.mod_pos_bound v 128 ltac:(lia)) as Hm.
      rewrite byte_val_of_small by lia.
      assert (Hge : (v mod 128 + 128 <? 128) = false) by (apply Z.ltb_ge; lia).
      rewrite Hge, land_127.
      replace ((v mod 128 + 128) mod 128) with (v mod 128)
        by (rewrite <- (Z.mul_1_l 128) at 3; rewrite Z.mod_add by lia;
            rewrite Z.mod_mod by lia; done).
      assert (Hpow : 2 ^ shift <= 2 ^ 56) by (apply Z.pow_le_mono_r; lia).
      assert (0 < 2 ^ shift) by (apply Z.pow_pos_nonneg; lia).
      rewrite uint64_small by (rewrite Z.shiftl_mul_pow2 by lia; nia).
      rewrite lor_shiftl_add by lia. subst g.
      assert (Hp7 : 2 ^ (shift + 7) = 2 ^ shift * 128)
        by (rewrite Z.pow_add_r by lia; done).
      assert (Hdiv : Z.shiftr v 7 = v / 128) by (rewrite Z.shiftr_div_pow2 by lia; done).
      rewrite Hdiv, IH; [|lia|lia| |rewrite Hp7; nia].
      * f_equal. f_equal. rewrite Hp7. pose proof (Z.div_mod v 128 ltac:(lia)). nia.
      * split; [apply Z.div_pos; lia|]. apply Z.div_lt_upper_bound; [lia|].
        replace (128 * 2 ^ (7 * Z.of_nat f + 1)) with (2 ^ (7 * Z.of_nat (S f) + 1));
          [lia|].
        replace (7 * Z.of_nat (S f) + 1) with (7 + (7 * Z.of_nat f + 1)) by lia.
        rewrite Z.pow_add_r by lia. done.
Qed.

Lemma consumeVarint_appendVarint v rest : 0 <= v < 2 ^ 64 ->
  consumeVarint (appendVarint [] v ++ rest) = Ok (v, rest).
Proof.
  intros Hv. unfold consumeVarint, appendVarint. rewrite app_nil_l.
  pose proof (varint_loop_roundtrip 9 0 0 v rest eq_refl ltac:(lia) Hv
    ltac:(split; reflexivity || discriminate)) as Hr.
  rewrite Hr. f_equal. f_equal. lia.
Qed.

(** ** The field reader terminates *)

Lemma consumeVarint_loop_shorter fuel shift value input v rest :
  consumeVarint_loop fuel shift value input = Ok (v, rest) ->
  (length rest < length input)%nat.
Proof.
  revert shift value input. induction fuel as [|fuel IH]; intros shift value input;
    simpl; [done|].
  destruct input as [|c input]; [done|]. repeat case_match; try done.
  - intros. simplify_eq. simpl. lia.
  - intros Hr%IH. simpl. lia.
Qed.

Lemma consumeVarint_shorter input v rest :
  consumeVarint input = Ok (v, rest) -> (length rest < length input)%nat.
Proof. apply consumeVarint_loop_shorter. Qed.

Lemma consumeVarint_loop_no_fuel fuel shift value input :
  consumeVarint_loop fuel shift value input <> Err WireFuel.
Proof.
  revert shift value input. induction fuel as [|fuel IH]; intros shift value input;
    simpl; [done|].
  destruct input as [|c input]; [done|]. by repeat case_match.
Qed.

Lemma consumeWireField_shorter input f rest :
  consumeWireField input = Ok (f, rest) -> (length rest < length input)%nat.
Proof.
  unfold consumeWireField. intros H. inv_res.
  repeat (case_match; inv_res);
    repeat match goal with E : consumeVarint _ = Ok _ |- _ =>
      apply consumeVarint_shorter in E end;
    rewrite ?length_drop; lia.
Qed.

Lemma consumeWireField_no_fuel input : consumeWireField input <> Err WireFuel.
Proof.
  unfold consumeWireField, consumeVarint.
  destruct (consumeVarint_loop 10 0 0 input) as [[key rest]|e] eqn:E; simpl.
  - repeat case_match; try done;
      destruct (consumeVarint_loop 10 0 0 rest) as [[v r]|e] eqn:E'; simpl;
      repeat case_match; try done;
      intros [=->]; by eapply consumeVarint_loop_no_fuel.
  - intros [=->]. by eapply consumeVarint_loop_no_fuel.
Qed.

Lemma consumeWireFields_loop_cons fuel b input :
  consumeWireFields_loop (S fuel) (b :: input) =
  '(field, rest) ← consumeWireField (b :: input);
  fields ← consumeWireFields_loop fuel rest;
  Ok (field :: fields).
Proof. done. Qed.

Lemma consumeWireFields_loop_fuel fuel input :
  (length input <= fuel)%nat ->
  consumeWireFields_loop fuel input = consumeWireFields input.
Proof.
  unfold consumeWireFields. remember (length input) as n eqn:Hn.
  assert (Hle : (length input <= n)%nat) by lia. clear Hn. revert fuel input Hle.
  induction n as [|n IH]; intros fuel input Hle Hf.
  - destruct input; [by destruct fuel|simpl in Hle; lia].
  - destruct input as [|b input]; [by destruct fuel|].
    destruct fuel as [|fuel]; [lia|]. rewrite !consumeWireFields_loop_cons.
    destruct (consumeWireField (b :: input)) as [[f rest]|e] eqn:E; [|done].
    apply consumeWireField_shorter in E. simpl in E, Hle. cbn [mbind res_bind].
    rewrite IH by lia. done.
Qed.

(** Reading one field, then the rest. *)
Lemma consumeWireFields_step input f rest fields :
  consumeWireField input = Ok (f, rest) ->
  consumeWireFields rest = Ok fields ->
  consumeWireFields input = Ok (f :: fields).
Proof.
  intros Hf Hr. destruct input as [|b input].
  - apply consumeWireField_shorter in Hf. simpl in Hf. lia.
  - unfold consumeWireFields. cbn [length]. rewrite consumeWireFields_loop_cons, Hf.
    cbn [mbind res_bind]. apply consumeWireField_shorter in Hf. simpl in Hf.
    rewrite consumeWireFields_loop_fuel by lia. by rewrite Hr.
Qed.

Lemma consumeWireFields_loop_no_fuel fuel input :
  (length input <= fuel)%nat -> consumeWireFields_loop fuel input <> Err WireFuel.
Proof.
  revert input. induction fuel as [|fuel IH]; intros [|b input] Hle; try done;
    [simpl in Hle; lia|]. rewrite consumeWireFields_loop_cons.
  destruct (consumeWireField (b :: input)) as [[f rest]|e] eqn:E; cbn [mbind res_bind].
  - apply consumeWireField_shorter in E. simpl in E, Hle.
    specialize (IH rest ltac:(lia)).
    by destruct (consumeWireFields_loop fuel rest) as [|[]].
  - intros [=->]. by apply consumeWireField_no_fuel in E.
Qed.

(** ** Writing a field and reading it back *)

Lemma appendBytesField_app output n v :
  appendBytesField output n v = output ++ appendBytesField [] n v.
Proof. unfold appendBytesField, appendVarint. by rewrite <- !app_assoc. Qed.

Lemma appendVarintField_app output n v :
  appendVarintField output n v = output ++ appendVarintField [] n v.
Proof. unfold appendVarintField, appendVarint. by rewrite <- !app_assoc. Qed.

Lemma appendVarint_app output v : appendVarint output v = output ++ appendVarint [] v.
Proof. done. Qed.

(** The field numbers of the payloads are small constants. *)
Lemma field_key n w : 0 < n < 2 ^ 60 -> 0 <= w < 8 ->
  Z.shiftr (n * 8 + w) 3 = n /\ Z.land (n * 8 + w) 7 = w.
Proof.
  intros Hn Hw. rewrite Z.shiftr_div_pow2 by lia. change 7 with (Z.ones 3).
  rewrite Z.land_ones by lia. change (2 ^ 3) with 8.
  split; [by rewrite Z.div_add_l, Z.div_small by lia; lia|].
  rewrite Z.add_comm, Z.mod_add, Z.mod_small by lia. done.
Qed.

Lemma field_tag n : 0 < n < 2 ^ 60 ->
  uint64 (Z.shiftl n 3) = n * 8 + 0 /\ Z.lor (uint64 (Z.shiftl n 3)) 2 = n * 8 + 2.
Proof.
  intros Hn. rewrite Z.shiftl_mul_pow2 by lia. change (2 ^ 3) with 8.
  rewrite uint64_small by lia. split; [lia|].
  rewrite Z.lor_comm. change 8 with (2 ^ 3) at 1.
  rewrite <- Z.shiftl_mul_pow2, lor_shiftl_add by lia. lia.
Qed.

Lemma consumeWireField_bytes n v rest : 0 < n < 2 ^ 60 -> zlen v < 2 ^ 64 ->
  consumeWireField (appendBytesField [] n v ++ rest) = Ok (WireField n 2 0 v, rest).
Proof.
  intros Hn Hv. unfold appendBytesField. rewrite (proj2 (field_tag n Hn)).
  rewrite (appendVarint_app (appendVarint [] _)), <- !app_assoc.
  unfold consumeWireField. rewrite consumeVarint_appendVarint by lia.
  cbn [mbind res_bind]. destruct (field_key n 2 Hn ltac:(lia)) as [-> ->].
  assert (Hz : (n =? 0) = false) by (apply Z.eqb_neq; lia). rewrite Hz. simpl Z.eqb.
  cbn match. pose proof (zlen_nonneg v).
  rewrite consumeVarint_appendVarint by lia. cbn [mbind res_bind].
  rewrite zlen_app. pose proof (zlen_nonneg rest).
  assert (Hl : (zlen v + zlen rest <? zlen v) = false) by (apply Z.ltb_ge; lia).
  rewrite Hl. unfold zlen. rewrite Nat2Z.id.
  by rewrite take_app_length, drop_app_length.
Qed.

Lemma consumeWireField_varint n v rest : 0 < n < 2 ^ 60 -> 0 <= v < 2 ^ 64 ->
  consumeWireField (appendVarintField [] n v ++ rest) = Ok (WireField n 0 v [], rest).
Proof.
  intros Hn Hv. unfold appendVarintField. rewrite (proj1 (field_tag n Hn)).
  rewrite (appendVarint_app (appendVarint [] _)), <- !app_assoc.
  unfold consumeWireField. rewrite consumeVarint_appendVarint by lia.
  cbn [mbind res_bind]. destruct (field_key n 0 Hn ltac:(lia)) as [-> ->].
  assert (Hz : (n =? 0) = false) by (apply Z.eqb_neq; lia). rewrite Hz. simpl Z.eqb.
  cbn match. by rewrite consumeVarint_appendVarint by lia.
Qed.

Lemma consumeWireFields_nil : consumeWireFields [] = Ok [].
Proof. done. Qed.

Lemma consumeWireFields_bytes n v rest fields :
  0 < n < 2 ^ 60 -> zlen v < 2 ^ 64 -> consumeWireFields rest = Ok fields ->
  consumeWireFields (appendBytesField [] n v ++ rest) = Ok (WireField n 2 0 v :: fields).
Proof. intros. eapply consumeWireFields_step; [by apply consumeWireField_bytes|done]. Qed.

Lemma consumeWireFields_varint n v rest fields :
  0 < n < 2 ^ 60 -> 0 <= v < 2 ^ 64 -> consumeWireFields rest = Ok fields ->
  consumeWireFields (appendVarintField [] n v ++ rest) = Ok (WireField n 0 v [] :: fields).
Proof. intros. eapply consumeWireFields_step; [by apply consumeWireField_varint|done]. Qed.

(** ** Well-formed plans

    What every parser of a current plan promises: canonical identifiers, no
    activity twice, scheduled intervals that are non-empty and in order. *)

Definition interval (s : currentPlanSegmentWire) : option (Z * Z) :=
  match seg_start s, seg_end s with Some a, Some b => Some (a, b) | _, _ => None end.

Definition segment_wf (s : currentPlanSegmentWire) : Prop :=
  validCanonicalUUID (seg_activityID s) = true /\
  ((seg_state s = 1 /\ exists a b, seg_start s = Some a /\ seg_end s = Some b /\ a < b) \/
   (seg_state s = 2 /\ seg_start s = None /\ seg_end s = None)).

Definition before (x y : Z * Z) : Prop := x.2 <= y.1.

Record segments_wf (l : list currentPlanSegmentWire) : Prop := {
  swf_each : Forall segment_wf l;
  swf_nodup : NoDup (seg_activityID <$> l);
  swf_ordered : StronglySorted before (omap interval l)
}.

Lemma parseCurrentPlanSegment_wf input s :
  parseCurrentPlanSegment input = Ok s -> segment_wf s.
Proof.
  unfold parseCurrentPlanSegment. intros H. inv_res.
  unfold segment_wf. case_match; zbool.
  - inv_res. unfold bad_interval in *.
    destruct (seg_start s), (seg_end s); try done. zbool. naive_solver lia.
  - case_match; inv_res; zbool. unfold has_times in *.
    destruct (seg_start s), (seg_end s); naive_solver.
Qed.

Lemma interval_bounds s x : segment_wf s -> interval s = Some x -> x.1 < x.2.
Proof. unfold interval. intros (_ & [(?&?&?&->&->&?)|(?&->&_)]); naive_solver. Qed.

(** The final loop of the parser decides the declarative predicate. *)
Lemma plan_order_ok seen prior l :
  Forall segment_wf l ->
  plan_order seen prior l = Ok tt <->
  NoDup (seg_activityID <$> l) /\
  (forall s, s ∈ l -> seg_activityID s ∉ seen) /\
  StronglySorted before (omap interval l) /\
  (forall e x, prior = Some e -> x ∈ omap interval l -> e <= x.1).
Proof.
  revert seen prior. induction l as [|s l IH]; intros seen prior Hwf.
  { split; [|done]. intros _. split_and!; [constructor|set_solver|constructor|set_solver]. }
  apply Forall_cons in Hwf as [Hs Hwf]. cbn [plan_order fmap list_fmap].
  rewrite NoDup_cons. case_bool_decide as Hseen; cbn [reject_if mbind res_bind].
  { split; [done|]. intros (_&Hn&_). exfalso. apply (Hn s); [left|done]. }
  assert (Hids : forall seen' : gset string,
    (forall s0, s0 ∈ l -> seg_activityID s0 ∉ ({[seg_activityID s]} ∪ seen')) <->
    seg_activityID s ∉ (seg_activityID <$> l) /\ (forall s0, s0 ∈ l -> seg_activityID s0 ∉ seen')).
  { clear. intros seen'. rewrite list_elem_of_fmap. set_solver. }
  assert (Hcons : (forall s0, s0 ∈ s :: l -> seg_activityID s0 ∉ seen) <->
    (forall s0, s0 ∈ l -> seg_activityID s0 ∉ seen)) by (clear -Hseen; set_solver).
  destruct Hs as (_ & [(Hst & a & b & Ha & Hb & Hab)|(Hst & Ha & Hb)]); rewrite Hst.
  - assert (omap interval (s :: l) = (a, b) :: omap interval l) as ->
      by (simpl; unfold interval at 1; by rewrite Ha, Hb).
    cbn -[mbind plan_order omap]. rewrite Ha, Hb, bind_ok. setoid_rewrite reject_if_ok.
    setoid_rewrite IH; [|done]. setoid_rewrite Hids. rewrite Hcons. split.
    + intros ([] & Hp & Hnd & [? ?] & Hso & Hlast). split_and!; try done.
      * constructor; [done|]. apply Forall_forall. intros x Hx. by apply (Hlast b x).
      * intros e x -> [->|Hx]%elem_of_cons; simpl; [zbool; lia|].
        zbool. specialize (Hlast b x eq_refl Hx). lia.
    + intros ([? ?] & ? & Hso & Hlast). apply StronglySorted_inv in Hso as [Hso Hall].
      exists tt. split_and!; try done.
      * destruct prior as [e|]; [|done]. apply Z.ltb_ge. apply (Hlast e (a, b)); [done|left].
      * intros e x [= <-] Hx. rewrite Forall_forall in Hall. by apply (Hall x).
  - assert (omap interval (s :: l) = omap interval l) as ->
      by (simpl; unfold interval at 1; by rewrite Ha).
    cbn -[mbind plan_order omap]. rewrite IH by done. rewrite Hids, Hcons. naive_solver.
Qed.

Lemma plan_order_wf l :
  Forall segment_wf l -> plan_order ∅ None l = Ok tt <-> segments_wf l.
Proof.
  intros Hwf. rewrite plan_order_ok by done. split.
  - intros (?&?&?&?). by constructor.
  - intros []. split_and!; try done; set_solver.
Qed.

Lemma plan_field_segments r f r' :
  plan_field r f = Ok r' ->
  Forall segment_wf (pw_segments r) -> Forall segment_wf (pw_segments r').
Proof.
  unfold plan_field. intros H Hr. repeat (case_match; inv_res; try done).
  simpl. apply Forall_app. split; [done|]. constructor; [|done].
  by eapply parseCurrentPlanSegment_wf.
Qed.

Lemma parseCurrentPlanWithOrigin_ok input origin src r :
  parseCurrentPlanWithOrigin input origin src = Ok r ->
  segments_wf (pw_segments r) /\ validCanonicalUUID (pw_planID r) = true /\
  pw_planRevision r <> 0 /\ pw_origin r = origin /\
  (if src then validCanonicalUUID (pw_sourceProposalID r) = true
   else pw_sourceProposalID r = "").
Proof.
  unfold parseCurrentPlanWithOrigin. intros H. inv_res. zbool.
  assert (Hwf : Forall segment_wf (pw_segments r)).
  { eapply (fold_res_inv (fun r => Forall segment_wf (pw_segments r)) plan_field);
      [|eassumption|constructor]. intros ? ? ? _. apply plan_field_segments. }
  split; [by apply plan_order_wf|]. split_and!; try done.
  destruct src; simpl in *; inv_res; done.
Qed.

(** ** Encoding a user plan and reading it back *)

Lemma appendVarint_loop_length fuel v :
  (length (appendVarint_loop fuel v) <= S fuel)%nat.
Proof.
  revert v. induction fuel as [|fuel IH]; intros v; simpl; [lia|].
  case_match; simpl; [lia|]. specialize (IH (Z.shiftr v 7)). lia.
Qed.

Lemma appendVarint_length output v : zlen (appendVarint output v) <= zlen output + 10.
Proof.
  unfold appendVarint. rewrite zlen_app. unfold zlen at 2.
  pose proof (appendVarint_loop_length 9 v). lia.
Qed.

Lemma appendVarintField_length output n v :
  zlen (appendVarintField output n v) <= zlen output + 20.
Proof.
  unfold appendVarintField.
  pose proof (appendVarint_length output (uint64 (Z.shiftl n 3))).
  pose proof (appendVarint_length (appendVarint output (uint64 (Z.shiftl n 3))) v). lia.
Qed.

Lemma appendBytesField_length output n v :
  zlen (appendBytesField output n v) <= zlen output + zlen v + 20.
Proof.
  unfold appendBytesField. rewrite zlen_app.
  set (k := Z.lor _ 2). pose proof (appendVarint_length output k).
  pose proof (appendVarint_length (appendVarint output k) (zlen v)). lia.
Qed.

(** The segment a draft is encoded as. *)
Definition wire_of_draft (d : CanonicalPlanSegmentDraft) : currentPlanSegmentWire :=
  if d_Scheduled d then Segment (d_ActivityID d) 1 (d_Start d) (d_End d)
  else Segment (d_ActivityID d) 2 None None.

Definition int64_option (o : option Z) : Prop :=
  match o with Some z => - 2 ^ 63 <= z <= max_int64 | None => True end.

Definition draft_int64 (d : CanonicalPlanSegmentDraft) : Prop :=
  int64_option (d_Start d) /\ int64_option (d_End d).

Lemma validCanonicalUUID_zlen s :
  validCanonicalUUID s = true -> zlen (bytes_of_string s) = 36.
Proof.
  intros H%validCanonicalUUID_length. unfold zlen, bytes_of_string.
  enough (forall s, length (String.list_byte_of_string s) = String.length s) as ->
    by (rewrite H; done).
  clear. induction s as [|c s IH]; [done|].
  unfold String.list_byte_of_string in *. simpl. rewrite ?length_map in *. lia.
Qed.

Lemma encode_segment_length d : validCanonicalUUID (d_ActivityID d) = true ->
  zlen (encode_segment d) < 2 ^ 64.
Proof.
  intros Hid%validCanonicalUUID_zlen. unfold encode_segment.
  pose proof (appendBytesField_length [] 1 (bytes_of_string (d_ActivityID d))) as Hb.
  change (zlen []) with 0 in Hb. rewrite Hid in Hb.
  destruct (d_Scheduled d).
  - set (e1 := appendBytesField [] 1 _) in *.
    pose proof (appendVarintField_length e1 2 1).
    pose proof (appendVarintField_length (appendVarintField e1 2 1) 3
                  (uint64 (default 0 (d_Start d)))).
    eapply Z.le_lt_trans; [apply appendVarintField_length|lia].
  - eapply Z.le_lt_trans; [apply appendVarintField_length|lia].
Qed.

(** The fields an encoder wrote, read back from its output. *)
Definition reads (output : bytes) (fields : list wireField) : Prop :=
  forall tail ftail, consumeWireFields tail = Ok ftail ->
    consumeWireFields (output ++ tail) = Ok (fields ++ ftail).

Lemma reads_nil : reads [] [].
Proof. by intros tail ftail. Qed.

Lemma reads_bytes output fields n v : 0 < n < 2 ^ 60 -> zlen v < 2 ^ 64 ->
  reads output fields -> reads (appendBytesField output n v) (fields ++ [WireField n 2 0 v]).
Proof.
  intros Hn Hv IH tail ftail Ht. rewrite appendBytesField_app, <- !app_assoc.
  apply IH. by apply consumeWireFields_bytes.
Qed.

Lemma reads_varint output fields n v : 0 < n < 2 ^ 60 -> 0 <= v < 2 ^ 64 ->
  reads output fields -> reads (appendVarintField output n v) (fields ++ [WireField n 0 v []]).
Proof.
  intros Hn Hv IH tail ftail Ht. rewrite appendVarintField_app, <- !app_assoc.
  apply IH. by apply consumeWireFields_varint.
Qed.

Lemma reads_fields output fields : reads output fields -> consumeWireFields output = Ok fields.
Proof.
  intros H. specialize (H [] [] consumeWireFields_nil). by rewrite !app_nil_r in H.
Qed.

#[local] Hint Resolve reads_nil reads_bytes reads_varint uint64_range : core.

Lemma parse_encode_segment d :
  draft_int64 d -> segment_wf (wire_of_draft d) ->
  parseCurrentPlanSegment (encode_segment d) = Ok (wire_of_draft d).
Proof.
  intros [Hs He] [Hid Hwf]. unfold parseCurrentPlanSegment, encode_segment.
  assert (Hlen : zlen (bytes_of_string (d_ActivityID d)) < 2 ^ 64).
  { rewrite validCanonicalUUID_zlen; [lia|]. by destruct (d_Scheduled d) eqn:E;
      unfold wire_of_draft in Hid; rewrite E in Hid. }
  unfold wire_of_draft in *. destruct (d_Scheduled d); simpl in Hid, Hwf.
  - destruct Hwf as [(_ & a & b & Ha & Hb & Hab)|[? _]]; [|lia].
    rewrite Ha, Hb in *. simpl in Hs, He. erewrite reads_fields by (eauto 10 with lia).
    cbn -[validCanonicalUUID string_of_bytes bytes_of_string int64 uint64].
    rewrite string_of_bytes_of_string, Hid, !int64_uint64 by done. simpl.
    apply Z.leb_gt in Hab. by rewrite Hab.
  - erewrite reads_fields by (eauto 10 with lia).
    cbn -[validCanonicalUUID string_of_bytes bytes_of_string].
    by rewrite string_of_bytes_of_string, Hid.
Qed.

(** The segment fields of a plan, as the encoder writes them. *)
Definition segment_fields (l : list CanonicalPlanSegmentDraft) : list wireField :=
  (fun d => WireField 4 2 0 (encode_segment d)) <$> l.

Lemma reads_segments l output fields :
  Forall (fun d => validCanonicalUUID (d_ActivityID d) = true) l ->
  reads output fields ->
  reads (fold_left (fun o d => appendBytesField o 4 (encode_segment d)) l output)
        (fields ++ segment_fields l).
Proof.
  intros Hl. revert output fields. induction Hl as [|d l Hd Hl IH]; intros output fields Hr;
    simpl; [by rewrite app_nil_r|].
  rewrite cons_middle, app_assoc. apply IH. apply reads_bytes; [lia| |done].
  by apply encode_segment_length.
Qed.

Definition add_segments (r : currentPlanWire) (l : list currentPlanSegmentWire) :=
  PlanWire (pw_planID r) (pw_planRevision r) (pw_origin r) (pw_segments r ++ l)
    (pw_createdAtUnixMS r) (pw_sourceProposalID r).

Lemma fold_segment_fields l r :
  Forall draft_int64 l -> Forall segment_wf (wire_of_draft <$> l) ->
  fold_res plan_field (segment_fields l) r = Ok (add_segments r (wire_of_draft <$> l)).
Proof.
  revert r. induction l as [|d l IH]; intros r Hi Hw.
  { destruct r. unfold add_segments. simpl. by rewrite app_nil_r. }
  apply Forall_cons in Hi as [Hd Hi]. rewrite fmap_cons in Hw.
  apply Forall_cons in Hw as [Hdw Hw].
  cbn -[parseCurrentPlanSegment encode_segment wire_of_draft].
  rewrite parse_encode_segment by done. cbn -[wire_of_draft].
  rewrite IH by done. unfold add_segments. simpl. by rewrite <- app_assoc.
Qed.

Lemma wire_of_draft_id d : seg_activityID (wire_of_draft d) = d_ActivityID d.
Proof. unfold wire_of_draft. by destruct (d_Scheduled d). Qed.

Lemma parse_userCurrentPlanPayload planID rev created l :
  validCanonicalUUID planID = true -> 0 < rev < 2 ^ 64 ->
  - 2 ^ 63 <= created <= max_int64 ->
  Forall draft_int64 l -> segments_wf (wire_of_draft <$> l) ->
  parseUserCurrentPlan (userCurrentPlanPayload planID rev created l)
  = Ok (PlanWire planID rev 1 (wire_of_draft <$> l) created "").
Proof.
  intros Hid Hrev Hcr Hi Hwf. pose proof (swf_each _ Hwf) as Hw.
  assert (Hids : Forall (fun d => validCanonicalUUID (d_ActivityID d) = true) l).
  { rewrite Forall_fmap in Hw. eapply Forall_impl; [exact Hw|]. intros d [Hd _].
    by rewrite wire_of_draft_id in Hd. }
  assert (Hlen : zlen (bytes_of_string planID) < 2 ^ 64)
    by (rewrite validCanonicalUUID_zlen by done; lia).
  unfold parseUserCurrentPlan, parseCurrentPlanWithOrigin, userCurrentPlanPayload.
  erewrite reads_fields by
    (apply reads_varint; [lia|apply uint64_range|]; apply reads_segments; [done|];
     apply reads_varint; [lia..|]; apply reads_varint; [lia..|];
     apply reads_bytes; [lia|done|apply reads_nil]).
  cbn [mbind res_bind].
  set (head := _ ++ [WireField 3 0 1 []]).
  assert (Hhead : fold_res plan_field head plan_zero = Ok (PlanWire planID rev 1 [] 0 "")).
  { subst head. cbn -[string_of_bytes bytes_of_string].
    by rewrite string_of_bytes_of_string. }
  rewrite !fold_res_app, Hhead. cbn [mbind res_bind].
  rewrite fold_segment_fields by done. unfold add_segments.
  apply plan_order_wf in Hwf; [|done]. assert (Hr : (rev =? 0) = false) by (apply Z.eqb_neq; lia).
  cbn -[int64 uint64 validCanonicalUUID plan_order].
  rewrite int64_uint64 by done. rewrite Hid, Hr. cbn -[plan_order]. by rewrite Hwf.
Qed.

(** The snapshot parser reads the segments in one pass, with the same tests. *)
Lemma fold_snapshot_segments l r seen prior :
  Forall draft_int64 l -> Forall segment_wf (wire_of_draft <$> l) ->
  plan_order seen prior (wire_of_draft <$> l) = Ok tt ->
  exists seen' prior', fold_res snapshot_plan_field (segment_fields l) (SnapshotPlanAcc r seen prior)
    = Ok (SnapshotPlanAcc (add_segments r (wire_of_draft <$> l)) seen' prior').
Proof.
  revert r seen prior. induction l as [|d l IH]; intros r seen prior Hi Hw Ho.
  { destruct r. exists seen, prior. unfold add_segments. simpl. by rewrite app_nil_r. }
  apply Forall_cons in Hi as [Hd Hi]. rewrite fmap_cons in Hw.
  apply Forall_cons in Hw as [Hdw Hw]. rewrite fmap_cons in Ho. cbn [plan_order] in Ho.
  apply bind_ok in Ho as ([] & Hseen%reject_if_ok & Ho).
  cbn -[parseCurrentPlanSegment encode_segment wire_of_draft snapshot_plan_segment].
  unfold snapshot_plan_segment at 1.
  cbn -[parseCurrentPlanSegment encode_segment wire_of_draft].
  rewrite parse_encode_segment by done. cbn -[wire_of_draft]. rewrite Hseen.
  cbn -[wire_of_draft]. destruct (seg_state (wire_of_draft d) =? 1) eqn:Hst; simpl in Ho.
  - apply bind_ok in Ho as ([] & Hov%reject_if_ok & Ho). rewrite Hov. cbn -[wire_of_draft].
    destruct (IH (add_segments r [wire_of_draft d])
      ({[seg_activityID (wire_of_draft d)]} ∪ seen) (seg_end (wire_of_draft d)) Hi Hw Ho)
      as (s' & p' & Hf). exists s', p'. etrans; [exact Hf|].
    unfold add_segments. simpl. by rewrite <- app_assoc.
  - cbn -[wire_of_draft].
    destruct (IH (add_segments r [wire_of_draft d])
      ({[seg_activityID (wire_of_draft d)]} ∪ seen) prior Hi Hw Ho)
      as (s' & p' & Hf). exists s', p'. etrans; [exact Hf|].
    unfold add_segments. simpl. by rewrite <- app_assoc.
Qed.

Lemma fold_snapshot_order l r seen prior acc :
  Forall draft_int64 l -> Forall segment_wf (wire_of_draft <$> l) ->
  fold_res snapshot_plan_field (segment_fields l) (SnapshotPlanAcc r seen prior) = Ok acc ->
  plan_order seen prior (wire_of_draft <$> l) = Ok tt.
Proof.
  revert r seen prior. induction l as [|d l IH]; intros r seen prior Hi Hw Hf; [done|].
  apply Forall_cons in Hi as [Hd Hi]. rewrite fmap_cons in Hw |- *.
  apply Forall_cons in Hw as [Hdw Hw].
  cbn -[parseCurrentPlanSegment encode_segment wire_of_draft snapshot_plan_segment] in Hf.
  unfold snapshot_plan_segment at 1 in Hf.
  cbn -[parseCurrentPlanSegment encode_segment wire_of_draft] in Hf.
  rewrite parse_encode_segment in Hf by done. cbn -[wire_of_draft] in Hf. cbn [plan_order].
  destruct (bool_decide _) in Hf |- *; [done|]. cbn -[wire_of_draft] in Hf |- *.
  destruct (seg_state (wire_of_draft d) =? 1); cbn -[wire_of_draft] in Hf |- *;
    [|by eapply IH].
  destruct (match prior with Some _ => _ | None => _ end); [done|].
  cbn -[wire_of_draft] in Hf |- *. by eapply IH.
Qed.

Lemma snapshot_user_plan planID rev created l :
  validCanonicalUUID planID = true -> 0 < rev < 2 ^ 64 ->
  Forall draft_int64 l -> Forall segment_wf (wire_of_draft <$> l) ->
  exists tail,
  parseSnapshotCurrentPlan (userCurrentPlanPayload planID rev created l) =
  (acc0 ← fold_res snapshot_plan_field (segment_fields l)
            (SnapshotPlanAcc (PlanWire planID rev 1 [] 0 "") ∅ None);
   tail acc0) /\
  forall r seen prior, tail (SnapshotPlanAcc (add_segments (PlanWire planID rev 1 [] 0 "") r) seen prior)
    = Ok (PlanWire planID rev 1 r (int64 (uint64 created)) "").
Proof.
  intros Hid Hrev Hi Hw.
  assert (Hids : Forall (fun d => validCanonicalUUID (d_ActivityID d) = true) l).
  { rewrite Forall_fmap in Hw. eapply Forall_impl; [exact Hw|]. intros d [Hd _].
    by rewrite wire_of_draft_id in Hd. }
  assert (Hlen : zlen (bytes_of_string planID) < 2 ^ 64)
    by (rewrite validCanonicalUUID_zlen by done; lia).
  eexists. split.
  - unfold parseSnapshotCurrentPlan, userCurrentPlanPayload.
    erewrite reads_fields by
      (apply reads_varint; [lia|apply uint64_range|]; apply reads_segments; [done|];
       apply reads_varint; [lia..|]; apply reads_varint; [lia..|];
       apply reads_bytes; [lia|done|apply reads_nil]).
    cbn [mbind res_bind]. set (head := _ ++ [WireField 3 0 1 []]).
    assert (Hhead : fold_res snapshot_plan_field head (SnapshotPlanAcc plan_zero ∅ None)
      = Ok (SnapshotPlanAcc (PlanWire planID rev 1 [] 0 "") ∅ None)).
    { subst head. cbn -[string_of_bytes bytes_of_string].
      by rewrite string_of_bytes_of_string. }
    rewrite !fold_res_app, Hhead. cbn [mbind res_bind]. rewrite res_bind_assoc. reflexivity.
  - intros r seen prior. assert (Hr : (rev =? 0) = false) by (apply Z.eqb_neq; lia).
    cbn -[int64 uint64 validCanonicalUUID]. by rewrite Hid, Hr.
Qed.

Lemma parseSnapshot_userCurrentPlanPayload planID rev created l :
  validCanonicalUUID planID = true -> 0 < rev < 2 ^ 64 ->
  - 2 ^ 63 <= created <= max_int64 ->
  Forall draft_int64 l -> segments_wf (wire_of_draft <$> l) ->
  parseSnapshotCurrentPlan (userCurrentPlanPayload planID rev created l)
  = Ok (PlanWire planID rev 1 (wire_of_draft <$> l) created "").
Proof.
  intros Hid Hrev Hcr Hi Hwf. pose proof (swf_each _ Hwf) as Hw.
  destruct (snapshot_user_plan planID rev created l Hid Hrev Hi Hw) as (tail & -> & Ht).
  apply plan_order_wf in Hwf; [|done].
  destruct (fold_snapshot_segments l (PlanWire planID rev 1 [] 0 "") ∅ None Hi Hw Hwf)
    as (seen & prior & ->). cbn [mbind res_bind]. by rewrite Ht, int64_uint64.
Qed.

(** The parser refuses segments that are not in order. *)
Lemma parseSnapshot_user_ordered planID rev created l w :
  validCanonicalUUID planID = true -> 0 < rev < 2 ^ 64 ->
  Forall draft_int64 l -> Forall segment_wf (wire_of_draft <$> l) ->
  parseSnapshotCurrentPlan (userCurrentPlanPayload planID rev created l) = Ok w ->
  segments_wf (wire_of_draft <$> l).
Proof.
  intros Hid Hrev Hi Hw H.
  destruct (snapshot_user_plan planID rev created l Hid Hrev Hi Hw) as (tail & Ht & _).
  rewrite Ht in H. apply bind_ok in H as (acc & Hf & _).
  apply plan_order_wf; [done|]. by eapply fold_snapshot_order.
Qed.

(** ** The proposal mapping check *)

Lemma optionalInt64Equal_true l r : optionalInt64Equal l r = true <-> l = r.
Proof. destruct l, r; simpl; rewrite ?Z.eqb_eq; naive_solver. Qed.

Lemma segment_matches_true l r : segment_matches l r = true <-> l = r.
Proof.
  unfold segment_matches. rewrite !andb_true_iff, bool_decide_eq_true, Z.eqb_eq,
    !optionalInt64Equal_true. destruct l, r; simpl. naive_solver.
Qed.

Lemma segments_match_true l r : segments_match l r = true <-> l = r.
Proof.
  revert r. induction l as [|x l IH]; intros [|y r]; simpl; try naive_solver.
  rewrite andb_true_iff, segment_matches_true, IH. naive_solver.
Qed.

Lemma validateProposalPlanMapping_ok plan stored :
  validateProposalPlanMapping plan stored = Ok tt <->
  proposalCurrentPlanSegments stored = Ok (pw_segments plan).
Proof.
  unfold validateProposalPlanMapping.
  destruct (proposalCurrentPlanSegments stored) as [expected|e]; simpl; [|naive_solver].
  case_bool_decide as Hlen; simpl.
  - rewrite reject_if_ok, negb_false_iff, segments_match_true. naive_solver.
  - split; [done|]. by intros [= ->].
Qed.

(** ** Properties *)

(** The field reader is total: on every input it returns the list of fields
    or a protobuf error, and never runs out of the fuel of the model's loop. *)
Theorem consumeWireFields_total input :
  (exists fields, consumeWireFields input = Ok fields) \/
  (exists msg, consumeWireFields input = Err (WireErr msg)).
Proof.
  pose proof (consumeWireFields_loop_no_fuel (length input) input ltac:(done)) as Hn.
  unfold consumeWireFields.
  destruct (consumeWireFields_loop (length input) input) as [fields|[msg|]]; naive_solver.
Qed.

(** Encode/decode: the payload [userCurrentPlanPayload] writes for a valid
    plan is read back by [parseUserCurrentPlan] as that plan, with every
    identifier, revision, signed instant and omitted segment preserved. *)
Theorem userCurrentPlan_roundtrip planID rev created l :
  validCanonicalUUID planID = true -> 0 < rev < 2 ^ 64 ->
  - 2 ^ 63 <= created <= max_int64 ->
  Forall draft_int64 l -> segments_wf (wire_of_draft <$> l) ->
  parseUserCurrentPlan (userCurrentPlanPayload planID rev created l)
  = Ok (PlanWire planID rev 1 (wire_of_draft <$> l) created "").
Proof. apply parse_userCurrentPlanPayload. Qed.

Definition example_plan_id : string := "11111111-2222-4333-8444-555555555555".
Definition example_activity_a : string := "aaaaaaaa-2222-4333-8444-555555555555".
Definition example_activity_b : string := "bbbbbbbb-2222-4333-8444-555555555555".
Definition example_drafts : list CanonicalPlanSegmentDraft :=
  [Draft example_activity_a true (Some (-5)) (Some 100);
   Draft example_activity_b false None None].

Lemma userCurrentPlan_roundtrip_witness :
  parseUserCurrentPlan (userCurrentPlanPayload example_plan_id 7 (-1) example_drafts)
  = Ok (PlanWire example_plan_id 7 1 (wire_of_draft <$> example_drafts) (-1) "").
Proof.
  apply userCurrentPlan_roundtrip; [reflexivity|lia|unfold max_int64; lia| |].
  - repeat constructor; unfold max_int64; simpl; lia.
  - constructor.
    + apply Forall_cons_2; [split; [reflexivity|left]|apply Forall_cons_2; [|constructor]].
      * split; [reflexivity|]. exists (-5), 100. repeat split; lia.
      * split; [reflexivity|right]. done.
    + apply (bool_decide_eq_true_1 _). vm_compute. reflexivity.
    + repeat constructor.
Defined.

(** Every plan the acceptance and user-plan parsers return is well formed:
    canonical identifiers, a non-zero revision, the expected origin and source
    proposal, no activity twice, non-empty scheduled intervals, and every
    scheduled interval ending before a later one starts. *)
Theorem parseCurrentPlan_well_formed input origin src r :
  parseCurrentPlanWithOrigin input origin src = Ok r ->
  segments_wf (pw_segments r) /\ validCanonicalUUID (pw_planID r) = true /\
  pw_planRevision r <> 0 /\ pw_origin r = origin /\
  (if src then validCanonicalUUID (pw_sourceProposalID r) = true
   else pw_sourceProposalID r = "").
Proof. apply parseCurrentPlanWithOrigin_ok. Qed.

Lemma parseCurrentPlan_well_formed_witness :
  segments_wf (wire_of_draft <$> example_drafts).
Proof.
  refine (proj1 (parseCurrentPlan_well_formed
    (userCurrentPlanPayload example_plan_id 7 (-1) example_drafts) 1 false
    (PlanWire example_plan_id 7 1 (wire_of_draft <$> example_drafts) (-1) "") _)).
  vm_compute. reflexivity.
Defined.

(** A plan passes the proposal-to-plan check exactly when the proposal's
    segments, in order, are the plan's segments. *)
Theorem validateProposalPlanMapping_exact plan stored :
  validateProposalPlanMapping plan stored = Ok tt <->
  proposalCurrentPlanSegments stored = Ok (pw_segments plan).
Proof. apply validateProposalPlanMapping_ok. Qed.

(** A snapshot payload whose current plan has another identifier than its trip
    names, with the plan (field 5) written before or after the trip (field 1). *)
Definition example_snapshot_trip : bytes :=
  appendBytesField
    (appendBytesField
      (appendBytesField
        (appendBytesField [] 1 (bytes_of_string example_activity_a))
        2 (bytes_of_string example_activity_b))
      3 (bytes_of_string "UTC"))
    7 (bytes_of_string example_plan_id).
Definition example_snapshot_plan : bytes :=
  userCurrentPlanPayload example_activity_b 3 1 example_drafts.
Definition example_snapshot (plan_first : bool) : bytes :=
  let head :=
    if plan_first then
      appendBytesField (appendBytesField [] 5 example_snapshot_plan) 1 example_snapshot_trip
    else
      appendBytesField (appendBytesField [] 1 example_snapshot_trip) 5 example_snapshot_plan in
  appendVarintField (appendVarintField head 2 3) 6 1.

(** The snapshot parser's check that the embedded current plan is the one
    the trip names depends on field order, which protobuf leaves to the
    encoder: the same mismatching payload is rejected with the trip first and
    accepted with the plan first. *)
Theorem snapshot_plan_identity_depends_on_order :
  parseSnapshotPayload (example_snapshot false)
  = Err (WireErr "snapshot current-plan identifiers differ") /\
  is_ok (parseSnapshotPayload (example_snapshot true)) = true.
Proof. split; vm_compute; reflexivity. Qed.
