(* ===== verification/Schema.v ===== *)
(** * The PostgreSQL schema and transactions

    The tables of [migrations/*.sql] the modelled stores read and write, the
    constraints their statements can violate, and the transaction monad every
    store operation runs in. *)

From Stdlib Require Export SpecFloat.
From S2P Require Import Prelude GoLib.

(** ** What is used of PostgreSQL

    The input and output conversions of [jsonb], [uuid] and [text] columns are
    PostgreSQL's own; they are parameters.  A conversion returns [None] when the
    server rejects the text. *)

Class Postgres := {
  jsonb : Type;
  jsonb_eq_dec :: EqDecision jsonb;
  jsonb_in : bytes -> option jsonb;
  jsonb_out : jsonb -> bytes;
  uuid_in : string -> option string;
  text_in : string -> option string
}.

(** The documented behaviour the code relies on: [jsonb] output is JSON text,
    [uuid] output is the canonical lowercase form, and a [text] value is stored
    as it is or refused. *)
Class PostgresLaws (PG : Postgres) : Prop := {
  jsonb_out_valid : forall j, json_Valid (jsonb_out j) = true;
  uuid_in_canonical : forall s, validCanonicalUUID s = true -> uuid_in s = Some s;
  uuid_in_valid : forall s u, uuid_in s = Some u -> validCanonicalUUID u = true;
  text_in_same : forall s u, text_in s = Some u -> u = s
}.

(** ** Column enumerations *)

(** [CommandKind] ([persistence/commands.go]); [CommandOther] is any string
    that is none of the constants. *)
Inductive CommandKind :=
| CommandCreateTrip
| CommandActivityStatusChanged
| CommandActivityDelayed
| CommandReplaceCurrentPlan
| CommandTripEdited
| CommandReservationChanged
| CommandMandatoryDeadlineChanged
| CommandOperatingHoursChanged
| CommandPlaceFoundClosed
| CommandTravelDelay
| CommandAcceptProposal
| CommandRejectProposal
| CommandOther (kind : string).

Inductive application_order := runtime_first | canonical_first.
Inductive intent_state := IntentPending | IntentApplied | IntentRejected | IntentExpired.
Inductive sync_state := SyncNotRequired | SyncPending | SyncSynced | SyncPausedInternal.
Inductive delivery_state :=
| DeliveryPending | DeliveryPausedInternal | DeliveryAccepted | DeliveryTerminalRejected.
Inductive proposal_state :=
| ProposalPending | ProposalAccepted | ProposalRejected | ProposalStale | ProposalSuperseded.
Inductive plan_origin := UserAuthored | AcceptedEngineProposal.
Inductive execution_state := Inactive | Activating | Active | Deactivating.

Inductive resolution_state := ResPending | ResResolved | ResFailed | ResConsumed.
Inductive record_state := InProgress | Completed.
Inductive operation_kind := OpActivate | OpDeactivate.
Inductive operation_state := OpPending | OpSucceeded | OpFailed.

#[global] Instance CommandKind_eq_dec : EqDecision CommandKind.
Proof. solve_decision. Defined.
#[global] Instance application_order_eq_dec : EqDecision application_order.
Proof. solve_decision. Defined.
#[global] Instance intent_state_eq_dec : EqDecision intent_state.
Proof. solve_decision. Defined.
#[global] Instance sync_state_eq_dec : EqDecision sync_state.
Proof. solve_decision. Defined.
#[global] Instance delivery_state_eq_dec : EqDecision delivery_state.
Proof. solve_decision. Defined.
#[global] Instance proposal_state_eq_dec : EqDecision proposal_state.
Proof. solve_decision. Defined.
#[global] Instance plan_origin_eq_dec : EqDecision plan_origin.
Proof. solve_decision. Defined.
#[global] Instance execution_state_eq_dec : EqDecision execution_state.
Proof. solve_decision. Defined.

#[global] Instance record_state_eq_dec : EqDecision record_state.
Proof. solve_decision. Defined.
#[global] Instance resolution_state_eq_dec : EqDecision resolution_state.
Proof. solve_decision. Defined.
#[global] Instance operation_kind_eq_dec : EqDecision operation_kind.
Proof. solve_decision. Defined.
#[global] Instance operation_state_eq_dec : EqDecision operation_state.
Proof. solve_decision. Defined.

(** ** Errors

    The sentinel errors of the package; [ErrInvalid] is an [errors.New] of a
    validator, [ErrDatabase] an error of the statement named (a constraint
    violation, a rejected input value, a NULL scanned into a Go value). *)
Inductive err :=
| ErrTripNotFound | ErrLeaseHeld | ErrLeaseLost | ErrEpochExhausted
| ErrIdempotencyKeyReused | ErrTripRevisionStale | ErrDurableCommandBlocked
| ErrMutationSequenceExhausted
| ErrCommandNotFound | ErrCommandFinalizationConflict
| ErrCommandFinalizationOutOfOrder | ErrProposalFinalizationRequired
| ErrFinalizationConfirmationAhead | ErrFinalizationConfirmationBlocked
| ErrMutationTargetNotFound
| ErrProposalStale | ErrProposalIdentityConflict | ErrProposalPayloadInvalid
| ErrPendingProposalNotFound
| ErrSnapshotInvalid | ErrSnapshotStale | ErrSnapshotConflict | ErrSnapshotNotFound
| ErrSnapshotNotReady
| ErrCanonicalTripConflict | ErrCanonicalOwnerMissing | ErrCanonicalMirrorCapacity
| ErrCanonicalMirrorIdentity | ErrCanonicalMirrorPaused | ErrCanonicalMirrorConflict
| ErrBootstrapConvergenceConflict | ErrBootstrapConvergenceBlocked
| ErrClaimLost | ErrCanonicalStateCorrupt
| ErrSavedTripInput | ErrHTTPIdempotencyReused | ErrHTTPMutationPending
| ErrSavedTripNotInactive | ErrSavedActivityNotFound
| ErrExecutionTripConflict | ErrActivationUnscheduled | ErrActivationOutsideDay
| ErrSavedTripNotExecuting
| ErrSessionNotFound | ErrNonceNotFound | ErrTicketNotFound | ErrInvalidOpaque
| ErrAuthenticationFailed | ErrAuthenticationInput
| ErrPlaceInput | ErrPlaceResolutionGone
| ErrInvalid (msg : string)
| ErrDatabase (op : string).

#[global] Instance err_eq_dec : EqDecision err.
Proof. solve_decision. Defined.

Abbreviation result := (res err).

(** ** Rows *)

Section Rows.
Context {PG : Postgres}.

(** A row of [trips]; the key is [id]. *)
Record trip := Trip {
  t_owner_user_id : string;
  t_default_time_zone_name : string;
  t_trip_revision : Z;
  t_next_mutation_sequence : Z;
  t_finalized_mutation_sequence : Z;
  t_current_plan_id : option string;
  t_saved_plan_id : option string;
  t_execution_state : execution_state;
  t_active_execution_plan_id : option string;
  t_activated_at : option Z;
  t_transition_operation_id : option string;
  t_updated_at : Z;
  t_trip_name : string;
  t_created_at : Z
}.

(** A row of [trip_activities]; the key is [id]. *)
Record activity := Activity {
  a_trip_id : string;
  a_ordinal : Z;
  a_place_id : string;
  a_display_name : string;
  a_latitude : spec_float;
  a_longitude : spec_float;
  a_time_zone_name : string;
  a_inbound_travel_mode : string;
  a_activity_class : string;
  a_activity_state : string;
  a_activity_delay_seconds : Z;
  a_found_closed_at : option Z;
  a_priority_rank : Z;
  a_utility_score : Z;
  a_reservation_start : option Z;
  a_reservation_grace_seconds : Z;
  a_mandatory_deadline : option Z;
  a_min_duration_seconds : Z;
  a_preferred_duration_seconds : Z;
  a_max_duration_seconds : Z;
  a_mandatory : bool;
  a_can_shorten : bool;
  a_can_move : bool;
  a_can_skip : bool
}.

(** A row of [activity_open_windows]; the key is [(activity_id, window_index)]. *)
Record open_window := OpenWindow {
  w_trip_id : string;
  w_opens_at : Z;
  w_closes_at : Z
}.

(** A row of [trip_travel_delays]; the key is [(trip_id, from_activity_id, to_activity_id)]. *)
Record travel_delay := TravelDelay {
  d_additional_seconds : Z;
  d_observed_at : Z
}.

(** A row of [itinerary_plans]; the key is [id]. *)
Record plan := Plan {
  pl_trip_id : string;
  pl_plan_revision : Z;
  pl_origin : plan_origin;
  pl_authored_by_user_id : string;
  pl_source_proposal_id : option string;
  pl_schema_version : Z;
  pl_payload : bytes;
  pl_payload_size_bytes : Z;
  pl_checksum : bytes;
  pl_created_at : Z
}.

(** A row of [plan_proposals]; the key is [id]. *)
Record proposal := Proposal {
  p_trip_id : string;
  p_base_current_plan_id : string;
  p_source_runtime_epoch : Z;
  p_source_planner_state_version : Z;
  p_source_trip_revision : Z;
  p_source_accepted_mutation_sequence : Z;
  p_schema_version : Z;
  p_payload : bytes;
  p_payload_size_bytes : Z;
  p_checksum : bytes;
  p_state : proposal_state;
  p_decision_message_id : option string;
  p_resulting_current_plan_id : option string;
  p_created_at : Z;
  p_decided_at : option Z
}.

(** A row of [command_intents]; the key is [id]. *)
Record intent := Intent {
  i_trip_id : string;
  i_message_id : string;
  i_event_id : string;
  i_mutation_sequence : Z;
  i_expected_trip_revision : Z;
  i_command_kind : CommandKind;
  i_application_order : application_order;
  i_command_expires_at : option Z;
  i_digest_algorithm : string;
  i_payload_digest : bytes;
  i_command_payload : jsonb;
  i_state : intent_state;
  i_outcome_status : option string;
  i_outcome_payload : option jsonb;
  i_resulting_trip_revision : option Z;
  i_resulting_current_plan_id : option string;
  i_resulting_planner_state_version : option Z;
  i_planned_current_plan_id : option string;
  i_planned_current_plan_payload : option bytes;
  i_planned_current_plan_checksum : option bytes;
  i_runtime_sync_state : sync_state;
  i_recorded_at : Z;
  i_finalized_at : option Z
}.

(** A row of [planner_outbox]; the key is [id]. *)
Record outbox_row := Outbox {
  o_command_intent_id : string;
  o_trip_id : string;
  o_mutation_sequence : Z;
  o_event_schema_version : Z;
  o_event_payload : jsonb;
  o_delivery_state : delivery_state;
  o_attempt_count : Z;
  o_next_attempt_at : Z;
  o_last_attempt_at : option Z;
  o_last_status : option string;
  o_claim_owner : option string;
  o_claim_expires_at : option Z;
  o_finalization_confirmed_at : option Z;
  o_created_at : Z;
  o_updated_at : Z
}.

(** A row of [planner_snapshots]; the key is [id]. *)
Record snapshot := Snapshot {
  s_trip_id : string;
  s_snapshot_schema_version : Z;
  s_source_runtime_epoch : Z;
  s_source_planner_state_version : Z;
  s_trip_revision : Z;
  s_covered_finalized_mutation_sequence : Z;
  s_payload_size_bytes : Z;
  s_checksum : bytes;
  s_payload : bytes;
  s_created_at : Z;
  s_invalidated_at : option Z;
  s_invalidation_reason : option string
}.

(** A row of [trip_runtime_leases]; the key is [trip_id]. *)
Record lease := Lease {
  l_holder_id : string;
  l_runtime_epoch : Z;
  l_lease_expires_at : Z;
  l_renewed_at : Z
}.

(** A row of [http_idempotency_records]; the key is [id]. *)
Record http_record := HttpRecord {
  h_user_id : string;
  h_trip_id : option string;
  h_idempotency_key : string;
  h_http_method : string;
  h_normalized_path : string;
  h_operation_kind : string;
  h_request_digest_algorithm : string;
  h_request_digest_key_id : option string;
  h_request_digest : bytes;
  h_state : record_state;
  h_response_status : option Z;
  h_response_content_type : option string;
  h_response_body : option jsonb;
  h_response_etag : option string;
  h_resource_id : option string;
  h_created_at : Z;
  h_completed_at : option Z;
  h_retain_until : Z
}.

(** A row of [saved_trip_plans]; the key is [id]. The date and the time are kept as
    the text the server prints. *)
Record saved_plan := SavedPlan {
  sp_trip_id : string;
  sp_owner_user_id : string;
  sp_saved_plan_revision : Z;
  sp_authored_by_user_id : string;
  sp_display_local_date : option string;
  sp_display_local_time : option string;
  sp_display_time_zone_name : option string;
  sp_created_at : Z
}.

(** A row of [saved_trip_activities]; the key is [(saved_plan_id, activity_id)]. *)
Record saved_activity := SavedActivity {
  sa_trip_id : string;
  sa_owner_user_id : string;
  sa_place_id : string;
  sa_ordinal : Z;
  sa_schedule_state : string;
  sa_start_offset_ms : option Z;
  sa_end_offset_ms : option Z;
  sa_inbound_travel_mode : string;
  sa_activity_class : string;
  sa_priority_rank : Z;
  sa_utility_score : Z;
  sa_reservation_start_offset_ms : option Z;
  sa_reservation_grace_seconds : Z;
  sa_mandatory_deadline_offset_ms : option Z;
  sa_min_duration_seconds : Z;
  sa_preferred_duration_seconds : Z;
  sa_max_duration_seconds : Z;
  sa_mandatory : bool;
  sa_can_shorten : bool;
  sa_can_move : bool;
  sa_can_skip : bool
}.

(** A row of [saved_activity_open_windows]; the key is
    [(saved_plan_id, activity_id, window_index)]. *)
Record saved_window := SavedWindow {
  sw_opens_offset_ms : Z;
  sw_closes_offset_ms : Z
}.

(** A row of [trip_execution_operations]; the key is [id]. *)
Record exec_operation := ExecOperation {
  e_trip_id : string;
  e_owner_user_id : string;
  e_idempotency_record_id : string;
  e_kind : operation_kind;
  e_state : operation_state;
  e_last_step : string;
  e_source_trip_revision : Z;
  e_target_execution_plan_id : option string;
  e_resulting_trip_revision : option Z;
  e_safe_error_code : option string;
  e_created_at : Z;
  e_updated_at : Z;
  e_completed_at : option Z
}.

(** A row of [places]; the key is [id]. *)
Record place := Place {
  pc_owner_user_id : string;
  pc_source_resolution_id : string;
  pc_latitude : spec_float;
  pc_longitude : spec_float;
  pc_formatted_address : option string;
  pc_display_name : string;
  pc_time_zone_name : string;
  pc_created_at : Z
}.

(** A row of [users]; the key is [id]. *)
Record user_row := UserRow {
  u_display_name : string;
  u_default_time_zone_name : string;
  u_created_at : Z
}.

(** A row of [external_identities]; the key is [id]. *)
Record identity_row := Identity {
  ei_user_id : string;
  ei_provider : string;
  ei_issuer : string;
  ei_subject : string;
  ei_email : option string;
  ei_email_verified : bool;
  ei_display_name : option string;
  ei_created_at : Z;
  ei_last_authenticated_at : Z
}.

(** A row of [oidc_login_nonces]; the key is [id]. *)
Record nonce_row := NonceRow {
  n_nonce_sha256 : bytes;
  n_browser_binding_sha256 : bytes;
  n_created_at : Z;
  n_expires_at : Z;
  n_consumed_at : option Z
}.

(** A row of [user_sessions]; the key is [id]. *)
Record session_row := SessionRow {
  us_session_family_id : string;
  us_user_id : string;
  us_token_sha256 : bytes;
  us_csrf_key_id : string;
  us_created_at : Z;
  us_last_seen_at : Z;
  us_idle_expires_at : Z;
  us_absolute_expires_at : Z;
  us_rotate_after : Z;
  us_replaced_by_session_id : option string;
  us_predecessor_valid_until : option Z;
  us_revoked_at : option Z;
  us_revocation_reason : option string
}.

(** A row of [websocket_auth_tickets]; the key is [id]. *)
Record ticket_row := TicketRow {
  wt_session_id : string;
  wt_user_id : string;
  wt_token_sha256 : bytes;
  wt_created_at : Z;
  wt_expires_at : Z;
  wt_consumed_at : option Z
}.

(** A row of [development_auth_tokens]; the key is [id]. *)
Record dev_token := DevToken {
  dt_user_id : string;
  dt_token_sha256 : bytes;
  dt_expires_at : option Z;
  dt_revoked_at : option Z;
  dt_created_at : Z
}.

(** A row of [place_resolution_attempts]; the key is [id]. *)
Record resolution := Resolution {
  pr_user_id : string;
  pr_idempotency_record_id : string;
  pr_provider : string;
  pr_state : resolution_state;
  pr_provider_request_started_at : option Z;
  pr_resolution_token_sha256 : option bytes;
  pr_latitude : option spec_float;
  pr_longitude : option spec_float;
  pr_formatted_address : option string;
  pr_display_name : option string;
  pr_time_zone_name : option string;
  pr_failure_code : option string;
  pr_created_at : Z;
  pr_expires_at : Z;
  pr_consumed_at : option Z
}.


Definition set_t_trip_revision (v : Z) (r : trip) : trip :=
  Trip (t_owner_user_id r) (t_default_time_zone_name r) v (t_next_mutation_sequence r)
    (t_finalized_mutation_sequence r) (t_current_plan_id r) (t_saved_plan_id r)
    (t_execution_state r) (t_active_execution_plan_id r) (t_activated_at r)
    (t_transition_operation_id r) (t_updated_at r) (t_trip_name r) (t_created_at r).
Definition set_t_next_mutation_sequence (v : Z) (r : trip) : trip :=
  Trip (t_owner_user_id r) (t_default_time_zone_name r) (t_trip_revision r) v
    (t_finalized_mutation_sequence r) (t_current_plan_id r) (t_saved_plan_id r)
    (t_execution_state r) (t_active_execution_plan_id r) (t_activated_at r)
    (t_transition_operation_id r) (t_updated_at r) (t_trip_name r) (t_created_at r).
Definition set_t_finalized_mutation_sequence (v : Z) (r : trip) : trip :=
  Trip (t_owner_user_id r) (t_default_time_zone_name r) (t_trip_revision r)
    (t_next_mutation_sequence r) v (t_current_plan_id r) (t_saved_plan_id r)
    (t_execution_state r) (t_active_execution_plan_id r) (t_activated_at r)
    (t_transition_operation_id r) (t_updated_at r) (t_trip_name r) (t_created_at r).
Definition set_t_current_plan_id (v : option string) (r : trip) : trip :=
  Trip (t_owner_user_id r) (t_default_time_zone_name r) (t_trip_revision r)
    (t_next_mutation_sequence r) (t_finalized_mutation_sequence r) v (t_saved_plan_id r)
    (t_execution_state r) (t_active_execution_plan_id r) (t_activated_at r)
    (t_transition_operation_id r) (t_updated_at r) (t_trip_name r) (t_created_at r).
Definition set_t_updated_at (v : Z) (r : trip) : trip :=
  Trip (t_owner_user_id r) (t_default_time_zone_name r) (t_trip_revision r)
    (t_next_mutation_sequence r) (t_finalized_mutation_sequence r) (t_current_plan_id r)
    (t_saved_plan_id r) (t_execution_state r) (t_active_execution_plan_id r)
    (t_activated_at r) (t_transition_operation_id r) v (t_trip_name r) (t_created_at r).
Definition set_t_default_time_zone_name (v : string) (r : trip) : trip :=
  Trip (t_owner_user_id r) v (t_trip_revision r) (t_next_mutation_sequence r)
    (t_finalized_mutation_sequence r) (t_current_plan_id r) (t_saved_plan_id r)
    (t_execution_state r) (t_active_execution_plan_id r) (t_activated_at r)
    (t_transition_operation_id r) (t_updated_at r) (t_trip_name r) (t_created_at r).
Definition set_t_trip_name (v : string) (r : trip) : trip :=
  Trip (t_owner_user_id r) (t_default_time_zone_name r) (t_trip_revision r)
    (t_next_mutation_sequence r) (t_finalized_mutation_sequence r) (t_current_plan_id r)
    (t_saved_plan_id r) (t_execution_state r) (t_active_execution_plan_id r)
    (t_activated_at r) (t_transition_operation_id r) (t_updated_at r) v (t_created_at r).
Definition set_t_saved_plan_id (v : option string) (r : trip) : trip :=
  Trip (t_owner_user_id r) (t_default_time_zone_name r) (t_trip_revision r)
    (t_next_mutation_sequence r) (t_finalized_mutation_sequence r) (t_current_plan_id r) v
    (t_execution_state r) (t_active_execution_plan_id r) (t_activated_at r)
    (t_transition_operation_id r) (t_updated_at r) (t_trip_name r) (t_created_at r).
Definition set_t_execution_state (v : execution_state) (r : trip) : trip :=
  Trip (t_owner_user_id r) (t_default_time_zone_name r) (t_trip_revision r)
    (t_next_mutation_sequence r) (t_finalized_mutation_sequence r) (t_current_plan_id r)
    (t_saved_plan_id r) v (t_active_execution_plan_id r) (t_activated_at r)
    (t_transition_operation_id r) (t_updated_at r) (t_trip_name r) (t_created_at r).
Definition set_t_active_execution_plan_id (v : option string) (r : trip) : trip :=
  Trip (t_owner_user_id r) (t_default_time_zone_name r) (t_trip_revision r)
    (t_next_mutation_sequence r) (t_finalized_mutation_sequence r) (t_current_plan_id r)
    (t_saved_plan_id r) (t_execution_state r) v (t_activated_at r)
    (t_transition_operation_id r) (t_updated_at r) (t_trip_name r) (t_created_at r).
Definition set_t_activated_at (v : option Z) (r : trip) : trip :=
  Trip (t_owner_user_id r) (t_default_time_zone_name r) (t_trip_revision r)
    (t_next_mutation_sequence r) (t_finalized_mutation_sequence r) (t_current_plan_id r)
    (t_saved_plan_id r) (t_execution_state r) (t_active_execution_plan_id r) v
    (t_transition_operation_id r) (t_updated_at r) (t_trip_name r) (t_created_at r).
Definition set_t_transition_operation_id (v : option string) (r : trip) : trip :=
  Trip (t_owner_user_id r) (t_default_time_zone_name r) (t_trip_revision r)
    (t_next_mutation_sequence r) (t_finalized_mutation_sequence r) (t_current_plan_id r)
    (t_saved_plan_id r) (t_execution_state r) (t_active_execution_plan_id r)
    (t_activated_at r) v (t_updated_at r) (t_trip_name r) (t_created_at r).

Definition set_a_ordinal (v : Z) (r : activity) : activity :=
  Activity (a_trip_id r) v (a_place_id r) (a_display_name r) (a_latitude r)
    (a_longitude r) (a_time_zone_name r) (a_inbound_travel_mode r) (a_activity_class r)
    (a_activity_state r) (a_activity_delay_seconds r) (a_found_closed_at r)
    (a_priority_rank r) (a_utility_score r) (a_reservation_start r)
    (a_reservation_grace_seconds r) (a_mandatory_deadline r) (a_min_duration_seconds r)
    (a_preferred_duration_seconds r) (a_max_duration_seconds r) (a_mandatory r)
    (a_can_shorten r) (a_can_move r) (a_can_skip r).
Definition set_a_activity_state (v : string) (r : activity) : activity :=
  Activity (a_trip_id r) (a_ordinal r) (a_place_id r) (a_display_name r) (a_latitude r)
    (a_longitude r) (a_time_zone_name r) (a_inbound_travel_mode r) (a_activity_class r)
    v (a_activity_delay_seconds r) (a_found_closed_at r) (a_priority_rank r)
    (a_utility_score r) (a_reservation_start r) (a_reservation_grace_seconds r)
    (a_mandatory_deadline r) (a_min_duration_seconds r) (a_preferred_duration_seconds r)
    (a_max_duration_seconds r) (a_mandatory r) (a_can_shorten r) (a_can_move r)
    (a_can_skip r).
Definition set_a_activity_delay_seconds (v : Z) (r : activity) : activity :=
  Activity (a_trip_id r) (a_ordinal r) (a_place_id r) (a_display_name r) (a_latitude r)
    (a_longitude r) (a_time_zone_name r) (a_inbound_travel_mode r) (a_activity_class r)
    (a_activity_state r) v (a_found_closed_at r) (a_priority_rank r) (a_utility_score r)
    (a_reservation_start r) (a_reservation_grace_seconds r) (a_mandatory_deadline r)
    (a_min_duration_seconds r) (a_preferred_duration_seconds r)
    (a_max_duration_seconds r) (a_mandatory r) (a_can_shorten r) (a_can_move r)
    (a_can_skip r).
Definition set_a_found_closed_at (v : option Z) (r : activity) : activity :=
  Activity (a_trip_id r) (a_ordinal r) (a_place_id r) (a_display_name r) (a_latitude r)
    (a_longitude r) (a_time_zone_name r) (a_inbound_travel_mode r) (a_activity_class r)
    (a_activity_state r) (a_activity_delay_seconds r) v (a_priority_rank r)
    (a_utility_score r) (a_reservation_start r) (a_reservation_grace_seconds r)
    (a_mandatory_deadline r) (a_min_duration_seconds r) (a_preferred_duration_seconds r)
    (a_max_duration_seconds r) (a_mandatory r) (a_can_shorten r) (a_can_move r)
    (a_can_skip r).
Definition set_a_reservation_start (v : option Z) (r : activity) : activity :=
  Activity (a_trip_id r) (a_ordinal r) (a_place_id r) (a_display_name r) (a_latitude r)
    (a_longitude r) (a_time_zone_name r) (a_inbound_travel_mode r) (a_activity_class r)
    (a_activity_state r) (a_activity_delay_seconds r) (a_found_closed_at r)
    (a_priority_rank r) (a_utility_score r) v (a_reservation_grace_seconds r)
    (a_mandatory_deadline r) (a_min_duration_seconds r) (a_preferred_duration_seconds r)
    (a_max_duration_seconds r) (a_mandatory r) (a_can_shorten r) (a_can_move r)
    (a_can_skip r).
Definition set_a_reservation_grace_seconds (v : Z) (r : activity) : activity :=
  Activity (a_trip_id r) (a_ordinal r) (a_place_id r) (a_display_name r) (a_latitude r)
    (a_longitude r) (a_time_zone_name r) (a_inbound_travel_mode r) (a_activity_class r)
    (a_activity_state r) (a_activity_delay_seconds r) (a_found_closed_at r)
    (a_priority_rank r) (a_utility_score r) (a_reservation_start r)
    v (a_mandatory_deadline r) (a_min_duration_seconds r)
    (a_preferred_duration_seconds r) (a_max_duration_seconds r) (a_mandatory r)
    (a_can_shorten r) (a_can_move r) (a_can_skip r).
Definition set_a_mandatory_deadline (v : option Z) (r : activity) : activity :=
  Activity (a_trip_id r) (a_ordinal r) (a_place_id r) (a_display_name r) (a_latitude r)
    (a_longitude r) (a_time_zone_name r) (a_inbound_travel_mode r) (a_activity_class r)
    (a_activity_state r) (a_activity_delay_seconds r) (a_found_closed_at r)
    (a_priority_rank r) (a_utility_score r) (a_reservation_start r)
    (a_reservation_grace_seconds r) v (a_min_duration_seconds r)
    (a_preferred_duration_seconds r) (a_max_duration_seconds r) (a_mandatory r)
    (a_can_shorten r) (a_can_move r) (a_can_skip r).

Definition set_p_state (v : proposal_state) (r : proposal) : proposal :=
  Proposal (p_trip_id r) (p_base_current_plan_id r) (p_source_runtime_epoch r)
    (p_source_planner_state_version r) (p_source_trip_revision r)
    (p_source_accepted_mutation_sequence r) (p_schema_version r) (p_payload r)
    (p_payload_size_bytes r) (p_checksum r) v (p_decision_message_id r)
    (p_resulting_current_plan_id r) (p_created_at r) (p_decided_at r).
Definition set_p_decision_message_id (v : option string) (r : proposal) : proposal :=
  Proposal (p_trip_id r) (p_base_current_plan_id r) (p_source_runtime_epoch r)
    (p_source_planner_state_version r) (p_source_trip_revision r)
    (p_source_accepted_mutation_sequence r) (p_schema_version r) (p_payload r)
    (p_payload_size_bytes r) (p_checksum r) (p_state r) v
    (p_resulting_current_plan_id r) (p_created_at r) (p_decided_at r).
Definition set_p_resulting_current_plan_id (v : option string) (r : proposal) : proposal :=
  Proposal (p_trip_id r) (p_base_current_plan_id r) (p_source_runtime_epoch r)
    (p_source_planner_state_version r) (p_source_trip_revision r)
    (p_source_accepted_mutation_sequence r) (p_schema_version r) (p_payload r)
    (p_payload_size_bytes r) (p_checksum r) (p_state r) (p_decision_message_id r) v
    (p_created_at r) (p_decided_at r).
Definition set_p_decided_at (v : option Z) (r : proposal) : proposal :=
  Proposal (p_trip_id r) (p_base_current_plan_id r) (p_source_runtime_epoch r)
    (p_source_planner_state_version r) (p_source_trip_revision r)
    (p_source_accepted_mutation_sequence r) (p_schema_version r) (p_payload r)
    (p_payload_size_bytes r) (p_checksum r) (p_state r) (p_decision_message_id r)
    (p_resulting_current_plan_id r) (p_created_at r) v.

Definition set_i_state (v : intent_state) (r : intent) : intent :=
  Intent (i_trip_id r) (i_message_id r) (i_event_id r) (i_mutation_sequence r)
    (i_expected_trip_revision r) (i_command_kind r) (i_application_order r)
    (i_command_expires_at r) (i_digest_algorithm r) (i_payload_digest r)
    (i_command_payload r) v (i_outcome_status r) (i_outcome_payload r)
    (i_resulting_trip_revision r) (i_resulting_current_plan_id r)
    (i_resulting_planner_state_version r) (i_planned_current_plan_id r)
    (i_planned_current_plan_payload r) (i_planned_current_plan_checksum r)
    (i_runtime_sync_state r) (i_recorded_at r) (i_finalized_at r).
Definition set_i_outcome_status (v : option string) (r : intent) : intent :=
  Intent (i_trip_id r) (i_message_id r) (i_event_id r) (i_mutation_sequence r)
    (i_expected_trip_revision r) (i_command_kind r) (i_application_order r)
    (i_command_expires_at r) (i_digest_algorithm r) (i_payload_digest r)
    (i_command_payload r) (i_state r) v (i_outcome_payload r)
    (i_resulting_trip_revision r) (i_resulting_current_plan_id r)
    (i_resulting_planner_state_version r) (i_planned_current_plan_id r)
    (i_planned_current_plan_payload r) (i_planned_current_plan_checksum r)
    (i_runtime_sync_state r) (i_recorded_at r) (i_finalized_at r).
Definition set_i_outcome_payload (v : option jsonb) (r : intent) : intent :=
  Intent (i_trip_id r) (i_message_id r) (i_event_id r) (i_mutation_sequence r)
    (i_expected_trip_revision r) (i_command_kind r) (i_application_order r)
    (i_command_expires_at r) (i_digest_algorithm r) (i_payload_digest r)
    (i_command_payload r) (i_state r) (i_outcome_status r) v
    (i_resulting_trip_revision r) (i_resulting_current_plan_id r)
    (i_resulting_planner_state_version r) (i_planned_current_plan_id r)
    (i_planned_current_plan_payload r) (i_planned_current_plan_checksum r)
    (i_runtime_sync_state r) (i_recorded_at r) (i_finalized_at r).
Definition set_i_resulting_trip_revision (v : option Z) (r : intent) : intent :=
  Intent (i_trip_id r) (i_message_id r) (i_event_id r) (i_mutation_sequence r)
    (i_expected_trip_revision r) (i_command_kind r) (i_application_order r)
    (i_command_expires_at r) (i_digest_algorithm r) (i_payload_digest r)
    (i_command_payload r) (i_state r) (i_outcome_status r) (i_outcome_payload r) v
    (i_resulting_current_plan_id r) (i_resulting_planner_state_version r)
    (i_planned_current_plan_id r) (i_planned_current_plan_payload r)
    (i_planned_current_plan_checksum r) (i_runtime_sync_state r) (i_recorded_at r)
    (i_finalized_at r).
Definition set_i_resulting_planner_state_version (v : option Z) (r : intent) : intent :=
  Intent (i_trip_id r) (i_message_id r) (i_event_id r) (i_mutation_sequence r)
    (i_expected_trip_revision r) (i_command_kind r) (i_application_order r)
    (i_command_expires_at r) (i_digest_algorithm r) (i_payload_digest r)
    (i_command_payload r) (i_state r) (i_outcome_status r) (i_outcome_payload r)
    (i_resulting_trip_revision r) (i_resulting_current_plan_id r) v
    (i_planned_current_plan_id r) (i_planned_current_plan_payload r)
    (i_planned_current_plan_checksum r) (i_runtime_sync_state r) (i_recorded_at r)
    (i_finalized_at r).
Definition set_i_runtime_sync_state (v : sync_state) (r : intent) : intent :=
  Intent (i_trip_id r) (i_message_id r) (i_event_id r) (i_mutation_sequence r)
    (i_expected_trip_revision r) (i_command_kind r) (i_application_order r)
    (i_command_expires_at r) (i_digest_algorithm r) (i_payload_digest r)
    (i_command_payload r) (i_state r) (i_outcome_status r) (i_outcome_payload r)
    (i_resulting_trip_revision r) (i_resulting_current_plan_id r)
    (i_resulting_planner_state_version r) (i_planned_current_plan_id r)
    (i_planned_current_plan_payload r) (i_planned_current_plan_checksum r) v
    (i_recorded_at r) (i_finalized_at r).
Definition set_i_finalized_at (v : option Z) (r : intent) : intent :=
  Intent (i_trip_id r) (i_message_id r) (i_event_id r) (i_mutation_sequence r)
    (i_expected_trip_revision r) (i_command_kind r) (i_application_order r)
    (i_command_expires_at r) (i_digest_algorithm r) (i_payload_digest r)
    (i_command_payload r) (i_state r) (i_outcome_status r) (i_outcome_payload r)
    (i_resulting_trip_revision r) (i_resulting_current_plan_id r)
    (i_resulting_planner_state_version r) (i_planned_current_plan_id r)
    (i_planned_current_plan_payload r) (i_planned_current_plan_checksum r)
    (i_runtime_sync_state r) (i_recorded_at r) v.

Definition set_o_delivery_state (v : delivery_state) (r : outbox_row) : outbox_row :=
  Outbox (o_command_intent_id r) (o_trip_id r) (o_mutation_sequence r)
    (o_event_schema_version r) (o_event_payload r) v (o_attempt_count r)
    (o_next_attempt_at r) (o_last_attempt_at r) (o_last_status r) (o_claim_owner r)
    (o_claim_expires_at r) (o_finalization_confirmed_at r) (o_created_at r)
    (o_updated_at r).
Definition set_o_attempt_count (v : Z) (r : outbox_row) : outbox_row :=
  Outbox (o_command_intent_id r) (o_trip_id r) (o_mutation_sequence r)
    (o_event_schema_version r) (o_event_payload r) (o_delivery_state r) v
    (o_next_attempt_at r) (o_last_attempt_at r) (o_last_status r) (o_claim_owner r)
    (o_claim_expires_at r) (o_finalization_confirmed_at r) (o_created_at r)
    (o_updated_at r).
Definition set_o_next_attempt_at (v : Z) (r : outbox_row) : outbox_row :=
  Outbox (o_command_intent_id r) (o_trip_id r) (o_mutation_sequence r)
    (o_event_schema_version r) (o_event_payload r) (o_delivery_state r)
    (o_attempt_count r) v (o_last_attempt_at r) (o_last_status r) (o_claim_owner r)
    (o_claim_expires_at r) (o_finalization_confirmed_at r) (o_created_at r)
    (o_updated_at r).
Definition set_o_last_attempt_at (v : option Z) (r : outbox_row) : outbox_row :=
  Outbox (o_command_intent_id r) (o_trip_id r) (o_mutation_sequence r)
    (o_event_schema_version r) (o_event_payload r) (o_delivery_state r)
    (o_attempt_count r) (o_next_attempt_at r) v (o_last_status r) (o_claim_owner r)
    (o_claim_expires_at r) (o_finalization_confirmed_at r) (o_created_at r)
    (o_updated_at r).
Definition set_o_last_status (v : option string) (r : outbox_row) : outbox_row :=
  Outbox (o_command_intent_id r) (o_trip_id r) (o_mutation_sequence r)
    (o_event_schema_version r) (o_event_payload r) (o_delivery_state r)
    (o_attempt_count r) (o_next_attempt_at r) (o_last_attempt_at r) v (o_claim_owner r)
    (o_claim_expires_at r) (o_finalization_confirmed_at r) (o_created_at r)
    (o_updated_at r).
Definition set_o_claim_owner (v : option string) (r : outbox_row) : outbox_row :=
  Outbox (o_command_intent_id r) (o_trip_id r) (o_mutation_sequence r)
    (o_event_schema_version r) (o_event_payload r) (o_delivery_state r)
    (o_attempt_count r) (o_next_attempt_at r) (o_last_attempt_at r) (o_last_status r) v
    (o_claim_expires_at r) (o_finalization_confirmed_at r) (o_created_at r)
    (o_updated_at r).
Definition set_o_claim_expires_at (v : option Z) (r : outbox_row) : outbox_row :=
  Outbox (o_command_intent_id r) (o_trip_id r) (o_mutation_sequence r)
    (o_event_schema_version r) (o_event_payload r) (o_delivery_state r)
    (o_attempt_count r) (o_next_attempt_at r) (o_last_attempt_at r) (o_last_status r)
    (o_claim_owner r) v (o_finalization_confirmed_at r) (o_created_at r)
    (o_updated_at r).
Definition set_o_finalization_confirmed_at (v : option Z) (r : outbox_row) : outbox_row :=
  Outbox (o_command_intent_id r) (o_trip_id r) (o_mutation_sequence r)
    (o_event_schema_version r) (o_event_payload r) (o_delivery_state r)
    (o_attempt_count r) (o_next_attempt_at r) (o_last_attempt_at r) (o_last_status r)
    (o_claim_owner r) (o_claim_expires_at r) v (o_created_at r) (o_updated_at r).
Definition set_o_updated_at (v : Z) (r : outbox_row) : outbox_row :=
  Outbox (o_command_intent_id r) (o_trip_id r) (o_mutation_sequence r)
    (o_event_schema_version r) (o_event_payload r) (o_delivery_state r)
    (o_attempt_count r) (o_next_attempt_at r) (o_last_attempt_at r) (o_last_status r)
    (o_claim_owner r) (o_claim_expires_at r) (o_finalization_confirmed_at r)
    (o_created_at r) v.

Definition set_s_invalidated_at (v : option Z) (r : snapshot) : snapshot :=
  Snapshot (s_trip_id r) (s_snapshot_schema_version r) (s_source_runtime_epoch r)
    (s_source_planner_state_version r) (s_trip_revision r)
    (s_covered_finalized_mutation_sequence r) (s_payload_size_bytes r) (s_checksum r)
    (s_payload r) (s_created_at r) v (s_invalidation_reason r).
Definition set_s_invalidation_reason (v : option string) (r : snapshot) : snapshot :=
  Snapshot (s_trip_id r) (s_snapshot_schema_version r) (s_source_runtime_epoch r)
    (s_source_planner_state_version r) (s_trip_revision r)
    (s_covered_finalized_mutation_sequence r) (s_payload_size_bytes r) (s_checksum r)
    (s_payload r) (s_created_at r) (s_invalidated_at r) v.

Definition set_l_holder_id (v : string) (r : lease) : lease :=
  Lease v (l_runtime_epoch r) (l_lease_expires_at r) (l_renewed_at r).
Definition set_l_runtime_epoch (v : Z) (r : lease) : lease :=
  Lease (l_holder_id r) v (l_lease_expires_at r) (l_renewed_at r).
Definition set_l_lease_expires_at (v : Z) (r : lease) : lease :=
  Lease (l_holder_id r) (l_runtime_epoch r) v (l_renewed_at r).
Definition set_l_renewed_at (v : Z) (r : lease) : lease :=
  Lease (l_holder_id r) (l_runtime_epoch r) (l_lease_expires_at r) v.

Definition set_h_trip_id (v : option string) (r : http_record) : http_record :=
  HttpRecord (h_user_id r) v (h_idempotency_key r) (h_http_method r) (h_normalized_path r)
    (h_operation_kind r) (h_request_digest_algorithm r) (h_request_digest_key_id r)
    (h_request_digest r) (h_state r) (h_response_status r) (h_response_content_type r)
    (h_response_body r) (h_response_etag r) (h_resource_id r) (h_created_at r)
    (h_completed_at r) (h_retain_until r).
Definition set_h_state (v : record_state) (r : http_record) : http_record :=
  HttpRecord (h_user_id r) (h_trip_id r) (h_idempotency_key r) (h_http_method r)
    (h_normalized_path r) (h_operation_kind r) (h_request_digest_algorithm r)
    (h_request_digest_key_id r) (h_request_digest r) v (h_response_status r)
    (h_response_content_type r) (h_response_body r) (h_response_etag r) (h_resource_id r)
    (h_created_at r) (h_completed_at r) (h_retain_until r).
Definition set_h_response_status (v : option Z) (r : http_record) : http_record :=
  HttpRecord (h_user_id r) (h_trip_id r) (h_idempotency_key r) (h_http_method r)
    (h_normalized_path r) (h_operation_kind r) (h_request_digest_algorithm r)
    (h_request_digest_key_id r) (h_request_digest r) (h_state r) v
    (h_response_content_type r) (h_response_body r) (h_response_etag r) (h_resource_id r)
    (h_created_at r) (h_completed_at r) (h_retain_until r).
Definition set_h_response_content_type (v : option string) (r : http_record) : http_record :=
  HttpRecord (h_user_id r) (h_trip_id r) (h_idempotency_key r) (h_http_method r)
    (h_normalized_path r) (h_operation_kind r) (h_request_digest_algorithm r)
    (h_request_digest_key_id r) (h_request_digest r) (h_state r) (h_response_status r) v
    (h_response_body r) (h_response_etag r) (h_resource_id r) (h_created_at r)
    (h_completed_at r) (h_retain_until r).
Definition set_h_response_body (v : option jsonb) (r : http_record) : http_record :=
  HttpRecord (h_user_id r) (h_trip_id r) (h_idempotency_key r) (h_http_method r)
    (h_normalized_path r) (h_operation_kind r) (h_request_digest_algorithm r)
    (h_request_digest_key_id r) (h_request_digest r) (h_state r) (h_response_status r)
    (h_response_content_type r) v (h_response_etag r) (h_resource_id r) (h_created_at r)
    (h_completed_at r) (h_retain_until r).
Definition set_h_response_etag (v : option string) (r : http_record) : http_record :=
  HttpRecord (h_user_id r) (h_trip_id r) (h_idempotency_key r) (h_http_method r)
    (h_normalized_path r) (h_operation_kind r) (h_request_digest_algorithm r)
    (h_request_digest_key_id r) (h_request_digest r) (h_state r) (h_response_status r)
    (h_response_content_type r) (h_response_body r) v (h_resource_id r) (h_created_at r)
    (h_completed_at r) (h_retain_until r).
Definition set_h_resource_id (v : option string) (r : http_record) : http_record :=
  HttpRecord (h_user_id r) (h_trip_id r) (h_idempotency_key r) (h_http_method r)
    (h_normalized_path r) (h_operation_kind r) (h_request_digest_algorithm r)
    (h_request_digest_key_id r) (h_request_digest r) (h_state r) (h_response_status r)
    (h_response_content_type r) (h_response_body r) (h_response_etag r) v (h_created_at r)
    (h_completed_at r) (h_retain_until r).
Definition set_h_completed_at (v : option Z) (r : http_record) : http_record :=
  HttpRecord (h_user_id r) (h_trip_id r) (h_idempotency_key r) (h_http_method r)
    (h_normalized_path r) (h_operation_kind r) (h_request_digest_algorithm r)
    (h_request_digest_key_id r) (h_request_digest r) (h_state r) (h_response_status r)
    (h_response_content_type r) (h_response_body r) (h_response_etag r) (h_resource_id r)
    (h_created_at r) v (h_retain_until r).

Definition set_sa_ordinal (v : Z) (r : saved_activity) : saved_activity :=
  SavedActivity (sa_trip_id r) (sa_owner_user_id r) (sa_place_id r) v (sa_schedule_state
    r) (sa_start_offset_ms r) (sa_end_offset_ms r) (sa_inbound_travel_mode r)
    (sa_activity_class r) (sa_priority_rank r) (sa_utility_score r)
    (sa_reservation_start_offset_ms r) (sa_reservation_grace_seconds r)
    (sa_mandatory_deadline_offset_ms r) (sa_min_duration_seconds r)
    (sa_preferred_duration_seconds r) (sa_max_duration_seconds r) (sa_mandatory r)
    (sa_can_shorten r) (sa_can_move r) (sa_can_skip r).

Definition set_e_state (v : operation_state) (r : exec_operation) : exec_operation :=
  ExecOperation (e_trip_id r) (e_owner_user_id r) (e_idempotency_record_id r) (e_kind r) v
    (e_last_step r) (e_source_trip_revision r) (e_target_execution_plan_id r)
    (e_resulting_trip_revision r) (e_safe_error_code r) (e_created_at r) (e_updated_at r)
    (e_completed_at r).
Definition set_e_last_step (v : string) (r : exec_operation) : exec_operation :=
  ExecOperation (e_trip_id r) (e_owner_user_id r) (e_idempotency_record_id r) (e_kind r)
    (e_state r) v (e_source_trip_revision r) (e_target_execution_plan_id r)
    (e_resulting_trip_revision r) (e_safe_error_code r) (e_created_at r) (e_updated_at r)
    (e_completed_at r).
Definition set_e_updated_at (v : Z) (r : exec_operation) : exec_operation :=
  ExecOperation (e_trip_id r) (e_owner_user_id r) (e_idempotency_record_id r) (e_kind r)
    (e_state r) (e_last_step r) (e_source_trip_revision r) (e_target_execution_plan_id r)
    (e_resulting_trip_revision r) (e_safe_error_code r) (e_created_at r) v (e_completed_at
    r).
Definition set_e_completed_at (v : option Z) (r : exec_operation) : exec_operation :=
  ExecOperation (e_trip_id r) (e_owner_user_id r) (e_idempotency_record_id r) (e_kind r)
    (e_state r) (e_last_step r) (e_source_trip_revision r) (e_target_execution_plan_id r)
    (e_resulting_trip_revision r) (e_safe_error_code r) (e_created_at r) (e_updated_at r)
    v.

Definition set_ei_email (v : option string) (r : identity_row) : identity_row :=
  Identity (ei_user_id r) (ei_provider r) (ei_issuer r) (ei_subject r) v
    (ei_email_verified r) (ei_display_name r) (ei_created_at r) (ei_last_authenticated_at
    r).
Definition set_ei_email_verified (v : bool) (r : identity_row) : identity_row :=
  Identity (ei_user_id r) (ei_provider r) (ei_issuer r) (ei_subject r) (ei_email r) v
    (ei_display_name r) (ei_created_at r) (ei_last_authenticated_at r).
Definition set_ei_display_name (v : option string) (r : identity_row) : identity_row :=
  Identity (ei_user_id r) (ei_provider r) (ei_issuer r) (ei_subject r) (ei_email r)
    (ei_email_verified r) v (ei_created_at r) (ei_last_authenticated_at r).
Definition set_ei_last_authenticated_at (v : Z) (r : identity_row) : identity_row :=
  Identity (ei_user_id r) (ei_provider r) (ei_issuer r) (ei_subject r) (ei_email r)
    (ei_email_verified r) (ei_display_name r) (ei_created_at r) v.

Definition set_n_consumed_at (v : option Z) (r : nonce_row) : nonce_row :=
  NonceRow (n_nonce_sha256 r) (n_browser_binding_sha256 r) (n_created_at r) (n_expires_at
    r) v.

Definition set_us_last_seen_at (v : Z) (r : session_row) : session_row :=
  SessionRow (us_session_family_id r) (us_user_id r) (us_token_sha256 r) (us_csrf_key_id
    r) (us_created_at r) v (us_idle_expires_at r) (us_absolute_expires_at r)
    (us_rotate_after r) (us_replaced_by_session_id r) (us_predecessor_valid_until r)
    (us_revoked_at r) (us_revocation_reason r).
Definition set_us_replaced_by_session_id (v : option string) (r : session_row) : session_row :=
  SessionRow (us_session_family_id r) (us_user_id r) (us_token_sha256 r) (us_csrf_key_id
    r) (us_created_at r) (us_last_seen_at r) (us_idle_expires_at r) (us_absolute_expires_at
    r) (us_rotate_after r) v (us_predecessor_valid_until r) (us_revoked_at r)
    (us_revocation_reason r).
Definition set_us_predecessor_valid_until (v : option Z) (r : session_row) : session_row :=
  SessionRow (us_session_family_id r) (us_user_id r) (us_token_sha256 r) (us_csrf_key_id
    r) (us_created_at r) (us_last_seen_at r) (us_idle_expires_at r) (us_absolute_expires_at
    r) (us_rotate_after r) (us_replaced_by_session_id r) v (us_revoked_at r)
    (us_revocation_reason r).
Definition set_us_revoked_at (v : option Z) (r : session_row) : session_row :=
  SessionRow (us_session_family_id r) (us_user_id r) (us_token_sha256 r) (us_csrf_key_id
    r) (us_created_at r) (us_last_seen_at r) (us_idle_expires_at r) (us_absolute_expires_at
    r) (us_rotate_after r) (us_replaced_by_session_id r) (us_predecessor_valid_until r) v
    (us_revocation_reason r).
Definition set_us_revocation_reason (v : option string) (r : session_row) : session_row :=
  SessionRow (us_session_family_id r) (us_user_id r) (us_token_sha256 r) (us_csrf_key_id
    r) (us_created_at r) (us_last_seen_at r) (us_idle_expires_at r) (us_absolute_expires_at
    r) (us_rotate_after r) (us_replaced_by_session_id r) (us_predecessor_valid_until r)
    (us_revoked_at r) v.

Definition set_wt_consumed_at (v : option Z) (r : ticket_row) : ticket_row :=
  TicketRow (wt_session_id r) (wt_user_id r) (wt_token_sha256 r) (wt_created_at r)
    (wt_expires_at r) v.

Definition set_pr_state (v : resolution_state) (r : resolution) : resolution :=
  Resolution (pr_user_id r) (pr_idempotency_record_id r) (pr_provider r) v
    (pr_provider_request_started_at r) (pr_resolution_token_sha256 r) (pr_latitude r)
    (pr_longitude r) (pr_formatted_address r) (pr_display_name r) (pr_time_zone_name r)
    (pr_failure_code r) (pr_created_at r) (pr_expires_at r) (pr_consumed_at r).
Definition set_pr_provider_request_started_at (v : option Z) (r : resolution) : resolution :=
  Resolution (pr_user_id r) (pr_idempotency_record_id r) (pr_provider r) (pr_state r) v
    (pr_resolution_token_sha256 r) (pr_latitude r) (pr_longitude r) (pr_formatted_address r)
    (pr_display_name r) (pr_time_zone_name r) (pr_failure_code r) (pr_created_at r)
    (pr_expires_at r) (pr_consumed_at r).
Definition set_pr_resolution_token_sha256 (v : option bytes) (r : resolution) : resolution :=
  Resolution (pr_user_id r) (pr_idempotency_record_id r) (pr_provider r) (pr_state r)
    (pr_provider_request_started_at r) v (pr_latitude r) (pr_longitude r)
    (pr_formatted_address r) (pr_display_name r) (pr_time_zone_name r) (pr_failure_code r)
    (pr_created_at r) (pr_expires_at r) (pr_consumed_at r).
Definition set_pr_latitude (v : option spec_float) (r : resolution) : resolution :=
  Resolution (pr_user_id r) (pr_idempotency_record_id r) (pr_provider r) (pr_state r)
    (pr_provider_request_started_at r) (pr_resolution_token_sha256 r) v (pr_longitude r)
    (pr_formatted_address r) (pr_display_name r) (pr_time_zone_name r) (pr_failure_code r)
    (pr_created_at r) (pr_expires_at r) (pr_consumed_at r).
Definition set_pr_longitude (v : option spec_float) (r : resolution) : resolution :=
  Resolution (pr_user_id r) (pr_idempotency_record_id r) (pr_provider r) (pr_state r)
    (pr_provider_request_started_at r) (pr_resolution_token_sha256 r) (pr_latitude r) v
    (pr_formatted_address r) (pr_display_name r) (pr_time_zone_name r) (pr_failure_code r)
    (pr_created_at r) (pr_expires_at r) (pr_consumed_at r).
Definition set_pr_formatted_address (v : option string) (r : resolution) : resolution :=
  Resolution (pr_user_id r) (pr_idempotency_record_id r) (pr_provider r) (pr_state r)
    (pr_provider_request_started_at r) (pr_resolution_token_sha256 r) (pr_latitude r)
    (pr_longitude r) v (pr_display_name r) (pr_time_zone_name r) (pr_failure_code r)
    (pr_created_at r) (pr_expires_at r) (pr_consumed_at r).
Definition set_pr_display_name (v : option string) (r : resolution) : resolution :=
  Resolution (pr_user_id r) (pr_idempotency_record_id r) (pr_provider r) (pr_state r)
    (pr_provider_request_started_at r) (pr_resolution_token_sha256 r) (pr_latitude r)
    (pr_longitude r) (pr_formatted_address r) v (pr_time_zone_name r) (pr_failure_code r)
    (pr_created_at r) (pr_expires_at r) (pr_consumed_at r).
Definition set_pr_time_zone_name (v : option string) (r : resolution) : resolution :=
  Resolution (pr_user_id r) (pr_idempotency_record_id r) (pr_provider r) (pr_state r)
    (pr_provider_request_started_at r) (pr_resolution_token_sha256 r) (pr_latitude r)
    (pr_longitude r) (pr_formatted_address r) (pr_display_name r) v (pr_failure_code r)
    (pr_created_at r) (pr_expires_at r) (pr_consumed_at r).
Definition set_pr_failure_code (v : option string) (r : resolution) : resolution :=
  Resolution (pr_user_id r) (pr_idempotency_record_id r) (pr_provider r) (pr_state r)
    (pr_provider_request_started_at r) (pr_resolution_token_sha256 r) (pr_latitude r)
    (pr_longitude r) (pr_formatted_address r) (pr_display_name r) (pr_time_zone_name r) v
    (pr_created_at r) (pr_expires_at r) (pr_consumed_at r).
Definition set_pr_expires_at (v : Z) (r : resolution) : resolution :=
  Resolution (pr_user_id r) (pr_idempotency_record_id r) (pr_provider r) (pr_state r)
    (pr_provider_request_started_at r) (pr_resolution_token_sha256 r) (pr_latitude r)
    (pr_longitude r) (pr_formatted_address r) (pr_display_name r) (pr_time_zone_name r)
    (pr_failure_code r) (pr_created_at r) v (pr_consumed_at r).
Definition set_pr_consumed_at (v : option Z) (r : resolution) : resolution :=
  Resolution (pr_user_id r) (pr_idempotency_record_id r) (pr_provider r) (pr_state r)
    (pr_provider_request_started_at r) (pr_resolution_token_sha256 r) (pr_latitude r)
    (pr_longitude r) (pr_formatted_address r) (pr_display_name r) (pr_time_zone_name r)
    (pr_failure_code r) (pr_created_at r) (pr_expires_at r) v.


(** ** The database *)

(** The tables of saved trips and their HTTP mutations. *)
Record saved_tables := SavedTables {
  http_records : gmap string http_record;
  saved_plans : gmap string saved_plan;
  saved_activities : gmap (string * string) saved_activity;
  saved_windows : gmap (string * string * Z) saved_window;
  operations : gmap string exec_operation;
  places : gmap string place
}.

(** The tables of accounts, sessions and place lookups. *)
Record auth_tables := AuthTables {
  identities : gmap string identity_row;
  nonces : gmap string nonce_row;
  sessions : gmap string session_row;
  tickets : gmap string ticket_row;
  dev_tokens : gmap string dev_token;
  resolutions : gmap string resolution
}.

Record db := Db {
  user_rows : gmap string user_row;
  trips : gmap string trip;
  activities : gmap string activity;
  windows : gmap (string * Z) open_window;
  travel_delays : gmap (string * string * string) travel_delay;
  plans : gmap string plan;
  proposals : gmap string proposal;
  intents : gmap string intent;
  outbox : gmap string outbox_row;
  snapshots : gmap string snapshot;
  leases : gmap string lease;
  saved : saved_tables;
  auth : auth_tables
}.

(** The identifiers of [users], what the foreign keys refer to. *)
Definition users (d : db) : gset string := dom (user_rows d).

Definition set_trips (v : gmap string trip) (d : db) : db :=
  Db (user_rows d) v (activities d) (windows d) (travel_delays d) (plans d) (proposals d)
    (intents d) (outbox d) (snapshots d) (leases d) (saved d) (auth d).
Definition set_activities (v : gmap string activity) (d : db) : db :=
  Db (user_rows d) (trips d) v (windows d) (travel_delays d) (plans d) (proposals d) (intents
    d) (outbox d) (snapshots d) (leases d) (saved d) (auth d).
Definition set_windows (v : gmap (string * Z) open_window) (d : db) : db :=
  Db (user_rows d) (trips d) (activities d) v (travel_delays d) (plans d) (proposals d)
    (intents d) (outbox d) (snapshots d) (leases d) (saved d) (auth d).
Definition set_travel_delays (v : gmap (string * string * string) travel_delay) (d : db) : db :=
  Db (user_rows d) (trips d) (activities d) (windows d) v (plans d) (proposals d) (intents d)
    (outbox d) (snapshots d) (leases d) (saved d) (auth d).
Definition set_plans (v : gmap string plan) (d : db) : db :=
  Db (user_rows d) (trips d) (activities d) (windows d) (travel_delays d) v (proposals d)
    (intents d) (outbox d) (snapshots d) (leases d) (saved d) (auth d).
Definition set_proposals (v : gmap string proposal) (d : db) : db :=
  Db (user_rows d) (trips d) (activities d) (windows d) (travel_delays d) (plans d) v (intents
    d) (outbox d) (snapshots d) (leases d) (saved d) (auth d).
Definition set_intents (v : gmap string intent) (d : db) : db :=
  Db (user_rows d) (trips d) (activities d) (windows d) (travel_delays d) (plans d) (proposals
    d) v (outbox d) (snapshots d) (leases d) (saved d) (auth d).
Definition set_outbox (v : gmap string outbox_row) (d : db) : db :=
  Db (user_rows d) (trips d) (activities d) (windows d) (travel_delays d) (plans d) (proposals
    d) (intents d) v (snapshots d) (leases d) (saved d) (auth d).
Definition set_snapshots (v : gmap string snapshot) (d : db) : db :=
  Db (user_rows d) (trips d) (activities d) (windows d) (travel_delays d) (plans d) (proposals
    d) (intents d) (outbox d) v (leases d) (saved d) (auth d).
Definition set_leases (v : gmap string lease) (d : db) : db :=
  Db (user_rows d) (trips d) (activities d) (windows d) (travel_delays d) (plans d) (proposals
    d) (intents d) (outbox d) (snapshots d) v (saved d) (auth d).
Definition set_saved (v : saved_tables) (d : db) : db :=
  Db (user_rows d) (trips d) (activities d) (windows d) (travel_delays d) (plans d) (proposals
    d) (intents d) (outbox d) (snapshots d) (leases d) v (auth d).
Definition set_http_records (v : gmap string http_record) (d : db) : db :=
  set_saved (SavedTables v (saved_plans (saved d)) (saved_activities (saved d))
    (saved_windows (saved d)) (operations (saved d)) (places (saved d))) d.
Definition set_saved_plans (v : gmap string saved_plan) (d : db) : db :=
  set_saved (SavedTables (http_records (saved d)) v (saved_activities (saved d))
    (saved_windows (saved d)) (operations (saved d)) (places (saved d))) d.
Definition set_saved_activities (v : gmap (string * string) saved_activity) (d : db) : db :=
  set_saved (SavedTables (http_records (saved d)) (saved_plans (saved d)) v (saved_windows
    (saved d)) (operations (saved d)) (places (saved d))) d.
Definition set_saved_windows (v : gmap (string * string * Z) saved_window) (d : db) : db :=
  set_saved (SavedTables (http_records (saved d)) (saved_plans (saved d))
    (saved_activities (saved d)) v (operations (saved d)) (places (saved d))) d.
Definition set_operations (v : gmap string exec_operation) (d : db) : db :=
  set_saved (SavedTables (http_records (saved d)) (saved_plans (saved d))
    (saved_activities (saved d)) (saved_windows (saved d)) v (places (saved d))) d.
Definition set_places (v : gmap string place) (d : db) : db :=
  set_saved (SavedTables (http_records (saved d)) (saved_plans (saved d))
    (saved_activities (saved d)) (saved_windows (saved d)) (operations (saved d)) v) d.
Definition set_user_rows (v : gmap string user_row) (d : db) : db :=
  Db v (trips d) (activities d) (windows d) (travel_delays d) (plans d) (proposals d)
    (intents d) (outbox d) (snapshots d) (leases d) (saved d) (auth d).
Definition set_auth (v : auth_tables) (d : db) : db :=
  Db (user_rows d) (trips d) (activities d) (windows d) (travel_delays d) (plans d)
    (proposals d) (intents d) (outbox d) (snapshots d) (leases d) (saved d) v.
Definition set_identities (v : gmap string identity_row) (d : db) : db :=
  set_auth (AuthTables v (nonces (auth d)) (sessions (auth d)) (tickets (auth d))
    (dev_tokens (auth d)) (resolutions (auth d))) d.
Definition set_nonces (v : gmap string nonce_row) (d : db) : db :=
  set_auth (AuthTables (identities (auth d)) v (sessions (auth d)) (tickets (auth d))
    (dev_tokens (auth d)) (resolutions (auth d))) d.
Definition set_sessions (v : gmap string session_row) (d : db) : db :=
  set_auth (AuthTables (identities (auth d)) (nonces (auth d)) v (tickets (auth d))
    (dev_tokens (auth d)) (resolutions (auth d))) d.
Definition set_tickets (v : gmap string ticket_row) (d : db) : db :=
  set_auth (AuthTables (identities (auth d)) (nonces (auth d)) (sessions (auth d)) v
    (dev_tokens (auth d)) (resolutions (auth d))) d.
Definition set_dev_tokens (v : gmap string dev_token) (d : db) : db :=
  set_auth (AuthTables (identities (auth d)) (nonces (auth d)) (sessions (auth d))
    (tickets (auth d)) v (resolutions (auth d))) d.
Definition set_resolutions (v : gmap string resolution) (d : db) : db :=
  set_auth (AuthTables (identities (auth d)) (nonces (auth d)) (sessions (auth d))
    (tickets (auth d)) (dev_tokens (auth d)) v) d.

Definition no_auth : auth_tables := AuthTables ∅ ∅ ∅ ∅ ∅ ∅.
Definition no_saved : saved_tables := SavedTables ∅ ∅ ∅ ∅ ∅ ∅.

End Rows.

(** ** Transactions

    A transaction is a function of the database; [Err] is a rollback. *)

Section Transactions.
Context {PG : Postgres}.

Definition tx (A : Type) : Type := db -> result (A * db).

#[global] Instance tx_ret : MRet tx := fun A a d => Ok (a, d).
#[global] Instance tx_bind : MBind tx := fun A B f m d =>
  match m d with Ok (a, d') => f a d' | Err e => Err e end.

Definition lift {A} (r : result A) : tx A := fun d => a ← r; Ok (a, d).
Definition fail {A} (e : err) : tx A := fun _ => Err e.
Definition guard (b : bool) (e : err) : tx unit := lift (reject_if b e).
Definition gets {A} (f : db -> A) : tx A := fun d => Ok (f d, d).
Definition modify (f : db -> db) : tx unit := fun d => Ok (tt, f d).
Definition find_row {A} (f : db -> option A) (e : err) : tx A :=
  fun d => a ← of_option (f d) e; Ok (a, d).

(** A loop of statements. *)
Fixpoint for_each {A} (f : A -> tx unit) (l : list A) : tx unit :=
  match l with
  | [] => mret tt
  | x :: l => _ ← f x; for_each f l
  end.

(** Commit on success, roll back on error. *)
Definition run_tx {A} (m : tx A) (d : db) : result A * db :=
  match m d with Ok (a, d') => (Ok a, d') | Err e => (Err e, d) end.

Lemma tx_bind_ok {A B} (m : tx A) (f : A -> tx B) d b d' :
  (m ≫= f) d = Ok (b, d') <-> exists a d1, m d = Ok (a, d1) /\ f a d1 = Ok (b, d').
Proof.
  unfold mbind, tx_bind. destruct (m d) as [[a d1]|e]; [|naive_solver].
  split; [eauto|]. intros (?&?&[=<- <-]&?). done.
Qed.

(** A statement that succeeds, then the rest of the transaction. *)
Lemma tx_bind_run {A B} (m : tx A) (f : A -> tx B) d a d1 r :
  m d = Ok (a, d1) -> f a d1 = r -> (m ≫= f) d = r.
Proof. intros Hm Hf. unfold mbind, tx_bind. by rewrite Hm. Qed.

Lemma mret_ok {A} (a : A) d b d' : mret (M := tx) a d = Ok (b, d') <-> a = b /\ d = d'.
Proof. unfold mret, tx_ret. naive_solver. Qed.

Lemma lift_ok {A} (r : result A) d a d' :
  lift r d = Ok (a, d') <-> r = Ok a /\ d' = d.
Proof. unfold lift. destruct r; simpl; naive_solver. Qed.

Lemma guard_ok b e d u d' : guard b e d = Ok (u, d') <-> b = false /\ d' = d.
Proof. unfold guard. rewrite lift_ok, reject_if_ok. done. Qed.

Lemma gets_ok {A} (f : db -> A) d a d' :
  gets f d = Ok (a, d') <-> a = f d /\ d' = d.
Proof. unfold gets. naive_solver. Qed.

Lemma modify_ok f d u d' : modify f d = Ok (u, d') <-> d' = f d.
Proof. unfold modify. destruct u. naive_solver. Qed.

Lemma find_row_ok {A} (f : db -> option A) e d a d' :
  find_row f e d = Ok (a, d') <-> f d = Some a /\ d' = d.
Proof. unfold find_row. destruct (f d); simpl; naive_solver. Qed.

Lemma run_tx_ok {A} (m : tx A) d a d' :
  run_tx m d = (Ok a, d') <-> m d = Ok (a, d').
Proof. unfold run_tx. destruct (m d) as [[]|]; naive_solver. Qed.

Lemma run_tx_err {A} (m : tx A) d e d' :
  run_tx m d = (Err e, d') <-> m d = Err e /\ d' = d.
Proof. unfold run_tx. destruct (m d) as [[]|]; naive_solver. Qed.

(** The database after the transaction. *)
Definition committed {A} (m : tx A) (d : db) : db := (run_tx m d).2.

Lemma committed_ok {A} (m : tx A) d :
  is_ok (m d) = true -> exists a, m d = Ok (a, committed m d).
Proof. unfold committed, run_tx. destruct (m d) as [[a d']|e]; [eauto|done]. Qed.

(** A successful run, with a test of its result. *)
Definition returns {A} (P : A -> bool) (m : tx A) (d : db) : bool :=
  match m d with Ok (a, _) => P a | Err _ => false end.

Lemma returns_ok {A} (P : A -> bool) (m : tx A) d :
  returns P m d = true -> exists a, m d = Ok (a, committed m d) /\ P a = true.
Proof.
  unfold returns, committed, run_tx. destruct (m d) as [[a d']|e]; [eauto|done].
Qed.

End Transactions.

(** Splits a successful transaction into its successful statements. *)
Ltac inv_tx_step :=
  match goal with
  | H : mbind _ _ _ = Ok (_, _) |- _ =>
      apply tx_bind_ok in H; destruct H as (? & ? & ? & ?)
  | H : lift _ _ = Ok (_, _) |- _ => apply lift_ok in H; destruct H
  | H : guard _ _ _ = Ok (_, _) |- _ => apply guard_ok in H; destruct H
  | H : gets _ _ = Ok (_, _) |- _ => apply gets_ok in H; destruct H
  | H : modify _ _ = Ok (_, _) |- _ => apply modify_ok in H
  | H : find_row _ _ _ = Ok (_, _) |- _ => apply find_row_ok in H; destruct H
  | H : fail _ _ = Ok _ |- _ => discriminate H
  | H : mret _ _ = Ok (_, _) |- _ => apply mret_ok in H; destruct H
  end.
Ltac inv_tx := repeat ((inv_tx_step || inv_res_step); simplify_eq).

(** Runs the next statement of a transaction with the equations known of it. *)
Ltac run_tx_step :=
  eapply tx_bind_run; [first [ apply (guard_ok _ _ _ tt) | apply gets_ok | apply find_row_ok | apply lift_ok ];
          split; [|reflexivity]
         |cbv beta].

(** ** A concrete server

    An instance of the conversions that satisfies the laws, for the examples:
    [jsonb] keeps valid JSON text as it is, [uuid] accepts the canonical form
    only, [text] accepts everything. *)
Definition pg_model : Postgres := {|
  jsonb := bytes;
  jsonb_eq_dec := _;
  jsonb_in b := if json_Valid b then Some b else None;
  jsonb_out b := if json_Valid b then b else bytes_of_string "null";
  uuid_in s := if validCanonicalUUID s then Some s else None;
  text_in s := Some s
|}.

#[global] Instance pg_model_laws : PostgresLaws pg_model.
Proof.
  constructor; simpl.
  - intros j. by destruct (json_Valid j) eqn:E.
  - by intros s ->.
  - intros s u. destruct (validCanonicalUUID s) eqn:E; naive_solver.
  - by intros s u [= ->].
Qed.

(** Identifiers and an empty database for the examples. *)
Definition ex_user : string := "00000000-0000-4000-8000-000000000001".
Definition ex_trip : string := "00000000-0000-4000-8000-000000000002".
Definition ex_plan : string := "00000000-0000-4000-8000-000000000003".
Definition ex_holder_a : string := "00000000-0000-4000-8000-00000000000a".
Definition ex_holder_b : string := "00000000-0000-4000-8000-00000000000b".

Definition ex_user_row : user_row := UserRow "User" "Europe/Paris" 0.
Definition ex_trip_row : trip :=
  Trip ex_user "UTC" 1 1 0 (Some ex_plan) None Inactive None None None 0 "Trip" 0.
Definition ex_plan_row : plan :=
  Plan ex_trip 1 UserAuthored ex_user None 1 [] 0 (repeat Byte.x00 32) 0.
Definition ex_activity_a : string := "00000000-0000-4000-8000-000000000004".
Definition ex_activity_b : string := "00000000-0000-4000-8000-000000000005".
Definition ex_activity (ordinal : Z) (state : string) : activity :=
  Activity ex_trip ordinal "place" "name" (S754_zero false) (S754_zero false) "UTC"
    "walking" "flexible" state 0 None 1 1 None 0 None 60 60 60 false false true true.
Definition ex_db : @db pg_model :=
  @Db pg_model {[ex_user := ex_user_row]} {[ex_trip := ex_trip_row]}
    (<[ex_activity_a := ex_activity 0 "planned"]> {[ex_activity_b := ex_activity 1 "planned"]})
    ∅ ∅ {[ex_plan := ex_plan_row]}
    ∅ ∅ ∅ ∅ ∅ no_saved no_auth.
