(* ===== verification/Tables.v ===== *)
(** * Statements with the constraints they can violate

    [INSERT] and [UPDATE] on the tables of [Schema], with the primary keys,
    unique indexes, foreign keys and [CHECK]s of [migrations/*.sql].  A
    violated constraint is an error of the statement and rolls the transaction
    back.  A [CHECK] passes unless it is false, as in SQL. *)

From S2P Require Import Prelude GoLib Schema.

Section Statements.
Context {PG : Postgres}.

Definition is_null {A} (o : option A) : bool :=
  match o with None => true | Some _ => false end.

(** The bounds of the column types [bigint] and [integer]. *)
Definition in_bigint (z : Z) : bool := (- 2 ^ 63 <=? z) && (z <=? max_int64).
Definition in_integer (z : Z) : bool := (- 2 ^ 31 <=? z) && (z <=? max_int32).

(** *** [trips] *)

(** [active_execution_plan_id = current_plan_id] is not false. *)
Definition execution_plan_matches (t : trip) : bool :=
  match t_active_execution_plan_id t, t_current_plan_id t with
  | Some a, Some c => bool_decide (a = c)
  | _, _ => true
  end.

(** [trips_execution_lifecycle_check]. *)
Definition lifecycle_check (t : trip) : bool :=
  match t_execution_state t with
  | Inactive =>
      is_null (t_active_execution_plan_id t) && is_null (t_activated_at t) &&
      is_null (t_transition_operation_id t)
  | Active =>
      negb (is_null (t_current_plan_id t)) && execution_plan_matches t &&
      negb (is_null (t_activated_at t)) && is_null (t_transition_operation_id t)
  | Activating | Deactivating =>
      negb (is_null (t_current_plan_id t)) && execution_plan_matches t &&
      negb (is_null (t_activated_at t)) && negb (is_null (t_transition_operation_id t))
  end.

(** [btrim(trip_name)]: the spaces at both ends are removed. *)
Fixpoint ltrim (l : bytes) : bytes :=
  match l with
  | c :: rest => if byte_val c =? 32 then ltrim rest else l
  | [] => []
  end.
Definition btrim (s : string) : bytes := rev (ltrim (rev (ltrim (bytes_of_string s)))).

(** [trips_name_check]. *)
Definition trip_name_check (name : string) : bool :=
  (1 <=? zlen (btrim name)) && (zlen (btrim name) <=? 120).

Definition trip_check (t : trip) : bool :=
  trip_name_check (t_trip_name t) &&
  (0 <=? t_trip_revision t) && in_bigint (t_trip_revision t) &&
  (1 <=? t_next_mutation_sequence t) && in_bigint (t_next_mutation_sequence t) &&
  (0 <=? t_finalized_mutation_sequence t) && in_bigint (t_finalized_mutation_sequence t) &&
  (negb (is_null (t_saved_plan_id t)) || negb (is_null (t_current_plan_id t))) &&
  lifecycle_check t.

(** [UPDATE trips SET f WHERE id = id]. *)
Definition update_trip (op id : string) (f : trip -> trip) : tx unit := fun d =>
  match trips d !! id with
  | None => Ok (tt, d)
  | Some t =>
      if trip_check (f t) then Ok (tt, set_trips (<[id := f t]> (trips d)) d)
      else Err (ErrDatabase op)
  end.

Definition insert_trip (op id : string) (t : trip) : tx unit := fun d =>
  if bool_decide (is_Some (trips d !! id)) ||
     negb (bool_decide (t_owner_user_id t ∈ users d)) || negb (trip_check t)
  then Err (ErrDatabase op)
  else Ok (tt, set_trips (<[id := t]> (trips d)) d).

(** The deferred foreign key [trips_current_plan_fk], checked at commit. *)
Definition current_plan_fk (t_id : string) (d : db) : bool :=
  match trips d !! t_id with
  | Some t =>
      match t_current_plan_id t with
      | None => true
      | Some p =>
          match plans d !! p with
          | Some row => bool_decide (pl_trip_id row = t_id)
          | None => false
          end
      end
  | None => true
  end.

(** A row of [itinerary_plans] with the identifier [p] that belongs to the trip. *)
Definition plan_of_trip (t_id p : string) (d : db) : bool :=
  match plans d !! p with
  | Some row => bool_decide (pl_trip_id row = t_id)
  | None => false
  end.

(** *** [command_intents] *)

Definition outcome_statuses : list string :=
  ["UNSPECIFIED"; "OK"; "DUPLICATE"; "STALE"; "INVALID_ARGUMENT";
   "UNAUTHENTICATED"; "PERMISSION_DENIED"; "NOT_FOUND";
   "IDEMPOTENCY_KEY_REUSED"; "INACTIVE_TRIP"; "RESOURCE_EXHAUSTED";
   "DEADLINE_EXCEEDED"; "COMMAND_EXPIRED"; "CANCELLED"; "INFEASIBLE";
   "PROVIDER_UNAVAILABLE"; "DURABILITY_UNAVAILABLE"; "UNAVAILABLE";
   "UNSUPPORTED_VERSION"; "SNAPSHOT_NOT_READY"; "SNAPSHOT_INCOMPATIBLE";
   "INTERNAL"; "MATRIX_TOO_LARGE"].

Definition kind_canonical_first (k : CommandKind) : bool :=
  match k with
  | CommandCreateTrip | CommandTripEdited | CommandReplaceCurrentPlan => true
  | _ => false
  end.

Definition kind_known (k : CommandKind) : bool :=
  match k with CommandOther _ => false | _ => true end.

(** The [CHECK]s of a row of [command_intents]. *)
Definition intent_check (i : intent) : bool :=
  (0 <? i_mutation_sequence i) && (0 <=? i_expected_trip_revision i) &&
  kind_known (i_command_kind i) &&
  bool_decide (i_digest_algorithm i = "rfc8785-sha256-v1") &&
  bool_decide (length (i_payload_digest i) = 32%nat) &&
  match i_outcome_status i with
  | None => true
  | Some s => bool_decide (s ∈ outcome_statuses)
  end &&
  match i_planned_current_plan_checksum i with
  | None => true
  | Some c => bool_decide (length c = 32%nat)
  end &&
  (if bool_decide (i_command_kind i = CommandAcceptProposal) then
     negb (is_null (i_planned_current_plan_id i)) &&
     negb (is_null (i_planned_current_plan_payload i)) &&
     negb (is_null (i_planned_current_plan_checksum i))
   else
     is_null (i_planned_current_plan_id i) &&
     is_null (i_planned_current_plan_payload i) &&
     is_null (i_planned_current_plan_checksum i)) &&
  bool_decide ((i_application_order i = canonical_first) <->
               kind_canonical_first (i_command_kind i) = true) &&
  bool_decide ((i_application_order i = canonical_first) <->
               is_null (i_resulting_current_plan_id i) = false).

Definition insert_intent (op id : string) (i : intent) : tx unit := fun d =>
  if bool_decide (is_Some (intents d !! id)) ||
     negb (bool_decide (is_Some (trips d !! i_trip_id i))) ||
     any_row (fun _ j => bool_decide (i_trip_id j = i_trip_id i) &&
       (bool_decide (i_message_id j = i_message_id i) ||
        bool_decide (i_event_id j = i_event_id i) ||
        (i_mutation_sequence j =? i_mutation_sequence i))) (intents d) ||
     negb (intent_check i) ||
     match i_resulting_current_plan_id i with
     | None => false
     | Some p => negb (plan_of_trip (i_trip_id i) p d)
     end
  then Err (ErrDatabase op)
  else Ok (tt, set_intents (<[id := i]> (intents d)) d).

(** [UPDATE command_intents SET f WHERE id = id]. *)
Definition update_intent (op id : string) (f : intent -> intent) : tx unit := fun d =>
  match intents d !! id with
  | None => Ok (tt, d)
  | Some i =>
      if intent_check (f i) then Ok (tt, set_intents (<[id := f i]> (intents d)) d)
      else Err (ErrDatabase op)
  end.

(** *** [planner_outbox] *)

Definition insert_outbox (op id : string) (o : outbox_row) : tx unit := fun d =>
  if bool_decide (is_Some (outbox d !! id)) ||
     negb (bool_decide (is_Some (intents d !! o_command_intent_id o))) ||
     negb (bool_decide (is_Some (trips d !! o_trip_id o))) ||
     negb (o_event_schema_version o =? 1) || (o_attempt_count o <? 0) ||
     any_row (fun _ p =>
       bool_decide (o_command_intent_id p = o_command_intent_id o) ||
       (bool_decide (o_trip_id p = o_trip_id o) &&
        (o_mutation_sequence p =? o_mutation_sequence o))) (outbox d)
  then Err (ErrDatabase op)
  else Ok (tt, set_outbox (<[id := o]> (outbox d)) d).

(** [UPDATE planner_outbox SET f WHERE id = id]. *)
Definition update_outbox (id : string) (f : outbox_row -> outbox_row) : tx unit :=
  modify (fun d => set_outbox (alter f id (outbox d)) d).

(** *** [plan_proposals] *)

Definition proposal_check (p : proposal) : bool :=
  (0 <? p_source_runtime_epoch p) && (0 <=? p_source_planner_state_version p) &&
  (1 <=? p_source_trip_revision p) && (1 <=? p_source_accepted_mutation_sequence p) &&
  (p_schema_version p =? 1) && (0 <=? p_payload_size_bytes p) &&
  in_integer (p_payload_size_bytes p) &&
  bool_decide (length (p_checksum p) = 32%nat) &&
  bool_decide ((p_state p = ProposalPending) <-> is_null (p_decided_at p) = true) &&
  bool_decide ((p_state p = ProposalAccepted) <->
               is_null (p_resulting_current_plan_id p) = false).

(** The foreign keys and unique indexes are checked on the table the row is
    inserted into. *)
Definition insert_proposal (op id : string) (p : proposal) : tx unit := fun d =>
  if bool_decide (is_Some (proposals d !! id)) ||
     negb (bool_decide (is_Some (trips d !! p_trip_id p))) ||
     negb (plan_of_trip (p_trip_id p) (p_base_current_plan_id p) d) ||
     match p_resulting_current_plan_id p with
     | None => false
     | Some r => negb (plan_of_trip (p_trip_id p) r d)
     end ||
     negb (proposal_check p) ||
     (bool_decide (p_state p = ProposalPending) &&
      any_row (fun _ q => bool_decide (p_trip_id q = p_trip_id p) &&
        bool_decide (p_state q = ProposalPending)) (proposals d))
  then Err (ErrDatabase op)
  else Ok (tt, set_proposals (<[id := p]> (proposals d)) d).

(** [UPDATE plan_proposals SET f WHERE P]; no statement sets a row to pending. *)
Definition update_proposals (op : string) (P : string -> proposal -> bool)
    (f : proposal -> proposal) : tx unit := fun d =>
  if any_row (fun k p => P k p && negb (proposal_check (f p))) (proposals d)
  then Err (ErrDatabase op)
  else Ok (tt, set_proposals (update_rows P f (proposals d)) d).

(** *** [itinerary_plans] *)

Definition plan_check (p : plan) : bool :=
  (0 <? pl_plan_revision p) && (pl_schema_version p =? 1) &&
  (0 <=? pl_payload_size_bytes p) && in_integer (pl_payload_size_bytes p) &&
  bool_decide (length (pl_checksum p) = 32%nat) &&
  match pl_origin p with
  | UserAuthored => is_null (pl_source_proposal_id p)
  | AcceptedEngineProposal => negb (is_null (pl_source_proposal_id p))
  end.

(** The deferred key [itinerary_plans_source_proposal_fk] is checked here: the
    statements of this program never remove a proposal. *)
Definition insert_plan (op id : string) (p : plan) : tx unit := fun d =>
  if bool_decide (is_Some (plans d !! id)) ||
     negb (bool_decide (is_Some (trips d !! pl_trip_id p))) ||
     negb (bool_decide (pl_authored_by_user_id p ∈ users d)) ||
     any_row (fun _ q => bool_decide (pl_trip_id q = pl_trip_id p) &&
       (pl_plan_revision q =? pl_plan_revision p)) (plans d) ||
     negb (plan_check p) ||
     match pl_source_proposal_id p with
     | None => false
     | Some s =>
         match proposals d !! s with
         | Some row => negb (bool_decide (p_trip_id row = pl_trip_id p))
         | None => true
         end
     end
  then Err (ErrDatabase op)
  else Ok (tt, set_plans (<[id := p]> (plans d)) d).

(** *** What a successful statement tells *)

Lemma update_trip_ok op id f d u d' t :
  trips d !! id = Some t ->
  update_trip op id f d = Ok (u, d') <->
  trip_check (f t) = true /\ d' = set_trips (<[id := f t]> (trips d)) d.
Proof.
  intros Ht. unfold update_trip. rewrite Ht. destruct u.
  destruct (trip_check (f t)); naive_solver.
Qed.

Lemma update_intent_ok op id f d u d' i :
  intents d !! id = Some i ->
  update_intent op id f d = Ok (u, d') <->
  intent_check (f i) = true /\ d' = set_intents (<[id := f i]> (intents d)) d.
Proof.
  intros Hi. unfold update_intent. rewrite Hi. destruct u.
  destruct (intent_check (f i)); naive_solver.
Qed.

Lemma update_outbox_ok id f d u d' :
  update_outbox id f d = Ok (u, d') <-> d' = set_outbox (alter f id (outbox d)) d.
Proof. unfold update_outbox. by rewrite modify_ok. Qed.

Lemma update_proposals_ok op P f d u d' :
  update_proposals op P f d = Ok (u, d') ->
  (forall k p, proposals d !! k = Some p -> P k p = true -> proposal_check (f p) = true) /\
  d' = set_proposals (update_rows P f (proposals d)) d.
Proof.
  unfold update_proposals. intros H. case_match eqn:E; [done|]. simplify_eq.
  split; [|done]. intros k p Hk HP. rewrite any_row_false in E.
  specialize (E _ _ Hk). rewrite HP in E. by apply negb_false_iff in E.
Qed.

Record intent_insertable (id : string) (i : intent) (d : db) : Prop := {
  ii_fresh : intents d !! id = None;
  ii_trip : is_Some (trips d !! i_trip_id i);
  ii_unique : forall k j, intents d !! k = Some j -> i_trip_id j = i_trip_id i ->
    i_message_id j <> i_message_id i /\ i_event_id j <> i_event_id i /\
    i_mutation_sequence j <> i_mutation_sequence i;
  ii_check : intent_check i = true;
  ii_plan : forall p, i_resulting_current_plan_id i = Some p ->
    plan_of_trip (i_trip_id i) p d = true
}.

Lemma insert_intent_ok op id i d u d' :
  insert_intent op id i d = Ok (u, d') <->
  intent_insertable id i d /\ d' = set_intents (<[id := i]> (intents d)) d.
Proof.
  unfold insert_intent. destruct u. split.
  - intros H. case_match eqn:E; [done|]. simplify_eq. inv_res. split; [|done].
    constructor; try done.
    + by apply eq_None_not_Some.
    + intros k j Hk Ht.
      match goal with H : any_row _ _ = false |- _ =>
        rewrite any_row_false in H; specialize (H _ _ Hk); simpl in H end.
      rewrite bool_decide_eq_true_2 in * by done. simpl in *. inv_res. zbool. done.
    + intros p Hp. rewrite Hp in *. inv_res. done.
  - intros [[Hf Ht Hu Hc Hp] ->].
    rewrite (bool_decide_eq_false_2 (is_Some (intents d !! id)))
      by (by rewrite Hf; intros [? ?]).
    rewrite bool_decide_eq_true_2 by done. rewrite Hc.
    assert (any_row (fun _ j => bool_decide (i_trip_id j = i_trip_id i) &&
       (bool_decide (i_message_id j = i_message_id i) ||
        bool_decide (i_event_id j = i_event_id i) ||
        (i_mutation_sequence j =? i_mutation_sequence i))) (intents d) = false) as ->.
    { apply any_row_false. intros k j Hk. case_bool_decide as He; [|done]. simpl.
      destruct (Hu _ _ Hk He) as (?&?&?).
      rewrite !bool_decide_eq_false_2 by done. by apply Z.eqb_neq. }
    simpl. destruct (i_resulting_current_plan_id i) as [p|]; [|done].
    by rewrite Hp.
Qed.

Record outbox_insertable (id : string) (o : outbox_row) (d : db) : Prop := {
  oi_fresh : outbox d !! id = None;
  oi_intent : is_Some (intents d !! o_command_intent_id o);
  oi_trip : is_Some (trips d !! o_trip_id o);
  oi_version : o_event_schema_version o = 1;
  oi_attempts : 0 <= o_attempt_count o;
  oi_unique : forall k p, outbox d !! k = Some p ->
    o_command_intent_id p <> o_command_intent_id o /\
    (o_trip_id p = o_trip_id o -> o_mutation_sequence p <> o_mutation_sequence o)
}.

Lemma insert_outbox_ok op id o d u d' :
  insert_outbox op id o d = Ok (u, d') <->
  outbox_insertable id o d /\ d' = set_outbox (<[id := o]> (outbox d)) d.
Proof.
  unfold insert_outbox. destruct u. split.
  - intros H. case_match eqn:E; [done|]. simplify_eq. inv_res. zbool. split; [|done].
    constructor; try done.
    + by apply eq_None_not_Some.
    + intros k p Hk.
      match goal with H : any_row _ _ = false |- _ =>
        rewrite any_row_false in H; specialize (H _ _ Hk); simpl in H end.
      inv_res. split; [done|]. intros He.
      rewrite bool_decide_eq_true_2 in * by done. simpl in *. zbool. done.
  - intros [[Hf Hi Ht Hv Ha Hu] ->].
    rewrite (bool_decide_eq_false_2 (is_Some (outbox d !! id)))
      by (by rewrite Hf; intros [? ?]).
    rewrite !bool_decide_eq_true_2 by done. rewrite Hv.
    rewrite (proj2 (Z.ltb_ge _ _)) by done. simpl.
    match goal with |- context [any_row ?P ?m] =>
      assert (any_row P m = false) as -> end; [|done].
    apply any_row_false. intros k p Hk. destruct (Hu _ _ Hk) as [? Hs].
    rewrite bool_decide_eq_false_2 by done. simpl.
    case_bool_decide; [|done]. simpl. apply Z.eqb_neq. auto.
Qed.

Record proposal_insertable (id : string) (p : proposal) (d : db) : Prop := {
  pi_fresh : proposals d !! id = None;
  pi_trip : is_Some (trips d !! p_trip_id p);
  pi_base : plan_of_trip (p_trip_id p) (p_base_current_plan_id p) d = true;
  pi_check : proposal_check p = true;
  pi_pending : p_state p = ProposalPending -> forall k q, proposals d !! k = Some q ->
    p_trip_id q = p_trip_id p -> p_state q <> ProposalPending
}.

Lemma insert_proposal_ok op id p d u d' :
  insert_proposal op id p d = Ok (u, d') ->
  proposal_insertable id p d /\ d' = set_proposals (<[id := p]> (proposals d)) d.
Proof.
  unfold insert_proposal. intros H. case_match eqn:E; [done|]. simplify_eq. inv_res.
  split; [|done]. constructor; try done.
  - by apply eq_None_not_Some.
  - intros Hp k q Hk Ht. rewrite (bool_decide_eq_true_2 _ Hp) in *. simpl in *.
    match goal with H : any_row _ _ = false |- _ =>
      rewrite any_row_false in H; specialize (H _ _ Hk); simpl in H end.
    rewrite bool_decide_eq_true_2 in * by done. simpl in *. inv_res. done.
Qed.

Record plan_insertable (id : string) (p : plan) (d : db) : Prop := {
  pli_fresh : plans d !! id = None;
  pli_trip : is_Some (trips d !! pl_trip_id p);
  pli_unique : forall k q, plans d !! k = Some q -> pl_trip_id q = pl_trip_id p ->
    pl_plan_revision q <> pl_plan_revision p;
  pli_check : plan_check p = true
}.

Lemma insert_plan_ok op id p d u d' :
  insert_plan op id p d = Ok (u, d') ->
  plan_insertable id p d /\ d' = set_plans (<[id := p]> (plans d)) d.
Proof.
  unfold insert_plan. intros H. case_match eqn:E; [done|]. simplify_eq. inv_res.
  split; [|done]. constructor; try done.
  - by apply eq_None_not_Some.
  - intros k q Hk Ht.
    match goal with H : any_row _ _ = false |- _ =>
      rewrite any_row_false in H; specialize (H _ _ Hk); simpl in H end.
    rewrite bool_decide_eq_true_2 in * by done. simpl in *. zbool. done.
Qed.

Lemma plan_of_trip_true t p d :
  plan_of_trip t p d = true <-> exists row, plans d !! p = Some row /\ pl_trip_id row = t.
Proof.
  unfold plan_of_trip. destruct (plans d !! p) as [row|]; [|naive_solver].
  rewrite bool_decide_eq_true. naive_solver.
Qed.

End Statements.
