(* ===== verification/Leases.v ===== *)
(** * Runtime leases

    Models [persistence/leases.go]: the per-trip lease row that carries the
    fencing epoch, and the operations that acquire, renew, read and release it.
    [clk i] is the [i]-th reading of [clock_timestamp()] in the operation. *)

From S2P Require Import Prelude GoLib Schema Tables.

Section Leases.
Context {PG : Postgres}.

Record RuntimeLease := MkRuntimeLease {
  rl_TripID : string;
  rl_HolderID : string;
  rl_RuntimeEpoch : Z;
  rl_LeaseExpiresAt : Z;
  rl_RenewedAt : Z
}.

Definition runtime_lease (tripID : string) (l : lease) : RuntimeLease :=
  MkRuntimeLease tripID (l_holder_id l) (uint64 (l_runtime_epoch l))
    (l_lease_expires_at l) (l_renewed_at l).

(** [SELECT trip_id ... ORDER BY trip_id]. *)
Definition LeasedTrips (d : db) : list string :=
  merge_sort String.le (map_to_list (leases d)).*1.

Definition validateLeaseInput (tripID holderID : string) (duration : Z) : result unit :=
  _ ← reject_if (bool_decide (tripID = "") || bool_decide (holderID = ""))
        (ErrInvalid "trip and holder ids are required");
  reject_if (duration_milliseconds duration <=? 0)
    (ErrInvalid "lease duration must be at least one millisecond").

(** A [uuid] parameter of the statement [op]. *)
Definition uuid_param (op s : string) : tx string :=
  lift (of_option (uuid_in s) (ErrDatabase op)).

(** The row lock serialises the transactions of a trip; the result is the
    trip's canonical identifier. *)
Definition lockTrip (tripID : string) : tx string :=
  trip_id ← uuid_param "lock trip" tripID;
  _ ← find_row (fun d => trips d !! trip_id) ErrTripNotFound;
  mret trip_id.

(** The proposals an older epoch left pending are stale after a takeover. *)
Definition stale_old_proposals (trip_id : string) (epoch now : Z) : tx unit :=
  update_proposals "stale old-epoch proposals"
    (fun _ p => bool_decide (p_trip_id p = trip_id) &&
       bool_decide (p_state p = ProposalPending) && (p_source_runtime_epoch p <? epoch))
    (fun p => set_p_decided_at (Some now) (set_p_state ProposalStale p)).

Definition Acquire (clk : nat -> Z) (tripID holderID : string) (duration : Z)
  : tx RuntimeLease :=
  _ ← lift (validateLeaseInput tripID holderID duration);
  trip_id ← lockTrip tripID;
  row ← gets (fun d => leases d !! trip_id);
  match row with
  | None =>
      holder ← uuid_param "write runtime lease" holderID;
      let now := clk 1%nat in
      let l := Lease holder 1 (now + interval_ms (duration_milliseconds duration)) now in
      _ ← modify (fun d => set_leases (<[trip_id := l]> (leases d)) d);
      mret (runtime_lease trip_id l)
  | Some current =>
      if clk 0%nat <? l_lease_expires_at current then fail ErrLeaseHeld
      else if l_runtime_epoch current =? max_int64 then fail ErrEpochExhausted
      else
        holder ← uuid_param "write runtime lease" holderID;
        let now := clk 1%nat in
        let l := Lease holder (l_runtime_epoch current + 1)
                   (now + interval_ms (duration_milliseconds duration)) now in
        _ ← modify (fun d => set_leases (<[trip_id := l]> (leases d)) d);
        _ ← stale_old_proposals trip_id (l_runtime_epoch l) now;
        mret (runtime_lease trip_id l)
  end.

Definition Renew (clk : nat -> Z) (tripID holderID : string) (runtimeEpoch duration : Z)
  : tx RuntimeLease :=
  _ ← lift (validateLeaseInput tripID holderID duration);
  _ ← guard ((runtimeEpoch =? 0) || (max_int64 <? runtimeEpoch))
        (ErrInvalid "runtime epoch is invalid");
  trip_id ← lockTrip tripID;
  holder ← uuid_param "renew runtime lease" holderID;
  let now := clk 0%nat in
  current ← find_row (fun d => leases d !! trip_id) ErrLeaseLost;
  _ ← guard (negb (bool_decide (l_holder_id current = holder) &&
                   (l_runtime_epoch current =? int64 runtimeEpoch) &&
                   (now <? l_lease_expires_at current))) ErrLeaseLost;
  let l := set_l_renewed_at now
    (set_l_lease_expires_at
       (now + interval_ms (duration_milliseconds duration)) current) in
  _ ← modify (fun d => set_leases (<[trip_id := l]> (leases d)) d);
  mret (runtime_lease trip_id l).

Definition Current (clk : nat -> Z) (tripID holderID : string) : tx RuntimeLease :=
  _ ← guard (bool_decide (tripID = "") || bool_decide (holderID = ""))
        (ErrInvalid "trip and holder ids are required");
  trip_id ← uuid_param "read current runtime lease" tripID;
  holder ← uuid_param "read current runtime lease" holderID;
  l ← find_row (fun d => leases d !! trip_id) ErrLeaseLost;
  _ ← guard (negb (bool_decide (l_holder_id l = holder) &&
                   (clk 0%nat <? l_lease_expires_at l))) ErrLeaseLost;
  _ ← guard (l_runtime_epoch l <=? 0) ErrLeaseLost;
  mret (runtime_lease trip_id l).

Definition Release (tripID holderID : string) (runtimeEpoch : Z) : tx unit :=
  _ ← guard (bool_decide (tripID = "") || bool_decide (holderID = "") ||
             (runtimeEpoch =? 0) || (max_int64 <? runtimeEpoch))
        (ErrInvalid "lease release input is invalid");
  trip_id ← lockTrip tripID;
  holder ← uuid_param "release runtime lease" holderID;
  l ← find_row (fun d => leases d !! trip_id) ErrLeaseLost;
  _ ← guard (negb (bool_decide (l_holder_id l = holder) &&
                   (l_runtime_epoch l =? int64 runtimeEpoch))) ErrLeaseLost;
  modify (fun d => set_leases (delete trip_id (leases d)) d).

(** ** Lemmas *)

Lemma lockTrip_ok tripID d t d' :
  lockTrip tripID d = Ok (t, d') <->
  uuid_in tripID = Some t /\ is_Some (trips d !! t) /\ d' = d.
Proof.
  unfold lockTrip, uuid_param. rewrite tx_bind_ok. split.
  - intros (?&?&?&?). inv_tx. eauto.
  - intros (Hu & [row Hrow] & ->). exists t, d. rewrite Hu. split; [done|].
    rewrite tx_bind_ok. exists row, d. by rewrite find_row_ok.
Qed.

(** What a successful acquisition did. *)
Record acquired (clk : nat -> Z) (trip_id holder : string) (duration : Z)
    (d : db) (l : lease) (d' : db) : Prop := {
  acq_lease : leases d' = <[trip_id := l]> (leases d);
  acq_holder : l_holder_id l = holder;
  acq_expiry : l_lease_expires_at l =
    clk 1%nat + interval_ms (duration_milliseconds duration);
  acq_epoch : match leases d !! trip_id with
    | None => l_runtime_epoch l = 1
    | Some old => l_lease_expires_at old <= clk 0%nat /\
                  l_runtime_epoch l = l_runtime_epoch old + 1
    end;
  acq_proposals : match leases d !! trip_id with
    | None => proposals d' = proposals d
    | Some _ => forall k p, proposals d' !! k = Some p -> p_trip_id p = trip_id ->
        p_state p = ProposalPending -> l_runtime_epoch l <= p_source_runtime_epoch p
    end
}.

Lemma Acquire_ok clk tripID holderID duration d r d' :
  Acquire clk tripID holderID duration d = Ok (r, d') ->
  exists trip_id holder l, uuid_in tripID = Some trip_id /\ uuid_in holderID = Some holder /\
    r = runtime_lease trip_id l /\ acquired clk trip_id holder duration d l d'.
Proof.
  unfold Acquire, uuid_param. intros H. inv_tx.
  match goal with H : lockTrip _ _ = _ |- _ =>
    apply lockTrip_ok in H as (Hu & Ht & ->) end.
  destruct (leases _ !! _) as [current|] eqn:Hl.
  - repeat (case_match; inv_tx). zbool.
    match goal with H : stale_old_proposals _ _ _ _ = _ |- _ =>
      apply update_proposals_ok in H as [_ ->] end.
    eexists _, _, _. split_and!; [done..|]. constructor; simpl; try done; rewrite Hl.
    + done.
    + intros k p. rewrite lookup_update_rows_Some. intros (q & Hq & ->) Htr Hst.
      case_match eqn:Hc; [by inv_res|]. simpl in Hc.
      rewrite bool_decide_eq_true_2 in Hc by done. simpl in Hc.
      rewrite bool_decide_eq_true_2 in Hc by done. simpl in Hc. by zbool.
  - inv_tx. eexists _, _, _. split_and!; [done..|].
    constructor; simpl; try done; by rewrite Hl.
Qed.

(** What a successful renewal did. *)
Lemma Renew_ok clk tripID holderID epoch duration d r d' :
  Renew clk tripID holderID epoch duration d = Ok (r, d') ->
  exists trip_id old, uuid_in tripID = Some trip_id /\ leases d !! trip_id = Some old /\
    uuid_in holderID = Some (l_holder_id old) /\
    l_runtime_epoch old = int64 epoch /\ clk 0%nat < l_lease_expires_at old /\
    let l := Lease (l_holder_id old) (l_runtime_epoch old)
      (clk 0%nat + interval_ms (duration_milliseconds duration)) (clk 0%nat) in
    r = runtime_lease trip_id l /\ d' = set_leases (<[trip_id := l]> (leases d)) d.
Proof.
  unfold Renew, uuid_param. intros H. inv_tx.
  match goal with H : lockTrip _ _ = _ |- _ =>
    apply lockTrip_ok in H as (Hu & Ht & ->) end.
  inv_tx. zbool. eexists _, _. split_and!; try done.
Qed.

Lemma Current_ok clk tripID holderID d r d' :
  Current clk tripID holderID d = Ok (r, d') <->
  exists trip_id l, uuid_in tripID = Some trip_id /\ leases d !! trip_id = Some l /\
    uuid_in holderID = Some (l_holder_id l) /\ clk 0%nat < l_lease_expires_at l /\
    0 < l_runtime_epoch l /\ tripID <> "" /\ holderID <> "" /\
    r = runtime_lease trip_id l /\ d' = d.
Proof.
  unfold Current, uuid_param. split.
  - intros H. inv_tx. zbool. naive_solver.
  - intros (t & l & Ht & Hl & Hh & Hc & He & Hn1 & Hn2 & -> & ->).
    rewrite !bool_decide_eq_false_2 by done. cbn.
    unfold mbind, tx_bind, lift. rewrite Ht. cbn. rewrite Hh. cbn.
    unfold find_row. rewrite Hl. cbn. rewrite bool_decide_eq_true_2 by done.
    rewrite (proj2 (Z.ltb_lt _ _)) by done. cbn. by rewrite (proj2 (Z.leb_gt _ _)).
Qed.

Lemma Release_ok tripID holderID epoch d u d' :
  Release tripID holderID epoch d = Ok (u, d') ->
  exists trip_id old, uuid_in tripID = Some trip_id /\ leases d !! trip_id = Some old /\
    uuid_in holderID = Some (l_holder_id old) /\ l_runtime_epoch old = int64 epoch /\
    d' = set_leases (delete trip_id (leases d)) d.
Proof.
  unfold Release, uuid_param. intros H. inv_tx.
  match goal with H : lockTrip _ _ = _ |- _ =>
    apply lockTrip_ok in H as (Hu & Ht & ->) end.
  inv_tx. zbool. naive_solver.
Qed.

(** ** Histories

    The lease operations any set of processes can commit, in any order and at
    any clock readings, with [Release] or without. *)
Inductive lease_step (releases : bool) : db -> db -> Prop :=
| step_acquire clk tripID holderID duration d r d' :
    Acquire clk tripID holderID duration d = Ok (r, d') -> lease_step releases d d'
| step_renew clk tripID holderID epoch duration d r d' :
    Renew clk tripID holderID epoch duration d = Ok (r, d') -> lease_step releases d d'
| step_release tripID holderID epoch d u d' :
    releases = true ->
    Release tripID holderID epoch d = Ok (u, d') -> lease_step releases d d'.

(** [l'] is [l] itself, extended, or a later epoch. *)
Definition lease_succeeds (l l' : lease) : Prop :=
  l_runtime_epoch l <= l_runtime_epoch l' /\
  (l_runtime_epoch l = l_runtime_epoch l' -> l_holder_id l = l_holder_id l').

Lemma lease_step_succeeds d d' t l :
  lease_step false d d' -> leases d !! t = Some l ->
  exists l', leases d' !! t = Some l' /\ lease_succeeds l l'.
Proof.
  intros Hs Hl. unfold lease_succeeds.
  destruct Hs as [clk tr ho du d r d' H|clk tr ho ep du d r d' H|]; [| |done].
  - apply Acquire_ok in H as (tid & h & l' & _ & _ & _ & [Hls _ _ He _]). rewrite Hls.
    destruct (decide (tid = t)) as [->|Hne].
    + rewrite Hl in He. exists l'. rewrite lookup_insert_eq. split; [done|lia].
    + exists l. rewrite lookup_insert_ne by done. done.
  - apply Renew_ok in H as (tid & old & _ & Hold & _ & _ & _ & _ & ->). simpl.
    destruct (decide (tid = t)) as [->|Hne].
    + rewrite lookup_insert_eq. simplify_eq. eexists. by split.
    + exists l. by rewrite lookup_insert_ne by done.
Qed.

(** ** Properties *)

(** Fencing.  In any history of acquisitions and renewals by any number of
    processes, the epoch of a trip's lease never decreases, and a lease with the
    same epoch has the same holder: an epoch names one holder forever. *)
Theorem lease_epoch_fences d d' t l :
  rtc (lease_step false) d d' -> leases d !! t = Some l ->
  exists l', leases d' !! t = Some l' /\
    l_runtime_epoch l <= l_runtime_epoch l' /\
    (l_runtime_epoch l = l_runtime_epoch l' -> l_holder_id l = l_holder_id l').
Proof.
  intros Hs. revert l. induction Hs as [d|d d1 d' H1 _ IH]; intros l Hl;
    [by exists l; split_and!; [|lia|]|].
  destruct (lease_step_succeeds _ _ _ _ H1 Hl) as (l1 & Hl1 & Hle & Heq).
  destruct (IH _ Hl1) as (l' & Hl' & Hle' & Heq'). exists l'.
  split_and!; [done|lia|]. intros. rewrite Heq by lia. apply Heq'. lia.
Qed.

(** Mutual exclusion.  An acquisition over an existing lease succeeds only
    once the database clock has reached its expiry; it then holds the next
    epoch, every proposal an older epoch left pending is decided, and neither
    [Renew] nor [Release] with the old epoch succeeds any more. *)
Theorem acquire_takes_over clk tripID trip_id holderID duration d old r d' :
  uuid_in tripID = Some trip_id -> leases d !! trip_id = Some old ->
  0 < l_runtime_epoch old <= max_int64 ->
  Acquire clk tripID holderID duration d = Ok (r, d') ->
  l_lease_expires_at old <= clk 0%nat /\
  rl_RuntimeEpoch r = l_runtime_epoch old + 1 /\
  (forall k p, proposals d' !! k = Some p -> p_trip_id p = trip_id ->
     p_state p = ProposalPending -> l_runtime_epoch old < p_source_runtime_epoch p) /\
  (forall clk' h du, exists e, Renew clk' tripID h (l_runtime_epoch old) du d' = Err e) /\
  (forall h, exists e, Release tripID h (l_runtime_epoch old) d' = Err e).
Proof.
  intros Hu Hl Hep H. apply Acquire_ok in H as (tid & h & l & Hu' & _ & -> & [Hls _ _ He Hp]).
  simplify_eq. rewrite Hl in He, Hp. destruct He as [Hexp He].
  split; [done|]. split; [simpl; rewrite He; apply uint64_small; unfold max_int64 in *; lia|].
  split; [intros k p Hk Ht Hst; specialize (Hp k p Hk Ht Hst); lia|].
  assert (Hl' : leases d' !! trip_id = Some l) by (by rewrite Hls, lookup_insert_eq).
  assert (Hint : int64 (l_runtime_epoch old) = l_runtime_epoch old)
    by (apply int64_small; unfold max_int64 in *; lia).
  split; [intros clk' h' du; destruct (Renew clk' tripID h' _ du d') as [[]|e] eqn:E
         |intros h'; destruct (Release tripID h' _ d') as [[]|e] eqn:E]; eauto.
  - apply Renew_ok in E as (? & ? & ? & ? & ? & ? & ?). simplify_eq. lia.
  - apply Release_ok in E as (? & ? & ? & ? & ? & ? & ?). simplify_eq. lia.
Qed.

(** Dispatch authority.  [Current] succeeds exactly for the holder of the
    trip's lease row while the database clock is before its expiry; two holders
    never both have it. *)
Theorem current_authority_exclusive clk1 clk2 tripID h1 h2 d r1 r2 d1 d2 :
  Current clk1 tripID h1 d = Ok (r1, d1) -> Current clk2 tripID h2 d = Ok (r2, d2) ->
  r1 = r2 /\ clk1 0%nat < rl_LeaseExpiresAt r1 /\ d1 = d /\ d2 = d.
Proof.
  intros (t1 & l1 & Ht1 & Hl1 & Hh1 & Hc1 & _ & _ & _ & -> & ->)%Current_ok.
  intros (t2 & l2 & Ht2 & Hl2 & Hh2 & Hc2 & _ & _ & _ & -> & ->)%Current_ok.
  by simplify_eq.
Qed.

Lemma epoch_after_release clk tripID h1 h2 epoch duration d d1 r d2 :
  Release tripID h1 epoch d = Ok (tt, d1) ->
  Acquire clk tripID h2 duration d1 = Ok (r, d2) -> rl_RuntimeEpoch r = 1.
Proof.
  intros (t & old & Ht & Hl & _ & _ & ->)%Release_ok.
  intros (tid & h & l & Ht' & _ & -> & [_ _ _ He _])%Acquire_ok. simplify_eq.
  simpl in He. rewrite lookup_delete_eq in He. simpl. by rewrite He.
Qed.

(** Releasing a lease removes the row that stores the epoch, so the next
    acquisition starts again at epoch 1 whatever epoch was released: across a
    release the fencing epoch decreases. *)
Theorem release_resets_epoch clk tripID h1 h2 epoch duration d d1 r d2 :
  Release tripID h1 epoch d = Ok (tt, d1) ->
  Acquire clk tripID h2 duration d1 = Ok (r, d2) -> rl_RuntimeEpoch r = 1.
Proof.
  apply epoch_after_release.
Qed.

End Leases.

(** ** Witnesses *)

Definition ex_clock (t : Z) : nat -> Z := fun _ => t.

(** Holder A acquires at 0 for 10 s; holder B takes over at 20 s. *)
Definition ex_lease_a : @db pg_model :=
  committed (Acquire (ex_clock 0) ex_trip ex_holder_a (10 * Second)) ex_db.
Definition ex_lease_b : @db pg_model :=
  committed (Acquire (ex_clock 20000000) ex_trip ex_holder_b (10 * Second)) ex_lease_a.

Definition ex_lease_row_a : lease := Lease ex_holder_a 1 10000000 0.

Lemma lease_epoch_fences_witness :
  exists l', leases ex_lease_b !! ex_trip = Some l' /\ 1 <= l_runtime_epoch l' /\
    (1 = l_runtime_epoch l' -> ex_holder_a = l_holder_id l').
Proof.
  apply (lease_epoch_fences ex_lease_a ex_lease_b ex_trip ex_lease_row_a).
  - apply rtc_once.
    destruct (committed_ok (Acquire (ex_clock 20000000) ex_trip ex_holder_b (10 * Second))
      ex_lease_a ltac:(vm_compute; reflexivity)) as [r Hr].
    eapply step_acquire. exact Hr.
  - vm_compute. reflexivity.
Defined.

Lemma acquire_takes_over_witness :
  l_lease_expires_at ex_lease_row_a <= 20000000.
Proof.
  destruct (committed_ok (Acquire (ex_clock 20000000) ex_trip ex_holder_b (10 * Second))
    ex_lease_a ltac:(vm_compute; reflexivity)) as [r Hr].
  refine (proj1 (acquire_takes_over (ex_clock 20000000) ex_trip ex_trip ex_holder_b
    (10 * Second) ex_lease_a ex_lease_row_a r _ _ _ _ Hr)).
  - vm_compute. reflexivity.
  - vm_compute. reflexivity.
  - unfold max_int64. simpl. lia.
Defined.

Lemma current_authority_exclusive_witness :
  exists r d', Current (ex_clock 5) ex_trip ex_holder_a ex_lease_a = Ok (r, d') /\
    5 < rl_LeaseExpiresAt r.
Proof.
  destruct (committed_ok (Current (ex_clock 5) ex_trip ex_holder_a) ex_lease_a
    ltac:(vm_compute; reflexivity)) as [r Hr].
  exists r, (committed (Current (ex_clock 5) ex_trip ex_holder_a) ex_lease_a).
  split; [exact Hr|].
  exact (proj1 (proj2 (current_authority_exclusive _ _ _ _ _ _ _ _ _ _ Hr Hr))).
Defined.

(** Epoch 2 is released, and the next acquisition has epoch 1. *)
Lemma release_resets_epoch_witness :
  exists r d2, Acquire (ex_clock 21000000) ex_trip ex_holder_a (10 * Second)
      (committed (Release ex_trip ex_holder_b 2) ex_lease_b) = Ok (r, d2) /\
    rl_RuntimeEpoch r = 1.
Proof.
  destruct (committed_ok (Release ex_trip ex_holder_b 2) ex_lease_b
    ltac:(vm_compute; reflexivity)) as [[] Hrel].
  destruct (committed_ok (Acquire (ex_clock 21000000) ex_trip ex_holder_a (10 * Second))
    (committed (Release ex_trip ex_holder_b 2) ex_lease_b)
    ltac:(vm_compute; reflexivity)) as [r Hr].
  exists r, (committed (Acquire (ex_clock 21000000) ex_trip ex_holder_a (10 * Second))
    (committed (Release ex_trip ex_holder_b 2) ex_lease_b)).
  split; [exact Hr|]. exact (release_resets_epoch _ _ _ _ _ _ _ _ _ _ Hrel Hr).
Defined.
