(* ===== verification/Commands.v ===== *)
(** * Recording runtime-first commands

    Models [persistence/commands.go]: validation, the idempotency lookup by
    message identifier, and the transaction that allocates the next mutation
    sequence and stores the intent with its outbox row. *)

From S2P Require Import Prelude GoLib Wire Schema Tables.

Section Commands.
Context {PG : Postgres}.

Definition DigestAlgorithmRFC8785SHA256V1 : string := "rfc8785-sha256-v1".

Definition isRuntimeFirst (kind : CommandKind) : bool :=
  match kind with
  | CommandActivityStatusChanged | CommandActivityDelayed | CommandReservationChanged
  | CommandMandatoryDeadlineChanged | CommandOperatingHoursChanged
  | CommandPlaceFoundClosed | CommandTravelDelay | CommandAcceptProposal
  | CommandRejectProposal => true
  | _ => false
  end.

Record PlannedCurrentPlan := MkPlannedCurrentPlan {
  pc_ID : string;
  pc_Payload : bytes;
  pc_Checksum : bytes
}.

Record RecordRuntimeCommandRequest := MkRecordRequest {
  rr_IntentID : string;
  rr_OutboxID : string;
  rr_TripID : string;
  rr_OwnerUserID : string;
  rr_MessageID : string;
  rr_EventID : string;
  rr_ExpectedTripRevision : Z;
  rr_Kind : CommandKind;
  rr_CommandExpiresAt : option Z;
  rr_PayloadDigest : bytes;
  rr_CommandPayload : bytes;
  rr_EventPayload : bytes;
  rr_PlannedCurrentPlan : option PlannedCurrentPlan
}.

Record RecordedCommand := MkRecordedCommand {
  rc_IntentID : string;
  rc_OutboxID : string;
  rc_TripID : string;
  rc_MessageID : string;
  rc_EventID : string;
  rc_MutationSequence : Z;
  rc_ExpectedTripRevision : Z;
  rc_Kind : CommandKind;
  rc_State : intent_state;
  rc_RuntimeSyncState : sync_state;
  rc_OutcomeStatus : option string;
  rc_OutcomePayload : option bytes;
  rc_ResultingTripRevision : option Z;
  rc_ResultingCurrentPlanID : option string;
  rc_ResultingPlannerStateVersion : option Z;
  rc_RecordedAt : Z;
  rc_FinalizedAt : option Z;
  rc_Duplicate : bool
}.

Record CommandOutcome := MkCommandOutcome {
  co_MessageID : string;
  co_MutationSequence : Z;
  co_State : intent_state;
  co_Kind : CommandKind;
  co_RuntimeSyncState : sync_state;
  co_OutcomeStatus : option string;
  co_OutcomePayload : bytes
}.

(** [append([]byte(nil), payload...)] of the scanned column: empty for NULL. *)
Definition outcome_of (i : intent) : result CommandOutcome :=
  _ ← reject_if (i_mutation_sequence i <=? 0)
        (ErrInvalid "stored command outcome sequence is invalid");
  Ok (MkCommandOutcome (i_message_id i) (uint64 (i_mutation_sequence i)) (i_state i)
        (i_command_kind i) (i_runtime_sync_state i) (i_outcome_status i)
        (match i_outcome_payload i with Some j => jsonb_out j | None => [] end)).

(** [ORDER BY mutation_sequence]. *)
Definition sequence_le (x y : string * intent) : Prop :=
  i_mutation_sequence x.2 <= i_mutation_sequence y.2.
#[global] Instance sequence_le_dec : RelDecision sequence_le.
Proof. intros x y. unfold sequence_le. apply _. Defined.

Definition LoadOutcomes (tripID : string) (messageIDs : list string)
  : tx (list CommandOutcome) :=
  _ ← guard (negb (validCanonicalUUID tripID)) (ErrInvalid "trip id is invalid");
  _ ← guard (negb (forallb validCanonicalUUID messageIDs))
        (ErrInvalid "message id is invalid");
  if bool_decide (messageIDs = []) then mret []
  else
    rows ← gets (fun d => merge_sort sequence_le (rows_where (fun _ i =>
             bool_decide (i_trip_id i = tripID) &&
             bool_decide (i_message_id i ∈ messageIDs)) (intents d)));
    lift (fold_res (fun acc row => o ← outcome_of row.2; Ok (acc ++ [o])) rows []).

(** The planned-plan clause of [validateRecordRuntimeCommand]. *)
Definition validatePlannedCurrentPlan (kind : CommandKind)
    (planned : option PlannedCurrentPlan) : result unit :=
  if bool_decide (kind = CommandAcceptProposal) then
    match planned with
    | None => Err (ErrInvalid "proposal acceptance requires a planned current plan")
    | Some p =>
        _ ← reject_if (negb (validCanonicalUUID (pc_ID p)) ||
                       bool_decide (pc_Payload p = []))
              (ErrInvalid "proposal acceptance requires a planned current plan");
        _ ← reject_if (negb (constant_time_eq (sha256 (pc_Payload p)) (pc_Checksum p)))
              (ErrInvalid "planned current-plan checksum is invalid");
        match parseCurrentPlan (pc_Payload p) with
        | Err _ => Err (ErrInvalid "planned current-plan payload is invalid")
        | Ok plan =>
            reject_if (negb (bool_decide (pw_planID plan = pc_ID p)))
              (ErrInvalid "planned current-plan payload is invalid")
        end
    end
  else reject_if (negb (is_null planned))
         (ErrInvalid "planned current plan is valid only for proposal acceptance").

Definition validateRecordRuntimeCommand (r : RecordRuntimeCommandRequest) : result unit :=
  _ ← reject_if (negb (forallb validCanonicalUUID
          [rr_IntentID r; rr_OutboxID r; rr_TripID r; rr_OwnerUserID r;
           rr_MessageID r; rr_EventID r]))
        (ErrInvalid "command identifiers must be canonical lowercase UUIDs");
  _ ← reject_if (negb (bool_decide (rr_EventID r = rr_MessageID r)))
        (ErrInvalid "durable event id must equal message id");
  _ ← reject_if (max_int64 <? rr_ExpectedTripRevision r)
        (ErrInvalid "expected trip revision is out of range");
  _ ← reject_if (negb (isRuntimeFirst (rr_Kind r)))
        (ErrInvalid "command kind is not runtime-first");
  _ ← reject_if (negb (json_Valid (rr_CommandPayload r)) ||
                 negb (json_Valid (rr_EventPayload r)))
        (ErrInvalid "command and event payloads must be valid JSON");
  validatePlannedCurrentPlan (rr_Kind r) (rr_PlannedCurrentPlan r).

(** [recordedCommandSelect]: the intent of the message and the outbox row that
    joins it, if any. *)
Definition recordedCommandSelect (tripID messageID : string) (d : db)
  : option (string * intent * option string) :=
  '(id, i) ← head (rows_where (fun _ i => bool_decide (i_trip_id i = tripID) &&
                     bool_decide (i_message_id i = messageID)) (intents d));
  Some (id, i, fst <$> head (rows_where (fun _ o =>
                         bool_decide (o_command_intent_id o = id)) (outbox d))).

Definition negative (o : option Z) : bool :=
  match o with Some z => z <? 0 | None => false end.

(** The scanned command, the stored digest and its algorithm. *)
Definition scanRecordedCommand (row : string * intent * option string) (duplicate : bool)
  : result (RecordedCommand * bytes * string) :=
  let '(id, i, outboxID) := row in
  _ ← reject_if ((i_mutation_sequence i <=? 0) || (i_expected_trip_revision i <? 0) ||
                 negb (bool_decide (length (i_payload_digest i) = 32%nat)))
        (ErrInvalid "stored command violates persistence contract");
  let outcomePayload := jsonb_out <$> i_outcome_payload i in
  _ ← reject_if (match outcomePayload with Some b => negb (json_Valid b) | None => false end)
        (ErrInvalid "stored command outcome is invalid JSON");
  _ ← reject_if (negative (i_resulting_trip_revision i))
        (ErrInvalid "stored trip revision is negative");
  _ ← reject_if (match i_resulting_current_plan_id i with
                 | Some p => negb (validCanonicalUUID p) | None => false end)
        (ErrInvalid "stored resulting current-plan id is invalid");
  _ ← reject_if (negative (i_resulting_planner_state_version i))
        (ErrInvalid "stored planner version is negative");
  Ok (MkRecordedCommand id (default "" outboxID) (i_trip_id i) (i_message_id i)
        (i_event_id i) (uint64 (i_mutation_sequence i))
        (uint64 (i_expected_trip_revision i)) (i_command_kind i) (i_state i)
        (i_runtime_sync_state i) (i_outcome_status i) outcomePayload
        (uint64 <$> i_resulting_trip_revision i) (i_resulting_current_plan_id i)
        (uint64 <$> i_resulting_planner_state_version i) (i_recorded_at i)
        (i_finalized_at i) duplicate,
      i_payload_digest i, i_digest_algorithm i).

(** A command of the trip that is not resolved yet: [hasUnresolved]. *)
Definition unresolved (i : intent) : bool :=
  match i_application_order i with
  | runtime_first => bool_decide (i_state i = IntentPending)
  | canonical_first =>
      bool_decide (i_runtime_sync_state i = SyncPending) ||
      bool_decide (i_runtime_sync_state i = SyncPausedInternal)
  end.

Definition hasUnresolved (tripID : string) (d : db) : bool :=
  any_row (fun _ i => bool_decide (i_trip_id i = tripID) && unresolved i) (intents d).

Definition new_intent (now : Z) (r : RecordRuntimeCommandRequest) (sequence : Z)
    (payload : jsonb) : intent :=
  Intent (rr_TripID r) (rr_MessageID r) (rr_EventID r) sequence
    (int64 (rr_ExpectedTripRevision r)) (rr_Kind r) runtime_first
    (to_timestamptz <$> rr_CommandExpiresAt r) "rfc8785-sha256-v1" (rr_PayloadDigest r) payload
    IntentPending None None None None None
    (pc_ID <$> rr_PlannedCurrentPlan r) (pc_Payload <$> rr_PlannedCurrentPlan r)
    (pc_Checksum <$> rr_PlannedCurrentPlan r) SyncNotRequired now None.

(** [INSERT INTO planner_outbox] with the column defaults, each of which reads
    the clock. *)
Definition new_outbox (clk : nat -> Z) (first : nat) (intentID tripID : string)
    (sequence : Z) (payload : jsonb) : outbox_row :=
  Outbox intentID tripID sequence 1 payload DeliveryPending 0 (clk first) None None
    None None None (clk (first + 1)%nat) (clk (first + 2)%nat).

(** The second half of [RecordRuntimeFirst]: no intent of the message exists. *)
Definition record_new (clk : nat -> Z) (r : RecordRuntimeCommandRequest)
    (nextMutationSequence : Z) : tx RecordedCommand :=
  blocked ← gets (hasUnresolved (rr_TripID r));
  _ ← guard blocked ErrDurableCommandBlocked;
  _ ← update_trip "allocate mutation sequence" (rr_TripID r) (fun t =>
        set_t_updated_at (clk 0%nat)
          (set_t_next_mutation_sequence (t_next_mutation_sequence t + 1) t));
  payload ← lift (of_option (jsonb_in (rr_CommandPayload r))
                    (ErrDatabase "insert command intent"));
  _ ← insert_intent "insert command intent" (rr_IntentID r)
        (new_intent (clk 1%nat) r nextMutationSequence payload);
  event ← lift (of_option (jsonb_in (rr_EventPayload r))
                  (ErrDatabase "insert planner outbox"));
  _ ← insert_outbox "insert planner outbox" (rr_OutboxID r)
        (new_outbox clk 2 (rr_IntentID r) (rr_TripID r) nextMutationSequence event);
  row ← find_row (recordedCommandSelect (rr_TripID r) (rr_MessageID r))
          (ErrDatabase "read recorded command");
  scanned ← lift (scanRecordedCommand row false);
  mret scanned.1.1.

Definition RecordRuntimeFirst (clk : nat -> Z) (r : RecordRuntimeCommandRequest)
  : tx RecordedCommand :=
  _ ← lift (validateRecordRuntimeCommand r);
  trip ← find_row (fun d => t ← trips d !! rr_TripID r;
           if bool_decide (t_owner_user_id t = rr_OwnerUserID r) then Some t else None)
           ErrTripNotFound;
  existing ← gets (recordedCommandSelect (rr_TripID r) (rr_MessageID r));
  match existing with
  | Some row =>
      scanned ← lift (scanRecordedCommand row true);
      let '(command, storedDigest, digestAlgorithm) := scanned in
      _ ← guard (negb (bool_decide (digestAlgorithm = DigestAlgorithmRFC8785SHA256V1)) ||
                 negb (constant_time_eq storedDigest (rr_PayloadDigest r)))
            ErrIdempotencyKeyReused;
      mret command
  | None =>
      _ ← guard ((t_trip_revision trip <? 0) ||
                 negb (uint64 (t_trip_revision trip) =? rr_ExpectedTripRevision r))
            ErrTripRevisionStale;
      _ ← guard ((t_next_mutation_sequence trip <=? 0) ||
                 (t_next_mutation_sequence trip =? max_int64))
            ErrMutationSequenceExhausted;
      record_new clk r (t_next_mutation_sequence trip)
  end.

(** ** Lemmas *)

(** The trip, intent and outbox tables after a new command is recorded. *)
Definition record_effect (clk : nat -> Z) (r : RecordRuntimeCommandRequest) (t : trip)
    (payload event : jsonb) (d : db) : db :=
  let sequence := t_next_mutation_sequence t in
  set_outbox (<[rr_OutboxID r :=
      new_outbox clk 2 (rr_IntentID r) (rr_TripID r) sequence event]> (outbox d))
    (set_intents (<[rr_IntentID r := new_intent (clk 1%nat) r sequence payload]> (intents d))
      (set_trips (<[rr_TripID r := set_t_updated_at (clk 0%nat)
          (set_t_next_mutation_sequence (sequence + 1) t)]> (trips d)) d)).

Record recorded_new (clk : nat -> Z) (r : RecordRuntimeCommandRequest) (t : trip)
    (payload event : jsonb) (d : db) (c : RecordedCommand) (d' : db) : Prop := {
  rn_valid : validateRecordRuntimeCommand r = Ok tt;
  rn_trip : trips d !! rr_TripID r = Some t;
  rn_owner : t_owner_user_id t = rr_OwnerUserID r;
  rn_absent : recordedCommandSelect (rr_TripID r) (rr_MessageID r) d = None;
  rn_revision : 0 <= t_trip_revision t /\
    uint64 (t_trip_revision t) = rr_ExpectedTripRevision r;
  rn_next : 0 < t_next_mutation_sequence t /\ t_next_mutation_sequence t <> max_int64;
  rn_resolved : hasUnresolved (rr_TripID r) d = false;
  rn_check : trip_check (set_t_updated_at (clk 0%nat)
    (set_t_next_mutation_sequence (t_next_mutation_sequence t + 1) t)) = true;
  rn_intent : intent_insertable (rr_IntentID r)
    (new_intent (clk 1%nat) r (t_next_mutation_sequence t) payload)
    (set_trips (<[rr_TripID r := set_t_updated_at (clk 0%nat)
       (set_t_next_mutation_sequence (t_next_mutation_sequence t + 1) t)]> (trips d)) d);
  rn_outbox : forall k p, outbox d !! k = Some p ->
    k <> rr_OutboxID r /\ o_command_intent_id p <> rr_IntentID r /\
    (o_trip_id p = rr_TripID r -> o_mutation_sequence p <> t_next_mutation_sequence t);
  rn_effect : d' = record_effect clk r t payload event d;
  rn_scan : exists digest alg row,
    recordedCommandSelect (rr_TripID r) (rr_MessageID r) d' = Some row /\
    scanRecordedCommand row false = Ok (c, digest, alg)
}.

Lemma RecordRuntimeFirst_ok clk r d c d' :
  RecordRuntimeFirst clk r d = Ok (c, d') ->
  (d' = d /\ exists row digest, recordedCommandSelect (rr_TripID r) (rr_MessageID r) d = Some row /\
     scanRecordedCommand row true = Ok (c, digest, DigestAlgorithmRFC8785SHA256V1) /\
     constant_time_eq digest (rr_PayloadDigest r) = true) \/
  (exists t payload event, recorded_new clk r t payload event d c d').
Proof.
  unfold RecordRuntimeFirst. intros H. inv_tx.
  destruct (recordedCommandSelect _ _ _) as [row|] eqn:Hsel; inv_tx.
  - left. eauto 10.
  - right. unfold record_new in *. inv_tx. zbool.
    match goal with H : trips _ !! _ ≫= _ = Some _ |- _ =>
      apply bind_Some in H as (t & Ht & Hown) end.
    case_bool_decide; simplify_eq.
    match goal with H : update_trip _ _ _ _ = _ |- _ =>
      apply (update_trip_ok _ _ _ _ _ _ _ Ht) in H as [? ->] end.
    match goal with H : insert_intent _ _ _ _ = _ |- _ =>
      apply insert_intent_ok in H as [? ->] end.
    match goal with H : insert_outbox _ _ _ _ = _ |- _ =>
      apply insert_outbox_ok in H as [[Hfresh _ _ _ _ Huniq] ->] end.
    do 3 eexists. econstructor; try done; [|eauto].
    intros k p Hk. simpl in *. split; [by intros ->; rewrite Hk in Hfresh|by eapply Huniq].
Qed.

(** The select after an intent is stored with its row finds them. *)
Lemma recordedCommandSelect_new id i oid o mi mo d :
  intents d = <[id := i]> mi -> outbox d = <[oid := o]> mo -> o_command_intent_id o = id ->
  (forall k j, mi !! k = Some j -> i_trip_id j = i_trip_id i -> i_message_id j <> i_message_id i) ->
  (forall k p, mo !! k = Some p -> o_command_intent_id p <> id) ->
  recordedCommandSelect (i_trip_id i) (i_message_id i) d = Some (id, i, Some oid).
Proof.
  intros Hi Ho Hid Huniq Hout. unfold recordedCommandSelect. rewrite Hi, Ho.
  erewrite (rows_where_unique _ _ id i).
  - simpl. erewrite (rows_where_unique _ _ oid o); [done|..].
    + by rewrite lookup_insert_eq.
    + by rewrite bool_decide_eq_true_2.
    + intros k p. rewrite lookup_insert_Some, bool_decide_eq_true.
      intros [[? ?]|[? Hk]] He; [done|]. by destruct (Hout _ _ Hk).
  - by rewrite lookup_insert_eq.
  - by rewrite !bool_decide_eq_true_2.
  - intros k j. rewrite lookup_insert_Some, andb_true_iff, !bool_decide_eq_true.
    intros [[? ?]|[? Hk]] [Ht Hm]; [done|]. by destruct (Huniq _ _ Hk Ht).
Qed.

Lemma recordedCommandSelect_insert clk r t payload event d c d' :
  recorded_new clk r t payload event d c d' ->
  recordedCommandSelect (rr_TripID r) (rr_MessageID r) d' =
  Some (rr_IntentID r, new_intent (clk 1%nat) r (t_next_mutation_sequence t) payload,
        Some (rr_OutboxID r)).
Proof.
  intros [_ _ _ _ _ _ _ _ Hint Hout -> _]. destruct Hint as [_ _ Huniq _ _].
  apply (recordedCommandSelect_new _
    (new_intent (clk 1%nat) r (t_next_mutation_sequence t) payload) _
    (new_outbox clk 2 (rr_IntentID r) (rr_TripID r) (t_next_mutation_sequence t) event)
    (intents d) (outbox d)); try done.
  - intros k j Hk Ht. by destruct (Huniq _ _ Hk Ht).
  - intros k p Hk. by destruct (Hout _ _ Hk) as (_ & ? & _).
Qed.

Lemma scanRecordedCommand_duplicate row dup dup' c digest alg :
  scanRecordedCommand row dup = Ok (c, digest, alg) ->
  scanRecordedCommand row dup' =
  Ok (MkRecordedCommand (rc_IntentID c) (rc_OutboxID c) (rc_TripID c) (rc_MessageID c)
        (rc_EventID c) (rc_MutationSequence c) (rc_ExpectedTripRevision c) (rc_Kind c)
        (rc_State c) (rc_RuntimeSyncState c) (rc_OutcomeStatus c) (rc_OutcomePayload c)
        (rc_ResultingTripRevision c) (rc_ResultingCurrentPlanID c)
        (rc_ResultingPlannerStateVersion c) (rc_RecordedAt c) (rc_FinalizedAt c) dup',
      digest, alg).
Proof.
  destruct row as [[id i] ob]. unfold scanRecordedCommand.
  repeat destruct (reject_if _ _); cbn; try done. intros H. by simplify_eq.
Qed.

(** ** Properties *)

(** What recording a new command does.  It succeeds only for the trip's
    owner, at the current trip revision and with no command of the trip
    unresolved; it stores one pending intent and one pending outbox row under
    the next mutation sequence, advances that sequence by one, and leaves every
    other row of every table as it was. *)
Theorem record_new_command clk r d c d' :
  RecordRuntimeFirst clk r d = Ok (c, d') -> rc_Duplicate c = false ->
  exists t payload event,
    trips d !! rr_TripID r = Some t /\ t_owner_user_id t = rr_OwnerUserID r /\
    uint64 (t_trip_revision t) = rr_ExpectedTripRevision r /\
    hasUnresolved (rr_TripID r) d = false /\
    rc_IntentID c = rr_IntentID r /\ rc_OutboxID c = rr_OutboxID r /\
    rc_MutationSequence c = uint64 (t_next_mutation_sequence t) /\
    rc_State c = IntentPending /\
    intents d !! rr_IntentID r = None /\
    d' = record_effect clk r t payload event d.
Proof.
  intros H Hdup. apply RecordRuntimeFirst_ok in H as
    [(_ & [[id i] ob] & digest & _ & Hscan & _)|(t & payload & event & Hnew)].
  - by unfold scanRecordedCommand in Hscan; inv_res.
  - pose proof (recordedCommandSelect_insert _ _ _ _ _ _ _ _ Hnew) as Hsel.
    destruct Hnew as [_ Ht Ho _ [_ Hr] _ Hu _ [Hf _ _ _ _] _ Hd (digest & alg & row & Hrow & Hscan)].
    exists t, payload, event. rewrite Hsel in Hrow. simplify_eq.
    unfold scanRecordedCommand in Hscan. inv_res. done.
Qed.

(** Idempotency.  Once a command is recorded, sending the same message with
    the same digest again, at any time and with any identifiers for the rows it
    would have created, returns the stored command, flagged as a duplicate, and
    changes nothing. *)
Theorem record_is_idempotent clk clk' r r' d c d' :
  RecordRuntimeFirst clk r d = Ok (c, d') -> rc_Duplicate c = false ->
  validateRecordRuntimeCommand r' = Ok tt ->
  rr_TripID r' = rr_TripID r -> rr_OwnerUserID r' = rr_OwnerUserID r ->
  rr_MessageID r' = rr_MessageID r -> rr_PayloadDigest r' = rr_PayloadDigest r ->
  exists c', RecordRuntimeFirst clk' r' d' = Ok (c', d') /\
    rc_Duplicate c' = true /\ rc_IntentID c' = rc_IntentID c /\
    rc_OutboxID c' = rc_OutboxID c /\ rc_MutationSequence c' = rc_MutationSequence c /\
    rc_Kind c' = rc_Kind c /\ rc_State c' = rc_State c.
Proof.
  intros H Hdup Hv Et Eo Em Ed. apply RecordRuntimeFirst_ok in H as
    [(_ & [[id i] ob] & digest & _ & Hscan & _)|(t & payload & event & Hnew)].
  { by unfold scanRecordedCommand in Hscan; inv_res. }
  pose proof (recordedCommandSelect_insert _ _ _ _ _ _ _ _ Hnew) as Hsel.
  destruct Hnew as [_ Ht Ho _ _ _ _ _ _ _ Hd (digest & alg & row & Hrow & Hscan)].
  rewrite Hsel in Hrow. injection Hrow as <-.
  pose proof (scanRecordedCommand_duplicate _ _ true _ _ _ Hscan) as Hscan'.
  assert (Hdig : digest = rr_PayloadDigest r /\ alg = DigestAlgorithmRFC8785SHA256V1).
  { unfold scanRecordedCommand in Hscan. inv_res. done. }
  destruct Hdig as [-> ->]. eexists. split.
  - unfold RecordRuntimeFirst. rewrite Et, Eo, Em, Ed.
    run_tx_step; [exact Hv|].
    run_tx_step; [rewrite Hd; simpl; by rewrite lookup_insert_eq; simpl;
                  rewrite bool_decide_eq_true_2|].
    run_tx_step; [exact (eq_sym Hsel)|].
    run_tx_step; [exact Hscan'|].
    run_tx_step; [|reflexivity].
    unfold constant_time_eq. by rewrite !bool_decide_eq_true_2.
  - done.
Qed.

(** A message identifier is never reused for another command: once a
    command is recorded, the same message with another digest is rejected with
    [ErrIdempotencyKeyReused], whatever the trip's revision is by then. *)
Theorem record_key_reuse_rejected clk clk' r r' d c d' :
  RecordRuntimeFirst clk r d = Ok (c, d') -> rc_Duplicate c = false ->
  validateRecordRuntimeCommand r' = Ok tt ->
  rr_TripID r' = rr_TripID r -> rr_OwnerUserID r' = rr_OwnerUserID r ->
  rr_MessageID r' = rr_MessageID r -> rr_PayloadDigest r' <> rr_PayloadDigest r ->
  RecordRuntimeFirst clk' r' d' = Err ErrIdempotencyKeyReused.
Proof.
  intros H Hdup Hv Et Eo Em Ed. apply RecordRuntimeFirst_ok in H as
    [(_ & [[id i] ob] & digest & _ & Hscan & _)|(t & payload & event & Hnew)].
  { by unfold scanRecordedCommand in Hscan; inv_res. }
  pose proof (recordedCommandSelect_insert _ _ _ _ _ _ _ _ Hnew) as Hsel.
  destruct Hnew as [_ Ht Ho _ _ _ _ _ _ _ Hd (digest & alg & row & Hrow & Hscan)].
  rewrite Hsel in Hrow. injection Hrow as <-.
  pose proof (scanRecordedCommand_duplicate _ _ true _ _ _ Hscan) as Hscan'.
  assert (Hdig : digest = rr_PayloadDigest r).
  { unfold scanRecordedCommand in Hscan. inv_res. done. }
  subst digest. unfold RecordRuntimeFirst. rewrite Et, Eo, Em.
  run_tx_step; [exact Hv|].
  run_tx_step; [rewrite Hd; simpl; by rewrite lookup_insert_eq; simpl;
                rewrite bool_decide_eq_true_2|].
  run_tx_step; [exact (eq_sym Hsel)|].
  run_tx_step; [exact Hscan'|].
  unfold mbind, tx_bind, guard, lift, constant_time_eq.
  rewrite (bool_decide_eq_false_2 (rr_PayloadDigest r = _)) by congruence.
  by rewrite orb_true_r.
Qed.

End Commands.

(** ** Witnesses *)

Definition ex_intent : string := "00000000-0000-4000-8000-000000000010".
Definition ex_outbox : string := "00000000-0000-4000-8000-000000000011".
Definition ex_message : string := "00000000-0000-4000-8000-000000000012".

(** A travel-delay command of the example trip, at the given revision. *)
Definition ex_record_request (digest : Byte.byte) : RecordRuntimeCommandRequest :=
  MkRecordRequest ex_intent ex_outbox ex_trip ex_user ex_message ex_message 1
    CommandTravelDelay None (repeat digest 32) (bytes_of_string "{}")
    (bytes_of_string "{}") None.

Definition ex_clock5 : nat -> Z := fun i => 1000 + Z.of_nat i.

Definition ex_recorded : @db pg_model :=
  committed (RecordRuntimeFirst ex_clock5 (ex_record_request Byte.x01)) ex_db.

Lemma ex_recorded_ok : exists c,
  RecordRuntimeFirst ex_clock5 (ex_record_request Byte.x01) ex_db = Ok (c, ex_recorded) /\
  rc_Duplicate c = false.
Proof.
  destruct (returns_ok (fun c => negb (rc_Duplicate c))
    (RecordRuntimeFirst ex_clock5 (ex_record_request Byte.x01)) ex_db
    ltac:(vm_compute; reflexivity)) as (c & Hc & Hd).
  exists c. split; [exact Hc|by destruct (rc_Duplicate c)].
Qed.

Lemma record_new_command_witness :
  exists t, trips ex_db !! ex_trip = Some t /\ t_owner_user_id t = ex_user.
Proof.
  destruct ex_recorded_ok as (c & Hc & Hd).
  destruct (record_new_command _ _ _ _ _ Hc Hd) as (t & _ & _ & Ht & Ho & _).
  exists t. split; [exact Ht|exact Ho].
Defined.

Lemma record_is_idempotent_witness :
  exists c', RecordRuntimeFirst ex_clock5 (ex_record_request Byte.x01) ex_recorded
    = Ok (c', ex_recorded) /\ rc_Duplicate c' = true.
Proof.
  destruct ex_recorded_ok as (c & Hc & Hd).
  destruct (record_is_idempotent _ ex_clock5 _ (ex_record_request Byte.x01) _ _ _ Hc Hd
    ltac:(vm_compute; reflexivity) eq_refl eq_refl eq_refl eq_refl) as (c' & H & Hd' & _).
  exists c'. split; [exact H|exact Hd'].
Defined.

Lemma record_key_reuse_rejected_witness :
  RecordRuntimeFirst ex_clock5 (ex_record_request Byte.x02) ex_recorded
  = Err ErrIdempotencyKeyReused.
Proof.
  destruct ex_recorded_ok as (c & Hc & Hd).
  apply (record_key_reuse_rejected _ ex_clock5 _ (ex_record_request Byte.x02) _ _ _ Hc Hd
    ltac:(vm_compute; reflexivity) eq_refl eq_refl eq_refl).
  discriminate.
Defined.
