(* ===== verification/Finalization.v ===== *)
(** * Terminal finalization and its confirmation

    Models [persistence/command_finalization.go] (a runtime-first command the
    runtime rejected) and [persistence/finalization_confirmation.go] (the
    runtime acknowledged the finalized prefix).  The row lookups and the
    duplicate test are shared with the other finalizers. *)

From S2P Require Import Prelude GoLib Schema Tables Commands.

Section Finalization.
Context {PG : Postgres}.

Record FinalizedCommand := MkFinalizedCommand {
  fc_IntentID : string;
  fc_OutboxID : string;
  fc_TripID : string;
  fc_EventID : string;
  fc_MutationSequence : Z;
  fc_State : intent_state;
  fc_Status : string;
  fc_ResultingTripRevision : Z;
  fc_ResultingPlannerStateVersion : Z;
  fc_FinalizedAt : Z;
  fc_Duplicate : bool
}.

(** ** Shared lookups *)

(** [SELECT ... FROM trips WHERE id = $1 FOR UPDATE]. *)
Definition lock_trip_row (tripID : string) : tx trip :=
  find_row (fun d => trips d !! tripID) ErrTripNotFound.

(** [... FROM command_intents WHERE id AND trip_id AND application_order =
    'runtime_first' FOR UPDATE]. *)
Definition lock_intent (tripID intentID : string) : tx intent :=
  find_row (fun d => i ← intents d !! intentID;
    if bool_decide (i_trip_id i = tripID) &&
       bool_decide (i_application_order i = runtime_first) then Some i else None)
    ErrCommandNotFound.

(** [... FROM planner_outbox WHERE id AND command_intent_id AND trip_id FOR
    UPDATE]. *)
Definition lock_outbox (tripID intentID outboxID : string) : tx outbox_row :=
  find_row (fun d => o ← outbox d !! outboxID;
    if bool_decide (o_command_intent_id o = intentID) &&
       bool_decide (o_trip_id o = tripID) then Some o else None)
    ErrCommandNotFound.

(** [SELECT outcome_payload = $2::jsonb]: NULL cannot be scanned into a [bool]. *)
Definition payload_matches (op : string) (i : intent) (payload : bytes) : result bool :=
  j ← of_option (jsonb_in payload) (ErrDatabase op);
  stored ← of_option (i_outcome_payload i) (ErrDatabase op);
  Ok (bool_decide (stored = j)).

(** The stored outcome is the one being finalized again. *)
Definition outcome_equal (i : intent) (state : intent_state) (status : string)
    (revision version : Z) : bool :=
  bool_decide (i_state i = state) &&
  bool_decide (i_outcome_status i = Some status) &&
  bool_decide (i_resulting_trip_revision i = Some revision) &&
  bool_decide (i_resulting_planner_state_version i = Some version) &&
  negb (is_null (i_finalized_at i)).

(** [finalizedSequence+1 != mutationSequence] with its range tests. *)
Definition not_next (finalized sequence : Z) : bool :=
  (finalized <? 0) || (finalized =? max_int64) || negb (finalized + 1 =? sequence).

(** [UPDATE command_intents SET state, outcome_status, outcome_payload,
    resulting_trip_revision, resulting_planner_state_version, finalized_at]. *)
Definition resolve_intent (state : intent_state) (status : string) (payload : jsonb)
    (revision version now : Z) (i : intent) : intent :=
  set_i_finalized_at (Some now)
    (set_i_resulting_planner_state_version (Some version)
      (set_i_resulting_trip_revision (Some revision)
        (set_i_outcome_payload (Some payload)
          (set_i_outcome_status (Some status) (set_i_state state i))))).

(** [UPDATE planner_outbox SET delivery_state, last_status, claim_owner = NULL,
    claim_expires_at = NULL, updated_at]. *)
Definition resolve_outbox (state : delivery_state) (status : string) (now : Z)
    (o : outbox_row) : outbox_row :=
  set_o_updated_at now
    (set_o_claim_expires_at None
      (set_o_claim_owner None
        (set_o_last_status (Some status) (set_o_delivery_state state o)))).

(** ** [FinalizeTerminal] *)

Inductive TerminalStatus :=
| TerminalStatusStale | TerminalStatusInvalidArgument | TerminalStatusNotFound
| TerminalStatusCommandExpired | TerminalStatusInfeasible
| TerminalStatusOther (s : string).
#[global] Instance TerminalStatus_eq_dec : EqDecision TerminalStatus.
Proof. solve_decision. Defined.

(** The constants' strings. *)
Definition status_text (s : TerminalStatus) : string :=
  match s with
  | TerminalStatusStale => "STALE"
  | TerminalStatusInvalidArgument => "INVALID_ARGUMENT"
  | TerminalStatusNotFound => "NOT_FOUND"
  | TerminalStatusCommandExpired => "COMMAND_EXPIRED"
  | TerminalStatusInfeasible => "INFEASIBLE"
  | TerminalStatusOther s => s
  end.

Definition status_valid (s : TerminalStatus) : bool :=
  match s with TerminalStatusOther _ => false | _ => true end.

Record FinalizeTerminalCommandRequest := MkTerminalRequest {
  ft_TripID : string;
  ft_IntentID : string;
  ft_OutboxID : string;
  ft_EventID : string;
  ft_MutationSequence : Z;
  ft_ExpectedTripRevision : Z;
  ft_ResultingPlannerStateVersion : Z;
  ft_Status : TerminalStatus;
  ft_OutcomePayload : bytes
}.

Definition validateTerminalFinalization (r : FinalizeTerminalCommandRequest) : result unit :=
  _ ← reject_if (negb (forallb validCanonicalUUID
          [ft_TripID r; ft_IntentID r; ft_OutboxID r; ft_EventID r]))
        (ErrInvalid "finalization identifiers must be canonical lowercase UUIDs");
  _ ← reject_if ((ft_MutationSequence r =? 0) || (max_int64 <? ft_MutationSequence r) ||
                 (max_int64 <? ft_ExpectedTripRevision r) ||
                 (max_int64 <? ft_ResultingPlannerStateVersion r))
        (ErrInvalid "finalization versions are out of range");
  _ ← reject_if (negb (status_valid (ft_Status r)))
        (ErrInvalid "status is not a terminal durable-command rejection");
  reject_if (negb (json_Valid (ft_OutcomePayload r)))
    (ErrInvalid "terminal outcome payload must be valid JSON").

Definition terminalIntentState (s : TerminalStatus) : intent_state :=
  if bool_decide (s = TerminalStatusCommandExpired) then IntentExpired else IntentRejected.

Definition is_proposal_decision (k : CommandKind) : bool :=
  bool_decide (k = CommandAcceptProposal) || bool_decide (k = CommandRejectProposal).

Definition terminal_result (r : FinalizeTerminalCommandRequest) (revision at_ : Z)
    (duplicate : bool) : FinalizedCommand :=
  MkFinalizedCommand (ft_IntentID r) (ft_OutboxID r) (ft_TripID r) (ft_EventID r)
    (ft_MutationSequence r) (terminalIntentState (ft_Status r)) (status_text (ft_Status r))
    (uint64 revision) (ft_ResultingPlannerStateVersion r) at_ duplicate.

(** The second half: the intent is pending. *)
Definition finalize_terminal_pending (clk : nat -> Z) (r : FinalizeTerminalCommandRequest)
    (t : trip) (i : intent) : tx FinalizedCommand :=
  _ ← guard (negb (t_trip_revision t =? i_expected_trip_revision i)) ErrTripRevisionStale;
  _ ← guard (not_next (t_finalized_mutation_sequence t) (i_mutation_sequence i))
        ErrCommandFinalizationOutOfOrder;
  let now := clk 0%nat in
  _ ← update_trip "advance finalized mutation sequence" (ft_TripID r) (fun t =>
        set_t_updated_at now
          (set_t_finalized_mutation_sequence (i_mutation_sequence i) t));
  payload ← lift (of_option (jsonb_in (ft_OutcomePayload r))
                    (ErrDatabase "resolve terminal intent"));
  _ ← update_intent "resolve terminal intent" (ft_IntentID r)
        (resolve_intent (terminalIntentState (ft_Status r)) (status_text (ft_Status r))
           payload (t_trip_revision t) (int64 (ft_ResultingPlannerStateVersion r)) now);
  _ ← update_outbox (ft_OutboxID r)
        (resolve_outbox DeliveryTerminalRejected (status_text (ft_Status r)) now);
  mret (terminal_result r (t_trip_revision t) now false).

Definition FinalizeTerminal (clk : nat -> Z) (r : FinalizeTerminalCommandRequest)
  : tx FinalizedCommand :=
  _ ← lift (validateTerminalFinalization r);
  t ← lock_trip_row (ft_TripID r);
  i ← lock_intent (ft_TripID r) (ft_IntentID r);
  o ← lock_outbox (ft_TripID r) (ft_IntentID r) (ft_OutboxID r);
  _ ← guard (negb (bool_decide (i_event_id i = ft_EventID r)) ||
             negb (i_mutation_sequence i =? int64 (ft_MutationSequence r)) ||
             negb (i_expected_trip_revision i =? int64 (ft_ExpectedTripRevision r)))
        ErrCommandFinalizationConflict;
  _ ← guard (bool_decide (ft_Status r = TerminalStatusStale) &&
             is_proposal_decision (i_command_kind i)) ErrProposalFinalizationRequired;
  if bool_decide (i_state i = IntentPending) then finalize_terminal_pending clk r t i
  else
    payloadMatches ← lift (payload_matches "compare terminal outcome payload" i
                             (ft_OutcomePayload r));
    _ ← guard (negb (outcome_equal i (terminalIntentState (ft_Status r))
                       (status_text (ft_Status r)) (i_expected_trip_revision i)
                       (int64 (ft_ResultingPlannerStateVersion r)) &&
                     bool_decide (o_delivery_state o = DeliveryTerminalRejected) &&
                     payloadMatches)) ErrCommandFinalizationConflict;
    mret (terminal_result r (i_expected_trip_revision i)
            (default 0 (i_finalized_at i)) true).

(** ** [ConfirmFinalizedMutations] *)

Record ConfirmedFinalizedMutations := MkConfirmed {
  cf_TripID : string;
  cf_FinalizedMutationSequence : Z;
  cf_ConfirmedAt : option Z;
  cf_RowsConfirmed : Z;
  cf_Duplicate : bool
}.

Definition validateFinalizationConfirmation (tripID : string) (sequence : Z) : result unit :=
  _ ← reject_if (negb (validCanonicalUUID tripID))
        (ErrInvalid "finalization confirmation trip id must be a canonical lowercase UUID");
  reject_if ((sequence =? 0) || (max_int64 <? sequence))
    (ErrInvalid "finalization confirmation sequence is invalid").

(** [WHERE trip_id = $1 AND mutation_sequence <= $2]. *)
Definition covered (tripID : string) (sequence : Z) (o : outbox_row) : bool :=
  bool_decide (o_trip_id o = tripID) && (o_mutation_sequence o <=? sequence).

Definition delivery_resolved (o : outbox_row) : bool :=
  bool_decide (o_delivery_state o = DeliveryAccepted) ||
  bool_decide (o_delivery_state o = DeliveryTerminalRejected).

(** The covered rows this confirmation still has to confirm. *)
Definition unconfirmed (tripID : string) (sequence : Z) (_ : string) (o : outbox_row) : bool :=
  covered tripID sequence o && delivery_resolved o && is_null (o_finalization_confirmed_at o).

(** [max(finalization_confirmed_at)] of the rows selected. *)
Definition max_confirmed (P : string -> outbox_row -> bool) (d : db) : option Z :=
  foldr (fun kv acc =>
    match o_finalization_confirmed_at kv.2, acc with
    | Some t, Some u => Some (Z.max t u)
    | Some t, None => Some t
    | None, _ => acc
    end) None (rows_where P (outbox d)).

(** [cf_ConfirmedAt] is [None] for Go's zero time: no row is covered. *)
Definition ConfirmFinalizedMutations (clk : nat -> Z) (tripID : string) (sequence : Z)
  : tx ConfirmedFinalizedMutations :=
  _ ← lift (validateFinalizationConfirmation tripID sequence);
  t ← lock_trip_row tripID;
  _ ← guard ((t_finalized_mutation_sequence t <? 0) ||
             (uint64 (t_finalized_mutation_sequence t) <? sequence))
        ErrFinalizationConfirmationAhead;
  blocked ← gets (fun d => any_row (fun _ o =>
               covered tripID (int64 sequence) o && negb (delivery_resolved o)) (outbox d));
  _ ← guard blocked ErrFinalizationConfirmationBlocked;
  rowsToConfirm ← gets (fun d => count_rows (unconfirmed tripID (int64 sequence)) (outbox d));
  if 0 <? rowsToConfirm then
    let now := clk 0%nat in
    _ ← modify (fun d => set_outbox (update_rows (unconfirmed tripID (int64 sequence))
          (fun o => set_o_updated_at now (set_o_finalization_confirmed_at (Some now) o))
          (outbox d)) d);
    mret (MkConfirmed tripID sequence (Some now) rowsToConfirm false)
  else
    at_ ← gets (max_confirmed (fun _ => covered tripID (int64 sequence)));
    mret (MkConfirmed tripID sequence at_ rowsToConfirm true).

(** ** Lemmas *)

Lemma lock_trip_row_ok tripID d t d' :
  lock_trip_row tripID d = Ok (t, d') <-> trips d !! tripID = Some t /\ d' = d.
Proof. unfold lock_trip_row. by rewrite find_row_ok. Qed.

Lemma lock_intent_ok tripID intentID d i d' :
  lock_intent tripID intentID d = Ok (i, d') <->
  (intents d !! intentID = Some i /\ i_trip_id i = tripID /\
   i_application_order i = runtime_first) /\ d' = d.
Proof.
  unfold lock_intent. rewrite find_row_ok, bind_Some. split.
  - intros [(x & Hx & Hc) ->]. case_match eqn:E; simplify_eq. inv_res. done.
  - intros [(Hi & Ht & Ho) ->]. split; [|done]. exists i.
    by rewrite !bool_decide_eq_true_2.
Qed.

Lemma lock_outbox_ok tripID intentID outboxID d o d' :
  lock_outbox tripID intentID outboxID d = Ok (o, d') <->
  (outbox d !! outboxID = Some o /\ o_command_intent_id o = intentID /\
   o_trip_id o = tripID) /\ d' = d.
Proof.
  unfold lock_outbox. rewrite find_row_ok, bind_Some. split.
  - intros [(x & Hx & Hc) ->]. case_match eqn:E; simplify_eq. inv_res. done.
  - intros [(Hi & Ht & Ho) ->]. split; [|done]. exists o.
    by rewrite !bool_decide_eq_true_2.
Qed.

Lemma not_next_false finalized sequence :
  not_next finalized sequence = false <->
  0 <= finalized /\ finalized <> max_int64 /\ sequence = finalized + 1.
Proof.
  unfold not_next. rewrite !orb_false_iff, negb_false_iff, Z.ltb_ge, Z.eqb_neq, Z.eqb_eq.
  naive_solver lia.
Qed.

Lemma payload_matches_ok op i payload b :
  payload_matches op i payload = Ok b <->
  exists j s, jsonb_in payload = Some j /\ i_outcome_payload i = Some s /\
    b = bool_decide (s = j).
Proof.
  unfold payload_matches. destruct (jsonb_in payload), (i_outcome_payload i); simpl;
    naive_solver.
Qed.

Lemma outcome_equal_resolved state status payload revision version now i :
  outcome_equal (resolve_intent state status payload revision version now i)
    state status revision version = true.
Proof. unfold outcome_equal. simpl. by rewrite !bool_decide_eq_true_2. Qed.

End Finalization.

(** Splits the row lookups of a successful finalization. *)
Ltac inv_lock_step :=
  match goal with
  | H : lock_trip_row _ _ = Ok (_, _) |- _ => apply lock_trip_row_ok in H; destruct H
  | H : lock_intent _ _ _ = Ok (_, _) |- _ =>
      apply lock_intent_ok in H; destruct H as [(? & ? & ?) ?]
  | H : lock_outbox _ _ _ _ = Ok (_, _) |- _ =>
      apply lock_outbox_ok in H; destruct H as [(? & ? & ?) ?]
  | H : update_trip _ ?id _ ?d = Ok (_, _), Ht : trips ?d0 !! ?id = Some ?t |- _ =>
      let E := fresh in
      assert (E : trips d !! id = Some t) by exact Ht;
      apply (update_trip_ok _ _ _ _ _ _ _ E) in H; clear E; destruct H
  | H : update_intent _ ?id _ ?d = Ok (_, _), Hi : intents ?d0 !! ?id = Some ?i |- _ =>
      let E := fresh in
      assert (E : intents d !! id = Some i) by exact Hi;
      apply (update_intent_ok _ _ _ _ _ _ _ E) in H; clear E; destruct H
  | H : update_outbox _ _ _ = Ok (_, _) |- _ => apply update_outbox_ok in H
  | H : update_proposals _ _ _ _ = Ok (_, _) |- _ =>
      apply update_proposals_ok in H; destruct H
  | H : insert_intent _ _ _ _ = Ok (_, _) |- _ => apply insert_intent_ok in H; destruct H
  | H : insert_outbox _ _ _ _ = Ok (_, _) |- _ => apply insert_outbox_ok in H; destruct H
  | H : insert_proposal _ _ _ _ = Ok (_, _) |- _ => apply insert_proposal_ok in H; destruct H
  | H : insert_plan _ _ _ _ = Ok (_, _) |- _ => apply insert_plan_ok in H; destruct H
  end.
Ltac inv_op := repeat ((inv_lock_step || inv_tx_step || inv_res_step); simplify_eq).

Section TerminalFacts.
Context {PG : Postgres}.

(** The database after a pending command is resolved as rejected. *)
Definition terminal_effect (now : Z) (r : FinalizeTerminalCommandRequest) (t : trip)
    (i : intent) (o : outbox_row) (payload : jsonb) (d : db) : db :=
  set_outbox (<[ft_OutboxID r := resolve_outbox DeliveryTerminalRejected
      (status_text (ft_Status r)) now o]> (outbox d))
    (set_intents (<[ft_IntentID r := resolve_intent (terminalIntentState (ft_Status r))
        (status_text (ft_Status r)) payload (t_trip_revision t)
        (int64 (ft_ResultingPlannerStateVersion r)) now i]> (intents d))
      (set_trips (<[ft_TripID r := set_t_updated_at now
          (set_t_finalized_mutation_sequence (i_mutation_sequence i) t)]> (trips d)) d)).

Record terminal_finalized (clk : nat -> Z) (r : FinalizeTerminalCommandRequest)
    (t : trip) (i : intent) (o : outbox_row) (payload : jsonb) (d d' : db) : Prop := {
  tf_valid : validateTerminalFinalization r = Ok tt;
  tf_trip : trips d !! ft_TripID r = Some t;
  tf_intent : intents d !! ft_IntentID r = Some i;
  tf_intent_trip : i_trip_id i = ft_TripID r;
  tf_order : i_application_order i = runtime_first;
  tf_outbox : outbox d !! ft_OutboxID r = Some o;
  tf_outbox_intent : o_command_intent_id o = ft_IntentID r;
  tf_outbox_trip : o_trip_id o = ft_TripID r;
  tf_event : i_event_id i = ft_EventID r;
  tf_sequence : i_mutation_sequence i = int64 (ft_MutationSequence r);
  tf_expected : i_expected_trip_revision i = int64 (ft_ExpectedTripRevision r);
  tf_kind : ft_Status r = TerminalStatusStale ->
    is_proposal_decision (i_command_kind i) = false;
  tf_pending : i_state i = IntentPending;
  tf_revision : t_trip_revision t = i_expected_trip_revision i;
  tf_next : not_next (t_finalized_mutation_sequence t) (i_mutation_sequence i) = false;
  tf_payload : jsonb_in (ft_OutcomePayload r) = Some payload;
  tf_effect : d' = terminal_effect (clk 0%nat) r t i o payload d
}.

Lemma alter_insert_Some {A} (f : A -> A) (m : gmap string A) k x :
  m !! k = Some x -> alter f k m = <[k := f x]> m.
Proof.
  intros H. apply map_eq. intros k'. destruct (decide (k = k')) as [->|Hne].
  - by rewrite lookup_alter_eq, lookup_insert_eq, H.
  - by rewrite lookup_alter_ne, lookup_insert_ne by done.
Qed.

Lemma FinalizeTerminal_ok clk r d c d' :
  FinalizeTerminal clk r d = Ok (c, d') ->
  (fc_Duplicate c = true /\ d' = d) \/
  (exists t i o payload, terminal_finalized clk r t i o payload d d' /\
     c = terminal_result r (t_trip_revision t) (clk 0%nat) false).
Proof.
  unfold FinalizeTerminal. intros H. inv_op. case_bool_decide; [|by inv_op; left].
  right. unfold finalize_terminal_pending in *. inv_op. zbool.
  do 4 eexists. split; [|done]. econstructor; try done.
  - intros Hs. match goal with H : _ && _ = false |- _ =>
      by rewrite bool_decide_eq_true_2 in H end.
  - unfold terminal_effect. simpl.
    by erewrite alter_insert_Some by (simpl; eassumption).
Qed.

(** The rows a repeated finalization reads. *)
Lemma terminal_effect_rows now r t i o payload d :
  let d' := terminal_effect now r t i o payload d in
  trips d' !! ft_TripID r = Some (set_t_updated_at now
    (set_t_finalized_mutation_sequence (i_mutation_sequence i) t)) /\
  intents d' !! ft_IntentID r = Some (resolve_intent (terminalIntentState (ft_Status r))
    (status_text (ft_Status r)) payload (t_trip_revision t)
    (int64 (ft_ResultingPlannerStateVersion r)) now i) /\
  outbox d' !! ft_OutboxID r = Some (resolve_outbox DeliveryTerminalRejected
    (status_text (ft_Status r)) now o).
Proof. simpl. by rewrite !lookup_insert_eq. Qed.

Lemma terminalIntentState_resolved s : terminalIntentState s <> IntentPending.
Proof. unfold terminalIntentState. by case_bool_decide. Qed.

(** The lookups of a repeated finalization, up to the duplicate test. *)
Lemma FinalizeTerminal_again clk clk' r r' t i o payload d d' :
  terminal_finalized clk r t i o payload d d' ->
  validateTerminalFinalization r' = Ok tt ->
  ft_TripID r' = ft_TripID r -> ft_IntentID r' = ft_IntentID r ->
  ft_OutboxID r' = ft_OutboxID r -> ft_EventID r' = ft_EventID r ->
  ft_MutationSequence r' = ft_MutationSequence r ->
  ft_ExpectedTripRevision r' = ft_ExpectedTripRevision r ->
  (ft_Status r' = TerminalStatusStale -> is_proposal_decision (i_command_kind i) = false) ->
  let i' := resolve_intent (terminalIntentState (ft_Status r)) (status_text (ft_Status r))
    payload (t_trip_revision t) (int64 (ft_ResultingPlannerStateVersion r)) (clk 0%nat) i in
  FinalizeTerminal clk' r' d' =
  (payloadMatches ← lift (payload_matches "compare terminal outcome payload" i'
                             (ft_OutcomePayload r'));
   _ ← guard (negb (outcome_equal i' (terminalIntentState (ft_Status r'))
                       (status_text (ft_Status r')) (i_expected_trip_revision i')
                       (int64 (ft_ResultingPlannerStateVersion r')) &&
                     true && payloadMatches)) ErrCommandFinalizationConflict;
   mret (terminal_result r' (i_expected_trip_revision i') (clk 0%nat) true)) d'.
Proof.
  intros [_ _ _ Htr Hor _ Hoi Hot Hev Hse Hex _ Hpe _ _ _ ->] Hv Et Ei Eo Ee Es Er Hk i'.
  destruct (terminal_effect_rows (clk 0%nat) r t i o payload d) as (Ht & Hi & Ho).
  set (d' := terminal_effect _ _ _ _ _ _ _) in *.
  unfold FinalizeTerminal. rewrite Et, Ei, Eo, Ee, Es, Er.
  run_tx_step; [exact Hv|].
  eapply tx_bind_run; [by apply lock_trip_row_ok|].
  eapply tx_bind_run; [by apply lock_intent_ok|].
  eapply tx_bind_run; [by apply lock_outbox_ok|].
  run_tx_step.
  { simpl. rewrite bool_decide_eq_true_2 by done. simpl. rewrite Hse, Hex, !Z.eqb_refl. done. }
  run_tx_step.
  { simpl. case_bool_decide; [|done]. by rewrite Hk. }
  simpl. rewrite bool_decide_eq_false_2 by apply terminalIntentState_resolved. done.
Qed.

(** ** Properties *)

(** What rejecting a command does.  It succeeds for a pending command only
    when the command is the next one to finalize and the trip is still at the
    revision the command expected; it advances the finalized sequence by exactly
    one, keeps the trip revision, resolves the intent and its outbox row with
    the claim cleared, and leaves every other row of every table as it was. *)
Theorem terminal_finalization_effect clk r d c d' :
  FinalizeTerminal clk r d = Ok (c, d') -> fc_Duplicate c = false ->
  exists t i o payload,
    trips d !! ft_TripID r = Some t /\ intents d !! ft_IntentID r = Some i /\
    outbox d !! ft_OutboxID r = Some o /\ i_state i = IntentPending /\
    t_trip_revision t = i_expected_trip_revision i /\
    i_mutation_sequence i = t_finalized_mutation_sequence t + 1 /\
    d' = terminal_effect (clk 0%nat) r t i o payload d.
Proof.
  intros H Hd. apply FinalizeTerminal_ok in H as [[? _]|(t & i & o & payload & H & _)];
    [congruence|].
  exists t, i, o, payload. destruct H as [_ ? ? _ _ ? _ _ _ _ _ _ ? ? Hn _ ?].
  apply not_next_false in Hn as (_ & _ & ?). done.
Qed.

(** Finalizing twice.  Repeating a terminal finalization that committed,
    with the same outcome, succeeds, is flagged as a duplicate and changes
    nothing, so a lost acknowledgement is harmless. *)
Theorem terminal_finalization_idempotent clk clk' r d c d' :
  FinalizeTerminal clk r d = Ok (c, d') -> fc_Duplicate c = false ->
  exists c', FinalizeTerminal clk' r d' = Ok (c', d') /\ fc_Duplicate c' = true /\
    fc_State c' = fc_State c /\ fc_Status c' = fc_Status c /\
    fc_FinalizedAt c' = fc_FinalizedAt c /\
    fc_ResultingTripRevision c' = fc_ResultingTripRevision c.
Proof.
  intros H Hd. apply FinalizeTerminal_ok in H as [[? _]|(t & i & o & payload & H & ->)];
    [congruence|].
  exists (terminal_result r (i_expected_trip_revision i) (clk 0%nat) true).
  split_and!; [|done..|].
  - erewrite (FinalizeTerminal_again _ _ r r _ _ _ _ _ _ H); try done; try apply H.
    run_tx_step; [apply payload_matches_ok; eexists _, _; split_and!; [apply H|done|done]|].
    run_tx_step; [|reflexivity]. rewrite bool_decide_eq_true_2 by done.
    rewrite andb_true_r. simpl.
    rewrite <- (tf_revision _ _ _ _ _ _ _ _ H). by rewrite outcome_equal_resolved.
  - simpl. by rewrite (tf_revision _ _ _ _ _ _ _ _ H).
Qed.

(** An outcome is decided once.  After a command is finalized as rejected,
    another terminal status or another outcome payload for it is refused with
    [ErrCommandFinalizationConflict]. *)
Theorem terminal_finalization_conflict clk clk' r r' d c d' :
  FinalizeTerminal clk r d = Ok (c, d') -> fc_Duplicate c = false ->
  validateTerminalFinalization r' = Ok tt ->
  ft_TripID r' = ft_TripID r -> ft_IntentID r' = ft_IntentID r ->
  ft_OutboxID r' = ft_OutboxID r -> ft_EventID r' = ft_EventID r ->
  ft_MutationSequence r' = ft_MutationSequence r ->
  ft_ExpectedTripRevision r' = ft_ExpectedTripRevision r ->
  (forall i, intents d !! ft_IntentID r = Some i ->
     is_proposal_decision (i_command_kind i) = false) ->
  is_Some (jsonb_in (ft_OutcomePayload r')) ->
  status_text (ft_Status r') <> status_text (ft_Status r) \/
  jsonb_in (ft_OutcomePayload r') <> jsonb_in (ft_OutcomePayload r) ->
  FinalizeTerminal clk' r' d' = Err ErrCommandFinalizationConflict.
Proof.
  intros H Hd Hv Et Ei Eo Ee Es Er Hk [j Hj] Hdiff.
  apply FinalizeTerminal_ok in H as [[? _]|(t & i & o & payload & H & _)]; [congruence|].
  assert (Hki : is_proposal_decision (i_command_kind i) = false) by (apply Hk, H).
  rewrite (FinalizeTerminal_again _ _ r r' _ _ _ _ _ _ H) by done.
  run_tx_step; [apply payload_matches_ok; eexists _, _; split_and!; [exact Hj|done|done]|].
  unfold mbind, tx_bind, guard, lift. rewrite andb_true_r.
  match goal with |- context [reject_if (negb ?b) _] => assert (b = false) as -> end; [|done].
  apply andb_false_iff. destruct Hdiff as [Hs|Hp].
  - left. unfold outcome_equal. simpl.
    rewrite (bool_decide_eq_false_2 (Some _ = Some _)) by congruence.
    by rewrite andb_false_r.
  - right. apply bool_decide_eq_false. intros ->. apply Hp.
    rewrite Hj. symmetry. apply (tf_payload _ _ _ _ _ _ _ _ H).
Qed.

(** Confirmation.  It succeeds only for a prefix PostgreSQL has finalized
    and in which every outbox row is resolved; afterwards every row of that
    prefix is confirmed, no row was un-confirmed, and no other row changed. *)
Theorem confirmation_covers_prefix clk tripID sequence d c d' :
  0 <= sequence ->
  ConfirmFinalizedMutations clk tripID sequence d = Ok (c, d') ->
  (exists t, trips d !! tripID = Some t /\ sequence <= uint64 (t_finalized_mutation_sequence t)) /\
  (forall k o', outbox d' !! k = Some o' -> exists o, outbox d !! k = Some o /\
     o_delivery_state o' = o_delivery_state o /\
     (if covered tripID sequence o
      then delivery_resolved o = true /\ o_finalization_confirmed_at o' <> None
      else o' = o)) /\
  (forall k, is_Some (outbox d !! k) -> is_Some (outbox d' !! k)).
Proof.
  intros Hge H. unfold ConfirmFinalizedMutations in H. inv_op.
  assert (Hmax : sequence <= max_int64).
  { match goal with H : validateFinalizationConfirmation _ _ = _ |- _ =>
      unfold validateFinalizationConfirmation in H; inv_res end. by zbool. }
  assert (Hint : int64 sequence = sequence) by (apply int64_small; lia).
  rewrite Hint in *. zbool. split; [eauto|].
  match goal with H : false = any_row _ _ |- _ =>
    symmetry in H; rewrite any_row_false in H; rename H into Hb end.
  assert (Hres : forall k o, outbox d !! k = Some o -> covered tripID sequence o = true ->
    delivery_resolved o = true).
  { intros k o Hk Hc. specialize (Hb _ _ Hk). rewrite Hc in Hb. by apply negb_false_iff in Hb. }
  case_match eqn:Hn; inv_op.
  - simpl. split.
    + intros k o'. rewrite lookup_update_rows_Some. intros (o & Hk & ->).
      exists o. split; [done|]. unfold unconfirmed.
      destruct (covered tripID sequence o) eqn:Hc; [|done].
      rewrite (Hres _ _ Hk Hc). simpl.
      destruct (o_finalization_confirmed_at o) eqn:E; simpl; [by rewrite E|done].
    + intros k [o Ho]. rewrite lookup_update_rows, Ho. by eexists.
  - zbool. split; [|done]. intros k o Hk. exists o. split_and!; [done..|].
    destruct (covered tripID sequence o) eqn:Hc; [|done]. split; [by eapply Hres|].
    intros Hnone. assert (Hz : count_rows (unconfirmed tripID sequence) (outbox d') = 0).
    { pose proof (count_rows_nonneg (unconfirmed tripID sequence) (outbox d')). lia. }
    apply count_rows_zero in Hz. rewrite any_row_false in Hz. specialize (Hz _ _ Hk).
    unfold unconfirmed in Hz. by rewrite Hc, (Hres _ _ Hk Hc), Hnone in Hz.
Qed.

End TerminalFacts.

(** ** Witnesses: the example command is rejected as not found, then confirmed. *)

Definition ex_terminal_request : FinalizeTerminalCommandRequest :=
  MkTerminalRequest ex_trip ex_intent ex_outbox ex_message 1 1 4 TerminalStatusNotFound
    (bytes_of_string "{}").

Definition ex_terminal : @db pg_model :=
  committed (FinalizeTerminal ex_clock5 ex_terminal_request) ex_recorded.

Lemma ex_terminal_ok : exists c,
  FinalizeTerminal ex_clock5 ex_terminal_request ex_recorded = Ok (c, ex_terminal) /\
  fc_Duplicate c = false.
Proof.
  destruct (returns_ok (fun c => negb (fc_Duplicate c))
    (FinalizeTerminal ex_clock5 ex_terminal_request) ex_recorded
    ltac:(vm_compute; reflexivity)) as (c & Hc & Hd).
  exists c. split; [exact Hc|by destruct (fc_Duplicate c)].
Qed.

Lemma terminal_finalization_effect_witness :
  exists t i, trips ex_recorded !! ex_trip = Some t /\
    intents ex_recorded !! ex_intent = Some i /\
    i_mutation_sequence i = t_finalized_mutation_sequence t + 1.
Proof.
  destruct ex_terminal_ok as (c & Hc & Hd).
  destruct (terminal_finalization_effect _ _ _ _ _ Hc Hd)
    as (t & i & o & p & Ht & Hi & _ & _ & _ & Hs & _).
  exists t, i. split; [exact Ht|split; [exact Hi|exact Hs]].
Defined.

Lemma terminal_finalization_idempotent_witness :
  exists c', FinalizeTerminal ex_clock5 ex_terminal_request ex_terminal
    = Ok (c', ex_terminal) /\ fc_Duplicate c' = true.
Proof.
  destruct ex_terminal_ok as (c & Hc & Hd).
  destruct (terminal_finalization_idempotent _ ex_clock5 _ _ _ _ Hc Hd) as (c' & H & Hd' & _).
  exists c'. split; [exact H|exact Hd'].
Defined.

Definition ex_terminal_other : FinalizeTerminalCommandRequest :=
  MkTerminalRequest ex_trip ex_intent ex_outbox ex_message 1 1 4 TerminalStatusInfeasible
    (bytes_of_string "{}").

Lemma terminal_finalization_conflict_witness :
  FinalizeTerminal ex_clock5 ex_terminal_other ex_terminal
  = Err ErrCommandFinalizationConflict.
Proof.
  destruct ex_terminal_ok as (c & Hc & Hd).
  refine (terminal_finalization_conflict _ ex_clock5 _ ex_terminal_other _ _ _ Hc Hd
    _ eq_refl eq_refl eq_refl eq_refl eq_refl eq_refl _ _ _).
  - vm_compute. reflexivity.
  - intros i Hi.
    assert (Hk : option_map (@i_command_kind pg_model)
      (intents ex_recorded !! ft_IntentID ex_terminal_request) = Some CommandTravelDelay)
      by (vm_compute; reflexivity).
    rewrite Hi in Hk. injection Hk as Hk. rewrite Hk. reflexivity.
  - eexists. vm_compute. reflexivity.
  - left. discriminate.
Defined.

Lemma confirmation_covers_prefix_witness :
  exists t, trips ex_terminal !! ex_trip = Some t /\
    1 <= uint64 (t_finalized_mutation_sequence t).
Proof.
  destruct (committed_ok (ConfirmFinalizedMutations ex_clock5 ex_trip 1) ex_terminal
    ltac:(vm_compute; reflexivity)) as [c Hc].
  exact (proj1 (confirmation_covers_prefix ex_clock5 ex_trip 1 _ _ _ ltac:(lia) Hc)).
Defined.
