(* ===== verification/Mutations.v ===== *)
(** * Accepted mutations

    Models [persistence/accepted_mutations.go]: a runtime-first command the
    runtime accepted is applied to the canonical tables, invalidates the
    pending proposal, and advances the trip's revision and finalized sequence. *)

From S2P Require Import Prelude GoLib Schema Tables Commands Finalization.

Section Mutations.
Context {PG : Postgres}.

(** [ActivityState] is its column text. *)
Definition activity_state_valid (s : string) : bool :=
  bool_decide (s ∈ ["planned"; "started"; "completed"; "skipped"]).

Record MutationWindow := MkWindow {
  mw_OpensAtUnixMilliseconds : Z;
  mw_ClosesAtUnixMilliseconds : Z
}.

Record ActivityStatusMutation := MkStatus { ms_ActivityID : string; ms_State : string }.
Record ActivityDelayMutation := MkDelay { md_ActivityID : string; md_DelaySeconds : Z }.
Record ReservationMutation := MkReservation {
  mr_ActivityID : string;
  mr_ReservationStartUnixMilliseconds : option Z;
  mr_ReservationGraceSeconds : Z
}.
Record MandatoryDeadlineMutation := MkDeadline {
  mm_ActivityID : string; mm_LatestFinishUnixMilliseconds : Z
}.
Record OperatingHoursMutation := MkHours {
  mo_ActivityID : string; mo_OpenWindows : list MutationWindow
}.
Record PlaceFoundClosedMutation := MkClosed {
  mp_ActivityID : string; mp_ObservedAtUnixMilliseconds : Z
}.
Record TravelDelayMutation := MkTravel {
  mt_FromActivityID : string;
  mt_ToActivityID : string;
  mt_AdditionalSeconds : Z;
  mt_ObservedAtUnixMilliseconds : Z
}.

Record AcceptedMutation := MkMutation {
  am_ActivityStatus : option ActivityStatusMutation;
  am_ActivityDelay : option ActivityDelayMutation;
  am_Reservation : option ReservationMutation;
  am_MandatoryDeadline : option MandatoryDeadlineMutation;
  am_OperatingHours : option OperatingHoursMutation;
  am_PlaceFoundClosed : option PlaceFoundClosedMutation;
  am_TravelDelay : option TravelDelayMutation
}.

Record FinalizeAcceptedMutationRequest := MkMutationRequest {
  fa_TripID : string;
  fa_IntentID : string;
  fa_OutboxID : string;
  fa_EventID : string;
  fa_MutationSequence : Z;
  fa_ExpectedTripRevision : Z;
  fa_ResultingPlannerStateVersion : Z;
  fa_Mutation : AcceptedMutation;
  fa_OutcomePayload : bytes
}.

(** [AcceptedMutation.kind]: the kinds that are set, exactly one. *)
Definition mutation_kind (m : AcceptedMutation) : result CommandKind :=
  let set candidate (present : bool) := if present then [candidate] else [] in
  match set CommandActivityStatusChanged (negb (is_null (am_ActivityStatus m))) ++
        set CommandActivityDelayed (negb (is_null (am_ActivityDelay m))) ++
        set CommandReservationChanged (negb (is_null (am_Reservation m))) ++
        set CommandMandatoryDeadlineChanged (negb (is_null (am_MandatoryDeadline m))) ++
        set CommandOperatingHoursChanged (negb (is_null (am_OperatingHours m))) ++
        set CommandPlaceFoundClosed (negb (is_null (am_PlaceFoundClosed m))) ++
        set CommandTravelDelay (negb (is_null (am_TravelDelay m))) with
  | [kind] => Ok kind
  | _ => Err (ErrInvalid "exactly one accepted mutation is required")
  end.

(** The loop over the operating-hours windows; [previousClose] is [None] at
    index 0. *)
Fixpoint windows_normalized (previousClose : option Z) (l : list MutationWindow) : bool :=
  match l with
  | [] => true
  | w :: l =>
      negb ((mw_ClosesAtUnixMilliseconds w <=? mw_OpensAtUnixMilliseconds w) ||
            match previousClose with
            | Some c => mw_OpensAtUnixMilliseconds w <? c
            | None => false
            end) &&
      windows_normalized (Some (mw_ClosesAtUnixMilliseconds w)) l
  end.

(** The [switch kind] of [validateAcceptedMutationRequest]: the activities the
    mutation names.  [mutation_kind] has set the field of its kind. *)
Definition mutation_activities (m : AcceptedMutation) (kind : CommandKind)
  : result (list string) :=
  match kind, m with
  | CommandActivityStatusChanged, MkMutation (Some s) _ _ _ _ _ _ =>
      _ ← reject_if (negb (activity_state_valid (ms_State s)))
            (ErrInvalid "activity state is invalid");
      Ok [ms_ActivityID s]
  | CommandActivityDelayed, MkMutation _ (Some v) _ _ _ _ _ =>
      _ ← reject_if (max_int32 <? md_DelaySeconds v)
            (ErrInvalid "activity delay is out of range");
      Ok [md_ActivityID v]
  | CommandReservationChanged, MkMutation _ _ (Some v) _ _ _ _ =>
      _ ← reject_if (max_int32 <? mr_ReservationGraceSeconds v)
            (ErrInvalid "reservation grace is out of range");
      Ok [mr_ActivityID v]
  | CommandMandatoryDeadlineChanged, MkMutation _ _ _ (Some v) _ _ _ =>
      Ok [mm_ActivityID v]
  | CommandOperatingHoursChanged, MkMutation _ _ _ _ (Some v) _ _ =>
      _ ← reject_if (negb (windows_normalized None (mo_OpenWindows v)))
            (ErrInvalid "operating-hours windows must be normalized");
      Ok [mo_ActivityID v]
  | CommandPlaceFoundClosed, MkMutation _ _ _ _ _ (Some v) _ => Ok [mp_ActivityID v]
  | CommandTravelDelay, MkMutation _ _ _ _ _ _ (Some v) =>
      _ ← reject_if (max_int32 <? mt_AdditionalSeconds v)
            (ErrInvalid "travel delay is out of range");
      Ok [mt_FromActivityID v; mt_ToActivityID v]
  | _, _ => Err (ErrInvalid "accepted mutation kind is invalid")
  end.

Definition validateAcceptedMutationRequest (r : FinalizeAcceptedMutationRequest)
  : result CommandKind :=
  _ ← reject_if (negb (forallb validCanonicalUUID
          [fa_TripID r; fa_IntentID r; fa_OutboxID r; fa_EventID r]))
        (ErrInvalid "accepted-mutation identifiers must be canonical lowercase UUIDs");
  _ ← reject_if ((fa_MutationSequence r =? 0) || (max_int64 <? fa_MutationSequence r) ||
                 (max_int64 <=? fa_ExpectedTripRevision r) ||
                 (max_int64 <? fa_ResultingPlannerStateVersion r))
        (ErrInvalid "accepted-mutation versions are out of range");
  _ ← reject_if (negb (json_Valid (fa_OutcomePayload r)))
        (ErrInvalid "accepted-mutation outcome must be valid JSON");
  kind ← mutation_kind (fa_Mutation r);
  activityIDs ← mutation_activities (fa_Mutation r) kind;
  _ ← reject_if (negb (forallb validCanonicalUUID activityIDs))
        (ErrInvalid "activity identifiers must be canonical lowercase UUIDs");
  Ok kind.

(** ** [applyAcceptedMutation] *)

(** The column types and [CHECK]s of a row of [trip_activities]. *)
Definition activity_check (a : activity) : bool :=
  (0 <=? a_ordinal a) && in_integer (a_ordinal a) &&
  bool_decide (a_inbound_travel_mode a ∈ ["walking"; "driving"]) &&
  bool_decide (a_activity_class a ∈ ["fixed"; "flexible"]) &&
  activity_state_valid (a_activity_state a) &&
  (0 <=? a_activity_delay_seconds a) && in_integer (a_activity_delay_seconds a) &&
  in_integer (a_priority_rank a) && in_integer (a_utility_score a) &&
  (0 <=? a_reservation_grace_seconds a) && in_integer (a_reservation_grace_seconds a) &&
  (0 <=? a_min_duration_seconds a) && in_integer (a_max_duration_seconds a) &&
  (a_min_duration_seconds a <=? a_preferred_duration_seconds a) &&
  (a_preferred_duration_seconds a <=? a_max_duration_seconds a).

(** [UPDATE trip_activities SET f WHERE trip_id = $1 AND id = $2], one row. *)
Definition update_activity (op tripID id : string) (f : activity -> activity) : tx unit :=
  fun d =>
  match activities d !! id with
  | Some a =>
      if bool_decide (a_trip_id a = tripID) then
        if activity_check (f a)
        then Ok (tt, set_activities (<[id := f a]> (activities d)) d)
        else Err (ErrDatabase op)
      else Err ErrMutationTargetNotFound
  | None => Err ErrMutationTargetNotFound
  end.

Definition activity_of_trip (tripID id : string) (d : db) : bool :=
  match activities d !! id with
  | Some a => bool_decide (a_trip_id a = tripID)
  | None => false
  end.

(** [INSERT INTO activity_open_windows] for one window. *)
Definition insert_window (op tripID activityID : string) (index : Z) (opens closes : Z)
  : tx unit := fun d =>
  if bool_decide (is_Some (windows d !! (activityID, index))) ||
     negb (activity_of_trip tripID activityID d) || negb (opens <? closes) ||
     (index <? 0) || negb (in_integer index)
  then Err (ErrDatabase op)
  else Ok (tt, set_windows (<[(activityID, index) := OpenWindow tripID opens closes]>
                              (windows d)) d).

(** The insert loop over the stored times; [index] counts from 0. *)
Fixpoint insert_windows (op tripID activityID : string) (index : Z)
    (l : list (Z * Z)) : tx unit :=
  match l with
  | [] => mret tt
  | w :: l =>
      _ ← insert_window op tripID activityID index w.1 w.2;
      insert_windows op tripID activityID (index + 1) l
  end.

Definition window_times (w : MutationWindow) : Z * Z :=
  (unixMilliseconds (mw_OpensAtUnixMilliseconds w),
   unixMilliseconds (mw_ClosesAtUnixMilliseconds w)).

Definition apply_operating_hours (tripID : string) (v : OperatingHoursMutation) : tx unit :=
  exists_ ← gets (activity_of_trip tripID (mo_ActivityID v));
  _ ← guard (negb exists_) ErrMutationTargetNotFound;
  _ ← modify (fun d => set_windows (delete_rows (fun k w =>
         bool_decide (w_trip_id w = tripID) && bool_decide (k.1 = mo_ActivityID v))
         (windows d)) d);
  insert_windows "insert operating-hours window" tripID (mo_ActivityID v) 0
    (window_times <$> mo_OpenWindows v).

(** [INSERT INTO trip_travel_delays ... ON CONFLICT DO UPDATE]. *)
Definition apply_travel_delay (tripID : string) (v : TravelDelayMutation) : tx unit :=
  known ← gets (fun d => activity_of_trip tripID (mt_FromActivityID v) d &&
                         activity_of_trip tripID (mt_ToActivityID v) d);
  _ ← guard (negb known || (int32 (mt_AdditionalSeconds v) <? 0))
        (ErrDatabase "apply travel_delay mutation");
  modify (fun d => set_travel_delays
    (<[(tripID, mt_FromActivityID v, mt_ToActivityID v) :=
         TravelDelay (int32 (mt_AdditionalSeconds v))
           (unixMilliseconds (mt_ObservedAtUnixMilliseconds v))]> (travel_delays d)) d).

Definition applyAcceptedMutation (tripID : string) (m : AcceptedMutation)
    (kind : CommandKind) : tx unit :=
  match kind, m with
  | CommandActivityStatusChanged, MkMutation (Some v) _ _ _ _ _ _ =>
      update_activity "apply activity_status_changed mutation" tripID (ms_ActivityID v)
        (set_a_activity_state (ms_State v))
  | CommandActivityDelayed, MkMutation _ (Some v) _ _ _ _ _ =>
      update_activity "apply activity_delayed mutation" tripID (md_ActivityID v)
        (set_a_activity_delay_seconds (int32 (md_DelaySeconds v)))
  | CommandReservationChanged, MkMutation _ _ (Some v) _ _ _ _ =>
      update_activity "apply reservation_changed mutation" tripID (mr_ActivityID v)
        (fun a => set_a_reservation_grace_seconds (int32 (mr_ReservationGraceSeconds v))
           (set_a_reservation_start
              (unixMilliseconds <$> mr_ReservationStartUnixMilliseconds v) a))
  | CommandMandatoryDeadlineChanged, MkMutation _ _ _ (Some v) _ _ _ =>
      update_activity "apply mandatory_deadline_changed mutation" tripID (mm_ActivityID v)
        (set_a_mandatory_deadline (Some (unixMilliseconds (mm_LatestFinishUnixMilliseconds v))))
  | CommandOperatingHoursChanged, MkMutation _ _ _ _ (Some v) _ _ =>
      apply_operating_hours tripID v
  | CommandPlaceFoundClosed, MkMutation _ _ _ _ _ (Some v) _ =>
      update_activity "apply place_found_closed mutation" tripID (mp_ActivityID v)
        (set_a_found_closed_at (Some (unixMilliseconds (mp_ObservedAtUnixMilliseconds v))))
  | CommandTravelDelay, MkMutation _ _ _ _ _ _ (Some v) => apply_travel_delay tripID v
  | _, _ => fail (ErrInvalid "unsupported accepted mutation")
  end.

(** ** [FinalizeAcceptedMutation] *)

Definition accepted_result (r : FinalizeAcceptedMutationRequest) (at_ : Z)
    (duplicate : bool) : FinalizedCommand :=
  MkFinalizedCommand (fa_IntentID r) (fa_OutboxID r) (fa_TripID r) (fa_EventID r)
    (fa_MutationSequence r) IntentApplied "OK" (uint64 (fa_ExpectedTripRevision r + 1))
    (fa_ResultingPlannerStateVersion r) at_ duplicate.

(** [WHERE trip_id = $1 AND state = 'pending']. *)
Definition pending_of (tripID : string) (_ : string) (p : proposal) : bool :=
  bool_decide (p_trip_id p = tripID) && bool_decide (p_state p = ProposalPending).

(** [UPDATE plan_proposals SET state = 'stale', decided_at]. *)
Definition invalidate_proposals (op tripID : string) (now : Z) : tx unit :=
  update_proposals op (pending_of tripID)
    (fun p => set_p_decided_at (Some now) (set_p_state ProposalStale p)).

(** The second half: the intent is pending. *)
Definition finalize_accepted_pending (clk : nat -> Z) (r : FinalizeAcceptedMutationRequest)
    (kind : CommandKind) (t : trip) (i : intent) : tx FinalizedCommand :=
  let resultRevision := uint64 (fa_ExpectedTripRevision r + 1) in
  _ ← guard (negb (t_trip_revision t =? i_expected_trip_revision i)) ErrTripRevisionStale;
  _ ← guard (not_next (t_finalized_mutation_sequence t) (i_mutation_sequence i))
        ErrCommandFinalizationOutOfOrder;
  _ ← applyAcceptedMutation (fa_TripID r) (fa_Mutation r) kind;
  let now := clk 0%nat in
  _ ← invalidate_proposals "invalidate stale proposals" (fa_TripID r) now;
  _ ← update_trip "advance mutation trip" (fa_TripID r) (fun t =>
        set_t_updated_at now
          (set_t_finalized_mutation_sequence (i_mutation_sequence i)
            (set_t_trip_revision (int64 resultRevision) t)));
  payload ← lift (of_option (jsonb_in (fa_OutcomePayload r))
                    (ErrDatabase "resolve accepted mutation"));
  _ ← update_intent "resolve accepted mutation" (fa_IntentID r)
        (resolve_intent IntentApplied "OK" payload (int64 resultRevision)
           (int64 (fa_ResultingPlannerStateVersion r)) now);
  _ ← update_outbox (fa_OutboxID r) (resolve_outbox DeliveryAccepted "OK" now);
  mret (accepted_result r now false).

Definition FinalizeAcceptedMutation (clk : nat -> Z) (r : FinalizeAcceptedMutationRequest)
  : tx FinalizedCommand :=
  kind ← lift (validateAcceptedMutationRequest r);
  t ← lock_trip_row (fa_TripID r);
  i ← lock_intent (fa_TripID r) (fa_IntentID r);
  o ← lock_outbox (fa_TripID r) (fa_IntentID r) (fa_OutboxID r);
  _ ← guard (negb (bool_decide (i_event_id i = fa_EventID r)) ||
             negb (i_mutation_sequence i =? int64 (fa_MutationSequence r)) ||
             negb (i_expected_trip_revision i =? int64 (fa_ExpectedTripRevision r)) ||
             negb (bool_decide (i_command_kind i = kind)))
        ErrCommandFinalizationConflict;
  let resultRevision := uint64 (fa_ExpectedTripRevision r + 1) in
  if bool_decide (i_state i = IntentPending) then finalize_accepted_pending clk r kind t i
  else
    payloadMatches ← lift (payload_matches "compare accepted-mutation outcome" i
                             (fa_OutcomePayload r));
    _ ← guard (negb (outcome_equal i IntentApplied "OK" (int64 resultRevision)
                       (int64 (fa_ResultingPlannerStateVersion r)) &&
                     bool_decide (o_delivery_state o = DeliveryAccepted) &&
                     payloadMatches)) ErrCommandFinalizationConflict;
    mret (accepted_result r (default 0 (i_finalized_at i)) true).

(** ** Lemmas *)

(** A mutation touches the canonical activity tables and nothing else. *)
Record canonical_frame (d d' : db) : Prop := {
  cfr_users : user_rows d' = user_rows d;
  cfr_trips : trips d' = trips d;
  cfr_plans : plans d' = plans d;
  cfr_proposals : proposals d' = proposals d;
  cfr_intents : intents d' = intents d;
  cfr_outbox : outbox d' = outbox d;
  cfr_snapshots : snapshots d' = snapshots d;
  cfr_leases : leases d' = leases d;
  cfr_saved : saved d' = saved d;
  cfr_auth : auth d' = auth d
}.

Lemma canonical_frame_refl d : canonical_frame d d.
Proof. by constructor. Qed.

Lemma canonical_frame_trans d d1 d2 :
  canonical_frame d d1 -> canonical_frame d1 d2 -> canonical_frame d d2.
Proof. intros [] []. constructor; congruence. Qed.

Lemma update_activity_ok op tripID id f d u d' :
  update_activity op tripID id f d = Ok (u, d') <->
  exists a, activities d !! id = Some a /\ a_trip_id a = tripID /\
    activity_check (f a) = true /\ d' = set_activities (<[id := f a]> (activities d)) d.
Proof.
  unfold update_activity. destruct u. split.
  - intros H. repeat case_match; simplify_eq. inv_res. eauto.
  - intros (a & -> & Ht & Hc & ->). by rewrite bool_decide_eq_true_2, Hc.
Qed.

Lemma insert_window_ok op tripID a index opens closes d u d' :
  insert_window op tripID a index opens closes d = Ok (u, d') ->
  windows d !! (a, index) = None /\
  d' = set_windows (<[(a, index) := OpenWindow tripID opens closes]> (windows d)) d.
Proof.
  unfold insert_window. intros H. case_match eqn:E; simplify_eq. inv_res.
  split; [by apply eq_None_not_Some|done].
Qed.

(** The windows the insert loop writes: the [k]-th one at index [index + k]. *)
Lemma insert_windows_ok op tripID a index l d u d' :
  insert_windows op tripID a index l d = Ok (u, d') ->
  canonical_frame d d' /\ activities d' = activities d /\
  travel_delays d' = travel_delays d /\
  (forall k w, l !! k = Some w ->
     windows d' !! (a, index + Z.of_nat k) = Some (OpenWindow tripID w.1 w.2)) /\
  (forall b j, (b <> a \/ j < index \/ index + zlen l <= j) ->
     windows d' !! (b, j) = windows d !! (b, j)).
Proof.
  revert index d. induction l as [|w l IH]; intros index d H; simpl in H.
  - unfold mret, tx_ret in H. simplify_eq. by split_and!; try apply canonical_frame_refl.
  - apply tx_bind_ok in H as ([] & d1 & Hw & Hl).
    apply insert_window_ok in Hw as [_ ->]. apply IH in Hl as (Hf & Ha & Ht & Hk & Ho).
    split; [eapply canonical_frame_trans; [|exact Hf]; by constructor|].
    split_and!; [done..| |].
    + intros [|k] w' Hw'; simpl in Hw'.
      * simplify_eq. rewrite Z.add_0_r, Ho by (right; lia). simpl. by rewrite lookup_insert_eq.
      * apply Hk in Hw'. rewrite <- Hw'. do 2 f_equal. lia.
    + intros b j Hj. assert (zlen (w :: l) = 1 + zlen l) as Hz by (unfold zlen; simpl; lia).
      rewrite Hz in Hj. pose proof (zlen_nonneg l).
      rewrite Ho by (destruct Hj as [?|Hj]; [by left|right; lia]). simpl.
      rewrite lookup_insert_ne; [done|]. intros [= -> ->]. destruct Hj as [?|?]; [done|lia].
Qed.

(** Every stored window opens before it closes, at an index of the column. *)
Lemma insert_windows_valid op tripID a index l d u d' :
  insert_windows op tripID a index l d = Ok (u, d') ->
  forall k w, l !! k = Some w -> w.1 < w.2 /\ index + Z.of_nat k <= max_int32.
Proof.
  revert index d. induction l as [|w l IH]; intros index d H k w' Hk; simpl in H; [done|].
  apply tx_bind_ok in H as ([] & d1 & Hw & Hl). destruct k as [|k]; simpl in Hk.
  - simplify_eq. unfold insert_window, in_integer in Hw. case_match eqn:E; simplify_eq.
    inv_res. zbool. split; [done|]. lia.
  - destruct (IH _ _ Hl _ _ Hk) as [? ?]. split; [done|]. lia.
Qed.

Lemma apply_operating_hours_ok tripID v d u d' :
  apply_operating_hours tripID v d = Ok (u, d') ->
  canonical_frame d d' /\ activities d' = activities d /\
  travel_delays d' = travel_delays d /\ activity_of_trip tripID (mo_ActivityID v) d = true /\
  (forall k w, mo_OpenWindows v !! k = Some w ->
     windows d' !! (mo_ActivityID v, Z.of_nat k) = Some (OpenWindow tripID
       (unixMilliseconds (mw_OpensAtUnixMilliseconds w))
       (unixMilliseconds (mw_ClosesAtUnixMilliseconds w)))) /\
  (forall j w, windows d' !! (mo_ActivityID v, j) = Some w -> w_trip_id w = tripID ->
     0 <= j < zlen (mo_OpenWindows v)) /\
  (forall b j, b <> mo_ActivityID v -> windows d' !! (b, j) = windows d !! (b, j)).
Proof.
  unfold apply_operating_hours. intros H. inv_tx.
  match goal with H : insert_windows _ _ _ _ _ _ = _ |- _ =>
    apply insert_windows_ok in H as (Hf & Ha & Ht & Hk & Ho) end.
  split; [eapply canonical_frame_trans; [|exact Hf]; by constructor|].
  assert (Hz : zlen (window_times <$> mo_OpenWindows v) = zlen (mo_OpenWindows v))
    by (unfold zlen; by rewrite length_fmap).
  rewrite Hz in Ho. split_and!; try done.
  - intros k w Hw. apply (Hk k (window_times w)). by rewrite list_lookup_fmap, Hw.
  - intros j w Hw Htr. destruct (decide (0 <= j < zlen (mo_OpenWindows v))) as [|Hn]; [done|].
    rewrite Ho in Hw by (right; lia). simpl in Hw.
    apply lookup_delete_rows_Some in Hw as [_ Hd]. simpl in Hd.
    by rewrite !bool_decide_eq_true_2 in Hd.
  - intros b j Hb. rewrite Ho by auto. simpl.
    rewrite lookup_delete_rows. destruct (windows d !! (b, j)) as [w|]; simpl; [|done].
    rewrite (bool_decide_eq_false_2 (b = _)) by done. by rewrite andb_false_r.
Qed.

Lemma applyAcceptedMutation_frame tripID m kind d u d' :
  applyAcceptedMutation tripID m kind d = Ok (u, d') -> canonical_frame d d'.
Proof.
  unfold applyAcceptedMutation. intros H.
  repeat case_match; subst; try discriminate H;
    try (apply update_activity_ok in H as (? & ? & ? & ? & ->); by constructor).
  - by apply apply_operating_hours_ok in H as [? _].
  - unfold apply_travel_delay in H. inv_tx. by constructor.
Qed.

(** The rest of the finalization, on the database the mutation was applied to. *)
Definition accepted_effect (now : Z) (r : FinalizeAcceptedMutationRequest) (t : trip)
    (i : intent) (o : outbox_row) (payload : jsonb) (d : db) : db :=
  set_outbox (<[fa_OutboxID r := resolve_outbox DeliveryAccepted "OK" now o]> (outbox d))
    (set_intents (<[fa_IntentID r := resolve_intent IntentApplied "OK" payload
        (t_trip_revision t + 1) (int64 (fa_ResultingPlannerStateVersion r)) now i]> (intents d))
      (set_trips (<[fa_TripID r := set_t_updated_at now
          (set_t_finalized_mutation_sequence (i_mutation_sequence i)
            (set_t_trip_revision (t_trip_revision t + 1) t))]> (trips d))
        (set_proposals (update_rows (pending_of (fa_TripID r))
          (fun p => set_p_decided_at (Some now) (set_p_state ProposalStale p))
          (proposals d)) d))).

Record mutation_finalized (clk : nat -> Z) (r : FinalizeAcceptedMutationRequest)
    (kind : CommandKind) (t : trip) (i : intent) (o : outbox_row) (payload : jsonb)
    (d d1 d' : db) : Prop := {
  mf_valid : validateAcceptedMutationRequest r = Ok kind;
  mf_trip : trips d !! fa_TripID r = Some t;
  mf_intent : intents d !! fa_IntentID r = Some i;
  mf_intent_trip : i_trip_id i = fa_TripID r;
  mf_order : i_application_order i = runtime_first;
  mf_outbox : outbox d !! fa_OutboxID r = Some o;
  mf_outbox_intent : o_command_intent_id o = fa_IntentID r;
  mf_outbox_trip : o_trip_id o = fa_TripID r;
  mf_event : i_event_id i = fa_EventID r;
  mf_sequence : i_mutation_sequence i = int64 (fa_MutationSequence r);
  mf_expected : i_expected_trip_revision i = int64 (fa_ExpectedTripRevision r);
  mf_kind : i_command_kind i = kind;
  mf_pending : i_state i = IntentPending;
  mf_revision : t_trip_revision t = i_expected_trip_revision i;
  mf_result : int64 (uint64 (fa_ExpectedTripRevision r + 1)) = t_trip_revision t + 1;
  mf_next : not_next (t_finalized_mutation_sequence t) (i_mutation_sequence i) = false;
  mf_payload : jsonb_in (fa_OutcomePayload r) = Some payload;
  mf_applied : applyAcceptedMutation (fa_TripID r) (fa_Mutation r) kind d = Ok (tt, d1);
  mf_effect : d' = accepted_effect (clk 0%nat) r t i o payload d1
}.

(** The version range check keeps the revision from wrapping around. *)
Lemma result_revision r kind : 0 <= fa_ExpectedTripRevision r ->
  validateAcceptedMutationRequest r = Ok kind ->
  int64 (fa_ExpectedTripRevision r) = fa_ExpectedTripRevision r /\
  int64 (uint64 (fa_ExpectedTripRevision r + 1)) = fa_ExpectedTripRevision r + 1.
Proof.
  unfold validateAcceptedMutationRequest. intros Hge H. inv_res. zbool.
  unfold max_int64 in *. split; [apply int64_small|apply int64_uint64]; unfold max_int64; lia.
Qed.

(** [fa_ExpectedTripRevision] is a [uint64]. *)
Lemma FinalizeAcceptedMutation_ok clk r d c d' :
  0 <= fa_ExpectedTripRevision r ->
  FinalizeAcceptedMutation clk r d = Ok (c, d') ->
  (fc_Duplicate c = true /\ d' = d) \/
  (exists kind t i o payload d1, mutation_finalized clk r kind t i o payload d d1 d' /\
     c = accepted_result r (clk 0%nat) false).
Proof.
  unfold FinalizeAcceptedMutation. intros Hge H. inv_op. case_bool_decide; [|by inv_op; left].
  right. unfold finalize_accepted_pending in *. inv_op. zbool.
  match goal with H : applyAcceptedMutation _ _ _ _ = Ok (_, ?x) |- _ =>
    pose proof (applyAcceptedMutation_frame _ _ _ _ _ _ H) as [_ Ft _ _ Fi Fo _ _] end.
  match goal with H : validateAcceptedMutationRequest r = Ok ?k |- _ =>
    destruct (result_revision r k Hge H) as [Hr1 Hr2] end.
  unfold invalidate_proposals in *. inv_op.
  match goal with H : trips ?x = trips d, Ht : trips d !! _ = Some _ |- _ =>
    rewrite <- H in Ht end.
  match goal with H : intents ?x = intents d, Ht : intents d !! _ = Some _ |- _ =>
    rewrite <- H in Ht end.
  match goal with H : outbox ?x = outbox d, Ht : outbox d !! _ = Some _ |- _ =>
    rewrite <- H in Ht end.
  inv_op. do 6 eexists. split; [|done].
  econstructor; try done; [congruence..|lia|].
  unfold accepted_effect. simpl.
  erewrite alter_insert_Some by (simpl; eassumption).
  match goal with H : t_trip_revision _ = _ |- _ => rewrite H end.
  match goal with H : i_expected_trip_revision _ = _ |- _ => rewrite H end.
  by rewrite Hr1, Hr2.
Qed.

(** The rows a repeated finalization reads. *)
Lemma accepted_effect_rows now r t i o payload d :
  let d' := accepted_effect now r t i o payload d in
  is_Some (trips d' !! fa_TripID r) /\
  intents d' !! fa_IntentID r = Some (resolve_intent IntentApplied "OK" payload
    (t_trip_revision t + 1) (int64 (fa_ResultingPlannerStateVersion r)) now i) /\
  outbox d' !! fa_OutboxID r = Some (resolve_outbox DeliveryAccepted "OK" now o).
Proof. simpl. rewrite !lookup_insert_eq. eauto. Qed.

(** ** Properties *)

(** What accepting a mutation does.  For a pending command that is the next
    one to finalize, at the revision it expected: the canonical change is
    applied, the trip's revision and its finalized sequence advance by exactly
    one, every pending proposal of the trip becomes stale and no other proposal
    changes, and plans, snapshots, leases, other trips and other commands stay
    as they were. *)
Theorem accepted_mutation_effect clk r d c d' :
  0 <= fa_ExpectedTripRevision r ->
  FinalizeAcceptedMutation clk r d = Ok (c, d') -> fc_Duplicate c = false ->
  exists t i o d1,
    trips d !! fa_TripID r = Some t /\ intents d !! fa_IntentID r = Some i /\
    outbox d !! fa_OutboxID r = Some o /\ i_state i = IntentPending /\
    t_trip_revision t = i_expected_trip_revision i /\
    applyAcceptedMutation (fa_TripID r) (fa_Mutation r) (i_command_kind i) d = Ok (tt, d1) /\
    trips d' = <[fa_TripID r := set_t_updated_at (clk 0%nat)
      (set_t_finalized_mutation_sequence (t_finalized_mutation_sequence t + 1)
        (set_t_trip_revision (t_trip_revision t + 1) t))]> (trips d) /\
    (forall k p, proposals d' !! k = Some p -> p_trip_id p = fa_TripID r ->
       p_state p <> ProposalPending) /\
    (forall k p, proposals d !! k = Some p -> p_state p <> ProposalPending ->
       proposals d' !! k = Some p) /\
    (forall k, k <> fa_IntentID r -> intents d' !! k = intents d !! k) /\
    (forall k, k <> fa_OutboxID r -> outbox d' !! k = outbox d !! k) /\
    plans d' = plans d /\ snapshots d' = snapshots d /\ leases d' = leases d.
Proof.
  intros Hge H Hd. apply FinalizeAcceptedMutation_ok in H as
    [[? _]|(kind & t & i & o & payload & d1 & H & _)]; [congruence|..|done].
  pose proof (applyAcceptedMutation_frame _ _ _ _ _ _ (mf_applied _ _ _ _ _ _ _ _ _ _ H))
    as [_ Ft Fp Fpr Fi Fo Fs Fl].
  pose proof (mf_next _ _ _ _ _ _ _ _ _ _ H) as (_ & _ & Hn)%not_next_false.
  destruct H as [_ ? ? _ _ ? _ _ _ _ _ <- ? ? _ _ _ ? ->].
  exists t, i, o, d1. simpl. rewrite Ft, Fpr, Fi, Fo, Hn. split_and!; try done.
  - intros k p. rewrite lookup_update_rows_Some. intros (q & Hq & ->).
    unfold pending_of. repeat case_bool_decide; simpl; naive_solver.
  - intros k p Hk Hp. rewrite lookup_update_rows, Hk. simpl. unfold pending_of.
    rewrite (bool_decide_eq_false_2 (p_state p = _)) by done. by rewrite andb_false_r.
  - intros k Hk. by rewrite lookup_insert_ne by done.
  - intros k Hk. by rewrite lookup_insert_ne by done.
Qed.

(** Applying twice.  Repeating a committed accepted-mutation finalization
    with the same outcome returns a duplicate and changes nothing: the mutation
    is applied exactly once. *)
Theorem accepted_mutation_idempotent clk clk' r d c d' :
  0 <= fa_ExpectedTripRevision r ->
  FinalizeAcceptedMutation clk r d = Ok (c, d') -> fc_Duplicate c = false ->
  exists c', FinalizeAcceptedMutation clk' r d' = Ok (c', d') /\ fc_Duplicate c' = true /\
    fc_ResultingTripRevision c' = fc_ResultingTripRevision c /\
    fc_FinalizedAt c' = fc_FinalizedAt c.
Proof.
  intros Hge H Hd. apply FinalizeAcceptedMutation_ok in H as
    [[? _]|(kind & t & i & o & payload & d1 & H & ->)]; [congruence|..|done].
  exists (accepted_result r (clk 0%nat) true). split_and!; [|done..].
  destruct H as [Hv _ _ Htr Hor _ Hoi Hot Hev Hse Hex Hk _ _ Hr _ Hp _ ->].
  destruct (accepted_effect_rows (clk 0%nat) r t i o payload d1) as ([t' Ht] & Hi & Ho).
  set (d' := accepted_effect _ _ _ _ _ _ _) in *. unfold FinalizeAcceptedMutation.
  run_tx_step; [exact Hv|].
  eapply tx_bind_run; [by apply lock_trip_row_ok|].
  eapply tx_bind_run; [by apply lock_intent_ok|].
  eapply tx_bind_run; [by apply lock_outbox_ok|].
  run_tx_step.
  { simpl. rewrite !bool_decide_eq_true_2 by done. simpl.
    by rewrite Hse, Hex, !Z.eqb_refl. }
  cbn -[resolve_intent uint64 int64]. rewrite bool_decide_eq_false_2 by done.
  run_tx_step; [apply payload_matches_ok; eexists _, _; split_and!; [exact Hp|done|done]|].
  run_tx_step; [|reflexivity]. rewrite Hr, outcome_equal_resolved.
  by rewrite !bool_decide_eq_true_2.
Qed.

(** Accepted operating hours replace the activity's windows exactly: the
    [k]-th window of the mutation is stored at index [k], no other window of
    the activity is left, and the windows of other activities are untouched. *)
Theorem operating_hours_replaced tripID m v d u d' :
  am_OperatingHours m = Some v ->
  applyAcceptedMutation tripID m CommandOperatingHoursChanged d = Ok (u, d') ->
  (forall k w, mo_OpenWindows v !! k = Some w ->
     windows d' !! (mo_ActivityID v, Z.of_nat k) = Some (OpenWindow tripID
       (mw_OpensAtUnixMilliseconds w * 1000) (mw_ClosesAtUnixMilliseconds w * 1000))) /\
  (forall j w, windows d' !! (mo_ActivityID v, j) = Some w -> w_trip_id w = tripID ->
     0 <= j < zlen (mo_OpenWindows v)) /\
  (forall b j, b <> mo_ActivityID v -> windows d' !! (b, j) = windows d !! (b, j)) /\
  activities d' = activities d /\ travel_delays d' = travel_delays d.
Proof.
  intros Hm H. destruct m; simpl in Hm. subst. simpl in H.
  apply apply_operating_hours_ok in H as (_ & Ha & Ht & _ & Hk & Hj & Hb). done.
Qed.

End Mutations.

(** ** Witnesses: the example travel delay is accepted. *)

Definition ex_mutation : AcceptedMutation :=
  MkMutation None None None None None None
    (Some (MkTravel ex_activity_a ex_activity_b 300 7)).

Definition ex_mutation_request : FinalizeAcceptedMutationRequest :=
  MkMutationRequest ex_trip ex_intent ex_outbox ex_message 1 1 4 ex_mutation
    (bytes_of_string "{}").

Definition ex_accepted : @db pg_model :=
  committed (FinalizeAcceptedMutation ex_clock5 ex_mutation_request) ex_recorded.

Lemma ex_accepted_ok : exists c,
  FinalizeAcceptedMutation ex_clock5 ex_mutation_request ex_recorded = Ok (c, ex_accepted) /\
  fc_Duplicate c = false.
Proof.
  destruct (returns_ok (fun c => negb (fc_Duplicate c))
    (FinalizeAcceptedMutation ex_clock5 ex_mutation_request) ex_recorded
    ltac:(vm_compute; reflexivity)) as (c & Hc & Hd).
  exists c. split; [exact Hc|by destruct (fc_Duplicate c)].
Qed.

Lemma accepted_mutation_effect_witness :
  exists t, trips ex_recorded !! ex_trip = Some t /\ plans ex_accepted = plans ex_recorded.
Proof.
  destruct ex_accepted_ok as (c & Hc & Hd).
  destruct (accepted_mutation_effect ex_clock5 ex_mutation_request _ _ _ ltac:(simpl; lia) Hc Hd)
    as (t & i & o & d1 & Ht & _ & _ & _ & _ & _ & _ & _ & _ & _ & _ & Hp & _).
  exists t. split; [exact Ht|exact Hp].
Defined.

Lemma accepted_mutation_idempotent_witness :
  exists c', FinalizeAcceptedMutation ex_clock5 ex_mutation_request ex_accepted
    = Ok (c', ex_accepted) /\ fc_Duplicate c' = true.
Proof.
  destruct ex_accepted_ok as (c & Hc & Hd).
  destruct (accepted_mutation_idempotent ex_clock5 ex_clock5 ex_mutation_request _ _ _
    ltac:(simpl; lia) Hc Hd) as (c' & H & Hd' & _).
  exists c'. split; [exact H|exact Hd'].
Defined.

Definition ex_hours : OperatingHoursMutation :=
  MkHours ex_activity_a [MkWindow 10 20; MkWindow 30 40].

Lemma operating_hours_replaced_witness :
  exists d' : @db pg_model, windows d' !! (ex_activity_a, 1) = Some (OpenWindow ex_trip 30000 40000).
Proof.
  set (m := MkMutation None None None None (Some ex_hours) None None).
  destruct (committed_ok (applyAcceptedMutation ex_trip m CommandOperatingHoursChanged) ex_db
    ltac:(vm_compute; reflexivity)) as [u Hu].
  exists (committed (applyAcceptedMutation ex_trip m CommandOperatingHoursChanged) ex_db).
  exact (proj1 (operating_hours_replaced ex_trip m ex_hours _ _ _ eq_refl Hu) 1%nat
    (MkWindow 30 40) eq_refl).
Defined.
