(* ===== verification/Proposals.v ===== *)
(** * Plan proposals

    Models [persistence/proposals.go] (storing a proposal of the live runtime
    and superseding the one it replaces) and
    [persistence/proposal_acceptance.go] (preparing its acceptance).  A Go
    [time.Time] of a request is a count of nanoseconds since the Unix epoch. *)

From S2P Require Import Prelude GoLib Wire Schema.
From S2P Require Import Tables Leases Commands Finalization Mutations.

Section Proposals.
Context {PG : Postgres}.

Record ProposalSource := MkSource {
  ps_RuntimeEpoch : Z;
  ps_PlannerStateVersion : Z;
  ps_TripRevision : Z;
  ps_AcceptedMutationSequence : Z;
  ps_BaseCurrentPlanID : string
}.

Record RuntimeFreshness := MkFreshness {
  rf_HolderID : string;
  rf_RuntimeEpoch : Z;
  rf_PlannerStateVersion : Z;
  rf_AcceptedMutationSequence : Z
}.

Record PersistProposalRequest := MkPersist {
  pp_ProposalID : string;
  pp_TripID : string;
  pp_Source : ProposalSource;
  pp_Current : RuntimeFreshness;
  pp_Payload : bytes;
  pp_Checksum : bytes;
  pp_CreatedAt : Z
}.

Record PersistedProposal := MkPersisted {
  pd_ProposalID : string;
  pd_TripID : string;
  pd_Source : ProposalSource;
  pd_State : proposal_state;
  pd_PayloadSizeBytes : Z;
  pd_Checksum : bytes;
  pd_CreatedAt : Z;
  pd_Duplicate : bool;
  pd_Publishable : bool;
  pd_SupersededProposalCount : Z;
  pd_Payload : bytes
}.

(** [ORDER BY created_at DESC, id DESC]. *)
Definition newest_first (x y : string * proposal) : Prop :=
  p_created_at y.2 < p_created_at x.2 \/
  (p_created_at x.2 = p_created_at y.2 /\ String.le y.1 x.1).
#[global] Instance newest_first_dec : RelDecision newest_first.
Proof. intros x y. unfold newest_first. apply _. Defined.

Definition LatestPendingPayload (tripID : string) : tx bytes :=
  _ ← guard (negb (validCanonicalUUID tripID)) (ErrInvalid "trip id is invalid");
  row ← find_row (fun d => head (merge_sort newest_first
          (rows_where (pending_of tripID) (proposals d)))) ErrPendingProposalNotFound;
  mret (p_payload row.2).

(** Go's zero [time.Time], 1 January of year 1. *)
Definition zero_time : Z := -62135596800 * Second.

Definition validatePersistProposal (r : PersistProposalRequest) : result unit :=
  let s := pp_Source r in
  let c := pp_Current r in
  _ ← reject_if (negb (forallb validCanonicalUUID
          [pp_ProposalID r; pp_TripID r; ps_BaseCurrentPlanID s; rf_HolderID c]))
        (ErrInvalid "proposal identifiers must be canonical lowercase UUIDs");
  _ ← reject_if (existsb (fun v => max_int64 <? v)
          [ps_RuntimeEpoch s; ps_PlannerStateVersion s; ps_TripRevision s;
           ps_AcceptedMutationSequence s; rf_RuntimeEpoch c; rf_PlannerStateVersion c;
           rf_AcceptedMutationSequence c])
        (ErrInvalid "proposal source version is out of range");
  _ ← reject_if ((ps_RuntimeEpoch s =? 0) || (ps_TripRevision s =? 0) ||
                 (ps_AcceptedMutationSequence s =? 0) || (rf_RuntimeEpoch c =? 0) ||
                 (rf_AcceptedMutationSequence c =? 0))
        (ErrInvalid "proposal source versions must be positive");
  _ ← reject_if ((zlen (pp_Payload r) =? 0) || (max_int32 <? zlen (pp_Payload r)))
        ErrProposalPayloadInvalid;
  _ ← reject_if (negb (constant_time_eq (sha256 (pp_Payload r)) (pp_Checksum r)))
        ErrProposalPayloadInvalid;
  reject_if ((pp_CreatedAt r =? zero_time) || negb (pp_CreatedAt r mod Millisecond =? 0))
    (ErrInvalid "proposal creation time must have exact millisecond precision").

Definition proposalMatches (stored : proposal) (r : PersistProposalRequest) : bool :=
  let s := pp_Source r in
  bool_decide (p_base_current_plan_id stored = ps_BaseCurrentPlanID s) &&
  (p_source_runtime_epoch stored =? int64 (ps_RuntimeEpoch s)) &&
  (p_source_planner_state_version stored =? int64 (ps_PlannerStateVersion s)) &&
  (p_source_trip_revision stored =? int64 (ps_TripRevision s)) &&
  (p_source_accepted_mutation_sequence stored =? int64 (ps_AcceptedMutationSequence s)) &&
  (p_payload_size_bytes stored =? int32 (zlen (pp_Payload r))) &&
  bool_decide (length (p_checksum stored) = 32%nat) &&
  constant_time_eq (p_checksum stored) (pp_Checksum r) &&
  bool_decide (p_payload stored = pp_Payload r) &&
  (p_created_at stored * 1000 =? pp_CreatedAt r).

Definition sourceIsCurrent (r : PersistProposalRequest)
    (tripRevision finalizedMutationSequence : Z) (currentPlanID : string) (l : lease)
    (databaseTime : Z) : bool :=
  let s := pp_Source r in
  let c := pp_Current r in
  (ps_RuntimeEpoch s =? rf_RuntimeEpoch c) &&
  (ps_PlannerStateVersion s =? rf_PlannerStateVersion c) &&
  (ps_AcceptedMutationSequence s =? rf_AcceptedMutationSequence c) &&
  (ps_TripRevision s =? uint64 tripRevision) &&
  (ps_AcceptedMutationSequence s <=? uint64 finalizedMutationSequence) &&
  bool_decide (ps_BaseCurrentPlanID s = currentPlanID) &&
  bool_decide (rf_HolderID c = l_holder_id l) &&
  (rf_RuntimeEpoch c =? uint64 (l_runtime_epoch l)) &&
  (databaseTime <? l_lease_expires_at l).

Definition persistedProposal (r : PersistProposalRequest) (state : proposal_state)
    (duplicate publishable : bool) (superseded : Z) : PersistedProposal :=
  MkPersisted (pp_ProposalID r) (pp_TripID r) (pp_Source r) state (zlen (pp_Payload r))
    (pp_Checksum r) (pp_CreatedAt r) duplicate publishable superseded (pp_Payload r).

Definition new_proposal (r : PersistProposalRequest) : proposal :=
  let s := pp_Source r in
  Proposal (pp_TripID r) (ps_BaseCurrentPlanID s) (int64 (ps_RuntimeEpoch s))
    (int64 (ps_PlannerStateVersion s)) (int64 (ps_TripRevision s))
    (int64 (ps_AcceptedMutationSequence s)) 1 (pp_Payload r) (zlen (pp_Payload r))
    (pp_Checksum r) ProposalPending None None (pp_CreatedAt r / 1000) None.

(** The proposal of the trip with the request's identifier, among the locked
    rows. *)
Definition locked_proposal (tripID proposalID : string) (d : db) : option proposal :=
  p ← proposals d !! proposalID;
  if bool_decide (p_trip_id p = tripID) then Some p else None.

Definition supersede_pending (op tripID : string) (now : Z) : tx unit :=
  update_proposals op (pending_of tripID)
    (fun p => set_p_decided_at (Some now) (set_p_state ProposalSuperseded p)).

(** [current_plan_id::text] scanned into a [string]. *)
Definition scan_current_plan (op : string) (t : trip) : tx string :=
  lift (of_option (t_current_plan_id t) (ErrDatabase op)).

Definition Persist (clk : nat -> Z) (r : PersistProposalRequest) : tx PersistedProposal :=
  _ ← lift (validatePersistProposal r);
  t ← lock_trip_row (pp_TripID r);
  currentPlanID ← scan_current_plan "lock proposal trip" t;
  existing ← gets (locked_proposal (pp_TripID r) (pp_ProposalID r));
  l ← find_row (fun d => leases d !! pp_TripID r) ErrProposalStale;
  let now := clk 0%nat in
  let current := sourceIsCurrent r (t_trip_revision t) (t_finalized_mutation_sequence t)
                   currentPlanID l now in
  match existing with
  | Some p =>
      _ ← guard (negb (proposalMatches p r)) ErrProposalIdentityConflict;
      mret (persistedProposal r (p_state p) true
              (current && bool_decide (p_state p = ProposalPending)) 0)
  | None =>
      _ ← guard (negb current) ErrProposalStale;
      superseded ← gets (fun d => count_rows (pending_of (pp_TripID r)) (proposals d));
      _ ← supersede_pending "supersede pending proposal" (pp_TripID r) now;
      _ ← insert_proposal "insert proposal" (pp_ProposalID r) (new_proposal r);
      mret (persistedProposal r ProposalPending false true superseded)
  end.

(** ** Preparing an acceptance *)

Record ProposalAcceptancePreparation := MkPreparation {
  pr_ProposalID : string;
  pr_TripID : string;
  pr_Source : ProposalSource;
  pr_Payload : bytes;
  pr_CreatedAt : Z;
  pr_CurrentPlanID : string;
  pr_NextPlanRevision : Z
}.

(** [SELECT COALESCE(MAX(plan_revision), 0) FROM itinerary_plans WHERE trip_id]. *)
Definition max_plan_revision (tripID : string) (d : db) : Z :=
  foldr (fun kv acc => Z.max (pl_plan_revision kv.2) acc) 0
    (rows_where (fun _ p => bool_decide (pl_trip_id p = tripID)) (plans d)).

Definition PrepareProposalAcceptance (clk : nat -> Z) (tripID proposalID : string)
  : tx ProposalAcceptancePreparation :=
  _ ← guard (negb (validCanonicalUUID tripID) || negb (validCanonicalUUID proposalID))
        (ErrInvalid "proposal acceptance identifiers are invalid");
  t ← lock_trip_row tripID;
  currentPlanID ← scan_current_plan "lock proposal trip" t;
  p ← find_row (fun d => p ← locked_proposal tripID proposalID d;
        if bool_decide (p_state p = ProposalPending) then Some p else None)
        ErrPendingProposalNotFound;
  maximumRevision ← gets (max_plan_revision tripID);
  _ ← guard ((p_source_runtime_epoch p <=? 0) || (p_source_planner_state_version p <? 0) ||
             (p_source_trip_revision p <=? 0) ||
             (p_source_accepted_mutation_sequence p <=? 0) ||
             (maximumRevision <? 0) || (maximumRevision =? max_int64) ||
             negb (validCanonicalUUID (p_base_current_plan_id p)) ||
             negb (validCanonicalUUID currentPlanID))
        (ErrInvalid "pending proposal metadata is invalid");
  mret (MkPreparation proposalID tripID
          (MkSource (uint64 (p_source_runtime_epoch p))
             (uint64 (p_source_planner_state_version p))
             (uint64 (p_source_trip_revision p))
             (uint64 (p_source_accepted_mutation_sequence p)) (p_base_current_plan_id p))
          (p_payload p) (trunc_ms (clk 0%nat)) currentPlanID
          (uint64 (maximumRevision + 1))).

(** ** Lemmas *)

Record persisted_new (clk : nat -> Z) (r : PersistProposalRequest) (t : trip) (l : lease)
    (d d' : db) : Prop := {
  pn_valid : validatePersistProposal r = Ok tt;
  pn_trip : trips d !! pp_TripID r = Some t;
  pn_plan : t_current_plan_id t = Some (ps_BaseCurrentPlanID (pp_Source r));
  pn_lease : leases d !! pp_TripID r = Some l;
  pn_current : sourceIsCurrent r (t_trip_revision t) (t_finalized_mutation_sequence t)
    (ps_BaseCurrentPlanID (pp_Source r)) l (clk 0%nat) = true;
  pn_fresh : proposals d !! pp_ProposalID r = None;
  pn_check : proposal_check (new_proposal r) = true;
  pn_base : plan_of_trip (pp_TripID r) (ps_BaseCurrentPlanID (pp_Source r)) d = true;
  pn_effect : d' = set_proposals (<[pp_ProposalID r := new_proposal r]>
    (update_rows (pending_of (pp_TripID r))
      (fun p => set_p_decided_at (Some (clk 0%nat)) (set_p_state ProposalSuperseded p))
      (proposals d))) d
}.

Lemma lookup_update_rows_None {K} `{Countable K} {A} (P : K -> A -> bool) (f : A -> A) m k :
  update_rows P f m !! k = None <-> m !! k = None.
Proof. rewrite lookup_update_rows. by rewrite fmap_None. Qed.

Lemma Persist_ok clk r d c d' :
  Persist clk r d = Ok (c, d') ->
  (pd_Duplicate c = true /\ d' = d) \/
  (exists t l, persisted_new clk r t l d d' /\
     c = persistedProposal r ProposalPending false true
           (count_rows (pending_of (pp_TripID r)) (proposals d))).
Proof.
  unfold Persist, scan_current_plan, supersede_pending. intros H. inv_op.
  destruct (locked_proposal _ _ _) as [p|] eqn:Hl; inv_op; [by left|right].
  match goal with H : sourceIsCurrent _ _ _ ?p _ _ = true |- _ =>
    assert (p = ps_BaseCurrentPlanID (pp_Source r)) as ->
      by (unfold sourceIsCurrent in H; by inv_res) end.
  match goal with H : proposal_insertable _ _ _ |- _ => destruct H as [Hf _ Hb Hc _] end.
  do 2 eexists. split; [|done]. econstructor; try done.
  by apply (proj1 (lookup_update_rows_None _ _ _ _)) in Hf.
Qed.

Lemma sourceIsCurrent_true r rev fin plan l now :
  sourceIsCurrent r rev fin plan l now = true ->
  ps_TripRevision (pp_Source r) = uint64 rev /\
  ps_AcceptedMutationSequence (pp_Source r) <= uint64 fin /\
  rf_HolderID (pp_Current r) = l_holder_id l /\
  ps_RuntimeEpoch (pp_Source r) = uint64 (l_runtime_epoch l) /\
  now < l_lease_expires_at l.
Proof. unfold sourceIsCurrent. intros H. inv_res. zbool. split_and!; congruence || done. Qed.

Lemma proposalMatches_new r :
  validatePersistProposal r = Ok tt -> proposal_check (new_proposal r) = true ->
  proposalMatches (new_proposal r) r = true.
Proof.
  unfold validatePersistProposal, proposal_check. simpl. intros Hv Hc. inv_res. zbool.
  unfold proposalMatches. simpl. unfold constant_time_eq.
  rewrite !bool_decide_eq_true_2 by done. rewrite !Z.eqb_refl.
  rewrite int32_small by lia. rewrite Z.eqb_refl. simpl.
  apply Z.eqb_eq. unfold Millisecond in *.
  match goal with H : pp_CreatedAt r mod _ = 0 |- _ => apply Z.mod_divide in H as [k ->]; [|lia] end.
  replace (k * 1000000) with (k * 1000 * 1000) by lia. rewrite Z.div_mul by lia. lia.
Qed.

Lemma max_plan_revision_ge tripID d k p :
  plans d !! k = Some p -> pl_trip_id p = tripID ->
  pl_plan_revision p <= max_plan_revision tripID d.
Proof.
  intros Hk Ht. unfold max_plan_revision.
  assert (Hin : (k, p) ∈ rows_where (fun _ p => bool_decide (pl_trip_id p = tripID)) (plans d)).
  { apply elem_of_rows_where. by rewrite bool_decide_eq_true. }
  induction (rows_where _ _) as [|x l IH]; [by apply not_elem_of_nil in Hin|].
  apply elem_of_cons in Hin as [<-|Hin]; simpl; [lia|]. specialize (IH Hin). lia.
Qed.

Lemma max_plan_revision_nonneg tripID d : 0 <= max_plan_revision tripID d.
Proof. unfold max_plan_revision. induction (rows_where _ _); simpl; lia. Qed.

(** ** Properties *)

(** Storing a proposal.  A new proposal is stored only when its source is
    the state PostgreSQL holds: the trip's revision and current plan, finalized
    commands only, and the live lease of the holder that computed it.  It then
    is the trip's only pending proposal, the one it replaces is superseded, and
    nothing else changes. *)
Theorem persisted_proposal_is_current clk r d c d' :
  Persist clk r d = Ok (c, d') -> pd_Duplicate c = false ->
  exists t l, trips d !! pp_TripID r = Some t /\ leases d !! pp_TripID r = Some l /\
    t_current_plan_id t = Some (ps_BaseCurrentPlanID (pp_Source r)) /\
    ps_TripRevision (pp_Source r) = uint64 (t_trip_revision t) /\
    ps_AcceptedMutationSequence (pp_Source r) <= uint64 (t_finalized_mutation_sequence t) /\
    rf_HolderID (pp_Current r) = l_holder_id l /\
    ps_RuntimeEpoch (pp_Source r) = uint64 (l_runtime_epoch l) /\
    clk 0%nat < l_lease_expires_at l /\
    proposals d' !! pp_ProposalID r = Some (new_proposal r) /\
    (forall k p, proposals d' !! k = Some p -> p_trip_id p = pp_TripID r ->
       p_state p = ProposalPending -> k = pp_ProposalID r) /\
    (forall k p, proposals d !! k = Some p ->
       p_trip_id p <> pp_TripID r \/ p_state p <> ProposalPending ->
       proposals d' !! k = Some p) /\
    d' = set_proposals (proposals d') d.
Proof.
  intros H Hd. apply Persist_ok in H as [[? _]|(t & l & Hn & _)]; [congruence|].
  destruct Hn as [_ Ht Hp Hl Hc Hf _ _ ->].
  apply sourceIsCurrent_true in Hc as (? & ? & ? & ? & ?).
  exists t, l. simpl. split_and!; try done.
  - by rewrite lookup_insert_eq.
  - intros k p. rewrite lookup_insert_Some, lookup_update_rows_Some.
    intros [[? _]|(Hne & q & Hq & ->)]; [done|]. unfold pending_of.
    repeat case_bool_decide; simpl; naive_solver.
  - intros k p Hk Hdiff. rewrite lookup_insert_ne by naive_solver.
    rewrite lookup_update_rows, Hk. simpl. unfold pending_of.
    destruct Hdiff; repeat case_bool_decide; naive_solver.
Qed.

(** Storing it again.  Repeating a persisted proposal returns a duplicate
    and changes nothing; it is publishable exactly as long as the lease of the
    first call has not expired at the second call's database time. *)
Theorem persist_is_idempotent clk clk' r d c d' :
  Persist clk r d = Ok (c, d') -> pd_Duplicate c = false ->
  exists c', Persist clk' r d' = Ok (c', d') /\ pd_Duplicate c' = true /\
    pd_State c' = ProposalPending /\
    (pd_Publishable c' = true <->
     exists l, leases d !! pp_TripID r = Some l /\ clk' 0%nat < l_lease_expires_at l).
Proof.
  intros H Hd. apply Persist_ok in H as [[? _]|(t & l & Hn & _)]; [congruence|].
  pose proof (proposalMatches_new r (pn_valid _ _ _ _ _ _ Hn) (pn_check _ _ _ _ _ _ Hn)) as Hm.
  destruct Hn as [Hv Ht Hp Hl Hc Hf _ _ ->].
  eexists. split.
  - unfold Persist, scan_current_plan. run_tx_step; [exact Hv|].
    eapply tx_bind_run; [by apply lock_trip_row_ok|].
    run_tx_step; [by rewrite Hp|].
    run_tx_step; [reflexivity|].
    run_tx_step; [simpl; by rewrite Hl|].
    unfold locked_proposal. simpl. rewrite lookup_insert_eq. simpl.
    rewrite bool_decide_eq_true_2 by done.
    run_tx_step; [by rewrite Hm|reflexivity].
  - simpl. split_and!; [done..|]. rewrite andb_true_r.
    unfold sourceIsCurrent in *. inv_res. rewrite !andb_true_iff, !bool_decide_eq_true, Z.ltb_lt.
    split; [naive_solver|]. intros (l' & Hl' & Hlt). simplify_eq. done.
Qed.

(** Preparing an acceptance changes nothing and proposes a plan revision no
    plan of the trip has: it is greater than all of them. *)
Theorem prepared_revision_is_fresh clk tripID proposalID d c d' :
  PrepareProposalAcceptance clk tripID proposalID d = Ok (c, d') ->
  max_plan_revision tripID d < max_int64 ->
  d' = d /\ (forall k p, plans d !! k = Some p -> pl_trip_id p = tripID ->
    pl_plan_revision p < pr_NextPlanRevision c) /\
  exists p, proposals d !! proposalID = Some p /\ p_state p = ProposalPending /\
    pr_Payload c = p_payload p.
Proof.
  unfold PrepareProposalAcceptance, scan_current_plan, locked_proposal.
  intros H Hmax. inv_op. zbool. split; [done|]. split.
  - intros k p Hk Hp. simpl. pose proof (max_plan_revision_ge _ _ _ _ Hk Hp).
    rewrite uint64_small; unfold max_int64 in *; lia.
  - match goal with H : _ ≫= _ = Some _ |- _ => apply bind_Some in H as (p & Hb & Hs) end.
    apply bind_Some in Hb as (p' & Hp' & Ht).
    repeat case_bool_decide; simplify_eq. eauto.
Qed.

End Proposals.

(** ** Witnesses: the runtime of holder A proposes a plan for the example trip. *)

Definition ex_proposal_id : string := "00000000-0000-4000-8000-000000000020".

(** A stored proposal that schedules activity A and omits activity B. *)
Definition ex_stored_proposal : bytes :=
  let segment_a := appendVarintField (appendVarintField (appendVarintField
    (appendBytesField [] 1 (bytes_of_string ex_activity_a)) 4 100) 5 200) 7 1 in
  let segment_b := appendVarintField
    (appendBytesField [] 1 (bytes_of_string ex_activity_b)) 7 4 in
  appendBytesField [] 1 (appendBytesField (appendBytesField [] 7 segment_a) 7 segment_b).

Definition ex_source : ProposalSource := MkSource 1 4 2 1 ex_plan.

Definition ex_persist_request : PersistProposalRequest :=
  MkPersist ex_proposal_id ex_trip ex_source (MkFreshness ex_holder_a 1 4 1)
    ex_stored_proposal (sha256 ex_stored_proposal) 5000000.

Definition ex_leased : @db pg_model :=
  committed (Acquire (ex_clock 0) ex_trip ex_holder_a (10 * Second)) ex_accepted.

Definition ex_proposed : @db pg_model :=
  committed (Persist ex_clock5 ex_persist_request) ex_leased.

Lemma ex_proposed_ok : exists c,
  Persist ex_clock5 ex_persist_request ex_leased = Ok (c, ex_proposed) /\
  pd_Duplicate c = false.
Proof.
  destruct (returns_ok (fun c => negb (pd_Duplicate c))
    (Persist ex_clock5 ex_persist_request) ex_leased
    ltac:(vm_compute; reflexivity)) as (c & Hc & Hd).
  exists c. split; [exact Hc|by destruct (pd_Duplicate c)].
Qed.

Lemma persisted_proposal_is_current_witness :
  proposals ex_proposed !! ex_proposal_id = Some (new_proposal ex_persist_request).
Proof.
  destruct ex_proposed_ok as (c & Hc & Hd).
  destruct (persisted_proposal_is_current _ _ _ _ _ Hc Hd)
    as (t & l & _ & _ & _ & _ & _ & _ & _ & _ & Hp & _).
  exact Hp.
Defined.

Lemma persist_is_idempotent_witness :
  exists c', Persist (ex_clock 3) ex_persist_request ex_proposed = Ok (c', ex_proposed) /\
    pd_Duplicate c' = true.
Proof.
  destruct ex_proposed_ok as (c & Hc & Hd).
  destruct (persist_is_idempotent _ (ex_clock 3) _ _ _ _ Hc Hd) as (c' & H & Hd' & _).
  exists c'. split; [exact H|exact Hd'].
Defined.

Lemma prepared_revision_is_fresh_witness :
  exists c, 1 < pr_NextPlanRevision c.
Proof.
  destruct (committed_ok (PrepareProposalAcceptance ex_clock5 ex_trip ex_proposal_id)
    ex_proposed ltac:(vm_compute; reflexivity)) as [c Hc].
  exists c. refine (proj1 (proj2 (prepared_revision_is_fresh _ _ _ _ _ _ Hc _)) ex_plan
    ex_plan_row _ _); vm_compute; reflexivity.
Defined.
