(* ===== verification/Decisions.v ===== *)
(** * Decisions on proposals

    Models [persistence/proposal_decisions.go] (a user rejected a proposal, or
    the decision came too late) and [persistence/accepted_proposal.go] (a user
    accepted it: the planned current plan is published). *)

From S2P Require Import Prelude GoLib Wire WireFacts Schema.
From S2P Require Import Tables Leases Commands Finalization Mutations Proposals.

Section Decisions.
Context {PG : Postgres}.

Record ProposalDecisionIdentity := MkIdentity {
  pi_ProposalID : string;
  pi_SourceRuntimeEpoch : Z;
  pi_SourcePlannerStateVersion : Z;
  pi_BaseCurrentPlanID : string
}.

Record FinalizeProposalDecisionRequest := MkDecisionRequest {
  fd_TripID : string;
  fd_IntentID : string;
  fd_OutboxID : string;
  fd_EventID : string;
  fd_MutationSequence : Z;
  fd_ExpectedTripRevision : Z;
  fd_ResultingPlannerStateVersion : Z;
  fd_Identity : ProposalDecisionIdentity;
  fd_OutcomePayload : bytes
}.

Definition validateProposalDecisionFinalization (r : FinalizeProposalDecisionRequest)
  : result unit :=
  let id := fd_Identity r in
  _ ← reject_if (negb (forallb validCanonicalUUID
          [fd_TripID r; fd_IntentID r; fd_OutboxID r; fd_EventID r;
           pi_ProposalID id; pi_BaseCurrentPlanID id]))
        (ErrInvalid "proposal-decision identifiers must be canonical lowercase UUIDs");
  _ ← reject_if (existsb (fun v => max_int64 <? v)
          [fd_MutationSequence r; fd_ExpectedTripRevision r;
           fd_ResultingPlannerStateVersion r; pi_SourceRuntimeEpoch id;
           pi_SourcePlannerStateVersion id])
        (ErrInvalid "proposal-decision version is out of range");
  reject_if ((fd_MutationSequence r =? 0) || (pi_SourceRuntimeEpoch id =? 0) ||
             negb (json_Valid (fd_OutcomePayload r)))
    (ErrInvalid "proposal-decision finalization is invalid").

(** The locals [status], [desiredIntentState], [desiredOutboxState],
    [resultRevision] and [desiredProposalState]. *)
Record decision_outcome := MkOutcome {
  oc_status : string;
  oc_intent : intent_state;
  oc_outbox : delivery_state;
  oc_revision : Z;
  oc_proposal : proposal_state
}.

Definition desired_outcome (stale : bool) (expected : Z) : decision_outcome :=
  if stale then
    MkOutcome "STALE" IntentRejected DeliveryTerminalRejected expected ProposalStale
  else
    MkOutcome "OK" IntentApplied DeliveryAccepted (uint64 (expected + 1)) ProposalRejected.

Definition decision_result (r : FinalizeProposalDecisionRequest) (oc : decision_outcome)
    (at_ : Z) (duplicate : bool) : FinalizedCommand :=
  MkFinalizedCommand (fd_IntentID r) (fd_OutboxID r) (fd_TripID r) (fd_EventID r)
    (fd_MutationSequence r) (oc_intent oc) (oc_status oc) (oc_revision oc)
    (fd_ResultingPlannerStateVersion r) at_ duplicate.

(** The proposal of the request, locked. *)
Definition lock_proposal (tripID proposalID : string) : tx proposal :=
  find_row (locked_proposal tripID proposalID) ErrProposalStale.

(** The request names another command or another proposal than the stored ones. *)
Definition identity_differs (r : FinalizeProposalDecisionRequest) (i : intent) (p : proposal)
  : bool :=
  negb (bool_decide (i_event_id i = fd_EventID r)) ||
  negb (i_mutation_sequence i =? int64 (fd_MutationSequence r)) ||
  negb (i_expected_trip_revision i =? int64 (fd_ExpectedTripRevision r)) ||
  negb (p_source_runtime_epoch p =? int64 (pi_SourceRuntimeEpoch (fd_Identity r))) ||
  negb (p_source_planner_state_version p =?
          int64 (pi_SourcePlannerStateVersion (fd_Identity r))) ||
  negb (bool_decide (p_base_current_plan_id p = pi_BaseCurrentPlanID (fd_Identity r))).

(** The local [proposalMatches] of the duplicate branch. *)
Definition decided_as (stale : bool) (oc : decision_outcome) (i : intent) (p : proposal)
  : bool :=
  let by_message := bool_decide (p_decision_message_id p = Some (i_message_id i)) in
  if stale && negb (bool_decide (p_state p = ProposalPending)) &&
     negb (bool_decide (p_state p = ProposalStale))
  then is_null (p_decision_message_id p) || by_message
  else bool_decide (p_state p = oc_proposal oc) && by_message.

(** The branch [intentState != "pending"]. *)
Definition decision_duplicate (r : FinalizeProposalDecisionRequest) (stale : bool)
    (oc : decision_outcome) (i : intent) (o : outbox_row) (p : proposal)
  : tx FinalizedCommand :=
  payloadMatches ← lift (payload_matches "compare proposal-decision outcome" i
                           (fd_OutcomePayload r));
  _ ← guard (negb (outcome_equal i (oc_intent oc) (oc_status oc) (int64 (oc_revision oc))
                     (int64 (fd_ResultingPlannerStateVersion r)) &&
                   bool_decide (o_delivery_state o = oc_outbox oc) &&
                   decided_as stale oc i p && payloadMatches))
        ErrCommandFinalizationConflict;
  mret (decision_result r oc (default 0 (i_finalized_at i)) true).

(** [UPDATE plan_proposals], unless the decision is stale and the proposal was
    decided before. *)
Definition resolve_proposal (now : Z) (stale : bool) (oc : decision_outcome)
    (messageID proposalID : string) (p : proposal) : tx unit :=
  if negb stale || bool_decide (p_state p = ProposalPending) then
    update_proposals "resolve proposal decision"
      (fun k _ => bool_decide (k = proposalID))
      (fun p => set_p_decided_at (Some now)
         (set_p_decision_message_id (Some messageID) (set_p_state (oc_proposal oc) p)))
  else mret tt.

(** The branch [intentState == "pending"]. *)
Definition decision_pending (clk : nat -> Z) (r : FinalizeProposalDecisionRequest)
    (stale : bool) (oc : decision_outcome) (t : trip) (currentPlanID : string)
    (i : intent) (p : proposal) : tx FinalizedCommand :=
  _ ← guard (negb (t_trip_revision t =? i_expected_trip_revision i) ||
             (negb stale &&
              negb (bool_decide (currentPlanID = pi_BaseCurrentPlanID (fd_Identity r)))))
        ErrTripRevisionStale;
  _ ← guard (not_next (t_finalized_mutation_sequence t) (i_mutation_sequence i))
        ErrCommandFinalizationOutOfOrder;
  _ ← guard (negb stale && negb (bool_decide (p_state p = ProposalPending))) ErrProposalStale;
  _ ← guard (negb stale && negb (p_source_trip_revision p =? i_expected_trip_revision i))
        ErrProposalStale;
  let now := clk 0%nat in
  _ ← resolve_proposal now stale oc (i_message_id i) (pi_ProposalID (fd_Identity r)) p;
  _ ← update_trip "advance proposal-decision trip" (fd_TripID r) (fun t =>
        set_t_updated_at now
          (set_t_finalized_mutation_sequence (i_mutation_sequence i)
            (set_t_trip_revision (int64 (oc_revision oc)) t)));
  payload ← lift (of_option (jsonb_in (fd_OutcomePayload r))
                    (ErrDatabase "resolve proposal-decision intent"));
  _ ← update_intent "resolve proposal-decision intent" (fd_IntentID r)
        (resolve_intent (oc_intent oc) (oc_status oc) payload (int64 (oc_revision oc))
           (int64 (fd_ResultingPlannerStateVersion r)) now);
  _ ← update_outbox (fd_OutboxID r) (resolve_outbox (oc_outbox oc) (oc_status oc) now);
  mret (decision_result r oc now false).

Definition finalizeProposalDecision (clk : nat -> Z) (r : FinalizeProposalDecisionRequest)
    (stale : bool) : tx FinalizedCommand :=
  _ ← lift (validateProposalDecisionFinalization r);
  t ← lock_trip_row (fd_TripID r);
  currentPlanID ← scan_current_plan "lock proposal-decision trip" t;
  i ← lock_intent (fd_TripID r) (fd_IntentID r);
  o ← lock_outbox (fd_TripID r) (fd_IntentID r) (fd_OutboxID r);
  p ← lock_proposal (fd_TripID r) (pi_ProposalID (fd_Identity r));
  _ ← guard (identity_differs r i p) ErrCommandFinalizationConflict;
  _ ← guard (negb (is_proposal_decision (i_command_kind i))) ErrCommandFinalizationConflict;
  _ ← guard (negb stale && negb (bool_decide (i_command_kind i = CommandRejectProposal)))
        ErrCommandFinalizationConflict;
  let oc := desired_outcome stale (fd_ExpectedTripRevision r) in
  if bool_decide (i_state i = IntentPending)
  then decision_pending clk r stale oc t currentPlanID i p
  else decision_duplicate r stale oc i o p.

Definition FinalizeProposalRejection (clk : nat -> Z) (r : FinalizeProposalDecisionRequest)
  : tx FinalizedCommand :=
  _ ← guard (fd_ExpectedTripRevision r =? max_int64) (ErrInvalid "trip revision is exhausted");
  finalizeProposalDecision clk r false.

Definition FinalizeStaleProposalDecision (clk : nat -> Z)
    (r : FinalizeProposalDecisionRequest) : tx FinalizedCommand :=
  finalizeProposalDecision clk r true.

(** ** [FinalizeProposalAcceptance] *)

(** The planned plan of the intent: its checksum, its identity and its mapping
    to the proposal. *)
Definition check_planned (r : FinalizeProposalDecisionRequest) (plannedPlanID : string)
    (plannedPayload plannedChecksum : bytes) (proposalPayload : bytes)
  : result currentPlanWire :=
  _ ← reject_if (negb (bool_decide (length plannedChecksum = 32%nat)) ||
                 negb (constant_time_eq (sha256 plannedPayload) plannedChecksum))
        ErrProposalPayloadInvalid;
  match parseCurrentPlan plannedPayload with
  | Err _ => Err ErrProposalPayloadInvalid
  | Ok plan =>
      _ ← reject_if (negb (bool_decide (pw_planID plan = plannedPlanID)) ||
                     negb (bool_decide (pw_sourceProposalID plan =
                                          pi_ProposalID (fd_Identity r))) ||
                     negb (pw_origin plan =? 2)) ErrProposalPayloadInvalid;
      match validateProposalPlanMapping plan proposalPayload with
      | Err _ => Err ErrProposalPayloadInvalid
      | Ok _ => Ok plan
      end
  end.

(** The activities of the trip, as the map [activityIDs]. *)
Definition activity_ids (tripID : string) (d : db) : gset string :=
  list_to_set (rows_where (fun _ a => bool_decide (a_trip_id a = tripID)) (activities d)).*1.

Definition plan_covers_activities (plan : currentPlanWire) (ids : gset string) : bool :=
  bool_decide (size ids = length (pw_segments plan)) &&
  forallb (fun s => bool_decide (seg_activityID s ∈ ids)) (pw_segments plan).

(** The plan of the trip with the planned identifier: [existingPlan]. *)
Definition existing_plan (tripID planID : string) (d : db) : option plan :=
  p ← plans d !! planID; if bool_decide (pl_trip_id p = tripID) then Some p else None.

Definition acceptance_outcome (expected : Z) : decision_outcome :=
  MkOutcome "OK" IntentApplied DeliveryAccepted (uint64 (expected + 1)) ProposalAccepted.

(** The local [planMatches]. *)
Definition plan_matches (r : FinalizeProposalDecisionRequest) (plan : currentPlanWire)
    (plannedPayload plannedChecksum : bytes) (existing : option Schema.plan) : bool :=
  match existing with
  | None => false
  | Some e =>
      (pl_plan_revision e =? int64 (pw_planRevision plan)) &&
      bool_decide (pl_origin e = AcceptedEngineProposal) &&
      bool_decide (pl_source_proposal_id e = Some (pi_ProposalID (fd_Identity r))) &&
      bool_decide (pl_payload e = plannedPayload) &&
      constant_time_eq (pl_checksum e) plannedChecksum &&
      (pl_created_at e =? unixMilliseconds (pw_createdAtUnixMS plan))
  end.

(** The branch [intentState != "pending"]. *)
Definition acceptance_duplicate (r : FinalizeProposalDecisionRequest)
    (plan : currentPlanWire) (plannedPlanID : string) (plannedPayload plannedChecksum : bytes)
    (existing : option Schema.plan) (currentPlanID : string) (i : intent) (o : outbox_row)
    (p : proposal) : tx FinalizedCommand :=
  let oc := acceptance_outcome (fd_ExpectedTripRevision r) in
  payloadMatches ← lift (payload_matches "compare proposal-acceptance outcome" i
                           (fd_OutcomePayload r));
  _ ← guard (negb (outcome_equal i IntentApplied "OK" (int64 (oc_revision oc))
                     (int64 (fd_ResultingPlannerStateVersion r)) &&
                   bool_decide (o_delivery_state o = DeliveryAccepted) &&
                   bool_decide (p_state p = ProposalAccepted) &&
                   bool_decide (currentPlanID = plannedPlanID) &&
                   plan_matches r plan plannedPayload plannedChecksum existing &&
                   payloadMatches))
        ErrCommandFinalizationConflict;
  mret (decision_result r oc (default 0 (i_finalized_at i)) true).

Definition accepted_plan_row (r : FinalizeProposalDecisionRequest) (owner : string)
    (plan : currentPlanWire) (plannedPayload plannedChecksum : bytes) : Schema.plan :=
  Plan (fd_TripID r) (int64 (pw_planRevision plan)) AcceptedEngineProposal owner
    (Some (pi_ProposalID (fd_Identity r))) 1 plannedPayload (zlen plannedPayload)
    plannedChecksum (unixMilliseconds (pw_createdAtUnixMS plan)).

(** The branch [intentState == "pending"]: publish the plan. *)
Definition acceptance_pending (clk : nat -> Z) (r : FinalizeProposalDecisionRequest)
    (plan : currentPlanWire) (plannedPlanID : string) (plannedPayload plannedChecksum : bytes)
    (existing : option Schema.plan) (t : trip) (currentPlanID : string) (i : intent)
    (p : proposal) : tx FinalizedCommand :=
  let oc := acceptance_outcome (fd_ExpectedTripRevision r) in
  _ ← guard (negb (t_trip_revision t =? i_expected_trip_revision i) ||
             negb (bool_decide (currentPlanID = pi_BaseCurrentPlanID (fd_Identity r))) ||
             negb (p_source_trip_revision p =? i_expected_trip_revision i) ||
             negb (bool_decide (p_state p = ProposalPending)) ||
             not_next (t_finalized_mutation_sequence t) (i_mutation_sequence i) ||
             negb (is_null existing)) ErrProposalStale;
  _ ← insert_plan "insert accepted plan" plannedPlanID
        (accepted_plan_row r (t_owner_user_id t) plan plannedPayload plannedChecksum);
  let now := clk 0%nat in
  _ ← update_proposals "accept proposal row"
        (fun k _ => bool_decide (k = pi_ProposalID (fd_Identity r)))
        (fun p => set_p_decided_at (Some now)
           (set_p_resulting_current_plan_id (Some plannedPlanID)
             (set_p_decision_message_id (Some (i_message_id i))
               (set_p_state ProposalAccepted p))));
  _ ← update_trip "publish accepted plan" (fd_TripID r) (fun t =>
        set_t_updated_at now
          (set_t_finalized_mutation_sequence (i_mutation_sequence i)
            (set_t_trip_revision (int64 (oc_revision oc))
              (set_t_current_plan_id (Some plannedPlanID) t))));
  payload ← lift (of_option (jsonb_in (fd_OutcomePayload r))
                    (ErrDatabase "resolve proposal-acceptance intent"));
  _ ← update_intent "resolve proposal-acceptance intent" (fd_IntentID r)
        (resolve_intent IntentApplied "OK" payload (int64 (oc_revision oc))
           (int64 (fd_ResultingPlannerStateVersion r)) now);
  _ ← update_outbox (fd_OutboxID r) (resolve_outbox DeliveryAccepted "OK" now);
  consistent ← gets (current_plan_fk (fd_TripID r));
  _ ← guard (negb consistent) (ErrDatabase "commit proposal acceptance");
  mret (decision_result r oc now false).

Definition FinalizeProposalAcceptance (clk : nat -> Z) (r : FinalizeProposalDecisionRequest)
  : tx FinalizedCommand :=
  _ ← lift (validateProposalDecisionFinalization r);
  _ ← guard (fd_ExpectedTripRevision r =? max_int64) (ErrInvalid "trip revision is exhausted");
  t ← lock_trip_row (fd_TripID r);
  currentPlanID ← scan_current_plan "lock proposal-acceptance trip" t;
  i ← lock_intent (fd_TripID r) (fd_IntentID r);
  plannedPlanID ← lift (of_option (i_planned_current_plan_id i)
                          (ErrDatabase "lock proposal-acceptance intent"));
  let plannedPayload := default [] (i_planned_current_plan_payload i) in
  let plannedChecksum := default [] (i_planned_current_plan_checksum i) in
  o ← lock_outbox (fd_TripID r) (fd_IntentID r) (fd_OutboxID r);
  p ← lock_proposal (fd_TripID r) (pi_ProposalID (fd_Identity r));
  _ ← guard (identity_differs r i p ||
             negb (bool_decide (i_command_kind i = CommandAcceptProposal)))
        ErrCommandFinalizationConflict;
  plan ← lift (check_planned r plannedPlanID plannedPayload plannedChecksum (p_payload p));
  ids ← gets (activity_ids (fd_TripID r));
  _ ← guard (negb (plan_covers_activities plan ids)) ErrProposalPayloadInvalid;
  maximumPlanRevision ← gets (max_plan_revision (fd_TripID r));
  _ ← guard (((maximumPlanRevision =? max_int64) ||
              negb (pw_planRevision plan =? uint64 (maximumPlanRevision + 1))) &&
             bool_decide (i_state i = IntentPending)) ErrProposalPayloadInvalid;
  existing ← gets (existing_plan (fd_TripID r) plannedPlanID);
  if bool_decide (i_state i = IntentPending)
  then acceptance_pending clk r plan plannedPlanID plannedPayload plannedChecksum existing
         t currentPlanID i p
  else acceptance_duplicate r plan plannedPlanID plannedPayload plannedChecksum existing
         currentPlanID i o p.

(** ** Lemmas *)

Lemma lock_proposal_ok tripID id d p d' :
  lock_proposal tripID id d = Ok (p, d') <->
  (proposals d !! id = Some p /\ p_trip_id p = tripID) /\ d' = d.
Proof.
  unfold lock_proposal, locked_proposal. rewrite find_row_ok, bind_Some. split.
  - intros [(x & Hx & Hc) ->]. case_bool_decide; simplify_eq. done.
  - intros [[Hp Ht] ->]. split; [|done]. exists p. by rewrite bool_decide_eq_true_2.
Qed.

Lemma identity_differs_false r i p :
  identity_differs r i p = false ->
  i_event_id i = fd_EventID r /\
  i_mutation_sequence i = int64 (fd_MutationSequence r) /\
  i_expected_trip_revision i = int64 (fd_ExpectedTripRevision r) /\
  p_base_current_plan_id p = pi_BaseCurrentPlanID (fd_Identity r).
Proof. unfold identity_differs. intros H. inv_res. zbool. done. Qed.

(** [UPDATE plan_proposals ... WHERE id = $1] on a row that exists. *)
Lemma update_rows_key {A} (f : A -> A) (m : gmap string A) k x :
  m !! k = Some x ->
  update_rows (fun k' _ => bool_decide (k' = k)) f m = <[k := f x]> m.
Proof.
  intros Hx. apply map_eq. intros k'. rewrite lookup_update_rows.
  destruct (decide (k' = k)) as [->|Hne].
  - by rewrite lookup_insert_eq, Hx, bool_decide_eq_true_2.
  - rewrite lookup_insert_ne by done. rewrite bool_decide_eq_false_2 by done.
    by destruct (m !! k').
Qed.

(** The trip, intent and outbox rows every decision resolves. *)
Definition decided_rows (now : Z) (r : FinalizeProposalDecisionRequest)
    (oc : decision_outcome) (t : trip) (i : intent) (o : outbox_row) (payload : jsonb)
    (d : db) : db :=
  set_outbox (<[fd_OutboxID r := resolve_outbox (oc_outbox oc) (oc_status oc) now o]> (outbox d))
    (set_intents (<[fd_IntentID r := resolve_intent (oc_intent oc) (oc_status oc) payload
        (int64 (oc_revision oc)) (int64 (fd_ResultingPlannerStateVersion r)) now i]> (intents d))
      (set_trips (<[fd_TripID r := set_t_updated_at now
          (set_t_finalized_mutation_sequence (i_mutation_sequence i)
            (set_t_trip_revision (int64 (oc_revision oc)) t))]> (trips d)) d)).

(** The proposal after a decision. *)
Definition decided_proposal (now : Z) (oc : decision_outcome) (message : string)
    (p : proposal) : proposal :=
  set_p_decided_at (Some now)
    (set_p_decision_message_id (Some message) (set_p_state (oc_proposal oc) p)).

Record decision_finalized (clk : nat -> Z) (r : FinalizeProposalDecisionRequest)
    (stale : bool) (t : trip) (plan_id : string) (i : intent) (o : outbox_row)
    (p : proposal) (payload : jsonb) (d d' : db) : Prop := {
  df_valid : validateProposalDecisionFinalization r = Ok tt;
  df_trip : trips d !! fd_TripID r = Some t;
  df_plan : t_current_plan_id t = Some plan_id;
  df_intent : intents d !! fd_IntentID r = Some i;
  df_intent_trip : i_trip_id i = fd_TripID r;
  df_order : i_application_order i = runtime_first;
  df_outbox : outbox d !! fd_OutboxID r = Some o;
  df_outbox_intent : o_command_intent_id o = fd_IntentID r;
  df_outbox_trip : o_trip_id o = fd_TripID r;
  df_proposal : proposals d !! pi_ProposalID (fd_Identity r) = Some p;
  df_proposal_trip : p_trip_id p = fd_TripID r;
  df_identity : identity_differs r i p = false;
  df_kind : is_proposal_decision (i_command_kind i) = true;
  df_reject : stale = false -> i_command_kind i = CommandRejectProposal /\
    plan_id = pi_BaseCurrentPlanID (fd_Identity r) /\ p_state p = ProposalPending /\
    p_source_trip_revision p = i_expected_trip_revision i;
  df_pending : i_state i = IntentPending;
  df_revision : t_trip_revision t = i_expected_trip_revision i;
  df_next : not_next (t_finalized_mutation_sequence t) (i_mutation_sequence i) = false;
  df_payload : jsonb_in (fd_OutcomePayload r) = Some payload;
  df_effect : d' = decided_rows (clk 0%nat) r
    (desired_outcome stale (fd_ExpectedTripRevision r)) t i o payload
    (set_proposals
       (if bool_decide (p_state p = ProposalPending)
        then <[pi_ProposalID (fd_Identity r) := decided_proposal (clk 0%nat)
               (desired_outcome stale (fd_ExpectedTripRevision r)) (i_message_id i) p]>
               (proposals d)
        else proposals d) d)
}.

Lemma resolve_proposal_ok now stale oc message id p d u d' :
  proposals d !! id = Some p ->
  resolve_proposal now stale oc message id p d = Ok (u, d') ->
  (stale = false -> p_state p = ProposalPending) ->
  d' = set_proposals (if bool_decide (p_state p = ProposalPending)
         then <[id := decided_proposal now oc message p]> (proposals d)
         else proposals d) d.
Proof.
  intros Hp H Hst. unfold resolve_proposal in H. case_bool_decide as Hs.
  - rewrite orb_true_r in H. inv_op. by erewrite update_rows_key by exact Hp.
  - destruct stale; simpl in H; [|by destruct (Hs (Hst eq_refl))].
    inv_op. by destruct d'.
Qed.

Lemma set_proposals_id d : set_proposals (proposals d) d = d.
Proof. by destruct d. Qed.

Lemma finalizeProposalDecision_ok clk r stale d c d' :
  finalizeProposalDecision clk r stale d = Ok (c, d') ->
  (fc_Duplicate c = true /\ d' = d) \/
  (exists t plan_id i o p payload,
     decision_finalized clk r stale t plan_id i o p payload d d' /\
     c = decision_result r (desired_outcome stale (fd_ExpectedTripRevision r))
           (clk 0%nat) false).
Proof.
  unfold finalizeProposalDecision, scan_current_plan. intros H. inv_op.
  match goal with H : lock_proposal _ _ _ = _ |- _ =>
    apply lock_proposal_ok in H as [[Hp Hpt] ->] end. inv_op.
  case_bool_decide; [|unfold decision_duplicate in *; inv_op; by left].
  right. unfold decision_pending in *. inv_op. zbool.
  match goal with H : resolve_proposal _ _ _ _ _ _ _ = _ |- _ =>
    apply (resolve_proposal_ok _ _ _ _ _ _ _ _ _ Hp) in H as ->;
      [|intros ->; simpl in *; by inv_res] end.
  inv_op. do 6 eexists. split; [|done]. econstructor; try done.
  - intros ->. simpl in *. inv_res. zbool. done.
  - unfold decided_rows. simpl. by erewrite alter_insert_Some by (simpl; eassumption).
Qed.

(** What publishing an accepted plan did. *)
Record acceptance_finalized (clk : nat -> Z) (r : FinalizeProposalDecisionRequest)
    (t : trip) (i : intent) (o : outbox_row) (p : proposal) (plan : currentPlanWire)
    (plan_id : string) (body checksum : bytes) (payload : jsonb) (d d' : db) : Prop := {
  af_valid : validateProposalDecisionFinalization r = Ok tt;
  af_range : fd_ExpectedTripRevision r <> max_int64;
  af_trip : trips d !! fd_TripID r = Some t;
  af_base : t_current_plan_id t = Some (pi_BaseCurrentPlanID (fd_Identity r));
  af_intent : intents d !! fd_IntentID r = Some i;
  af_intent_trip : i_trip_id i = fd_TripID r;
  af_order : i_application_order i = runtime_first;
  af_kind : i_command_kind i = CommandAcceptProposal;
  af_planned : i_planned_current_plan_id i = Some plan_id;
  af_body : default [] (i_planned_current_plan_payload i) = body;
  af_checksum : default [] (i_planned_current_plan_checksum i) = checksum;
  af_outbox : outbox d !! fd_OutboxID r = Some o;
  af_outbox_intent : o_command_intent_id o = fd_IntentID r;
  af_outbox_trip : o_trip_id o = fd_TripID r;
  af_proposal : proposals d !! pi_ProposalID (fd_Identity r) = Some p;
  af_proposal_trip : p_trip_id p = fd_TripID r;
  af_proposal_pending : p_state p = ProposalPending;
  af_proposal_revision : p_source_trip_revision p = i_expected_trip_revision i;
  af_identity : identity_differs r i p = false;
  af_check : check_planned r plan_id body checksum (p_payload p) = Ok plan;
  af_covers : plan_covers_activities plan (activity_ids (fd_TripID r) d) = true;
  af_revision_fresh : max_plan_revision (fd_TripID r) d <> max_int64 /\
    pw_planRevision plan = uint64 (max_plan_revision (fd_TripID r) d + 1);
  af_pending : i_state i = IntentPending;
  af_revision : t_trip_revision t = i_expected_trip_revision i;
  af_next : not_next (t_finalized_mutation_sequence t) (i_mutation_sequence i) = false;
  af_insert : plan_insertable plan_id
    (accepted_plan_row r (t_owner_user_id t) plan body checksum) d;
  af_check_trip : let oc := acceptance_outcome (fd_ExpectedTripRevision r) in
    trip_check (set_t_updated_at (clk 0%nat)
      (set_t_finalized_mutation_sequence (i_mutation_sequence i)
        (set_t_trip_revision (int64 (oc_revision oc))
          (set_t_current_plan_id (Some plan_id) t)))) = true;
  af_payload : jsonb_in (fd_OutcomePayload r) = Some payload;
  af_effect : let oc := acceptance_outcome (fd_ExpectedTripRevision r) in
    d' = decided_rows (clk 0%nat) r oc (set_t_current_plan_id (Some plan_id) t) i o payload
      (set_proposals (<[pi_ProposalID (fd_Identity r) :=
           set_p_decided_at (Some (clk 0%nat))
             (set_p_resulting_current_plan_id (Some plan_id)
               (set_p_decision_message_id (Some (i_message_id i))
                 (set_p_state ProposalAccepted p)))]> (proposals d))
        (set_plans (<[plan_id := accepted_plan_row r (t_owner_user_id t) plan body checksum]>
          (plans d)) d))
}.

Lemma FinalizeProposalAcceptance_ok clk r d c d' :
  FinalizeProposalAcceptance clk r d = Ok (c, d') ->
  (fc_Duplicate c = true /\ d' = d) \/
  (exists t i o p plan plan_id body checksum payload,
     acceptance_finalized clk r t i o p plan plan_id body checksum payload d d' /\
     c = decision_result r (acceptance_outcome (fd_ExpectedTripRevision r)) (clk 0%nat) false).
Proof.
  unfold FinalizeProposalAcceptance, scan_current_plan. intros H. inv_op.
  match goal with H : lock_proposal _ _ _ = _ |- _ =>
    apply lock_proposal_ok in H as [[Hp Hpt] ->] end. inv_op.
  case_bool_decide; [|unfold acceptance_duplicate in *; inv_op; by left].
  right. unfold acceptance_pending in *. inv_op. zbool.
  do 9 eexists. split; [|done]. econstructor; try done.
  - match goal with H : _ && true = false |- _ => rewrite andb_true_r in H; inv_res end.
    by zbool.
  - unfold decided_rows. simpl. erewrite alter_insert_Some by (simpl; eassumption).
    by erewrite update_rows_key by (simpl; eassumption).
Qed.

Lemma decision_range r :
  0 <= fd_ExpectedTripRevision r -> fd_ExpectedTripRevision r <> max_int64 ->
  validateProposalDecisionFinalization r = Ok tt ->
  int64 (fd_ExpectedTripRevision r) = fd_ExpectedTripRevision r /\
  int64 (uint64 (fd_ExpectedTripRevision r + 1)) = fd_ExpectedTripRevision r + 1.
Proof.
  unfold validateProposalDecisionFinalization. intros Hge Hne H. inv_res.
  match goal with H : existsb _ _ = false |- _ => simpl in H end. inv_res. zbool.
  unfold max_int64 in *. split; [apply int64_small|apply int64_uint64]; unfold max_int64; lia.
Qed.

Lemma check_planned_ok r plan_id body checksum stored plan :
  check_planned r plan_id body checksum stored = Ok plan ->
  sha256 body = checksum /\ parseCurrentPlan body = Ok plan /\ pw_planID plan = plan_id /\
  pw_sourceProposalID plan = pi_ProposalID (fd_Identity r) /\
  validateProposalPlanMapping plan stored = Ok tt.
Proof.
  unfold check_planned, constant_time_eq. intros H. inv_res.
  destruct (parseCurrentPlan body) as [q|] eqn:E; [|done]. inv_res.
  destruct (validateProposalPlanMapping q stored) as [[]|] eqn:E'; [|done].
  by simplify_eq.
Qed.

(** A plan without repetitions that passes the coverage test schedules or omits
    every activity of the trip, and no other. *)
Lemma plan_covers_exact plan ids :
  plan_covers_activities plan ids = true -> NoDup (seg_activityID <$> pw_segments plan) ->
  list_to_set (seg_activityID <$> pw_segments plan) = ids.
Proof.
  unfold plan_covers_activities. intros H Hnd. inv_res.
  match goal with H : forallb _ _ = true |- _ => rewrite forallb_forall in H; rename H into Hf end.
  apply leibniz_equiv, set_subseteq_size_equiv.
  - intros x [s [-> Hs]]%elem_of_list_to_set%list_elem_of_fmap.
    apply list_elem_of_In, Hf in Hs. by apply bool_decide_eq_true in Hs.
  - rewrite size_list_to_set, length_fmap by done. lia.
Qed.

(** ** Properties *)


(** Rejecting a proposal.  Only the trip's pending proposal, computed for
    the current plan and revision, can be rejected; it is recorded with the
    deciding message, the trip keeps its current plan, and revision and
    finalized sequence advance by one. *)
Theorem rejection_effect clk r d c d' :
  0 <= fd_ExpectedTripRevision r ->
  FinalizeProposalRejection clk r d = Ok (c, d') -> fc_Duplicate c = false ->
  exists t i p p',
    trips d !! fd_TripID r = Some t /\ intents d !! fd_IntentID r = Some i /\
    proposals d !! pi_ProposalID (fd_Identity r) = Some p /\
    p_state p = ProposalPending /\ p_source_trip_revision p = t_trip_revision t /\
    t_current_plan_id t = Some (p_base_current_plan_id p) /\
    trips d' = <[fd_TripID r := set_t_updated_at (clk 0%nat)
      (set_t_finalized_mutation_sequence (t_finalized_mutation_sequence t + 1)
        (set_t_trip_revision (t_trip_revision t + 1) t))]> (trips d) /\
    proposals d' = <[pi_ProposalID (fd_Identity r) := p']> (proposals d) /\
    p_state p' = ProposalRejected /\ p_decision_message_id p' = Some (i_message_id i) /\
    plans d' = plans d.
Proof.
  intros Hge H Hd. unfold FinalizeProposalRejection in H. inv_op. zbool.
  match goal with H : finalizeProposalDecision _ _ _ _ = _ |- _ =>
    apply finalizeProposalDecision_ok in H as
      [[? _]|(t & plan_id & i & o & p & payload & Hf & _)] end; [congruence|].
  destruct (decision_range r Hge) as [Hr1 Hr2]; [done|apply Hf|].
  destruct (identity_differs_false _ _ _ (df_identity _ _ _ _ _ _ _ _ _ _ _ Hf))
    as (_ & _ & Hexp & Hbase).
  pose proof (df_next _ _ _ _ _ _ _ _ _ _ _ Hf) as (_ & _ & Hn)%not_next_false.
  destruct (df_reject _ _ _ _ _ _ _ _ _ _ _ Hf eq_refl) as (_ & Hpl & Hst & Hsrc).
  destruct Hf as [_ Ht Hp Hi _ _ _ _ _ Hpr _ _ _ _ _ Hrev _ _ ->].
  exists t, i, p, (decided_proposal (clk 0%nat)
    (desired_outcome false (fd_ExpectedTripRevision r)) (i_message_id i) p).
  split_and!; try done; try congruence; simpl.
  - by rewrite Hn, Hr2, Hrev, Hexp, Hr1.
  - by rewrite bool_decide_eq_true_2.
Qed.

(** A decision that came too late.  Finalizing it as stale keeps the trip's
    revision and current plan, advances the finalized sequence by one, and marks
    the proposal stale if it was still pending; a proposal already decided
    otherwise keeps its state. *)
Theorem stale_decision_effect clk r d c d' :
  FinalizeStaleProposalDecision clk r d = Ok (c, d') -> fc_Duplicate c = false ->
  exists t p,
    trips d !! fd_TripID r = Some t /\
    proposals d !! pi_ProposalID (fd_Identity r) = Some p /\
    trips d' = <[fd_TripID r := set_t_updated_at (clk 0%nat)
      (set_t_finalized_mutation_sequence (t_finalized_mutation_sequence t + 1) t)]> (trips d) /\
    (p_state p <> ProposalPending -> proposals d' = proposals d) /\
    (p_state p = ProposalPending -> exists p',
       proposals d' = <[pi_ProposalID (fd_Identity r) := p']> (proposals d) /\
       p_state p' = ProposalStale) /\
    plans d' = plans d /\ fc_State c = IntentRejected.
Proof.
  intros H Hd. apply finalizeProposalDecision_ok in H as
    [[? _]|(t & plan_id & i & o & p & payload & H & ->)]; [congruence|].
  destruct (identity_differs_false _ _ _ (df_identity _ _ _ _ _ _ _ _ _ _ _ H))
    as (_ & _ & Hexp & _).
  pose proof (df_next _ _ _ _ _ _ _ _ _ _ _ H) as (_ & _ & Hn)%not_next_false.
  destruct H as [_ Ht _ _ _ _ _ _ _ Hpr _ _ _ _ _ Hrev _ _ ->].
  exists t, p. simpl. split_and!; try done.
  - rewrite Hn, <- Hexp, <- Hrev. by destruct t.
  - intros Hs. by rewrite bool_decide_eq_false_2.
  - intros Hs. rewrite bool_decide_eq_true_2 by done. eexists. by split.
Qed.

(** The lookups of a repeated decision, up to the duplicate test. *)
Lemma finalizeProposalDecision_again clk clk' r stale t plan_id i o p payload d d' :
  decision_finalized clk r stale t plan_id i o p payload d d' ->
  let oc := desired_outcome stale (fd_ExpectedTripRevision r) in
  let p' := if bool_decide (p_state p = ProposalPending)
            then decided_proposal (clk 0%nat) oc (i_message_id i) p else p in
  let i' := resolve_intent (oc_intent oc) (oc_status oc) payload (int64 (oc_revision oc))
              (int64 (fd_ResultingPlannerStateVersion r)) (clk 0%nat) i in
  finalizeProposalDecision clk' r stale d' =
  decision_duplicate r stale oc i' (resolve_outbox (oc_outbox oc) (oc_status oc) (clk 0%nat) o)
    p' d'.
Proof.
  intros [Hv _ Hpl _ Hit Hor _ Hoi Hot Hpr Hpt Hid Hk Hrj _ _ _ _ Hd'] oc p' i'.
  assert (Ht' : trips d' !! fd_TripID r = Some (set_t_updated_at (clk 0%nat)
    (set_t_finalized_mutation_sequence (i_mutation_sequence i)
      (set_t_trip_revision (int64 (oc_revision oc)) t))))
    by (rewrite Hd'; simpl; by rewrite lookup_insert_eq).
  assert (Hi' : intents d' !! fd_IntentID r = Some i')
    by (rewrite Hd'; simpl; by rewrite lookup_insert_eq).
  assert (Ho' : outbox d' !! fd_OutboxID r =
    Some (resolve_outbox (oc_outbox oc) (oc_status oc) (clk 0%nat) o))
    by (rewrite Hd'; simpl; by rewrite lookup_insert_eq).
  assert (Hp' : proposals d' !! pi_ProposalID (fd_Identity r) = Some p').
  { rewrite Hd'. simpl. unfold p'. case_bool_decide; [by rewrite lookup_insert_eq|done]. }
  clear Hd'. unfold finalizeProposalDecision, scan_current_plan. run_tx_step; [exact Hv|].
  eapply tx_bind_run; [by apply lock_trip_row_ok|].
  run_tx_step; [simpl; by rewrite Hpl|].
  eapply tx_bind_run; [apply lock_intent_ok; split;
                       [split_and!; [exact Hi'|done|done]|reflexivity]|].
  eapply tx_bind_run; [apply lock_outbox_ok; split;
                       [split_and!; [exact Ho'|done|done]|reflexivity]|].
  eapply tx_bind_run; [apply lock_proposal_ok; split; [split; [exact Hp'|]|done];
                       unfold p'; case_bool_decide; exact Hpt|].
  run_tx_step; [unfold p'; case_bool_decide; exact Hid|].
  run_tx_step; [simpl; by rewrite Hk|].
  run_tx_step; [simpl; destruct stale; [done|]; destruct (Hrj eq_refl) as [-> _];
                by rewrite bool_decide_eq_true_2|].
  cbv zeta. fold oc. rewrite bool_decide_eq_false_2; [done|].
  unfold i', oc, desired_outcome. by destruct stale.
Qed.

(** Repeating a committed decision returns a duplicate and changes nothing,
    when the decision itself decided the proposal (every rejection does). *)
Theorem decision_idempotent clk clk' r stale d c d' :
  finalizeProposalDecision clk r stale d = Ok (c, d') -> fc_Duplicate c = false ->
  (forall p, proposals d !! pi_ProposalID (fd_Identity r) = Some p ->
     p_state p = ProposalPending) ->
  exists c', finalizeProposalDecision clk' r stale d' = Ok (c', d') /\
    fc_Duplicate c' = true /\ fc_Status c' = fc_Status c /\
    fc_ResultingTripRevision c' = fc_ResultingTripRevision c.
Proof.
  intros H Hd Hpend. apply finalizeProposalDecision_ok in H as
    [[? _]|(t & plan_id & i & o & p & payload & H & ->)]; [congruence|].
  set (oc := desired_outcome stale (fd_ExpectedTripRevision r)) in *.
  exists (decision_result r oc (clk 0%nat) true). split_and!; [|done..].
  rewrite (finalizeProposalDecision_again _ _ _ _ _ _ _ _ _ _ _ _ H). fold oc.
  rewrite (bool_decide_eq_true_2 (p_state p = ProposalPending)) by (apply Hpend, H).
  unfold decision_duplicate.
  run_tx_step; [apply payload_matches_ok; eexists _, _; split_and!; [apply H|done|done]|].
  run_tx_step; [|reflexivity]. rewrite outcome_equal_resolved.
  unfold decided_as, oc, desired_outcome.
  destruct stale; simpl; by rewrite !bool_decide_eq_true_2.
Qed.

(** A stale decision is not idempotent when the proposal was already stale
    (an accepted mutation or a lease takeover made it so, with no deciding
    message): the first call commits and the repeated call, with the same
    outcome, is refused as a conflict. *)
Theorem stale_decision_replay_conflicts clk clk' r d c d' p :
  FinalizeStaleProposalDecision clk r d = Ok (c, d') -> fc_Duplicate c = false ->
  proposals d !! pi_ProposalID (fd_Identity r) = Some p ->
  p_state p = ProposalStale -> p_decision_message_id p = None ->
  FinalizeStaleProposalDecision clk' r d' = Err ErrCommandFinalizationConflict.
Proof.
  intros H Hd Hp Hs Hm. apply finalizeProposalDecision_ok in H as
    [[? _]|(t & plan_id & i & o & p0 & payload & H & ->)]; [congruence|].
  assert (p0 = p) as -> by (pose proof (df_proposal _ _ _ _ _ _ _ _ _ _ _ H); congruence).
  unfold FinalizeStaleProposalDecision.
  rewrite (finalizeProposalDecision_again _ _ _ _ _ _ _ _ _ _ _ _ H).
  rewrite (bool_decide_eq_false_2 (p_state p = ProposalPending)) by congruence.
  unfold decision_duplicate.
  run_tx_step; [apply payload_matches_ok; eexists _, _; split_and!; [apply H|done|done]|].
  unfold mbind, tx_bind, guard, lift, decided_as. rewrite Hs, Hm. simpl.
  by rewrite !andb_false_r.
Qed.

(** Accepting twice.  Repeating a committed acceptance with the same outcome
    returns a duplicate and changes nothing: the plan is published once. *)
Theorem acceptance_idempotent clk clk' r d c d' :
  FinalizeProposalAcceptance clk r d = Ok (c, d') -> fc_Duplicate c = false ->
  exists c', FinalizeProposalAcceptance clk' r d' = Ok (c', d') /\ fc_Duplicate c' = true /\
    fc_ResultingTripRevision c' = fc_ResultingTripRevision c /\
    fc_FinalizedAt c' = fc_FinalizedAt c.
Proof.
  intros H Hd. apply FinalizeProposalAcceptance_ok in H as
    [[? _]|(t & i & o & p & plan & plan_id & body & checksum & payload & H & ->)];
    [congruence|].
  exists (decision_result r (acceptance_outcome (fd_ExpectedTripRevision r)) (clk 0%nat) true).
  split_and!; [|done..].
  destruct H as [Hv Hne _ _ _ Hit Hor Hk Hpl Hb Hcs _ Hoi Hot _ Hpt _ _ Hid Hck Hcov _ _ _ _ _ _ Hpay Hd'].
  cbv zeta in Hd'. set (oc := acceptance_outcome _) in *.
  set (i' := resolve_intent IntentApplied "OK" payload (int64 (oc_revision oc))
    (int64 (fd_ResultingPlannerStateVersion r)) (clk 0%nat) i).
  set (row := accepted_plan_row r (t_owner_user_id t) plan body checksum) in *.
  set (p' := set_p_decided_at (Some (clk 0%nat)) _) in Hd'.
  assert (Ht' : exists t', trips d' !! fd_TripID r = Some t' /\ t_current_plan_id t' = Some plan_id)
    by (rewrite Hd'; simpl; rewrite lookup_insert_eq; eauto).
  destruct Ht' as (t' & Ht' & Hcp).
  assert (Hi' : intents d' !! fd_IntentID r = Some i')
    by (rewrite Hd'; simpl; by rewrite lookup_insert_eq).
  assert (Ho' : outbox d' !! fd_OutboxID r = Some (resolve_outbox DeliveryAccepted "OK" (clk 0%nat) o))
    by (rewrite Hd'; simpl; by rewrite lookup_insert_eq).
  assert (Hp' : proposals d' !! pi_ProposalID (fd_Identity r) = Some p')
    by (rewrite Hd'; simpl; by rewrite lookup_insert_eq).
  assert (Hrow : plans d' !! plan_id = Some row)
    by (rewrite Hd'; simpl; by rewrite lookup_insert_eq).
  assert (Hact : activity_ids (fd_TripID r) d' = activity_ids (fd_TripID r) d)
    by (by rewrite Hd').
  clear Hd'. unfold FinalizeProposalAcceptance, scan_current_plan.
  run_tx_step; [exact Hv|]. run_tx_step; [by apply Z.eqb_neq|].
  eapply tx_bind_run; [by apply lock_trip_row_ok|].
  run_tx_step; [by rewrite Hcp|].
  eapply tx_bind_run; [apply lock_intent_ok; split;
                       [split_and!; [exact Hi'|done|done]|reflexivity]|].
  run_tx_step; [simpl; by rewrite Hpl|].
  eapply tx_bind_run; [apply lock_outbox_ok; split;
                       [split_and!; [exact Ho'|done|done]|reflexivity]|].
  eapply tx_bind_run; [apply lock_proposal_ok; split; [split; [exact Hp'|exact Hpt]|done]|].
  run_tx_step; [apply orb_false_iff; split; [exact Hid|]; simpl; by rewrite bool_decide_eq_true_2|].
  simpl i_planned_current_plan_payload. simpl i_planned_current_plan_checksum.
  rewrite Hb, Hcs. run_tx_step; [exact Hck|].
  run_tx_step; [reflexivity|].
  run_tx_step; [by rewrite Hact, Hcov|].
  run_tx_step; [reflexivity|].
  run_tx_step; [by rewrite andb_false_r|].
  run_tx_step; [reflexivity|].
  cbn -[acceptance_duplicate existing_plan i']. rewrite bool_decide_eq_false_2 by done.
  unfold acceptance_duplicate.
  run_tx_step; [apply payload_matches_ok; eexists _, _; split_and!; [exact Hpay|done|done]|].
  run_tx_step; [|reflexivity]. unfold i'. rewrite outcome_equal_resolved.
  unfold existing_plan. rewrite Hrow. simpl. rewrite (bool_decide_eq_true_2 (_ = _)) by done.
  unfold plan_matches, constant_time_eq. simpl.
  rewrite !bool_decide_eq_true_2 by done. by rewrite !Z.eqb_refl.
Qed.


End Decisions.

(** ** Witnesses: the example proposal is accepted, rejected, or found stale. *)

Definition ex_new_plan : string := "00000000-0000-4000-8000-000000000021".
Definition ex_intent2 : string := "00000000-0000-4000-8000-000000000022".
Definition ex_outbox2 : string := "00000000-0000-4000-8000-000000000023".
Definition ex_message2 : string := "00000000-0000-4000-8000-000000000024".

(** The planned plan: the proposal's segments, origin 2, revision 2. *)
Definition ex_planned_payload : bytes :=
  let segment_a := appendVarintField (appendVarintField (appendVarintField
    (appendBytesField [] 1 (bytes_of_string ex_activity_a)) 2 1) 3 100) 4 200 in
  let segment_b := appendVarintField
    (appendBytesField [] 1 (bytes_of_string ex_activity_b)) 2 2 in
  appendBytesField (appendVarintField (appendBytesField (appendBytesField
    (appendVarintField (appendVarintField
      (appendBytesField [] 1 (bytes_of_string ex_new_plan)) 2 2) 3 2)
    4 segment_a) 4 segment_b) 5 9) 6 (bytes_of_string ex_proposal_id).

Definition ex_decide_request (kind : CommandKind) : RecordRuntimeCommandRequest :=
  MkRecordRequest ex_intent2 ex_outbox2 ex_trip ex_user ex_message2 ex_message2 2 kind None
    (repeat Byte.x03 32) (bytes_of_string "{}") (bytes_of_string "{}")
    (if bool_decide (kind = CommandAcceptProposal)
     then Some (MkPlannedCurrentPlan ex_new_plan ex_planned_payload (sha256 ex_planned_payload))
     else None).

Definition ex_decision : FinalizeProposalDecisionRequest :=
  MkDecisionRequest ex_trip ex_intent2 ex_outbox2 ex_message2 2 2 5
    (MkIdentity ex_proposal_id 1 4 ex_plan) (bytes_of_string "{}").

Definition ex_deciding (kind : CommandKind) : @db pg_model :=
  committed (RecordRuntimeFirst ex_clock5 (ex_decide_request kind)) ex_proposed.

Definition ex_published : @db pg_model :=
  committed (FinalizeProposalAcceptance ex_clock5 ex_decision)
    (ex_deciding CommandAcceptProposal).

Lemma ex_published_ok : exists c,
  FinalizeProposalAcceptance ex_clock5 ex_decision (ex_deciding CommandAcceptProposal)
  = Ok (c, ex_published) /\ fc_Duplicate c = false.
Proof.
  destruct (returns_ok (fun c => negb (fc_Duplicate c))
    (FinalizeProposalAcceptance ex_clock5 ex_decision) (ex_deciding CommandAcceptProposal)
    ltac:(vm_compute; reflexivity)) as (c & Hc & Hd).
  exists c. split; [exact Hc|by destruct (fc_Duplicate c)].
Qed.


Lemma acceptance_idempotent_witness :
  exists c', FinalizeProposalAcceptance ex_clock5 ex_decision ex_published
    = Ok (c', ex_published) /\ fc_Duplicate c' = true.
Proof.
  destruct ex_published_ok as (c & Hc & Hd).
  destruct (acceptance_idempotent _ ex_clock5 _ _ _ _ Hc Hd) as (c' & H & Hd' & _).
  exists c'. split; [exact H|exact Hd'].
Defined.

Lemma rejection_effect_witness :
  exists c d', FinalizeProposalRejection ex_clock5 ex_decision (ex_deciding CommandRejectProposal)
    = Ok (c, d') /\ plans d' = plans (ex_deciding CommandRejectProposal).
Proof.
  destruct (returns_ok (fun c => negb (fc_Duplicate c))
    (FinalizeProposalRejection ex_clock5 ex_decision) (ex_deciding CommandRejectProposal)
    ltac:(vm_compute; reflexivity)) as (c & Hc & Hd).
  apply negb_true_iff in Hd.
  exists c, (committed (FinalizeProposalRejection ex_clock5 ex_decision)
    (ex_deciding CommandRejectProposal)). split; [exact Hc|].
  destruct (rejection_effect ex_clock5 ex_decision _ _ _ ltac:(simpl; lia) Hc Hd)
    as (t & i & p & p' & _ & _ & _ & _ & _ & _ & _ & _ & _ & _ & Hp).
  exact Hp.
Defined.

(** The proposal goes stale under a second travel delay, then its acceptance is
    finalized as stale. *)
Definition ex_stale_proposal : @db pg_model :=
  set_proposals (alter (fun p => set_p_decided_at (Some 1) (set_p_state ProposalStale p))
    ex_proposal_id (proposals (ex_deciding CommandAcceptProposal)))
    (ex_deciding CommandAcceptProposal).

Definition ex_staled : @db pg_model :=
  committed (FinalizeStaleProposalDecision ex_clock5 ex_decision) ex_stale_proposal.

Lemma ex_staled_ok : exists c,
  FinalizeStaleProposalDecision ex_clock5 ex_decision ex_stale_proposal = Ok (c, ex_staled) /\
  fc_Duplicate c = false.
Proof.
  destruct (returns_ok (fun c => negb (fc_Duplicate c))
    (FinalizeStaleProposalDecision ex_clock5 ex_decision) ex_stale_proposal
    ltac:(vm_compute; reflexivity)) as (c & Hc & Hd).
  exists c. split; [exact Hc|by destruct (fc_Duplicate c)].
Qed.

Lemma stale_decision_effect_witness : plans ex_staled = plans ex_stale_proposal.
Proof.
  destruct ex_staled_ok as (c & Hc & Hd).
  destruct (stale_decision_effect _ _ _ _ _ Hc Hd) as (t & p & _ & _ & _ & _ & _ & Hp & _).
  exact Hp.
Defined.

Lemma stale_decision_replay_conflicts_witness :
  FinalizeStaleProposalDecision ex_clock5 ex_decision ex_staled
  = Err ErrCommandFinalizationConflict.
Proof.
  destruct ex_staled_ok as (c & Hc & Hd).
  refine (stale_decision_replay_conflicts _ ex_clock5 _ _ _ _
    (set_p_decided_at (Some 1) (set_p_state ProposalStale (new_proposal ex_persist_request)))
    Hc Hd _ eq_refl eq_refl).
  vm_compute. reflexivity.
Defined.

Lemma decision_idempotent_witness :
  exists c', finalizeProposalDecision ex_clock5 ex_decision false
      (committed (finalizeProposalDecision ex_clock5 ex_decision false)
        (ex_deciding CommandRejectProposal))
    = Ok (c', committed (finalizeProposalDecision ex_clock5 ex_decision false)
        (ex_deciding CommandRejectProposal)) /\ fc_Duplicate c' = true.
Proof.
  destruct (returns_ok (fun c => negb (fc_Duplicate c))
    (finalizeProposalDecision ex_clock5 ex_decision false) (ex_deciding CommandRejectProposal)
    ltac:(vm_compute; reflexivity)) as (c & Hc & Hd).
  apply negb_true_iff in Hd.
  destruct (decision_idempotent _ ex_clock5 _ _ _ _ _ Hc Hd) as (c' & H & Hd' & _).
  - intros p Hp.
    assert (Hs : option_map p_state (proposals (ex_deciding CommandRejectProposal)
      !! pi_ProposalID (fd_Identity ex_decision)) = Some ProposalPending)
      by (vm_compute; reflexivity).
    rewrite Hp in Hs. injection Hs as Hs. exact Hs.
  - exists c'. split; [exact H|exact Hd'].
Defined.

(** The example trip, as if it were active on its current plan. *)
Definition ex_active : @db pg_model :=
  set_trips {[ex_trip := Trip ex_user "UTC" 2 3 1 (Some ex_plan) (Some ex_plan) Active
    (Some ex_plan) (Some 0) None 0 "Trip" 0]} (ex_deciding CommandAcceptProposal).

