(* ===== verification/OutboxStore.v ===== *)
(** * The planner outbox

    Models [persistence/outbox.go]: claiming due rows, the retry delay, and
    releasing or pausing a claimed row.  [ClaimDue] is one statement outside a
    transaction block: its update commits even when a returned row fails the
    scan that follows, so the operation returns a result and a database. *)

From S2P Require Import Prelude GoLib Schema Tables Leases Commands Finalization.

Section OutboxStore.
Context {PG : Postgres}.

Record ClaimedOutboxRow := MkClaimed {
  cl_ID : string;
  cl_CommandIntentID : string;
  cl_TripID : string;
  cl_MutationSequence : Z;
  cl_EventSchemaVersion : Z;
  cl_EventPayload : bytes;
  cl_AttemptCount : Z;
  cl_ClaimExpiresAt : option Z;
  cl_EventID : string;
  cl_ExpectedTripRevision : Z;
  cl_ApplicationOrder : application_order;
  cl_CommandKind : CommandKind;
  cl_CommandExpiresAt : option Z;
  cl_ResultingTripRevision : Z;
  cl_ResultingCurrentPlanID : string
}.

(** ** [PendingFinalizationConfirmations] *)

Record PendingFinalizationConfirmation := MkPendingConfirmation {
  pf_TripID : string;
  pf_FinalizedMutationSequence : Z
}.

Definition unconfirmed_resolved (_ : string) (o : outbox_row) : bool :=
  delivery_resolved o && is_null (o_finalization_confirmed_at o).

(** [max(mutation_sequence)] of the trip's group. *)
Definition group_max (tripID : string) (rows : list (string * outbox_row)) : Z :=
  foldr (fun kv acc => if bool_decide (o_trip_id kv.2 = tripID)
                       then Z.max (o_mutation_sequence kv.2) acc else acc)
    (- 2 ^ 63) rows.

Definition PendingFinalizationConfirmations (limit : Z)
  : tx (list PendingFinalizationConfirmation) :=
  _ ← guard (limit <=? 0) (ErrInvalid "confirmation limit must be positive");
  rows ← gets (fun d => rows_where unconfirmed_resolved (outbox d));
  let groups := merge_sort String.le
    (elements (list_to_set ((fun kv => o_trip_id kv.2) <$> rows) : gset string)) in
  lift (fold_res (fun acc tripID =>
    let sequence := group_max tripID rows in
    _ ← reject_if (sequence <=? 0)
          (ErrInvalid "pending finalization sequence is invalid");
    Ok (acc ++ [MkPendingConfirmation tripID (uint64 sequence)]))
    (take (Z.to_nat limit) groups) []).

(** ** [ClaimDue] *)

Definition unresolved_delivery (o : outbox_row) : bool :=
  bool_decide (o_delivery_state o = DeliveryPending) ||
  bool_decide (o_delivery_state o = DeliveryPausedInternal).

(** [EXISTS (SELECT 1 FROM planner_outbox AS predecessor ...)]. *)
Definition has_predecessor (candidate : outbox_row) (d : db) : bool :=
  any_row (fun _ p => bool_decide (o_trip_id p = o_trip_id candidate) &&
    (o_mutation_sequence p <? o_mutation_sequence candidate) && unresolved_delivery p)
    (outbox d).

(** [claim_owner IS NULL OR claim_expires_at <= now]; a NULL expiry is not due. *)
Definition claimable (now : Z) (o : outbox_row) : bool :=
  is_null (o_claim_owner o) ||
  match o_claim_expires_at o with Some e => e <=? now | None => false end.

(** The [WHERE] clause of [candidates]. *)
Definition due (now : Z) (d : db) (_ : string) (o : outbox_row) : bool :=
  bool_decide (o_delivery_state o = DeliveryPending) && (o_next_attempt_at o <=? now) &&
  claimable now o && negb (has_predecessor o d).

(** [ORDER BY next_attempt_at, trip_id, mutation_sequence]. *)
Definition claim_order (x y : string * outbox_row) : Prop :=
  o_next_attempt_at x.2 < o_next_attempt_at y.2 \/
  (o_next_attempt_at x.2 = o_next_attempt_at y.2 /\
   ((o_trip_id x.2 <> o_trip_id y.2 /\ String.le (o_trip_id x.2) (o_trip_id y.2)) \/
    (o_trip_id x.2 = o_trip_id y.2 /\ o_mutation_sequence x.2 <= o_mutation_sequence y.2))).
#[global] Instance claim_order_dec : RelDecision claim_order.
Proof. intros x y. unfold claim_order. apply _. Defined.

(** [FOR UPDATE SKIP LOCKED LIMIT n]: rows other transactions hold locked are
    skipped before the limit counts. *)
Definition candidates (now : Z) (locked : gset string) (limit : nat) (d : db)
  : list (string * outbox_row) :=
  take limit (List.filter (fun kv => negb (bool_decide (kv.1 ∈ locked)))
    (merge_sort claim_order (rows_where (due now d) (outbox d)))).

(** The [SET] clause. *)
Definition claim_row (owner : string) (now duration : Z) (o : outbox_row) : outbox_row :=
  set_o_updated_at now
    (set_o_last_attempt_at (Some now)
      (set_o_attempt_count (o_attempt_count o + 1)
        (set_o_claim_expires_at (Some (now + interval_ms (duration_milliseconds duration)))
          (set_o_claim_owner (Some owner) o)))).

(** The returned row, scanned with the columns of its intent. *)
Definition scan_claimed (d : db) (kv : string * outbox_row) : result ClaimedOutboxRow :=
  let '(id, o) := kv in
  i ← of_option (intents d !! o_command_intent_id o) (ErrDatabase "scan claimed outbox row");
  let payload := jsonb_out (o_event_payload o) in
  _ ← reject_if ((o_mutation_sequence o <=? 0) || negb (o_event_schema_version o =? 1) ||
                 (o_attempt_count o <=? 0) || negb (json_Valid payload))
        (ErrInvalid "claimed outbox row violates storage contract");
  Ok (MkClaimed id (o_command_intent_id o) (o_trip_id o) (uint64 (o_mutation_sequence o))
        (uint32 (o_event_schema_version o)) payload (uint64 (o_attempt_count o))
        (o_claim_expires_at o) (i_event_id i) (uint64 (i_expected_trip_revision i))
        (i_application_order i) (i_command_kind i) (i_command_expires_at i)
        (match i_resulting_trip_revision i with Some r => uint64 r | None => 0 end)
        (default "" (i_resulting_current_plan_id i))).

(** The [less] of [sort.Slice]. *)
Definition claimed_le (x y : ClaimedOutboxRow) : Prop :=
  (cl_TripID x <> cl_TripID y /\ String.le (cl_TripID x) (cl_TripID y)) \/
  (cl_TripID x = cl_TripID y /\ cl_MutationSequence x <= cl_MutationSequence y).
#[global] Instance claimed_le_dec : RelDecision claimed_le.
Proof. intros x y. unfold claimed_le. apply _. Defined.

Definition set_claims (owner : string) (now duration : Z)
    (rows : list (string * outbox_row)) (d : db) : db :=
  set_outbox (update_rows (fun k _ => bool_decide (k ∈ rows.*1))
    (claim_row owner now duration) (outbox d)) d.

Definition ClaimDue (clk : nat -> Z) (locked : gset string) (claimOwner : string)
    (batchSize claimDuration : Z) (d : db) : result (list ClaimedOutboxRow) * db :=
  if bool_decide (claimOwner = "") then (Err (ErrInvalid "claim owner is required"), d)
  else if batchSize <=? 0 then (Err (ErrInvalid "claim batch size must be positive"), d)
  else if duration_milliseconds claimDuration <=? 0 then
    (Err (ErrInvalid "claim duration must be at least one millisecond"), d)
  else
    match uuid_in claimOwner with
    | None => (Err (ErrDatabase "claim due outbox rows"), d)
    | Some owner =>
        let now := clk 0%nat in
        let rows := candidates now locked (Z.to_nat batchSize) d in
        if existsb (fun kv => negb (in_bigint (o_attempt_count kv.2 + 1))) rows then
          (Err (ErrDatabase "claim due outbox rows"), d)
        else
          let d' := set_claims owner now claimDuration rows d in
          (merge_sort claimed_le <$>
             fold_res (fun acc kv =>
               c ← scan_claimed d (kv.1, claim_row owner now claimDuration kv.2);
               Ok (acc ++ [c])) rows [], d')
    end.

(** ** [RetryDelay] *)

(** [rand_Int] is [crypto/rand.Int] on the given reader: [None] is a read error. *)
Definition RetryDelay (rand_Int : Z -> option Z) (attemptCount : Z) : result Z :=
  _ ← reject_if (attemptCount =? 0) (ErrInvalid "attempt count must be positive");
  let exponent := if 7 <? attemptCount then 7 else attemptCount in
  let capDuration := 250 * Millisecond * Z.shiftl 1 exponent in
  let capDuration := if 30 * Second <? capDuration then 30 * Second else capDuration in
  of_option (rand_Int (capDuration + 1)) (ErrDatabase "read retry jitter").

(** ** Giving a claim back *)

(** [WHERE id AND delivery_state = 'pending' AND claim_owner AND attempt_count
    AND claim_expires_at > now]. *)
Definition holds_claim (owner : string) (attempt now : Z) (o : outbox_row) : bool :=
  bool_decide (o_delivery_state o = DeliveryPending) &&
  bool_decide (o_claim_owner o = Some owner) &&
  (o_attempt_count o =? attempt) &&
  match o_claim_expires_at o with Some e => now <? e | None => false end.

Definition update_claimed (id owner : string) (attempt now : Z)
    (f : outbox_row -> outbox_row) : tx unit :=
  o ← find_row (fun d => outbox d !! id) ErrClaimLost;
  _ ← guard (negb (holds_claim owner attempt now o)) ErrClaimLost;
  modify (fun d => set_outbox (<[id := f o]> (outbox d)) d).

Definition release_row (now delay : Z) (status : string) (o : outbox_row) : outbox_row :=
  set_o_updated_at now
    (set_o_claim_expires_at None
      (set_o_claim_owner None
        (set_o_last_status (Some status)
          (set_o_next_attempt_at (now + duration_microseconds delay) o)))).

Definition ReleaseForRetry (clk : nat -> Z) (row : ClaimedOutboxRow)
    (claimOwner lastStatus : string) (delay : Z) : tx unit :=
  _ ← guard (bool_decide (cl_ID row = "") || bool_decide (claimOwner = "") ||
             (cl_AttemptCount row =? 0))
        (ErrInvalid "claimed row identity is required");
  _ ← guard (bool_decide (lastStatus = "") || (delay <? 0) || (30 * Second <? delay))
        (ErrInvalid "retry status or delay is invalid");
  id ← uuid_param "release outbox retry" (cl_ID row);
  owner ← uuid_param "release outbox retry" claimOwner;
  status ← lift (of_option (text_in lastStatus) (ErrDatabase "release outbox retry"));
  update_claimed id owner (int64 (cl_AttemptCount row)) (clk 0%nat)
    (release_row (clk 0%nat) delay status).

Definition pause_row (now : Z) (reason : string) (o : outbox_row) : outbox_row :=
  set_o_updated_at now
    (set_o_claim_expires_at None
      (set_o_claim_owner None
        (set_o_last_status (Some reason)
          (set_o_delivery_state DeliveryPausedInternal o)))).

Definition PauseInternal (clk : nat -> Z) (row : ClaimedOutboxRow)
    (claimOwner reason : string) : tx unit :=
  _ ← guard (bool_decide (cl_ID row = "") || bool_decide (claimOwner = "") ||
             (cl_AttemptCount row =? 0) || bool_decide (reason = ""))
        (ErrInvalid "claimed row identity and pause reason are required");
  id ← uuid_param "pause outbox row" (cl_ID row);
  owner ← uuid_param "pause outbox row" claimOwner;
  status ← lift (of_option (text_in reason) (ErrDatabase "pause outbox row"));
  update_claimed id owner (int64 (cl_AttemptCount row)) (clk 0%nat)
    (pause_row (clk 0%nat) status).

(** ** Lemmas *)

Lemma elem_of_candidates now locked n d k o :
  (k, o) ∈ candidates now locked n d ->
  outbox d !! k = Some o /\ due now d k o = true /\ k ∉ locked.
Proof.
  unfold candidates. intros Hin%elem_of_take. destruct Hin as (j & Hj & _).
  apply list_elem_of_lookup_2 in Hj.
  apply list_elem_of_In, filter_In in Hj as [Hj Hl]. apply list_elem_of_In in Hj.
  rewrite merge_sort_Permutation in Hj. apply elem_of_rows_where in Hj as [Ho Hd].
  simpl in Hl. inv_res. done.
Qed.

Lemma candidates_NoDup now locked n d : NoDup (candidates now locked n d).*1.
Proof.
  unfold candidates. rewrite fmap_take. set (l := (List.filter _ _).*1).
  assert (Hnd : NoDup l).
  { apply NoDup_fst_filter. rewrite merge_sort_Permutation.
    apply NoDup_fst_filter, NoDup_fst_map_to_list. }
  rewrite <- (take_drop n l) in Hnd. by apply NoDup_app in Hnd as (? & _ & _).
Qed.

Lemma has_predecessor_false o d :
  has_predecessor o d = false ->
  forall k p, outbox d !! k = Some p -> o_trip_id p = o_trip_id o ->
    o_mutation_sequence p < o_mutation_sequence o -> unresolved_delivery p = false.
Proof.
  unfold has_predecessor. rewrite any_row_false. intros H k p Hk Ht Hs.
  specialize (H _ _ Hk). rewrite bool_decide_eq_true_2 in H by done.
  by rewrite (proj2 (Z.ltb_lt _ _)) in H.
Qed.

Lemma due_true now d k o :
  due now d k o = true ->
  o_delivery_state o = DeliveryPending /\ o_next_attempt_at o <= now /\
  claimable now o = true /\ has_predecessor o d = false.
Proof.
  unfold due. rewrite !andb_true_iff, bool_decide_eq_true, Z.leb_le, negb_true_iff. naive_solver.
Qed.

#[global] Instance claimed_le_total : Total claimed_le.
Proof.
  intros x y. unfold claimed_le. destruct (decide (cl_TripID x = cl_TripID y)) as [->|].
  - destruct (Z.le_ge_cases (cl_MutationSequence x) (cl_MutationSequence y)); auto.
  - destruct (total String.le (cl_TripID x) (cl_TripID y)); naive_solver.
Qed.

#[global] Instance claimed_le_transitive : Transitive claimed_le.
Proof.
  intros x y z. unfold claimed_le.
  intros [[Hxy Hle]|[Hxy Hle]] [[Hyz Hle']|[Hyz Hle']].
  - left. split; [|by etrans]. intros Heq. rewrite Heq in Hle.
    apply Hyz. by apply (anti_symm String.le).
  - left. by rewrite <- Hyz.
  - left. by rewrite Hxy.
  - right. split; [congruence|lia].
Qed.

(** The rows a successful claim returns and the database it leaves. *)
Lemma ClaimDue_ok clk locked w n dur d rows d' :
  ClaimDue clk locked w n dur d = (Ok rows, d') ->
  exists owner cs, uuid_in w = Some owner /\ 0 < n /\ 0 < duration_milliseconds dur /\
    d' = set_claims owner (clk 0%nat) dur (candidates (clk 0%nat) locked (Z.to_nat n) d) d /\
    rows = merge_sort claimed_le cs /\
    Forall2 (fun kv c => scan_claimed d (kv.1, claim_row owner (clk 0%nat) dur kv.2) = Ok c)
      (candidates (clk 0%nat) locked (Z.to_nat n) d) cs.
Proof.
  unfold ClaimDue. intros H. case_bool_decide; [done|].
  destruct (n <=? 0) eqn:Hn; [done|]. destruct (_ <=? 0) eqn:Hd in H; [done|].
  destruct (uuid_in w) as [owner|]; [|done].
  destruct (existsb _ _); [done|]. injection H as Hr <-.
  destruct (fold_res _ _ _) as [out|] eqn:Hf; [|done]. injection Hr as <-.
  apply fold_res_collect in Hf as (cs & -> & Hcs). exists owner, cs. zbool.
  by split_and!.
Qed.

Lemma scan_claimed_ok d k o c :
  scan_claimed d (k, o) = Ok c ->
  cl_ID c = k /\ cl_TripID c = o_trip_id o /\
  cl_MutationSequence c = uint64 (o_mutation_sequence o) /\
  cl_AttemptCount c = uint64 (o_attempt_count o).
Proof. unfold scan_claimed. intros H. inv_res. done. Qed.

(** Every returned row was a candidate, and has been claimed. *)
Lemma claimed_candidate d owner now dur l cs c :
  Forall2 (fun kv c => scan_claimed d (kv.1, claim_row owner now dur kv.2) = Ok c) l cs ->
  c ∈ cs -> exists o, (cl_ID c, o) ∈ l /\ cl_TripID c = o_trip_id o /\
    cl_MutationSequence c = uint64 (o_mutation_sequence o).
Proof.
  intros Hf Hc. apply list_elem_of_lookup_1 in Hc as [j Hj].
  destruct (Forall2_lookup_r _ _ _ _ _ Hf Hj) as ([k o] & Hk & Hs).
  apply scan_claimed_ok in Hs as (-> & -> & -> & _).
  exists o. split; [by eapply list_elem_of_lookup_2|done].
Qed.

Lemma claimed_ids d owner now dur l cs :
  Forall2 (fun kv c => scan_claimed d (kv.1, claim_row owner now dur kv.2) = Ok c) l cs ->
  cl_ID <$> cs = l.*1.
Proof.
  induction 1 as [|[k o] c l cs Hs _ IH]; [done|].
  rewrite !fmap_cons, IH. by apply scan_claimed_ok in Hs as (-> & _).
Qed.

Lemma lookup_set_claims owner now dur l d k :
  outbox (set_claims owner now dur l d) !! k =
  (fun o => if bool_decide (k ∈ l.*1) then claim_row owner now dur o else o) <$> outbox d !! k.
Proof. simpl. by rewrite lookup_update_rows. Qed.

(** ** Properties *)

(** Claiming.  Every row [ClaimDue] returns was pending, due, free of an
    unexpired claim and not locked elsewhere, and no earlier row of its trip was
    unresolved; it now carries the caller's claim until the claim duration has
    passed and one more attempt.  At most the batch size is returned, sorted by
    trip and sequence, and no other row of the outbox changes. *)
Theorem claim_due_rows clk locked w n dur d rows d' :
  ClaimDue clk locked w n dur d = (Ok rows, d') ->
  (forall c, c ∈ rows -> exists owner o,
     uuid_in w = Some owner /\ outbox d !! cl_ID c = Some o /\ cl_ID c ∉ locked /\
     o_delivery_state o = DeliveryPending /\ o_next_attempt_at o <= clk 0%nat /\
     claimable (clk 0%nat) o = true /\
     (forall k p, outbox d !! k = Some p -> o_trip_id p = o_trip_id o ->
        o_mutation_sequence p < o_mutation_sequence o -> unresolved_delivery p = false) /\
     outbox d' !! cl_ID c = Some (claim_row owner (clk 0%nat) dur o)) /\
  (forall k, k ∉ cl_ID <$> rows -> outbox d' !! k = outbox d !! k) /\
  zlen rows <= n /\ StronglySorted claimed_le rows.
Proof.
  intros (owner & cs & Hw & Hn & _ & -> & -> & Hf)%ClaimDue_ok. split_and!.
  - intros c Hc. rewrite merge_sort_Permutation in Hc.
    destruct (claimed_candidate _ _ _ _ _ _ _ Hf Hc) as (o & Hin & _).
    destruct (elem_of_candidates _ _ _ _ _ _ Hin) as (Ho & Hd & Hl).
    apply due_true in Hd as (Hs & Hdue & Hcl & Hp).
    pose proof (has_predecessor_false _ _ Hp).
    exists owner, o. split_and!; try done. rewrite lookup_set_claims, Ho. simpl.
    rewrite bool_decide_eq_true_2; [done|]. apply list_elem_of_fmap. by exists (cl_ID c, o).
  - intros k Hk. rewrite lookup_set_claims, bool_decide_eq_false_2.
    + by destruct (outbox d !! k).
    + rewrite merge_sort_Permutation in Hk. by rewrite <- (claimed_ids _ _ _ _ _ _ Hf).
  - unfold zlen. rewrite merge_sort_Permutation, <- (Forall2_length _ _ _ Hf).
    unfold candidates. rewrite length_take. lia.
  - apply StronglySorted_merge_sort; apply _.
Qed.

(** One command of a trip is in flight at a time: a batch never holds two
    rows of the same trip. *)
Theorem claim_one_per_trip clk locked w n dur d rows d' :
  (forall k1 k2 o1 o2, outbox d !! k1 = Some o1 -> outbox d !! k2 = Some o2 ->
     o_trip_id o1 = o_trip_id o2 -> o_mutation_sequence o1 = o_mutation_sequence o2 -> k1 = k2) ->
  ClaimDue clk locked w n dur d = (Ok rows, d') -> NoDup (cl_TripID <$> rows).
Proof.
  intros Huniq (owner & cs & _ & _ & _ & _ & -> & Hf)%ClaimDue_ok.
  rewrite merge_sort_Permutation.
  pose proof (candidates_NoDup (clk 0%nat) locked (Z.to_nat n) d) as Hnd.
  rewrite <- (claimed_ids _ _ _ _ _ _ Hf) in Hnd.
  apply NoDup_alt. intros j1 j2 t Hj1 Hj2.
  apply list_lookup_fmap_Some in Hj1 as (c1 & -> & Hc1).
  apply list_lookup_fmap_Some in Hj2 as (c2 & Ht & Hc2).
  destruct (claimed_candidate _ _ _ _ _ _ c1 Hf) as (o1 & Hin1 & Ht1 & _);
    [by eapply list_elem_of_lookup_2|].
  destruct (claimed_candidate _ _ _ _ _ _ c2 Hf) as (o2 & Hin2 & Ht2 & _);
    [by eapply list_elem_of_lookup_2|].
  apply elem_of_candidates in Hin1 as (Ho1 & (Hs1 & _ & _ & Hn1)%due_true & _).
  pose proof (has_predecessor_false _ _ Hn1) as Hp1.
  apply elem_of_candidates in Hin2 as (Ho2 & (Hs2 & _ & _ & Hn2)%due_true & _).
  pose proof (has_predecessor_false _ _ Hn2) as Hp2.
  assert (Hpend : forall o, o_delivery_state o = DeliveryPending -> unresolved_delivery o = true)
    by (intros o Ho; unfold unresolved_delivery; by rewrite Ho).
  assert (Hid : cl_ID c1 = cl_ID c2).
  { apply (Huniq _ _ _ _ Ho1 Ho2); [congruence|].
    destruct (Z.lt_trichotomy (o_mutation_sequence o1) (o_mutation_sequence o2)) as [Hlt|[|Hlt]];
      [|done|].
    - specialize (Hp2 _ _ Ho1 ltac:(congruence) Hlt). by rewrite Hpend in Hp2.
    - specialize (Hp1 _ _ Ho2 ltac:(congruence) Hlt). by rewrite Hpend in Hp1. }
  eapply NoDup_lookup; [exact Hnd| |]; rewrite list_lookup_fmap.
  - by rewrite Hc1.
  - by rewrite Hc2, Hid.
Qed.

(** Claims exclude each other: while a claim has not expired, no other
    [ClaimDue], by any worker, returns or changes the claimed row. *)
Theorem claim_excludes clk clk' locked locked' w w' n n' dur dur' d rows d' rows' d'' c :
  ClaimDue clk locked w n dur d = (Ok rows, d') ->
  ClaimDue clk' locked' w' n' dur' d' = (Ok rows', d'') ->
  clk' 0%nat < clk 0%nat + interval_ms (duration_milliseconds dur) -> c ∈ rows ->
  cl_ID c ∉ cl_ID <$> rows' /\ outbox d'' !! cl_ID c = outbox d' !! cl_ID c.
Proof.
  intros (owner & cs & _ & _ & _ & -> & -> & Hf)%ClaimDue_ok
    (owner' & cs' & _ & _ & _ & -> & -> & Hf')%ClaimDue_ok Hclk Hc.
  rewrite merge_sort_Permutation in Hc.
  destruct (claimed_candidate _ _ _ _ _ _ _ Hf Hc) as (o & Hin & _).
  destruct (elem_of_candidates _ _ _ _ _ _ Hin) as (Ho & _ & _).
  set (d' := set_claims owner _ _ _ d) in *.
  assert (Ho' : outbox d' !! cl_ID c = Some (claim_row owner (clk 0%nat) dur o)).
  { unfold d'. rewrite lookup_set_claims, Ho. simpl. rewrite bool_decide_eq_true_2; [done|].
    apply list_elem_of_fmap. by exists (cl_ID c, o). }
  assert (Hn : cl_ID c ∉ (candidates (clk' 0%nat) locked' (Z.to_nat n') d').*1).
  { intros ([k o2] & Hk & Hin2)%list_elem_of_fmap. simpl in Hk. subst k.
    apply elem_of_candidates in Hin2 as (Ho2 & (_ & _ & Hcl & _)%due_true & _).
    rewrite Ho' in Ho2. simplify_eq. unfold claimable in Hcl. simpl in Hcl. zbool. lia. }
  split.
  - rewrite merge_sort_Permutation. by rewrite (claimed_ids _ _ _ _ _ _ Hf').
  - rewrite lookup_set_claims, bool_decide_eq_false_2 by done. by rewrite Ho'.
Qed.

(** The retry delay is within its cap for every attempt: never negative,
    never above [250 ms * 2^n] nor above thirty seconds. *)
Theorem retry_delay_bounds rand_Int attempt v :
  (forall bound x, rand_Int bound = Some x -> 0 <= x < bound) -> 0 <= attempt ->
  RetryDelay rand_Int attempt = Ok v ->
  0 <= v <= 30 * Second /\ v <= 250 * Millisecond * 2 ^ attempt.
Proof.
  unfold RetryDelay. intros Hr Ha H.
  set (e := if 7 <? attempt then 7 else attempt) in H.
  assert (He : 0 <= e <= attempt) by (unfold e; destruct (7 <? attempt) eqn:E; zbool; lia).
  rewrite (Z.shiftl_mul_pow2 1 e), Z.mul_1_l in H by lia.
  assert (Hmono : 2 ^ e <= 2 ^ attempt) by (apply Z.pow_le_mono_r; lia).
  set (p := 2 ^ e) in *. inv_res. zbool.
  match goal with H : rand_Int _ = Some _ |- _ => apply Hr in H end.
  unfold Second, Millisecond in *.
  destruct (30 * 1000000000 <? 250 * 1000000 * p) eqn:E; zbool; lia.
Qed.

(** Only the holder gives a claim back.  [ReleaseForRetry] succeeds only
    while the row is pending under this owner's unexpired claim of this very
    attempt; it then frees the row and schedules the next attempt [delay] after
    the database time. *)
Theorem release_needs_claim clk row w status delay d u d' :
  ReleaseForRetry clk row w status delay d = Ok (u, d') ->
  exists id owner o e, uuid_in (cl_ID row) = Some id /\ uuid_in w = Some owner /\
    outbox d !! id = Some o /\ o_delivery_state o = DeliveryPending /\
    o_claim_owner o = Some owner /\ o_attempt_count o = int64 (cl_AttemptCount row) /\
    o_claim_expires_at o = Some e /\ clk 0%nat < e /\
    (exists o', outbox d' = <[id := o']> (outbox d) /\ o_claim_owner o' = None /\
       o_delivery_state o' = DeliveryPending /\
       o_next_attempt_at o' = clk 0%nat + duration_microseconds delay) /\
    intents d' = intents d.
Proof.
  unfold ReleaseForRetry, update_claimed, uuid_param, holds_claim. intros H. inv_tx.
  match goal with H : match o_claim_expires_at ?o with _ => _ end = true |- _ =>
    destruct (o_claim_expires_at o) as [e|] eqn:He; [|done] end.
  zbool. eexists _, _, _, e. split_and!; try done. eexists. by split_and!.
Qed.

End OutboxStore.

(** ** Witnesses *)

(** The example worker claims the recorded command for one second. *)
Definition ex_claim (now : Z) (d : @db pg_model) : result (list ClaimedOutboxRow) * db :=
  ClaimDue (ex_clock now) ∅ ex_holder_a 10 Second d.

Definition ex_claimed : @db pg_model := (ex_claim 2000 ex_recorded).2.

Lemma ex_claim_ok : exists c,
  ex_claim 2000 ex_recorded = (Ok [c], ex_claimed) /\ cl_ID c = ex_outbox /\
  cl_AttemptCount c = 1.
Proof.
  assert (H : match (ex_claim 2000 ex_recorded).1 with
    | Ok [c] => bool_decide (cl_ID c = ex_outbox) && (cl_AttemptCount c =? 1)
    | _ => false end = true) by (vm_compute; reflexivity).
  unfold ex_claimed. destruct (ex_claim 2000 ex_recorded) as [[[|c [|]]|] d]; try discriminate.
  simpl in H. apply andb_true_iff in H as [H1%bool_decide_eq_true H2%Z.eqb_eq]. by exists c.
Qed.

Lemma claim_due_rows_witness :
  exists o, outbox ex_recorded !! ex_outbox = Some o /\ o_delivery_state o = DeliveryPending.
Proof.
  destruct ex_claim_ok as (c & Hc & Hid & _).
  destruct (claim_due_rows _ _ _ _ _ _ _ _ Hc) as (Hrows & _).
  destruct (Hrows c (list_elem_of_here _ _)) as (owner & o & _ & Ho & _ & Hs & _).
  exists o. rewrite <- Hid. split; [exact Ho|exact Hs].
Defined.

Lemma ex_recorded_outbox k o : outbox ex_recorded !! k = Some o -> k = ex_outbox.
Proof.
  intros H. apply elem_of_map_to_list in H. apply (list_elem_of_fmap_2 fst) in H.
  assert (Hk : (map_to_list (outbox ex_recorded)).*1 = [ex_outbox])
    by (vm_compute; reflexivity).
  rewrite Hk in H. by apply list_elem_of_singleton in H.
Qed.

Lemma claim_one_per_trip_witness :
  exists c, ex_claim 2000 ex_recorded = (Ok [c], ex_claimed) /\ NoDup [cl_TripID c].
Proof.
  destruct ex_claim_ok as (c & Hc & _). exists c. split; [exact Hc|].
  refine (claim_one_per_trip _ _ _ _ _ _ _ _ _ Hc).
  intros k1 k2 o1 o2 H1 H2 _ _.
  rewrite (ex_recorded_outbox _ _ H1), (ex_recorded_outbox _ _ H2). reflexivity.
Defined.

Lemma ex_reclaim_ok : exists rows d, ex_claim 3000 ex_claimed = (Ok rows, d).
Proof.
  assert (H : match (ex_claim 3000 ex_claimed).1 with Ok _ => true | _ => false end = true)
    by (vm_compute; reflexivity).
  destruct (ex_claim 3000 ex_claimed) as [[rows|] d]; [by exists rows, d|discriminate].
Qed.

Lemma claim_excludes_witness :
  exists rows d, ex_claim 3000 ex_claimed = (Ok rows, d) /\ ex_outbox ∉ cl_ID <$> rows.
Proof.
  destruct ex_claim_ok as (c & Hc & Hid & _). destruct ex_reclaim_ok as (rows & d & Hr).
  exists rows, d. split; [exact Hr|]. rewrite <- Hid.
  refine (proj1 (claim_excludes _ _ _ _ _ _ _ _ _ _ _ _ _ _ _ c Hc Hr _ _)).
  - vm_compute. reflexivity.
  - apply list_elem_of_here.
Defined.

Lemma retry_delay_bounds_witness :
  0 <= 100 <= 30 * Second /\ 100 <= 250 * Millisecond * 2 ^ 3.
Proof.
  refine (retry_delay_bounds (fun bound => if 100 <? bound then Some 100 else None) 3 100 _ _ _).
  - intros bound x H. destruct (100 <? bound) eqn:E; [|discriminate].
    injection H as <-. apply Z.ltb_lt in E. lia.
  - lia.
  - vm_compute. reflexivity.
Defined.

Lemma release_needs_claim_witness :
  exists o, outbox ex_claimed !! ex_outbox = Some o /\ o_attempt_count o = 1.
Proof.
  destruct (committed_ok (ReleaseForRetry (ex_clock 3000)
    (MkClaimed ex_outbox "" "" 1 1 [] 1 None "" 1 runtime_first CommandTravelDelay None 0 "")
    ex_holder_a "UNAVAILABLE" 0) ex_claimed ltac:(vm_compute; reflexivity)) as [u Hu].
  destruct (release_needs_claim _ _ _ _ _ _ _ _ Hu)
    as (id & owner & o & e & Hid & _ & Ho & _ & _ & Ha & _).
  exists o. assert (He : id = ex_outbox).
  { assert (Hu' : @uuid_in pg_model ex_outbox = Some ex_outbox) by (vm_compute; reflexivity).
    simpl cl_ID in Hid. rewrite Hu' in Hid. injection Hid as Hid. exact (eq_sym Hid). }
  rewrite He in Ho. split; [exact Ho|exact Ha].
Defined.
