(* ===== verification/CanonicalState.v ===== *)
(** * The canonical trip state

    Models [persistence/canonical_state.go]: the aggregate a trip is loaded
    into and [CanonicalStateStore.Load], which rebuilds it from the rows and
    refuses rows that break the storage contract.  A Go [time.Time] is a count
    of nanoseconds since the Unix epoch. *)

From S2P Require Import Prelude GoLib Wire Schema Tables Commands Finalization.
From S2P Require Import Mutations Proposals.

(** ** Data *)

Record CanonicalOpenWindow := MkOpenWindow {
  ow_OpensAt : Z;
  ow_ClosesAt : Z
}.

Record CanonicalActivity := MkActivity {
  ca_ID : string;
  ca_Ordinal : Z;
  ca_PlaceID : string;
  ca_DisplayName : string;
  ca_Latitude : spec_float;
  ca_Longitude : spec_float;
  ca_TimeZoneName : string;
  ca_InboundTravelMode : string;
  ca_ActivityClass : string;
  ca_ActivityState : string;
  ca_ActivityDelaySeconds : Z;
  ca_FoundClosedAt : option Z;
  ca_PriorityRank : Z;
  ca_UtilityScore : Z;
  ca_ReservationStart : option Z;
  ca_ReservationGraceSeconds : Z;
  ca_MandatoryDeadline : option Z;
  ca_MinDurationSeconds : Z;
  ca_PreferredDurationSeconds : Z;
  ca_MaxDurationSeconds : Z;
  ca_Mandatory : bool;
  ca_CanShorten : bool;
  ca_CanMove : bool;
  ca_CanSkip : bool;
  ca_OpenWindows : list CanonicalOpenWindow
}.

Record CanonicalTravelDelay := MkTravelDelay {
  cd_FromActivityID : string;
  cd_ToActivityID : string;
  cd_AdditionalSeconds : Z;
  cd_ObservedAt : Z
}.

Record CanonicalCurrentPlan := MkCurrentPlan {
  cp_ID : string;
  cp_Revision : Z;
  cp_Origin : plan_origin;
  cp_AuthoredByUserID : string;
  cp_SourceProposalID : option string;
  cp_SchemaVersion : Z;
  cp_Payload : bytes;
  cp_Checksum : bytes;
  cp_CreatedAt : Z
}.

Record CanonicalTripState := MkTripState {
  ct_TripID : string;
  ct_OwnerUserID : string;
  ct_DefaultTimeZoneName : string;
  ct_TripRevision : Z;
  ct_FinalizedMutationSequence : Z;
  ct_CurrentPlanID : string;
  ct_CompletedPrefixCount : Z;
  ct_CurrentActivityID : option string;
  ct_Activities : list CanonicalActivity;
  ct_TravelDelays : list CanonicalTravelDelay;
  ct_CurrentPlan : CanonicalCurrentPlan
}.

(** ** [float64] *)

(** [float64(n)] for [0 < n < 2^53], normalized to a 53-bit mantissa. *)
Definition float64_of_pos (negative : bool) (n : positive) : spec_float :=
  let shift := 53 - Z.pos (Pos.size n) in
  S754_finite negative (Z.to_pos (Z.shiftl (Z.pos n) shift)) (- shift).

Definition IsNaN (f : spec_float) : bool :=
  match f with S754_nan => true | _ => false end.
Definition IsInf (f : spec_float) : bool :=
  match f with S754_infinity _ => true | _ => false end.

(** [-limit <= f <= limit] on a finite float, as both validators test it. *)
Definition coordinate_invalid (limit : positive) (f : spec_float) : bool :=
  IsNaN f || IsInf f || SFltb f (float64_of_pos true limit) ||
  SFltb (float64_of_pos false limit) f.

Definition location_invalid (latitude longitude : spec_float) : bool :=
  coordinate_invalid 90 latitude || coordinate_invalid 180 longitude.

(** ** Times *)

Definition nullableTime (value : option Z) : option Z := of_timestamptz <$> value.

Definition optionalStringEqual (value : option string) (encoded : string) : bool :=
  match value with
  | None => bool_decide (encoded = "")
  | Some v => bool_decide (v = encoded)
  end.

(** ** [Load] *)

Section Load.
Context {PG : Postgres}.

(** [corruptCanonicalState]: the reason is text of the error. *)
Definition corruptCanonicalState {A} (reason : string) : result A :=
  Err ErrCanonicalStateCorrupt.

Definition corrupt_if (b : bool) (reason : string) : result unit :=
  if b then corruptCanonicalState reason else Ok tt.

(** [ORDER BY ordinal]. *)
Definition ordinal_le (x y : string * activity) : Prop := a_ordinal x.2 <= a_ordinal y.2.
#[global] Instance ordinal_le_dec : RelDecision ordinal_le.
Proof. intros x y. unfold ordinal_le. apply _. Defined.

Definition activity_rows (tripID : string) (d : db) : list (string * activity) :=
  merge_sort ordinal_le
    (rows_where (fun _ a => bool_decide (a_trip_id a = tripID)) (activities d)).

(** The test on one scanned activity, at position [index] of the result. *)
Definition activity_invalid (index : Z) (id : string) (a : activity) : bool :=
  (a_ordinal a <? 0) || negb (a_ordinal a =? int32 index) ||
  (a_activity_delay_seconds a <? 0) || (a_reservation_grace_seconds a <? 0) ||
  (a_min_duration_seconds a <? 0) ||
  (a_preferred_duration_seconds a <? a_min_duration_seconds a) ||
  (a_max_duration_seconds a <? a_preferred_duration_seconds a) ||
  negb (validCanonicalUUID id) || bool_decide (a_place_id a = "") ||
  bool_decide (a_display_name a = "") || bool_decide (a_time_zone_name a = "") ||
  location_invalid (a_latitude a) (a_longitude a) ||
  (negb (bool_decide (a_inbound_travel_mode a = "walking")) &&
   negb (bool_decide (a_inbound_travel_mode a = "driving"))) ||
  (negb (bool_decide (a_activity_class a = "fixed")) &&
   negb (bool_decide (a_activity_class a = "flexible"))) ||
  negb (activity_state_valid (a_activity_state a)).

(** The scanned row as a [CanonicalActivity], without its windows. *)
Definition scan_activity (id : string) (a : activity) : CanonicalActivity :=
  MkActivity id (uint32 (a_ordinal a)) (a_place_id a) (a_display_name a) (a_latitude a)
    (a_longitude a) (a_time_zone_name a) (a_inbound_travel_mode a) (a_activity_class a)
    (a_activity_state a) (uint32 (a_activity_delay_seconds a))
    (nullableTime (a_found_closed_at a)) (a_priority_rank a) (a_utility_score a)
    (nullableTime (a_reservation_start a)) (uint32 (a_reservation_grace_seconds a))
    (nullableTime (a_mandatory_deadline a)) (uint32 (a_min_duration_seconds a))
    (uint32 (a_preferred_duration_seconds a)) (uint32 (a_max_duration_seconds a))
    (a_mandatory a) (a_can_shorten a) (a_can_move a) (a_can_skip a) [].

Definition load_activity (acc : list CanonicalActivity) (row : string * activity)
  : result (list CanonicalActivity) :=
  _ ← corrupt_if (activity_invalid (zlen acc) row.1 row.2) "activity is invalid";
  Ok (acc ++ [scan_activity row.1 row.2]).

Definition load_activities (tripID : string) (d : db) : result (list CanonicalActivity) :=
  acts ← fold_res load_activity (activity_rows tripID d) [];
  _ ← corrupt_if (64 <? zlen acts) "activity limit is exceeded";
  Ok acts.

(** [activityIndex[activity.ID] = index]. *)
Fixpoint index_activities (index : nat) (l : list CanonicalActivity)
    (m : gmap string nat) : gmap string nat :=
  match l with
  | [] => m
  | a :: l => index_activities (S index) l (<[ca_ID a := index]> m)
  end.

Definition activityIndex (l : list CanonicalActivity) : gmap string nat :=
  index_activities 0 l ∅.

(** [ORDER BY activity_id, window_index]. *)
Definition window_le (x y : string * Z * open_window) : Prop :=
  (x.1.1 <> y.1.1 /\ String.le x.1.1 y.1.1) \/ (x.1.1 = y.1.1 /\ x.1.2 <= y.1.2).
#[global] Instance window_le_dec : RelDecision window_le.
Proof. intros x y. unfold window_le. apply _. Defined.

Definition window_rows (tripID : string) (d : db) : list (string * Z * open_window) :=
  merge_sort window_le
    (rows_where (fun _ w => bool_decide (w_trip_id w = tripID)) (windows d)).

Definition set_OpenWindows (l : list CanonicalOpenWindow) (a : CanonicalActivity)
  : CanonicalActivity :=
  MkActivity (ca_ID a) (ca_Ordinal a) (ca_PlaceID a) (ca_DisplayName a) (ca_Latitude a)
    (ca_Longitude a) (ca_TimeZoneName a) (ca_InboundTravelMode a) (ca_ActivityClass a)
    (ca_ActivityState a) (ca_ActivityDelaySeconds a) (ca_FoundClosedAt a)
    (ca_PriorityRank a) (ca_UtilityScore a) (ca_ReservationStart a)
    (ca_ReservationGraceSeconds a) (ca_MandatoryDeadline a) (ca_MinDurationSeconds a)
    (ca_PreferredDurationSeconds a) (ca_MaxDurationSeconds a) (ca_Mandatory a)
    (ca_CanShorten a) (ca_CanMove a) (ca_CanSkip a) l.

(** One row of the window loop; the state is the activities and [windowCounts]. *)
Definition load_window (index : gmap string nat)
    (acc : list CanonicalActivity * gmap string Z) (row : string * Z * open_window)
  : result (list CanonicalActivity * gmap string Z) :=
  let '(acts, counts) := acc in
  let '(activityID, windowIndex, w) := row in
  let window := MkOpenWindow (of_timestamptz (w_opens_at w)) (of_timestamptz (w_closes_at w)) in
  let count := default 0 (counts !! activityID) in
  match index !! activityID ≫= fun position => (position,.) <$> acts !! position with
  | None => corruptCanonicalState "open window is invalid"
  | Some (position, a) =>
      _ ← corrupt_if (negb (windowIndex =? int32 count) ||
                      negb (ow_OpensAt window <? ow_ClosesAt window))
            "open window is invalid";
      _ ← corrupt_if (match last (ca_OpenWindows a) with
                      | Some p => ow_OpensAt window <? ow_ClosesAt p
                      | None => false
                      end) "open windows overlap";
      Ok (<[position := set_OpenWindows (ca_OpenWindows a ++ [window]) a]> acts,
          <[activityID := count + 1]> counts)
  end.

Definition load_windows (tripID : string) (acts : list CanonicalActivity) (d : db)
  : result (list CanonicalActivity) :=
  acc ← fold_res (load_window (activityIndex acts)) (window_rows tripID d) (acts, ∅);
  Ok acc.1.

(** [ORDER BY from_activity_id, to_activity_id]. *)
Definition delay_le (x y : string * string * string * travel_delay) : Prop :=
  (x.1.1.2 <> y.1.1.2 /\ String.le x.1.1.2 y.1.1.2) \/
  (x.1.1.2 = y.1.1.2 /\ String.le x.1.2 y.1.2).
#[global] Instance delay_le_dec : RelDecision delay_le.
Proof. intros x y. unfold delay_le. apply _. Defined.

Definition delay_rows (tripID : string) (d : db)
  : list (string * string * string * travel_delay) :=
  merge_sort delay_le
    (rows_where (fun k _ => bool_decide (k.1.1 = tripID)) (travel_delays d)).

Definition load_delay (index : gmap string nat) (acc : list CanonicalTravelDelay)
    (row : string * string * string * travel_delay) : result (list CanonicalTravelDelay) :=
  let '((_, from, to), delay) := row in
  _ ← corrupt_if (is_null (index !! from)) "travel-delay origin is missing";
  _ ← corrupt_if (is_null (index !! to) || (d_additional_seconds delay <? 0))
        "travel-delay destination is invalid";
  Ok (acc ++ [MkTravelDelay from to (uint32 (d_additional_seconds delay))
                (of_timestamptz (d_observed_at delay))]).

Definition load_delays (tripID : string) (acts : list CanonicalActivity) (d : db)
  : result (list CanonicalTravelDelay) :=
  fold_res (load_delay (activityIndex acts)) (delay_rows tripID d) [].

(** The current-plan row, its checksum and its payload. *)
Definition load_plan (tripID owner currentPlanID : string) (d : db)
  : result (CanonicalCurrentPlan * currentPlanWire) :=
  row ← of_option (row ← plans d !! currentPlanID;
                   if bool_decide (pl_trip_id row = tripID) then Some row else None)
          ErrCanonicalStateCorrupt;
  _ ← corrupt_if ((pl_plan_revision row <=? 0) || negb (pl_schema_version row =? 1) ||
                  negb (pl_payload_size_bytes row =? int32 (zlen (pl_payload row))) ||
                  negb (bool_decide (length (pl_checksum row) = 32%nat)) ||
                  negb (bool_decide (pl_authored_by_user_id row = owner)))
        "current-plan row metadata is invalid";
  _ ← corrupt_if (negb (constant_time_eq (sha256 (pl_payload row)) (pl_checksum row)))
        "current-plan checksum differs";
  let result := MkCurrentPlan currentPlanID (uint64 (pl_plan_revision row)) (pl_origin row)
    (pl_authored_by_user_id row) (pl_source_proposal_id row)
    (uint32 (pl_schema_version row)) (pl_payload row) (pl_checksum row)
    (of_timestamptz (pl_created_at row)) in
  match parseSnapshotCurrentPlan (pl_payload row) with
  | Err _ => corruptCanonicalState "current-plan payload metadata differs"
  | Ok plan =>
      _ ← corrupt_if (negb (bool_decide (pw_planID plan = cp_ID result)) ||
                      negb (pw_planRevision plan =? cp_Revision result) ||
                      negb (pw_createdAtUnixMS plan =? cp_CreatedAt result / Millisecond) ||
                      negb (cp_CreatedAt result mod Millisecond =? 0))
            "current-plan payload metadata differs";
      let expectedOrigin :=
        match cp_Origin result with UserAuthored => 1 | AcceptedEngineProposal => 2 end in
      _ ← corrupt_if (negb (pw_origin plan =? expectedOrigin) ||
                      negb (optionalStringEqual (cp_SourceProposalID result)
                              (pw_sourceProposalID plan)))
            "current-plan source metadata differs";
      Ok (result, plan)
  end.

(** [state == ActivityStateCompleted || state == ActivityStateSkipped]. *)
Definition terminal_state (state : string) : bool :=
  bool_decide (state = "completed") || bool_decide (state = "skipped").

(** The locals of the loop over the plan: [seenActivities], [prefixOpen],
    [CompletedPrefixCount] and [CurrentActivityID]. *)
Record prefix_acc := MkPrefix {
  px_seen : gset string;
  px_open : bool;
  px_count : Z;
  px_current : option string
}.

Fixpoint load_prefix (states : gmap string string) (planIndex : Z)
    (segments : list currentPlanSegmentWire) (acc : prefix_acc) : result prefix_acc :=
  match segments with
  | [] => Ok acc
  | segment :: segments =>
      let id := seg_activityID segment in
      match states !! id with
      | None => corruptCanonicalState "current plan has an unknown activity"
      | Some state =>
          _ ← corrupt_if (bool_decide (id ∈ px_seen acc))
                "current plan repeats an activity";
          let seen := {[id]} ∪ px_seen acc in
          let terminal := terminal_state state in
          if px_open acc && terminal then
            load_prefix states (planIndex + 1) segments
              (MkPrefix seen true (px_count acc + 1) (px_current acc))
          else
            _ ← corrupt_if terminal "terminal activity is outside the prefix";
            if bool_decide (state = "started") then
              _ ← corrupt_if (negb (is_null (px_current acc)) ||
                              negb (planIndex =? px_count acc))
                    "started activity is out of order";
              load_prefix states (planIndex + 1) segments
                (MkPrefix seen false (px_count acc) (Some id))
            else
              load_prefix states (planIndex + 1) segments
                (MkPrefix seen false (px_count acc) (px_current acc))
      end
  end.

(** [result.Activities[activityIndex[id]].ActivityState]. *)
Definition activity_states (acts : list CanonicalActivity) : gmap string string :=
  omap (fun position => ca_ActivityState <$> acts !! position) (activityIndex acts).

Definition Load (tripID : string) : tx CanonicalTripState :=
  _ ← guard (negb (validCanonicalUUID tripID)) (ErrInvalid "trip id is invalid");
  t ← lock_trip_row tripID;
  currentPlanID ← scan_current_plan "lock canonical trip" t;
  _ ← guard ((t_trip_revision t <=? 0) || (t_finalized_mutation_sequence t <=? 0) ||
             negb (validCanonicalUUID (t_owner_user_id t)) ||
             bool_decide (t_default_time_zone_name t = "") ||
             negb (validCanonicalUUID currentPlanID)) ErrCanonicalStateCorrupt;
  d ← gets id;
  acts ← lift (load_activities tripID d);
  acts ← lift (load_windows tripID acts d);
  delays ← lift (load_delays tripID acts d);
  loaded ← lift (load_plan tripID (t_owner_user_id t) currentPlanID d);
  let '(current, plan) := loaded in
  _ ← guard (negb (zlen (pw_segments plan) =? zlen acts)) ErrCanonicalStateCorrupt;
  prefix ← lift (load_prefix (activity_states acts) 0 (pw_segments plan)
                   (MkPrefix ∅ true 0 None));
  mret (MkTripState tripID (t_owner_user_id t) (t_default_time_zone_name t)
          (uint64 (t_trip_revision t)) (uint64 (t_finalized_mutation_sequence t))
          currentPlanID (px_count prefix) (px_current prefix) acts delays current).

(** [RuntimeSyncState]. *)
Definition RuntimeSyncState (tripID : string) : tx sync_state :=
  _ ← guard (negb (validCanonicalUUID tripID)) (ErrInvalid "trip id is invalid");
  let exists_in state d := any_row (fun _ i => bool_decide (i_trip_id i = tripID) &&
    bool_decide (i_runtime_sync_state i = state)) (intents d) in
  gets (fun d => if exists_in SyncPausedInternal d then SyncPausedInternal
                 else if exists_in SyncPending d then SyncPending
                 else SyncNotRequired).

End Load.
