(* ===== verification/Canonical.v ===== *)
(** * Canonical-first commands

    Models the operations of [persistence/canonical_commands.go]: [CreateTrip],
    [ReplaceCurrentPlan], [ReorderActivities], [RemoveActivity],
    [ReplaceActivity] and [AddActivity].  Each applies a user's edit to the
    canonical tables in one transaction, publishes a user-authored plan at the
    next trip revision and queues the mirror command for the runtime.  The
    advisory lock of [CreateTrip] serializes transactions and has no effect on
    one of them. *)

From S2P Require Import Prelude GoLib Wire Schema Tables Commands Finalization.
From S2P Require Import Mutations Proposals CanonicalState.

(** ** Requests *)

Record CanonicalPlanMetadata := MkPlanMetadata {
  cm_ID : string;
  cm_Revision : Z;
  cm_CreatedAt : Z
}.

Record CreateTripRequest := MkCreateTrip {
  cr_TripID : string;
  cr_OwnerUserID : string;
  cr_DefaultTimeZoneName : string;
  cr_IntentID : string;
  cr_MessageID : string;
  cr_EventID : string;
  cr_PlanID : string;
  cr_Activities : list CanonicalActivity;
  cr_TravelDelays : list CanonicalTravelDelay;
  cr_PlanSegments : list CanonicalPlanSegmentDraft;
  cr_CommandPayload : bytes;
  cr_PayloadDigest : bytes;
  cr_OutcomePayload : bytes
}.

(** [ReplaceCurrentPlanRequest], and the fields the other four edit requests
    share with it.  The builder is a callback of the gateway. *)
Record ReplaceCurrentPlanRequest := MkEdit {
  er_TripID : string;
  er_OwnerUserID : string;
  er_IntentID : string;
  er_OutboxID : string;
  er_MessageID : string;
  er_EventID : string;
  er_PlanID : string;
  er_ExpectedTripRevision : Z;
  er_CommandExpiresAt : option Z;
  er_MaxPendingCanonicalMirror : Z;
  er_PlanSegments : list CanonicalPlanSegmentDraft;
  er_CommandPayload : bytes;
  er_EventPayload : bytes;
  er_EventPayloadBuilder : option (CanonicalPlanMetadata -> option bytes);
  er_PayloadDigest : bytes;
  er_OutcomePayload : bytes
}.

Record ReorderActivitiesRequest := MkReorder {
  ro_Edit : ReplaceCurrentPlanRequest;
  ro_ActivityIDs : list string
}.

Record RemoveActivityRequest := MkRemove {
  rm_Edit : ReplaceCurrentPlanRequest;
  rm_ActivityID : string
}.

Record ReplaceActivityRequest := MkReplaceActivity {
  ra_Edit : ReplaceCurrentPlanRequest;
  ra_Activity : CanonicalActivity
}.

Record AddActivityRequest := MkAdd {
  aa_Edit : ReplaceCurrentPlanRequest;
  aa_Ordinal : Z;
  aa_Activity : CanonicalActivity
}.

Definition set_Ordinal (ordinal : Z) (a : CanonicalActivity) : CanonicalActivity :=
  MkActivity (ca_ID a) ordinal (ca_PlaceID a) (ca_DisplayName a) (ca_Latitude a)
    (ca_Longitude a) (ca_TimeZoneName a) (ca_InboundTravelMode a) (ca_ActivityClass a)
    (ca_ActivityState a) (ca_ActivityDelaySeconds a) (ca_FoundClosedAt a)
    (ca_PriorityRank a) (ca_UtilityScore a) (ca_ReservationStart a)
    (ca_ReservationGraceSeconds a) (ca_MandatoryDeadline a) (ca_MinDurationSeconds a)
    (ca_PreferredDurationSeconds a) (ca_MaxDurationSeconds a) (ca_Mandatory a)
    (ca_CanShorten a) (ca_CanMove a) (ca_CanSkip a) (ca_OpenWindows a).

(** ** Validation *)

(** The loop over the opening windows; [previousClose] is [None] at index 0. *)
Fixpoint canonical_windows_normalized (previousClose : option Z)
    (l : list CanonicalOpenWindow) : bool :=
  match l with
  | [] => true
  | w :: l =>
      (ow_OpensAt w <? ow_ClosesAt w) &&
      negb match previousClose with Some c => ow_OpensAt w <? c | None => false end &&
      canonical_windows_normalized (Some (ow_ClosesAt w)) l
  end.

Definition validateCanonicalActivity (a : CanonicalActivity) : result unit :=
  _ ← reject_if
        (negb (validCanonicalUUID (ca_ID a)) || bool_decide (ca_PlaceID a = "") ||
         bool_decide (ca_DisplayName a = "") || bool_decide (ca_TimeZoneName a = "") ||
         (negb (bool_decide (ca_InboundTravelMode a = "walking")) &&
          negb (bool_decide (ca_InboundTravelMode a = "driving"))) ||
         (negb (bool_decide (ca_ActivityClass a = "fixed")) &&
          negb (bool_decide (ca_ActivityClass a = "flexible"))) ||
         negb (activity_state_valid (ca_ActivityState a)) ||
         (max_int32 <? ca_ActivityDelaySeconds a) ||
         (max_int32 <? ca_ReservationGraceSeconds a) ||
         (max_int32 <? ca_MinDurationSeconds a) ||
         (max_int32 <? ca_PreferredDurationSeconds a) ||
         (max_int32 <? ca_MaxDurationSeconds a) ||
         (ca_PreferredDurationSeconds a <? ca_MinDurationSeconds a) ||
         (ca_MaxDurationSeconds a <? ca_PreferredDurationSeconds a))
        (ErrInvalid "activity draft is invalid");
  _ ← reject_if (location_invalid (ca_Latitude a) (ca_Longitude a))
        (ErrInvalid "activity location is invalid");
  reject_if (negb (canonical_windows_normalized None (ca_OpenWindows a)))
    (ErrInvalid "activity opening windows are not normalized").

Definition validateCanonicalActivityDraft (index : Z) (a : CanonicalActivity) : result unit :=
  _ ← reject_if (negb (ca_Ordinal a =? uint32 index))
        (ErrInvalid "activity draft ordinal is invalid");
  validateCanonicalActivity a.

(** The faults of a plan draft; each caller words them its own way. *)
Inductive plan_fault :=
| ActivityIDInvalid | UnknownActivity | RepeatedActivity | ScheduledInvalid
| OmittedHasTimes | TerminalOutsidePrefix | StartedOutOfOrder.

Definition create_trip_fault (f : plan_fault) : err :=
  ErrInvalid match f with
  | ActivityIDInvalid => "create-trip plan activity id is invalid"
  | UnknownActivity => "create-trip plan references an unknown activity"
  | RepeatedActivity => "create-trip plan repeats an activity"
  | ScheduledInvalid => "create-trip scheduled plan segment is invalid"
  | OmittedHasTimes => "create-trip omitted segment has times"
  | TerminalOutsidePrefix => "create-trip terminal activity is outside the prefix"
  | StartedOutOfOrder => "create-trip started activity is out of order"
  end.

Definition replacement_fault (f : plan_fault) : err :=
  ErrInvalid match f with
  | ActivityIDInvalid => "replacement plan activity id is invalid"
  | UnknownActivity => "replacement plan references an unknown activity"
  | RepeatedActivity => "replacement plan repeats an activity"
  | ScheduledInvalid => "replacement scheduled segment is invalid"
  | OmittedHasTimes => "replacement omitted segment has times"
  | TerminalOutsidePrefix => "replacement terminal activity is outside the prefix"
  | StartedOutOfOrder => "replacement started activity is out of order"
  end.

(** The locals of the loop over a plan draft. *)
Record draft_acc := MkDraftAcc {
  dr_seen : gset string;
  dr_prefixOpen : bool;
  dr_started : bool;
  dr_previousEnd : option Z
}.

(** The times of one segment: the new [previousEnd]. *)
Definition draft_times (fault : plan_fault -> err) (previousEnd : option Z)
    (segment : CanonicalPlanSegmentDraft) : result (option Z) :=
  if d_Scheduled segment then
    match d_Start segment, d_End segment with
    | Some start, Some end_ =>
        _ ← reject_if ((end_ <=? start) ||
                       match previousEnd with Some e => start <? e | None => false end)
              (fault ScheduledInvalid);
        Ok (Some end_)
    | _, _ => Err (fault ScheduledInvalid)
    end
  else
    _ ← reject_if (negb (is_null (d_Start segment)) || negb (is_null (d_End segment)))
          (fault OmittedHasTimes);
    Ok previousEnd.

(** The loop of [validateCreateTripRequest] and [validateReplacementPlan].  Its
    last test compares the index with [len(seen)-1] as the code does. *)
Fixpoint draft_loop (fault : plan_fault -> err) (states : gmap string string) (index : Z)
    (segments : list CanonicalPlanSegmentDraft) (acc : draft_acc) : result draft_acc :=
  match segments with
  | [] => Ok acc
  | segment :: segments =>
      let id := d_ActivityID segment in
      _ ← reject_if (negb (validCanonicalUUID id)) (fault ActivityIDInvalid);
      match states !! id with
      | None => Err (fault UnknownActivity)
      | Some state =>
          _ ← reject_if (bool_decide (id ∈ dr_seen acc)) (fault RepeatedActivity);
          let seen := {[id]} ∪ dr_seen acc in
          previousEnd ← draft_times fault (dr_previousEnd acc) segment;
          let terminal := terminal_state state in
          if dr_prefixOpen acc && terminal then
            draft_loop fault states (index + 1) segments
              (MkDraftAcc seen true (dr_started acc) previousEnd)
          else
            _ ← reject_if terminal (fault TerminalOutsidePrefix);
            if bool_decide (state = "started") then
              _ ← reject_if (dr_started acc ||
                             negb (index =? Z.of_nat (size seen) - 1))
                    (fault StartedOutOfOrder);
              draft_loop fault states (index + 1) segments
                (MkDraftAcc seen false true previousEnd)
            else
              draft_loop fault states (index + 1) segments
                (MkDraftAcc seen false (dr_started acc) previousEnd)
      end
  end.

Definition draft_start : draft_acc := MkDraftAcc ∅ true false None.

Definition validateReplacementPlan (segments : list CanonicalPlanSegmentDraft)
    (activityStates : gmap string string) : result unit :=
  _ ← reject_if (negb (zlen segments =? Z.of_nat (size activityStates)))
        (ErrInvalid "replacement plan must cover every activity");
  acc ← draft_loop replacement_fault activityStates 0 segments draft_start;
  reject_if (negb (Z.of_nat (size (dr_seen acc)) =? Z.of_nat (size activityStates)))
    (ErrInvalid "replacement plan omits an activity").

(** The loop over the activities of a create-trip draft: [activityStates], whose
    keys are [activityIDs]. *)
Fixpoint draft_activities (index : Z) (l : list CanonicalActivity)
    (states : gmap string string) : result (gmap string string) :=
  match l with
  | [] => Ok states
  | a :: l =>
      _ ← validateCanonicalActivityDraft index a;
      _ ← reject_if (bool_decide (is_Some (states !! ca_ID a)))
            (ErrInvalid "create-trip activities must be unique");
      draft_activities (index + 1) l (<[ca_ID a := ca_ActivityState a]> states)
  end.

Definition validate_draft_delay (states : gmap string string) (delay : CanonicalTravelDelay)
  : result unit :=
  _ ← reject_if (negb (validCanonicalUUID (cd_FromActivityID delay)) ||
                 negb (validCanonicalUUID (cd_ToActivityID delay)) ||
                 (max_int32 <? cd_AdditionalSeconds delay))
        (ErrInvalid "create-trip travel delay is invalid");
  _ ← reject_if (is_null (states !! cd_FromActivityID delay))
        (ErrInvalid "create-trip delay origin is unknown");
  reject_if (is_null (states !! cd_ToActivityID delay))
    (ErrInvalid "create-trip delay destination is unknown").

Definition validateCreateTripRequest (r : CreateTripRequest) : result unit :=
  _ ← reject_if (negb (forallb validCanonicalUUID
          [cr_TripID r; cr_OwnerUserID r; cr_IntentID r; cr_MessageID r; cr_EventID r;
           cr_PlanID r]))
        (ErrInvalid "create-trip identifiers must be canonical UUIDs");
  _ ← reject_if (negb (bool_decide (cr_MessageID r = cr_EventID r)) ||
                 bool_decide (cr_DefaultTimeZoneName r = "") ||
                 (zlen (cr_Activities r) =? 0) || (64 <? zlen (cr_Activities r)) ||
                 negb (json_Valid (cr_CommandPayload r)) ||
                 negb (json_Valid (cr_OutcomePayload r)))
        (ErrInvalid "create-trip draft is invalid");
  _ ← reject_if (negb (constant_time_eq (sha256 (cr_CommandPayload r)) (cr_PayloadDigest r)))
        (ErrInvalid "create-trip payload digest is invalid");
  _ ← reject_if (negb (zlen (cr_PlanSegments r) =? zlen (cr_Activities r)))
        (ErrInvalid "create-trip plan must cover every activity");
  states ← draft_activities 0 (cr_Activities r) ∅;
  acc ← draft_loop create_trip_fault states 0 (cr_PlanSegments r) draft_start;
  _ ← reject_if (negb (Z.of_nat (size (dr_seen acc)) =? zlen (cr_Activities r)))
        (ErrInvalid "create-trip plan omits an activity");
  _ ← reject_if (negb (is_ok (parseUserCurrentPlan
          (userCurrentPlanPayload (cr_PlanID r) 1 1 (cr_PlanSegments r)))))
        (ErrInvalid "create-trip plan is invalid");
  fold_res (fun _ delay => validate_draft_delay states delay) (cr_TravelDelays r) tt.

Definition validCanonicalEventPayload (payload : bytes)
    (builder : option (CanonicalPlanMetadata -> option bytes)) : bool :=
  negb (is_null builder) || json_Valid payload.

Definition buildCanonicalEventPayload (payload : bytes)
    (builder : option (CanonicalPlanMetadata -> option bytes))
    (metadata : CanonicalPlanMetadata) : result bytes :=
  match builder with
  | None => Ok payload
  | Some build =>
      result ← of_option (build metadata) (ErrInvalid "build canonical planner event");
      _ ← reject_if (negb (json_Valid result))
            (ErrInvalid "canonical planner event builder returned invalid JSON");
      Ok result
  end.

(** The tests the validators of the edits share; [extra] is the clause a
    validator adds to the second one. *)
Definition validate_edit (ids invalid digest : string) (extra : bool)
    (r : ReplaceCurrentPlanRequest) : result unit :=
  _ ← reject_if (negb (forallb validCanonicalUUID
          [er_TripID r; er_OwnerUserID r; er_IntentID r; er_OutboxID r; er_MessageID r;
           er_EventID r; er_PlanID r])) (ErrInvalid ids);
  _ ← reject_if (negb (bool_decide (er_MessageID r = er_EventID r)) ||
                 (er_MaxPendingCanonicalMirror r =? 0) || extra ||
                 negb (json_Valid (er_CommandPayload r)) ||
                 negb (validCanonicalEventPayload (er_EventPayload r)
                         (er_EventPayloadBuilder r)) ||
                 negb (json_Valid (er_OutcomePayload r))) (ErrInvalid invalid);
  reject_if (negb (constant_time_eq (sha256 (er_CommandPayload r)) (er_PayloadDigest r)))
    (ErrInvalid digest).

Definition validateReplaceCurrentPlanRequest (r : ReplaceCurrentPlanRequest) : result unit :=
  validate_edit "replacement identifiers must be canonical UUIDs"
    "replacement request is invalid" "replacement payload digest is invalid" false r.

Definition validate_trip_edit (invalid : string) (extra : bool)
    (r : ReplaceCurrentPlanRequest) : result unit :=
  validate_edit "trip-edit identifiers must be canonical UUIDs" invalid
    "trip-edit payload digest is invalid" extra r.

(** The identifiers of a reorder: canonical and unique. *)
Definition reorder_id (seen : gset string) (activityID : string) : result (gset string) :=
  _ ← reject_if (negb (validCanonicalUUID activityID))
        (ErrInvalid "trip-edit activity id is invalid");
  _ ← reject_if (bool_decide (activityID ∈ seen))
        (ErrInvalid "trip-edit activity ids must be unique");
  Ok ({[activityID]} ∪ seen).

Definition validateReorderActivitiesRequest (r : ReorderActivitiesRequest) : result unit :=
  _ ← validate_trip_edit "trip-edit request is invalid"
        (bool_decide (ro_ActivityIDs r = [])) (ro_Edit r);
  _ ← fold_res reorder_id (ro_ActivityIDs r) ∅;
  Ok tt.

Definition validateRemoveActivityRequest (r : RemoveActivityRequest) : result unit :=
  validate_trip_edit "trip-edit remove request is invalid"
    (negb (validCanonicalUUID (rm_ActivityID r))) (rm_Edit r).

Definition validateReplaceActivityRequest (r : ReplaceActivityRequest) : result unit :=
  _ ← validate_trip_edit "trip-edit replace request is invalid" false (ra_Edit r);
  validateCanonicalActivity (ra_Activity r).

Definition validateAddActivityRequest (r : AddActivityRequest) : result unit :=
  _ ← validate_trip_edit "trip-edit add request is invalid" false (aa_Edit r);
  validateCanonicalActivity (aa_Activity r).

(** ** Statements *)

Section Canonical.
Context {PG : Postgres}.

(** The row of a draft; the server rejects text it cannot store. *)
Definition activity_row (op tripID : string) (ordinal : Z) (a : CanonicalActivity)
  : result activity :=
  place ← of_option (text_in (ca_PlaceID a)) (ErrDatabase op);
  name ← of_option (text_in (ca_DisplayName a)) (ErrDatabase op);
  zone ← of_option (text_in (ca_TimeZoneName a)) (ErrDatabase op);
  Ok (Activity tripID ordinal place name (ca_Latitude a) (ca_Longitude a) zone
        (ca_InboundTravelMode a) (ca_ActivityClass a) (ca_ActivityState a)
        (ca_ActivityDelaySeconds a) (to_timestamptz <$> ca_FoundClosedAt a)
        (ca_PriorityRank a) (ca_UtilityScore a) (to_timestamptz <$> ca_ReservationStart a)
        (ca_ReservationGraceSeconds a) (to_timestamptz <$> ca_MandatoryDeadline a)
        (ca_MinDurationSeconds a) (ca_PreferredDurationSeconds a) (ca_MaxDurationSeconds a)
        (ca_Mandatory a) (ca_CanShorten a) (ca_CanMove a) (ca_CanSkip a)).

(** Another row of the trip holds the ordinal: [UNIQUE (trip_id, ordinal)]. *)
Definition ordinal_taken (tripID id : string) (ordinal : Z) (d : db) : bool :=
  any_row (fun k b => negb (bool_decide (k = id)) && bool_decide (a_trip_id b = tripID) &&
    (a_ordinal b =? ordinal)) (activities d).

Definition insert_activity (op id : string) (a : activity) : tx unit := fun d =>
  if bool_decide (is_Some (activities d !! id)) ||
     negb (bool_decide (is_Some (trips d !! a_trip_id a))) ||
     ordinal_taken (a_trip_id a) id (a_ordinal a) d || negb (activity_check a)
  then Err (ErrDatabase op)
  else Ok (tt, set_activities (<[id := a]> (activities d)) d).

Definition stored_windows (a : CanonicalActivity) : list (Z * Z) :=
  (fun w => (to_timestamptz (ow_OpensAt w), to_timestamptz (ow_ClosesAt w)))
    <$> ca_OpenWindows a.

(** An activity and its windows. *)
Definition insert_draft (what tripID : string) (ordinal : Z) (a : CanonicalActivity)
  : tx unit :=
  row ← lift (activity_row ("insert " +:+ what +:+ " activity") tripID ordinal a);
  _ ← insert_activity ("insert " +:+ what +:+ " activity") (ca_ID a) row;
  insert_windows ("insert " +:+ what +:+ " window") tripID (ca_ID a) 0 (stored_windows a).

Definition insert_travel_delay (op tripID : string) (v : CanonicalTravelDelay) : tx unit :=
  fun d =>
  let key := (tripID, cd_FromActivityID v, cd_ToActivityID v) in
  if bool_decide (is_Some (travel_delays d !! key)) ||
     negb (activity_of_trip tripID (cd_FromActivityID v) d) ||
     negb (activity_of_trip tripID (cd_ToActivityID v) d) ||
     (cd_AdditionalSeconds v <? 0) || negb (in_integer (cd_AdditionalSeconds v))
  then Err (ErrDatabase op)
  else Ok (tt, set_travel_delays (<[key := TravelDelay (cd_AdditionalSeconds v)
         (to_timestamptz (cd_ObservedAt v))]> (travel_delays d)) d).

(** [UPDATE trip_activities SET ordinal = ordinal + n WHERE trip_id].  The unique
    index is checked as each row is updated, in an order the server chooses: the
    statement is refused here if any order could meet a row that still holds the
    new ordinal. *)
Definition stage_ordinals (op tripID : string) (n : Z) : tx unit := fun d =>
  if any_row (fun k a => bool_decide (a_trip_id a = tripID) &&
       (ordinal_taken tripID k (a_ordinal a + n) d || negb (in_integer (a_ordinal a + n))))
       (activities d)
  then Err (ErrDatabase op)
  else Ok (tt, set_activities (update_rows (fun _ a => bool_decide (a_trip_id a = tripID))
         (fun a => set_a_ordinal (a_ordinal a + n) a) (activities d)) d).

(** [UPDATE trip_activities SET ordinal WHERE trip_id AND id]: no row is no error. *)
Definition update_ordinal (op tripID id : string) (ordinal : Z) : tx unit := fun d =>
  match activities d !! id with
  | Some a =>
      if bool_decide (a_trip_id a = tripID) then
        if ordinal_taken tripID id ordinal d || negb (in_integer ordinal) || (ordinal <? 0)
        then Err (ErrDatabase op)
        else Ok (tt, set_activities (<[id := set_a_ordinal ordinal a]> (activities d)) d)
      else Ok (tt, d)
  | None => Ok (tt, d)
  end.

(** The loop that gives the activities their final ordinals, from [index] on. *)
Fixpoint apply_ordinals (op tripID : string) (index : Z) (ids : list string) : tx unit :=
  match ids with
  | [] => mret tt
  | id :: ids => _ ← update_ordinal op tripID id index; apply_ordinals op tripID (index + 1) ids
  end.

(** ** The published plan *)

Definition user_plan (tripID owner : string) (revision : Z) (payload : bytes) (created : Z)
  : plan :=
  Plan tripID revision UserAuthored owner None 1 payload (zlen payload) (sha256 payload)
    created.

(** The applied intent of a canonical-first command. *)
Definition canonical_intent (tripID messageID eventID : string) (sequence expected : Z)
    (kind : CommandKind) (expires : option Z) (digest : bytes) (command outcome : jsonb)
    (revision : Z) (planID : string) (sync : sync_state) (at_ : Z) : intent :=
  Intent tripID messageID eventID sequence expected kind canonical_first expires
    "rfc8785-sha256-v1" digest command IntentApplied (Some "OK") (Some outcome)
    (Some revision) (Some planID) None None None None sync at_ (Some at_).

(** ** [CreateTrip] *)

(** The trigger [trips_fill_legacy_trip_name] names the trip. *)
Definition legacy_trip_name (id : string) : string := "Trip " +:+ String.substring 0 8 id.

Definition new_trip (r : CreateTripRequest) (zone : string) (created now : Z) : trip :=
  Trip (cr_OwnerUserID r) zone 1 2 1 (Some (cr_PlanID r)) None Inactive None None None now
    (legacy_trip_name (cr_TripID r)) created.

Definition created_command (r : CreateTripRequest) (createdAt : Z) : RecordedCommand :=
  MkRecordedCommand (cr_IntentID r) "" (cr_TripID r) (cr_MessageID r) (cr_EventID r) 1 0
    CommandCreateTrip IntentApplied SyncNotRequired (Some "OK") (Some (cr_OutcomePayload r))
    (Some 1) (Some (cr_PlanID r)) None createdAt (Some createdAt) false.

(** The trip exists: only a repeated create-trip command is answered. *)
Definition create_existing (r : CreateTripRequest) (t : trip) : tx RecordedCommand :=
  _ ← guard (negb (bool_decide (t_owner_user_id t = cr_OwnerUserID r))) ErrCanonicalTripConflict;
  existing ← gets (recordedCommandSelect (cr_TripID r) (cr_MessageID r));
  match existing with
  | None => fail ErrCanonicalTripConflict
  | Some row =>
      scanned ← lift (scanRecordedCommand row true);
      let '(command, storedDigest, algorithm) := scanned in
      _ ← guard (negb (bool_decide (rc_Kind command = CommandCreateTrip)))
            ErrCanonicalTripConflict;
      _ ← guard (negb (bool_decide (algorithm = DigestAlgorithmRFC8785SHA256V1)) ||
                 negb (constant_time_eq storedDigest (cr_PayloadDigest r)))
            ErrIdempotencyKeyReused;
      mret command
  end.

(** The rows of a new trip. *)
Definition create_rows (clk : nat -> Z) (r : CreateTripRequest) (createdAt : Z) : tx unit :=
  zone ← lift (of_option (text_in (cr_DefaultTimeZoneName r)) (ErrDatabase "insert create-trip"));
  _ ← insert_trip "insert create-trip" (cr_TripID r) (new_trip r zone (clk 1%nat) (clk 2%nat));
  _ ← for_each (fun a => insert_draft "create-trip" (cr_TripID r) (ca_Ordinal a) a)
        (cr_Activities r);
  _ ← for_each (insert_travel_delay "insert create-trip delay" (cr_TripID r))
        (cr_TravelDelays r);
  let payload := userCurrentPlanPayload (cr_PlanID r) 1 (unix_milli createdAt)
                   (cr_PlanSegments r) in
  _ ← insert_plan "insert create-trip plan" (cr_PlanID r)
        (user_plan (cr_TripID r) (cr_OwnerUserID r) 1 payload createdAt);
  command ← lift (of_option (jsonb_in (cr_CommandPayload r))
                    (ErrDatabase "insert create-trip intent"));
  outcome ← lift (of_option (jsonb_in (cr_OutcomePayload r))
                    (ErrDatabase "insert create-trip intent"));
  insert_intent "insert create-trip intent" (cr_IntentID r)
    (canonical_intent (cr_TripID r) (cr_MessageID r) (cr_EventID r) 1 0 CommandCreateTrip
       None (cr_PayloadDigest r) command outcome 1 (cr_PlanID r) SyncNotRequired createdAt).

Definition CreateTrip (clk : nat -> Z) (r : CreateTripRequest) : tx RecordedCommand :=
  _ ← lift (validateCreateTripRequest r);
  existing ← gets (fun d => trips d !! cr_TripID r);
  match existing with
  | Some t => create_existing r t
  | None =>
      known ← gets (fun d => bool_decide (cr_OwnerUserID r ∈ users d));
      _ ← guard (negb known) ErrCanonicalOwnerMissing;
      let createdAt := trunc_ms (clk 0%nat) in
      _ ← create_rows clk r createdAt;
      valid ← gets (current_plan_fk (cr_TripID r));
      _ ← guard (negb valid) (ErrDatabase "commit create-trip");
      mret (created_command r createdAt)
  end.

(** ** The edits *)

(** The trip locked for an edit of its owner, and its current plan. *)
Definition lock_edit_trip (what : string) (r : ReplaceCurrentPlanRequest)
  : tx (trip * string) :=
  t ← find_row (fun d => trips d !! er_TripID r) ErrCanonicalTripConflict;
  currentPlanID ← scan_current_plan ("lock " +:+ what +:+ " trip") t;
  _ ← guard (negb (bool_decide (t_owner_user_id t = er_OwnerUserID r))) ErrCanonicalTripConflict;
  mret (t, currentPlanID).

(** A repeated message. *)
Definition edit_duplicate (kind : CommandKind) (r : ReplaceCurrentPlanRequest)
    (row : string * intent * option string) : tx RecordedCommand :=
  scanned ← lift (scanRecordedCommand row true);
  let '(command, storedDigest, algorithm) := scanned in
  _ ← guard (negb (bool_decide (algorithm = DigestAlgorithmRFC8785SHA256V1)) ||
             negb (constant_time_eq storedDigest (er_PayloadDigest r)) ||
             negb (bool_decide (rc_Kind command = kind))) ErrIdempotencyKeyReused;
  mret command.

Definition pending_runtime (tripID : string) (_ : string) (i : intent) : bool :=
  bool_decide (i_trip_id i = tripID) && bool_decide (i_application_order i = runtime_first) &&
  bool_decide (i_state i = IntentPending).

Definition pending_mirror (tripID : string) (_ : string) (i : intent) : bool :=
  bool_decide (i_trip_id i = tripID) && bool_decide (i_application_order i = canonical_first) &&
  (bool_decide (i_runtime_sync_state i = SyncPending) ||
   bool_decide (i_runtime_sync_state i = SyncPausedInternal)).

(** The revision, the sequence, the unresolved runtime commands and the mirror
    capacity. *)
Definition edit_admission (r : ReplaceCurrentPlanRequest) (t : trip) : tx unit :=
  _ ← guard ((t_trip_revision t <? 0) ||
             negb (uint64 (t_trip_revision t) =? er_ExpectedTripRevision r)) ErrTripRevisionStale;
  _ ← guard ((t_trip_revision t =? max_int64) || (t_next_mutation_sequence t <=? 0) ||
             (t_next_mutation_sequence t =? max_int64)) ErrMutationSequenceExhausted;
  runtimeCommandCount ← gets (fun d => count_rows (pending_runtime (er_TripID r)) (intents d));
  _ ← guard (negb (runtimeCommandCount =? 0)) ErrDurableCommandBlocked;
  pendingMirrors ← gets (fun d => count_rows (pending_mirror (er_TripID r)) (intents d));
  guard (er_MaxPendingCanonicalMirror r <=? pendingMirrors) ErrCanonicalMirrorCapacity.

(** The loop over the locked activities: their identifiers, in ordinal order. *)
Definition scan_edit_activity (acc : list (string * string)) (row : string * activity)
  : result (list (string * string)) :=
  _ ← reject_if (negb (a_ordinal row.2 =? zlen acc) || negb (validCanonicalUUID row.1) ||
                 negb (activity_state_valid (a_activity_state row.2)))
        ErrCanonicalStateCorrupt;
  Ok (acc ++ [(row.1, a_activity_state row.2)]).

Definition edit_activities (r : ReplaceCurrentPlanRequest) : tx (list (string * string)) :=
  rows ← gets (activity_rows (er_TripID r));
  lift (fold_res scan_edit_activity rows []).

Definition activityStates (l : list (string * string)) : gmap string string := list_to_map l.

(** [SELECT id FROM itinerary_plans ... FOR UPDATE]. *)
Definition lock_current_plan (op : string) (r : ReplaceCurrentPlanRequest) (currentPlanID : string)
  : tx unit :=
  known ← gets (plan_of_trip (er_TripID r) currentPlanID);
  guard (negb known) (ErrDatabase op).

Definition edit_metadata (r : ReplaceCurrentPlanRequest) (t : trip) (createdAt : Z)
  : CanonicalPlanMetadata :=
  MkPlanMetadata (er_PlanID r) (uint64 (t_trip_revision t + 1)) (of_timestamptz createdAt).

(** [planRevision], the payload and the planner event of the published plan. *)
Definition edit_event (r : ReplaceCurrentPlanRequest) (t : trip) (createdAt : Z)
  : result bytes :=
  buildCanonicalEventPayload (er_EventPayload r) (er_EventPayloadBuilder r)
    (edit_metadata r t createdAt).

Definition edit_payload (r : ReplaceCurrentPlanRequest) (t : trip) (createdAt : Z) : bytes :=
  userCurrentPlanPayload (er_PlanID r) (uint64 (t_trip_revision t + 1)) (unix_milli createdAt)
    (er_PlanSegments r).

Definition edited_command (kind : CommandKind) (r : ReplaceCurrentPlanRequest) (t : trip)
    (createdAt : Z) : RecordedCommand :=
  MkRecordedCommand (er_IntentID r) (er_OutboxID r) (er_TripID r) (er_MessageID r)
    (er_EventID r) (uint64 (t_next_mutation_sequence t)) (er_ExpectedTripRevision r) kind
    IntentApplied SyncPending (Some "OK") (Some (er_OutcomePayload r))
    (Some (uint64 (t_trip_revision t + 1))) (Some (er_PlanID r)) None createdAt
    (Some createdAt) false.

(** The plan, the trip, the intent and the outbox row of an edit. *)
Definition publish_edit (what : string) (kind : CommandKind) (clk : nat -> Z)
    (r : ReplaceCurrentPlanRequest) (t : trip) (createdAt : Z) (event : bytes)
  : tx RecordedCommand :=
  let revision := t_trip_revision t + 1 in
  let sequence := t_next_mutation_sequence t in
  _ ← insert_plan ("insert " +:+ what +:+ " plan") (er_PlanID r)
        (user_plan (er_TripID r) (er_OwnerUserID r) revision (edit_payload r t createdAt)
           createdAt);
  _ ← update_trip ("update " +:+ what +:+ " trip") (er_TripID r) (fun t =>
        set_t_updated_at (clk 2%nat)
          (set_t_current_plan_id (Some (er_PlanID r))
            (set_t_finalized_mutation_sequence sequence
              (set_t_next_mutation_sequence (sequence + 1)
                (set_t_trip_revision revision t)))));
  command ← lift (of_option (jsonb_in (er_CommandPayload r))
                    (ErrDatabase ("insert " +:+ what +:+ " intent")));
  outcome ← lift (of_option (jsonb_in (er_OutcomePayload r))
                    (ErrDatabase ("insert " +:+ what +:+ " intent")));
  _ ← insert_intent ("insert " +:+ what +:+ " intent") (er_IntentID r)
        (canonical_intent (er_TripID r) (er_MessageID r) (er_EventID r) sequence
           (int64 (er_ExpectedTripRevision r)) kind (to_timestamptz <$> er_CommandExpiresAt r)
           (er_PayloadDigest r) command outcome revision (er_PlanID r) SyncPending createdAt);
  payload ← lift (of_option (jsonb_in event) (ErrDatabase ("insert " +:+ what +:+ " outbox")));
  _ ← insert_outbox ("insert " +:+ what +:+ " outbox") (er_OutboxID r)
        (new_outbox clk 3 (er_IntentID r) (er_TripID r) sequence payload);
  valid ← gets (current_plan_fk (er_TripID r));
  _ ← guard (negb valid) (ErrDatabase ("commit " +:+ what));
  mret (edited_command kind r t createdAt).

(** An edit whose message is new: [body] is given the activities the trip has. *)
Definition canonical_edit (what : string) (kind : CommandKind) (r : ReplaceCurrentPlanRequest)
    (body : trip -> string -> list (string * string) -> tx RecordedCommand)
  : tx RecordedCommand :=
  locked ← lock_edit_trip what r;
  let '(t, currentPlanID) := locked in
  existing ← gets (recordedCommandSelect (er_TripID r) (er_MessageID r));
  match existing with
  | Some row => edit_duplicate kind r row
  | None =>
      _ ← edit_admission r t;
      current ← edit_activities r;
      body t currentPlanID current
  end.

(** The steps of a trip edit between the checks on the activities and the
    publication: [stage] and [apply] are its statements on the activities. *)
Definition trip_edit (what : string) (clk : nat -> Z) (r : ReplaceCurrentPlanRequest)
    (t : trip) (currentPlanID : string) (states : gmap string string) (apply : tx unit)
  : tx RecordedCommand :=
  _ ← lift (validateReplacementPlan (er_PlanSegments r) states);
  _ ← lock_current_plan ("lock " +:+ what +:+ " current plan") r currentPlanID;
  let createdAt := trunc_ms (clk 0%nat) in
  event ← lift (edit_event r t createdAt);
  _ ← supersede_pending ("supersede " +:+ what +:+ " proposals") (er_TripID r) (clk 1%nat);
  _ ← apply;
  publish_edit what CommandTripEdited clk r t createdAt event.

Definition ReplaceCurrentPlan (clk : nat -> Z) (r : ReplaceCurrentPlanRequest)
  : tx RecordedCommand :=
  _ ← lift (validateReplaceCurrentPlanRequest r);
  canonical_edit "replacement" CommandReplaceCurrentPlan r (fun t currentPlanID current =>
    _ ← lift (validateReplacementPlan (er_PlanSegments r) (activityStates current));
    let createdAt := trunc_ms (clk 0%nat) in
    event ← lift (edit_event r t createdAt);
    _ ← lock_current_plan "lock current replacement plan" r currentPlanID;
    _ ← supersede_pending "supersede replacement proposals" (er_TripID r) (clk 1%nat);
    publish_edit "replacement" CommandReplaceCurrentPlan clk r t createdAt event).

(** The request covers the trip's activities, each once in a row. *)
Fixpoint reorder_covers (states : gmap string string) (previous : option string)
    (ids : list string) : result unit :=
  match ids with
  | [] => Ok tt
  | id :: ids =>
      _ ← reject_if (is_null (states !! id))
            (ErrInvalid "trip-edit reorder references unknown activity");
      _ ← reject_if (bool_decide (previous = Some id))
            (ErrInvalid "trip-edit reorder repeats an activity");
      reorder_covers states (Some id) ids
  end.

Definition ReorderActivities (clk : nat -> Z) (q : ReorderActivitiesRequest)
  : tx RecordedCommand :=
  let r := ro_Edit q in
  _ ← lift (validateReorderActivitiesRequest q);
  canonical_edit "trip-edit" CommandTripEdited r (fun t currentPlanID current =>
    _ ← guard (negb (zlen current =? zlen (ro_ActivityIDs q)))
          (ErrInvalid "trip-edit reorder must cover every activity");
    _ ← lift (reorder_covers (activityStates current) None (ro_ActivityIDs q));
    trip_edit "trip-edit" clk r t currentPlanID (activityStates current)
      (_ ← stage_ordinals "stage trip-edit ordinals" (er_TripID r) (zlen current);
       apply_ordinals "apply trip-edit ordinal" (er_TripID r) 0 (ro_ActivityIDs q))).

(** The rows of the removed activity; nothing is left for the cascades. *)
Definition delete_activity (tripID id : string) : tx unit :=
  _ ← modify (fun d => set_travel_delays (delete_rows (fun k _ =>
        bool_decide (k.1.1 = tripID) &&
        (bool_decide (k.1.2 = id) || bool_decide (k.2 = id))) (travel_delays d)) d);
  _ ← modify (fun d => set_windows (delete_rows (fun k w =>
        bool_decide (w_trip_id w = tripID) && bool_decide (k.1 = id)) (windows d)) d);
  modify (fun d => set_activities (delete_rows (fun k a =>
    bool_decide (a_trip_id a = tripID) && bool_decide (k = id)) (activities d)) d).

Definition RemoveActivity (clk : nat -> Z) (q : RemoveActivityRequest) : tx RecordedCommand :=
  let r := rm_Edit q in
  _ ← lift (validateRemoveActivityRequest q);
  canonical_edit "remove-activity" CommandTripEdited r (fun t currentPlanID current =>
    _ ← guard (is_null (activityStates current !! rm_ActivityID q))
          (ErrInvalid "trip-edit remove references unknown activity");
    let resulting := List.filter (fun x => negb (bool_decide (x.1 = rm_ActivityID q))) current in
    trip_edit "remove-activity" clk r t currentPlanID (activityStates resulting)
      (_ ← stage_ordinals "stage remove-activity ordinals" (er_TripID r) (zlen current);
       _ ← delete_activity (er_TripID r) (rm_ActivityID q);
       apply_ordinals "apply remove-activity ordinal" (er_TripID r) 0 resulting.*1)).

(** [UPDATE trip_activities] of every column but the ordinal. *)
Definition replace_activity_row (tripID : string) (a : CanonicalActivity) : tx unit :=
  old ← gets (fun d => old ← activities d !! ca_ID a;
           if bool_decide (a_trip_id old = tripID) then Some old else None);
  match old with
  | None => mret tt
  | Some old =>
      row ← lift (activity_row "apply replace-activity activity" tripID (a_ordinal old) a);
      _ ← guard (negb (activity_check row)) (ErrDatabase "apply replace-activity activity");
      modify (fun d => set_activities (<[ca_ID a := row]> (activities d)) d)
  end.

(** [activityOrdinals[request.Activity.ID]]. *)
Fixpoint ordinal_of (id : string) (index : Z) (l : list (string * string)) : option Z :=
  match l with
  | [] => None
  | x :: l => if bool_decide (x.1 = id) then Some index else ordinal_of id (index + 1) l
  end.

Definition ReplaceActivity (clk : nat -> Z) (q : ReplaceActivityRequest) : tx RecordedCommand :=
  let r := ra_Edit q in
  _ ← lift (validateReplaceActivityRequest q);
  canonical_edit "replace-activity" CommandTripEdited r (fun t currentPlanID current =>
    ordinal ← lift (of_option (ordinal_of (ca_ID (ra_Activity q)) 0 current)
                      (ErrInvalid "trip-edit replace references unknown activity"));
    let replacement := set_Ordinal ordinal (ra_Activity q) in
    trip_edit "replace-activity" clk r t currentPlanID
      (<[ca_ID replacement := ca_ActivityState replacement]> (activityStates current))
      (_ ← replace_activity_row (er_TripID r) replacement;
       _ ← modify (fun d => set_windows (delete_rows (fun k w =>
             bool_decide (w_trip_id w = er_TripID r) &&
             bool_decide (k.1 = ca_ID replacement)) (windows d)) d);
       insert_windows "insert replace-activity window" (er_TripID r) (ca_ID replacement) 0
         (stored_windows replacement))).

Definition AddActivity (clk : nat -> Z) (q : AddActivityRequest) : tx RecordedCommand :=
  let r := aa_Edit q in
  _ ← lift (validateAddActivityRequest q);
  canonical_edit "add-activity" CommandTripEdited r (fun t currentPlanID current =>
    _ ← guard (64 <=? zlen current) (ErrInvalid "trip-edit activity limit is exceeded");
    _ ← guard (zlen current <? aa_Ordinal q) (ErrInvalid "trip-edit add ordinal is invalid");
    _ ← guard (negb (is_null (activityStates current !! ca_ID (aa_Activity q))))
          (ErrInvalid "trip-edit add repeats an activity");
    let newActivity := set_Ordinal (aa_Ordinal q) (aa_Activity q) in
    let position := Z.to_nat (aa_Ordinal q) in
    let resulting := take position current.*1 ++ [ca_ID newActivity] ++
                     drop position current.*1 in
    trip_edit "add-activity" clk r t currentPlanID
      (<[ca_ID newActivity := ca_ActivityState newActivity]> (activityStates current))
      (_ ← stage_ordinals "stage add-activity ordinals" (er_TripID r) (zlen current + 1);
       _ ← insert_draft "add-activity" (er_TripID r) (2 * zlen current + 1) newActivity;
       apply_ordinals "apply add-activity ordinal" (er_TripID r) 0 resulting)).

End Canonical.
