(* ===== verification/CanonicalFacts.v ===== *)
(** * Facts about the canonical-first commands

    The trip's itinerary as a list, and how each edit of [Canonical] changes
    it; the rows an edit publishes; [CreateTrip] followed by [Load]. *)

From S2P Require Import Prelude GoLib Wire WireFacts Schema Tables Leases Commands.
From S2P Require Import Finalization Mutations Proposals CanonicalState Canonical.

(** ** The abstract edit *)

(** One edit of a trip: the five operations under one type. *)
Inductive edit :=
| EditPlan (r : ReplaceCurrentPlanRequest)
| EditReorder (q : ReorderActivitiesRequest)
| EditRemove (q : RemoveActivityRequest)
| EditReplace (q : ReplaceActivityRequest)
| EditAdd (q : AddActivityRequest).

Definition edit_request (e : edit) : ReplaceCurrentPlanRequest :=
  match e with
  | EditPlan r => r
  | EditReorder q => ro_Edit q
  | EditRemove q => rm_Edit q
  | EditReplace q => ra_Edit q
  | EditAdd q => aa_Edit q
  end.

Definition edit_kind (e : edit) : CommandKind :=
  match e with EditPlan _ => CommandReplaceCurrentPlan | _ => CommandTripEdited end.

(** What the edit does to the list of the trip's activities. *)
Definition order_after (e : edit) (l : list string) : list string :=
  match e with
  | EditPlan _ | EditReplace _ => l
  | EditReorder q => ro_ActivityIDs q
  | EditRemove q => List.filter (fun id => negb (bool_decide (id = rm_ActivityID q))) l
  | EditAdd q => take (Z.to_nat (aa_Ordinal q)) l ++ [ca_ID (aa_Activity q)] ++
                 drop (Z.to_nat (aa_Ordinal q)) l
  end.

Ltac destruct_units := repeat match goal with u : unit |- _ => destruct u end.

Section CanonicalFacts.
Context {PG : Postgres}.

Definition run_edit (clk : nat -> Z) (e : edit) : tx RecordedCommand :=
  match e with
  | EditPlan r => ReplaceCurrentPlan clk r
  | EditReorder q => ReorderActivities clk q
  | EditRemove q => RemoveActivity clk q
  | EditReplace q => ReplaceActivity clk q
  | EditAdd q => AddActivity clk q
  end.

(** ** Ordinals *)

(** The activities of a trip by ordinal, and ordinals that count from zero. *)
Definition itinerary (tripID : string) (d : db) : list string := (activity_rows tripID d).*1.

Definition dense (tripID : string) (d : db) : Prop :=
  forall i kv, activity_rows tripID d !! i = Some kv -> a_ordinal kv.2 = Z.of_nat i.

Lemma elem_of_activity_rows tripID d k a :
  (k, a) ∈ activity_rows tripID d <-> activities d !! k = Some a /\ a_trip_id a = tripID.
Proof.
  unfold activity_rows. rewrite merge_sort_Permutation, elem_of_rows_where.
  by rewrite bool_decide_eq_true.
Qed.

Lemma activity_rows_NoDup tripID d : NoDup (itinerary tripID d).
Proof.
  unfold itinerary, activity_rows. rewrite merge_sort_Permutation.
  apply NoDup_fst_filter, NoDup_fst_map_to_list.
Qed.

#[global] Instance ordinal_le_total : Total ordinal_le.
Proof. intros x y. unfold ordinal_le. lia. Qed.
#[global] Instance ordinal_le_transitive : Transitive ordinal_le.
Proof. intros x y z. unfold ordinal_le. lia. Qed.

(** The rows of a trip are the numbered list that holds exactly them. *)
Lemma itinerary_numbered tripID d ids :
  NoDup ids ->
  (forall i k, ids !! i = Some k -> exists a, activities d !! k = Some a /\
     a_trip_id a = tripID /\ a_ordinal a = Z.of_nat i) ->
  (forall k a, activities d !! k = Some a -> a_trip_id a = tripID -> k ∈ ids) ->
  itinerary tripID d = ids /\ dense tripID d.
Proof.
  intros Hnd Hids Hall. apply (rows_numbered (fun kv => a_ordinal kv.2) ordinal_le); [done|done| |].
  - intros i k Hi. destruct (Hids _ _ Hi) as (a & ? & ? & ?). exists a.
    by rewrite bool_decide_eq_true.
  - intros k a Ha Ht%bool_decide_eq_true. by apply (Hall k a).
Qed.

(** ** The statements on the activities *)

(** A statement that leaves every table but the activity tables as it is. *)
Lemma update_ordinal_ok op tripID id n d u d' :
  update_ordinal op tripID id n d = Ok (u, d') ->
  d' = set_activities (activities d') d /\
  (forall k, activities d' !! k =
     if bool_decide (k = id) then
       (fun a => if bool_decide (a_trip_id a = tripID) then set_a_ordinal n a else a)
         <$> activities d !! k
     else activities d !! k).
Proof.
  unfold update_ordinal. intros H.
  destruct (activities d !! id) as [a|] eqn:Ha.
  - case_bool_decide as Ht; [|simplify_eq; split; [by destruct d'|]].
    + case_match; [done|]. simplify_eq. split; [done|]. intros k. simpl.
      case_bool_decide; subst.
      * rewrite lookup_insert_eq, Ha. simpl. by rewrite bool_decide_eq_true_2.
      * by rewrite lookup_insert_ne.
    + intros k. case_bool_decide; [|done]. subst. rewrite Ha. simpl.
      by rewrite bool_decide_eq_false_2.
  - simplify_eq. split; [by destruct d'|]. intros k. case_bool_decide; [|done].
    subst. by rewrite Ha.
Qed.

(** The loop numbers the listed activities of the trip, and only them. *)
Lemma apply_ordinals_ok op tripID n ids d u d' :
  NoDup ids -> apply_ordinals op tripID n ids d = Ok (u, d') ->
  d' = set_activities (activities d') d /\
  (forall i k, ids !! i = Some k -> activities d' !! k =
     (fun a => if bool_decide (a_trip_id a = tripID) then set_a_ordinal (n + Z.of_nat i) a
               else a) <$> activities d !! k) /\
  (forall k, k ∉ ids -> activities d' !! k = activities d !! k).
Proof.
  intros Hnd. revert n d Hnd. induction ids as [|id ids IH]; intros n d Hnd H; simpl in H.
  - unfold mret, tx_ret in H. simplify_eq. by split_and!; [destruct d'| |].
  - apply tx_bind_ok in H as ([] & d1 & Hu & H). apply NoDup_cons in Hnd as [Hn Hnd].
    apply update_ordinal_ok in Hu as [Hd1 Hu].
    apply IH in H as (Hd' & Hi & Ho); [|done]. split_and!.
    + rewrite Hd', Hd1. done.
    + intros [|i] k Hk; simpl in Hk.
      * simplify_eq. rewrite Ho, Hu, bool_decide_eq_true_2 by done. by rewrite Z.add_0_r.
      * rewrite (Hi _ _ Hk), Hu, bool_decide_eq_false_2.
        -- by replace (n + 1 + Z.of_nat i) with (n + Z.of_nat (S i)) by lia.
        -- intros ->. apply Hn. by eapply list_elem_of_lookup_2.
    + intros k Hk. apply not_elem_of_cons in Hk as [Hne Hk].
      by rewrite Ho, Hu, bool_decide_eq_false_2.
Qed.

Lemma stage_ordinals_ok op tripID n d u d' :
  stage_ordinals op tripID n d = Ok (u, d') ->
  d' = set_activities (update_rows (fun _ a => bool_decide (a_trip_id a = tripID))
         (fun a => set_a_ordinal (a_ordinal a + n) a) (activities d)) d.
Proof. unfold stage_ordinals. intros H. case_match; by simplify_eq. Qed.

(** ** What an edit publishes *)

Definition edited_trip (now : Z) (r : ReplaceCurrentPlanRequest) (t : trip) : trip :=
  set_t_updated_at now
    (set_t_current_plan_id (Some (er_PlanID r))
      (set_t_finalized_mutation_sequence (t_next_mutation_sequence t)
        (set_t_next_mutation_sequence (t_next_mutation_sequence t + 1)
          (set_t_trip_revision (t_trip_revision t + 1) t)))).

Definition edit_plan (clk : nat -> Z) (r : ReplaceCurrentPlanRequest) (t : trip) : plan :=
  let createdAt := trunc_ms (clk 0%nat) in
  user_plan (er_TripID r) (er_OwnerUserID r) (t_trip_revision t + 1)
    (edit_payload r t createdAt) createdAt.

Definition edit_intent (clk : nat -> Z) (kind : CommandKind) (r : ReplaceCurrentPlanRequest)
    (t : trip) (command outcome : jsonb) : intent :=
  canonical_intent (er_TripID r) (er_MessageID r) (er_EventID r) (t_next_mutation_sequence t)
    (int64 (er_ExpectedTripRevision r)) kind (to_timestamptz <$> er_CommandExpiresAt r)
    (er_PayloadDigest r) command outcome (t_trip_revision t + 1) (er_PlanID r) SyncPending
    (trunc_ms (clk 0%nat)).

Definition supersede (now : Z) (p : proposal) : proposal :=
  set_p_decided_at (Some now) (set_p_state ProposalSuperseded p).

(** The request was admitted on trip [t] with the activities [current]. *)
Record admitted (r : ReplaceCurrentPlanRequest) (t : trip) (currentPlanID : string)
    (current : list (string * string)) (d : db) : Prop := {
  ad_trip : trips d !! er_TripID r = Some t;
  ad_plan : t_current_plan_id t = Some currentPlanID;
  ad_owner : t_owner_user_id t = er_OwnerUserID r;
  ad_absent : recordedCommandSelect (er_TripID r) (er_MessageID r) d = None;
  ad_revision : 0 <= t_trip_revision t /\ uint64 (t_trip_revision t) = er_ExpectedTripRevision r /\
    t_trip_revision t <> max_int64;
  ad_next : 0 < t_next_mutation_sequence t /\ t_next_mutation_sequence t <> max_int64;
  ad_runtime : any_row (pending_runtime (er_TripID r)) (intents d) = false;
  ad_capacity : count_rows (pending_mirror (er_TripID r)) (intents d)
    < er_MaxPendingCanonicalMirror r;
  ad_current : current =
    (fun kv => (kv.1, a_activity_state kv.2)) <$> activity_rows (er_TripID r) d;
  ad_dense : dense (er_TripID r) d
}.

(** The rows of an edit, given the database [d1] its statements on the
    activities leave. *)
Record published (clk : nat -> Z) (kind : CommandKind) (r : ReplaceCurrentPlanRequest)
    (t : trip) (d1 : db) (c : RecordedCommand) (d' : db) : Prop := {
  pb_trip : trip_check (edited_trip (clk 2%nat) r t) = true;
  pb_plan : plan_insertable (er_PlanID r) (edit_plan clk r t) d1;
  pb_rows : exists command outcome event,
    intent_insertable (er_IntentID r) (edit_intent clk kind r t command outcome)
      (set_trips (<[er_TripID r := edited_trip (clk 2%nat) r t]> (trips d1))
        (set_plans (<[er_PlanID r := edit_plan clk r t]> (plans d1)) d1)) /\
    outbox d1 !! er_OutboxID r = None /\
    (forall k p, outbox d1 !! k = Some p -> o_command_intent_id p <> er_IntentID r) /\
    d' = set_outbox (<[er_OutboxID r := new_outbox clk 3 (er_IntentID r) (er_TripID r)
             (t_next_mutation_sequence t) event]> (outbox d1))
          (set_intents (<[er_IntentID r := edit_intent clk kind r t command outcome]> (intents d1))
            (set_trips (<[er_TripID r := edited_trip (clk 2%nat) r t]> (trips d1))
              (set_plans (<[er_PlanID r := edit_plan clk r t]> (plans d1)) d1)));
  pb_command : c = edited_command kind r t (trunc_ms (clk 0%nat))
}.

Lemma edit_activities_ok r d current d' :
  edit_activities r d = Ok (current, d') ->
  d' = d /\ dense (er_TripID r) d /\
  current = (fun kv => (kv.1, a_activity_state kv.2)) <$> activity_rows (er_TripID r) d.
Proof.
  unfold edit_activities. intros H. inv_tx. split; [done|].
  match goal with H : fold_res _ _ _ = _ |- _ => revert H end.
  set (rows := activity_rows _ d). unfold dense. fold rows.
  assert (Hgen : forall l acc out, fold_res scan_edit_activity l acc = Ok out ->
    (forall i kv, l !! i = Some kv -> a_ordinal kv.2 = zlen acc + Z.of_nat i) /\
    out = acc ++ ((fun kv => (kv.1, a_activity_state kv.2)) <$> l)).
  { induction l as [|x l IH]; intros acc out Hf; simpl in Hf.
    - simplify_eq. split; [done|by rewrite app_nil_r].
    - apply bind_ok in Hf as (acc' & Hx & Hf). unfold scan_edit_activity in Hx. inv_res. zbool.
      apply IH in Hf as [Hord ->]. split.
      + intros [|i] kv Hi; simpl in Hi; [simplify_eq; lia|].
        rewrite (Hord _ _ Hi). rewrite zlen_app. unfold zlen at 2. simpl. lia.
      + by rewrite fmap_cons, <- app_assoc. }
  intros Hf. apply Hgen in Hf as [Hord ->]. split; [|done].
  intros i kv Hi. by rewrite (Hord _ _ Hi).
Qed.

Lemma edit_admission_ok r t d u d' :
  edit_admission r t d = Ok (u, d') ->
  d' = d /\ (0 <= t_trip_revision t /\ uint64 (t_trip_revision t) = er_ExpectedTripRevision r /\
    t_trip_revision t <> max_int64) /\
  (0 < t_next_mutation_sequence t /\ t_next_mutation_sequence t <> max_int64) /\
  any_row (pending_runtime (er_TripID r)) (intents d) = false /\
  count_rows (pending_mirror (er_TripID r)) (intents d) < er_MaxPendingCanonicalMirror r.
Proof.
  unfold edit_admission. intros H. inv_tx. zbool. split_and!; try done.
  by apply count_rows_zero.
Qed.

Lemma scanRecordedCommand_flag row b c digest alg :
  scanRecordedCommand row b = Ok (c, digest, alg) -> rc_Duplicate c = b.
Proof. unfold scanRecordedCommand. destruct row as [[id i] ob]. intros H. by inv_res. Qed.

(** A successful edit is the answer to a repeated message or an admitted one. *)
Lemma canonical_edit_ok what kind r body d c d' :
  canonical_edit what kind r body d = Ok (c, d') ->
  (d' = d /\ rc_Duplicate c = true) \/
  (exists t currentPlanID current, admitted r t currentPlanID current d /\
     body t currentPlanID current d = Ok (c, d')).
Proof.
  unfold canonical_edit, lock_edit_trip, scan_current_plan. intros H. inv_tx.
  destruct (recordedCommandSelect _ _ _) as [row|] eqn:Hsel.
  - left. unfold edit_duplicate in *. inv_tx. split; [done|].
    by eapply scanRecordedCommand_flag.
  - right. inv_tx.
    match goal with H : edit_admission _ _ _ = _ |- _ =>
      apply edit_admission_ok in H as (-> & ? & ? & ? & ?) end.
    match goal with H : edit_activities _ _ = _ |- _ =>
      apply edit_activities_ok in H as (-> & ? & Hcur) end.
    do 3 eexists. split; [|done]. by constructor.
Qed.

Lemma publish_edit_ok what kind clk r t event d c d' :
  trips d !! er_TripID r = Some t ->
  publish_edit what kind clk r t (trunc_ms (clk 0%nat)) event d = Ok (c, d') ->
  published clk kind r t d c d'.
Proof.
  unfold publish_edit. intros Ht H. inv_tx.
  match goal with H : insert_plan _ _ _ _ = _ |- _ =>
    apply insert_plan_ok in H as [Hplan ->] end.
  match goal with H : update_trip _ _ _ _ = _ |- _ =>
    apply (update_trip_ok _ _ _ _ _ _ _ (Ht : trips (set_plans _ d) !! _ = Some t)) in H
      as [? ->] end.
  match goal with H : insert_intent _ _ _ _ = _ |- _ =>
    apply insert_intent_ok in H as [Hi ->] end.
  match goal with H : insert_outbox _ _ _ _ = _ |- _ =>
    apply insert_outbox_ok in H as [[Ho _ _ _ _ Hu] ->] end.
  constructor; try done. do 3 eexists. split_and!; [exact Hi|done| |reflexivity].
  intros k p Hk. by destruct (Hu _ _ Hk).
Qed.

(** The activities the published plan must cover, with their states. *)
Definition edit_states (e : edit) (current : list (string * string)) : gmap string string :=
  match e with
  | EditPlan _ | EditReorder _ => activityStates current
  | EditRemove q => activityStates
      (List.filter (fun x => negb (bool_decide (x.1 = rm_ActivityID q))) current)
  | EditReplace q =>
      <[ca_ID (ra_Activity q) := ca_ActivityState (ra_Activity q)]> (activityStates current)
  | EditAdd q =>
      <[ca_ID (aa_Activity q) := ca_ActivityState (aa_Activity q)]> (activityStates current)
  end.

(** The statements of the edit on the activity tables. *)
Definition edit_statements (e : edit) (current : list (string * string)) : tx unit :=
  let tripID := er_TripID (edit_request e) in
  match e with
  | EditPlan _ => mret tt
  | EditReorder q =>
      _ ← stage_ordinals "stage trip-edit ordinals" tripID (zlen current);
      apply_ordinals "apply trip-edit ordinal" tripID 0 (ro_ActivityIDs q)
  | EditRemove q =>
      _ ← stage_ordinals "stage remove-activity ordinals" tripID (zlen current);
      _ ← delete_activity tripID (rm_ActivityID q);
      apply_ordinals "apply remove-activity ordinal" tripID 0 (order_after e current.*1)
  | EditReplace q =>
      _ ← replace_activity_row tripID (ra_Activity q);
      _ ← modify (fun d => set_windows (delete_rows (fun k w =>
            bool_decide (w_trip_id w = tripID) &&
            bool_decide (k.1 = ca_ID (ra_Activity q))) (windows d)) d);
      insert_windows "insert replace-activity window" tripID (ca_ID (ra_Activity q)) 0
        (stored_windows (ra_Activity q))
  | EditAdd q =>
      _ ← stage_ordinals "stage add-activity ordinals" tripID (zlen current + 1);
      _ ← insert_draft "add-activity" tripID (2 * zlen current + 1) (aa_Activity q);
      apply_ordinals "apply add-activity ordinal" tripID 0 (order_after e current.*1)
  end.

(** What the edit requires of the activities it names. *)
Definition edit_target (e : edit) (current : list (string * string)) : Prop :=
  match e with
  | EditPlan _ => True
  | EditReorder q => NoDup (ro_ActivityIDs q) /\ zlen current = zlen (ro_ActivityIDs q) /\
      forall id, id ∈ ro_ActivityIDs q -> id ∈ current.*1
  | EditRemove q => rm_ActivityID q ∈ current.*1
  | EditReplace q => ca_ID (ra_Activity q) ∈ current.*1
  | EditAdd q => ca_ID (aa_Activity q) ∉ current.*1 /\ aa_Ordinal q <= zlen current /\
      zlen current < 64
  end.

(** A new edit: admitted, its plan covering the activities it leaves, its
    statements run and its rows published. *)
Record edited (clk : nat -> Z) (e : edit) (t : trip) (currentPlanID : string)
    (current : list (string * string)) (d1 d : db) (c : RecordedCommand) (d' : db) : Prop := {
  ed_admitted : admitted (edit_request e) t currentPlanID current d;
  ed_target : edit_target e current;
  ed_covered : validateReplacementPlan (er_PlanSegments (edit_request e)) (edit_states e current)
    = Ok tt;
  ed_statements : edit_statements e current
    (set_proposals (update_rows (pending_of (er_TripID (edit_request e)))
       (supersede (clk 1%nat)) (proposals d)) d) = Ok (tt, d1);
  ed_published : published clk (edit_kind e) (edit_request e) t d1 c d'
}.

Lemma set_activities_frame d l : canonical_frame d (set_activities l d).
Proof. by constructor. Qed.

Lemma stage_ordinals_frame op tripID n d u d' :
  stage_ordinals op tripID n d = Ok (u, d') -> canonical_frame d d'.
Proof. intros ->%stage_ordinals_ok. apply set_activities_frame. Qed.

Lemma apply_ordinals_frame op tripID n ids d u d' :
  apply_ordinals op tripID n ids d = Ok (u, d') -> canonical_frame d d'.
Proof.
  revert n d. induction ids as [|id ids IH]; intros n d H; simpl in H.
  - unfold mret, tx_ret in H. simplify_eq. apply canonical_frame_refl.
  - apply tx_bind_ok in H as ([] & d1 & Hu & H). apply update_ordinal_ok in Hu as [Hd1 _].
    eapply canonical_frame_trans; [|by eapply IH]. rewrite Hd1. apply set_activities_frame.
Qed.

Lemma insert_draft_ok what tripID n a d u d' :
  insert_draft what tripID n a d = Ok (u, d') ->
  exists row d1, activity_row ("insert " +:+ what +:+ " activity") tripID n a = Ok row /\
    activities d !! ca_ID a = None /\ activity_check row = true /\
    d1 = set_activities (<[ca_ID a := row]> (activities d)) d /\
    insert_windows ("insert " +:+ what +:+ " window") tripID (ca_ID a) 0 (stored_windows a) d1
      = Ok (u, d').
Proof.
  unfold insert_draft, insert_activity. intros H. inv_tx. case_match eqn:E; simplify_eq.
  inv_res. do 2 eexists. split_and!; try done. by apply eq_None_not_Some.
Qed.

Lemma insert_draft_frame what tripID n a d u d' :
  insert_draft what tripID n a d = Ok (u, d') -> canonical_frame d d'.
Proof.
  intros (row & d1 & _ & _ & _ & -> & H)%insert_draft_ok.
  apply insert_windows_ok in H as (Hf & _).
  eapply canonical_frame_trans; [|exact Hf]. apply set_activities_frame.
Qed.

Lemma replace_activity_row_ok tripID a d u d' :
  replace_activity_row tripID a d = Ok (u, d') ->
  d' = d \/ exists old row, activities d !! ca_ID a = Some old /\ a_trip_id old = tripID /\
    activity_row "apply replace-activity activity" tripID (a_ordinal old) a = Ok row /\
    activity_check row = true /\ d' = set_activities (<[ca_ID a := row]> (activities d)) d.
Proof.
  unfold replace_activity_row. intros H. inv_tx.
  destruct (activities d !! ca_ID a) as [old|] eqn:Ho; simpl in *; [|by inv_tx; left].
  case_bool_decide; inv_tx; [|by left]. right. do 2 eexists. by split_and!.
Qed.

Lemma edit_statements_frame e current d u d' :
  edit_statements e current d = Ok (u, d') -> canonical_frame d d'.
Proof.
  intros H. destruct e; simpl in H; unfold delete_activity in H; inv_tx;
    repeat match goal with
    | H : stage_ordinals _ _ _ _ = _ |- _ => apply stage_ordinals_frame in H
    | H : apply_ordinals _ _ _ _ _ = _ |- _ => apply apply_ordinals_frame in H
    | H : insert_draft _ _ _ _ _ = _ |- _ => apply insert_draft_frame in H
    | H : insert_windows _ _ _ _ _ _ = _ |- _ => apply insert_windows_ok in H as [H _]
    | H : replace_activity_row _ _ _ = _ |- _ =>
        apply replace_activity_row_ok in H as [->|(? & ? & _ & _ & _ & _ & ->)]
    | H : canonical_frame _ _ |- _ => destruct H
    end; constructor; simpl in *; congruence.
Qed.

Lemma activityStates_None l id : activityStates l !! id = None <-> id ∉ l.*1.
Proof. unfold activityStates. by rewrite not_elem_of_list_to_map. Qed.

Lemma activityStates_known l id : is_null (activityStates l !! id) = false <-> id ∈ l.*1.
Proof.
  destruct (activityStates l !! id) eqn:E; simpl.
  - split; [|done]. intros _. destruct (decide (id ∈ l.*1)) as [|Hn]; [done|].
    apply activityStates_None in Hn. congruence.
  - apply activityStates_None in E. done.
Qed.

Lemma reorder_ids_NoDup ids seen out :
  fold_res reorder_id ids seen = Ok out ->
  NoDup ids /\ forall id, id ∈ ids -> id ∉ seen.
Proof.
  revert seen. induction ids as [|x ids IH]; intros seen H; simpl in H.
  - split; [constructor|]. intros id Hid. by apply not_elem_of_nil in Hid.
  - apply bind_ok in H as (seen' & Hx & H). unfold reorder_id in Hx. inv_res.
    apply IH in H as [Hnd Hn]. split.
    + constructor; [|done]. intros Hx. apply (Hn _ Hx). set_solver.
    + intros id [->|Hid]%elem_of_cons; [done|]. specialize (Hn _ Hid). set_solver.
Qed.

Lemma reorder_covers_known states prev ids :
  reorder_covers states prev ids = Ok tt ->
  forall id, id ∈ ids -> is_null (states !! id) = false.
Proof.
  revert prev. induction ids as [|x ids IH]; intros prev H id Hid; simpl in H.
  - by apply not_elem_of_nil in Hid.
  - inv_res. apply elem_of_cons in Hid as [->|Hid]; [done|by eapply IH].
Qed.

Lemma ordinal_of_known id n l o : ordinal_of id n l = Some o -> id ∈ l.*1.
Proof.
  revert n. induction l as [|x l IH]; intros n H; simpl in H; [done|].
  case_bool_decide; [subst; left|right; by eapply IH].
Qed.

Lemma filter_fst {A} (P : string -> bool) (l : list (string * A)) :
  (List.filter (fun x => P x.1) l).*1 = List.filter P l.*1.
Proof.
  induction l as [|x l IH]; [done|]. simpl. destruct (P x.1); [|done].
  by rewrite fmap_cons, IH.
Qed.

Lemma trip_edit_ok what clk r t currentPlanID states apply d c d' :
  trips d !! er_TripID r = Some t ->
  (forall d0 u d1, apply d0 = Ok (u, d1) -> canonical_frame d0 d1) ->
  trip_edit what clk r t currentPlanID states apply d = Ok (c, d') ->
  validateReplacementPlan (er_PlanSegments r) states = Ok tt /\
  exists d1, apply (set_proposals (update_rows (pending_of (er_TripID r))
      (supersede (clk 1%nat)) (proposals d)) d) = Ok (tt, d1) /\
    published clk CommandTripEdited r t d1 c d'.
Proof.
  unfold trip_edit, lock_current_plan, supersede_pending. intros Ht Hf H. inv_tx.
  match goal with H : update_proposals _ _ _ _ = _ |- _ =>
    apply update_proposals_ok in H as [_ ->] end.
  destruct_units. split; [done|].
  match goal with H : apply _ = Ok (_, ?d1) |- _ =>
    pose proof (Hf _ _ _ H) as Hfr; exists d1; split; [done|] end.
  eapply publish_edit_ok; [|done]. by rewrite (cfr_trips _ _ Hfr).
Qed.

(** Every successful edit repeats a recorded message or is a new edit. *)
Lemma run_edit_ok clk e d c d' :
  run_edit clk e d = Ok (c, d') ->
  (d' = d /\ rc_Duplicate c = true) \/
  (exists t currentPlanID current d1, edited clk e t currentPlanID current d1 d c d').
Proof.
  destruct e as [r|q|q|q|q]; simpl; intros H.
  all: unfold ReplaceCurrentPlan, ReorderActivities, RemoveActivity, ReplaceActivity,
    AddActivity in H; apply tx_bind_ok in H as ([] & d0 & Hv & H);
    apply lift_ok in Hv as [Hv ->];
    apply canonical_edit_ok in H as [?|(t & cp & current & Had & H)]; [by left|right];
    pose proof (ad_trip _ _ _ _ _ Had) as Ht.
  - unfold lock_current_plan, supersede_pending in H. inv_tx. destruct_units.
    match goal with H : update_proposals _ _ _ _ = _ |- _ =>
      apply update_proposals_ok in H as [_ ->] end.
    match goal with H : publish_edit _ _ _ _ _ _ _ _ = _ |- _ =>
      eapply publish_edit_ok in H; [|exact Ht] end.
    do 4 eexists. by constructor.
  - inv_tx. destruct_units. unfold validateReorderActivitiesRequest in Hv. inv_res. zbool.
    match goal with H : trip_edit _ _ _ _ _ _ _ _ = _ |- _ =>
      apply trip_edit_ok in H as (? & d1 & ? & ?);
        [|done|apply (edit_statements_frame (EditReorder q) current)] end.
    do 4 eexists. constructor; try done. split_and!; [by eapply reorder_ids_NoDup|done|].
    intros id Hid. apply activityStates_known. by eapply reorder_covers_known.
  - pose proof (filter_fst (fun id => negb (bool_decide (id = rm_ActivityID q))) current) as Hff.
    cbv beta in Hff. rewrite Hff in H. inv_tx. destruct_units.
    match goal with H : trip_edit _ _ _ _ _ _ _ _ = _ |- _ =>
      apply trip_edit_ok in H as (? & d1 & ? & ?);
        [|done|apply (edit_statements_frame (EditRemove q) current)] end.
    do 4 eexists. constructor; try done. by apply activityStates_known.
  - inv_tx. destruct_units.
    match goal with H : trip_edit _ _ _ _ _ _ _ _ = _ |- _ =>
      apply trip_edit_ok in H as (? & d1 & ? & ?);
        [|done|apply (edit_statements_frame (EditReplace q) current)] end.
    do 4 eexists. constructor; try done. by eapply ordinal_of_known.
  - inv_tx. destruct_units. zbool.
    match goal with H : trip_edit _ _ _ _ _ _ _ _ = _ |- _ =>
      apply trip_edit_ok in H as (? & d1 & ? & ?);
        [|done|apply (edit_statements_frame (EditAdd q) current)] end.
    do 4 eexists. constructor; try done. split_and!; [|done..].
    rewrite <- activityStates_known. by intros ?; congruence.
Qed.

(** ** The itinerary after an edit *)

(** The trips other than [tripID] keep their activities. *)
Definition others_kept (tripID : string) (d d' : db) : Prop :=
  forall k a, a_trip_id a <> tripID ->
    activities d' !! k = Some a <-> activities d !! k = Some a.

Lemma others_kept_trans tripID d d1 d2 :
  others_kept tripID d d1 -> others_kept tripID d1 d2 -> others_kept tripID d d2.
Proof. intros H1 H2 k a Ha. rewrite (H2 k a Ha). by apply H1. Qed.

Lemma elem_of_itinerary tripID d k :
  k ∈ itinerary tripID d <-> exists a, activities d !! k = Some a /\ a_trip_id a = tripID.
Proof.
  unfold itinerary. rewrite list_elem_of_fmap. split.
  - intros ([k' a] & -> & Hin%elem_of_activity_rows). eauto.
  - intros (a & Ha). exists (k, a). split; [done|]. by apply elem_of_activity_rows.
Qed.

(** The numbering loop over the trip's activities leaves them in that order. *)
Lemma apply_ordinals_itinerary op tripID ids d u d' :
  NoDup ids -> (forall k, k ∈ ids <-> k ∈ itinerary tripID d) ->
  apply_ordinals op tripID 0 ids d = Ok (u, d') ->
  (itinerary tripID d' = ids /\ dense tripID d') /\ others_kept tripID d d'.
Proof.
  intros Hnd Hids H. apply apply_ordinals_ok in H as (_ & Hi & Ho); [|done]. split.
  - apply itinerary_numbered; [done| |].
    + intros i k Hk. rewrite (Hi _ _ Hk).
      assert (Hin : k ∈ ids) by (by eapply list_elem_of_lookup_2).
      apply Hids, elem_of_itinerary in Hin as (a & -> & Ht). simpl.
      rewrite bool_decide_eq_true_2 by done. eexists. split; [done|]. split; [done|]. simpl. lia.
    + intros k a Ha Ht. destruct (decide (k ∈ ids)) as [|Hn]; [done|].
      rewrite Ho in Ha by done. apply Hids, elem_of_itinerary. eauto.
  - intros k a Ha. destruct (decide (k ∈ ids)) as [Hin|Hn]; [|by rewrite Ho].
    apply list_elem_of_lookup in Hin as Hk. destruct Hk as [i Hk]. rewrite (Hi _ _ Hk).
    apply Hids, elem_of_itinerary in Hin as (b & -> & Ht). simpl.
    rewrite bool_decide_eq_true_2 by done. split; intros [= <-]; done.
Qed.

Lemma stage_ordinals_itinerary op tripID n d u d' :
  stage_ordinals op tripID n d = Ok (u, d') ->
  (forall k, k ∈ itinerary tripID d' <-> k ∈ itinerary tripID d) /\ others_kept tripID d d'.
Proof.
  intros ->%stage_ordinals_ok. split.
  - intros k. rewrite !elem_of_itinerary. simpl. setoid_rewrite lookup_update_rows_Some.
    split.
    + intros (a & (b & Hb & ->) & Ht). exists b. split; [done|]. by case_bool_decide.
    + intros (a & Ha & Ht). eexists. split; [exists a; split; [done|reflexivity]|].
      by rewrite bool_decide_eq_true_2.
  - intros k a Ha. simpl. rewrite lookup_update_rows_Some. split.
    + intros (b & Hb & ->). by case_bool_decide.
    + intros Hk. exists a. split; [done|]. by rewrite bool_decide_eq_false_2.
Qed.

Lemma activity_row_ok op tripID n a row :
  activity_row op tripID n a = Ok row ->
  a_trip_id row = tripID /\ a_ordinal row = n /\ a_activity_state row = ca_ActivityState a.
Proof. unfold activity_row. intros H. by inv_res. Qed.

(** Writing one row of the trip. *)
Lemma insert_activity_itinerary tripID id row d :
  a_trip_id row = tripID ->
  (forall old, activities d !! id = Some old -> a_trip_id old = tripID) ->
  (forall k, k ∈ itinerary tripID (set_activities (<[id := row]> (activities d)) d) <->
     k = id \/ k ∈ itinerary tripID d) /\
  others_kept tripID d (set_activities (<[id := row]> (activities d)) d).
Proof.
  intros Hrow Hold. split.
  - intros k. rewrite !elem_of_itinerary. simpl. setoid_rewrite lookup_insert_Some. split.
    + intros (a & [[? ?]|[? Ha]] & Ht); eauto.
    + intros [->|(a & Ha & Ht)]; [eauto|].
      destruct (decide (k = id)) as [->|]; eauto 10.
  - intros k a Ha. simpl. rewrite lookup_insert_Some. split.
    + intros [[? ?]|[? ?]]; [by simplify_eq|done].
    + intros Hk. right. split; [|done]. intros ->. by apply Ha, (Hold _ Hk).
Qed.

Lemma itinerary_activities tripID d d' :
  activities d' = activities d -> itinerary tripID d' = itinerary tripID d.
Proof. intros H. unfold itinerary, activity_rows. by rewrite H. Qed.

Lemma dense_activities tripID d d' :
  activities d' = activities d -> dense tripID d -> dense tripID d'.
Proof. intros H. unfold dense, activity_rows. by rewrite H. Qed.

(** The identifiers of a valid reorder are the trip's. *)
Lemma reorder_ids_exact ids (l : list string) :
  NoDup ids -> zlen l = zlen ids -> (forall id, id ∈ ids -> id ∈ l) ->
  forall k, k ∈ ids <-> k ∈ l.
Proof.
  intros Hnd Hlen Hin k. split; [by apply Hin|].
  assert (Hp : ids ≡ₚ l).
  { apply submseteq_length_Permutation; [by apply NoDup_submseteq|].
    unfold zlen in Hlen. lia. }
  by rewrite Hp.
Qed.

Lemma elem_of_filter_ne id (l : list string) k :
  k ∈ List.filter (fun x => negb (bool_decide (x = id))) l <-> k ∈ l /\ k <> id.
Proof.
  rewrite !list_elem_of_In, filter_In, negb_true_iff, bool_decide_eq_false. done.
Qed.

Lemma NoDup_filter_ne id (l : list string) :
  NoDup l -> NoDup (List.filter (fun x => negb (bool_decide (x = id))) l).
Proof. intros H. by apply NoDup_ListNoDup, List.NoDup_filter, NoDup_ListNoDup. Qed.

Lemma delete_activity_itinerary tripID id d u d' :
  delete_activity tripID id d = Ok (u, d') ->
  (forall k, k ∈ itinerary tripID d' <-> k ∈ itinerary tripID d /\ k <> id) /\
  others_kept tripID d d'.
Proof.
  unfold delete_activity. intros H. inv_tx. split.
  - intros k. rewrite !elem_of_itinerary. simpl. setoid_rewrite lookup_delete_rows_Some. split.
    + intros (a & (Ha & Hd) & Ht). split; [eauto|]. intros ->.
      by rewrite !bool_decide_eq_true_2 in Hd.
    + intros ((a & Ha & Ht) & Hne). exists a. split; [|done]. split; [done|].
      rewrite (bool_decide_eq_false_2 (k = id)) by done. by rewrite andb_false_r.
  - intros k a Ha. simpl. rewrite lookup_delete_rows_Some. split; [by intros [? _]|].
    intros Hk. split; [done|]. by rewrite bool_decide_eq_false_2.
Qed.

(** Inserting at a position keeps a list without duplicates. *)
Lemma insert_at_NoDup n x (l : list string) :
  NoDup l -> x ∉ l -> NoDup (take n l ++ [x] ++ drop n l) /\
  forall k, k ∈ take n l ++ [x] ++ drop n l <-> k = x \/ k ∈ l.
Proof.
  intros Hnd Hx.
  assert (Hp : take n l ++ [x] ++ drop n l ≡ₚ x :: l)
    by (rewrite <- (take_drop n l) at 3; simpl; by rewrite Permutation_middle).
  split; [by rewrite Hp; constructor|]. intros k. rewrite Hp. apply elem_of_cons.
Qed.

Lemma current_ids r t p current d :
  admitted r t p current d -> current.*1 = itinerary (er_TripID r) d.
Proof.
  intros [_ _ _ _ _ _ _ _ -> _]. unfold itinerary.
  rewrite <- list_fmap_compose. by apply list_fmap_ext.
Qed.

(** What an edit's statements do to the itinerary of trip [tripID]. *)
Definition itinerary_edited (e : edit) (d d' : db) : Prop :=
  let tripID := er_TripID (edit_request e) in
  (itinerary tripID d' = order_after e (itinerary tripID d) /\ dense tripID d') /\
  others_kept tripID d d'.

Lemma reorder_itinerary q current d u d' :
  current.*1 = itinerary (er_TripID (ro_Edit q)) d -> edit_target (EditReorder q) current ->
  edit_statements (EditReorder q) current d = Ok (u, d') -> itinerary_edited (EditReorder q) d d'.
Proof.
  intros Hids (Hnd & Hlen & Hin) H. simpl in H. apply tx_bind_ok in H as ([] & d1 & Hst & H).
  apply stage_ordinals_itinerary in Hst as [Hst Hk1].
  apply apply_ordinals_itinerary in H as [Hit Hk2]; [|done|].
  - split; [exact Hit|by eapply others_kept_trans].
  - intros k. simpl. rewrite Hst, <- Hids. apply reorder_ids_exact; [done| |done].
    rewrite <- Hlen. unfold zlen. by rewrite length_fmap.
Qed.

Lemma remove_itinerary q current d u d' :
  current.*1 = itinerary (er_TripID (rm_Edit q)) d ->
  edit_statements (EditRemove q) current d = Ok (u, d') -> itinerary_edited (EditRemove q) d d'.
Proof.
  intros Hids H. cbn [edit_statements edit_request] in H.
  apply tx_bind_ok in H as ([] & d1 & Hst & H). apply tx_bind_ok in H as ([] & d2 & Hdel & H).
  apply stage_ordinals_itinerary in Hst as [Hst Hk1].
  apply delete_activity_itinerary in Hdel as [Hdel Hk2].
  rewrite Hids in H. apply apply_ordinals_itinerary in H as [Hit Hk3].
  - split; [exact Hit|]. eapply others_kept_trans; [|done]. by eapply others_kept_trans.
  - apply NoDup_filter_ne, activity_rows_NoDup.
  - intros k. cbn [order_after]. rewrite elem_of_filter_ne, Hdel. by rewrite Hst.
Qed.

Lemma replace_itinerary q current d u d' :
  dense (er_TripID (ra_Edit q)) d -> current.*1 = itinerary (er_TripID (ra_Edit q)) d ->
  edit_statements (EditReplace q) current d = Ok (u, d') -> itinerary_edited (EditReplace q) d d'.
Proof.
  intros Hd Hids H. simpl in H. apply tx_bind_ok in H as ([] & d1 & Hr & H). inv_tx.
  match goal with H : insert_windows _ _ _ _ _ _ = _ |- _ =>
    apply insert_windows_ok in H as (_ & Ha & _) end. simpl in Ha.
  set (tripID := er_TripID (ra_Edit q)) in *.
  assert (Hgoal : (itinerary tripID d1 = itinerary tripID d /\ dense tripID d1) /\
    others_kept tripID d d1).
  { apply replace_activity_row_ok in Hr as [->|(old & row & Ho & Ht & Hrow & _ & ->)]; [done|].
    apply activity_row_ok in Hrow as (Htr & Hor & _).
    destruct (insert_activity_itinerary tripID (ca_ID (ra_Activity q)) row d) as [Hin Hk];
      [done|by intros b Hb; rewrite Ho in Hb; simplify_eq|].
    split; [|done]. apply itinerary_numbered; [apply activity_rows_NoDup| |].
    - intros i k Hi. unfold itinerary in Hi. apply list_lookup_fmap_Some in Hi as ([k' a] & -> & Hi).
      pose proof (Hd _ _ Hi) as Hn. simpl in *. apply list_elem_of_lookup_2, elem_of_activity_rows in Hi.
      destruct Hi as [Hi Hti]. destruct (decide (k' = ca_ID (ra_Activity q))) as [->|Hne].
      + exists row. rewrite lookup_insert_eq. rewrite Ho in Hi. simplify_eq. by rewrite Hor.
      + exists a. by rewrite lookup_insert_ne.
    - intros k a Hka Hta. assert (Hi : k ∈ itinerary tripID (set_activities
        (<[ca_ID (ra_Activity q) := row]> (activities d)) d)) by (apply elem_of_itinerary; eauto).
      apply Hin in Hi as [->|?]; [|done]. apply elem_of_itinerary. eauto. }
  destruct Hgoal as [[Hit Hde] Hk]. unfold itinerary_edited. cbn [edit_request order_after].
  fold tripID. split.
  - split; [by rewrite (itinerary_activities tripID d1 d' Ha)|by eapply dense_activities].
  - intros k a. simpl. rewrite Ha. apply Hk.
Qed.

Lemma add_itinerary q current d u d' :
  current.*1 = itinerary (er_TripID (aa_Edit q)) d -> edit_target (EditAdd q) current ->
  edit_statements (EditAdd q) current d = Ok (u, d') -> itinerary_edited (EditAdd q) d d'.
Proof.
  intros Hids (Hnew & _) H. cbn [edit_statements edit_request] in H. rewrite Hids in *.
  apply tx_bind_ok in H as ([] & d1 & Hst & H). apply tx_bind_ok in H as ([] & d3 & Hins & H).
  apply stage_ordinals_itinerary in Hst as [Hst Hk1].
  apply insert_draft_ok in Hins as (row & d2 & Hrow & Hnone & _ & Hd2 & Hw).
  apply activity_row_ok in Hrow as (Htr & _ & _).
  apply insert_windows_ok in Hw as (_ & Ha & _).
  destruct (insert_activity_itinerary (er_TripID (aa_Edit q)) (ca_ID (aa_Activity q)) row d1)
    as [Hin Hk2]; [done|by rewrite Hnone|]. rewrite <- Hd2 in Hin, Hk2.
  destruct (insert_at_NoDup (Z.to_nat (aa_Ordinal q)) (ca_ID (aa_Activity q)) _
    (activity_rows_NoDup (er_TripID (aa_Edit q)) d) Hnew) as [Hnd Hall].
  apply apply_ordinals_itinerary in H as [Hit Hk3]; [|exact Hnd|].
  - split; [exact Hit|]. eapply others_kept_trans; [exact Hk1|].
    intros k a Hne. rewrite (Hk3 _ _ Hne), Ha. by apply Hk2.
  - intros k. rewrite (itinerary_activities _ _ _ Ha), Hin, Hst. apply Hall.
Qed.

(** The itinerary after any new edit. *)
Lemma edited_itinerary clk e t cp current d1 d c d' :
  edited clk e t cp current d1 d c d' -> itinerary_edited e d d'.
Proof.
  intros [Had Htg _ Hst [_ _ Hrows _]]. destruct Hrows as (? & ? & ? & _ & _ & _ & ->).
  pose proof (current_ids _ _ _ _ _ Had) as Hids. pose proof (ad_dense _ _ _ _ _ Had) as Hd.
  set (d0 := set_proposals _ d) in Hst.
  assert (H : itinerary_edited e d0 d1); [|exact H].
  destruct e as [r|q|q|q|q].
  - simpl in Hst. apply mret_ok in Hst as [_ <-]. by split; [|intros k a].
  - by eapply reorder_itinerary.
  - by eapply remove_itinerary.
  - by eapply replace_itinerary.
  - by eapply add_itinerary.
Qed.

(** ** Properties of the edits *)

(** Publication.  A new edit of a trip, whichever of the five it is, was
    made by the owner at the current revision with no runtime command pending
    and the mirror below its capacity; it advances the trip's revision by one,
    takes the next mutation sequence as the finalized one, publishes a fresh
    user-authored plan as the current plan, stores an applied intent waiting to
    be mirrored with its pending outbox row, and leaves no pending proposal on
    the trip.  Other trips, plans, intents and outbox rows are unchanged. *)
Theorem canonical_edit_effect clk e d c d' :
  run_edit clk e d = Ok (c, d') -> rc_Duplicate c = false ->
  let r := edit_request e in
  exists t t' p i o,
    trips d !! er_TripID r = Some t /\ t_owner_user_id t = er_OwnerUserID r /\
    uint64 (t_trip_revision t) = er_ExpectedTripRevision r /\
    any_row (pending_runtime (er_TripID r)) (intents d) = false /\
    count_rows (pending_mirror (er_TripID r)) (intents d) < er_MaxPendingCanonicalMirror r /\
    trips d' = <[er_TripID r := t']> (trips d) /\
    (t_trip_revision t' = t_trip_revision t + 1 /\
     t_finalized_mutation_sequence t' = t_next_mutation_sequence t /\
     t_next_mutation_sequence t' = t_next_mutation_sequence t + 1 /\
     t_current_plan_id t' = Some (er_PlanID r) /\ t_owner_user_id t' = t_owner_user_id t) /\
    plans d !! er_PlanID r = None /\ plans d' = <[er_PlanID r := p]> (plans d) /\
    (pl_trip_id p = er_TripID r /\ pl_origin p = UserAuthored /\
     pl_plan_revision p = t_trip_revision t + 1 /\ pl_checksum p = sha256 (pl_payload p)) /\
    intents d !! er_IntentID r = None /\ intents d' = <[er_IntentID r := i]> (intents d) /\
    (i_trip_id i = er_TripID r /\ i_state i = IntentApplied /\
     i_runtime_sync_state i = SyncPending /\ i_command_kind i = edit_kind e /\
     i_mutation_sequence i = t_next_mutation_sequence t /\
     i_resulting_current_plan_id i = Some (er_PlanID r)) /\
    outbox d !! er_OutboxID r = None /\ outbox d' = <[er_OutboxID r := o]> (outbox d) /\
    (o_command_intent_id o = er_IntentID r /\ o_delivery_state o = DeliveryPending /\
     o_mutation_sequence o = t_next_mutation_sequence t) /\
    any_row (pending_of (er_TripID r)) (proposals d') = false /\
    (forall k q, p_trip_id q <> er_TripID r ->
       proposals d' !! k = Some q <-> proposals d !! k = Some q) /\
    leases d' = leases d.
Proof.
  intros H Hdup r. apply run_edit_ok in H as [[_ ?]|(t & cp & current & d1 & He)]; [congruence|].
  destruct He as [Had _ _ Hst Hpub]. apply edit_statements_frame in Hst as [_ Ht Hp Hq Hi Ho _ Hl].
  destruct Hpub as [_ Hplan (command & outcome & event & Hint & Hout & _ & ->) _]. simpl in *.
  fold r in Had, Hplan, Hint, Hout |- *. destruct Had as [? _ ? _ [? [? _]] _ ? ? _ _].
  rewrite Ht, Hp, Hi, Ho, Hl, Hq in *. exists t. do 4 eexists.
  split_and!; try done.
  - rewrite <- Hp. apply Hplan.
  - rewrite <- Hi. apply Hint.
  - apply any_row_false. intros k q (p & _ & ->)%lookup_update_rows_Some.
    destruct (pending_of _ k p) eqn:E; [|done]. unfold pending_of. simpl.
    apply andb_false_r.
  - intros k q Hne. rewrite lookup_update_rows_Some. unfold pending_of. split.
    + intros (p & Hk & ->). case_bool_decide; [|done]. by destruct (bool_decide (p_state p = _)).
    + intros Hk. exists q. split; [done|]. by rewrite bool_decide_eq_false_2.
Qed.

(** C34: refinement of the itinerary.  On the abstract state of a trip, the list
    of its activities, a reorder installs the requested list, a removal deletes
    one identifier, an addition inserts one at the requested position, and the
    other two edits change nothing; the concrete edit does exactly that, leaves
    the ordinals dense from zero, and keeps the activities of other trips. *)
Theorem edits_refine_itinerary clk e d c d' :
  run_edit clk e d = Ok (c, d') -> rc_Duplicate c = false ->
  let tripID := er_TripID (edit_request e) in
  itinerary tripID d' = order_after e (itinerary tripID d) /\ dense tripID d' /\
  (forall k a, a_trip_id a <> tripID ->
     activities d' !! k = Some a <-> activities d !! k = Some a).
Proof.
  intros H Hdup tripID. apply run_edit_ok in H as [[_ ?]|(t & cp & current & d1 & He)];
    [congruence|].
  apply edited_itinerary in He as [[Hi Hd] Hk]. done.
Qed.

(** ** Repeating an edit *)

Definition edit_validate (e : edit) : result unit :=
  match e with
  | EditPlan r => validateReplaceCurrentPlanRequest r
  | EditReorder q => validateReorderActivitiesRequest q
  | EditRemove q => validateRemoveActivityRequest q
  | EditReplace q => validateReplaceActivityRequest q
  | EditAdd q => validateAddActivityRequest q
  end.

(** Every edit validates its request and runs the common skeleton. *)
Lemma run_edit_skeleton clk e : exists what body,
  run_edit clk e = (_ ← lift (edit_validate e);
                    canonical_edit what (edit_kind e) (edit_request e) body).
Proof. destruct e; eexists _, _; reflexivity. Qed.

Lemma validate_edit_plan ids invalid digest extra r :
  validate_edit ids invalid digest extra r = Ok tt -> validCanonicalUUID (er_PlanID r) = true.
Proof. unfold validate_edit. simpl. intros H. inv_res. done. Qed.

Lemma edit_validate_plan e :
  edit_validate e = Ok tt -> validCanonicalUUID (er_PlanID (edit_request e)) = true.
Proof.
  destruct e; simpl; intros H; [by eapply validate_edit_plan| |by eapply validate_edit_plan|..].
  all: unfold validateReorderActivitiesRequest, validateReplaceActivityRequest,
    validateAddActivityRequest in H; inv_res; destruct_units; by eapply validate_edit_plan.
Qed.

Lemma edited_valid clk e d c d' :
  run_edit clk e d = Ok (c, d') -> edit_validate e = Ok tt.
Proof.
  destruct (run_edit_skeleton clk e) as (what & body & ->). intros H. inv_tx.
  by destruct_units.
Qed.

(** The stored row of a new edit and its scan. *)
Lemma edited_select clk e t cp current d1 d c d' :
  edited clk e t cp current d1 d c d' ->
  exists command outcome,
    intent_check (edit_intent clk (edit_kind e) (edit_request e) t command outcome) = true /\
    recordedCommandSelect (er_TripID (edit_request e)) (er_MessageID (edit_request e)) d' =
    Some (er_IntentID (edit_request e),
          edit_intent clk (edit_kind e) (edit_request e) t command outcome,
          Some (er_OutboxID (edit_request e))).
Proof.
  intros [_ _ _ _ [_ _ (command & outcome & event & Hint & _ & Hout & ->) _]].
  exists command, outcome. split; [apply Hint|]. destruct Hint as [_ _ Huniq _ _].
  apply (recordedCommandSelect_new _ (edit_intent clk (edit_kind e) (edit_request e) t command outcome)
    _ (new_outbox clk 3 (er_IntentID (edit_request e)) (er_TripID (edit_request e))
         (t_next_mutation_sequence t) event) (intents d1) (outbox d1)); try done.
  intros k j Hk Ht. by destruct (Huniq _ _ Hk Ht).
Qed.

Lemma scan_edit_intent `{!PostgresLaws PG} clk kind r t command outcome ob :
  intent_check (edit_intent clk kind r t command outcome) = true ->
  0 <= t_trip_revision t -> validCanonicalUUID (er_PlanID r) = true ->
  exists c, scanRecordedCommand (er_IntentID r, edit_intent clk kind r t command outcome, ob) true
    = Ok (c, er_PayloadDigest r, DigestAlgorithmRFC8785SHA256V1) /\
    rc_Duplicate c = true /\ rc_Kind c = kind /\
    rc_MutationSequence c = uint64 (t_next_mutation_sequence t) /\
    rc_ResultingCurrentPlanID c = Some (er_PlanID r).
Proof.
  intros Hc Hrev Hp. unfold intent_check in Hc. inv_res. zbool.
  assert (Hj : json_Valid (jsonb_out outcome) = true) by apply jsonb_out_valid.
  assert (Hr : (t_trip_revision t + 1 <? 0) = false) by (apply Z.ltb_ge; lia).
  eexists. unfold scanRecordedCommand.
  rewrite (proj2 (Z.leb_gt _ _)), (proj2 (Z.ltb_ge _ _)), bool_decide_eq_true_2 by done.
  cbn -[uint64 int64 json_Valid validCanonicalUUID Z.ltb]. rewrite Hj, Hr, Hp.
  split; [reflexivity|]. by split_and!.
Qed.

(** An edit is applied once: repeating it, at any later time, returns the
    recorded command as a duplicate, with its sequence and plan, and changes
    nothing. *)
Theorem edit_is_idempotent `{!PostgresLaws PG} clk clk' e d c d' :
  run_edit clk e d = Ok (c, d') -> rc_Duplicate c = false ->
  exists c', run_edit clk' e d' = Ok (c', d') /\ rc_Duplicate c' = true /\
    rc_Kind c' = rc_Kind c /\ rc_MutationSequence c' = rc_MutationSequence c /\
    rc_ResultingCurrentPlanID c' = rc_ResultingCurrentPlanID c.
Proof.
  intros H Hdup. pose proof (edited_valid _ _ _ _ _ H) as Hv.
  apply run_edit_ok in H as [[_ ?]|(t & cp & current & d1 & He)]; [congruence|].
  destruct (edited_select _ _ _ _ _ _ _ _ _ He) as (command & outcome & Hc & Hsel).
  destruct (scan_edit_intent clk (edit_kind e) (edit_request e) t command outcome
    (Some (er_OutboxID (edit_request e))) Hc) as (c' & Hscan & ? & Hk & Hs & Hp).
  { apply (ad_revision _ _ _ _ _ (ed_admitted _ _ _ _ _ _ _ _ _ He)). }
  { by apply edit_validate_plan. }
  exists c'. rewrite (pb_command _ _ _ _ _ _ _ (ed_published _ _ _ _ _ _ _ _ _ He)).
  split; [|by split_and!].
  destruct (run_edit_skeleton clk' e) as (what & body & ->).
  assert (Ht : exists t', trips d' !! er_TripID (edit_request e) = Some t' /\
    t_current_plan_id t' = Some (er_PlanID (edit_request e)) /\
    t_owner_user_id t' = er_OwnerUserID (edit_request e)).
  { destruct He as [[_ _ Ho _ _ _ _ _ _ _] _ _ _ [_ _ (? & ? & ? & _ & _ & _ & ->) _]].
    eexists. simpl. by rewrite lookup_insert_eq. }
  destruct Ht as (t' & Ht & Hcur & Hown).
  run_tx_step; [exact Hv|]. unfold canonical_edit, lock_edit_trip, scan_current_plan.
  eapply tx_bind_run.
  { run_tx_step; [exact Ht|]. run_tx_step; [by rewrite Hcur|].
    run_tx_step; [by rewrite bool_decide_eq_true_2|]. reflexivity. }
  cbv beta iota. run_tx_step; [exact (eq_sym Hsel)|]. unfold edit_duplicate.
  run_tx_step; [exact Hscan|]. cbv beta iota. run_tx_step; [|reflexivity].
  unfold constant_time_eq. by rewrite !bool_decide_eq_true_2.
Qed.

End CanonicalFacts.

(** ** Witnesses *)

Definition ex_plan2 : string := "00000000-0000-4000-8000-000000000030".
Definition ex_activity_c : string := "00000000-0000-4000-8000-000000000031".

(** An edit of the example trip with the given plan. *)
Definition ex_edit_request (segments : list CanonicalPlanSegmentDraft)
  : ReplaceCurrentPlanRequest :=
  MkEdit ex_trip ex_user ex_intent ex_outbox ex_message ex_message ex_plan2 1 None 8 segments
    (bytes_of_string "{}") (bytes_of_string "{}") None (sha256 (bytes_of_string "{}"))
    (bytes_of_string "{}").

Definition ex_draft_activity (id state : string) : CanonicalActivity :=
  MkActivity id 0 "place" "name" (S754_zero false) (S754_zero false) "UTC" "walking" "flexible"
    state 0 None 1 1 None 0 None 60 60 60 false false true true
    [MkOpenWindow 0 3600000000000].

Definition ex_reorder : edit :=
  EditReorder (MkReorder (ex_edit_request
    [Draft ex_activity_b true (Some 0) (Some 60); Draft ex_activity_a false None None])
    [ex_activity_b; ex_activity_a]).

Definition ex_reordered : @db pg_model := committed (run_edit ex_clock5 ex_reorder) ex_db.

Lemma ex_reordered_ok : exists c,
  run_edit ex_clock5 ex_reorder ex_db = Ok (c, ex_reordered) /\ rc_Duplicate c = false.
Proof.
  destruct (returns_ok (fun c => negb (rc_Duplicate c)) (run_edit ex_clock5 ex_reorder) ex_db
    ltac:(vm_compute; reflexivity)) as (c & Hc & Hd).
  exists c. split; [exact Hc|by destruct (rc_Duplicate c)].
Qed.

(** The four edits of the itinerary, run on the example trip. *)
Example edits_run :
  map (fun e => option_map (itinerary ex_trip)
         (match run_edit ex_clock5 e ex_db with Ok (_, d) => Some d | Err _ => None end))
    [ex_reorder;
     EditRemove (MkRemove (ex_edit_request [Draft ex_activity_b false None None]) ex_activity_a);
     EditReplace (MkReplaceActivity (ex_edit_request
       [Draft ex_activity_a false None None; Draft ex_activity_b false None None])
       (ex_draft_activity ex_activity_b "planned"));
     EditAdd (MkAdd (ex_edit_request
       [Draft ex_activity_a false None None; Draft ex_activity_b false None None;
        Draft ex_activity_c false None None]) 1 (ex_draft_activity ex_activity_c "planned"))]
  = [Some [ex_activity_b; ex_activity_a]; Some [ex_activity_b];
     Some [ex_activity_a; ex_activity_b]; Some [ex_activity_a; ex_activity_c; ex_activity_b]].
Proof. vm_compute. reflexivity. Qed.

Lemma canonical_edit_effect_witness :
  exists p, plans ex_reordered = <[ex_plan2 := p]> (plans ex_db) /\ pl_plan_revision p = 2.
Proof.
  destruct ex_reordered_ok as (c & Hc & Hd).
  destruct (canonical_edit_effect _ _ _ _ _ Hc Hd) as (t & t' & p & i & o & Ht & H).
  assert (Hr : option_map t_trip_revision (trips ex_db !! ex_trip) = Some 1)
    by (vm_compute; reflexivity).
  change (er_TripID (edit_request ex_reorder)) with ex_trip in Ht. rewrite Ht in Hr.
  injection Hr as Hr. destruct H as (_ & _ & _ & _ & _ & _ & _ & Hp & (_ & _ & Hrev & _) & _).
  exists p. split; [exact Hp|]. rewrite Hrev, Hr. reflexivity.
Defined.

Lemma edits_refine_itinerary_witness :
  itinerary ex_trip ex_reordered = [ex_activity_b; ex_activity_a].
Proof.
  destruct ex_reordered_ok as (c & Hc & Hd).
  exact (proj1 (edits_refine_itinerary _ _ _ _ _ Hc Hd)).
Defined.

Lemma edit_is_idempotent_witness :
  exists c, run_edit (ex_clock 7000) ex_reorder ex_reordered = Ok (c, ex_reordered) /\
    rc_Duplicate c = true.
Proof.
  destruct ex_reordered_ok as (c & Hc & Hd).
  destruct (edit_is_idempotent _ (ex_clock 7000) _ _ _ _ Hc Hd) as (c' & Hc' & Hd' & _).
  exists c'. split; [exact Hc'|exact Hd'].
Defined.
