(* ===== verification/CanonicalLoad.v ===== *)
(** * Loading what was stored

    What the validators of the canonical commands guarantee of a plan draft,
    the published plan read back by [Load], and [CreateTrip] followed by
    [Load]. *)

From S2P Require Import Prelude GoLib Wire WireFacts Schema Tables Leases Commands.
From S2P Require Import Finalization Mutations Proposals CanonicalState Canonical.
From S2P Require Import CanonicalFacts.

(** ** Plan drafts *)

(** The states of the activities a draft names, in its order. *)
Definition draft_states (states : gmap string string) (l : list CanonicalPlanSegmentDraft)
  : list string := omap (fun s => states !! d_ActivityID s) l.

Lemma draft_times_ok fault prior s prior' :
  draft_times fault prior s = Ok prior' -> validCanonicalUUID (d_ActivityID s) = true ->
  segment_wf (wire_of_draft s) /\
  (seg_state (wire_of_draft s) =? 1) = d_Scheduled s /\
  (d_Scheduled s = true -> prior' = seg_end (wire_of_draft s) /\
     forall e start, prior = Some e -> seg_start (wire_of_draft s) = Some start -> e <= start) /\
  (d_Scheduled s = false -> prior' = prior).
Proof.
  unfold draft_times, wire_of_draft, segment_wf. intros H Hid.
  destruct (d_Scheduled s) eqn:Hs; simpl.
  - destruct (d_Start s) as [a|], (d_End s) as [b|]; try done. inv_res. zbool. split_and!; try done.
    + left. split; [done|]. by exists a, b.
    + intros _. split; [done|]. intros e start -> [= ->]. by zbool.
  - inv_res. split_and!; try done. by right.
Qed.

(** An accepted draft: every segment is well formed, the times do not overlap,
    no activity is named twice and all of them are known. *)
Lemma draft_loop_ok fault states index l acc acc' :
  draft_loop fault states index l acc = Ok acc' ->
  Forall segment_wf (wire_of_draft <$> l) /\
  plan_order (dr_seen acc) (dr_previousEnd acc) (wire_of_draft <$> l) = Ok tt /\
  (forall s, s ∈ l -> is_Some (states !! d_ActivityID s)) /\
  dr_seen acc' = list_to_set (d_ActivityID <$> l) ∪ dr_seen acc.
Proof.
  revert index acc. induction l as [|s l IH]; intros index acc H; simpl in H.
  { simplify_eq. split_and!; [constructor|done| |set_solver].
    intros s Hs. by apply not_elem_of_nil in Hs. }
  apply bind_ok in H as ([] & Hid%reject_if_ok & H). apply negb_false_iff in Hid.
  destruct (states !! d_ActivityID s) as [state|] eqn:Hst; [|done].
  apply bind_ok in H as ([] & Hseen%reject_if_ok & H).
  apply bind_ok in H as (prior & Htm & H).
  apply draft_times_ok in Htm as (Hwf & Hsched & Hyes & Hno); [|done].
  assert (Hstep : exists started open, draft_loop fault states (index + 1) l
    (MkDraftAcc ({[d_ActivityID s]} ∪ dr_seen acc) open started prior) = Ok acc').
  { destruct (dr_prefixOpen acc && terminal_state state); [eauto|].
    apply bind_ok in H as ([] & _ & H). case_bool_decide; [|eauto].
    apply bind_ok in H as ([] & _ & H). eauto. }
  destruct Hstep as (started & open & Hstep). apply IH in Hstep as (Hl & Ho & Hk & Hs).
  simpl in Ho, Hs. split_and!.
  - rewrite fmap_cons. by constructor.
  - rewrite fmap_cons. cbn [plan_order]. rewrite wire_of_draft_id, Hseen.
    cbn [mbind res_bind reject_if]. rewrite Hsched. destruct (d_Scheduled s).
    + destruct (Hyes eq_refl) as [-> Hle]. simpl.
      destruct (dr_previousEnd acc) as [e|], (seg_start (wire_of_draft s)) as [a|]; simpl; try done.
      by rewrite (proj2 (Z.ltb_ge _ _)) by (by apply Hle).
    + rewrite (Hno eq_refl) in Ho. simpl. done.
  - intros x [->|Hx]%elem_of_cons; [by rewrite Hst|by apply Hk].
  - rewrite Hs. set_solver.
Qed.

Lemma draft_segments_wf fault states l acc :
  draft_loop fault states 0 l draft_start = Ok acc ->
  segments_wf (wire_of_draft <$> l) /\ NoDup (d_ActivityID <$> l) /\
  (forall s, s ∈ l -> is_Some (states !! d_ActivityID s)) /\
  dr_seen acc = list_to_set (d_ActivityID <$> l).
Proof.
  intros H. apply draft_loop_ok in H as (Hw & Ho & Hk & Hs). simpl in *.
  apply plan_order_wf in Ho; [|done]. split_and!; [done| |done|by rewrite Hs, (right_id_L ∅ (∪))].
  destruct Ho as [_ Hnd _]. rewrite <- list_fmap_compose in Hnd.
  erewrite list_fmap_ext in Hnd; [exact Hnd|]. intros ? x _. apply wire_of_draft_id.
Qed.

(** ** The published plan *)

Section PlanLoad.
Context {PG : Postgres}.

(** The row [Load] reads for a published plan, and the plan in its payload. *)
Definition loaded_plan (planID owner : string) (revision : Z) (payload : bytes) (created : Z)
  : CanonicalCurrentPlan :=
  MkCurrentPlan planID (uint64 revision) UserAuthored owner None 1 payload (sha256 payload)
    (of_timestamptz created).

Lemma trunc_ms_exact t :
  of_timestamptz (trunc_ms t) / Millisecond = unix_milli (trunc_ms t) /\
  of_timestamptz (trunc_ms t) mod Millisecond = 0.
Proof.
  unfold of_timestamptz, trunc_ms, unix_milli, Millisecond.
  replace (t / 1000 * 1000 * 1000) with (t / 1000 * 1000000) by lia.
  rewrite Z.div_mul, Z.div_mul, Z.mod_mul by lia. done.
Qed.

(** The row of a user's plan passes the tests on its metadata; its payload decides. *)
Lemma load_user_row tripID owner planID revision payload created d :
  plans d !! planID = Some (user_plan tripID owner revision payload created) ->
  plan_check (user_plan tripID owner revision payload created) = true ->
  load_plan tripID owner planID d =
  match parseSnapshotCurrentPlan payload with
  | Err _ => corruptCanonicalState "current-plan payload metadata differs"
  | Ok plan =>
      _ ← corrupt_if (negb (bool_decide (pw_planID plan = planID)) ||
                      negb (pw_planRevision plan =? uint64 revision) ||
                      negb (pw_createdAtUnixMS plan =? of_timestamptz created / Millisecond) ||
                      negb (of_timestamptz created mod Millisecond =? 0))
            "current-plan payload metadata differs";
      _ ← corrupt_if (negb (pw_origin plan =? 1) ||
                      negb (optionalStringEqual None (pw_sourceProposalID plan)))
            "current-plan source metadata differs";
      Ok (loaded_plan planID owner revision payload created, plan)
  end.
Proof.
  intros Hrow Hck. unfold plan_check in Hck. inv_res. cbn -[zlen sha256] in *. zbool.
  assert (Hsize : int32 (zlen payload) = zlen payload).
  { apply int32_small. unfold in_integer in *. inv_res. zbool. lia. }
  unfold load_plan. rewrite Hrow. cbn -[zlen sha256 int32 uint64 parseSnapshotCurrentPlan Z.div Z.modulo].
  rewrite (bool_decide_eq_true_2 (tripID = tripID)) by done.
  cbn -[zlen sha256 int32 uint64 parseSnapshotCurrentPlan Z.div Z.modulo].
  rewrite (proj2 (Z.leb_gt _ _)), Hsize, Z.eqb_refl by done.
  rewrite (bool_decide_eq_true_2 (length (sha256 payload) = 32%nat)) by done.
  rewrite (bool_decide_eq_true_2 (owner = owner)) by done.
  cbn -[zlen sha256 int32 uint64 parseSnapshotCurrentPlan Z.div Z.modulo].
  unfold constant_time_eq. rewrite bool_decide_eq_true_2 by done. reflexivity.
Qed.

Lemma load_user_plan tripID owner planID revision now segments d :
  let created := trunc_ms now in
  let payload := userCurrentPlanPayload planID (uint64 revision) (unix_milli created) segments in
  plans d !! planID = Some (user_plan tripID owner revision payload created) ->
  plan_check (user_plan tripID owner revision payload created) = true ->
  validCanonicalUUID planID = true -> revision <= max_int64 ->
  - 2 ^ 63 <= unix_milli created <= max_int64 ->
  Forall draft_int64 segments -> segments_wf (wire_of_draft <$> segments) ->
  load_plan tripID owner planID d =
  Ok (loaded_plan planID owner revision payload created,
      PlanWire planID (uint64 revision) 1 (wire_of_draft <$> segments) (unix_milli created) "").
Proof.
  intros created payload Hrow Hck Hid Hrev Hcr Hi Hwf. rewrite (load_user_row _ _ _ _ _ _ _ Hrow Hck).
  unfold plan_check in Hck. inv_res. cbn -[zlen sha256] in *. zbool.
  assert (Hu : uint64 revision = revision) by (apply uint64_small; unfold max_int64 in *; lia).
  unfold payload at 1. rewrite parseSnapshot_userCurrentPlanPayload; try done;
    [|rewrite Hu; unfold max_int64 in *; lia].
  destruct (trunc_ms_exact now) as [Hd Hm]. fold created in Hd, Hm.
  cbn -[zlen sha256 int32 uint64 Z.div Z.modulo of_timestamptz Millisecond loaded_plan].
  rewrite (bool_decide_eq_true_2 (planID = planID)), Hd, Hm, !Z.eqb_refl by done.
  cbn -[zlen sha256 uint64 of_timestamptz loaded_plan]. reflexivity.
Qed.

(** Whatever the edit, the plan it publishes passes every check [Load]
    makes of the current plan and reads back as the requested segments, at the
    trip's new revision. *)
Theorem edited_plan_loads clk e d c d' :
  run_edit clk e d = Ok (c, d') -> rc_Duplicate c = false ->
  Forall draft_int64 (er_PlanSegments (edit_request e)) ->
  - 2 ^ 63 <= clk 0%nat / 1000 <= max_int64 ->
  let r := edit_request e in
  exists t current, trips d !! er_TripID r = Some t /\
    load_plan (er_TripID r) (er_OwnerUserID r) (er_PlanID r) d' =
    Ok (current, PlanWire (er_PlanID r) (uint64 (t_trip_revision t + 1)) 1
                   (wire_of_draft <$> er_PlanSegments r) (clk 0%nat / 1000) "").
Proof.
  intros H Hdup Hi Hclk r. pose proof (edited_valid _ _ _ _ _ H) as Hv.
  apply run_edit_ok in H as [[_ ?]|(t & cp & current & d1 & He)]; [congruence|].
  destruct He as [Had _ Hcov _ [Htc Hplan (? & ? & ? & _ & _ & _ & ->) _]].
  fold r in Hi, Had, Hcov, Htc, Hplan |- *.
  assert (Hwf : segments_wf (wire_of_draft <$> er_PlanSegments r)).
  { unfold validateReplacementPlan in Hcov. inv_res. by eapply draft_segments_wf. }
  assert (Hum : unix_milli (trunc_ms (clk 0%nat)) = clk 0%nat / 1000)
    by (unfold unix_milli, trunc_ms; by rewrite Z.div_mul by lia).
  exists t. eexists. split; [apply Had|]. rewrite <- Hum.
  eapply (load_user_plan (er_TripID r)).
  - simpl. by rewrite lookup_insert_eq.
  - apply Hplan.
  - by apply edit_validate_plan.
  - unfold trip_check in Htc. inv_res. zbool. cbn -[in_bigint] in *.
    unfold in_bigint in *. inv_res. by zbool.
  - by rewrite Hum.
  - done.
  - done.
Qed.

End PlanLoad.

(** ** The activities of a created trip *)

Section CreateLoad.
Context {PG : Postgres}.

(** The foreign keys of the activity tables. *)
Record foreign_keys (d : db) : Prop := {
  fk_activity : forall k a, activities d !! k = Some a -> is_Some (trips d !! a_trip_id a);
  fk_window : forall k w, windows d !! k = Some w ->
    exists a, activities d !! k.1 = Some a /\ a_trip_id a = w_trip_id w;
  fk_delay : forall k v, travel_delays d !! k = Some v ->
    (exists a, activities d !! k.1.2 = Some a /\ a_trip_id a = k.1.1) /\
    (exists a, activities d !! k.2 = Some a /\ a_trip_id a = k.1.1)
}.

(** A draft as the columns keep it: times to the microsecond. *)
Definition stored_time (t : Z) : Z := of_timestamptz (to_timestamptz t).

Definition stored_window (w : CanonicalOpenWindow) : CanonicalOpenWindow :=
  MkOpenWindow (stored_time (ow_OpensAt w)) (stored_time (ow_ClosesAt w)).

Definition stored_activity (a : CanonicalActivity) : CanonicalActivity :=
  MkActivity (ca_ID a) (ca_Ordinal a) (ca_PlaceID a) (ca_DisplayName a) (ca_Latitude a)
    (ca_Longitude a) (ca_TimeZoneName a) (ca_InboundTravelMode a) (ca_ActivityClass a)
    (ca_ActivityState a) (ca_ActivityDelaySeconds a) (stored_time <$> ca_FoundClosedAt a)
    (ca_PriorityRank a) (ca_UtilityScore a) (stored_time <$> ca_ReservationStart a)
    (ca_ReservationGraceSeconds a) (stored_time <$> ca_MandatoryDeadline a)
    (ca_MinDurationSeconds a) (ca_PreferredDurationSeconds a) (ca_MaxDurationSeconds a)
    (ca_Mandatory a) (ca_CanShorten a) (ca_CanMove a) (ca_CanSkip a)
    (stored_window <$> ca_OpenWindows a).

Definition stored_delay (v : CanonicalTravelDelay) : CanonicalTravelDelay :=
  MkTravelDelay (cd_FromActivityID v) (cd_ToActivityID v) (cd_AdditionalSeconds v)
    (stored_time (cd_ObservedAt v)).

(** The rows the loop over the drafts leaves. *)
Record drafts_stored (tripID : string) (l : list CanonicalActivity) (d d' : db) : Prop := {
  ds_frame : canonical_frame d d';
  ds_delays : travel_delays d' = travel_delays d;
  ds_fresh : forall a, a ∈ l -> activities d !! ca_ID a = None;
  ds_nodup : NoDup (ca_ID <$> l);
  ds_rows : forall a, a ∈ l -> exists row,
    activity_row "insert create-trip activity" tripID (ca_Ordinal a) a = Ok row /\
    activity_check row = true /\ activities d' !! ca_ID a = Some row;
  ds_others : forall k, k ∉ ca_ID <$> l -> activities d' !! k = activities d !! k;
  ds_windows : forall a j w, a ∈ l -> stored_windows a !! j = Some w ->
    windows d' !! (ca_ID a, Z.of_nat j) = Some (OpenWindow tripID w.1 w.2);
  ds_valid : forall a j w, a ∈ l -> stored_windows a !! j = Some w ->
    w.1 < w.2 /\ Z.of_nat j <= max_int32;
  ds_no_window : forall a j, a ∈ l -> j < 0 \/ zlen (stored_windows a) <= j ->
    windows d' !! (ca_ID a, j) = windows d !! (ca_ID a, j);
  ds_other_windows : forall k, k.1 ∉ ca_ID <$> l -> windows d' !! k = windows d !! k
}.

Lemma for_each_drafts tripID l d u d' :
  for_each (fun a => insert_draft "create-trip" tripID (ca_Ordinal a) a) l d = Ok (u, d') ->
  drafts_stored tripID l d d'.
Proof.
  revert d. induction l as [|a l IH]; intros d H; simpl in H.
  { apply mret_ok in H as [_ <-]. constructor; try done; try apply canonical_frame_refl;
      try apply NoDup_nil_2; intros; exfalso; by eapply not_elem_of_nil. }
  apply tx_bind_ok in H as ([] & d2 & Ha & H). apply IH in H as Hrest.
  apply insert_draft_ok in Ha as (row & d1 & Hrow & Hnone & Hck & Hd1 & Hw).
  pose proof (insert_windows_valid _ _ _ _ _ _ _ _ Hw) as Hval.
  apply insert_windows_ok in Hw as (Hf & Hacts & Hdel & Hwin & Hwo).
  assert (Hnew : activities d2 !! ca_ID a = Some row)
    by (rewrite Hacts, Hd1; simpl; by rewrite lookup_insert_eq).
  assert (Hnin : ca_ID a ∉ ca_ID <$> l).
  { intros (b & Hb & Hin)%list_elem_of_fmap. pose proof (ds_fresh _ _ _ _ Hrest _ Hin).
    congruence. }
  assert (Hne : forall k, k <> ca_ID a -> activities d2 !! k = activities d !! k)
    by (intros k Hk; rewrite Hacts, Hd1; simpl; by rewrite lookup_insert_ne).
  assert (Hids : forall b, b ∈ l -> ca_ID b <> ca_ID a)
    by (intros b Hb Heq; apply Hnin; rewrite <- Heq; by apply list_elem_of_fmap_2).
  destruct Hrest as [Hf' Hdel' Hfr Hnd Hrows Hoth Hwins Hvalid Hnow Hothw]. constructor.
  - eapply canonical_frame_trans; [|exact Hf'].
    eapply canonical_frame_trans; [|exact Hf]. rewrite Hd1. apply set_activities_frame.
  - rewrite Hdel', Hdel, Hd1. done.
  - intros b [->|Hb]%elem_of_cons; [done|]. rewrite <- (Hne _ (Hids _ Hb)). by apply Hfr.
  - rewrite fmap_cons. by constructor.
  - intros b [->|Hb]%elem_of_cons; [|by apply Hrows]. exists row. by rewrite Hoth.
  - intros k Hk. rewrite fmap_cons in Hk. apply not_elem_of_cons in Hk as [Hk1 Hk2].
    rewrite Hoth by done. by apply Hne.
  - intros b j w [->|Hb]%elem_of_cons Hj; [|by apply Hwins]. rewrite Hothw by done. by apply Hwin.
  - intros b j w [->|Hb]%elem_of_cons Hj; [by apply Hval|by eapply Hvalid].
  - intros b j [->|Hb]%elem_of_cons Hj.
    + rewrite Hothw by done. rewrite Hwo by (by right). by rewrite Hd1.
    + rewrite Hnow by done. rewrite Hwo by (left; by apply Hids). by rewrite Hd1.
  - intros [k j] Hk. rewrite fmap_cons in Hk. apply not_elem_of_cons in Hk as [Hk1 Hk2].
    rewrite Hothw by done. rewrite Hwo by (by left). by rewrite Hd1.
Qed.

(** What the loop over the drafts checked. *)
Lemma draft_activities_ok n l states states' :
  draft_activities n l states = Ok states' ->
  (forall i a, l !! i = Some a -> validateCanonicalActivityDraft (n + Z.of_nat i) a = Ok tt) /\
  NoDup (ca_ID <$> l) /\
  (forall a, a ∈ l -> states' !! ca_ID a = Some (ca_ActivityState a)) /\
  (forall k, k ∉ ca_ID <$> l -> states' !! k = states !! k) /\
  (forall a, a ∈ l -> states !! ca_ID a = None).
Proof.
  revert n states. induction l as [|a l IH]; intros n states H; simpl in H.
  { simplify_eq. split_and!; try done; [constructor|set_solver..]. }
  apply bind_ok in H as ([] & Hv & H). apply bind_ok in H as ([] & Hn%reject_if_ok & H).
  apply bool_decide_eq_false in Hn. apply eq_None_not_Some in Hn.
  apply IH in H as (Hval & Hnd & Hin & Hout & Hfr).
  assert (Hnin : ca_ID a ∉ ca_ID <$> l).
  { intros (b & Hb & Hbin)%list_elem_of_fmap. specialize (Hfr _ Hbin).
    rewrite <- Hb, lookup_insert_eq in Hfr. done. }
  split_and!.
  - intros [|i] b Hb; simpl in Hb.
    + simplify_eq. by rewrite Z.add_0_r.
    + replace (n + Z.of_nat (S i)) with (n + 1 + Z.of_nat i) by lia. by apply Hval.
  - rewrite fmap_cons. by constructor.
  - intros b [->|Hb]%elem_of_cons; [|by apply Hin]. by rewrite Hout, lookup_insert_eq.
  - intros k Hk. rewrite fmap_cons in Hk. apply not_elem_of_cons in Hk as [? ?].
    by rewrite Hout, lookup_insert_ne.
  - intros b [->|Hb]%elem_of_cons; [done|]. specialize (Hfr _ Hb).
    by apply lookup_insert_None in Hfr as [? _].
Qed.

(** A stored draft passes the checks of [Load] and reads back. *)
Lemma load_stored_draft `{!PostgresLaws PG} op tripID index a row :
  validateCanonicalActivityDraft index a = Ok tt -> 0 <= index < 64 ->
  activity_row op tripID (ca_Ordinal a) a = Ok row -> activity_check row = true ->
  activity_invalid index (ca_ID a) row = false /\
  scan_activity (ca_ID a) row = set_OpenWindows [] (stored_activity a).
Proof.
  intros Hv Hix Hrow Hck. unfold validateCanonicalActivityDraft, validateCanonicalActivity in Hv.
  unfold activity_row in Hrow. inv_res.
  repeat match goal with H : text_in _ = Some _ |- _ => apply text_in_same in H; subst end.
  unfold activity_check, in_integer in Hck. cbn -[Z.ltb Z.leb max_int32] in Hck. inv_res. zbool.
  assert (Hi32 : int32 index = index) by (apply int32_small; unfold max_int32; lia).
  assert (Hord : ca_Ordinal a = index).
  { match goal with H : ca_Ordinal a = _ |- _ => rewrite H end.
    apply uint32_small. unfold max_int32. lia. }
  split.
  - unfold activity_invalid. cbn -[Z.ltb Z.leb int32]. rewrite Hi32.
    repeat match goal with
    | H : ?b = false |- context [?b] => rewrite H
    | H : ?b = true |- context [?b] => rewrite H
    end.
    rewrite Hord, Z.eqb_refl. cbn.
    repeat rewrite (proj2 (Z.ltb_ge _ _)) by lia. cbn.
    repeat rewrite bool_decide_eq_false_2 by done. cbn. done.
  - unfold scan_activity, stored_activity, set_OpenWindows. cbn -[uint32].
    rewrite !uint32_small by lia. unfold nullableTime. rewrite <- !option_fmap_compose. done.
Qed.

(** A draft as it is scanned, before its windows are read. *)
Definition bare_activity (a : CanonicalActivity) : CanonicalActivity :=
  set_OpenWindows [] (stored_activity a).

Lemma fold_load_activity `{!PostgresLaws PG} tripID l0 d d' l rows acc :
  drafts_stored tripID l0 d d' -> (forall a, a ∈ l -> a ∈ l0) ->
  rows.*1 = ca_ID <$> l -> (forall kv, kv ∈ rows -> activities d' !! kv.1 = Some kv.2) ->
  (forall i a, l !! i = Some a -> validateCanonicalActivityDraft (zlen acc + Z.of_nat i) a = Ok tt) ->
  zlen acc + zlen l <= 64 ->
  fold_res load_activity rows acc = Ok (acc ++ (bare_activity <$> l)).
Proof.
  intros Hds. revert rows acc. induction l as [|a l IH]; intros [|[k row] rows] acc Hsub Hk Hin Hv Hlen;
    try done.
  { simpl. by rewrite app_nil_r. }
  rewrite !fmap_cons in Hk. simpl in Hk. injection Hk as -> Hk.
  assert (Hz : zlen (a :: l) = 1 + zlen l) by (unfold zlen; simpl; lia).
  destruct (ds_rows _ _ _ _ Hds a) as (row' & Hrow & Hck & Hlk); [apply Hsub; left|].
  assert (row' = row) as ->.
  { specialize (Hin (ca_ID a, row) ltac:(left)). simpl in Hin. congruence. }
  pose proof (zlen_nonneg acc). pose proof (zlen_nonneg l).
  specialize (Hv 0%nat a eq_refl) as Hva. rewrite Z.add_0_r in Hva.
  destruct (load_stored_draft _ _ _ _ _ Hva ltac:(lia) Hrow Hck) as [Hinv Hscan].
  assert (Hstep : load_activity acc (ca_ID a, row) = Ok (acc ++ [bare_activity a])).
  { unfold load_activity. cbn [fst snd]. rewrite Hinv. cbn [corrupt_if mbind res_bind].
    by rewrite Hscan. }
  cbn [fold_res]. rewrite Hstep. cbn [mbind res_bind].
  assert (Hza : zlen (acc ++ [bare_activity a]) = zlen acc + 1)
    by (rewrite zlen_app; unfold zlen at 2; simpl; lia).
  rewrite IH; [by rewrite <- app_assoc| | |..].
  - intros b Hb. apply Hsub. by right.
  - done.
  - intros kv Hkv. apply Hin. by right.
  - intros i b Hi. rewrite Hza. specialize (Hv (S i) b Hi).
    by replace (zlen acc + 1 + Z.of_nat i) with (zlen acc + Z.of_nat (S i)) by lia.
  - rewrite Hza. lia.
Qed.

Lemma load_created_activities `{!PostgresLaws PG} tripID l states d d' :
  draft_activities 0 l ∅ = Ok states -> zlen l <= 64 -> drafts_stored tripID l d d' ->
  (forall k a, activities d !! k = Some a -> a_trip_id a <> tripID) ->
  load_activities tripID d' = Ok (bare_activity <$> l).
Proof.
  intros Hdr Hlen Hds Hno. apply draft_activities_ok in Hdr as (Hval & Hnd & _).
  assert (Hit : itinerary tripID d' = ca_ID <$> l).
  { apply itinerary_numbered; [done| |].
    - intros i k Hi. apply list_lookup_fmap_Some in Hi as (a & -> & Hi).
      destruct (ds_rows _ _ _ _ Hds a) as (row & Hrow & _ & Hlk); [by eapply list_elem_of_lookup_2|].
      apply activity_row_ok in Hrow as (Ht & Ho & _). exists row. split_and!; [done..|].
      rewrite Ho. apply lookup_lt_Some in Hi as Hlt. specialize (Hval _ _ Hi).
      unfold validateCanonicalActivityDraft in Hval. inv_res. zbool.
      match goal with H : ca_Ordinal a = _ |- _ => rewrite H end.
      apply uint32_small. unfold max_int32, zlen in *. lia.
    - intros k a Ha Ht. destruct (decide (k ∈ ca_ID <$> l)) as [|Hn]; [done|].
      rewrite (ds_others _ _ _ _ Hds) in Ha by done. by apply Hno in Ha. }
  unfold load_activities.
  rewrite (fold_load_activity tripID l d d' l _ [] Hds); try done.
  - simpl. rewrite (proj2 (Z.ltb_ge _ _)); [done|]. unfold zlen in *. by rewrite length_fmap.
  - intros [k a] Hka. by apply elem_of_activity_rows in Hka as [? _].
Qed.

(** ** The windows of a created trip *)

Definition of_window (w : open_window) : CanonicalOpenWindow :=
  MkOpenWindow (of_timestamptz (w_opens_at w)) (of_timestamptz (w_closes_at w)).

(** The rows of one activity, and the windows they hold. *)
Definition rows_of (id : string) (rows : list (string * Z * open_window))
  : list (string * Z * open_window) := List.filter (fun x => bool_decide (x.1.1 = id)) rows.

Definition windows_of (id : string) (rows : list (string * Z * open_window))
  : list CanonicalOpenWindow := (fun x => of_window x.2) <$> rows_of id rows.

Lemma rows_of_snoc id rows x :
  rows_of id (rows ++ [x]) =
  if bool_decide (x.1.1 = id) then rows_of id rows ++ [x] else rows_of id rows.
Proof.
  unfold rows_of. rewrite List.filter_app. simpl. case_bool_decide; [done|by rewrite app_nil_r].
Qed.

Lemma index_activities_ok n l m :
  NoDup (ca_ID <$> l) ->
  (forall i a, l !! i = Some a -> index_activities n l m !! ca_ID a = Some (n + i)%nat) /\
  (forall id, id ∉ ca_ID <$> l -> index_activities n l m !! id = m !! id).
Proof.
  revert n m. induction l as [|a l IH]; intros n m Hnd; [done|].
  cbn [index_activities]. rewrite fmap_cons in Hnd. apply NoDup_cons in Hnd as [Hn Hnd].
  destruct (IH (S n) (<[ca_ID a := n]> m) Hnd) as [Hin Hout]. split.
  - intros [|i] b Hb; simpl in Hb.
    + simplify_eq. rewrite Hout, lookup_insert_eq by done. by rewrite Nat.add_0_r.
    + rewrite (Hin _ _ Hb). f_equal. lia.
  - intros id Hid. rewrite fmap_cons in Hid. apply not_elem_of_cons in Hid as [? ?].
    by rewrite Hout, lookup_insert_ne.
Qed.

(** The state of the window loop after the rows [seen]. *)
Record window_state (acts0 : list CanonicalActivity) (seen : list (string * Z * open_window))
    (acts : list CanonicalActivity) (counts : gmap string Z) : Prop := {
  ws_length : length acts = length acts0;
  ws_acts : forall i a, acts0 !! i = Some a ->
    acts !! i = Some (set_OpenWindows (windows_of (ca_ID a) seen) a);
  ws_counts : forall id, default 0 (counts !! id) = zlen (rows_of id seen)
}.

(** A row the loop accepts after the rows [seen]. *)
Record window_next (acts0 : list CanonicalActivity) (seen : list (string * Z * open_window))
    (x : string * Z * open_window) : Prop := {
  wn_known : exists i a, acts0 !! i = Some a /\ ca_ID a = x.1.1;
  wn_index : x.1.2 = zlen (rows_of x.1.1 seen) /\ x.1.2 <= max_int32;
  wn_order : w_opens_at x.2 < w_closes_at x.2;
  wn_after : forall p, last (windows_of x.1.1 seen) = Some p ->
    ow_ClosesAt p <= ow_OpensAt (of_window x.2)
}.

Lemma load_window_step acts0 seen acts counts x :
  NoDup (ca_ID <$> acts0) -> window_state acts0 seen acts counts -> window_next acts0 seen x ->
  exists acts' counts', load_window (activityIndex acts0) (acts, counts) x = Ok (acts', counts') /\
    window_state acts0 (seen ++ [x]) acts' counts'.
Proof.
  intros Hnd [Hlen Hacts Hcounts] [(i & a & Hi & Hid) [Hix Hmax] Hord Hafter].
  destruct x as [[id j] w]. simpl in *. subst id j.
  destruct (index_activities_ok 0 acts0 ∅ Hnd) as [Hindex _].
  pose proof (Hacts _ _ Hi) as Ha. eexists _, _. split.
  - unfold load_window, activityIndex. rewrite (Hindex _ _ Hi). cbn [mbind option_bind plus].
    rewrite Ha. cbn [fmap option_fmap option_map]. rewrite Hcounts.
    rewrite int32_small by (pose proof (zlen_nonneg (rows_of (ca_ID a) seen)); lia).
    rewrite Z.eqb_refl. unfold of_timestamptz. cbn [ow_OpensAt ow_ClosesAt].
    rewrite (proj2 (Z.ltb_lt _ _)) by lia. cbn [negb orb corrupt_if mbind res_bind].
    assert (Hov : match last (windows_of (ca_ID a) seen) with
      | Some p => w_opens_at w * 1000 <? ow_ClosesAt p | None => false end = false).
    { destruct (last _) as [p|]; [|done]. apply Z.ltb_ge. by apply Hafter. }
    cbn [ca_OpenWindows set_OpenWindows]. rewrite Hov. reflexivity.
  - constructor.
    + by rewrite length_insert.
    + intros i' b Hb. unfold windows_of. rewrite rows_of_snoc. simpl.
      destruct (decide (i' = i)) as [->|Hne].
      * rewrite Hi in Hb. simplify_eq. rewrite bool_decide_eq_true_2 by done.
        rewrite list_lookup_insert_eq by (rewrite Hlen; by eapply lookup_lt_Some).
        by rewrite fmap_app.
      * rewrite list_lookup_insert_ne by done. rewrite bool_decide_eq_false_2; [by apply Hacts|].
        intros He. apply Hne. eapply (NoDup_lookup _ _ _ (ca_ID b) Hnd);
          rewrite list_lookup_fmap; [by rewrite Hb|by rewrite Hi, <- He].
    + intros id. rewrite rows_of_snoc. simpl. case_bool_decide as He; subst.
      * rewrite lookup_insert_eq, zlen_app. cbn [default from_option]. by f_equal.
      * by rewrite lookup_insert_ne.
Qed.

Lemma load_windows_fold acts0 rows seen acts counts :
  NoDup (ca_ID <$> acts0) -> window_state acts0 seen acts counts ->
  (forall p x q, rows = p ++ x :: q -> window_next acts0 (seen ++ p) x) ->
  exists acts' counts',
    fold_res (load_window (activityIndex acts0)) rows (acts, counts) = Ok (acts', counts') /\
    window_state acts0 (seen ++ rows) acts' counts'.
Proof.
  intros Hnd. revert seen acts counts. induction rows as [|x rows IH]; intros seen acts counts Hst Hn.
  { exists acts, counts. by rewrite app_nil_r. }
  destruct (load_window_step acts0 seen acts counts x Hnd Hst) as (acts1 & counts1 & Hx & Hst1).
  { specialize (Hn [] x rows eq_refl). by rewrite app_nil_r in Hn. }
  destruct (IH _ _ _ Hst1) as (acts' & counts' & Hf & Hst').
  { intros p y q ->. specialize (Hn (x :: p) y q eq_refl). by rewrite <- app_assoc. }
  exists acts', counts'. cbn [fold_res]. rewrite Hx. cbn [mbind res_bind].
  by rewrite <- app_assoc in Hst'.
Qed.

#[global] Instance window_le_total : Total window_le.
Proof.
  intros x y. unfold window_le. destruct (decide (x.1.1 = y.1.1)) as [->|].
  - destruct (Z.le_ge_cases x.1.2 y.1.2); auto.
  - destruct (total String.le x.1.1 y.1.1); naive_solver.
Qed.

#[global] Instance window_le_transitive : Transitive window_le.
Proof.
  intros x y z. unfold window_le. intros [[Hxy Hle]|[Hxy Hle]] [[Hyz Hle']|[Hyz Hle']].
  - left. split; [|by etrans]. intros Heq. rewrite Heq in Hle.
    apply Hyz. by apply (anti_symm String.le).
  - left. by rewrite <- Hyz.
  - left. by rewrite Hxy.
  - right. split; [congruence|lia].
Qed.

Lemma StronglySorted_rows_of id rows :
  StronglySorted window_le rows -> StronglySorted window_le (rows_of id rows).
Proof.
  unfold rows_of. induction 1 as [|x rows Hs IH Hx]; simpl; [constructor|].
  case_bool_decide; [|done]. constructor; [done|]. apply Forall_forall. intros y Hy.
  apply list_elem_of_In, filter_In in Hy as [Hy _]. rewrite Forall_forall in Hx.
  apply Hx. by apply list_elem_of_In.
Qed.

(** The numbered rows of one activity. *)
Definition numbered_windows (tripID id : string) (l : list (Z * Z))
  : list (string * Z * open_window) :=
  imap (fun j w => (id, Z.of_nat j, OpenWindow tripID w.1 w.2)) l.

Lemma numbered_windows_lookup tripID id l j x :
  numbered_windows tripID id l !! j = Some x <->
  exists w, l !! j = Some w /\ x = (id, Z.of_nat j, OpenWindow tripID w.1 w.2).
Proof.
  unfold numbered_windows. rewrite list_lookup_imap, fmap_Some. naive_solver.
Qed.

Lemma numbered_windows_sorted tripID id l : StronglySorted window_le (numbered_windows tripID id l).
Proof.
  assert (Hgen : forall m, (forall i j x y, (i < j)%nat -> m !! i = Some x -> m !! j = Some y ->
    window_le x y) -> StronglySorted window_le m).
  { induction m as [|x m IH]; intros Hm; constructor.
    - apply IH. intros i j y z Hij Hy Hz. apply (Hm (S i) (S j)); [lia|done..].
    - apply Forall_lookup. intros i y Hy. by apply (Hm 0%nat (S i)); [lia|..]. }
  apply Hgen. intros i j x y Hij (w & _ & ->)%numbered_windows_lookup
    (w' & _ & ->)%numbered_windows_lookup. right. simpl. split; [done|lia].
Qed.

(** The table has no window of the trip, and no window without its activity. *)
Definition no_windows (tripID : string) (d : db) : Prop :=
  forall k w, windows d !! k = Some w -> w_trip_id w <> tripID /\ is_Some (activities d !! k.1).

(** Which rows a created trip has, for each of its activities. *)
Lemma elem_of_created_windows tripID l d d' a k w :
  no_windows tripID d -> drafts_stored tripID l d d' -> a ∈ l ->
  k.1 = ca_ID a ->
  (windows d' !! k = Some w /\ w_trip_id w = tripID <->
   (k, w) ∈ numbered_windows tripID (ca_ID a) (stored_windows a)).
Proof.
  intros Hfk Hds Ha Hk. destruct k as [id j]. simpl in Hk. subst id. split.
  - intros [Hw Htr]. destruct (decide (0 <= j < zlen (stored_windows a))) as [Hj|Hj].
    + destruct (lookup_lt_is_Some_2 (stored_windows a) (Z.to_nat j)) as [v Hv].
      { unfold zlen in Hj. lia. }
      pose proof (ds_windows _ _ _ _ Hds _ _ _ Ha Hv) as Hw'.
      rewrite Z2Nat.id in Hw' by lia. rewrite Hw in Hw'. simplify_eq.
      apply list_elem_of_lookup. exists (Z.to_nat j). apply numbered_windows_lookup. exists v.
      split; [done|]. rewrite Z2Nat.id by lia. congruence.
    + rewrite (ds_no_window _ _ _ _ Hds a j Ha) in Hw by lia.
      apply Hfk in Hw as [_ Hb]. simpl in Hb. rewrite (ds_fresh _ _ _ _ Hds _ Ha) in Hb.
      by destruct Hb.
  - intros (i & (v & Hv & [= -> ->])%numbered_windows_lookup)%list_elem_of_lookup.
    split; [by apply (ds_windows _ _ _ _ Hds)|done].
Qed.

Lemma rows_of_created tripID l d d' a :
  no_windows tripID d -> drafts_stored tripID l d d' -> a ∈ l ->
  rows_of (ca_ID a) (window_rows tripID d') =
  numbered_windows tripID (ca_ID a) (stored_windows a).
Proof.
  intros Hfk Hds Ha.
  assert (Hin : forall k w, (k, w) ∈ rows_of (ca_ID a) (window_rows tripID d') <->
    (k, w) ∈ numbered_windows tripID (ca_ID a) (stored_windows a)).
  { intros k w. unfold rows_of, window_rows.
    rewrite list_elem_of_In, filter_In, <- list_elem_of_In, merge_sort_Permutation.
    rewrite elem_of_rows_where, !bool_decide_eq_true. simpl. split.
    - intros [Hw Hk]. by apply (elem_of_created_windows tripID l d d').
    - intros Hw. assert (Hk : k.1 = ca_ID a).
      { apply list_elem_of_lookup in Hw as (i & (v & _ & [= -> _])%numbered_windows_lookup). done. }
      split; [|done]. by apply (elem_of_created_windows tripID l d d' a). }
  apply (StronglySorted_unique_strong window_le).
  - intros [k1 w1] [k2 w2] H1%Hin H2 Hle1 Hle2.
    apply list_elem_of_lookup in H1 as (i1 & (v1 & Hv1 & [= -> ->])%numbered_windows_lookup).
    apply list_elem_of_lookup in H2 as (i2 & (v2 & Hv2 & [= -> ->])%numbered_windows_lookup).
    unfold window_le in *. simpl in *. assert (i1 = i2) as -> by naive_solver lia. congruence.
  - apply StronglySorted_rows_of, StronglySorted_merge_sort; apply _.
  - apply numbered_windows_sorted.
  - apply NoDup_Permutation.
    + unfold rows_of, window_rows. apply NoDup_ListNoDup, List.NoDup_filter, NoDup_ListNoDup.
      rewrite merge_sort_Permutation. apply rows_where_NoDup.
    + apply NoDup_alt. intros i j x (v & _ & ->)%numbered_windows_lookup
        (v' & _ & [= Hij _])%numbered_windows_lookup. lia.
    + intros [k w]. apply Hin.
Qed.

Lemma canonical_windows_adjacent prev l :
  canonical_windows_normalized prev l = true ->
  forall j w w', l !! j = Some w -> l !! S j = Some w' -> ow_ClosesAt w <= ow_OpensAt w'.
Proof.
  revert prev. induction l as [|v l IH]; intros prev H j w w' Hw Hw'; simpl in H; [done|].
  inv_res. destruct j as [|j]; simpl in *; [|by eapply IH]. simplify_eq.
  destruct l as [|v' l]; simpl in *; [done|]. simplify_eq. inv_res. by zbool.
Qed.

Lemma to_timestamptz_mono a b : a <= b -> of_timestamptz (to_timestamptz a) <= of_timestamptz (to_timestamptz b).
Proof.
  unfold of_timestamptz, to_timestamptz. intros H.
  pose proof (Z.div_le_mono a b 1000 ltac:(lia) H). lia.
Qed.

(** The windows a row of the created trip comes after. *)
Lemma created_window_next tripID l d d' p x q :
  no_windows tripID d -> drafts_stored tripID l d d' ->
  (forall a, a ∈ l -> canonical_windows_normalized None (ca_OpenWindows a) = true) ->
  window_rows tripID d' = p ++ x :: q ->
  window_next (bare_activity <$> l) p x.
Proof.
  intros Hfk Hds Hnorm Hrows. destruct x as [[id j] w].
  assert (Hx : windows d' !! (id, j) = Some w /\ w_trip_id w = tripID).
  { assert (Hin : (id, j, w) ∈ window_rows tripID d') by (rewrite Hrows; set_solver).
    unfold window_rows in Hin.
    rewrite merge_sort_Permutation, elem_of_rows_where, bool_decide_eq_true in Hin. done. }
  destruct Hx as [Hw Htr].
  assert (Hid : id ∈ ca_ID <$> l).
  { destruct (decide (id ∈ ca_ID <$> l)) as [|Hn]; [done|].
    rewrite (ds_other_windows _ _ _ _ Hds) in Hw by done.
    by apply Hfk in Hw as [? _]. }
  apply list_elem_of_fmap in Hid as (a & -> & Ha).
  pose proof (rows_of_created _ _ _ _ _ Hfk Hds Ha) as Hnum. rewrite Hrows in Hnum.
  unfold rows_of at 1 in Hnum. rewrite List.filter_app in Hnum. simpl in Hnum.
  rewrite bool_decide_eq_true_2 in Hnum by done. fold (rows_of (ca_ID a) p) in Hnum.
  assert (Hxn : numbered_windows tripID (ca_ID a) (stored_windows a) !! length (rows_of (ca_ID a) p)
    = Some (ca_ID a, j, w)) by (rewrite <- Hnum; by rewrite list_lookup_middle).
  apply numbered_windows_lookup in Hxn as (v & Hv & [= Hj ->]).
  destruct (ds_valid _ _ _ _ Hds _ _ _ Ha Hv) as [Hlt Hmax]. constructor; simpl.
  - apply list_elem_of_lookup in Ha as [i Hi]. exists i, (bare_activity a).
    by rewrite list_lookup_fmap, Hi.
  - unfold zlen. lia.
  - done.
  - intros c Hc. unfold windows_of in Hc. rewrite last_lookup, list_lookup_fmap, length_fmap in Hc.
    apply fmap_Some in Hc as (y & Hy & ->).
    set (n := pred (length (rows_of (ca_ID a) p))) in *.
    assert (Hn : length (rows_of (ca_ID a) p) = S n) by (apply lookup_lt_Some in Hy; lia).
    rewrite Hn in Hv.
    assert (Hyn : numbered_windows tripID (ca_ID a) (stored_windows a) !! n = Some y)
      by (rewrite <- Hnum; by apply lookup_app_l_Some).
    apply numbered_windows_lookup in Hyn as (u & Hu & ->). simpl.
    unfold stored_windows in Hu, Hv. apply list_lookup_fmap_Some in Hu as (wu & -> & Hu).
    apply list_lookup_fmap_Some in Hv as (wv & -> & Hv). simpl.
    apply to_timestamptz_mono. by eapply (canonical_windows_adjacent _ _ (Hnorm _ Ha)).
Qed.

Lemma load_created_windows tripID l d d' :
  no_windows tripID d -> drafts_stored tripID l d d' ->
  (forall a, a ∈ l -> canonical_windows_normalized None (ca_OpenWindows a) = true) ->
  load_windows tripID (bare_activity <$> l) d' = Ok (stored_activity <$> l).
Proof.
  intros Hfk Hds Hnorm. unfold load_windows.
  assert (Hids : ca_ID <$> (bare_activity <$> l) = ca_ID <$> l)
    by (rewrite <- list_fmap_compose; by apply list_fmap_ext).
  destruct (load_windows_fold (bare_activity <$> l) (window_rows tripID d') []
    (bare_activity <$> l) ∅) as (acts & counts & Hf & [Hlen Hacts _]).
  { rewrite Hids. apply Hds. }
  { constructor; [done| |by intros id; rewrite lookup_empty]. intros i a Hi. rewrite Hi.
    apply list_lookup_fmap_Some in Hi as (b & -> & _). done. }
  { intros p x q Hrows. by eapply created_window_next. }
  rewrite Hf. cbn [mbind res_bind fst]. f_equal. apply list_eq. intros i.
  rewrite list_lookup_fmap. destruct (l !! i) as [a|] eqn:Hi; simpl.
  - rewrite (Hacts i (bare_activity a)) by (by rewrite list_lookup_fmap, Hi).
    assert (Ha : a ∈ l) by (by eapply list_elem_of_lookup_2).
    unfold windows_of. simpl. rewrite (rows_of_created _ _ _ _ _ Hfk Hds Ha).
    f_equal. unfold stored_activity, bare_activity, set_OpenWindows. simpl. f_equal.
    unfold numbered_windows, stored_windows. rewrite fmap_imap, imap_fmap.
    apply list_eq. intros j. rewrite list_lookup_imap, list_lookup_fmap.
    by destruct (ca_OpenWindows a !! j).
  - apply lookup_ge_None in Hi. apply lookup_ge_None. rewrite Hlen, length_fmap. done.
Qed.

(** ** The travel delays of a created trip *)

Definition delay_key (tripID : string) (v : CanonicalTravelDelay) : string * string * string :=
  (tripID, cd_FromActivityID v, cd_ToActivityID v).

Definition delay_row (v : CanonicalTravelDelay) : travel_delay :=
  TravelDelay (cd_AdditionalSeconds v) (to_timestamptz (cd_ObservedAt v)).

Record delays_stored (tripID : string) (l : list CanonicalTravelDelay) (d d' : db) : Prop := {
  dl_frame : d' = set_travel_delays (travel_delays d') d;
  dl_nodup : NoDup (delay_key tripID <$> l);
  dl_fresh : forall v, v ∈ l -> travel_delays d !! delay_key tripID v = None;
  dl_rows : forall v, v ∈ l -> travel_delays d' !! delay_key tripID v = Some (delay_row v);
  dl_range : forall v, v ∈ l -> 0 <= cd_AdditionalSeconds v <= max_int32;
  dl_others : forall k, k ∉ delay_key tripID <$> l -> travel_delays d' !! k = travel_delays d !! k
}.

Lemma for_each_delays op tripID l d u d' :
  for_each (insert_travel_delay op tripID) l d = Ok (u, d') -> delays_stored tripID l d d'.
Proof.
  revert d. induction l as [|v l IH]; intros d H; simpl in H.
  { apply mret_ok in H as [_ <-]. constructor; try done; try by destruct d.
    all: try apply NoDup_nil_2; intros; exfalso; by eapply not_elem_of_nil. }
  apply tx_bind_ok in H as ([] & d1 & Hv & H). apply IH in H as [Hf Hnd Hfr Hrows Hrg Hoth].
  unfold insert_travel_delay in Hv. case_match eqn:E; [done|]. simplify_eq.
  unfold in_integer in E. inv_res. zbool. fold (delay_key tripID v) in *.
  match goal with H : ¬ is_Some (travel_delays d !! _) |- _ =>
    apply eq_None_not_Some in H; rename H into Hnone end.
  assert (Hnin : delay_key tripID v ∉ delay_key tripID <$> l).
  { intros (b & Hb & Hin)%list_elem_of_fmap. specialize (Hfr _ Hin). simpl in Hfr.
    rewrite <- Hb, lookup_insert_eq in Hfr. done. }
  constructor.
  - rewrite Hf. done.
  - rewrite fmap_cons. by constructor.
  - intros b [->|Hb]%elem_of_cons; [done|]. specialize (Hfr _ Hb). simpl in Hfr.
    by apply lookup_insert_None in Hfr as [? _].
  - intros b [->|Hb]%elem_of_cons; [|by apply Hrows]. rewrite Hoth by done. simpl.
    by rewrite lookup_insert_eq.
  - intros b [->|Hb]%elem_of_cons; [|by apply Hrg]. lia.
  - intros k Hk. rewrite fmap_cons in Hk. apply not_elem_of_cons in Hk as [? ?].
    rewrite Hoth by done. simpl. by rewrite lookup_insert_ne.
Qed.

Lemma delay_rows_created tripID l d d' :
  (forall k v, travel_delays d !! k = Some v -> k.1.1 <> tripID) ->
  delays_stored tripID l d d' ->
  delay_rows tripID d' ≡ₚ (fun v => (delay_key tripID v, delay_row v)) <$> l.
Proof.
  intros Hno Hds. unfold delay_rows. rewrite merge_sort_Permutation. apply NoDup_Permutation.
  - apply rows_where_NoDup.
  - apply (NoDup_fmap_1 fst). rewrite <- list_fmap_compose.
    erewrite list_fmap_ext; [apply (dl_nodup _ _ _ _ Hds)|]. done.
  - intros [k v]. rewrite elem_of_rows_where, bool_decide_eq_true, list_elem_of_fmap. split.
    + intros [Hk Ht]. destruct (decide (k ∈ delay_key tripID <$> l)) as [Hin|Hn].
      * apply list_elem_of_fmap in Hin as (b & -> & Hb). exists b. split; [|done].
        rewrite (dl_rows _ _ _ _ Hds _ Hb) in Hk. by simplify_eq.
      * rewrite (dl_others _ _ _ _ Hds) in Hk by done. by apply Hno in Hk.
    + intros (b & [= -> ->] & Hb). split; [by apply (dl_rows _ _ _ _ Hds)|done].
Qed.

(** The loop over delay rows whose activities are known. *)
Lemma fold_load_delay index rows acc :
  (forall k v, (k, v) ∈ rows -> is_Some (index !! k.1.2) /\ is_Some (index !! k.2) /\
     0 <= d_additional_seconds v <= max_int32) ->
  fold_res (load_delay index) rows acc =
  Ok (acc ++ ((fun kv => MkTravelDelay kv.1.1.2 kv.1.2 (d_additional_seconds kv.2)
                (of_timestamptz (d_observed_at kv.2))) <$> rows)).
Proof.
  revert acc. induction rows as [|[[[t from] to] v] rows IH]; intros acc Hin.
  { simpl. by rewrite app_nil_r. }
  destruct (Hin (t, from, to) v ltac:(left)) as ([i Hi] & [j Hj] & Hrg). simpl in Hi, Hj.
  set (x := MkTravelDelay from to (d_additional_seconds v) (of_timestamptz (d_observed_at v))).
  assert (Hstep : load_delay index acc (t, from, to, v) = Ok (acc ++ [x])).
  { unfold load_delay. rewrite Hi, Hj, (proj2 (Z.ltb_ge _ _)) by lia.
    cbn [is_null orb corrupt_if mbind res_bind]. by rewrite uint32_small. }
  cbn [fold_res]. rewrite Hstep. cbn [mbind res_bind].
  rewrite IH; [by rewrite <- app_assoc|].
  intros k w Hk. apply Hin. by right.
Qed.

Lemma load_created_delays tripID acts l d d' :
  (forall k v, travel_delays d !! k = Some v -> k.1.1 <> tripID) ->
  delays_stored tripID l d d' ->
  (forall v, v ∈ l -> is_Some (activityIndex acts !! cd_FromActivityID v) /\
     is_Some (activityIndex acts !! cd_ToActivityID v)) ->
  exists delays, load_delays tripID acts d' = Ok delays /\ delays ≡ₚ stored_delay <$> l.
Proof.
  intros Hno Hds Hknown. pose proof (delay_rows_created _ _ _ _ Hno Hds) as Hp.
  unfold load_delays. rewrite fold_load_delay.
  - eexists. split; [reflexivity|]. rewrite app_nil_l, Hp, <- list_fmap_compose.
    erewrite list_fmap_ext; [reflexivity|]. intros i v _. reflexivity.
  - intros k v Hk. rewrite Hp in Hk. apply list_elem_of_fmap in Hk as (b & [= -> ->] & Hb).
    destruct (Hknown _ Hb). split; [done|split; [done|]]. by apply (dl_range _ _ _ _ Hds).
Qed.

(** ** The completed prefix *)

Definition not_started (state : string) : bool := negb (bool_decide (state = "started")).

(** After the completed prefix only the first activity may be under way. *)
Fixpoint started_first (l : list string) : bool :=
  match l with
  | [] => true
  | state :: l => if terminal_state state then started_first l else forallb not_started l
  end.

(** The length of the completed prefix and the activity under way after it. *)
Fixpoint expected_prefix (states : gmap string string) (n : Z)
    (l : list CanonicalPlanSegmentDraft) : Z * option string :=
  match l with
  | [] => (n, None)
  | s :: l =>
      let state := default "" (states !! d_ActivityID s) in
      if terminal_state state then expected_prefix states (n + 1) l
      else (n, if bool_decide (state = "started") then Some (d_ActivityID s) else None)
  end.

(** Past the prefix, a draft without another activity under way loads. *)
Lemma load_closed_prefix fault states i j l acc acc' px :
  draft_loop fault states i l acc = Ok acc' -> dr_prefixOpen acc = false ->
  forallb not_started (draft_states states l) = true ->
  px_open px = false -> px_seen px = dr_seen acc ->
  exists seen, load_prefix states j (wire_of_draft <$> l) px
    = Ok (MkPrefix seen false (px_count px) (px_current px)).
Proof.
  revert i j acc px. induction l as [|s l IH]; intros i j acc px H Hopen Hns Hpo Hseen; simpl in H.
  { exists (px_seen px). simpl. rewrite <- Hpo. by destruct px. }
  apply bind_ok in H as ([] & _ & H). unfold draft_states in Hns. simpl in Hns.
  rewrite fmap_cons. cbn [load_prefix]. rewrite wire_of_draft_id.
  destruct (states !! d_ActivityID s) as [state|] eqn:Hst; [|done].
  simpl in Hns. apply andb_true_iff in Hns as [Hn Hns].
  apply bind_ok in H as ([] & Hin%reject_if_ok & H). apply bind_ok in H as (prior & _ & H).
  rewrite Hopen in H. cbn [andb] in H. apply bind_ok in H as ([] & Hterm%reject_if_ok & H).
  rewrite Hseen, Hin, Hpo, Hterm. cbn [corrupt_if mbind res_bind andb].
  unfold not_started in Hn. apply negb_true_iff in Hn. rewrite Hn in H |- *.
  by eapply (IH _ _ _ (MkPrefix _ false (px_count px) (px_current px))); [exact H|..].
Qed.

Lemma load_open_prefix fault states i n l acc acc' seen :
  draft_loop fault states i l acc = Ok acc' -> dr_prefixOpen acc = true ->
  started_first (draft_states states l) = true -> seen = dr_seen acc ->
  exists px, load_prefix states n (wire_of_draft <$> l) (MkPrefix seen true n None) = Ok px /\
    (px_count px, px_current px) = expected_prefix states n l.
Proof.
  revert i n acc seen. induction l as [|s l IH]; intros i n acc seen H Hopen Hsf Hseen; simpl in H.
  { by eexists. }
  apply bind_ok in H as ([] & _ & H). unfold draft_states in Hsf. simpl in Hsf.
  rewrite fmap_cons. cbn [load_prefix expected_prefix]. rewrite wire_of_draft_id.
  destruct (states !! d_ActivityID s) as [state|] eqn:Hst; [|done]. simpl in Hsf.
  apply bind_ok in H as ([] & Hin%reject_if_ok & H). apply bind_ok in H as (prior & _ & H).
  rewrite Hopen in H. cbn [px_seen px_open px_count px_current default from_option] in *.
  rewrite Hseen, Hin. cbn [corrupt_if mbind res_bind andb] in *.
  destruct (terminal_state state) eqn:Hterm; cbn [andb] in *.
  { destruct (IH _ (n + 1) _ ({[d_ActivityID s]} ∪ dr_seen acc) H) as (px & Hl & He); try done.
    exists px. split; [exact Hl|]. rewrite He. simpl. by rewrite Hterm. }
  cbn [reject_if mbind res_bind] in H. case_bool_decide as Hstate.
  - apply bind_ok in H as ([] & _ & H). rewrite Z.eqb_refl. cbn [is_null negb orb corrupt_if mbind res_bind].
    destruct (load_closed_prefix _ _ _ (n + 1) _ _ _
      (MkPrefix ({[d_ActivityID s]} ∪ dr_seen acc) false n (Some (d_ActivityID s))) H) as (sn & Hl);
      try done. eexists. split; [exact Hl|]. simpl. rewrite Hterm.
    by rewrite bool_decide_eq_true_2.
  - destruct (load_closed_prefix _ _ _ (n + 1) _ _ _
      (MkPrefix ({[d_ActivityID s]} ∪ dr_seen acc) false n None) H) as (sn & Hl); try done.
    eexists. split; [exact Hl|]. simpl. rewrite Hterm. by rewrite bool_decide_eq_false_2.
Qed.

(** ** [CreateTrip] *)

Definition create_plan (clk : nat -> Z) (r : CreateTripRequest) : plan :=
  let createdAt := trunc_ms (clk 0%nat) in
  user_plan (cr_TripID r) (cr_OwnerUserID r) 1
    (userCurrentPlanPayload (cr_PlanID r) 1 (unix_milli createdAt) (cr_PlanSegments r)) createdAt.

(** The states the drafts give the activities. *)
Definition request_states (r : CreateTripRequest) : gmap string string :=
  list_to_map ((fun a => (ca_ID a, ca_ActivityState a)) <$> cr_Activities r).

(** A new trip: the drafts [d2] and the delays [d3] are stored, then the plan
    and the intent. *)
Record created (clk : nat -> Z) (r : CreateTripRequest) (zone : string) (d2 d3 d : db)
    (d' : db) : Prop := {
  ce_valid : validateCreateTripRequest r = Ok tt;
  ce_new : trips d !! cr_TripID r = None;
  ce_zone : text_in (cr_DefaultTimeZoneName r) = Some zone;
  ce_drafts : drafts_stored (cr_TripID r) (cr_Activities r)
    (set_trips (<[cr_TripID r := new_trip r zone (clk 1%nat) (clk 2%nat)]> (trips d)) d) d2;
  ce_delays : delays_stored (cr_TripID r) (cr_TravelDelays r) d2 d3;
  ce_plan : plan_insertable (cr_PlanID r) (create_plan clk r) d3;
  ce_rows : exists i, intents d !! cr_IntentID r = None /\
    (i_trip_id i = cr_TripID r /\ i_mutation_sequence i = 1 /\ i_state i = IntentApplied /\
     i_runtime_sync_state i = SyncNotRequired /\ i_message_id i = cr_MessageID r) /\
    d' = set_intents (<[cr_IntentID r := i]> (intents d3))
           (set_plans (<[cr_PlanID r := create_plan clk r]> (plans d3)) d3)
}.

Lemma CreateTrip_ok clk r d c d' :
  CreateTrip clk r d = Ok (c, d') ->
  (d' = d /\ rc_Duplicate c = true) \/ (exists zone d2 d3, created clk r zone d2 d3 d d').
Proof.
  unfold CreateTrip. intros H. apply tx_bind_ok in H as ([] & d0 & Hv & H).
  apply lift_ok in Hv as [Hv ->]. inv_tx.
  destruct (trips d !! cr_TripID r) as [t|] eqn:Ht.
  - left. unfold create_existing in *. inv_tx.
    destruct (recordedCommandSelect _ _ _) as [row|]; inv_tx. split; [done|].
    by eapply scanRecordedCommand_flag.
  - right. unfold create_rows in *. inv_tx.
    match goal with H : insert_trip _ _ _ _ = _ |- _ =>
      unfold insert_trip in H; case_match; [done|]; simplify_eq end.
    match goal with H : for_each (fun a => insert_draft _ _ _ _) _ _ = _ |- _ =>
      apply for_each_drafts in H as Hdr end.
    match goal with H : for_each (insert_travel_delay _ _) _ _ = _ |- _ =>
      apply for_each_delays in H as Hdl end.
    match goal with H : insert_plan _ _ _ _ = _ |- _ =>
      apply insert_plan_ok in H as [Hplan ->] end.
    match goal with H : insert_intent _ _ _ _ = _ |- _ =>
      apply insert_intent_ok in H as [[Hfresh _ _ _ _] ->] end.
    do 3 eexists. constructor; try done. eexists. split; [|split; [|reflexivity]]; [|done].
    simpl in Hfresh. rewrite (dl_frame _ _ _ _ Hdl) in Hfresh. simpl in Hfresh.
    by rewrite (cfr_intents _ _ (ds_frame _ _ _ _ Hdr)) in Hfresh.
Qed.

Lemma request_states_eq r states :
  draft_activities 0 (cr_Activities r) ∅ = Ok states -> request_states r = states.
Proof.
  intros (_ & Hnd & Hin & Hout & _)%draft_activities_ok. apply map_eq. intros id.
  unfold request_states. destruct (decide (id ∈ ca_ID <$> cr_Activities r)) as [Hid|Hid].
  - apply list_elem_of_fmap in Hid as (a & -> & Ha). rewrite (Hin _ Ha).
    apply elem_of_list_to_map_1; [by rewrite <- list_fmap_compose|].
    apply list_elem_of_fmap. by exists a.
  - rewrite (Hout _ Hid), lookup_empty. apply not_elem_of_list_to_map_1.
    by rewrite <- list_fmap_compose.
Qed.

Lemma activityIndex_stored l :
  NoDup (ca_ID <$> l) ->
  (forall i a, l !! i = Some a -> activityIndex (stored_activity <$> l) !! ca_ID a = Some i) /\
  (forall id, id ∉ ca_ID <$> l -> activityIndex (stored_activity <$> l) !! id = None).
Proof.
  intros Hnd. assert (Hids : ca_ID <$> (stored_activity <$> l) = ca_ID <$> l)
    by (rewrite <- list_fmap_compose; by apply list_fmap_ext).
  destruct (index_activities_ok 0 (stored_activity <$> l) ∅) as [Hin Hout]; [by rewrite Hids|].
  split.
  - intros i a Ha. apply (Hin i (stored_activity a)). by rewrite list_lookup_fmap, Ha.
  - intros id Hid. unfold activityIndex. rewrite Hout by (by rewrite Hids). apply lookup_empty.
Qed.

Lemma activity_states_stored r states :
  draft_activities 0 (cr_Activities r) ∅ = Ok states ->
  activity_states (stored_activity <$> cr_Activities r) = states.
Proof.
  intros (_ & Hnd & Hin & Hout & _)%draft_activities_ok.
  destruct (activityIndex_stored _ Hnd) as [Hix Hno]. apply map_eq. intros id.
  unfold activity_states. rewrite lookup_omap.
  destruct (decide (id ∈ ca_ID <$> cr_Activities r)) as [Hid|Hid].
  - apply list_elem_of_fmap in Hid as (a & -> & Ha). rewrite (Hin _ Ha).
    apply list_elem_of_lookup in Ha as [i Hi]. rewrite (Hix _ _ Hi). simpl.
    by rewrite list_lookup_fmap, Hi.
  - by rewrite (Hno _ Hid), (Hout _ Hid), lookup_empty.
Qed.

(** What the validator of [CreateTrip] established. *)
Lemma validateCreateTrip_ok r :
  validateCreateTripRequest r = Ok tt ->
  exists states acc, draft_activities 0 (cr_Activities r) ∅ = Ok states /\
    draft_loop create_trip_fault states 0 (cr_PlanSegments r) draft_start = Ok acc /\
    zlen (cr_Activities r) <= 64 /\ zlen (cr_PlanSegments r) = zlen (cr_Activities r) /\
    validCanonicalUUID (cr_TripID r) = true /\ validCanonicalUUID (cr_OwnerUserID r) = true /\
    validCanonicalUUID (cr_PlanID r) = true /\ cr_DefaultTimeZoneName r <> "" /\
    fold_res (fun _ delay => validate_draft_delay states delay) (cr_TravelDelays r) tt = Ok tt.
Proof.
  unfold validateCreateTripRequest. intros H.
  apply bind_ok in H as ([] & Hids & H). apply reject_if_ok in Hids. cbn [forallb] in Hids.
  apply bind_ok in H as ([] & Hdraft & H). inv_res. zbool. do 2 eexists. split_and!; done.
Qed.

Lemma validate_delays_known states l :
  fold_res (fun _ delay => validate_draft_delay states delay) l tt = Ok tt ->
  forall v, v ∈ l -> is_Some (states !! cd_FromActivityID v) /\ is_Some (states !! cd_ToActivityID v).
Proof.
  induction l as [|x l IH]; intros H v Hv; [by apply not_elem_of_nil in Hv|].
  cbn [fold_res] in H. apply bind_ok in H as ([] & Hx & H).
  apply elem_of_cons in Hv as [->|Hv]; [|by apply IH].
  unfold validate_draft_delay in Hx. inv_res.
  by destruct (states !! cd_FromActivityID x), (states !! cd_ToActivityID x).
Qed.

Lemma validate_windows n l states a :
  draft_activities n l ∅ = Ok states -> a ∈ l ->
  canonical_windows_normalized None (ca_OpenWindows a) = true.
Proof.
  intros (Hv & _)%draft_activities_ok Ha. apply list_elem_of_lookup in Ha as [i Hi].
  apply Hv in Hi. unfold validateCanonicalActivityDraft, validateCanonicalActivity in Hi.
  by inv_res.
Qed.

(** The tables [Load] reads, after [CreateTrip]. *)
Lemma created_tables clk r zone d2 d3 d d' :
  created clk r zone d2 d3 d d' ->
  trips d' !! cr_TripID r = Some (new_trip r zone (clk 1%nat) (clk 2%nat)) /\
  activities d' = activities d2 /\ windows d' = windows d2 /\
  travel_delays d' = travel_delays d3 /\ plans d' !! cr_PlanID r = Some (create_plan clk r).
Proof.
  intros [_ _ _ [Hf _ _ _ _ _ _ _ _ _] [Hdl _ _ _ _ _] _ (i & _ & _ & ->)]. simpl.
  rewrite Hdl. simpl. rewrite (cfr_trips _ _ Hf). simpl.
  by rewrite !lookup_insert_eq.
Qed.

Lemma load_activities_tables tripID d d' :
  activities d' = activities d -> load_activities tripID d' = load_activities tripID d.
Proof. intros H. unfold load_activities, activity_rows. by rewrite H. Qed.

Lemma load_windows_tables tripID acts d d' :
  windows d' = windows d -> load_windows tripID acts d' = load_windows tripID acts d.
Proof. intros H. unfold load_windows, window_rows. by rewrite H. Qed.

Lemma load_delays_tables tripID acts d d' :
  travel_delays d' = travel_delays d -> load_delays tripID acts d' = load_delays tripID acts d.
Proof. intros H. unfold load_delays, delay_rows. by rewrite H. Qed.

(** The activities, their windows and the delays of a created trip load. *)
Lemma created_rows_load `{!PostgresLaws PG} clk r zone d2 d3 d d' :
  foreign_keys d -> created clk r zone d2 d3 d d' ->
  load_activities (cr_TripID r) d' = Ok (bare_activity <$> cr_Activities r) /\
  load_windows (cr_TripID r) (bare_activity <$> cr_Activities r) d'
    = Ok (stored_activity <$> cr_Activities r) /\
  exists delays, load_delays (cr_TripID r) (stored_activity <$> cr_Activities r) d' = Ok delays /\
    delays ≡ₚ stored_delay <$> cr_TravelDelays r.
Proof.
  intros Hfk Hc. destruct (created_tables _ _ _ _ _ _ _ Hc) as (_ & Ha & Hw & Hd & _).
  destruct Hc as [Hv Hnew Hz Hdr Hdl _ _].
  apply validateCreateTrip_ok in Hv as (states & acc & Hact & _ & H64 & _ & _ & _ & _ & _ & Hdel).
  rewrite (load_activities_tables _ _ _ Ha), (load_windows_tables _ _ _ _ Hw).
  rewrite (load_delays_tables _ _ _ _ Hd).
  assert (Hnoact : forall k a, activities d !! k = Some a -> a_trip_id a <> cr_TripID r).
  { intros k a Hk Ht. apply (fk_activity _ Hfk) in Hk. rewrite Ht, Hnew in Hk. by destruct Hk. }
  split_and!.
  - by eapply load_created_activities.
  - eapply load_created_windows; [|exact Hdr|by intros a; eapply validate_windows].
    intros k w Hk. simpl in *. apply (fk_window _ Hfk) in Hk as (a & Hka & Hta).
    split; [|by rewrite Hka]. rewrite <- Hta. by eapply Hnoact.
  - eapply load_created_delays; [|exact Hdl|].
    + intros k v Hk Ht. rewrite (ds_delays _ _ _ _ Hdr) in Hk. simpl in Hk.
      destruct (fk_delay _ Hfk _ _ Hk) as [(a & Hka & Hta) _]. apply (Hnoact _ _ Hka). congruence.
    + intros v Hv. destruct (validate_delays_known _ _ Hdel _ Hv) as [Hf Ht].
      rewrite <- (activity_states_stored _ _ Hact) in Hf, Ht. unfold activity_states in Hf, Ht.
      rewrite lookup_omap in Hf, Ht. split.
      * destruct (activityIndex _ !! cd_FromActivityID v); [by eexists|by destruct Hf].
      * destruct (activityIndex _ !! cd_ToActivityID v); [by eexists|by destruct Ht].
Qed.

(** [Load] after [CreateTrip] comes down to the loop over the plan. *)
Lemma created_load_prefix `{!PostgresLaws PG} clk r d c d' :
  foreign_keys d -> CreateTrip clk r d = Ok (c, d') -> rc_Duplicate c = false ->
  Forall draft_int64 (cr_PlanSegments r) -> - 2 ^ 63 <= clk 0%nat / 1000 <= max_int64 ->
  exists delays acc, delays ≡ₚ stored_delay <$> cr_TravelDelays r /\
    draft_loop create_trip_fault (request_states r) 0 (cr_PlanSegments r) draft_start = Ok acc /\
    let payload := userCurrentPlanPayload (cr_PlanID r) 1 (clk 0%nat / 1000) (cr_PlanSegments r) in
    parseSnapshotCurrentPlan payload =
      Ok (PlanWire (cr_PlanID r) 1 1 (wire_of_draft <$> cr_PlanSegments r) (clk 0%nat / 1000) "") /\
    Load (cr_TripID r) d' =
    (px ← load_prefix (request_states r) 0 (wire_of_draft <$> cr_PlanSegments r)
            (MkPrefix ∅ true 0 None);
     Ok (MkTripState (cr_TripID r) (cr_OwnerUserID r) (cr_DefaultTimeZoneName r) 1 1 (cr_PlanID r)
           (px_count px) (px_current px) (stored_activity <$> cr_Activities r) delays
           (loaded_plan (cr_PlanID r) (cr_OwnerUserID r) 1 payload (trunc_ms (clk 0%nat))), d')).
Proof.
  intros Hfk H Hdup Hi Hclk.
  apply CreateTrip_ok in H as [[_ ?]|(zone & d2 & d3 & Hc)]; [congruence|].
  destruct (created_rows_load _ _ _ _ _ _ _ Hfk Hc) as (Hacts & Hwins & delays & Hdelays & Hperm).
  destruct (created_tables _ _ _ _ _ _ _ Hc) as (Ht & _ & _ & _ & Hp).
  destruct Hc as [Hv _ Hz _ _ [_ _ _ Hpc] _]. apply text_in_same in Hz. subst zone.
  apply validateCreateTrip_ok in Hv
    as (states & acc & Hact & Hloop & _ & Hlen & Htrip & Howner & Hplan & Htz & _).
  pose proof (request_states_eq _ _ Hact) as Hst. rewrite Hst in *.
  destruct (draft_segments_wf _ _ _ _ Hloop) as (Hwf & _).
  assert (Hum : unix_milli (trunc_ms (clk 0%nat)) = clk 0%nat / 1000)
    by (unfold unix_milli, trunc_ms; by rewrite Z.div_mul by lia).
  pose proof (load_user_plan (cr_TripID r) (cr_OwnerUserID r) (cr_PlanID r) 1 (clk 0%nat)
    (cr_PlanSegments r) d' Hp Hpc Hplan ltac:(done) ltac:(by rewrite Hum) Hi Hwf) as Hload.
  rewrite Hum in Hload. exists delays, acc. split; [done|]. split; [done|]. split.
  { by apply parseSnapshot_userCurrentPlanPayload. }
  unfold Load, scan_current_plan. run_tx_step; [by rewrite Htrip|].
  eapply tx_bind_run; [by apply lock_trip_row_ok|]. cbv beta. run_tx_step; [reflexivity|].
  run_tx_step; [cbn -[validCanonicalUUID]; rewrite Howner, Hplan; by rewrite bool_decide_eq_false_2|].
  run_tx_step; [reflexivity|]. run_tx_step; [exact Hacts|]. run_tx_step; [exact Hwins|].
  run_tx_step; [exact Hdelays|]. run_tx_step; [exact Hload|]. cbv iota.
  run_tx_step; [cbn [pw_segments]; unfold zlen in *; rewrite !length_fmap; apply negb_false_iff;
    by apply Z.eqb_eq|].
  rewrite (activity_states_stored _ _ Hact). cbn [pw_segments].
  unfold mbind at 1, tx_bind, lift. by destruct (load_prefix _ _ _ _).
Qed.

(** Past the prefix an activity under way is refused. *)
Lemma load_closed_started states j l px px' :
  load_prefix states j (wire_of_draft <$> l) px = Ok px' -> px_open px = false ->
  px_count px < j -> forallb not_started (draft_states states l) = true.
Proof.
  revert j px. induction l as [|s l IH]; intros j px H Hopen Hj; [done|].
  rewrite fmap_cons in H. cbn [load_prefix] in H. rewrite wire_of_draft_id in H.
  unfold draft_states. simpl. destruct (states !! d_ActivityID s) as [state|] eqn:Hst; [|done].
  simpl. rewrite Hopen in H. cbn [andb] in H. apply bind_ok in H as ([] & _ & H).
  apply bind_ok in H as ([] & _ & H). unfold not_started at 1. case_bool_decide as Hs.
  - apply bind_ok in H as ([] & Hc & _). unfold corrupt_if in Hc. case_match eqn:E; [done|].
    inv_res. zbool. lia.
  - apply (IH (j + 1) _ H); [done|]. simpl. lia.
Qed.

Lemma load_prefix_started states n l seen px :
  load_prefix states n (wire_of_draft <$> l) (MkPrefix seen true n None) = Ok px ->
  started_first (draft_states states l) = true.
Proof.
  revert n seen. induction l as [|s l IH]; intros n seen H; [done|].
  rewrite fmap_cons in H. cbn [load_prefix] in H. rewrite wire_of_draft_id in H.
  unfold draft_states. simpl. destruct (states !! d_ActivityID s) as [state|] eqn:Hst; [|done].
  simpl. cbn [px_open px_seen px_count px_current] in H. apply bind_ok in H as ([] & _ & H).
  destruct (terminal_state state); cbn [andb] in H; [by eapply IH|].
  cbn [corrupt_if mbind res_bind] in H. case_bool_decide.
  - apply bind_ok in H as ([] & _ & H). eapply load_closed_started; [exact H|done|simpl; lia].
  - eapply load_closed_started; [exact H|done|simpl; lia].
Qed.

Lemma load_prefix_corrupt states n l px e :
  load_prefix states n l px = Err e -> e = ErrCanonicalStateCorrupt.
Proof.
  revert n px. induction l as [|s l IH]; intros n px H; [done|]. cbn [load_prefix] in H.
  repeat (case_match || (unfold corruptCanonicalState, corrupt_if in H; simpl in H));
    simplify_eq; try done; by eapply IH.
Qed.

(** C35: a created trip loads back.  After a new [CreateTrip] on a database
    without orphan rows, [Load] succeeds exactly as stored: the owner, the time
    zone, revision and finalized sequence one, every activity in its order with
    its windows (times to the microsecond), the travel delays, the requested
    plan, the length of the completed prefix and the activity under way; unless
    an activity under way is not the first after the completed prefix. *)
Theorem create_then_load `{!PostgresLaws PG} clk r d c d' :
  foreign_keys d -> CreateTrip clk r d = Ok (c, d') -> rc_Duplicate c = false ->
  Forall draft_int64 (cr_PlanSegments r) -> - 2 ^ 63 <= clk 0%nat / 1000 <= max_int64 ->
  started_first (draft_states (request_states r) (cr_PlanSegments r)) = true ->
  exists s, Load (cr_TripID r) d' = Ok (s, d') /\
    ct_OwnerUserID s = cr_OwnerUserID r /\ ct_DefaultTimeZoneName s = cr_DefaultTimeZoneName r /\
    ct_TripRevision s = 1 /\ ct_FinalizedMutationSequence s = 1 /\
    ct_CurrentPlanID s = cr_PlanID r /\
    ct_Activities s = stored_activity <$> cr_Activities r /\
    ct_TravelDelays s ≡ₚ stored_delay <$> cr_TravelDelays r /\
    parseSnapshotCurrentPlan (cp_Payload (ct_CurrentPlan s)) =
      Ok (PlanWire (cr_PlanID r) 1 1 (wire_of_draft <$> cr_PlanSegments r) (clk 0%nat / 1000) "") /\
    (ct_CompletedPrefixCount s, ct_CurrentActivityID s) =
      expected_prefix (request_states r) 0 (cr_PlanSegments r).
Proof.
  intros Hfk H Hdup Hi Hclk Hsf.
  destruct (created_load_prefix _ _ _ _ _ Hfk H Hdup Hi Hclk) as (delays & acc & Hperm & Hloop & Hp & ->).
  destruct (load_open_prefix _ _ _ 0 _ _ _ ∅ Hloop eq_refl Hsf eq_refl) as (px & -> & Hexp).
  eexists. split; [reflexivity|]. cbn -[parseSnapshotCurrentPlan userCurrentPlanPayload].
  by split_and!.
Qed.

(** The validators accept an activity under way anywhere after the completed
    prefix, and [Load] does not: a created trip whose activity under way is not
    the first after that prefix is stored and never loads again. *)
Theorem created_trip_may_not_load `{!PostgresLaws PG} clk r d c d' :
  foreign_keys d -> CreateTrip clk r d = Ok (c, d') -> rc_Duplicate c = false ->
  Forall draft_int64 (cr_PlanSegments r) -> - 2 ^ 63 <= clk 0%nat / 1000 <= max_int64 ->
  started_first (draft_states (request_states r) (cr_PlanSegments r)) = false ->
  Load (cr_TripID r) d' = Err ErrCanonicalStateCorrupt.
Proof.
  intros Hfk H Hdup Hi Hclk Hsf.
  destruct (created_load_prefix _ _ _ _ _ Hfk H Hdup Hi Hclk) as (delays & acc & _ & _ & _ & ->).
  destruct (load_prefix _ _ _ _) as [px|e] eqn:Hpx.
  - apply load_prefix_started in Hpx. congruence.
  - apply load_prefix_corrupt in Hpx. by subst.
Qed.

End CreateLoad.

(** ** Witnesses *)

Lemma edited_plan_loads_witness :
  exists current plan, load_plan ex_trip ex_user ex_plan2 ex_reordered = Ok (current, plan) /\
    seg_activityID <$> pw_segments plan = [ex_activity_b; ex_activity_a].
Proof.
  destruct ex_reordered_ok as (c & Hc & Hd).
  destruct (edited_plan_loads ex_clock5 ex_reorder ex_db c ex_reordered Hc Hd)
    as (t & current & _ & Hl).
  - repeat constructor; unfold max_int64; simpl; lia.
  - vm_compute. split; discriminate.
  - do 2 eexists. split; [exact Hl|reflexivity].
Defined.

(** A server with one user and nothing else. *)
Definition ex_empty : @db pg_model := 
  @Db pg_model {[ex_user := ex_user_row]} ∅ ∅ ∅ ∅ ∅ ∅ ∅ ∅ ∅ ∅ no_saved no_auth.

Lemma ex_empty_foreign_keys : foreign_keys ex_empty.
Proof. constructor; intros k v Hk; simpl in Hk; by rewrite lookup_empty in Hk. Qed.

Definition ex_create (state : string) : CreateTripRequest :=
  MkCreateTrip ex_trip ex_user "UTC" ex_intent ex_message ex_message ex_plan
    [ex_draft_activity ex_activity_a "planned";
     set_Ordinal 1 (ex_draft_activity ex_activity_b state)]
    [MkTravelDelay ex_activity_a ex_activity_b 30 5000]
    [Draft ex_activity_a true (Some 0) (Some 60); Draft ex_activity_b false None None]
    (bytes_of_string "{}") (sha256 (bytes_of_string "{}")) (bytes_of_string "{}").

Definition ex_created (state : string) : @db pg_model :=
  committed (CreateTrip ex_clock5 (ex_create state)) ex_empty.

Lemma ex_created_ok state :
  returns (fun c => negb (rc_Duplicate c)) (CreateTrip ex_clock5 (ex_create state)) ex_empty = true ->
  exists c, CreateTrip ex_clock5 (ex_create state) ex_empty = Ok (c, ex_created state) /\
    rc_Duplicate c = false.
Proof.
  intros (c & Hc & Hd)%returns_ok. exists c. split; [exact Hc|by destruct (rc_Duplicate c)].
Qed.

Lemma ex_create_int64 state : Forall draft_int64 (cr_PlanSegments (ex_create state)).
Proof. repeat constructor; unfold max_int64; simpl; lia. Qed.

Lemma create_then_load_witness :
  exists s, Load ex_trip (ex_created "planned") = Ok (s, ex_created "planned") /\
    ct_TripRevision s = 1 /\
    ca_ID <$> ct_Activities s = [ex_activity_a; ex_activity_b].
Proof.
  destruct (ex_created_ok "planned" ltac:(vm_compute; reflexivity)) as (c & Hc & Hd).
  destruct (create_then_load ex_clock5 (ex_create "planned") ex_empty c _ ex_empty_foreign_keys Hc Hd)
    as (s & Hl & _ & _ & Hr & _ & _ & Ha & _).
  - apply ex_create_int64.
  - vm_compute. split; discriminate.
  - vm_compute. reflexivity.
  - exists s. split; [exact Hl|]. split; [exact Hr|]. rewrite Ha. reflexivity.
Defined.

Lemma created_trip_may_not_load_witness :
  Load ex_trip (ex_created "started") = Err ErrCanonicalStateCorrupt.
Proof.
  destruct (ex_created_ok "started" ltac:(vm_compute; reflexivity)) as (c & Hc & Hd).
  refine (created_trip_may_not_load ex_clock5 (ex_create "started") ex_empty c _
    ex_empty_foreign_keys Hc Hd _ _ _).
  - apply ex_create_int64.
  - vm_compute. split; discriminate.
  - vm_compute. reflexivity.
Defined.
