(* ===== verification/Mirror.v ===== *)
(** * Mirroring canonical-first commands

    Models [persistence/canonical_mirror.go]: the runtime's acknowledgement of
    a canonical-first command.  One path commits and returns an error (an
    acknowledgement that names another identity pauses the mirror), so the
    operation returns a result and a database. *)

From S2P Require Import Prelude GoLib Wire Schema Tables Leases Commands.
From S2P Require Import Finalization CanonicalState Canonical CanonicalFacts.

Section Mirror.
Context {PG : Postgres}.

Record FinalizeCanonicalMirrorRequest := MkMirrorRequest {
  fm_TripID : string;
  fm_IntentID : string;
  fm_OutboxID : string;
  fm_EventID : string;
  fm_MutationSequence : Z;
  fm_ExpectedTripRevision : Z;
  fm_ResultingTripRevision : Z;
  fm_ResultingCurrentPlanID : string
}.

Record FinalizedCanonicalMirror := MkMirror {
  mi_IntentID : string;
  mi_OutboxID : string;
  mi_TripID : string;
  mi_EventID : string;
  mi_MutationSequence : Z;
  mi_ExpectedTripRevision : Z;
  mi_ResultingTripRevision : Z;
  mi_ResultingCurrentPlanID : string;
  mi_RuntimeSyncState : sync_state;
  mi_DeliveryState : delivery_state;
  mi_Duplicate : bool
}.

Definition validateCanonicalMirrorFinalization (r : FinalizeCanonicalMirrorRequest)
  : result unit :=
  _ ← reject_if (negb (forallb validCanonicalUUID
          [fm_TripID r; fm_IntentID r; fm_OutboxID r; fm_EventID r]))
        (ErrInvalid "canonical mirror identifiers must be canonical lowercase UUIDs");
  reject_if ((max_int64 <? fm_MutationSequence r) || (max_int64 <? fm_ExpectedTripRevision r) ||
             (max_int64 <? fm_ResultingTripRevision r))
    (ErrInvalid "canonical mirror versions are out of range").

Definition canonicalMirrorIdentityMatches (r : FinalizeCanonicalMirrorRequest) (i : intent)
  : bool :=
  (bool_decide (i_command_kind i = CommandTripEdited) ||
   bool_decide (i_command_kind i = CommandReplaceCurrentPlan)) &&
  bool_decide (i_state i = IntentApplied) && bool_decide (i_event_id i = fm_EventID r) &&
  (i_mutation_sequence i =? int64 (fm_MutationSequence r)) &&
  (i_expected_trip_revision i =? int64 (fm_ExpectedTripRevision r)) &&
  match i_resulting_trip_revision i with
  | Some v => v =? int64 (fm_ResultingTripRevision r)
  | None => false
  end &&
  match i_resulting_current_plan_id i with
  | Some p => validCanonicalUUID p && bool_decide (p = fm_ResultingCurrentPlanID r)
  | None => false
  end.

Definition canonicalMirrorResult (r : FinalizeCanonicalMirrorRequest) (planID : string)
    (sync : sync_state) (delivery : delivery_state) (duplicate : bool)
  : FinalizedCanonicalMirror :=
  MkMirror (fm_IntentID r) (fm_OutboxID r) (fm_TripID r) (fm_EventID r) (fm_MutationSequence r)
    (fm_ExpectedTripRevision r) (fm_ResultingTripRevision r) planID sync delivery duplicate.

(** [WHERE id AND trip_id AND application_order = 'canonical_first']. *)
Definition lock_mirror_intent (r : FinalizeCanonicalMirrorRequest) : tx intent :=
  find_row (fun d => i ← intents d !! fm_IntentID r;
    if bool_decide (i_trip_id i = fm_TripID r) &&
       bool_decide (i_application_order i = canonical_first) then Some i else None)
    ErrCommandNotFound.

Definition pause_outbox (now : Z) (o : outbox_row) : outbox_row :=
  set_o_updated_at now
    (set_o_claim_expires_at None
      (set_o_claim_owner None
        (set_o_last_status (Some "INTERNAL")
          (set_o_delivery_state DeliveryPausedInternal o)))).

Definition pauseCanonicalMirror (clk : nat -> Z) (r : FinalizeCanonicalMirrorRequest) : tx unit :=
  _ ← update_outbox (fm_OutboxID r) (fun o =>
        if bool_decide (o_delivery_state o = DeliveryPending) then pause_outbox (clk 0%nat) o else o);
  update_intent "pause canonical mirror intent" (fm_IntentID r) (fun i =>
    if bool_decide (i_runtime_sync_state i = SyncPending)
    then set_i_runtime_sync_state SyncPausedInternal i else i).

(** The rest of the transaction, once its rows are locked. *)
Definition mirror_body (clk : nat -> Z) (r : FinalizeCanonicalMirrorRequest) (i : intent)
    (o : outbox_row) : tx (result FinalizedCanonicalMirror) :=
  let identityMatches := canonicalMirrorIdentityMatches r i in
  let planID := default "" (i_resulting_current_plan_id i) in
  let sync := i_runtime_sync_state i in
  let delivery := o_delivery_state o in
  if bool_decide (sync = SyncSynced) || bool_decide (delivery = DeliveryAccepted) then
    _ ← guard (negb identityMatches || negb (bool_decide (sync = SyncSynced)) ||
               negb (bool_decide (delivery = DeliveryAccepted))) ErrCanonicalMirrorConflict;
    mret (Ok (canonicalMirrorResult r planID sync delivery true))
  else
    _ ← guard (bool_decide (sync = SyncPausedInternal) ||
               bool_decide (delivery = DeliveryPausedInternal)) ErrCanonicalMirrorPaused;
    _ ← guard (negb (bool_decide (sync = SyncPending)) ||
               negb (bool_decide (delivery = DeliveryPending))) ErrCanonicalMirrorConflict;
    if negb identityMatches then
      _ ← pauseCanonicalMirror clk r;
      mret (Err ErrCanonicalMirrorIdentity)
    else
      _ ← update_outbox (fm_OutboxID r) (resolve_outbox DeliveryAccepted "OK" (clk 0%nat));
      _ ← update_intent "resolve canonical mirror intent" (fm_IntentID r)
            (set_i_runtime_sync_state SyncSynced);
      mret (Ok (canonicalMirrorResult r planID SyncSynced DeliveryAccepted false)).

(** The committed transaction and what it answers. *)
Definition mirror_tx (clk : nat -> Z) (r : FinalizeCanonicalMirrorRequest)
  : tx (result FinalizedCanonicalMirror) :=
  _ ← lift (validateCanonicalMirrorFinalization r);
  _ ← lock_trip_row (fm_TripID r);
  i ← lock_mirror_intent r;
  o ← lock_outbox (fm_TripID r) (fm_IntentID r) (fm_OutboxID r);
  mirror_body clk r i o.

Definition FinalizeCanonicalMirror (clk : nat -> Z) (r : FinalizeCanonicalMirrorRequest) (d : db)
  : result FinalizedCanonicalMirror * db :=
  match mirror_tx clk r d with
  | Ok (answer, d') => (answer, d')
  | Err e => (Err e, d)
  end.

(** ** Lemmas *)

(** The rows an acknowledgement names. *)
Record mirror_rows (r : FinalizeCanonicalMirrorRequest) (i : intent) (o : outbox_row) (d : db)
  : Prop := {
  mr_valid : validateCanonicalMirrorFinalization r = Ok tt;
  mr_trip : is_Some (trips d !! fm_TripID r);
  mr_intent : intents d !! fm_IntentID r = Some i;
  mr_intent_trip : i_trip_id i = fm_TripID r;
  mr_order : i_application_order i = canonical_first;
  mr_outbox : outbox d !! fm_OutboxID r = Some o;
  mr_outbox_intent : o_command_intent_id o = fm_IntentID r;
  mr_outbox_trip : o_trip_id o = fm_TripID r
}.

Lemma lock_mirror_intent_ok r d i d' :
  lock_mirror_intent r d = Ok (i, d') <->
  (intents d !! fm_IntentID r = Some i /\ i_trip_id i = fm_TripID r /\
   i_application_order i = canonical_first) /\ d' = d.
Proof.
  unfold lock_mirror_intent. rewrite find_row_ok, bind_Some. split.
  - intros [(x & Hx & Hc) ->]. case_match eqn:E; simplify_eq. inv_res. done.
  - intros [(Hi & Ht & Ho) ->]. split; [|done]. exists i. by rewrite !bool_decide_eq_true_2.
Qed.

Lemma mirror_tx_rows clk r i o d :
  mirror_rows r i o d -> mirror_tx clk r d = mirror_body clk r i o d.
Proof.
  intros [Hv [t Ht] Hi Hit Hord Ho Hoi Hot]. unfold mirror_tx. run_tx_step; [exact Hv|].
  eapply tx_bind_run; [by apply lock_trip_row_ok|].
  eapply tx_bind_run; [by apply lock_mirror_intent_ok|].
  eapply tx_bind_run; [by apply lock_outbox_ok|]. reflexivity.
Qed.

Lemma mirror_tx_ok clk r d a d' :
  mirror_tx clk r d = Ok (a, d') ->
  exists i o, mirror_rows r i o d /\ mirror_body clk r i o d = Ok (a, d').
Proof.
  intros H. assert (H' := H). unfold mirror_tx in H'.
  apply tx_bind_ok in H' as ([] & ? & Hv%lift_ok & H'). destruct Hv as [Hv ->].
  apply tx_bind_ok in H' as (t & ? & Ht%lock_trip_row_ok & H'). destruct Ht as [Ht ->].
  apply tx_bind_ok in H' as (i & ? & Hi%lock_mirror_intent_ok & H'). destruct Hi as [(? & ? & ?) ->].
  apply tx_bind_ok in H' as (o & ? & Ho%lock_outbox_ok & H'). destruct Ho as [(? & ? & ?) ->].
  exists i, o. split; [|exact H']. by constructor.
Qed.

(** The rows are still the acknowledged ones after the intent and the outbox
    row change in place. *)
Lemma mirror_rows_update r i o i' o' d :
  mirror_rows r i o d -> i_trip_id i' = i_trip_id i -> i_application_order i' = canonical_first ->
  o_command_intent_id o' = o_command_intent_id o -> o_trip_id o' = o_trip_id o ->
  mirror_rows r i' o' (set_intents (<[fm_IntentID r := i']> (intents d))
    (set_outbox (<[fm_OutboxID r := o']> (outbox d)) d)).
Proof.
  intros [] ? ? ? ?. constructor; simpl; rewrite ?lookup_insert_eq; congruence.
Qed.

(** A waiting mirror pauses on an acknowledgement of another identity. *)
Lemma mirror_body_pauses clk r i o d :
  mirror_rows r i o d -> i_runtime_sync_state i = SyncPending ->
  o_delivery_state o = DeliveryPending -> intent_check i = true ->
  canonicalMirrorIdentityMatches r i = false ->
  mirror_body clk r i o d = Ok (Err ErrCanonicalMirrorIdentity,
    set_intents (<[fm_IntentID r := set_i_runtime_sync_state SyncPausedInternal i]> (intents d))
      (set_outbox (<[fm_OutboxID r := pause_outbox (clk 0%nat) o]> (outbox d)) d)).
Proof.
  intros Hrows Hs Hd Hck Hid. unfold mirror_body. rewrite Hs, Hd, Hid.
  do 2 (eapply tx_bind_run; [reflexivity|]).
  eapply tx_bind_run; [|reflexivity]. unfold pauseCanonicalMirror.
  eapply tx_bind_run; [by apply (update_outbox_ok _ _ _ tt)|].
  eapply update_intent_ok; [exact (mr_intent _ _ _ _ Hrows)|].
  rewrite Hs. split; [exact Hck|]. simpl.
  erewrite alter_insert_Some by exact (mr_outbox _ _ _ _ Hrows). by rewrite Hd.
  Unshelve. exact tt.
Qed.

(** ** Properties *)

(** An acknowledgement that matches the stored command settles the mirror:
    the command was applied, waiting and undelivered; it is now synced and its
    outbox row accepted and unclaimed, no longer unresolved, and nothing else
    changes. *)
Theorem mirror_acknowledged clk r d m d' :
  FinalizeCanonicalMirror clk r d = (Ok m, d') -> mi_Duplicate m = false ->
  exists i o, intents d !! fm_IntentID r = Some i /\ outbox d !! fm_OutboxID r = Some o /\
    i_trip_id i = fm_TripID r /\ i_application_order i = canonical_first /\
    i_state i = IntentApplied /\ i_runtime_sync_state i = SyncPending /\
    o_delivery_state o = DeliveryPending /\
    i_resulting_current_plan_id i = Some (fm_ResultingCurrentPlanID r) /\
    d' = set_intents (<[fm_IntentID r := set_i_runtime_sync_state SyncSynced i]> (intents d))
           (set_outbox (<[fm_OutboxID r := resolve_outbox DeliveryAccepted "OK" (clk 0%nat) o]>
              (outbox d)) d) /\
    unresolved i = true /\ unresolved (set_i_runtime_sync_state SyncSynced i) = false.
Proof.
  unfold FinalizeCanonicalMirror. intros H Hdup.
  destruct (mirror_tx clk r d) as [[a d1]|] eqn:Htx; [|done]. injection H as -> ->.
  apply mirror_tx_ok in Htx as (i & o & Hrows & Hb). exists i, o.
  pose proof Hrows as [_ _ Hi ? Hord Ho _ _]. unfold mirror_body in Hb.
  destruct (_ || _) eqn:E in Hb; [by inv_tx|].
  apply tx_bind_ok in Hb as ([] & d2 & [_ ->]%guard_ok & Hb).
  apply tx_bind_ok in Hb as ([] & d2 & [Hst ->]%guard_ok & Hb).
  destruct (canonicalMirrorIdentityMatches r i) eqn:Hid; simpl in Hb; [|inv_tx; done].
  unfold canonicalMirrorIdentityMatches in Hid. inv_op.
  erewrite alter_insert_Some in * by exact Ho.
  destruct (i_resulting_current_plan_id i); [|done]. inv_res.
  split_and!; try done; unfold unresolved; simpl; rewrite Hord; [|done].
  by rewrite bool_decide_eq_true_2.
Qed.

(** Acknowledging twice is harmless: the same acknowledgement again is
    answered as a duplicate with the settled states and changes nothing. *)
Theorem mirror_idempotent clk clk' r d m d' :
  FinalizeCanonicalMirror clk r d = (Ok m, d') -> mi_Duplicate m = false ->
  exists m', FinalizeCanonicalMirror clk' r d' = (Ok m', d') /\ mi_Duplicate m' = true /\
    mi_RuntimeSyncState m' = SyncSynced /\ mi_DeliveryState m' = DeliveryAccepted /\
    mi_ResultingCurrentPlanID m' = mi_ResultingCurrentPlanID m.
Proof.
  unfold FinalizeCanonicalMirror. intros H Hdup.
  destruct (mirror_tx clk r d) as [[a d1]|] eqn:Htx; [|done]. injection H as -> ->.
  apply mirror_tx_ok in Htx as (i & o & Hrows & Hb).
  pose proof Hrows as [_ _ _ _ Hord Ho _ _]. unfold mirror_body in Hb.
  destruct (_ || _) eqn:E in Hb; [by inv_tx|].
  apply tx_bind_ok in Hb as ([] & d2 & [_ ->]%guard_ok & Hb).
  apply tx_bind_ok in Hb as ([] & d2 & [Hst ->]%guard_ok & Hb).
  destruct (canonicalMirrorIdentityMatches r i) eqn:Hid; simpl in Hb; [|inv_tx; done].
  pose proof (mr_intent _ _ _ _ Hrows) as Hi. inv_op.
  erewrite alter_insert_Some by exact Ho.
  rewrite (mirror_tx_rows clk' r (set_i_runtime_sync_state SyncSynced i)
    (resolve_outbox DeliveryAccepted "OK" (clk 0%nat) o))
    by (by refine (mirror_rows_update r i o _ _ d _ _ _ _ _)).
  unfold mirror_body. simpl. change (canonicalMirrorIdentityMatches r
    (set_i_runtime_sync_state SyncSynced i)) with (canonicalMirrorIdentityMatches r i).
  rewrite Hid. eexists. split; [reflexivity|]. done.
Qed.

(** An acknowledgement of a waiting mirror that names another event,
    revision, sequence or plan is refused and pauses the mirror: the refusal is
    committed, the command stays unresolved, every later acknowledgement, right
    or wrong, is answered [ErrCanonicalMirrorPaused] without effect, and no
    runtime command of the trip can be recorded. *)
Theorem mirror_mismatch_pauses clk r i o d :
  mirror_rows r i o d -> i_runtime_sync_state i = SyncPending ->
  o_delivery_state o = DeliveryPending -> intent_check i = true ->
  canonicalMirrorIdentityMatches r i = false ->
  exists d', FinalizeCanonicalMirror clk r d = (Err ErrCanonicalMirrorIdentity, d') /\
    intents d' = <[fm_IntentID r := set_i_runtime_sync_state SyncPausedInternal i]> (intents d) /\
    outbox d' = <[fm_OutboxID r := pause_outbox (clk 0%nat) o]> (outbox d) /\
    (forall clk' r', validateCanonicalMirrorFinalization r' = Ok tt ->
       fm_TripID r' = fm_TripID r -> fm_IntentID r' = fm_IntentID r ->
       fm_OutboxID r' = fm_OutboxID r ->
       FinalizeCanonicalMirror clk' r' d' = (Err ErrCanonicalMirrorPaused, d')) /\
    hasUnresolved (fm_TripID r) d' = true.
Proof.
  intros Hrows Hs Hd Hck Hid.
  set (i' := set_i_runtime_sync_state SyncPausedInternal i).
  set (o' := pause_outbox (clk 0%nat) o).
  set (d' := set_intents (<[fm_IntentID r := i']> (intents d))
               (set_outbox (<[fm_OutboxID r := o']> (outbox d)) d)).
  assert (Hrows' : mirror_rows r i' o' d').
  { apply (mirror_rows_update _ i o); try done. apply (mr_order _ _ _ _ Hrows). }
  exists d'. split.
  { unfold FinalizeCanonicalMirror. rewrite (mirror_tx_rows _ _ _ _ _ Hrows).
    by rewrite (mirror_body_pauses _ _ _ _ _ Hrows). }
  split; [done|]. split; [done|]. split.
  - intros clk' r' Hv Et Ei Eo. unfold FinalizeCanonicalMirror.
    assert (Hr' : mirror_rows r' i' o' d').
    { destruct Hrows'. constructor; rewrite ?Et, ?Ei, ?Eo; done. }
    rewrite (mirror_tx_rows _ _ _ _ _ Hr'). unfold mirror_body. simpl. done.
  - unfold hasUnresolved. apply any_row_true. exists (fm_IntentID r), i'. split.
    + simpl. by rewrite lookup_insert_eq.
    + unfold unresolved. simpl. rewrite (mr_order _ _ _ _ Hrows), (mr_intent_trip _ _ _ _ Hrows).
      by rewrite bool_decide_eq_true_2.
Qed.

End Mirror.

(** ** Witnesses *)

Definition ex_ack (plan : string) : FinalizeCanonicalMirrorRequest :=
  MkMirrorRequest ex_trip ex_intent ex_outbox ex_message 1 1 2 plan.

Definition ex_ack_ok (d : @db pg_model) : bool :=
  match FinalizeCanonicalMirror ex_clock5 (ex_ack ex_plan2) d with
  | (Ok m, _) => negb (mi_Duplicate m)
  | (Err _, _) => false
  end.

Lemma ex_acknowledged : exists m,
  FinalizeCanonicalMirror ex_clock5 (ex_ack ex_plan2) ex_reordered =
    (Ok m, (FinalizeCanonicalMirror ex_clock5 (ex_ack ex_plan2) ex_reordered).2) /\
  mi_Duplicate m = false.
Proof.
  assert (H : ex_ack_ok ex_reordered = true) by (vm_compute; reflexivity).
  unfold ex_ack_ok in H. destruct (FinalizeCanonicalMirror _ _ _) as [[m|] d]; [|done].
  exists m. split; [done|by destruct (mi_Duplicate m)].
Qed.

Lemma mirror_acknowledged_witness : exists i,
  intents ex_reordered !! ex_intent = Some i /\ i_runtime_sync_state i = SyncPending.
Proof.
  destruct ex_acknowledged as (m & Hm & Hd).
  destruct (mirror_acknowledged _ _ _ _ _ Hm Hd) as (i & o & Hi & _ & _ & _ & _ & Hs & _).
  exists i. split; [exact Hi|exact Hs].
Defined.

Lemma mirror_idempotent_witness : exists m (d' : @db pg_model),
  FinalizeCanonicalMirror ex_clock5 (ex_ack ex_plan2) d' = (Ok m, d') /\ mi_Duplicate m = true.
Proof.
  destruct ex_acknowledged as (m & Hm & Hd).
  destruct (mirror_idempotent _ ex_clock5 _ _ _ _ Hm Hd) as (m' & Hm' & Hd' & _).
  exists m', ((FinalizeCanonicalMirror ex_clock5 (ex_ack ex_plan2) ex_reordered).2).
  split; [exact Hm'|exact Hd'].
Defined.

(** The example trip with its edit waiting, acknowledged for the old plan. *)
Lemma mirror_mismatch_pauses_witness : exists d',
  FinalizeCanonicalMirror ex_clock5 (ex_ack ex_plan) ex_reordered =
    (Err ErrCanonicalMirrorIdentity, d') /\ hasUnresolved ex_trip d' = true.
Proof.
  destruct ex_acknowledged as (m & Hm & Hd).
  destruct (mirror_acknowledged _ _ _ _ _ Hm Hd)
    as (i & o & Hi & Ho & Hit & Hord & _ & Hs & Hdel & Hp & _).
  destruct (mirror_mismatch_pauses ex_clock5 (ex_ack ex_plan) i o ex_reordered)
    as (d' & Hf & _ & _ & _ & Hu).
  - constructor.
    + reflexivity.
    + assert (E : option_map (fun _ => tt) (trips ex_reordered !! ex_trip) = Some tt)
        by (vm_compute; reflexivity).
      change (is_Some (trips ex_reordered !! ex_trip)).
      destruct (trips ex_reordered !! ex_trip) as [t|]; [exists t; reflexivity|discriminate E].
    + exact Hi.
    + exact Hit.
    + exact Hord.
    + exact Ho.
    + assert (E : option_map (@o_command_intent_id pg_model) (outbox ex_reordered !! ex_outbox)
        = Some ex_intent) by (vm_compute; reflexivity).
      change (outbox ex_reordered !! ex_outbox = Some o) in Ho. rewrite Ho in E.
      injection E as E. exact E.
    + assert (E : option_map (@o_trip_id pg_model) (outbox ex_reordered !! ex_outbox)
        = Some ex_trip) by (vm_compute; reflexivity).
      change (outbox ex_reordered !! ex_outbox = Some o) in Ho. rewrite Ho in E.
      injection E as E. exact E.
  - exact Hs.
  - exact Hdel.
  - assert (E : option_map (@intent_check pg_model) (intents ex_reordered !! ex_intent) = Some true)
      by (vm_compute; reflexivity).
    change (intents ex_reordered !! ex_intent = Some i) in Hi. rewrite Hi in E.
    injection E as E. exact E.
  - assert (E : option_map (@canonicalMirrorIdentityMatches pg_model (ex_ack ex_plan))
      (intents ex_reordered !! ex_intent) = Some false) by (vm_compute; reflexivity).
    change (intents ex_reordered !! ex_intent = Some i) in Hi. rewrite Hi in E.
    injection E as E. exact E.
  - exists d'. split; [exact Hf|exact Hu].
Defined.
