(* ===== verification/Snapshots.v ===== *)
(** * Planner snapshots

    Models [persistence/snapshots.go]: storing a snapshot of the runtime, which
    retires older ones and prunes the outbox rows it covers, and finding the
    snapshot a new runtime starts from.  [PersistSnapshot] is [Persist] of
    [SnapshotStore]; [proposals.go] has an operation of the same
    name.  [LoadForRecovery] reads once and then runs one transaction per invalid
    snapshot, so it returns a result and a database. *)

From S2P Require Import Prelude GoLib Wire Schema Tables Leases Commands Finalization.

Section Snapshots.
Context {PG : Postgres}.

Definition MaxSnapshotPayloadBytes : Z := 2 * 1024 * 1024.

Record SnapshotBlob := MkBlob {
  sb_ID : string;
  sb_TripID : string;
  sb_SchemaVersion : Z;
  sb_SourceRuntimeEpoch : Z;
  sb_SourcePlannerStateVersion : Z;
  sb_TripRevision : Z;
  sb_CoveredFinalizedMutationSequence : Z;
  sb_Payload : bytes;
  sb_Checksum : bytes
}.

Record StoredSnapshot := MkStored {
  ss_SnapshotBlob : SnapshotBlob;
  ss_CreatedAt : Z;
  ss_Duplicate : bool;
  ss_declaredPayloadSize : Z
}.

(** The payload names another trip, revision or sequence. *)
Definition metadata_differs (payload : snapshotPayloadMetadata) (b : SnapshotBlob) : bool :=
  negb (bool_decide (sm_tripID payload = sb_TripID b)) ||
  negb (sm_tripRevision payload =? sb_TripRevision b) ||
  negb (sm_finalizedMutationSequence payload =? sb_CoveredFinalizedMutationSequence b).

Definition validateSnapshotBlob (b : SnapshotBlob) : result unit :=
  _ ← reject_if (negb (validCanonicalUUID (sb_ID b)) || negb (validCanonicalUUID (sb_TripID b)))
        ErrSnapshotInvalid;
  _ ← reject_if (negb (sb_SchemaVersion b =? 1) || (sb_SourceRuntimeEpoch b =? 0) ||
                 (max_int64 <? sb_SourceRuntimeEpoch b) ||
                 (max_int64 <? sb_SourcePlannerStateVersion b) ||
                 (sb_TripRevision b =? 0) || (max_int64 <? sb_TripRevision b) ||
                 (max_int64 <? sb_CoveredFinalizedMutationSequence b) ||
                 (zlen (sb_Payload b) =? 0) || (MaxSnapshotPayloadBytes <? zlen (sb_Payload b)))
        ErrSnapshotInvalid;
  _ ← reject_if (negb (constant_time_eq (sha256 (sb_Payload b)) (sb_Checksum b)))
        ErrSnapshotInvalid;
  match parseSnapshotPayload (sb_Payload b) with
  | Err _ => Err ErrSnapshotInvalid
  | Ok payload => reject_if (metadata_differs payload b) ErrSnapshotInvalid
  end.

Definition snapshotIsOlder (candidate current : SnapshotBlob) : bool :=
  if negb (sb_SourceRuntimeEpoch candidate =? sb_SourceRuntimeEpoch current) then
    sb_SourceRuntimeEpoch candidate <? sb_SourceRuntimeEpoch current
  else if negb (sb_SourcePlannerStateVersion candidate =? sb_SourcePlannerStateVersion current) then
    sb_SourcePlannerStateVersion candidate <? sb_SourcePlannerStateVersion current
  else if negb (sb_CoveredFinalizedMutationSequence candidate =?
                sb_CoveredFinalizedMutationSequence current) then
    sb_CoveredFinalizedMutationSequence candidate <? sb_CoveredFinalizedMutationSequence current
  else sb_TripRevision candidate <? sb_TripRevision current.

Definition snapshotIsNewer (left right : StoredSnapshot) : bool :=
  let l := ss_SnapshotBlob left in
  let r := ss_SnapshotBlob right in
  if negb (sb_SourceRuntimeEpoch l =? sb_SourceRuntimeEpoch r) then
    sb_SourceRuntimeEpoch r <? sb_SourceRuntimeEpoch l
  else if negb (sb_SourcePlannerStateVersion l =? sb_SourcePlannerStateVersion r) then
    sb_SourcePlannerStateVersion r <? sb_SourcePlannerStateVersion l
  else if negb (sb_CoveredFinalizedMutationSequence l =?
                sb_CoveredFinalizedMutationSequence r) then
    sb_CoveredFinalizedMutationSequence r <? sb_CoveredFinalizedMutationSequence l
  else if negb (sb_TripRevision l =? sb_TripRevision r) then
    sb_TripRevision r <? sb_TripRevision l
  else if negb (ss_CreatedAt left =? ss_CreatedAt right) then
    ss_CreatedAt right <? ss_CreatedAt left
  else negb (bool_decide (String.le (sb_ID l) (sb_ID r))).

(** The order of [sort.Slice] with [snapshotIsNewer]. *)
Definition stored_order (x y : StoredSnapshot) : Prop := snapshotIsNewer y x = false.
#[global] Instance stored_order_dec : RelDecision stored_order.
Proof. intros x y. unfold stored_order. apply _. Defined.

(** ** Reading rows *)

Definition scanStoredSnapshot (duplicate : bool) (kv : string * snapshot)
  : result StoredSnapshot :=
  let '(id, s) := kv in
  _ ← reject_if (negb (s_snapshot_schema_version s =? 1) || (s_source_runtime_epoch s <=? 0) ||
                 (s_source_planner_state_version s <? 0) || (s_trip_revision s <=? 0) ||
                 (s_covered_finalized_mutation_sequence s <? 0) ||
                 (s_payload_size_bytes s <? 0) || negb (zlen (s_checksum s) =? 32))
        ErrSnapshotInvalid;
  Ok (MkStored
        (MkBlob id (s_trip_id s) (uint32 (s_snapshot_schema_version s))
           (uint64 (s_source_runtime_epoch s)) (uint64 (s_source_planner_state_version s))
           (uint64 (s_trip_revision s)) (uint64 (s_covered_finalized_mutation_sequence s))
           (s_payload s) (s_checksum s))
        (s_created_at s) duplicate (s_payload_size_bytes s)).

Fixpoint scan_snapshots (rows : list (string * snapshot)) : result (list StoredSnapshot) :=
  match rows with
  | [] => Ok []
  | kv :: rest => s ← scanStoredSnapshot false kv; l ← scan_snapshots rest; Ok (s :: l)
  end.

Definition storedSnapshotValidationReason (s : StoredSnapshot) : string :=
  let b := ss_SnapshotBlob s in
  if (zlen (sb_Payload b) =? 0) || (MaxSnapshotPayloadBytes <? zlen (sb_Payload b)) ||
     negb (ss_declaredPayloadSize s =? int32 (zlen (sb_Payload b)))
  then "payload_size_invalid"
  else if negb (constant_time_eq (sha256 (sb_Payload b)) (sb_Checksum b))
  then "checksum_mismatch"
  else match parseSnapshotPayload (sb_Payload b) with
  | Err _ => "payload_invalid"
  | Ok payload => if metadata_differs payload b then "metadata_mismatch" else ""
  end.

(** [WHERE trip_id = $1 AND invalidated_at IS NULL AND snapshot_schema_version = 1]. *)
Definition live (tripID : string) (_ : string) (s : snapshot) : bool :=
  bool_decide (s_trip_id s = tripID) && is_null (s_invalidated_at s) &&
  (s_snapshot_schema_version s =? 1).

(** [ORDER BY id]. *)
Definition by_id (x y : string * snapshot) : Prop := String.le x.1 y.1.
#[global] Instance by_id_dec : RelDecision by_id.
Proof. intros x y. unfold by_id. apply _. Defined.

(** Compares two rows column by column; [tie] decides when all are equal. *)
Fixpoint lex_newer (tie : bool) (xs ys : list Z) : bool :=
  match xs, ys with
  | x :: xs, y :: ys => if x =? y then lex_newer tie xs ys else y <? x
  | _, _ => tie
  end.

Definition row_columns (s : snapshot) : list Z :=
  [s_source_runtime_epoch s; s_source_planner_state_version s;
   s_covered_finalized_mutation_sequence s; s_trip_revision s; s_created_at s].

Definition row_newer (x y : string * snapshot) : bool :=
  lex_newer (negb (bool_decide (String.le x.1 y.1))) (row_columns x.2) (row_columns y.2).

(** [ORDER BY source_runtime_epoch DESC, source_planner_state_version DESC,
    covered_finalized_mutation_sequence DESC, trip_revision DESC, created_at DESC,
    id DESC]. *)
Definition newest_snapshot (x y : string * snapshot) : Prop := row_newer y x = false.
#[global] Instance newest_snapshot_dec : RelDecision newest_snapshot.
Proof. intros x y. unfold newest_snapshot. apply _. Defined.

(** ** [Persist] *)

(** The row with the identity of the blob: [trip_id], [source_runtime_epoch],
    [source_planner_state_version] and [covered_finalized_mutation_sequence]. *)
Definition same_identity (b : SnapshotBlob) (_ : string) (s : snapshot) : bool :=
  bool_decide (s_trip_id s = sb_TripID b) &&
  (s_source_runtime_epoch s =? int64 (sb_SourceRuntimeEpoch b)) &&
  (s_source_planner_state_version s =? int64 (sb_SourcePlannerStateVersion b)) &&
  (s_covered_finalized_mutation_sequence s =? int64 (sb_CoveredFinalizedMutationSequence b)).

Definition differs_from_stored (b existing : SnapshotBlob) : bool :=
  negb (bool_decide (sb_ID existing = sb_ID b)) ||
  negb (sb_TripRevision existing =? sb_TripRevision b) ||
  negb (sb_SchemaVersion existing =? sb_SchemaVersion b) ||
  negb (constant_time_eq (sb_Checksum existing) (sb_Checksum b)) ||
  negb (bool_decide (sb_Payload existing = sb_Payload b)).

(** A covered row that is not delivered or not confirmed. *)
Definition not_ready (b : SnapshotBlob) (_ : string) (o : outbox_row) : bool :=
  covered (sb_TripID b) (int64 (sb_CoveredFinalizedMutationSequence b)) o &&
  (negb (delivery_resolved o) || is_null (o_finalization_confirmed_at o)).

(** The loop over the stored snapshots: the valid ones, and the identifier and
    reason of the others. *)
Definition sort_out (acc : list StoredSnapshot * list (string * string))
    (kv : string * snapshot) : result (list StoredSnapshot * list (string * string)) :=
  let '(valid, invalid) := acc in
  s ← scanStoredSnapshot false kv;
  let reason := storedSnapshotValidationReason s in
  if bool_decide (reason = "") then Ok (valid ++ [s], invalid)
  else Ok (valid, invalid ++ [(sb_ID (ss_SnapshotBlob s), reason)]).

(** [UPDATE ... SET invalidated_at, invalidation_reason WHERE id AND trip_id AND
    invalidated_at IS NULL]. *)
Definition invalidate_row (tripID : string) (now : Z) (id reason : string) : tx unit :=
  modify (fun d => set_snapshots
    (update_rows (fun k s => bool_decide (k = id) && bool_decide (s_trip_id s = tripID) &&
                             is_null (s_invalidated_at s))
       (fun s => set_s_invalidation_reason (Some reason) (set_s_invalidated_at (Some now) s))
       (snapshots d)) d).

Definition stale_against (b : SnapshotBlob) (newest : option StoredSnapshot) : bool :=
  match newest with
  | None => false
  | Some n =>
      snapshotIsOlder b (ss_SnapshotBlob n) ||
      (sb_TripRevision b <? sb_TripRevision (ss_SnapshotBlob n)) ||
      (sb_CoveredFinalizedMutationSequence b <?
       sb_CoveredFinalizedMutationSequence (ss_SnapshotBlob n))
  end.

(** The [CHECK]s of a row of [planner_snapshots]. *)
Definition snapshot_check (s : snapshot) : bool :=
  (s_snapshot_schema_version s =? 1) && (0 <? s_source_runtime_epoch s) &&
  (0 <=? s_source_planner_state_version s) && (0 <=? s_trip_revision s) &&
  (0 <=? s_covered_finalized_mutation_sequence s) && (0 <=? s_payload_size_bytes s) &&
  in_integer (s_payload_size_bytes s) && (zlen (s_checksum s) =? 32).

(** The unique key of [planner_snapshots]. *)
Definition same_key (s q : snapshot) : bool :=
  bool_decide (s_trip_id q = s_trip_id s) &&
  (s_source_runtime_epoch q =? s_source_runtime_epoch s) &&
  (s_source_planner_state_version q =? s_source_planner_state_version s) &&
  (s_covered_finalized_mutation_sequence q =? s_covered_finalized_mutation_sequence s).

Definition insert_snapshot (op id : string) (s : snapshot) : tx unit := fun d =>
  if bool_decide (is_Some (snapshots d !! id)) ||
     negb (bool_decide (is_Some (trips d !! s_trip_id s))) ||
     any_row (fun _ => same_key s) (snapshots d) || negb (snapshot_check s)
  then Err (ErrDatabase op)
  else Ok (tt, set_snapshots (<[id := s]> (snapshots d)) d).

Definition snapshot_row (b : SnapshotBlob) (now : Z) : snapshot :=
  Snapshot (sb_TripID b) (int32 (sb_SchemaVersion b)) (int64 (sb_SourceRuntimeEpoch b))
    (int64 (sb_SourcePlannerStateVersion b)) (int64 (sb_TripRevision b))
    (int64 (sb_CoveredFinalizedMutationSequence b)) (zlen (sb_Payload b)) (sb_Checksum b)
    (sb_Payload b) now None None.

(** [SELECT id ... ORDER BY ... OFFSET 2]. *)
Definition retired (tripID : string) (d : db) : list string :=
  (drop 2 (merge_sort newest_snapshot (rows_where (live tripID) (snapshots d)))).*1.

Definition retain_newest (tripID : string) : tx unit :=
  modify (fun d => set_snapshots
    (delete_rows (fun k _ => bool_decide (k ∈ retired tripID d)) (snapshots d)) d).

Definition prune_outbox (tripID : string) (sequence : Z) : tx unit :=
  modify (fun d => set_outbox
    (delete_rows (fun _ o => covered tripID sequence o && delivery_resolved o) (outbox d)) d).

(** From the lookup of the other snapshots on. *)
Definition store_snapshot (clk : nat -> Z) (b : SnapshotBlob) : tx StoredSnapshot :=
  rows ← gets (fun d => merge_sort by_id (rows_where (live (sb_TripID b)) (snapshots d)));
  '(valid, invalid) ← lift (fold_res sort_out rows ([], []));
  let now := clk 0%nat in
  _ ← for_each (fun x => invalidate_row (sb_TripID b) now x.1 x.2) invalid;
  _ ← guard (stale_against b (head (merge_sort stored_order valid))) ErrSnapshotStale;
  _ ← insert_snapshot "insert snapshot" (sb_ID b) (snapshot_row b now);
  _ ← retain_newest (sb_TripID b);
  _ ← prune_outbox (sb_TripID b) (int64 (sb_CoveredFinalizedMutationSequence b));
  mret (MkStored b now false (int32 (zlen (sb_Payload b)))).

Definition PersistSnapshot (clk : nat -> Z) (b : SnapshotBlob) : tx StoredSnapshot :=
  _ ← lift (validateSnapshotBlob b);
  t ← lock_trip_row (sb_TripID b);
  existing ← gets (fun d => head (rows_where (same_identity b) (snapshots d)));
  match existing with
  | Some kv =>
      s ← lift (scanStoredSnapshot true kv);
      _ ← guard (differs_from_stored b (ss_SnapshotBlob s)) ErrSnapshotConflict;
      mret s
  | None =>
      _ ← guard ((uint64 (t_trip_revision t) <? sb_TripRevision b) ||
                 (uint64 (t_finalized_mutation_sequence t) <?
                  sb_CoveredFinalizedMutationSequence b)) ErrSnapshotInvalid;
      unresolvedOutbox ← gets (fun d => count_rows (not_ready b) (outbox d));
      _ ← guard (negb (unresolvedOutbox =? 0)) ErrSnapshotNotReady;
      store_snapshot clk b
  end.

(** ** [LoadForRecovery] *)

Definition invalidate (now : Z) (s : StoredSnapshot) (reason : string) : tx unit :=
  let b := ss_SnapshotBlob s in
  _ ← lock_trip_row (sb_TripID b);
  invalidate_row (sb_TripID b) now (sb_ID b) reason.

(** The loop over the candidates; the [n]th invalidation reads the clock at [n]. *)
Fixpoint recover (clk : nat -> Z) (n : nat) (candidates : list StoredSnapshot) (d : db)
  : result StoredSnapshot * db :=
  match candidates with
  | [] => (Err ErrSnapshotNotFound, d)
  | candidate :: rest =>
      let reason := storedSnapshotValidationReason candidate in
      if bool_decide (reason = "") then (Ok candidate, d)
      else match run_tx (invalidate (clk n) candidate reason) d with
      | (Ok _, d') => recover clk (S n) rest d'
      | (Err e, d') => (Err e, d')
      end
  end.

Definition recovery_rows (tripID : string) (d : db) : list (string * snapshot) :=
  merge_sort newest_snapshot (rows_where (live tripID) (snapshots d)).

Definition LoadForRecovery (clk : nat -> Z) (tripID : string) (d : db)
  : result StoredSnapshot * db :=
  if negb (validCanonicalUUID tripID) then (Err (ErrInvalid "trip id is invalid"), d)
  else match scan_snapshots (recovery_rows tripID d) with
  | Err e => (Err e, d)
  | Ok candidates => recover clk 0 candidates d
  end.

End Snapshots.

(** ** Snapshots are stored newest first

    The order of the stored snapshots, what [PersistSnapshot] does to the tables,
    and what [LoadForRecovery] finds. *)

(** ** The order *)

Lemma lex_newer_asym t t' xs ys :
  t && t' = false -> lex_newer t xs ys = true -> lex_newer t' ys xs = false.
Proof.
  revert ys. induction xs as [|x xs IH]; intros [|y ys] Ht; simpl;
    try (destruct t, t'; done).
  rewrite (Z.eqb_sym y x). destruct (x =? y) eqn:E; [by apply IH|].
  intros H. zbool. apply Z.ltb_ge. lia.
Qed.

Lemma lex_newer_trans t1 t2 t3 xs ys zs :
  (t1 = false -> t2 = false -> t3 = false) ->
  length xs = length ys -> length ys = length zs ->
  lex_newer t1 ys xs = false -> lex_newer t2 zs ys = false -> lex_newer t3 zs xs = false.
Proof.
  intros Ht. revert ys zs. induction xs as [|x xs IH]; intros [|y ys] [|z zs] H1 H2; simpl in *;
    try done.
  destruct (y =? x) eqn:E1, (z =? y) eqn:E2, (z =? x) eqn:E3; intros H3 H4; zbool; try lia.
  apply (IH ys zs); [lia|lia|done|done].
Qed.

(** Equal columns leave the decision to the tie. *)
Lemma lex_newer_refl t xs : lex_newer t xs xs = t.
Proof. induction xs as [|x xs IH]; simpl; [done|]. by rewrite Z.eqb_refl. Qed.

(** What the first columns decide the others do not change. *)
Lemma lex_newer_prefix t t' xs ys us vs :
  length xs = length ys -> xs <> ys -> lex_newer t (xs ++ us) (ys ++ vs) = lex_newer t' xs ys.
Proof.
  revert ys. induction xs as [|x xs IH]; intros [|y ys] Hl Hne; simpl in *; try done.
  destruct (x =? y) eqn:E; [|done]. zbool. subst y. apply IH; [lia|congruence].
Qed.

(** One of two different lists is newer. *)
Lemma lex_newer_differ t t' xs ys :
  length xs = length ys -> xs <> ys -> lex_newer t ys xs = false -> lex_newer t' xs ys = true.
Proof.
  revert ys. induction xs as [|x xs IH]; intros [|y ys] Hl Hne; simpl in *; try done.
  rewrite (Z.eqb_sym y x). destruct (x =? y) eqn:E; zbool.
  - subst y. apply IH; [lia|congruence].
  - intros H. zbool. apply Z.ltb_lt. lia.
Qed.

Lemma string_le_tie x y :
  negb (bool_decide (String.le x y)) && negb (bool_decide (String.le y x)) = false.
Proof.
  destruct (total String.le x y) as [H|H]; rewrite (bool_decide_eq_true_2 _ H);
    [done|by rewrite andb_false_r].
Qed.

#[global] Instance newest_snapshot_total : Total newest_snapshot.
Proof.
  intros x y. unfold newest_snapshot. destruct (row_newer y x) eqn:E; [right|by left].
  eapply lex_newer_asym; [|exact E]. apply string_le_tie.
Qed.

#[global] Instance newest_snapshot_transitive : Transitive newest_snapshot.
Proof.
  intros x y z Hxy Hyz. unfold newest_snapshot, row_newer in *.
  eapply lex_newer_trans; [| | |exact Hxy|exact Hyz]; [|done..].
  rewrite !negb_false_iff, !bool_decide_eq_true. intros H1 H2. by transitivity y.1.
Qed.

(** The columns of a stored snapshot, and the order of the code in terms of them. *)
Definition blob_columns (b : SnapshotBlob) : list Z :=
  [sb_SourceRuntimeEpoch b; sb_SourcePlannerStateVersion b;
   sb_CoveredFinalizedMutationSequence b; sb_TripRevision b].

Lemma snapshotIsOlder_lex c n :
  snapshotIsOlder c n = lex_newer false (blob_columns n) (blob_columns c).
Proof.
  unfold snapshotIsOlder, blob_columns. simpl.
  rewrite (Z.eqb_sym (sb_SourceRuntimeEpoch n)), (Z.eqb_sym (sb_SourcePlannerStateVersion n)),
    (Z.eqb_sym (sb_CoveredFinalizedMutationSequence n)), (Z.eqb_sym (sb_TripRevision n)).
  repeat (case_match; simpl; try done). zbool. apply Z.ltb_ge. lia.
Qed.

Lemma snapshotIsNewer_lex l r :
  snapshotIsNewer l r = lex_newer (negb (bool_decide
      (String.le (sb_ID (ss_SnapshotBlob l)) (sb_ID (ss_SnapshotBlob r)))))
    (blob_columns (ss_SnapshotBlob l) ++ [ss_CreatedAt l])
    (blob_columns (ss_SnapshotBlob r) ++ [ss_CreatedAt r]).
Proof. unfold snapshotIsNewer, blob_columns. simpl. repeat (case_match; simpl; try done). Qed.

#[global] Instance stored_order_total : Total stored_order.
Proof.
  intros x y. unfold stored_order. destruct (snapshotIsNewer y x) eqn:E; [right|by left].
  rewrite snapshotIsNewer_lex in *. eapply lex_newer_asym; [|exact E]. apply string_le_tie.
Qed.

#[global] Instance stored_order_transitive : Transitive stored_order.
Proof.
  intros x y z Hxy Hyz. unfold stored_order in *. rewrite snapshotIsNewer_lex in *.
  eapply lex_newer_trans; [| | |exact Hxy|exact Hyz]; [|done..].
  rewrite !negb_false_iff, !bool_decide_eq_true. intros H1 H2.
  by transitivity (sb_ID (ss_SnapshotBlob y)).
Qed.

(** The head of a sorted list comes before its elements. *)
Lemma merge_sort_head {A} (R : relation A) `{!RelDecision R, !Total R, !Transitive R} l x y :
  head (merge_sort R l) = Some x -> y ∈ l -> x = y \/ R x y.
Proof.
  intros Hh Hy. pose proof (StronglySorted_merge_sort R l) as Hs.
  rewrite <- (merge_sort_Permutation R l) in Hy.
  destruct (merge_sort R l) as [|z l']; [done|]. simpl in Hh. simplify_eq.
  apply StronglySorted_inv in Hs as [_ Hs]. apply elem_of_cons in Hy as [->|Hy]; [by left|].
  right. by eapply Forall_forall in Hs.
Qed.

Lemma drop_in {A} n (l : list A) x : x ∈ drop n l -> x ∈ l.
Proof. intros H. rewrite <- (take_drop n l). apply elem_of_app. by right. Qed.

(** A row newer than every other is sorted to the front. *)
Lemma newest_heads rows x :
  x ∈ rows -> (forall y, y ∈ rows -> y = x \/ row_newer x y = true) ->
  exists rest, merge_sort newest_snapshot rows = x :: rest.
Proof.
  intros Hx Hall. destruct (merge_sort newest_snapshot rows) as [|h rest] eqn:E.
  - rewrite <- (merge_sort_Permutation newest_snapshot rows), E in Hx. by apply not_elem_of_nil in Hx.
  - exists rest. f_equal.
    assert (Hh : h ∈ rows) by (rewrite <- (merge_sort_Permutation newest_snapshot rows), E; left).
    destruct (merge_sort_head newest_snapshot rows h x) as [->|Hr]; [by rewrite E|done|done|].
    unfold newest_snapshot in Hr. destruct (Hall h Hh) as [->|H]; [done|congruence].
Qed.

(** ** Rows *)

Section SnapshotFacts.
Context {PG : Postgres}.

(** The columns are [bigint]. *)
Definition bigint_columns (s : snapshot) : Prop := Forall (fun z => z <= max_int64) (row_columns s).

(** The fields of a blob are unsigned. *)
Record blob_unsigned (b : SnapshotBlob) : Prop := {
  bu_epoch : 0 <= sb_SourceRuntimeEpoch b;
  bu_version : 0 <= sb_SourcePlannerStateVersion b;
  bu_revision : 0 <= sb_TripRevision b;
  bu_covered : 0 <= sb_CoveredFinalizedMutationSequence b
}.

(** A row a runtime can start from. *)
Definition recoverable (kv : string * snapshot) (s : StoredSnapshot) : Prop :=
  scanStoredSnapshot false kv = Ok s /\ storedSnapshotValidationReason s = "".

Lemma scan_columns dup kv s :
  bigint_columns kv.2 -> scanStoredSnapshot dup kv = Ok s ->
  sb_ID (ss_SnapshotBlob s) = kv.1 /\ sb_TripID (ss_SnapshotBlob s) = s_trip_id kv.2 /\
  blob_columns (ss_SnapshotBlob s) ++ [ss_CreatedAt s] = row_columns kv.2.
Proof.
  destruct kv as [id r]. unfold bigint_columns, row_columns. rewrite !Forall_cons. simpl.
  unfold scanStoredSnapshot. intros (? & ? & ? & ? & _) Hs. inv_res. zbool. simpl.
  unfold blob_columns, max_int64 in *. simpl. rewrite !uint64_small by lia. done.
Qed.

Lemma validateSnapshotBlob_ok b :
  validateSnapshotBlob b = Ok tt ->
  validCanonicalUUID (sb_TripID b) = true /\ sb_SchemaVersion b = 1 /\
  sb_SourceRuntimeEpoch b <> 0 /\ sb_TripRevision b <> 0 /\
  sb_SourceRuntimeEpoch b <= max_int64 /\ sb_SourcePlannerStateVersion b <= max_int64 /\
  sb_TripRevision b <= max_int64 /\ sb_CoveredFinalizedMutationSequence b <= max_int64 /\
  0 < zlen (sb_Payload b) <= MaxSnapshotPayloadBytes /\
  constant_time_eq (sha256 (sb_Payload b)) (sb_Checksum b) = true /\
  exists payload, parseSnapshotPayload (sb_Payload b) = Ok payload /\
    metadata_differs payload b = false.
Proof.
  unfold validateSnapshotBlob. intros H. inv_res. pose proof (zlen_nonneg (sb_Payload b)). zbool.
  destruct (parseSnapshotPayload (sb_Payload b)) as [payload|]; [|done]. inv_res.
  split_and!; try done; [lia|]. by exists payload.
Qed.

(** The row of a valid blob is read back as the blob. *)
Lemma scan_new_row b now :
  validateSnapshotBlob b = Ok tt -> blob_unsigned b -> zlen (sb_Checksum b) = 32 ->
  recoverable (sb_ID b, snapshot_row b now)
    (MkStored b now false (int32 (zlen (sb_Payload b)))).
Proof.
  intros (_ & Hv & He & Hr & ? & ? & ? & ? & Hl & Hsum & payload & Hp & Hm)%validateSnapshotBlob_ok
    [] Hck. destruct b as [id T v e p rv c pay sum]. simpl in *. unfold MaxSnapshotPayloadBytes in Hl.
  assert (Hlen : int32 (zlen pay) = zlen pay) by (apply int32_small; unfold max_int32; lia).
  split.
  - unfold scanStoredSnapshot, snapshot_row. simpl. subst v.
    rewrite !int64_small by (unfold max_int64 in *; lia).
    rewrite !uint64_small by (unfold max_int64 in *; lia).
    rewrite Hlen, Hck. replace (reject_if _ _) with (Ok (E := err) tt); [done|].
    symmetry. apply reject_if_ok. rewrite !orb_false_iff. split_and!; try done; lia.
  - unfold storedSnapshotValidationReason. simpl.
    unfold MaxSnapshotPayloadBytes. rewrite Z.eqb_refl, Hsum, Hp, Hm, !orb_false_r.
    rewrite (proj2 (Z.eqb_neq _ _)) by lia. by rewrite (proj2 (Z.ltb_ge _ _)) by lia.
Qed.

(** The columns of the new row. *)
Lemma new_row_columns b now :
  validateSnapshotBlob b = Ok tt -> blob_unsigned b ->
  row_columns (snapshot_row b now) = blob_columns b ++ [now].
Proof.
  intros (_ & _ & _ & _ & ? & ? & ? & ? & _)%validateSnapshotBlob_ok [].
  unfold row_columns, blob_columns. simpl. by rewrite !int64_small by (unfold max_int64 in *; lia).
Qed.

(** The loop over the stored snapshots. *)
Lemma sort_out_ok rows v i v' i' :
  fold_res sort_out rows (v, i) = Ok (v', i') ->
  (forall s, s ∈ v -> s ∈ v') /\ (forall x, x ∈ i -> x ∈ i') /\
  (forall x, x ∈ i' -> x ∈ i \/ exists kv s, kv ∈ rows /\ scanStoredSnapshot false kv = Ok s /\
     x = (kv.1, storedSnapshotValidationReason s) /\ x.2 <> "") /\
  (forall kv, kv ∈ rows -> exists s, scanStoredSnapshot false kv = Ok s /\
     (storedSnapshotValidationReason s = "" /\ s ∈ v' \/
      storedSnapshotValidationReason s <> "" /\ (kv.1, storedSnapshotValidationReason s) ∈ i')).
Proof.
  revert v i. induction rows as [|kv rows IH]; intros v i; simpl.
  - intros [= <- <-]. split_and!; auto. intros kv []%not_elem_of_nil.
  - intros ([v1 i1] & (s & Hs & H1)%bind_ok & H2)%bind_ok. apply IH in H2 as (Hv & Hi & Hx & Hr).
    assert (Hid : sb_ID (ss_SnapshotBlob s) = kv.1)
      by (destruct kv; unfold scanStoredSnapshot in Hs; by inv_res). rewrite Hid in H1.
    destruct (bool_decide _) eqn:E in H1;
      [apply bool_decide_eq_true in E|apply bool_decide_eq_false in E];
      injection H1 as <- <-; split_and!.
    + intros x Hin. apply Hv, elem_of_app. by left.
    + done.
    + intros x Hin. destruct (Hx x Hin) as [?|(kv' & s' & ? & ?)]; [by left|right].
      exists kv', s'. split; [by right|done].
    + intros kv' [->|Hin]%elem_of_cons; [|by apply Hr]. exists s. split; [done|left].
      split; [done|]. apply Hv, elem_of_app. right. left.
    + done.
    + intros x Hin. apply Hi, elem_of_app. by left.
    + intros x Hin. destruct (Hx x Hin) as [Hin'|(kv' & s' & ? & ?)].
      1: apply elem_of_app in Hin' as [?|Hin']; [|apply list_elem_of_singleton in Hin' as ->].
      * by left.
      * right. exists kv, s. split_and!; try done. left.
      * right. exists kv', s'. split; [by right|done].
    + intros kv' [->|Hin]%elem_of_cons; [|by apply Hr]. exists s. split; [done|right].
      split; [done|]. apply Hi, elem_of_app. right. left.
Qed.

(** The reason the list gives for a row. *)
Fixpoint reason_of (k : string) (l : list (string * string)) : option string :=
  match l with
  | [] => None
  | x :: l => if bool_decide (k = x.1) then Some x.2 else reason_of k l
  end.

Definition invalid_with (T : string) (now : Z) (reason : option string) (s : snapshot) : snapshot :=
  match reason with
  | Some reason =>
      if bool_decide (s_trip_id s = T) && is_null (s_invalidated_at s)
      then set_s_invalidation_reason (Some reason) (set_s_invalidated_at (Some now) s) else s
  | None => s
  end.

Definition invalid_rows (T : string) (now : Z) (l : list (string * string))
    (m : gmap string snapshot) : gmap string snapshot :=
  map_imap (fun k s => Some (invalid_with T now (reason_of k l) s)) m.

Lemma lookup_invalid_rows T now l m k :
  invalid_rows T now l m !! k = invalid_with T now (reason_of k l) <$> m !! k.
Proof. unfold invalid_rows. rewrite map_lookup_imap. by destruct (m !! k). Qed.

Lemma reason_of_Some k l : is_Some (reason_of k l) <-> k ∈ l.*1.
Proof.
  induction l as [|x l IH]; simpl.
  - rewrite elem_of_nil. split; [by intros []|done].
  - rewrite elem_of_cons. case_bool_decide as E; [|naive_solver]. split; [by left|eauto].
Qed.

Lemma invalidate_all T now l d u d' :
  for_each (fun x => invalidate_row T now x.1 x.2) l d = Ok (u, d') ->
  d' = set_snapshots (invalid_rows T now l (snapshots d)) d.
Proof.
  revert d. induction l as [|[id reason] l IH]; intros d; simpl.
  - intros [_ ->]%mret_ok. destruct d' as [? ? ? ? ? ? ? ? ? sn ? ? ?]. unfold set_snapshots. simpl. f_equal.
    apply map_eq. intros k. rewrite lookup_invalid_rows. simpl. by destruct (sn !! k).
  - intros ([] & d1 & ->%modify_ok & H)%tx_bind_ok. apply IH in H as ->. unfold set_snapshots. simpl.
    f_equal. apply map_eq. intros k. rewrite !lookup_invalid_rows, lookup_update_rows. simpl.
    destruct (snapshots d !! k) as [s|]; [|done]. simpl. f_equal.
    case_bool_decide as E; simpl; [|done].
    destruct (bool_decide (s_trip_id s = T) && is_null (s_invalidated_at s)) eqn:F;
      unfold invalid_with; rewrite ?F; destruct (reason_of k l); try done. simpl. by rewrite andb_false_r.
Qed.

(** What the last statements of the operation see. *)
Record storing (now : Z) (b : SnapshotBlob) (d d' : db) (valid : list StoredSnapshot)
    (invalid : list (string * string)) : Prop := {
  sg_sorted : fold_res sort_out (merge_sort by_id (rows_where (live (sb_TripID b)) (snapshots d)))
                ([], []) = Ok (valid, invalid);
  sg_stale : stale_against b (head (merge_sort stored_order valid)) = false;
  sg_fresh : snapshots d !! sb_ID b = None;
  sg_check : snapshot_check (snapshot_row b now) = true;
  sg_result : let m := <[sb_ID b := snapshot_row b now]>
      (invalid_rows (sb_TripID b) now invalid (snapshots d)) in
    d' = set_outbox (delete_rows (fun _ o => covered (sb_TripID b)
             (int64 (sb_CoveredFinalizedMutationSequence b)) o && delivery_resolved o) (outbox d))
           (set_snapshots (delete_rows (fun k _ =>
              bool_decide (k ∈ retired (sb_TripID b) (set_snapshots m d))) m) d)
}.

Lemma store_snapshot_ok clk b d s d' :
  store_snapshot clk b d = Ok (s, d') ->
  s = MkStored b (clk 0%nat) false (int32 (zlen (sb_Payload b))) /\
  exists valid invalid, storing (clk 0%nat) b d d' valid invalid.
Proof.
  unfold store_snapshot. intros (rows & d1 & [-> ->]%gets_ok & H)%tx_bind_ok.
  apply tx_bind_ok in H as ([valid invalid] & d1 & [Hs ->]%lift_ok & H).
  apply tx_bind_ok in H as (u & d1 & ->%invalidate_all & H).
  apply tx_bind_ok in H as (u' & d1 & [Hst ->]%guard_ok & H).
  apply tx_bind_ok in H as (u'' & d1 & Hins & H).
  unfold insert_snapshot in Hins. case_match eqn:E; [done|]. injection Hins as _ <-.
  unfold retain_newest, prune_outbox in H. inv_tx. split; [done|].
  exists valid, invalid. constructor; try done. simpl in *. rewrite lookup_invalid_rows in *.
  destruct (snapshots d !! sb_ID b); [|done]. match goal with H : ~ is_Some _ |- _ => destruct H end. by eexists.
Qed.

(** [PersistSnapshot] answers with the stored snapshot, or stores the new one. *)
Lemma PersistSnapshot_ok clk b d s d' :
  PersistSnapshot clk b d = Ok (s, d') ->
  validateSnapshotBlob b = Ok tt /\ exists t, trips d !! sb_TripID b = Some t /\
  (d' = d /\ ss_Duplicate s = true /\ (exists kv, snapshots d !! kv.1 = Some kv.2 /\
     same_identity b kv.1 kv.2 = true /\ scanStoredSnapshot true kv = Ok s) /\
     differs_from_stored b (ss_SnapshotBlob s) = false \/
   s = MkStored b (clk 0%nat) false (int32 (zlen (sb_Payload b))) /\
   any_row (same_identity b) (snapshots d) = false /\
   sb_TripRevision b <= uint64 (t_trip_revision t) /\
   sb_CoveredFinalizedMutationSequence b <= uint64 (t_finalized_mutation_sequence t) /\
   any_row (not_ready b) (outbox d) = false /\
   exists valid invalid, storing (clk 0%nat) b d d' valid invalid).
Proof.
  unfold PersistSnapshot. intros (u & d1 & [Hv ->]%lift_ok & H)%tx_bind_ok. destruct u.
  apply tx_bind_ok in H as (t & d1 & [Ht ->]%lock_trip_row_ok & H).
  apply tx_bind_ok in H as (ex & d1 & [-> ->]%gets_ok & H). split; [done|]. exists t. split; [done|].
  destruct (head _) as [[k r]|] eqn:E.
  - left. apply tx_bind_ok in H as (s1 & d1 & [Hs ->]%lift_ok & H). apply head_rows_where in E as [Hk Hi].
    inv_tx. split_and!; try done; [|by exists (k, r)]. unfold scanStoredSnapshot in Hs. by inv_res.
  - right. apply head_None in E. apply rows_where_none in E.
    apply tx_bind_ok in H as (u & d1 & [Hg ->]%guard_ok & H).
    apply tx_bind_ok in H as (n & d1 & [-> ->]%gets_ok & H).
    apply tx_bind_ok in H as (u' & d1 & [Hn ->]%guard_ok & H).
    apply store_snapshot_ok in H as [-> H]. inv_res. zbool.
    split_and!; try done. by apply count_rows_zero.
Qed.

Lemma live_true T k s :
  live T k s = true <->
  s_trip_id s = T /\ s_invalidated_at s = None /\ s_snapshot_schema_version s = 1.
Proof.
  unfold live. rewrite !andb_true_iff, bool_decide_eq_true, Z.eqb_eq.
  destruct (s_invalidated_at s); naive_solver.
Qed.

(** A row that is live once the invalid ones are marked was live and valid. *)
Lemma live_before now b d d' valid invalid k r :
  storing now b d d' valid invalid ->
  invalid_rows (sb_TripID b) now invalid (snapshots d) !! k = Some r ->
  live (sb_TripID b) k r = true ->
  snapshots d !! k = Some r /\ exists s, recoverable (k, r) s /\ s ∈ valid.
Proof.
  intros [Hs _ _ _ _]. rewrite lookup_invalid_rows, fmap_Some. intros (s0 & Hk & ->) Hl.
  assert (E : invalid_with (sb_TripID b) now (reason_of k invalid) s0 = s0 /\
    (reason_of k invalid = None \/ live (sb_TripID b) k s0 = false)).
  { unfold invalid_with in *. destruct (reason_of k invalid) as [reason|]; [|auto].
    destruct (_ && _) eqn:F in Hl |- *; [apply live_true in Hl as (_ & Hi & _); discriminate Hi|].
    split; [done|right]. unfold live. by rewrite F. }
  destruct E as [E Hr]. rewrite E in *. split; [done|]. destruct Hr as [Hr|]; [|congruence].
  apply sort_out_ok in Hs as (_ & _ & _ & Hrow).
  destruct (Hrow (k, s0)) as (s & Hscan & [[Hreason Hin]|[_ Hin]]).
  - rewrite merge_sort_Permutation. by apply elem_of_rows_where.
  - by exists s.
  - exfalso. assert (is_Some (reason_of k invalid)) as [? ?]; [|congruence].
    apply reason_of_Some, list_elem_of_fmap.
    by exists (k, storedSnapshotValidationReason s).
Qed.

(** The new snapshot is newer than every valid one. *)
Lemma stored_is_newer now b d d' valid invalid k r s :
  storing now b d d' valid invalid -> validateSnapshotBlob b = Ok tt -> blob_unsigned b ->
  any_row (same_identity b) (snapshots d) = false ->
  snapshots d !! k = Some r -> bigint_columns r -> s_trip_id r = sb_TripID b ->
  recoverable (k, r) s -> s ∈ valid -> row_newer (sb_ID b, snapshot_row b now) (k, r) = true.
Proof.
  intros Hst Hv Hb Hnew Hk Hr HT [Hscan _] Hin. rewrite any_row_false in Hnew.
  specialize (Hnew k r Hk). apply scan_columns in Hscan as (_ & _ & Hc); [|done]. cbn [fst snd] in Hc.
  set (c := ss_SnapshotBlob s) in *.
  assert (Hne : blob_columns b <> blob_columns c).
  { intros E. apply not_true_iff_false in Hnew. apply Hnew. unfold same_identity.
    pose proof (new_row_columns b now Hv Hb) as Hcols. rewrite E in Hcols.
    unfold row_columns, blob_columns in Hcols, Hc. simpl in Hcols, Hc.
    rewrite !andb_true_iff, bool_decide_eq_true, !Z.eqb_eq.
    injection Hcols; injection Hc; intros. split_and!; congruence. }
  assert (Hle : lex_newer false (blob_columns c) (blob_columns b) = false).
  { destruct (head (merge_sort stored_order valid)) as [n|] eqn:Eh.
    - pose proof (sg_stale _ _ _ _ _ _ Hst) as Hstale. rewrite Eh in Hstale. simpl in Hstale. inv_res.
      rewrite snapshotIsOlder_lex in *.
      apply (lex_newer_trans false false _ _ (blob_columns (ss_SnapshotBlob n))); try done.
      destruct (merge_sort_head stored_order valid n s Eh Hin) as [->|Ho]; [apply lex_newer_refl|].
      unfold stored_order in Ho. rewrite snapshotIsNewer_lex in Ho. fold c in Ho.
      destruct (decide (blob_columns c = blob_columns (ss_SnapshotBlob n))) as [->|Hd];
        [apply lex_newer_refl|]. by erewrite lex_newer_prefix in Ho.
    - apply head_None in Eh. exfalso. rewrite <- (merge_sort_Permutation stored_order valid), Eh in Hin.
      by apply not_elem_of_nil in Hin. }
  unfold row_newer. cbn [fst snd]. rewrite new_row_columns, <- Hc by done.
  erewrite lex_newer_prefix; [|done|done]. by eapply lex_newer_differ.
  Unshelve. exact false.
Qed.

(** ** What a stored snapshot changes *)

Record snapshot_stored (now : Z) (b : SnapshotBlob) (d d' : db) : Prop := {
  sn_new : snapshots d' !! sb_ID b = Some (snapshot_row b now);
  sn_fresh : snapshots d !! sb_ID b = None;
  sn_recoverable : recoverable (sb_ID b, snapshot_row b now)
    (MkStored b now false (int32 (zlen (sb_Payload b))));
  sn_live : forall k r, snapshots d' !! k = Some r -> live (sb_TripID b) k r = true ->
    k = sb_ID b \/ snapshots d !! k = Some r /\ (exists s, recoverable (k, r) s) /\
      row_newer (sb_ID b, snapshot_row b now) (k, r) = true;
  sn_two : count_rows (live (sb_TripID b)) (snapshots d') <= 2;
  sn_others : forall k r, s_trip_id r <> sb_TripID b ->
    snapshots d' !! k = Some r <-> snapshots d !! k = Some r;
  sn_frame : d' = set_snapshots (snapshots d') (set_outbox (outbox d') d)
}.

(** The rows [retain_newest] leaves: at most two live ones, the newest among
    them. *)
Lemma retained T x m d :
  x ∈ rows_where (live T) m ->
  (forall y, y ∈ rows_where (live T) m -> y = x \/ row_newer x y = true) ->
  let kept := delete_rows (fun k _ => bool_decide (k ∈ retired T (set_snapshots m d))) m in
  kept !! x.1 = Some x.2 /\ count_rows (live T) kept <= 2 /\
  (forall k r, live T k r = false -> m !! k = Some r -> kept !! k = Some r).
Proof.
  intros Hx Hall kept. unfold kept, retired. simpl.
  destruct (newest_heads _ _ Hx Hall) as [rest E].
  pose proof (sorted_fst_NoDup newest_snapshot (live T) m) as Hnd.
  split_and!.
  - destruct x as [k r]. apply elem_of_rows_where in Hx as [Hk _]. apply lookup_delete_rows_Some.
    split; [done|]. apply bool_decide_eq_false. rewrite E in Hnd |- *. simpl in *.
    apply NoDup_cons in Hnd as [Hnd _]. intros Hin. apply Hnd.
    rewrite fmap_drop in Hin. by apply drop_in in Hin.
  - unfold count_rows, zlen. rewrite <- (length_fmap fst).
    transitivity (Z.of_nat (length (take 2 (merge_sort newest_snapshot (rows_where (live T) m)).*1)));
      [|rewrite length_take; lia]. apply inj_le.
    apply submseteq_length, NoDup_submseteq; [apply NoDup_fst_filter, NoDup_fst_map_to_list|].
    intros k ([k' r] & -> & Hin)%list_elem_of_fmap. simpl.
    apply elem_of_rows_where in Hin as [[Hk Hn]%lookup_delete_rows_Some Hl].
    apply bool_decide_eq_false in Hn. rewrite fmap_drop in Hn.
    assert (Hin : k' ∈ (merge_sort newest_snapshot (rows_where (live T) m)).*1).
    { apply list_elem_of_fmap. exists (k', r). split; [done|]. rewrite merge_sort_Permutation.
      by apply elem_of_rows_where. }
    rewrite <- (take_drop 2 (merge_sort newest_snapshot (rows_where (live T) m)).*1) in Hin.
    by apply elem_of_app in Hin as [?|?].
  - intros k r Hl Hk. apply lookup_delete_rows_Some. split; [done|]. apply bool_decide_eq_false.
    rewrite fmap_drop. intros ([k' r'] & -> & Hin)%drop_in%list_elem_of_fmap.
    rewrite merge_sort_Permutation in Hin. apply elem_of_rows_where in Hin as [Hk' Hl'].
    simpl in *. congruence.
Qed.

Lemma storing_effect now b d d' valid invalid :
  storing now b d d' valid invalid -> validateSnapshotBlob b = Ok tt -> blob_unsigned b ->
  any_row (same_identity b) (snapshots d) = false ->
  (forall k r, snapshots d !! k = Some r -> bigint_columns r) -> snapshot_stored now b d d'.
Proof.
  intros Hst Hv Hb Hnew Hbig.
  set (m0 := invalid_rows (sb_TripID b) now invalid (snapshots d)).
  set (m := <[sb_ID b := snapshot_row b now]> m0).
  assert (Hsnap : snapshots d' = delete_rows (fun k _ =>
      bool_decide (k ∈ retired (sb_TripID b) (set_snapshots m d))) m)
    by (by rewrite (sg_result _ _ _ _ _ _ Hst)).
  assert (Hck : zlen (sb_Checksum b) = 32).
  { pose proof (sg_check _ _ _ _ _ _ Hst) as H. unfold snapshot_check in H. inv_res. by zbool. }
  assert (Hlive : forall k r, m !! k = Some r -> live (sb_TripID b) k r = true ->
    (k, r) = (sb_ID b, snapshot_row b now) \/ snapshots d !! k = Some r /\
      (exists s, recoverable (k, r) s) /\ row_newer (sb_ID b, snapshot_row b now) (k, r) = true).
  { intros k r. unfold m. rewrite lookup_insert_Some. intros [[-> ->]|[_ Hk]] Hl; [by left|right].
    destruct (live_before _ _ _ _ _ _ _ _ Hst Hk Hl) as (Hd & s & Hs & Hin). split; [done|].
    split; [by exists s|]. apply live_true in Hl as (HT & _). by eapply stored_is_newer; eauto. }
  assert (Hrow : live (sb_TripID b) (sb_ID b) (snapshot_row b now) = true).
  { apply live_true. apply validateSnapshotBlob_ok in Hv as (_ & Hver & _). simpl. by rewrite Hver. }
  destruct (retained (sb_TripID b) (sb_ID b, snapshot_row b now) m d) as (Hkept & Htwo & Hdead).
  { apply elem_of_rows_where. split; [by unfold m; rewrite lookup_insert_eq|done]. }
  { intros [k r] [Hk Hl]%elem_of_rows_where. destruct (Hlive k r Hk Hl) as [?|(_ & _ & ?)]; auto. }
  rewrite <- Hsnap in Hkept, Htwo, Hdead. constructor; try done.
  - apply (sg_fresh _ _ _ _ _ _ Hst).
  - by apply scan_new_row.
  - intros k r Hk Hl. rewrite Hsnap in Hk. apply lookup_delete_rows_Some in Hk as [Hk _].
    destruct (Hlive k r Hk Hl) as [[= -> ->]|?]; auto.
  - intros k r HT. assert (Hm : m !! k = Some r <-> snapshots d !! k = Some r).
    { unfold m, m0. rewrite lookup_insert_Some, lookup_invalid_rows, fmap_Some.
      pose proof (sg_fresh _ _ _ _ _ _ Hst) as Hfresh. unfold invalid_with. split.
      - intros [[<- <-]|[_ (s & Hs & ->)]]; [done|].
        destruct (reason_of k invalid); [|done]. case_match eqn:E; [|done]. by inv_res.
      - intros Hk. right. split; [congruence|]. exists r. split; [done|].
        destruct (reason_of k invalid); [|done]. by rewrite bool_decide_eq_false_2. }
    rewrite <- Hm. split; [|apply Hdead].
    + intros Hk. rewrite Hsnap in Hk. by apply lookup_delete_rows_Some in Hk as [? _].
    + unfold live. by rewrite bool_decide_eq_false_2.
  - rewrite (sg_result _ _ _ _ _ _ Hst). by destruct d.
Qed.

(** ** Recovery *)

Lemma scan_snapshots_ok rows l :
  scan_snapshots rows = Ok l <-> Forall2 (fun kv s => scanStoredSnapshot false kv = Ok s) rows l.
Proof.
  revert l. induction rows as [|kv rows IH]; intros l; simpl.
  - split; [by intros [= <-]|by inversion 1].
  - rewrite bind_ok. split.
    + intros (s & Hs & (l' & Hl & [= <-])%bind_ok). constructor; [done|]. by apply IH.
    + inversion 1; subst. eexists. split; [done|]. apply bind_ok. eexists. split; [by apply IH|done].
Qed.

(** Rows of different keys are ordered one way or the other. *)
Lemma row_newer_connex x y : x.1 <> y.1 -> row_newer x y = false -> row_newer y x = true.
Proof.
  unfold row_newer. intros Hne H. destruct (decide (row_columns y.2 = row_columns x.2)) as [E|E].
  - rewrite E, lex_newer_refl in *. apply negb_true_iff, bool_decide_eq_false. intros Hle.
    apply negb_false_iff, bool_decide_eq_true in H. by apply Hne, (anti_symm String.le).
  - by eapply lex_newer_differ.
Qed.

(** The candidates before the one found are marked, and nothing else changes. *)
Lemma recover_spec clk n T cs d :
  Forall (fun c => sb_TripID (ss_SnapshotBlob c) = T) cs -> is_Some (trips d !! T) ->
  let ids l := (fun c => sb_ID (ss_SnapshotBlob c)) <$> l in
  exists a d' bad, recover clk n cs d = (a, d') /\
    d' = set_snapshots (snapshots d') d /\
    (forall k r, snapshots d !! k = Some r -> exists r', snapshots d' !! k = Some r' /\
       s_trip_id r' = s_trip_id r /\ (s_invalidated_at r <> None \/ k ∉ ids bad -> r' = r) /\
       (k ∈ ids bad -> s_trip_id r = T -> s_invalidated_at r' <> None)) /\
    Forall (fun c => storedSnapshotValidationReason c <> "") bad /\
    match a with
    | Ok s => storedSnapshotValidationReason s = "" /\ exists rest, cs = bad ++ s :: rest
    | Err e => e = ErrSnapshotNotFound /\ bad = cs
    end.
Proof.
  intros HT Htrip. simpl. revert n d Htrip. induction HT as [|c cs Hc HT IH]; intros n d Htrip; simpl.
  - exists (Err ErrSnapshotNotFound), d, []. split_and!; try done; [by destruct d|].
    intros k r Hk. exists r. split_and!; try done. by intros []%not_elem_of_nil.
  - case_bool_decide as E.
    + exists (Ok c), d, []. split_and!; try done; [by destruct d| |by exists cs].
      intros k r Hk. exists r. split_and!; try done. by intros []%not_elem_of_nil.
    + destruct Htrip as [t Ht].
      assert (Hrun : run_tx (invalidate (clk n) c (storedSnapshotValidationReason c)) d =
        (Ok tt, set_snapshots (update_rows (fun k s => bool_decide (k = sb_ID (ss_SnapshotBlob c)) &&
            bool_decide (s_trip_id s = T) && is_null (s_invalidated_at s))
          (fun s => set_s_invalidation_reason (Some (storedSnapshotValidationReason c))
             (set_s_invalidated_at (Some (clk n)) s)) (snapshots d)) d)).
      { apply run_tx_ok. unfold invalidate. rewrite Hc.
        eapply tx_bind_run; [by apply lock_trip_row_ok|]. by apply modify_ok. }
      rewrite Hrun. clear Hrun. match goal with |- context [recover clk (S n) cs ?d1] =>
        destruct (IH (S n) d1) as (a & d' & bad & Hr & Hd & Hrows & Hbad & Ha) end; [by exists t|].
      exists a, d', (c :: bad). split; [exact Hr|]. split; [by rewrite Hd|]. split.
      * intros k r Hk. edestruct (Hrows k) as (r' & Hk' & Ht' & Heq & Hin).
        { simpl. by rewrite lookup_update_rows, Hk. }
        exists r'. split; [done|]. rewrite fmap_cons. split_and!.
        -- rewrite Ht'. by case_match.
        -- intros Hor. assert (E' : bool_decide (k = sb_ID (ss_SnapshotBlob c)) &&
             bool_decide (s_trip_id r = T) && is_null (s_invalidated_at r) = false).
           { destruct Hor as [Hn|Hn]; [destruct (s_invalidated_at r); [|done]; by rewrite andb_false_r|].
             rewrite elem_of_cons in Hn. rewrite bool_decide_eq_false_2 by tauto. done. }
           rewrite E' in Heq. apply Heq. destruct Hor as [?|Hn]; [by left|right].
           rewrite elem_of_cons in Hn. tauto.
        -- intros Hk1 HrT. destruct (s_invalidated_at r) eqn:Ei.
           { rewrite Heq; rewrite ?Ei, ?andb_false_r; [congruence|]. left. congruence. }
           apply elem_of_cons in Hk1 as [->|Hk1].
           ++ rewrite Heq; rewrite !bool_decide_eq_true_2 by done; simpl; [done|by left].
           ++ apply Hin; [done|]. by case_match.
      * split; [by constructor|]. destruct a as [s|e].
        -- destruct Ha as (? & rest & ->). split; [done|]. by exists rest.
        -- destruct Ha as [-> ->]. done.
Qed.

End SnapshotFacts.
