(* ===== verification/Recovery.v ===== *)
(** * Recovery from snapshots

    A stored snapshot is the one the next runtime starts from, it retires all but
    one of the older ones and prunes only commands the runtime has confirmed;
    recovery finds the newest valid snapshot and marks the corrupt ones it passes
    over.  And a trip whose lease was released cannot store snapshots until its
    epoch has caught up with the stored ones. *)

From S2P Require Import Prelude GoLib Wire WireFacts Schema Tables Leases Commands Finalization.
From S2P Require Import Snapshots.

Section Recovery.
Context {PG : Postgres}.

(** Every stored row is of the column types. *)
Definition typed_rows (d : db) : Prop :=
  forall k r, snapshots d !! k = Some r -> bigint_columns r.

Lemma stored_ok clk b d s d' :
  blob_unsigned b -> typed_rows d -> PersistSnapshot clk b d = Ok (s, d') ->
  ss_Duplicate s = false ->
  s = MkStored b (clk 0%nat) false (int32 (zlen (sb_Payload b))) /\
  snapshot_stored (clk 0%nat) b d d' /\ any_row (not_ready b) (outbox d) = false /\
  outbox d' = delete_rows (fun _ o => covered (sb_TripID b)
    (int64 (sb_CoveredFinalizedMutationSequence b)) o && delivery_resolved o) (outbox d).
Proof.
  intros Hb Hd (Hv & t & Ht & [(_ & H & _)|(-> & Hi & _ & _ & Hn & valid & invalid & H)])%PersistSnapshot_ok
    Hdup; [congruence|].
  split; [done|]. split; [by eapply storing_effect|]. split; [done|].
  by rewrite (sg_result _ _ _ _ _ _ H).
Qed.

(** The stored row is the first candidate of a recovery. *)
Lemma stored_snapshot_found clk clk' b d s d' :
  blob_unsigned b -> typed_rows d ->
  PersistSnapshot clk b d = Ok (s, d') -> ss_Duplicate s = false ->
  ss_SnapshotBlob s = b /\ LoadForRecovery clk' (sb_TripID b) d' = (Ok s, d').
Proof.
  intros Hb Hd H Hdup. pose proof H as (Hv & _)%PersistSnapshot_ok.
  destruct (stored_ok _ _ _ _ _ Hb Hd H Hdup) as (-> & Hst & _). split; [done|].
  apply validateSnapshotBlob_ok in Hv as (Huuid & Hver & _).
  unfold LoadForRecovery, recovery_rows. rewrite Huuid. simpl.
  destruct (newest_heads (rows_where (live (sb_TripID b)) (snapshots d'))
    (sb_ID b, snapshot_row b (clk 0%nat))) as [rest E].
  { apply elem_of_rows_where. split; [apply Hst|]. apply live_true. simpl. by rewrite Hver. }
  { intros [k r] [Hk Hl]%elem_of_rows_where.
    destruct (sn_live _ _ _ _ Hst k r Hk Hl) as [->|(_ & _ & ?)]; [left|by right].
    rewrite (sn_new _ _ _ _ Hst) in Hk. by injection Hk as ->. }
  rewrite E. destruct (sn_recoverable _ _ _ _ Hst) as [Hscan Hreason].
  assert (exists l, scan_snapshots rest = Ok l) as [l Hl].
  { assert (Hall : Forall (fun kv => exists s, scanStoredSnapshot false kv = Ok s) rest).
    { apply Forall_forall. intros [k r] Hin.
      assert (Hr : (k, r) ∈ rows_where (live (sb_TripID b)) (snapshots d'))
        by (rewrite <- (merge_sort_Permutation newest_snapshot), E; by right).
      apply elem_of_rows_where in Hr as [Hk Hlive].
      destruct (sn_live _ _ _ _ Hst k r Hk Hlive) as [->|(_ & (s & Hs & _) & _)]; [|by exists s].
      rewrite (sn_new _ _ _ _ Hst) in Hk. injection Hk as <-. by eexists. }
    clear -Hall. induction Hall as [|kv rest [s Hs] _ [l Hl]]; [by exists []|].
    exists (s :: l). simpl. by rewrite Hs, Hl. }
  cbn [scan_snapshots]. rewrite Hscan, Hl. simpl. by rewrite Hreason.
Qed.

(** A stored snapshot is found again.  Whatever else is stored for the trip,
    the snapshot that was just stored is what the next recovery answers with,
    with the identity, versions, payload and checksum of the request, and the
    recovery changes nothing. *)
Theorem persisted_snapshot_recovers clk clk' b d s d' :
  blob_unsigned b -> typed_rows d ->
  PersistSnapshot clk b d = Ok (s, d') -> ss_Duplicate s = false ->
  ss_SnapshotBlob s = b /\ LoadForRecovery clk' (sb_TripID b) d' = (Ok s, d').
Proof. apply stored_snapshot_found. Qed.

(** What storing a snapshot changes.  The snapshot is not ahead of its trip.
    Its row is new and newer than every other live snapshot of the trip, of which
    at most one is left; each left was valid and is unchanged; the rows of other
    trips are unchanged.  Every outbox row of the trip up to the covered sequence
    was delivered and confirmed and is removed; the others and all other tables
    stay. *)
Theorem persist_snapshot_effect clk b d s d' :
  blob_unsigned b -> typed_rows d ->
  PersistSnapshot clk b d = Ok (s, d') -> ss_Duplicate s = false ->
  (exists t, trips d !! sb_TripID b = Some t /\
     sb_TripRevision b <= uint64 (t_trip_revision t) /\
     sb_CoveredFinalizedMutationSequence b <= uint64 (t_finalized_mutation_sequence t)) /\
  snapshot_stored (clk 0%nat) b d d' /\
  (forall k o, outbox d !! k = Some o ->
     if covered (sb_TripID b) (int64 (sb_CoveredFinalizedMutationSequence b)) o
     then delivery_resolved o = true /\ o_finalization_confirmed_at o <> None /\
          outbox d' !! k = None
     else outbox d' !! k = Some o) /\
  d' = set_snapshots (snapshots d') (set_outbox (outbox d') d).
Proof.
  intros Hb Hd H Hdup. destruct (stored_ok _ _ _ _ _ Hb Hd H Hdup) as (_ & Hst & Hn & Ho).
  split.
  - apply PersistSnapshot_ok in H as (_ & t & Ht & [(_ & H & _)|(_ & _ & ? & ? & _)]); [congruence|].
    by exists t.
  - split; [done|]. split; [|apply Hst]. intros k o Hk. rewrite any_row_false in Hn.
    specialize (Hn k o Hk). unfold not_ready in Hn. rewrite Ho, lookup_delete_rows, Hk. simpl.
    case_match; simpl in *; [|done]. inv_res. split; [done|].
    destruct (o_finalization_confirmed_at o); [|done]. split; [done|].
    match goal with H : delivery_resolved o = true |- _ => by rewrite H end.
Qed.

Lemma sorted_around {A} (R : relation A) l1 x l2 :
  StronglySorted R (l1 ++ x :: l2) ->
  (forall y, y ∈ l1 -> R y x) /\ (forall y, y ∈ l2 -> R x y).
Proof.
  induction l1 as [|z l1 IH]; simpl; intros [Hs Hz]%StronglySorted_inv.
  - split; [by intros y ?%not_elem_of_nil|]. by apply Forall_forall.
  - destruct (IH Hs) as [H1 H2]. split; [|done]. intros y [->|Hy]%elem_of_cons; [|by apply H1].
    rewrite Forall_forall in Hz. apply Hz, elem_of_app. right. left.
Qed.

Lemma scanned_ids rows cs :
  Forall2 (fun kv s => scanStoredSnapshot false kv = Ok s) rows cs ->
  (fun c => sb_ID (ss_SnapshotBlob c)) <$> cs = rows.*1.
Proof.
  induction 1 as [|[k r] s rows cs Hs _ IH]; [done|]. rewrite !fmap_cons, IH. f_equal.
  unfold scanStoredSnapshot in Hs. by inv_res.
Qed.

(** The rows whose candidates were passed over. *)
Lemma passed_over rows bad k r :
  Forall2 (fun kv s => scanStoredSnapshot false kv = Ok s) rows bad ->
  Forall (fun c => storedSnapshotValidationReason c <> "") bad -> (k, r) ∈ rows ->
  exists s, scanStoredSnapshot false (k, r) = Ok s /\ storedSnapshotValidationReason s <> "".
Proof.
  intros H Hb [i Hi]%list_elem_of_lookup.
  destruct (Forall2_lookup_l _ _ _ _ _ H Hi) as (s & Hs & Hscan). exists s. split; [done|].
  by eapply Forall_lookup_1 in Hb.
Qed.

(** The candidates of a trip whose live rows can be read. *)
Lemma candidates_read T d :
  typed_rows d ->
  (forall k r, snapshots d !! k = Some r -> live T k r = true ->
     is_ok (scanStoredSnapshot false (k, r)) = true) ->
  exists cs, scan_snapshots (recovery_rows T d) = Ok cs /\
    Forall2 (fun kv s => scanStoredSnapshot false kv = Ok s) (recovery_rows T d) cs /\
    Forall (fun c => sb_TripID (ss_SnapshotBlob c) = T) cs.
Proof.
  intros Hd Hscan. assert (Hin : forall kv, kv ∈ recovery_rows T d ->
    snapshots d !! kv.1 = Some kv.2 /\ live T kv.1 kv.2 = true).
  { intros [k r]. unfold recovery_rows. by rewrite merge_sort_Permutation, elem_of_rows_where. }
  assert (Hall : Forall (fun kv => exists s, scanStoredSnapshot false kv = Ok s /\
    sb_TripID (ss_SnapshotBlob s) = T) (recovery_rows T d)).
  { apply Forall_forall. intros [k r] [Hk Hl]%Hin. cbn [fst snd] in Hk, Hl. pose proof (Hscan k r Hk Hl) as Hok.
    destruct (scanStoredSnapshot false (k, r)) as [s|] eqn:E; [|done]. exists s. split; [done|].
    apply live_true in Hl as (<- & _). by apply scan_columns in E as (_ & -> & _); [|eapply Hd]. }
  apply Forall_exists_Forall2_l in Hall as [cs Hcs]. exists cs.
  assert (H2 : Forall2 (fun kv s => scanStoredSnapshot false kv = Ok s) (recovery_rows T d) cs)
    by (eapply Forall2_impl; [exact Hcs|naive_solver]).
  split; [by apply scan_snapshots_ok|]. split; [done|].
  apply Forall_lookup. intros i c Hc. destruct (Forall2_lookup_r _ _ _ _ _ Hcs Hc) as (? & _ & _ & ?). done.
Qed.

(** Recovery is total and finds the newest valid snapshot.  On a trip whose
    live rows can be read it answers with a live snapshot whose payload, checksum
    and metadata agree; every newer live one is corrupt and is now marked, and
    every other row is unchanged.  If it answers that there is none, every live
    row was corrupt and all of them are now marked. *)
Theorem recovery_finds_newest_valid clk T d :
  validCanonicalUUID T = true -> is_Some (trips d !! T) -> typed_rows d ->
  (forall k r, snapshots d !! k = Some r -> live T k r = true ->
     is_ok (scanStoredSnapshot false (k, r)) = true) ->
  let corrupt k r := exists s, scanStoredSnapshot false (k, r) = Ok s /\
    storedSnapshotValidationReason s <> "" in
  let '(answer, d') := LoadForRecovery clk T d in
  let marked k := exists r, snapshots d' !! k = Some r /\ s_invalidated_at r <> None in
  d' = set_snapshots (snapshots d') d /\
  match answer with
  | Ok s => exists k r, snapshots d !! k = Some r /\ live T k r = true /\ recoverable (k, r) s /\
      forall k' r', snapshots d !! k' = Some r' ->
        if live T k' r' && row_newer (k', r') (k, r)
        then corrupt k' r' /\ marked k' else snapshots d' !! k' = Some r'
  | Err e => e = ErrSnapshotNotFound /\
      forall k' r', snapshots d !! k' = Some r' ->
        if live T k' r' then corrupt k' r' /\ marked k' else snapshots d' !! k' = Some r'
  end.
Proof.
  intros HT Htrip Hd Hscan corrupt. destruct (candidates_read T d Hd Hscan) as (cs & Hcs & H2 & Htr).
  destruct (recover_spec clk 0 T cs d Htr Htrip) as (a & d' & bad & Hr & Hframe & Hrows & Hbad & Ha).
  unfold LoadForRecovery. rewrite HT, Hcs. simpl. rewrite Hr. split; [exact Hframe|].
  assert (Hin : forall k r, (k, r) ∈ recovery_rows T d <->
    snapshots d !! k = Some r /\ live T k r = true)
    by (intros k r; unfold recovery_rows; by rewrite merge_sort_Permutation, elem_of_rows_where).
  destruct a as [s|e].
  - destruct Ha as (Hs & rest & ->).
    apply Forall2_app_inv_r in H2 as (rbad & rrest & H2 & Hrest & E).
    apply Forall2_cons_inv_r in Hrest as ([k r] & rrest' & Hkr & _ & ->).
    assert (Hk : (k, r) ∈ recovery_rows T d) by (rewrite E; apply elem_of_app; right; left).
    apply Hin in Hk as [Hk Hl]. exists k, r. split_and!; [done..|].
    pose proof (sorted_fst_NoDup newest_snapshot (live T) (snapshots d)) as Hnd.
    pose proof (StronglySorted_merge_sort newest_snapshot (rows_where (live T) (snapshots d))) as Hsort.
    unfold recovery_rows in E. rewrite E in Hnd, Hsort. apply sorted_around in Hsort as [Hbefore Hafter].
    rewrite fmap_app in Hnd. apply NoDup_app in Hnd as (_ & Hdisj & _).
    intros k' r' Hk'. destruct (Hrows k' r' Hk') as (r2 & Hr2 & _ & Hkeep & Hmark).
    rewrite (scanned_ids _ _ H2) in Hkeep, Hmark.
    destruct (live T k' r' && row_newer (k', r') (k, r)) eqn:Hc.
    + apply andb_true_iff in Hc as [Hl' Hnew].
      assert (Hb : (k', r') ∈ rbad).
      { assert (Hi : (k', r') ∈ recovery_rows T d) by (by apply Hin). unfold recovery_rows in Hi.
        rewrite E in Hi. apply elem_of_app in Hi as [?|[[= -> ->]|Hi]%elem_of_cons]; [done|..].
        - unfold row_newer in Hnew. by rewrite lex_newer_refl, bool_decide_eq_true_2 in Hnew.
        - apply Hafter in Hi. unfold newest_snapshot in Hi. congruence. }
      split; [by eapply passed_over|]. exists r2. split; [done|].
      apply Hmark; [by apply (list_elem_of_fmap_2 fst _ (k', r'))|]. by apply live_true in Hl' as [? _].
    + rewrite Hr2, Hkeep; [done|right]. intros ([k2 r3] & -> & Hb)%list_elem_of_fmap. simpl in *.
      assert (Hi : (k2, r3) ∈ recovery_rows T d) by (unfold recovery_rows; rewrite E; apply elem_of_app; by left).
      apply Hin in Hi as [Hi Hl2]. assert (r3 = r') as -> by congruence.
      rewrite Hl2 in Hc. simpl in Hc. apply Hbefore in Hb as Hord. unfold newest_snapshot in Hord.
      apply row_newer_connex in Hord; [congruence|]. simpl. intros <-.
      apply (Hdisj k); [by apply (list_elem_of_fmap_2 fst _ (k, r'))|]. left.
  - destruct Ha as [-> ->]. split; [done|]. intros k' r' Hk'.
    destruct (Hrows k' r' Hk') as (r2 & Hr2 & _ & Hkeep & Hmark).
    rewrite (scanned_ids _ _ H2) in Hkeep, Hmark. destruct (live T k' r') eqn:Hl.
    + assert (Hi : (k', r') ∈ recovery_rows T d) by (by apply Hin).
      split; [by eapply passed_over|]. exists r2. split; [done|].
      apply Hmark; [by apply (list_elem_of_fmap_2 fst _ (k', r'))|]. by apply live_true in Hl as [? _].
    + rewrite Hr2, Hkeep; [done|right]. intros ([k2 r3] & -> & Hb)%list_elem_of_fmap. simpl in *.
      apply Hin in Hb as [Hb Hl2]. congruence.
Qed.

Lemma Acquire_snapshots clk tripID holderID duration d r d' :
  Acquire clk tripID holderID duration d = Ok (r, d') -> snapshots d' = snapshots d.
Proof.
  unfold Acquire, uuid_param. intros H. inv_tx.
  match goal with H : lockTrip _ _ = _ |- _ => apply lockTrip_ok in H as (_ & _ & ->) end.
  destruct (leases _ !! _) as [current|]; [|by inv_tx].
  repeat (case_match; inv_tx).
  by match goal with H : stale_old_proposals _ _ _ _ = _ |- _ =>
    apply update_proposals_ok in H as [_ ->] end.
Qed.

Lemma scan_id dup kv s : scanStoredSnapshot dup kv = Ok s -> sb_ID (ss_SnapshotBlob s) = kv.1.
Proof. destruct kv. unfold scanStoredSnapshot. intros H. by inv_res. Qed.

(** The epoch decides first. *)
Lemma newer_epoch x y :
  s_source_runtime_epoch y.2 < s_source_runtime_epoch x.2 -> row_newer x y = true.
Proof.
  intros H. unfold row_newer, row_columns. simpl. rewrite (proj2 (Z.eqb_neq _ _)) by lia.
  by apply Z.ltb_lt.
Qed.

(** Snapshots after a release.  A released lease forgets its epoch, but the
    stored snapshots are ordered by it: while the trip has a valid live snapshot
    of epoch two or more, no snapshot of the runtime that acquires the lease next
    is stored. *)
Theorem released_trip_stores_no_snapshot clk clk' T h1 h2 epoch duration d d1 r d2 k row st b s d3 :
  blob_unsigned b -> typed_rows d ->
  Release T h1 epoch d = Ok (tt, d1) -> Acquire clk T h2 duration d1 = Ok (r, d2) ->
  snapshots d !! k = Some row -> live T k row = true -> recoverable (k, row) st ->
  2 <= s_source_runtime_epoch row ->
  sb_TripID b = T -> sb_SourceRuntimeEpoch b = rl_RuntimeEpoch r ->
  PersistSnapshot clk' b d2 = Ok (s, d3) -> ss_Duplicate s = true /\ d3 = d2.
Proof.
  intros Hb Hd Hrel Hacq Hk Hl Hrec He HT Heb H.
  assert (rl_RuntimeEpoch r = 1) as Hone by (by eapply epoch_after_release).
  assert (Hs : snapshots d2 = snapshots d).
  { rewrite (Acquire_snapshots _ _ _ _ _ _ _ Hacq).
    apply Release_ok in Hrel as (? & ? & _ & _ & _ & _ & ->). done. }
  apply PersistSnapshot_ok in H as (Hv & t & _ &
    [(-> & Hdup & _)|(-> & Hi & _ & _ & _ & valid & invalid & Hst)]); [done|exfalso].
  apply live_true in Hl as Hl'. destruct Hl' as (Htr & _).
  assert (Hin : exists s, recoverable (k, row) s /\ s ∈ valid).
  { pose proof (sg_sorted _ _ _ _ _ _ Hst) as (_ & _ & _ & Hrow)%sort_out_ok.
    destruct (Hrow (k, row)) as (s & Hscan & [[? ?]|[Hn _]]).
    - rewrite merge_sort_Permutation, elem_of_rows_where, HT, Hs. done.
    - by exists s.
    - destruct Hrec as [Hscan' ?]. rewrite Hscan in Hscan'. by injection Hscan' as ->. }
  destruct Hin as (s & Hrs & Hin).
  assert (Hnew : row_newer (sb_ID b, snapshot_row b (clk' 0%nat)) (k, row) = true).
  { eapply stored_is_newer; eauto; [by rewrite Hs|congruence]. }
  unfold row_newer in Hnew. cbn [fst snd] in Hnew. rewrite new_row_columns in Hnew by done.
  unfold blob_columns, row_columns in Hnew. simpl in Hnew. rewrite Heb, Hone in Hnew.
  destruct (1 =? s_source_runtime_epoch row) eqn:E; zbool; lia.
Qed.

End Recovery.

(** ** Witnesses

    A trip leased twice: a snapshot is stored in each epoch. *)

Definition ex_snapshot_payload : bytes :=
  let trip := appendBytesField (appendBytesField (appendBytesField (appendBytesField []
    1 (bytes_of_string ex_trip)) 2 (bytes_of_string ex_user)) 3 (bytes_of_string "UTC"))
    7 (bytes_of_string ex_plan) in
  appendVarintField (appendVarintField (appendBytesField (appendBytesField [] 1 trip)
    5 (userCurrentPlanPayload ex_plan 1 1 example_drafts)) 2 1) 6 1.

Definition ex_snapshot_id (last : string) : string := "00000000-0000-4000-8000-0000000000" +:+ last.

Definition ex_blob (last : string) (epoch version : Z) : SnapshotBlob :=
  MkBlob (ex_snapshot_id last) ex_trip 1 epoch version 1 0 ex_snapshot_payload
    (sha256 ex_snapshot_payload).

Lemma ex_blob_unsigned last epoch version :
  0 <= epoch -> 0 <= version -> blob_unsigned (ex_blob last epoch version).
Proof. intros. by constructor. Qed.

(** Two snapshots, of the epochs one and two, and a corrupt newer row. *)
Definition ex_snap_one : @db pg_model := committed (PersistSnapshot (ex_clock 5) (ex_blob "51" 1 0)) ex_lease_a.
Definition ex_snap_taken : @db pg_model :=
  committed (Acquire (ex_clock 20000000) ex_trip ex_holder_b (10 * Second)) ex_snap_one.
Definition ex_snap_two : @db pg_model :=
  committed (PersistSnapshot (ex_clock 20000005) (ex_blob "52" 2 0)) ex_snap_taken.
Definition ex_corrupt_row : snapshot :=
  Snapshot ex_trip 1 9 0 1 0 3 (repeat Byte.x00 32) [Byte.x01; Byte.x02; Byte.x03] 0 None None.
Definition ex_snap_corrupt : @db pg_model :=
  set_snapshots (<[ex_snapshot_id "53" := ex_corrupt_row]> (snapshots ex_snap_two)) ex_snap_two.

Definition all_snapshots (P : string * snapshot -> bool) (d : @db pg_model) : bool :=
  forallb P (map_to_list (snapshots d)).

Lemma all_snapshots_true P d :
  all_snapshots P d = true -> forall k r, snapshots d !! k = Some r -> P (k, r) = true.
Proof.
  unfold all_snapshots. rewrite forallb_forall. intros H k r Hk. apply H.
  by apply list_elem_of_In, elem_of_map_to_list.
Qed.

Lemma typed_rows_test (d : @db pg_model) :
  all_snapshots (fun kv => forallb (fun z => z <=? max_int64) (row_columns kv.2)) d = true ->
  typed_rows d.
Proof.
  intros H k r Hk. apply (all_snapshots_true _ _ H) in Hk. simpl in Hk.
  unfold bigint_columns. repeat constructor; inv_res; lia.
Qed.

(** A live and valid row of a later epoch. *)
Definition ex_valid_row (last : string) (row : snapshot) : bool :=
  live ex_trip (ex_snapshot_id last) row && (2 <=? s_source_runtime_epoch row) &&
  match scanStoredSnapshot false (ex_snapshot_id last, row) with
  | Ok st => bool_decide (storedSnapshotValidationReason st = "")
  | Err _ => false
  end.

Lemma ex_row_has (d : @db pg_model) last :
  (ex_valid_row last <$> snapshots d !! ex_snapshot_id last) = Some true ->
  exists row st, snapshots d !! ex_snapshot_id last = Some row /\
    live ex_trip (ex_snapshot_id last) row = true /\ recoverable (ex_snapshot_id last, row) st /\
    2 <= s_source_runtime_epoch row.
Proof.
  unfold ex_valid_row. rewrite fmap_Some. intros (row & Hk & H). symmetry in H.
  apply andb_true_iff in H as [[Hl He]%andb_true_iff Hv]. apply Z.leb_le in He.
  destruct (scanStoredSnapshot false (ex_snapshot_id last, row)) as [st|] eqn:E; [|done].
  apply bool_decide_eq_true in Hv. exists row, st. done.
Qed.

Lemma persisted_snapshot_recovers_witness : exists s,
  LoadForRecovery (ex_clock 7) ex_trip ex_snap_two = (Ok s, ex_snap_two) /\
  ss_SnapshotBlob s = ex_blob "52" 2 0.
Proof.
  destruct (returns_ok (fun s => negb (ss_Duplicate s)) (PersistSnapshot (ex_clock 20000005) (ex_blob "52" 2 0))
    ex_snap_taken ltac:(vm_compute; reflexivity)) as (s & H & Hd).
  destruct (persisted_snapshot_recovers (ex_clock 20000005) (ex_clock 7) (ex_blob "52" 2 0) ex_snap_taken s
    ex_snap_two) as [Hb Hl].
  - apply ex_blob_unsigned; discriminate.
  - apply typed_rows_test. vm_compute. reflexivity.
  - exact H.
  - apply negb_true_iff. exact Hd.
  - exists s. split; [exact Hl|exact Hb].
Defined.

Lemma persist_snapshot_effect_witness :
  count_rows (live ex_trip) (snapshots ex_snap_two) <= 2 /\
  snapshots ex_snap_two !! ex_snapshot_id "52" = Some (snapshot_row (ex_blob "52" 2 0) 20000005).
Proof.
  destruct (returns_ok (fun s => negb (ss_Duplicate s)) (PersistSnapshot (ex_clock 20000005) (ex_blob "52" 2 0))
    ex_snap_taken ltac:(vm_compute; reflexivity)) as (s & H & Hd).
  destruct (persist_snapshot_effect (ex_clock 20000005) (ex_blob "52" 2 0) ex_snap_taken s ex_snap_two)
    as (_ & Hst & _).
  - apply ex_blob_unsigned; discriminate.
  - apply typed_rows_test. vm_compute. reflexivity.
  - exact H.
  - apply negb_true_iff. exact Hd.
  - split; [exact (sn_two _ _ _ _ Hst)|exact (sn_new _ _ _ _ Hst)].
Defined.

Definition ex_epoch_two (kv : string * snapshot) : bool :=
  negb (bool_decide (kv.1 = ex_snapshot_id "52")) || (s_source_runtime_epoch kv.2 =? 2).

Lemma recovery_finds_newest_valid_witness :
  exists r, snapshots (LoadForRecovery (ex_clock 7) ex_trip ex_snap_corrupt).2 !!
    ex_snapshot_id "53" = Some r /\ s_invalidated_at r <> None.
Proof.
  pose proof (recovery_finds_newest_valid (ex_clock 7) ex_trip ex_snap_corrupt) as H.
  assert (Hok : is_ok (LoadForRecovery (ex_clock 7) ex_trip ex_snap_corrupt).1 = true)
    by (vm_compute; reflexivity).
  assert (Hid : (sb_ID ∘ ss_SnapshotBlob <$> (LoadForRecovery (ex_clock 7) ex_trip ex_snap_corrupt).1) =
    Ok (ex_snapshot_id "52")) by (vm_compute; reflexivity).
  destruct (LoadForRecovery (ex_clock 7) ex_trip ex_snap_corrupt) as [[s|e] d'] eqn:E; [|discriminate Hok].
  destruct H as (_ & k & r & Hk & _ & [Hscan _] & Hall).
  - reflexivity.
  - apply (bool_decide_eq_true (is_Some (trips ex_snap_corrupt !! ex_trip))). vm_compute. reflexivity.
  - apply typed_rows_test. vm_compute. reflexivity.
  - intros k r Hk _. apply (all_snapshots_true (fun kv => is_ok (scanStoredSnapshot false kv)) ex_snap_corrupt);
      [vm_compute; reflexivity|exact Hk].
  - apply scan_id in Hscan. cbn [fst] in Hscan. simpl in Hid. injection Hid as Hid.
    rewrite Hid in Hscan. subst k.
    pose proof (all_snapshots_true ex_epoch_two ex_snap_corrupt ltac:(vm_compute; reflexivity) _ _ Hk) as He.
    unfold ex_epoch_two in He. cbn [fst snd] in He. rewrite bool_decide_eq_true_2 in He by reflexivity. apply Z.eqb_eq in He.
    specialize (Hall (ex_snapshot_id "53") ex_corrupt_row (lookup_insert_eq _ _ _)).
    rewrite newer_epoch, andb_true_r in Hall by (cbn [fst snd]; rewrite He; reflexivity).
    exact (proj2 Hall).
Defined.

(** The epoch starts again at one: the snapshot of the old epoch one is answered
    as a duplicate, and a new one is refused as stale. *)
Definition ex_snap_released : @db pg_model := committed (Release ex_trip ex_holder_b 2) ex_snap_two.
Definition ex_snap_again : @db pg_model :=
  committed (Acquire (ex_clock 21000000) ex_trip ex_holder_a (10 * Second)) ex_snap_released.

Definition ex_refused : bool :=
  match PersistSnapshot (ex_clock 21000005) (ex_blob "54" 1 1) ex_snap_again with
  | Err ErrSnapshotStale => true
  | _ => false
  end.

Lemma released_trip_stores_no_snapshot_witness :
  (exists s d3, PersistSnapshot (ex_clock 21000005) (ex_blob "51" 1 0) ex_snap_again = Ok (s, d3) /\
     ss_Duplicate s = true) /\ ex_refused = true.
Proof.
  split; [|vm_compute; reflexivity].
  destruct (committed_ok (Release ex_trip ex_holder_b 2) ex_snap_two ltac:(vm_compute; reflexivity)) as [[] Hr].
  destruct (returns_ok (fun r => rl_RuntimeEpoch r =? 1) (Acquire (ex_clock 21000000) ex_trip ex_holder_a (10 * Second))
    ex_snap_released ltac:(vm_compute; reflexivity)) as (r & Ha & He).
  destruct (committed_ok (PersistSnapshot (ex_clock 21000005) (ex_blob "51" 1 0)) ex_snap_again
    ltac:(vm_compute; reflexivity)) as [s Hs].
  destruct (ex_row_has ex_snap_two "52" ltac:(vm_compute; reflexivity)) as (row & st & Hk & Hl & Hrec & H2).
  exists s, (committed (PersistSnapshot (ex_clock 21000005) (ex_blob "51" 1 0)) ex_snap_again).
  split; [exact Hs|].
  apply (released_trip_stores_no_snapshot (ex_clock 21000000) (ex_clock 21000005) ex_trip ex_holder_b ex_holder_a 2
    (10 * Second) ex_snap_two ex_snap_released r ex_snap_again (ex_snapshot_id "52") row st (ex_blob "51" 1 0) s
    (committed (PersistSnapshot (ex_clock 21000005) (ex_blob "51" 1 0)) ex_snap_again)).
  - apply ex_blob_unsigned; discriminate.
  - apply typed_rows_test. vm_compute. reflexivity.
  - exact Hr.
  - exact Ha.
  - exact Hk.
  - exact Hl.
  - exact Hrec.
  - exact H2.
  - reflexivity.
  - symmetry. apply Z.eqb_eq. exact He.
  - exact Hs.
Defined.
