(* ===== verification/Bootstrap.v ===== *)
(** * Convergence of a bootstrapped runtime

    Models [persistence/bootstrap_convergence.go]: a runtime that was started from
    PostgreSQL's canonical state has everything up to the finalized sequence, so
    the canonical-first commands still waiting for their acknowledgement are
    settled and every covered outbox row is confirmed. *)

From S2P Require Import Prelude GoLib Wire Schema Tables Leases Commands Finalization.

Section Bootstrap.
Context {PG : Postgres}.

Record ResolveCanonicalBootstrapRequest := MkBootstrapRequest {
  rb_TripID : string;
  rb_TripRevision : Z;
  rb_AcceptedMutationSequence : Z;
  rb_FinalizedMutationSequence : Z;
  rb_CurrentPlanID : string
}.

(** [bs_ConfirmedAt] is [None] for Go's zero time: no row is covered. *)
Record ResolvedCanonicalBootstrap := MkBootstrap {
  bs_TripID : string;
  bs_TripRevision : Z;
  bs_AcceptedMutationSequence : Z;
  bs_FinalizedMutationSequence : Z;
  bs_CurrentPlanID : string;
  bs_MirrorsResolved : Z;
  bs_RowsConfirmed : Z;
  bs_ConfirmedAt : option Z;
  bs_Duplicate : bool
}.

Definition validateCanonicalBootstrapResolution (r : ResolveCanonicalBootstrapRequest)
  : result unit :=
  _ ← reject_if (negb (validCanonicalUUID (rb_TripID r)) ||
                 negb (validCanonicalUUID (rb_CurrentPlanID r)))
        (ErrInvalid "bootstrap resolution identifiers must be canonical lowercase UUIDs");
  reject_if ((rb_TripRevision r =? 0) || (max_int64 <? rb_TripRevision r) ||
             (rb_AcceptedMutationSequence r =? 0) ||
             (max_int64 <? rb_AcceptedMutationSequence r) ||
             (rb_FinalizedMutationSequence r =? 0) ||
             (max_int64 <? rb_FinalizedMutationSequence r))
    (ErrInvalid "bootstrap resolution versions are invalid").

Record coveredMirror := MkCovered {
  cm_intentID : string;
  cm_outboxID : string;
  cm_applicationOrder : application_order;
  cm_intentSyncState : sync_state;
  cm_outboxDeliveryState : delivery_state;
  cm_finalizationConfirmed : option Z
}.

(** A row of the join: an outbox row up to the sequence whose command is the
    trip's. *)
Definition covered_mirror (tripID : string) (sequence : Z) (d : db)
    (kv : string * outbox_row) : option coveredMirror :=
  let '(id, o) := kv in
  i ← intents d !! o_command_intent_id o;
  if bool_decide (i_trip_id i = tripID) && (o_mutation_sequence o <=? sequence)
  then Some (MkCovered (o_command_intent_id o) id (i_application_order i)
               (i_runtime_sync_state i) (o_delivery_state o) (o_finalization_confirmed_at o))
  else None.

(** [ORDER BY outbox.mutation_sequence]; rows of one sequence are in the order of
    their identifiers. *)
Definition by_sequence (x y : string * outbox_row) : Prop :=
  o_mutation_sequence x.2 < o_mutation_sequence y.2 \/
  (o_mutation_sequence x.2 = o_mutation_sequence y.2 /\ String.le x.1 y.1).
#[global] Instance by_sequence_dec : RelDecision by_sequence.
Proof. intros x y. unfold by_sequence. apply _. Defined.

Definition covered_mirrors (tripID : string) (sequence : Z) (d : db) : list coveredMirror :=
  omap (covered_mirror tripID sequence d) (merge_sort by_sequence (map_to_list (outbox d))).

Definition sync_waiting (c : coveredMirror) : bool :=
  bool_decide (cm_intentSyncState c = SyncPending) ||
  bool_decide (cm_intentSyncState c = SyncPausedInternal).

Definition delivery_waiting (c : coveredMirror) : bool :=
  bool_decide (cm_outboxDeliveryState c = DeliveryPending) ||
  bool_decide (cm_outboxDeliveryState c = DeliveryPausedInternal).

Definition is_canonical (c : coveredMirror) : bool :=
  bool_decide (cm_applicationOrder c = canonical_first).

(** Runtime-first work the bootstrap would cover.  The other test of the loop, an
    application order that is neither, never holds: the column has a [CHECK]. *)
Definition runtime_blocks (c : coveredMirror) : bool :=
  bool_decide (cm_applicationOrder c = runtime_first) &&
  (bool_decide (cm_intentSyncState c = SyncPending) || delivery_waiting c).

Definition mirror_waiting (c : coveredMirror) : bool :=
  is_canonical c && (sync_waiting c || delivery_waiting c).

(** The [SET] clauses of the two updates of an outbox row. *)
Definition confirm_row (at_ : option Z) (o : outbox_row) : outbox_row :=
  set_o_updated_at (default 0 at_) (set_o_finalization_confirmed_at at_ o).

Definition accept_row (at_ : option Z) (o : outbox_row) : outbox_row :=
  set_o_finalization_confirmed_at at_
    (resolve_outbox DeliveryAccepted "OK" (default 0 at_) o).

(** [WHERE id = $1 AND trip_id = ...]. *)
Definition of_trip (tripID : string) (f : outbox_row -> outbox_row) (o : outbox_row) : outbox_row :=
  if bool_decide (o_trip_id o = tripID) then f o else o.

(** The body of the last loop. *)
Definition settle_mirror (tripID : string) (at_ : option Z) (c : coveredMirror) : tx unit :=
  _ ← (if is_canonical c && sync_waiting c then
         update_intent "resolve bootstrap mirror intent" (cm_intentID c) (fun i =>
           if bool_decide (i_trip_id i = tripID) then set_i_runtime_sync_state SyncSynced i else i)
       else mret tt);
  if is_canonical c && delivery_waiting c then
    update_outbox (cm_outboxID c) (of_trip tripID (accept_row at_))
  else if is_null (cm_finalizationConfirmed c) then
    update_outbox (cm_outboxID c) (of_trip tripID (confirm_row at_))
  else mret tt.

Definition ResolveCanonicalBootstrap (clk : nat -> Z) (r : ResolveCanonicalBootstrapRequest)
  : tx ResolvedCanonicalBootstrap :=
  let tripID := rb_TripID r in
  _ ← lift (validateCanonicalBootstrapResolution r);
  t ← lock_trip_row tripID;
  planID ← lift (of_option (t_current_plan_id t) (ErrDatabase "lock canonical bootstrap trip"));
  _ ← guard (negb (t_trip_revision t =? int64 (rb_TripRevision r)) ||
             negb (t_finalized_mutation_sequence t =? int64 (rb_FinalizedMutationSequence r)) ||
             negb (rb_AcceptedMutationSequence r =? rb_FinalizedMutationSequence r) ||
             negb (bool_decide (planID = rb_CurrentPlanID r))) ErrBootstrapConvergenceConflict;
  covered ← gets (covered_mirrors tripID (int64 (rb_FinalizedMutationSequence r)));
  _ ← guard (existsb runtime_blocks covered) ErrBootstrapConvergenceBlocked;
  let mirrorsResolved := zlen (List.filter mirror_waiting covered) in
  let rowsConfirmed := zlen (List.filter (fun c => is_null (cm_finalizationConfirmed c)) covered) in
  let databaseTime :=
    if (0 <? mirrorsResolved) || (0 <? rowsConfirmed) then Some (clk 0%nat)
    else head (omap cm_finalizationConfirmed covered) in
  _ ← for_each (settle_mirror tripID databaseTime) covered;
  mret (MkBootstrap tripID (rb_TripRevision r) (rb_AcceptedMutationSequence r)
          (rb_FinalizedMutationSequence r) (rb_CurrentPlanID r) mirrorsResolved rowsConfirmed
          databaseTime ((mirrorsResolved =? 0) && (rowsConfirmed =? 0))).

(** ** What the loop does *)

Lemma update_intent_alter op id f d u d' :
  update_intent op id f d = Ok (u, d') -> d' = set_intents (alter f id (intents d)) d.
Proof.
  unfold update_intent. destruct (intents d !! id) as [i|] eqn:E.
  - case_match; [|done]. intros [= _ <-]. f_equal. symmetry. apply map_eq. intros k.
    destruct (decide (k = id)) as [->|Hne].
    + by rewrite lookup_alter_eq, lookup_insert_eq, E.
    + by rewrite lookup_alter_ne, lookup_insert_ne.
  - intros [= _ <-]. destruct d as [? ? ? ? ? ? ? is_ ? ? ? ? ?]. unfold set_intents. simpl in *. f_equal.
    apply map_eq. intros k. destruct (decide (k = id)) as [->|Hne].
    + by rewrite lookup_alter_eq, E.
    + by rewrite lookup_alter_ne.
Qed.

Definition synced_by (k : string) (c : coveredMirror) : bool :=
  bool_decide (cm_intentID c = k) && (is_canonical c && sync_waiting c).

Definition settled_intent (T : string) (l : list coveredMirror) (k : string) (i : intent) : intent :=
  if existsb (synced_by k) l && bool_decide (i_trip_id i = T)
  then set_i_runtime_sync_state SyncSynced i else i.

Definition settle_row (at_ : option Z) (c : coveredMirror) (o : outbox_row) : outbox_row :=
  if is_canonical c && delivery_waiting c then accept_row at_ o
  else if is_null (cm_finalizationConfirmed c) then confirm_row at_ o else o.

Definition settled_row (T : string) (at_ : option Z) (l : list coveredMirror) (k : string)
    (o : outbox_row) : outbox_row :=
  match List.find (fun c => bool_decide (cm_outboxID c = k)) l with
  | Some c => of_trip T (settle_row at_ c) o
  | None => o
  end.

Lemma settle_mirror_ok T at_ c d u d' :
  settle_mirror T at_ c d = Ok (u, d') ->
  d' = set_intents (alter (settled_intent T [c] (cm_intentID c)) (cm_intentID c) (intents d))
         (set_outbox (alter (of_trip T (settle_row at_ c)) (cm_outboxID c) (outbox d)) d).
Proof.
  unfold settle_mirror, settled_intent. simpl. unfold synced_by.
  rewrite bool_decide_eq_true_2 by done. simpl. rewrite orb_false_r.
  intros ([] & d1 & H1 & H2)%tx_bind_ok.
  assert (Hi : d1 = set_intents (alter (fun i =>
    if is_canonical c && sync_waiting c && bool_decide (i_trip_id i = T)
    then set_i_runtime_sync_state SyncSynced i else i) (cm_intentID c) (intents d)) d).
  { destruct (is_canonical c && sync_waiting c); [by apply update_intent_alter in H1|].
    apply mret_ok in H1 as [_ ->]. rewrite alter_id by done. by destruct d1. }
  subst d1. unfold settle_row. destruct (is_canonical c && delivery_waiting c) eqn:E1;
    [by apply update_outbox_ok in H2|].
  destruct (is_null (cm_finalizationConfirmed c)); [by apply update_outbox_ok in H2|].
  apply mret_ok in H2 as [_ <-]. rewrite (alter_id (of_trip T (fun o => o))); [by destruct d|].
  intros o _. unfold of_trip. by destruct (bool_decide _).
Qed.

Lemma settled_intent_cons T c l k i :
  settled_intent T (c :: l) k i = settled_intent T l k (settled_intent T [c] k i).
Proof.
  unfold settled_intent. simpl. rewrite orb_false_r.
  destruct (synced_by k c); simpl; [|done].
  case_bool_decide as E; simpl.
  - rewrite (bool_decide_eq_true_2 _ E), andb_true_r. by case_match.
  - rewrite (bool_decide_eq_false_2 _ E), andb_false_r. done.
Qed.

Lemma settle_all T at_ l d u d' :
  NoDup (cm_outboxID <$> l) -> for_each (settle_mirror T at_) l d = Ok (u, d') ->
  d' = set_intents (map_imap (fun k i => Some (settled_intent T l k i)) (intents d))
         (set_outbox (map_imap (fun k o => Some (settled_row T at_ l k o)) (outbox d)) d).
Proof.
  revert d. induction l as [|c l IH]; intros d Hnd; simpl.
  - intros [_ <-]%mret_ok. destruct d. unfold set_intents, set_outbox. simpl. f_equal;
      apply map_eq; intros k; rewrite map_lookup_imap; by destruct (_ !! k).
  - apply NoDup_cons in Hnd as [Hc Hnd]. intros ([] & d1 & ->%settle_mirror_ok & H)%tx_bind_ok.
    apply IH in H as ->; [|done]. unfold set_intents, set_outbox. simpl.
    f_equal; apply map_eq; intros k; rewrite !map_lookup_imap.
    + destruct (decide (k = cm_intentID c)) as [->|Hne].
      * rewrite lookup_alter_eq. destruct (_ !! _); [|done]. simpl. by rewrite <- settled_intent_cons.
      * rewrite lookup_alter_ne by done. destruct (_ !! _) as [i|]; [|done]. simpl. f_equal.
        unfold settled_intent. simpl. unfold synced_by at 2.
        by rewrite (bool_decide_eq_false_2 (cm_intentID c = k)).
    + unfold settled_row. simpl. destruct (decide (k = cm_outboxID c)) as [->|Hne].
      * rewrite lookup_alter_eq, bool_decide_eq_true_2 by done. destruct (_ !! _) as [o|]; [|done]. simpl.
        destruct (List.find _ l) as [c'|] eqn:E; [|done]. exfalso. apply Hc.
        apply List.find_some in E as [Hin Hid]. apply bool_decide_eq_true in Hid. rewrite <- Hid.
        by apply list_elem_of_fmap_2, list_elem_of_In.
      * rewrite lookup_alter_ne, bool_decide_eq_false_2 by done. done.
Qed.

(** The rows of the join. *)
Lemma elem_of_covered T sequence d c :
  c ∈ covered_mirrors T sequence d <->
  exists ko o i, outbox d !! ko = Some o /\ intents d !! o_command_intent_id o = Some i /\
    i_trip_id i = T /\ o_mutation_sequence o <= sequence /\
    c = MkCovered (o_command_intent_id o) ko (i_application_order i) (i_runtime_sync_state i)
          (o_delivery_state o) (o_finalization_confirmed_at o).
Proof.
  unfold covered_mirrors. rewrite list_elem_of_omap. split.
  - intros ([ko o] & Hin & Hc). rewrite merge_sort_Permutation in Hin.
    apply elem_of_map_to_list in Hin. simpl in Hc. apply bind_Some in Hc as (i & Hi & Hc).
    case_match eqn:E; [|done]. inv_res. zbool. by exists ko, o, i.
  - intros (ko & o & i & Ho & Hi & HT & Hs & ->). exists (ko, o).
    split; [rewrite merge_sort_Permutation; by apply elem_of_map_to_list|].
    simpl. rewrite Hi. simpl. rewrite bool_decide_eq_true_2, (proj2 (Z.leb_le _ _)) by done. done.
Qed.

Lemma covered_mirror_id T sequence d kv c :
  covered_mirror T sequence d kv = Some c -> cm_outboxID c = kv.1.
Proof.
  destruct kv as [ko o]. simpl. intros (i & _ & H)%bind_Some. case_match; [|done]. by injection H as <-.
Qed.

Lemma covered_NoDup T sequence d : NoDup (cm_outboxID <$> covered_mirrors T sequence d).
Proof.
  unfold covered_mirrors.
  assert (Hnd : NoDup (merge_sort by_sequence (map_to_list (outbox d))).*1)
    by (rewrite merge_sort_Permutation; apply NoDup_fst_map_to_list).
  induction (merge_sort by_sequence (map_to_list (outbox d))) as [|kv l IH]; [by constructor|].
  rewrite fmap_cons in Hnd. apply NoDup_cons in Hnd as [Hn Hnd]. cbn [omap list_omap].
  destruct (covered_mirror T sequence d kv) as [c|] eqn:E; [|by apply IH]. rewrite fmap_cons.
  constructor; [|by apply IH]. apply covered_mirror_id in E. rewrite E.
  intros (c' & Hid & (kv' & Hin & Hc)%list_elem_of_omap)%list_elem_of_fmap. apply Hn.
  apply covered_mirror_id in Hc. rewrite Hid, Hc. by apply list_elem_of_fmap_2.
Qed.

(** A settled database. *)
Definition settled (T : string) (at_ : option Z) (sequence : Z) (d : db) : db :=
  let l := covered_mirrors T sequence d in
  set_intents (map_imap (fun k i => Some (settled_intent T l k i)) (intents d))
    (set_outbox (map_imap (fun k o => Some (settled_row T at_ l k o)) (outbox d)) d).

Record converged (clk : nat -> Z) (r : ResolveCanonicalBootstrapRequest)
    (c : ResolvedCanonicalBootstrap) (t : trip) (d d' : db) : Prop := {
  cv_valid : validateCanonicalBootstrapResolution r = Ok tt;
  cv_trip : trips d !! rb_TripID r = Some t;
  cv_revision : t_trip_revision t = int64 (rb_TripRevision r);
  cv_finalized : t_finalized_mutation_sequence t = int64 (rb_FinalizedMutationSequence r);
  cv_accepted : rb_AcceptedMutationSequence r = rb_FinalizedMutationSequence r;
  cv_plan : t_current_plan_id t = Some (rb_CurrentPlanID r);
  cv_free : forall c, c ∈ covered_mirrors (rb_TripID r) (t_finalized_mutation_sequence t) d ->
    runtime_blocks c = false;
  cv_result : d' = settled (rb_TripID r) (bs_ConfirmedAt c) (t_finalized_mutation_sequence t) d;
  cv_time : (forall c, c ∈ covered_mirrors (rb_TripID r) (t_finalized_mutation_sequence t) d ->
      mirror_waiting c = false /\ cm_finalizationConfirmed c <> None) /\
      bs_Duplicate c = true \/
    bs_ConfirmedAt c = Some (clk 0%nat) /\ bs_Duplicate c = false
}.

Lemma filter_none {A} (f : A -> bool) l :
  zlen (List.filter f l) = 0 <-> forall x, x ∈ l -> f x = false.
Proof.
  unfold zlen. induction l as [|x l IH]; simpl; [split; [by intros _ ? ?%not_elem_of_nil|done]|].
  destruct (f x) eqn:E; simpl.
  - split; [lia|]. intros H. rewrite (H x) in E; [done|left].
  - rewrite IH. split.
    + intros H y [->|Hy]%elem_of_cons; auto.
    + intros H y Hy. apply H. by right.
Qed.

Lemma ResolveCanonicalBootstrap_ok clk r d c d' :
  ResolveCanonicalBootstrap clk r d = Ok (c, d') -> exists t, converged clk r c t d d'.
Proof.
  unfold ResolveCanonicalBootstrap. intros ([] & d1 & [Hv ->]%lift_ok & H)%tx_bind_ok.
  apply tx_bind_ok in H as (t & d1 & [Ht ->]%lock_trip_row_ok & H).
  apply tx_bind_ok in H as (plan & d1 & [Hp%of_option_ok ->]%lift_ok & H).
  apply tx_bind_ok in H as ([] & d1 & [Hg ->]%guard_ok & H).
  apply tx_bind_ok in H as (l & d1 & [-> ->]%gets_ok & H).
  apply tx_bind_ok in H as ([] & d1 & [Hb ->]%guard_ok & H).
  apply tx_bind_ok in H as ([] & d1 & Hloop & [<- <-]%mret_ok).
  inv_res. zbool. exists t. apply settle_all in Hloop; [|apply covered_NoDup].
  assert (Hf : t_finalized_mutation_sequence t = int64 (rb_FinalizedMutationSequence r)) by done.
  constructor; simpl; rewrite ?Hf; try done.
  - intros c Hc. apply not_true_iff_false. intros E. apply not_true_iff_false in Hb. apply Hb.
    apply existsb_exists. exists c. split; [by apply list_elem_of_In|done].
  - set (l := covered_mirrors _ _ _) in *. set (n := zlen _). set (m := zlen (List.filter (fun _ => _) _)).
    pose proof (zlen_nonneg (List.filter mirror_waiting l)).
    pose proof (zlen_nonneg (List.filter (fun c => is_null (cm_finalizationConfirmed c)) l)).
    fold n in H. fold m in H0.
    destruct ((n =? 0) && (m =? 0)) eqn:E.
    + left. split; [|done]. apply andb_true_iff in E as [En%Z.eqb_eq Em%Z.eqb_eq].
      intros c Hc. split; [by apply (proj1 (filter_none _ _) En)|].
      apply (proj1 (filter_none _ _) Em) in Hc. by destruct (cm_finalizationConfirmed c).
    + right. split; [|done]. apply andb_false_iff in E as [E|E]; zbool.
      * by rewrite (proj2 (Z.ltb_lt 0 n)) by lia.
      * rewrite (proj2 (Z.ltb_lt 0 m)) by lia. by rewrite orb_true_r.
Qed.

(** *** The settled rows, one at a time *)

Definition mirror_of (ko : string) (o : outbox_row) (i : intent) : coveredMirror :=
  MkCovered (o_command_intent_id o) ko (i_application_order i) (i_runtime_sync_state i)
    (o_delivery_state o) (o_finalization_confirmed_at o).

Lemma lookup_settled_outbox T at_ sequence d ko o' :
  outbox (settled T at_ sequence d) !! ko = Some o' <->
  exists o, outbox d !! ko = Some o /\
    o' = settled_row T at_ (covered_mirrors T sequence d) ko o.
Proof. simpl. rewrite map_lookup_imap, bind_Some. naive_solver. Qed.

Lemma lookup_settled_intents T at_ sequence d k i' :
  intents (settled T at_ sequence d) !! k = Some i' <->
  exists i, intents d !! k = Some i /\
    i' = settled_intent T (covered_mirrors T sequence d) k i.
Proof. simpl. rewrite map_lookup_imap, bind_Some. naive_solver. Qed.

(** A row of the join is settled by its own entry. *)
Lemma settled_covered T at_ sequence d ko o i :
  outbox d !! ko = Some o -> intents d !! o_command_intent_id o = Some i ->
  i_trip_id i = T -> o_mutation_sequence o <= sequence ->
  settled_row T at_ (covered_mirrors T sequence d) ko o =
  of_trip T (settle_row at_ (mirror_of ko o i)) o.
Proof.
  intros Ho Hi HT Hs. unfold settled_row.
  assert (Hin : mirror_of ko o i ∈ covered_mirrors T sequence d)
    by (apply elem_of_covered; by exists ko, o, i).
  destruct (List.find _ _) as [c|] eqn:E.
  - apply List.find_some in E as [Hc Hid]. apply bool_decide_eq_true in Hid.
    apply list_elem_of_In, elem_of_covered in Hc as (ko' & o' & i' & Ho' & Hi' & _ & _ & ->).
    simpl in Hid. subst ko'. simplify_eq. done.
  - apply list_elem_of_In in Hin. apply (List.find_none _ _ E) in Hin.
    by rewrite bool_decide_eq_true_2 in Hin.
Qed.

(** Other rows stay. *)
Lemma settled_uncovered T at_ sequence d ko o :
  outbox d !! ko = Some o ->
  (forall i, intents d !! o_command_intent_id o = Some i -> i_trip_id i = T ->
     sequence < o_mutation_sequence o) ->
  settled_row T at_ (covered_mirrors T sequence d) ko o = o.
Proof.
  intros Ho Hn. unfold settled_row. destruct (List.find _ _) as [c|] eqn:E; [|done]. exfalso.
  apply List.find_some in E as [Hc Hid]. apply bool_decide_eq_true in Hid.
  apply list_elem_of_In, elem_of_covered in Hc as (ko' & o' & i' & Ho' & Hi' & HT & Hs & ->).
  simpl in Hid. subst ko'. simplify_eq. specialize (Hn i' Hi' eq_refl). lia.
Qed.

(** A command is synced if a row of the join waits for it. *)
Lemma settled_intent_spec T sequence d k i :
  intents d !! k = Some i ->
  settled_intent T (covered_mirrors T sequence d) k i = set_i_runtime_sync_state SyncSynced i /\
  (exists ko o, outbox d !! ko = Some o /\ o_command_intent_id o = k /\
     o_mutation_sequence o <= sequence) /\
  i_trip_id i = T /\ i_application_order i = canonical_first \/
  settled_intent T (covered_mirrors T sequence d) k i = i /\
  (forall ko o, outbox d !! ko = Some o -> o_command_intent_id o = k ->
     i_trip_id i = T -> o_mutation_sequence o <= sequence ->
     is_canonical (mirror_of ko o i) && sync_waiting (mirror_of ko o i) = false).
Proof.
  intros Hi. unfold settled_intent. destruct (existsb _ _) eqn:E; simpl.
  - apply existsb_exists in E as (c & Hc & Hs). unfold synced_by in Hs. inv_res.
    apply list_elem_of_In, elem_of_covered in Hc as (ko & o & j & Ho & Hj & HT & Hse & ->).
    simpl in *. simplify_eq. rewrite bool_decide_eq_true_2 by done. left.
    split_and!; try done; [by exists ko, o|].
    match goal with H : is_canonical _ = true |- _ => by apply bool_decide_eq_true in H end.
  - right. split; [done|]. intros ko o Ho Hc HT Hs. apply not_true_iff_false. intros H.
    apply not_true_iff_false in E. apply E. apply existsb_exists. exists (mirror_of ko o i).
    split; [apply list_elem_of_In, elem_of_covered; exists ko, o, i; split_and!; [done|by rewrite Hc|done..]|].
    unfold synced_by. simpl. by rewrite bool_decide_eq_true_2.
Qed.

Lemma settled_row_keeps T at_ l ko o :
  let o' := settled_row T at_ l ko o in
  o_command_intent_id o' = o_command_intent_id o /\ o_trip_id o' = o_trip_id o /\
  o_mutation_sequence o' = o_mutation_sequence o.
Proof. simpl. unfold settled_row, of_trip, settle_row. by repeat case_match. Qed.

(** *** Nothing left to settle *)

Lemma settle_nothing T at_ l d :
  (forall c, c ∈ l -> mirror_waiting c = false /\ cm_finalizationConfirmed c <> None) ->
  for_each (settle_mirror T at_) l d = Ok (tt, d).
Proof.
  induction l as [|c l IH]; intros H; simpl; [done|].
  eapply tx_bind_run; [|apply IH; intros; apply H; by right].
  destruct (H c) as [Hw Hc]; [left|]. unfold settle_mirror, mirror_waiting in *.
  destruct (is_canonical c); simpl in *.
  - apply orb_false_iff in Hw as [-> ->]. eapply tx_bind_run; [reflexivity|]. simpl.
    by destruct (cm_finalizationConfirmed c).
  - eapply tx_bind_run; [reflexivity|]. by destruct (cm_finalizationConfirmed c).
Qed.

(** *** Errors *)

Lemma tx_bind_err {A B} (m : tx A) (f : A -> tx B) d e :
  (m ≫= f) d = Err e -> m d = Err e \/ exists a d1, m d = Ok (a, d1) /\ f a d1 = Err e.
Proof. unfold mbind, tx_bind. destruct (m d) as [[a d1]|]; [eauto|intros [= ->]; by left]. Qed.

Lemma settle_mirror_err T at_ c d e :
  settle_mirror T at_ c d = Err e -> e = ErrDatabase "resolve bootstrap mirror intent".
Proof.
  unfold settle_mirror. intros [H|([] & d1 & _ & H)]%tx_bind_err.
  - case_match; [|done]. unfold update_intent in H. repeat case_match; naive_solver.
  - repeat case_match; try done.
Qed.

Lemma settle_all_err T at_ l d e :
  for_each (settle_mirror T at_) l d = Err e -> e = ErrDatabase "resolve bootstrap mirror intent".
Proof.
  revert d. induction l as [|c l IH]; intros d; simpl; [done|].
  intros [H|([] & d1 & _ & H)]%tx_bind_err; [by eapply settle_mirror_err|by apply IH in H].
Qed.

(** The only reason to be blocked is covered runtime-first work. *)
Lemma blocked_by clk r d :
  ResolveCanonicalBootstrap clk r d = Err ErrBootstrapConvergenceBlocked ->
  exists t c, trips d !! rb_TripID r = Some t /\
    c ∈ covered_mirrors (rb_TripID r) (t_finalized_mutation_sequence t) d /\
    runtime_blocks c = true.
Proof.
  unfold ResolveCanonicalBootstrap. intros [H|(u & d1 & [_ ->]%lift_ok & H)]%tx_bind_err.
  { unfold lift, validateCanonicalBootstrapResolution, reject_if in H. by repeat case_match. }
  apply tx_bind_err in H as [H|(t & d1 & [Ht ->]%lock_trip_row_ok & H)].
  { unfold lock_trip_row, find_row in H. by destruct (trips d !! rb_TripID r). }
  apply tx_bind_err in H as [H|(p & d1 & [_ ->]%lift_ok & H)].
  { unfold lift in H. by destruct (t_current_plan_id t). }
  apply tx_bind_err in H as [H|(u' & d1 & [Hg ->]%guard_ok & H)].
  { unfold guard, lift, reject_if in H. by case_match. }
  inv_res. zbool. apply tx_bind_err in H as [H|(l & d1 & [-> ->]%gets_ok & H)]; [done|].
  apply tx_bind_err in H as [H|(u' & d1 & [_ ->]%guard_ok & H)].
  - unfold guard, lift, reject_if in H. destruct (existsb _ _) eqn:E; [|done].
    apply existsb_exists in E as (c & Hc & Hb). exists t, c. split; [done|].
    split; [|done]. apply list_elem_of_In in Hc.
    match goal with H : t_finalized_mutation_sequence t = _ |- _ => by rewrite H end.
  - apply tx_bind_err in H as [H|(u2 & d1 & _ & H)]; [by apply settle_all_err in H|done].
Qed.

End Bootstrap.
