(* ===== verification/System.v ===== *)
(** * The whole command ledger

    The stores modelled in the other files share one database.  This file puts
    their operations together in a step relation, one constructor per operation
    that changes state, and proves by rule induction an invariant of every
    database the program can reach: a trip has at most one runtime command in
    flight and its finalized sequence is contiguous, every pending proposal was
    computed for the trip's current revision and plan, and a command is waiting
    exactly as long as an outbox row of it is undelivered. *)

From S2P Require Import Prelude GoLib Wire Schema Tables Leases Commands.
From S2P Require Import Finalization Mutations Proposals Decisions OutboxStore.
From S2P Require Import CanonicalState Canonical CanonicalFacts CanonicalLoad Mirror.
From S2P Require Import Snapshots Bootstrap.

Section System.
Context {PG : Postgres}.

(** ** The invariant *)

(** The mutation sequences of the trips [ts] and the commands [is]. *)
Record sequences (ts : gmap string trip) (is_ : gmap string intent) : Prop := {
  sq_intent : forall k i, is_ !! k = Some i -> exists t, ts !! i_trip_id i = Some t /\
    0 < i_mutation_sequence i < t_next_mutation_sequence t /\
    (i_state i = IntentPending <->
     t_finalized_mutation_sequence t < i_mutation_sequence i) /\
    (i_state i = IntentPending -> i_application_order i = runtime_first);
  sq_unique : forall k k' i i', is_ !! k = Some i -> is_ !! k' = Some i' ->
    i_trip_id i = i_trip_id i' -> i_mutation_sequence i = i_mutation_sequence i' -> k = k';
  sq_next : forall T t, ts !! T = Some t -> 0 <= t_finalized_mutation_sequence t /\
    (t_next_mutation_sequence t = t_finalized_mutation_sequence t + 1 \/
     t_next_mutation_sequence t = t_finalized_mutation_sequence t + 2 /\
     exists k i, is_ !! k = Some i /\ i_trip_id i = T /\ i_state i = IntentPending)
}.

(** The proposals [ps] of the trips [ts]: a pending one is current and alone. *)
Record proposals_current (ts : gmap string trip) (ps : gmap string proposal) : Prop := {
  pc_proposal : forall k p, ps !! k = Some p -> exists t, ts !! p_trip_id p = Some t /\
    (p_state p = ProposalPending -> p_source_trip_revision p = t_trip_revision t /\
       t_current_plan_id t = Some (p_base_current_plan_id p));
  pc_unique : forall k k' p p', ps !! k = Some p -> ps !! k' = Some p' ->
    p_state p = ProposalPending -> p_state p' = ProposalPending ->
    p_trip_id p = p_trip_id p' -> k = k'
}.

(** The outbox rows [os] of the commands [is]: a row waits exactly as long as its
    command does, and a waiting command has a row. *)
Record outbox_matches (is_ : gmap string intent) (os : gmap string outbox_row) : Prop := {
  om_row : forall k o, os !! k = Some o -> exists i, is_ !! o_command_intent_id o = Some i /\
    i_trip_id i = o_trip_id o /\ i_mutation_sequence i = o_mutation_sequence o /\
    unresolved_delivery o = unresolved i;
  om_unique : forall k k' o o', os !! k = Some o -> os !! k' = Some o' ->
    o_command_intent_id o = o_command_intent_id o' -> k = k';
  om_waiting : forall k i, is_ !! k = Some i -> unresolved i = true ->
    exists ko o, os !! ko = Some o /\ o_command_intent_id o = k
}.

(** While a command of a trip is in flight no other command of it waits. *)
Definition flight_alone (is_ : gmap string intent) : Prop :=
  forall k k' i j, is_ !! k = Some i -> is_ !! k' = Some j -> i_trip_id i = i_trip_id j ->
    i_state i = IntentPending -> unresolved j = true -> k = k'.

(** The revisions fit their column and the current plan is the trip's. *)
Record plans_owned (ts : gmap string trip) (pls : gmap string plan) : Prop := {
  po_revision : forall T t, ts !! T = Some t -> - 2 ^ 63 <= t_trip_revision t <= max_int64;
  po_plan : forall T t p, ts !! T = Some t -> t_current_plan_id t = Some p ->
    exists row, pls !! p = Some row /\ pl_trip_id row = T
}.

(** A runtime-first command is not mirrored. *)
Definition not_mirrored (is_ : gmap string intent) : Prop :=
  forall k i, is_ !! k = Some i -> i_application_order i = runtime_first ->
    i_runtime_sync_state i = SyncNotRequired.

Record consistent (d : db) : Prop := {
  co_sequences : sequences (trips d) (intents d);
  co_proposals : proposals_current (trips d) (proposals d);
  co_outbox : outbox_matches (intents d) (outbox d);
  co_alone : flight_alone (intents d);
  co_plans : plans_owned (trips d) (plans d);
  co_mirrored : not_mirrored (intents d)
}.

(** ** Sequences *)

Lemma pending_is_next ts is_ k i t :
  sequences ts is_ -> is_ !! k = Some i -> i_state i = IntentPending ->
  ts !! i_trip_id i = Some t ->
  i_mutation_sequence i = t_finalized_mutation_sequence t + 1 /\
  t_next_mutation_sequence t = t_finalized_mutation_sequence t + 2.
Proof.
  intros H Hi Hp Ht. destruct (sq_intent _ _ H k i Hi) as (t' & Ht' & Hr & Hs & _).
  simplify_eq. destruct (sq_next _ _ H _ _ Ht) as [_ Hn]. apply Hs in Hp. lia.
Qed.

Lemma quiet_next ts is_ T t :
  sequences ts is_ -> ts !! T = Some t ->
  (forall k i, is_ !! k = Some i -> i_trip_id i = T -> i_state i <> IntentPending) ->
  t_next_mutation_sequence t = t_finalized_mutation_sequence t + 1.
Proof.
  intros H Ht Hq. destruct (sq_next _ _ H _ _ Ht) as [_ [?|(_ & k & i & Hi & Hit & Hp)]]; [done|].
  by destruct (Hq k i).
Qed.

(** The trip row changes elsewhere. *)
Lemma sequences_trip ts is_ T t t' :
  sequences ts is_ -> ts !! T = Some t ->
  t_next_mutation_sequence t' = t_next_mutation_sequence t ->
  t_finalized_mutation_sequence t' = t_finalized_mutation_sequence t ->
  sequences (<[T := t']> ts) is_.
Proof.
  intros [H1 H2 H3] Ht Hn Hf. constructor; [|exact H2|].
  - intros k i Hi. destruct (H1 k i Hi) as (t0 & Ht0 & Hrest).
    destruct (decide (T = i_trip_id i)) as [E|Hne].
    + exists t'. rewrite <- E, lookup_insert_eq. split; [done|].
      assert (t0 = t) as -> by congruence. rewrite Hn, Hf. exact Hrest.
    + exists t0. by rewrite lookup_insert_ne.
  - intros T' t0 Ht0. destruct (decide (T = T')) as [->|Hne].
    + rewrite lookup_insert_eq in Ht0. simplify_eq. rewrite Hn, Hf. by apply H3.
    + rewrite lookup_insert_ne in Ht0 by done. by apply H3.
Qed.

(** A command changes elsewhere. *)
Lemma sequences_intent ts is_ k i i' :
  sequences ts is_ -> is_ !! k = Some i -> i_trip_id i' = i_trip_id i ->
  i_mutation_sequence i' = i_mutation_sequence i -> i_state i' = i_state i ->
  i_application_order i' = i_application_order i ->
  sequences ts (<[k := i']> is_).
Proof.
  intros [H1 H2 H3] Hi Ht Hs Hst Ho.
  assert (Hback : forall k0 j, <[k := i']> is_ !! k0 = Some j -> exists j0, is_ !! k0 = Some j0 /\
    i_trip_id j = i_trip_id j0 /\ i_mutation_sequence j = i_mutation_sequence j0 /\
    i_state j = i_state j0 /\ i_application_order j = i_application_order j0).
  { intros k0 j. rewrite lookup_insert_Some. intros [[<- <-]|[_ Hj]]; [|by exists j]. by exists i. }
  constructor.
  - intros k0 j (j0 & Hj0 & -> & -> & -> & ->)%Hback. by apply (H1 k0).
  - intros k1 k2 j1 j2 (? & ? & -> & -> & _)%Hback (? & ? & -> & -> & _)%Hback.
    by apply (H2 k1 k2).
  - intros T t HT. destruct (H3 T t HT) as [? [?|(? & k0 & j & Hj & Hjt & Hp)]]; split; try done;
      [by left|]. right. split; [done|]. destruct (decide (k = k0)) as [<-|Hne].
    + exists k, i'. rewrite lookup_insert_eq. simplify_eq. split; [done|]. by rewrite Ht, Hst.
    + exists k0, j. by rewrite lookup_insert_ne.
Qed.

(** The next command of a trip without one in flight: it is in flight, or
    finalized at once. *)
Lemma sequences_insert ts is_ T t t' k i :
  sequences ts is_ -> ts !! T = Some t -> is_ !! k = None ->
  (forall k0 j, is_ !! k0 = Some j -> i_trip_id j = T -> i_state j <> IntentPending) ->
  i_trip_id i = T -> i_mutation_sequence i = t_next_mutation_sequence t ->
  t_next_mutation_sequence t' = t_next_mutation_sequence t + 1 ->
  (i_state i = IntentPending /\ i_application_order i = runtime_first /\
   t_finalized_mutation_sequence t' = t_finalized_mutation_sequence t \/
   i_state i <> IntentPending /\
   t_finalized_mutation_sequence t' = t_next_mutation_sequence t) ->
  sequences (<[T := t']> ts) (<[k := i]> is_).
Proof.
  intros H Ht Hk Hq Hit Hs Hn' Hcase. pose proof (quiet_next _ _ _ _ H Ht Hq) as Hn.
  destruct H as [H1 H2 H3]. destruct (H3 T t Ht) as [Hf _].
  assert (Hold : forall k0 j, is_ !! k0 = Some j -> i_trip_id j = T ->
    0 < i_mutation_sequence j < t_next_mutation_sequence t).
  { intros k0 j Hj Hjt. destruct (H1 k0 j Hj) as (t0 & Ht0 & Hr & _). rewrite Hjt in Ht0.
    by simplify_eq. }
  constructor.
  - intros k0 j. rewrite lookup_insert_Some. intros [[<- <-]|[Hne Hj]].
    + exists t'. rewrite Hit, lookup_insert_eq. split; [done|]. rewrite Hs, Hn'.
      split; [lia|]. destruct Hcase as [(Hp & Ho & ->)|(Hp & ->)]; [by split; [split; [lia|]|]|].
      split; [split; [done|lia]|done].
    + destruct (decide (i_trip_id j = T)) as [Hjt|Hjt].
      * exists t'. rewrite Hjt, lookup_insert_eq. split; [done|].
        pose proof (Hold k0 j Hj Hjt). pose proof (Hq k0 j Hj Hjt).
        split; [lia|]. split; [|done]. split; [done|]. destruct Hcase as [(_ & _ & ?)|(_ & ?)]; lia.
      * destruct (H1 k0 j Hj) as (t0 & Ht0 & Hrest). exists t0.
        rewrite lookup_insert_ne by congruence. done.
  - intros k1 k2 j1 j2. rewrite !lookup_insert_Some.
    intros [[<- <-]|[? Hj1]] [[<- <-]|[? Hj2]] Htr Hse; try done.
    + pose proof (Hold k2 j2 Hj2 ltac:(congruence)). lia.
    + pose proof (Hold k1 j1 Hj1 ltac:(congruence)). lia.
    + by apply (H2 k1 k2 j1 j2).
  - intros T' t0. rewrite lookup_insert_Some. intros [[<- <-]|[Hne Ht0]].
    + destruct Hcase as [(Hp & _ & ->)|(_ & ->)]; [|split; [lia|left; lia]].
      split; [done|right]. split; [lia|]. exists k, i. by rewrite lookup_insert_eq.
    + destruct (H3 T' t0 Ht0) as [? [?|(? & k0 & j & Hj & ? & ?)]]; split; try done; [by left|].
      right. split; [done|]. exists k0, j. rewrite lookup_insert_ne by congruence. done.
Qed.

(** The command in flight is finalized. *)
Lemma sequences_resolve ts is_ T t t' k i i' :
  sequences ts is_ -> ts !! T = Some t -> is_ !! k = Some i -> i_trip_id i = T ->
  i_state i = IntentPending -> i_trip_id i' = T ->
  i_mutation_sequence i' = i_mutation_sequence i -> i_state i' <> IntentPending ->
  t_next_mutation_sequence t' = t_next_mutation_sequence t ->
  t_finalized_mutation_sequence t' = i_mutation_sequence i ->
  sequences (<[T := t']> ts) (<[k := i']> is_).
Proof.
  intros H Ht Hi Hit Hp Hit' Hs Hp' Hn' Hf'.
  destruct (pending_is_next _ _ k i t H Hi Hp ltac:(congruence)) as [Hseq Hnext].
  destruct H as [H1 H2 H3]. destruct (H3 T t Ht) as [Hf _].
  constructor.
  - intros k0 j. rewrite lookup_insert_Some. intros [[<- <-]|[Hne Hj]].
    + exists t'. rewrite Hit', lookup_insert_eq. split; [done|]. split; [lia|].
      split; [split; [done|lia]|done].
    + destruct (H1 k0 j Hj) as (t0 & Ht0 & Hr & Hst & Ho).
      destruct (decide (i_trip_id j = T)) as [Hjt|Hjt].
      * assert (t0 = t) as -> by congruence. exists t'. rewrite Hjt, lookup_insert_eq.
        split; [done|].
        split; [lia|]. split; [|done]. rewrite Hst, Hf'.
        assert (i_mutation_sequence j <> i_mutation_sequence i)
          by (intros E; apply Hne; apply (H2 k k0 i j); congruence). lia.
      * exists t0. rewrite lookup_insert_ne by congruence. done.
  - assert (Hback : forall k0 j, <[k := i']> is_ !! k0 = Some j -> exists j0, is_ !! k0 = Some j0 /\
      i_trip_id j = i_trip_id j0 /\ i_mutation_sequence j = i_mutation_sequence j0).
    { intros k0 j. rewrite lookup_insert_Some. intros [[<- <-]|[_ Hj]]; [exists i|by exists j].
      split; [done|]. by rewrite Hit, Hit'. }
    intros k1 k2 j1 j2 (? & ? & -> & ->)%Hback (? & ? & -> & ->)%Hback. by apply (H2 k1 k2).
  - intros T' t0. rewrite lookup_insert_Some. intros [[<- <-]|[Hne Ht0]]; [split; [lia|left; lia]|].
    destruct (H3 T' t0 Ht0) as [? [?|(? & k0 & j & Hj & ? & ?)]]; split; try done; [by left|].
    right. split; [done|]. exists k0, j. rewrite lookup_insert_ne by congruence. done.
Qed.

(** A trip is created with its first command applied. *)
Lemma sequences_create ts is_ T t k i :
  sequences ts is_ -> ts !! T = None -> is_ !! k = None -> i_trip_id i = T ->
  i_mutation_sequence i = 1 -> i_state i <> IntentPending ->
  t_next_mutation_sequence t = 2 -> t_finalized_mutation_sequence t = 1 ->
  sequences (<[T := t]> ts) (<[k := i]> is_).
Proof.
  intros [H1 H2 H3] Ht Hk Hit Hs Hp Hn Hf.
  assert (Hold : forall k0 j, is_ !! k0 = Some j -> i_trip_id j <> T).
  { intros k0 j Hj E. destruct (H1 k0 j Hj) as (t0 & Ht0 & _). congruence. }
  constructor.
  - intros k0 j. rewrite lookup_insert_Some. intros [[<- <-]|[Hne Hj]].
    + exists t. rewrite Hit, lookup_insert_eq, Hs, Hn, Hf. split; [done|].
      split; [lia|]. split; [split; [done|lia]|done].
    + destruct (H1 k0 j Hj) as (t0 & Ht0 & Hrest). exists t0.
      rewrite lookup_insert_ne by (symmetry; by eapply Hold). done.
  - intros k1 k2 j1 j2. rewrite !lookup_insert_Some.
    intros [[<- <-]|[? Hj1]] [[<- <-]|[? Hj2]] Htr Hse; try done.
    + destruct (Hold k2 j2 Hj2). congruence.
    + destruct (Hold k1 j1 Hj1). congruence.
    + by apply (H2 k1 k2 j1 j2).
  - intros T' t0. rewrite lookup_insert_Some. intros [[<- <-]|[Hne Ht0]]; [split; [lia|left; lia]|].
    destruct (H3 T' t0 Ht0) as [? [?|(? & k0 & j & Hj & ? & ?)]]; split; try done; [by left|].
    right. split; [done|]. exists k0, j. rewrite lookup_insert_ne by congruence. done.
Qed.

(** ** Proposals *)

Lemma proposals_update ts ps ps' T t t' :
  proposals_current ts ps -> ts !! T = Some t ->
  (forall k p, ps' !! k = Some p -> p_trip_id p <> T -> ps !! k = Some p) ->
  (forall k p, ps' !! k = Some p -> p_trip_id p = T -> p_state p = ProposalPending ->
     p_source_trip_revision p = t_trip_revision t' /\
     t_current_plan_id t' = Some (p_base_current_plan_id p)) ->
  (forall k k' p p', ps' !! k = Some p -> ps' !! k' = Some p' ->
     p_trip_id p = T -> p_trip_id p' = T ->
     p_state p = ProposalPending -> p_state p' = ProposalPending -> k = k') ->
  proposals_current (<[T := t']> ts) ps'.
Proof.
  intros [H1 H2] Ht Hother Hcur Huniq. constructor.
  - intros k p Hp. destruct (decide (p_trip_id p = T)) as [E|Hne].
    + exists t'. rewrite E, lookup_insert_eq. split; [done|]. by apply (Hcur k).
    + destruct (H1 k p (Hother k p Hp Hne)) as (t0 & Ht0 & Hrest). exists t0.
      by rewrite lookup_insert_ne.
  - intros k k' p p' Hp Hp' Hs Hs' E. destruct (decide (p_trip_id p = T)) as [ET|Hne].
    + apply (Huniq k k' p p'); congruence.
    + apply (H2 k k' p p'); try done; apply Hother; congruence.
Qed.

(** No proposal of the trip is left pending. *)
Lemma proposals_closed ts ps ps' T t t' :
  proposals_current ts ps -> ts !! T = Some t ->
  (forall k p, ps' !! k = Some p -> p_trip_id p <> T -> ps !! k = Some p) ->
  (forall k p, ps' !! k = Some p -> p_trip_id p = T -> p_state p <> ProposalPending) ->
  proposals_current (<[T := t']> ts) ps'.
Proof.
  intros H Ht Hother Hnone. eapply proposals_update; [exact H|exact Ht|exact Hother|..].
  - intros k p Hp HT Hs. by destruct (Hnone k p Hp HT).
  - intros k k' p p' Hp _ HT _ Hs. by destruct (Hnone k p Hp HT).
Qed.

(** The pending proposals are among the old ones, and the trip keeps its revision
    and plan. *)
Lemma proposals_shrink ts ps ps' T t t' :
  proposals_current ts ps -> ts !! T = Some t ->
  t_trip_revision t' = t_trip_revision t -> t_current_plan_id t' = t_current_plan_id t ->
  (forall k p, ps' !! k = Some p -> p_trip_id p <> T \/ p_state p = ProposalPending ->
     ps !! k = Some p) ->
  proposals_current (<[T := t']> ts) ps'.
Proof.
  intros H Ht Hr Hpl Hback. eapply proposals_update; [exact H|exact Ht|eauto|..].
  - intros k p Hp HT Hs. rewrite Hr, Hpl.
    destruct (pc_proposal _ _ H k p) as (t0 & Ht0 & Hc); [eauto|].
    assert (t0 = t) as -> by congruence. by apply Hc.
  - intros k k' p p' Hp Hp' HT HT' Hs Hs'. apply (pc_unique _ _ H k k' p p'); eauto. congruence.
Qed.

Lemma proposals_keep ts ps T t t' :
  proposals_current ts ps -> ts !! T = Some t ->
  t_trip_revision t' = t_trip_revision t -> t_current_plan_id t' = t_current_plan_id t ->
  proposals_current (<[T := t']> ts) ps.
Proof. intros. eapply proposals_shrink; eauto. Qed.

Lemma proposals_create ts ps T t :
  proposals_current ts ps -> ts !! T = None -> proposals_current (<[T := t]> ts) ps.
Proof.
  intros [H1 H2] Ht. constructor; [|exact H2]. intros k p Hp.
  destruct (H1 k p Hp) as (t0 & Ht0 & Hrest). exists t0.
  rewrite lookup_insert_ne by congruence. done.
Qed.

(** ** Outbox rows *)

Lemma outbox_new is_ os k i ko o :
  outbox_matches is_ os -> is_ !! k = None -> os !! ko = None -> o_command_intent_id o = k ->
  i_trip_id i = o_trip_id o -> i_mutation_sequence i = o_mutation_sequence o ->
  unresolved_delivery o = unresolved i ->
  outbox_matches (<[k := i]> is_) (<[ko := o]> os).
Proof.
  intros [H1 H2 H3] Hk Hko Hc Ht Hs Hu.
  assert (Hold : forall k0 p, os !! k0 = Some p -> o_command_intent_id p <> k).
  { intros k0 p Hp E. destruct (H1 k0 p Hp) as (j & Hj & _). congruence. }
  constructor.
  - intros k0 p. rewrite lookup_insert_Some. intros [[<- <-]|[Hne Hp]].
    + exists i. by rewrite Hc, lookup_insert_eq.
    + destruct (H1 k0 p Hp) as (j & Hj & Hrest). exists j.
      rewrite lookup_insert_ne by (symmetry; by eapply Hold). done.
  - intros k1 k2 p1 p2. rewrite !lookup_insert_Some.
    intros [[<- <-]|[? Hp1]] [[<- <-]|[? Hp2]] E; try done.
    + destruct (Hold k2 p2 Hp2). congruence.
    + destruct (Hold k1 p1 Hp1). congruence.
    + by apply (H2 k1 k2 p1 p2).
  - intros k0 j. rewrite lookup_insert_Some. intros [[<- <-]|[Hne Hj]] Hun.
    + exists ko, o. by rewrite lookup_insert_eq.
    + destruct (H3 k0 j Hj Hun) as (k1 & p & Hp & Hpc). exists k1, p.
      rewrite lookup_insert_ne by congruence. done.
Qed.

(** A command and its row change together. *)
Lemma outbox_settle is_ os k i i' ko o o' :
  outbox_matches is_ os -> is_ !! k = Some i -> os !! ko = Some o -> o_command_intent_id o = k ->
  i_trip_id i' = i_trip_id i -> i_mutation_sequence i' = i_mutation_sequence i ->
  o_command_intent_id o' = k -> o_trip_id o' = o_trip_id o ->
  o_mutation_sequence o' = o_mutation_sequence o ->
  unresolved_delivery o' = unresolved i' ->
  outbox_matches (<[k := i']> is_) (<[ko := o']> os).
Proof.
  intros [H1 H2 H3] Hi Ho Hc Ht Hs Hc' Ht' Hs' Hu. constructor.
  - intros k0 p. rewrite lookup_insert_Some. intros [[<- <-]|[Hne Hp]].
    + exists i'. rewrite Hc', lookup_insert_eq. split; [done|]. rewrite Ht, Hs, Ht', Hs'.
      destruct (H1 ko o Ho) as (j & Hj & ? & ? & _). assert (j = i) as -> by congruence. done.
    + destruct (H1 k0 p Hp) as (j & Hj & Hrest). exists j. rewrite lookup_insert_ne; [done|].
      intros E. apply Hne. apply (H2 ko k0 o p); congruence.
  - assert (Hback : forall k0 p, <[ko := o']> os !! k0 = Some p -> exists p0,
      os !! k0 = Some p0 /\ o_command_intent_id p = o_command_intent_id p0).
    { intros k0 p. rewrite lookup_insert_Some. intros [[<- <-]|[_ Hp]]; [exists o|by exists p].
      split; [done|congruence]. }
    intros k1 k2 p1 p2 (? & ? & ->)%Hback (? & ? & ->)%Hback. by apply (H2 k1 k2).
  - intros k0 j. rewrite lookup_insert_Some. intros [[<- <-]|[Hne Hj]] Hun.
    + exists ko, o'. by rewrite lookup_insert_eq.
    + destruct (H3 k0 j Hj Hun) as (k1 & p & Hp & Hpc). exists k1, p.
      rewrite lookup_insert_ne; [done|]. intros E. subst k1. congruence.
Qed.

(** The rows change elsewhere. *)
Lemma outbox_touch is_ os os' :
  outbox_matches is_ os ->
  (forall k o', os' !! k = Some o' -> exists o, os !! k = Some o /\
     o_command_intent_id o' = o_command_intent_id o /\ o_trip_id o' = o_trip_id o /\
     o_mutation_sequence o' = o_mutation_sequence o /\
     unresolved_delivery o' = unresolved_delivery o) ->
  (forall k, is_Some (os !! k) -> is_Some (os' !! k)) ->
  outbox_matches is_ os'.
Proof.
  intros [H1 H2 H3] Hback Hfwd. constructor.
  - intros k o' (o & Ho & -> & -> & -> & ->)%Hback. by apply (H1 k).
  - intros k k' p p' (? & ? & -> & _)%Hback (? & ? & -> & _)%Hback. by apply (H2 k k').
  - intros k i Hi Hu. destruct (H3 k i Hi Hu) as (ko & o & Ho & Hc).
    destruct (Hfwd ko) as [o' Ho']; [by exists o|]. exists ko, o'. split; [done|].
    destruct (Hback ko o' Ho') as (o0 & Ho0 & E & _). congruence.
Qed.

(** A command that needs no delivery is added. *)
Lemma outbox_quiet is_ os k i :
  outbox_matches is_ os -> is_ !! k = None -> unresolved i = false ->
  outbox_matches (<[k := i]> is_) os.
Proof.
  intros [H1 H2 H3] Hk Hu. constructor; [|exact H2|].
  - intros k0 p Hp. destruct (H1 k0 p Hp) as (j & Hj & Hrest). exists j.
    rewrite lookup_insert_ne by congruence. done.
  - intros k0 j. rewrite lookup_insert_Some. intros [[<- <-]|[Hne Hj]] Hun; [congruence|].
    by apply (H3 k0 j).
Qed.

(** ** Commands in flight *)

(** A command is added to a trip that has none in flight; if it is in flight
    itself, none of the others waits. *)
Lemma alone_insert is_ k i :
  flight_alone is_ ->
  (forall k0 j, is_ !! k0 = Some j -> i_trip_id j = i_trip_id i -> i_state j <> IntentPending) ->
  (i_state i = IntentPending -> forall k0 j, is_ !! k0 = Some j -> i_trip_id j = i_trip_id i ->
     unresolved j = false) ->
  flight_alone (<[k := i]> is_).
Proof.
  intros H Hq Hnew k1 k2 i1 i2. rewrite !lookup_insert_Some.
  intros [[<- <-]|[? H1]] [[<- <-]|[? H2]] HT Hp Hu; try done.
  - by rewrite (Hnew Hp k2 i2) in Hu.
  - by destruct (Hq k1 i1 H1).
  - by apply (H k1 k2 i1 i2).
Qed.

(** A command changes and does not begin to wait. *)
Lemma alone_update is_ k i i' :
  flight_alone is_ -> is_ !! k = Some i -> i_trip_id i' = i_trip_id i ->
  (i_state i' = IntentPending -> i_state i = IntentPending) ->
  (unresolved i' = true -> unresolved i = true) ->
  flight_alone (<[k := i']> is_).
Proof.
  intros H Hi HT Hp Hu k1 k2 i1 i2. rewrite !lookup_insert_Some.
  intros [[<- <-]|[? H1]] [[<- <-]|[? H2]] E Hs Hw; try done.
  - apply (H k k2 i i2); auto. congruence.
  - apply (H k1 k i1 i); auto. congruence.
  - by apply (H k1 k2 i1 i2).
Qed.

Lemma mirrored_insert is_ k i :
  not_mirrored is_ ->
  (i_application_order i = runtime_first -> i_runtime_sync_state i = SyncNotRequired) ->
  not_mirrored (<[k := i]> is_).
Proof.
  intros H Hi k0 j. rewrite lookup_insert_Some. intros [[<- <-]|[_ Hj]]; [done|by apply (H k0)].
Qed.

(** ** Plans *)

Lemma plans_trip ts pls T t t' :
  plans_owned ts pls -> ts !! T = Some t -> - 2 ^ 63 <= t_trip_revision t' <= max_int64 ->
  t_current_plan_id t' = t_current_plan_id t -> plans_owned (<[T := t']> ts) pls.
Proof.
  intros [H1 H2] Ht Hr Hp. constructor.
  - intros T' t0. rewrite lookup_insert_Some. intros [[<- <-]|[_ Ht0]]; [done|by apply (H1 T')].
  - intros T' t0 p. rewrite lookup_insert_Some. intros [[<- <-]|[_ Ht0]] E.
    + apply (H2 T t); [done|congruence].
    + by apply (H2 T' t0).
Qed.

(** A new plan becomes the trip's current plan. *)
Lemma plans_publish ts pls T t' p row :
  plans_owned ts pls -> pls !! p = None -> pl_trip_id row = T ->
  - 2 ^ 63 <= t_trip_revision t' <= max_int64 -> t_current_plan_id t' = Some p ->
  plans_owned (<[T := t']> ts) (<[p := row]> pls).
Proof.
  intros [H1 H2] Hp Hrow Hr Hcur. constructor.
  - intros T' t0. rewrite lookup_insert_Some. intros [[<- <-]|[_ Ht0]]; [done|by apply (H1 T')].
  - intros T' t0 q. rewrite lookup_insert_Some. intros [[<- <-]|[_ Ht0]] E.
    + exists row. assert (q = p) as -> by congruence. by rewrite lookup_insert_eq.
    + destruct (H2 T' t0 q Ht0 E) as (r0 & Hr0 & ?). exists r0.
      rewrite lookup_insert_ne by congruence. done.
Qed.

(** ** The operations *)

(** A runtime command is resolved together with its outbox row. *)
Lemma consistent_resolve d d' T t t' k i ko o st status payload rev ver now ds status' :
  consistent d -> trips d' = <[T := t']> (trips d) ->
  intents d' = <[k := resolve_intent st status payload rev ver now i]> (intents d) ->
  outbox d' = <[ko := resolve_outbox ds status' now o]> (outbox d) ->
  trips d !! T = Some t -> intents d !! k = Some i -> i_trip_id i = T ->
  i_application_order i = runtime_first -> i_state i = IntentPending ->
  outbox d !! ko = Some o -> o_command_intent_id o = k -> st <> IntentPending ->
  ds = DeliveryAccepted \/ ds = DeliveryTerminalRejected ->
  t_next_mutation_sequence t' = t_next_mutation_sequence t ->
  t_finalized_mutation_sequence t' = i_mutation_sequence i ->
  proposals_current (<[T := t']> (trips d)) (proposals d') ->
  plans_owned (<[T := t']> (trips d)) (plans d') -> consistent d'.
Proof.
  intros [Hs _ Ho Ha _ Hm] Et Ei Eo Ht Hi Hit Hord Hp Hko Hc Hst Hds Hn Hf Hps Hpl.
  constructor; rewrite ?Et, ?Ei, ?Eo; [|done| | |done|].
  - by eapply sequences_resolve; eauto.
  - eapply outbox_settle; eauto. unfold unresolved. simpl. rewrite Hord.
    rewrite bool_decide_eq_false_2 by done. by destruct Hds as [-> | ->].
  - eapply alone_update; eauto. unfold unresolved. simpl. rewrite Hord.
    by rewrite bool_decide_eq_false_2.
  - apply mirrored_insert; [done|]. simpl. by apply (Hm k).
Qed.

(** Only outbox rows change, and not whether they are delivered. *)
Lemma consistent_rows d (P : string -> outbox_row -> bool) f :
  consistent d ->
  (forall k o, outbox d !! k = Some o -> P k o = true ->
     o_command_intent_id (f o) = o_command_intent_id o /\ o_trip_id (f o) = o_trip_id o /\
     o_mutation_sequence (f o) = o_mutation_sequence o /\
     unresolved_delivery (f o) = unresolved_delivery o) ->
  consistent (set_outbox (update_rows P f (outbox d)) d).
Proof.
  intros [Hs Hp Ho Ha Hpl Hm] Hf. constructor; simpl; try done. eapply outbox_touch; [exact Ho|..].
  - intros k o'. rewrite lookup_update_rows_Some. intros (o & Hk & ->). exists o.
    split; [done|]. destruct (P k o) eqn:E; [by apply (Hf k)|done].
  - intros k [o Hk]. rewrite lookup_update_rows, Hk. by eexists.
Qed.

Lemma consistent_row d k o f :
  consistent d -> outbox d !! k = Some o ->
  o_command_intent_id (f o) = o_command_intent_id o -> o_trip_id (f o) = o_trip_id o ->
  o_mutation_sequence (f o) = o_mutation_sequence o ->
  unresolved_delivery (f o) = unresolved_delivery o ->
  consistent (set_outbox (<[k := f o]> (outbox d)) d).
Proof.
  intros Hd Hk H1 H2 H3 H4. rewrite <- (update_rows_key f _ k o Hk). apply consistent_rows; [done|].
  intros k' o' Hk' E. apply bool_decide_eq_true in E as ->. by simplify_eq.
Qed.

Lemma record_consistent clk r d c d' :
  consistent d -> RecordRuntimeFirst clk r d = Ok (c, d') -> consistent d'.
Proof.
  intros Hd H. apply RecordRuntimeFirst_ok in H as [[-> _]|(t & payload & event & H)]; [done|].
  pose proof (rn_intent _ _ _ _ _ _ _ _ H) as Hi. simpl in Hi.
  pose proof (ii_fresh _ _ _ Hi) as Hfresh.
  destruct H as [_ Ht _ _ _ _ Hun _ _ Hout -> _]. destruct Hd as [Hs Hp Ho Ha Hpl Hm].
  unfold hasUnresolved in Hun. rewrite any_row_false in Hun.
  assert (Hw : forall k j, intents d !! k = Some j -> i_trip_id j = rr_TripID r ->
    unresolved j = false).
  { intros k j Hj Hjt. specialize (Hun k j Hj). by rewrite bool_decide_eq_true_2 in Hun. }
  assert (Hq : forall k j, intents d !! k = Some j -> i_trip_id j = rr_TripID r ->
    i_state j <> IntentPending).
  { intros k j Hj Hjt Hjp. specialize (Hw k j Hj Hjt).
    destruct (sq_intent _ _ Hs k j Hj) as (_ & _ & _ & _ & Hrf). unfold unresolved in Hw.
    rewrite (Hrf Hjp), bool_decide_eq_true_2 in Hw; done. }
  constructor; simpl.
  - eapply sequences_insert; eauto.
  - by eapply proposals_keep.
  - apply outbox_new; try done. apply eq_None_not_Some. intros [p Hk]. by apply Hout in Hk as [].
  - by apply alone_insert.
  - eapply plans_trip; eauto. by apply (po_revision _ _ Hpl _ _ Ht).
  - by apply mirrored_insert.
Qed.

Lemma terminal_consistent clk r d c d' :
  consistent d -> FinalizeTerminal clk r d = Ok (c, d') -> consistent d'.
Proof.
  intros Hd H. apply FinalizeTerminal_ok in H as [[_ ->]|(t & i & o & payload & H & _)]; [done|].
  destruct H as [_ Ht Hi Hit Hord Ho Hoi _ _ _ _ _ Hp Hrev _ _ ->].
  eapply consistent_resolve; [exact Hd|reflexivity..| | | | | | | | | | | | |]; eauto; simpl; try done.
  - apply terminalIntentState_resolved.
  - by eapply proposals_keep; [apply Hd|..].
  - eapply plans_trip; eauto; [apply Hd|]. by apply (po_revision _ _ (co_plans _ Hd) _ _ Ht).
Qed.

(** The proposals of the trip are closed by an update of the pending ones. *)
Lemma closed_rows ts ps T t t' f :
  proposals_current ts ps -> ts !! T = Some t ->
  (forall p, p_trip_id (f p) = p_trip_id p) -> (forall p, p_state (f p) <> ProposalPending) ->
  proposals_current (<[T := t']> ts) (update_rows (pending_of T) f ps).
Proof.
  intros H Ht Hf Hst. eapply proposals_closed; [exact H|exact Ht|..];
    intros k p; rewrite lookup_update_rows_Some; intros (q & Hq & ->); unfold pending_of.
  - case_match eqn:E; [|done]. inv_res. intros []. by rewrite Hf.
  - case_match eqn:E; intros HT; [apply Hst|]. rewrite bool_decide_eq_true_2 in E by done.
    simpl in E. by apply bool_decide_eq_false in E.
Qed.

Lemma mutation_consistent clk r d c d' :
  0 <= fa_ExpectedTripRevision r ->
  consistent d -> FinalizeAcceptedMutation clk r d = Ok (c, d') -> consistent d'.
Proof.
  intros Hge Hd H. apply FinalizeAcceptedMutation_ok in H as
    [[_ ->]|(kind & t & i & o & payload & d1 & H & _)]; [done| |done].
  destruct H as [_ Ht Hi Hit Hord Ho Hoi _ _ _ _ _ Hp _ Hres _ _ Happ ->].
  apply applyAcceptedMutation_frame in Happ as [_ Et Epl Eps Ei Eo _ _].
  eapply consistent_resolve; [exact Hd|simpl; rewrite ?Et, ?Ei, ?Eo; reflexivity..| | | | | | | | | | | | |];
    eauto; simpl; rewrite ?Eps, ?Epl; try done.
  - eapply closed_rows; eauto; [apply Hd|done..].
  - eapply plans_trip; eauto; [apply Hd|]. simpl. rewrite <- Hres. apply int64_range.
Qed.

Lemma stale_consistent clk r d c d' :
  consistent d -> FinalizeStaleProposalDecision clk r d = Ok (c, d') -> consistent d'.
Proof.
  intros Hd H. apply finalizeProposalDecision_ok in H as
    [[_ ->]|(t & plan_id & i & o & p & payload & H & _)]; [done|].
  destruct (identity_differs_false _ _ _ (df_identity _ _ _ _ _ _ _ _ _ _ _ H)) as (_ & _ & Hexp & _).
  destruct H as [_ Ht _ Hi Hit Hord Ho Hoi _ Hpr Hprt _ _ _ Hp Hrev _ _ ->].
  eapply consistent_resolve; [exact Hd|reflexivity..| | | | | | | | | | | | |]; eauto; simpl; try done.
  - eapply proposals_shrink; [apply Hd|exact Ht|simpl; congruence|done|].
    intros k q. case_match; [|done]. rewrite lookup_insert_Some.
    intros [[<- <-]|[_ Hq]]; [|done]. intros [Hne|Hs]; [by destruct Hne|done].
  - eapply plans_trip; [apply Hd|exact Ht| |done]. simpl. apply int64_range.
Qed.

Lemma decided_closed ts ps T t t' id p p' :
  proposals_current ts ps -> ts !! T = Some t -> ps !! id = Some p -> p_trip_id p = T ->
  p_state p = ProposalPending -> p_trip_id p' = T -> p_state p' <> ProposalPending ->
  proposals_current (<[T := t']> ts) (<[id := p']> ps).
Proof.
  intros H Ht Hid HT Hs HT' Hs'. eapply proposals_closed; [exact H|exact Ht|..];
    intros k q; rewrite lookup_insert_Some; intros [[<- <-]|[Hne Hq]]; try done.
  intros Hqt Hqs. apply Hne. apply (pc_unique _ _ H id k p q); congruence.
Qed.

Lemma reject_consistent clk r d c d' :
  consistent d -> FinalizeProposalRejection clk r d = Ok (c, d') -> consistent d'.
Proof.
  unfold FinalizeProposalRejection. intros Hd H. inv_tx.
  match goal with H : finalizeProposalDecision _ _ _ _ = _ |- _ =>
    apply finalizeProposalDecision_ok in H as
      [[_ ->]|(t & plan_id & i & o & p & payload & Hf & _)] end; [done|].
  destruct (df_reject _ _ _ _ _ _ _ _ _ _ _ Hf eq_refl) as (_ & _ & Hst & _).
  destruct Hf as [_ Ht _ Hi Hit Hord Ho Hoi _ Hpr Hprt _ _ _ Hp _ _ _ ->].
  eapply consistent_resolve; [exact Hd|reflexivity..| | | | | | | | | | | | |]; eauto; simpl; try done.
  - rewrite bool_decide_eq_true_2 by done. eapply decided_closed; eauto; by apply Hd.
  - eapply plans_trip; [apply Hd|exact Ht| |done]. simpl. apply int64_range.
Qed.

Lemma accept_consistent clk r d c d' :
  consistent d -> FinalizeProposalAcceptance clk r d = Ok (c, d') -> consistent d'.
Proof.
  intros Hd H. apply FinalizeProposalAcceptance_ok in H as
    [[_ ->]|(t & i & o & p & plan & plan_id & body & checksum & payload & H & _)]; [done|].
  pose proof (pli_fresh _ _ _ (af_insert _ _ _ _ _ _ _ _ _ _ _ _ _ H)) as Hfresh.
  destruct H as [_ _ Ht _ Hi Hit Hord _ _ _ _ Ho Hoi _ Hpr Hprt Hst _ _ _ _ _ Hp _ _ _ _ _ ->].
  eapply consistent_resolve; [exact Hd|reflexivity..| | | | | | | | | | | | |]; eauto; simpl; try done.
  - eapply decided_closed; eauto; by apply Hd.
  - apply plans_publish; [apply Hd|done|done| |done]. simpl. apply int64_range.
Qed.

Lemma persist_consistent clk r d c d' :
  consistent d -> Persist clk r d = Ok (c, d') -> consistent d'.
Proof.
  intros Hd H. apply Persist_ok in H as [[_ ->]|(t & l & H & _)]; [done|].
  destruct H as [_ Ht Hplan _ Hcur _ _ _ ->].
  apply sourceIsCurrent_true in Hcur as (Hrev & _).
  constructor; simpl; try apply Hd. rewrite <- (insert_id _ _ _ Ht).
  eapply proposals_update; [apply Hd|exact Ht|..].
  - intros k p. rewrite lookup_insert_Some, lookup_update_rows_Some.
    intros [[<- <-]|[_ (q & Hq & ->)]]; [done|]. unfold pending_of. case_match eqn:E; [|done].
    simpl. inv_res. done.
  - intros k p. rewrite lookup_insert_Some, lookup_update_rows_Some.
    intros [[<- <-]|[_ (q & Hq & ->)]].
    + intros _ _. simpl. rewrite Hrev, int64_uint64; [done|]. apply (po_revision _ _ (co_plans _ Hd) _ _ Ht).
    + unfold pending_of. case_match eqn:E; [done|]. intros HT Hs.
      by rewrite !bool_decide_eq_true_2 in E.
  - assert (Hone : forall k p, <[pp_ProposalID r := new_proposal r]> (update_rows
      (pending_of (pp_TripID r)) (fun p => set_p_decided_at (Some (clk 0%nat))
        (set_p_state ProposalSuperseded p)) (proposals d)) !! k = Some p ->
      p_trip_id p = pp_TripID r -> p_state p = ProposalPending -> k = pp_ProposalID r).
    { intros k p. rewrite lookup_insert_Some, lookup_update_rows_Some.
      intros [[<- <-]|[_ (q & Hq & ->)]]; [done|]. unfold pending_of. case_match eqn:E; [done|].
      intros HT Hs. by rewrite !bool_decide_eq_true_2 in E. }
    intros k k' p p' Hp Hp' HT HT' Hs Hs'.
    by rewrite (Hone k p Hp HT Hs), (Hone k' p' Hp' HT' Hs').
Qed.

Lemma acquire_consistent clk tripID holderID duration d r d' :
  consistent d -> Acquire clk tripID holderID duration d = Ok (r, d') -> consistent d'.
Proof.
  intros Hd H. unfold Acquire, uuid_param in H. inv_tx.
  match goal with H : lockTrip _ _ = _ |- _ => apply lockTrip_ok in H as (_ & [t Ht] & ->) end.
  destruct (leases _ !! _) as [current|]; [|inv_tx; by destruct Hd].
  repeat (case_match; inv_tx).
  match goal with H : stale_old_proposals _ _ _ _ = _ |- _ =>
    apply update_proposals_ok in H as [_ ->] end.
  constructor; simpl; try apply Hd. rewrite <- (insert_id _ _ _ Ht).
  eapply proposals_shrink; [apply Hd|exact Ht|done|done|].
  intros k p. rewrite lookup_update_rows_Some. intros (q & Hq & ->). simpl. case_match eqn:E; [|done].
  inv_res. intros [Hne|Hs]; [by destruct Hne|done].
Qed.

(** The rest of the lease operations leave the ledger alone. *)
Lemma lease_consistent releases d d' : consistent d -> lease_step releases d d' -> consistent d'.
Proof.
  intros Hd H. destruct H as [clk tr ho du d r d' H|clk tr ho ep du d r d' H|tr ho ep d u d' _ H].
  - by eapply acquire_consistent.
  - apply Renew_ok in H as (? & ? & _ & _ & _ & _ & _ & _ & ->). by destruct Hd.
  - apply Release_ok in H as (? & ? & _ & _ & _ & _ & ->). by destruct Hd.
Qed.

Lemma confirm_consistent clk tripID sequence d c d' :
  consistent d -> ConfirmFinalizedMutations clk tripID sequence d = Ok (c, d') -> consistent d'.
Proof.
  intros Hd H. unfold ConfirmFinalizedMutations, lock_trip_row in H. inv_tx.
  case_match; inv_tx; [|done]. by apply consistent_rows.
Qed.

Lemma claim_consistent clk locked owner n dur d answer d' :
  consistent d -> ClaimDue clk locked owner n dur d = (answer, d') -> consistent d'.
Proof.
  intros Hd H. unfold ClaimDue in H. repeat case_match; simplify_eq; try done.
  by apply consistent_rows.
Qed.

(** A claimed row is pending, and stays undelivered. *)
Lemma update_claimed_consistent id owner attempt now f d u d' :
  (forall o, o_command_intent_id (f o) = o_command_intent_id o /\ o_trip_id (f o) = o_trip_id o /\
     o_mutation_sequence (f o) = o_mutation_sequence o) ->
  (forall o, o_delivery_state o = DeliveryPending -> unresolved_delivery (f o) = true) ->
  consistent d -> update_claimed id owner attempt now f d = Ok (u, d') -> consistent d'.
Proof.
  intros Hf Hu Hd H. unfold update_claimed in H. inv_tx. unfold holds_claim in *. inv_res.
  match goal with Ho : outbox d !! id = Some ?o |- _ => destruct (Hf o) as (? & ? & ?);
    apply consistent_row; try done; rewrite Hu by done end.
  unfold unresolved_delivery. by rewrite bool_decide_eq_true_2.
Qed.

Lemma release_row_consistent clk row owner status delay d u d' :
  consistent d -> ReleaseForRetry clk row owner status delay d = Ok (u, d') -> consistent d'.
Proof.
  intros Hd H. unfold ReleaseForRetry, uuid_param in H. inv_tx.
  eapply update_claimed_consistent; [..|exact Hd|eassumption]; [done|].
  intros o E. unfold unresolved_delivery. simpl. by rewrite E.
Qed.

Lemma pause_row_consistent clk row owner reason d u d' :
  consistent d -> PauseInternal clk row owner reason d = Ok (u, d') -> consistent d'.
Proof.
  intros Hd H. unfold PauseInternal, uuid_param in H. inv_tx.
  by eapply update_claimed_consistent; [..|exact Hd|eassumption].
Qed.

Lemma create_consistent clk r d c d' :
  consistent d -> CreateTrip clk r d = Ok (c, d') -> consistent d'.
Proof.
  intros Hd H. apply CreateTrip_ok in H as [[-> _]|(zone & d2 & d3 & H)]; [done|].
  destruct H as [_ Hnew _ Hdr Hdl Hpl (i & Hfresh & (Hit & Hs & Hst & Hsync & _) & ->)].
  apply ds_frame in Hdr as [_ Et Epl Eps Ei Eo _ _]. apply dl_frame in Hdl.
  assert (trips d3 = trips d2 /\ plans d3 = plans d2 /\ proposals d3 = proposals d2 /\
    intents d3 = intents d2 /\ outbox d3 = outbox d2) as (Et' & Epl' & Eps' & Ei' & Eo')
    by (by rewrite Hdl).
  apply pli_fresh in Hpl. rewrite Epl', Epl in Hpl. destruct Hd as [Hsq Hp Ho Ha Hown Hm].
  constructor; simpl; rewrite ?Et', ?Epl', ?Eps', ?Ei', ?Eo', ?Et, ?Epl, ?Eps, ?Ei, ?Eo; simpl.
  - apply sequences_create; try done. by rewrite Hst.
  - by apply proposals_create.
  - apply outbox_quiet; try done. unfold unresolved. rewrite Hst, Hsync. by destruct (i_application_order i).
  - apply alone_insert; [done| |by rewrite Hst]. intros k j Hj HT.
    destruct (sq_intent _ _ Hsq k j Hj) as (t & Ht & _). congruence.
  - by apply plans_publish.
  - by apply mirrored_insert.
Qed.

Lemma edit_consistent clk e d c d' :
  consistent d -> run_edit clk e d = Ok (c, d') -> consistent d'.
Proof.
  intros Hd H. apply run_edit_ok in H as [[-> _]|(t & cp & current & d1 & H)]; [done|].
  destruct H as [Had _ _ Hst Hpub]. apply edit_statements_frame in Hst as [_ Et Epl Eps Ei Eo _ _].
  simpl in *. destruct Had as [Ht _ _ _ (Hr0 & _ & Hr1) Hn Hrt _ _ _].
  destruct Hpub as [_ Hplan (command & outcome & event & Hii & Hob & Hoi & ->) _].
  apply ii_fresh in Hii. apply pli_fresh in Hplan. simpl in *.
  rewrite Epl, Eo, Ei in *. destruct Hd as [Hs Hp Ho Ha Hown Hm].
  assert (Hq : forall k j, intents d !! k = Some j -> i_trip_id j = er_TripID (edit_request e) ->
    i_state j <> IntentPending).
  { intros k j Hj Hjt Hjp. rewrite any_row_false in Hrt. specialize (Hrt k j Hj).
    destruct (sq_intent _ _ Hs k j Hj) as (_ & _ & _ & _ & Hrf). unfold pending_runtime in Hrt.
    by rewrite !bool_decide_eq_true_2 in Hrt by auto. }
  constructor; simpl; rewrite ?Et, ?Epl, ?Eps, ?Ei, ?Eo.
  - eapply sequences_insert; eauto.
  - by eapply closed_rows.
  - by apply outbox_new.
  - by apply alone_insert.
  - apply plans_publish; try done. simpl.
    pose proof (po_revision _ _ Hown _ _ Ht). unfold max_int64 in *. lia.
  - by apply mirrored_insert.
Qed.

(** A canonical-first command and its row change together. *)
Lemma consistent_mirror d k i ko o sync o' :
  consistent d -> intents d !! k = Some i -> i_application_order i = canonical_first ->
  outbox d !! ko = Some o -> o_command_intent_id o = k -> o_command_intent_id o' = k ->
  o_trip_id o' = o_trip_id o -> o_mutation_sequence o' = o_mutation_sequence o ->
  unresolved i = true ->
  unresolved_delivery o' = bool_decide (sync = SyncPending) || bool_decide (sync = SyncPausedInternal) ->
  consistent (set_intents (<[k := set_i_runtime_sync_state sync i]> (intents d))
                (set_outbox (<[ko := o']> (outbox d)) d)).
Proof.
  intros [Hs Hp Hm Ha Hown Hmi] Hi Hord Ho Hc Hc' Ht' Hs' Hw Hu. constructor; simpl; try done.
  - by eapply sequences_intent.
  - eapply outbox_settle; eauto. rewrite Hu. unfold unresolved. simpl. by rewrite Hord.
  - by eapply alone_update.
  - apply mirrored_insert; [done|]. simpl. congruence.
Qed.

Lemma mirror_consistent clk r d answer d' :
  consistent d -> FinalizeCanonicalMirror clk r d = (answer, d') -> consistent d'.
Proof.
  intros Hd H. unfold FinalizeCanonicalMirror in H.
  destruct (mirror_tx clk r d) as [[a d1]|e] eqn:E; simplify_eq; [|done].
  apply mirror_tx_ok in E as (i & o & [_ _ Hi Hit Hord Ho Hoi Hot] & Hb).
  unfold mirror_body, pauseCanonicalMirror in Hb. repeat case_match; inv_op; try done;
    erewrite alter_insert_Some by exact Ho; rewrite ?bool_decide_eq_true_2 by done;
    eapply (consistent_mirror d); eauto; unfold unresolved; rewrite Hord;
    by rewrite bool_decide_eq_true_2.
Qed.

(** Delivered rows are removed. *)
Lemma outbox_prune is_ os P :
  outbox_matches is_ os ->
  (forall k o, os !! k = Some o -> P k o = true -> unresolved_delivery o = false) ->
  outbox_matches is_ (delete_rows P os).
Proof.
  intros [H1 H2 H3] HP. constructor.
  - intros k o [Hk _]%lookup_delete_rows_Some. by apply (H1 k).
  - intros k k' o o' [Hk _]%lookup_delete_rows_Some [Hk' _]%lookup_delete_rows_Some. by apply (H2 k k').
  - intros k i Hi Hu. destruct (H3 k i Hi Hu) as (ko & o & Ho & Hc). exists ko, o. split; [|done].
    apply lookup_delete_rows_Some. split; [done|]. destruct (P ko o) eqn:E; [|done].
    apply HP in E; [|done]. destruct (H1 ko o Ho) as (j & Hj & _ & _ & Hw). congruence.
Qed.

Lemma delivered_resolved o : delivery_resolved o = negb (unresolved_delivery o).
Proof. unfold delivery_resolved, unresolved_delivery. by destruct (o_delivery_state o). Qed.

Lemma snapshot_consistent clk b d s d' :
  consistent d -> PersistSnapshot clk b d = Ok (s, d') -> consistent d'.
Proof.
  intros Hd (_ & t & _ & [(-> & _)|(_ & _ & _ & _ & _ & valid & invalid & H)])%PersistSnapshot_ok; [done|].
  rewrite (sg_result _ _ _ _ _ _ H). destruct Hd. constructor; simpl; try done.
  apply outbox_prune; [done|]. intros k o _ E. apply andb_true_iff in E as [_ E].
  rewrite delivered_resolved in E. by apply negb_true_iff in E.
Qed.

Lemma invalidate_consistent now s reason d u d' :
  consistent d -> invalidate now s reason d = Ok (u, d') -> consistent d'.
Proof. intros Hd H. unfold invalidate, invalidate_row, lock_trip_row in H. inv_tx. by destruct Hd. Qed.

(** The synchronisation state of commands changes. *)
Lemma sequences_map ts is_ (f : string -> intent -> intent) :
  (forall k i, i_trip_id (f k i) = i_trip_id i /\ i_mutation_sequence (f k i) = i_mutation_sequence i /\
     i_state (f k i) = i_state i /\ i_application_order (f k i) = i_application_order i) ->
  sequences ts is_ -> sequences ts (map_imap (fun k i => Some (f k i)) is_).
Proof.
  intros Hf [H1 H2 H3].
  assert (Hback : forall k j, map_imap (fun k i => Some (f k i)) is_ !! k = Some j -> exists i,
    is_ !! k = Some i /\ j = f k i).
  { intros k j. rewrite map_lookup_imap, bind_Some. naive_solver. }
  constructor.
  - intros k j (i & Hi & ->)%Hback. destruct (Hf k i) as (-> & -> & -> & ->). by apply (H1 k).
  - intros k k' j j' (i & Hi & ->)%Hback (i' & Hi' & ->)%Hback.
    destruct (Hf k i) as (-> & -> & _), (Hf k' i') as (-> & -> & _). by apply (H2 k k').
  - intros T t HT. destruct (H3 T t HT) as [? [?|(? & k & i & Hi & HiT & Hp)]]; split; try done; [by left|].
    right. split; [done|]. exists k, (f k i). destruct (Hf k i) as (-> & _ & -> & _).
    by rewrite map_lookup_imap, Hi.
Qed.

(** A settled row waits exactly if its command does. *)
Lemma settled_matches T at_ n d ko o i :
  outbox_matches (intents d) (outbox d) -> not_mirrored (intents d) ->
  (forall c, c ∈ covered_mirrors T n d -> runtime_blocks c = false) ->
  outbox d !! ko = Some o -> intents d !! o_command_intent_id o = Some i ->
  unresolved_delivery (settled_row T at_ (covered_mirrors T n d) ko o) =
  unresolved (settled_intent T (covered_mirrors T n d) (o_command_intent_id o) i).
Proof.
  intros [H1 H2 _] Hm Hfree Ho Hi.
  destruct (H1 ko o Ho) as (j & Hj & HT & _ & Hu). assert (j = i) as -> by congruence.
  destruct (settled_intent_spec T n d _ i Hi) as [(-> & (ko' & o' & Ho' & Hc & Hs) & HiT & Hord)|[-> Hno]].
  - assert (ko' = ko) as -> by (by apply (H2 ko' ko o' o)). simplify_eq.
    rewrite (settled_covered _ _ _ _ ko o i) by done. unfold of_trip, settle_row, delivery_waiting.
    rewrite bool_decide_eq_true_2 by done. unfold is_canonical. simpl. rewrite Hord.
    change (bool_decide (o_delivery_state o = DeliveryPending) ||
      bool_decide (o_delivery_state o = DeliveryPausedInternal)) with (unresolved_delivery o).
    unfold unresolved. simpl. rewrite Hord. simpl.
    destruct (unresolved_delivery o) eqn:E; [done|]. by case_match.
  - destruct (decide (i_trip_id i = T /\ o_mutation_sequence o <= n)) as [[HiT Hs]|Hn].
    + rewrite (settled_covered _ _ _ _ ko o i) by done. unfold of_trip, settle_row.
      assert (is_canonical (mirror_of ko o i) && delivery_waiting (mirror_of ko o i) = false) as ->.
      { specialize (Hno ko o Ho eq_refl HiT Hs). apply andb_false_iff in Hno as [->|Hw]; [done|].
        apply andb_false_iff. destruct (is_canonical (mirror_of ko o i)) eqn:Hc; [right|by left].
        apply bool_decide_eq_true in Hc. simpl in Hc. unfold unresolved in Hu. rewrite Hc in Hu.
        unfold delivery_waiting, sync_waiting in *. simpl in *. unfold unresolved_delivery in Hu. congruence. }
      rewrite <- Hu. repeat case_match; done.
    + rewrite settled_uncovered; [done..|]. intros j' Hj' HjT. assert (j' = i) as -> by congruence.
      apply Z.nle_gt. naive_solver.
Qed.

Lemma settled_consistent T at_ n d :
  consistent d -> (forall c, c ∈ covered_mirrors T n d -> runtime_blocks c = false) ->
  consistent (settled T at_ n d).
Proof.
  intros [Hs Hp Ho Ha Hpl Hm] Hfree.
  assert (Hf : forall k i, let j := settled_intent T (covered_mirrors T n d) k i in
    i_trip_id j = i_trip_id i /\ i_mutation_sequence j = i_mutation_sequence i /\
    i_state j = i_state i /\ i_application_order j = i_application_order i).
  { intros k i. unfold settled_intent. simpl. by case_match. }
  assert (Hw : forall k i, intents d !! k = Some i ->
    unresolved (settled_intent T (covered_mirrors T n d) k i) = true -> unresolved i = true).
  { intros k i Hi. destruct (settled_intent_spec T n d k i Hi) as [(-> & _ & _ & Hord)|[-> _]]; [|done].
    unfold unresolved. simpl. by rewrite Hord. }
  constructor; try done.
  - by apply sequences_map.
  - pose proof Ho as [H1 H2 H3]. constructor.
    + intros ko o' (o & Hk & ->)%lookup_settled_outbox. destruct (H1 ko o Hk) as (i & Hi & HT & Hse & _).
      pose proof (settled_matches T at_ n d ko o i Ho Hm Hfree Hk Hi) as Hu.
      destruct (settled_row_keeps T at_ (covered_mirrors T n d) ko o) as (-> & -> & ->).
      exists (settled_intent T (covered_mirrors T n d) (o_command_intent_id o) i).
      split; [apply lookup_settled_intents; by exists i|].
      destruct (Hf (o_command_intent_id o) i) as (-> & -> & _). done.
    + intros k k' o1' o2' (o1 & Hk1 & ->)%lookup_settled_outbox (o2 & Hk2 & ->)%lookup_settled_outbox E.
      destruct (settled_row_keeps T at_ (covered_mirrors T n d) k o1) as (E1 & _),
        (settled_row_keeps T at_ (covered_mirrors T n d) k' o2) as (E2 & _).
      apply (H2 k k' o1 o2); congruence.
    + intros k i' (i & Hi & ->)%lookup_settled_intents Hu. apply Hw in Hu; [|done].
      destruct (H3 k i Hi Hu) as (ko & o & Hko & Hc).
      exists ko, (settled_row T at_ (covered_mirrors T n d) ko o).
      split; [apply lookup_settled_outbox; by exists o|].
      by destruct (settled_row_keeps T at_ (covered_mirrors T n d) ko o) as (-> & _).
  - intros k k' i' j' (i & Hi & ->)%lookup_settled_intents (j & Hj & ->)%lookup_settled_intents.
    destruct (Hf k i) as (-> & _ & -> & _), (Hf k' j) as (-> & _). intros HT Hst Hu.
    apply (Ha k k' i j); try done. by apply (Hw k').
  - intros k i' (i & Hi & ->)%lookup_settled_intents.
    destruct (settled_intent_spec T n d k i Hi) as [(-> & _ & _ & Hord)|[-> _]]; [simpl; congruence|].
    by apply (Hm k).
Qed.

Lemma bootstrap_consistent clk r d c d' :
  consistent d -> ResolveCanonicalBootstrap clk r d = Ok (c, d') -> consistent d'.
Proof.
  intros Hd (t & H)%ResolveCanonicalBootstrap_ok. rewrite (cv_result _ _ _ _ _ _ H).
  apply settled_consistent; [done|apply H].
Qed.

(** ** Every reachable database *)

(** One committed operation.  The revisions a request carries are unsigned. *)
Inductive step (d : db) : db -> Prop :=
| step_lease d' : lease_step true d d' -> step d d'
| step_record clk r c d' : RecordRuntimeFirst clk r d = Ok (c, d') -> step d d'
| step_terminal clk r c d' : FinalizeTerminal clk r d = Ok (c, d') -> step d d'
| step_confirm clk tripID sequence c d' :
    ConfirmFinalizedMutations clk tripID sequence d = Ok (c, d') -> step d d'
| step_mutation clk r c d' : 0 <= fa_ExpectedTripRevision r ->
    FinalizeAcceptedMutation clk r d = Ok (c, d') -> step d d'
| step_persist clk r c d' : Persist clk r d = Ok (c, d') -> step d d'
| step_accept clk r c d' : FinalizeProposalAcceptance clk r d = Ok (c, d') -> step d d'
| step_reject clk r c d' : FinalizeProposalRejection clk r d = Ok (c, d') -> step d d'
| step_stale clk r c d' : FinalizeStaleProposalDecision clk r d = Ok (c, d') -> step d d'
| step_claim clk locked owner n duration answer d' :
    ClaimDue clk locked owner n duration d = (answer, d') -> step d d'
| step_release_row clk row owner status delay u d' :
    ReleaseForRetry clk row owner status delay d = Ok (u, d') -> step d d'
| step_pause_row clk row owner reason u d' :
    PauseInternal clk row owner reason d = Ok (u, d') -> step d d'
| step_create clk r c d' : CreateTrip clk r d = Ok (c, d') -> step d d'
| step_edit clk e c d' : run_edit clk e d = Ok (c, d') -> step d d'
| step_mirror clk r answer d' : FinalizeCanonicalMirror clk r d = (answer, d') -> step d d'
| step_snapshot clk b s d' : PersistSnapshot clk b d = Ok (s, d') -> step d d'
| step_invalidate now s reason u d' : invalidate now s reason d = Ok (u, d') -> step d d'
| step_bootstrap clk r c d' : ResolveCanonicalBootstrap clk r d = Ok (c, d') -> step d d'.

(** The tables before the first trip. *)
Definition no_trips (d : db) : Prop :=
  trips d = ∅ /\ intents d = ∅ /\ proposals d = ∅ /\ outbox d = ∅ /\ plans d = ∅.

Definition reachable (d : db) : Prop := exists d0, no_trips d0 /\ rtc step d0 d.

Lemma step_consistent d d' : consistent d -> step d d' -> consistent d'.
Proof.
  intros Hd [].
  - by eapply lease_consistent.
  - by eapply record_consistent.
  - by eapply terminal_consistent.
  - by eapply confirm_consistent.
  - by eapply mutation_consistent.
  - by eapply persist_consistent.
  - by eapply accept_consistent.
  - by eapply reject_consistent.
  - by eapply stale_consistent.
  - by eapply claim_consistent.
  - by eapply release_row_consistent.
  - by eapply pause_row_consistent.
  - by eapply create_consistent.
  - by eapply edit_consistent.
  - by eapply mirror_consistent.
  - by eapply snapshot_consistent.
  - by eapply invalidate_consistent.
  - by eapply bootstrap_consistent.
Qed.

Lemma reachable_consistent d : reachable d -> consistent d.
Proof.
  intros (d0 & (H1 & H2 & H3 & H4 & H5) & H). assert (H0 : consistent d0).
  { constructor; rewrite ?H1, ?H2, ?H3, ?H4, ?H5; try by constructor.
    - intros k k' i j Hk. by rewrite lookup_empty in Hk.
    - intros k i Hk. by rewrite lookup_empty in Hk. }
  clear H1 H2 H3 H4 H5. induction H as [|d0 d1 d Hs _ IH]; [done|]. apply IH. by eapply step_consistent.
Qed.

(** A due row nobody has locked is a candidate of a batch that can hold the
    outbox. *)
Lemma due_is_candidate now n d k o :
  outbox d !! k = Some o -> due now d k o = true -> Z.of_nat (size (outbox d)) <= n ->
  (k, o) ∈ candidates now ∅ (Z.to_nat n) d.
Proof.
  intros Ho Hdue Hn. unfold candidates. rewrite take_ge.
  - apply list_elem_of_In, filter_In. split; [|by rewrite bool_decide_eq_false_2 by set_solver].
    apply list_elem_of_In. rewrite merge_sort_Permutation. by apply elem_of_rows_where.
  - etransitivity; [apply filter_length_le|]. rewrite merge_sort_Permutation.
    etransitivity; [apply filter_length_le|]. rewrite length_map_to_list. lia.
Qed.

(** ** Properties *)



(** C7: no command is lost and none is delivered twice over.  In every database
    the operations reach a command waits for the runtime exactly if it has an
    undelivered outbox row, which carries its trip and sequence, and a command
    has at most one row. *)
Theorem waiting_iff_undelivered d k i :
  reachable d -> intents d !! k = Some i ->
  (unresolved i = true <-> exists ko o, outbox d !! ko = Some o /\ o_command_intent_id o = k /\
     unresolved_delivery o = true) /\
  (forall ko o, outbox d !! ko = Some o -> o_command_intent_id o = k ->
     o_trip_id o = i_trip_id i /\ o_mutation_sequence o = i_mutation_sequence i /\
     forall ko' o', outbox d !! ko' = Some o' -> o_command_intent_id o' = k -> ko' = ko).
Proof.
  intros Hr Hi. apply reachable_consistent, co_outbox in Hr as H.
  assert (Hrow : forall ko o, outbox d !! ko = Some o -> o_command_intent_id o = k ->
    o_trip_id o = i_trip_id i /\ o_mutation_sequence o = i_mutation_sequence i /\
    unresolved_delivery o = unresolved i).
  { intros ko o Ho Hc. destruct (om_row _ _ H ko o Ho) as (j & Hj & ? & ? & ?).
    assert (j = i) as -> by congruence. done. }
  split.
  - split.
    + intros Hu. destruct (om_waiting _ _ H k i Hi Hu) as (ko & o & Ho & Hc).
      exists ko, o. destruct (Hrow ko o Ho Hc) as (_ & _ & ->). done.
    + intros (ko & o & Ho & Hc & Hu). by destruct (Hrow ko o Ho Hc) as (_ & _ & <-).
  - intros ko o Ho Hc. destruct (Hrow ko o Ho Hc) as (? & ? & _). split_and!; try done.
    intros ko' o' Ho' Hc'. apply (om_unique _ _ H ko' ko o' o); congruence.
Qed.

(** C10: a command in flight is never blocked.  In every database the operations
    reach its outbox row has no undelivered predecessor, so that once it is due
    and unclaimed every claim of a batch that can hold the outbox returns it. *)
Theorem flying_command_is_claimed d k i clk owner n duration rows d' ko o :
  reachable d -> intents d !! k = Some i -> i_state i = IntentPending ->
  outbox d !! ko = Some o -> o_command_intent_id o = k ->
  o_delivery_state o = DeliveryPending -> o_next_attempt_at o <= clk 0%nat ->
  claimable (clk 0%nat) o = true -> Z.of_nat (size (outbox d)) <= n ->
  ClaimDue clk ∅ owner n duration d = (Ok rows, d') ->
  ko ∈ cl_ID <$> rows.
Proof.
  intros Hr Hi Hp Ho Hc Hdel Hnext Hcl Hn Hclaim. apply reachable_consistent in Hr as [_ _ H Ha _ _].
  assert (Hpre : has_predecessor o d = false).
  { apply any_row_false. intros k' o' Ho'. destruct (om_row _ _ H ko o Ho) as (j & Hj & Ht & Hs & _).
    assert (j = i) as -> by congruence.
    destruct (om_row _ _ H k' o' Ho') as (j' & Hj' & Ht' & Hs' & Hu').
    rewrite Hu'. destruct (bool_decide (o_trip_id o' = o_trip_id o)) eqn:E; [|done].
    apply bool_decide_eq_true in E. destruct (unresolved j') eqn:Hw; [|by rewrite andb_false_r].
    assert (k = o_command_intent_id o') as Hk by (apply (Ha k _ i j'); congruence).
    assert (j' = i) as -> by congruence. rewrite <- Hs, <- Hs'. by rewrite Z.ltb_irrefl. }
  apply ClaimDue_ok in Hclaim as (ow & cs & _ & _ & _ & _ & -> & Hf).
  rewrite merge_sort_Permutation, (claimed_ids _ _ _ _ _ _ Hf).
  apply list_elem_of_fmap. exists (ko, o). split; [done|]. apply due_is_candidate; [done| |done].
  unfold due. rewrite Hcl, Hpre, bool_decide_eq_true_2 by done. simpl.
  by rewrite (proj2 (Z.leb_le _ _) Hnext).
Qed.

End System.

(** ** Witnesses

    A trip created on an empty server, leased, with a proposal for its first plan
    and then a command in flight. *)

Definition ex_sys_leased : @db pg_model :=
  committed (Acquire (ex_clock 0) ex_trip ex_holder_a (10 * Second)) (ex_created "planned").

Definition ex_sys_persist : PersistProposalRequest :=
  MkPersist ex_proposal_id ex_trip (MkSource 1 4 1 1 ex_plan) (MkFreshness ex_holder_a 1 4 1)
    ex_stored_proposal (sha256 ex_stored_proposal) 5000000.

Definition ex_sys_proposed : @db pg_model := committed (Persist ex_clock5 ex_sys_persist) ex_sys_leased.

Definition ex_sys_command : RecordRuntimeCommandRequest :=
  MkRecordRequest ex_intent2 ex_outbox2 ex_trip ex_user ex_message2 ex_message2 1
    CommandTravelDelay None (repeat Byte.x01 32) (bytes_of_string "{}") (bytes_of_string "{}") None.

Definition ex_flying : @db pg_model := committed (RecordRuntimeFirst ex_clock5 ex_sys_command) ex_sys_proposed.

Lemma ex_flying_reachable : reachable ex_flying.
Proof.
  destruct (ex_created_ok "planned" ltac:(vm_compute; reflexivity)) as (c1 & H1 & _).
  destruct (committed_ok (Acquire (ex_clock 0) ex_trip ex_holder_a (10 * Second))
    (ex_created "planned") ltac:(vm_compute; reflexivity)) as [c2 H2].
  destruct (committed_ok (Persist ex_clock5 ex_sys_persist) ex_sys_leased
    ltac:(vm_compute; reflexivity)) as [c3 H3].
  destruct (committed_ok (RecordRuntimeFirst ex_clock5 ex_sys_command) ex_sys_proposed
    ltac:(vm_compute; reflexivity)) as [c4 H4].
  exists ex_empty. split; [repeat split; reflexivity|].
  eapply rtc_l; [exact (step_create _ _ _ _ _ H1)|].
  eapply rtc_l; [apply step_lease; exact (step_acquire _ _ _ _ _ _ _ _ H2)|].
  eapply rtc_l; [exact (step_persist _ _ _ _ _ H3)|].
  apply rtc_once. exact (step_record _ _ _ _ _ H4).
Qed.

Definition ex_flying_row {A B} (m : @db pg_model -> gmap string A) (k : string) (f : A -> B) : option B :=
  f <$> m ex_flying !! k.

(** A row of the example with a property that evaluation decides. *)
Lemma ex_flying_has {A} (m : @db pg_model -> gmap string A) (k : string) (P : A -> bool) :
  ex_flying_row m k P = Some true -> exists a, m ex_flying !! k = Some a /\ P a = true.
Proof. unfold ex_flying_row. destruct (m ex_flying !! k) as [a|]; [|done]. intros [= H]. eauto. Qed.

Definition ex_pending_intent (i : @intent pg_model) : bool :=
  bool_decide (i_state i = IntentPending) && unresolved i.

Definition ex_pending_proposal (p : proposal) : bool :=
  bool_decide (p_state p = ProposalPending).

Definition ex_due_row (o : @outbox_row pg_model) : bool :=
  bool_decide (o_command_intent_id o = ex_intent2) &&
  bool_decide (o_delivery_state o = DeliveryPending) && (o_next_attempt_at o <=? 5000) &&
  claimable 5000 o.

Lemma ex_flying_trip : exists t, trips ex_flying !! ex_trip = Some t /\
  t_finalized_mutation_sequence t = 1 /\ t_next_mutation_sequence t = 3.
Proof.
  destruct (ex_flying_has trips ex_trip (fun t => (t_finalized_mutation_sequence t =? 1) &&
    (t_next_mutation_sequence t =? 3)) ltac:(vm_compute; reflexivity)) as (t & Ht & H).
  apply andb_true_iff in H as [Hf%Z.eqb_eq Hn%Z.eqb_eq]. exists t.
  split; [exact Ht|]. split; [exact Hf|exact Hn].
Qed.

Lemma ex_flying_intent : exists i, intents ex_flying !! ex_intent2 = Some i /\
  i_state i = IntentPending /\ unresolved i = true.
Proof.
  destruct (ex_flying_has intents ex_intent2 ex_pending_intent ltac:(vm_compute; reflexivity)) as (i & Hi & H).
  apply andb_true_iff in H as [Hp%bool_decide_eq_true Hu]. exists i.
  split; [exact Hi|]. split; [exact Hp|exact Hu].
Qed.



Lemma waiting_iff_undelivered_witness : exists ko o,
  outbox ex_flying !! ko = Some o /\ o_command_intent_id o = ex_intent2 /\
  unresolved_delivery o = true.
Proof.
  destruct ex_flying_intent as (i & Hi & _ & Hu).
  exact (proj1 (proj1 (waiting_iff_undelivered ex_flying ex_intent2 i ex_flying_reachable Hi)) Hu).
Defined.

Lemma flying_command_is_claimed_witness : exists rows d',
  ClaimDue (ex_clock 5000) ∅ ex_holder_a 8 (10 * Second) ex_flying = (Ok rows, d') /\
  ex_outbox2 ∈ cl_ID <$> rows.
Proof.
  destruct ex_flying_intent as (i & Hi & Hp & _).
  destruct (ex_flying_has outbox ex_outbox2 ex_due_row ltac:(vm_compute; reflexivity)) as (o & Ho & H).
  apply andb_true_iff in H as [H Hcl]. apply andb_true_iff in H as [H Hnext%Z.leb_le].
  apply andb_true_iff in H as [Hid%bool_decide_eq_true Hdel%bool_decide_eq_true].
  assert (E : is_ok (ClaimDue (ex_clock 5000) ∅ ex_holder_a 8 (10 * Second) ex_flying).1 = true)
    by (vm_compute; reflexivity).
  assert (Hn : Z.of_nat (size (outbox ex_flying)) <= 8) by (vm_compute; discriminate).
  destruct (ClaimDue (ex_clock 5000) ∅ ex_holder_a 8 (10 * Second) ex_flying) as [[rows|] d'] eqn:Hc;
    [|discriminate E].
  exists rows, d'. split; [reflexivity|].
  exact (flying_command_is_claimed ex_flying ex_intent2 i _ _ _ _ rows d' ex_outbox2 o
    ex_flying_reachable Hi Hp Ho Hid Hdel Hnext Hcl Hn Hc).
Defined.
