(* ===== verification/Convergence.v ===== *)
(** * A bootstrapped runtime converges

    In every database the operations reach, the convergence of a bootstrapped
    runtime is never blocked, settles every canonical-first command of the trip,
    also those whose mirror was paused, confirms every covered outbox row and can
    be repeated; a snapshot of the finalized state can be stored after it. *)

From S2P Require Import Prelude GoLib Wire Schema Tables Leases Commands.
From S2P Require Import Finalization Mutations Proposals Decisions OutboxStore.
From S2P Require Import CanonicalState Canonical CanonicalFacts CanonicalLoad Mirror.
From S2P Require Import Snapshots Bootstrap System.

Section Convergence.
Context {PG : Postgres}.

(** The command of an outbox row up to the finalized sequence is not in flight. *)
Lemma covered_resolved d ko o i t :
  consistent d -> outbox d !! ko = Some o -> intents d !! o_command_intent_id o = Some i ->
  trips d !! i_trip_id i = Some t ->
  o_mutation_sequence o <= t_finalized_mutation_sequence t -> i_state i <> IntentPending.
Proof.
  intros [Hs _ Ho _ _ _] Hk Hi Ht Hle Hp. destruct (om_row _ _ Ho ko o Hk) as (j & Hj & _ & Hse & _).
  assert (j = i) as -> by congruence. destruct (pending_is_next _ _ _ i t Hs Hi Hp Ht). lia.
Qed.

(** What is covered after the convergence is settled and confirmed. *)
Lemma settled_covered_rows clk r c t d d' ko o' :
  consistent d -> converged clk r c t d d' -> outbox d' !! ko = Some o' ->
  o_trip_id o' = rb_TripID r -> o_mutation_sequence o' <= t_finalized_mutation_sequence t ->
  unresolved_delivery o' = false /\ o_finalization_confirmed_at o' <> None.
Proof.
  intros Hd H. rewrite (cv_result _ _ _ _ _ _ H). intros (o & Hk & ->)%lookup_settled_outbox.
  destruct (settled_row_keeps (rb_TripID r) (bs_ConfirmedAt c) (covered_mirrors (rb_TripID r)
    (t_finalized_mutation_sequence t) d) ko o) as (_ & -> & ->). intros HT Hle.
  destruct (om_row _ _ (co_outbox _ Hd) ko o Hk) as (i & Hi & HiT & _ & Hu). rewrite HT in HiT.
  set (T := rb_TripID r) in *. set (n := t_finalized_mutation_sequence t) in *.
  rewrite (settled_covered _ _ _ _ ko o i) by done. unfold of_trip. rewrite bool_decide_eq_true_2 by done.
  assert (Hin : mirror_of ko o i ∈ covered_mirrors T n d) by (apply elem_of_covered; by exists ko, o, i).
  pose proof (cv_free _ _ _ _ _ _ H _ Hin) as Hfree. unfold settle_row.
  assert (Hat : bs_ConfirmedAt c <> None \/
    mirror_waiting (mirror_of ko o i) = false /\ o_finalization_confirmed_at o <> None).
  { destruct (cv_time _ _ _ _ _ _ H) as [[Hn _]|[-> _]]; [right; by apply Hn|by left]. }
  destruct (is_canonical (mirror_of ko o i) && delivery_waiting (mirror_of ko o i)) eqn:E.
  - split; [done|]. simpl. destruct Hat as [?|[Hw _]]; [done|]. apply andb_true_iff in E as [E1 E2].
    unfold mirror_waiting in Hw. by rewrite E1, E2, orb_true_r in Hw.
  - assert (Hun : unresolved_delivery o = false).
    { unfold runtime_blocks, is_canonical in *. simpl in *. destruct (i_application_order i); simpl in *;
        [by apply orb_false_iff in Hfree as [_ ?]|done]. }
    case_match eqn:En.
    + split; [done|]. simpl. destruct Hat as [?|[_ Hc]]; [done|]. simpl in En.
      by destruct (o_finalization_confirmed_at o).
    + split; [done|]. simpl in En. by destruct (o_finalization_confirmed_at o).
Qed.

(** What a convergence settles, confirms and leaves alone. *)
Lemma bootstrap_settles clk r d c d' :
  reachable d -> ResolveCanonicalBootstrap clk r d = Ok (c, d') ->
  exists t, trips d !! rb_TripID r = Some t /\
  (forall k i, intents d' !! k = Some i -> i_trip_id i = rb_TripID r -> unresolved i = true ->
     i_state i = IntentPending /\ i_application_order i = runtime_first) /\
  (forall ko o, outbox d' !! ko = Some o -> o_trip_id o = rb_TripID r ->
     o_mutation_sequence o <= t_finalized_mutation_sequence t ->
     delivery_resolved o = true /\ o_finalization_confirmed_at o <> None) /\
  (forall b, sb_TripID b = rb_TripID r ->
     int64 (sb_CoveredFinalizedMutationSequence b) <= t_finalized_mutation_sequence t ->
     count_rows (not_ready b) (outbox d') = 0) /\
  (forall k i, intents d !! k = Some i -> i_trip_id i <> rb_TripID r -> intents d' !! k = Some i) /\
  (forall ko o, outbox d !! ko = Some o -> o_trip_id o <> rb_TripID r -> outbox d' !! ko = Some o) /\
  d' = set_intents (intents d') (set_outbox (outbox d') d).
Proof.
  intros Hr H. apply reachable_consistent in Hr as Hd. pose proof (bootstrap_consistent _ _ _ _ _ Hd H) as Hd'.
  apply ResolveCanonicalBootstrap_ok in H as (t & H). exists t. pose proof (cv_trip _ _ _ _ _ _ H) as Ht.
  assert (Hrows : forall ko o, outbox d' !! ko = Some o -> o_trip_id o = rb_TripID r ->
    o_mutation_sequence o <= t_finalized_mutation_sequence t ->
    delivery_resolved o = true /\ o_finalization_confirmed_at o <> None).
  { intros ko o Hk HT Hle. rewrite delivered_resolved.
    by destruct (settled_covered_rows _ _ _ _ _ _ _ _ Hd H Hk HT Hle) as [-> ?]. }
  assert (Ht' : trips d' = trips d) by (by rewrite (cv_result _ _ _ _ _ _ H)).
  split_and!; try done.
  - intros k i Hi HT Hu. destruct (om_waiting _ _ (co_outbox _ Hd') k i Hi Hu) as (ko & o & Hk & Hc).
    destruct (om_row _ _ (co_outbox _ Hd') ko o Hk) as (j & Hj & HjT & Hse & Hw).
    assert (j = i) as -> by congruence.
    destruct (sq_intent _ _ (co_sequences _ Hd') k i Hi) as (t' & Ht2 & _ & Hp & Ho).
    assert (t' = t) as -> by congruence. assert (i_state i = IntentPending); [|by auto].
    apply Hp. apply Z.nle_gt. intros Hle.
    destruct (settled_covered_rows _ _ _ _ _ _ ko o Hd H Hk) as [Hn _]; congruence || lia.
  - intros b HT Hle. apply count_rows_zero, any_row_false. intros ko o Hk. unfold not_ready, covered.
    rewrite HT. case_bool_decide as E; [|done]. simpl.
    destruct (Z.leb_spec (o_mutation_sequence o) (int64 (sb_CoveredFinalizedMutationSequence b))); [|done].
    destruct (Hrows ko o Hk E) as [-> Hc]; [lia|]. simpl. by destruct (o_finalization_confirmed_at o).
  - intros k i Hi HT. rewrite (cv_result _ _ _ _ _ _ H). apply lookup_settled_intents. exists i.
    split; [done|]. unfold settled_intent. by rewrite (bool_decide_eq_false_2 (i_trip_id i = _)), andb_false_r.
  - intros ko o Hk HT. rewrite (cv_result _ _ _ _ _ _ H). apply lookup_settled_outbox. exists o.
    split; [done|]. unfold settled_row, of_trip. case_match; [|done]. by rewrite bool_decide_eq_false_2.
  - rewrite (cv_result _ _ _ _ _ _ H). by destruct d.
Qed.

(** C28: convergence.  After a successful convergence the only command of the trip
    that can still wait is the runtime command in flight: every canonical-first
    command is settled, also a paused one.  Every outbox row up to the finalized
    sequence is delivered and confirmed, so that a snapshot that covers no more is
    ready to be stored.  Commands and rows of other trips and all other tables are
    unchanged. *)
Theorem bootstrap_converges clk r d c d' :
  reachable d -> ResolveCanonicalBootstrap clk r d = Ok (c, d') ->
  exists t, trips d !! rb_TripID r = Some t /\
  (forall k i, intents d' !! k = Some i -> i_trip_id i = rb_TripID r -> unresolved i = true ->
     i_state i = IntentPending /\ i_application_order i = runtime_first) /\
  (forall ko o, outbox d' !! ko = Some o -> o_trip_id o = rb_TripID r ->
     o_mutation_sequence o <= t_finalized_mutation_sequence t ->
     delivery_resolved o = true /\ o_finalization_confirmed_at o <> None) /\
  (forall b, sb_TripID b = rb_TripID r ->
     int64 (sb_CoveredFinalizedMutationSequence b) <= t_finalized_mutation_sequence t ->
     count_rows (not_ready b) (outbox d') = 0) /\
  (forall k i, intents d !! k = Some i -> i_trip_id i <> rb_TripID r -> intents d' !! k = Some i) /\
  (forall ko o, outbox d !! ko = Some o -> o_trip_id o <> rb_TripID r -> outbox d' !! ko = Some o) /\
  d' = set_intents (intents d') (set_outbox (outbox d') d).
Proof. apply bootstrap_settles. Qed.

(** Covered runtime-first work is resolved. *)
Lemma covered_free d T t c :
  consistent d -> trips d !! T = Some t ->
  c ∈ covered_mirrors T (t_finalized_mutation_sequence t) d -> runtime_blocks c = false.
Proof.
  intros Hd Ht (ko & o & i & Hk & Hi & HT & Hle & ->)%elem_of_covered. unfold runtime_blocks. simpl.
  case_bool_decide as Ho; [|done]. simpl. rewrite (co_mirrored _ Hd _ i Hi Ho). simpl.
  destruct (om_row _ _ (co_outbox _ Hd) ko o Hk) as (j & Hj & _ & _ & Hu).
  assert (j = i) as -> by congruence. unfold delivery_waiting. simpl.
  fold (unresolved_delivery o). rewrite Hu. unfold unresolved. rewrite Ho.
  apply bool_decide_eq_false. rewrite <- HT in Ht. by eapply covered_resolved.
Qed.

(** Nothing is left to settle. *)
Lemma covered_quiet clk r c t d d' m :
  consistent d -> consistent d' -> converged clk r c t d d' ->
  m ∈ covered_mirrors (rb_TripID r) (t_finalized_mutation_sequence t) d' ->
  mirror_waiting m = false /\ cm_finalizationConfirmed m <> None.
Proof.
  intros Hd Hd' H (ko & o & i & Hk & Hi & HT & Hle & ->)%elem_of_covered.
  destruct (om_row _ _ (co_outbox _ Hd') ko o Hk) as (j & Hj & HjT & _ & Hu).
  assert (j = i) as -> by congruence.
  destruct (settled_covered_rows _ _ _ _ _ _ ko o Hd H Hk) as [Hn Hc]; [congruence|done|].
  split; [|done]. unfold mirror_waiting, is_canonical, sync_waiting, delivery_waiting. simpl.
  case_bool_decide as Ho; [|done]. simpl. fold (unresolved_delivery o). rewrite Hn, orb_false_r.
  unfold unresolved in Hu. rewrite Ho in Hu. congruence.
Qed.

(** A convergence with nothing to settle. *)
Lemma converge_quiet clk r t d :
  validateCanonicalBootstrapResolution r = Ok tt -> trips d !! rb_TripID r = Some t ->
  t_trip_revision t = int64 (rb_TripRevision r) ->
  t_finalized_mutation_sequence t = int64 (rb_FinalizedMutationSequence r) ->
  rb_AcceptedMutationSequence r = rb_FinalizedMutationSequence r ->
  t_current_plan_id t = Some (rb_CurrentPlanID r) ->
  (forall m, m ∈ covered_mirrors (rb_TripID r) (t_finalized_mutation_sequence t) d ->
     runtime_blocks m = false /\ mirror_waiting m = false /\ cm_finalizationConfirmed m <> None) ->
  exists c, ResolveCanonicalBootstrap clk r d = Ok (c, d) /\
    bs_Duplicate c = true /\ bs_MirrorsResolved c = 0 /\ bs_RowsConfirmed c = 0.
Proof.
  intros Hv Ht Hrev Hf Ha Hp Hm. rewrite Hf in Hm. set (l := covered_mirrors _ _ _) in *.
  assert (Hn1 : zlen (List.filter mirror_waiting l) = 0)
    by (apply filter_none; intros m Hin; by apply Hm).
  assert (Hn2 : zlen (List.filter (fun c => is_null (cm_finalizationConfirmed c)) l) = 0).
  { apply filter_none. intros m Hin. destruct (Hm m Hin) as (_ & _ & ?).
    by destruct (cm_finalizationConfirmed m). }
  assert (Hb : existsb runtime_blocks l = false).
  { apply not_true_iff_false. intros (m & Hin & Hb)%existsb_exists.
    destruct (Hm m) as (Hb' & _); [by apply list_elem_of_In|congruence]. }
  eexists. split; [|split_and!]; cycle 1.
  1-3: shelve. unfold ResolveCanonicalBootstrap.
  run_tx_step; [exact Hv|]. eapply tx_bind_run; [by apply lock_trip_row_ok|].
  run_tx_step; [by rewrite Hp|]. run_tx_step.
  { by rewrite Hrev, Hf, Ha, !Z.eqb_refl, bool_decide_eq_true_2. }
  run_tx_step; [reflexivity|]. run_tx_step; [exact Hb|].
  eapply tx_bind_run; [apply settle_nothing; intros m Hin; by apply Hm|]. reflexivity.
  Unshelve. all: simpl; fold l; by rewrite ?Hn1, ?Hn2.
Qed.

(** Convergence is never blocked and can be repeated.  In no database the
    operations reach is a convergence refused because of covered runtime-first
    work; and repeating a successful one answers that there was nothing to do and
    changes nothing. *)
Theorem bootstrap_repeats clk clk' r d :
  reachable d ->
  ResolveCanonicalBootstrap clk r d <> Err ErrBootstrapConvergenceBlocked /\
  forall c d', ResolveCanonicalBootstrap clk r d = Ok (c, d') ->
    exists c', ResolveCanonicalBootstrap clk' r d' = Ok (c', d') /\
      bs_Duplicate c' = true /\ bs_MirrorsResolved c' = 0 /\ bs_RowsConfirmed c' = 0.
Proof.
  intros Hr. apply reachable_consistent in Hr as Hd. split.
  - intros (t & c & Ht & Hin & Hb)%blocked_by.
    by rewrite (covered_free d _ t c Hd Ht Hin) in Hb.
  - intros c d' H. pose proof (bootstrap_consistent _ _ _ _ _ Hd H) as Hd'.
    pose proof H as (t & Hc)%ResolveCanonicalBootstrap_ok.
    assert (Ht : trips d' !! rb_TripID r = Some t)
      by (rewrite (cv_result _ _ _ _ _ _ Hc); apply Hc).
    apply (converge_quiet _ _ t); [apply Hc|done|apply Hc..|].
    intros m Hm. split; [by eapply covered_free|]. by apply (covered_quiet clk r c t d d').
Qed.

End Convergence.

(** ** Witnesses

    A trip created on an empty server is edited and its mirror is paused by an
    acknowledgement of another plan; then its runtime is bootstrapped. *)

Definition ex_edit2 : edit :=
  EditReorder (MkReorder (MkEdit ex_trip ex_user ex_intent2 ex_outbox2 ex_message2 ex_message2 ex_plan2 1
    None 8 [Draft ex_activity_b true (Some 0) (Some 60); Draft ex_activity_a false None None]
    (bytes_of_string "{}") (bytes_of_string "{}") None (sha256 (bytes_of_string "{}"))
    (bytes_of_string "{}")) [ex_activity_b; ex_activity_a]).

Definition ex_edited : @db pg_model := committed (run_edit ex_clock5 ex_edit2) (ex_created "planned").

Definition ex_wrong_ack : FinalizeCanonicalMirrorRequest :=
  MkMirrorRequest ex_trip ex_intent2 ex_outbox2 ex_message2 2 1 2 ex_plan.

Definition ex_paused : @db pg_model := (FinalizeCanonicalMirror ex_clock5 ex_wrong_ack ex_edited).2.

Definition ex_bootstrap : ResolveCanonicalBootstrapRequest :=
  MkBootstrapRequest ex_trip 2 2 2 ex_plan2.

Definition ex_converged : @db pg_model := committed (ResolveCanonicalBootstrap ex_clock5 ex_bootstrap) ex_paused.

Lemma ex_paused_reachable : reachable ex_paused.
Proof.
  destruct (ex_created_ok "planned" ltac:(vm_compute; reflexivity)) as (c1 & H1 & _).
  destruct (committed_ok (run_edit ex_clock5 ex_edit2) (ex_created "planned")
    ltac:(vm_compute; reflexivity)) as [c2 H2].
  exists ex_empty. split; [repeat split; reflexivity|].
  eapply rtc_l; [exact (step_create _ _ _ _ _ H1)|].
  eapply rtc_l; [exact (step_edit _ _ _ _ _ H2)|].
  apply rtc_once. eapply (step_mirror _ ex_clock5 ex_wrong_ack). apply surjective_pairing.
Qed.

(** The paused command waits before the convergence and not after it. *)
Definition ex_waits (d : @db pg_model) : bool := hasUnresolved ex_trip d.

Lemma bootstrap_converges_witness :
  ex_waits ex_paused = true /\
  forall k i, intents ex_converged !! k = Some i -> i_trip_id i = ex_trip -> unresolved i = true ->
    i_state i = IntentPending.
Proof.
  split; [vm_compute; reflexivity|].
  destruct (committed_ok (ResolveCanonicalBootstrap ex_clock5 ex_bootstrap) ex_paused
    ltac:(vm_compute; reflexivity)) as [c H].
  destruct (bootstrap_converges ex_clock5 ex_bootstrap ex_paused c ex_converged ex_paused_reachable H)
    as (t & _ & Hw & _).
  intros k i Hi HT Hu. exact (proj1 (Hw k i Hi HT Hu)).
Defined.

Lemma bootstrap_repeats_witness : exists c',
  ResolveCanonicalBootstrap (ex_clock 9000) ex_bootstrap ex_converged = Ok (c', ex_converged) /\
  bs_Duplicate c' = true.
Proof.
  destruct (committed_ok (ResolveCanonicalBootstrap ex_clock5 ex_bootstrap) ex_paused
    ltac:(vm_compute; reflexivity)) as [c H].
  destruct (proj2 (bootstrap_repeats ex_clock5 (ex_clock 9000) ex_bootstrap ex_paused ex_paused_reachable)
    c ex_converged H) as (c' & Hc & Hd & _).
  exists c'. split; [exact Hc|exact Hd].
Defined.
