(* ===== verification/GoText.v ===== *)
(** * Text, time zones and identifiers

    What the HTTP-facing stores use of [strings], [time], [regexp], [strconv]
    and [fmt], and the two helpers of [persistence/http_authentication.go] they
    share: [newAuthUUID] and [validTimeZoneName].  The time-zone database is a
    parameter. *)

From stdpp Require Import pretty.
From S2P Require Import Prelude GoLib.
From Stdlib Require Import Ascii.

(** ** [strings.TrimSpace] *)

(** The UTF-8 encodings of the runes [unicode.IsSpace] holds of. *)
Definition space_runes : list bytes :=
  List.map (List.map byte_of)
    ([[9]; [10]; [11]; [12]; [13]; [32]; [194; 133]; [194; 160]; [225; 154; 128]] ++
     List.map (fun c => [226; 128; 128 + c]) [0; 1; 2; 3; 4; 5; 6; 7; 8; 9; 10] ++
     [[226; 128; 168]; [226; 128; 169]; [226; 128; 175]; [226; 129; 159]; [227; 128; 128]]).

Fixpoint strip_prefix (p l : bytes) : option bytes :=
  match p, l with
  | [], _ => Some l
  | x :: p', y :: l' => if bool_decide (x = y) then strip_prefix p' l' else None
  | _ :: _, [] => None
  end.

(** Drops a leading rune of [runes]. *)
Fixpoint strip_rune (runes : list bytes) (l : bytes) : option bytes :=
  match runes with
  | [] => None
  | r :: rest =>
      match strip_prefix r l with Some l' => Some l' | None => strip_rune rest l end
  end.

Fixpoint strip_runes (fuel : nat) (runes : list bytes) (l : bytes) : bytes :=
  match fuel with
  | O => l
  | S n => match strip_rune runes l with Some l' => strip_runes n runes l' | None => l end
  end.

Definition TrimSpace_bytes (l : bytes) : bytes :=
  let left := strip_runes (length l) space_runes l in
  rev (strip_runes (length left) (List.map (@rev _) space_runes) (rev left)).

Definition TrimSpace (s : string) : string :=
  string_of_bytes (TrimSpace_bytes (bytes_of_string s)).

(** [len([]byte(s))]. *)
Definition len_bytes (s : string) : Z := zlen (bytes_of_string s).

(** [length(s)] of a [text] value, which counts characters: the bytes of its UTF-8
    encoding that do not continue a character. *)
Definition char_length (s : string) : Z :=
  zlen (List.filter (fun b => negb ((128 <=? byte_val b) && (byte_val b <? 192)))
          (bytes_of_string s)).

(** ** [time.Parse] for the two layouts of a display schedule *)

Definition digit (b : Byte.byte) : option Z :=
  if (48 <=? byte_val b) && (byte_val b <=? 57) then Some (byte_val b - 48) else None.

(** [getnum]: one or two digits, two when [fixed]. *)
Definition getnum (fixed : bool) (l : bytes) : option (Z * bytes) :=
  match l with
  | [] => None
  | a :: rest =>
      x ← digit a;
      match rest with
      | b :: rest' =>
          match digit b with
          | Some y => Some (x * 10 + y, rest')
          | None => if fixed then None else Some (x, rest)
          end
      | [] => if fixed then None else Some (x, rest)
      end
  end.

Definition literal (c : Z) (l : bytes) : option bytes :=
  match l with
  | b :: rest => if byte_val b =? c then Some rest else None
  | [] => None
  end.

Definition year_digits (l : bytes) : option (Z * bytes) :=
  '(hi, l) ← getnum true l; '(lo, l) ← getnum true l; Some (hi * 100 + lo, l).

Definition is_leap (y : Z) : bool :=
  (y mod 4 =? 0) && (negb (y mod 100 =? 0) || (y mod 400 =? 0)).

Definition days_in (month year : Z) : Z :=
  if month =? 2 then if is_leap year then 29 else 28
  else if bool_decide (month ∈ [4; 6; 9; 11]) then 30 else 31.

Definition parse_date (l : bytes) : option bool :=
  '(year, l) ← year_digits l; l ← literal 45 l;
  '(month, l) ← getnum true l;
  if (month <=? 0) || (12 <? month) then None else
  l ← literal 45 l;
  '(day, l) ← getnum true l;
  Some (bool_decide (l = []) && (1 <=? day) && (day <=? days_in month year)).

(** [time.Parse("2006-01-02", s)] succeeds. *)
Definition valid_local_date (s : string) : bool :=
  match parse_date (bytes_of_string s) with Some b => b | None => false end.

Fixpoint skip_digits (l : bytes) : bytes :=
  match l with
  | b :: rest => match digit b with Some _ => skip_digits rest | None => l end
  | [] => []
  end.

(** A fraction the layout does not have is accepted after the seconds. *)
Definition skip_fraction (l : bytes) : bytes :=
  match l with
  | a :: b :: rest =>
      if (byte_val a =? 46) || (byte_val a =? 44) then
        match digit b with Some _ => skip_digits rest | None => l end
      else l
  | _ => l
  end.

Definition parse_time (l : bytes) : option bool :=
  '(hour, l) ← getnum false l;
  if (hour <? 0) || (24 <=? hour) then None else
  l ← literal 58 l;
  '(minute, l) ← getnum true l;
  if (minute <? 0) || (60 <=? minute) then None else
  l ← literal 58 l;
  '(second, l) ← getnum true l;
  if (second <? 0) || (60 <=? second) then None else
  Some (bool_decide (skip_fraction l = [])).

(** [time.Parse("15:04:05", s)] succeeds. *)
Definition valid_local_time (s : string) : bool :=
  match parse_time (bytes_of_string s) with Some b => b | None => false end.

(** ** Time zones *)

(** What [Location.lookup] answers for an instant in Unix seconds: the offset
    in effect and the instants between which it is. *)
Record zone_period := ZonePeriod { zp_offset : Z; zp_start : Z; zp_end : Z }.
Definition Location : Type := Z -> zone_period.

(** [time.LoadLocation] with the host's time-zone database. *)
Class TimeZones := LoadLocation : string -> option Location.

Definition zone_letter (b : Byte.byte) : bool :=
  let c := byte_val b in
  ((65 <=? c) && (c <=? 90)) || ((97 <=? c) && (c <=? 122)) ||
  (c =? 95) || (c =? 43) || (c =? 45).
Definition zone_char (b : Byte.byte) : bool :=
  let c := byte_val b in
  zone_letter b || ((48 <=? c) && (c <=? 57)) || (c =? 46).

(** The parts between slashes. *)
Fixpoint split_slash (l : bytes) : list bytes :=
  match l with
  | [] => [[]]
  | b :: rest =>
      if byte_val b =? 47 then [] :: split_slash rest
      else match split_slash rest with
           | part :: parts => (b :: part) :: parts
           | [] => [[b]]
           end
  end.

Definition zone_part (char : Byte.byte -> bool) (part : bytes) : bool :=
  negb (bool_decide (part = [])) && forallb char part.

(** [ianaZonePattern]: letters, then one or more parts after slashes. *)
Definition iana_zone (l : bytes) : bool :=
  match split_slash l with
  | first :: ((_ :: _) as rest) =>
      zone_part zone_letter first && forallb (zone_part zone_char) rest
  | _ => false
  end.

Definition validTimeZoneName `{TimeZones} (value : string) : bool :=
  negb ((len_bytes value <? 1) || (64 <? len_bytes value) ||
        negb (iana_zone (bytes_of_string value))) &&
  match LoadLocation value with Some _ => true | None => false end.

(** [time.Date] of a local time given in seconds: the instant, in Unix seconds.
    The offset in effect at the local time read as UTC is tried first. *)
Definition local_instant (loc : Location) (local : Z) : Z :=
  let p := loc local in
  if zp_offset p =? 0 then local
  else
    let utc := local - zp_offset p in
    if (utc <? zp_start p) || (zp_end p <=? utc) then local - zp_offset (loc utc)
    else utc.

(** [time.Time] counts nanoseconds here; a day has 86400 seconds. *)
Definition unix_seconds (ns : Z) : Z := ns / Second.
Definition local_seconds (loc : Location) (seconds : Z) : Z :=
  seconds + zp_offset (loc seconds).

(** [time.Duration(ms) * time.Millisecond]. *)
Definition milliseconds (ms : Z) : Z := int64 (ms * Millisecond).

(** [t.UnixMilli()] of nanoseconds. *)
Definition UnixMilli (ns : Z) : Z := ns / Millisecond.

(** ** Identifiers and numbers as text *)

Definition hex_digit (n : Z) : ascii :=
  ascii_of_N (Z.to_N (if n <? 10 then 48 + n else 87 + n)).
Definition hex_byte (b : Byte.byte) (rest : string) : string :=
  String (hex_digit (byte_val b / 16)) (String (hex_digit (byte_val b mod 16)) rest).
Fixpoint hex_bytes (l : bytes) (rest : string) : string :=
  match l with [] => rest | b :: l => hex_byte b (hex_bytes l rest) end.

Definition dash (rest : string) : string := String "-"%char rest.

(** The version and variant bits of a random identifier. *)
Definition uuid_bits (raw : bytes) : bytes :=
  alter (fun b => byte_of (Z.lor (Z.land (byte_val b) 15) 64)) 6%nat
    (alter (fun b => byte_of (Z.lor (Z.land (byte_val b) 63) 128)) 8%nat raw).

(** [newAuthUUID] with the 16 bytes [rand.Read] returned. *)
Definition newAuthUUID (random : bytes) : string :=
  let raw := uuid_bits random in
  hex_bytes (take 4 raw) (dash (hex_bytes (take 2 (drop 4 raw)) (dash
  (hex_bytes (take 2 (drop 6 raw)) (dash (hex_bytes (take 2 (drop 8 raw)) (dash
  (hex_bytes (take 6 (drop 10 raw)) EmptyString)))))))).

(** [strconv.FormatInt(z, 10)]. *)
Definition FormatInt (z : Z) : string := pretty z.

Definition quote : ascii := ascii_of_N 34.
Definition quoted (s : string) : string := String quote (s +:+ String quote EmptyString).

(** The entity tag of a trip revision. *)
Definition revision_etag (revision : string) : string :=
  quoted ("trip-revision-" +:+ revision).

(** ** Facts *)

Lemma hex_digit_char index n :
  index ∉ [8; 13; 18; 23]%nat -> 0 <= n < 16 -> uuid_char index (hex_digit n) = true.
Proof.
  intros Hi Hn. unfold uuid_char. rewrite bool_decide_eq_false_2 by done.
  assert (n ∈ [0;1;2;3;4;5;6;7;8;9;10;11;12;13;14;15]) as Hin.
  { rewrite !elem_of_cons. lia. }
  repeat (apply elem_of_cons in Hin as [->|Hin]; [done|]). by apply not_elem_of_nil in Hin.
Qed.

(** The index after [n] more bytes are printed, when no dash is expected there. *)
Lemma hex_bytes_chars l index rest :
  (forall i, (index <= i < index + 2 * length l)%nat -> i ∉ [8; 13; 18; 23]%nat) ->
  uuid_chars index (hex_bytes l rest) = uuid_chars (index + 2 * length l)%nat rest.
Proof.
  revert index. induction l as [|b l IH]; intros index Hd; [by rewrite Nat.add_0_r|].
  cbn [hex_bytes]. unfold hex_byte. cbn [uuid_chars].
  pose proof (byte_val_range b).
  assert (0 <= byte_val b / 16 < 16) by (split; [apply Z.div_pos|apply Z.div_lt_upper_bound]; lia).
  assert (0 <= byte_val b mod 16 < 16) by (apply Z.mod_pos_bound; lia).
  cbn [length] in *.
  rewrite !hex_digit_char by (done || apply Hd; lia). simpl andb.
  rewrite IH by (intros i Hi; apply Hd; lia). f_equal. lia.
Qed.

Lemma hex_bytes_length l rest :
  String.length (hex_bytes l rest) = (2 * length l + String.length rest)%nat.
Proof. induction l as [|b l IH]; [done|]. cbn. rewrite IH. lia. Qed.

Lemma newAuthUUID_valid random :
  length random = 16%nat -> validCanonicalUUID (newAuthUUID random) = true.
Proof.
  intros Hl. unfold validCanonicalUUID, newAuthUUID.
  assert (length (uuid_bits random) = 16%nat) as Hb
    by (unfold uuid_bits; by rewrite !length_alter).
  set (raw := uuid_bits random) in *.
  assert (forall n k, (n + k <= 16)%nat -> length (take n (drop k raw)) = n) as Ht
    by (intros; rewrite length_take, length_drop; lia).
  apply andb_true_intro. split.
  - apply bool_decide_eq_true_2. unfold dash.
    rewrite <- (drop_0 raw) at 1.
    repeat (rewrite hex_bytes_length; cbn [String.length]). rewrite !Ht by lia. done.
  - unfold dash. rewrite <- (drop_0 raw) at 1.
    repeat (rewrite hex_bytes_chars; [rewrite Ht by lia; cbn [uuid_chars Nat.add Nat.mul]|]).
    all: try reflexivity.
    all: rewrite Ht by lia; intros i Hi; rewrite !elem_of_cons, elem_of_nil; cbn in *; lia.
Qed.

Example text_examples :
  TrimSpace "  a b " = "a b" /\ valid_local_date "2024-02-29" = true /\
  valid_local_date "2023-02-29" = false /\ valid_local_time "7:04:05.5" = true /\
  valid_local_time "24:00:00" = false /\
  iana_zone (bytes_of_string "Europe/Paris") = true /\
  iana_zone (bytes_of_string "UTC") = false /\
  newAuthUUID (repeat Byte.xff 16) = "ffffffff-ffff-4fff-bfff-ffffffffffff".
Proof. vm_compute. done. Qed.

(** ** The version and the variant *)

Lemma uuid_bits_at raw : length raw = 16%nat ->
  (exists b, uuid_bits raw !! 6%nat = Some b /\ byte_val b / 16 = 4) /\
  (exists b, uuid_bits raw !! 8%nat = Some b /\ 8 <= byte_val b / 16 < 12).
Proof.
  intros Hl. unfold uuid_bits.
  destruct (lookup_lt_is_Some_2 raw 6) as [x Hx]; [lia|].
  destruct (lookup_lt_is_Some_2 raw 8) as [y Hy]; [lia|].
  rewrite list_lookup_alter_eq, !list_lookup_alter_ne, Hx by done.
  split.
  - eexists. split; [reflexivity|]. by destruct x.
  - rewrite list_lookup_alter_eq, Hy. eexists. split; [reflexivity|]. by destruct y.
Qed.

Lemma get_hex_bytes n l rest : (2 * length l <= n)%nat ->
  String.get n (hex_bytes l rest) = String.get (n - 2 * length l) rest.
Proof.
  revert n. induction l as [|b l IH]; intros n Hn; cbn [hex_bytes length] in *; [by rewrite Nat.sub_0_r|].
  unfold hex_byte. destruct n as [|[|n]]; [lia|lia|]. cbn [String.get]. rewrite IH by lia.
  f_equal. lia.
Qed.

(** The version digit and the variant digit. *)
Lemma newAuthUUID_bits random : length random = 16%nat ->
  let id := newAuthUUID random in
  validCanonicalUUID id = true /\ String.get 14 id = Some "4"%char /\
  exists c, String.get 19 id = Some c /\ c ∈ ["8"; "9"; "a"; "b"]%char.
Proof.
  intros Hl id. split; [by apply newAuthUUID_valid|].
  destruct (uuid_bits_at _ Hl) as [(b & Hb & Hb4) (c & Hc & Hc8)].
  assert (Hbits : length (uuid_bits random) = 16%nat)
    by (unfold uuid_bits; by rewrite !length_alter).
  subst id. unfold newAuthUUID. set (raw := uuid_bits random) in *.
  assert (forall n k, (n + k <= 16)%nat -> length (take n (drop k raw)) = n) as Ht
    by (intros; rewrite length_take, length_drop; lia).
  rewrite <- (drop_0 raw) at 1. rewrite (drop_0 raw). unfold dash.
  assert (Hh : forall n x, raw !! n = Some x -> exists rest, take 2 (drop n raw) = x :: rest).
  { intros n x Hx. rewrite (drop_S raw x n Hx). cbn. by eexists. }
  assert (Ht4 : length (take 4 raw) = 4%nat) by (rewrite length_take; lia).
  destruct (Hh _ _ Hb) as [rb Eb], (Hh _ _ Hc) as [rc Ec]. split.
  - do 2 (rewrite get_hex_bytes; rewrite ?Ht4, ?Ht by lia; [cbn [String.get Nat.sub Nat.mul Nat.add]|lia]).
    rewrite Eb. cbn [hex_bytes]. unfold hex_byte. cbn [String.get]. by rewrite Hb4.
  - do 3 (rewrite get_hex_bytes; rewrite ?Ht4, ?Ht by lia; [cbn [String.get Nat.sub Nat.mul Nat.add]|lia]).
    rewrite Ec. cbn [hex_bytes]. unfold hex_byte. cbn [String.get]. eexists. split; [reflexivity|].
    assert (byte_val c / 16 = 8 \/ byte_val c / 16 = 9 \/ byte_val c / 16 = 10 \/
      byte_val c / 16 = 11) as [-> | [-> | [-> | ->]]] by lia; by apply (bool_decide_eq_true_1 _).
Qed.

(** Every identifier the stores draw is a canonical UUID of version 4 with the
    RFC variant, whatever 16 bytes the random source returned. *)
Theorem newAuthUUID_version random : length random = 16%nat ->
  let id := newAuthUUID random in
  validCanonicalUUID id = true /\ String.get 14 id = Some "4"%char /\
  exists c, String.get 19 id = Some c /\ c ∈ ["8"; "9"; "a"; "b"]%char.
Proof. apply newAuthUUID_bits. Qed.

Lemma newAuthUUID_version_witness :
  String.get 14 (newAuthUUID (repeat Byte.x00 16)) = Some "4"%char.
Proof. exact (proj1 (proj2 (newAuthUUID_version (repeat Byte.x00 16) eq_refl))). Defined.
