(* ===== verification/SavedTables.v ===== *)
(** * Statements on the saved-trip tables

    [INSERT], [UPDATE] and [DELETE] on the tables migration 4 adds
    ([http_idempotency_records], [saved_trip_plans], [saved_trip_activities],
    [saved_activity_open_windows], [trip_execution_operations]) with their keys,
    indexes, foreign keys, [CHECK]s and deferred triggers, and the cascades of a
    deleted trip. *)

From S2P Require Import Prelude GoLib Schema Tables Proposals GoText.

Section SavedStatements.
Context {PG : Postgres}.

(** A query that may fail while its rows are read. *)
Definition query {A} (f : db -> result A) : tx A := fun d => a ← f d; Ok (a, d).

Definition null_or {A} (P : A -> bool) (o : option A) : bool :=
  match o with None => true | Some a => P a end.

Definition within (lo hi z : Z) : bool := (lo <=? z) && (z <=? hi).

(** *** [http_idempotency_records] *)

Definition http_operation_kinds : list string :=
  ["create_trip"; "update_trip"; "delete_trip"; "add_activity"; "replace_activity";
   "delete_activity"; "resolve_place"; "create_place"; "activate_trip"; "deactivate_trip"].

Definition http_record_check (h : http_record) : bool :=
  bool_decide (h_http_method h ∈ ["POST"; "PATCH"; "DELETE"]) &&
  within 1 500 (len_bytes (h_normalized_path h)) &&
  String.prefix "/api/v1/" (h_normalized_path h) &&
  bool_decide (h_operation_kind h ∈ http_operation_kinds) &&
  bool_decide (h_request_digest_algorithm h ∈ ["rfc8785-sha256-v1"; "rfc8785-hmac-sha256-v1"]) &&
  null_or (fun k => within 1 64 (char_length k)) (h_request_digest_key_id h) &&
  bool_decide (length (h_request_digest h) = 32%nat) &&
  null_or (within 200 599) (h_response_status h) &&
  null_or (fun c => bool_decide (c ∈ ["application/json"; "application/problem+json"]))
    (h_response_content_type h) &&
  (h_created_at h <? h_retain_until h) &&
  bool_decide (h_state h = Completed <->
               is_null (h_response_status h) = false /\ is_null (h_completed_at h) = false) &&
  null_or (Z.leb (h_created_at h)) (h_completed_at h) &&
  bool_decide (h_operation_kind h = "resolve_place" <->
               h_request_digest_algorithm h = "rfc8785-hmac-sha256-v1" /\
               is_null (h_request_digest_key_id h) = false) &&
  (bool_decide (h_request_digest_algorithm h = "rfc8785-hmac-sha256-v1") ||
   is_null (h_request_digest_key_id h)).

(** The unique key [(user_id, http_method, normalized_path, idempotency_key)]. *)
Definition same_request (user method path key : string) (h : http_record) : bool :=
  bool_decide (h_user_id h = user) && bool_decide (h_http_method h = method) &&
  bool_decide (h_normalized_path h = path) && bool_decide (h_idempotency_key h = key).

(** [INSERT ... ON CONFLICT (that key) DO NOTHING]: whether a row was added. *)
Definition insert_http_record (op id : string) (h : http_record) : tx bool := fun d =>
  if negb (http_record_check h) then Err (ErrDatabase op)
  else if any_row (fun _ => same_request (h_user_id h) (h_http_method h)
                     (h_normalized_path h) (h_idempotency_key h)) (http_records (saved d))
  then Ok (false, d)
  else if bool_decide (is_Some (http_records (saved d) !! id)) ||
          negb (bool_decide (h_user_id h ∈ users d))
  then Err (ErrDatabase op)
  else Ok (true, set_http_records (<[id := h]> (http_records (saved d))) d).

(** The foreign key [trip_id]. *)
Definition record_trip_fk (h : http_record) (d : db) : bool :=
  null_or (fun t => bool_decide (is_Some (trips d !! t))) (h_trip_id h).

(** [UPDATE http_idempotency_records SET f WHERE id = id AND P]: rows affected. *)
Definition update_http_record (op id : string) (P : http_record -> bool)
    (f : http_record -> http_record) : tx Z := fun d =>
  match http_records (saved d) !! id with
  | Some h =>
      if P h then
        if http_record_check (f h) && record_trip_fk (f h) d
        then Ok (1, set_http_records (<[id := f h]> (http_records (saved d))) d)
        else Err (ErrDatabase op)
      else Ok (0, d)
  | None => Ok (0, d)
  end.

(** *** [saved_trip_plans] *)

Definition saved_plan_check (p : saved_plan) : bool :=
  (0 <? sp_saved_plan_revision p) && in_bigint (sp_saved_plan_revision p) &&
  bool_decide (sp_authored_by_user_id p = sp_owner_user_id p) &&
  null_or (fun z => within 1 64 (len_bytes z)) (sp_display_time_zone_name p) &&
  bool_decide (is_null (sp_display_local_date p) = is_null (sp_display_local_time p) /\
               is_null (sp_display_local_time p) = is_null (sp_display_time_zone_name p)).

Definition insert_saved_plan (op id : string) (p : saved_plan) : tx unit := fun d =>
  if bool_decide (is_Some (saved_plans (saved d) !! id)) ||
     negb (saved_plan_check p) ||
     negb (bool_decide (sp_owner_user_id p ∈ users d)) ||
     match trips d !! sp_trip_id p with
     | Some t => negb (bool_decide (t_owner_user_id t = sp_owner_user_id p))
     | None => true
     end ||
     any_row (fun _ q => bool_decide (sp_trip_id q = sp_trip_id p) &&
       (sp_saved_plan_revision q =? sp_saved_plan_revision p)) (saved_plans (saved d))
  then Err (ErrDatabase op)
  else Ok (tt, set_saved_plans (<[id := p]> (saved_plans (saved d))) d).

(** *** [saved_trip_activities] *)

Definition saved_schedule_check (a : saved_activity) : bool :=
  match sa_start_offset_ms a, sa_end_offset_ms a with
  | Some s, Some e => bool_decide (sa_schedule_state a = "scheduled") && (s <? e)
  | None, None => bool_decide (sa_schedule_state a = "unscheduled")
  | _, _ => false
  end.

Definition saved_activity_check (a : saved_activity) : bool :=
  within 0 63 (sa_ordinal a) &&
  bool_decide (sa_schedule_state a ∈ ["scheduled"; "unscheduled"]) &&
  null_or (within 0 86399999) (sa_start_offset_ms a) &&
  null_or (within 1 86400000) (sa_end_offset_ms a) &&
  bool_decide (sa_inbound_travel_mode a ∈ ["walking"; "driving"]) &&
  bool_decide (sa_activity_class a ∈ ["fixed"; "flexible"]) &&
  in_integer (sa_priority_rank a) && in_integer (sa_utility_score a) &&
  null_or (within 0 86400000) (sa_reservation_start_offset_ms a) &&
  within 0 4294967295 (sa_reservation_grace_seconds a) &&
  null_or (within 0 86400000) (sa_mandatory_deadline_offset_ms a) &&
  within 0 86400 (sa_min_duration_seconds a) &&
  within 0 86400 (sa_preferred_duration_seconds a) &&
  within 0 86400 (sa_max_duration_seconds a) &&
  (sa_min_duration_seconds a <=? sa_preferred_duration_seconds a) &&
  (sa_preferred_duration_seconds a <=? sa_max_duration_seconds a) &&
  negb (sa_can_shorten a) && saved_schedule_check a.

(** The foreign keys to the plan and to the owner's place. *)
Definition saved_activity_fk (planID : string) (a : saved_activity) (d : db) : bool :=
  match saved_plans (saved d) !! planID with
  | Some p => bool_decide (sp_trip_id p = sa_trip_id a) &&
              bool_decide (sp_owner_user_id p = sa_owner_user_id a)
  | None => false
  end &&
  match places (saved d) !! sa_place_id a with
  | Some p => bool_decide (pc_owner_user_id p = sa_owner_user_id a)
  | None => false
  end.

Definition insert_saved_activity (op planID activityID : string) (a : saved_activity)
  : tx unit := fun d =>
  if bool_decide (is_Some (saved_activities (saved d) !! (planID, activityID))) ||
     any_row (fun k b => bool_decide (k.1 = planID) && (sa_ordinal b =? sa_ordinal a))
       (saved_activities (saved d)) ||
     negb (saved_activity_check a) || negb (saved_activity_fk planID a d)
  then Err (ErrDatabase op)
  else Ok (tt, set_saved_activities
                 (<[(planID, activityID) := a]> (saved_activities (saved d))) d).

(** *** [saved_activity_open_windows] *)

Definition insert_saved_window (op planID activityID : string) (index : Z)
    (w : saved_window) : tx unit := fun d =>
  if bool_decide (is_Some (saved_windows (saved d) !! (planID, activityID, index))) ||
     negb (bool_decide (is_Some (saved_activities (saved d) !! (planID, activityID)))) ||
     negb (within 0 31 index && within 0 86399999 (sw_opens_offset_ms w) &&
           within 1 86400000 (sw_closes_offset_ms w) &&
           (sw_opens_offset_ms w <? sw_closes_offset_ms w))
  then Err (ErrDatabase op)
  else Ok (tt, set_saved_windows
                 (<[(planID, activityID, index) := w]> (saved_windows (saved d))) d).

(** *** Deferred constraints of a saved plan *)

(** The activities of a plan, by ordinal. *)
Definition saved_ordinal_le (x y : (string * string) * saved_activity) : Prop :=
  sa_ordinal x.2 <= sa_ordinal y.2.
#[global] Instance saved_ordinal_le_dec : RelDecision saved_ordinal_le.
Proof. intros x y. unfold saved_ordinal_le. apply _. Defined.

Definition plan_activities (planID : string) (d : db)
  : list ((string * string) * saved_activity) :=
  merge_sort saved_ordinal_le
    (rows_where (fun k _ => bool_decide (k.1 = planID)) (saved_activities (saved d))).

(** [liveroute_assert_saved_plan_nonempty]: at least one activity, the first
    ordinal is 0 and the last is their number less one.  Only the plan a
    transaction inserts is checked: its other rows are not touched. *)
Definition saved_plan_contiguous (planID : string) (d : db) : bool :=
  match saved_plans (saved d) !! planID with
  | None => true
  | Some _ =>
      let ordinals := List.map (fun r => sa_ordinal r.2) (plan_activities planID d) in
      match head ordinals, last ordinals with
      | Some first, Some final => (first =? 0) && (final =? zlen ordinals - 1)
      | _, _ => false
      end
  end.

(** [trips_saved_plan_fk]. *)
Definition saved_plan_fk (tripID : string) (d : db) : bool :=
  match trips d !! tripID with
  | Some t =>
      null_or (fun p =>
        match saved_plans (saved d) !! p with
        | Some row => bool_decide (sp_trip_id row = tripID)
        | None => false
        end) (t_saved_plan_id t)
  | None => true
  end.

(** The checks at the commit of a transaction that publishes a saved plan. *)
Definition commit_saved_plan (op tripID planID : string) : tx unit := fun d =>
  if saved_plan_contiguous planID d && saved_plan_fk tripID d then Ok (tt, d)
  else Err (ErrDatabase op).

(** *** [trip_execution_operations] *)

Definition operation_check (e : exec_operation) : bool :=
  bool_decide (e_last_step e ∈ ["recorded"; "lease_acquired"; "planner_bootstrapped";
    "runtime_fenced"; "lease_released"; "completed"; "failed"]) &&
  (0 <=? e_source_trip_revision e) && null_or (Z.leb 0) (e_resulting_trip_revision e) &&
  null_or (fun c => within 1 64 (len_bytes c)) (e_safe_error_code e) &&
  bool_decide (e_kind e = OpActivate <-> is_null (e_target_execution_plan_id e) = false) &&
  bool_decide (e_state e = OpPending <-> is_null (e_completed_at e) = true) &&
  bool_decide (e_state e = OpFailed <-> is_null (e_safe_error_code e) = false) &&
  null_or (Z.leb (e_created_at e)) (e_completed_at e).

(** A pending operation of the trip other than [id]
    ([trip_execution_operations_one_pending_idx]). *)
Definition other_pending (id tripID : string) (d : db) : bool :=
  any_row (fun k e => negb (bool_decide (k = id)) && bool_decide (e_trip_id e = tripID) &&
    bool_decide (e_state e = OpPending)) (operations (saved d)).

Definition operation_fk (e : exec_operation) (d : db) : bool :=
  match trips d !! e_trip_id e with
  | Some t => bool_decide (t_owner_user_id t = e_owner_user_id e)
  | None => false
  end &&
  match http_records (saved d) !! e_idempotency_record_id e with
  | Some h => bool_decide (h_user_id h = e_owner_user_id e) &&
              bool_decide (h_trip_id h = Some (e_trip_id e))
  | None => false
  end &&
  null_or (fun p => plan_of_trip (e_trip_id e) p d) (e_target_execution_plan_id e).

Definition insert_operation (op id : string) (e : exec_operation) : tx unit := fun d =>
  if bool_decide (is_Some (operations (saved d) !! id)) ||
     any_row (fun _ x => bool_decide (e_idempotency_record_id x = e_idempotency_record_id e))
       (operations (saved d)) ||
     negb (operation_check e) ||
     (bool_decide (e_state e = OpPending) && other_pending id (e_trip_id e) d) ||
     negb (operation_fk e d)
  then Err (ErrDatabase op)
  else Ok (tt, set_operations (<[id := e]> (operations (saved d))) d).

(** [UPDATE trip_execution_operations SET f WHERE id = id AND P]; no statement
    sets a row to pending. *)
Definition update_operation (op id : string) (P : exec_operation -> bool)
    (f : exec_operation -> exec_operation) : tx unit := fun d =>
  match operations (saved d) !! id with
  | Some e =>
      if P e then
        if operation_check (f e)
        then Ok (tt, set_operations (<[id := f e]> (operations (saved d))) d)
        else Err (ErrDatabase op)
      else Ok (tt, d)
  | None => Ok (tt, d)
  end.

(** *** [trips] *)

Definition executing (t : trip) : bool := negb (bool_decide (t_execution_state t = Inactive)).

(** Another trip of the owner executes ([trips_one_executing_per_user_idx]). *)
Definition other_executing (id owner : string) (d : db) : bool :=
  any_row (fun k t => negb (bool_decide (k = id)) &&
    bool_decide (t_owner_user_id t = owner) && executing t) (trips d).

(** [UPDATE trips SET f WHERE id = id AND P], where [f] may change the execution
    state. *)
Definition update_trip_execution (op id : string) (P : trip -> bool) (f : trip -> trip)
  : tx unit := fun d =>
  match trips d !! id with
  | Some t =>
      if P t then
        if trip_check (f t) &&
           negb (executing (f t) && other_executing id (t_owner_user_id (f t)) d)
        then Ok (tt, set_trips (<[id := f t]> (trips d)) d)
        else Err (ErrDatabase op)
      else Ok (tt, d)
  | None => Ok (tt, d)
  end.

(** [trips_active_execution_plan_fk] and [trips_transition_operation_fk]. *)
Definition execution_fk (tripID : string) (d : db) : bool :=
  match trips d !! tripID with
  | Some t =>
      null_or (fun p => plan_of_trip tripID p d) (t_active_execution_plan_id t) &&
      null_or (fun o =>
        match operations (saved d) !! o with
        | Some e => bool_decide (e_trip_id e = tripID)
        | None => false
        end) (t_transition_operation_id t)
  | None => true
  end.

Definition commit_execution (op tripID : string) : tx unit := fun d =>
  if execution_fk tripID d && current_plan_fk tripID d then Ok (tt, d)
  else Err (ErrDatabase op).

(** [DELETE FROM trip_activities WHERE trip_id = tripID]; the windows and the
    travel delays of the activities go with them. *)
Definition delete_trip_activities (tripID : string) : tx unit :=
  modify (fun d =>
    set_travel_delays (delete_rows (fun k _ => bool_decide (k.1.1 = tripID)) (travel_delays d))
    (set_windows (delete_rows (fun _ w => bool_decide (w_trip_id w = tripID)) (windows d))
    (set_activities (delete_rows (fun _ a => bool_decide (a_trip_id a = tripID)) (activities d))
       d))).

(** [DELETE FROM trip_travel_delays WHERE trip_id = tripID]. *)
Definition delete_travel_delays (tripID : string) : tx unit :=
  modify (fun d =>
    set_travel_delays (delete_rows (fun k _ => bool_decide (k.1.1 = tripID)) (travel_delays d)) d).

(** The rows a deleted trip takes with it: every table has its [trip_id] with
    [ON DELETE CASCADE], the saved activities and windows through their plan;
    the records of its HTTP mutations stay, with a null [trip_id]. *)
Definition cascade_execution (tripID : string) (d : db) : db :=
  set_activities (delete_rows (fun _ a => bool_decide (a_trip_id a = tripID)) (activities d))
  (set_windows (delete_rows (fun _ w => bool_decide (w_trip_id w = tripID)) (windows d))
  (set_travel_delays (delete_rows (fun k _ => bool_decide (k.1.1 = tripID)) (travel_delays d))
  (set_plans (delete_rows (fun _ p => bool_decide (pl_trip_id p = tripID)) (plans d))
  (set_proposals (delete_rows (fun _ p => bool_decide (p_trip_id p = tripID)) (proposals d))
  (set_intents (delete_rows (fun _ i => bool_decide (i_trip_id i = tripID)) (intents d))
  (set_outbox (delete_rows (fun _ o => bool_decide (o_trip_id o = tripID)) (outbox d))
  (set_snapshots (delete_rows (fun _ s => bool_decide (s_trip_id s = tripID)) (snapshots d))
  (set_leases (delete tripID (leases d)) d)))))))).

Definition plan_deleted (tripID planID : string) (d : db) : bool :=
  match saved_plans (saved d) !! planID with
  | Some p => bool_decide (sp_trip_id p = tripID)
  | None => false
  end.

Definition cascade_saved (tripID : string) (d : db) : db :=
  set_saved (SavedTables
    (update_rows (fun _ h => bool_decide (h_trip_id h = Some tripID)) (set_h_trip_id None)
       (http_records (saved d)))
    (delete_rows (fun _ p => bool_decide (sp_trip_id p = tripID)) (saved_plans (saved d)))
    (delete_rows (fun k _ => plan_deleted tripID k.1 d) (saved_activities (saved d)))
    (delete_rows (fun k _ => plan_deleted tripID k.1.1 d) (saved_windows (saved d)))
    (delete_rows (fun _ e => bool_decide (e_trip_id e = tripID)) (operations (saved d)))
    (places (saved d))) d.

(** [DELETE FROM trips WHERE id = id AND owner_user_id = owner]. *)
Definition delete_trip (id owner : string) : tx unit :=
  modify (fun d =>
    match trips d !! id with
    | Some t =>
        if bool_decide (t_owner_user_id t = owner)
        then set_trips (delete id (trips d)) (cascade_saved id (cascade_execution id d))
        else d
    | None => d
    end).

End SavedStatements.

(** ** Reading saved trips

    Models [persistence/saved_trips.go]: the views the HTTP API answers with,
    [List], [Get] and [loadExecutionOperation], and the two queries of
    [saved_trip_execution.go] that list interrupted transitions. *)

(** ** Views *)

Record TripSummary := MkTripSummary {
  ts_TripID : string;
  ts_TripName : string;
  ts_TripRevision : Z;
  ts_ExecutionState : string
}.

Record TripList := MkTripList {
  tl_InactiveTrips : list TripSummary;
  tl_CurrentExecutionTrip : option TripSummary
}.

Record PlaceView := MkPlaceView {
  pv_PlaceID : string;
  pv_Latitude : spec_float;
  pv_Longitude : spec_float;
  pv_FormattedAddress : string;
  pv_DisplayName : string;
  pv_TimeZoneName : string;
  pv_CreatedAtUnixMS : Z
}.

(** The map with the keys [state] and, if scheduled, [start_offset_ms] and
    [end_offset_ms]. *)
Record ScheduleView := MkScheduleView {
  sv_State : string;
  sv_Offsets : option (Z * Z)
}.

Record ActivityTimingView := MkTimingView {
  tv_OpenWindows : list (Z * Z);
  tv_ReservationStartOffset : option Z;
  tv_ReservationGraceSeconds : Z;
  tv_MandatoryDeadlineOffset : option Z;
  tv_MinDurationSeconds : Z;
  tv_PreferredDurationSeconds : Z;
  tv_MaxDurationSeconds : Z;
  tv_Mandatory : bool;
  tv_CanShorten : bool;
  tv_CanMove : bool;
  tv_CanSkip : bool
}.

Record SavedActivityView := MkSavedActivityView {
  av_ActivityID : string;
  av_Place : PlaceView;
  av_Ordinal : Z;
  av_Schedule : ScheduleView;
  av_InboundTravelMode : string;
  av_ActivityClass : string;
  av_PriorityRank : Z;
  av_UtilityScore : Z;
  av_Timing : ActivityTimingView
}.

Record SavedPlanView := MkSavedPlanView {
  spv_SavedPlanID : string;
  spv_SavedPlanRevision : string;
  spv_Activities : list SavedActivityView;
  spv_CreatedAtUnixMS : Z
}.

Record DisplayScheduleView := MkDisplayScheduleView {
  dsv_LocalDate : string;
  dsv_LocalTime : string;
  dsv_TimeZoneName : string
}.

Record ExecutionOperationView := MkOperationView {
  ov_OperationID : string;
  ov_Kind : string;
  ov_State : string;
  ov_LastStep : string;
  ov_TargetExecutionPlanID : string;
  ov_SafeErrorCode : string;
  ov_CreatedAtUnixMS : Z;
  ov_UpdatedAtUnixMS : Z;
  ov_CompletedAtUnixMS : option Z
}.

Record ActiveExecutionView := MkActiveExecutionView {
  aev_ExecutionPlanID : string;
  aev_ActivatedAtUnixMS : Z
}.

Record TripView := MkTripView {
  tr_TripID : string;
  tr_TripName : string;
  tr_DefaultTimeZoneName : string;
  tr_TripRevision : string;
  tr_ExecutionState : string;
  tr_DisplaySchedule : option DisplayScheduleView;
  tr_SavedPlan : SavedPlanView;
  tr_TransitionOperation : option ExecutionOperationView;
  tr_ActiveExecution : option ActiveExecutionView;
  tr_CreatedAtUnixMS : Z;
  tr_UpdatedAtUnixMS : Z
}.

(** [ExecutionTransitionView] ([saved_trip_execution.go]). *)
Record ExecutionTransitionView := MkTransitionView {
  etv_Trip : TripView;
  etv_Operation : ExecutionOperationView
}.

(** ** Columns as text *)

Definition execution_text (s : execution_state) : string :=
  match s with
  | Inactive => "inactive" | Activating => "activating"
  | Active => "active" | Deactivating => "deactivating"
  end.
Definition kind_text (k : operation_kind) : string :=
  match k with OpActivate => "activate" | OpDeactivate => "deactivate" end.
Definition operation_text (s : operation_state) : string :=
  match s with OpPending => "pending" | OpSucceeded => "succeeded" | OpFailed => "failed" end.

(** [(EXTRACT(EPOCH FROM t) * 1000)::bigint]: rounded, halves away from zero. *)
Definition epoch_ms (us : Z) : Z :=
  if 0 <=? us then (us + 500) / 1000 else - ((- us + 500) / 1000).

Definition text_or_empty (o : option string) : string :=
  match o with Some s => s | None => "" end.

(** ** What the stores use of the server and of [encoding/json]

    [date] and [time] values are read as text only, by [::text] and by
    [to_char(..., 'HH24:MI:SS')]: a row keeps that text, which [date_in] and
    [time_in] answer for an input.  [format], and the JSON of a response stored in
    a [jsonb] column and read back.  A Rocq [string] in a row stands for text the
    server stored, which is UTF-8. *)
Class SavedServer {PG : Postgres} := {
  date_in : string -> option string;
  time_in : string -> option string;
  pg_format : string -> list spec_float -> option string;
  trip_json : TripView -> option jsonb;
  json_trip : jsonb -> option TripView;
  transition_json : ExecutionTransitionView -> option jsonb;
  json_transition : jsonb -> option ExecutionTransitionView
}.

(** [json.Marshal] refuses a number that is not finite. *)
Definition finite_float (f : spec_float) : bool :=
  match f with S754_zero _ | S754_finite _ _ _ => true | _ => false end.

Definition finite_view (v : TripView) : bool :=
  forallb (fun a => finite_float (pv_Latitude (av_Place a)) &&
                    finite_float (pv_Longitude (av_Place a)))
    (spv_Activities (tr_SavedPlan v)).

(** The documented behaviour: the printed form of a date or a time is read as
    itself, [format] knows the specifiers [%s], [%I], [%L] and [%%] only and
    raises an error for others, a stored response decodes to what was encoded,
    and a response whose numbers are finite can be encoded. *)
Class SavedServerLaws `(SS : SavedServer) : Prop := {
  date_in_printed : forall s t, date_in s = Some t -> date_in t = Some t;
  time_in_printed : forall s t, time_in s = Some t -> time_in t = Some t;
  format_precision : forall args, pg_format "%.6f, %.6f" args = None;
  trip_json_read : forall v j, trip_json v = Some j -> json_trip j = Some v;
  transition_json_read : forall v j, transition_json v = Some j -> json_transition j = Some v;
  transition_json_finite : forall v, finite_view (etv_Trip v) = true -> is_Some (transition_json v)
}.

Section Reads.
Context {PG : Postgres}.

(** ** [List] *)

(** [ORDER BY updated_at DESC, id]. *)
Definition recent_first (x y : string * trip) : Prop :=
  t_updated_at y.2 < t_updated_at x.2 \/
  (t_updated_at x.2 = t_updated_at y.2 /\ String.le x.1 y.1).
#[global] Instance recent_first_dec : RelDecision recent_first.
Proof. intros x y. unfold recent_first. apply _. Defined.

Definition summary (kv : string * trip) : result TripSummary :=
  let '(id, t) := kv in
  _ ← reject_if (t_trip_revision t <? 0) (ErrInvalid "trip revision is invalid");
  Ok (MkTripSummary id (t_trip_name t) (uint64 (t_trip_revision t))
        (execution_text (t_execution_state t))).

Fixpoint summaries (rows : list (string * trip)) : result (list TripSummary) :=
  match rows with
  | [] => Ok []
  | kv :: rest => s ← summary kv; l ← summaries rest; Ok (s :: l)
  end.

(** The two queries are separate statements; the database is the one both see. *)
Definition List_ (userID : string) (d : db) : result TripList :=
  _ ← reject_if (negb (validCanonicalUUID userID)) (ErrInvalid "user id is invalid");
  inactive ← summaries (merge_sort recent_first
    (rows_where (fun _ t => bool_decide (t_owner_user_id t = userID) && negb (executing t))
       (trips d)));
  match head (merge_sort recent_first
    (rows_where (fun _ t => bool_decide (t_owner_user_id t = userID) && executing t)
       (trips d))) with
  | None => Ok (MkTripList inactive None)
  | Some kv => s ← summary kv; Ok (MkTripList inactive (Some s))
  end.

(** ** [loadExecutionOperation] *)

(** [ORDER BY updated_at DESC]; the order of equal times is not specified. *)
Definition latest_first (x y : string * exec_operation) : Prop :=
  e_updated_at y.2 <= e_updated_at x.2.
#[global] Instance latest_first_dec : RelDecision latest_first.
Proof. intros x y. unfold latest_first. apply _. Defined.

Definition operation_view (kv : string * exec_operation) : ExecutionOperationView :=
  let '(id, e) := kv in
  MkOperationView id (kind_text (e_kind e)) (operation_text (e_state e)) (e_last_step e)
    (text_or_empty (e_target_execution_plan_id e)) (text_or_empty (e_safe_error_code e))
    (unix_milli (e_created_at e)) (unix_milli (e_updated_at e))
    (unix_milli <$> e_completed_at e).

Definition loadExecutionOperation (userID tripID : string) (d : db)
  : result ExecutionOperationView :=
  kv ← of_option (head (merge_sort latest_first
         (rows_where (fun _ e => bool_decide (e_owner_user_id e = userID) &&
            bool_decide (e_trip_id e = tripID)) (operations (saved d)))))
       (ErrInvalid "trip transition operation is missing");
  Ok (operation_view kv).

(** ** [Get] *)

Definition place_view (id : string) (p : place) : PlaceView :=
  MkPlaceView id (pc_latitude p) (pc_longitude p) (text_or_empty (pc_formatted_address p))
    (pc_display_name p) (pc_time_zone_name p) (unix_milli (pc_created_at p)).

(** [ORDER BY window_index]. *)
Definition window_index_le (x y : (string * string * Z) * saved_window) : Prop :=
  x.1.2 <= y.1.2.
#[global] Instance window_index_le_dec : RelDecision window_index_le.
Proof. intros x y. unfold window_index_le. apply _. Defined.

Definition activity_windows (planID activityID : string) (d : db) : list (Z * Z) :=
  List.map (fun kv => (sw_opens_offset_ms kv.2, sw_closes_offset_ms kv.2))
    (merge_sort window_index_le
       (rows_where (fun k _ => bool_decide (k.1 = (planID, activityID)))
          (saved_windows (saved d)))).

(** A NULL offset of a scheduled activity would be a nil dereference. *)
Definition schedule_view (a : saved_activity) : result ScheduleView :=
  if bool_decide (sa_schedule_state a = "scheduled") then
    s ← of_option (sa_start_offset_ms a) (ErrInvalid "nil offset");
    e ← of_option (sa_end_offset_ms a) (ErrInvalid "nil offset");
    Ok (MkScheduleView (sa_schedule_state a) (Some (s, e)))
  else Ok (MkScheduleView (sa_schedule_state a) None).

Definition timing_view (windows : list (Z * Z)) (a : saved_activity) : ActivityTimingView :=
  MkTimingView windows (sa_reservation_start_offset_ms a) (sa_reservation_grace_seconds a)
    (sa_mandatory_deadline_offset_ms a) (sa_min_duration_seconds a)
    (sa_preferred_duration_seconds a) (sa_max_duration_seconds a) (sa_mandatory a)
    (sa_can_shorten a) (sa_can_move a) (sa_can_skip a).

Definition activity_view (d : db) (planID activityID : string) (a : saved_activity)
    (p : place) : result SavedActivityView :=
  schedule ← schedule_view a;
  Ok (MkSavedActivityView activityID (place_view (sa_place_id a) p) (sa_ordinal a) schedule
        (sa_inbound_travel_mode a) (sa_activity_class a) (sa_priority_rank a)
        (sa_utility_score a) (timing_view (activity_windows planID activityID d) a)).

(** The rows of the join with [places], in the order of the ordinals. *)
Fixpoint activity_views (d : db) (rows : list ((string * string) * saved_activity))
  : result (list SavedActivityView) :=
  match rows with
  | [] => Ok []
  | ((planID, activityID), a) :: rest =>
      match places (saved d) !! sa_place_id a with
      | None => activity_views d rest
      | Some p =>
          v ← activity_view d planID activityID a p;
          l ← activity_views d rest;
          Ok (v :: l)
      end
  end.

Definition display_view (p : option saved_plan) : option DisplayScheduleView :=
  row ← p;
  date ← sp_display_local_date row;
  time ← sp_display_local_time row;
  zone ← sp_display_time_zone_name row;
  Some (MkDisplayScheduleView date time zone).

Definition active_view (t : trip) : option ActiveExecutionView :=
  plan ← t_active_execution_plan_id t;
  at_ ← t_activated_at t;
  Some (MkActiveExecutionView plan (epoch_ms at_)).

Definition owned_trip (userID tripID : string) (d : db) : option trip :=
  t ← trips d !! tripID;
  if bool_decide (t_owner_user_id t = userID) then Some t else None.

(** The saved plan the trip selects, found by its identifier, trip and owner. *)
Definition selected_plan (userID tripID planID : string) (d : db) : option saved_plan :=
  p ← saved_plans (saved d) !! planID;
  if bool_decide (sp_trip_id p = tripID) && bool_decide (sp_owner_user_id p = userID)
  then Some p else None.

Definition in_transition (t : trip) : bool :=
  bool_decide (t_execution_state t = Activating) ||
  bool_decide (t_execution_state t = Deactivating).

Definition get (userID tripID : string) (d : db) : result TripView :=
  t ← of_option (owned_trip userID tripID d) ErrTripNotFound;
  planID ← of_option (t_saved_plan_id t) (ErrInvalid "saved trip metadata is invalid");
  _ ← reject_if ((t_trip_revision t <? 0) || bool_decide (planID = ""))
        (ErrInvalid "saved trip metadata is invalid");
  plan ← of_option (selected_plan userID tripID planID d) (ErrDatabase "load saved plan");
  views ← activity_views d (plan_activities planID d);
  _ ← reject_if (bool_decide (views = [] :> list SavedActivityView))
        (ErrInvalid "saved trip plan has no activities");
  operation ← (if in_transition t
               then o ← loadExecutionOperation userID tripID d; Ok (Some o)
               else Ok None);
  Ok (MkTripView tripID (t_trip_name t) (t_default_time_zone_name t)
        (FormatInt (t_trip_revision t)) (execution_text (t_execution_state t))
        (display_view (saved_plans (saved d) !! planID))
        (MkSavedPlanView planID (FormatInt (sp_saved_plan_revision plan)) views
           (unix_milli (sp_created_at plan)))
        operation (active_view t) (unix_milli (t_created_at t)) (unix_milli (t_updated_at t))).

Definition Get (userID tripID : string) (d : db) : result TripView :=
  _ ← reject_if (negb (validCanonicalUUID userID) || negb (validCanonicalUUID tripID))
        (ErrInvalid "trip or user id is invalid");
  get userID tripID d.

(** ** Interrupted transitions *)

Record PendingActivation := MkPendingActivation {
  pa_TripID : string;
  pa_OperationID : string
}.

(** [ORDER BY updated_at, id LIMIT 64]. *)
Definition oldest_first (x y : string * trip) : Prop :=
  t_updated_at x.2 < t_updated_at y.2 \/
  (t_updated_at x.2 = t_updated_at y.2 /\ String.le x.1 y.1).
#[global] Instance oldest_first_dec : RelDecision oldest_first.
Proof. intros x y. unfold oldest_first. apply _. Defined.

Definition pending_transitions (state : execution_state) (d : db) : list PendingActivation :=
  omap (fun kv => o ← t_transition_operation_id kv.2; Some (MkPendingActivation kv.1 o))
    (take 64 (merge_sort oldest_first
      (rows_where (fun _ t => bool_decide (t_execution_state t = state) &&
         negb (is_null (t_transition_operation_id t))) (trips d)))).

Definition PendingActivations (d : db) : list PendingActivation :=
  pending_transitions Activating d.
Definition PendingDeactivations (d : db) : list PendingActivation :=
  pending_transitions Deactivating d.

End Reads.
