(* ===== verification/SavedMutations.v ===== *)
(** * Saved-trip mutations

    Models [persistence/saved_trip_creation.go], [saved_trip_mutations.go] and
    [saved_trip_activity_mutations.go]: creating, renaming and deleting a saved
    trip, and adding, replacing and deleting its activities.  A mutation writes a
    new saved plan; the rows of a saved plan are never updated.  Each mutation
    reserves its idempotency record first and answers a repeated request with
    the stored response.

    [clk] is the sequence of [clock_timestamp()] readings of an operation, [rng]
    the sequence of 16-byte reads of its [newAuthUUID] calls. *)

From S2P Require Import Prelude GoLib GoText Schema Tables SavedTables.

(** ** Requests *)

Record SavedScheduleInput := MkScheduleInput {
  si_State : string;
  si_StartOffsetMS : option Z;
  si_EndOffsetMS : option Z
}.

Record RelativeWindowInput := MkWindowInput {
  wi_OpensOffsetMS : Z;
  wi_ClosesOffsetMS : Z
}.

(** [OpenWindows] is [None] when the slice is nil. *)
Record SavedActivityTimingInput := MkTimingInput {
  ti_OpenWindows : option (list RelativeWindowInput);
  ti_ReservationStartOffsetMS : option Z;
  ti_ReservationGraceSeconds : Z;
  ti_MandatoryDeadlineOffset : option Z;
  ti_MinDurationSeconds : Z;
  ti_PreferredDurationSeconds : Z;
  ti_MaxDurationSeconds : Z;
  ti_Mandatory : bool;
  ti_CanShorten : bool;
  ti_CanMove : bool;
  ti_CanSkip : bool
}.

Record SavedActivityInput := MkActivityInput {
  ai_PlaceID : string;
  ai_Ordinal : Z;
  ai_Schedule : SavedScheduleInput;
  ai_InboundTravelMode : string;
  ai_ActivityClass : string;
  ai_PriorityRank : Z;
  ai_UtilityScore : Z;
  ai_Timing : SavedActivityTimingInput
}.

Record DisplayScheduleInput := MkDisplayInput {
  di_LocalDate : string;
  di_LocalTime : string;
  di_TimeZoneName : string
}.

Record CreateSavedTripRequest := MkCreateSaved {
  cs_UserID : string;
  cs_IdempotencyKey : string;
  cs_RequestDigest : bytes;
  cs_TripName : string;
  cs_DefaultTimeZoneName : string;
  cs_DisplaySchedule : option DisplayScheduleInput;
  cs_Activities : list SavedActivityInput
}.

Record UpdateSavedTripRequest := MkUpdateSaved {
  us_TripName : option string;
  us_DefaultTimeZoneName : option string;
  us_DisplaySchedule : option DisplayScheduleInput;
  us_RemoveDisplaySchedule : option bool;
  us_UserID : string;
  us_TripID : string;
  us_IdempotencyKey : string;
  us_ExpectedRevision : Z;
  us_RequestDigest : bytes
}.

Record DeleteSavedTripRequest := MkDeleteSaved {
  ds_UserID : string;
  ds_TripID : string;
  ds_IdempotencyKey : string;
  ds_ExpectedRevision : Z;
  ds_RequestDigest : bytes
}.

Record SavedActivityMutationRequest := MkActivityMutation {
  am_UserID : string;
  am_TripID : string;
  am_ActivityID : string;
  am_IdempotencyKey : string;
  am_ExpectedRevision : Z;
  am_RequestDigest : bytes;
  am_Activity : option SavedActivityInput
}.

(** [CreatedSavedTrip] and [MutatedSavedTrip]. *)
Record MutatedSavedTrip := MkMutatedSavedTrip {
  ms_Trip : TripView;
  ms_Duplicate : bool
}.

(** ** Validators *)

Definition validDurationRange (minimum preferred maximum : Z) : bool :=
  (0 <=? minimum) && (minimum <=? preferred) && (preferred <=? maximum) && (maximum <=? 86400).

Definition validOptionalDayOffset (value : option Z) : bool :=
  match value with None => true | Some v => (0 <=? v) && (v <=? 86400000) end.

Definition validSavedSchedule (s : SavedScheduleInput) : bool :=
  if bool_decide (si_State s = "unscheduled") then
    is_null (si_StartOffsetMS s) && is_null (si_EndOffsetMS s)
  else if bool_decide (si_State s = "scheduled") then
    match si_StartOffsetMS s, si_EndOffsetMS s with
    | Some a, Some b => (0 <=? a) && (a <? b) && (b <=? 86400000)
    | _, _ => false
    end
  else false.

Definition valid_window (w : RelativeWindowInput) : bool :=
  negb ((wi_OpensOffsetMS w <? 0) || (wi_ClosesOffsetMS w <=? wi_OpensOffsetMS w) ||
        (86400000 <? wi_ClosesOffsetMS w)).

(** The tests on an activity that [validateCreateSavedTrip] and
    [validSavedActivityInput] share: all but the one on the ordinal. *)
Definition valid_activity_body (a : SavedActivityInput) : bool :=
  let t := ai_Timing a in
  validCanonicalUUID (ai_PlaceID a) &&
  (bool_decide (ai_InboundTravelMode a = "walking") ||
   bool_decide (ai_InboundTravelMode a = "driving")) &&
  (bool_decide (ai_ActivityClass a = "fixed") ||
   bool_decide (ai_ActivityClass a = "flexible")) &&
  within (-2147483648) 2147483647 (ai_PriorityRank a) &&
  within (-2147483648) 2147483647 (ai_UtilityScore a) &&
  negb (ti_CanShorten t) &&
  match ti_OpenWindows t with
  | None => false
  | Some l => (zlen l <=? 32) && forallb valid_window l
  end &&
  within 0 4294967295 (ti_ReservationGraceSeconds t) &&
  validDurationRange (ti_MinDurationSeconds t) (ti_PreferredDurationSeconds t)
    (ti_MaxDurationSeconds t) &&
  validOptionalDayOffset (ti_ReservationStartOffsetMS t) &&
  validOptionalDayOffset (ti_MandatoryDeadlineOffset t) && validSavedSchedule (ai_Schedule a).

Definition validSavedActivityInput (a : SavedActivityInput) (maximumOrdinal : Z) : bool :=
  within 0 maximumOrdinal (ai_Ordinal a) && valid_activity_body a.

(** The loop of [validateCreateSavedTrip]: the ordinal is the index. *)
Fixpoint valid_activities (index : Z) (l : list SavedActivityInput) : bool :=
  match l with
  | [] => true
  | a :: rest =>
      (ai_Ordinal a =? index) && valid_activity_body a && valid_activities (index + 1) rest
  end.

Definition valid_trip_name (name : string) : bool :=
  bool_decide (name = TrimSpace name) && negb (len_bytes name =? 0) && (len_bytes name <=? 120).

Section Validators.
Context `{TimeZones}.

Definition valid_display (s : DisplayScheduleInput) : bool :=
  valid_local_date (di_LocalDate s) && valid_local_time (di_LocalTime s) &&
  validTimeZoneName (di_TimeZoneName s).

Definition validateCreateSavedTrip (r : CreateSavedTripRequest) : result unit :=
  reject_if
    (negb (validCanonicalUUID (cs_UserID r)) || negb (validCanonicalUUID (cs_IdempotencyKey r)) ||
     negb (valid_trip_name (cs_TripName r)) ||
     negb (validTimeZoneName (cs_DefaultTimeZoneName r)) ||
     (zlen (cs_Activities r) =? 0) || (64 <? zlen (cs_Activities r)) ||
     match cs_DisplaySchedule r with None => false | Some s => negb (valid_display s) end ||
     negb (valid_activities 0 (cs_Activities r))) ErrSavedTripInput.

Definition validateUpdateSavedTrip (r : UpdateSavedTripRequest) : result unit :=
  reject_if
    (negb (validCanonicalUUID (us_UserID r)) || negb (validCanonicalUUID (us_TripID r)) ||
     negb (validCanonicalUUID (us_IdempotencyKey r)) ||
     (is_null (us_TripName r) && is_null (us_DefaultTimeZoneName r) &&
      is_null (us_DisplaySchedule r) && is_null (us_RemoveDisplaySchedule r)) ||
     (negb (is_null (us_DisplaySchedule r)) && negb (is_null (us_RemoveDisplaySchedule r))) ||
     match us_TripName r with None => false | Some n => negb (valid_trip_name n) end ||
     match us_DefaultTimeZoneName r with
     | None => false | Some z => negb (validTimeZoneName z)
     end ||
     match us_RemoveDisplaySchedule r with None => false | Some b => negb b end ||
     match us_DisplaySchedule r with None => false | Some s => negb (valid_display s) end)
    ErrSavedTripInput.

End Validators.

(** ** Idempotency records *)

Section Mutations.
Context {PG : Postgres} {SS : SavedServer} {TZ : TimeZones}.

(** [httpIdempotencyRetention], 30 days, in the database's microseconds. *)
Definition httpIdempotencyRetention : Z := 30 * 24 * 3600 * 1000000.

Definition new_http_record (clk : nat -> Z) (userID key method path operation : string)
    (digest : bytes) : http_record :=
  HttpRecord userID None key method path operation "rfc8785-sha256-v1" None digest InProgress
    None None None None None (clk 0%nat) None (clk 1%nat + httpIdempotencyRetention).

Record tripMutationReplay := MkReplay {
  rp_Status : Z;
  rp_Body : option jsonb;
  rp_ETag : string
}.

(** The stored record of a request. *)
Definition stored_record (userID method path key : string) (d : db)
  : option (string * http_record) :=
  head (rows_where (fun _ => same_request userID method path key) (http_records (saved d))).

Definition replay_record (h : http_record) (digest : bytes) : result tripMutationReplay :=
  _ ← reject_if (negb (constant_time_eq (h_request_digest h) digest)) ErrHTTPIdempotencyReused;
  status ← of_option (if bool_decide (h_state h = Completed) then h_response_status h else None)
             ErrHTTPMutationPending;
  Ok (MkReplay status (h_response_body h) (text_or_empty (h_response_etag h))).

(** The identifier of a reserved record, or the answer to repeat. *)
Definition reserveTripMutation (clk : nat -> Z) (rng : nat -> bytes)
    (userID key method path operation : string) (digest : bytes)
  : tx (string + tripMutationReplay) :=
  let recordID := newAuthUUID (rng 0%nat) in
  inserted ← insert_http_record "reserve saved-trip mutation" recordID
    (new_http_record clk userID key method path operation digest);
  if inserted : bool then mret (inl recordID)
  else
    kv ← find_row (stored_record userID method path key)
           (ErrDatabase "load saved-trip mutation replay");
    replay ← lift (replay_record kv.2 digest);
    mret (inr replay).

(** [UPDATE ... SET state = 'completed' ... WHERE id = $1 AND state = 'in_progress']. *)
Definition in_progress (h : http_record) : bool := bool_decide (h_state h = InProgress).

Definition completed_record (tripID : string) (status : Z) (contentType : option string)
    (body : option jsonb) (etag : option string) (now : Z) (h : http_record) : http_record :=
  set_h_completed_at (Some now) (set_h_resource_id (Some tripID) (set_h_response_etag etag
    (set_h_response_body body (set_h_response_content_type contentType
      (set_h_response_status (Some status) (set_h_state Completed
        (set_h_trip_id (Some tripID) h))))))).

Definition complete_record (op recordID tripID : string) (status : Z)
    (contentType : option string) (body : option jsonb) (etag : option string) (now : Z)
  : tx unit :=
  _ ← update_http_record op recordID in_progress
        (completed_record tripID status contentType body etag now);
  mret tt.

(** The view of the trip after a mutation, stored as the response. *)
Definition respond (opEncode opComplete recordID userID tripID : string) (status now : Z)
  : tx TripView :=
  trip ← query (get userID tripID);
  body ← lift (of_option (trip_json trip) (ErrDatabase opEncode));
  _ ← complete_record opComplete recordID tripID status (Some "application/json") (Some body)
        (Some (revision_etag (tr_TripRevision trip))) now;
  mret trip.

(** A repeated request whose stored answer has the expected status. *)
Definition replayed_trip (invalid : string) (status : Z) (r : tripMutationReplay)
  : result MutatedSavedTrip :=
  _ ← reject_if (negb (rp_Status r =? status)) (ErrInvalid invalid);
  body ← of_option (rp_Body r) (ErrInvalid invalid);
  trip ← of_option (json_trip body) (ErrInvalid invalid);
  Ok (MkMutatedSavedTrip trip true).

(** ** Rows of a saved plan *)

(** A value for a nullable column, converted by the server. *)
Definition convert {A B} (op : string) (f : A -> option B) (value : option A)
  : result (option B) :=
  match value with
  | None => Ok None
  | Some a => b ← of_option (f a) (ErrDatabase op); Ok (Some b)
  end.

Definition new_saved_plan (op tripID userID : string) (revision : Z)
    (date time zone : option string) (now : Z) : result saved_plan :=
  date ← convert op date_in date;
  time ← convert op time_in time;
  zone ← convert op text_in zone;
  Ok (SavedPlan tripID userID revision userID date time zone now).

Definition saved_row (tripID userID placeID : string) (a : SavedActivityInput)
  : saved_activity :=
  let t := ai_Timing a in
  SavedActivity tripID userID placeID (ai_Ordinal a) (si_State (ai_Schedule a))
    (si_StartOffsetMS (ai_Schedule a)) (si_EndOffsetMS (ai_Schedule a))
    (ai_InboundTravelMode a) (ai_ActivityClass a) (ai_PriorityRank a) (ai_UtilityScore a)
    (ti_ReservationStartOffsetMS t) (ti_ReservationGraceSeconds t)
    (ti_MandatoryDeadlineOffset t) (ti_MinDurationSeconds t) (ti_PreferredDurationSeconds t)
    (ti_MaxDurationSeconds t) (ti_Mandatory t) (ti_CanShorten t) (ti_CanMove t) (ti_CanSkip t).

Fixpoint insert_input_windows (op planID activityID : string) (index : Z)
    (l : list RelativeWindowInput) : tx unit :=
  match l with
  | [] => mret tt
  | w :: rest =>
      _ ← insert_saved_window op planID activityID index
            (SavedWindow (wi_OpensOffsetMS w) (wi_ClosesOffsetMS w));
      insert_input_windows op planID activityID (index + 1) rest
  end.

(** [for index, window := range activity.Timing.OpenWindows]: nil is empty. *)
Definition input_windows (a : SavedActivityInput) : list RelativeWindowInput :=
  match ti_OpenWindows (ai_Timing a) with Some l => l | None => [] end.

Definition owned_place (placeID userID : string) (d : db) : option place :=
  p ← places (saved d) !! placeID;
  if bool_decide (pc_owner_user_id p = userID) then Some p else None.

(** [insertSavedActivity], and the body of the loop of [Create]. *)
Definition insertSavedActivity (opRow opWindow planID tripID userID activityID : string)
    (a : SavedActivityInput) : tx unit :=
  _ ← find_row (owned_place (ai_PlaceID a) userID) ErrSavedTripInput;
  _ ← insert_saved_activity opRow planID activityID (saved_row tripID userID (ai_PlaceID a) a);
  insert_input_windows opWindow planID activityID 0 (input_windows a).

(** ** [Create] *)

Definition replayCreatedTrip (r : CreateSavedTripRequest) : tx MutatedSavedTrip :=
  kv ← find_row (stored_record (cs_UserID r) "POST" "/api/v1/trips" (cs_IdempotencyKey r))
         (ErrDatabase "load trip idempotency replay");
  let h := kv.2 in
  _ ← guard (negb (constant_time_eq (h_request_digest h) (cs_RequestDigest r)))
        ErrHTTPIdempotencyReused;
  _ ← guard (negb (bool_decide (h_state h = Completed)) ||
             negb (bool_decide (h_response_status h = Some 201))) ErrHTTPMutationPending;
  body ← lift (of_option (h_response_body h) ErrHTTPMutationPending);
  trip ← lift (of_option (json_trip body) (ErrInvalid "decode trip idempotency replay"));
  mret (MkMutatedSavedTrip trip true).

(** The loop over the activities; [n] counts the identifiers drawn before. *)
Fixpoint create_activities (rng : nat -> bytes) (n : nat) (planID tripID userID : string)
    (l : list SavedActivityInput) : tx unit :=
  match l with
  | [] => mret tt
  | a :: rest =>
      _ ← insertSavedActivity "insert saved activity" "insert saved activity window"
            planID tripID userID (newAuthUUID (rng n)) a;
      create_activities rng (S n) planID tripID userID rest
  end.

Definition new_saved_trip (userID zone name planID : string) (created updated : Z) : trip :=
  Trip userID zone 1 1 0 None (Some planID) Inactive None None None updated name created.

Definition create_saved (clk : nat -> Z) (rng : nat -> bytes) (r : CreateSavedTripRequest)
  : tx MutatedSavedTrip :=
  let recordID := newAuthUUID (rng 0%nat) in
  let tripID := newAuthUUID (rng 1%nat) in
  let planID := newAuthUUID (rng 2%nat) in
  let userID := cs_UserID r in
  zone ← lift (of_option (text_in (cs_DefaultTimeZoneName r)) (ErrDatabase "insert inactive trip"));
  name ← lift (of_option (text_in (cs_TripName r)) (ErrDatabase "insert inactive trip"));
  _ ← insert_trip "insert inactive trip" tripID
        (new_saved_trip userID zone name planID (clk 2%nat) (clk 3%nat));
  let display := cs_DisplaySchedule r in
  plan ← lift (new_saved_plan "insert initial saved plan" tripID userID 1
           (di_LocalDate <$> display) (di_LocalTime <$> display) (di_TimeZoneName <$> display)
           (clk 4%nat));
  _ ← insert_saved_plan "insert initial saved plan" planID plan;
  _ ← create_activities rng 3 planID tripID userID (cs_Activities r);
  trip ← query (get userID tripID);
  body ← lift (of_option (trip_json trip) (ErrDatabase "complete trip idempotency"));
  _ ← complete_record "complete trip idempotency" recordID tripID 201
        (Some "application/json") (Some body) (Some (revision_etag "1")) (clk 5%nat);
  _ ← commit_saved_plan "commit saved-trip creation" tripID planID;
  mret (MkMutatedSavedTrip trip false).

Definition Create (clk : nat -> Z) (rng : nat -> bytes) (r : CreateSavedTripRequest)
  : tx MutatedSavedTrip :=
  _ ← lift (validateCreateSavedTrip r);
  inserted ← insert_http_record "record trip idempotency" (newAuthUUID (rng 0%nat))
    (new_http_record clk (cs_UserID r) (cs_IdempotencyKey r) "POST" "/api/v1/trips"
       "create_trip" (cs_RequestDigest r));
  if inserted : bool then create_saved clk rng r else replayCreatedTrip r.

(** ** Locking a saved trip *)

Record lockedSavedTrip := MkLockedSavedTrip {
  lk_Revision : Z;
  lk_PlanID : string;
  lk_TripName : string;
  lk_TimeZoneName : string;
  lk_DisplayDate : option string;
  lk_DisplayTime : option string;
  lk_DisplayZone : option string
}.

(** The join of the trip with its saved plan. *)
Definition joined_plan (userID tripID : string) (d : db) : option (trip * string * saved_plan) :=
  t ← owned_trip userID tripID d;
  planID ← t_saved_plan_id t;
  p ← saved_plans (saved d) !! planID;
  Some (t, planID, p).

Definition lockInactiveSavedTrip (userID tripID : string) (expected : Z)
  : tx lockedSavedTrip :=
  '(t, planID, p) ← find_row (joined_plan userID tripID) ErrTripNotFound;
  _ ← guard (executing t) ErrSavedTripNotInactive;
  _ ← guard ((max_int64 <? expected) || negb (t_trip_revision t =? int64 expected))
        ErrTripRevisionStale;
  mret (MkLockedSavedTrip (t_trip_revision t) planID (t_trip_name t) (t_default_time_zone_name t)
          (sp_display_local_date p) (sp_display_local_time p) (sp_display_time_zone_name p)).

(** Copies of the windows of the plan [old] for the plan [new], where [keep]. *)
Definition copy_windows (op old new : string) (keep : string -> bool) : tx unit := fun d =>
  for_each (fun kv => insert_saved_window op new kv.1.1.2 kv.1.2 kv.2)
    (rows_where (fun k _ => bool_decide (k.1.1 = old) && keep k.1.2) (saved_windows (saved d))) d.

(** ** [Update] *)

Definition updated_display (r : UpdateSavedTripRequest) (current : lockedSavedTrip)
  : option string * option string * option string :=
  if negb (is_null (us_RemoveDisplaySchedule r)) then (None, None, None)
  else match us_DisplaySchedule r with
       | Some s => (Some (di_LocalDate s), Some (di_LocalTime s), Some (di_TimeZoneName s))
       | None => (lk_DisplayDate current, lk_DisplayTime current, lk_DisplayZone current)
       end.

Definition update_saved (clk : nat -> Z) (rng : nat -> bytes) (r : UpdateSavedTripRequest)
    (recordID : string) : tx MutatedSavedTrip :=
  let tripID := us_TripID r in
  let userID := us_UserID r in
  current ← lockInactiveSavedTrip userID tripID (us_ExpectedRevision r);
  let planID := newAuthUUID (rng 1%nat) in
  let '(date, time, zone) := updated_display r current in
  plan ← lift (new_saved_plan "insert updated saved plan" tripID userID
           (int64 (lk_Revision current + 1)) date time zone (clk 2%nat));
  _ ← insert_saved_plan "insert updated saved plan" planID plan;
  rows ← gets (plan_activities (lk_PlanID current));
  _ ← for_each (fun kv => insert_saved_activity "copy updated saved activities" planID
                            kv.1.2 kv.2) rows;
  _ ← copy_windows "copy updated saved windows" (lk_PlanID current) planID (fun _ => true);
  name ← lift (of_option (text_in (default (lk_TripName current) (us_TripName r)))
                 (ErrDatabase "select updated saved plan"));
  tripZone ← lift (of_option (text_in (default (lk_TimeZoneName current) (us_DefaultTimeZoneName r)))
                 (ErrDatabase "select updated saved plan"));
  _ ← update_trip "select updated saved plan" tripID (fun t =>
        set_t_updated_at (clk 3%nat) (set_t_trip_revision (t_trip_revision t + 1)
          (set_t_saved_plan_id (Some planID) (set_t_default_time_zone_name tripZone
            (set_t_trip_name name t)))));
  trip ← respond "complete saved-trip update" "complete saved-trip update" recordID userID
           tripID 200 (clk 4%nat);
  _ ← commit_saved_plan "commit saved-trip update" tripID planID;
  mret (MkMutatedSavedTrip trip false).

Definition trip_path (tripID : string) : string := "/api/v1/trips/" +:+ tripID.

Definition Update (clk : nat -> Z) (rng : nat -> bytes) (r : UpdateSavedTripRequest)
  : tx MutatedSavedTrip :=
  _ ← lift (validateUpdateSavedTrip r);
  reserved ← reserveTripMutation clk rng (us_UserID r) (us_IdempotencyKey r) "PATCH"
    (trip_path (us_TripID r)) "update_trip" (us_RequestDigest r);
  match reserved with
  | inr replay => lift (replayed_trip "saved-trip update replay is invalid" 200 replay)
  | inl recordID => update_saved clk rng r recordID
  end.

(** ** [Delete] *)

Definition delete_saved (clk : nat -> Z) (r : DeleteSavedTripRequest) (recordID : string)
  : tx bool :=
  _ ← lockInactiveSavedTrip (ds_UserID r) (ds_TripID r) (ds_ExpectedRevision r);
  _ ← complete_record "complete saved-trip delete" recordID (ds_TripID r) 204 None None None
        (clk 2%nat);
  _ ← delete_trip (ds_TripID r) (ds_UserID r);
  mret false.

(** The result tells a repeated request. *)
Definition Delete (clk : nat -> Z) (rng : nat -> bytes) (r : DeleteSavedTripRequest)
  : tx bool :=
  _ ← guard (negb (validCanonicalUUID (ds_UserID r)) || negb (validCanonicalUUID (ds_TripID r)) ||
             negb (validCanonicalUUID (ds_IdempotencyKey r))) ErrSavedTripInput;
  reserved ← reserveTripMutation clk rng (ds_UserID r) (ds_IdempotencyKey r) "DELETE"
    (trip_path (ds_TripID r)) "delete_trip" (ds_RequestDigest r);
  match reserved with
  | inr replay =>
      _ ← guard (negb (rp_Status replay =? 204)) (ErrInvalid "saved-trip delete replay is invalid");
      mret true
  | inl recordID => delete_saved clk r recordID
  end.

(** ** Mutations of one activity *)

Inductive saved_mutation_kind := KindAdd | KindReplace | KindDelete.
#[global] Instance saved_mutation_kind_eq_dec : EqDecision saved_mutation_kind.
Proof. solve_decision. Defined.

(** The [CASE] of [copySavedActivitiesForMutation]. *)
Definition shifted_ordinal (kind : saved_mutation_kind) (old target ordinal : Z) : Z :=
  match kind with
  | KindAdd => if target <=? ordinal then ordinal + 1 else ordinal
  | KindDelete => if old <? ordinal then ordinal - 1 else ordinal
  | KindReplace =>
      if (target <? old) && (target <=? ordinal) && (ordinal <? old) then ordinal + 1
      else if (old <? target) && (old <? ordinal) && (ordinal <=? target) then ordinal - 1
      else ordinal
  end.

(** [$3='add' OR activity_id<>$6]. *)
Definition copied (kind : saved_mutation_kind) (activityID id : string) : bool :=
  bool_decide (kind = KindAdd) || negb (bool_decide (id = activityID)).

Definition copySavedActivitiesForMutation (old new : string) (kind : saved_mutation_kind)
    (activityID : string) (oldOrdinal : Z) (activity : option SavedActivityInput) : tx unit :=
  let target := match activity with Some a => ai_Ordinal a | None => 0 end in
  rows ← gets (fun d => List.filter (fun kv => copied kind activityID kv.1.2)
                          (plan_activities old d));
  _ ← for_each (fun kv => insert_saved_activity "copy activity mutation rows" new kv.1.2
        (set_sa_ordinal (shifted_ordinal kind oldOrdinal target (sa_ordinal kv.2)) kv.2)) rows;
  copy_windows "copy activity mutation windows" old new (copied kind activityID).

(** The tests on the number of activities, the target and its ordinal; the
    ordinal the target has now. *)
Definition activity_target (kind : saved_mutation_kind) (r : SavedActivityMutationRequest)
    (planID : string) : tx Z :=
  count ← gets (fun d => zlen (plan_activities planID d));
  match kind with
  | KindAdd =>
      _ ← guard ((64 <=? count) ||
                 match am_Activity r with
                 | Some a => negb (validSavedActivityInput a count)
                 | None => true
                 end) ErrSavedTripInput;
      mret 0
  | _ =>
      row ← find_row (fun d => saved_activities (saved d) !! (planID, am_ActivityID r))
              ErrSavedActivityNotFound;
      _ ← guard (bool_decide (kind = KindDelete) && (count =? 1)) ErrSavedTripInput;
      _ ← guard (bool_decide (kind = KindReplace) &&
                 match am_Activity r with
                 | Some a => negb (validSavedActivityInput a (count - 1))
                 | None => true
                 end) ErrSavedTripInput;
      mret (sa_ordinal row)
  end.

Definition mutation_status (kind : saved_mutation_kind) : Z :=
  match kind with KindAdd => 201 | _ => 200 end.
Definition mutation_method (kind : saved_mutation_kind) : string :=
  match kind with KindAdd => "POST" | KindReplace => "PATCH" | KindDelete => "DELETE" end.
Definition mutation_operation (kind : saved_mutation_kind) : string :=
  match kind with
  | KindAdd => "add_activity" | KindReplace => "replace_activity"
  | KindDelete => "delete_activity"
  end.
Definition mutation_path (kind : saved_mutation_kind) (r : SavedActivityMutationRequest) : string :=
  let path := trip_path (am_TripID r) +:+ "/activities" in
  match kind with KindAdd => path | _ => path +:+ "/" +:+ am_ActivityID r end.

(** The new plan of an activity mutation and its rows. *)
Definition write_mutated_plan (clk : nat -> Z) (rng : nat -> bytes) (kind : saved_mutation_kind)
    (r : SavedActivityMutationRequest) (current : lockedSavedTrip) (oldOrdinal : Z) : tx unit :=
  let planID := newAuthUUID (rng 1%nat) in
  plan ← lift (new_saved_plan "insert activity saved plan" (am_TripID r) (am_UserID r)
           (int64 (lk_Revision current + 1)) (lk_DisplayDate current) (lk_DisplayTime current)
           (lk_DisplayZone current) (clk 2%nat));
  _ ← insert_saved_plan "insert activity saved plan" planID plan;
  _ ← copySavedActivitiesForMutation (lk_PlanID current) planID kind (am_ActivityID r)
        oldOrdinal (am_Activity r);
  match kind, am_Activity r with
  | KindDelete, _ | _, None => mret tt
  | KindAdd, Some a =>
      insertSavedActivity "insert activity mutation row" "insert activity mutation window"
        planID (am_TripID r) (am_UserID r) (newAuthUUID (rng 2%nat)) a
  | KindReplace, Some a =>
      insertSavedActivity "insert activity mutation row" "insert activity mutation window"
        planID (am_TripID r) (am_UserID r) (am_ActivityID r) a
  end.

Definition mutate_saved (clk : nat -> Z) (rng : nat -> bytes) (kind : saved_mutation_kind)
    (r : SavedActivityMutationRequest) (recordID : string) : tx MutatedSavedTrip :=
  let planID := newAuthUUID (rng 1%nat) in
  current ← lockInactiveSavedTrip (am_UserID r) (am_TripID r) (am_ExpectedRevision r);
  oldOrdinal ← activity_target kind r (lk_PlanID current);
  _ ← write_mutated_plan clk rng kind r current oldOrdinal;
  _ ← update_trip "select activity saved plan" (am_TripID r) (fun t =>
        set_t_updated_at (clk 3%nat) (set_t_trip_revision (t_trip_revision t + 1)
          (set_t_saved_plan_id (Some planID) t)));
  trip ← respond "complete activity mutation" "complete activity mutation" recordID
           (am_UserID r) (am_TripID r) (mutation_status kind) (clk 4%nat);
  _ ← commit_saved_plan "commit activity mutation" (am_TripID r) planID;
  mret (MkMutatedSavedTrip trip false).

Definition mutateActivity (clk : nat -> Z) (rng : nat -> bytes)
    (r : SavedActivityMutationRequest) (kind : saved_mutation_kind) : tx MutatedSavedTrip :=
  _ ← guard (negb (validCanonicalUUID (am_UserID r)) || negb (validCanonicalUUID (am_TripID r)) ||
             negb (validCanonicalUUID (am_IdempotencyKey r)) ||
             (negb (bool_decide (kind = KindAdd)) && negb (validCanonicalUUID (am_ActivityID r))) ||
             (negb (bool_decide (kind = KindDelete)) && is_null (am_Activity r)) ||
             (bool_decide (kind = KindDelete) && negb (is_null (am_Activity r))))
        ErrSavedTripInput;
  reserved ← reserveTripMutation clk rng (am_UserID r) (am_IdempotencyKey r)
    (mutation_method kind) (mutation_path kind r) (mutation_operation kind) (am_RequestDigest r);
  match reserved with
  | inr replay => lift (replayed_trip "saved activity replay is invalid" (mutation_status kind) replay)
  | inl recordID => mutate_saved clk rng kind r recordID
  end.

Definition SavedAddActivity clk rng r := mutateActivity clk rng r KindAdd.
Definition SavedReplaceActivity clk rng r := mutateActivity clk rng r KindReplace.
Definition SavedDeleteActivity clk rng r := mutateActivity clk rng r KindDelete.

End Mutations.
