(* ===== verification/Execution.v ===== *)
(** * Executing a saved trip

    Models [persistence/saved_trip_execution.go]: a saved trip is activated (an
    absolute plan and its activities are written and the trip enters
    [activating]), becomes [active] when its runtime is up, is deactivated, and
    becomes [inactive] again when its runtime is gone.  Each transition has a row
    of [trip_execution_operations]. *)

From S2P Require Import Prelude GoLib GoText Wire Schema Tables SavedTables Commands.
From S2P Require Import Finalization Mutations Proposals CanonicalState Canonical.
From S2P Require Import SavedTables SavedMutations.

(** ** Requests *)

Record ActivateSavedTripRequest := MkActivate {
  ac_UserID : string;
  ac_TripID : string;
  ac_IdempotencyKey : string;
  ac_ExpectedRevision : Z;
  ac_RequestDigest : bytes;
  ac_StartingLatitude : spec_float;
  ac_StartingLongitude : spec_float
}.

Record DeactivateSavedTripRequest := MkDeactivate {
  de_UserID : string;
  de_TripID : string;
  de_IdempotencyKey : string;
  de_ExpectedRevision : Z;
  de_RequestDigest : bytes
}.

Record ActivatedSavedTrip := MkActivated {
  at_Transition : ExecutionTransitionView;
  at_Duplicate : bool
}.

Record CompleteActivationRequest := MkCompleteActivation {
  cpa_TripID : string;
  cpa_OperationID : string;
  cpa_HolderID : string;
  cpa_RuntimeEpoch : Z
}.

(** [CompleteDeactivationRequest]; its [RuntimeEpoch] is not read. *)
Record CompleteDeactivationRequest := MkCompleteDeactivation {
  cpd_TripID : string;
  cpd_OperationID : string;
  cpd_HolderID : string;
  cpd_RuntimeEpoch : Z
}.

(** The columns of [loadActivationActivities]. *)
Record activationActivity := MkActivationActivity {
  xa_ID : string;
  xa_Ordinal : Z;
  xa_PlaceID : string;
  xa_DisplayName : string;
  xa_Latitude : spec_float;
  xa_Longitude : spec_float;
  xa_TimeZoneName : string;
  xa_InboundTravelMode : string;
  xa_ActivityClass : string;
  xa_PriorityRank : Z;
  xa_UtilityScore : Z;
  xa_StartOffset : Z;
  xa_EndOffset : Z;
  xa_ReservationStartOffset : option Z;
  xa_ReservationGraceSeconds : Z;
  xa_DeadlineOffset : option Z;
  xa_MinDurationSeconds : Z;
  xa_PreferredDurationSeconds : Z;
  xa_MaxDurationSeconds : Z;
  xa_Mandatory : bool;
  xa_CanShorten : bool;
  xa_CanMove : bool;
  xa_CanSkip : bool;
  xa_Windows : list (Z * Z)
}.

(** ** The activation day *)

(** The local day of an instant: its bounds, in nanoseconds. *)
Definition activationDay (instant : Z) (loc : Location) : Z * Z :=
  let local := local_seconds loc (unix_seconds instant) in
  let start := local_instant loc (local / 86400 * 86400) in
  let finish := local_instant loc (local_seconds loc start + 86400) in
  (start * Second, finish * Second).

Definition insideActivationDay (value start finish : Z) : bool :=
  negb (value <? start) && (value <? finish).

(** [activatedAt.Add(time.Duration(offset) * time.Millisecond)]. *)
Definition at_offset (activatedAt offset : Z) : Z := activatedAt + milliseconds offset.

Definition activationOptionalTimeInsideDay (activatedAt : Z) (offset : option Z)
    (start finish : Z) : bool :=
  match offset with
  | None => true
  | Some o => insideActivationDay (at_offset activatedAt o) start finish
  end.

Definition activationChecksum (value : bytes) : bytes := sha256 value.

(** The tests on one activity, and its segment. *)
Definition activation_segment (activatedAt start finish : Z) (a : activationActivity)
  : result CanonicalPlanSegmentDraft :=
  let inside o := insideActivationDay (at_offset activatedAt o) start finish in
  _ ← reject_if ((xa_StartOffset a <? 0) || (xa_EndOffset a <=? xa_StartOffset a))
        ErrActivationUnscheduled;
  _ ← reject_if (negb (inside (xa_StartOffset a)) || negb (inside (xa_EndOffset a)))
        ErrActivationOutsideDay;
  _ ← reject_if
        (negb (activationOptionalTimeInsideDay activatedAt (xa_ReservationStartOffset a)
                 start finish) ||
         negb (activationOptionalTimeInsideDay activatedAt (xa_DeadlineOffset a) start finish))
        ErrActivationOutsideDay;
  _ ← reject_if (negb (forallb (fun w => inside w.1 && inside w.2) (xa_Windows a)))
        ErrActivationOutsideDay;
  Ok (Draft (xa_ID a) true (Some (UnixMilli (at_offset activatedAt (xa_StartOffset a))))
        (Some (UnixMilli (at_offset activatedAt (xa_EndOffset a))))).

Fixpoint activation_segments (activatedAt start finish : Z) (l : list activationActivity)
  : result (list CanonicalPlanSegmentDraft) :=
  match l with
  | [] => Ok []
  | a :: rest =>
      s ← activation_segment activatedAt start finish a;
      segments ← activation_segments activatedAt start finish rest;
      Ok (s :: segments)
  end.

Definition validateActivateSavedTrip (r : ActivateSavedTripRequest) : result unit :=
  reject_if
    (negb (validCanonicalUUID (ac_UserID r)) || negb (validCanonicalUUID (ac_TripID r)) ||
     negb (validCanonicalUUID (ac_IdempotencyKey r)) || (ac_ExpectedRevision r =? 0) ||
     (max_int64 <? ac_ExpectedRevision r) ||
     location_invalid (ac_StartingLatitude r) (ac_StartingLongitude r)) ErrSavedTripInput.

Section Execution.
Context {PG : Postgres} {SS : SavedServer} {TZ : TimeZones}.

(** ** Loading the saved activities *)

(** [COALESCE(NULLIF(p.formatted_address, ''), format(...))]. *)
Definition activation_label (p : place) : option string :=
  match pc_formatted_address p with
  | Some a => if bool_decide (a = "")
              then pg_format "%.6f, %.6f" [pc_latitude p; pc_longitude p] else Some a
  | None => pg_format "%.6f, %.6f" [pc_latitude p; pc_longitude p]
  end.

(** The rows of the join; the query fails as a whole if a label does. *)
Fixpoint activation_rows (tripID userID : string) (d : db)
    (rows : list ((string * string) * saved_activity))
  : result (list (string * saved_activity * place * string)) :=
  match rows with
  | [] => Ok []
  | ((_, id), a) :: rest =>
      match owned_place (sa_place_id a) (sa_owner_user_id a) d with
      | Some p =>
          if bool_decide (sa_trip_id a = tripID) && bool_decide (sa_owner_user_id a = userID) then
            label ← of_option (activation_label p) (ErrDatabase "iterate activation activities");
            l ← activation_rows tripID userID d rest;
            Ok ((id, a, p, label) :: l)
          else activation_rows tripID userID d rest
      | None => activation_rows tripID userID d rest
      end
  end.

Definition scan_activation (planID : string) (d : db)
    (row : string * saved_activity * place * string) : result activationActivity :=
  let '(id, a, p, label) := row in
  _ ← reject_if (negb (bool_decide (sa_schedule_state a = "scheduled"))) ErrActivationUnscheduled;
  s ← of_option (sa_start_offset_ms a) ErrActivationUnscheduled;
  e ← of_option (sa_end_offset_ms a) ErrActivationUnscheduled;
  Ok (MkActivationActivity id (sa_ordinal a) (sa_place_id a) label (pc_latitude p)
        (pc_longitude p) (pc_time_zone_name p) (sa_inbound_travel_mode a) (sa_activity_class a)
        (sa_priority_rank a) (sa_utility_score a) s e (sa_reservation_start_offset_ms a)
        (sa_reservation_grace_seconds a) (sa_mandatory_deadline_offset_ms a)
        (sa_min_duration_seconds a) (sa_preferred_duration_seconds a)
        (sa_max_duration_seconds a) (sa_mandatory a) (sa_can_shorten a) (sa_can_move a)
        (sa_can_skip a) (activity_windows planID id d)).

Fixpoint scan_activations (planID : string) (d : db)
    (rows : list (string * saved_activity * place * string)) : result (list activationActivity) :=
  match rows with
  | [] => Ok []
  | row :: rest =>
      a ← scan_activation planID d row; l ← scan_activations planID d rest; Ok (a :: l)
  end.

Definition loadActivationActivities (planID tripID userID : string) (d : db)
  : result (list activationActivity) :=
  rows ← activation_rows tripID userID d (plan_activities planID d);
  scan_activations planID d rows.

(** ** Writing the execution *)

Definition execution_row (tripID : string) (activatedAt : Z) (a : activationActivity)
  : activity :=
  let at_ o := to_timestamptz (at_offset activatedAt o) in
  Activity tripID (xa_Ordinal a) (xa_PlaceID a) (xa_DisplayName a) (xa_Latitude a)
    (xa_Longitude a) (xa_TimeZoneName a) (xa_InboundTravelMode a) (xa_ActivityClass a)
    "planned" 0 None (xa_PriorityRank a) (xa_UtilityScore a)
    (at_ <$> xa_ReservationStartOffset a) (xa_ReservationGraceSeconds a)
    (at_ <$> xa_DeadlineOffset a) (xa_MinDurationSeconds a) (xa_PreferredDurationSeconds a)
    (xa_MaxDurationSeconds a) (xa_Mandatory a) (xa_CanShorten a) (xa_CanMove a)
    (xa_CanSkip a).

Definition execution_windows (activatedAt : Z) (a : activationActivity) : list (Z * Z) :=
  List.map (fun w => (to_timestamptz (at_offset activatedAt w.1),
                      to_timestamptz (at_offset activatedAt w.2))) (xa_Windows a).

Definition insert_execution (tripID : string) (activatedAt : Z) (a : activationActivity)
  : tx unit :=
  _ ← insert_activity "insert execution activity" (xa_ID a) (execution_row tripID activatedAt a);
  insert_windows "insert execution window" tripID (xa_ID a) 0 (execution_windows activatedAt a).

(** [SELECT COALESCE(MAX(plan_revision), 0) + 1]. *)
Definition next_plan_revision (tripID : string) : tx Z :=
  highest ← gets (max_plan_revision tripID);
  _ ← guard (max_int64 <=? highest) (ErrDatabase "allocate execution plan revision");
  _ ← guard (highest + 1 <=? 0) (ErrInvalid "execution plan revision overflow");
  mret (highest + 1).

(** ** Locks *)

Record lockedActivationTrip := MkLockedActivation {
  la_Revision : Z;
  la_PlanID : string;
  la_TimeZoneName : string
}.

Definition lockActivationUser (userID : string) : tx unit := fun d =>
  if bool_decide (userID ∈ users d) then Ok (tt, d) else Err ErrTripNotFound.

Definition lockActivationTrip (userID tripID : string) (expected : Z) : tx lockedActivationTrip :=
  t ← find_row (owned_trip userID tripID) ErrTripNotFound;
  planID ← lift (of_option (t_saved_plan_id t) (ErrDatabase "lock activation trip"));
  _ ← guard (executing t) ErrSavedTripNotInactive;
  _ ← guard ((max_int64 <? expected) || negb (t_trip_revision t =? int64 expected))
        ErrTripRevisionStale;
  _ ← guard (bool_decide (planID = "") || negb (validCanonicalUUID planID)) ErrSavedTripInput;
  mret (MkLockedActivation (t_trip_revision t) planID (t_default_time_zone_name t)).

(** ** Transition records *)

Definition new_operation (clk : nat -> Z) (n : nat) (tripID userID recordID : string)
    (kind : operation_kind) (revision : Z) (target : option string) : exec_operation :=
  ExecOperation tripID userID recordID kind OpPending "recorded" revision target (Some revision)
    None (clk n) (clk (S n)) None.

(** [UPDATE http_idempotency_records SET trip_id, resource_id WHERE ... 'in_progress']. *)
Definition bind_record (op recordID tripID : string) : tx unit :=
  _ ← update_http_record op recordID in_progress (fun h =>
        set_h_resource_id (Some tripID) (set_h_trip_id (Some tripID) h));
  mret tt.

Definition transition_replay (invalid : string) (r : tripMutationReplay)
  : result ActivatedSavedTrip :=
  _ ← reject_if (negb (rp_Status r =? 200) && negb (rp_Status r =? 202)) (ErrInvalid invalid);
  body ← of_option (rp_Body r) (ErrInvalid invalid);
  transition ← of_option (json_transition body) (ErrInvalid invalid);
  Ok (MkActivated transition true).

(** The 202 answer of a recorded transition.  The code dereferences the
    transition of the view, which [get] fills in the two transition states. *)
Definition respond_transition (op recordID userID tripID : string) (now : Z)
  : tx ActivatedSavedTrip :=
  trip ← query (get userID tripID);
  operation ← lift (of_option (tr_TransitionOperation trip) (ErrInvalid "nil operation"));
  let transition := MkTransitionView trip operation in
  body ← lift (of_option (transition_json transition) (ErrDatabase op));
  _ ← update_http_record op recordID in_progress (fun h =>
        set_h_completed_at (Some now)
        (set_h_response_etag (Some (revision_etag (tr_TripRevision trip)))
        (set_h_response_body (Some body)
        (set_h_response_content_type (Some "application/json")
        (set_h_response_status (Some 202) (set_h_state Completed h))))));
  mret (MkActivated transition false).

(** ** [Activate] *)

Definition activated_trip (planID operationID : string) (activatedAt next : Z) (t : trip)
  : trip :=
  set_t_updated_at activatedAt (set_t_finalized_mutation_sequence next
    (set_t_next_mutation_sequence (next + 1) (set_t_transition_operation_id (Some operationID)
      (set_t_execution_state Activating (set_t_activated_at (Some activatedAt)
        (set_t_active_execution_plan_id (Some planID) (set_t_current_plan_id (Some planID) t))))))).

(** The execution plan and the activities it schedules. *)
Definition write_execution (rng : nat -> bytes) (r : ActivateSavedTripRequest)
    (activatedAt : Z) (l : list activationActivity) (segments : list CanonicalPlanSegmentDraft)
  : tx unit :=
  let planID := newAuthUUID (rng 1%nat) in
  revision ← next_plan_revision (ac_TripID r);
  let payload := userCurrentPlanPayload planID (uint64 revision) (UnixMilli activatedAt) segments in
  _ ← insert_plan "insert execution plan" planID
        (Plan (ac_TripID r) revision UserAuthored (ac_UserID r) None 1 payload (zlen payload)
           (activationChecksum payload) (to_timestamptz activatedAt));
  _ ← delete_travel_delays (ac_TripID r);
  _ ← delete_trip_activities (ac_TripID r);
  for_each (insert_execution (ac_TripID r) activatedAt) l.

(** The operation and the trip's entry into [activating]. *)
Definition enter_activating (clk : nat -> Z) (rng : nat -> bytes) (r : ActivateSavedTripRequest)
    (recordID : string) (activatedAt revision : Z) : tx unit :=
  let planID := newAuthUUID (rng 1%nat) in
  let operationID := newAuthUUID (rng 2%nat) in
  t ← find_row (fun d => trips d !! ac_TripID r) (ErrDatabase "read activation sequence");
  let next := t_next_mutation_sequence t in
  _ ← guard ((next <=? 0) || (next =? max_int64))
        (ErrInvalid "activation mutation sequence overflow");
  _ ← bind_record "bind activation idempotency record" recordID (ac_TripID r);
  _ ← insert_operation "record activation operation" operationID
        (new_operation clk 3 (ac_TripID r) (ac_UserID r) recordID OpActivate revision
           (Some planID));
  update_trip_execution "enter activating state" (ac_TripID r)
    (fun t => bool_decide (t_execution_state t = Inactive))
    (activated_trip planID operationID (to_timestamptz activatedAt) next).

Definition activate_saved (clk : nat -> Z) (rng : nat -> bytes) (r : ActivateSavedTripRequest)
    (recordID : string) : tx ActivatedSavedTrip :=
  _ ← lockActivationUser (ac_UserID r);
  current ← lockActivationTrip (ac_UserID r) (ac_TripID r) (ac_ExpectedRevision r);
  conflict ← gets (other_executing (ac_TripID r) (ac_UserID r));
  _ ← guard conflict ErrExecutionTripConflict;
  l ← query (loadActivationActivities (la_PlanID current) (ac_TripID r) (ac_UserID r));
  _ ← guard (zlen l =? 0) ErrSavedTripInput;
  loc ← lift (of_option (LoadLocation (la_TimeZoneName current))
                (ErrInvalid "load trip timezone"));
  let activatedAt := of_timestamptz (trunc_ms (clk 2%nat)) in
  let '(start, finish) := activationDay activatedAt loc in
  segments ← lift (activation_segments activatedAt start finish l);
  _ ← write_execution rng r activatedAt l segments;
  _ ← enter_activating clk rng r recordID activatedAt (la_Revision current);
  result ← respond_transition "complete activation idempotency" recordID (ac_UserID r)
             (ac_TripID r) (clk 5%nat);
  _ ← commit_execution "commit activation" (ac_TripID r);
  mret result.

Definition Activate (clk : nat -> Z) (rng : nat -> bytes) (r : ActivateSavedTripRequest)
  : tx ActivatedSavedTrip :=
  _ ← lift (validateActivateSavedTrip r);
  reserved ← reserveTripMutation clk rng (ac_UserID r) (ac_IdempotencyKey r) "POST"
    (trip_path (ac_TripID r) +:+ "/activate") "activate_trip" (ac_RequestDigest r);
  match reserved with
  | inr replay => lift (transition_replay "activation replay is invalid" replay)
  | inl recordID => activate_saved clk rng r recordID
  end.

(** ** Completing a transition *)

(** The operation of the trip with this identifier. *)
Definition trip_operation (operationID tripID : string) (d : db) : option exec_operation :=
  e ← operations (saved d) !! operationID;
  if bool_decide (e_trip_id e = tripID) then Some e else None.

Definition succeeded_operation (updated completed : Z) (e : exec_operation) : exec_operation :=
  set_e_completed_at (Some completed) (set_e_updated_at updated
    (set_e_last_step "completed" (set_e_state OpSucceeded e))).

Definition pending_operation (e : exec_operation) : bool := bool_decide (e_state e = OpPending).

(** The view of a completed operation: its other members are zero. *)
Definition completed_view (operationID kind : string) : ExecutionOperationView :=
  MkOperationView operationID kind "succeeded" "completed" "" "" 0 0 None.

Definition awaiting_completion (ownerID : string) (h : http_record) : bool :=
  bool_decide (h_user_id h = ownerID) && bool_decide (h_state h = Completed) &&
  bool_decide (h_response_status h = Some 202).

(** The final answer of a request. *)
Definition completion_answer (trip : TripView) (body : jsonb) (h : http_record) : http_record :=
  set_h_response_etag (Some (revision_etag (tr_TripRevision trip)))
    (set_h_response_body (Some body) (set_h_response_status (Some 200) h)).

(** The end of both completions: the view of the trip replaces the 202 answer. *)
Definition publish_completion (op invalid opCommit recordID ownerID tripID operationID : string)
    (kind : string) (P : http_record -> bool)
    (answer : TripView -> jsonb -> http_record -> http_record) : tx TripView :=
  trip ← query (get ownerID tripID);
  body ← lift (of_option
           (transition_json (MkTransitionView trip (completed_view operationID kind)))
           (ErrDatabase op));
  affected ← update_http_record op recordID P (answer trip body);
  _ ← guard (negb (affected =? 1)) (ErrInvalid invalid);
  _ ← commit_execution opCommit tripID;
  mret trip.

Definition CompleteActivation (clk : nat -> Z) (r : CompleteActivationRequest) : tx TripView :=
  let tripID := cpa_TripID r in
  _ ← guard (negb (validCanonicalUUID tripID) || negb (validCanonicalUUID (cpa_OperationID r)) ||
             negb (validCanonicalUUID (cpa_HolderID r)) || (cpa_RuntimeEpoch r =? 0) ||
             (max_int64 <? cpa_RuntimeEpoch r)) ErrSavedTripInput;
  t ← find_row (fun d => trips d !! tripID) ErrTripNotFound;
  planID ← lift (of_option (t_current_plan_id t) (ErrDatabase "lock activation completion trip"));
  l ← find_row (fun d => l ← leases d !! tripID;
                 if bool_decide (l_holder_id l = cpa_HolderID r) then Some l else None)
        (ErrDatabase "verify activation lease");
  _ ← guard (negb (l_runtime_epoch l =? int64 (cpa_RuntimeEpoch r)) ||
             negb (clk 0%nat <? l_lease_expires_at l)) ErrLeaseLost;
  e ← find_row (trip_operation (cpa_OperationID r) tripID)
        (ErrInvalid "activation operation not found");
  _ ← guard (negb (bool_decide (e_kind e = OpActivate)) || negb (pending_operation e) ||
             negb (e_source_trip_revision e =? t_trip_revision t) || bool_decide (planID = ""))
        (ErrInvalid "activation operation no longer matches trip");
  _ ← guard (negb (bool_decide (t_execution_state t = Activating)))
        (ErrInvalid "trip is not activating");
  _ ← update_trip_execution "publish active trip" tripID
        (fun t => bool_decide (t_execution_state t = Activating))
        (fun t => set_t_updated_at (clk 1%nat) (set_t_transition_operation_id None
           (set_t_execution_state Active t)));
  _ ← update_operation "complete activation operation" (cpa_OperationID r)
        (fun e => bool_decide (e_trip_id e = tripID) && pending_operation e)
        (succeeded_operation (clk 2%nat) (clk 3%nat));
  publish_completion "publish completed activation response"
    "activation idempotency record is not pending completion" "commit activation completion"
    (e_idempotency_record_id e) (t_owner_user_id t) tripID (cpa_OperationID r) "activate"
    (fun h => awaiting_completion (t_owner_user_id t) h &&
              bool_decide (h_operation_kind h = "activate_trip"))
    (fun trip body h => set_h_completed_at (Some (clk 4%nat)) (completion_answer trip body h)).

(** ** [Deactivate] *)

Definition deactivate_saved (clk : nat -> Z) (rng : nat -> bytes) (r : DeactivateSavedTripRequest)
    (recordID : string) : tx ActivatedSavedTrip :=
  let tripID := de_TripID r in
  let operationID := newAuthUUID (rng 1%nat) in
  t ← find_row (owned_trip (de_UserID r) tripID) ErrTripNotFound;
  _ ← lift (of_option (t_current_plan_id t) (ErrDatabase "lock deactivation trip"));
  _ ← guard (negb (de_ExpectedRevision r =? uint64 (t_trip_revision t))) ErrTripRevisionStale;
  _ ← guard (negb (bool_decide (t_execution_state t = Active)) &&
             negb (bool_decide (t_execution_state t = Activating))) ErrSavedTripNotExecuting;
  _ ← bind_record "bind deactivation idempotency record" recordID tripID;
  _ ← insert_operation "record deactivation operation" operationID
        (new_operation clk 2 tripID (de_UserID r) recordID OpDeactivate (t_trip_revision t) None);
  _ ← update_proposals "invalidate deactivation proposals" (pending_of tripID)
        (fun p => set_p_decided_at (Some (clk 4%nat)) (set_p_state ProposalStale p));
  _ ← update_trip_execution "enter deactivating state" tripID (fun _ => true)
        (fun t => set_t_updated_at (clk 5%nat) (set_t_transition_operation_id (Some operationID)
           (set_t_execution_state Deactivating t)));
  result ← respond_transition "complete deactivation idempotency" recordID (de_UserID r) tripID
             (clk 6%nat);
  _ ← commit_execution "commit deactivation" tripID;
  mret result.

Definition Deactivate (clk : nat -> Z) (rng : nat -> bytes) (r : DeactivateSavedTripRequest)
  : tx ActivatedSavedTrip :=
  _ ← guard (negb (validCanonicalUUID (de_UserID r)) || negb (validCanonicalUUID (de_TripID r)) ||
             negb (validCanonicalUUID (de_IdempotencyKey r)) ||
             (max_int64 <? de_ExpectedRevision r)) ErrSavedTripInput;
  reserved ← reserveTripMutation clk rng (de_UserID r) (de_IdempotencyKey r) "POST"
    (trip_path (de_TripID r) +:+ "/deactivate") "deactivate_trip" (de_RequestDigest r);
  match reserved with
  | inr replay => lift (transition_replay "deactivation replay is invalid" replay)
  | inl recordID => deactivate_saved clk rng r recordID
  end.

Definition deactivated_trip (now : Z) (t : trip) : trip :=
  set_t_updated_at now (set_t_execution_state Inactive (set_t_transition_operation_id None
    (set_t_activated_at None (set_t_active_execution_plan_id None
      (set_t_current_plan_id None t))))).

Definition CompleteDeactivation (clk : nat -> Z) (r : CompleteDeactivationRequest)
  : tx TripView :=
  let tripID := cpd_TripID r in
  _ ← guard (negb (validCanonicalUUID tripID) || negb (validCanonicalUUID (cpd_OperationID r)) ||
             negb (validCanonicalUUID (cpd_HolderID r))) ErrSavedTripInput;
  t ← find_row (fun d => trips d !! tripID) ErrTripNotFound;
  held ← gets (fun d => bool_decide (is_Some (leases d !! tripID)));
  _ ← guard held ErrLeaseHeld;
  e ← find_row (trip_operation (cpd_OperationID r) tripID)
        (ErrDatabase "lock deactivation operation");
  _ ← guard (negb (bool_decide (t_execution_state t = Deactivating)) ||
             negb (bool_decide (e_kind e = OpDeactivate)) || negb (pending_operation e))
        (ErrInvalid "deactivation operation no longer matches trip");
  _ ← delete_trip_activities tripID;
  _ ← update_trip_execution "publish inactive trip" tripID
        (fun t => bool_decide (t_execution_state t = Deactivating))
        (deactivated_trip (clk 0%nat));
  _ ← update_operation "complete deactivation operation" (cpd_OperationID r) pending_operation
        (succeeded_operation (clk 1%nat) (clk 2%nat));
  publish_completion "publish completed deactivation response"
    "deactivation idempotency record is not pending completion" "commit deactivation completion"
    (e_idempotency_record_id e) (t_owner_user_id t) tripID (cpd_OperationID r) "deactivate"
    (awaiting_completion (t_owner_user_id t)) completion_answer.

End Execution.
