(* ===== verification/SavedFacts.v ===== *)
(** * Saved plans are written once and refine the edited list

    What the statements of a saved-trip mutation do to the tables, and the
    properties of [SavedMutations]: a mutation selects a new saved plan whose
    activities are the old ones with one inserted, moved or removed; the old plan
    stays; a created trip is read back as it was asked for; a repeated request
    repeats its answer. *)

From S2P Require Import Prelude GoLib GoText Schema Tables SavedTables.
From S2P Require Import SavedMutations.

Section SavedFacts.
Context {PG : Postgres} {SS : SavedServer} {TZ : TimeZones}.

(** ** What a successful statement tells *)

Lemma query_ok {A} (f : db -> result A) d a d' :
  query f d = Ok (a, d') <-> f d = Ok a /\ d' = d.
Proof. unfold query. destruct (f d); simpl; naive_solver. Qed.

Lemma insert_saved_plan_ok op id p d u d' :
  insert_saved_plan op id p d = Ok (u, d') ->
  saved_plans (saved d) !! id = None /\ saved_plan_check p = true /\
  (exists t, trips d !! sp_trip_id p = Some t /\ t_owner_user_id t = sp_owner_user_id p) /\
  d' = set_saved_plans (<[id := p]> (saved_plans (saved d))) d.
Proof.
  unfold insert_saved_plan. intros H. case_match eqn:E; [done|]. simplify_eq.
  inv_res. destruct (trips d !! sp_trip_id p) as [t|] eqn:Et; [|done]. inv_res.
  split_and!; [by apply eq_None_not_Some|done|by eexists|done].
Qed.

Lemma insert_saved_activity_ok op p id a d u d' :
  insert_saved_activity op p id a d = Ok (u, d') ->
  saved_activities (saved d) !! (p, id) = None /\
  (forall id' b, saved_activities (saved d) !! (p, id') = Some b -> sa_ordinal b <> sa_ordinal a) /\
  saved_activity_check a = true /\ saved_activity_fk p a d = true /\
  d' = set_saved_activities (<[(p, id) := a]> (saved_activities (saved d))) d.
Proof.
  unfold insert_saved_activity. intros H. case_match eqn:E; [done|]. simplify_eq. inv_res.
  split_and!; [by apply eq_None_not_Some| |done|done|done].
  intros id' b Hb. match goal with H : any_row _ _ = false |- _ =>
    rewrite any_row_false in H; specialize (H _ _ Hb); simpl in H end.
  rewrite bool_decide_eq_true_2 in * by done. simpl in *. zbool. done.
Qed.

Lemma insert_saved_window_ok op p id n w d u d' :
  insert_saved_window op p id n w d = Ok (u, d') ->
  saved_windows (saved d) !! (p, id, n) = None /\
  is_Some (saved_activities (saved d) !! (p, id)) /\
  d' = set_saved_windows (<[(p, id, n) := w]> (saved_windows (saved d))) d.
Proof.
  unfold insert_saved_window. intros H. case_match eqn:E; [done|]. simplify_eq. inv_res.
  split_and!; [by apply eq_None_not_Some|done|done].
Qed.

(** ** Loops of statements *)

Lemma set_saved_activities_id d : set_saved_activities (saved_activities (saved d)) d = d.
Proof. by destruct d as [? ? ? ? ? ? ? ? ? ? ? [] ?]. Qed.
Lemma set_saved_windows_id d : set_saved_windows (saved_windows (saved d)) d = d.
Proof. by destruct d as [? ? ? ? ? ? ? ? ? ? ? [] ?]. Qed.

(** The rows of the plan [new] after copies of [rows], each changed by [g]. *)
Lemma copy_activities_ok op new (g : saved_activity -> saved_activity)
    (rows : list ((string * string) * saved_activity)) d u d' :
  for_each (fun kv => insert_saved_activity op new kv.1.2 (g kv.2)) rows d = Ok (u, d') ->
  exists m, d' = set_saved_activities m d /\
  (forall p id, p <> new -> m !! (p, id) = saved_activities (saved d) !! (p, id)) /\
  (forall id a, m !! (new, id) = Some a <->
     saved_activities (saved d) !! (new, id) = Some a \/
     exists k b, ((k, id), b) ∈ rows /\ a = g b).
Proof.
  revert d. induction rows as [|[[k id] b] rows IH]; intros d H.
  - apply mret_ok in H as [_ <-]. exists (saved_activities (saved d)).
    split; [by rewrite set_saved_activities_id|]. split; [done|].
    intros id a. split; [by left|]. intros [?|(k & b & Hin & _)]; [done|].
    by apply not_elem_of_nil in Hin.
  - simpl in H. apply tx_bind_ok in H as ([] & d1 & H1 & H).
    apply insert_saved_activity_ok in H1 as (Hn & _ & _ & _ & ->). simpl in Hn.
    apply IH in H as (m & -> & Ho & Hm). exists m. split; [done|]. cbn in Ho, Hm.
    split.
    + intros p i Hp. rewrite Ho by done. apply lookup_insert_ne. congruence.
    + intros i a. rewrite Hm, lookup_insert_Some. setoid_rewrite elem_of_cons. split.
      * intros [[[[= <-] <-]|[Hne ?]]|(k' & b' & ? & ->)]; [right|by left|right].
        -- by exists k, b; split; [left|].
        -- by exists k', b'; split; [right|].
      * intros [Ha|(k' & b' & [[= -> -> ->]|?] & ->)].
        -- left. right. split; [|done]. intros [= ->]. by rewrite Hn in Ha.
        -- by left; left.
        -- right. by exists k', b'.
Qed.

Lemma insert_windows_loop op new (rows : list ((string * string * Z) * saved_window)) d u d' :
  for_each (fun kv => insert_saved_window op new kv.1.1.2 kv.1.2 kv.2) rows d = Ok (u, d') ->
  exists m, d' = set_saved_windows m d /\
  (forall p id n, p <> new -> m !! (p, id, n) = saved_windows (saved d) !! (p, id, n)) /\
  (forall id n w, m !! (new, id, n) = Some w <->
     saved_windows (saved d) !! (new, id, n) = Some w \/
     exists k, ((k, id, n), w) ∈ rows).
Proof.
  revert d. induction rows as [|[[[k id] n] w] rows IH]; intros d H.
  - apply mret_ok in H as [_ <-]. exists (saved_windows (saved d)).
    split; [by rewrite set_saved_windows_id|]. split; [done|].
    intros i j x. split; [by left|]. intros [?|(k & Hin)]; [done|].
    by apply not_elem_of_nil in Hin.
  - simpl in H. apply tx_bind_ok in H as ([] & d1 & H1 & H).
    apply insert_saved_window_ok in H1 as (Hn & _ & ->). simpl in Hn.
    apply IH in H as (m & -> & Ho & Hm). exists m. split; [done|]. cbn in Ho, Hm.
    split.
    + intros p i j Hp. rewrite Ho by done. apply lookup_insert_ne. congruence.
    + intros i j x. rewrite Hm, lookup_insert_Some. setoid_rewrite elem_of_cons. split.
      * intros [[[[= <- <-] <-]|[Hne ?]]|(k' & ?)]; [right|by left|right].
        -- by exists k; left.
        -- by exists k'; right.
      * intros [Ha|(k' & [[= -> -> -> ->]|?])].
        -- left. right. split; [|done]. intros [= -> ->]. by rewrite Hn in Ha.
        -- by left; left.
        -- right. by exists k'.
Qed.

Lemma copy_windows_ok op old new keep d u d' :
  copy_windows op old new keep d = Ok (u, d') ->
  exists m, d' = set_saved_windows m d /\
  (forall p id n, p <> new -> m !! (p, id, n) = saved_windows (saved d) !! (p, id, n)) /\
  (forall id n w, m !! (new, id, n) = Some w <->
     saved_windows (saved d) !! (new, id, n) = Some w \/
     saved_windows (saved d) !! (old, id, n) = Some w /\ keep id = true).
Proof.
  unfold copy_windows. intros (m & -> & Ho & Hm)%insert_windows_loop.
  exists m. split_and!; [done|done|]. intros id n w. rewrite Hm.
  setoid_rewrite elem_of_rows_where. setoid_rewrite andb_true_iff.
  setoid_rewrite bool_decide_eq_true. naive_solver.
Qed.

Lemma insert_input_windows_ok op p id n l d u d' :
  insert_input_windows op p id n l d = Ok (u, d') ->
  exists m, d' = set_saved_windows m d /\
  (forall k, k.1 <> (p, id) -> m !! k = saved_windows (saved d) !! k) /\
  (forall j w, m !! (p, id, j) = Some w <->
     saved_windows (saved d) !! (p, id, j) = Some w \/
     exists i x, l !! i = Some x /\ j = n + Z.of_nat i /\
       w = SavedWindow (wi_OpensOffsetMS x) (wi_ClosesOffsetMS x)).
Proof.
  revert n d. induction l as [|x l IH]; intros n d H.
  - apply mret_ok in H as [_ <-]. exists (saved_windows (saved d)).
    split; [by rewrite set_saved_windows_id|]. split; [done|].
    intros j w. split; [by left|]. by intros [?|(i & y & ? & _)].
  - simpl in H. apply tx_bind_ok in H as ([] & d1 & H1 & H).
    apply insert_saved_window_ok in H1 as (Hn & _ & ->). simpl in Hn.
    apply IH in H as (m & -> & Ho & Hm). exists m. split; [done|]. cbn in Ho, Hm. split.
    + intros k Hk. rewrite Ho by done. apply lookup_insert_ne. intros <-. by apply Hk.
    + intros j w. rewrite Hm, lookup_insert_Some. split.
      * intros [[[[= <-] <-]|[? ?]]|(i & y & ? & -> & ->)]; [right|by left|right].
        -- exists 0%nat, x. split_and!; [done|lia|done].
        -- exists (S i), y. split_and!; [done|lia|done].
      * intros [Hw|([|i] & y & Hi & -> & ->)].
        -- left. right. split; [|done]. intros [= <-]. by rewrite Hn in Hw.
        -- left. left. simpl in Hi. simplify_eq. split; [f_equal; lia|done].
        -- right. exists i, y. split_and!; [done|lia|done].
Qed.

(** An inserted activity: its row, and the tables it leaves. *)
Lemma insertSavedActivity_ok opRow opWindow p tripID userID id a d u d' :
  insertSavedActivity opRow opWindow p tripID userID id a d = Ok (u, d') ->
  let row := saved_row tripID userID (ai_PlaceID a) a in
  saved_activities (saved d) !! (p, id) = None /\
  (forall id' b, saved_activities (saved d) !! (p, id') = Some b ->
     sa_ordinal b <> ai_Ordinal a) /\
  is_Some (owned_place (ai_PlaceID a) userID d) /\
  exists m, d' = set_saved_windows m
                   (set_saved_activities (<[(p, id) := row]> (saved_activities (saved d))) d) /\
  (forall k, k.1 <> (p, id) -> m !! k = saved_windows (saved d) !! k) /\
  (forall j w, m !! (p, id, j) = Some w <->
     saved_windows (saved d) !! (p, id, j) = Some w \/
     exists i x, input_windows a !! i = Some x /\ j = Z.of_nat i /\
       w = SavedWindow (wi_OpensOffsetMS x) (wi_ClosesOffsetMS x)).
Proof.
  unfold insertSavedActivity. intros H. apply tx_bind_ok in H as (pl & d0 & H0 & H).
  apply find_row_ok in H0 as [Hpl ->]. apply tx_bind_ok in H as ([] & d1 & H1 & H).
  apply insert_saved_activity_ok in H1 as (Hn & Hu & _ & _ & ->).
  apply insert_input_windows_ok in H as (m & -> & Ho & Hm). cbn in Ho, Hm.
  split_and!; [done|exact Hu|by eexists|]. exists m. done.
Qed.

(** ** The activities of a plan as a list *)

Definition saved_itinerary (planID : string) (d : db) : list string :=
  List.map (fun kv => kv.1.2) (plan_activities planID d).

Definition saved_dense (planID : string) (d : db) : Prop :=
  forall i kv, plan_activities planID d !! i = Some kv -> sa_ordinal kv.2 = Z.of_nat i.

Lemma elem_of_plan_activities p d k a :
  (k, a) ∈ plan_activities p d <-> saved_activities (saved d) !! k = Some a /\ k.1 = p.
Proof.
  unfold plan_activities. rewrite merge_sort_Permutation, elem_of_rows_where.
  by rewrite bool_decide_eq_true.
Qed.

Lemma plan_activities_key p d i kv : plan_activities p d !! i = Some kv -> kv.1.1 = p.
Proof.
  destruct kv as [k a]. intros H%list_elem_of_lookup_2.
  apply elem_of_plan_activities in H as [_ H]. exact H.
Qed.

Lemma saved_itinerary_NoDup p d : NoDup (saved_itinerary p d).
Proof.
  unfold saved_itinerary. assert (NoDup (plan_activities p d).*1) as H
    by apply sorted_fst_NoDup.
  assert (forall kv, kv ∈ plan_activities p d -> kv.1.1 = p) as Hp.
  { intros [k a] Hin. apply elem_of_plan_activities in Hin as [_ Hk]. exact Hk. }
  revert H Hp. generalize (plan_activities p d). induction l as [|[[q id] a] l IH]; intros H Hp.
  - constructor.
  - simpl in *. apply NoDup_cons in H as [Hni Hnd]. constructor; [|apply IH; [done|]].
    + intros ([[q' id'] b] & [= <-] & Hin)%list_elem_of_fmap. apply Hni.
      apply list_elem_of_fmap. exists ((q', id), b). split; [|done]. simpl.
      pose proof (Hp _ (list_elem_of_here _ _)) as Hq. simpl in Hq.
      pose proof (Hp ((q', id), b)) as Hq'. simpl in Hq'. rewrite Hq, Hq'; [done|].
      by right.
    + intros kv Hin. apply Hp. by right.
Qed.

Lemma saved_itinerary_lookup p d i id :
  saved_dense p d -> saved_itinerary p d !! i = Some id ->
  exists a, saved_activities (saved d) !! (p, id) = Some a /\ sa_ordinal a = Z.of_nat i.
Proof.
  intros Hd H. apply list_lookup_fmap_Some in H as ([[q id'] a] & -> & Hi). simpl.
  pose proof (Hd _ _ Hi) as Ho. pose proof (plan_activities_key _ _ _ _ Hi) as Hq.
  simpl in Ho, Hq. subst q. apply list_elem_of_lookup_2, elem_of_plan_activities in Hi.
  exists a. by destruct Hi.
Qed.

Lemma elem_of_saved_itinerary p d id :
  id ∈ saved_itinerary p d <-> is_Some (saved_activities (saved d) !! (p, id)).
Proof.
  split.
  - intros ([[q id'] a] & -> & Hin)%list_elem_of_fmap. simpl.
    apply elem_of_plan_activities in Hin as [Ha Hq]. simpl in Hq. subst q. by eexists.
  - intros [a Ha]. apply list_elem_of_fmap. exists ((p, id), a). split; [done|].
    by apply elem_of_plan_activities.
Qed.

(** The ordinal of an activity of a dense plan is its position. *)
Lemma saved_position p d id a :
  saved_dense p d -> saved_activities (saved d) !! (p, id) = Some a ->
  exists i, saved_itinerary p d !! i = Some id /\ sa_ordinal a = Z.of_nat i.
Proof.
  intros Hd Ha. assert (Hin : id ∈ saved_itinerary p d)
    by (apply elem_of_saved_itinerary; by eexists).
  apply list_elem_of_lookup in Hin as [i Hi]. exists i. split; [done|].
  destruct (saved_itinerary_lookup _ _ _ _ Hd Hi) as (b & Hb & Ho). rewrite Ha in Hb.
  by simplify_eq.
Qed.

Lemma saved_numbered p d ids :
  NoDup ids ->
  (forall i id, ids !! i = Some id ->
     exists a, saved_activities (saved d) !! (p, id) = Some a /\ sa_ordinal a = Z.of_nat i) ->
  (forall id a, saved_activities (saved d) !! (p, id) = Some a -> id ∈ ids) ->
  saved_itinerary p d = ids /\ saved_dense p d.
Proof.
  intros Hnd Hids Hall. assert (Inj (=) (=) (pair p : string -> string * string))
    by (by intros ?? [=]).
  destruct (rows_numbered (fun kv => sa_ordinal kv.2) saved_ordinal_le
    (fun k _ => bool_decide (k.1 = p)) (saved_activities (saved d)) (pair p <$> ids))
    as [Hl Hd]; [done|by apply NoDup_fmap_2| | |].
  - intros i k (id & -> & Hi)%list_lookup_fmap_Some. destruct (Hids _ _ Hi) as (a & ? & ?).
    exists a. by rewrite bool_decide_eq_true.
  - intros [q id] a Ha Hq%bool_decide_eq_true. simpl in Hq. subst q.
    apply list_elem_of_fmap. exists id. split; [done|by eapply Hall].
  - split; [|done]. unfold saved_itinerary, plan_activities.
    change (fun kv : (string * string) * saved_activity => kv.1.2)
      with (fun kv : (string * string) * saved_activity => snd (fst kv)).
    rewrite <- (List.map_map fst snd). etrans; [exact (f_equal (List.map snd) Hl)|].
    clear. induction ids as [|x l IH]; [done|]. cbn. f_equal. exact IH.
Qed.

(** ** What the schema keeps of the saved-trip tables *)

Record saved_consistent (d : db) : Prop := {
  sc_activity : forall p id a, saved_activities (saved d) !! (p, id) = Some a ->
    saved_activity_fk p a d = true;
  sc_window : forall p id n w, saved_windows (saved d) !! (p, id, n) = Some w ->
    is_Some (saved_activities (saved d) !! (p, id));
  sc_dense : forall p row, saved_plans (saved d) !! p = Some row ->
    saved_dense p d /\ saved_itinerary p d <> [];
  sc_owner : forall p row, saved_plans (saved d) !! p = Some row ->
    exists t, trips d !! sp_trip_id row = Some t /\ t_owner_user_id t = sp_owner_user_id row;
  sc_selected : forall id t p, trips d !! id = Some t -> t_saved_plan_id t = Some p ->
    exists row, saved_plans (saved d) !! p = Some row /\ sp_trip_id row = id;
  sc_request : forall k1 k2 h1 h2,
    http_records (saved d) !! k1 = Some h1 -> http_records (saved d) !! k2 = Some h2 ->
    same_request (h_user_id h1) (h_http_method h1) (h_normalized_path h1)
      (h_idempotency_key h1) h2 = true -> k1 = k2
}.

(** A plan that does not exist has no rows. *)
Lemma fresh_plan p d : saved_consistent d -> saved_plans (saved d) !! p = None ->
  (forall id, saved_activities (saved d) !! (p, id) = None) /\
  (forall id n, saved_windows (saved d) !! (p, id, n) = None).
Proof.
  intros Hc Hp. assert (Ha : forall id, saved_activities (saved d) !! (p, id) = None).
  { intros id. destruct (saved_activities (saved d) !! (p, id)) as [a|] eqn:E; [|done].
    apply (sc_activity d Hc) in E. unfold saved_activity_fk in E. by rewrite Hp in E. }
  split; [done|]. intros id n.
  destruct (saved_windows (saved d) !! (p, id, n)) as [w|] eqn:E; [|done].
  apply (sc_window d Hc) in E. rewrite Ha in E. by destruct E.
Qed.

(** ** The plan an activity mutation writes *)

Definition inserted_activity (rng : nat -> bytes) (kind : saved_mutation_kind)
    (r : SavedActivityMutationRequest) : option (string * SavedActivityInput) :=
  match kind, am_Activity r with
  | KindAdd, Some a => Some (newAuthUUID (rng 2%nat), a)
  | KindReplace, Some a => Some (am_ActivityID r, a)
  | _, _ => None
  end.

Definition target_ordinal (r : SavedActivityMutationRequest) : Z :=
  match am_Activity r with Some a => ai_Ordinal a | None => 0 end.

(** A row copied from the old plan, under its new ordinal. *)
Definition copied_row (kind : saved_mutation_kind) (r : SavedActivityMutationRequest)
    (oldOrdinal : Z) (b : saved_activity) : saved_activity :=
  set_sa_ordinal (shifted_ordinal kind oldOrdinal (target_ordinal r) (sa_ordinal b)) b.

Record plan_written (rng : nat -> bytes) (kind : saved_mutation_kind)
    (r : SavedActivityMutationRequest) (old : string) (oldOrdinal : Z) (row : saved_plan)
    (m : gmap (string * string) saved_activity) (w : gmap (string * string * Z) saved_window)
    (d : db) : Prop := {
  pw_fresh : saved_plans (saved d) !! newAuthUUID (rng 1%nat) = None;
  pw_trip : sp_trip_id row = am_TripID r;
  pw_user : sp_owner_user_id row = am_UserID r;
  pw_owner : exists t, trips d !! am_TripID r = Some t /\ t_owner_user_id t = am_UserID r;
  pw_others : forall p id, p <> newAuthUUID (rng 1%nat) ->
    m !! (p, id) = saved_activities (saved d) !! (p, id);
  pw_windows : forall p id n, p <> newAuthUUID (rng 1%nat) ->
    w !! (p, id, n) = saved_windows (saved d) !! (p, id, n);
  pw_kept : forall id b, saved_activities (saved d) !! (old, id) = Some b ->
    copied kind (am_ActivityID r) id = true ->
    m !! (newAuthUUID (rng 1%nat), id) = Some (copied_row kind r oldOrdinal b);
  pw_new : forall id a, inserted_activity rng kind r = Some (id, a) ->
    m !! (newAuthUUID (rng 1%nat), id) =
      Some (saved_row (am_TripID r) (am_UserID r) (ai_PlaceID a) a) /\
    is_Some (owned_place (ai_PlaceID a) (am_UserID r) d) /\
    forall b, saved_activities (saved d) !! (old, id) = Some b ->
      copied kind (am_ActivityID r) id = false;
  pw_only : forall id a, m !! (newAuthUUID (rng 1%nat), id) = Some a ->
    (exists b, saved_activities (saved d) !! (old, id) = Some b /\
       copied kind (am_ActivityID r) id = true) \/
    exists i, inserted_activity rng kind r = Some (id, i);
  pw_window_owner : forall id n x, w !! (newAuthUUID (rng 1%nat), id, n) = Some x ->
    is_Some (m !! (newAuthUUID (rng 1%nat), id))
}.

Lemma new_saved_plan_ok op tripID userID revision date time zone now row :
  new_saved_plan op tripID userID revision date time zone now = Ok row ->
  sp_trip_id row = tripID /\ sp_owner_user_id row = userID /\
  sp_saved_plan_revision row = revision /\ sp_created_at row = now.
Proof. unfold new_saved_plan. intros H. by inv_res. Qed.

Lemma copy_mutation_ok old new kind act o activity d u d' :
  (forall id, saved_activities (saved d) !! (new, id) = None) ->
  (forall id n, saved_windows (saved d) !! (new, id, n) = None) ->
  copySavedActivitiesForMutation old new kind act o activity d = Ok (u, d') ->
  let target := match activity with Some a => ai_Ordinal a | None => 0 end in
  exists m w, d' = set_saved_windows w (set_saved_activities m d) /\
  (forall p id, p <> new -> m !! (p, id) = saved_activities (saved d) !! (p, id)) /\
  (forall p id n, p <> new -> w !! (p, id, n) = saved_windows (saved d) !! (p, id, n)) /\
  (forall id a, m !! (new, id) = Some a <-> exists b,
     saved_activities (saved d) !! (old, id) = Some b /\ copied kind act id = true /\
     a = set_sa_ordinal (shifted_ordinal kind o target (sa_ordinal b)) b) /\
  (forall id n x, w !! (new, id, n) = Some x <->
     saved_windows (saved d) !! (old, id, n) = Some x /\ copied kind act id = true).
Proof.
  intros Ha Hw H. unfold copySavedActivitiesForMutation in H.
  apply tx_bind_ok in H as (rows & d0 & H0 & H). apply gets_ok in H0 as [-> ->].
  apply tx_bind_ok in H as ([] & d1 & H1 & H).
  apply (copy_activities_ok _ _ (fun a => set_sa_ordinal (shifted_ordinal kind o
    match activity with Some a => ai_Ordinal a | None => 0 end (sa_ordinal a)) a))
    in H1 as (m & -> & Ho & Hm).
  apply copy_windows_ok in H as (w & -> & Hwo & Hwm). cbn in Hwo, Hwm.
  exists m, w. split_and!; [done|done|done| |].
  - intros id a. rewrite Hm, Ha. setoid_rewrite list_elem_of_In.
    setoid_rewrite List.filter_In. setoid_rewrite <- list_elem_of_In.
    setoid_rewrite elem_of_plan_activities. simpl. split.
    + intros [?|(k & b & [[Hb ->] Hc] & ->)]; [done|]. by exists b.
    + intros (b & Hb & Hc & ->). right. by exists old, b.
  - intros id n x. rewrite Hwm, Hw. naive_solver.
Qed.

Lemma write_mutated_plan_ok clk rng kind r cur o d u d' :
  saved_consistent d -> write_mutated_plan clk rng kind r cur o d = Ok (u, d') ->
  exists row m w,
    d' = set_saved_windows w (set_saved_activities m
      (set_saved_plans (<[newAuthUUID (rng 1%nat) := row]> (saved_plans (saved d))) d)) /\
    plan_written rng kind r (lk_PlanID cur) o row m w d.
Proof.
  intros Hc H. unfold write_mutated_plan in H.
  apply tx_bind_ok in H as (row & d0 & H0 & H). apply lift_ok in H0 as [Hrow ->].
  apply new_saved_plan_ok in Hrow as (Htr & Hus & _ & _).
  apply tx_bind_ok in H as ([] & d1 & H1 & H).
  apply insert_saved_plan_ok in H1 as (Hfr & _ & Hown & ->). rewrite Htr, Hus in Hown.
  destruct (fresh_plan _ _ Hc Hfr) as [Hna Hnw].
  apply tx_bind_ok in H as ([] & d2 & H2 & H).
  apply copy_mutation_ok in H2 as (m & w & -> & Hmo & Hwo & Hm & Hw);
    [|intros; apply Hna|intros; apply Hnw].
  cbn in Hmo, Hwo, Hm, Hw. set (new := newAuthUUID (rng 1%nat)) in *.
  assert (Hww : forall id n x, w !! (new, id, n) = Some x -> is_Some (m !! (new, id))).
  { intros id n x [Hx Hcp]%Hw. apply (sc_window d Hc) in Hx as [b Hb].
    eexists. apply Hm. by exists b. }
  assert (Hins : forall id a d3 opr opw,
    insertSavedActivity opr opw new (am_TripID r) (am_UserID r) id a
      (set_saved_windows w (set_saved_activities m
        (set_saved_plans (<[new := row]> (saved_plans (saved d))) d))) = Ok (u, d3) ->
    inserted_activity rng kind r = Some (id, a) ->
    exists m' w', d3 = set_saved_windows w' (set_saved_activities m'
        (set_saved_plans (<[new := row]> (saved_plans (saved d))) d)) /\
      plan_written rng kind r (lk_PlanID cur) o row m' w' d).
  { intros id a d3 opr opw H3 Hi. apply insertSavedActivity_ok in H3
      as (Hn & _ & Hpl & w' & -> & Hwo' & Hw'). cbn in Hn, Hpl, Hwo', Hw'.
    exists (<[(new, id) := saved_row (am_TripID r) (am_UserID r) (ai_PlaceID a) a]> m), w'.
    split; [done|]. constructor; try done.
    - intros p i Hp. fold new in Hp. rewrite lookup_insert_ne by congruence. by apply Hmo.
    - intros p i n Hp. fold new in Hp. rewrite Hwo' by (simpl; congruence). by apply Hwo.
    - intros i b Hb Hcp. fold new. assert (Hk : m !! (new, i) = Some (copied_row kind r o b))
        by (apply Hm; by exists b).
      rewrite lookup_insert_ne; [done|]. intros [= ->]. by rewrite Hn in Hk.
    - intros i b Hib. rewrite Hi in Hib. simplify_eq. fold new.
      split_and!; [by rewrite lookup_insert_eq|done|]. intros c Hb.
      destruct (copied kind (am_ActivityID r) i) eqn:E; [|done].
      assert (is_Some (m !! (new, i))) as [? Hs] by (eexists; apply Hm; by exists c).
      by rewrite Hn in Hs.
    - intros i b. fold new. rewrite lookup_insert_Some. intros [[[= <-] _]|[_ Hb]].
      + right. by exists a.
      + left. apply Hm in Hb as (c & ? & ? & _). by exists c.
    - intros i n x. fold new. destruct (decide (i = id)) as [->|Hne].
      + intros _. by rewrite lookup_insert_eq.
      + rewrite Hwo' by (simpl; congruence). rewrite lookup_insert_ne by congruence. apply Hww. }
  assert (Hdone : inserted_activity rng kind r = None -> plan_written rng kind r (lk_PlanID cur) o row m w d).
  { intros Hi. constructor; try done.
    - intros i b Hb Hcp. apply Hm. by exists b.
    - intros i a. by rewrite Hi.
    - intros i a (c & ? & ? & _)%Hm. left. by exists c. }
  unfold inserted_activity in *. destruct u. exists row.
  destruct kind, (am_Activity r) as [a|].
  1,3: destruct (Hins _ _ _ _ _ H eq_refl) as (m' & w' & ? & ?); by exists m', w'.
  all: apply mret_ok in H as [_ <-]; exists m, w; split; [done|by apply Hdone].
Qed.

(** ** The mutated list *)

Definition insert_at (n : nat) (x : string) (l : list string) : list string :=
  take n l ++ x :: drop n l.
Definition without (x : string) (l : list string) : list string :=
  List.filter (fun id => negb (bool_decide (id = x))) l.

Lemma insert_at_lookup n x l j y :
  (n <= length l)%nat -> insert_at n x l !! j = Some y ->
  (j = n /\ y = x) \/ (j < n /\ l !! j = Some y)%nat \/ (n < j /\ l !! pred j = Some y)%nat.
Proof.
  intros Hn. unfold insert_at. rewrite lookup_app_Some, length_take_le by done.
  intros [[Hlt Hl]%lookup_take_Some|[Hge Hl]]; [naive_solver|].
  destruct (j - n)%nat as [|k] eqn:E; simpl in Hl; [left; split; [lia|congruence]|].
  right. right. rewrite lookup_drop in Hl. split; [lia|].
  by replace (pred j) with (n + k)%nat by lia.
Qed.

Lemma elem_of_insert_at n x l y : y ∈ insert_at n x l <-> y = x \/ y ∈ l.
Proof.
  unfold insert_at. rewrite elem_of_app, elem_of_cons. rewrite <- (take_drop n l) at 3.
  rewrite elem_of_app. tauto.
Qed.

Lemma insert_at_unique n x l : x ∉ l -> NoDup l -> NoDup (insert_at n x l).
Proof.
  intros Hx Hnd. unfold insert_at. rewrite <- Permutation_middle, take_drop. by constructor.
Qed.

Lemma elem_of_without x l y : y ∈ without x l <-> y ∈ l /\ y <> x.
Proof.
  unfold without. rewrite !list_elem_of_In, List.filter_In, negb_true_iff.
  by rewrite bool_decide_eq_false.
Qed.

Lemma without_NoDup x l : NoDup l -> NoDup (without x l).
Proof. intros H. apply NoDup_ListNoDup, List.NoDup_filter. by apply NoDup_ListNoDup. Qed.

(** Positions once an element is left out. *)
Lemma without_delete l i x : NoDup l -> l !! i = Some x -> without x l = delete i l.
Proof.
  revert i. induction l as [|y l IH]; intros i Hnd Hi; [done|].
  apply NoDup_cons in Hnd as [Hy Hnd]. unfold without in *. simpl.
  destruct i as [|i]; simpl in Hi.
  - simplify_eq. rewrite bool_decide_eq_true_2 by done. simpl. clear IH Hnd.
    induction l as [|z l IH]; [done|]. apply not_elem_of_cons in Hy as [Hz Hl]. simpl.
    rewrite bool_decide_eq_false_2 by congruence. simpl. f_equal. by apply IH.
  - rewrite bool_decide_eq_false_2; [simpl; f_equal; by apply IH|].
    intros ->. apply Hy. by eapply list_elem_of_lookup_2.
Qed.

Lemma without_lookup l i x j y :
  NoDup l -> l !! i = Some x -> without x l !! j = Some y ->
  (j < i /\ l !! j = Some y)%nat \/ (i <= j /\ l !! S j = Some y)%nat.
Proof.
  intros Hnd Hi. rewrite (without_delete l i x) by done. intros H.
  destruct (decide (j < i)%nat) as [?|?].
  - left. by rewrite list_lookup_delete_lt in H.
  - right. rewrite list_lookup_delete_ge in H by lia. split; [lia|done].
Qed.

(** What a mutation does to the list of activities of the saved plan. *)
Definition mutated_itinerary (rng : nat -> bytes) (kind : saved_mutation_kind)
    (r : SavedActivityMutationRequest) (l : list string) : list string :=
  let n := Z.to_nat (target_ordinal r) in
  match kind with
  | KindAdd => insert_at n (newAuthUUID (rng 2%nat)) l
  | KindDelete => without (am_ActivityID r) l
  | KindReplace => insert_at n (am_ActivityID r) (without (am_ActivityID r) l)
  end.

(** Moving an activity is taking it out and inserting it. *)
Lemma shifted_replace old target n :
  n <> old ->
  shifted_ordinal KindReplace old target n =
  shifted_ordinal KindAdd 0 target (shifted_ordinal KindDelete old 0 n).
Proof.
  intros Hne. unfold shifted_ordinal.
  repeat match goal with
  | |- context [?x <? ?y] => destruct (Z.ltb_spec x y)
  | |- context [?x <=? ?y] => destruct (Z.leb_spec x y)
  end; simpl; lia.
Qed.

(** The target the code found before it wrote the plan. *)
Definition targeted (kind : saved_mutation_kind) (r : SavedActivityMutationRequest)
    (old : string) (o : Z) (d : db) : Prop :=
  match kind with
  | KindAdd => am_Activity r <> None /\
      0 <= target_ordinal r <= zlen (saved_itinerary old d)
  | KindDelete => exists b, saved_activities (saved d) !! (old, am_ActivityID r) = Some b /\
      o = sa_ordinal b
  | KindReplace => am_Activity r <> None /\
      0 <= target_ordinal r < zlen (saved_itinerary old d) /\
      exists b, saved_activities (saved d) !! (old, am_ActivityID r) = Some b /\
        o = sa_ordinal b
  end.

Section WrittenPlan.
Context (rng : nat -> bytes) (kind : saved_mutation_kind) (r : SavedActivityMutationRequest).
Context (old : string) (o : Z) (row : saved_plan) (d d2 : db).
Context (Hw : plan_written rng kind r old o row (saved_activities (saved d2))
                (saved_windows (saved d2)) d).
Context (Hd : saved_dense old d).

Let new := newAuthUUID (rng 1%nat).
Let l := saved_itinerary old d.

(** A copied activity, by its old position. *)
Lemma written_copy i id :
  l !! i = Some id -> copied kind (am_ActivityID r) id = true ->
  exists a, saved_activities (saved d2) !! (new, id) = Some a /\
    sa_ordinal a = shifted_ordinal kind o (target_ordinal r) (Z.of_nat i).
Proof.
  intros Hi Hc. destruct (saved_itinerary_lookup _ _ _ _ Hd Hi) as (b & Hb & Ho).
  exists (copied_row kind r o b). split; [by apply (pw_kept _ _ _ _ _ _ _ _ _ Hw)|].
  simpl. by rewrite Ho.
Qed.

(** The inserted activity, at the ordinal asked for. *)
Lemma written_new id a :
  inserted_activity rng kind r = Some (id, a) ->
  exists b, saved_activities (saved d2) !! (new, id) = Some b /\ sa_ordinal b = target_ordinal r.
Proof.
  intros Hi. pose proof (pw_new _ _ _ _ _ _ _ _ _ Hw _ _ Hi) as [Hn _].
  eexists. split; [exact Hn|]. simpl. unfold inserted_activity, target_ordinal in *.
  destruct kind, (am_Activity r); by simplify_eq.
Qed.

Lemma written_only id a :
  saved_activities (saved d2) !! (new, id) = Some a ->
  (id ∈ l /\ copied kind (am_ActivityID r) id = true) \/
  exists i, inserted_activity rng kind r = Some (id, i).
Proof.
  intros H. apply (pw_only _ _ _ _ _ _ _ _ _ Hw) in H as [(b & Hb & Hc)|?]; [left|by right].
  split; [|done]. apply elem_of_saved_itinerary. by eexists.
Qed.
End WrittenPlan.

Ltac shift_lia := unfold shifted_ordinal; repeat match goal with
  | |- context [?x <? ?y] => destruct (Z.ltb_spec x y)
  | |- context [?x <=? ?y] => destruct (Z.leb_spec x y)
  end; simpl; lia.

Lemma copied_add id x : copied KindAdd id x = true.
Proof. done. Qed.
Lemma copied_other kind id x : kind <> KindAdd -> copied kind id x = true <-> x <> id.
Proof.
  intros Hk. unfold copied. rewrite (bool_decide_eq_false_2 (kind = KindAdd)) by done. simpl.
  by rewrite negb_true_iff, bool_decide_eq_false.
Qed.

Lemma written_add rng r old o row d d2 :
  plan_written rng KindAdd r old o row (saved_activities (saved d2)) (saved_windows (saved d2)) d ->
  saved_dense old d -> targeted KindAdd r old o d ->
  saved_itinerary (newAuthUUID (rng 1%nat)) d2 =
    mutated_itinerary rng KindAdd r (saved_itinerary old d) /\
  saved_dense (newAuthUUID (rng 1%nat)) d2.
Proof.
  intros Hw Hd [Hs Ht]. destruct (am_Activity r) as [a|] eqn:Ea; [|done]. clear Hs.
  assert (Hi : inserted_activity rng KindAdd r = Some (newAuthUUID (rng 2%nat), a))
    by (unfold inserted_activity; by rewrite Ea).
  unfold zlen in Ht. apply saved_numbered; cbn [mutated_itinerary].
  - apply insert_at_unique; [|apply saved_itinerary_NoDup]. intros [b Hb]%elem_of_saved_itinerary.
    apply (pw_new _ _ _ _ _ _ _ _ _ Hw) in Hi as (_ & _ & Hi). by specialize (Hi _ Hb).
  - intros j id Hj. apply insert_at_lookup in Hj; [|lia].
    destruct Hj as [[-> ->]|[[Hlt Hj]|[Hlt Hj]]].
    + destruct (written_new _ _ _ _ _ _ _ _ Hw _ _ Hi) as (b & Hb & Ho). exists b.
      split; [done|lia].
    + destruct (written_copy _ _ _ _ _ _ _ _ Hw Hd _ _ Hj) as (b & Hb & Ho); [done|].
      exists b. split; [done|]. rewrite Ho. shift_lia.
    + destruct (written_copy _ _ _ _ _ _ _ _ Hw Hd _ _ Hj) as (b & Hb & Ho); [done|].
      exists b. split; [done|]. rewrite Ho. shift_lia.
  - intros id b Hb. apply elem_of_insert_at.
    apply (written_only _ _ _ _ _ _ _ _ Hw) in Hb as [[? _]|[i Hb]]; [by right|left].
    rewrite Hi in Hb. by simplify_eq.
Qed.

Lemma written_delete rng r old o row d d2 :
  plan_written rng KindDelete r old o row (saved_activities (saved d2)) (saved_windows (saved d2)) d ->
  saved_dense old d -> targeted KindDelete r old o d ->
  saved_itinerary (newAuthUUID (rng 1%nat)) d2 =
    mutated_itinerary rng KindDelete r (saved_itinerary old d) /\
  saved_dense (newAuthUUID (rng 1%nat)) d2.
Proof.
  intros Hw Hd (b0 & Hb0 & ->). destruct (saved_position _ _ _ _ Hd Hb0) as (i0 & Hi0 & Ho0).
  apply saved_numbered; cbn [mutated_itinerary].
  - apply without_NoDup, saved_itinerary_NoDup.
  - intros j id Hj. assert (id <> am_ActivityID r) as Hne
      by (by apply list_elem_of_lookup_2, elem_of_without in Hj as [_ ?]).
    apply (copied_other KindDelete) in Hne as Hc; [|done].
    apply (without_lookup _ i0) in Hj; [|apply saved_itinerary_NoDup|done].
    destruct Hj as [[Hlt Hj]|[Hlt Hj]];
      destruct (written_copy _ _ _ _ _ _ _ _ Hw Hd _ _ Hj Hc) as (b & Hb & Ho);
      exists b; (split; [done|]); rewrite Ho, Ho0; shift_lia.
  - intros id b Hb. apply elem_of_without.
    apply (written_only _ _ _ _ _ _ _ _ Hw) in Hb as [[? Hc]|[i Hb]]; [|done].
    split; [done|]. by apply copied_other in Hc.
Qed.

Lemma written_replace rng r old o row d d2 :
  plan_written rng KindReplace r old o row (saved_activities (saved d2)) (saved_windows (saved d2)) d ->
  saved_dense old d -> targeted KindReplace r old o d ->
  saved_itinerary (newAuthUUID (rng 1%nat)) d2 =
    mutated_itinerary rng KindReplace r (saved_itinerary old d) /\
  saved_dense (newAuthUUID (rng 1%nat)) d2.
Proof.
  intros Hw Hd (Hs & Ht & b0 & Hb0 & ->).
  destruct (saved_position _ _ _ _ Hd Hb0) as (i0 & Hi0 & Ho0).
  destruct (am_Activity r) as [a|] eqn:Ea; [|done]. clear Hs.
  assert (Hi : inserted_activity rng KindReplace r = Some (am_ActivityID r, a))
    by (unfold inserted_activity; by rewrite Ea).
  pose proof (saved_itinerary_NoDup old d) as Hnd. unfold zlen in Ht.
  apply lookup_lt_Some in Hi0 as Hlt0.
  assert (Hlen : length (without (am_ActivityID r) (saved_itinerary old d)) =
    pred (length (saved_itinerary old d))).
  { rewrite (without_delete _ i0) by done. rewrite length_delete by (by eexists). lia. }
  apply saved_numbered; cbn [mutated_itinerary].
  - apply insert_at_unique; [|by apply without_NoDup]. by intros [_ ?]%elem_of_without.
  - intros j id Hj. apply insert_at_lookup in Hj; [|lia].
    destruct Hj as [[-> ->]|Hj].
    { destruct (written_new _ _ _ _ _ _ _ _ Hw _ _ Hi) as (b & Hb & Ho). exists b.
      split; [done|lia]. }
    assert (Hne : id <> am_ActivityID r)
      by (destruct Hj as [[_ Hj]|[_ Hj]]; by apply list_elem_of_lookup_2, elem_of_without in Hj as [_ ?]).
    apply (copied_other KindReplace) in Hne as Hc; [|done].
    assert (Hk : forall k, without (am_ActivityID r) (saved_itinerary old d) !! k = Some id ->
      exists b, saved_activities (saved d2) !! (newAuthUUID (rng 1%nat), id) = Some b /\
        sa_ordinal b = shifted_ordinal KindAdd 0 (target_ordinal r) (Z.of_nat k)).
    { intros k Hk. apply (without_lookup _ i0) in Hk; [|done|done].
      destruct Hk as [[Hlt Hk]|[Hlt Hk]];
        destruct (written_copy _ _ _ _ _ _ _ _ Hw Hd _ _ Hk Hc) as (b & Hb & Ho);
        exists b; (split; [done|]); rewrite Ho, Ho0, shifted_replace by lia; f_equal; shift_lia. }
    destruct Hj as [[Hlt Hj]|[Hlt Hj]]; apply Hk in Hj as (b & Hb & Ho); exists b;
      (split; [done|]); rewrite Ho; shift_lia.
  - intros id b Hb. apply elem_of_insert_at. rewrite elem_of_without.
    apply (written_only _ _ _ _ _ _ _ _ Hw) in Hb as [[? Hc]|[i Hb]].
    + right. split; [done|]. by apply copied_other in Hc.
    + left. rewrite Hi in Hb. by simplify_eq.
Qed.

Lemma written_itinerary rng kind r old o row d d2 :
  plan_written rng kind r old o row (saved_activities (saved d2)) (saved_windows (saved d2)) d ->
  saved_dense old d -> targeted kind r old o d ->
  saved_itinerary (newAuthUUID (rng 1%nat)) d2 =
    mutated_itinerary rng kind r (saved_itinerary old d) /\
  saved_dense (newAuthUUID (rng 1%nat)) d2.
Proof. destruct kind; [apply written_add|apply written_replace|apply written_delete]. Qed.

(** ** Idempotency records *)

Lemma insert_http_record_ok op id h d b d' :
  insert_http_record op id h d = Ok (b, d') ->
  http_record_check h = true /\
  if b then http_records (saved d) !! id = None /\ h_user_id h ∈ users d /\
    (forall k h', http_records (saved d) !! k = Some h' ->
       same_request (h_user_id h) (h_http_method h) (h_normalized_path h)
         (h_idempotency_key h) h' = false) /\
    d' = set_http_records (<[id := h]> (http_records (saved d))) d
  else d' = d.
Proof.
  unfold insert_http_record. intros H.
  destruct (http_record_check h); [|done]. split; [done|]. simpl in H.
  case_match eqn:E1; [by simplify_eq|]. case_match eqn:E2; [done|]. simplify_eq. inv_res.
  split_and!; [by apply eq_None_not_Some|done| |done].
  intros k h' Hk. rewrite any_row_false in E1. exact (E1 _ _ Hk).
Qed.

Lemma reserve_ok clk rng userID key method path operation digest d a d' :
  reserveTripMutation clk rng userID key method path operation digest d = Ok (a, d') ->
  match a with
  | inl id => id = newAuthUUID (rng 0%nat) /\
      http_record_check (new_http_record clk userID key method path operation digest) = true /\
      http_records (saved d) !! id = None /\
      (forall k h, http_records (saved d) !! k = Some h ->
         same_request userID method path key h = false) /\
      d' = set_http_records (<[id := new_http_record clk userID key method path operation digest]>
             (http_records (saved d))) d
  | inr replay => d' = d /\ exists k h, http_records (saved d) !! k = Some h /\
      same_request userID method path key h = true /\ replay_record h digest = Ok replay
  end.
Proof.
  unfold reserveTripMutation. intros H. apply tx_bind_ok in H as (b & d1 & H1 & H).
  apply insert_http_record_ok in H1 as [Hck H1]. destruct b.
  - apply mret_ok in H as [<- <-]. destruct H1 as (? & _ & ? & ->). done.
  - subst d1. apply tx_bind_ok in H as ([k h] & d1 & H1 & H).
    apply find_row_ok in H1 as [H1 ->]. apply head_rows_where in H1 as [Hk Hs].
    apply tx_bind_ok in H as (rp & d1 & H1 & H). apply lift_ok in H1 as [H1 ->].
    apply mret_ok in H as [<- <-]. split; [done|]. by exists k, h.
Qed.

Lemma update_http_record_ok op id P f d n d' h :
  http_records (saved d) !! id = Some h -> P h = true ->
  update_http_record op id P f d = Ok (n, d') ->
  n = 1 /\ http_record_check (f h) = true /\ record_trip_fk (f h) d = true /\
  d' = set_http_records (<[id := f h]> (http_records (saved d))) d.
Proof.
  intros Hh HP H. unfold update_http_record in H. rewrite Hh, HP in H.
  case_match eqn:E; [|done]. simplify_eq. by inv_res.
Qed.

Lemma complete_record_ok op id tripID status ctype body etag now d u d' h :
  http_records (saved d) !! id = Some h -> h_state h = InProgress ->
  complete_record op id tripID status ctype body etag now d = Ok (u, d') ->
  d' = set_http_records (<[id := completed_record tripID status ctype body etag now h]>
         (http_records (saved d))) d.
Proof.
  intros Hh Hs H. unfold complete_record in H. apply tx_bind_ok in H as (n & d1 & H1 & H).
  apply mret_ok in H as [_ <-]. apply (update_http_record_ok _ _ _ _ _ _ _ h) in H1; [|done|].
  - by destruct H1 as (_ & _ & _ & ->).
  - unfold in_progress. by rewrite bool_decide_eq_true.
Qed.

Lemma respond_ok opE opC id userID tripID status now d v d' h :
  http_records (saved d) !! id = Some h -> h_state h = InProgress ->
  respond opE opC id userID tripID status now d = Ok (v, d') ->
  get userID tripID d = Ok v /\ exists body, trip_json v = Some body /\
  d' = set_http_records (<[id := completed_record tripID status (Some "application/json")
         (Some body) (Some (revision_etag (tr_TripRevision v))) now h]>
         (http_records (saved d))) d.
Proof.
  intros Hh Hs H. unfold respond in H. apply tx_bind_ok in H as (w & d1 & H1 & H).
  apply query_ok in H1 as [Hg ->]. apply tx_bind_ok in H as (body & d1 & H1 & H).
  apply lift_ok in H1 as [Hb%of_option_ok ->]. apply tx_bind_ok in H as ([] & d1 & H1 & H).
  apply (complete_record_ok _ _ _ _ _ _ _ _ _ _ _ h) in H1 as ->; [|done|done].
  apply mret_ok in H as [<- <-]. split; [done|]. by exists body.
Qed.

Lemma commit_saved_plan_ok op tripID planID d u d' :
  commit_saved_plan op tripID planID d = Ok (u, d') ->
  d' = d /\ saved_plan_contiguous planID d = true /\ saved_plan_fk tripID d = true.
Proof.
  unfold commit_saved_plan. intros H. case_match eqn:E; [|done]. simplify_eq. by inv_res.
Qed.

(** ** Locks and targets *)

Lemma owned_trip_ok userID tripID d t :
  owned_trip userID tripID d = Some t <-> trips d !! tripID = Some t /\ t_owner_user_id t = userID.
Proof.
  unfold owned_trip. destruct (trips d !! tripID) as [x|]; simpl; [|naive_solver].
  case_bool_decide; naive_solver.
Qed.

Record saved_locked (userID tripID : string) (expected : Z) (cur : lockedSavedTrip) (t : trip)
    (row : saved_plan) (d : db) : Prop := {
  sl_trip : trips d !! tripID = Some t;
  sl_owner : t_owner_user_id t = userID;
  sl_plan : t_saved_plan_id t = Some (lk_PlanID cur);
  sl_row : saved_plans (saved d) !! lk_PlanID cur = Some row;
  sl_inactive : t_execution_state t = Inactive;
  sl_revision : lk_Revision cur = t_trip_revision t /\ t_trip_revision t = int64 expected;
  sl_columns : lk_TripName cur = t_trip_name t /\ lk_TimeZoneName cur = t_default_time_zone_name t;
  sl_display : lk_DisplayDate cur = sp_display_local_date row /\
    lk_DisplayTime cur = sp_display_local_time row /\
    lk_DisplayZone cur = sp_display_time_zone_name row
}.

Lemma lockInactiveSavedTrip_ok userID tripID expected d cur d' :
  lockInactiveSavedTrip userID tripID expected d = Ok (cur, d') ->
  d' = d /\ exists t row, saved_locked userID tripID expected cur t row d.
Proof.
  unfold lockInactiveSavedTrip. intros H. apply tx_bind_ok in H as ([[t p] row] & d1 & H1 & H).
  apply find_row_ok in H1 as [H1 ->]. unfold joined_plan in H1.
  apply bind_Some in H1 as (t' & Ht%owned_trip_ok & H1).
  apply bind_Some in H1 as (p' & Hp & H1). apply bind_Some in H1 as (row' & Hrow & H1).
  simplify_eq. apply tx_bind_ok in H as ([] & d1 & H1 & H).
  apply guard_ok in H1 as [He ->]. apply tx_bind_ok in H as ([] & d1 & H1 & H).
  apply guard_ok in H1 as [Hr ->]. apply mret_ok in H as [<- <-]. inv_res. zbool.
  destruct Ht as [Ht Ho]. split; [done|]. exists t, row.
  constructor; simpl; try done.
  unfold executing in He. apply negb_false_iff in He. by apply bool_decide_eq_true in He.
Qed.

Lemma activity_target_ok kind r p d o d' :
  saved_consistent d -> activity_target kind r p d = Ok (o, d') ->
  d' = d /\ targeted kind r p o d.
Proof.
  intros Hc H. unfold activity_target in H. apply tx_bind_ok in H as (n & d1 & H1 & H).
  apply gets_ok in H1 as [-> ->].
  assert (Hn : zlen (plan_activities p d) = zlen (saved_itinerary p d))
    by (unfold saved_itinerary, zlen; by rewrite length_map).
  rewrite Hn in H. unfold targeted, target_ordinal.
  destruct kind.
  - apply tx_bind_ok in H as ([] & d1 & H1 & H). apply guard_ok in H1 as [H1 ->].
    apply mret_ok in H as [<- <-]. inv_res. destruct (am_Activity r) as [a|]; [|done].
    inv_res. unfold validSavedActivityInput, within in *. inv_res. zbool. split_and!; [done..|lia|lia].
  - apply tx_bind_ok in H as (b & d1 & H1 & H). apply find_row_ok in H1 as [Hb ->].
    apply tx_bind_ok in H as ([] & d1 & H1 & H). apply guard_ok in H1 as [_ ->].
    apply tx_bind_ok in H as ([] & d1 & H1 & H). apply guard_ok in H1 as [H1 ->].
    apply mret_ok in H as [<- <-]. rewrite bool_decide_eq_true_2 in H1 by done. simpl in H1.
    destruct (am_Activity r) as [a|]; [|done]. inv_res.
    unfold validSavedActivityInput, within in *. inv_res. zbool.
    split_and!; [done..|lia|lia|]. by exists b.
  - apply tx_bind_ok in H as (b & d1 & H1 & H). apply find_row_ok in H1 as [Hb ->].
    apply tx_bind_ok in H as ([] & d1 & H1 & H). apply guard_ok in H1 as [_ ->].
    apply tx_bind_ok in H as ([] & d1 & H1 & H). apply guard_ok in H1 as [H1 ->].
    apply mret_ok in H as [<- <-]. split; [done|]. by exists b.
Qed.

(** The views do not read the idempotency records. *)
Lemma activity_views_records m rows d :
  activity_views (set_http_records m d) rows = activity_views d rows.
Proof.
  induction rows as [|[[p id] a] rows IH]; [done|]. cbn [activity_views]. rewrite IH.
  reflexivity.
Qed.

Lemma get_records m userID tripID d : get userID tripID (set_http_records m d) = get userID tripID d.
Proof.
  unfold get. change (owned_trip userID tripID (set_http_records m d)) with (owned_trip userID tripID d).
  destruct (owned_trip userID tripID d) as [t|]; [|done].
  cbn -[activity_views plan_activities loadExecutionOperation FormatInt selected_plan].
  destruct (t_saved_plan_id t) as [p|]; [|done].
  cbn -[activity_views plan_activities loadExecutionOperation FormatInt selected_plan].
  destruct (reject_if _ _); [|done].
  cbn -[activity_views plan_activities loadExecutionOperation FormatInt selected_plan].
  change (selected_plan userID tripID p (set_http_records m d)) with (selected_plan userID tripID p d).
  destruct (selected_plan userID tripID p d); [|done].
  cbn -[activity_views plan_activities loadExecutionOperation FormatInt selected_plan].
  rewrite activity_views_records. reflexivity.
Qed.

End SavedFacts.
