(* ===== verification/SavedProps.v ===== *)
(** * Properties of saved-trip mutations

    Every mutation keeps the saved-trip tables consistent; an activity mutation
    refines an edit of a list; a created trip is read back as it was asked for; a
    repeated request repeats its answer and changes nothing. *)

From S2P Require Import Prelude GoLib GoText Schema Tables SavedTables.
From S2P Require Import SavedMutations SavedFacts.

Section SavedProps.
Context {PG : Postgres} {SS : SavedServer} {TZ : TimeZones}.

(** ** Publishing a saved plan keeps the tables consistent *)

Lemma owned_place_ok placeID userID d p :
  owned_place placeID userID d = Some p <->
  places (saved d) !! placeID = Some p /\ pc_owner_user_id p = userID.
Proof.
  unfold owned_place. destruct (places (saved d) !! placeID) as [x|]; simpl; [|naive_solver].
  case_bool_decide; naive_solver.
Qed.

Lemma saved_activity_fk_ok p a d :
  saved_activity_fk p a d = true <->
  (exists row, saved_plans (saved d) !! p = Some row /\ sp_trip_id row = sa_trip_id a /\
     sp_owner_user_id row = sa_owner_user_id a) /\
  is_Some (owned_place (sa_place_id a) (sa_owner_user_id a) d).
Proof.
  unfold saved_activity_fk. rewrite andb_true_iff. split.
  - intros [H1 H2]. destruct (saved_plans (saved d) !! p) as [row|]; [|done].
    destruct (places (saved d) !! sa_place_id a) as [pl|] eqn:E; [|done]. inv_res.
    split; [by exists row|]. exists pl. by apply owned_place_ok.
  - intros [(row & -> & -> & ->) [pl [-> ->]%owned_place_ok]].
    by rewrite !bool_decide_eq_true_2.
Qed.

Lemma trip_check_lifecycle t : trip_check t = true -> lifecycle_check t = true.
Proof. unfold trip_check. intros H. by inv_res. Qed.

(** A plan none of whose rows changed. *)
Lemma itinerary_kept p d d' :
  saved_dense p d ->
  (forall id, saved_activities (saved d') !! (p, id) = saved_activities (saved d) !! (p, id)) ->
  saved_itinerary p d' = saved_itinerary p d /\ saved_dense p d'.
Proof.
  intros Hd He. apply saved_numbered; [apply saved_itinerary_NoDup| |].
  - intros i id Hi. rewrite He. by apply saved_itinerary_lookup.
  - intros id a. rewrite He. intros Ha. apply elem_of_saved_itinerary. by eexists.
Qed.

Definition records_unique (d : db) : Prop := forall k1 k2 h1 h2,
  http_records (saved d) !! k1 = Some h1 -> http_records (saved d) !! k2 = Some h2 ->
  same_request (h_user_id h1) (h_http_method h1) (h_normalized_path h1)
    (h_idempotency_key h1) h2 = true -> k1 = k2.

(** The tables after a plan [new] of the trip is written and selected. *)
Record published_plan (new tripID : string) (row : saved_plan) (t' : trip) (d d' : db) : Prop := {
  pu_fresh : saved_plans (saved d) !! new = None;
  pu_plans : saved_plans (saved d') = <[new := row]> (saved_plans (saved d));
  pu_places : places (saved d') = places (saved d);
  pu_activities : forall p id, p <> new ->
    saved_activities (saved d') !! (p, id) = saved_activities (saved d) !! (p, id);
  pu_windows : forall p id n, p <> new ->
    saved_windows (saved d') !! (p, id, n) = saved_windows (saved d) !! (p, id, n);
  pu_rows : forall id a, saved_activities (saved d') !! (new, id) = Some a ->
    sa_trip_id a = tripID /\ sa_owner_user_id a = sp_owner_user_id row /\
    is_Some (owned_place (sa_place_id a) (sa_owner_user_id a) d);
  pu_window_rows : forall id n w, saved_windows (saved d') !! (new, id, n) = Some w ->
    is_Some (saved_activities (saved d') !! (new, id));
  pu_dense : saved_dense new d';
  pu_nonempty : saved_itinerary new d' <> [];
  pu_row : sp_trip_id row = tripID;
  pu_trips : trips d' = <[tripID := t']> (trips d);
  pu_owner : t_owner_user_id t' = sp_owner_user_id row;
  pu_same_owner : forall t, trips d !! tripID = Some t -> t_owner_user_id t = t_owner_user_id t';
  pu_selected : t_saved_plan_id t' = Some new;
  pu_operations : operations (saved d') = operations (saved d);
  pu_kept : plans d' = plans d;
  pu_inactive : t_execution_state t' = Inactive /\ trip_check t' = true;
  pu_was_inactive : forall t, trips d !! tripID = Some t -> t_execution_state t = Inactive
}.

Lemma publish_consistent new tripID row t' d d' :
  saved_consistent d -> records_unique d' -> published_plan new tripID row t' d d' ->
  saved_consistent d'.
Proof.
  intros Hc Hu [Hfr Hpl Hplaces Hact Hwin Hrows Hwr Hde Hne Htr Htrips Ho Hso Hsel _ _ _ _].
  assert (Hplace : forall a u, is_Some (owned_place a u d) -> is_Some (owned_place a u d'))
    by (intros a u; unfold owned_place; by rewrite Hplaces).
  constructor; [| | | | |exact Hu].
  - intros p id a Ha. apply saved_activity_fk_ok. rewrite Hpl.
    destruct (decide (p = new)) as [->|Hp].
    + destruct (Hrows _ _ Ha) as (? & ? & ?). split; [|auto]. exists row.
      rewrite lookup_insert_eq. split_and!; congruence.
    + rewrite Hact in Ha by done. apply (sc_activity d Hc), saved_activity_fk_ok in Ha as [Hr ?].
      rewrite lookup_insert_ne by done. auto.
  - intros p id n w Hw. destruct (decide (p = new)) as [->|Hp]; [by eapply Hwr|].
    rewrite Hwin in Hw by done. rewrite Hact by done. by eapply (sc_window d Hc).
  - intros p x. rewrite Hpl. intros [[<- _]|[Hp Hx]]%lookup_insert_Some; [done|].
    destruct (sc_dense d Hc _ _ Hx) as [Hd Hn].
    destruct (itinerary_kept p d d') as [-> ?]; [done| |done]. intros id. by apply Hact.
  - intros p x. rewrite Hpl, Htrips. intros [[<- <-]|[Hp Hx]]%lookup_insert_Some.
    + exists t'. by rewrite Htr, lookup_insert_eq.
    + destruct (sc_owner d Hc _ _ Hx) as (t & Ht & Hto).
      destruct (decide (sp_trip_id x = tripID)) as [He|He].
      * exists t'. rewrite He, lookup_insert_eq. split; [done|]. rewrite He in Ht.
        rewrite <- Hto. symmetry. by apply Hso.
      * exists t. by rewrite lookup_insert_ne.
  - intros k t p. rewrite Hpl, Htrips. intros [[<- <-]|[Hk Ht]]%lookup_insert_Some Hp.
    + exists row. rewrite Hsel in Hp. simplify_eq. by rewrite lookup_insert_eq.
    + destruct (sc_selected d Hc _ _ _ Ht Hp) as (x & Hx & ?). exists x.
      rewrite lookup_insert_ne by congruence. done.
Qed.

(** The key of a record is written once. *)
Lemma reserved_unique userID key method path d d1 id h' :
  records_unique d ->
  (forall k h, http_records (saved d) !! k = Some h ->
     same_request userID method path key h = false) ->
  http_records (saved d) !! id = None ->
  h_user_id h' = userID -> h_http_method h' = method -> h_normalized_path h' = path ->
  h_idempotency_key h' = key ->
  http_records (saved d1) = <[id := h']> (http_records (saved d)) -> records_unique d1.
Proof.
  intros Hu Hn Hid E1 E2 E3 E4 Hr k1 k2 h1 h2. rewrite Hr.
  intros [[<- <-]|[Hk1 H1]]%lookup_insert_Some [[<- <-]|[Hk2 H2]]%lookup_insert_Some; [done| | |].
  - rewrite E1, E2, E3, E4. intros Hs. by rewrite (Hn _ _ H2) in Hs.
  - intros Hs. apply Hn in H1. unfold same_request in Hs, H1. inv_res. exfalso.
    rewrite !bool_decide_eq_true_2 in H1 by congruence. done.
  - by apply Hu.
Qed.

(** ** One activity mutation *)

(** The trip after an activity mutation. *)
Definition mutated_trip (now : Z) (planID : string) (t : trip) : trip :=
  set_t_updated_at now (set_t_trip_revision (t_trip_revision t + 1)
    (set_t_saved_plan_id (Some planID) t)).

(** The database after the plan is written: [reserved] is the record. *)
Definition activity_mutated_db (clk : nat -> Z) (rng : nat -> bytes) (tripID : string)
    (row : saved_plan) (m : gmap (string * string) saved_activity)
    (w : gmap (string * string * Z) saved_window) (t : trip) (reserved : http_record) (d : db)
  : db :=
  let new := newAuthUUID (rng 1%nat) in
  set_http_records (<[newAuthUUID (rng 0%nat) := reserved]> (http_records (saved d)))
    (set_trips (<[tripID := mutated_trip (clk 3%nat) new t]> (trips d))
      (set_saved_windows w (set_saved_activities m
        (set_saved_plans (<[new := row]> (saved_plans (saved d))) d)))).

Record activity_mutated (clk : nat -> Z) (rng : nat -> bytes) (kind : saved_mutation_kind)
    (r : SavedActivityMutationRequest) (out : MutatedSavedTrip) (d d' : db) : Prop := {
  mu_fresh : ms_Duplicate out = false;
  mu_check : http_record_check (new_http_record clk (am_UserID r) (am_IdempotencyKey r)
    (mutation_method kind) (mutation_path kind r) (mutation_operation kind)
    (am_RequestDigest r)) = true;
  mu_new_record : http_records (saved d) !! newAuthUUID (rng 0%nat) = None;
  mu_new_request : forall k h, http_records (saved d) !! k = Some h ->
    same_request (am_UserID r) (mutation_method kind) (mutation_path kind r)
      (am_IdempotencyKey r) h = false;
  mu_view : get (am_UserID r) (am_TripID r) d' = Ok (ms_Trip out);
  mu_writes : exists cur t old o row m w body,
    saved_locked (am_UserID r) (am_TripID r) (am_ExpectedRevision r) cur t old d /\
    targeted kind r (lk_PlanID cur) o d /\
    plan_written rng kind r (lk_PlanID cur) o row m w d /\
    saved_plan_contiguous (newAuthUUID (rng 1%nat)) d' = true /\
    trip_check (mutated_trip (clk 3%nat) (newAuthUUID (rng 1%nat)) t) = true /\
    trip_json (ms_Trip out) = Some body /\
    d' = activity_mutated_db clk rng (am_TripID r) row m w t
           (completed_record (am_TripID r) (mutation_status kind) (Some "application/json")
              (Some body) (Some (revision_etag (tr_TripRevision (ms_Trip out)))) (clk 4%nat)
              (new_http_record clk (am_UserID r) (am_IdempotencyKey r) (mutation_method kind)
                 (mutation_path kind r) (mutation_operation kind) (am_RequestDigest r))) d
}.

(** A reserved record does not disturb the saved tables. *)
Lemma saved_consistent_records m d :
  saved_consistent d -> records_unique (set_http_records m d) ->
  saved_consistent (set_http_records m d).
Proof. intros [] Hu. by constructor. Qed.

Lemma reserved_consistent clk userID key method path operation digest id d :
  saved_consistent d -> http_records (saved d) !! id = None ->
  (forall k h, http_records (saved d) !! k = Some h ->
     same_request userID method path key h = false) ->
  saved_consistent (set_http_records
    (<[id := new_http_record clk userID key method path operation digest]>
       (http_records (saved d))) d).
Proof.
  intros Hc Hn Hnew. apply saved_consistent_records; [done|].
  eapply (reserved_unique userID key method path d); [exact (sc_request d Hc)|done|done|..].
  5: reflexivity. all: reflexivity.
Qed.

Lemma mutate_saved_ok clk rng kind r h d out d' :
  http_records (saved d) !! newAuthUUID (rng 0%nat) = Some h -> h_state h = InProgress ->
  saved_consistent d -> mutate_saved clk rng kind r (newAuthUUID (rng 0%nat)) d = Ok (out, d') ->
  ms_Duplicate out = false /\ get (am_UserID r) (am_TripID r) d' = Ok (ms_Trip out) /\
  exists cur t old o row m w body,
    saved_locked (am_UserID r) (am_TripID r) (am_ExpectedRevision r) cur t old d /\
    targeted kind r (lk_PlanID cur) o d /\
    plan_written rng kind r (lk_PlanID cur) o row m w d /\
    saved_plan_contiguous (newAuthUUID (rng 1%nat)) d' = true /\
    trip_check (mutated_trip (clk 3%nat) (newAuthUUID (rng 1%nat)) t) = true /\
    trip_json (ms_Trip out) = Some body /\
    d' = activity_mutated_db clk rng (am_TripID r) row m w t
           (completed_record (am_TripID r) (mutation_status kind) (Some "application/json")
              (Some body) (Some (revision_etag (tr_TripRevision (ms_Trip out)))) (clk 4%nat) h) d.
Proof.
  intros Hh Hs Hc H. unfold mutate_saved in H.
  apply tx_bind_ok in H as (cur & d1 & H1 & H).
  apply lockInactiveSavedTrip_ok in H1 as (-> & t & old & Hlk).
  apply tx_bind_ok in H as (o & d1 & H1 & H).
  apply activity_target_ok in H1 as [-> Htg]; [|done].
  apply tx_bind_ok in H as ([] & d1 & H1 & H).
  apply write_mutated_plan_ok in H1 as (row & m & w & -> & Hw); [|done].
  apply tx_bind_ok in H as ([] & d1 & H1 & H).
  apply (update_trip_ok _ _ _ _ _ _ t) in H1 as [Htc ->]; [|exact (sl_trip _ _ _ _ _ _ _ Hlk)].
  apply tx_bind_ok in H as (v & d1 & H1 & H).
  apply (respond_ok _ _ _ _ _ _ _ _ _ _ h) in H1 as (Hg & body & Hb & ->); [|done|done].
  apply tx_bind_ok in H as ([] & d1 & H1 & H).
  apply commit_saved_plan_ok in H1 as (-> & Hcg & _). apply mret_ok in H as [<- <-].
  split; [done|]. split; [by rewrite get_records|]. exists cur, t, old, o, row, m, w, body.
  split_and!; [done..|reflexivity].
Qed.

Lemma mutateActivity_ok clk rng r kind d out d' :
  saved_consistent d -> mutateActivity clk rng r kind d = Ok (out, d') ->
  ms_Duplicate out = false -> activity_mutated clk rng kind r out d d'.
Proof.
  intros Hc H Hdup. unfold mutateActivity in H. apply tx_bind_ok in H as ([] & d1 & H1 & H).
  apply guard_ok in H1 as [_ ->]. apply tx_bind_ok in H as (a & d1 & H1 & H).
  apply reserve_ok in H1. destruct a as [id|rp].
  - destruct H1 as (-> & Hck & Hn & Hnew & ->).
    set (h := new_http_record _ _ _ _ _ _ _) in H.
    apply (mutate_saved_ok _ _ _ _ h) in H as (_ & Hg & Hw);
      [|by cbn; rewrite lookup_insert_eq|done|].
    + destruct Hw as (cur & t & old & o & row & m & w & body & Hlk & Htg & Hw & Hcg & Htc & Hb & Hd').
      constructor; [done..|]. exists cur, t, old, o, row, m, w, body.
      split; [destruct Hlk; by constructor|]. split; [by destruct kind|].
      split; [destruct Hw; by constructor|]. split_and!; [done..|].
      rewrite Hd'. unfold activity_mutated_db. cbn. by rewrite insert_insert_eq.
    + by apply reserved_consistent.
  - destruct H1 as [-> _]. apply lift_ok in H as [H _]. unfold replayed_trip in H. by inv_res.
Qed.

(** ** Activity mutations refine edits of a list *)

Lemma contiguous_nonempty p row d :
  saved_plans (saved d) !! p = Some row -> saved_plan_contiguous p d = true ->
  saved_itinerary p d <> [].
Proof.
  intros Hp H. unfold saved_plan_contiguous in H. rewrite Hp in H.
  unfold saved_itinerary. by destruct (plan_activities p d).
Qed.

Lemma activity_mutated_published clk rng kind r out d d' :
  saved_consistent d -> activity_mutated clk rng kind r out d d' ->
  exists cur t row0 row,
    saved_locked (am_UserID r) (am_TripID r) (am_ExpectedRevision r) cur t row0 d /\
    published_plan (newAuthUUID (rng 1%nat)) (am_TripID r) row
      (mutated_trip (clk 3%nat) (newAuthUUID (rng 1%nat)) t) d d' /\
    saved_itinerary (newAuthUUID (rng 1%nat)) d' =
      mutated_itinerary rng kind r (saved_itinerary (lk_PlanID cur) d).
Proof.
  intros Hc [_ _ _ _ _ (cur & t & row0 & o & row & m & w & body & Hlk & Htg & Hw & Hcg & Htc & Hb & Hd')].
  exists cur, t, row0, row. split; [done|].
  destruct (sc_dense d Hc _ _ (sl_row _ _ _ _ _ _ _ Hlk)) as [Hd _].
  destruct (sc_selected d Hc _ _ _ (sl_trip _ _ _ _ _ _ _ Hlk) (sl_plan _ _ _ _ _ _ _ Hlk))
    as (x & Hx & Hxt). rewrite (sl_row _ _ _ _ _ _ _ Hlk) in Hx. injection Hx as <-.
  destruct (sc_owner d Hc _ _ (sl_row _ _ _ _ _ _ _ Hlk)) as (t0 & Ht0 & Ho0).
  rewrite Hxt, (sl_trip _ _ _ _ _ _ _ Hlk) in Ht0. injection Ht0 as <-.
  assert (Hwd : plan_written rng kind r (lk_PlanID cur) o row (saved_activities (saved d'))
    (saved_windows (saved d')) d) by (by rewrite Hd').
  destruct (written_itinerary _ _ _ _ _ _ _ _ Hwd Hd Htg) as [Hit Hde].
  split; [|done]. destruct Hwd as [Hf Htr Hus (t1 & Ht1 & Ho1) Hoth Hwo Hk Hn Hon Hww].
  assert (Hrow' : saved_plans (saved d') = <[newAuthUUID (rng 1%nat) := row]> (saved_plans (saved d)))
    by (by rewrite Hd').
  constructor; try done; try by rewrite Hd'.
  - intros id a Ha. destruct (Hon _ _ Ha) as [(b & Hbd & Hcp)|(i & Hi)].
    + rewrite (Hk _ _ Hbd Hcp) in Ha. injection Ha as <-. cbn.
      apply (sc_activity d Hc), saved_activity_fk_ok in Hbd as [(y & Hy & Hyt & Hyo) Hpl].
      rewrite (sl_row _ _ _ _ _ _ _ Hlk) in Hy. injection Hy as <-.
      rewrite <- Hyt, <- Hyo, Hxt, <- Ho0, Hus. rewrite <- Hyo, <- Ho0 in Hpl.
      by rewrite (sl_owner _ _ _ _ _ _ _ Hlk) in Hpl |- *.
    + destruct (Hn _ _ Hi) as (Ha' & Hpl & _). rewrite Ha' in Ha. injection Ha as <-. cbn.
      by rewrite Hus.
  - eapply contiguous_nonempty; [|exact Hcg]. rewrite Hrow'. by rewrite lookup_insert_eq.
  - cbn. by rewrite (sl_owner _ _ _ _ _ _ _ Hlk), Hus.
  - intros t2 Ht2. rewrite (sl_trip _ _ _ _ _ _ _ Hlk) in Ht2. by injection Ht2 as <-.
  - split; [exact (sl_inactive _ _ _ _ _ _ _ Hlk)|done].
  - intros t2 Ht2. rewrite (sl_trip _ _ _ _ _ _ _ Hlk) in Ht2. injection Ht2 as <-.
    exact (sl_inactive _ _ _ _ _ _ _ Hlk).
Qed.

Lemma mutateActivity_consistent clk rng r kind d out d' :
  saved_consistent d -> mutateActivity clk rng r kind d = Ok (out, d') -> saved_consistent d'.
Proof.
  intros Hc H. destruct (ms_Duplicate out) eqn:Hdup.
  - unfold mutateActivity in H. apply tx_bind_ok in H as ([] & d1 & H1 & H).
    apply guard_ok in H1 as [_ ->]. apply tx_bind_ok in H as (a & d1 & H1 & H).
    apply reserve_ok in H1. destruct a as [id|rp].
    + destruct H1 as (-> & Hck & Hn & Hnew & ->). exfalso.
      apply (mutate_saved_ok _ _ _ _ (new_http_record clk (am_UserID r) (am_IdempotencyKey r)
        (mutation_method kind) (mutation_path kind r) (mutation_operation kind)
        (am_RequestDigest r))) in H as [Hf _]; [by rewrite Hf in Hdup|..].
      * cbn. by rewrite lookup_insert_eq.
      * done.
      * by apply reserved_consistent.
    + destruct H1 as [-> _]. by apply lift_ok in H as [_ ->].
  - pose proof (mutateActivity_ok _ _ _ _ _ _ _ Hc H Hdup) as Hm.
    destruct (activity_mutated_published _ _ _ _ _ _ _ Hc Hm) as (cur & t & row0 & row & _ & Hp & _).
    eapply publish_consistent; [done| |exact Hp].
    destruct Hm as [_ _ Hn Hnew _ (? & ? & ? & ? & ? & ? & ? & ? & _ & _ & _ & _ & _ & _ & ->)].
    eapply (reserved_unique (am_UserID r) (am_IdempotencyKey r));
      [exact (sc_request d Hc)|exact Hnew|exact Hn|..|reflexivity]; reflexivity.
Qed.

(** The activities a response lists. *)
Definition view_ids (v : TripView) : list string :=
  List.map av_ActivityID (spv_Activities (tr_SavedPlan v)).

Lemma activity_views_ids d rows views :
  (forall k a, (k, a) ∈ rows -> is_Some (places (saved d) !! sa_place_id a)) ->
  activity_views d rows = Ok views ->
  List.map av_ActivityID views = List.map (fun kv => kv.1.2) rows.
Proof.
  revert views. induction rows as [|[[p id] a] rows IH]; intros views Hp H.
  - simpl in H. by simplify_eq.
  - cbn [activity_views] in H. destruct (Hp (p, id) a) as [pl Hpl]; [by left|].
    rewrite Hpl in H. apply bind_ok in H as (v & Hv & H). apply bind_ok in H as (l & Hl & H).
    simplify_eq. cbn. rewrite (IH l); [|intros k b Hb; eapply Hp; by right|done].
    unfold activity_view in Hv. apply bind_ok in Hv as (s & _ & Hv). by simplify_eq.
Qed.

Lemma get_ids userID tripID d v t p :
  saved_consistent d -> get userID tripID d = Ok v -> trips d !! tripID = Some t ->
  t_saved_plan_id t = Some p -> view_ids v = saved_itinerary p d.
Proof.
  intros Hc H Ht Hp. unfold get in H. apply bind_ok in H as (t' & H1%of_option_ok & H).
  apply owned_trip_ok in H1 as [H1 _]. rewrite Ht in H1. injection H1 as <-.
  apply bind_ok in H as (p' & H1%of_option_ok & H). rewrite Hp in H1. injection H1 as <-.
  apply bind_ok in H as ([] & _ & H). apply bind_ok in H as (row & _ & H).
  apply bind_ok in H as (views & Hv & H). apply bind_ok in H as ([] & _ & H).
  apply bind_ok in H as (op & _ & H). injection H as <-. cbn.
  unfold view_ids. cbn. eapply activity_views_ids; [|exact Hv].
  intros [q id] a [Ha _]%elem_of_plan_activities. apply (sc_activity d Hc) in Ha.
  apply saved_activity_fk_ok in Ha as [_ [pl [Hpl _]%owned_place_ok]]. by eexists.
Qed.

(** C33: a fresh activity mutation selects a new saved plan at the next trip revision
    whose activities are the old plan's with one inserted at the ordinal asked
    for, moved to it, or removed, with ordinals counting from zero; the response
    lists them; the tables stay consistent and every other saved plan keeps its
    rows. *)
Theorem activity_mutation_refines clk rng r kind d out d' :
  saved_consistent d -> mutateActivity clk rng r kind d = Ok (out, d') ->
  ms_Duplicate out = false ->
  let new := newAuthUUID (rng 1%nat) in
  exists t old, trips d !! am_TripID r = Some t /\ t_saved_plan_id t = Some old /\
    trips d' !! am_TripID r = Some (mutated_trip (clk 3%nat) new t) /\
    saved_itinerary new d' = mutated_itinerary rng kind r (saved_itinerary old d) /\
    saved_dense new d' /\ view_ids (ms_Trip out) = saved_itinerary new d' /\
    saved_consistent d' /\
    forall p, p <> new -> saved_plans (saved d') !! p = saved_plans (saved d) !! p /\
      forall id, saved_activities (saved d') !! (p, id) = saved_activities (saved d) !! (p, id).
Proof.
  intros Hc H Hdup new. pose proof (mutateActivity_consistent _ _ _ _ _ _ _ Hc H) as Hc'.
  pose proof (mutateActivity_ok _ _ _ _ _ _ _ Hc H Hdup) as Hm.
  destruct (activity_mutated_published _ _ _ _ _ _ _ Hc Hm) as (cur & t & row0 & row & Hlk & Hp & Hit).
  assert (Ht' : trips d' !! am_TripID r = Some (mutated_trip (clk 3%nat) new t))
    by (rewrite (pu_trips _ _ _ _ _ _ Hp); by rewrite lookup_insert_eq).
  exists t, (lk_PlanID cur). split_and!; [by destruct Hlk|by destruct Hlk|done|done|by destruct Hp| |done|].
  - eapply get_ids; [done|exact (mu_view _ _ _ _ _ _ _ Hm)|exact Ht'|done].
  - intros p Hne. rewrite (pu_plans _ _ _ _ _ _ Hp), lookup_insert_ne by done.
    split; [done|]. intros id. by apply (pu_activities _ _ _ _ _ _ Hp).
Qed.

(** ** Repeated requests *)

(** A new request stored its answer in the record [id]. *)
Definition stored_answer (clk : nat -> Z) (id userID key method path operation : string)
    (digest : bytes) (status : Z) (v : TripView) (d d' : db) : Prop :=
  let h := new_http_record clk userID key method path operation digest in
  http_record_check h = true /\ http_records (saved d) !! id = None /\
  (forall k x, http_records (saved d) !! k = Some x ->
     same_request userID method path key x = false) /\
  exists tripID body etag now, trip_json v = Some body /\
    http_records (saved d') = <[id := completed_record tripID status (Some "application/json")
      (Some body) etag now h]> (http_records (saved d)).

Lemma stored_answer_unique clk id userID key method path operation digest status v d d' :
  records_unique d ->
  stored_answer clk id userID key method path operation digest status v d d' -> records_unique d'.
Proof.
  intros Hu (_ & Hn & Hnew & tripID & body & etag & now & _ & Hr).
  eapply (reserved_unique userID key method path d d' id); [done|exact Hnew|exact Hn|..|exact Hr];
    reflexivity.
Qed.

(** The clock condition of a new record. *)
Definition clock_ok (clk : nat -> Z) : Prop := clk 0%nat < clk 1%nat + httpIdempotencyRetention.

Lemma new_record_check clk clk' userID key method path operation digest :
  clock_ok clk' ->
  http_record_check (new_http_record clk userID key method path operation digest) = true ->
  http_record_check (new_http_record clk' userID key method path operation digest) = true.
Proof.
  intros Hk. unfold http_record_check, clock_ok in *. cbn -[httpIdempotencyRetention].
  rewrite (proj2 (Z.ltb_lt _ _) Hk). 
  intros H. repeat match goal with
  | H : _ && _ = true |- _ => apply andb_true_iff in H as [? ?]
  | |- _ && _ = true => apply andb_true_iff; split
  end; assumption || reflexivity.
Qed.

Lemma same_request_new clk userID key method path operation digest :
  same_request userID method path key
    (new_http_record clk userID key method path operation digest) = true.
Proof. unfold same_request. cbn. by rewrite !bool_decide_eq_true_2. Qed.

Section Replay.
Context (clk clk' : nat -> Z) (rng' : nat -> bytes).
Context (id userID key method path operation : string) (digest : bytes) (status : Z).
Context (v : TripView) (d d' : db).
Context (Hu : records_unique d).
Context (Ha : stored_answer clk id userID key method path operation digest status v d d').
Context (Hk : clock_ok clk').

Let h' := new_http_record clk' userID key method path operation digest.

Lemma replay_found :
  exists tripID body etag now,
    trip_json v = Some body /\
    stored_record userID method path key d' = Some (id,
      completed_record tripID status (Some "application/json") (Some body) etag now
        (new_http_record clk userID key method path operation digest)).
Proof.
  pose proof (stored_answer_unique _ _ _ _ _ _ _ _ _ _ _ _ Hu Ha) as Hu'.
  destruct Ha as (_ & Hn & Hnew & tripID & body & etag & now & Hb & Hr).
  exists tripID, body, etag, now. split; [done|].
  unfold stored_record. erewrite rows_where_unique; [reflexivity|..].
  - rewrite Hr. by rewrite lookup_insert_eq.
  - apply same_request_new.
  - intros k x. rewrite Hr. intros [[<- <-]|[_ Hx]]%lookup_insert_Some; [done|].
    intros Hs. by rewrite (Hnew _ _ Hx) in Hs.
Qed.

Lemma replay_not_inserted op id' : insert_http_record op id' h' d' = Ok (false, d').
Proof.
  destruct Ha as (Hck & Hn & Hnew & tripID & body & etag & now & Hb & Hr).
  unfold insert_http_record. subst h'. rewrite (new_record_check clk clk') by done.
  match goal with |- context [any_row ?P ?m] => assert (any_row P m = true) as -> end; [|done].
  apply any_row_true. exists id. eexists. rewrite Hr. split; [by rewrite lookup_insert_eq|].
  apply same_request_new.
Qed.

Lemma replay_reserved :
  exists body etag, trip_json v = Some body /\
  reserveTripMutation clk' rng' userID key method path operation digest d' =
    Ok (inr (MkReplay status (Some body) etag), d').
Proof.
  destruct replay_found as (tripID & body & etag & now & Hb & Hf).
  exists body, (text_or_empty etag). split; [done|]. unfold reserveTripMutation.
  eapply tx_bind_run; [apply replay_not_inserted|]. cbv beta iota.
  eapply tx_bind_run; [by apply find_row_ok; split; [exact Hf|]|]. cbv beta.
  eapply tx_bind_run; [apply lift_ok; split; [|reflexivity]|reflexivity].
  unfold replay_record, constant_time_eq. cbn. by rewrite !bool_decide_eq_true_2 by done.
Qed.

Lemma replay_trip `{!SavedServerLaws SS} body etag invalid :
  trip_json v = Some body ->
  replayed_trip invalid status (MkReplay status (Some body) etag) = Ok (MkMutatedSavedTrip v true).
Proof.
  intros Hb. unfold replayed_trip. cbn. rewrite Z.eqb_refl. cbn.
  by rewrite (trip_json_read v body).
Qed.
End Replay.

(** ** Renaming and rescheduling a trip *)

Definition updated_trip (now : Z) (planID name zone : string) (t : trip) : trip :=
  set_t_updated_at now (set_t_trip_revision (t_trip_revision t + 1)
    (set_t_saved_plan_id (Some planID) (set_t_default_time_zone_name zone
      (set_t_trip_name name t)))).

Record trip_updated (clk : nat -> Z) (rng : nat -> bytes) (r : UpdateSavedTripRequest)
    (out : MutatedSavedTrip) (d d' : db) : Prop := {
  up_fresh : ms_Duplicate out = false;
  up_view : get (us_UserID r) (us_TripID r) d' = Ok (ms_Trip out);
  up_writes : exists cur t row0 row name zone,
    saved_locked (us_UserID r) (us_TripID r) (us_ExpectedRevision r) cur t row0 d /\
    text_in (default (t_trip_name t) (us_TripName r)) = Some name /\
    text_in (default (t_default_time_zone_name t) (us_DefaultTimeZoneName r)) = Some zone /\
    published_plan (newAuthUUID (rng 1%nat)) (us_TripID r) row
      (updated_trip (clk 3%nat) (newAuthUUID (rng 1%nat)) name zone t) d d' /\
    saved_itinerary (newAuthUUID (rng 1%nat)) d' = saved_itinerary (lk_PlanID cur) d
}.

(** The rows of a plan copied as they are. *)
Lemma copied_plan_published new old tripID row0 row t t' m w d d' :
  saved_consistent d -> saved_plans (saved d) !! new = None ->
  saved_plans (saved d) !! old = Some row0 -> sp_trip_id row0 = tripID ->
  trips d !! tripID = Some t -> t_owner_user_id t' = t_owner_user_id t ->
  t_saved_plan_id t' = Some new -> sp_trip_id row = tripID ->
  sp_owner_user_id row = t_owner_user_id t ->
  (forall p id, p <> new -> m !! (p, id) = saved_activities (saved d) !! (p, id)) ->
  (forall id, m !! (new, id) = saved_activities (saved d) !! (old, id)) ->
  (forall p id n, p <> new -> w !! (p, id, n) = saved_windows (saved d) !! (p, id, n)) ->
  (forall id n, w !! (new, id, n) = saved_windows (saved d) !! (old, id, n)) ->
  saved_plans (saved d') = <[new := row]> (saved_plans (saved d)) ->
  saved_activities (saved d') = m -> saved_windows (saved d') = w ->
  places (saved d') = places (saved d) -> trips d' = <[tripID := t']> (trips d) ->
  operations (saved d') = operations (saved d) -> plans d' = plans d ->
  t_execution_state t = Inactive -> t_execution_state t' = Inactive -> trip_check t' = true ->
  published_plan new tripID row t' d d' /\ saved_itinerary new d' = saved_itinerary old d.
Proof.
  intros Hc Hf Hold Hr0 Ht Ho' Hsel Hrt Hro Hmo Hm Hwo Hw Ep Ea Ew El Et Eo Ek Hin Hin' Hlc.
  destruct (sc_dense d Hc _ _ Hold) as [Hd Hne].
  destruct (sc_owner d Hc _ _ Hold) as (t0 & Ht0 & Ho0). rewrite Hr0, Ht in Ht0.
  injection Ht0 as <-.
  destruct (saved_numbered new d' (saved_itinerary old d)) as [Hit Hde].
  { apply saved_itinerary_NoDup. }
  { intros i id Hi. rewrite Ea, Hm. by apply saved_itinerary_lookup. }
  { intros id a. rewrite Ea, Hm. intros Ha. apply elem_of_saved_itinerary. by eexists. }
  split; [|done]. constructor; try done; rewrite ?Ea, ?Ew; try done.
  - intros id a. rewrite Hm. intros Ha. apply (sc_activity d Hc), saved_activity_fk_ok in Ha.
    destruct Ha as [(x & Hx & Hxt & Hxo) Hpl]. rewrite Hold in Hx. injection Hx as <-.
    split_and!; [congruence..|done].
  - intros id n x. rewrite Hw, Hm. apply (sc_window d Hc).
  - by rewrite Hit.
  - congruence.
  - intros t2 Ht2. rewrite Ht in Ht2. injection Ht2 as <-. done.
  - intros t2 Ht2. rewrite Ht in Ht2. injection Ht2 as <-. done.
Qed.

Lemma update_saved_ok clk rng r h d out d' :
  http_records (saved d) !! newAuthUUID (rng 0%nat) = Some h -> h_state h = InProgress ->
  saved_consistent d -> update_saved clk rng r (newAuthUUID (rng 0%nat)) d = Ok (out, d') ->
  trip_updated clk rng r out d d' /\ exists body etag,
    trip_json (ms_Trip out) = Some body /\
    http_records (saved d') = <[newAuthUUID (rng 0%nat) := completed_record (us_TripID r) 200
      (Some "application/json") (Some body) etag (clk 4%nat) h]> (http_records (saved d)).
Proof.
  intros Hh Hs Hc H. unfold update_saved in H.
  apply tx_bind_ok in H as (cur & d1 & H1 & H).
  apply lockInactiveSavedTrip_ok in H1 as (-> & t & row0 & Hlk). 
  pose proof Hlk as [Ht Ho Hp Hr0 Hin _ [Hnm Hzn] _].
  destruct (updated_display r cur) as [[date time] zn].
  apply tx_bind_ok in H as (row & d1 & H1 & H). apply lift_ok in H1 as [Hrow ->].
  apply new_saved_plan_ok in Hrow as (Hrt & Hru & _ & _).
  apply tx_bind_ok in H as ([] & d1 & H1 & H).
  apply insert_saved_plan_ok in H1 as (Hfr & _ & _ & ->).
  destruct (fresh_plan _ _ Hc Hfr) as [Hna Hnw].
  apply tx_bind_ok in H as (rows & d1 & H1 & H). apply gets_ok in H1 as [-> ->].
  apply tx_bind_ok in H as ([] & d1 & H1 & H).
  apply (copy_activities_ok _ _ (fun a => a)) in H1 as (m & -> & Hmo & Hm). cbn in Hmo, Hm.
  apply tx_bind_ok in H as ([] & d1 & H1 & H).
  apply copy_windows_ok in H1 as (w & -> & Hwo & Hw). cbn in Hwo, Hw.
  apply tx_bind_ok in H as (name & d1 & H1 & H). apply lift_ok in H1 as [Hname%of_option_ok ->].
  apply tx_bind_ok in H as (zone & d1 & H1 & H). apply lift_ok in H1 as [Hzone%of_option_ok ->].
  apply tx_bind_ok in H as ([] & d1 & H1 & H).
  apply (update_trip_ok _ _ _ _ _ _ t) in H1 as [Htc ->]; [|exact Ht].
  apply tx_bind_ok in H as (v & d1 & H1 & H).
  apply (respond_ok _ _ _ _ _ _ _ _ _ _ h) in H1 as (Hg & body & Hb & ->); [|done|done].
  apply tx_bind_ok in H as ([] & d1 & H1 & H).
  apply commit_saved_plan_ok in H1 as (-> & _ & _). apply mret_ok in H as [<- <-].
  destruct (sc_selected d Hc _ _ _ Ht Hp) as (x & Hx & Hxt). rewrite Hr0 in Hx. injection Hx as <-.
  split; [|by exists body; eexists]. constructor; [done|by rewrite get_records|].
  exists cur, t, row0, row, name, zone. rewrite Hnm in Hname. rewrite Hzn in Hzone.
  split; [done|]. split; [done|]. split; [done|].
  eapply (copied_plan_published _ (lk_PlanID cur) _ row0 row t
    (updated_trip (clk 3%nat) (newAuthUUID (rng 1%nat)) name zone t) m w d); try done.
  - by rewrite Hru.
  - intros id. apply option_eq. intros b. rewrite Hm, Hna. setoid_rewrite elem_of_plan_activities.
    cbn. naive_solver.
  - intros id n. apply option_eq. intros b. rewrite Hw, Hnw. naive_solver.
Qed.

End SavedProps.
