(* ===== verification/SavedCreate.v ===== *)
(** * Creating, deleting and repeating

    A created trip is read back as it was asked for; every request keeps the
    saved-trip tables consistent; a repeated request repeats its answer; a
    deleted trip leaves no row. *)

From S2P Require Import Prelude GoLib GoText Schema Tables SavedTables.
From S2P Require Import SavedMutations SavedFacts SavedProps.

Section SavedCreate.
Context {PG : Postgres} {SS : SavedServer} {TZ : TimeZones}.

(** ** The activities of a new plan *)

(** The identifiers drawn for [k] activities after [n] others. *)
Definition drawn (rng : nat -> bytes) (n k : nat) : list string :=
  List.map (fun i => newAuthUUID (rng i)) (seq n k).

Lemma drawn_lookup rng n k i id :
  drawn rng n k !! i = Some id <-> (i < k)%nat /\ id = newAuthUUID (rng (n + i)%nat).
Proof.
  unfold drawn. split.
  - intros (j & -> & Hj)%list_lookup_fmap_Some. apply lookup_seq in Hj as [-> ?]. done.
  - intros [Hi ->]. apply list_lookup_fmap_Some. exists (n + i)%nat. split; [done|].
    by apply lookup_seq.
Qed.

Definition window_row (w : RelativeWindowInput) : saved_window :=
  SavedWindow (wi_OpensOffsetMS w) (wi_ClosesOffsetMS w).

(** The rows of the plan [p] after the loop of [Create] wrote [l]. *)
Record activities_created (rng : nat -> bytes) (n : nat) (p tripID userID : string)
    (l : list SavedActivityInput) (d d' : db) : Prop := {
  cr_frame : d' = set_saved_windows (saved_windows (saved d'))
                    (set_saved_activities (saved_activities (saved d')) d);
  cr_others : forall q id, q <> p ->
    saved_activities (saved d') !! (q, id) = saved_activities (saved d) !! (q, id);
  cr_other_windows : forall q id j, q <> p ->
    saved_windows (saved d') !! (q, id, j) = saved_windows (saved d) !! (q, id, j);
  cr_kept : forall id a, saved_activities (saved d) !! (p, id) = Some a ->
    saved_activities (saved d') !! (p, id) = Some a /\
    forall j, saved_windows (saved d') !! (p, id, j) = saved_windows (saved d) !! (p, id, j);
  cr_unique : NoDup (drawn rng n (length l));
  cr_fresh : forall i id, drawn rng n (length l) !! i = Some id ->
    saved_activities (saved d) !! (p, id) = None;
  cr_row : forall i a id, l !! i = Some a -> drawn rng n (length l) !! i = Some id ->
    saved_activities (saved d') !! (p, id) = Some (saved_row tripID userID (ai_PlaceID a) a) /\
    is_Some (owned_place (ai_PlaceID a) userID d) /\
    forall j w, saved_windows (saved d') !! (p, id, j) = Some w <->
      saved_windows (saved d) !! (p, id, j) = Some w \/
      exists k x, input_windows a !! k = Some x /\ j = Z.of_nat k /\ w = window_row x;
  cr_only : forall id a, saved_activities (saved d') !! (p, id) = Some a ->
    saved_activities (saved d) !! (p, id) = Some a \/ id ∈ drawn rng n (length l);
  cr_only_windows : forall id j w, saved_windows (saved d') !! (p, id, j) = Some w ->
    saved_windows (saved d) !! (p, id, j) = Some w \/ id ∈ drawn rng n (length l)
}.

Lemma create_activities_nil rng n p tripID userID d :
  activities_created rng n p tripID userID [] d d.
Proof.
  constructor; try done.
  - by rewrite set_saved_activities_id, set_saved_windows_id.
  - constructor.
  - by left.
  - by left.
Qed.

Lemma create_activities_ok rng n p tripID userID l d u d' :
  create_activities rng n p tripID userID l d = Ok (u, d') ->
  activities_created rng n p tripID userID l d d'.
Proof.
  revert n d. induction l as [|a l IH]; intros n d H.
  { apply mret_ok in H as [_ <-]. apply create_activities_nil. }
  cbn [create_activities] in H. apply tx_bind_ok in H as ([] & d1 & H1 & H).
  apply insertSavedActivity_ok in H1 as (Hn & _ & Hpl & w1 & -> & Hwo & Hw1).
  set (id0 := newAuthUUID (rng n)) in *.
  set (row0 := saved_row tripID userID (ai_PlaceID a) a) in *.
  apply IH in H as [Hfr Ho How Hk Hu Hf Hr Hon Honw]. cbn in *.
  change (drawn rng n (S (length l))) with (id0 :: drawn rng (S n) (length l)) in *.
  destruct (Hk id0 row0) as [Hk0 Hkw0]; [by rewrite lookup_insert_eq|].
  constructor; cbn [length];
    change (drawn rng n (S (length l))) with (id0 :: drawn rng (S n) (length l)).
  - rewrite Hfr at 1. reflexivity.
  - intros q id Hq. rewrite Ho by done. apply lookup_insert_ne. congruence.
  - intros q id j Hq. rewrite How by done. apply Hwo. cbn. congruence.
  - intros id b Hb. assert (Hne : (p, id0) <> (p, id)) by (intros [= ->]; by rewrite Hn in Hb).
    destruct (Hk id b) as [? Hkw]; [by rewrite lookup_insert_ne|]. split; [done|].
    intros j. rewrite Hkw. apply Hwo. cbn. congruence.
  - constructor; [|done]. intros (i & Hi)%list_elem_of_lookup. apply Hf in Hi.
    by rewrite lookup_insert_eq in Hi.
  - intros [|i] id Hi; cbn in Hi; [by simplify_eq|]. apply Hf in Hi.
    by apply lookup_insert_None in Hi as [? _].
  - intros [|i] b id Hb Hi; cbn in Hb, Hi.
    + simplify_eq. split_and!; [done|done|]. intros j w. rewrite Hkw0. by rewrite Hw1.
    + destruct (Hr _ _ _ Hb Hi) as (Hrow & Hpl' & Hw). split_and!; [done|done|].
      intros j w. rewrite Hw. apply Hf in Hi. apply lookup_insert_None in Hi as [_ Hne].
      rewrite Hwo by (cbn; congruence). done.
  - intros id b Hb. rewrite elem_of_cons. apply Hon in Hb as [Hb|?]; [|by right; right].
    apply lookup_insert_Some in Hb as [[[= <-] _]|[_ ?]]; [by right; left|by left].
  - intros id j w Hw. rewrite elem_of_cons. apply Honw in Hw as [Hw|?]; [|by right; right].
    destruct (decide (id = id0)) as [->|Hne]; [by right; left|left].
    rewrite Hwo in Hw by (cbn; congruence). done.
Qed.

(** ** Reading the activities back *)

(** The input an activity of a response stands for. *)
Definition view_input (v : SavedActivityView) : SavedActivityInput :=
  let t := av_Timing v in
  MkActivityInput (pv_PlaceID (av_Place v)) (av_Ordinal v)
    (MkScheduleInput (sv_State (av_Schedule v)) (fst <$> sv_Offsets (av_Schedule v))
       (snd <$> sv_Offsets (av_Schedule v)))
    (av_InboundTravelMode v) (av_ActivityClass v) (av_PriorityRank v) (av_UtilityScore v)
    (MkTimingInput (Some (List.map (fun w => MkWindowInput w.1 w.2) (tv_OpenWindows t)))
       (tv_ReservationStartOffset t) (tv_ReservationGraceSeconds t) (tv_MandatoryDeadlineOffset t)
       (tv_MinDurationSeconds t) (tv_PreferredDurationSeconds t) (tv_MaxDurationSeconds t)
       (tv_Mandatory t) (tv_CanShorten t) (tv_CanMove t) (tv_CanSkip t)).

(** The windows of an activity, in the order of the request. *)
Lemma activity_windows_stored p id ws d :
  (forall j w, saved_windows (saved d) !! (p, id, j) = Some w <->
     exists k x, ws !! k = Some x /\ j = Z.of_nat k /\ w = window_row x) ->
  activity_windows p id d =
    List.map (fun w => (wi_OpensOffsetMS w, wi_ClosesOffsetMS w)) ws.
Proof.
  intros Hw. unfold activity_windows.
  set (rows := List.map (fun kw => ((p, id, Z.of_nat kw.1), window_row kw.2))
                 (zip (seq 0 (length ws)) ws)).
  assert (Hlk : forall i kv, rows !! i = Some kv <->
    exists x, ws !! i = Some x /\ kv = ((p, id, Z.of_nat i), window_row x)).
  { intros i kv. unfold rows. rewrite list_lookup_fmap_Some. setoid_rewrite lookup_zip_with_Some.
    split.
    - intros ([k x] & -> & k' & x' & [= -> ->] & Hk & Hx). apply lookup_seq in Hk as [-> _].
      exists x'. done.
    - intros (x & Hx & ->). exists (i, x). split; [done|]. exists i, x. split; [done|].
      split; [|done]. apply lookup_seq. split; [done|]. by apply lookup_lt_Some in Hx. }
  rewrite (merge_sort_numbered (fun kv => kv.1.2) window_index_le _ rows).
  - subst rows. rewrite List.map_map. cbn. clear. generalize 0%nat.
    induction ws as [|x ws IH]; intros n; [done|]. cbn. f_equal. apply IH.
  - done.
  - apply rows_where_NoDup.
  - apply NoDup_alt. intros i j kv (x & _ & ->)%Hlk (y & _ & E)%Hlk. injection E as E. lia.
  - intros [[[q a] j] w]. rewrite elem_of_rows_where, bool_decide_eq_true, list_elem_of_lookup.
    setoid_rewrite Hlk. cbn. split.
    + intros [Hx [= -> ->]]. apply Hw in Hx as (k & x & ? & -> & ->). by exists k, x.
    + intros (k & x & Hx & [= -> -> -> ->]). split; [|done]. apply Hw. by exists k, x.
  - by intros i kv (x & _ & ->)%Hlk.
Qed.

(** A valid activity survives storing and reading. *)
Lemma view_input_row d p id tripID userID a pl v :
  valid_activity_body a = true ->
  activity_windows p id d =
    List.map (fun w => (wi_OpensOffsetMS w, wi_ClosesOffsetMS w)) (input_windows a) ->
  activity_view d p id (saved_row tripID userID (ai_PlaceID a) a) pl = Ok v -> view_input v = a.
Proof.
  intros Hv Hw H. unfold activity_view in H. apply bind_ok in H as (s & Hs & H).
  injection H as <-. unfold view_input. cbn. rewrite Hw, List.map_map. cbn.
  unfold valid_activity_body in Hv. inv_res.
  unfold input_windows, validSavedSchedule, schedule_view in *.
  destruct a as [place ord [st so eo] mode cls rank score [ws ro gr dl mn pr mx ma sh mv sk]].
  cbn in *. destruct ws as [ws|]; [|done].
  replace (List.map (fun x => MkWindowInput (wi_OpensOffsetMS x) (wi_ClosesOffsetMS x)) ws) with ws
    by (clear; induction ws as [|[] ws IH]; cbn; congruence).
  destruct (decide (st = "unscheduled")) as [->|E1].
  - cbn in *. injection Hs as <-. inv_res. by destruct so, eo.
  - rewrite (bool_decide_eq_false_2 (st = "unscheduled")) in * by done.
    destruct (decide (st = "scheduled")) as [->|E2].
    + cbn in *. destruct so, eo; try done. by injection Hs as <-.
    + by rewrite (bool_decide_eq_false_2 (st = "scheduled")) in * by done.
Qed.

Lemma activity_views_inputs d p tripID userID (ids : list string) l :
  (forall i a id, l !! i = Some a -> ids !! i = Some id ->
     valid_activity_body a = true /\ is_Some (places (saved d) !! ai_PlaceID a) /\
     activity_windows p id d =
       List.map (fun w => (wi_OpensOffsetMS w, wi_ClosesOffsetMS w)) (input_windows a)) ->
  length ids = length l -> forall views,
  activity_views d (zip_with (fun id a => ((p, id), saved_row tripID userID (ai_PlaceID a) a)) ids l)
    = Ok views -> List.map view_input views = l.
Proof.
  revert l. induction ids as [|id ids IH]; intros [|a l] Hl Hlen views H; cbn in *; try done.
  { by injection H as <-. }
  destruct (Hl 0%nat a id eq_refl eq_refl) as (Hv & [pl Hpl] & Hw). cbn in H. rewrite Hpl in H.
  apply bind_ok in H as (v & Hvv & H). apply bind_ok in H as (vs & Hvs & H). injection H as <-.
  cbn. f_equal; [by eapply view_input_row|].
  apply (IH l); [|lia|done]. intros i b j Hb Hj. by apply (Hl (S i)).
Qed.

Lemma plan_activities_rows p d (ids : list string) (l : list SavedActivityInput) f :
  saved_itinerary p d = ids -> length ids = length l ->
  (forall i a id, l !! i = Some a -> ids !! i = Some id ->
     saved_activities (saved d) !! (p, id) = Some (f a)) ->
  plan_activities p d = zip_with (fun id a => ((p, id), f a)) ids l.
Proof.
  intros Hit Hlen Hrow. apply list_eq. intros i. apply option_eq. intros [[q id] b].
  rewrite lookup_zip_with_Some. split.
  - intros Hi. assert (Hid : ids !! i = Some id)
      by (rewrite <- Hit; unfold saved_itinerary; by rewrite list_lookup_fmap, Hi).
    pose proof (plan_activities_key _ _ _ _ Hi) as Hq. cbn in Hq. subst q.
    apply list_elem_of_lookup_2, elem_of_plan_activities in Hi as [Hi _].
    destruct (lookup_lt_is_Some_2 l i) as [a Ha]; [rewrite <- Hlen; by apply lookup_lt_Some in Hid|].
    exists id, a. rewrite (Hrow _ _ _ Ha Hid) in Hi. by simplify_eq.
  - intros (id' & a & [= -> -> ->] & Hid & Ha).
    assert (Hid' := Hid). rewrite <- Hit in Hid'.
    apply list_lookup_fmap_Some in Hid' as ([[q x] b] & -> & Hi).
    pose proof (plan_activities_key _ _ _ _ Hi) as Hq. cbn in Hq, Hid. subst q. cbn. rewrite Hi.
    apply list_elem_of_lookup_2, elem_of_plan_activities in Hi as [Hi _].
    rewrite (Hrow _ _ _ Ha Hid) in Hi. by simplify_eq.
Qed.

Lemma valid_activities_lookup n l i a :
  valid_activities n l = true -> l !! i = Some a ->
  ai_Ordinal a = n + Z.of_nat i /\ valid_activity_body a = true.
Proof.
  revert n i. induction l as [|b l IH]; intros n i Hv Hi; [done|]. cbn in Hv. inv_res. zbool.
  destruct i as [|i]; cbn in Hi.
  - simplify_eq. split; [lia|done].
  - destruct (IH (n + 1) i) as [-> ?]; [done..|]. split; [lia|done].
Qed.

(** ** [Create] *)

Lemma insert_trip_ok op id t d u d' :
  insert_trip op id t d = Ok (u, d') ->
  trips d !! id = None /\ t_owner_user_id t ∈ users d /\ trip_check t = true /\
  d' = set_trips (<[id := t]> (trips d)) d.
Proof.
  unfold insert_trip. intros H. case_match eqn:E; [done|]. simplify_eq. inv_res.
  split_and!; [by apply eq_None_not_Some|done..].
Qed.

Record trip_created (clk : nat -> Z) (rng : nat -> bytes) (r : CreateSavedTripRequest)
    (out : MutatedSavedTrip) (d d' : db) : Prop := {
  ct_fresh : ms_Duplicate out = false;
  ct_view : get (cs_UserID r) (newAuthUUID (rng 1%nat)) d' = Ok (ms_Trip out);
  ct_answer : stored_answer clk (newAuthUUID (rng 0%nat)) (cs_UserID r) (cs_IdempotencyKey r)
    "POST" "/api/v1/trips" "create_trip" (cs_RequestDigest r) 201 (ms_Trip out) d d';
  ct_new : trips d !! newAuthUUID (rng 1%nat) = None;
  ct_writes : exists zone name row,
    text_in (cs_DefaultTimeZoneName r) = Some zone /\ text_in (cs_TripName r) = Some name /\
    new_saved_plan "insert initial saved plan" (newAuthUUID (rng 1%nat)) (cs_UserID r) 1
      (di_LocalDate <$> cs_DisplaySchedule r) (di_LocalTime <$> cs_DisplaySchedule r)
      (di_TimeZoneName <$> cs_DisplaySchedule r) (clk 4%nat) = Ok row /\
    published_plan (newAuthUUID (rng 2%nat)) (newAuthUUID (rng 1%nat)) row
      (new_saved_trip (cs_UserID r) zone name (newAuthUUID (rng 2%nat)) (clk 2%nat) (clk 3%nat))
      d d' /\
    plan_activities (newAuthUUID (rng 2%nat)) d' =
      zip_with (fun id a => ((newAuthUUID (rng 2%nat), id),
        saved_row (newAuthUUID (rng 1%nat)) (cs_UserID r) (ai_PlaceID a) a))
        (drawn rng 3 (length (cs_Activities r))) (cs_Activities r) /\
    forall i a id, cs_Activities r !! i = Some a ->
      drawn rng 3 (length (cs_Activities r)) !! i = Some id ->
      valid_activity_body a = true /\ is_Some (places (saved d') !! ai_PlaceID a) /\
      activity_windows (newAuthUUID (rng 2%nat)) id d' =
        List.map (fun w => (wi_OpensOffsetMS w, wi_ClosesOffsetMS w)) (input_windows a)
}.

(** The plan the loop wrote into a database without rows for it. *)
Lemma created_plan_published rng p tripID userID row t' l d d1 d' :
  saved_consistent d -> saved_plans (saved d) !! p = None -> trips d !! tripID = None ->
  valid_activities 0 l = true -> l <> [] ->
  sp_trip_id row = tripID -> sp_owner_user_id row = userID -> t_owner_user_id t' = userID ->
  t_saved_plan_id t' = Some p ->
  saved_activities (saved d1) = saved_activities (saved d) ->
  saved_windows (saved d1) = saved_windows (saved d) -> places (saved d1) = places (saved d) ->
  activities_created rng 3 p tripID userID l d1 d' ->
  saved_plans (saved d') = <[p := row]> (saved_plans (saved d)) ->
  places (saved d') = places (saved d) -> trips d' = <[tripID := t']> (trips d) ->
  operations (saved d') = operations (saved d) -> plans d' = plans d ->
  t_execution_state t' = Inactive -> trip_check t' = true ->
  published_plan p tripID row t' d d' /\
  plan_activities p d' = zip_with (fun id a => ((p, id), saved_row tripID userID (ai_PlaceID a) a))
    (drawn rng 3 (length l)) l /\
  forall i a id, l !! i = Some a -> drawn rng 3 (length l) !! i = Some id ->
    valid_activity_body a = true /\ is_Some (places (saved d') !! ai_PlaceID a) /\
    activity_windows p id d' =
      List.map (fun w => (wi_OpensOffsetMS w, wi_ClosesOffsetMS w)) (input_windows a).
Proof.
  intros Hc Hf Hnt Hv Hne Hrt Hro Ho' Hsel Ea Ew El [_ Hoth Hwo _ Hu _ Hrow Hon Honw] Ep El' Et Eo Ek Hina Hlc.
  destruct (fresh_plan _ _ Hc Hf) as [Hna Hnw]. rewrite Ea, Ew in *.
  assert (Hplace : forall x u, owned_place x u d1 = owned_place x u d)
    by (intros; unfold owned_place; by rewrite El).
  assert (Hlen : length (drawn rng 3 (length l)) = length l)
    by (unfold drawn; by rewrite length_map, length_seq).
  assert (Hany : forall id, id ∈ drawn rng 3 (length l) -> exists i a, l !! i = Some a /\
    drawn rng 3 (length l) !! i = Some id).
  { intros id [i Hi]%list_elem_of_lookup. destruct (lookup_lt_is_Some_2 l i) as [a Ha].
    - apply lookup_lt_Some in Hi. lia.
    - by exists i, a. }
  destruct (saved_numbered p d' (drawn rng 3 (length l))) as [Hit Hde]; [done| | |].
  { intros i id Hi. destruct (Hany id) as (j & a & Ha & Hj); [by eapply list_elem_of_lookup_2|].
    assert (i = j) as <- by (by eapply NoDup_lookup).
    destruct (Hrow _ _ _ Ha Hi) as [Hr _]. eexists. split; [exact Hr|]. cbn.
    by destruct (valid_activities_lookup _ _ _ _ Hv Ha) as [-> _]. }
  { intros id a Ha. apply Hon in Ha as [Ha|?]; [|done]. by rewrite Hna in Ha. }
  split; [|split].
  - constructor; try done.
    + intros id a Ha. pose proof (Hon _ _ Ha) as [Ha'|Hin]; [by rewrite Hna in Ha'|].
      destruct (Hany _ Hin) as (i & b & Hb & Hi). destruct (Hrow _ _ _ Hb Hi) as (Hr & Hpl & _).
      rewrite Ha in Hr. injection Hr as ->. cbn. rewrite Hplace in Hpl. by rewrite Hro.
    + intros id n w Hw. apply Honw in Hw as [Hw|Hin]; [by rewrite Hnw in Hw|].
      destruct (Hany _ Hin) as (i & b & Hb & Hi). destruct (Hrow _ _ _ Hb Hi) as (Hr & _).
      by rewrite Hr.
    + rewrite Hit. intros E. apply (f_equal length) in E. rewrite Hlen in E. by destruct l.
    + by rewrite Ho', Hro.
    + intros t. by rewrite Hnt.
    + intros t. by rewrite Hnt.
  - apply plan_activities_rows; [done|done|]. intros i a id Ha Hi. by apply (Hrow i).
  - intros i a id Ha Hi. destruct (Hrow _ _ _ Ha Hi) as (_ & [pl Hpl] & Hw).
    rewrite Hplace in Hpl. apply owned_place_ok in Hpl as [Hpl _].
    split_and!; [by destruct (valid_activities_lookup _ _ _ _ Hv Ha)|by rewrite El'; eexists|].
    apply activity_windows_stored. intros j w. rewrite Hw, Hnw. naive_solver.
Qed.

Lemma validateCreate_ok r u : validateCreateSavedTrip r = Ok u ->
  valid_activities 0 (cs_Activities r) = true /\ cs_Activities r <> [].
Proof.
  unfold validateCreateSavedTrip. intros H. inv_res. zbool. split; [done|].
  intros E. by rewrite E in *.
Qed.

Lemma Create_ok clk rng r d out d' :
  saved_consistent d -> Create clk rng r d = Ok (out, d') -> ms_Duplicate out = false ->
  trip_created clk rng r out d d'.
Proof.
  intros Hc H Hdup. unfold Create in H. apply tx_bind_ok in H as ([] & d0 & H1 & H).
  apply lift_ok in H1 as [[Hv Hne]%validateCreate_ok ->].
  apply tx_bind_ok in H as (b & d0 & H1 & H).
  apply insert_http_record_ok in H1 as [Hck H1]. destruct b.
  2: { subst d0. unfold replayCreatedTrip in H. by inv_tx. }
  destruct H1 as (Hn & _ & Hnew & ->). set (h := new_http_record _ _ _ _ _ _ _) in *.
  unfold create_saved in H. apply tx_bind_ok in H as (zone & d0 & H1 & H).
  apply lift_ok in H1 as [Hzone%of_option_ok ->]. apply tx_bind_ok in H as (name & d0 & H1 & H).
  apply lift_ok in H1 as [Hname%of_option_ok ->]. apply tx_bind_ok in H as ([] & d0 & H1 & H).
  apply insert_trip_ok in H1 as (Hnt & _ & Htc & ->).
  apply tx_bind_ok in H as (row & d0 & H1 & H). apply lift_ok in H1 as [Hrow ->].
  pose proof (new_saved_plan_ok _ _ _ _ _ _ _ _ _ Hrow) as (Hrt & Hro & _ & _).
  apply tx_bind_ok in H as ([] & d0 & H1 & H).
  apply insert_saved_plan_ok in H1 as (Hf & _ & _ & ->).
  apply tx_bind_ok in H as ([] & d0 & H1 & H). apply create_activities_ok in H1 as Hcr.
  pose proof (cr_frame _ _ _ _ _ _ _ _ Hcr) as Hd0.
  apply tx_bind_ok in H as (v & d1 & H2 & H). apply query_ok in H2 as [Hg ->].
  apply tx_bind_ok in H as (body & d1 & H2 & H). apply lift_ok in H2 as [Hb%of_option_ok ->].
  apply tx_bind_ok in H as ([] & d1 & H2 & H).
  apply (complete_record_ok _ _ _ _ _ _ _ _ _ _ _ h) in H2;
    [|by rewrite Hd0; cbn; rewrite lookup_insert_eq|done].
  apply tx_bind_ok in H as ([] & d2 & H3 & H).
  apply commit_saved_plan_ok in H3 as (-> & _ & _). apply mret_ok in H as [<- <-].
  subst d1. cbn in Hf, Hnt.
  constructor; [done|by rewrite get_records| |exact Hnt|].
  - split_and!; [exact Hck|exact Hn|exact Hnew|]. do 4 eexists. split; [exact Hb|].
    cbn. rewrite Hd0. cbn. apply insert_insert_eq.
  - exists zone, name, row. split; [done|]. split; [done|]. split; [done|].
    edestruct (created_plan_published rng (newAuthUUID (rng 2%nat)) (newAuthUUID (rng 1%nat))
      (cs_UserID r) row (new_saved_trip (cs_UserID r) zone name (newAuthUUID (rng 2%nat))
        (clk 2%nat) (clk 3%nat)) (cs_Activities r) d) as (Hp & Hpa & Hl); try exact Hcr; try done.
    1-5: by rewrite Hd0.
    split; [destruct Hp; by constructor|]. split; [exact Hpa|exact Hl].
Qed.

(** ** Requests *)

Inductive saved_request :=
| RequestCreate (r : CreateSavedTripRequest)
| RequestUpdate (r : UpdateSavedTripRequest)
| RequestActivity (kind : saved_mutation_kind) (r : SavedActivityMutationRequest).

Definition run_saved (clk : nat -> Z) (rng : nat -> bytes) (q : saved_request)
  : tx MutatedSavedTrip :=
  match q with
  | RequestCreate r => Create clk rng r
  | RequestUpdate r => Update clk rng r
  | RequestActivity kind r => mutateActivity clk rng r kind
  end.

(** The key, the digest and the status a request is recorded under. *)
Definition request_answer (clk : nat -> Z) (rng : nat -> bytes) (q : saved_request)
    (v : TripView) (d d' : db) : Prop :=
  let id := newAuthUUID (rng 0%nat) in
  match q with
  | RequestCreate r => stored_answer clk id (cs_UserID r) (cs_IdempotencyKey r) "POST"
      "/api/v1/trips" "create_trip" (cs_RequestDigest r) 201 v d d'
  | RequestUpdate r => stored_answer clk id (us_UserID r) (us_IdempotencyKey r) "PATCH"
      (trip_path (us_TripID r)) "update_trip" (us_RequestDigest r) 200 v d d'
  | RequestActivity kind r => stored_answer clk id (am_UserID r) (am_IdempotencyKey r)
      (mutation_method kind) (mutation_path kind r) (mutation_operation kind)
      (am_RequestDigest r) (mutation_status kind) v d d'
  end.

Lemma Update_cases clk rng r d out d' :
  saved_consistent d -> Update clk rng r d = Ok (out, d') ->
  (ms_Duplicate out = true /\ d' = d) \/
  (trip_updated clk rng r out d d' /\
   request_answer clk rng (RequestUpdate r) (ms_Trip out) d d').
Proof.
  intros Hc H. unfold Update in H. apply tx_bind_ok in H as ([] & d0 & H1 & H).
  apply lift_ok in H1 as [_ ->]. apply tx_bind_ok in H as (a & d0 & H1 & H).
  apply reserve_ok in H1. destruct a as [id|rp].
  - right. destruct H1 as (-> & Hck & Hn & Hnew & ->). set (h := new_http_record _ _ _ _ _ _ _) in *.
    apply (update_saved_ok _ _ _ h) in H as [Hu (body & etag & Hb & Hr)];
      [|by cbn; rewrite lookup_insert_eq|done|by apply reserved_consistent].
    split.
    + destruct Hu as [Hf Hg (cur & t & row0 & row & name & zone & Hlk & Hnm & Hz & Hp & Hit)].
      constructor; [done|done|]. exists cur, t, row0, row, name, zone.
      split; [destruct Hlk; by constructor|]. split; [done|]. split; [done|].
      split; [destruct Hp; by constructor|done].
    + split_and!; [done..|]. do 4 eexists. split; [exact Hb|]. rewrite Hr. cbn.
      apply insert_insert_eq.
  - left. destruct H1 as [-> _]. apply lift_ok in H as [H ->]. unfold replayed_trip in H.
    by inv_res.
Qed.

(** A request that was not a repetition published a plan and stored its answer. *)
Lemma run_saved_cases clk rng q d out d' :
  saved_consistent d -> run_saved clk rng q d = Ok (out, d') ->
  (ms_Duplicate out = true /\ d' = d) \/
  (ms_Duplicate out = false /\ request_answer clk rng q (ms_Trip out) d d' /\
   exists new tripID row t', published_plan new tripID row t' d d').
Proof.
  intros Hc H. destruct q as [r|r|kind r]; cbn [run_saved] in H.
  - destruct (ms_Duplicate out) eqn:Hdup.
    + left. split; [done|]. unfold Create in H. apply tx_bind_ok in H as ([] & d0 & H1 & H).
      apply lift_ok in H1 as [_ ->]. apply tx_bind_ok in H as (b & d0 & H1 & H).
      apply insert_http_record_ok in H1 as [_ H1]. destruct b.
      * exfalso. unfold create_saved in H.
        repeat apply tx_bind_ok in H as (? & ? & _ & H). apply mret_ok in H as [<- _]. done.
      * subst d0. unfold replayCreatedTrip in H. by inv_tx.
    + right. pose proof (Create_ok _ _ _ _ _ _ Hc H Hdup) as [_ _ Ha _ (zn & nm & row & _ & _ & _ & Hp & _)].
      split_and!; [done|exact Ha|]. by do 4 eexists.
  - destruct (Update_cases _ _ _ _ _ _ Hc H) as [?|[[? _ (c & t & r0 & row & nm & zn & _ & _ & _ & Hp & _)] ?]];
      [by left|right]. split_and!; [done|done|]. by do 4 eexists.
  - destruct (ms_Duplicate out) eqn:Hdup.
    + left. split; [done|]. unfold mutateActivity in H. apply tx_bind_ok in H as ([] & d0 & H1 & H).
      apply guard_ok in H1 as [_ ->]. apply tx_bind_ok in H as (a & d0 & H1 & H).
      apply reserve_ok in H1. destruct a as [id|rp].
      * exfalso. unfold mutate_saved in H.
        repeat apply tx_bind_ok in H as (? & ? & _ & H). apply mret_ok in H as [<- _]. done.
      * destruct H1 as [-> _]. by apply lift_ok in H as [_ ->].
    + right. pose proof (mutateActivity_ok _ _ _ _ _ _ _ Hc H Hdup) as Hm.
      destruct (activity_mutated_published _ _ _ _ _ _ _ Hc Hm) as (c & t & r0 & row & _ & Hp & _).
      split_and!; [done| |by do 4 eexists].
      destruct Hm as [_ Hck Hn Hnew _ (? & ? & ? & ? & ? & ? & ? & body & _ & _ & _ & _ & _ & Hb & ->)].
      split_and!; [done..|]. do 4 eexists. split; [exact Hb|]. reflexivity.
Qed.

Lemma request_answer_unique clk rng q v d d' :
  records_unique d -> request_answer clk rng q v d d' -> records_unique d'.
Proof. destruct q; apply stored_answer_unique. Qed.

Lemma run_saved_consistent clk rng q d out d' :
  saved_consistent d -> run_saved clk rng q d = Ok (out, d') -> saved_consistent d'.
Proof.
  intros Hc H. destruct (run_saved_cases _ _ _ _ _ _ Hc H) as [[_ ->]|(_ & Ha & new & k & row & t' & Hp)];
    [done|]. eapply publish_consistent; [done| |exact Hp].
  eapply request_answer_unique; [exact (sc_request d Hc)|exact Ha].
Qed.

(** Once a request was carried out, repeating it (with whatever clock and random
    numbers) answers the stored response, marked as a duplicate, and changes
    nothing. *)
Theorem saved_request_replays `{!SavedServerLaws SS} clk rng clk' rng' q d out d' :
  saved_consistent d -> run_saved clk rng q d = Ok (out, d') -> ms_Duplicate out = false ->
  clock_ok clk' ->
  run_saved clk' rng' q d' = Ok (MkMutatedSavedTrip (ms_Trip out) true, d').
Proof.
  intros Hc H Hdup Hk.
  destruct (run_saved_cases _ _ _ _ _ _ Hc H) as [[Hd _]|(_ & Ha & _)]; [by rewrite Hd in Hdup|].
  pose proof (sc_request d Hc) as Hu. destruct q as [r|r|kind r]; cbn [run_saved request_answer] in *.
  - unfold Create in H |- *. apply tx_bind_ok in H as ([] & d0 & H1 & H).
    apply lift_ok in H1 as [Hv ->]. eapply tx_bind_run; [by apply lift_ok|]. cbv beta.
    eapply tx_bind_run; [by eapply replay_not_inserted|]. cbv beta iota.
    destruct (replay_found _ _ _ _ _ _ _ _ _ _ _ _ Hu Ha) as (tr & body & etag & now & Hb & Hf).
    unfold replayCreatedTrip. eapply tx_bind_run; [by apply find_row_ok; split; [exact Hf|]|].
    cbv beta. eapply tx_bind_run; [apply (guard_ok _ _ _ tt); split; [|reflexivity]|].
    { cbn. unfold constant_time_eq. by rewrite bool_decide_eq_true_2. }
    cbv beta. eapply tx_bind_run; [by apply (guard_ok _ _ _ tt); split; [|reflexivity]|].
    cbv beta. eapply tx_bind_run; [by apply lift_ok|]. cbv beta.
    eapply tx_bind_run; [apply lift_ok; split; [by rewrite (trip_json_read _ _ Hb)|reflexivity]|].
    reflexivity.
  - unfold Update in H |- *. apply tx_bind_ok in H as ([] & d0 & H1 & _).
    apply lift_ok in H1 as [Hv ->]. eapply tx_bind_run; [by apply lift_ok|]. cbv beta.
    destruct (replay_reserved _ clk' rng' _ _ _ _ _ _ _ _ _ _ _ Hu Ha Hk) as (body & etag & Hb & Hr).
    eapply tx_bind_run; [exact Hr|]. cbv beta iota. apply lift_ok. split; [|done].
    by apply replay_trip.
  - unfold mutateActivity in H |- *. apply tx_bind_ok in H as ([] & d0 & H1 & _).
    apply guard_ok in H1 as [Hv ->]. eapply tx_bind_run; [by apply (guard_ok _ _ _ tt)|]. cbv beta.
    destruct (replay_reserved _ clk' rng' _ _ _ _ _ _ _ _ _ _ _ Hu Ha Hk) as (body & etag & Hb & Hr).
    eapply tx_bind_run; [exact Hr|]. cbv beta iota. apply lift_ok. split; [|done].
    by apply replay_trip.
Qed.

(** ** A created trip is read back *)

(** What [get] answers, by the rows it read. *)
Lemma get_ok userID tripID d v :
  get userID tripID d = Ok v ->
  exists t p row views, trips d !! tripID = Some t /\ t_owner_user_id t = userID /\
    t_saved_plan_id t = Some p /\ saved_plans (saved d) !! p = Some row /\
    activity_views d (plan_activities p d) = Ok views /\
    tr_TripID v = tripID /\ tr_TripName v = t_trip_name t /\
    tr_DefaultTimeZoneName v = t_default_time_zone_name t /\
    tr_TripRevision v = FormatInt (t_trip_revision t) /\
    tr_ExecutionState v = execution_text (t_execution_state t) /\
    tr_DisplaySchedule v = display_view (Some row) /\
    spv_Activities (tr_SavedPlan v) = views /\ tr_ActiveExecution v = active_view t.
Proof.
  intros H. unfold get in H. apply bind_ok in H as (t & H1%of_option_ok & H).
  apply owned_trip_ok in H1 as [Ht Ho]. apply bind_ok in H as (p & Hp%of_option_ok & H).
  apply bind_ok in H as ([] & _ & H). apply bind_ok in H as (row & H1%of_option_ok & H).
  unfold selected_plan in H1. apply bind_Some in H1 as (row' & Hrow & H1).
  destruct (_ && _) in H1; [|done]. injection H1 as ->.
  apply bind_ok in H as (views & Hv & H). apply bind_ok in H as ([] & _ & H).
  apply bind_ok in H as (op & _ & H). injection H as <-.
  exists t, p, row, views. rewrite Hrow. cbn. by split_and!.
Qed.

Definition display_stored (s : option DisplayScheduleInput) (v : option DisplayScheduleView)
  : Prop :=
  match s with
  | None => v = None
  | Some s => exists date time, date_in (di_LocalDate s) = Some date /\
      time_in (di_LocalTime s) = Some time /\
      v = Some (MkDisplayScheduleView date time (di_TimeZoneName s))
  end.

(** A trip that [Create] stored is read back by [Get] as the response said: an
    inactive trip at revision 1 under the name and time zone of the request, with
    its display schedule and exactly its activities, in order, with their
    schedules, timings and open windows. *)
Theorem created_trip_reads_back `{!PostgresLaws PG} clk rng r d out d' :
  saved_consistent d -> (forall n, length (rng n) = 16%nat) ->
  Create clk rng r d = Ok (out, d') -> ms_Duplicate out = false ->
  let v := ms_Trip out in
  Get (cs_UserID r) (tr_TripID v) d' = Ok v /\
  tr_TripName v = cs_TripName r /\ tr_DefaultTimeZoneName v = cs_DefaultTimeZoneName r /\
  tr_TripRevision v = "1" /\ tr_ExecutionState v = "inactive" /\
  display_stored (cs_DisplaySchedule r) (tr_DisplaySchedule v) /\
  List.map view_input (spv_Activities (tr_SavedPlan v)) = cs_Activities r.
Proof.
  intros Hc Hrng H Hdup v. pose proof (Create_ok _ _ _ _ _ _ Hc H Hdup) as Hcr.
  destruct Hcr as [_ Hg _ _ (zone & name & row & Hz & Hn & Hrow & Hp & Hpa & Hl)].
  destruct (get_ok _ _ _ _ Hg) as (t & p & row' & views & Ht & _ & Htp & Hr & Hv & E1 & E2 & E3 & E4 & E5 & E6 & E7 & _).
  rewrite (pu_trips _ _ _ _ _ _ Hp), lookup_insert_eq in Ht. injection Ht as <-.
  injection Htp as <-. rewrite (pu_plans _ _ _ _ _ _ Hp), lookup_insert_eq in Hr. injection Hr as <-.
  apply text_in_same in Hz, Hn. subst zone name. subst v.
  rewrite E1, E2, E3, E4, E5, E6, E7. split_and!; try done.
  - unfold Get. rewrite newAuthUUID_valid by done. unfold Create, validateCreateSavedTrip in H.
    apply tx_bind_ok in H as ([] & d0 & H1 & _). apply lift_ok in H1 as [H1 _].
    destruct (validCanonicalUUID (cs_UserID r)); [exact Hg|done].
  - unfold new_saved_plan in Hrow. unfold display_stored.
    destruct (cs_DisplaySchedule r) as [sch|]; cbn in Hrow.
    + inv_res. match goal with H : text_in _ = Some _ |- _ => apply text_in_same in H; subst end.
      cbn. by do 2 eexists.
    + by injection Hrow as <-.
  - rewrite Hpa in Hv. eapply activity_views_inputs; [exact Hl| |exact Hv].
    unfold drawn. by rewrite length_map, length_seq.
Qed.

(** ** [Delete] *)

Record trip_deleted (r : DeleteSavedTripRequest) (d d' : db) : Prop := {
  dl_trips : trips d' = delete (ds_TripID r) (trips d);
  dl_places : places (saved d') = places (saved d);
  dl_users : user_rows d' = user_rows d;
  dl_plans : saved_plans (saved d') =
    delete_rows (fun _ p => bool_decide (sp_trip_id p = ds_TripID r)) (saved_plans (saved d));
  dl_activities : saved_activities (saved d') =
    delete_rows (fun k _ => plan_deleted (ds_TripID r) k.1 d) (saved_activities (saved d));
  dl_windows : saved_windows (saved d') =
    delete_rows (fun k _ => plan_deleted (ds_TripID r) k.1.1 d) (saved_windows (saved d));
  dl_operations : operations (saved d') =
    delete_rows (fun _ e => bool_decide (e_trip_id e = ds_TripID r)) (operations (saved d));
  dl_intents : intents d' =
    delete_rows (fun _ i => bool_decide (i_trip_id i = ds_TripID r)) (intents d);
  dl_outbox : outbox d' =
    delete_rows (fun _ o => bool_decide (o_trip_id o = ds_TripID r)) (outbox d);
  dl_leases : leases d' = delete (ds_TripID r) (leases d);
  dl_execution_plans : plans d' =
    delete_rows (fun _ p => bool_decide (pl_trip_id p = ds_TripID r)) (plans d);
  dl_record_rows : forall k h, http_records (saved d) !! k = Some h ->
    h_trip_id h <> Some (ds_TripID r) -> http_records (saved d') !! k = Some h;
  dl_state : exists t, trips d !! ds_TripID r = Some t /\ t_execution_state t = Inactive /\
    t_owner_user_id t = ds_UserID r;
  dl_records : records_unique d -> records_unique d'
}.

Lemma Delete_cases clk rng r d dup d' :
  Delete clk rng r d = Ok (dup, d') -> (dup = true /\ d' = d) \/ (dup = false /\ trip_deleted r d d').
Proof.
  unfold Delete. intros H. apply tx_bind_ok in H as ([] & d0 & H1 & H).
  apply guard_ok in H1 as [_ ->]. apply tx_bind_ok in H as (a & d0 & H1 & H).
  apply reserve_ok in H1. destruct a as [id|rp].
  2: { left. destruct H1 as [-> _]. apply tx_bind_ok in H as ([] & d0 & H1 & H).
       apply guard_ok in H1 as [_ ->]. by apply mret_ok in H as [<- <-]. }
  right. destruct H1 as (-> & Hck & Hn & Hnew & ->). set (h := new_http_record _ _ _ _ _ _ _) in *.
  unfold delete_saved in H. apply tx_bind_ok in H as (cur & d0 & H1 & H).
  apply lockInactiveSavedTrip_ok in H1 as (-> & t & row & Hlk).
  destruct Hlk as [Ht Ho _ _ Hin _ _ _]. cbn in Ht.
  apply tx_bind_ok in H as ([] & d0 & H1 & H).
  apply (complete_record_ok _ _ _ _ _ _ _ _ _ _ _ h) in H1 as ->;
    [|by cbn; rewrite lookup_insert_eq|done].
  apply tx_bind_ok in H as ([] & d0 & H1 & H). apply modify_ok in H1.
  apply mret_ok in H as [<- <-]. cbn in H1. rewrite Ht, bool_decide_eq_true_2 in H1 by done.
  split; [done|]. subst d0. constructor; try done; [|by exists t|].
  { intros k x Hk Hx. cbn. rewrite insert_insert_eq, lookup_update_rows.
    rewrite lookup_insert_ne by (intros <-; by rewrite Hn in Hk). rewrite Hk. cbn.
    by rewrite bool_decide_eq_false_2. }
  intros Hu. cbn. intros k1 k2 h1 h2 H1 H2. apply lookup_update_rows_Some in H1 as (x1 & H1 & E1).
  apply lookup_update_rows_Some in H2 as (x2 & H2 & E2).
  rewrite insert_insert_eq in H1, H2. intros Hs.
  refine (reserved_unique (ds_UserID r) (ds_IdempotencyKey r) "DELETE" (trip_path (ds_TripID r)) d
    (set_http_records _ d) _ _ Hu Hnew Hn _ _ _ _ eq_refl k1 k2 x1 x2 H1 H2 _); try reflexivity.
  rewrite <- Hs. subst h1 h2. by repeat case_match.
Qed.

Lemma Delete_consistent clk rng r d dup d' :
  saved_consistent d -> Delete clk rng r d = Ok (dup, d') -> saved_consistent d'.
Proof.
  intros Hc H. destruct (Delete_cases _ _ _ _ _ _ H) as [[_ ->]|[_ Hd]]; [done|].
  assert (Hkeep : forall p row, saved_plans (saved d') !! p = Some row <->
    saved_plans (saved d) !! p = Some row /\ sp_trip_id row <> ds_TripID r).
  { intros p row. rewrite (dl_plans _ _ _ Hd), lookup_delete_rows_Some.
    by rewrite bool_decide_eq_false. }
  assert (Hdel : forall p, plan_deleted (ds_TripID r) p d = false <->
    forall row, saved_plans (saved d) !! p = Some row -> sp_trip_id row <> ds_TripID r).
  { intros p. unfold plan_deleted. destruct (saved_plans (saved d) !! p) as [row|]; [|naive_solver].
    rewrite bool_decide_eq_false. naive_solver. }
  assert (Hpl : forall p u, owned_place p u d' = owned_place p u d)
    by (intros; unfold owned_place; by rewrite (dl_places _ _ _ Hd)).
  constructor.
  - intros p id a. rewrite (dl_activities _ _ _ Hd), lookup_delete_rows_Some. cbn. rewrite Hdel.
    intros [Ha Hp]. apply (sc_activity d Hc), saved_activity_fk_ok in Ha as [(row & Hr & ? & ?) ?].
    apply saved_activity_fk_ok. rewrite Hpl. split; [|done]. exists row. rewrite Hkeep. auto.
  - intros p id n w. rewrite (dl_windows _ _ _ Hd), lookup_delete_rows_Some. cbn. intros [Hw Hp].
    apply (sc_window d Hc) in Hw as [a Ha]. exists a.
    by rewrite (dl_activities _ _ _ Hd), lookup_delete_rows_Some.
  - intros p row [Hr Hne]%Hkeep. destruct (sc_dense d Hc _ _ Hr) as [Hde Hn].
    destruct (itinerary_kept p d d') as [-> ?]; [done| |done]. intros id. apply option_eq. intros a.
    rewrite (dl_activities _ _ _ Hd), lookup_delete_rows_Some. cbn. rewrite Hdel. naive_solver.
  - intros p row [Hr Hne]%Hkeep. destruct (sc_owner d Hc _ _ Hr) as (t & Ht & ?). exists t.
    rewrite (dl_trips _ _ _ Hd). by rewrite lookup_delete_ne.
  - intros k t p. rewrite (dl_trips _ _ _ Hd). intros [Hk Ht]%lookup_delete_Some Hp.
    destruct (sc_selected d Hc _ _ _ Ht Hp) as (row & Hr & Hrt). exists row. rewrite Hkeep.
    split_and!; [done|congruence|done].
  - exact (dl_records _ _ _ Hd (sc_request d Hc)).
Qed.

End SavedCreate.
