(* ===== verification/ExecutionFacts.v ===== *)
(** * Facts on the execution of saved trips

    What each operation of [saved_trip_execution.go] does to the tables when it
    succeeds, as one change of the trip, of its operation and of the record of
    its request; and the lifecycle invariant these changes keep. *)

From S2P Require Import Prelude GoLib GoText Wire WireFacts Schema Tables SavedTables Commands.
From S2P Require Import Finalization Mutations Proposals CanonicalState Canonical.
From S2P Require Import CanonicalFacts CanonicalLoad SavedTables SavedMutations Execution.
From S2P Require Import SavedFacts SavedProps SavedCreate.

Section Statements.
Context {PG : Postgres} {SS : SavedServer} {TZ : TimeZones}.

(** ** Statements *)

Lemma update_trip_execution_ok op id P f d u d' t :
  trips d !! id = Some t -> P t = true -> update_trip_execution op id P f d = Ok (u, d') ->
  trip_check (f t) = true /\
  (executing (f t) = true -> other_executing id (t_owner_user_id (f t)) d = false) /\
  d' = set_trips (<[id := f t]> (trips d)) d.
Proof.
  intros Ht HP H. unfold update_trip_execution in H. rewrite Ht, HP in H.
  case_match eqn:E; [|done]. injection H as _ <-. apply andb_true_iff in E as [E1 E2].
  split_and!; [done| |done]. intros Hx. rewrite Hx in E2. by apply negb_true_iff in E2.
Qed.

Lemma insert_operation_ok op id e d u d' :
  insert_operation op id e d = Ok (u, d') ->
  operations (saved d) !! id = None /\ operation_check e = true /\ operation_fk e d = true /\
  (e_state e = OpPending -> other_pending id (e_trip_id e) d = false) /\
  (forall k x, operations (saved d) !! k = Some x ->
     e_idempotency_record_id x <> e_idempotency_record_id e) /\
  d' = set_operations (<[id := e]> (operations (saved d))) d.
Proof.
  unfold insert_operation. intros H. case_match eqn:E; [done|]. injection H as _ <-.
  inv_res. split_and!; try done; [by apply eq_None_not_Some| |].
  - intros Hp. rewrite bool_decide_eq_true_2 in * by done. done.
  - intros k x Hk. match goal with H : any_row _ _ = false |- _ => 
      rewrite any_row_false in H; specialize (H _ _ Hk) end. by inv_res.
Qed.

Lemma update_operation_ok op id P f d u d' e :
  operations (saved d) !! id = Some e -> P e = true -> update_operation op id P f d = Ok (u, d') ->
  operation_check (f e) = true /\ d' = set_operations (<[id := f e]> (operations (saved d))) d.
Proof.
  intros He HP H. unfold update_operation in H. rewrite He, HP in H.
  case_match; [|done]. by injection H as _ <-.
Qed.

Lemma trip_operation_ok o tripID d e :
  trip_operation o tripID d = Some e <->
  operations (saved d) !! o = Some e /\ e_trip_id e = tripID.
Proof.
  unfold trip_operation. destruct (operations (saved d) !! o) as [x|]; simpl; [|naive_solver].
  case_bool_decide; naive_solver.
Qed.

Definition bound_record (tripID : string) (h : http_record) : http_record :=
  set_h_resource_id (Some tripID) (set_h_trip_id (Some tripID) h).

Lemma bind_record_ok op id tripID d u d' h :
  http_records (saved d) !! id = Some h -> h_state h = InProgress ->
  bind_record op id tripID d = Ok (u, d') ->
  d' = set_http_records (<[id := bound_record tripID h]> (http_records (saved d))) d.
Proof.
  intros Hh Hs H. unfold bind_record in H. apply tx_bind_ok in H as (n & d1 & H1 & H).
  apply mret_ok in H as [_ <-]. apply (update_http_record_ok _ _ _ _ _ _ _ h) in H1; [|done|].
  - by destruct H1 as (_ & _ & _ & ->).
  - unfold in_progress. by rewrite bool_decide_eq_true.
Qed.

(** The record of a transition that was answered with 202. *)
Definition accepted_record (body : jsonb) (etag : string) (now : Z) (h : http_record)
  : http_record :=
  set_h_completed_at (Some now) (set_h_response_etag (Some etag)
    (set_h_response_body (Some body) (set_h_response_content_type (Some "application/json")
      (set_h_response_status (Some 202) (set_h_state Completed h))))).

Lemma respond_transition_ok op id userID tripID now d out d' h :
  http_records (saved d) !! id = Some h -> h_state h = InProgress ->
  respond_transition op id userID tripID now d = Ok (out, d') ->
  at_Duplicate out = false /\ get userID tripID d = Ok (etv_Trip (at_Transition out)) /\
  tr_TransitionOperation (etv_Trip (at_Transition out)) = Some (etv_Operation (at_Transition out)) /\
  exists body etag, transition_json (at_Transition out) = Some body /\
  http_record_check (accepted_record body etag now h) = true /\
  d' = set_http_records (<[id := accepted_record body etag now h]> (http_records (saved d))) d.
Proof.
  intros Hh Hs H. unfold respond_transition in H. apply tx_bind_ok in H as (v & d1 & H1 & H).
  apply query_ok in H1 as [Hg ->]. apply tx_bind_ok in H as (o & d1 & H1 & H).
  apply lift_ok in H1 as [Ho%of_option_ok ->]. apply tx_bind_ok in H as (body & d1 & H1 & H).
  apply lift_ok in H1 as [Hb%of_option_ok ->]. apply tx_bind_ok in H as (n & d1 & H1 & H).
  apply (update_http_record_ok _ _ _ _ _ _ _ h) in H1 as (_ & Hck & _ & ->); [|done|].
  - apply mret_ok in H as [<- <-]. split_and!; [done..|]. eauto.
  - unfold in_progress. by rewrite bool_decide_eq_true.
Qed.

Lemma commit_execution_ok op tripID d u d' :
  commit_execution op tripID d = Ok (u, d') ->
  d' = d /\ execution_fk tripID d = true /\ current_plan_fk tripID d = true.
Proof.
  unfold commit_execution. intros H. case_match eqn:E; [|done]. injection H as _ <-.
  by apply andb_true_iff in E.
Qed.

End Statements.

(** ** Changes of a trip's execution state *)

Section Moves.
Context {PG : Postgres} {SS : SavedServer} {TZ : TimeZones}.

(** The trip, one operation and one record changed; [rid] is the record. *)
Record moved (tripID o rid : string) (t t' : trip) (e' : exec_operation) (d d' : db) : Prop := {
  mv_trip : trips d !! tripID = Some t;
  mv_trips : trips d' = <[tripID := t']> (trips d);
  mv_same : t_owner_user_id t' = t_owner_user_id t /\ t_saved_plan_id t' = t_saved_plan_id t /\
    t_trip_revision t' = t_trip_revision t;
  mv_check : trip_check t' = true;
  mv_one : executing t' = true -> other_executing tripID (t_owner_user_id t) d = false;
  mv_operations : operations (saved d') = <[o := e']> (operations (saved d));
  mv_operation : e_trip_id e' = tripID /\ e_idempotency_record_id e' = rid;
  mv_saved : saved_plans (saved d') = saved_plans (saved d) /\
    saved_activities (saved d') = saved_activities (saved d) /\
    saved_windows (saved d') = saved_windows (saved d) /\ places (saved d') = places (saved d);
  mv_fk : execution_fk tripID d' = true /\ current_plan_fk tripID d' = true;
  mv_plans : plans d ⊆ plans d';
  mv_records : forall k, k <> rid ->
    http_records (saved d') !! k = http_records (saved d) !! k;
  mv_unique : records_unique d -> records_unique d'
}.

(** The saved tables are read only. *)
Lemma moved_consistent tripID o rid t t' e' d d' :
  saved_consistent d -> moved tripID o rid t t' e' d d' -> saved_consistent d'.
Proof.
  intros [H1 H2 H3 H4 H5 H6] [Ht Htr (Ho & Hp & _) _ _ _ _ (E1 & E2 & E3 & E4) _ _ _ Hu].
  constructor; [| | | | |by apply Hu].
  - intros p id a Ha. rewrite E2 in Ha. apply H1 in Ha. unfold saved_activity_fk in *.
    by rewrite E1, E4.
  - intros p id n w. rewrite E3, E2. apply H2.
  - intros p row. rewrite E1. intros Hr. destruct (H3 _ _ Hr) as [Hd Hn].
    destruct (itinerary_kept p d d') as [-> ?]; [done|by intros; rewrite E2|done].
  - intros p row. rewrite E1, Htr. intros Hr. destruct (H4 _ _ Hr) as (x & Hx & Hxo).
    destruct (decide (tripID = sp_trip_id row)) as [->|Hne].
    + exists t'. rewrite lookup_insert_eq. split; [done|]. congruence.
    + exists x. by rewrite lookup_insert_ne.
  - intros k x p. rewrite E1, Htr. intros [[<- <-]|[_ Hx]]%lookup_insert_Some Hxp.
    + eapply H5; [exact Ht|congruence].
    + by eapply H5.
Qed.

(** The answer of a new transition request. *)
Record requested (clk : nat -> Z) (now : Z) (userID key method path kind tripID rid : string)
    (digest : bytes) (out : ActivatedSavedTrip) (d d' : db) : Prop := {
  rq_fresh : http_records (saved d) !! rid = None;
  rq_new : forall k h, http_records (saved d) !! k = Some h ->
    same_request userID method path key h = false;
  rq_first : http_record_check (new_http_record clk userID key method path kind digest) = true;
  rq_view : get userID tripID d' = Ok (etv_Trip (at_Transition out));
  rq_operation : tr_TransitionOperation (etv_Trip (at_Transition out)) =
    Some (etv_Operation (at_Transition out));
  rq_record : exists body etag, transition_json (at_Transition out) = Some body /\
    let h := accepted_record body etag now
               (bound_record tripID (new_http_record clk userID key method path kind digest)) in
    http_record_check h = true /\ http_records (saved d') = <[rid := h]> (http_records (saved d))
}.

Lemma requested_unique clk now userID key method path kind tripID rid digest out d d' :
  requested clk now userID key method path kind tripID rid digest out d d' ->
  records_unique d -> records_unique d'.
Proof.
  intros [Hn Hnew _ _ _ (body & etag & _ & _ & Hr)] Hu.
  eapply (reserved_unique userID key method path d); [done|exact Hnew|exact Hn|..|exact Hr];
    reflexivity.
Qed.

(** ** [Activate] *)

Lemma insert_execution_frame tripID at_ a d u d' :
  insert_execution tripID at_ a d = Ok (u, d') -> canonical_frame d d'.
Proof.
  unfold insert_execution. intros H. apply tx_bind_ok in H as ([] & d1 & H1 & H).
  apply insert_windows_ok in H as [Hf _]. eapply canonical_frame_trans; [|exact Hf].
  unfold insert_activity in H1. case_match; [done|]. injection H1 as <-. apply set_activities_frame.
Qed.

Lemma for_each_execution_frame tripID at_ l d u d' :
  for_each (insert_execution tripID at_) l d = Ok (u, d') -> canonical_frame d d'.
Proof.
  revert d. induction l as [|a l IH]; intros d H; cbn in H.
  - apply mret_ok in H as [_ <-]. apply canonical_frame_refl.
  - apply tx_bind_ok in H as ([] & d1 & H1 & H).
    eapply canonical_frame_trans; [by eapply insert_execution_frame|by eapply IH].
Qed.

(** The row of the execution plan. *)
Definition execution_plan (planID : string) (r : ActivateSavedTripRequest) (revision now : Z)
    (segments : list CanonicalPlanSegmentDraft) : plan :=
  user_plan (ac_TripID r) (ac_UserID r) revision
    (userCurrentPlanPayload planID (uint64 revision) (unix_milli (trunc_ms now)) segments)
    (trunc_ms now).

Lemma write_execution_ok rng r now l segments d u d' :
  write_execution rng r (of_timestamptz (trunc_ms now)) l segments d = Ok (u, d') ->
  let planID := newAuthUUID (rng 1%nat) in
  trips d' = trips d /\ saved d' = saved d /\ intents d' = intents d /\
  exists revision, 0 < revision <= max_int64 /\
    plan_insertable planID (execution_plan planID r revision now segments) d /\
    plans d' = <[planID := execution_plan planID r revision now segments]> (plans d).
Proof.
  intros H planID. unfold write_execution in H. apply tx_bind_ok in H as (rev & d1 & H1 & H).
  unfold next_plan_revision in H1. apply tx_bind_ok in H1 as (hi & d2 & H2 & H1).
  apply gets_ok in H2 as [-> ->]. apply tx_bind_ok in H1 as ([] & d2 & H2 & H1).
  apply guard_ok in H2 as [Hmax%Z.leb_gt ->]. apply tx_bind_ok in H1 as ([] & d2 & H2 & H1).
  apply guard_ok in H2 as [Hpos%Z.leb_gt ->]. apply mret_ok in H1 as [<- <-].
  apply tx_bind_ok in H as ([] & d1 & H1 & H). apply insert_plan_ok in H1 as [Hin ->].
  apply tx_bind_ok in H as ([] & d1 & H1 & H). apply modify_ok in H1 as ->.
  apply tx_bind_ok in H as ([] & d1 & H1 & H). apply modify_ok in H1 as ->.
  apply for_each_execution_frame in H as [_ Ht Hp _ Hi _ _ _ Hs].
  split_and!; [by rewrite Ht|by rewrite Hs|by rewrite Hi|].
  exists (max_plan_revision (ac_TripID r) d + 1). split; [lia|].
  assert (E : to_timestamptz (of_timestamptz (trunc_ms now)) = trunc_ms now)
    by (unfold to_timestamptz, of_timestamptz; by rewrite Z.div_mul by lia).
  assert (E' : UnixMilli (of_timestamptz (trunc_ms now)) = unix_milli (trunc_ms now))
    by (apply (trunc_ms_exact now)).
  rewrite E, E' in *. split; [exact Hin|]. rewrite Hp. reflexivity.
Qed.

(** The load does not read the records. *)
Lemma load_activation_records m p tripID userID d :
  loadActivationActivities p tripID userID (set_http_records m d) =
  loadActivationActivities p tripID userID d.
Proof.
  unfold loadActivationActivities.
  assert (E : forall rows, activation_rows tripID userID (set_http_records m d) rows =
    activation_rows tripID userID d rows).
  { induction rows as [|[[q id] a] rows IH]; [done|]. cbn [activation_rows]. by rewrite IH. }
  change (plan_activities p (set_http_records m d)) with (plan_activities p d). rewrite E.
  destruct (activation_rows tripID userID d (plan_activities p d)) as [rows|]; [|done].
  cbn [mbind res_bind]. clear E. induction rows as [|row rows IH]; [done|].
  cbn [scan_activations]. rewrite IH. by destruct row as [[[? ?] ?] ?].
Qed.

Record activation_locked (r : ActivateSavedTripRequest) (cur : lockedActivationTrip) (t : trip)
    (d : db) : Prop := {
  al_trip : trips d !! ac_TripID r = Some t;
  al_owner : t_owner_user_id t = ac_UserID r;
  al_plan : t_saved_plan_id t = Some (la_PlanID cur);
  al_inactive : t_execution_state t = Inactive;
  al_revision : la_Revision cur = t_trip_revision t;
  al_zone : la_TimeZoneName cur = t_default_time_zone_name t
}.

Lemma lockActivationTrip_ok r d cur d' :
  lockActivationTrip (ac_UserID r) (ac_TripID r) (ac_ExpectedRevision r) d = Ok (cur, d') ->
  d' = d /\ exists t, activation_locked r cur t d.
Proof.
  unfold lockActivationTrip. intros H. apply tx_bind_ok in H as (t & d1 & H1 & H).
  apply find_row_ok in H1 as [[Ht Ho]%owned_trip_ok ->]. apply tx_bind_ok in H as (p & d1 & H1 & H).
  apply lift_ok in H1 as [Hp%of_option_ok ->]. apply tx_bind_ok in H as ([] & d1 & H1 & H).
  apply guard_ok in H1 as [He ->]. apply tx_bind_ok in H as ([] & d1 & H1 & H).
  apply guard_ok in H1 as [_ ->]. apply tx_bind_ok in H as ([] & d1 & H1 & H).
  apply guard_ok in H1 as [_ ->]. apply mret_ok in H as [<- <-]. split; [done|]. exists t.
  constructor; try done. unfold executing in He. apply negb_false_iff in He.
  by apply bool_decide_eq_true in He.
Qed.

(** What an activation that was carried out read and wrote. *)
Record activated (clk : nat -> Z) (rng : nat -> bytes) (r : ActivateSavedTripRequest)
    (out : ActivatedSavedTrip) (t : trip) (l : list activationActivity)
    (segments : list CanonicalPlanSegmentDraft) (d d' : db) : Prop := {
  ad_requested : requested clk (clk 5%nat) (ac_UserID r) (ac_IdempotencyKey r) "POST"
    (trip_path (ac_TripID r) +:+ "/activate") "activate_trip" (ac_TripID r)
    (newAuthUUID (rng 0%nat)) (ac_RequestDigest r) out d d';
  ad_locked : exists cur, activation_locked r cur t d /\
    loadActivationActivities (la_PlanID cur) (ac_TripID r) (ac_UserID r) d = Ok l;
  ad_some : l <> [];
  ad_segments : exists loc, LoadLocation (t_default_time_zone_name t) = Some loc /\
    let now := of_timestamptz (trunc_ms (clk 2%nat)) in
    activation_segments now (activationDay now loc).1 (activationDay now loc).2 l = Ok segments;
  ad_plan : exists revision, 0 < revision <= max_int64 /\
    let planID := newAuthUUID (rng 1%nat) in
    plan_insertable planID (execution_plan planID r revision (clk 2%nat) segments) d /\
    plans d' = <[planID := execution_plan planID r revision (clk 2%nat) segments]> (plans d);
  ad_intents : intents d' = intents d;
  ad_fresh : operations (saved d) !! newAuthUUID (rng 2%nat) = None /\
    other_pending (newAuthUUID (rng 2%nat)) (ac_TripID r) d = false /\
    forall k x, operations (saved d) !! k = Some x ->
      e_idempotency_record_id x <> newAuthUUID (rng 0%nat);
  ad_operation : operation_check (new_operation clk 3 (ac_TripID r) (ac_UserID r)
    (newAuthUUID (rng 0%nat)) OpActivate (t_trip_revision t)
    (Some (newAuthUUID (rng 1%nat)))) = true;
  ad_moved : moved (ac_TripID r) (newAuthUUID (rng 2%nat)) (newAuthUUID (rng 0%nat)) t
    (activated_trip (newAuthUUID (rng 1%nat)) (newAuthUUID (rng 2%nat)) (trunc_ms (clk 2%nat))
       (t_next_mutation_sequence t) t)
    (new_operation clk 3 (ac_TripID r) (ac_UserID r) (newAuthUUID (rng 0%nat)) OpActivate
       (t_trip_revision t) (Some (newAuthUUID (rng 1%nat)))) d d'
}.

Lemma stored_activation now :
  to_timestamptz (of_timestamptz (trunc_ms now)) = trunc_ms now.
Proof. unfold to_timestamptz, of_timestamptz. by rewrite Z.div_mul by lia. Qed.

(** The operation is recorded and the trip enters [activating]. *)
Lemma enter_activating_ok clk rng r h now revision d u d' t :
  trips d !! ac_TripID r = Some t -> t_execution_state t = Inactive ->
  http_records (saved d) !! newAuthUUID (rng 0%nat) = Some h -> h_state h = InProgress ->
  enter_activating clk rng r (newAuthUUID (rng 0%nat)) (of_timestamptz (trunc_ms now)) revision d
    = Ok (u, d') ->
  let o := newAuthUUID (rng 2%nat) in
  let p := newAuthUUID (rng 1%nat) in
  let e := new_operation clk 3 (ac_TripID r) (ac_UserID r) (newAuthUUID (rng 0%nat)) OpActivate
             revision (Some p) in
  let t' := activated_trip p o (trunc_ms now) (t_next_mutation_sequence t) t in
  operations (saved d) !! o = None /\ other_pending o (ac_TripID r) d = false /\
  (forall k x, operations (saved d) !! k = Some x ->
     e_idempotency_record_id x <> newAuthUUID (rng 0%nat)) /\
  operation_check e = true /\ trip_check t' = true /\
  other_executing (ac_TripID r) (t_owner_user_id t) d = false /\
  d' = set_trips (<[ac_TripID r := t']> (trips d))
    (set_operations (<[o := e]> (operations (saved d)))
      (set_http_records (<[newAuthUUID (rng 0%nat) := bound_record (ac_TripID r) h]>
         (http_records (saved d))) d)).
Proof.
  intros Ht Hin Hh Hs H. unfold enter_activating in H. apply tx_bind_ok in H as (x & d1 & H1 & H).
  apply find_row_ok in H1 as [H1 ->]. rewrite Ht in H1. injection H1 as <-.
  apply tx_bind_ok in H as ([] & d1 & H1 & H). apply guard_ok in H1 as [_ ->].
  apply tx_bind_ok in H as ([] & d1 & H1 & H).
  apply (bind_record_ok _ _ _ _ _ _ h) in H1 as ->; [|done|done].
  apply tx_bind_ok in H as ([] & d1 & H1 & H).
  apply insert_operation_ok in H1 as (Hn & Hck & _ & Hop & Hr & ->).
  rewrite stored_activation in H.
  apply (update_trip_execution_ok _ _ _ _ _ _ _ t) in H as (Htc & Hoe & ->);
    [|exact Ht|by rewrite bool_decide_eq_true_2].
  split_and!; [exact Hn|by apply Hop|exact Hr|exact Hck|exact Htc|by apply Hoe|reflexivity].
Qed.

Lemma activate_saved_ok clk rng r d0 out d' h :
  let rid := newAuthUUID (rng 0%nat) in
  h = new_http_record clk (ac_UserID r) (ac_IdempotencyKey r) "POST"
        (trip_path (ac_TripID r) +:+ "/activate") "activate_trip" (ac_RequestDigest r) ->
  http_record_check h = true -> http_records (saved d0) !! rid = None ->
  (forall k x, http_records (saved d0) !! k = Some x ->
     same_request (ac_UserID r) "POST" (trip_path (ac_TripID r) +:+ "/activate")
       (ac_IdempotencyKey r) x = false) ->
  activate_saved clk rng r rid (set_http_records (<[rid := h]> (http_records (saved d0))) d0)
    = Ok (out, d') ->
  at_Duplicate out = false /\ exists t l segments, activated clk rng r out t l segments d0 d'.
Proof.
  intros rid Eh Hck Hn Hnew H. unfold activate_saved in H.
  apply tx_bind_ok in H as ([] & d1 & H1 & H). unfold lockActivationUser in H1.
  case_bool_decide; [|done]. injection H1 as <-.
  apply tx_bind_ok in H as (cur & d1 & H1 & H).
  apply lockActivationTrip_ok in H1 as (-> & t & Hlk). destruct Hlk as [Ht Ho Hp Hin Hrev Hz].
  apply tx_bind_ok in H as (conflict & d1 & H1 & H). apply gets_ok in H1 as [_ ->].
  apply tx_bind_ok in H as ([] & d1 & H1 & H). apply guard_ok in H1 as [_ ->].
  apply tx_bind_ok in H as (l & d1 & H1 & H). apply query_ok in H1 as [Hl ->].
  rewrite load_activation_records in Hl.
  apply tx_bind_ok in H as ([] & d1 & H1 & H). apply guard_ok in H1 as [Hne ->].
  apply tx_bind_ok in H as (loc & d1 & H1 & H). apply lift_ok in H1 as [Hloc%of_option_ok ->].
  set (now := of_timestamptz (trunc_ms (clk 2%nat))) in H. cbv zeta in H.
  destruct (activationDay now loc) as [start finish] eqn:Eday.
  apply tx_bind_ok in H as (segments & d1 & H1 & H). apply lift_ok in H1 as [Hseg ->].
  apply tx_bind_ok in H as ([] & d1 & H1 & H).
  apply write_execution_ok in H1 as (Et & Es & Ei & revision & Hrv & Hins & Epl).
  apply tx_bind_ok in H as ([] & d2 & H1 & H).
  apply (enter_activating_ok _ _ _ h _ _ _ _ _ t) in H1;
    [|by rewrite Et|done|by rewrite Es; cbn; rewrite lookup_insert_eq|by rewrite Eh].
  destruct H1 as (Hon & Hop & Hor & Hoc & Htc & Hox & ->).
  apply tx_bind_ok in H as (res & d2 & H1 & H).
  apply (respond_transition_ok _ _ _ _ _ _ _ _ (bound_record (ac_TripID r) h)) in H1;
    [|by cbn; rewrite lookup_insert_eq|by rewrite Eh].
  destruct H1 as (Hdup & Hg & Hto & body & etag & Hb & Hrc & ->).
  apply tx_bind_ok in H as ([] & d2 & H1 & H). apply commit_execution_ok in H1 as (-> & Hfk & Hcf).
  apply mret_ok in H as [<- <-]. split; [done|]. exists t, l, segments.
  assert (Erec : forall x y, <[rid := x]> (<[rid := y]> (http_records (saved d1))) =
    <[rid := x]> (http_records (saved d0)))
    by (intros; rewrite Es; cbn; by rewrite !insert_insert_eq).
  cbn in Et. rewrite Hrev in *.
  eassert (Hreq : requested clk (clk 5%nat) (ac_UserID r) (ac_IdempotencyKey r) "POST" _
    "activate_trip" (ac_TripID r) rid (ac_RequestDigest r) res d0 _).
  2: constructor; [exact Hreq|..].
  - constructor; [exact Hn|exact Hnew|by rewrite <- Eh|by rewrite get_records|done|].
    exists body, etag. rewrite <- Eh. split; [done|]. split; [done|]. apply Erec.
  - exists cur. split; [by constructor|done].
  - intros ->. done.
  - exists loc. rewrite <- Hz. split; [done|]. cbv zeta. fold now. by rewrite Eday.
  - exists revision. split; [done|]. split; [destruct Hins; by constructor|exact Epl].
  - exact Ei.
  - rewrite Es in Hon, Hor. unfold other_pending in Hop. rewrite Es in Hop. done.
  - exact Hoc.
  - constructor; try done.
    + cbn. by rewrite Et.
    + intros _. unfold other_executing in *. by rewrite Et in Hox.
    + cbn. by rewrite Es.
    + cbn. by rewrite Es.
    + cbn. rewrite Epl. apply insert_subseteq. exact (pli_fresh _ _ _ Hins).
    + intros k Hk. cbn. rewrite Es. cbn. by rewrite !lookup_insert_ne.
    + by eapply requested_unique.
Qed.

Lemma transition_replay_ok invalid rp out :
  transition_replay invalid rp = Ok out -> at_Duplicate out = true.
Proof. unfold transition_replay. intros H. by inv_res. Qed.

Lemma Activate_cases clk rng r d out d' :
  Activate clk rng r d = Ok (out, d') ->
  (at_Duplicate out = true /\ d' = d) \/
  (at_Duplicate out = false /\ exists t l segments, activated clk rng r out t l segments d d').
Proof.
  intros H. unfold Activate in H. apply tx_bind_ok in H as ([] & d0 & H1 & H).
  apply lift_ok in H1 as [_ ->]. apply tx_bind_ok in H as (a & d0 & H1 & H).
  apply reserve_ok in H1. destruct a as [id|rp].
  - right. destruct H1 as (-> & Hck & Hn & Hnew & ->). by eapply activate_saved_ok.
  - left. destruct H1 as [-> _]. apply lift_ok in H as [H ->].
    split; [by eapply transition_replay_ok|done].
Qed.

(** ** [Deactivate] *)

Definition deactivating_trip (o : string) (now : Z) (t : trip) : trip :=
  set_t_updated_at now (set_t_transition_operation_id (Some o)
    (set_t_execution_state Deactivating t)).

Record deactivated (clk : nat -> Z) (rng : nat -> bytes) (r : DeactivateSavedTripRequest)
    (out : ActivatedSavedTrip) (t : trip) (d d' : db) : Prop := {
  dd_requested : requested clk (clk 6%nat) (de_UserID r) (de_IdempotencyKey r) "POST"
    (trip_path (de_TripID r) +:+ "/deactivate") "deactivate_trip" (de_TripID r)
    (newAuthUUID (rng 0%nat)) (de_RequestDigest r) out d d';
  dd_owner : t_owner_user_id t = de_UserID r;
  dd_state : t_execution_state t = Active \/ t_execution_state t = Activating;
  dd_fresh : operations (saved d) !! newAuthUUID (rng 1%nat) = None /\
    other_pending (newAuthUUID (rng 1%nat)) (de_TripID r) d = false /\
    forall k x, operations (saved d) !! k = Some x ->
      e_idempotency_record_id x <> newAuthUUID (rng 0%nat);
  dd_operation : operation_check (new_operation clk 2 (de_TripID r) (de_UserID r)
    (newAuthUUID (rng 0%nat)) OpDeactivate (t_trip_revision t) None) = true;
  dd_proposals : proposals d' = update_rows (pending_of (de_TripID r))
    (fun p => set_p_decided_at (Some (clk 4%nat)) (set_p_state ProposalStale p)) (proposals d);
  dd_moved : moved (de_TripID r) (newAuthUUID (rng 1%nat)) (newAuthUUID (rng 0%nat)) t
    (deactivating_trip (newAuthUUID (rng 1%nat)) (clk 5%nat) t)
    (new_operation clk 2 (de_TripID r) (de_UserID r) (newAuthUUID (rng 0%nat)) OpDeactivate
       (t_trip_revision t) None) d d'
}.

Lemma deactivate_saved_ok clk rng r d0 out d' h :
  let rid := newAuthUUID (rng 0%nat) in
  h = new_http_record clk (de_UserID r) (de_IdempotencyKey r) "POST"
        (trip_path (de_TripID r) +:+ "/deactivate") "deactivate_trip" (de_RequestDigest r) ->
  http_record_check h = true -> http_records (saved d0) !! rid = None ->
  (forall k x, http_records (saved d0) !! k = Some x ->
     same_request (de_UserID r) "POST" (trip_path (de_TripID r) +:+ "/deactivate")
       (de_IdempotencyKey r) x = false) ->
  deactivate_saved clk rng r rid (set_http_records (<[rid := h]> (http_records (saved d0))) d0)
    = Ok (out, d') ->
  at_Duplicate out = false /\ exists t, deactivated clk rng r out t d0 d'.
Proof.
  intros rid Eh Hck Hn Hnew H. unfold deactivate_saved in H.
  apply tx_bind_ok in H as (t & d1 & H1 & H). apply find_row_ok in H1 as [[Ht Ho]%owned_trip_ok ->].
  apply tx_bind_ok in H as (p & d1 & H1 & H). apply lift_ok in H1 as [_ ->].
  apply tx_bind_ok in H as ([] & d1 & H1 & H). apply guard_ok in H1 as [_ ->].
  apply tx_bind_ok in H as ([] & d1 & H1 & H). apply guard_ok in H1 as [Hst ->].
  apply tx_bind_ok in H as ([] & d1 & H1 & H).
  apply (bind_record_ok _ _ _ _ _ _ h) in H1 as ->; [|by cbn; rewrite lookup_insert_eq|by rewrite Eh].
  apply tx_bind_ok in H as ([] & d1 & H1 & H).
  apply insert_operation_ok in H1 as (Hon & Hoc & _ & Hop & Hor & ->).
  apply tx_bind_ok in H as ([] & d1 & H1 & H). apply update_proposals_ok in H1 as [_ ->].
  apply tx_bind_ok in H as ([] & d1 & H1 & H).
  apply (update_trip_execution_ok _ _ _ _ _ _ _ t) in H1 as (Htc & Hox & ->); [|exact Ht|done].
  apply tx_bind_ok in H as (res & d1 & H1 & H).
  apply (respond_transition_ok _ _ _ _ _ _ _ _ (bound_record (de_TripID r) h)) in H1;
    [|by cbn; rewrite lookup_insert_eq|by rewrite Eh].
  destruct H1 as (Hdup & Hg & Hto & body & etag & Hb & Hrc & ->).
  apply tx_bind_ok in H as ([] & d2 & H1 & H). apply commit_execution_ok in H1 as (-> & Hfk & Hcf).
  apply mret_ok in H as [<- <-]. split; [done|]. exists t.
  eassert (Hreq : requested clk (clk 6%nat) (de_UserID r) (de_IdempotencyKey r) "POST" _
    "deactivate_trip" (de_TripID r) rid (de_RequestDigest r) res d0 _).
  2: constructor; [exact Hreq|..].
  - constructor; [exact Hn|exact Hnew|by rewrite <- Eh|by rewrite get_records|done|].
    exists body, etag. rewrite <- Eh. split; [done|]. split; [done|]. cbn.
    by rewrite !insert_insert_eq.
  - done.
  - apply andb_false_iff in Hst. rewrite !negb_false_iff, !bool_decide_eq_true in Hst. done.
  - split_and!; [exact Hon|by apply Hop|exact Hor].
  - exact Hoc.
  - done.
  - constructor; try done.
    + intros k Hk. cbn. by rewrite !lookup_insert_ne.
    + by eapply requested_unique.
Qed.

Lemma Deactivate_cases clk rng r d out d' :
  Deactivate clk rng r d = Ok (out, d') ->
  (at_Duplicate out = true /\ d' = d) \/
  (at_Duplicate out = false /\ exists t, deactivated clk rng r out t d d').
Proof.
  intros H. unfold Deactivate in H. apply tx_bind_ok in H as ([] & d0 & H1 & H).
  apply guard_ok in H1 as [_ ->]. apply tx_bind_ok in H as (a & d0 & H1 & H).
  apply reserve_ok in H1. destruct a as [id|rp].
  - right. destruct H1 as (-> & Hck & Hn & Hnew & ->). by eapply deactivate_saved_ok.
  - left. destruct H1 as [-> _]. apply lift_ok in H as [H ->].
    split; [by eapply transition_replay_ok|done].
Qed.

(** ** Completions *)

(** An update that affected a row. *)
Lemma update_http_record_one op id P f d d' :
  update_http_record op id P f d = Ok (1, d') ->
  exists h, http_records (saved d) !! id = Some h /\ P h = true /\
    http_record_check (f h) = true /\
    d' = set_http_records (<[id := f h]> (http_records (saved d))) d.
Proof.
  unfold update_http_record. intros H. destruct (http_records (saved d) !! id) as [h|] eqn:E; [|done].
  destruct (P h) eqn:EP; [|done]. case_match eqn:Ec; [|done]. injection H as <-.
  apply andb_true_iff in Ec as [? _]. by exists h.
Qed.

(** A record keeps its key when only its answer changes. *)
Lemma answered_unique d d' id h h' :
  records_unique d -> http_records (saved d) !! id = Some h ->
  h_user_id h' = h_user_id h -> h_http_method h' = h_http_method h ->
  h_normalized_path h' = h_normalized_path h -> h_idempotency_key h' = h_idempotency_key h ->
  http_records (saved d') = <[id := h']> (http_records (saved d)) -> records_unique d'.
Proof.
  intros Hu Hh E1 E2 E3 E4 Hr k1 k2 h1 h2. rewrite Hr.
  intros [[<- <-]|[Hk1 H1]]%lookup_insert_Some [[<- <-]|[Hk2 H2]]%lookup_insert_Some; [done| | |].
  - rewrite E1, E2, E3, E4. by apply Hu.
  - intros Hs. eapply Hu; [exact H1|exact Hh|]. unfold same_request in *. by rewrite <- E1, <- E2, <- E3, <- E4.
  - by apply Hu.
Qed.

Definition active_trip (now : Z) (t : trip) : trip :=
  set_t_updated_at now (set_t_transition_operation_id None (set_t_execution_state Active t)).

(** A completion: the operation succeeded and its request is answered with 200. *)
Record completed (tripID o : string) (t t' : trip) (e : exec_operation) (updated completed : Z)
    (v : TripView) (d d' : db) : Prop := {
  cp_operation : operations (saved d) !! o = Some e;
  cp_of : e_trip_id e = tripID;
  cp_pending : e_state e = OpPending;
  cp_moved : moved tripID o (e_idempotency_record_id e) t t'
    (succeeded_operation updated completed e) d d';
  cp_view : get (t_owner_user_id t) tripID d' = Ok v;
  cp_record : exists h body, http_records (saved d) !! e_idempotency_record_id e = Some h /\
    http_records (saved d') !! e_idempotency_record_id e = Some body /\
    h_response_status body = Some 200
}.

Lemma publish_completion_ok op invalid opc rid owner tripID o kind P answer d v d' :
  publish_completion op invalid opc rid owner tripID o kind P answer d = Ok (v, d') ->
  get owner tripID d = Ok v /\ exists h body, http_records (saved d) !! rid = Some h /\
    execution_fk tripID d = true /\ current_plan_fk tripID d = true /\
    d' = set_http_records (<[rid := answer v body h]> (http_records (saved d))) d.
Proof.
  intros H. unfold publish_completion in H.
  apply tx_bind_ok in H as (w & d1 & H1 & H). apply query_ok in H1 as [Hg ->].
  apply tx_bind_ok in H as (body & d1 & H1 & H). apply lift_ok in H1 as [_ ->].
  apply tx_bind_ok in H as (n & d1 & H1 & H).
  apply tx_bind_ok in H as ([] & d2 & H2 & H). apply guard_ok in H2 as [Hn ->].
  apply negb_false_iff, Z.eqb_eq in Hn. subst n.
  apply update_http_record_one in H1 as (h & Hr & _ & _ & ->).
  apply tx_bind_ok in H as ([] & d2 & H2 & H). apply commit_execution_ok in H2 as (-> & Hfk & Hcf).
  apply mret_ok in H as [<- <-]. split; [done|]. by exists h, body.
Qed.

Lemma CompleteActivation_ok clk r d v d' :
  CompleteActivation clk r d = Ok (v, d') ->
  exists t e l, trips d !! cpa_TripID r = Some t /\ t_execution_state t = Activating /\
    e_kind e = OpActivate /\ e_source_trip_revision e = t_trip_revision t /\
    leases d !! cpa_TripID r = Some l /\ l_holder_id l = cpa_HolderID r /\
    l_runtime_epoch l = int64 (cpa_RuntimeEpoch r) /\ clk 0%nat < l_lease_expires_at l /\
    completed (cpa_TripID r) (cpa_OperationID r) t (active_trip (clk 1%nat) t) e (clk 2%nat)
      (clk 3%nat) v d d'.
Proof.
  intros H. unfold CompleteActivation in H.
  apply tx_bind_ok in H as ([] & d1 & H1 & H). apply guard_ok in H1 as [_ ->].
  apply tx_bind_ok in H as (t & d1 & H1 & H). apply find_row_ok in H1 as [Ht ->].
  apply tx_bind_ok in H as (p & d1 & H1 & H). apply lift_ok in H1 as [_ ->].
  apply tx_bind_ok in H as (l & d1 & H1 & H). apply find_row_ok in H1 as [Hl ->].
  apply bind_Some in Hl as (l0 & Hl & Hh).
  destruct (decide (l_holder_id l0 = cpa_HolderID r)) as [Hho|Hho];
    [rewrite bool_decide_eq_true_2 in Hh by done|by rewrite bool_decide_eq_false_2 in Hh].
  injection Hh as <-.
  apply tx_bind_ok in H as ([] & d1 & H1 & H). apply guard_ok in H1 as [Hle ->].
  apply orb_false_iff in Hle as [Hep%negb_false_iff Hex%negb_false_iff]. zbool.
  apply tx_bind_ok in H as (e & d1 & H1 & H). apply find_row_ok in H1 as [[He Het]%trip_operation_ok ->].
  apply tx_bind_ok in H as ([] & d1 & H1 & H). apply guard_ok in H1 as [Hop ->].
  apply orb_false_iff in Hop as [Hop _]. apply orb_false_iff in Hop as [Hop Hsr%negb_false_iff].
  apply orb_false_iff in Hop as [Hki%negb_false_iff Hpe%negb_false_iff].
  apply Z.eqb_eq in Hsr. apply bool_decide_eq_true in Hki, Hpe.
  apply tx_bind_ok in H as ([] & d1 & H1 & H). apply guard_ok in H1 as [Hst ->].
  apply negb_false_iff, bool_decide_eq_true in Hst.
  apply tx_bind_ok in H as ([] & d1 & H1 & H).
  apply (update_trip_execution_ok _ _ _ _ _ _ _ t) in H1 as (Htc & Hox & ->);
    [|exact Ht|by rewrite bool_decide_eq_true_2].
  apply tx_bind_ok in H as ([] & d1 & H1 & H).
  apply (update_operation_ok _ _ _ _ _ _ _ e) in H1 as [Hoc ->];
    [|exact He|unfold pending_operation; by rewrite !bool_decide_eq_true_2].
  apply publish_completion_ok in H as (Hg & h & body & Hr & Hfk & Hcf & ->). exists t, e, l0. split_and!; try done. constructor; try done.
  - constructor; try done.
    + intros k Hk. cbn. by rewrite lookup_insert_ne.
    + intros Hu. eapply (answered_unique d _ _ h); [done|exact Hr|..|reflexivity]; reflexivity.
  - by rewrite get_records.
  - do 2 eexists. split; [exact Hr|]. split; [cbn; by rewrite lookup_insert_eq|]. reflexivity.
Qed.

Lemma CompleteDeactivation_ok clk r d v d' :
  CompleteDeactivation clk r d = Ok (v, d') ->
  exists t e, trips d !! cpd_TripID r = Some t /\ t_execution_state t = Deactivating /\
    e_kind e = OpDeactivate /\ leases d !! cpd_TripID r = None /\
    completed (cpd_TripID r) (cpd_OperationID r) t (deactivated_trip (clk 0%nat) t) e
      (clk 1%nat) (clk 2%nat) v d d'.
Proof.
  intros H. unfold CompleteDeactivation in H.
  apply tx_bind_ok in H as ([] & d1 & H1 & H). apply guard_ok in H1 as [_ ->].
  apply tx_bind_ok in H as (t & d1 & H1 & H). apply find_row_ok in H1 as [Ht ->].
  apply tx_bind_ok in H as (held & d1 & H1 & H). apply gets_ok in H1 as [Hheld ->].
  apply tx_bind_ok in H as ([] & d1 & H1 & H). apply guard_ok in H1 as [Hle ->]. subst held.
  apply bool_decide_eq_false, eq_None_not_Some in Hle.
  apply tx_bind_ok in H as (e & d1 & H1 & H). apply find_row_ok in H1 as [[He Het]%trip_operation_ok ->].
  apply tx_bind_ok in H as ([] & d1 & H1 & H). apply guard_ok in H1 as [Hop ->].
  apply orb_false_iff in Hop as [Hop Hpe%negb_false_iff].
  apply orb_false_iff in Hop as [Hst%negb_false_iff Hki%negb_false_iff].
  apply bool_decide_eq_true in Hst, Hki, Hpe.
  apply tx_bind_ok in H as ([] & d1 & H1 & H). apply modify_ok in H1 as ->.
  apply tx_bind_ok in H as ([] & d1 & H1 & H).
  apply (update_trip_execution_ok _ _ _ _ _ _ _ t) in H1 as (Htc & Hox & ->);
    [|exact Ht|by rewrite bool_decide_eq_true_2].
  apply tx_bind_ok in H as ([] & d1 & H1 & H).
  apply (update_operation_ok _ _ _ _ _ _ _ e) in H1 as [Hoc ->];
    [|exact He|unfold pending_operation; by rewrite !bool_decide_eq_true_2].
  apply publish_completion_ok in H as (Hg & h & body & Hr & Hfk & Hcf & ->). exists t, e. split_and!; try done. constructor; try done.
  - constructor; try done.
    + intros k Hk. cbn. by rewrite lookup_insert_ne.
    + intros Hu. eapply (answered_unique d _ _ h); [done|exact Hr|..|reflexivity]; reflexivity.
  - by rewrite get_records.
  - do 2 eexists. split; [exact Hr|]. split; [cbn; by rewrite lookup_insert_eq|]. reflexivity.
Qed.

End Moves.
