(* ===== verification/Lifecycle.v ===== *)
(** * The lifecycle of saved trips

    The invariant that ties trips, execution operations and request records
    together: a user executes at most one trip, a trip has a pending operation
    exactly while it changes state, and the request of a pending operation waits
    with its 202 answer.  Every saved-trip operation keeps it, and under it every
    transition that was begun can be completed. *)

From S2P Require Import Prelude GoLib GoText Wire WireFacts Schema Tables SavedTables Commands.
From S2P Require Import Finalization Mutations Proposals CanonicalState Canonical.
From S2P Require Import CanonicalFacts CanonicalLoad SavedTables SavedMutations Execution.
From S2P Require Import SavedFacts SavedProps SavedCreate ExecutionFacts.

Section Lifecycle.
Context {PG : Postgres} {SS : SavedServer} {TZ : TimeZones}.

(** ** The invariant *)

Definition transition_name (k : operation_kind) : string :=
  match k with OpActivate => "activate_trip" | OpDeactivate => "deactivate_trip" end.

Definition transition_state (k : operation_kind) : execution_state :=
  match k with OpActivate => Activating | OpDeactivate => Deactivating end.

(** The operation the trip [id] is in. *)
Record transition_of (id : string) (t : trip) (e : exec_operation) : Prop := {
  tf_trip : e_trip_id e = id;
  tf_pending : e_state e = OpPending;
  tf_owner : e_owner_user_id e = t_owner_user_id t;
  tf_revision : e_source_trip_revision e = t_trip_revision t;
  tf_state : t_execution_state t = transition_state (e_kind e);
  tf_check : operation_check e = true
}.

(** The request of an operation, answered with 202. *)
Record request_waits (e : exec_operation) (h : http_record) : Prop := {
  rw_state : h_state h = Completed;
  rw_status : h_response_status h = Some 202;
  rw_user : h_user_id h = e_owner_user_id e;
  rw_trip : h_trip_id h = Some (e_trip_id e);
  rw_kind : h_operation_kind h = transition_name (e_kind e);
  rw_check : http_record_check h = true
}.

Record lifecycle (d : db) : Prop := {
  lc_check : forall id t, trips d !! id = Some t -> trip_check t = true;
  lc_one : forall i j s t, trips d !! i = Some s -> trips d !! j = Some t ->
    t_owner_user_id s = t_owner_user_id t -> executing s = true -> executing t = true -> i = j;
  lc_fk : forall id t, trips d !! id = Some t -> executing t = true ->
    execution_fk id d = true /\ current_plan_fk id d = true;
  lc_saved : forall id t, trips d !! id = Some t -> executing t = true ->
    is_Some (t_saved_plan_id t);
  lc_transition : forall id t o, trips d !! id = Some t ->
    t_transition_operation_id t = Some o ->
    exists e, operations (saved d) !! o = Some e /\ transition_of id t e;
  lc_pending : forall o e, operations (saved d) !! o = Some e -> e_state e = OpPending ->
    exists t, trips d !! e_trip_id e = Some t /\ t_transition_operation_id t = Some o;
  lc_request : forall o e, operations (saved d) !! o = Some e -> e_state e = OpPending ->
    exists h, http_records (saved d) !! e_idempotency_record_id e = Some h /\ request_waits e h;
  lc_distinct : forall o o' e e', operations (saved d) !! o = Some e ->
    operations (saved d) !! o' = Some e' ->
    e_idempotency_record_id e = e_idempotency_record_id e' -> o = o'
}.

(** ** What the checks of a trip say of its state *)

Lemma inactive_no_transition t :
  trip_check t = true -> t_execution_state t = Inactive -> t_transition_operation_id t = None.
Proof.
  intros Hc%trip_check_lifecycle Hs. unfold lifecycle_check in Hc. rewrite Hs in Hc.
  apply andb_true_iff in Hc as [_ Hc]. by destruct (t_transition_operation_id t).
Qed.

Lemma active_no_transition t :
  trip_check t = true -> t_execution_state t = Active -> t_transition_operation_id t = None.
Proof.
  intros Hc%trip_check_lifecycle Hs. unfold lifecycle_check in Hc. rewrite Hs in Hc.
  apply andb_true_iff in Hc as [_ Hc]. by destruct (t_transition_operation_id t).
Qed.

Lemma transition_has_operation t k :
  trip_check t = true -> t_execution_state t = transition_state k ->
  is_Some (t_transition_operation_id t).
Proof.
  intros Hc%trip_check_lifecycle Hs. unfold lifecycle_check in Hc. rewrite Hs in Hc.
  destruct k; cbn [transition_state] in Hc; apply andb_true_iff in Hc as [_ Hc];
    by destruct (t_transition_operation_id t).
Qed.

Lemma executing_false t : executing t = false <-> t_execution_state t = Inactive.
Proof. unfold executing. by rewrite negb_false_iff, bool_decide_eq_true. Qed.

(** The operation of a trip that is pending is the one it is in. *)
Lemma pending_unique d o o' e e' : lifecycle d ->
  operations (saved d) !! o = Some e -> operations (saved d) !! o' = Some e' ->
  e_state e = OpPending -> e_state e' = OpPending -> e_trip_id e = e_trip_id e' -> o = o'.
Proof.
  intros Hl He He' Hp Hp' Ht. destruct (lc_pending d Hl _ _ He Hp) as (t & H1 & H2).
  destruct (lc_pending d Hl _ _ He' Hp') as (t' & H1' & H2'). congruence.
Qed.

(** ** Foreign keys under more plans and operations *)

Lemma plan_of_trip_kept id p d d' : plans d ⊆ plans d' ->
  plan_of_trip id p d = true -> plan_of_trip id p d' = true.
Proof.
  intros Hs H. unfold plan_of_trip in *. destruct (plans d !! p) as [row|] eqn:E; [|done].
  by rewrite (lookup_weaken _ _ _ _ E Hs).
Qed.

(** The keys of a trip that was not touched. *)
Lemma fk_kept id t d d' :
  trips d !! id = Some t -> trips d' !! id = Some t ->
  (forall p, plan_of_trip id p d = true -> plan_of_trip id p d' = true) ->
  (forall o e, operations (saved d) !! o = Some e -> e_trip_id e = id ->
     exists e', operations (saved d') !! o = Some e' /\ e_trip_id e' = id) ->
  execution_fk id d = true /\ current_plan_fk id d = true ->
  execution_fk id d' = true /\ current_plan_fk id d' = true.
Proof.
  intros Ht Ht' Hp Ho [H1 H2]. unfold execution_fk, current_plan_fk in *. rewrite Ht in H1, H2.
  rewrite Ht'. apply andb_true_iff in H1 as [H1 H3]. split.
  - apply andb_true_iff. split.
    + destruct (t_active_execution_plan_id t); [by apply Hp|done].
    + destruct (t_transition_operation_id t) as [o|]; [|done]. cbn in *.
      destruct (operations (saved d) !! o) as [e|] eqn:E; [|done].
      apply bool_decide_eq_true in H3. destruct (Ho _ _ E H3) as (e' & -> & ?).
      by apply bool_decide_eq_true.
  - destruct (t_current_plan_id t) as [p|]; [|done]. specialize (Hp p).
    unfold plan_of_trip in Hp. by apply Hp.
Qed.

(** ** Saved-trip requests keep the invariant *)

Lemma publish_lifecycle new tripID row t' d d' :
  lifecycle d -> published_plan new tripID row t' d d' ->
  (forall k h, http_records (saved d) !! k = Some h -> http_records (saved d') !! k = Some h) ->
  lifecycle d'.
Proof.
  intros Hl Hp Hrec. destruct Hp as [_ _ _ _ _ _ _ _ _ _ Etr _ Hso _ Eop Ek [Hin Htc] Hwas].
  assert (Hx : executing t' = false) by (by apply executing_false).
  assert (Hother : forall o e, operations (saved d) !! o = Some e -> e_state e = OpPending ->
    e_trip_id e <> tripID).
  { intros o e He Hpe <-. destruct (lc_pending d Hl _ _ He Hpe) as (t & Ht & Hto).
    by rewrite (inactive_no_transition t (lc_check d Hl _ _ Ht) (Hwas _ Ht)) in Hto. }
  constructor; rewrite ?Etr, ?Eop.
  - intros id t [[<- <-]|[_ Ht]]%lookup_insert_Some; [done|by eapply (lc_check d Hl)].
  - intros i j s t [[<- <-]|[_ Hs]]%lookup_insert_Some; [by rewrite Hx|].
    intros [[<- <-]|[_ Ht]]%lookup_insert_Some; [by rewrite Hx|by apply (lc_one d Hl)].
  - intros id t [[<- <-]|[Hne Ht]]%lookup_insert_Some He; [by rewrite Hx in He|].
    eapply (fk_kept id t d); [done|by rewrite Etr, lookup_insert_ne| | |by eapply (lc_fk d Hl)].
    + intros p. unfold plan_of_trip. by rewrite Ek.
    + intros o e Ho ?. exists e. by rewrite Eop.
  - intros id t [[<- <-]|[_ Ht]]%lookup_insert_Some He; [by rewrite Hx in He|].
    by eapply (lc_saved d Hl).
  - intros id t o [[<- <-]|[Hne Ht]]%lookup_insert_Some Ho.
    + by rewrite (inactive_no_transition t' Htc Hin) in Ho.
    + by eapply (lc_transition d Hl).
  - intros o e He Hpe. destruct (lc_pending d Hl _ _ He Hpe) as (t & Ht & Hto). exists t.
    rewrite lookup_insert_ne; [done|]. intros E. by eapply (Hother o e).
  - intros o e He Hpe. destruct (lc_request d Hl _ _ He Hpe) as (h & Hh & Hw). exists h. auto.
  - exact (lc_distinct d Hl).
Qed.

Lemma request_records clk rng q v d d' :
  request_answer clk rng q v d d' -> forall k h,
  http_records (saved d) !! k = Some h -> http_records (saved d') !! k = Some h.
Proof.
  intros Ha k h Hk. assert (exists x, http_records (saved d) !! newAuthUUID (rng 0%nat) = None /\
    http_records (saved d') = <[newAuthUUID (rng 0%nat) := x]> (http_records (saved d))) as (x & Hn & ->).
  { destruct q; destruct Ha as (_ & Hn & _ & tr & body & etag & now & _ & Hr); by eexists. }
  by rewrite lookup_insert_ne by congruence.
Qed.

Lemma run_saved_lifecycle clk rng q d out d' :
  saved_consistent d -> lifecycle d -> run_saved clk rng q d = Ok (out, d') -> lifecycle d'.
Proof.
  intros Hc Hl H. destruct (run_saved_cases _ _ _ _ _ _ Hc H) as [[_ ->]|(_ & Ha & ? & ? & ? & ? & Hp)];
    [done|]. eapply publish_lifecycle; [done|exact Hp|by eapply request_records].
Qed.

Lemma Delete_lifecycle clk rng r d dup d' :
  lifecycle d -> Delete clk rng r d = Ok (dup, d') -> lifecycle d'.
Proof.
  intros Hl H. destruct (Delete_cases _ _ _ _ _ _ H) as [[_ ->]|[_ Hd]]; [done|].
  assert (Hop : forall o e, operations (saved d') !! o = Some e <->
    operations (saved d) !! o = Some e /\ e_trip_id e <> ds_TripID r).
  { intros o e. rewrite (dl_operations _ _ _ Hd), lookup_delete_rows_Some.
    by rewrite bool_decide_eq_false. }
  assert (Htr : forall id t, trips d' !! id = Some t <-> id <> ds_TripID r /\ trips d !! id = Some t)
    by (intros; rewrite (dl_trips _ _ _ Hd), lookup_delete_Some; naive_solver).
  constructor.
  - intros id t [_ Ht]%Htr. by eapply (lc_check d Hl).
  - intros i j s t [_ Hs]%Htr [_ Ht]%Htr. by apply (lc_one d Hl).
  - intros id t [Hne Ht]%Htr He.
    eapply (fk_kept id t d); [done|by apply Htr| | |by eapply (lc_fk d Hl)].
    + intros p. unfold plan_of_trip. rewrite (dl_execution_plans _ _ _ Hd), lookup_delete_rows.
      destruct (plans d !! p) as [row|]; [|done]. cbn. intros Hpt%bool_decide_eq_true.
      rewrite (bool_decide_eq_false_2 (pl_trip_id row = _)) by congruence.
      by apply bool_decide_eq_true.
    + intros o e Ho Hoe. exists e. rewrite Hop. by rewrite Hoe.
  - intros id t [_ Ht]%Htr. by eapply (lc_saved d Hl).
  - intros id t o [Hne Ht]%Htr Ho. destruct (lc_transition d Hl _ _ _ Ht Ho) as (e & He & Hof).
    exists e. rewrite Hop. split; [|done]. split; [done|]. by rewrite (tf_trip _ _ _ Hof).
  - intros o e [He Hne]%Hop Hp. destruct (lc_pending d Hl _ _ He Hp) as (t & Ht & Hto).
    exists t. by rewrite Htr.
  - intros o e [He Hne]%Hop Hp. destruct (lc_request d Hl _ _ He Hp) as (h & Hh & Hw). exists h.
    split; [|done]. apply (dl_record_rows _ _ _ Hd); [done|]. rewrite (rw_trip _ _ Hw). congruence.
  - intros o o' e e' [He _]%Hop [He' _]%Hop. by eapply (lc_distinct d Hl).
Qed.

(** ** Transitions keep the invariant *)

(** The parts of the invariant a change of one trip keeps, whatever the change. *)
Lemma moved_check tripID o rid t t' e' d d' :
  lifecycle d -> moved tripID o rid t t' e' d d' ->
  forall id x, trips d' !! id = Some x -> trip_check x = true.
Proof.
  intros Hl Hm id x. rewrite (mv_trips _ _ _ _ _ _ _ _ Hm).
  intros [[<- <-]|[_ Hx]]%lookup_insert_Some;
    [exact (mv_check _ _ _ _ _ _ _ _ Hm)|by eapply (lc_check d Hl)].
Qed.

Lemma moved_one tripID o rid t t' e' d d' :
  lifecycle d -> moved tripID o rid t t' e' d d' ->
  forall i j x y, trips d' !! i = Some x -> trips d' !! j = Some y ->
    t_owner_user_id x = t_owner_user_id y -> executing x = true -> executing y = true -> i = j.
Proof.
  intros Hl Hm.
  assert (Hother : forall k y, k <> tripID -> trips d !! k = Some y -> executing t' = true ->
    t_owner_user_id y = t_owner_user_id t' -> executing y = true -> False).
  { intros k y Hk Hy Hx Hown Hey. apply (mv_one _ _ _ _ _ _ _ _ Hm) in Hx.
    unfold other_executing in Hx. rewrite any_row_false in Hx. specialize (Hx _ _ Hy). cbn in Hx.
    destruct (mv_same _ _ _ _ _ _ _ _ Hm) as (Ho & _ & _).
    rewrite bool_decide_eq_false_2, bool_decide_eq_true_2 in Hx by congruence.
    by rewrite Hey in Hx. }
  intros i j x y. rewrite (mv_trips _ _ _ _ _ _ _ _ Hm).
  intros [[<- <-]|[Hi Hx]]%lookup_insert_Some [[<- <-]|[Hj Hy]]%lookup_insert_Some Hown Hex Hey;
    [done| | |by eapply (lc_one d Hl)]; exfalso.
  - by apply (Hother j y).
  - by apply (Hother i x).
Qed.

Lemma moved_saved tripID o rid t t' e' d d' :
  lifecycle d -> moved tripID o rid t t' e' d d' -> is_Some (t_saved_plan_id t) ->
  forall id x, trips d' !! id = Some x -> executing x = true -> is_Some (t_saved_plan_id x).
Proof.
  intros Hl Hm Hs id x. rewrite (mv_trips _ _ _ _ _ _ _ _ Hm).
  intros [[<- <-]|[_ Hx]]%lookup_insert_Some; [|by eapply (lc_saved d Hl)].
  destruct (mv_same _ _ _ _ _ _ _ _ Hm) as (_ & -> & _). done.
Qed.

Lemma moved_fk tripID o rid t t' e' d d' :
  lifecycle d -> moved tripID o rid t t' e' d d' ->
  (forall e, operations (saved d) !! o = Some e -> e_trip_id e = tripID) ->
  forall id x, trips d' !! id = Some x -> executing x = true ->
    execution_fk id d' = true /\ current_plan_fk id d' = true.
Proof.
  intros Hl Hm Ho id x Hx He. pose proof Hx as Hx'. rewrite (mv_trips _ _ _ _ _ _ _ _ Hm) in Hx.
  apply lookup_insert_Some in Hx as [[<- <-]|[Hne Hx]]; [exact (mv_fk _ _ _ _ _ _ _ _ Hm)|].
  eapply (fk_kept id x d); [done|done| | |by eapply (lc_fk d Hl)].
  - intros p. apply plan_of_trip_kept, (mv_plans _ _ _ _ _ _ _ _ Hm).
  - intros k e Hk Hkt. exists e. rewrite (mv_operations _ _ _ _ _ _ _ _ Hm).
    rewrite lookup_insert_ne; [done|]. intros <-. apply Ho in Hk. congruence.
Qed.

Lemma begin_lifecycle tripID o rid t t' e' h d d' :
  lifecycle d -> moved tripID o rid t t' e' d d' ->
  is_Some (t_saved_plan_id t) ->
  operations (saved d) !! o = None -> other_pending o tripID d = false ->
  (forall k x, operations (saved d) !! k = Some x -> e_idempotency_record_id x <> rid) ->
  transition_of tripID t' e' -> t_transition_operation_id t' = Some o ->
  http_records (saved d') !! rid = Some h -> request_waits e' h -> lifecycle d'.
Proof.
  intros Hl Hm Hsv Hn Hop Hrid Hof Hto Hh Hw.
  pose proof (mv_operation _ _ _ _ _ _ _ _ Hm) as [He' Hr'].
  assert (Hnone : forall k e, operations (saved d) !! k = Some e -> e_state e = OpPending ->
    e_trip_id e <> tripID).
  { intros k e Hk Hp Ht. unfold other_pending in Hop. rewrite any_row_false in Hop.
    specialize (Hop _ _ Hk). cbn in Hop. rewrite bool_decide_eq_false_2 in Hop by congruence.
    by rewrite !bool_decide_eq_true_2 in Hop. }
  constructor.
  - by eapply moved_check.
  - by eapply moved_one.
  - eapply moved_fk; [done|done|]. intros e. by rewrite Hn.
  - by eapply moved_saved.
  - intros id x k. rewrite (mv_trips _ _ _ _ _ _ _ _ Hm), (mv_operations _ _ _ _ _ _ _ _ Hm).
    intros [[<- <-]|[Hne Hx]]%lookup_insert_Some Hk.
    + rewrite Hto in Hk. injection Hk as <-. exists e'. by rewrite lookup_insert_eq.
    + destruct (lc_transition d Hl _ _ _ Hx Hk) as (e & He & ?). exists e.
      by rewrite lookup_insert_ne by congruence.
  - intros k e. rewrite (mv_trips _ _ _ _ _ _ _ _ Hm), (mv_operations _ _ _ _ _ _ _ _ Hm).
    intros [[<- <-]|[Hne Hk]]%lookup_insert_Some Hp.
    + exists t'. by rewrite He', lookup_insert_eq.
    + destruct (lc_pending d Hl _ _ Hk Hp) as (x & Hx & ?). exists x.
      rewrite lookup_insert_ne; [done|]. intros E. by apply (Hnone k e).
  - intros k e. rewrite (mv_operations _ _ _ _ _ _ _ _ Hm).
    intros [[<- <-]|[Hne Hk]]%lookup_insert_Some Hp; [exists h; by rewrite Hr'|].
    rewrite (mv_records _ _ _ _ _ _ _ _ Hm); [by eapply (lc_request d Hl)|by eapply Hrid].
  - intros k k' e e1. rewrite (mv_operations _ _ _ _ _ _ _ _ Hm).
    intros [[<- <-]|[Hne Hk]]%lookup_insert_Some [[<- <-]|[Hne' Hk']]%lookup_insert_Some Heq;
      [done| | |by eapply (lc_distinct d Hl)]; exfalso.
    + eapply Hrid; [exact Hk'|congruence].
    + eapply Hrid; [exact Hk|congruence].
Qed.

Lemma finish_lifecycle tripID o t t' e updated done_ v d d' :
  lifecycle d -> completed tripID o t t' e updated done_ v d d' ->
  t_transition_operation_id t' = None -> lifecycle d'.
Proof.
  intros Hl [He Het Hpe Hm _ _] Hto.
  constructor.
  - by eapply moved_check.
  - by eapply moved_one.
  - eapply moved_fk; [done|done|]. intros x Hx. rewrite He in Hx. by injection Hx as <-.
  - eapply moved_saved; [done|done|].
    destruct (lc_pending d Hl _ _ He Hpe) as (x & Hx & Hxo). rewrite Het in Hx.
    rewrite (mv_trip _ _ _ _ _ _ _ _ Hm) in Hx. injection Hx as <-.
    eapply (lc_saved d Hl); [exact (mv_trip _ _ _ _ _ _ _ _ Hm)|].
    apply not_false_iff_true. intros Hf%executing_false.
    rewrite (inactive_no_transition t) in Hxo; [done| |done].
    eapply (lc_check d Hl), (mv_trip _ _ _ _ _ _ _ _ Hm).
  - intros id x k. rewrite (mv_trips _ _ _ _ _ _ _ _ Hm), (mv_operations _ _ _ _ _ _ _ _ Hm).
    intros [[<- <-]|[Hne Hx]]%lookup_insert_Some Hk; [by rewrite Hto in Hk|].
    destruct (lc_transition d Hl _ _ _ Hx Hk) as (e1 & He1 & Hof). exists e1.
    rewrite lookup_insert_ne; [done|]. intros <-. rewrite He in He1. injection He1 as <-.
    by rewrite (tf_trip _ _ _ Hof) in Het.
  - intros k x. rewrite (mv_trips _ _ _ _ _ _ _ _ Hm), (mv_operations _ _ _ _ _ _ _ _ Hm).
    intros [[<- <-]|[Hne Hk]]%lookup_insert_Some Hp; [done|].
    destruct (lc_pending d Hl _ _ Hk Hp) as (y & Hy & ?). exists y.
    rewrite lookup_insert_ne; [done|]. intros E. apply Hne.
    eapply (pending_unique d o k e x); congruence || done.
  - intros k x. rewrite (mv_operations _ _ _ _ _ _ _ _ Hm).
    intros [[<- <-]|[Hne Hk]]%lookup_insert_Some Hp; [done|].
    rewrite (mv_records _ _ _ _ _ _ _ _ Hm); [by eapply (lc_request d Hl)|].
    intros E. apply Hne. by eapply (lc_distinct d Hl).
  - intros k k' x y. rewrite (mv_operations _ _ _ _ _ _ _ _ Hm).
    intros [[<- <-]|[Hne Hk]]%lookup_insert_Some [[<- <-]|[Hne' Hk']]%lookup_insert_Some Heq;
      [done| | |by eapply (lc_distinct d Hl)].
    + by eapply (lc_distinct d Hl).
    + by eapply (lc_distinct d Hl).
Qed.

(** ** Steps and reachable states *)

Inductive saved_step : db -> db -> Prop :=
| StepRequest clk rng q out d d' : run_saved clk rng q d = Ok (out, d') -> saved_step d d'
| StepDelete clk rng r dup d d' : Delete clk rng r d = Ok (dup, d') -> saved_step d d'
| StepActivate clk rng r out d d' : Activate clk rng r d = Ok (out, d') -> saved_step d d'
| StepCompleteActivation clk r v d d' :
    CompleteActivation clk r d = Ok (v, d') -> saved_step d d'
| StepDeactivate clk rng r out d d' : Deactivate clk rng r d = Ok (out, d') -> saved_step d d'
| StepCompleteDeactivation clk r v d d' :
    CompleteDeactivation clk r d = Ok (v, d') -> saved_step d d'.

Lemma requested_waits clk now userID key method path kind tripID rid digest out d d' e :
  requested clk now userID key method path (transition_name kind) tripID rid digest out d d' ->
  e_owner_user_id e = userID -> e_trip_id e = tripID -> e_kind e = kind ->
  exists h, http_records (saved d') !! rid = Some h /\ request_waits e h.
Proof.
  intros [_ _ _ _ _ (body & etag & _ & Hck & Hr)] Hu Ht Hk. eexists. rewrite Hr, lookup_insert_eq.
  split; [reflexivity|]. constructor; cbn; congruence || done.
Qed.

Lemma Activate_lifecycle clk rng r d out d' :
  lifecycle d -> Activate clk rng r d = Ok (out, d') -> lifecycle d'.
Proof.
  intros Hl H. destruct (Activate_cases _ _ _ _ _ _ H) as [[_ ->]|(_ & t & l & seg & Ha)]; [done|].
  destruct Ha as [Hreq (cur & Hlk & _) _ _ _ _ (Hn & Hop & Hd) Hck Hm].
  destruct (requested_waits _ _ _ _ _ _ OpActivate _ _ _ _ _ _
    (new_operation clk 3 (ac_TripID r) (ac_UserID r) (newAuthUUID (rng 0%nat)) OpActivate
       (t_trip_revision t) (Some (newAuthUUID (rng 1%nat)))) Hreq) as (h & Hh & Hw); [done..|].
  eapply (begin_lifecycle _ _ _ _ _ _ h); [done|exact Hm| |done|done|done| |done|done|done].
  { rewrite (al_plan _ _ _ _ Hlk). by eexists. }
  constructor; try done. cbn. symmetry. exact (al_owner _ _ _ _ Hlk).
Qed.

Lemma Deactivate_lifecycle clk rng r d out d' :
  lifecycle d -> Deactivate clk rng r d = Ok (out, d') -> lifecycle d'.
Proof.
  intros Hl H. destruct (Deactivate_cases _ _ _ _ _ _ H) as [[_ ->]|(_ & t & Ha)]; [done|].
  destruct Ha as [Hreq Ho Hst (Hn & Hop & Hd) Hck _ Hm].
  destruct (requested_waits _ _ _ _ _ _ OpDeactivate _ _ _ _ _ _
    (new_operation clk 2 (de_TripID r) (de_UserID r) (newAuthUUID (rng 0%nat)) OpDeactivate
       (t_trip_revision t) None) Hreq) as (h & Hh & Hw); [done..|].
  assert (Hsv : is_Some (t_saved_plan_id t)).
  { eapply (lc_saved d Hl); [exact (mv_trip _ _ _ _ _ _ _ _ Hm)|].
    unfold executing. rewrite bool_decide_eq_false_2; [done|]. destruct Hst as [-> | ->]; done. }
  by eapply (begin_lifecycle _ _ _ _ _ _ h); [done|exact Hm|done|done|done|done|constructor|..].
Qed.

Lemma saved_step_invariant d d' :
  saved_step d d' -> saved_consistent d -> lifecycle d -> saved_consistent d' /\ lifecycle d'.
Proof.
  intros Hst Hc Hl. destruct Hst as [clk rng q out d d' H|clk rng r dup d d' H|clk rng r out d d' H
    |clk r v d d' H|clk rng r out d d' H|clk r v d d' H].
  - split; [by eapply run_saved_consistent|by eapply run_saved_lifecycle].
  - split; [by eapply Delete_consistent|by eapply Delete_lifecycle].
  - split; [|by eapply Activate_lifecycle].
    destruct (Activate_cases _ _ _ _ _ _ H) as [[_ ->]|(_ & t & l & seg & Ha)]; [done|].
    eapply moved_consistent; [done|exact (ad_moved _ _ _ _ _ _ _ _ _ Ha)].
  - apply CompleteActivation_ok in H as (t & e & l & _ & _ & _ & _ & _ & _ & _ & _ & Hcp).
    split; [|by eapply finish_lifecycle].
    eapply moved_consistent; [done|exact (cp_moved _ _ _ _ _ _ _ _ _ _ Hcp)].
  - split; [|by eapply Deactivate_lifecycle].
    destruct (Deactivate_cases _ _ _ _ _ _ H) as [[_ ->]|(_ & t & Ha)]; [done|].
    eapply moved_consistent; [done|exact (dd_moved _ _ _ _ _ _ _ Ha)].
  - apply CompleteDeactivation_ok in H as (t & e & _ & _ & _ & _ & Hcp).
    split; [|by eapply finish_lifecycle].
    eapply moved_consistent; [done|exact (cp_moved _ _ _ _ _ _ _ _ _ _ Hcp)].
Qed.

(** A database without trips, whatever its users and places. *)
Definition no_saved_trips (d : db) : Prop :=
  trips d = ∅ /\ saved d = SavedTables ∅ ∅ ∅ ∅ ∅ (places (saved d)).

Lemma no_saved_trips_invariant d : no_saved_trips d -> saved_consistent d /\ lifecycle d.
Proof.
  intros [Ht Hs]. set (pl := places (saved d)) in Hs. clearbody pl.
  split; constructor; rewrite ?Ht, ?Hs; cbn; intros *; by rewrite lookup_empty.
Qed.

(** C6: from a database without trips, every database that creating, editing,
    deleting, activating and deactivating saved trips can reach is consistent: a
    user executes at most one trip; a trip is [activating] or [deactivating]
    exactly while it has its one pending operation, of that kind and at the trip's
    revision, whose request waits with its 202 answer; every saved plan has
    activities numbered from zero at the places of its owner; and an executing
    trip's plan and operation exist and are its own. *)
Theorem saved_trip_lifecycle d0 d :
  no_saved_trips d0 -> rtc saved_step d0 d -> saved_consistent d /\ lifecycle d.
Proof.
  intros H0 Hs. apply no_saved_trips_invariant in H0. induction Hs as [d|d d1 d2 H1 _ IH]; [done|].
  apply IH. destruct H0 as [Hc Hl]. by eapply saved_step_invariant.
Qed.

End Lifecycle.
