(* ===== verification/Progress.v ===== *)
(** * Transitions can be completed

    In a consistent database a trip that is [activating] becomes [active] as soon
    as its runtime holds the lease, and a trip that is [deactivating] becomes
    [inactive] as soon as no runtime does: the completion has no reason to fail.
    And what the two requests that begin a transition refuse. *)

From S2P Require Import Prelude GoLib GoText Wire WireFacts Schema Tables SavedTables Commands.
From S2P Require Import Finalization Mutations Proposals CanonicalState Canonical.
From S2P Require Import CanonicalFacts CanonicalLoad SavedTables SavedMutations Execution.
From S2P Require Import SavedFacts SavedProps SavedCreate ExecutionFacts Lifecycle.

Section Progress.
Context {PG : Postgres} {SS : SavedServer} {TZ : TimeZones}.

(** ** Rows that satisfy their column checks *)

(** [latitude BETWEEN -90 AND 90] and [longitude BETWEEN -180 AND 180]: false
    for a NaN, which sorts after every number. *)
Definition place_check (p : place) : bool :=
  negb (location_invalid (pc_latitude p) (pc_longitude p)).

Record rows_checked (d : db) : Prop := {
  rk_place : forall id p, places (saved d) !! id = Some p -> place_check p = true;
  rk_activity : forall k a, saved_activities (saved d) !! k = Some a ->
    saved_activity_check a = true
}.

Lemma place_check_finite p : place_check p = true ->
  finite_float (pc_latitude p) = true /\ finite_float (pc_longitude p) = true.
Proof.
  unfold place_check, location_invalid. intros [H1 H2]%negb_true_iff%orb_false_iff.
  unfold coordinate_invalid in *. by destruct (pc_latitude p), (pc_longitude p).
Qed.

Lemma schedule_view_total a : saved_activity_check a = true -> exists v, schedule_view a = Ok v.
Proof.
  unfold saved_activity_check. intros [_ H]%andb_true_iff. unfold saved_schedule_check in H.
  unfold schedule_view. case_bool_decide; [|by eexists].
  destruct (sa_start_offset_ms a), (sa_end_offset_ms a); try done; [by eexists|].
  by rewrite bool_decide_eq_false_2 in H by congruence.
Qed.

Lemma activity_views_total d rows :
  rows_checked d ->
  (forall k a, (k, a) ∈ rows -> saved_activities (saved d) !! k = Some a /\
     is_Some (places (saved d) !! sa_place_id a)) ->
  exists views, activity_views d rows = Ok views /\ length views = length rows /\
    forallb (fun a => finite_float (pv_Latitude (av_Place a)) &&
                      finite_float (pv_Longitude (av_Place a))) views = true.
Proof.
  intros Hr. induction rows as [|[[p id] a] rows IH]; intros Hrows; [by exists []|].
  destruct IH as (views & Hv & Hlen & Hfin); [by intros; apply Hrows; right|].
  destruct (Hrows (p, id) a) as [Ha [pl Hpl]]; [by left|].
  destruct (schedule_view_total a) as [s Hs]; [by eapply (rk_activity d Hr)|].
  cbn [activity_views]. rewrite Hpl. unfold activity_view. rewrite Hs. cbn [mbind res_bind].
  rewrite Hv. eexists. split; [reflexivity|]. split; [cbn; by rewrite Hlen|]. cbn.
  destruct (place_check_finite pl) as [-> ->]; [by eapply (rk_place d Hr)|]. by rewrite Hfin.
Qed.

(** [get] answers for a trip whose rows are in order. *)
Lemma get_total d tripID t p :
  saved_consistent d -> rows_checked d -> trips d !! tripID = Some t ->
  t_saved_plan_id t = Some p -> p <> "" -> 0 <= t_trip_revision t -> in_transition t = false ->
  exists v, get (t_owner_user_id t) tripID d = Ok v /\ finite_view v = true /\
    tr_ExecutionState v = execution_text (t_execution_state t).
Proof.
  intros Hc Hr Ht Hp Hne Hrev Htr.
  destruct (sc_selected d Hc _ _ _ Ht Hp) as (row & Hrow & Hrt).
  destruct (sc_owner d Hc _ _ Hrow) as (t0 & Ht0 & Ho). rewrite Hrt, Ht in Ht0. injection Ht0 as <-.
  destruct (sc_dense d Hc _ _ Hrow) as [_ Hnon].
  destruct (activity_views_total d (plan_activities p d)) as (views & Hv & Hlen & Hfin); [done| |].
  { intros [q id] a [Ha _]%elem_of_plan_activities. split; [done|].
    apply (sc_activity d Hc), saved_activity_fk_ok in Ha as [_ [pl [Hpl _]%owned_place_ok]].
    by eexists. }
  unfold get. assert (owned_trip (t_owner_user_id t) tripID d = Some t) as -> by (by apply owned_trip_ok).
  cbn [of_option mbind res_bind]. rewrite Hp. cbn [of_option mbind res_bind].
  rewrite (proj2 (Z.ltb_ge _ _)), bool_decide_eq_false_2 by done. cbn [reject_if orb mbind res_bind].
  unfold selected_plan. rewrite Hrow. cbn [mbind option_bind].
  rewrite !bool_decide_eq_true_2 by done. cbn [of_option andb mbind res_bind].
  rewrite Hv. cbn [mbind res_bind]. rewrite bool_decide_eq_false_2.
  - rewrite Htr. cbn [reject_if mbind res_bind]. eexists. split; [reflexivity|]. by split.
  - intros ->. apply Hnon. unfold saved_itinerary. by destruct (plan_activities p d).
Qed.

(** ** The end of a completion *)

Lemma rows_checked_kept d d' :
  places (saved d') = places (saved d) -> saved_activities (saved d') = saved_activities (saved d) ->
  rows_checked d -> rows_checked d'.
Proof. intros E1 E2 []. by constructor; rewrite ?E1, ?E2. Qed.

Lemma trip_check_revision t : trip_check t = true -> 0 <= t_trip_revision t.
Proof. unfold trip_check. intros H. inv_res. by zbool. Qed.

(** The view is read, encoded and stored, and the transaction commits. *)
Lemma completion_runs `{!SavedServerLaws SS} d d2 tripID o rid t t' e' p h op invalid opc o' kind P
    (f : TripView -> jsonb -> http_record -> http_record) :
  saved_consistent d -> rows_checked d -> moved tripID o rid t t' e' d d2 ->
  t_saved_plan_id t = Some p -> p <> "" -> in_transition t' = false ->
  http_records (saved d2) !! rid = Some h -> P h = true ->
  (forall v body, http_record_check (f v body h) = true) ->
  (forall v body, h_trip_id (f v body h) = Some tripID) ->
  exists v d', publish_completion op invalid opc rid (t_owner_user_id t) tripID o' kind P f d2
      = Ok (v, d') /\ trips d' = <[tripID := t']> (trips d) /\
    tr_ExecutionState v = execution_text (t_execution_state t').
Proof.
  intros Hc Hr Hm Hp Hne Htr Hh HP Hck Hfk.
  destruct (mv_same _ _ _ _ _ _ _ _ Hm) as (Ho & Hsp & _).
  assert (Ht' : trips d2 !! tripID = Some t')
    by (rewrite (mv_trips _ _ _ _ _ _ _ _ Hm); by rewrite lookup_insert_eq).
  destruct (get_total d2 tripID t' p) as (v & Hg & Hfin & Hst); try done.
  { by eapply moved_consistent. }
  { destruct (mv_saved _ _ _ _ _ _ _ _ Hm) as (_ & E1 & _ & E2). by eapply rows_checked_kept. }
  { by rewrite Hsp. }
  { apply trip_check_revision, (mv_check _ _ _ _ _ _ _ _ Hm). }
  rewrite Ho in Hg. destruct (transition_json_finite (MkTransitionView v (completed_view o' kind))) as [body Hb]; [done|].
  exists v. eexists. split; [|split; [|exact Hst]].
  - unfold publish_completion. eapply tx_bind_run; [by apply query_ok|]. cbv beta.
    eapply tx_bind_run; [apply lift_ok; split; [by rewrite Hb|reflexivity]|]. cbv beta.
    eapply tx_bind_run.
    { unfold update_http_record. rewrite Hh, HP, Hck. unfold record_trip_fk. rewrite Hfk. cbn.
      by rewrite Ht', bool_decide_eq_true_2 by (by eexists). }
    cbv beta. eapply tx_bind_run; [by apply (guard_ok _ _ _ tt)|]. cbv beta.
    eapply tx_bind_run; [|reflexivity]. unfold commit_execution.
    destruct (mv_fk _ _ _ _ _ _ _ _ Hm) as [H1 H2].
    change (execution_fk tripID ?x) with (execution_fk tripID d2).
    change (current_plan_fk tripID ?x) with (current_plan_fk tripID d2). by rewrite H1, H2.
  - exact (mv_trips _ _ _ _ _ _ _ _ Hm).
Qed.

(** The record check after the answer is replaced. *)
Lemma answered_check h h' now :
  http_record_check h = true -> h_state h = Completed -> h_created_at h <= now ->
  h_completed_at h' = Some now -> h_response_status h' = Some 200 -> h_state h' = Completed ->
  h_response_content_type h' = h_response_content_type h ->
  h_user_id h' = h_user_id h -> h_http_method h' = h_http_method h ->
  h_normalized_path h' = h_normalized_path h -> h_operation_kind h' = h_operation_kind h ->
  h_request_digest_algorithm h' = h_request_digest_algorithm h ->
  h_request_digest_key_id h' = h_request_digest_key_id h ->
  h_request_digest h' = h_request_digest h -> h_created_at h' = h_created_at h ->
  h_retain_until h' = h_retain_until h -> http_record_check h' = true.
Proof.
  intros H Hs Hn E1 E2 E3 E4 E5 E6 E7 E8 E9 E10 E11 E12 E13. unfold http_record_check in *.
  rewrite E1, E2, E3, E4, E6, E7, E8, E9, E10, E11, E12, E13. cbn [is_null null_or].
  rewrite (proj2 (Z.leb_le _ _) Hn). rewrite Hs in H.
  repeat match goal with
  | H : _ && _ = true |- _ => apply andb_true_iff in H as [? ?]
  | |- _ && _ = true => apply andb_true_iff; split
  end; assumption || reflexivity.
Qed.

Lemma completed_record_time h : http_record_check h = true -> h_state h = Completed ->
  exists now, h_completed_at h = Some now /\ h_created_at h <= now.
Proof.
  intros H Hs. unfold http_record_check in H. rewrite Hs in H.
  repeat match goal with H : _ && _ = true |- _ => apply andb_true_iff in H as [? ?] end.
  repeat match goal with H : bool_decide _ = true |- _ => apply bool_decide_eq_true in H end.
  destruct (h_completed_at h) as [now|]; [|naive_solver].
  exists now. split; [done|]. cbn [null_or] in *. by zbool.
Qed.

Lemma trip_check_moved t t' :
  trip_check t = true -> lifecycle_check t' = true -> is_Some (t_saved_plan_id t') ->
  t_trip_name t' = t_trip_name t -> t_trip_revision t' = t_trip_revision t ->
  t_next_mutation_sequence t' = t_next_mutation_sequence t ->
  t_finalized_mutation_sequence t' = t_finalized_mutation_sequence t -> trip_check t' = true.
Proof.
  intros H Hl [p Hp] E1 E2 E3 E4. unfold trip_check in *. rewrite Hp, E1, E2, E3, E4, Hl.
  repeat match goal with H : _ && _ = true |- _ => apply andb_true_iff in H as [? ?] end.
  cbn [is_null negb orb].
  repeat first [assumption | reflexivity | apply andb_true_iff; split].
Qed.

Lemma lc_no_other d tripID t : lifecycle d -> trips d !! tripID = Some t -> executing t = true ->
  other_executing tripID (t_owner_user_id t) d = false.
Proof.
  intros Hl Ht He. apply any_row_false. intros k x Hx.
  destruct (decide (k = tripID)) as [->|Hk]; [by rewrite bool_decide_eq_true_2|].
  destruct (decide (t_owner_user_id x = t_owner_user_id t)) as [Ho|Ho];
    [|by rewrite (bool_decide_eq_false_2 (t_owner_user_id x = _)), andb_false_r].
  destruct (executing x) eqn:Hxe; [|by rewrite andb_false_r].
  exfalso. by eapply Hk, (lc_one d Hl).
Qed.

Lemma succeeded_check e updated now :
  operation_check e = true -> e_state e = OpPending -> e_created_at e <= now ->
  operation_check (succeeded_operation updated now e) = true.
Proof.
  intros H Hs Hn. unfold operation_check in *. cbn. rewrite Hs in H. rewrite (proj2 (Z.leb_le _ _) Hn).
  repeat match goal with H : _ && _ = true |- _ => apply andb_true_iff in H as [? ?] end.
  repeat match goal with H : bool_decide _ = true |- _ => apply bool_decide_eq_true in H end.
  repeat (apply andb_true_iff; split); try done.
  - rewrite bool_decide_eq_true_2; [done|]. done.
  - apply bool_decide_eq_true_2. destruct (e_safe_error_code e); naive_solver.
Qed.

(** ** A transition can be completed *)

(** The clock of a completion is past the rows it completes. *)
Definition after_request (operated answered : Z) (o : string) (d : db) : Prop :=
  forall e, operations (saved d) !! o = Some e -> e_created_at e <= operated /\
    forall h, http_records (saved d) !! e_idempotency_record_id e = Some h ->
      h_created_at h <= answered.

(** The database after the trip and its operation were updated. *)
Lemma finish_moved d tripID o t t' e updated now :
  lifecycle d -> trips d !! tripID = Some t -> operations (saved d) !! o = Some e ->
  transition_of tripID t e -> t_owner_user_id t' = t_owner_user_id t ->
  t_saved_plan_id t' = t_saved_plan_id t -> t_trip_revision t' = t_trip_revision t ->
  trip_check t' = true -> t_transition_operation_id t' = None ->
  (t_active_execution_plan_id t' = t_active_execution_plan_id t \/
   t_active_execution_plan_id t' = None) ->
  (t_current_plan_id t' = t_current_plan_id t \/ t_current_plan_id t' = None) ->
  forall acts wins dels,
  moved tripID o (e_idempotency_record_id e) t t' (succeeded_operation updated now e) d
    (set_operations (<[o := succeeded_operation updated now e]> (operations (saved d)))
      (set_trips (<[tripID := t']> (trips d))
        (set_travel_delays dels (set_windows wins (set_activities acts d))))).
Proof.
  intros Hl Ht He Hof E1 E2 E3 Hck Hto Hap Hcp acts wins dels.
  assert (Hx : executing t = true).
  { unfold executing. rewrite (tf_state _ _ _ Hof). by destruct (e_kind e). }
  destruct (lc_fk d Hl _ _ Ht Hx) as [F1 F2].
  constructor; try done; [| |].
  - intros _. by apply lc_no_other.
  - split; [exact (tf_trip _ _ _ Hof)|done].
  - unfold execution_fk, current_plan_fk in *. rewrite Ht in F1, F2. cbn.
    rewrite !lookup_insert_eq, Hto. cbn. apply andb_true_iff in F1 as [F1 _].
    rewrite andb_true_r. split.
    + by destruct Hap as [-> | ->].
    + by destruct Hcp as [-> | ->].
Qed.

(** The guards of [CompleteActivation] pass and the two rows are updated. *)
Lemma CompleteActivation_runs clk d tripID t o e l q (res : result (TripView * db)) :
  lifecycle d -> trips d !! tripID = Some t -> t_execution_state t = Activating ->
  operations (saved d) !! o = Some e -> transition_of tripID t e -> e_kind e = OpActivate ->
  t_current_plan_id t = Some q -> q <> "" ->
  validCanonicalUUID tripID = true -> validCanonicalUUID o = true ->
  validCanonicalUUID (l_holder_id l) = true ->
  leases d !! tripID = Some l -> 0 < l_runtime_epoch l <= max_int64 ->
  clk 0%nat < l_lease_expires_at l -> e_created_at e <= clk 3%nat ->
  trip_check (active_trip (clk 1%nat) t) = true ->
  publish_completion "publish completed activation response"
    "activation idempotency record is not pending completion" "commit activation completion"
    (e_idempotency_record_id e) (t_owner_user_id t) tripID o "activate"
    (fun h => awaiting_completion (t_owner_user_id t) h &&
              bool_decide (h_operation_kind h = "activate_trip"))
    (fun trip body h => set_h_completed_at (Some (clk 4%nat)) (completion_answer trip body h))
    (set_operations (<[o := succeeded_operation (clk 2%nat) (clk 3%nat) e]> (operations (saved d)))
      (set_trips (<[tripID := active_trip (clk 1%nat) t]> (trips d)) d)) = res ->
  CompleteActivation clk (MkCompleteActivation tripID o (l_holder_id l) (l_runtime_epoch l)) d = res.
Proof.
  intros Hl Ht Hst He [Het Hpe Heo Hrev Hek Hec] Hk Hq Hq0 V1 V2 V3 Hlease Hep Hex Hnow Htc Hrun.
  unfold CompleteActivation. cbn [cpa_TripID cpa_OperationID cpa_HolderID cpa_RuntimeEpoch].
  eapply tx_bind_run; [apply (guard_ok _ _ _ tt); split; [|reflexivity]|].
  { rewrite V1, V2, V3. cbn. rewrite (proj2 (Z.eqb_neq _ _)), (proj2 (Z.ltb_ge _ _)) by lia. done. }
  eapply tx_bind_run; [by apply find_row_ok|].
  eapply tx_bind_run; [apply lift_ok; split; [by rewrite Hq|reflexivity]|].
  eapply tx_bind_run; [apply find_row_ok; split; [|reflexivity]|].
  { rewrite Hlease. cbn. by rewrite bool_decide_eq_true_2. }
  eapply tx_bind_run; [apply (guard_ok _ _ _ tt); split; [|reflexivity]|].
  { rewrite int64_small by (unfold max_int64 in *; lia). rewrite Z.eqb_refl.
    by rewrite (proj2 (Z.ltb_lt _ _) Hex). }
  eapply tx_bind_run; [apply find_row_ok; split; [by apply trip_operation_ok|reflexivity]|].
  eapply tx_bind_run; [apply (guard_ok _ _ _ tt); split; [|reflexivity]|].
  { unfold pending_operation. rewrite Hk, Hpe, Hrev, Z.eqb_refl.
    rewrite (bool_decide_eq_false_2 (q = "")) by done. by rewrite !bool_decide_eq_true_2. }
  eapply tx_bind_run; [apply (guard_ok _ _ _ tt); split; [|reflexivity]|].
  { by rewrite Hst, bool_decide_eq_true_2. }
  eapply tx_bind_run.
  { unfold update_trip_execution. rewrite Ht, Hst, bool_decide_eq_true_2 by done.
    change (set_t_updated_at _ _) with (active_trip (clk 1%nat) t). rewrite Htc.
    change (t_owner_user_id (active_trip (clk 1%nat) t)) with (t_owner_user_id t).
    rewrite (lc_no_other d) by (done || unfold executing; by rewrite Hst). reflexivity. }
  eapply tx_bind_run; [|exact Hrun].
  unfold update_operation. cbn [saved set_trips operations]. rewrite He.
  unfold pending_operation. rewrite Hpe, !bool_decide_eq_true_2 by done. by rewrite succeeded_check.
Qed.

Lemma valid_nonempty s : validCanonicalUUID s = true -> s <> "".
Proof. by intros H ->. Qed.

(** C26: in a consistent database, a trip that is activating and whose runtime holds
    an unexpired lease can be completed: [CompleteActivation] succeeds and the
    trip is active. *)
Theorem pending_activation_completes `{!SavedServerLaws SS} clk d tripID t o l p q :
  saved_consistent d -> lifecycle d -> rows_checked d ->
  trips d !! tripID = Some t -> t_execution_state t = Activating ->
  t_transition_operation_id t = Some o ->
  t_saved_plan_id t = Some p -> t_current_plan_id t = Some q ->
  Forall (fun s => validCanonicalUUID s = true) [tripID; o; p; q; l_holder_id l] ->
  leases d !! tripID = Some l -> 0 < l_runtime_epoch l <= max_int64 ->
  clk 0%nat < l_lease_expires_at l -> after_request (clk 3%nat) (clk 4%nat) o d ->
  exists v d', CompleteActivation clk
      (MkCompleteActivation tripID o (l_holder_id l) (l_runtime_epoch l)) d = Ok (v, d') /\
    trips d' !! tripID = Some (active_trip (clk 1%nat) t) /\ tr_ExecutionState v = "active".
Proof.
  intros Hc Hl Hr Ht Hst Hto Hp Hq Hid Hlease Hep Hex Hafter.
  rewrite !Forall_cons in Hid. destruct Hid as (V1 & V2 & V3 & V4 & V5 & _).
  destruct (lc_transition d Hl _ _ _ Ht Hto) as (e & He & Hof).
  pose proof Hof as [Het Hpe Heo Hrev Hek Hec].
  assert (e_kind e = OpActivate) as Hk by (rewrite Hst in Hek; by destruct (e_kind e)).
  destruct (lc_request d Hl _ _ He Hpe) as (h & Hh & [W1 W2 W3 W4 W5 W6]).
  destruct (Hafter _ He) as [Hnow Hnow']. specialize (Hnow' _ Hh).
  assert (Htc : trip_check (active_trip (clk 1%nat) t) = true).
  { pose proof (lc_check d Hl _ _ Ht) as Hck. eapply (trip_check_moved t); try done.
    apply trip_check_lifecycle in Hck. unfold lifecycle_check in *. rewrite Hst in Hck. cbn.
    apply andb_true_iff in Hck as [Hck _]. rewrite andb_true_r. exact Hck. }
  pose proof (finish_moved d tripID o t (active_trip (clk 1%nat) t) e (clk 2%nat) (clk 3%nat)
    Hl Ht He Hof eq_refl eq_refl eq_refl Htc eq_refl (or_introl eq_refl) (or_introl eq_refl)
    (activities d) (windows d) (travel_delays d)) as Hm.
  edestruct (completion_runs d _ tripID o _ t _ _ p h "publish completed activation response"
    "activation idempotency record is not pending completion" "commit activation completion"
    o "activate" (fun h => awaiting_completion (t_owner_user_id t) h &&
                    bool_decide (h_operation_kind h = "activate_trip"))
    (fun v body h => set_h_completed_at (Some (clk 4%nat)) (completion_answer v body h))
    Hc Hr Hm Hp) as (v & d' & Hrun & Htr & Hs); [by apply valid_nonempty|done|exact Hh|..].
  4: { exists v, d'. rewrite Htr, lookup_insert_eq. split; [|done].
       eapply CompleteActivation_runs; try done. by apply valid_nonempty. }
  - unfold awaiting_completion. rewrite W1, W2, W3, W5, Heo, Hk. by rewrite !bool_decide_eq_true_2.
  - intros v body. by eapply (answered_check h _ (clk 4%nat)).
  - intros v body. cbn. by rewrite W4, Het.
Qed.

(** The guards of [CompleteDeactivation] pass and its rows are updated. *)
Lemma CompleteDeactivation_runs clk d tripID t o e holder epoch (res : result (TripView * db)) :
  trips d !! tripID = Some t -> t_execution_state t = Deactivating ->
  operations (saved d) !! o = Some e -> transition_of tripID t e -> e_kind e = OpDeactivate ->
  validCanonicalUUID tripID = true -> validCanonicalUUID o = true ->
  validCanonicalUUID holder = true -> leases d !! tripID = None ->
  e_created_at e <= clk 2%nat -> trip_check (deactivated_trip (clk 0%nat) t) = true ->
  (forall d1, delete_trip_activities tripID d = Ok (tt, d1) ->
   publish_completion "publish completed deactivation response"
    "deactivation idempotency record is not pending completion" "commit deactivation completion"
    (e_idempotency_record_id e) (t_owner_user_id t) tripID o "deactivate"
    (awaiting_completion (t_owner_user_id t)) completion_answer
    (set_operations (<[o := succeeded_operation (clk 1%nat) (clk 2%nat) e]> (operations (saved d)))
      (set_trips (<[tripID := deactivated_trip (clk 0%nat) t]> (trips d)) d1)) = res) ->
  CompleteDeactivation clk (MkCompleteDeactivation tripID o holder epoch) d = res.
Proof.
  intros Ht Hst He [Het Hpe Heo Hrev Hek Hec] Hk V1 V2 V3 Hlease Hnow Htc Hrun.
  unfold CompleteDeactivation. cbn [cpd_TripID cpd_OperationID cpd_HolderID].
  eapply tx_bind_run; [apply (guard_ok _ _ _ tt); split; [|reflexivity]|].
  { by rewrite V1, V2, V3. }
  eapply tx_bind_run; [by apply find_row_ok|].
  eapply tx_bind_run; [apply gets_ok; split; reflexivity|].
  eapply tx_bind_run; [apply (guard_ok _ _ _ tt); split; [|reflexivity]|].
  { rewrite Hlease. by apply bool_decide_eq_false_2, is_Some_None. }
  eapply tx_bind_run; [apply find_row_ok; split; [by apply trip_operation_ok|reflexivity]|].
  eapply tx_bind_run; [apply (guard_ok _ _ _ tt); split; [|reflexivity]|].
  { unfold pending_operation. rewrite Hk, Hpe, Hst. by rewrite !bool_decide_eq_true_2. }
  eapply tx_bind_run; [reflexivity|].
  eapply tx_bind_run.
  { unfold update_trip_execution. cbn [trips set_travel_delays set_windows set_activities].
    rewrite Ht, Hst, bool_decide_eq_true_2 by done. rewrite Htc. reflexivity. }
  eapply tx_bind_run; [|by apply Hrun].
  unfold update_operation.
  cbn [saved set_trips operations set_travel_delays set_windows set_activities]. rewrite He.
  unfold pending_operation. rewrite Hpe, !bool_decide_eq_true_2 by done. by rewrite succeeded_check.
Qed.

(** In a consistent database, a trip that is deactivating and whose lease was
    released can be completed: [CompleteDeactivation] succeeds and the trip is
    inactive, without a plan or a transition, and can be edited again. *)
Theorem pending_deactivation_completes `{!SavedServerLaws SS} clk d tripID t o p holder epoch :
  saved_consistent d -> lifecycle d -> rows_checked d ->
  trips d !! tripID = Some t -> t_execution_state t = Deactivating ->
  t_transition_operation_id t = Some o -> t_saved_plan_id t = Some p ->
  Forall (fun s => validCanonicalUUID s = true) [tripID; o; p; holder] ->
  leases d !! tripID = None -> after_request (clk 2%nat) (clk 2%nat) o d ->
  exists v d', CompleteDeactivation clk (MkCompleteDeactivation tripID o holder epoch) d
      = Ok (v, d') /\
    trips d' !! tripID = Some (deactivated_trip (clk 0%nat) t) /\ tr_ExecutionState v = "inactive".
Proof.
  intros Hc Hl Hr Ht Hst Hto Hp Hid Hlease Hafter.
  rewrite !Forall_cons in Hid. destruct Hid as (V1 & V2 & V3 & V4 & _).
  destruct (lc_transition d Hl _ _ _ Ht Hto) as (e & He & Hof).
  pose proof Hof as [Het Hpe Heo Hrev Hek Hec].
  assert (e_kind e = OpDeactivate) as Hk by (rewrite Hst in Hek; by destruct (e_kind e)).
  destruct (lc_request d Hl _ _ He Hpe) as (h & Hh & [W1 W2 W3 W4 W5 W6]).
  destruct (Hafter _ He) as [Hnow _]. destruct (completed_record_time h W6 W1) as (at_ & Hat & Hle).
  assert (Htc : trip_check (deactivated_trip (clk 0%nat) t) = true)
    by (by eapply (trip_check_moved t); [by eapply (lc_check d Hl)|..]).
  pose proof (finish_moved d tripID o t (deactivated_trip (clk 0%nat) t) e (clk 1%nat) (clk 2%nat)
    Hl Ht He Hof eq_refl eq_refl eq_refl Htc eq_refl (or_intror eq_refl) (or_intror eq_refl)
    (delete_rows (fun _ a => bool_decide (a_trip_id a = tripID)) (activities d))
    (delete_rows (fun _ w => bool_decide (w_trip_id w = tripID)) (windows d))
    (delete_rows (fun k _ => bool_decide (k.1.1 = tripID)) (travel_delays d))) as Hm.
  edestruct (completion_runs d _ tripID o _ t _ _ p h "publish completed deactivation response"
    "deactivation idempotency record is not pending completion" "commit deactivation completion"
    o "deactivate" (awaiting_completion (t_owner_user_id t)) completion_answer
    Hc Hr Hm Hp) as (v & d' & Hrun & Htr & Hs); [by apply valid_nonempty|done|exact Hh|..].
  4: { exists v, d'. rewrite Htr, lookup_insert_eq. split; [|done].
       eapply CompleteDeactivation_runs; try done. intros d1 [= <-]. exact Hrun. }
  - unfold awaiting_completion. rewrite W1, W2, W3, Heo. by rewrite !bool_decide_eq_true_2.
  - intros v body. by eapply (answered_check h _ at_).
  - intros v body. cbn. by rewrite W4, Het.
Qed.

End Progress.
