(* ===== verification/Activation.v ===== *)
(** * What an activation publishes

    The execution plan of an activated trip is the saved schedule moved to the
    moment of activation.  It can be loaded by the runtime exactly when the saved
    activities are scheduled one after the other; nothing before that point tests
    it. *)

From S2P Require Import Prelude GoLib GoText Wire WireFacts Schema Tables SavedTables Commands.
From S2P Require Import Finalization Mutations Proposals CanonicalState Canonical.
From S2P Require Import CanonicalFacts CanonicalLoad SavedTables SavedMutations Execution.
From S2P Require Import SavedFacts SavedProps SavedCreate ExecutionFacts Lifecycle Progress.

Section Activation.
Context {PG : Postgres} {SS : SavedServer} {TZ : TimeZones}.

(** ** The activities an activation reads *)

(** The activity read is a row of the saved plan. *)
Definition read_from (p : string) (d : db) (x : activationActivity) : Prop :=
  exists a, saved_activities (saved d) !! (p, xa_ID x) = Some a /\
    sa_start_offset_ms a = Some (xa_StartOffset x) /\ sa_end_offset_ms a = Some (xa_EndOffset x).

Lemma activation_rows_ok tripID userID d rows l :
  activation_rows tripID userID d rows = Ok l ->
  sublist (List.map (fun x => x.1.1) l) (List.map (fun kv => (kv.1.2, kv.2)) rows).
Proof.
  revert l. induction rows as [|[[q id] a] rows IH]; intros l H; cbn [activation_rows] in H.
  - injection H as <-. constructor.
  - cbn [List.map]. destruct (owned_place _ _ d) as [pl|]; [|by apply sublist_cons, IH].
    destruct (_ && _); [|by apply sublist_cons, IH].
    apply bind_ok in H as (label & _ & H). apply bind_ok in H as (l' & Hl & H). injection H as <-.
    cbn [List.map]. apply sublist_skip, IH, Hl.
Qed.

Lemma scan_activations_ok p d rows l :
  scan_activations p d rows = Ok l ->
  List.map xa_ID l = List.map (fun x => x.1.1.1) rows /\
  forall x, x ∈ l -> exists row, row ∈ rows /\ scan_activation p d row = Ok x.
Proof.
  revert l. induction rows as [|row rows IH]; intros l H; cbn [scan_activations] in H.
  - injection H as <-. split; [done|]. by intros x ?%not_elem_of_nil.
  - apply bind_ok in H as (x & Hx & H). apply bind_ok in H as (l' & Hl & H). injection H as <-.
    destruct (IH _ Hl) as [E Hin]. split.
    + cbn [List.map]. rewrite E. f_equal. unfold scan_activation in Hx.
      destruct row as [[[id a] pl] label]. inv_res. done.
    + intros y [->|Hy]%elem_of_cons; [exists row; split; [left|done]|].
      destruct (Hin _ Hy) as (r & ? & ?). exists r. split; [by right|done].
Qed.

Lemma load_activation_ok p tripID userID d l :
  loadActivationActivities p tripID userID d = Ok l ->
  NoDup (List.map xa_ID l) /\ forall x, x ∈ l -> read_from p d x.
Proof.
  unfold loadActivationActivities. intros H. apply bind_ok in H as (rows & Hr & H).
  apply activation_rows_ok in Hr. apply scan_activations_ok in H as [Eid Hin]. split.
  - rewrite Eid. eapply sublist_NoDup; [apply (saved_itinerary_NoDup p d)|].
    unfold saved_itinerary. pose proof (fmap_sublist fst _ _ Hr) as Hs. cbn in Hs.
    change (list_fmap _ _ ?f ?x) with (List.map f x) in Hs. rewrite !List.map_map in Hs. exact Hs.
  - intros x Hx. destruct (Hin _ Hx) as ([[[id a] pl] label] & Hrow & Hs).
    unfold scan_activation in Hs. inv_res. unfold read_from. cbn. exists a.
    split; [|done]. apply (elem_of_sublist _ _ (id, a)) in Hr.
    2: { apply list_elem_of_In, List.in_map_iff. eexists. split; [|by apply list_elem_of_In].
         done. }
    apply list_elem_of_In, List.in_map_iff in Hr as ([[q i] b] & [= <- <-] & Hr%list_elem_of_In).
    apply elem_of_plan_activities in Hr as [Hr Hq]. cbn in *. by subst.
Qed.

(** ** The segments of the execution plan *)

(** The segment of a saved activity when the trip starts at [base], in Unix
    milliseconds. *)
Definition moved_segment (base : Z) (x : activationActivity) : CanonicalPlanSegmentDraft :=
  Draft (xa_ID x) true (Some (base + xa_StartOffset x)) (Some (base + xa_EndOffset x)).

Definition day_offset (o : Z) : Prop := 0 <= o <= 86400000.

Lemma segment_moment now o : day_offset o ->
  UnixMilli (at_offset (of_timestamptz (trunc_ms now)) o) = unix_milli (trunc_ms now) + o.
Proof.
  unfold day_offset. intros Ho. unfold at_offset, milliseconds, Millisecond.
  rewrite int64_small by (unfold max_int64; lia).
  unfold UnixMilli, of_timestamptz, trunc_ms, unix_milli, Millisecond.
  replace (now / 1000 * 1000 * 1000 + o * 1000000) with ((now / 1000 + o) * 1000000) by lia.
  by rewrite !Z.div_mul by lia.
Qed.

Lemma activation_segments_ok now start finish l segments :
  (forall x, x ∈ l -> day_offset (xa_StartOffset x) /\ day_offset (xa_EndOffset x)) ->
  activation_segments (of_timestamptz (trunc_ms now)) start finish l = Ok segments ->
  segments = List.map (moved_segment (unix_milli (trunc_ms now))) l /\
  forall x, x ∈ l -> xa_StartOffset x < xa_EndOffset x.
Proof.
  revert segments. induction l as [|x l IH]; intros segments Hd H; cbn [activation_segments] in H.
  - injection H as <-. split; [done|]. by intros x ?%not_elem_of_nil.
  - apply bind_ok in H as (s & Hs & H). apply bind_ok in H as (rest & Hr & H). injection H as <-.
    destruct (IH rest) as [-> Hlt]; [by intros; apply Hd; right|done|].
    destruct (Hd x) as [Hds Hde]; [by left|]. unfold activation_segment in Hs.
    apply bind_ok in Hs as ([] & [_ Hx%Z.leb_gt]%reject_if_ok%orb_false_iff & Hs).
    repeat apply bind_ok in Hs as ([] & _ & Hs). injection Hs as <-.
    cbn [List.map]. unfold moved_segment at 1. rewrite !segment_moment by done. split; [done|].
    intros y [->|Hy]%elem_of_cons; [done|by apply Hlt].
Qed.

(** Each activity ends before the next one starts. *)
Definition schedule_ordered (l : list activationActivity) : Prop :=
  StronglySorted (fun x y => xa_EndOffset x <= xa_StartOffset y) l.

Lemma moved_intervals base l :
  omap interval (wire_of_draft <$> List.map (moved_segment base) l) =
  List.map (fun x => (base + xa_StartOffset x, base + xa_EndOffset x)) l.
Proof. induction l as [|x l IH]; [done|]. cbn. f_equal. exact IH. Qed.

Lemma moved_ordered base l :
  StronglySorted before (List.map (fun x => (base + xa_StartOffset x, base + xa_EndOffset x)) l) <->
  schedule_ordered l.
Proof.
  unfold schedule_ordered. induction l as [|x l IH]; [by split; constructor|].
  cbn [List.map]. split; intros [Hs Hall]%StronglySorted_inv; constructor; try by apply IH.
  - rewrite Forall_forall in Hall. apply Forall_forall. intros y Hy.
    specialize (Hall (base + xa_StartOffset y, base + xa_EndOffset y)). unfold before in Hall.
    cbn in Hall. enough (base + xa_EndOffset x <= base + xa_StartOffset y) by lia.
    apply Hall, list_elem_of_In, List.in_map_iff. exists y. by rewrite <- list_elem_of_In.
  - rewrite Forall_forall in Hall. apply Forall_forall.
    intros z (y & <- & Hy%list_elem_of_In)%list_elem_of_In%List.in_map_iff.
    specialize (Hall y Hy). unfold before. cbn. lia.
Qed.

Lemma moved_segments_wf base l :
  (forall x, x ∈ l -> validCanonicalUUID (xa_ID x) = true /\ xa_StartOffset x < xa_EndOffset x) ->
  NoDup (List.map xa_ID l) ->
  Forall segment_wf (wire_of_draft <$> List.map (moved_segment base) l) /\
  (segments_wf (wire_of_draft <$> List.map (moved_segment base) l) <-> schedule_ordered l).
Proof.
  intros Hx Hnd.
  assert (Hw : Forall segment_wf (wire_of_draft <$> List.map (moved_segment base) l)).
  { apply Forall_fmap, Forall_forall. intros s (x & <- & Hin%list_elem_of_In)%list_elem_of_In%List.in_map_iff.
    destruct (Hx _ Hin) as [Hid Hlt]. cbn. split; [done|left]. split; [done|].
    do 2 eexists. split_and!; [done..|]. lia. }
  split; [done|]. split.
  - intros [_ _ Ho]. rewrite moved_intervals in Ho. by apply moved_ordered in Ho.
  - intros Ho. constructor; [done| |rewrite moved_intervals; by apply moved_ordered].
    assert (seg_activityID <$> (wire_of_draft <$> List.map (moved_segment base) l) = List.map xa_ID l)
      as ->; [|done]. clear. induction l as [|x l IH]; [done|]. cbn. f_equal. exact IH.
Qed.

(** ** The published plan *)

Definition activity_uuids (d : db) : Prop := forall p id a,
  saved_activities (saved d) !! (p, id) = Some a -> validCanonicalUUID id = true.

Lemma checked_offsets d p x : rows_checked d -> read_from p d x ->
  day_offset (xa_StartOffset x) /\ day_offset (xa_EndOffset x).
Proof.
  intros Hr (a & Ha & Hs & He). apply (rk_activity d Hr) in Ha. unfold saved_activity_check in Ha.
  rewrite Hs, He in Ha. repeat match goal with H : _ && _ = true |- _ => apply andb_true_iff in H as [H ?] end.
  cbn [null_or] in *. unfold within, day_offset in *.
  repeat match goal with H : _ && _ = true |- _ => apply andb_true_iff in H as [? ?] end. zbool. lia.
Qed.

Lemma moved_int64 base l :
  - 2 ^ 63 <= base <= max_int64 - 86400000 ->
  (forall x, x ∈ l -> day_offset (xa_StartOffset x) /\ day_offset (xa_EndOffset x)) ->
  Forall draft_int64 (List.map (moved_segment base) l).
Proof.
  intros Hb Hd. apply Forall_forall.
  intros s (x & <- & Hx%list_elem_of_In)%list_elem_of_In%List.in_map_iff.
  destruct (Hd _ Hx) as [? ?]. unfold day_offset, draft_int64, int64_option in *. cbn. lia.
Qed.

(** The plan of an execution loads exactly when the schedule is ordered. *)
Lemma execution_plan_loads planID r revision now l d :
  let base := unix_milli (trunc_ms now) in
  let row := execution_plan planID r revision now (List.map (moved_segment base) l) in
  plans d !! planID = Some row -> plan_check row = true -> validCanonicalUUID planID = true ->
  0 < revision <= max_int64 -> - 2 ^ 63 <= base <= max_int64 - 86400000 ->
  (forall x, x ∈ l -> day_offset (xa_StartOffset x) /\ day_offset (xa_EndOffset x)) ->
  (forall x, x ∈ l -> validCanonicalUUID (xa_ID x) = true /\ xa_StartOffset x < xa_EndOffset x) ->
  NoDup (List.map xa_ID l) ->
  (schedule_ordered l ->
   load_plan (ac_TripID r) (ac_UserID r) planID d =
   Ok (loaded_plan planID (ac_UserID r) revision (pl_payload row) (trunc_ms now),
       PlanWire planID (uint64 revision) 1
         (wire_of_draft <$> List.map (moved_segment base) l) base "")) /\
  (~ schedule_ordered l ->
   load_plan (ac_TripID r) (ac_UserID r) planID d = Err ErrCanonicalStateCorrupt).
Proof.
  intros base row Hrow Hck Hid Hrev Hb Hday Hx Hnd.
  destruct (moved_segments_wf base l Hx Hnd) as [Hw Hiff].
  pose proof (moved_int64 base l Hb Hday) as Hi. split.
  - intros Ho. apply Hiff in Ho. subst row. unfold execution_plan in *. cbn [pl_payload].
    apply load_user_plan; try done; unfold base in *; lia.
  - intros Hn. subst row. unfold execution_plan in *.
    rewrite (load_user_row _ _ _ _ _ _ _ Hrow Hck).
    destruct (parseSnapshotCurrentPlan _) as [w|] eqn:E; [|done]. exfalso. apply Hn, Hiff.
    eapply parseSnapshot_user_ordered; [exact Hid| |exact Hi|exact Hw|exact E].
    rewrite uint64_small by (unfold max_int64 in *; lia). unfold max_int64 in *. lia.
Qed.

(** An activation publishes, as the current plan of the trip it leaves
    [activating], the saved schedule moved to the moment of activation.  The
    runtime can load that plan exactly when each saved activity ends before the
    next one starts: otherwise [Load] reports corrupt state, although neither the
    operations that write a saved plan nor [Activate] refuse such a schedule. *)
Theorem activated_plan_loads clk rng r d out d' :
  Activate clk rng r d = Ok (out, d') -> at_Duplicate out = false ->
  rows_checked d -> activity_uuids d -> (forall n, length (rng n) = 16%nat) ->
  - 2 ^ 63 <= clk 2%nat / 1000 <= max_int64 - 86400000 ->
  let base := clk 2%nat / 1000 in
  let planID := newAuthUUID (rng 1%nat) in
  exists t p l revision current,
    trips d' !! ac_TripID r = Some t /\ t_execution_state t = Activating /\
    t_current_plan_id t = Some planID /\ t_saved_plan_id t = Some p /\
    loadActivationActivities p (ac_TripID r) (ac_UserID r) d = Ok l /\
    (schedule_ordered l ->
     load_plan (ac_TripID r) (ac_UserID r) planID d' =
     Ok (current, PlanWire planID revision 1
                    (wire_of_draft <$> List.map (moved_segment base) l) base "")) /\
    (~ schedule_ordered l ->
     load_plan (ac_TripID r) (ac_UserID r) planID d' = Err ErrCanonicalStateCorrupt).
Proof.
  intros H Hdup Hr Huuid Hrng Hclk base planID.
  assert (Hbase : base = unix_milli (trunc_ms (clk 2%nat)))
    by (unfold base, unix_milli, trunc_ms; by rewrite Z.div_mul by lia).
  destruct (Activate_cases _ _ _ _ _ _ H) as [[Hd _]|(_ & t & l & segments & Ha)];
    [by rewrite Hd in Hdup|].
  destruct Ha as [_ (cur & Hlk & Hl) _ (loc & _ & Hseg) (revision & Hrev & Hins & Hplans) _ _ _ Hm].
  destruct (load_activation_ok _ _ _ _ _ Hl) as [Hnd Hread].
  assert (Hday : forall x, x ∈ l -> day_offset (xa_StartOffset x) /\ day_offset (xa_EndOffset x))
    by (intros x Hx; eapply checked_offsets; [done|by apply Hread]).
  apply activation_segments_ok in Hseg as [-> Hlt]; [|done]. rewrite <- Hbase in *.
  destruct (execution_plan_loads planID r revision (clk 2%nat) l d') as [Hyes Hno];
    rewrite <- ?Hbase; try done.
  { rewrite Hplans. by rewrite lookup_insert_eq. }
  { exact (pli_check _ _ _ Hins). }
  { by apply newAuthUUID_valid. }
  { intros x Hx. split; [|by apply Hlt]. destruct (Hread x Hx) as (a & Hx' & _). by eapply Huuid. }
  rewrite <- Hbase in Hyes. do 5 eexists.
  split; [rewrite (mv_trips _ _ _ _ _ _ _ _ Hm); apply lookup_insert_eq|].
  split; [done|]. split; [done|]. split; [exact (al_plan _ _ _ _ Hlk)|]. split; [exact Hl|].
  split; [exact Hyes|exact Hno].
Qed.

(** ** What cannot begin *)

(** No new request to deactivate a trip that is activating succeeds: the guard
    of [Deactivate] admits the state, but the operation it records would be the
    trip's second pending one, which the schema refuses. *)
Theorem activating_trip_cannot_be_deactivated clk rng r d t :
  lifecycle d -> trips d !! de_TripID r = Some t -> t_execution_state t = Activating ->
  ~ exists out d', Deactivate clk rng r d = Ok (out, d') /\ at_Duplicate out = false.
Proof.
  intros Hl Ht Hst (out & d' & H & Hdup).
  destruct (Deactivate_cases _ _ _ _ _ _ H) as [[Hd _]|(_ & t0 & Hd)]; [by rewrite Hd in Hdup|].
  destruct Hd as [_ _ _ (Hn & Hop & _) _ _ Hm].
  destruct (transition_has_operation t OpActivate) as [o Ho]; [by eapply (lc_check d Hl)|done|].
  destruct (lc_transition d Hl _ _ _ Ht Ho) as (e & He & Hof).
  unfold other_pending in Hop. rewrite any_row_false in Hop. specialize (Hop _ _ He). cbn in Hop.
  rewrite (tf_trip _ _ _ Hof), (tf_pending _ _ _ Hof) in Hop.
  rewrite bool_decide_eq_false_2 in Hop by congruence. by rewrite !bool_decide_eq_true_2 in Hop.
Qed.

Lemma activation_rows_label `{!SavedServerLaws SS} tripID userID d rows l k a pl :
  activation_rows tripID userID d rows = Ok l -> (k, a) ∈ rows ->
  sa_trip_id a = tripID -> sa_owner_user_id a = userID ->
  owned_place (sa_place_id a) (sa_owner_user_id a) d = Some pl ->
  pc_formatted_address pl <> None.
Proof.
  intros H Hin Ht Ho Hpl Hnone. revert l H. induction rows as [|[[q id] b] rows IH]; intros l H;
    [by apply not_elem_of_nil in Hin|]. cbn [activation_rows] in H.
  apply elem_of_cons in Hin as [[= -> ->]|Hin].
  - rewrite Hpl, !bool_decide_eq_true_2 in H by done. cbn [andb] in H.
    unfold activation_label in H. rewrite Hnone, format_precision in H. done.
  - destruct (owned_place (sa_place_id b) _ d); [|by eapply (IH Hin)].
    destruct (bool_decide (sa_trip_id b = _) && _); [|by eapply (IH Hin)].
    apply bind_ok in H as (label & _ & H). apply bind_ok in H as (l' & Hl & _). by eapply IH.
Qed.

(** No new request to activate a trip succeeds if one of its saved activities is
    at a place without a formatted address: the label the query falls back to
    uses a [format] specifier the server does not have. *)
Theorem activation_needs_addresses `{!SavedServerLaws SS} clk rng r d t p id a pl :
  saved_consistent d -> trips d !! ac_TripID r = Some t -> t_saved_plan_id t = Some p ->
  saved_activities (saved d) !! (p, id) = Some a ->
  places (saved d) !! sa_place_id a = Some pl -> pc_formatted_address pl = None ->
  ~ exists out d', Activate clk rng r d = Ok (out, d') /\ at_Duplicate out = false.
Proof.
  intros Hc Ht Hp Ha Hpl Hnone (out & d' & H & Hdup).
  destruct (Activate_cases _ _ _ _ _ _ H) as [[Hd _]|(_ & t0 & l & segments & Hact)];
    [by rewrite Hd in Hdup|].
  destruct (ad_locked _ _ _ _ _ _ _ _ _ Hact) as (cur & [Ht0 Ho Hp0 _ _ _] & Hl).
  rewrite Ht in Ht0. injection Ht0 as <-. rewrite Hp in Hp0. injection Hp0 as Ep. rewrite <- Ep in Hl.
  destruct (sc_selected d Hc _ _ _ Ht Hp) as (row & Hrow & Hrt).
  destruct (sc_owner d Hc _ _ Hrow) as (t1 & Ht1 & Ho1). rewrite Hrt, Ht in Ht1. injection Ht1 as <-.
  pose proof (sc_activity d Hc _ _ _ Ha) as [(row' & Hrow' & E1 & E2) [pl' Hpl']]%saved_activity_fk_ok.
  rewrite Hrow in Hrow'. injection Hrow' as <-.
  unfold loadActivationActivities in Hl. apply bind_ok in Hl as (rows & Hr & _).
  eapply (activation_rows_label _ _ _ _ _ (p, id) a pl'); [exact Hr| | | |exact Hpl'|].
  - by apply elem_of_plan_activities.
  - congruence.
  - congruence.
  - apply owned_place_ok in Hpl' as [Hpl' _]. rewrite Hpl in Hpl'. by injection Hpl' as <-.
Qed.

(** A request to deactivate a saved trip that is not executing is answered with
    a database error, not with [ErrSavedTripNotExecuting]: the row has no current
    plan, and its NULL cannot be read into the string the code scans it into. *)
Theorem deactivating_an_inactive_trip_fails clk rng r d id d1 t :
  validCanonicalUUID (de_UserID r) = true -> validCanonicalUUID (de_TripID r) = true ->
  validCanonicalUUID (de_IdempotencyKey r) = true -> de_ExpectedRevision r <= max_int64 ->
  reserveTripMutation clk rng (de_UserID r) (de_IdempotencyKey r) "POST"
    (trip_path (de_TripID r) +:+ "/deactivate") "deactivate_trip" (de_RequestDigest r) d
    = Ok (inl id, d1) ->
  trips d !! de_TripID r = Some t -> t_owner_user_id t = de_UserID r ->
  t_current_plan_id t = None ->
  Deactivate clk rng r d = Err (ErrDatabase "lock deactivation trip").
Proof.
  intros V1 V2 V3 Hexp Hres Ht Ho Hp. pose proof (reserve_ok _ _ _ _ _ _ _ _ _ _ _ Hres) as
    (_ & _ & _ & _ & Hd1).
  unfold Deactivate. eapply tx_bind_run; [apply (guard_ok _ _ _ tt); split; [|reflexivity]|].
  { rewrite V1, V2, V3. cbn. by apply Z.ltb_ge. }
  eapply tx_bind_run; [exact Hres|]. cbv beta iota. unfold deactivate_saved.
  eapply tx_bind_run; [apply find_row_ok; split; [by apply owned_trip_ok; rewrite Hd1|reflexivity]|].
  cbv beta. unfold mbind, tx_bind, lift. rewrite Hp. reflexivity.
Qed.

End Activation.
