(* ===== verification/SavedExamples.v ===== *)
(** * Examples of saved trips

    A concrete server and a short history of one trip (created, edited,
    activated, completed, deactivated, completed) at which the theorems on saved
    trips are applied. *)

From S2P Require Import Prelude GoLib GoText Wire WireFacts Schema Tables SavedTables Commands.
From S2P Require Import Finalization Mutations Proposals CanonicalState Canonical.
From S2P Require Import CanonicalFacts CanonicalLoad SavedTables SavedMutations Execution.
From S2P Require Import SavedFacts SavedProps SavedCreate ExecutionFacts Lifecycle Progress.
From S2P Require Import Activation.

(** ** A concrete server *)

#[global] Instance spec_float_eq_dec : EqDecision spec_float.
Proof. solve_decision. Defined.
#[global] Instance PlaceView_eq_dec : EqDecision PlaceView.
Proof. solve_decision. Defined.
#[global] Instance ScheduleView_eq_dec : EqDecision ScheduleView.
Proof. solve_decision. Defined.
#[global] Instance ActivityTimingView_eq_dec : EqDecision ActivityTimingView.
Proof. solve_decision. Defined.
#[global] Instance SavedActivityView_eq_dec : EqDecision SavedActivityView.
Proof. solve_decision. Defined.
#[global] Instance SavedPlanView_eq_dec : EqDecision SavedPlanView.
Proof. solve_decision. Defined.
#[global] Instance DisplayScheduleView_eq_dec : EqDecision DisplayScheduleView.
Proof. solve_decision. Defined.
#[global] Instance ExecutionOperationView_eq_dec : EqDecision ExecutionOperationView.
Proof. solve_decision. Defined.
#[global] Instance ActiveExecutionView_eq_dec : EqDecision ActiveExecutionView.
Proof. solve_decision. Defined.
#[global] Instance TripView_eq_dec : EqDecision TripView.
Proof. solve_decision. Defined.
#[global] Instance ExecutionTransitionView_eq_dec : EqDecision ExecutionTransitionView.
Proof. solve_decision. Defined.

(** A [jsonb] value: JSON text, or the object of a response. *)
Inductive document :=
| DocText (text : bytes)
| DocTrip (v : TripView)
| DocTransition (v : ExecutionTransitionView).
#[global] Instance document_eq_dec : EqDecision document.
Proof. solve_decision. Defined.

Definition document_text (j : document) : bytes :=
  match j with
  | DocText b => if json_Valid b then b else bytes_of_string "null"
  | _ => bytes_of_string "null"
  end.

Definition pg_saved : Postgres := {|
  jsonb := document;
  jsonb_eq_dec := _;
  jsonb_in b := if json_Valid b then Some (DocText b) else None;
  jsonb_out := document_text;
  uuid_in s := if validCanonicalUUID s then Some s else None;
  text_in s := Some s
|}.

#[global] Instance pg_saved_laws : PostgresLaws pg_saved.
Proof.
  constructor; simpl.
  - intros [b|v|v]; [simpl; by destruct (json_Valid b) eqn:E|done|done].
  - by intros s ->.
  - intros s u. destruct (validCanonicalUUID s) eqn:E; naive_solver.
  - by intros s u [= ->].
Qed.

Definition saved_model : @SavedServer pg_saved := {|
  date_in s := if valid_local_date s then Some s else None;
  time_in s := if valid_local_time s then Some s else None;
  pg_format f args := None;
  trip_json v := Some (DocTrip v : @jsonb pg_saved);
  json_trip j := match (j : document) with DocTrip v => Some v | _ => None end;
  transition_json v :=
    if finite_view (etv_Trip v) then Some (DocTransition v : @jsonb pg_saved) else None;
  json_transition j := match (j : document) with DocTransition v => Some v | _ => None end
|}.

#[global] Instance saved_model_laws : SavedServerLaws saved_model.
Proof.
  constructor; simpl.
  - intros s t. destruct (valid_local_date s) eqn:E; [|done]. intros [= <-]. by rewrite E.
  - intros s t. destruct (valid_local_time s) eqn:E; [|done]. intros [= <-]. by rewrite E.
  - done.
  - by intros v j [= <-].
  - intros v j. destruct (finite_view (etv_Trip v)); [|done]. by intros [= <-].
  - intros v ->. by eexists.
Qed.

(** Two zones with one period each. *)
Definition zones : TimeZones := fun name =>
  if bool_decide (name = "Etc/UTC") then Some (fun _ => ZonePeriod 0 (- 2 ^ 62) (2 ^ 62))
  else if bool_decide (name = "Europe/Paris") then
    Some (fun _ => ZonePeriod 3600 (- 2 ^ 62) (2 ^ 62))
  else None.

(** ** The history of a trip *)

Section Examples.
#[local] Existing Instance pg_saved.
#[local] Existing Instance saved_model.
#[local] Existing Instance zones.

Definition ex_place : string := "00000000-0000-4000-8000-0000000000f1".
Definition ex_bare_place : string := "00000000-0000-4000-8000-0000000000f2".
Definition ex_key (n : Z) : string :=
  newAuthUUID (repeat (byte_of (240 + n)) 16).

Definition ex_place_row (address : option string) : place :=
  Place ex_user ex_place (S754_zero false) (S754_zero false) address "Louvre" "Europe/Paris" 0.

Definition ex_start : db :=
  Db {[ex_user := ex_user_row]} ∅ ∅ ∅ ∅ ∅ ∅ ∅ ∅ ∅ ∅
    (SavedTables ∅ ∅ ∅ ∅ ∅
       {[ex_place := ex_place_row (Some "Rue de Rivoli"); ex_bare_place := ex_place_row None]}) no_auth.

(** 2023-11-15, 08:00 UTC, and later; [k] numbers the operations. *)
Definition ex_clk (k : Z) (n : nat) : Z := 1700035200000000 + 1000000 * k + Z.of_nat n.
Definition ex_rng (k : Z) (n : nat) : bytes := repeat (byte_of (16 * k + Z.of_nat n)) 16.

Definition ex_input (place : string) (ordinal start finish : Z) : SavedActivityInput :=
  MkActivityInput place ordinal (MkScheduleInput "scheduled" (Some start) (Some finish))
    "walking" "flexible" 1 1
    (MkTimingInput (Some [MkWindowInput 0 7200000]) None 0 None 600 1200 1800 false false true
       true).

Definition ex_digest : bytes := repeat Byte.x01 32.

Definition ex_request (l : list SavedActivityInput) : CreateSavedTripRequest :=
  MkCreateSaved ex_user (ex_key 0) ex_digest "Paris" "Europe/Paris"
    (Some (MkDisplayInput "2024-02-29" "09:30:00" "Europe/Paris")) l.

Definition ex_ordered : list SavedActivityInput :=
  [ex_input ex_place 0 0 1200000; ex_input ex_place 1 1200000 2400000].

Definition ex_saved_trip : string := newAuthUUID (ex_rng 0 1).
Definition ex_operation : string := newAuthUUID (ex_rng 2 2).
Definition ex_deactivation : string := newAuthUUID (ex_rng 3 1).

Definition ex_saved (l : list SavedActivityInput) : db :=
  committed (Create (ex_clk 0) (ex_rng 0) (ex_request l)) ex_start.

Definition ex_insertion : SavedActivityMutationRequest :=
  MkActivityMutation ex_user ex_saved_trip "" (ex_key 1) 1 ex_digest
    (Some (ex_input ex_place 1 2400000 3600000)).

Definition ex_activation : ActivateSavedTripRequest :=
  MkActivate ex_user ex_saved_trip (ex_key 2) 1 ex_digest (S754_zero false) (S754_zero false).
Definition ex_activating (l : list SavedActivityInput) : db :=
  committed (Activate (ex_clk 2) (ex_rng 2) ex_activation) (ex_saved l).

Definition ex_exec_lease : lease :=
  Lease ex_holder_a 1 (ex_clk 100 0) (ex_clk 3 0).
Definition ex_waiting : db := set_leases {[ex_saved_trip := ex_exec_lease]} (ex_activating ex_ordered).
Definition ex_running : db :=
  committed (CompleteActivation (ex_clk 4)
    (MkCompleteActivation ex_saved_trip ex_operation ex_holder_a 1)) ex_waiting.
Definition ex_deactivate : DeactivateSavedTripRequest :=
  MkDeactivate ex_user ex_saved_trip (ex_key 3) 1 ex_digest.
Definition ex_released : db :=
  set_leases ∅ (committed (Deactivate (ex_clk 5) (ex_rng 3) ex_deactivate) ex_running).


(** ** The databases of the history are consistent *)

Lemma rows_checked_bool d :
  any_row (fun _ p => negb (place_check p)) (places (saved d)) = false ->
  any_row (fun _ a => negb (saved_activity_check a)) (saved_activities (saved d)) = false ->
  rows_checked d.
Proof.
  intros H1 H2. rewrite any_row_false in H1. rewrite any_row_false in H2.
  constructor; intros k x Hx; apply negb_false_iff; [by apply (H1 k)|by apply (H2 k)].
Qed.

Lemma ex_start_empty : no_saved_trips ex_start.
Proof. split; reflexivity. Qed.

Lemma ex_saved_step l :
  is_ok (Create (ex_clk 0) (ex_rng 0) (ex_request l) ex_start) = true ->
  saved_step ex_start (ex_saved l).
Proof.
  intros [out H]%committed_ok.
  exact (StepRequest (ex_clk 0) (ex_rng 0) (RequestCreate (ex_request l)) out _ _ H).
Qed.

Lemma ex_activating_step l :
  is_ok (Activate (ex_clk 2) (ex_rng 2) ex_activation (ex_saved l)) = true ->
  saved_step (ex_saved l) (ex_activating l).
Proof. intros [out H]%committed_ok. exact (StepActivate _ _ _ _ _ _ H). Qed.

Lemma ex_saved_invariant l :
  is_ok (Create (ex_clk 0) (ex_rng 0) (ex_request l) ex_start) = true ->
  saved_consistent (ex_saved l) /\ lifecycle (ex_saved l).
Proof.
  intros H%ex_saved_step. destruct (no_saved_trips_invariant _ ex_start_empty) as [Hc Hl].
  exact (saved_step_invariant _ _ H Hc Hl).
Qed.

Lemma leases_invariant d m :
  saved_consistent d /\ lifecycle d ->
  saved_consistent (set_leases m d) /\ lifecycle (set_leases m d).
Proof. intros [[] []]. split; constructor; assumption. Qed.

Lemma ex_waiting_invariant : saved_consistent ex_waiting /\ lifecycle ex_waiting.
Proof.
  destruct (ex_saved_invariant ex_ordered) as [Hc Hl]; [vm_compute; reflexivity|].
  refine (leases_invariant _ _ (saved_step_invariant _ _ (ex_activating_step ex_ordered _) Hc Hl)).
  vm_compute. reflexivity.
Qed.

Lemma ex_released_invariant : saved_consistent ex_released /\ lifecycle ex_released.
Proof.
  destruct ex_waiting_invariant as [Hc Hl].
  destruct (committed_ok (CompleteActivation (ex_clk 4)
    (MkCompleteActivation ex_saved_trip ex_operation ex_holder_a 1)) ex_waiting) as [v H1];
    [vm_compute; reflexivity|].
  destruct (saved_step_invariant ex_waiting ex_running (StepCompleteActivation _ _ _ _ _ H1) Hc Hl)
    as [Hc1 Hl1].
  destruct (committed_ok (Deactivate (ex_clk 5) (ex_rng 3) ex_deactivate) ex_running) as [w H2];
    [vm_compute; reflexivity|].
  exact (leases_invariant _ _ (saved_step_invariant _ _ (StepDeactivate _ _ _ _ _ _ H2) Hc1 Hl1)).
Qed.

(** ** Saved-trip requests *)

Definition ex_inserted : db :=
  committed (mutateActivity (ex_clk 1) (ex_rng 1) ex_insertion KindAdd) (ex_saved ex_ordered).

Lemma activity_mutation_refines_witness :
  saved_dense (newAuthUUID (ex_rng 1 1)) ex_inserted /\
  saved_itinerary (newAuthUUID (ex_rng 1 1)) ex_inserted =
    [newAuthUUID (ex_rng 0 3); newAuthUUID (ex_rng 1 2); newAuthUUID (ex_rng 0 4)].
Proof.
  destruct (ex_saved_invariant ex_ordered) as [Hc _]; [vm_compute; reflexivity|].
  destruct (returns_ok (fun o => negb (ms_Duplicate o))
    (mutateActivity (ex_clk 1) (ex_rng 1) ex_insertion KindAdd) (ex_saved ex_ordered))
    as (out & H & Hd); [vm_compute; reflexivity|].
  destruct (activity_mutation_refines _ _ _ _ _ _ _ Hc H (proj1 (negb_true_iff _) Hd))
    as (t & old & _ & _ & _ & _ & Hde & _).
  split; [exact Hde|]. vm_compute. reflexivity.
Defined.

Lemma saved_request_replays_witness :
  exists v, run_saved (ex_clk 9) (ex_rng 9) (RequestCreate (ex_request ex_ordered))
    (ex_saved ex_ordered) = Ok (MkMutatedSavedTrip v true, ex_saved ex_ordered).
Proof.
  destruct (returns_ok (fun o => negb (ms_Duplicate o))
    (run_saved (ex_clk 0) (ex_rng 0) (RequestCreate (ex_request ex_ordered))) ex_start)
    as (out & H & Hd); [vm_compute; reflexivity|].
  exists (ms_Trip out).
  exact (saved_request_replays _ _ (ex_clk 9) (ex_rng 9) _ _ _ _
    (proj1 (no_saved_trips_invariant _ ex_start_empty)) H (proj1 (negb_true_iff _) Hd) eq_refl).
Defined.

Lemma created_trip_reads_back_witness :
  exists v, Get ex_user (tr_TripID v) (ex_saved ex_ordered) = Ok v /\
    List.map view_input (spv_Activities (tr_SavedPlan v)) = ex_ordered.
Proof.
  destruct (returns_ok (fun o => negb (ms_Duplicate o))
    (Create (ex_clk 0) (ex_rng 0) (ex_request ex_ordered)) ex_start)
    as (out & H & Hd); [vm_compute; reflexivity|].
  destruct (created_trip_reads_back (ex_clk 0) (ex_rng 0) _ _ _ _ (proj1 (no_saved_trips_invariant _ ex_start_empty))
    (fun n => eq_refl) H (proj1 (negb_true_iff _) Hd)) as (H1 & _ & _ & _ & _ & _ & H2).
  exists (ms_Trip out). split; [exact H1|exact H2].
Defined.

(** ** The lifecycle *)

Lemma saved_trip_lifecycle_witness : lifecycle (ex_activating ex_ordered).
Proof.
  refine (proj2 (saved_trip_lifecycle ex_start _ ex_start_empty _)).
  refine (rtc_l _ _ _ _ (ex_saved_step ex_ordered _) (rtc_once _ _ (ex_activating_step ex_ordered _)));
    vm_compute; reflexivity.
Defined.

(** The row of the trip in a database of the history. *)
Definition ex_row (d : db) : trip := default ex_trip_row (trips d !! ex_saved_trip).

Lemma after_request_bool operated answered o d :
  match operations (saved d) !! o with
  | Some e => (e_created_at e <=? operated) &&
      match http_records (saved d) !! e_idempotency_record_id e with
      | Some h => h_created_at h <=? answered
      | None => true
      end
  | None => true
  end = true -> after_request operated answered o d.
Proof.
  intros H e He. rewrite He in H. apply andb_true_iff in H as [H1%Z.leb_le H2]. split; [done|].
  intros h Hh. rewrite Hh in H2. by apply Z.leb_le in H2.
Qed.

Lemma pending_activation_completes_witness :
  exists v d', CompleteActivation (ex_clk 4)
      (MkCompleteActivation ex_saved_trip ex_operation ex_holder_a 1) ex_waiting = Ok (v, d') /\
    trips d' !! ex_saved_trip = Some (active_trip (ex_clk 4 1) (ex_row ex_waiting)) /\
    tr_ExecutionState v = "active".
Proof.
  destruct ex_waiting_invariant as [Hc Hl].
  apply (pending_activation_completes (ex_clk 4) ex_waiting ex_saved_trip (ex_row ex_waiting)
    ex_operation ex_exec_lease (newAuthUUID (ex_rng 0 2)) (newAuthUUID (ex_rng 2 1)) Hc Hl).
  - apply rows_checked_bool; vm_compute; reflexivity.
  - vm_compute. reflexivity.
  - vm_compute. reflexivity.
  - vm_compute. reflexivity.
  - vm_compute. reflexivity.
  - vm_compute. reflexivity.
  - repeat (apply Forall_cons; split; [vm_compute; reflexivity|]). apply Forall_nil. exact I.
  - vm_compute. reflexivity.
  - vm_compute. split; [reflexivity|discriminate].
  - vm_compute. reflexivity.
  - apply after_request_bool. vm_compute. reflexivity.
Defined.

Lemma pending_deactivation_completes_witness :
  exists v d', CompleteDeactivation (ex_clk 6)
      (MkCompleteDeactivation ex_saved_trip ex_deactivation ex_holder_a 1) ex_released = Ok (v, d') /\
    trips d' !! ex_saved_trip = Some (deactivated_trip (ex_clk 6 0) (ex_row ex_released)) /\
    tr_ExecutionState v = "inactive".
Proof.
  destruct ex_released_invariant as [Hc Hl].
  apply (pending_deactivation_completes (ex_clk 6) ex_released ex_saved_trip (ex_row ex_released)
    ex_deactivation (newAuthUUID (ex_rng 0 2)) ex_holder_a 1 Hc Hl).
  - apply rows_checked_bool; vm_compute; reflexivity.
  - vm_compute. reflexivity.
  - vm_compute. reflexivity.
  - vm_compute. reflexivity.
  - vm_compute. reflexivity.
  - repeat (apply Forall_cons; split; [vm_compute; reflexivity|]). apply Forall_nil. exact I.
  - vm_compute. reflexivity.
  - apply after_request_bool. vm_compute. reflexivity.
Defined.

(** ** Activation *)

Lemma activity_uuids_bool d :
  any_row (fun k _ => negb (validCanonicalUUID k.2)) (saved_activities (saved d)) = false ->
  activity_uuids d.
Proof.
  intros H p id a Ha. rewrite any_row_false in H. specialize (H _ _ Ha). by apply negb_false_iff in H.
Qed.

(** A schedule whose activities overlap. *)
Definition ex_overlapping : list SavedActivityInput :=
  [ex_input ex_place 0 0 1200000; ex_input ex_place 1 600000 2400000].

Definition ex_loaded (l : list SavedActivityInput) : list activationActivity :=
  match loadActivationActivities (newAuthUUID (ex_rng 0 2)) ex_saved_trip ex_user (ex_saved l) with
  | Ok l => l
  | Err _ => []
  end.

(** The overlapping schedule is stored and activated, and cannot be loaded. *)
Lemma activated_plan_loads_witness :
  load_plan ex_saved_trip ex_user (newAuthUUID (ex_rng 2 1)) (ex_activating ex_overlapping)
    = Err ErrCanonicalStateCorrupt.
Proof.
  destruct (returns_ok (fun o => negb (at_Duplicate o)) (Activate (ex_clk 2) (ex_rng 2) ex_activation)
    (ex_saved ex_overlapping)) as (out & H & Hd); [vm_compute; reflexivity|].
  destruct (activated_plan_loads (ex_clk 2) (ex_rng 2) ex_activation _ _ _ H (proj1 (negb_true_iff _) Hd))
    as (t & p & l & revision & current & Ht & _ & _ & Hp & Hl & _ & Hno).
  - apply rows_checked_bool; vm_compute; reflexivity.
  - apply activity_uuids_bool. vm_compute. reflexivity.
  - intros n. reflexivity.
  - vm_compute. split; discriminate.
  - apply Hno. intros Hord.
    assert (E : option_map t_saved_plan_id (trips (ex_activating ex_overlapping) !! ex_saved_trip) =
      Some (Some (newAuthUUID (ex_rng 0 2)))) by (vm_compute; reflexivity).
    change (trips (ex_activating ex_overlapping) !! ex_saved_trip = Some t) in Ht.
    rewrite Ht in E. cbn [option_map] in E. rewrite Hp in E. injection E as ->.
    assert (El : l = ex_loaded ex_overlapping).
    { unfold ex_loaded. change ex_saved_trip with (ac_TripID ex_activation).
      change ex_user with (ac_UserID ex_activation). by rewrite Hl. }
    assert (Ex : exists x y z, ex_loaded ex_overlapping = x :: y :: z /\
      xa_EndOffset x = 1200000 /\ xa_StartOffset y = 600000).
    { vm_compute. do 3 eexists. split; [reflexivity|]. split; reflexivity. }
    destruct Ex as (x & y & z & Ex & E1 & E2). rewrite El, Ex in Hord.
    apply StronglySorted_inv in Hord as [_ Hall]. apply Forall_inv in Hall. lia.
Defined.

Lemma activating_trip_cannot_be_deactivated_witness :
  ~ exists out d', Deactivate (ex_clk 5) (ex_rng 3) ex_deactivate ex_waiting = Ok (out, d') /\
      at_Duplicate out = false.
Proof.
  refine (activating_trip_cannot_be_deactivated _ _ _ _ (ex_row ex_waiting)
    (proj2 ex_waiting_invariant) _ _); vm_compute; reflexivity.
Defined.

(** A trip to a place without an address. *)
Definition ex_bare : list SavedActivityInput := [ex_input ex_bare_place 0 0 1200000].

Definition ex_bare_row : saved_activity :=
  saved_row ex_saved_trip ex_user ex_bare_place (ex_input ex_bare_place 0 0 1200000).

Lemma activation_needs_addresses_witness :
  ~ exists out d', Activate (ex_clk 2) (ex_rng 2) ex_activation (ex_saved ex_bare) = Ok (out, d') /\
      at_Duplicate out = false.
Proof.
  destruct (ex_saved_invariant ex_bare) as [Hc _]; [vm_compute; reflexivity|].
  refine (activation_needs_addresses _ _ _ _ (ex_row (ex_saved ex_bare)) (newAuthUUID (ex_rng 0 2))
    (newAuthUUID (ex_rng 0 3)) ex_bare_row (ex_place_row None) Hc _ _ _ _ _); vm_compute; reflexivity.
Defined.

Definition ex_reservation : tx (string + tripMutationReplay) :=
  reserveTripMutation (ex_clk 5) (ex_rng 3) ex_user (ex_key 3) "POST"
    (trip_path ex_saved_trip +:+ "/deactivate") "deactivate_trip" ex_digest.

Lemma deactivating_an_inactive_trip_fails_witness :
  Deactivate (ex_clk 5) (ex_rng 3) ex_deactivate (ex_saved ex_ordered) =
  Err (ErrDatabase "lock deactivation trip").
Proof.
  destruct (returns_ok (fun a => match a with inl _ => true | inr _ => false end) ex_reservation
    (ex_saved ex_ordered)) as ([id|rp] & H & Hd); [vm_compute; reflexivity| |discriminate].
  apply (deactivating_an_inactive_trip_fails (ex_clk 5) (ex_rng 3) ex_deactivate _ id _
    (ex_row (ex_saved ex_ordered))) with (5 := H).
  - vm_compute. reflexivity.
  - vm_compute. reflexivity.
  - vm_compute. reflexivity.
  - vm_compute. discriminate.
  - vm_compute. reflexivity.
  - vm_compute. reflexivity.
  - vm_compute. reflexivity.
Defined.

End Examples.
