(* ===== verification/Opaque.v ===== *)
(** * Opaque tokens and keyed digests

    The credentials of [persistence/http_authentication.go]: the unpadded
    base64url text of 32 random bytes ([newOpaqueToken], [validOpaqueToken],
    [validDevelopmentToken]), the key ring ([HMACKey], [HMACKeyRing],
    [NewHMACKeyRing]) and HMAC-SHA-256, with what is used of [encoding/base64]
    and [crypto/hmac]. *)

From S2P Require Import Prelude GoLib Schema GoText.
From Stdlib.Strings Require Import Byte.

(** ** [base64.RawURLEncoding] *)

(** The character of a six-bit value, and back. *)
Definition enc_char (n : Z) : Byte.byte :=
  byte_of (if n <? 26 then 65 + n
           else if n <? 52 then 71 + n
           else if n <? 62 then n - 4
           else if n =? 62 then 45 else 95).

Definition dec_char (b : Byte.byte) : option Z :=
  let c := byte_val b in
  if (65 <=? c) && (c <=? 90) then Some (c - 65)
  else if (97 <=? c) && (c <=? 122) then Some (c - 71)
  else if (48 <=? c) && (c <=? 57) then Some (c + 4)
  else if c =? 45 then Some 62
  else if c =? 95 then Some 63 else None.

(** The six-bit groups of a byte sequence: three bytes are four groups, a rest of
    one or two bytes two or three. *)
Fixpoint sextets (l : bytes) : list Z :=
  match l with
  | a :: b :: c :: rest =>
      let v := byte_val a * 65536 + byte_val b * 256 + byte_val c in
      v / 262144 :: v / 4096 mod 64 :: v / 64 mod 64 :: v mod 64 :: sextets rest
  | [a; b] =>
      let v := byte_val a * 65536 + byte_val b * 256 in
      [v / 262144; v / 4096 mod 64; v / 64 mod 64]
  | [a] => let v := byte_val a * 65536 in [v / 262144; v / 4096 mod 64]
  | [] => []
  end.

(** The bytes of a sequence of six-bit groups; the bits left over are dropped, a
    single group left over is an error. *)
Fixpoint octets (l : list Z) : option bytes :=
  match l with
  | p :: q :: r :: s :: rest =>
      let v := p * 262144 + q * 4096 + r * 64 + s in
      tail ← octets rest;
      Some (byte_of (v / 65536) :: byte_of (v / 256) :: byte_of v :: tail)
  | [p; q; r] =>
      let v := p * 262144 + q * 4096 + r * 64 in
      Some [byte_of (v / 65536); byte_of (v / 256)]
  | [p; q] => Some [byte_of ((p * 262144 + q * 4096) / 65536)]
  | [_] => None
  | [] => Some []
  end.

(** [EncodeToString]. *)
Definition EncodeToString (l : bytes) : string :=
  string_of_bytes (List.map enc_char (sextets l)).

(** [DecodeString]: line feeds and carriage returns are skipped. *)
Definition is_newline (b : Byte.byte) : bool := (byte_val b =? 10) || (byte_val b =? 13).

Definition DecodeString (s : string) : option bytes :=
  groups ← mapM dec_char (List.filter (fun b => negb (is_newline b)) (bytes_of_string s));
  octets groups.

(** ** Tokens *)

Definition authTokenBytes : Z := 32.
Definition maximumOpaqueToken : Z := 43.

(** [newOpaqueToken] with the 32 bytes [rand.Read] returned. *)
Definition newOpaqueToken (random : bytes) : string := EncodeToString random.

Definition validOpaqueToken (value : string) : bool :=
  if negb (len_bytes value =? maximumOpaqueToken) then false
  else match DecodeString value with
  | Some raw => (zlen raw =? authTokenBytes) && bool_decide (EncodeToString raw = value)
  | None => false
  end.

Definition validDevelopmentToken (token : string) : bool :=
  if negb (len_bytes token =? 43) then false
  else match DecodeString token with
  | Some decoded => (zlen decoded =? 32) && bool_decide (EncodeToString decoded = token)
  | None => false
  end.

(** [sha256Bytes]. *)
Definition sha256Bytes (value : string) : bytes := sha256 (bytes_of_string value).

(** ** [crypto/hmac] with SHA-256 *)

Definition hmac_block (key : bytes) : bytes :=
  let key := if 64 <? zlen key then sha256 key else key in
  key ++ replicate (64 - length key) Byte.x00.

Definition xor_byte (v : Z) (b : Byte.byte) : Byte.byte := byte_of (Z.lxor (byte_val b) v).

Definition hmac_sha256 (key message : bytes) : bytes :=
  let block := hmac_block key in
  sha256 (List.map (xor_byte 92) block ++ sha256 (List.map (xor_byte 54) block ++ message)).

(** The second test case of RFC 4231. *)
Example hmac_vector :
  byte_val <$> hmac_sha256 (bytes_of_string "Jefe") (bytes_of_string "what do ya want for nothing?") =
  [91; 220; 193; 70; 191; 96; 117; 78; 106; 4; 36; 38; 8; 149; 117; 199; 90; 0; 63; 8; 157; 39;
   57; 131; 157; 236; 88; 185; 100; 236; 56; 67].
Proof. vm_compute. reflexivity. Qed.

(** ** The key ring *)

Record HMACKey := MkHMACKey { hk_ID : string; hk_Value : bytes }.
Record HMACKeyRing := MkKeyRing {
  kr_current : HMACKey;
  kr_previous : gmap string bytes
}.

Definition add_previous (current : HMACKey) (previous : gmap string bytes) (key : HMACKey)
  : result (gmap string bytes) :=
  _ ← reject_if (bool_decide (TrimSpace (hk_ID key) = "") || (zlen (hk_Value key) <? 32) ||
                 bool_decide (hk_ID key = hk_ID current))
        (ErrInvalid "HMAC key ids must be unique and values must be at least 32 bytes");
  _ ← reject_if (bool_decide (is_Some (previous !! hk_ID key)))
        (ErrInvalid "HMAC key ids must be unique");
  Ok (<[hk_ID key := hk_Value key]> previous).

Definition NewHMACKeyRing (current : HMACKey) (previous : list HMACKey) : result HMACKeyRing :=
  _ ← reject_if (bool_decide (TrimSpace (hk_ID current) = "") || (zlen (hk_Value current) <? 32))
        (ErrInvalid "current HMAC key id and value are required");
  keys ← fold_res (add_previous current) previous ∅;
  Ok (MkKeyRing current keys).

Definition CurrentID (keys : HMACKeyRing) : string := hk_ID (kr_current keys).

Definition ring_key (keys : HMACKeyRing) (id : string) : option bytes :=
  if bool_decide (id = hk_ID (kr_current keys)) then Some (hk_Value (kr_current keys))
  else kr_previous keys !! id.

Definition HMAC (keys : HMACKeyRing) (keyID : string) (value : bytes) : option bytes :=
  key ← ring_key keys keyID; Some (hmac_sha256 key value).

(** ** Facts of the encoding *)

(** A property of the 64 groups is checked on each. *)
Definition all_groups : list Z := List.map Z.of_nat (seq 0 64).

Lemma for_groups (P : Z -> bool) :
  forallb P all_groups = true -> forall n, 0 <= n < 64 -> P n = true.
Proof.
  intros Hall n Hn. rewrite forallb_forall in Hall. apply Hall.
  apply in_map_iff. exists (Z.to_nat n). rewrite in_seq. lia.
Qed.

Lemma dec_enc_char n : 0 <= n < 64 -> dec_char (enc_char n) = Some n.
Proof.
  intros Hn. eapply (bool_decide_eq_true_1 (dec_char (enc_char n) = Some n)).
  exact (for_groups (fun n => bool_decide (dec_char (enc_char n) = Some n)) eq_refl n Hn).
Qed.

Lemma enc_char_printed n : 0 <= n < 64 -> is_newline (enc_char n) = false.
Proof.
  intros Hn. apply negb_true_iff. exact (for_groups (fun n => negb (is_newline (enc_char n))) eq_refl n Hn).
Qed.

(** Induction three bytes at a time. *)
Lemma triples_ind (P : bytes -> Prop) :
  P [] -> (forall a, P [a]) -> (forall a b, P [a; b]) ->
  (forall a b c l, P l -> P (a :: b :: c :: l)) -> forall l, P l.
Proof.
  intros H0 H1 H2 H3. fix IH 1. intros [|a [|b [|c l]]].
  - exact H0.
  - exact (H1 a).
  - exact (H2 a b).
  - exact (H3 a b c l (IH l)).
Qed.

Lemma group_bound v : 0 <= v < 16777216 -> 0 <= v / 262144 < 64.
Proof. intros. split; [apply Z.div_pos|apply Z.div_lt_upper_bound]; lia. Qed.

Lemma sextets_range l : Forall (fun n => 0 <= n < 64) (sextets l).
Proof.
  induction l as [|a|a b|a b c l IH] using triples_ind; cbn [sextets]; repeat constructor;
    try apply Z.mod_pos_bound; try done;
    pose proof (byte_val_range a); try pose proof (byte_val_range b);
    try pose proof (byte_val_range c); apply group_bound; lia.
Qed.

Lemma join_groups v : 0 <= v < 16777216 ->
  v / 262144 * 262144 + v / 4096 mod 64 * 4096 + v / 64 mod 64 * 64 + v mod 64 = v.
Proof. intros. Z.to_euclidean_division_equations. lia. Qed.

Lemma byte_of_val b : byte_of (byte_val b) = b.
Proof. by destruct b. Qed.

Lemma byte_of_mod z w : z mod 256 = w mod 256 -> byte_of z = byte_of w.
Proof. unfold byte_of. by intros ->. Qed.

Lemma first_byte a r : 0 <= r < 65536 -> byte_of ((byte_val a * 65536 + r) / 65536) = a.
Proof.
  intros Hr. rewrite Z.div_add_l, Z.div_small, Z.add_0_r by lia. apply byte_of_val.
Qed.

Lemma second_byte a b r : 0 <= r < 256 ->
  byte_of ((byte_val a * 65536 + byte_val b * 256 + r) / 256) = b.
Proof.
  intros Hr. rewrite <- (byte_of_val b) at 2. apply byte_of_mod.
  replace (byte_val a * 65536 + byte_val b * 256 + r)
    with ((byte_val a * 256 + byte_val b) * 256 + r) by lia.
  rewrite Z.div_add_l, (Z.div_small r), Z.add_0_r by lia.
  by rewrite Z.add_comm, Z.mod_add.
Qed.

Lemma third_byte a b c : byte_of (byte_val a * 65536 + byte_val b * 256 + byte_val c) = c.
Proof.
  rewrite <- (byte_of_val c) at 2. apply byte_of_mod.
  replace (byte_val a * 65536 + byte_val b * 256 + byte_val c)
    with (byte_val c + (byte_val a * 256 + byte_val b) * 256) by lia.
  by rewrite Z.mod_add.
Qed.

Lemma octets_sextets l : octets (sextets l) = Some l.
Proof.
  induction l as [|a|a b|a b c l IH] using triples_ind; cbn [sextets octets]; [done| | |];
    pose proof (byte_val_range a); try pose proof (byte_val_range b);
    try pose proof (byte_val_range c).
  - replace (byte_val a * 65536 / 262144 * 262144 + byte_val a * 65536 / 4096 mod 64 * 4096)
      with (byte_val a * 65536 + 0) by (Z.to_euclidean_division_equations; lia).
    by rewrite first_byte.
  - set (v := byte_val a * 65536 + byte_val b * 256).
    replace (v / 262144 * 262144 + v / 4096 mod 64 * 4096 + v / 64 mod 64 * 64) with (v + 0)
      by (subst v; Z.to_euclidean_division_equations; lia).
    subst v. rewrite second_byte by lia. rewrite <- Z.add_assoc, first_byte by lia. done.
  - rewrite join_groups by lia. rewrite IH. cbn [mbind option_bind].
    rewrite second_byte, third_byte by lia. rewrite <- Z.add_assoc, first_byte by lia. done.
Qed.

Lemma dec_enc_groups l : Forall (fun n => 0 <= n < 64) l ->
  mapM dec_char (List.filter (fun b => negb (is_newline b)) (List.map enc_char l)) = Some l.
Proof.
  induction 1 as [|n l Hn Hl IH]; [done|]. cbn [List.map List.filter].
  rewrite enc_char_printed by done. cbn [negb mapM]. rewrite dec_enc_char by done.
  cbn [mbind option_bind]. by rewrite IH.
Qed.

Lemma Decode_Encode l : DecodeString (EncodeToString l) = Some l.
Proof.
  unfold DecodeString, EncodeToString. rewrite bytes_of_string_of_bytes.
  rewrite dec_enc_groups by apply sextets_range. apply octets_sextets.
Qed.

Lemma Encode_inj k l : EncodeToString k = EncodeToString l -> k = l.
Proof. intros H. apply (f_equal DecodeString) in H. rewrite !Decode_Encode in H. by injection H. Qed.

Lemma sextets_length l :
  zlen (sextets l) = (4 * zlen l + 2) / 3.
Proof.
  unfold zlen.
  induction l as [|a|a b|a b c l IH] using triples_ind; [done..|]. cbn [sextets length].
  rewrite !Nat2Z.inj_succ, IH. Z.to_euclidean_division_equations. lia.
Qed.

Lemma Encode_length l : len_bytes (EncodeToString l) = (4 * zlen l + 2) / 3.
Proof.
  unfold len_bytes, EncodeToString. rewrite bytes_of_string_of_bytes, <- sextets_length.
  unfold zlen. by rewrite length_map.
Qed.

(** Tokens are exactly the encodings of 32 bytes. *)
Lemma validOpaqueToken_spec value :
  validOpaqueToken value = true <-> exists raw, length raw = 32%nat /\ value = EncodeToString raw.
Proof.
  unfold validOpaqueToken, maximumOpaqueToken, authTokenBytes. split.
  - destruct (len_bytes value =? 43); simpl; [|done].
    destruct (DecodeString value) as [raw|]; [|done]. intros H. inv_res. zbool.
    unfold zlen in *. exists raw. split; [lia|done].
  - intros (raw & Hl & ->). rewrite Decode_Encode, Encode_length. unfold zlen. rewrite Hl. simpl.
    by apply bool_decide_eq_true.
Qed.

Lemma newOpaqueToken_valid random :
  length random = 32%nat -> validOpaqueToken (newOpaqueToken random) = true.
Proof. intros Hl. apply validOpaqueToken_spec. by exists random. Qed.

Lemma validDevelopmentToken_same token : validDevelopmentToken token = validOpaqueToken token.
Proof. reflexivity. Qed.

(** ** Facts of the key ring *)

(** A key the ring takes. *)
Definition usable_key (key : HMACKey) : Prop :=
  TrimSpace (hk_ID key) <> "" /\ 32 <= zlen (hk_Value key).

Lemma add_previous_ok current m key m' :
  add_previous current m key = Ok m' <->
  usable_key key /\ hk_ID key <> hk_ID current /\ m !! hk_ID key = None /\
  m' = <[hk_ID key := hk_Value key]> m.
Proof.
  unfold add_previous, usable_key. split.
  - intros H. inv_res. zbool. rewrite <- eq_None_not_Some in *. done.
  - intros ((Hid & Hlen) & Hne & Hnone & ->).
    rewrite (bool_decide_eq_false_2 (TrimSpace _ = _)) by done.
    rewrite (bool_decide_eq_false_2 (hk_ID key = _)) by done.
    rewrite (proj2 (Z.ltb_ge _ _)) by done. simpl.
    rewrite Hnone, bool_decide_eq_false_2 by (by intros [? [=]]). done.
Qed.

(** The map of a list of keys. *)
Definition keys_map (m : gmap string bytes) (ks : list HMACKey) : gmap string bytes :=
  foldl (fun m k => <[hk_ID k := hk_Value k]> m) m ks.

Lemma add_all_ok current ks m m' :
  fold_res (add_previous current) ks m = Ok m' <->
  Forall usable_key ks /\ hk_ID current ∉ hk_ID <$> ks /\ NoDup (hk_ID <$> ks) /\
  (forall k, k ∈ ks -> m !! hk_ID k = None) /\
  m' = keys_map m ks.
Proof.
  revert m. induction ks as [|k ks IH]; intros m; simpl.
  { split; [intros [= <-]|by intros (_ & _ & _ & _ & ->)]. split_and!; try done; try constructor.
    - apply not_elem_of_nil.
    - by intros ? ?%not_elem_of_nil. }
  rewrite bind_ok, NoDup_cons, Forall_cons, not_elem_of_cons. split.
  - intros (m1 & (Hu & Hc & Hn & ->)%add_previous_ok & H). apply IH in H as (Hall & Hin & Hnd & Hm & ->).
    split_and!; try done.
    + intros (k' & Heq & Hk')%list_elem_of_fmap. specialize (Hm _ Hk').
      by rewrite Heq, lookup_insert_eq in Hm.
    + intros k' [->|Hk']%elem_of_cons; [done|]. specialize (Hm _ Hk').
      by apply lookup_insert_None in Hm as [].
  - intros ((Hu & Hall) & (Hc & Hin) & (Hk & Hnd) & Hm & ->).
    exists (<[hk_ID k := hk_Value k]> m). rewrite add_previous_ok, IH. split_and!; try done.
    + apply Hm. left.
    + intros k' Hk'. apply lookup_insert_None. split; [apply Hm; by right|].
      intros Heq. apply Hk. apply list_elem_of_fmap. by exists k'.
Qed.

Lemma keys_map_lookup ks m id :
  NoDup (hk_ID <$> ks) ->
  keys_map m ks !! id =
  match List.find (fun k => bool_decide (hk_ID k = id)) ks with
  | Some k => Some (hk_Value k) | None => m !! id end.
Proof.
  revert m. induction ks as [|k ks IH]; intros m Hnd; simpl; [done|].
  apply NoDup_cons in Hnd as [Hk Hnd]. rewrite IH by done. case_bool_decide as E.
  - destruct (List.find _ ks) as [k'|] eqn:F; [|by rewrite <- E, lookup_insert_eq].
    apply find_some in F as [Hin Hd]. apply bool_decide_eq_true in Hd. exfalso. apply Hk.
    apply list_elem_of_fmap. exists k'. split; [congruence|by apply list_elem_of_In].
  - by rewrite lookup_insert_ne.
Qed.

(** The ring is made exactly of usable keys with distinct identifiers, and finds
    each of them under its identifier and nothing else. *)
Lemma NewHMACKeyRing_spec current previous :
  (is_ok (NewHMACKeyRing current previous) = true <->
   Forall usable_key (current :: previous) /\ NoDup (hk_ID <$> current :: previous)) /\
  forall ring, NewHMACKeyRing current previous = Ok ring -> forall id,
    ring_key ring id =
    hk_Value <$> List.find (fun k => bool_decide (hk_ID k = id)) (current :: previous).
Proof.
  assert (Hok : forall ring, NewHMACKeyRing current previous = Ok ring <->
    usable_key current /\ exists m, fold_res (add_previous current) previous ∅ = Ok m /\
      ring = MkKeyRing current m).
  { intros ring. unfold NewHMACKeyRing, usable_key. split.
    - intros H. inv_res. zbool. naive_solver.
    - intros ((Hid & Hlen) & m & Hm & ->). rewrite bool_decide_eq_false_2 by done.
      rewrite (proj2 (Z.ltb_ge _ _)) by done. simpl. by rewrite Hm. }
  split.
  - rewrite Forall_cons. change (hk_ID <$> current :: previous) with
      (hk_ID current :: (hk_ID <$> previous)). rewrite NoDup_cons. split.
    + destruct (NewHMACKeyRing current previous) as [ring|]; [intros _|done].
      destruct (proj1 (Hok ring) eq_refl) as (Hu & m & (Ha & Hc & Hnd & _)%add_all_ok & _). done.
    + intros ((Hu & Ha) & Hc & Hnd).
      assert (Hr : fold_res (add_previous current) previous ∅ = Ok (keys_map ∅ previous)).
      { apply add_all_ok. split_and!; done. }
      by rewrite (proj2 (Hok _) (conj Hu (ex_intro _ _ (conj Hr eq_refl)))).
  - intros ring E id. apply Hok in E as (_ & m & (_ & _ & Hnd & _ & ->)%add_all_ok & ->).
    unfold ring_key. simpl. case_bool_decide as E1; case_bool_decide as E2; try congruence; [done|].
    rewrite keys_map_lookup by done. destruct (List.find _ previous); done.
Qed.

(** ** The length of a digest *)

Lemma round_length st kw : length (Sha256.round st kw) = length st.
Proof. unfold Sha256.round. repeat (case_match; try done). Qed.

Lemma rounds_length kws st : length (fold_left Sha256.round kws st) = length st.
Proof. revert st. induction kws as [|kw kws IH]; intros st; simpl; [done|]. by rewrite IH, round_length. Qed.

Lemma compress_all_length blocks st : length (fold_left Sha256.compress blocks st) = length st.
Proof.
  revert st. induction blocks as [|b blocks IH]; intros st; simpl; [done|].
  rewrite IH. unfold Sha256.compress. rewrite length_zip_with, rounds_length. lia.
Qed.

Lemma sha256_length message : length (sha256 message) = 32%nat.
Proof.
  unfold sha256, Sha256.sum256.
  pose proof (compress_all_length (Sha256.chunks (length (Sha256.pad message)) 64 (Sha256.pad message))
    Sha256.H0) as Hl.
  destruct (fold_left _ _ _) as [|? [|? [|? [|? [|? [|? [|? [|? []]]]]]]]]; done.
Qed.

Lemma hmac_length key message : length (hmac_sha256 key message) = 32%nat.
Proof. apply sha256_length. Qed.

Lemma Encode_digest_nonempty digest : length digest = 32%nat -> EncodeToString digest <> "".
Proof. intros Hl Heq. pose proof (Encode_length digest) as Hn. rewrite Heq in Hn. unfold zlen in Hn. by rewrite Hl in Hn. Qed.
