(* ===== verification/Sessions.v ===== *)
(** * Accounts, sessions and tickets

    Models [persistence/http_authentication.go] and
    [persistence/authentication.go]: login nonces, Google accounts, session
    families with rotation, CSRF tokens, WebSocket tickets and the development
    tokens.  The readings of [clock_timestamp()] in an operation are [clk 0], [clk 1], ...
    and what the calls of [rand.Read] return [rng 0], [rng 1], ... *)

From S2P Require Import Prelude GoLib Schema Tables Leases GoText SavedTables Opaque.

Definition Minute : Z := 60 * Second.
Definition Hour : Z := 60 * Minute.

Definition oidcNonceLifetime : Z := 5 * Minute.
Definition sessionIdleLifetime : Z := 7 * 24 * Hour.
Definition sessionAbsoluteLife : Z := 30 * 24 * Hour.
Definition sessionRotationAge : Z := 24 * Hour.
Definition predecessorGrace : Z := Minute.
Definition idleTouchInterval : Z := 5 * Minute.
Definition webSocketTicketLife : Z := Minute.
Definition csrfContext : string := "liveroute.csrf.v1".

(** [$n::interval] of [Duration.String()]. *)
Definition pg_interval (d : Z) : Z := duration_microseconds d.

(** ** Data *)

Record AuthUser := MkAuthUser {
  au_ID : string;
  au_DisplayName : string;
  au_Email : string;
  au_DefaultTimeZoneName : string
}.

Record Session := MkSession {
  ses_ID : string;
  ses_FamilyID : string;
  ses_PresentedToken : string;
  ses_Token : string;
  ses_User : AuthUser;
  ses_CSRFKeyID : string;
  ses_CSRFToken : string;
  ses_PresentedCSRFToken : string;
  ses_IdleExpiresAt : Z;
  ses_AbsoluteExpiresAt : Z;
  ses_Rotated : bool;
  ses_CanMintWebSocketTicket : bool
}.

Record LoginNonce := MkLoginNonce { ln_Nonce : string; ln_Binding : string; ln_ExpiresAt : Z }.
Record WebSocketTicket := MkTicket { tk_Token : string; tk_ExpiresAt : Z }.

Record GoogleIdentity := MkGoogleIdentity {
  gi_Issuer : string;
  gi_Subject : string;
  gi_Email : string;
  gi_EmailVerified : bool;
  gi_DisplayName : string
}.

Definition validGoogleIdentity (identity : GoogleIdentity) : bool :=
  bool_decide (gi_Issuer identity = "https://accounts.google.com") &&
  negb (bool_decide (gi_Subject identity = "")) && (len_bytes (gi_Subject identity) <=? 255) &&
  (len_bytes (gi_Email identity) <=? 320) &&
  (bool_decide (gi_Email identity = "") || gi_EmailVerified identity).

Definition nullableString (value : string) : option string :=
  if bool_decide (value = "") then None else Some value.

(** ** CSRF tokens *)

Definition csrf_text (key : bytes) (token : string) : string :=
  EncodeToString (hmac_sha256 key (bytes_of_string token ++ bytes_of_string csrfContext)).

Definition CSRF (keys : HMACKeyRing) (token keyID : string) : string :=
  match ring_key keys keyID with None => "" | Some key => csrf_text key token end.

Definition VerifyCSRF (keys : HMACKeyRing) (session : Session) (token : string) : bool :=
  match ring_key keys (ses_CSRFKeyID session) with
  | None => false
  | Some key =>
      if bool_decide (token = "") || negb (validOpaqueToken (ses_PresentedToken session)) then false
      else
        let expected := csrf_text key (ses_PresentedToken session) in
        let actual := if bool_decide (ses_PresentedCSRFToken session = "")
                      then ses_CSRFToken session else ses_PresentedCSRFToken session in
        constant_time_eq (bytes_of_string expected) (bytes_of_string token) &&
        constant_time_eq (bytes_of_string actual) (bytes_of_string token)
  end.

Definition set_csrf (csrf presented : string) (s : Session) : Session :=
  MkSession (ses_ID s) (ses_FamilyID s) (ses_PresentedToken s) (ses_Token s) (ses_User s)
    (ses_CSRFKeyID s) csrf presented (ses_IdleExpiresAt s) (ses_AbsoluteExpiresAt s)
    (ses_Rotated s) (ses_CanMintWebSocketTicket s).

Section Sessions.
Context {PG : Postgres}.

Definition text_param (op s : string) : tx string :=
  lift (of_option (text_in s) (ErrDatabase op)).

Definition text_param_null (op : string) (s : option string) : tx (option string) :=
  match s with
  | None => mret None
  | Some s => t ← text_param op s; mret (Some t)
  end.

(** ** Statements *)

(** The [CHECK]s of [oidc_login_nonces] and [websocket_auth_tickets]. *)
Definition nonce_check (n : nonce_row) : bool :=
  (zlen (n_nonce_sha256 n) =? 32) && (zlen (n_browser_binding_sha256 n) =? 32) &&
  (n_created_at n <? n_expires_at n) && null_or (Z.leb (n_created_at n)) (n_consumed_at n).

Definition ticket_check (t : ticket_row) : bool :=
  (zlen (wt_token_sha256 t) =? 32) && (wt_created_at t <? wt_expires_at t) &&
  null_or (Z.leb (wt_created_at t)) (wt_consumed_at t).

Definition identity_check (e : identity_row) : bool :=
  bool_decide (ei_provider e = "google") &&
  bool_decide (ei_issuer e = "https://accounts.google.com") &&
  within 1 255 (char_length (ei_subject e)) &&
  null_or (fun m => within 3 320 (char_length m)) (ei_email e) &&
  null_or (fun n => within 1 200 (char_length n)) (ei_display_name e) &&
  (is_null (ei_email e) || ei_email_verified e).

Definition revocation_reasons : list string :=
  ["logout"; "rotated"; "administrator"; "security_event"; "user_deleted"].

(** The [CHECK]s of [user_sessions]. *)
Definition session_check (s : session_row) : bool :=
  (zlen (us_token_sha256 s) =? 32) && within 1 64 (char_length (us_csrf_key_id s)) &&
  null_or (fun r => bool_decide (r ∈ revocation_reasons)) (us_revocation_reason s) &&
  (us_created_at s <=? us_last_seen_at s) && (us_last_seen_at s <? us_idle_expires_at s) &&
  (us_idle_expires_at s <=? us_absolute_expires_at s) &&
  (us_created_at s <? us_rotate_after s) && (us_rotate_after s <=? us_absolute_expires_at s) &&
  eqb (is_null (us_replaced_by_session_id s)) (is_null (us_predecessor_valid_until s)) &&
  null_or (fun v => v <=? us_absolute_expires_at s) (us_predecessor_valid_until s) &&
  eqb (is_null (us_revoked_at s)) (is_null (us_revocation_reason s)).

Definition insert_nonce (op id : string) (n : nonce_row) : tx unit := fun d =>
  if bool_decide (is_Some (nonces (auth d) !! id)) || negb (nonce_check n) ||
     any_row (fun _ q => bool_decide (n_nonce_sha256 q = n_nonce_sha256 n) ||
       bool_decide (n_browser_binding_sha256 q = n_browser_binding_sha256 n)) (nonces (auth d))
  then Err (ErrDatabase op)
  else Ok (tt, set_nonces (<[id := n]> (nonces (auth d))) d).

(** The unique key [token_sha256]. *)
Definition insert_session (op id : string) (s : session_row) : tx unit := fun d =>
  if bool_decide (is_Some (sessions (auth d) !! id)) || negb (session_check s) ||
     negb (bool_decide (us_user_id s ∈ users d)) ||
     any_row (fun _ q => bool_decide (us_token_sha256 q = us_token_sha256 s)) (sessions (auth d))
  then Err (ErrDatabase op)
  else Ok (tt, set_sessions (<[id := s]> (sessions (auth d))) d).

(** [UPDATE user_sessions SET f WHERE P]. *)
Definition update_sessions (op : string) (P : string -> session_row -> bool)
    (f : session_row -> session_row) : tx unit := fun d =>
  if any_row (fun k s => P k s && negb (session_check (f s))) (sessions (auth d))
  then Err (ErrDatabase op)
  else Ok (tt, set_sessions (update_rows P f (sessions (auth d))) d).

(** The deferred foreign key of a rotated session, checked on commit: its
    successor is a session of the family and the user. *)
Definition successor_exists (s : session_row) (m : gmap string session_row) : bool :=
  match us_replaced_by_session_id s with
  | None => true
  | Some next =>
      match m !! next with
      | Some q => bool_decide (us_session_family_id q = us_session_family_id s) &&
                  bool_decide (us_user_id q = us_user_id s)
      | None => false
      end
  end.

Definition commit_session (op id : string) : tx unit := fun d =>
  match sessions (auth d) !! id with
  | Some s => if successor_exists s (sessions (auth d)) then Ok (tt, d) else Err (ErrDatabase op)
  | None => Ok (tt, d)
  end.

(** The foreign key [(user_id, session_id)] of a ticket. *)
Definition insert_ticket (op id : string) (t : ticket_row) : tx unit := fun d =>
  if bool_decide (is_Some (tickets (auth d) !! id)) || negb (ticket_check t) ||
     negb (bool_decide (wt_user_id t ∈ users d)) ||
     match sessions (auth d) !! wt_session_id t with
     | Some s => negb (bool_decide (us_user_id s = wt_user_id t))
     | None => true
     end ||
     any_row (fun _ q => bool_decide (wt_token_sha256 q = wt_token_sha256 t)) (tickets (auth d))
  then Err (ErrDatabase op)
  else Ok (tt, set_tickets (<[id := t]> (tickets (auth d))) d).

Definition insert_user (op id : string) (u : user_row) : tx unit := fun d =>
  if bool_decide (is_Some (user_rows d !! id)) then Err (ErrDatabase op)
  else Ok (tt, set_user_rows (<[id := u]> (user_rows d)) d).

(** The unique key [(provider, issuer, subject)]. *)
Definition same_account (provider issuer subject : string) (_ : string) (e : identity_row) : bool :=
  bool_decide (ei_provider e = provider) && bool_decide (ei_issuer e = issuer) &&
  bool_decide (ei_subject e = subject).

(** [INSERT ... ON CONFLICT (that key) DO NOTHING]: whether a row was added. *)
Definition insert_identity (op id : string) (e : identity_row) : tx bool := fun d =>
  if negb (identity_check e) then Err (ErrDatabase op)
  else if any_row (same_account (ei_provider e) (ei_issuer e) (ei_subject e)) (identities (auth d))
  then Ok (false, d)
  else if bool_decide (is_Some (identities (auth d) !! id)) ||
          negb (bool_decide (ei_user_id e ∈ users d))
  then Err (ErrDatabase op)
  else Ok (true, set_identities (<[id := e]> (identities (auth d))) d).

(** ** Login nonces *)

Definition CreateLoginNonce (clk : nat -> Z) (rng : nat -> bytes) : tx LoginNonce :=
  let nonce := newOpaqueToken (rng 0%nat) in
  let binding := newOpaqueToken (rng 1%nat) in
  let id := newAuthUUID (rng 2%nat) in
  let value := clk 0%nat in
  let expiresAt := value + pg_interval oidcNonceLifetime in
  _ ← insert_nonce "create login nonce" id
        (NonceRow (sha256Bytes nonce) (sha256Bytes binding) value expiresAt None);
  mret (MkLoginNonce nonce binding (of_timestamptz expiresAt)).

(** [WHERE nonce_sha256 AND browser_binding_sha256 AND consumed_at IS NULL AND
    expires_at > clock_timestamp()]. *)
Definition nonce_live (now : Z) (nonce binding : bytes) (_ : string) (n : nonce_row) : bool :=
  bool_decide (n_nonce_sha256 n = nonce) && bool_decide (n_browser_binding_sha256 n = binding) &&
  is_null (n_consumed_at n) && (now <? n_expires_at n).

Definition consume_nonce (op id : string) (now : Z) : tx unit := fun d =>
  match nonces (auth d) !! id with
  | Some n =>
      let n' := set_n_consumed_at (Some now) n in
      if nonce_check n' then Ok (tt, set_nonces (<[id := n']> (nonces (auth d))) d)
      else Err (ErrDatabase op)
  | None => Ok (tt, d)
  end.

(** ** Accounts *)

Definition google_row (identity : GoogleIdentity) (d : db) : option (string * identity_row * user_row) :=
  '(id, e) ← head (rows_where
     (fun k e => same_account "google" (gi_Issuer identity) (gi_Subject identity) k e &&
                 bool_decide (is_Some (user_rows d !! ei_user_id e))) (identities (auth d)));
  u ← user_rows d !! ei_user_id e;
  Some (id, e, u).

(** [UPDATE external_identities SET ... WHERE provider, issuer, subject]. *)
Definition update_identity (now : Z) (identity : GoogleIdentity) (email : option string)
    (name : string) : tx unit := fun d =>
  let f e := set_ei_last_authenticated_at now (set_ei_display_name (Some name)
               (set_ei_email_verified (gi_EmailVerified identity) (set_ei_email email e))) in
  let P := same_account "google" (gi_Issuer identity) (gi_Subject identity) in
  if any_row (fun k e => P k e && negb (identity_check (f e))) (identities (auth d))
  then Err (ErrDatabase "update external identity")
  else Ok (tt, set_identities (update_rows P f (identities (auth d))) d).

(** [DELETE FROM users WHERE id = $1] of a row this transaction inserted: no row of
    another table refers to it, so nothing cascades. *)
Definition discard_user (id : string) : tx unit :=
  modify (fun d => set_user_rows (delete id (user_rows d)) d).

(** [race n] is what other transactions commit between the lookup and the insert
    of the [n]th round; a round draws two identifiers and reads the clock at most
    three times. *)
Fixpoint upsertExternalIdentity (fuel : nat) (race : nat -> db -> db) (clk : nat -> Z)
    (rng : nat -> bytes) (n : nat) (identity : GoogleIdentity) (defaultTimeZoneName : string)
  : tx AuthUser :=
  match fuel with
  | O => fail (ErrInvalid "recursion limit")
  | S fuel =>
      row ← gets (google_row identity);
      match row with
      | Some (_, e, u) =>
          email ← text_param_null "update external identity" (nullableString (gi_Email identity));
          name ← text_param "update external identity" (gi_DisplayName identity);
          _ ← update_identity (clk (3 * n)%nat) identity email name;
          mret (MkAuthUser (ei_user_id e) (u_display_name u) (default "" (ei_email e))
                  (u_default_time_zone_name u))
      | None =>
          let userID := newAuthUUID (rng (2 * n)%nat) in
          name ← text_param "insert Google user" (gi_DisplayName identity);
          zone ← text_param "insert Google user" defaultTimeZoneName;
          _ ← insert_user "insert Google user" userID (UserRow name zone (clk (3 * n)%nat));
          _ ← modify (race n);
          subject ← text_param "insert external identity" (gi_Subject identity);
          email ← text_param_null "insert external identity" (nullableString (gi_Email identity));
          inserted ← insert_identity "insert external identity" (newAuthUUID (rng (2 * n + 1)%nat))
            (Identity userID "google" (gi_Issuer identity) subject email
               (gi_EmailVerified identity) (Some name) (clk (3 * n + 1)%nat) (clk (3 * n + 2)%nat));
          if (inserted : bool) then
            mret (MkAuthUser userID (gi_DisplayName identity) (gi_Email identity)
                    defaultTimeZoneName)
          else
            _ ← discard_user userID;
            upsertExternalIdentity fuel race clk rng (S n) identity defaultTimeZoneName
      end
  end.

(** ** Sessions *)

Definition insertSession (value : Z) (rng : nat -> bytes) (user : AuthUser) (keyID : string)
  : tx Session :=
  let token := newOpaqueToken (rng 0%nat) in
  let familyID := newAuthUUID (rng 1%nat) in
  let id := newAuthUUID (rng 2%nat) in
  let idle := value + pg_interval sessionIdleLifetime in
  let absolute := value + pg_interval sessionAbsoluteLife in
  key ← text_param "insert session" keyID;
  _ ← insert_session "insert session" id
        (SessionRow familyID (au_ID user) (sha256Bytes token) key value value idle absolute
           (value + pg_interval sessionRotationAge) None None None None);
  mret (MkSession id familyID token token user keyID "" "" (of_timestamptz idle)
          (of_timestamptz absolute) false true).

(** The rounds of [upsertExternalIdentity] the model runs; [Accounts] shows that
    two are enough. *)
Definition upsert_rounds : nat := 2.

Definition shift {A} (n : nat) (f : nat -> A) : nat -> A := fun k => f (n + k)%nat.

Definition CreateSessionForGoogle `{TimeZones} (race : nat -> db -> db) (clk : nat -> Z)
    (rng : nat -> bytes) (keys : HMACKeyRing) (nonce binding : string)
    (identity : GoogleIdentity) (defaultTimeZoneName : string) : tx Session :=
  _ ← guard (negb (validOpaqueToken nonce) || negb (validOpaqueToken binding) ||
             negb (validGoogleIdentity identity) || negb (validTimeZoneName defaultTimeZoneName))
        ErrAuthenticationInput;
  row ← find_row (fun d => head (rows_where (nonce_live (clk 0%nat) (sha256Bytes nonce)
                     (sha256Bytes binding)) (nonces (auth d)))) ErrNonceNotFound;
  _ ← consume_nonce "consume login nonce" row.1 (clk 1%nat);
  user ← upsertExternalIdentity upsert_rounds race (shift 3 clk) (shift 3 rng) 0 identity
           defaultTimeZoneName;
  result ← insertSession (clk 2%nat) rng user (CurrentID keys);
  mret (set_csrf (CSRF keys (ses_Token result) (ses_CSRFKeyID result)) "" result).

(** The [WHERE] clause of [AuthenticateSession]. *)
Definition session_live (clk : nat -> Z) (digest : bytes) (s : session_row) : bool :=
  bool_decide (us_token_sha256 s = digest) && is_null (us_revoked_at s) &&
  (clk 0%nat <? us_absolute_expires_at s) &&
  ((clk 1%nat <? us_idle_expires_at s) ||
   (negb (is_null (us_replaced_by_session_id s)) &&
    match us_predecessor_valid_until s with Some v => clk 2%nat <? v | None => false end)).

Definition session_query (clk : nat -> Z) (digest : bytes) (d : db)
  : option (string * session_row * user_row) :=
  '(id, s) ← head (rows_where
     (fun _ s => session_live clk digest s &&
                 bool_decide (is_Some (user_rows d !! us_user_id s))) (sessions (auth d)));
  u ← user_rows d !! us_user_id s;
  Some (id, s, u).

(** [ORDER BY last_authenticated_at DESC]. *)
Definition latest_login (x y : string * identity_row) : Prop :=
  ei_last_authenticated_at y.2 <= ei_last_authenticated_at x.2.
#[global] Instance latest_first_dec : RelDecision latest_login.
Proof. intros x y. unfold latest_login. apply _. Defined.

Definition google_email (userID : string) (d : db) : string :=
  match head (merge_sort latest_login (rows_where
     (fun _ e => bool_decide (ei_user_id e = userID) && bool_decide (ei_provider e = "google"))
     (identities (auth d)))) with
  | Some (_, e) => default "" (ei_email e)
  | None => ""
  end.

Definition sessionShouldRotate (now : Z) (sessionID : string) (d : db) : bool :=
  match sessions (auth d) !! sessionID with
  | Some s => us_rotate_after s <=? now
  | None => false
  end.

Definition rotateSession (clk : nat -> Z) (rng : nat -> bytes) (old : Session) (keyID : string)
  : tx Session :=
  let token := newOpaqueToken (rng 0%nat) in
  let id := newAuthUUID (rng 1%nat) in
  row ← find_row (fun d => sessions (auth d) !! ses_ID old) (ErrDatabase "insert rotated session");
  key ← text_param "insert rotated session" keyID;
  let value := clk 0%nat in
  let idle := Z.min (value + pg_interval sessionIdleLifetime) (us_absolute_expires_at row) in
  _ ← insert_session "insert rotated session" id
        (SessionRow (us_session_family_id row) (us_user_id row) (sha256Bytes token) key value value
           idle (us_absolute_expires_at row)
           (Z.min (value + pg_interval sessionRotationAge) (us_absolute_expires_at row))
           None None None None);
  _ ← update_sessions "link rotated session" (fun k _ => bool_decide (k = ses_ID old))
        (fun s => set_us_predecessor_valid_until
           (Some (Z.min (clk 1%nat + pg_interval predecessorGrace) (us_absolute_expires_at s)))
           (set_us_replaced_by_session_id (Some id) s));
  mret (MkSession id (ses_FamilyID old) (ses_PresentedToken old) token (ses_User old) keyID
          (ses_CSRFToken old) (ses_PresentedCSRFToken old) (of_timestamptz idle)
          (of_timestamptz (us_absolute_expires_at row)) true true).

Definition touch_session (clk : nat -> Z) (id : string) : tx unit :=
  update_sessions "touch session" (fun k _ => bool_decide (k = id))
    (fun s => set_us_last_seen_at
       (if pg_interval idleTouchInterval <=? clk 0%nat - us_last_seen_at s
        then Z.min (clk 1%nat) (us_idle_expires_at s) else us_last_seen_at s) s).

Definition AuthenticateSession (clk : nat -> Z) (rng : nat -> bytes) (keys : HMACKeyRing)
    (token : string) : tx Session :=
  _ ← guard (negb (validOpaqueToken token)) ErrSessionNotFound;
  row ← find_row (session_query clk (sha256Bytes token)) ErrSessionNotFound;
  let '(id, s, u) := row in
  email ← gets (google_email (us_user_id s));
  let current := is_null (us_replaced_by_session_id s) in
  let session := MkSession id (us_session_family_id s) token token
    (MkAuthUser (us_user_id s) (u_display_name u) email (u_default_time_zone_name u))
    (us_csrf_key_id s) "" "" (of_timestamptz (us_idle_expires_at s))
    (of_timestamptz (us_absolute_expires_at s)) false current in
  result ←
    (if current then
       rotate ← gets (sessionShouldRotate (clk 3%nat) id);
       if (rotate : bool) then rotateSession (shift 4 clk) rng session (CurrentID keys)
       else _ ← touch_session (shift 4 clk) id; mret session
     else mret session);
  _ ← commit_session "commit session lookup" id;
  mret (set_csrf (CSRF keys (ses_Token result) (ses_CSRFKeyID result))
          (CSRF keys (ses_PresentedToken result) (ses_CSRFKeyID result)) result).

(** ** Tickets *)

(** A session a ticket can be drawn on. *)
Definition ticket_session (value : Z) (digest : bytes) (_ : string) (s : session_row) : bool :=
  bool_decide (us_token_sha256 s = digest) && is_null (us_revoked_at s) &&
  is_null (us_replaced_by_session_id s) && (value <? us_idle_expires_at s) &&
  (value <? us_absolute_expires_at s).

Definition IssueWebSocketTicket (clk : nat -> Z) (rng : nat -> bytes) (session : Session)
  : tx WebSocketTicket :=
  _ ← guard (negb (ses_CanMintWebSocketTicket session) ||
             negb (validOpaqueToken (ses_PresentedToken session))) ErrSessionNotFound;
  let token := newOpaqueToken (rng 0%nat) in
  let id := newAuthUUID (rng 1%nat) in
  let value := clk 0%nat in
  row ← find_row (fun d => head (rows_where (ticket_session value (sha256Bytes (ses_Token session)))
                     (sessions (auth d)))) ErrSessionNotFound;
  let expiresAt := value + pg_interval webSocketTicketLife in
  _ ← insert_ticket "issue websocket ticket" id
        (TicketRow row.1 (us_user_id row.2) (sha256Bytes token) value expiresAt None);
  mret (MkTicket token (of_timestamptz expiresAt)).

(** The row the [UPDATE ... FROM user_sessions] of a ticket's consumption changes. *)
Definition ticket_live (clk : nat -> Z) (digest : bytes) (m : gmap string session_row)
    (_ : string) (t : ticket_row) : bool :=
  bool_decide (wt_token_sha256 t = digest) && is_null (wt_consumed_at t) &&
  (clk 0%nat <? wt_expires_at t) &&
  match m !! wt_session_id t with
  | Some s => bool_decide (us_user_id s = wt_user_id t) && is_null (us_revoked_at s) &&
              is_null (us_replaced_by_session_id s) && (clk 1%nat <? us_idle_expires_at s) &&
              (clk 2%nat <? us_absolute_expires_at s)
  | None => false
  end.

Definition consume_ticket (op : string) (clk : nat -> Z) (digest : bytes) : tx string :=
  row ← find_row (fun d => head (rows_where (ticket_live clk digest (sessions (auth d)))
                     (tickets (auth d)))) ErrAuthenticationFailed;
  let t := set_wt_consumed_at (Some (clk 3%nat)) row.2 in
  _ ← guard (negb (ticket_check t)) (ErrDatabase op);
  _ ← modify (fun d => set_tickets (<[row.1 := t]> (tickets (auth d))) d);
  mret (wt_user_id row.2).

Definition AuthenticateWebSocket (clk : nat -> Z) (token : string) : tx string :=
  _ ← guard (negb (validOpaqueToken token)) ErrAuthenticationInput;
  consume_ticket "consume websocket ticket" clk (sha256Bytes token).

Definition Logout (clk : nat -> Z) (session : Session) : tx unit :=
  _ ← guard (bool_decide (ses_FamilyID session = "")) ErrSessionNotFound;
  family ← uuid_param "revoke session family" (ses_FamilyID session);
  update_sessions "revoke session family"
    (fun _ s => bool_decide (us_session_family_id s = family))
    (fun s => set_us_revocation_reason
       (if is_null (us_revoked_at s) then Some "logout" else us_revocation_reason s)
       (set_us_revoked_at
          (match us_revoked_at s with Some t => Some t | None => Some (clk 0%nat) end) s)).

(** ** Development tokens ([authentication.go]) *)

Definition dev_live (now : Z) (digest : bytes) (_ : string) (t : dev_token) : bool :=
  bool_decide (dt_token_sha256 t = digest) && is_null (dt_revoked_at t) &&
  null_or (Z.ltb now) (dt_expires_at t).

(** [Authenticate] of [DevelopmentAuthenticator]. *)
Definition DevelopmentAuthenticate (clk : nat -> Z) (token : string) : tx string :=
  _ ← guard (negb (validDevelopmentToken token)) ErrAuthenticationInput;
  let digest := sha256Bytes token in
  row ← gets (fun d => head (rows_where (dev_live (clk 0%nat) digest) (dev_tokens (auth d))));
  match row with
  | Some (_, t) =>
      _ ← guard (negb (zlen (dt_token_sha256 t) =? 32) ||
                 negb (constant_time_eq digest (dt_token_sha256 t))) ErrAuthenticationFailed;
      mret (dt_user_id t)
  | None => consume_ticket "authenticate websocket ticket" (shift 1 clk) digest
  end.

End Sessions.
