(* ===== verification/SessionFacts.v ===== *)
(** * What the session operations do

    The rows each operation of [Sessions] changes, the transition system of the
    operations, and the invariant of the account tables: a token names one
    session, a family has one user, one absolute expiry and at most one session
    that is not replaced, and is revoked as a whole. *)

From S2P Require Import Prelude GoLib Schema Tables Leases GoText SavedTables Opaque Sessions.

Section Facts.
Context {PG : Postgres} `{!PostgresLaws PG} `{TimeZones}.

Implicit Types (m : gmap string session_row) (d : db).

Lemma elem_of_users d id : id ∈ users d <-> is_Some (user_rows d !! id).
Proof. apply elem_of_dom. Qed.

(** An error no statement of a transaction reports is not the transaction's. *)
Lemma bind_not {A B} e (m : tx A) (f : A -> tx B) d :
  m d <> Err e -> (forall a d', m d = Ok (a, d') -> f a d' <> Err e) -> (m ≫= f) d <> Err e.
Proof. unfold mbind, tx_bind. destruct (m d) as [[a d']|x]; [auto|]. intros Hm _. congruence. Qed.

(** ** Statements *)

Lemma insert_session_ok op id s d u d' :
  insert_session op id s d = Ok (u, d') <->
  sessions (auth d) !! id = None /\ session_check s = true /\ us_user_id s ∈ users d /\
  (forall k q, sessions (auth d) !! k = Some q -> us_token_sha256 q <> us_token_sha256 s) /\
  d' = set_sessions (<[id := s]> (sessions (auth d))) d.
Proof.
  unfold insert_session. destruct u. split.
  - destruct (_ || _) eqn:E; [done|]. intros [= <-]. inv_res.
    rewrite <- eq_None_not_Some in *. split_and!; try done.
    intros k q Hq Heq. rewrite any_row_false in *.
    match goal with Ha : forall k a, sessions _ !! k = Some a -> _ |- _ => specialize (Ha _ _ Hq) end.
    by case_bool_decide.
  - intros (Hn & Hc & Hu & Ht & ->). rewrite Hn, Hc, (bool_decide_eq_true_2 (us_user_id s ∈ users d)) by done. simpl.
    rewrite (proj2 (any_row_false _ _)); [done|].
    intros k q Hq. apply bool_decide_eq_false. by apply (Ht k).
Qed.

Lemma update_sessions_ok op P f d u d' :
  update_sessions op P f d = Ok (u, d') <->
  (forall k s, sessions (auth d) !! k = Some s -> P k s = true -> session_check (f s) = true) /\
  d' = set_sessions (update_rows P f (sessions (auth d))) d.
Proof.
  unfold update_sessions. destruct u. split.
  - destruct (any_row _ _) eqn:E; [done|]. intros [= <-]. split; [|done].
    rewrite any_row_false in E. intros k s Hs HP. specialize (E _ _ Hs). rewrite HP in E.
    by apply negb_false_iff in E.
  - intros [Hc ->]. rewrite (proj2 (any_row_false _ _)); [done|].
    intros k s Hs. destruct (P k s) eqn:HP; [|done]. simpl. by rewrite (Hc _ _ Hs HP).
Qed.

Lemma text_param_ok op s d t d' :
  text_param op s d = Ok (t, d') -> t = s /\ d' = d.
Proof.
  unfold text_param. intros (Hs & ->)%lift_ok. apply of_option_ok in Hs.
  by apply text_in_same in Hs.
Qed.

Lemma text_param_null_ok op s d t d' :
  text_param_null op s d = Ok (t, d') -> t = s /\ d' = d.
Proof.
  unfold text_param_null. destruct s as [s|].
  - intros (x & d1 & Hx & Ht)%tx_bind_ok. apply text_param_ok in Hx as [-> ->].
    by apply mret_ok in Ht as [<- <-].
  - by intros [<- <-]%mret_ok.
Qed.

(** ** Rotation *)

(** The rows a rotation writes. *)
Definition rotated_row (value : Z) (token : string) (key : string) (s : session_row) : session_row :=
  SessionRow (us_session_family_id s) (us_user_id s) (sha256Bytes token) key value value
    (Z.min (value + pg_interval sessionIdleLifetime) (us_absolute_expires_at s))
    (us_absolute_expires_at s)
    (Z.min (value + pg_interval sessionRotationAge) (us_absolute_expires_at s)) None None None None.

Definition linked_row (now : Z) (next : string) (s : session_row) : session_row :=
  set_us_predecessor_valid_until
    (Some (Z.min (now + pg_interval predecessorGrace) (us_absolute_expires_at s)))
    (set_us_replaced_by_session_id (Some next) s).

Definition touched_row (clk : nat -> Z) (s : session_row) : session_row :=
  set_us_last_seen_at
    (if pg_interval idleTouchInterval <=? clk 0%nat - us_last_seen_at s
     then Z.min (clk 1%nat) (us_idle_expires_at s) else us_last_seen_at s) s.

Definition revoked_row (now : Z) (s : session_row) : session_row :=
  set_us_revocation_reason
    (if is_null (us_revoked_at s) then Some "logout" else us_revocation_reason s)
    (set_us_revoked_at (match us_revoked_at s with Some t => Some t | None => Some now end) s).

Definition only_row (id k : string) (_ : session_row) : bool := bool_decide (k = id).

(** The tables of sessions after [AuthenticateSession] found the row [s]. *)
Inductive authenticated (clk : nat -> Z) (rng : nat -> bytes) (key id : string) (s : session_row)
    m : gmap string session_row -> bool -> Prop :=
| auth_replaced next :
    us_replaced_by_session_id s = Some next -> authenticated clk rng key id s m m false
| auth_touched :
    us_replaced_by_session_id s = None -> clk 3%nat < us_rotate_after s ->
    session_check (touched_row (shift 4 clk) s) = true ->
    authenticated clk rng key id s m (<[id := touched_row (shift 4 clk) s]> m) false
| auth_rotated :
    us_replaced_by_session_id s = None -> us_rotate_after s <= clk 3%nat ->
    text_in key = Some key -> m !! newAuthUUID (rng 1%nat) = None ->
    session_check (rotated_row (clk 4%nat) (newOpaqueToken (rng 0%nat)) key s) = true ->
    session_check (linked_row (clk 5%nat) (newAuthUUID (rng 1%nat)) s) = true ->
    (forall k q, m !! k = Some q -> us_token_sha256 q <> sha256Bytes (newOpaqueToken (rng 0%nat))) ->
    authenticated clk rng key id s m
      (<[id := linked_row (clk 5%nat) (newAuthUUID (rng 1%nat)) s]>
         (<[newAuthUUID (rng 1%nat) :=
              rotated_row (clk 4%nat) (newOpaqueToken (rng 0%nat)) key s]> m)) true.

Lemma session_query_ok clk digest d id s u :
  session_query clk digest d = Some (id, s, u) ->
  sessions (auth d) !! id = Some s /\ session_live clk digest s = true /\
  user_rows d !! us_user_id s = Some u.
Proof.
  unfold session_query. intros H1.
  destruct (head _) as [[id' s']|] eqn:E; [|done]. simpl in H1.
  apply head_rows_where in E as [Hs Hl]. apply andb_true_iff in Hl as [Hl _].
  destruct (user_rows d !! us_user_id s') eqn:Eu; [|done]. simpl in H1. by simplify_eq.
Qed.

Lemma update_only_row f id m s :
  m !! id = Some s -> update_rows (only_row id) f m = <[id := f s]> m.
Proof.
  intros Hs. apply map_eq. intros k. rewrite lookup_update_rows. unfold only_row.
  case_bool_decide as E; [subst; by rewrite lookup_insert_eq, Hs|].
  rewrite lookup_insert_ne by done. by destruct (m !! k).
Qed.

Lemma set_sessions_same d : set_sessions (sessions (auth d)) d = d.
Proof. by destruct d as [? ? ? ? ? ? ? ? ? ? ? ? []]. Qed.

(** What [AuthenticateSession] returns for the row found. *)
Definition looked_up (token id : string) (s : session_row) (u : user_row) (email : string) : Session :=
  MkSession id (us_session_family_id s) token token
    (MkAuthUser (us_user_id s) (u_display_name u) email (u_default_time_zone_name u))
    (us_csrf_key_id s) "" "" (of_timestamptz (us_idle_expires_at s))
    (of_timestamptz (us_absolute_expires_at s)) false (is_null (us_replaced_by_session_id s)).

Definition rotation (clk : nat -> Z) (rng : nat -> bytes) (key : string) (s : session_row)
    (old : Session) : Session :=
  MkSession (newAuthUUID (rng 1%nat)) (ses_FamilyID old) (ses_PresentedToken old)
    (newOpaqueToken (rng 0%nat)) (ses_User old) key (ses_CSRFToken old)
    (ses_PresentedCSRFToken old)
    (of_timestamptz (Z.min (clk 4%nat + pg_interval sessionIdleLifetime) (us_absolute_expires_at s)))
    (of_timestamptz (us_absolute_expires_at s)) true true.

Definition answered (keys : HMACKeyRing) (s : Session) : Session :=
  set_csrf (CSRF keys (ses_Token s) (ses_CSRFKeyID s))
    (CSRF keys (ses_PresentedToken s) (ses_CSRFKeyID s)) s.

Definition session_answer (clk : nat -> Z) (rng : nat -> bytes) (keys : HMACKeyRing)
    (token id : string) (s : session_row) (u : user_row) (email : string) (rotated : bool) : Session :=
  let old := looked_up token id s u email in
  answered keys (if rotated then rotation clk rng (CurrentID keys) s old else old).

Lemma rotateSession_ok clk rng old key d r d' s :
  sessions (auth d) !! ses_ID old = Some s -> us_replaced_by_session_id s = None ->
  us_rotate_after s <= clk 3%nat ->
  rotateSession (shift 4 clk) rng old key d = Ok (r, d') ->
  exists m', authenticated clk rng key (ses_ID old) s (sessions (auth d)) m' true /\
    d' = set_sessions m' d /\ r = rotation clk rng key s old.
Proof.
  intros Hs Hr Hrot. unfold rotateSession. intros Hx. inv_tx.
  match goal with Hp : text_param _ _ _ = _ |- _ =>
    pose proof Hp as Hkey; apply text_param_ok in Hp as [-> ->] end.
  assert (Htext : text_in key = Some key).
  { unfold text_param in Hkey. apply lift_ok in Hkey as [Hkey _]. by apply of_option_ok in Hkey. }
  match goal with Hi : insert_session _ _ _ _ = _ |- _ =>
    apply insert_session_ok in Hi as (Hn & Hc & _ & Ht & ->) end.
  match goal with Hu : update_sessions _ _ _ _ = _ |- _ =>
    apply update_sessions_ok in Hu as [Hl ->] end.
  assert (Hne : ses_ID old <> newAuthUUID (rng 1%nat)) by congruence.
  assert (Hs' : <[newAuthUUID (rng 1%nat) := rotated_row (clk 4%nat) (newOpaqueToken (rng 0%nat)) key s]>
    (sessions (auth d)) !! ses_ID old = Some s) by by rewrite lookup_insert_ne.
  eexists. split; [|split].
  - apply auth_rotated; try done. eapply (Hl (ses_ID old)); [exact Hs'|].
    by apply bool_decide_eq_true.
  - by rewrite <- (update_only_row (linked_row (clk 5%nat) (newAuthUUID (rng 1%nat))) _ _ s Hs').
  - done.
Qed.

Lemma AuthenticateSession_ok clk rng keys token d r d' :
  AuthenticateSession clk rng keys token d = Ok (r, d') ->
  exists id s u m' rotated, validOpaqueToken token = true /\
    session_query clk (sha256Bytes token) d = Some (id, s, u) /\
    authenticated clk rng (CurrentID keys) id s (sessions (auth d)) m' rotated /\
    d' = set_sessions m' d /\
    r = session_answer clk rng keys token id s u (google_email (us_user_id s) d) rotated.
Proof.
  unfold AuthenticateSession. intros Hx.
  apply tx_bind_ok in Hx as ([] & d0 & (Hv & ->)%guard_ok & Hx). apply negb_false_iff in Hv.
  apply tx_bind_ok in Hx as ([[id s] u] & d0 & (Hq & ->)%find_row_ok & Hx).
  apply tx_bind_ok in Hx as (email & d0 & (-> & ->)%gets_ok & Hx).
  pose proof (session_query_ok _ _ _ _ _ _ Hq) as (Hs & _ & _).
  apply tx_bind_ok in Hx as (res & d1 & Hres & Hx).
  assert (exists m' rotated,
    authenticated clk rng (CurrentID keys) id s (sessions (auth d)) m' rotated /\
    d1 = set_sessions m' d /\
    res = let old := looked_up token id s u (google_email (us_user_id s) d) in
          if rotated then rotation clk rng (CurrentID keys) s old else old)
    as (m' & rotated & Ha & -> & ->).
  { destruct (us_replaced_by_session_id s) as [next|] eqn:Er; simpl in Hres.
    { apply mret_ok in Hres as [<- <-]. exists (sessions (auth d)), false.
      rewrite set_sessions_same. split_and!; [by eapply auth_replaced|done|].
      unfold looked_up. by rewrite Er. }
    apply tx_bind_ok in Hres as (rot & d2 & (-> & ->)%gets_ok & Hres).
    unfold sessionShouldRotate in Hres. rewrite Hs in Hres. destruct (_ <=? _) eqn:Hle.
    - apply Z.leb_le in Hle. eapply rotateSession_ok in Hres as (m' & Hm & -> & ->); try done.
      exists m', true. split_and!; try done.
    - apply Z.leb_gt in Hle. apply tx_bind_ok in Hres as ([] & d2 & Ht & Hres).
      apply mret_ok in Hres as [<- <-]. unfold touch_session in Ht.
      apply update_sessions_ok in Ht as [Hc ->].
      eexists _, false. split_and!.
      + apply auth_touched; try done. apply (Hc id); [done|]. by apply bool_decide_eq_true.
      + f_equal. by apply (update_only_row _ _ _ s Hs).
      + unfold looked_up. by rewrite Er. }
  apply tx_bind_ok in Hx as ([] & d2 & Hc & Hx). apply mret_ok in Hx as [<- <-].
  assert (d2 = set_sessions m' d) as ->.
  { unfold commit_session in Hc. repeat case_match; congruence. }
  exists id, s, u, m', rotated. split_and!; try done.
Qed.

Lemma Logout_ok clk session d u d' :
  Logout clk session d = Ok (u, d') <->
  ses_FamilyID session <> "" /\ exists family, uuid_in (ses_FamilyID session) = Some family /\
    (forall k s, sessions (auth d) !! k = Some s -> us_session_family_id s = family ->
       session_check (revoked_row (clk 0%nat) s) = true) /\
    d' = set_sessions (update_rows (fun _ s => bool_decide (us_session_family_id s = family))
           (revoked_row (clk 0%nat)) (sessions (auth d))) d.
Proof.
  unfold Logout. rewrite tx_bind_ok. setoid_rewrite tx_bind_ok. unfold uuid_param.
  setoid_rewrite guard_ok. setoid_rewrite lift_ok. setoid_rewrite of_option_ok.
  setoid_rewrite update_sessions_ok. setoid_rewrite bool_decide_eq_false. split.
  - intros (_ & ? & (Hn & ->) & family & ? & (Hf & ->) & Hc & ->). split; [done|].
    exists family. split_and!; try done. intros k s Hs Hfam. apply (Hc k); [done|].
    by apply bool_decide_eq_true.
  - intros (Hn & family & Hf & Hc & ->). exists tt, d. split; [done|]. exists family, d.
    split_and!; try done. intros k s Hs Hfam. apply (Hc k); [done|].
    by apply bool_decide_eq_true in Hfam.
Qed.

(** ** Tickets and nonces *)

Lemma insert_ticket_ok op id t d u d' :
  insert_ticket op id t d = Ok (u, d') ->
  tickets (auth d) !! id = None /\ ticket_check t = true /\
  (forall k q, tickets (auth d) !! k = Some q -> wt_token_sha256 q <> wt_token_sha256 t) /\
  d' = set_tickets (<[id := t]> (tickets (auth d))) d.
Proof.
  unfold insert_ticket. destruct (_ || _) eqn:E; [done|]. intros [= _ <-]. inv_res.
  rewrite <- eq_None_not_Some in *. split_and!; try done. intros k q Hq Heq.
  match goal with Ha : any_row _ _ = false |- _ => rewrite any_row_false in Ha;
    specialize (Ha _ _ Hq) end. by case_bool_decide.
Qed.

Lemma IssueWebSocketTicket_ok clk rng session d r d' :
  IssueWebSocketTicket clk rng session d = Ok (r, d') ->
  exists sid s t, ses_CanMintWebSocketTicket session = true /\
    sessions (auth d) !! sid = Some s /\
    ticket_session (clk 0%nat) (sha256Bytes (ses_Token session)) sid s = true /\
    t = TicketRow sid (us_user_id s) (sha256Bytes (tk_Token r)) (clk 0%nat)
          (clk 0%nat + pg_interval webSocketTicketLife) None /\
    (forall k q, tickets (auth d) !! k = Some q -> wt_token_sha256 q <> wt_token_sha256 t) /\
    tickets (auth d) !! newAuthUUID (rng 1%nat) = None /\
    d' = set_tickets (<[newAuthUUID (rng 1%nat) := t]> (tickets (auth d))) d.
Proof.
  unfold IssueWebSocketTicket. intros Hx.
  apply tx_bind_ok in Hx as ([] & d0 & (Hg & ->)%guard_ok & Hx). inv_res.
  apply tx_bind_ok in Hx as ([sid s] & d0 & (Hq & ->)%find_row_ok & Hx).
  apply head_rows_where in Hq as [Hs Hl].
  apply tx_bind_ok in Hx as ([] & d0 & Hi & Hx). apply mret_ok in Hx as [<- <-].
  apply insert_ticket_ok in Hi as (Hn & _ & Ht & ->).
  by exists sid, s, (TicketRow sid (us_user_id s) (sha256Bytes (newOpaqueToken (rng 0%nat)))
    (clk 0%nat) (clk 0%nat + pg_interval webSocketTicketLife) None); split_and!.
Qed.

Lemma consume_ticket_ok op clk digest d user d' :
  consume_ticket op clk digest d = Ok (user, d') ->
  exists tid t, tickets (auth d) !! tid = Some t /\
    ticket_live clk digest (sessions (auth d)) tid t = true /\ user = wt_user_id t /\
    d' = set_tickets (<[tid := set_wt_consumed_at (Some (clk 3%nat)) t]> (tickets (auth d))) d.
Proof.
  unfold consume_ticket. intros Hx.
  apply tx_bind_ok in Hx as ([tid t] & d0 & (Hq & ->)%find_row_ok & Hx).
  apply head_rows_where in Hq as [Ht Hl].
  apply tx_bind_ok in Hx as ([] & d0 & (_ & ->)%guard_ok & Hx).
  apply tx_bind_ok in Hx as ([] & d0 & ->%modify_ok & Hx). apply mret_ok in Hx as [<- <-].
  by exists tid, t.
Qed.

Lemma AuthenticateWebSocket_ok clk token d user d' :
  AuthenticateWebSocket clk token d = Ok (user, d') ->
  consume_ticket "consume websocket ticket" clk (sha256Bytes token) d = Ok (user, d').
Proof. unfold AuthenticateWebSocket. by intros ([] & d0 & (_ & ->)%guard_ok & Hx)%tx_bind_ok. Qed.

Lemma DevelopmentAuthenticate_ok clk token d user d' :
  DevelopmentAuthenticate clk token d = Ok (user, d') ->
  (d' = d /\ exists k t, dev_tokens (auth d) !! k = Some t /\
     dev_live (clk 0%nat) (sha256Bytes token) k t = true /\ user = dt_user_id t) \/
  consume_ticket "authenticate websocket ticket" (shift 1 clk) (sha256Bytes token) d = Ok (user, d').
Proof.
  unfold DevelopmentAuthenticate. intros ([] & d0 & (_ & ->)%guard_ok & Hx)%tx_bind_ok.
  apply tx_bind_ok in Hx as (row & d0 & (Hr & ->)%gets_ok & Hx).
  destruct row as [[k t]|]; [left|by right].
  symmetry in Hr. apply head_rows_where in Hr as [Ht Hl].
  apply tx_bind_ok in Hx as ([] & d0 & (_ & ->)%guard_ok & Hx). apply mret_ok in Hx as [<- <-].
  split; [done|]. by exists k, t.
Qed.

Lemma CreateLoginNonce_ok clk rng d r d' :
  CreateLoginNonce clk rng d = Ok (r, d') ->
  exists n, n_nonce_sha256 n = sha256Bytes (ln_Nonce r) /\
    (forall k q, nonces (auth d) !! k = Some q -> n_nonce_sha256 q <> n_nonce_sha256 n) /\
    nonces (auth d) !! newAuthUUID (rng 2%nat) = None /\
    d' = set_nonces (<[newAuthUUID (rng 2%nat) := n]> (nonces (auth d))) d.
Proof.
  unfold CreateLoginNonce. intros ([] & d0 & Hi & Hx)%tx_bind_ok. apply mret_ok in Hx as [<- <-].
  unfold insert_nonce in Hi. destruct (_ || _) eqn:E; [done|]. injection Hi as <-. inv_res.
  rewrite <- eq_None_not_Some in *.
  exists (NonceRow (sha256Bytes (newOpaqueToken (rng 0%nat))) (sha256Bytes (newOpaqueToken (rng 1%nat)))
    (clk 0%nat) (clk 0%nat + pg_interval oidcNonceLifetime) None).
  split; [done|split; [|by split]]. intros k q Hq.
  match goal with Ha : any_row _ _ = false |- _ => rewrite any_row_false in Ha;
    specialize (Ha _ _ Hq) end. by inv_res.
Qed.

(** ** Logins *)

(** Nothing but users and their external identities changes. *)
Record accounts_only (d d' : db) : Prop := {
  ao_sessions : sessions (auth d') = sessions (auth d);
  ao_tickets : tickets (auth d') = tickets (auth d);
  ao_nonces : nonces (auth d') = nonces (auth d);
  ao_dev_tokens : dev_tokens (auth d') = dev_tokens (auth d)
}.

Lemma accounts_only_trans d d1 d2 :
  accounts_only d d1 -> accounts_only d1 d2 -> accounts_only d d2.
Proof. intros [] []. constructor; congruence. Qed.

Lemma insert_identity_frame op id e d b d' :
  insert_identity op id e d = Ok (b, d') -> accounts_only d d'.
Proof. unfold insert_identity. intros Hx. repeat case_match; simplify_eq; by constructor. Qed.

Lemma update_identity_frame now identity email name d u d' :
  update_identity now identity email name d = Ok (u, d') -> accounts_only d d'.
Proof. unfold update_identity. intros Hx. case_match; simplify_eq. by constructor. Qed.

Lemma upsert_frame fuel race clk rng n identity zone d user d' :
  (forall n d, accounts_only d (race n d)) ->
  upsertExternalIdentity fuel race clk rng n identity zone d = Ok (user, d') ->
  accounts_only d d'.
Proof.
  intros Hrace. revert n d. induction fuel as [|fuel IH]; intros n d; [done|].
  cbn [upsertExternalIdentity]. intros (row & d0 & (-> & ->)%gets_ok & Hx)%tx_bind_ok.
  destruct (google_row identity d) as [[[k e] u]|].
  - apply tx_bind_ok in Hx as (email & d0 & (_ & ->)%text_param_null_ok & Hx).
    apply tx_bind_ok in Hx as (name & d0 & (_ & ->)%text_param_ok & Hx).
    apply tx_bind_ok in Hx as ([] & d0 & Hu%update_identity_frame & Hx).
    by apply mret_ok in Hx as [_ <-].
  - apply tx_bind_ok in Hx as (name & d0 & (_ & ->)%text_param_ok & Hx).
    apply tx_bind_ok in Hx as (z & d0 & (_ & ->)%text_param_ok & Hx).
    apply tx_bind_ok in Hx as ([] & d1 & Hi & Hx).
    assert (accounts_only d d1) as H1.
    { unfold insert_user in Hi. case_match; simplify_eq. by constructor. }
    apply tx_bind_ok in Hx as ([] & d2 & ->%modify_ok & Hx).
    apply tx_bind_ok in Hx as (subject & d0 & (_ & ->)%text_param_ok & Hx).
    apply tx_bind_ok in Hx as (email & d0 & (_ & ->)%text_param_null_ok & Hx).
    apply tx_bind_ok in Hx as (inserted & d3 & Hid%insert_identity_frame & Hx).
    pose proof (accounts_only_trans _ _ _ (accounts_only_trans _ _ _ H1 (Hrace n d1)) Hid) as H3.
    destruct inserted; [by apply mret_ok in Hx as [_ <-]|].
    apply tx_bind_ok in Hx as ([] & d4 & ->%modify_ok & Hx). apply IH in Hx.
    eapply accounts_only_trans; [exact H3|]. by destruct Hx; constructor.
Qed.

(** The row of a new login. *)
Definition login_row (value : Z) (rng : nat -> bytes) (user : AuthUser) (key : string) : session_row :=
  SessionRow (newAuthUUID (rng 1%nat)) (au_ID user) (sha256Bytes (newOpaqueToken (rng 0%nat))) key
    value value (value + pg_interval sessionIdleLifetime) (value + pg_interval sessionAbsoluteLife)
    (value + pg_interval sessionRotationAge) None None None None.

Definition login_session (value : Z) (rng : nat -> bytes) (user : AuthUser) (key : string) : Session :=
  MkSession (newAuthUUID (rng 2%nat)) (newAuthUUID (rng 1%nat)) (newOpaqueToken (rng 0%nat))
    (newOpaqueToken (rng 0%nat)) user key "" "" (of_timestamptz (value + pg_interval sessionIdleLifetime))
    (of_timestamptz (value + pg_interval sessionAbsoluteLife)) false true.

Record logged_in (clk : nat -> Z) (rng : nat -> bytes) (keys : HMACKeyRing) (nonce : string)
    (user : AuthUser) (r : Session) (d d' : db) : Prop := {
  lg_nonce : exists k n, nonces (auth d) !! k = Some n /\ n_consumed_at n = None /\
    n_nonce_sha256 n = sha256Bytes nonce /\
    nonces (auth d') = <[k := set_n_consumed_at (Some (clk 1%nat)) n]> (nonces (auth d));
  lg_result : r = set_csrf (CSRF keys (newOpaqueToken (rng 0%nat)) (CurrentID keys)) ""
                    (login_session (clk 2%nat) rng user (CurrentID keys));
  lg_fresh : sessions (auth d) !! newAuthUUID (rng 2%nat) = None;
  lg_token : forall k q, sessions (auth d) !! k = Some q ->
    us_token_sha256 q <> sha256Bytes (newOpaqueToken (rng 0%nat));
  lg_check : session_check (login_row (clk 2%nat) rng user (CurrentID keys)) = true;
  lg_user : au_ID user ∈ users d';
  lg_sessions : sessions (auth d') =
    <[newAuthUUID (rng 2%nat) := login_row (clk 2%nat) rng user (CurrentID keys)]>
      (sessions (auth d));
  lg_tickets : tickets (auth d') = tickets (auth d)
}.

Lemma CreateSessionForGoogle_ok race clk rng keys nonce binding identity zone d r d' :
  (forall n d, accounts_only d (race n d)) ->
  CreateSessionForGoogle race clk rng keys nonce binding identity zone d = Ok (r, d') ->
  exists user, logged_in clk rng keys nonce user r d d'.
Proof.
  intros Hrace. unfold CreateSessionForGoogle. intros ([] & d0 & (_ & ->)%guard_ok & Hx)%tx_bind_ok.
  apply tx_bind_ok in Hx as ([k n] & d0 & (Hq & ->)%find_row_ok & Hx).
  apply head_rows_where in Hq as [Hn Hl]. unfold nonce_live in Hl. inv_res.
  apply tx_bind_ok in Hx as ([] & d1 & Hc & Hx). unfold consume_nonce in Hc. simpl in Hc.
  rewrite Hn in Hc. case_match; [|done]. injection Hc as <-.
  apply tx_bind_ok in Hx as (user & d2 & Hu%(upsert_frame _ _ _ _ _ _ _ _ _ _ Hrace) & Hx).
  apply tx_bind_ok in Hx as (res & d3 & Hi & Hx). apply mret_ok in Hx as [<- <-].
  unfold insertSession in Hi.
  apply tx_bind_ok in Hi as (key & d4 & (-> & ->)%text_param_ok & Hi).
  apply tx_bind_ok in Hi as ([] & d4 & Hs & Hi). apply mret_ok in Hi as [<- <-].
  apply insert_session_ok in Hs as (Hfresh & Hck & Huser & Htok & ->).
  destruct Hu as [Hs Ht Hno Hdv]. simpl in *. rewrite Hs in *.
  exists user. constructor; try done.
  exists k, n. simpl. split_and!; try done. by destruct (n_consumed_at n).
Qed.

(** ** The invariant *)

(** The columns of a session no operation changes, and the marks none takes back. *)
Record session_kept (s s' : session_row) : Prop := {
  kept_family : us_session_family_id s' = us_session_family_id s;
  kept_user : us_user_id s' = us_user_id s;
  kept_token : us_token_sha256 s' = us_token_sha256 s;
  kept_key : us_csrf_key_id s' = us_csrf_key_id s;
  kept_created : us_created_at s' = us_created_at s;
  kept_idle : us_idle_expires_at s' = us_idle_expires_at s;
  kept_absolute : us_absolute_expires_at s' = us_absolute_expires_at s;
  kept_rotate : us_rotate_after s' = us_rotate_after s;
  kept_replaced : forall next, us_replaced_by_session_id s = Some next ->
    us_replaced_by_session_id s' = Some next /\
    us_predecessor_valid_until s' = us_predecessor_valid_until s;
  kept_revoked : forall t, us_revoked_at s = Some t -> us_revoked_at s' = Some t
}.

#[local] Instance session_kept_refl : Reflexive session_kept.
Proof. by intros s; constructor. Qed.

#[local] Instance session_kept_trans : Transitive session_kept.
Proof.
  intros s s1 s2 [] []. constructor; try congruence; [|naive_solver].
  intros next [Hn Hp]%kept_replaced0. apply kept_replaced1 in Hn as [Hn Hp']. split; congruence.
Qed.

Lemma touched_kept clk s : session_kept s (touched_row clk s).
Proof. by constructor. Qed.

Lemma linked_kept now next s :
  us_replaced_by_session_id s = None -> session_kept s (linked_row now next s).
Proof. intros Hr. constructor; try done. intros x Hx. congruence. Qed.

Lemma revoked_kept now s : session_kept s (revoked_row now s).
Proof. constructor; try done. intros t Ht. unfold revoked_row. simpl. by rewrite Ht. Qed.

(** What holds of the sessions. *)
Record sessions_inv m : Prop := {
  si_check : forall k s, m !! k = Some s -> session_check s = true;
  si_token : forall k k' s s', m !! k = Some s -> m !! k' = Some s' ->
    us_token_sha256 s = us_token_sha256 s' -> k = k';
  si_family : forall k k' s s', m !! k = Some s -> m !! k' = Some s' ->
    us_session_family_id s = us_session_family_id s' ->
    us_user_id s = us_user_id s' /\ us_absolute_expires_at s = us_absolute_expires_at s' /\
    is_null (us_revoked_at s) = is_null (us_revoked_at s');
  si_current : forall k k' s s', m !! k = Some s -> m !! k' = Some s' ->
    us_session_family_id s = us_session_family_id s' ->
    us_replaced_by_session_id s = None -> us_replaced_by_session_id s' = None -> k = k';
  si_successor : forall k s, m !! k = Some s -> successor_exists s m = true
}.

(** The rows that stay, when each is kept up to [session_kept]. *)
Definition rows_kept m m' : Prop := forall k s, m !! k = Some s ->
  exists s', m' !! k = Some s' /\ session_kept s s'.

Lemma successor_kept s s' m m' :
  session_kept s s' -> rows_kept m m' -> us_replaced_by_session_id s' = us_replaced_by_session_id s ->
  successor_exists s m = true -> successor_exists s' m' = true.
Proof.
  intros Hk Hm Hr. unfold successor_exists. rewrite Hr.
  destruct (us_replaced_by_session_id s) as [next|]; [|done].
  destruct (m !! next) as [q|] eqn:Eq; [|done]. destruct (Hm _ _ Eq) as (q' & -> & Hq).
  intros Hx. inv_res. destruct Hk, Hq. apply andb_true_intro. split; apply bool_decide_eq_true; congruence.
Qed.

(** Updates in place. *)
Lemma inv_update (g : string -> session_row -> session_row) m m' :
  sessions_inv m -> (forall k, m' !! k = g k <$> m !! k) ->
  (forall k s, m !! k = Some s -> session_check (g k s) = true /\ session_kept s (g k s) /\
     us_replaced_by_session_id (g k s) = us_replaced_by_session_id s) ->
  (forall k k' s s', m !! k = Some s -> m !! k' = Some s' ->
     us_session_family_id s = us_session_family_id s' ->
     is_null (us_revoked_at (g k s)) = is_null (us_revoked_at (g k' s'))) ->
  sessions_inv m' /\ rows_kept m m'.
Proof.
  intros [Hck Htok Hfam Hcur Hsuc] Hm Hg Hrev.
  assert (Hinv : forall k s', m' !! k = Some s' -> exists s, m !! k = Some s /\ s' = g k s).
  { intros k s'. rewrite Hm, fmap_Some. naive_solver. }
  assert (Hkept : rows_kept m m').
  { intros k s Hs. exists (g k s). rewrite Hm, Hs. split; [done|]. by apply Hg. }
  split; [|done]. constructor.
  - intros k ? (s & Hs & ->)%Hinv. by apply Hg.
  - intros k k' ? ? (s & Hs & ->)%Hinv (s' & Hs' & ->)%Hinv.
    destruct (Hg _ _ Hs) as (_ & [] & _), (Hg _ _ Hs') as (_ & [] & _).
    intros Heq. eapply Htok; [exact Hs|exact Hs'|congruence].
  - intros k k' ? ? (s & Hs & ->)%Hinv (s' & Hs' & ->)%Hinv.
    destruct (Hg _ _ Hs) as (_ & [] & _), (Hg _ _ Hs') as (_ & [] & _). intros Heq.
    destruct (Hfam _ _ _ _ Hs Hs') as (? & ? & _); [congruence|].
    split_and!; [congruence|congruence|]. eapply Hrev; [done..|congruence].
  - intros k k' ? ? (s & Hs & ->)%Hinv (s' & Hs' & ->)%Hinv.
    destruct (Hg _ _ Hs) as (_ & [] & ->), (Hg _ _ Hs') as (_ & [] & ->). intros Heq Hn Hn'.
    eapply Hcur; [exact Hs|exact Hs'|congruence..].
  - intros k ? (s & Hs & ->)%Hinv. destruct (Hg _ _ Hs) as (_ & Hk & Hr).
    eapply successor_kept; eauto.
Qed.

(** A new family. *)
Lemma inv_login id s m :
  sessions_inv m -> m !! id = None -> session_check s = true ->
  us_replaced_by_session_id s = None ->
  (forall k q, m !! k = Some q -> us_token_sha256 q <> us_token_sha256 s) ->
  (forall k q, m !! k = Some q -> us_session_family_id q <> us_session_family_id s) ->
  sessions_inv (<[id := s]> m) /\ rows_kept m (<[id := s]> m).
Proof.
  intros [Hck Htok Hfam Hcur Hsuc] Hn Hc Hr Ht Hf.
  assert (Hkept : rows_kept m (<[id := s]> m)).
  { intros k q Hq. exists q. split; [|done]. rewrite lookup_insert_ne; congruence. }
  split; [|done]. constructor.
  - intros k q [[_ <-]|[_ Hq]]%lookup_insert_Some; eauto.
  - intros k k' q q' [[<- <-]|[_ Hq]]%lookup_insert_Some [[<- <-]|[_ Hq']]%lookup_insert_Some Heq;
      try done; [by destruct (Ht _ _ Hq')|by destruct (Ht _ _ Hq)|eauto].
  - intros k k' q q' [[<- <-]|[_ Hq]]%lookup_insert_Some [[<- <-]|[_ Hq']]%lookup_insert_Some Heq;
      try done; [by destruct (Hf _ _ Hq')|by destruct (Hf _ _ Hq)|eauto].
  - intros k k' q q' [[<- <-]|[_ Hq]]%lookup_insert_Some [[<- <-]|[_ Hq']]%lookup_insert_Some Heq;
      try done; [by destruct (Hf _ _ Hq')|by destruct (Hf _ _ Hq)|eauto].
  - intros k q [[_ <-]|[_ Hq]]%lookup_insert_Some; [unfold successor_exists; by rewrite Hr|].
    eapply successor_kept; [reflexivity|exact Hkept|done|eauto].
Qed.

(** A rotation: the successor joins the family, the predecessor leaves its head. *)
Section Rotation.
Context (id new : string) (s q : session_row) (now : Z) m.
Hypothesis (Hs : m !! id = Some s) (Hn : m !! new = None)
  (Hr : us_replaced_by_session_id s = None) (Hrv : us_revoked_at s = None)
  (Hfq : us_session_family_id q = us_session_family_id s) (Huq : us_user_id q = us_user_id s)
  (Haq : us_absolute_expires_at q = us_absolute_expires_at s) (Hvq : us_revoked_at q = None)
  (Hrq : us_replaced_by_session_id q = None) (Hcq : session_check q = true)
  (Hcl : session_check (linked_row now new s) = true)
  (Ht : forall k x, m !! k = Some x -> us_token_sha256 x <> us_token_sha256 q).

Let m' := <[id := linked_row now new s]> (<[new := q]> m).

(** A row is the new one, the linked one or an old one. *)
Lemma rotated_cases k x : m' !! k = Some x ->
  (k = new /\ x = q) \/
  exists y, m !! k = Some y /\ session_kept y x /\
    (us_replaced_by_session_id x = None -> x = y /\ k <> id).
Proof.
  subst m'. intros [[<- <-]|[Hk [[<- <-]|[Hk' Hx]]%lookup_insert_Some]]%lookup_insert_Some.
  - right. exists s. split_and!; [done|by apply linked_kept|done].
  - by left.
  - right. by exists x.
Qed.

Lemma rotated_rows_kept : rows_kept m m'.
Proof.
  subst m'. intros k x Hx. destruct (decide (k = id)) as [->|Hk].
  - exists (linked_row now new s). rewrite lookup_insert_eq. split; [done|].
    assert (x = s) as -> by congruence. by apply linked_kept.
  - exists x. rewrite !lookup_insert_ne by congruence. done.
Qed.

Lemma rotated_revoked k x : m' !! k = Some x -> k <> new ->
  exists y, m !! k = Some y /\ us_revoked_at x = us_revoked_at y.
Proof.
  subst m'. intros [[<- <-]|[Hk [[<- <-]|[Hk' Hx]]%lookup_insert_Some]]%lookup_insert_Some Hne;
    [by exists s|done|by exists x].
Qed.

(** Each row has a representative of before the rotation in its family. *)
Lemma rotated_family k x : sessions_inv m -> m' !! k = Some x ->
  exists k0 y, m !! k0 = Some y /\ us_session_family_id x = us_session_family_id y /\
    us_user_id x = us_user_id y /\ us_absolute_expires_at x = us_absolute_expires_at y /\
    us_revoked_at x = us_revoked_at y.
Proof.
  intros Hinv Hx. destruct (decide (k = new)) as [->|Hne].
  - exists id, s. destruct (rotated_cases _ _ Hx) as [(_ & ->)|(y & Hy & _)]; [|congruence].
    split_and!; congruence.
  - destruct (rotated_revoked _ _ Hx Hne) as (y & Hy & Hrx).
    destruct (rotated_cases _ _ Hx) as [(-> & _)|(y' & Hy' & [] & _)]; [done|].
    assert (y' = y) as -> by congruence. by exists k, y.
Qed.

Lemma rotated_head k x : sessions_inv m -> m' !! k = Some x ->
  us_session_family_id x = us_session_family_id s -> us_replaced_by_session_id x = None -> k = new.
Proof.
  intros Hinv Hx Hf Hrx. destruct (rotated_cases _ _ Hx) as [(-> & _)|(y & Hy & Hk & Hy2)]; [done|].
  destruct (Hy2 Hrx) as [-> Hne]. destruct Hne. by eapply (si_current _ Hinv).
Qed.

Lemma inv_rotate : sessions_inv m -> sessions_inv m' /\ rows_kept m m'.
Proof.
  intros Hinv. split; [|apply rotated_rows_kept]. constructor.
  - subst m'. intros k x [[_ <-]|[_ [[_ <-]|[_ Hx]]%lookup_insert_Some]]%lookup_insert_Some;
      [done|done|by apply (si_check _ Hinv) in Hx].
  - intros k k' x x' Hx Hx' Heq.
    destruct (rotated_cases _ _ Hx) as [(-> & ->)|(y & Hy & [] & _)],
             (rotated_cases _ _ Hx') as [(-> & ->)|(y' & Hy' & [] & _)]; [done| | |].
    + destruct (Ht _ _ Hy'). congruence.
    + destruct (Ht _ _ Hy). congruence.
    + eapply (si_token _ Hinv); [exact Hy|exact Hy'|congruence].
  - intros k k' x x' Hx Hx' Heq.
    destruct (rotated_family _ _ Hinv Hx) as (k0 & y & Hy & Hf & -> & -> & ->).
    destruct (rotated_family _ _ Hinv Hx') as (k0' & y' & Hy' & Hf' & -> & -> & ->).
    eapply (si_family _ Hinv); [exact Hy|exact Hy'|congruence].
  - intros k k' x x' Hx Hx' Heq Hrx Hrx'.
    destruct (decide (us_session_family_id x = us_session_family_id s)) as [Hf|Hf].
    + rewrite (rotated_head k x), (rotated_head k' x') by congruence. done.
    + destruct (rotated_cases _ _ Hx) as [(_ & ->)|(y & Hy & _ & Hy2)]; [done|].
      destruct (rotated_cases _ _ Hx') as [(_ & ->)|(y' & Hy' & _ & Hy2')]; [congruence|].
      destruct (Hy2 Hrx) as [-> _], (Hy2' Hrx') as [-> _]. by eapply (si_current _ Hinv).
  - intros k x Hx. pose proof rotated_rows_kept as Hkept. subst m'.
    apply lookup_insert_Some in Hx as [[<- <-]|[_ [[<- <-]|[_ Hx]]%lookup_insert_Some]].
    + unfold successor_exists. simpl. rewrite lookup_insert_ne, lookup_insert_eq by congruence.
      by rewrite !bool_decide_eq_true_2.
    + unfold successor_exists. by rewrite Hrq.
    + eapply successor_kept; [reflexivity|exact Hkept|done|]. by eapply (si_successor _ Hinv).
Qed.
End Rotation.
(** ** The transition system *)

(** The steps of the account tables: every operation of the two stores, and
    anything else the backend does, which leaves these tables alone.  A login
    draws a family identifier no session has; the database does not check this
    one. *)
Inductive session_step : db -> db -> Prop :=
| st_nonce clk rng r d d' :
    CreateLoginNonce clk rng d = Ok (r, d') -> session_step d d'
| st_login race clk rng keys nonce binding identity zone r d d' :
    (forall n d, accounts_only d (race n d)) ->
    (forall k s, sessions (auth d) !! k = Some s -> us_session_family_id s <> newAuthUUID (rng 1%nat)) ->
    CreateSessionForGoogle race clk rng keys nonce binding identity zone d = Ok (r, d') ->
    session_step d d'
| st_authenticate clk rng keys token r d d' :
    AuthenticateSession clk rng keys token d = Ok (r, d') -> session_step d d'
| st_ticket clk rng session r d d' :
    IssueWebSocketTicket clk rng session d = Ok (r, d') -> session_step d d'
| st_websocket clk token r d d' :
    AuthenticateWebSocket clk token d = Ok (r, d') -> session_step d d'
| st_development clk token r d d' :
    DevelopmentAuthenticate clk token d = Ok (r, d') -> session_step d d'
| st_logout clk session u d d' :
    Logout clk session d = Ok (u, d') -> session_step d d'
| st_other d d' : auth d' = auth d -> session_step d d'.

(** The tables of accounts: the sessions, and that a ticket and a nonce have one
    row each. *)
Record auth_inv (d : db) : Prop := {
  av_sessions : sessions_inv (sessions (auth d));
  av_tickets : forall k k' t t', tickets (auth d) !! k = Some t -> tickets (auth d) !! k' = Some t' ->
    wt_token_sha256 t = wt_token_sha256 t' -> k = k';
  av_nonces : forall k k' n n', nonces (auth d) !! k = Some n -> nonces (auth d) !! k' = Some n' ->
    n_nonce_sha256 n = n_nonce_sha256 n' -> k = k'
}.

(** What a step keeps of tickets and nonces: rows stay, what was used stays used. *)
Definition tickets_kept (m m' : gmap string ticket_row) : Prop := forall k t, m !! k = Some t ->
  exists t', m' !! k = Some t' /\ wt_session_id t' = wt_session_id t /\
    wt_token_sha256 t' = wt_token_sha256 t /\ wt_user_id t' = wt_user_id t /\
    wt_expires_at t' = wt_expires_at t /\
    (is_null (wt_consumed_at t) = false -> is_null (wt_consumed_at t') = false).
Definition nonces_kept (m m' : gmap string nonce_row) : Prop := forall k n, m !! k = Some n ->
  exists n', m' !! k = Some n' /\ n_nonce_sha256 n' = n_nonce_sha256 n /\
    (is_null (n_consumed_at n) = false -> is_null (n_consumed_at n') = false).

Record auth_kept (d d' : db) : Prop := {
  ak_sessions : rows_kept (sessions (auth d)) (sessions (auth d'));
  ak_tickets : tickets_kept (tickets (auth d)) (tickets (auth d'));
  ak_nonces : nonces_kept (nonces (auth d)) (nonces (auth d'))
}.

Lemma rows_kept_refl m : rows_kept m m.
Proof. intros k s Hs. by exists s. Qed.
Lemma tickets_kept_refl (m : gmap string ticket_row) : tickets_kept m m.
Proof. intros k s Hs. by exists s. Qed.
Lemma nonces_kept_refl (m : gmap string nonce_row) : nonces_kept m m.
Proof. intros k s Hs. by exists s. Qed.
#[local] Hint Resolve rows_kept_refl tickets_kept_refl nonces_kept_refl : core.

(** One more row of a table with a unique column. *)
Lemma unique_insert {A C} (c : A -> C) (m : gmap string A) id a :
  (forall k k' x y, m !! k = Some x -> m !! k' = Some y -> c x = c y -> k = k') ->
  (forall k x, m !! k = Some x -> c x <> c a) ->
  forall k k' x y, <[id := a]> m !! k = Some x -> <[id := a]> m !! k' = Some y -> c x = c y -> k = k'.
Proof.
  intros Hu Hf k k' x y [[<- <-]|[_ Hx]]%lookup_insert_Some [[<- <-]|[_ Hy]]%lookup_insert_Some Heq;
    [done|by destruct (Hf _ _ Hy)|by destruct (Hf _ _ Hx)|eauto].
Qed.

(** A row whose unique column stays. *)
Lemma unique_update {A C} (c : A -> C) (m : gmap string A) id a b :
  m !! id = Some a -> c b = c a ->
  (forall k k' x y, m !! k = Some x -> m !! k' = Some y -> c x = c y -> k = k') ->
  forall k k' x y, <[id := b]> m !! k = Some x -> <[id := b]> m !! k' = Some y -> c x = c y -> k = k'.
Proof.
  intros Ha Hb Hu k k' x y [[<- <-]|[_ Hx]]%lookup_insert_Some [[<- <-]|[_ Hy]]%lookup_insert_Some Heq;
    [done|eapply Hu; [exact Ha|exact Hy|congruence]|eapply Hu; [exact Hx|exact Ha|congruence]|eauto].
Qed.

Lemma tickets_kept_insert (m : gmap string ticket_row) id t :
  m !! id = None -> tickets_kept m (<[id := t]> m).
Proof. intros Hn k x Hx. exists x. rewrite lookup_insert_ne; [done|congruence]. Qed.

Lemma nonces_kept_insert (m : gmap string nonce_row) id n :
  m !! id = None -> nonces_kept m (<[id := n]> m).
Proof. intros Hn k x Hx. exists x. rewrite lookup_insert_ne; [done|congruence]. Qed.

Lemma tickets_kept_consume (m : gmap string ticket_row) id t now :
  m !! id = Some t -> tickets_kept m (<[id := set_wt_consumed_at (Some now) t]> m).
Proof.
  intros Ht k x Hx. destruct (decide (k = id)) as [->|Hk].
  - assert (x = t) as -> by congruence. rewrite lookup_insert_eq. by eexists.
  - exists x. by rewrite lookup_insert_ne.
Qed.

Lemma nonces_kept_consume (m : gmap string nonce_row) id n now :
  m !! id = Some n -> nonces_kept m (<[id := set_n_consumed_at (Some now) n]> m).
Proof.
  intros Ht k x Hx. destruct (decide (k = id)) as [->|Hk].
  - assert (x = n) as -> by congruence. rewrite lookup_insert_eq. by eexists.
  - exists x. by rewrite lookup_insert_ne.
Qed.

Lemma authenticated_inv clk rng key id s digest m m' rotated :
  sessions_inv m -> m !! id = Some s -> session_live clk digest s = true ->
  authenticated clk rng key id s m m' rotated -> sessions_inv m' /\ rows_kept m m'.
Proof.
  intros Hinv Hs Hl [next Hr|Hr Hlt Hc|Hr Hle Htx Hn Hcq Hcl Ht]; [by split| |].
  - eapply (inv_update (fun k x => if bool_decide (k = id) then touched_row (shift 4 clk) x else x)).
    + done.
    + intros k. destruct (decide (k = id)) as [->|Hk].
      * by rewrite lookup_insert_eq, Hs, bool_decide_eq_true_2.
      * rewrite lookup_insert_ne, bool_decide_eq_false_2 by done. by destruct (m !! k).
    + intros k x Hx. case_bool_decide as Hk; [subst k|].
      * assert (x = s) as -> by congruence. split_and!; [done|apply touched_kept|done].
      * split_and!; [by apply (si_check _ Hinv) in Hx|done|done].
    + intros k k' x x' Hx Hx' Hf. destruct (si_family _ Hinv _ _ _ _ Hx Hx' Hf) as (_ & _ & Hrv).
      by repeat case_bool_decide.
  - unfold session_live in Hl. inv_res. destruct (us_revoked_at s) eqn:Hrv; [done|].
    by apply inv_rotate.
Qed.

Lemma logout_inv family now m :
  sessions_inv m ->
  (forall k s, m !! k = Some s -> us_session_family_id s = family ->
     session_check (revoked_row now s) = true) ->
  let m' := update_rows (fun _ s => bool_decide (us_session_family_id s = family)) (revoked_row now) m in
  sessions_inv m' /\ rows_kept m m'.
Proof.
  intros Hinv Hc m'.
  apply (inv_update (fun _ s => if bool_decide (us_session_family_id s = family)
                                then revoked_row now s else s)); [done| | |].
  - intros k. apply lookup_update_rows.
  - intros k s Hs. case_bool_decide as Hf.
    + split_and!; [by eapply Hc|apply revoked_kept|done].
    + split_and!; [by eapply (si_check _ Hinv)|done|done].
  - intros k k' s s' Hs Hs' Hf. destruct (si_family _ Hinv _ _ _ _ Hs Hs' Hf) as (_ & _ & Hrv).
    rewrite Hf. case_bool_decide; [|done]. unfold revoked_row. simpl.
    by destruct (us_revoked_at s), (us_revoked_at s').
Qed.

Lemma consume_ticket_inv op clk digest d user d' :
  auth_inv d -> consume_ticket op clk digest d = Ok (user, d') -> auth_inv d' /\ auth_kept d d'.
Proof.
  intros [Hs Ht Hn] (tid & t & Htid & Hl & -> & ->)%consume_ticket_ok. split.
  - constructor; simpl; [done| |done]. by eapply unique_update.
  - constructor; simpl; auto. by apply tickets_kept_consume.
Qed.

Lemma session_step_inv d d' : auth_inv d -> session_step d d' -> auth_inv d' /\ auth_kept d d'.
Proof.
  intros Hinv Hstep. pose proof Hinv as [Hs Ht Hn]. destruct Hstep as
    [clk rng r d d' Hop|race clk rng keys nonce binding identity zone r d d' Hrace Hfam Hop
    |clk rng keys token r d d' Hop|clk rng session r d d' Hop|clk token r d d' Hop
    |clk token r d d' Hop|clk session u d d' Hop|d d' Heq].
  - apply CreateLoginNonce_ok in Hop as (n & Hsha & Hfresh & Hnone & ->). split; constructor; simpl; auto.
    + by apply unique_insert.
    + by apply nonces_kept_insert.
  - apply CreateSessionForGoogle_ok in Hop as (user & Hlog); [|done].
    destruct Hlog as [(k & n & Hk & Hcons & Hsha & Hno) _ Hf Htok Hck _ Hse Hti].
    edestruct (inv_login (newAuthUUID (rng 2%nat))) as [Hi Hkp]; try done.
    split; constructor; rewrite ?Hse, ?Hti, ?Hno; auto; [by eapply unique_update|by apply nonces_kept_consume].
  - apply AuthenticateSession_ok in Hop as (id & s & u & m' & rot & _ & Hq & Ha & -> & _).
    apply session_query_ok in Hq as (Hid & Hl & _).
    destruct (authenticated_inv _ _ _ _ _ _ _ _ _ Hs Hid Hl Ha). split; constructor; auto.
  - apply IssueWebSocketTicket_ok in Hop as (sid & s & t & _ & _ & _ & _ & Hfresh & Hnone & ->).
    split; constructor; simpl; auto; [by apply unique_insert|by apply tickets_kept_insert].
  - apply AuthenticateWebSocket_ok in Hop. by eapply consume_ticket_inv.
  - apply DevelopmentAuthenticate_ok in Hop as [[-> _]|Hop]; [by split; [|constructor]|].
    by eapply consume_ticket_inv.
  - apply Logout_ok in Hop as (_ & family & _ & Hc & ->).
    destruct (logout_inv family _ _ Hs Hc). split; constructor; auto.
  - split; constructor; rewrite ?Heq; auto.
Qed.

Lemma auth_kept_refl d : auth_kept d d.
Proof. by constructor. Qed.

Lemma auth_kept_trans d d1 d2 : auth_kept d d1 -> auth_kept d1 d2 -> auth_kept d d2.
Proof.
  intros [Hs Ht Hn] [Hs' Ht' Hn']. constructor.
  - intros k s Hk. apply Hs in Hk as (s1 & Hk1 & Hkp). apply Hs' in Hk1 as (s2 & Hk2 & Hkp').
    exists s2. split; [done|]. by transitivity s1.
  - intros k t Hk. apply Ht in Hk as (t1 & Hk1 & Hi & Hsha & Hu & He & Hc).
    apply Ht' in Hk1 as (t2 & Hk2 & Hi' & Hsha' & Hu' & He' & Hc'). exists t2. split_and!; [done|congruence..|auto].
  - intros k n Hk. apply Hn in Hk as (n1 & Hk1 & Hsha & Hc).
    apply Hn' in Hk1 as (n2 & Hk2 & Hsha' & Hc'). exists n2. split_and!; [done|congruence..|auto].
Qed.

Lemma session_steps_inv d d' : auth_inv d -> rtc session_step d d' -> auth_inv d' /\ auth_kept d d'.
Proof.
  intros Hinv Hsteps. induction Hsteps as [d|d d1 d2 Hstep _ IH]; [by split; [|apply auth_kept_refl]|].
  destruct (session_step_inv _ _ Hinv Hstep) as [Hinv1 Hk1]. destruct (IH Hinv1) as [Hinv2 Hk2].
  split; [done|]. by eapply auth_kept_trans.
Qed.

Lemma auth_inv_empty d : auth d = no_auth -> auth_inv d.
Proof. intros Heq. constructor; rewrite Heq; [constructor|..]; by intros. Qed.
End Facts.
