(* ===== verification/SessionProps.v ===== *)
(** * Sessions: what the operations guarantee

    Logout is final, tickets and nonces are used once, a family keeps its user
    and its absolute lifetime, a rotation hands the family over to one successor,
    a login's token authenticates, CSRF verification is exact, and a login that
    loses a race ends in the second round. *)

From S2P Require Import Prelude GoLib Schema Tables Leases GoText SavedTables Opaque Sessions SessionFacts.

Section Props.
Context {PG : Postgres} `{!PostgresLaws PG} `{TimeZones}.

(** ** Lookups *)

Lemma session_query_none clk digest d :
  (forall k s, sessions (auth d) !! k = Some s -> us_token_sha256 s = digest ->
     session_live clk digest s = false) ->
  session_query clk digest d = None.
Proof.
  intros Hn. destruct (session_query clk digest d) as [[[id s] u]|] eqn:E; [|done].
  apply session_query_ok in E as (Hs & Hl & _). pose proof Hl as Hl'. unfold session_live in Hl'.
  inv_res. by rewrite (Hn id s) in Hl.
Qed.

Lemma head_rows_none {A} (P : string -> A -> bool) (m : gmap string A) :
  (forall k a, m !! k = Some a -> P k a = false) -> head (rows_where P m) = None.
Proof. intros Hn. by rewrite (proj1 (rows_where_none P m) (proj2 (any_row_false P m) Hn)). Qed.

Lemma authenticate_refused clk rng keys token d :
  session_query clk (sha256Bytes token) d = None ->
  AuthenticateSession clk rng keys token d = Err ErrSessionNotFound.
Proof.
  intros Hq. unfold AuthenticateSession, mbind, tx_bind, guard, lift, find_row.
  destruct (validOpaqueToken token); simpl; [|done]. by rewrite Hq.
Qed.

Lemma ticket_refused clk rng session d :
  (forall k s, sessions (auth d) !! k = Some s ->
     ticket_session (clk 0%nat) (sha256Bytes (ses_Token session)) k s = false) ->
  IssueWebSocketTicket clk rng session d = Err ErrSessionNotFound.
Proof.
  intros Hn. unfold IssueWebSocketTicket, mbind, tx_bind, guard, lift, find_row.
  destruct (_ || _); simpl; [done|]. by rewrite (head_rows_none _ _ Hn).
Qed.

Lemma websocket_refused clk token d :
  validOpaqueToken token = true ->
  (forall k t, tickets (auth d) !! k = Some t ->
     ticket_live clk (sha256Bytes token) (sessions (auth d)) k t = false) ->
  AuthenticateWebSocket clk token d = Err ErrAuthenticationFailed.
Proof.
  intros Hv Hn. unfold AuthenticateWebSocket, consume_ticket, mbind, tx_bind, guard, lift, find_row.
  rewrite Hv. simpl. by rewrite (head_rows_none _ _ Hn).
Qed.

(** ** Logout *)

Lemma revoked_check now s : session_check s = true -> session_check (revoked_row now s) = true.
Proof.
  unfold session_check, revoked_row. rewrite !andb_true_iff. simpl. intros Hc. destruct_and! Hc.
  destruct (us_revoked_at s) as [t|], (us_revocation_reason s) as [r|]; by split_and!.
Qed.

Lemma logout_succeeds clk session d :
  auth_inv d -> validCanonicalUUID (ses_FamilyID session) = true ->
  exists d', Logout clk session d = Ok (tt, d') /\
    sessions (auth d') = update_rows
      (fun _ s => bool_decide (us_session_family_id s = ses_FamilyID session))
      (revoked_row (clk 0%nat)) (sessions (auth d)).
Proof.
  intros [Hs _ _] Hv. eexists. split.
  - apply Logout_ok. split; [by apply validCanonicalUUID_nonempty|].
    exists (ses_FamilyID session). split_and!; [by apply uuid_in_canonical| |done].
    intros k s Hk _. by eapply revoked_check, si_check.
  - done.
Qed.

(** A family with a revoked session is revoked. *)
Lemma family_revoked m k k' s s' :
  sessions_inv m -> m !! k = Some s -> m !! k' = Some s' ->
  us_session_family_id s = us_session_family_id s' -> is_null (us_revoked_at s) = false ->
  is_null (us_revoked_at s') = false.
Proof. intros Hinv Hk Hk' Hf <-. by destruct (si_family _ Hinv _ _ _ _ Hk Hk' Hf) as (_ & _ & ->). Qed.

(** After a logout every row the family ever gets is revoked. *)
Lemma logged_out_revoked clk session u d d1 d2 :
  auth_inv d -> Logout clk session d = Ok (u, d1) ->
  sessions (auth d1) = update_rows
    (fun _ s => bool_decide (us_session_family_id s = ses_FamilyID session))
    (revoked_row (clk 0%nat)) (sessions (auth d)) ->
  forall sid s1, sessions (auth d) !! sid = Some s1 ->
  us_session_family_id s1 = ses_FamilyID session -> rtc session_step d1 d2 ->
  auth_inv d2 /\ forall id s, sessions (auth d2) !! id = Some s ->
    us_session_family_id s = ses_FamilyID session -> is_null (us_revoked_at s) = false.
Proof.
  intros Hinv Hlog Hse sid s1 Hs1 Hf1 Hsteps.
  destruct (session_step_inv d d1 Hinv (st_logout _ _ _ _ _ Hlog)) as [Hinv1 _].
  destruct (session_steps_inv d1 d2 Hinv1 Hsteps) as [Hinv2 Hk2]. split; [done|]. intros id s Hs Hfam.
  assert (sessions (auth d1) !! sid = Some (revoked_row (clk 0%nat) s1)) as Hs1'.
  { rewrite Hse, lookup_update_rows, Hs1. simpl. by rewrite bool_decide_eq_true_2. }
  destruct (ak_sessions _ _ Hk2 _ _ Hs1') as (s2 & Hs2 & Hkp2).
  eapply (family_revoked _ sid id s2 s); [apply Hinv2|done|done| |].
  - rewrite (kept_family _ _ Hkp2). simpl. congruence.
  - destruct (us_revoked_at (revoked_row (clk 0%nat) s1)) as [t|] eqn:E.
    + by rewrite (kept_revoked _ _ Hkp2 _ E).
    + unfold revoked_row in E. simpl in E. by destruct (us_revoked_at s1).
Qed.

(** The session found is a row of the family it reports. *)
Lemma authenticated_family clk rng keys token d r d' :
  AuthenticateSession clk rng keys token d = Ok (r, d') ->
  exists id s, sessions (auth d) !! id = Some s /\ us_session_family_id s = ses_FamilyID r /\
    us_user_id s = au_ID (ses_User r) /\
    of_timestamptz (us_absolute_expires_at s) = ses_AbsoluteExpiresAt r /\
    us_token_sha256 s = sha256Bytes token /\ us_revoked_at s = None /\
    clk 0%nat < us_absolute_expires_at s.
Proof.
  intros (id & s & u & m' & rot & _ & Hq & _ & _ & ->)%AuthenticateSession_ok.
  apply session_query_ok in Hq as (Hs & Hl & _). unfold session_live in Hl. inv_res. zbool.
  exists id, s. destruct rot; simpl; split_and!; try done; by destruct (us_revoked_at s).
Qed.

(** C29: a logout succeeds, and from then on, whatever happens, no token of the
    session family authenticates, draws a ticket or opens a socket with a ticket
    drawn earlier. *)
Theorem logout_is_final clk0 rng0 keys0 token0 d0 session d clk :
  auth_inv d0 -> AuthenticateSession clk0 rng0 keys0 token0 d0 = Ok (session, d) ->
  validCanonicalUUID (ses_FamilyID session) = true ->
  exists d1, Logout clk session d = Ok (tt, d1) /\
  forall d2, rtc session_step d1 d2 ->
  forall id s, sessions (auth d2) !! id = Some s -> us_session_family_id s = ses_FamilyID session ->
    (forall clk' rng keys token, us_token_sha256 s = sha256Bytes token ->
       AuthenticateSession clk' rng keys token d2 = Err ErrSessionNotFound) /\
    (forall clk' rng presented, us_token_sha256 s = sha256Bytes (ses_Token presented) ->
       IssueWebSocketTicket clk' rng presented d2 = Err ErrSessionNotFound) /\
    (forall clk' k t token, tickets (auth d2) !! k = Some t -> wt_session_id t = id ->
       wt_token_sha256 t = sha256Bytes token -> validOpaqueToken token = true ->
       AuthenticateWebSocket clk' token d2 = Err ErrAuthenticationFailed).
Proof.
  intros Hinv0 Hauth Hv.
  destruct (authenticated_family _ _ _ _ _ _ _ Hauth) as (sid & s0 & Hs0 & Hf0 & _).
  destruct (session_step_inv d0 d Hinv0 (st_authenticate _ _ _ _ _ _ _ Hauth)) as [Hinv Hk].
  destruct (ak_sessions _ _ Hk _ _ Hs0) as (s1 & Hs1 & Hkp1).
  destruct (logout_succeeds clk session d Hinv Hv) as (d1 & Hlog & Hse).
  exists d1. split; [done|]. intros d2 Hsteps id s Hs Hfam.
  assert (Hf1 : us_session_family_id s1 = ses_FamilyID session)
    by (rewrite (kept_family _ _ Hkp1); done).
  destruct (logged_out_revoked _ _ _ _ _ _ Hinv Hlog Hse _ _ Hs1 Hf1 Hsteps) as [[Hi2 Ht2 _] Hall].
  pose proof (Hall _ _ Hs Hfam) as Hrv.
  split_and!.
  - intros clk' rng keys token Htok. apply authenticate_refused, session_query_none.
    intros k q Hq Hqt. assert (k = id) as -> by (eapply (si_token _ Hi2); eauto; congruence).
    assert (q = s) as -> by congruence. unfold session_live. rewrite Hrv.
    by destruct (bool_decide _).
  - intros clk' rng presented Htok. apply ticket_refused. intros k q Hq. unfold ticket_session.
    case_bool_decide as Hqt; [|done].
    assert (k = id) as -> by (eapply (si_token _ Hi2); eauto; congruence).
    assert (q = s) as -> by congruence. by rewrite Hrv.
  - intros clk' k t token Ht Hti Htok Hval. apply websocket_refused; [done|].
    intros k' t' Ht'. unfold ticket_live. case_bool_decide as Hqt; [|done].
    assert (k' = k) as -> by (eapply Ht2; eauto; congruence).
    assert (t' = t) as -> by congruence. rewrite Hti, Hs, Hrv.
    by destruct (is_null (wt_consumed_at t)), (_ <? _), (bool_decide _).
Qed.

(** ** Tickets and nonces *)

(** A used ticket is refused for good. *)
Lemma used_ticket_refused k t token clk d :
  auth_inv d -> tickets (auth d) !! k = Some t -> wt_token_sha256 t = sha256Bytes token ->
  is_null (wt_consumed_at t) = false -> validOpaqueToken token = true ->
  AuthenticateWebSocket clk token d = Err ErrAuthenticationFailed.
Proof.
  intros [_ Hu _] Ht Htok Hc Hv. apply websocket_refused; [done|]. intros k' t' Ht'.
  unfold ticket_live. case_bool_decide as Hq; [|done].
  assert (k' = k) as -> by (eapply Hu; eauto; congruence). assert (t' = t) as -> by congruence.
  by rewrite Hc.
Qed.

(** C30: a ticket opens one socket: it is accepted at most once, for the user of the
    session it was drawn on, within a minute of being drawn, and every later
    attempt fails. *)
Theorem ticket_admits_once clk rng session d tk d1 clk2 d2 user d3 clk4 d4 :
  auth_inv d -> IssueWebSocketTicket clk rng session d = Ok (tk, d1) -> rtc session_step d1 d2 ->
  AuthenticateWebSocket clk2 (tk_Token tk) d2 = Ok (user, d3) -> rtc session_step d3 d4 ->
  (exists sid s, sessions (auth d) !! sid = Some s /\
     us_token_sha256 s = sha256Bytes (ses_Token session) /\ us_user_id s = user) /\
  clk2 0%nat < clk 0%nat + pg_interval webSocketTicketLife /\
  AuthenticateWebSocket clk4 (tk_Token tk) d4 = Err ErrAuthenticationFailed.
Proof.
  intros Hinv Hop Hsteps Hws Hsteps'.
  destruct (session_step_inv d d1 Hinv (st_ticket _ _ _ _ _ _ Hop)) as [Hinv1 _].
  apply IssueWebSocketTicket_ok in Hop as (sid & s & t & _ & Hs & Hl & -> & Hfresh & Hn & ->).
  destruct (session_steps_inv _ _ Hinv1 Hsteps) as [Hinv2 Hk].
  destruct (ak_tickets _ _ Hk (newAuthUUID (rng 1%nat)) _ (lookup_insert_eq _ _ _))
    as (t2 & Ht2 & Hsid & Hsha & Hu & He & _). simpl in Hsid, Hsha, Hu, He.
  destruct (session_step_inv d2 d3 Hinv2 (st_websocket _ _ _ _ _ Hws)) as [Hinv3 _].
  assert (Hv : validOpaqueToken (tk_Token tk) = true).
  { unfold AuthenticateWebSocket in Hws. apply tx_bind_ok in Hws as (_ & ? & (Hg & _)%guard_ok & _).
    by apply negb_false_iff in Hg. }
  apply AuthenticateWebSocket_ok, consume_ticket_ok in Hws as (k & t' & Hk' & Hlive & -> & ->).
  unfold ticket_live in Hlive. inv_res. zbool.
  assert (k = newAuthUUID (rng 1%nat)) as ->.
  { eapply (av_tickets _ Hinv2); eauto. congruence. }
  assert (t' = t2) as -> by congruence.
  destruct (session_steps_inv _ _ Hinv3 Hsteps') as [Hinv4 Hk4].
  destruct (ak_tickets _ _ Hk4 (newAuthUUID (rng 1%nat)) (set_wt_consumed_at (Some (clk2 3%nat)) t2))
    as (t4 & Ht4 & _ & Hsha4 & _ & _ & Hc4).
  { simpl. by rewrite lookup_insert_eq. }
  split_and!.
  - unfold ticket_session in Hl. inv_res. by do 2 eexists.
  - lia.
  - eapply used_ticket_refused; [done|exact Ht4| |by apply Hc4|done]. by rewrite Hsha4.
Qed.

(** A login nonce is accepted at most once: after a login with it, every other
    login with it fails. *)
Theorem nonce_admits_once race clk rng keys nonce binding identity zone d r d1 d2
    race' clk' rng' keys' binding' identity' zone' :
  auth_inv d -> (forall n d, accounts_only d (race n d)) ->
  (forall k s, sessions (auth d) !! k = Some s -> us_session_family_id s <> newAuthUUID (rng 1%nat)) ->
  CreateSessionForGoogle race clk rng keys nonce binding identity zone d = Ok (r, d1) ->
  rtc session_step d1 d2 ->
  let again := CreateSessionForGoogle race' clk' rng' keys' nonce binding' identity' zone' d2 in
  again = Err ErrNonceNotFound \/ again = Err ErrAuthenticationInput.
Proof.
  intros Hinv Hrace Hfam Hop Hsteps again.
  destruct (session_step_inv d d1 Hinv (st_login _ _ _ _ _ _ _ _ _ _ _ Hrace Hfam Hop)) as [Hinv1 _].
  apply CreateSessionForGoogle_ok in Hop as (user & Hlog); [|done].
  destruct Hlog as [(k & n & Hk & _ & Hsha & Hno) _ _ _ _ _ _ _].
  destruct (session_steps_inv _ _ Hinv1 Hsteps) as [Hinv2 Hkp].
  destruct (ak_nonces _ _ Hkp k (set_n_consumed_at (Some (clk 1%nat)) n)) as (n2 & Hn2 & Hsha2 & Hc2).
  { by rewrite Hno, lookup_insert_eq. }
  subst again. unfold CreateSessionForGoogle, mbind, tx_bind, guard, lift, find_row.
  destruct (_ || _); simpl; [by right|]. rewrite head_rows_none; [by left|].
  intros k' n' Hn'. unfold nonce_live. case_bool_decide as Hq; [|done]. simpl.
  assert (k' = k) as ->.
  { eapply (av_nonces _ Hinv2); eauto. rewrite Hsha2. simpl. congruence. }
  assert (n' = n2) as -> by congruence. rewrite (Hc2 eq_refl). by rewrite andb_false_r.
Qed.

(** ** Lifetime *)

(** A session family never outlives thirty days from its login nor changes hands:
    whatever token of it authenticates later, rotations included, reports the user
    and the absolute expiry of the login, and does so before that expiry. *)
Theorem family_lifetime race clk rng keys nonce binding identity zone d r d1 d2
    clk' rng' keys' token r' d3 :
  auth_inv d -> (forall n d, accounts_only d (race n d)) ->
  (forall k s, sessions (auth d) !! k = Some s -> us_session_family_id s <> newAuthUUID (rng 1%nat)) ->
  CreateSessionForGoogle race clk rng keys nonce binding identity zone d = Ok (r, d1) ->
  rtc session_step d1 d2 ->
  AuthenticateSession clk' rng' keys' token d2 = Ok (r', d3) -> ses_FamilyID r' = ses_FamilyID r ->
  au_ID (ses_User r') = au_ID (ses_User r) /\
  ses_AbsoluteExpiresAt r' = ses_AbsoluteExpiresAt r /\
  clk' 0%nat < clk 2%nat + pg_interval sessionAbsoluteLife.
Proof.
  intros Hinv Hrace Hfam Hop Hsteps Hauth Hf.
  destruct (session_step_inv d d1 Hinv (st_login _ _ _ _ _ _ _ _ _ _ _ Hrace Hfam Hop)) as [Hinv1 _].
  apply CreateSessionForGoogle_ok in Hop as (user & Hlog); [|done].
  destruct Hlog as [_ -> _ _ _ _ Hse _].
  destruct (session_steps_inv _ _ Hinv1 Hsteps) as [Hinv2 Hkp].
  destruct (ak_sessions _ _ Hkp (newAuthUUID (rng 2%nat)) (login_row (clk 2%nat) rng user (CurrentID keys)))
    as (s2 & Hs2 & [Hkf Hku _ _ _ _ Hka _ _ _]).
  { by rewrite Hse, lookup_insert_eq. }
  apply authenticated_family in Hauth as (id & s & Hs & Hsf & <- & <- & _ & _ & Hlt).
  simpl in *.
  destruct (si_family _ (av_sessions _ Hinv2) _ _ _ _ Hs Hs2) as (-> & Ha & _); [congruence|].
  rewrite Ha, Hka in *. done.
Qed.

(** ** Running [AuthenticateSession] *)

Lemma session_query_found clk token d id s u :
  sessions_inv (sessions (auth d)) -> sessions (auth d) !! id = Some s ->
  session_live clk (sha256Bytes token) s = true -> user_rows d !! us_user_id s = Some u ->
  session_query clk (sha256Bytes token) d = Some (id, s, u).
Proof.
  intros Hinv Hs Hl Hu. unfold session_query. rewrite (rows_where_unique _ _ id s); [simpl; by rewrite Hu|done| |].
  - rewrite Hl. simpl. apply bool_decide_eq_true. by eexists.
  - intros k q Hq [Hlq _]%andb_true_iff. unfold session_live in *. inv_res.
    eapply (si_token _ Hinv); eauto. congruence.
Qed.

Lemma authenticate_replaced clk rng keys token d id s u next :
  sessions_inv (sessions (auth d)) -> validOpaqueToken token = true ->
  sessions (auth d) !! id = Some s -> session_live clk (sha256Bytes token) s = true ->
  user_rows d !! us_user_id s = Some u -> us_replaced_by_session_id s = Some next ->
  AuthenticateSession clk rng keys token d =
  Ok (session_answer clk rng keys token id s u (google_email (us_user_id s) d) false, d).
Proof.
  intros Hinv Hv Hs Hl Hu Hr. unfold AuthenticateSession.
  eapply tx_bind_run; [by apply (guard_ok _ _ _ tt); rewrite Hv|].
  eapply tx_bind_run; [apply find_row_ok; split; [by eapply session_query_found|done]|]. cbv beta iota.
  eapply tx_bind_run; [by apply gets_ok|]. rewrite Hr.
  eapply tx_bind_run; [done|].
  eapply tx_bind_run; [unfold commit_session; by rewrite Hs, (si_successor _ Hinv _ _ Hs)|].
  unfold session_answer, looked_up. by rewrite Hr.
Qed.

Lemma authenticate_current clk rng keys token d id s u :
  sessions_inv (sessions (auth d)) -> validOpaqueToken token = true ->
  sessions (auth d) !! id = Some s -> session_live clk (sha256Bytes token) s = true ->
  user_rows d !! us_user_id s = Some u -> us_replaced_by_session_id s = None ->
  clk 3%nat < us_rotate_after s -> session_check (touched_row (shift 4 clk) s) = true ->
  AuthenticateSession clk rng keys token d =
  Ok (session_answer clk rng keys token id s u (google_email (us_user_id s) d) false,
      set_sessions (<[id := touched_row (shift 4 clk) s]> (sessions (auth d))) d).
Proof.
  intros Hinv Hv Hs Hl Hu Hr Hlt Hc. unfold AuthenticateSession.
  eapply tx_bind_run; [by apply (guard_ok _ _ _ tt); rewrite Hv|].
  eapply tx_bind_run; [apply find_row_ok; split; [by eapply session_query_found|done]|]. cbv beta iota.
  eapply tx_bind_run; [by apply gets_ok|]. rewrite Hr. cbn [is_null].
  eapply tx_bind_run.
  { eapply tx_bind_run; [by apply gets_ok|]. unfold sessionShouldRotate. rewrite Hs.
    rewrite (proj2 (Z.leb_gt _ _)) by done.
    eapply tx_bind_run; [|reflexivity]. unfold touch_session.
    apply (update_sessions_ok _ _ _ _ tt). split; [|done]. intros k q Hq Hk%bool_decide_eq_true.
    subst k. by assert (q = s) as -> by congruence. }
  eapply tx_bind_run.
  { unfold commit_session. simpl. rewrite lookup_update_rows, Hs. simpl.
    rewrite bool_decide_eq_true_2 by done. unfold successor_exists. simpl. by rewrite Hr. }
  unfold session_answer, looked_up. rewrite Hr.
  rewrite <- (update_only_row (touched_row (shift 4 clk)) _ _ s Hs). reflexivity.
Qed.

(** ** CSRF *)

Lemma csrf_text_nonempty key token : csrf_text key token <> "".
Proof. apply Encode_digest_nonempty, hmac_length. Qed.

Lemma VerifyCSRF_answered keys s t :
  VerifyCSRF keys (answered keys s) t = true <->
  validOpaqueToken (ses_PresentedToken s) = true /\
  exists key, ring_key keys (ses_CSRFKeyID s) = Some key /\ t = csrf_text key (ses_PresentedToken s).
Proof.
  unfold VerifyCSRF, answered, CSRF, constant_time_eq.
  cbn [set_csrf ses_CSRFKeyID ses_PresentedToken ses_CSRFToken ses_PresentedCSRFToken ses_Token].
  destruct (ring_key keys (ses_CSRFKeyID s)) as [key|]; [|naive_solver].
  pose proof (csrf_text_nonempty key (ses_PresentedToken s)) as Hne.
  rewrite (bool_decide_eq_false_2 (csrf_text _ _ = "")) by done. split.
  - destruct (_ || _) eqn:E; [done|]. intros Hx. inv_res. split; [done|]. exists key. split; [done|].
    rewrite <- (string_of_bytes_of_string t), <- (string_of_bytes_of_string (csrf_text _ _)). congruence.
  - intros (Hv & key' & [= <-] & ->). rewrite Hv, (bool_decide_eq_false_2 (csrf_text _ _ = "")) by done.
    cbn [negb orb]. by rewrite !bool_decide_eq_true_2.
Qed.

(** A request's CSRF header is accepted exactly when it is the keyed digest of the
    session token presented with it, under the key of the session the request gets:
    the current key when the session rotates, the key on its row otherwise. *)
Theorem csrf_exact clk rng keys token d r d' t :
  AuthenticateSession clk rng keys token d = Ok (r, d') ->
  VerifyCSRF keys r t = true <->
  exists key, ring_key keys (ses_CSRFKeyID r) = Some key /\ t = csrf_text key token.
Proof.
  intros (id & s & u & m' & rot & Hv & _ & _ & _ & ->)%AuthenticateSession_ok.
  unfold session_answer. rewrite VerifyCSRF_answered. by destruct rot; simpl; rewrite Hv; naive_solver.
Qed.

(** ** Logging in *)

(** A touch keeps the row's constraints while the clock is between its creation and
    its idle expiry. *)
Lemma touched_check clk s :
  session_check s = true -> us_created_at s <= clk 5%nat -> clk 5%nat < us_idle_expires_at s ->
  session_check (touched_row (shift 4 clk) s) = true.
Proof.
  unfold session_check, touched_row. rewrite !andb_true_iff. simpl. intros Hc Hlo Hhi.
  destruct_and! Hc. split_and!; try done; zbool; unfold shift; simpl;
    [apply Z.leb_le|apply Z.ltb_lt]; case_match; lia.
Qed.

(** A login's token authenticates until the rotation is due: the request gets the
    user, the family and the CSRF token of the login, may draw tickets, and the CSRF
    token is accepted. *)
Lemma login_authenticates race clk rng keys nonce binding identity zone d r d1 clk' rng' :
  auth_inv d -> (forall n d, accounts_only d (race n d)) ->
  (forall k s, sessions (auth d) !! k = Some s -> us_session_family_id s <> newAuthUUID (rng 1%nat)) ->
  length (rng 0%nat) = 32%nat ->
  CreateSessionForGoogle race clk rng keys nonce binding identity zone d = Ok (r, d1) ->
  (forall n, clk 2%nat <= clk' n < clk 2%nat + pg_interval sessionRotationAge) ->
  exists r' d2, AuthenticateSession clk' rng' keys (ses_Token r) d1 = Ok (r', d2) /\
    au_ID (ses_User r') = au_ID (ses_User r) /\ ses_FamilyID r' = ses_FamilyID r /\
    ses_Token r' = ses_Token r /\ ses_CSRFToken r' = ses_CSRFToken r /\
    ses_Rotated r' = false /\
    ses_CanMintWebSocketTicket r' = true /\ VerifyCSRF keys r' (ses_CSRFToken r) = true.
Proof.
  intros Hinv Hrace Hfam Hlen Hop Hclk.
  destruct (session_step_inv d d1 Hinv (st_login _ _ _ _ _ _ _ _ _ _ _ Hrace Hfam Hop)) as [[Hi _ _] _].
  apply CreateSessionForGoogle_ok in Hop as (user & Hlog); [|done].
  destruct Hlog as [_ -> _ _ Hck Huser Hse _].
  set (s := login_row (clk 2%nat) rng user (CurrentID keys)) in *.
  assert (Hs : sessions (auth d1) !! newAuthUUID (rng 2%nat) = Some s) by by rewrite Hse, lookup_insert_eq.
  apply elem_of_users in Huser as [u Hu].
  assert (Hlt : forall n, clk' n < us_idle_expires_at s).
  { intros n. specialize (Hclk n).
    assert (pg_interval sessionRotationAge < pg_interval sessionIdleLifetime) by done. simpl. lia. }
  assert (Habs : us_idle_expires_at s <= us_absolute_expires_at s).
  { unfold session_check in Hck. inv_res. by zbool. }
  assert (Hv : validOpaqueToken (newOpaqueToken (rng 0%nat)) = true) by by apply newOpaqueToken_valid.
  do 2 eexists. split; [apply (authenticate_current _ _ _ _ _ (newAuthUUID (rng 2%nat)) s u); try done|].
  - unfold session_live. rewrite (bool_decide_eq_true_2 (us_token_sha256 s = _)) by done.
    rewrite (proj2 (Z.ltb_lt _ _)) by (specialize (Hlt 0%nat); lia).
    by rewrite (proj2 (Z.ltb_lt _ _)) by (specialize (Hlt 1%nat); lia).
  - apply Hclk.
  - apply touched_check; [done|apply Hclk|apply Hlt].
  - unfold session_answer. split_and!; try done. apply VerifyCSRF_answered. split; [done|].
    exists (hk_Value (kr_current keys)). unfold ring_key. cbn -[csrf_text].
    unfold CSRF, ring_key, CurrentID. by rewrite !bool_decide_eq_true_2.
Qed.

(** ** Reachable states *)

(** In every state the operations reach from empty tables, a token names one
    session, the sessions of a family have one user, one absolute expiry and are
    revoked together, at most one of them is not replaced, and a replaced one names a
    successor of its family. *)
Theorem sessions_consistent d d' :
  auth d = no_auth -> rtc session_step d d' -> sessions_inv (sessions (auth d')).
Proof. intros Hd Hsteps. by apply (session_steps_inv d d' (auth_inv_empty d Hd) Hsteps). Qed.

(** No operation ever moves a session's idle expiry, absolute expiry or rotation
    time, reuses its token, or takes a replacement or a revocation back. *)
Theorem session_columns_fixed d d' k s :
  auth_inv d -> rtc session_step d d' -> sessions (auth d) !! k = Some s ->
  exists s', sessions (auth d') !! k = Some s' /\ session_kept s s'.
Proof.
  intros Hinv Hsteps Hs. destruct (session_steps_inv d d' Hinv Hsteps) as [_ [Hk _ _]].
  by apply Hk.
Qed.

(** ** Rotation *)

Lemma rotated_answer clk rng keys token d r d' :
  AuthenticateSession clk rng keys token d = Ok (r, d') -> ses_Rotated r = true ->
  exists id s, sessions (auth d) !! id = Some s /\ us_token_sha256 s = sha256Bytes token /\
    us_replaced_by_session_id s = None /\ ses_ID r = newAuthUUID (rng 1%nat) /\
    ses_Token r = newOpaqueToken (rng 0%nat) /\
    sessions (auth d') =
      <[id := linked_row (clk 5%nat) (ses_ID r) s]>
        (<[ses_ID r := rotated_row (clk 4%nat) (ses_Token r) (CurrentID keys) s]> (sessions (auth d))) /\
    ses_ID r <> id.
Proof.
  intros (id & s & u & m' & rot & _ & Hq & Ha & -> & ->)%AuthenticateSession_ok Hrot.
  apply session_query_ok in Hq as (Hs & Hl & _). unfold session_live in Hl. inv_res.
  destruct Ha as [next Hr|Hr Hlt Hc|Hr Hle Htx Hn Hcq Hcl Ht]; [done..|].
  exists id, s. split_and!; try done. simpl. congruence.
Qed.

(** A replaced session is found but neither rotates again nor draws a ticket. *)
Lemma replaced_is_limited k s next clk rng keys token d r d' :
  auth_inv d -> sessions (auth d) !! k = Some s -> us_token_sha256 s = sha256Bytes token ->
  us_replaced_by_session_id s = Some next ->
  AuthenticateSession clk rng keys token d = Ok (r, d') ->
  ses_Rotated r = false /\ ses_CanMintWebSocketTicket r = false /\ d' = d.
Proof.
  intros [Hi _ _] Hs Htok Hr (id & q & u & m' & rot & _ & Hq & Ha & -> & ->)%AuthenticateSession_ok.
  apply session_query_ok in Hq as (Hq & Hl & _). unfold session_live in Hl. inv_res.
  assert (id = k) as -> by (eapply (si_token _ Hi); eauto; congruence).
  assert (q = s) as -> by congruence.
  destruct Ha as [next' Hr'|Hr' _ _|Hr' _ _ _ _ _ _]; try congruence.
  simpl. by rewrite Hr, set_sessions_same.
Qed.

(** The replaced token draws no ticket in any later state. *)
Lemma replaced_draws_no_ticket clk rng keys token d r d1 d2 clk' rng' session :
  auth_inv d -> AuthenticateSession clk rng keys token d = Ok (r, d1) -> ses_Rotated r = true ->
  rtc session_step d1 d2 -> ses_Token session = token ->
  IssueWebSocketTicket clk' rng' session d2 = Err ErrSessionNotFound.
Proof.
  intros Hinv Hauth Hrot Hsteps Htok.
  destruct (session_step_inv d d1 Hinv (st_authenticate _ _ _ _ _ _ _ Hauth)) as [Hinv1 _].
  destruct (session_steps_inv d1 d2 Hinv1 Hsteps) as [Hinv2 [Hk _ _]].
  destruct (rotated_answer _ _ _ _ _ _ _ Hauth Hrot) as (id & s & Hs & Ht & Hr & Hid & Htk & Hse & Hne).
  destruct (Hk id (linked_row (clk 5%nat) (ses_ID r) s)) as (s2 & Hs2 & Hkp).
  { by rewrite Hse, lookup_insert_eq. }
  destruct (kept_replaced _ _ Hkp (ses_ID r)) as [Hr2 _]; [done|].
  pose proof (kept_token _ _ Hkp) as Ht2. simpl in Ht2.
  apply ticket_refused. intros k q Hq. unfold ticket_session.
  case_bool_decide as Hqt; [|done]. rewrite Htok in Hqt.
  assert (k = id) as -> by (eapply (si_token _ (av_sessions _ Hinv2)); eauto; congruence).
  assert (q = s2) as -> by congruence. rewrite Hr2. by destruct (is_null (us_revoked_at s2)).
Qed.

(** A rotation hands the family over: the new token's session is the only one of the
    family that is not replaced, and the old token, in any later state, can neither
    rotate again nor draw a ticket. *)
Theorem rotation_hands_over clk rng keys token d r d1 d2 :
  auth_inv d -> AuthenticateSession clk rng keys token d = Ok (r, d1) -> ses_Rotated r = true ->
  rtc session_step d1 d2 ->
  (forall k s, sessions (auth d1) !! k = Some s -> us_session_family_id s = ses_FamilyID r ->
     us_replaced_by_session_id s = None -> k = ses_ID r) /\
  (forall clk' rng' keys' r' d3, AuthenticateSession clk' rng' keys' token d2 = Ok (r', d3) ->
     ses_Rotated r' = false /\ ses_CanMintWebSocketTicket r' = false /\ d3 = d2) /\
  (forall clk' rng' session, ses_Token session = token ->
     IssueWebSocketTicket clk' rng' session d2 = Err ErrSessionNotFound).
Proof.
  intros Hinv Hauth Hrot Hsteps.
  destruct (session_step_inv d d1 Hinv (st_authenticate _ _ _ _ _ _ _ Hauth)) as [Hinv1 _].
  destruct (session_steps_inv d1 d2 Hinv1 Hsteps) as [Hinv2 [Hk _ _]].
  pose proof (authenticated_family _ _ _ _ _ _ _ Hauth) as (id0 & s0 & Hs0 & Hf0 & _ & _ & Ht0 & _).
  destruct (rotated_answer _ _ _ _ _ _ _ Hauth Hrot) as (id & s & Hs & Ht & Hr & Hid & Htk & Hse & Hne).
  assert (id0 = id) as -> by (eapply (si_token _ (av_sessions _ Hinv)); eauto; congruence).
  assert (s0 = s) as -> by congruence.
  destruct (Hk id (linked_row (clk 5%nat) (ses_ID r) s)) as (s2 & Hs2 & Hkp).
  { by rewrite Hse, lookup_insert_eq. }
  destruct (kept_replaced _ _ Hkp (ses_ID r)) as [Hr2 _]; [done|].
  pose proof (kept_token _ _ Hkp) as Ht2. simpl in Ht2. split_and!.
  - intros k q Hq Hf Hrq. eapply (si_current _ (av_sessions _ Hinv1) k (ses_ID r) q
      (rotated_row (clk 4%nat) (ses_Token r) (CurrentID keys) s)); [exact Hq| | |exact Hrq|done].
    + rewrite Hse, lookup_insert_ne, lookup_insert_eq by congruence. done.
    + simpl. congruence.
  - intros clk' rng' keys' r' d3 Ha. eapply replaced_is_limited; eauto; congruence.
  - intros clk' rng' session Htok. exact (replaced_draws_no_ticket _ _ _ _ _ _ _ _ _ _ _ Hinv Hauth Hrot Hsteps Htok).
Qed.

(** A replaced token goes on authenticating until its idle expiry, however long
    after the minute its row grants it. *)
Theorem replaced_token_outlives_grace clk rng keys token d id s u next :
  auth_inv d -> validOpaqueToken token = true -> sessions (auth d) !! id = Some s ->
  us_token_sha256 s = sha256Bytes token -> us_replaced_by_session_id s = Some next ->
  us_revoked_at s = None -> user_rows d !! us_user_id s = Some u ->
  clk 0%nat < us_absolute_expires_at s -> clk 1%nat < us_idle_expires_at s ->
  exists r, AuthenticateSession clk rng keys token d = Ok (r, d) /\
    ses_FamilyID r = us_session_family_id s /\ au_ID (ses_User r) = us_user_id s.
Proof.
  intros [Hi _ _] Hv Hs Ht Hr Hrv Hu H0 H1. eexists. split.
  - eapply authenticate_replaced; try done. unfold session_live.
    rewrite bool_decide_eq_true_2, Hrv by done.
    by rewrite !(proj2 (Z.ltb_lt _ _)) by done.
  - done.
Qed.

(** ** Two logins of a new account at once *)

(** What other transactions may commit meanwhile: users stay, and a new identity
    belongs to a user this transaction does not see. *)
Definition honest_race (race : nat -> db -> db) : Prop := forall n d,
  (forall id, id ∈ users d -> id ∈ users (race n d)) /\
  forall k e, identities (auth (race n d)) !! k = Some e ->
    identities (auth d) !! k = Some e \/
    (ei_user_id e ∈ users (race n d) /\ ei_user_id e ∉ users d).

Definition identities_owned (d : db) : Prop := forall k e,
  identities (auth d) !! k = Some e -> ei_user_id e ∈ users d.

Definition recursion_limit : err := ErrInvalid "recursion limit".

Lemma google_row_none identity d k e :
  google_row identity d = None -> identities (auth d) !! k = Some e ->
  same_account "google" (gi_Issuer identity) (gi_Subject identity) k e = true ->
  ei_user_id e ∉ users d.
Proof.
  intros Hg He Hs [u Hu]%elem_of_users. unfold google_row in Hg.
  destruct (head _) as [[k' e']|] eqn:E.
  - apply head_rows_where in E as [_ [_ Hx]%andb_true_iff]. apply bool_decide_eq_true in Hx as [u' Hu'].
    simpl in Hg. by rewrite Hu' in Hg.
  - set (P := fun k e => _) in E.
    assert (Hin : (k, e) ∈ rows_where P (identities (auth d))).
    { apply elem_of_rows_where. split; [done|]. subst P. simpl. rewrite Hs.
      by rewrite (bool_decide_eq_true_2 (is_Some _)) by (by exists u). }
    destruct (rows_where P _); [by apply not_elem_of_nil in Hin|done].
Qed.

Lemma google_row_some identity d k e u :
  google_row identity d = Some (k, e, u) ->
  identities (auth d) !! k = Some e /\
  same_account "google" (gi_Issuer identity) (gi_Subject identity) k e = true.
Proof.
  unfold google_row. intros Hg. destruct (head _) as [[k' e']|] eqn:E; [|done]. simpl in Hg.
  apply head_rows_where in E as [He [Hs _]%andb_true_iff].
  destruct (user_rows d !! ei_user_id e'); [|done]. simpl in Hg. by simplify_eq.
Qed.

(** The statements of a round that found the account. *)
Definition refresh_account (now : Z) (identity : GoogleIdentity) (e : identity_row) (u : user_row)
  : tx AuthUser :=
  email ← text_param_null "update external identity" (nullableString (gi_Email identity));
  name ← text_param "update external identity" (gi_DisplayName identity);
  _ ← update_identity now identity email name;
  mret (MkAuthUser (ei_user_id e) (u_display_name u) (default "" (ei_email e))
          (u_default_time_zone_name u)).

Lemma upsert_found fuel race clk rng n identity zone d k e u :
  google_row identity d = Some (k, e, u) ->
  upsertExternalIdentity (S fuel) race clk rng n identity zone d =
  refresh_account (clk (3 * n)%nat) identity e u d.
Proof.
  intros Hg. cbn [upsertExternalIdentity]. eapply tx_bind_run; [by apply gets_ok|].
  reflexivity.
Qed.

Lemma refresh_account_ok now identity k e u d user d' :
  google_row identity d = Some (k, e, u) ->
  refresh_account now identity e u d = Ok (user, d') ->
  exists e', identities (auth d') !! k = Some e' /\
    same_account "google" (gi_Issuer identity) (gi_Subject identity) k e' = true /\
    ei_user_id e' = au_ID user.
Proof.
  intros (He & Hs)%google_row_some Hx. unfold refresh_account in Hx.
  apply tx_bind_ok in Hx as (email & d0 & (_ & ->)%text_param_null_ok & Hx).
  apply tx_bind_ok in Hx as (name & d0 & (_ & ->)%text_param_ok & Hx).
  apply tx_bind_ok in Hx as ([] & d0 & Hu & Hx). apply mret_ok in Hx as [<- <-].
  unfold update_identity in Hu. case_match; [done|]. injection Hu as <-. simpl.
  setoid_rewrite lookup_update_rows. rewrite He. simpl. rewrite Hs. by eexists.
Qed.

Lemma text_param_limit op s d : text_param op s d <> Err recursion_limit.
Proof. unfold text_param, lift. by destruct (text_in s). Qed.

Lemma text_param_null_limit op s d : text_param_null op s d <> Err recursion_limit.
Proof.
  destruct s as [s|]; [|done]. simpl. unfold mbind, tx_bind, text_param, lift.
  by destruct (text_in s).
Qed.

Lemma refresh_account_limit now identity e u d :
  refresh_account now identity e u d <> Err recursion_limit.
Proof.
  unfold refresh_account. apply bind_not; [apply text_param_null_limit|]. intros email d1 _.
  apply bind_not; [apply text_param_limit|]. intros name d2 _.
  apply bind_not; [|done]. unfold update_identity. by case_match.
Qed.

(** The statements of a round that found none, up to the insert. *)
Definition new_account (race : nat -> db -> db) (clk : nat -> Z) (rng : nat -> bytes) (n : nat)
    (identity : GoogleIdentity) (zone : string) : tx bool :=
  let userID := newAuthUUID (rng (2 * n)%nat) in
  name ← text_param "insert Google user" (gi_DisplayName identity);
  zone ← text_param "insert Google user" zone;
  _ ← insert_user "insert Google user" userID (UserRow name zone (clk (3 * n)%nat));
  _ ← modify (race n);
  subject ← text_param "insert external identity" (gi_Subject identity);
  email ← text_param_null "insert external identity" (nullableString (gi_Email identity));
  insert_identity "insert external identity" (newAuthUUID (rng (2 * n + 1)%nat))
    (Identity userID "google" (gi_Issuer identity) subject email
       (gi_EmailVerified identity) (Some name) (clk (3 * n + 1)%nat) (clk (3 * n + 2)%nat)).

Lemma upsert_new fuel race clk rng n identity zone d :
  google_row identity d = None ->
  upsertExternalIdentity (S fuel) race clk rng n identity zone d =
  (inserted ← new_account race clk rng n identity zone;
   if (inserted : bool) then
     mret (MkAuthUser (newAuthUUID (rng (2 * n)%nat)) (gi_DisplayName identity) (gi_Email identity) zone)
   else
     _ ← discard_user (newAuthUUID (rng (2 * n)%nat));
     upsertExternalIdentity fuel race clk rng (S n) identity zone) d.
Proof.
  intros Hg. cbn [upsertExternalIdentity]. eapply tx_bind_run; [by apply gets_ok|]. cbv iota.
  unfold new_account, mbind, tx_bind.
  repeat (match goal with |- context [match ?x with _ => _ end] =>
    lazymatch x with
    | context [match _ with _ => _ end] => fail
    | _ => destruct x as [[? ?]|]
    end end; try done).
Qed.

Lemma new_account_limit race clk rng n identity zone d :
  new_account race clk rng n identity zone d <> Err recursion_limit.
Proof.
  unfold new_account. repeat (apply bind_not; [|intros]);
    try apply text_param_limit; try apply text_param_null_limit; try done.
  - unfold insert_user. by case_match.
  - unfold insert_identity. by repeat case_match.
Qed.

(** When the insert found the account taken, the next lookup finds it. *)
Lemma lost_race_found race clk rng n identity zone d d1 :
  honest_race race -> identities_owned d -> google_row identity d = None ->
  new_account race clk rng n identity zone d = Ok (false, d1) ->
  exists row, google_row identity
    (set_user_rows (delete (newAuthUUID (rng (2 * n)%nat)) (user_rows d1)) d1) = Some row.
Proof.
  intros Hrace Hown Hg Hx. unfold new_account in Hx.
  apply tx_bind_ok in Hx as (name & d0 & (-> & ->)%text_param_ok & Hx).
  apply tx_bind_ok in Hx as (z & d0 & (-> & ->)%text_param_ok & Hx).
  apply tx_bind_ok in Hx as ([] & d2 & Hi & Hx).
  apply tx_bind_ok in Hx as ([] & d3 & ->%modify_ok & Hx).
  apply tx_bind_ok in Hx as (subject & d0 & (-> & ->)%text_param_ok & Hx).
  apply tx_bind_ok in Hx as (email & d0 & (-> & ->)%text_param_null_ok & Hx).
  unfold insert_identity in Hx. case_match; [done|].
  destruct (any_row _ _) eqn:Ha; [|by case_match]. injection Hx as <-.
  apply any_row_true in Ha as (k & e & He & Hs). simpl in Hs.
  unfold insert_user in Hi. case_match; [done|]. injection Hi as <-.
  set (userID := newAuthUUID _) in *. set (d2 := set_user_rows _ d) in *.
  assert (Hu : ei_user_id e ∈ users (race n d2) /\ ei_user_id e <> userID).
  { destruct (proj2 (Hrace n d2) k e He) as [Hold|[Hin Hout]].
    - destruct (google_row_none _ _ _ _ Hg Hold Hs). by eapply Hown.
    - split; [done|]. intros Heq. apply Hout. rewrite Heq. apply elem_of_users. simpl.
      rewrite lookup_insert_eq. by eexists. }
  match goal with |- exists row, ?G = _ => destruct G as [row|] eqn:E end; [by exists row|].
  destruct (google_row_none _ _ k e E He Hs). apply elem_of_users. simpl.
  rewrite lookup_delete_ne by (intros Heq; by apply Hu). apply elem_of_users, Hu.
Qed.

(** A new account is stored with the user returned. *)
Lemma new_account_stored race clk rng n identity zone d d1 :
  new_account race clk rng n identity zone d = Ok (true, d1) ->
  exists k e, identities (auth d1) !! k = Some e /\
    same_account "google" (gi_Issuer identity) (gi_Subject identity) k e = true /\
    ei_user_id e = newAuthUUID (rng (2 * n)%nat).
Proof.
  intros Hx. unfold new_account in Hx.
  apply tx_bind_ok in Hx as (name & d0 & (-> & ->)%text_param_ok & Hx).
  apply tx_bind_ok in Hx as (z & d0 & (-> & ->)%text_param_ok & Hx).
  apply tx_bind_ok in Hx as ([] & d2 & Hi & Hx).
  apply tx_bind_ok in Hx as ([] & d3 & ->%modify_ok & Hx).
  apply tx_bind_ok in Hx as (subject & d0 & (-> & ->)%text_param_ok & Hx).
  apply tx_bind_ok in Hx as (email & d0 & (-> & ->)%text_param_null_ok & Hx).
  unfold insert_identity in Hx. repeat (case_match; [done|]). injection Hx as <-. simpl.
  do 2 eexists. rewrite lookup_insert_eq. split; [done|]. unfold same_account. simpl.
  by rewrite !bool_decide_eq_true_2.
Qed.

(** Logging in with a Google account ends: however other logins of the same new
    account interleave, the second round finds the account, so more rounds change
    nothing; and the user returned is the owner of the stored account. *)
Theorem login_race_settles race clk rng identity zone d fuel :
  honest_race race -> identities_owned d ->
  let run n := upsertExternalIdentity n race clk rng 0 identity zone d in
  run (2 + fuel)%nat = run 2%nat /\ run 2%nat <> Err recursion_limit /\
  forall user d', run 2%nat = Ok (user, d') ->
    exists k e, identities (auth d') !! k = Some e /\
      same_account "google" (gi_Issuer identity) (gi_Subject identity) k e = true /\
      ei_user_id e = au_ID user.
Proof.
  intros Hrace Hown run. subst run. cbn beta.
  destruct (google_row identity d) as [[[k e] u]|] eqn:Hg.
  { rewrite (upsert_found (S fuel) _ _ _ _ _ _ _ _ _ _ Hg), (upsert_found 1 _ _ _ _ _ _ _ _ _ _ Hg).
    split_and!; [done|apply refresh_account_limit|]. intros user d' Hx.
    exists k. by eapply refresh_account_ok. }
  rewrite (upsert_new (S fuel) _ _ _ _ _ _ _ Hg), (upsert_new 1 _ _ _ _ _ _ _ Hg).
  unfold mbind at 1 3 5 7, tx_bind at 1 3 5 7.
  pose proof (new_account_limit race clk rng 0 identity zone d) as Hlim.
  destruct (new_account race clk rng 0 identity zone d) as [[[] d1]|x] eqn:Hn.
  - split_and!; [done|done|]. intros user d' [<- <-]%mret_ok. by eapply new_account_stored.
  - destruct (lost_race_found _ _ _ _ _ _ _ _ Hrace Hown Hg Hn) as ([[k e] u] & Hg2).
    unfold discard_user, modify, mbind, tx_bind. cbn beta iota.
    rewrite (upsert_found fuel _ _ _ _ _ _ _ _ _ _ Hg2), (upsert_found 0 _ _ _ _ _ _ _ _ _ _ Hg2).
    split_and!; [done|apply refresh_account_limit|]. intros user d' Hx.
    exists k. by eapply refresh_account_ok.
  - split_and!; [done|congruence|done].
Qed.
End Props.
