(* ===== verification/SessionExamples.v ===== *)
(** * A history of one login

    A nonce, a login, requests with the session, a rotation, a ticket and a
    logout on a concrete server, at which the theorems on sessions are applied;
    and a request that loses its CSRF token to a change of keys. *)

From S2P Require Import Prelude GoLib Schema Tables Leases GoText SavedTables Opaque Sessions SessionFacts SessionProps.

Section History.
#[local] Existing Instance pg_model.

(** One zone. *)
Definition ex_zones : TimeZones := fun name =>
  if bool_decide (name = "Europe/Paris") then Some (fun _ => ZonePeriod 3600 (- 2 ^ 62) (2 ^ 62))
  else None.
#[local] Existing Instance ex_zones.

(** Days, in the database's microseconds, and the random bytes of operation [k]. *)
Definition ex_at (days : Z) (n : nat) : Z := 1700000000000000 + days * 86400000000 + Z.of_nat n.
Definition ex_draw (k : Z) (n : nat) : bytes :=
  repeat (byte_of (16 * k + Z.of_nat n)) (if bool_decide (n = 0%nat) then 32 else 16).
Definition ex_nonce_draw (n : nat) : bytes :=
  repeat (byte_of (Z.of_nat n)) (if bool_decide (n = 2%nat) then 16 else 32).

Definition ex_key_a : HMACKey := MkHMACKey "a" (repeat (byte_of 1) 32).
Definition ex_key_b : HMACKey := MkHMACKey "b" (repeat (byte_of 2) 32).
Definition ex_ring : HMACKeyRing := MkKeyRing ex_key_a ∅.
(** The ring after the change of keys. *)
Definition ex_new_ring : HMACKeyRing := MkKeyRing ex_key_b {["a" := hk_Value ex_key_a]}.

Definition ex_google : GoogleIdentity :=
  MkGoogleIdentity "https://accounts.google.com" "1234" "user@example.com" true "User".
Definition ex_alone (n : nat) (d : db) : db := d.

Definition ex_d0 : db := Db {[ex_user := ex_user_row]} ∅ ∅ ∅ ∅ ∅ ∅ ∅ ∅ ∅ ∅ no_saved no_auth.
Definition ex_create_nonce : tx LoginNonce := CreateLoginNonce (ex_at 0) ex_nonce_draw.
Definition ex_d1 : db := committed ex_create_nonce ex_d0.
Definition ex_login : tx Session :=
  CreateSessionForGoogle ex_alone (ex_at 0) (ex_draw 1) ex_ring (newOpaqueToken (ex_nonce_draw 0))
    (newOpaqueToken (ex_nonce_draw 1)) ex_google "Europe/Paris".
Definition ex_d2 : db := committed ex_login ex_d1.
Definition ex_token : string := newOpaqueToken (ex_draw 1 0).
Definition ex_family : string := newAuthUUID (ex_draw 1 1).

(** A request on the third day rotates the session. *)
Definition ex_rotate : tx Session := AuthenticateSession (ex_at 2) (ex_draw 2) ex_ring ex_token.
Definition ex_d3 : db := committed ex_rotate ex_d2.

Lemma ex_create_nonce_runs : is_ok (ex_create_nonce ex_d0) = true.
Proof. vm_compute. reflexivity. Qed.
Lemma ex_login_runs : is_ok (ex_login ex_d1) = true.
Proof. vm_compute. reflexivity. Qed.

Definition is_rotated (r : Session) : bool :=
  ses_Rotated r && bool_decide (ses_FamilyID r = ex_family) &&
  bool_decide (ses_Token r = newOpaqueToken (ex_draw 2 0)).
Lemma ex_rotate_runs : returns is_rotated ex_rotate ex_d2 = true.
Proof. vm_compute. reflexivity. Qed.

Lemma ex_alone_only n d : accounts_only d (ex_alone n d).
Proof. by constructor. Qed.
Lemma ex_alone_honest : honest_race ex_alone.
Proof. intros n d. split; [done|by left]. Qed.

Definition no_family (id : string) (d : db) : bool :=
  negb (any_row (fun _ s => bool_decide (us_session_family_id s = id)) (sessions (auth d))).
Lemma no_family_spec id d : no_family id d = true ->
  forall k s, sessions (auth d) !! k = Some s -> us_session_family_id s <> id.
Proof.
  unfold no_family. intros Hn%negb_true_iff k s Hs Heq. rewrite any_row_false in Hn.
  specialize (Hn _ _ Hs). by case_bool_decide.
Qed.

Lemma ex_d1_fresh : no_family ex_family ex_d1 = true.
Proof. vm_compute. reflexivity. Qed.

Lemma ex_step1 : session_step ex_d0 ex_d1.
Proof. destruct (committed_ok _ _ ex_create_nonce_runs) as [r Hr]. by eapply st_nonce. Qed.
Lemma ex_inv1 : auth_inv ex_d1.
Proof. by apply (session_step_inv ex_d0 ex_d1 (auth_inv_empty ex_d0 eq_refl) ex_step1). Qed.
Lemma ex_step2 : session_step ex_d1 ex_d2.
Proof.
  destruct (committed_ok _ _ ex_login_runs) as [r Hr].
  eapply (st_login ex_alone); [apply ex_alone_only| |exact Hr].
  apply no_family_spec, ex_d1_fresh.
Qed.
Lemma ex_inv2 : auth_inv ex_d2.
Proof. by apply (session_step_inv ex_d1 ex_d2 ex_inv1 ex_step2). Qed.
Lemma ex_step3 : session_step ex_d2 ex_d3.
Proof. destruct (returns_ok _ _ _ ex_rotate_runs) as (r & Hr & _). by eapply st_authenticate. Qed.
Lemma ex_inv3 : auth_inv ex_d3.
Proof. by apply (session_step_inv ex_d2 ex_d3 ex_inv2 ex_step3). Qed.

(** A request on the first day. *)
Definition ex_use : tx Session := AuthenticateSession (ex_at 0) (ex_draw 3) ex_ring ex_token.
Definition in_family (r : Session) : bool := bool_decide (ses_FamilyID r = ex_family).
Lemma ex_use_runs : returns in_family ex_use ex_d2 = true.
Proof. vm_compute. reflexivity. Qed.

Lemma logout_is_final_witness :
  exists session d, ex_use ex_d2 = Ok (session, d) /\
  exists d1, Logout (ex_at 1) session d = Ok (tt, d1) /\
  forall id s, sessions (auth d1) !! id = Some s -> us_session_family_id s = ex_family ->
    us_token_sha256 s = sha256Bytes ex_token ->
    ex_use d1 = Err ErrSessionNotFound.
Proof.
  destruct (returns_ok _ _ _ ex_use_runs) as (session & Hr & Hf).
  apply bool_decide_eq_true in Hf. exists session, (committed ex_use ex_d2). split; [exact Hr|].
  destruct (logout_is_final _ _ _ _ _ _ _ (ex_at 1) ex_inv2 Hr) as (d1 & Hl & Hall).
  { rewrite Hf. vm_compute. reflexivity. }
  exists d1. split; [exact Hl|]. intros id s Hs Hfam Htok. rewrite <- Hf in Hfam.
  by apply (Hall d1 (rtc_refl _ _) id s Hs Hfam).
Defined.

(** A ticket drawn and used on the first day. *)
Definition ex_session : Session :=
  match ex_use ex_d2 with Ok (r, _) => r
  | Err _ => login_session 0 (ex_draw 1) (MkAuthUser "" "" "" "") "" end.
Definition ex_issue : tx WebSocketTicket := IssueWebSocketTicket (ex_at 0) (ex_draw 4) ex_session.
Definition ex_d4 : db := committed ex_issue ex_d2.
Definition ex_open : tx string := AuthenticateWebSocket (ex_at 0) (newOpaqueToken (ex_draw 4 0)).
Definition ex_d5 : db := committed ex_open ex_d4.
Definition is_ticket (t : WebSocketTicket) : bool :=
  bool_decide (tk_Token t = newOpaqueToken (ex_draw 4 0)).
Lemma ex_issue_runs : returns is_ticket ex_issue ex_d2 = true.
Proof. vm_compute. reflexivity. Qed.
Lemma ex_open_runs : is_ok (ex_open ex_d4) = true.
Proof. vm_compute. reflexivity. Qed.

Lemma ticket_admits_once_witness : ex_open ex_d5 = Err ErrAuthenticationFailed.
Proof.
  destruct (returns_ok _ _ _ ex_issue_runs) as (tk & Hi & Ht). apply bool_decide_eq_true in Ht.
  destruct (committed_ok _ _ ex_open_runs) as [user Ho]. unfold ex_d5, ex_open in *. rewrite <- Ht in *.
  exact (proj2 (proj2 (ticket_admits_once _ _ _ _ _ _ (ex_at 0) _ _ _ (ex_at 0) _ ex_inv2 Hi
    (rtc_refl _ _) Ho (rtc_refl _ _)))).
Defined.

Lemma nonce_admits_once_witness :
  ex_login ex_d2 = Err ErrNonceNotFound \/ ex_login ex_d2 = Err ErrAuthenticationInput.
Proof.
  destruct (committed_ok _ _ ex_login_runs) as [r Hr].
  exact (nonce_admits_once _ _ _ _ _ _ _ _ _ _ _ _ ex_alone (ex_at 0) (ex_draw 1) ex_ring _ _ _
    ex_inv1 ex_alone_only (no_family_spec _ _ ex_d1_fresh) Hr (rtc_refl _ _)).
Defined.

Lemma ex_login_family : returns in_family ex_login ex_d1 = true.
Proof. vm_compute. reflexivity. Qed.

(** The rotation on the third day. *)
Lemma family_lifetime_witness :
  exists r r', ex_login ex_d1 = Ok (r, ex_d2) /\ ex_rotate ex_d2 = Ok (r', ex_d3) /\
    au_ID (ses_User r') = au_ID (ses_User r) /\
    ses_AbsoluteExpiresAt r' = ses_AbsoluteExpiresAt r /\
    ex_at 2 0 < ex_at 0 2 + pg_interval sessionAbsoluteLife.
Proof.
  destruct (returns_ok _ _ _ ex_login_family) as (r & Hr & Hf).
  destruct (returns_ok _ _ _ ex_rotate_runs) as (r' & Hr' & Hf'). apply bool_decide_eq_true in Hf.
  apply andb_true_iff in Hf' as [[_ Hf'%bool_decide_eq_true]%andb_true_iff _].
  exists r, r'. split; [exact Hr|]. split; [exact Hr'|].
  exact (family_lifetime _ _ _ _ _ _ _ _ _ _ _ _ _ _ _ _ _ _ ex_inv1 ex_alone_only
    (no_family_spec _ _ ex_d1_fresh) Hr (rtc_refl _ _) Hr' (eq_trans Hf' (eq_sym Hf))).
Defined.

Lemma rotation_hands_over_witness :
  forall clk' rng' session, ses_Token session = ex_token ->
    IssueWebSocketTicket clk' rng' session ex_d3 = Err ErrSessionNotFound.
Proof.
  destruct (returns_ok _ _ _ ex_rotate_runs) as (r & Hr & Hf).
  apply andb_true_iff in Hf as [[Hf _]%andb_true_iff _].
  exact (proj2 (proj2 (rotation_hands_over _ _ _ _ _ _ _ _ ex_inv2 Hr Hf (rtc_refl _ _)))).
Defined.

Lemma csrf_exact_witness :
  exists r, ex_use ex_d2 = Ok (r, committed ex_use ex_d2) /\
    VerifyCSRF ex_ring r "" = false.
Proof.
  destruct (returns_ok _ _ _ ex_use_runs) as (r & Hr & _). exists r. split; [exact Hr|].
  apply not_true_iff_false.
  intros (key & _ & Heq)%(csrf_exact _ _ _ _ _ _ _ "" Hr). by apply (csrf_text_nonempty key ex_token).
Defined.

Lemma sessions_consistent_witness : sessions_inv (sessions (auth ex_d3)).
Proof.
  exact (sessions_consistent ex_d0 ex_d3 eq_refl
    (rtc_l _ _ _ _ ex_step1 (rtc_l _ _ _ _ ex_step2 (rtc_once _ _ ex_step3)))).
Defined.

(** The row of the login, before and after the rotation. *)
Definition ex_login_row (d : db) : option session_row := sessions (auth d) !! newAuthUUID (ex_draw 1 2).
Lemma ex_row_2 : exists s, ex_login_row ex_d2 = Some s.
Proof. destruct (ex_login_row ex_d2) as [s|] eqn:E; [by exists s|]. vm_compute in E. discriminate E. Qed.

Lemma session_columns_fixed_witness :
  exists s s', ex_login_row ex_d2 = Some s /\ ex_login_row ex_d3 = Some s' /\
    us_idle_expires_at s' = us_idle_expires_at s.
Proof.
  destruct ex_row_2 as [s Hs]. exists s. unfold ex_login_row in *.
  destruct (session_columns_fixed ex_d2 ex_d3 (newAuthUUID (ex_draw 1 2)) s ex_inv2 (rtc_once _ _ ex_step3) Hs) as (s' & Hs' & Hk).
  exists s'. split; [exact Hs|]. split; [exact Hs'|]. apply Hk.
Defined.

(** The replaced row, a day after its minute. *)
Definition ex_replaced (s : session_row) : bool :=
  bool_decide (us_token_sha256 s = sha256Bytes ex_token) && is_null (us_revoked_at s) &&
  bool_decide (us_replaced_by_session_id s = Some (newAuthUUID (ex_draw 2 1))) &&
  match us_predecessor_valid_until s with Some v => v <? ex_at 3 0 | None => false end &&
  (ex_at 3 0 <? us_absolute_expires_at s) && (ex_at 3 1 <? us_idle_expires_at s).
Lemma ex_replaced_row :
  match ex_login_row ex_d3 with
  | Some s => ex_replaced s && bool_decide (is_Some (user_rows ex_d3 !! us_user_id s))
  | None => false
  end = true.
Proof. vm_compute. reflexivity. Qed.

Lemma replaced_token_outlives_grace_witness :
  exists s r v, ex_login_row ex_d3 = Some s /\ us_predecessor_valid_until s = Some v /\ v < ex_at 3 0 /\
    AuthenticateSession (ex_at 3) (ex_draw 6) ex_ring ex_token ex_d3 = Ok (r, ex_d3).
Proof.
  pose proof ex_replaced_row as Hx. unfold ex_login_row in *.
  destruct (sessions (auth ex_d3) !! newAuthUUID (ex_draw 1 2)) as [s|] eqn:Hs; [|discriminate Hx].
  unfold ex_replaced in Hx. apply andb_true_iff in Hx as [Hx Hu].
  apply andb_true_iff in Hx as [Hx Hi]. apply andb_true_iff in Hx as [Hx Ha].
  apply andb_true_iff in Hx as [Hx Hv]. apply andb_true_iff in Hx as [Hx Hrep].
  apply andb_true_iff in Hx as [Htok Hrv].
  apply bool_decide_eq_true in Htok, Hrep, Hu. destruct Hu as [u Hu].
  destruct (us_revoked_at s) eqn:Hr; [discriminate Hrv|].
  destruct (us_predecessor_valid_until s) as [v|] eqn:Hp; [|discriminate Hv].
  apply Z.ltb_lt in Hv, Ha, Hi. exists s.
  destruct (replaced_token_outlives_grace (ex_at 3) (ex_draw 6) ex_ring ex_token ex_d3
    (newAuthUUID (ex_draw 1 2)) s u (newAuthUUID (ex_draw 2 1)) ex_inv3
    ltac:(vm_compute; reflexivity) Hs Htok Hrep Hr Hu Ha Hi) as (r & Hauth & _).
  exact (ex_intro _ r (ex_intro _ v (conj eq_refl (conj Hp (conj Hv Hauth))))).
Defined.

(** A login that raced with another of the same account. *)
Lemma login_race_settles_witness :
  upsertExternalIdentity 7 ex_alone (ex_at 0) (ex_draw 1) 0 ex_google "Europe/Paris" ex_d0 =
  upsertExternalIdentity 2 ex_alone (ex_at 0) (ex_draw 1) 0 ex_google "Europe/Paris" ex_d0.
Proof.
  exact (proj1 (login_race_settles ex_alone (ex_at 0) (ex_draw 1) ex_google "Europe/Paris" ex_d0 5
    ex_alone_honest ltac:(by intros k e He))).
Defined.

(** A client's CSRF token is refused on the request that rotates its session after
    a change of keys: the old key is still in the ring and on the session's row, but
    the presented token is checked under the new key. *)
Theorem csrf_lost_on_key_change :
  match ex_login ex_d1 with
  | Ok (login, d) =>
      match AuthenticateSession (ex_at 2) (ex_draw 2) ex_new_ring (ses_Token login) d with
      | Ok (request, _) =>
          ses_CSRFToken login = CSRF ex_new_ring (ses_Token login) "a" /\
          VerifyCSRF ex_new_ring request (ses_CSRFToken login) = false
      | Err _ => False
      end
  | Err _ => False
  end.
Proof. vm_compute. split; reflexivity. Qed.
End History.
