(* ===== verification/Places.v ===== *)
(** * Places

    Models [persistence/places.go]: resolving a coordinate through a provider,
    with the reservation, the provider call and the answer in separate
    transactions, and creating a place from a resolution.  The provider is what it
    does to the callback and what it returns; JSON rendering ([encoding/json] and
    [canonicaljson.Marshal]) is a parameter. *)

From S2P Require Import Prelude GoLib Schema Tables Leases GoText SavedTables SavedMutations Opaque Sessions.

(** ** The provider ([place/mapbox.go]) *)

Inductive FailureCode := FailureProviderUnavailable | FailureResourceExhausted | FailurePlaceNotResolved.

Record ResolveError := MkResolveError { rv_Code : FailureCode; rv_Retryable : bool; rv_Auth : bool }.

Record Candidate := MkCandidate {
  cd_Latitude : spec_float;
  cd_Longitude : spec_float;
  cd_FormattedAddress : string;
  cd_DisplayName : string;
  cd_TimeZoneName : string
}.

Record Coordinate := MkCoordinate { co_Latitude : spec_float; co_Longitude : spec_float }.

(** A call of [Provider.Resolve]: whether it called [beforeRequest], and its result
    given what the callback returned ([None] when it was not called, [Some true] for
    no error).  An error is a [ResolveError] or another one. *)
Record ProviderCall := MkProviderCall {
  pv_calls : bool;
  pv_result : option bool -> Candidate + option ResolveError
}.
Definition Provider : Type := string -> Coordinate -> ProviderCall.

(** ** JSON *)

(** The values given to [json.Marshal]; the members of an object are a map's. *)
#[local] Set Warnings "-register-all".
Inductive json :=
| JNull
| JText (s : string)
| JInt (z : Z)
| JFloat (f : spec_float)
| JBool (b : bool)
| JList (l : list json)
| JObject (members : list (string * json)).

(** [json.Marshal], and [canonicalHTTPBody], which is [canonicaljson.Marshal]. *)
Class HttpJson := {
  json_marshal : json -> option bytes;
  canonicalHTTPBody : bytes -> option bytes
}.

(** What is relied on: the canonical text depends on the JSON value only, so it is
    its own canonical text, and it is the canonical text of what [jsonb] prints for
    it. *)
Class HttpJsonLaws {PG : Postgres} (HJ : HttpJson) : Prop := {
  canonical_again : forall b c, canonicalHTTPBody b = Some c -> canonicalHTTPBody c = Some c;
  canonical_stored : forall b c j, canonicalHTTPBody b = Some c -> jsonb_in c = Some j ->
    canonicalHTTPBody (jsonb_out j) = Some c
}.

Definition lower_byte (b : Byte.byte) : Byte.byte :=
  if (65 <=? byte_val b) && (byte_val b <=? 90) then byte_of (byte_val b + 32) else b.

Definition lowerASCII (value : string) : string :=
  string_of_bytes (List.map lower_byte (bytes_of_string value)).

Definition candidateJSON (c : Candidate) : json :=
  JObject ([("latitude", JFloat (cd_Latitude c)); ("longitude", JFloat (cd_Longitude c));
            ("display_name", JText (cd_DisplayName c)); ("time_zone_name", JText (cd_TimeZoneName c))] ++
           (if bool_decide (cd_FormattedAddress c = "") then []
            else [("formatted_address", JText (cd_FormattedAddress c))])).

Definition resolution_json (token : string) (expiresAt : Z) (c : Candidate) : json :=
  JObject [("resolution_token", JText token); ("expires_at_unix_ms", JInt (unix_milli expiresAt));
           ("candidate", candidateJSON c)].

Definition problem_json (status : Z) (code : string) (retryable : bool) (title requestID : string) : json :=
  JObject [("type", JText ("https://liveroute.invalid/problems/" +:+ lowerASCII code));
           ("title", JText title); ("status", JInt status); ("code", JText code);
           ("request_id", JText requestID); ("retryable", JBool retryable)].

Definition code_text (c : FailureCode) : string :=
  match c with
  | FailureProviderUnavailable => "PROVIDER_UNAVAILABLE"
  | FailureResourceExhausted => "RESOURCE_EXHAUSTED"
  | FailurePlaceNotResolved => "PLACE_NOT_RESOLVED"
  end.

(** Code, status and whether to retry. *)
Definition placeFailure (cause : option ResolveError) : FailureCode * Z * bool :=
  match cause with
  | Some e =>
      match rv_Code e with
      | FailureResourceExhausted => (rv_Code e, 429, true)
      | FailurePlaceNotResolved => (rv_Code e, 422, false)
      | FailureProviderUnavailable => (rv_Code e, 503, rv_Retryable e)
      end
  | None => (FailureProviderUnavailable, 503, true)
  end.

Definition failure_detail (c : FailureCode) : string :=
  match c with
  | FailureResourceExhausted => "place resolution capacity is exhausted"
  | FailurePlaceNotResolved => "place could not be resolved"
  | FailureProviderUnavailable => "place provider is unavailable"
  end.

(** The loop of [equalDigest]: the bits that differ, over the bytes of [l]. *)
Fixpoint difference (l r : bytes) : Z :=
  match l, r with
  | x :: l, y :: r => Z.lor (Z.lxor (byte_val x) (byte_val y)) (difference l r)
  | _, _ => 0
  end.

Definition equalDigest (l r : bytes) : bool :=
  if negb (zlen l =? zlen r) then false else difference l r =? 0.

(** ** Data *)

Record ResolvePlaceInput := MkResolveInput {
  ri_UserID : string;
  ri_IdempotencyKey : string;
  ri_RequestIdentity : bytes;
  ri_RequestID : string;
  ri_Coordinate : Coordinate
}.

Record PlaceHTTPResult := MkPlaceResult {
  ph_Status : Z;
  ph_ContentType : string;
  ph_Body : bytes;
  ph_ResourceID : string
}.

Record CreatePlaceInput := MkCreateInput {
  ci_UserID : string;
  ci_IdempotencyKey : string;
  ci_RequestDigest : bytes;
  ci_ResolutionToken : string;
  ci_RequestID : string
}.

Definition placeResolutionLifetime : Z := 10 * Minute.
Definition httpRecordLifetime : Z := 30 * 24 * Hour.

Definition place_token_text (attemptID : string) : bytes :=
  bytes_of_string "liveroute.place-resolution-token.v1" ++ [Byte.x00] ++ bytes_of_string attemptID.

Definition placeToken (keys : HMACKeyRing) (keyID attemptID : string) : option string :=
  digest ← HMAC keys keyID (place_token_text attemptID); Some (EncodeToString digest).

Section Places.
Context {PG : Postgres} {HJ : HttpJson}.

(** ** Statements *)

Definition in_range (lo hi : Z) (f : spec_float) : bool :=
  let at_ n := SFcompare (binary_normalize 53 1024 n 0 false) f in
  match at_ lo, at_ hi with
  | Some (Lt | Eq), Some (Gt | Eq) => true
  | _, _ => false
  end.

(** The columns a state fixes. *)
Definition resolution_state_check (r : resolution) : bool :=
  let resolved :=
    negb (is_null (pr_resolution_token_sha256 r)) && negb (is_null (pr_latitude r)) &&
    negb (is_null (pr_longitude r)) && negb (is_null (pr_display_name r)) &&
    negb (is_null (pr_time_zone_name r)) && is_null (pr_failure_code r) in
  let unresolved :=
    is_null (pr_resolution_token_sha256 r) && is_null (pr_latitude r) &&
    is_null (pr_longitude r) && is_null (pr_display_name r) && is_null (pr_time_zone_name r) in
  match pr_state r with
  | ResPending => unresolved && is_null (pr_failure_code r) && is_null (pr_consumed_at r)
  | ResResolved => resolved && is_null (pr_consumed_at r)
  | ResFailed => unresolved && negb (is_null (pr_failure_code r)) && is_null (pr_consumed_at r)
  | ResConsumed => resolved && negb (is_null (pr_consumed_at r))
  end.

Definition failure_codes : list string :=
  ["PROVIDER_UNAVAILABLE"; "RESOURCE_EXHAUSTED"; "PLACE_NOT_RESOLVED"; "INVALID_ARGUMENT"; "INTERNAL"].

(** The [CHECK]s of [place_resolution_attempts]. *)
Definition resolution_check (r : resolution) : bool :=
  bool_decide (pr_provider r = "mapbox_geocoding_v6_permanent") &&
  null_or (fun t => zlen t =? 32) (pr_resolution_token_sha256 r) &&
  null_or (in_range (-90) 90) (pr_latitude r) && null_or (in_range (-180) 180) (pr_longitude r) &&
  null_or (fun s => within 1 500 (char_length s)) (pr_formatted_address r) &&
  null_or (fun s => within 1 500 (char_length s)) (pr_display_name r) &&
  null_or (fun s => within 1 64 (char_length s)) (pr_time_zone_name r) &&
  null_or (fun c => bool_decide (c ∈ failure_codes)) (pr_failure_code r) &&
  (pr_created_at r <? pr_expires_at r) && resolution_state_check r.

(** The unique columns and the foreign keys. *)
Definition insert_resolution (op id : string) (r : resolution) : tx unit := fun d =>
  if bool_decide (is_Some (resolutions (auth d) !! id)) || negb (resolution_check r) ||
     negb (bool_decide (pr_user_id r ∈ users d)) ||
     match http_records (saved d) !! pr_idempotency_record_id r with
     | Some h => negb (bool_decide (h_user_id h = pr_user_id r))
     | None => true
     end ||
     any_row (fun _ q => bool_decide (pr_idempotency_record_id q = pr_idempotency_record_id r))
       (resolutions (auth d))
  then Err (ErrDatabase op)
  else Ok (tt, set_resolutions (<[id := r]> (resolutions (auth d))) d).

(** [UPDATE place_resolution_attempts SET f WHERE id = id AND P]: the row written, with
    the unique token digest. *)
Definition update_resolution (op id : string) (P : resolution -> bool)
    (f : resolution -> resolution) : tx (option resolution) := fun d =>
  match resolutions (auth d) !! id with
  | Some r =>
      if P r then
        if resolution_check (f r) &&
           negb (any_row (fun k q => negb (bool_decide (k = id)) &&
                   negb (is_null (pr_resolution_token_sha256 q)) &&
                   bool_decide (pr_resolution_token_sha256 q = pr_resolution_token_sha256 (f r)))
                   (resolutions (auth d)))
        then Ok (Some (f r), set_resolutions (<[id := f r]> (resolutions (auth d))) d)
        else Err (ErrDatabase op)
      else Ok (None, d)
  | None => Ok (None, d)
  end.

Definition is_pending (r : resolution) : bool := bool_decide (pr_state r = ResPending).

(** The [CHECK]s of [places], its unique source and its deferred foreign key. *)
Definition place_row_check (p : place) : bool :=
  in_range (-90) 90 (pc_latitude p) && in_range (-180) 180 (pc_longitude p) &&
  null_or (fun s => within 1 500 (char_length s)) (pc_formatted_address p) &&
  within 1 500 (char_length (pc_display_name p)) && within 1 64 (char_length (pc_time_zone_name p)).

Definition insert_place (op id : string) (p : place) : tx unit := fun d =>
  if bool_decide (is_Some (places (saved d) !! id)) || negb (place_row_check p) ||
     negb (bool_decide (pc_owner_user_id p ∈ users d)) ||
     any_row (fun _ q => bool_decide (pc_source_resolution_id q = pc_source_resolution_id p))
       (places (saved d)) ||
     match resolutions (auth d) !! pc_source_resolution_id p with
     | Some r => negb (bool_decide (pr_user_id r = pc_owner_user_id p))
     | None => true
     end
  then Err (ErrDatabase op)
  else Ok (tt, set_places (<[id := p]> (places (saved d))) d).

(** ** [Resolve] *)

Definition resolve_path : string := "/api/v1/places/resolve".
Definition create_path : string := "/api/v1/places".

Definition resolve_record (clk : nat -> Z) (userID key keyID : string) (digest : bytes) : http_record :=
  HttpRecord userID None key "POST" resolve_path "resolve_place" "rfc8785-hmac-sha256-v1" (Some keyID)
    digest InProgress None None None None None (clk 0%nat) None
    (clk 1%nat + pg_interval httpRecordLifetime).

Definition pending_resolution (clk : nat -> Z) (userID recordID : string) : resolution :=
  Resolution userID recordID "mapbox_geocoding_v6_permanent" ResPending None None None None None None
    None None (clk 3%nat) (clk 4%nat + pg_interval placeResolutionLifetime) None.

(** The candidate of a stored resolution; a NULL column cannot be scanned. *)
Definition stored_candidate (op : string) (r : resolution) : result Candidate :=
  latitude ← of_option (pr_latitude r) (ErrDatabase op);
  longitude ← of_option (pr_longitude r) (ErrDatabase op);
  name ← of_option (pr_display_name r) (ErrDatabase op);
  zone ← of_option (pr_time_zone_name r) (ErrDatabase op);
  Ok (MkCandidate latitude longitude (default "" (pr_formatted_address r)) name zone).

Definition replay_row (recordID : string) (_ : string) (r : resolution) : bool :=
  bool_decide (pr_idempotency_record_id r = recordID) &&
  bool_decide (pr_state r ∈ [ResResolved; ResConsumed]).

Definition resolution_body (token : string) (expiresAt : Z) (c : Candidate) : result bytes :=
  body ← of_option (json_marshal (resolution_json token expiresAt c)) (ErrInvalid "marshal place body");
  of_option (canonicalHTTPBody body) (ErrInvalid "canonicalize place body").

Definition resolutionReplayBody (keys : HMACKeyRing) (recordID keyID : string) : tx bytes :=
  let op := "load place resolution replay candidate" in
  row ← find_row (fun d => head (rows_where (replay_row recordID) (resolutions (auth d))))
          (ErrDatabase op);
  candidate ← lift (stored_candidate op row.2);
  token ← lift (of_option (placeToken keys keyID row.1)
                  (ErrInvalid "place resolution token key is unavailable"));
  lift (resolution_body token (pr_expires_at row.2) candidate).

(** The answer of a stored record. *)
Definition replay_resolution (keys : HMACKeyRing) (identity : bytes) (kv : string * http_record)
  : tx PlaceHTTPResult :=
  let '(recordID, h) := kv in
  keyID ← lift (of_option (h_request_digest_key_id h) (ErrDatabase "load place resolution replay"));
  replayDigest ← lift (of_option (HMAC keys keyID identity)
                         (ErrInvalid "place resolution replay HMAC key is unavailable"));
  _ ← guard (negb (equalDigest (h_request_digest h) replayDigest)) ErrHTTPIdempotencyReused;
  _ ← guard (negb (bool_decide (h_state h = Completed))) ErrHTTPMutationPending;
  status ← lift (of_option (h_response_status h) ErrHTTPMutationPending);
  contentType ← lift (of_option (h_response_content_type h) ErrHTTPMutationPending);
  body ←
    (if status =? 200 then resolutionReplayBody keys recordID keyID
     else mret (match h_response_body h with Some j => jsonb_out j | None => [] end));
  body ← lift (of_option (canonicalHTTPBody body) (ErrInvalid "canonicalize place resolution replay"));
  mret (MkPlaceResult status contentType body "").

(** [None] when the resolution is reserved, else the answer to repeat. *)
Definition reserveResolution (clk : nat -> Z) (keys : HMACKeyRing) (input : ResolvePlaceInput)
    (recordID attemptID keyID : string) (digest : bytes) : tx (option PlaceHTTPResult) :=
  key ← text_param "reserve place resolution" keyID;
  inserted ← insert_http_record "reserve place resolution" recordID
    (resolve_record clk (ri_UserID input) (ri_IdempotencyKey input) key digest);
  if (inserted : bool) then
    _ ← insert_resolution "create place resolution attempt" attemptID
          (pending_resolution clk (ri_UserID input) recordID);
    mret None
  else
    kv ← find_row (stored_record (ri_UserID input) "POST" resolve_path (ri_IdempotencyKey input))
           (ErrDatabase "load place resolution replay");
    answer ← replay_resolution keys (ri_RequestIdentity input) kv;
    mret (Some answer).

(** The callback: whether the attempt is marked. *)
Definition mark_started (now : Z) (attemptID userID : string) : tx bool :=
  row ← update_resolution "mark place resolution" attemptID
          (fun r => bool_decide (pr_user_id r = userID) && is_pending r)
          (set_pr_provider_request_started_at (Some now));
  mret (negb (is_null row)).

Definition resolved_row (token : bytes) (c : Candidate) (name address zone : string) (expiresAt : Z)
    (r : resolution) : resolution :=
  set_pr_expires_at expiresAt (set_pr_time_zone_name (Some zone) (set_pr_display_name (Some name)
    (set_pr_formatted_address (nullableString address) (set_pr_longitude (Some (cd_Longitude c))
      (set_pr_latitude (Some (cd_Latitude c)) (set_pr_resolution_token_sha256 (Some token)
        (set_pr_state ResResolved r))))))).

(** The record of an answered request. *)
Definition answered_record (status : Z) (contentType : string) (body : option jsonb)
    (resource : http_record -> option string) (now : Z) (h : http_record) : http_record :=
  set_h_completed_at (Some now) (set_h_resource_id (resource h) (set_h_response_body body
    (set_h_response_content_type (Some contentType) (set_h_response_status (Some status)
      (set_h_state Completed h))))).

Definition finalizeResolutionSuccess (clk : nat -> Z) (recordID attemptID token : string)
    (candidate : Candidate) : tx PlaceHTTPResult :=
  let op := "store place candidate" in
  address ← text_param op (cd_FormattedAddress candidate);
  name ← text_param op (cd_DisplayName candidate);
  zone ← text_param op (cd_TimeZoneName candidate);
  row ← update_resolution op attemptID is_pending
          (resolved_row (sha256Bytes token) candidate name address zone
             (clk 0%nat + pg_interval placeResolutionLifetime));
  row ← lift (of_option row (ErrDatabase op));
  body ← lift (resolution_body token (pr_expires_at row) candidate);
  _ ← update_http_record "complete place resolution" recordID in_progress
        (answered_record 200 "application/json" None (fun _ => Some attemptID) (clk 1%nat));
  mret (MkPlaceResult 200 "application/json" body attemptID).

(** A [jsonb] parameter of the statement [op]. *)
Definition jsonb_param (op : string) (body : bytes) : result jsonb :=
  of_option (jsonb_in body) (ErrDatabase op).

Definition finalizeResolutionFailure (clk : nat -> Z) (recordID attemptID requestID : string)
    (cause : option ResolveError) : tx PlaceHTTPResult :=
  let '(code, status, retryable) := placeFailure cause in
  let body := json_marshal (problem_json status (code_text code) retryable (failure_detail code) requestID)
                ≫= canonicalHTTPBody in
  _ ← update_resolution "fail place resolution attempt" attemptID is_pending
        (fun r => set_pr_failure_code (Some (code_text code)) (set_pr_state ResFailed r));
  stored ← lift (convert "complete failed place resolution" jsonb_in body);
  _ ← update_http_record "complete failed place resolution" recordID in_progress
        (answered_record status "application/problem+json" stored h_resource_id (clk 0%nat));
  mret (MkPlaceResult status "application/problem+json" (default [] body) "").

(** From the provider's answer on. *)
Definition finish_resolution (clk : nat -> Z) (keys : HMACKeyRing) (input : ResolvePlaceInput)
    (recordID attemptID keyID : string) (outcome : Candidate + option ResolveError) : tx PlaceHTTPResult :=
  match outcome with
  | inr cause => finalizeResolutionFailure clk recordID attemptID (ri_RequestID input) cause
  | inl candidate =>
      match placeToken keys keyID attemptID with
      | None => finalizeResolutionFailure clk recordID attemptID (ri_RequestID input)
                  (Some (MkResolveError FailureProviderUnavailable true false))
      | Some token => finalizeResolutionSuccess clk recordID attemptID token candidate
      end
  end.

(** The provider's answer, when the attempt was or was not marked. *)
Definition provider_outcome (p : ProviderCall) (marked : bool) : Candidate + option ResolveError :=
  match pv_result p (if pv_calls p then Some marked else None) with
  | inl candidate =>
      if marked then inl candidate
      else inr (Some (MkResolveError FailureProviderUnavailable true false))
  | inr cause => inr cause
  end.

(** Three transactions: the reservation reads the clock at 0 to 4, the mark at 5, the
    answer at 6 and 7. *)
Definition Resolve (clk : nat -> Z) (rng : nat -> bytes) (keys : HMACKeyRing) (p : Provider)
    (input : ResolvePlaceInput) (d : db) : result PlaceHTTPResult * db :=
  if negb (validCanonicalUUID (ri_UserID input)) || negb (validCanonicalUUID (ri_IdempotencyKey input)) ||
     (zlen (ri_RequestIdentity input) =? 0) || negb (validCanonicalUUID (ri_RequestID input))
  then (Err ErrPlaceInput, d)
  else
    let keyID := CurrentID keys in
    match HMAC keys keyID (ri_RequestIdentity input) with
    | None => (Err (ErrInvalid "current place request HMAC key is unavailable"), d)
    | Some digest =>
        let attemptID := newAuthUUID (rng 0%nat) in
        let recordID := newAuthUUID (rng 1%nat) in
        match run_tx (reserveResolution clk keys input recordID attemptID keyID digest) d with
        | (Err e, d1) => (Err e, d1)
        | (Ok (Some replay), d1) => (Ok replay, d1)
        | (Ok None, d1) =>
            let call := p (ri_UserID input) (ri_Coordinate input) in
            let '(marked, d2) :=
              if pv_calls call then
                match run_tx (mark_started (clk 5%nat) attemptID (ri_UserID input)) d1 with
                | (Ok b, d2) => (b, d2)
                | (Err _, d2) => (false, d2)
                end
              else (false, d1) in
            run_tx (finish_resolution (shift 6 clk) keys input recordID attemptID keyID
                      (provider_outcome call marked)) d2
        end
    end.

(** ** [Create] *)

Definition create_record (clk : nat -> Z) (input : CreatePlaceInput) : http_record :=
  HttpRecord (ci_UserID input) None (ci_IdempotencyKey input) "POST" create_path "create_place"
    "rfc8785-sha256-v1" None (ci_RequestDigest input) InProgress None None None None None (clk 0%nat)
    None (clk 1%nat + pg_interval httpRecordLifetime).

(** NULLs of the response columns cannot be scanned, and are scanned first. *)
Definition replay_creation (digest : bytes) (h : http_record) : result PlaceHTTPResult :=
  let op := "load place creation replay" in
  status ← of_option (h_response_status h) (ErrDatabase op);
  contentType ← of_option (h_response_content_type h) (ErrDatabase op);
  _ ← reject_if (negb (equalDigest (h_request_digest h) digest)) ErrHTTPIdempotencyReused;
  _ ← reject_if (negb (bool_decide (h_state h = Completed))) ErrHTTPMutationPending;
  body ← of_option (canonicalHTTPBody (match h_response_body h with Some j => jsonb_out j | None => [] end))
           (ErrInvalid "canonicalize place creation replay");
  Ok (MkPlaceResult status contentType body "").

Definition usable_resolution (now : Z) (userID : string) (token : bytes) (_ : string) (r : resolution)
  : bool :=
  bool_decide (pr_user_id r = userID) && bool_decide (pr_resolution_token_sha256 r = Some token) &&
  bool_decide (pr_state r = ResResolved) && (now <? pr_expires_at r).

Definition placeProblemBody (status : Z) (code : string) (retryable : bool) (title requestID : string)
  : result bytes :=
  body ← of_option (json_marshal (problem_json status code retryable title requestID))
           (ErrInvalid "marshal place body");
  of_option (canonicalHTTPBody body) (ErrInvalid "canonicalize place body").

Definition place_json (placeID : string) (p : place) : json :=
  JObject ([("place_id", JText placeID); ("latitude", JFloat (pc_latitude p));
            ("longitude", JFloat (pc_longitude p)); ("display_name", JText (pc_display_name p));
            ("time_zone_name", JText (pc_time_zone_name p));
            ("created_at_unix_ms", JInt (unix_milli (pc_created_at p)))] ++
           match pc_formatted_address p with
           | Some a => [("formatted_address", JText a)]
           | None => []
           end).

Definition place_body (placeID : string) (p : place) : result bytes :=
  of_option (canonicalHTTPBody (default [] (json_marshal (place_json placeID p))))
    (ErrInvalid "canonicalize place body").

Definition always (h : http_record) : bool := true.

(** No usable resolution: the answer is stored all the same. *)
Definition refuse_creation (now : Z) (recordID requestID : string) : tx PlaceHTTPResult :=
  body ← lift (placeProblemBody 410 "NOT_FOUND" false "place resolution has expired or was consumed"
                 requestID);
  stored ← lift (jsonb_param "complete unavailable place creation" body);
  _ ← update_http_record "complete unavailable place creation" recordID always
        (answered_record 410 "application/problem+json" (Some stored) h_resource_id now);
  mret (MkPlaceResult 410 "application/problem+json" body "").

Definition create_from (clk : nat -> Z) (placeID recordID userID resolutionID : string) (r : resolution)
  : tx PlaceHTTPResult :=
  c ← lift (stored_candidate "lock place resolution" r);
  let p := Place userID resolutionID (cd_Latitude c) (cd_Longitude c) (pr_formatted_address r)
             (cd_DisplayName c) (cd_TimeZoneName c) (clk 0%nat) in
  _ ← insert_place "insert place" placeID p;
  _ ← update_resolution "consume place resolution" resolutionID (fun _ => true)
        (fun r => set_pr_consumed_at (Some (clk 1%nat)) (set_pr_state ResConsumed r));
  body ← lift (place_body placeID p);
  stored ← lift (jsonb_param "complete place creation" body);
  _ ← update_http_record "complete place creation" recordID always
        (answered_record 201 "application/json" (Some stored) (fun _ => Some placeID) (clk 2%nat));
  mret (MkPlaceResult 201 "application/json" body placeID).

(** [Create] of [PlaceStore]. *)
Definition CreatePlace (clk : nat -> Z) (rng : nat -> bytes) (input : CreatePlaceInput)
  : tx PlaceHTTPResult :=
  _ ← guard (negb (validCanonicalUUID (ci_UserID input)) ||
             negb (validCanonicalUUID (ci_IdempotencyKey input)) ||
             negb (validOpaqueToken (ci_ResolutionToken input)) ||
             negb (validCanonicalUUID (ci_RequestID input))) ErrPlaceInput;
  let recordID := newAuthUUID (rng 0%nat) in
  inserted ← insert_http_record "reserve place creation" recordID (create_record clk input);
  if (inserted : bool) then
    row ← gets (fun d => head (rows_where (usable_resolution (clk 2%nat) (ci_UserID input)
             (sha256Bytes (ci_ResolutionToken input))) (resolutions (auth d))));
    match row with
    | None => refuse_creation (clk 3%nat) recordID (ci_RequestID input)
    | Some (resolutionID, r) =>
        create_from (shift 3 clk) (newAuthUUID (rng 1%nat)) recordID (ci_UserID input) resolutionID r
    end
  else
    kv ← find_row (stored_record (ci_UserID input) "POST" create_path (ci_IdempotencyKey input))
           (ErrDatabase "load place creation replay");
    lift (replay_creation (ci_RequestDigest input) kv.2).

End Places.
