(* ===== verification/PlaceProps.v ===== *)
(** * Places: what the operations guarantee

    A resolution is answered once and repeated afterwards, also after the keys
    changed; its token creates one place, with the candidate's data and for the
    user who resolved it; a creation is never left unanswered and repeats its
    answer. *)

From S2P Require Import Prelude GoLib Schema Tables Leases GoText SavedTables SavedMutations SavedFacts Opaque Sessions SessionFacts Places.

(** ** What the place operations do

    The rows [Resolve] and [CreatePlace] write, the transition system of the two
    with the rest of the backend, and its invariant: a request has one record, a
    record one attempt, a token one attempt, and a creation is answered in the
    transaction that records it. *)

Section Facts.
Context {PG : Postgres} `{!PostgresLaws PG} {HJ : HttpJson}.

Implicit Types (d : db) (r : resolution) (h : http_record).

(** ** Digests *)

Lemma byte_val_inj x y : byte_val x = byte_val y -> x = y.
Proof. intros Heq. rewrite <- (byte_of_val x), <- (byte_of_val y). by rewrite Heq. Qed.

Lemma difference_nonneg (l r : bytes) : 0 <= difference l r.
Proof.
  revert r. induction l as [|x l IH]; intros [|y r]; simpl; try lia.
  apply Z.lor_nonneg. split; [|apply IH].
  pose proof (byte_val_range x). pose proof (byte_val_range y). apply Z.lxor_nonneg. lia.
Qed.

Lemma difference_zero (l r : bytes) : length l = length r -> difference l r = 0 <-> l = r.
Proof.
  revert r. induction l as [|x l IH]; intros [|y r] Hl; simpl in *; try done.
  injection Hl as Hl. rewrite Z.lor_eq_0_iff, IH, Z.lxor_eq_0_iff by done. split.
  - intros [Hx%byte_val_inj ->]. by rewrite Hx.
  - by intros [= -> ->].
Qed.

(** The comparison that accumulates the differing bits decides equality. *)
Lemma equalDigest_spec (l r : bytes) : equalDigest l r = true <-> l = r.
Proof.
  unfold equalDigest, zlen. destruct (_ =? _) eqn:E; simpl; zbool.
  - rewrite Z.eqb_eq. apply difference_zero. lia.
  - split; [done|]. intros ->. lia.
Qed.

(** ** Statements *)

Lemma insert_resolution_ok op id r d u d' :
  insert_resolution op id r d = Ok (u, d') ->
  resolutions (auth d) !! id = None /\ resolution_check r = true /\
  (forall k q, resolutions (auth d) !! k = Some q ->
     pr_idempotency_record_id q <> pr_idempotency_record_id r) /\
  d' = set_resolutions (<[id := r]> (resolutions (auth d))) d.
Proof.
  unfold insert_resolution. destruct (_ || _) eqn:E; [done|]. intros [= _ <-]. inv_res.
  rewrite <- eq_None_not_Some in *. split_and!; try done. intros k q Hq Heq.
  match goal with Ha : any_row _ _ = false |- _ => rewrite any_row_false in Ha;
    specialize (Ha _ _ Hq) end. by case_bool_decide.
Qed.

Lemma update_resolution_ok op id P f d x d' r :
  resolutions (auth d) !! id = Some r -> P r = true ->
  update_resolution op id P f d = Ok (x, d') ->
  x = Some (f r) /\ resolution_check (f r) = true /\
  (forall k q t, resolutions (auth d) !! k = Some q -> k <> id ->
     pr_resolution_token_sha256 q = Some t -> pr_resolution_token_sha256 (f r) <> Some t) /\
  d' = set_resolutions (<[id := f r]> (resolutions (auth d))) d.
Proof.
  intros Hr HP. unfold update_resolution. rewrite Hr, HP.
  destruct (_ && _) eqn:E; [|done]. intros [= <- <-]. inv_res. split_and!; try done.
  intros k q t Hq Hk Ht Hf.
  match goal with Ha : any_row _ _ = false |- _ => rewrite any_row_false in Ha;
    specialize (Ha _ _ Hq); rewrite (bool_decide_eq_false_2 (k = id)), Ht in Ha by done;
    simpl in Ha; apply bool_decide_eq_false in Ha end. congruence.
Qed.

Lemma insert_place_ok op id p d u d' :
  insert_place op id p d = Ok (u, d') ->
  places (saved d) !! id = None /\ place_row_check p = true /\
  (forall k q, places (saved d) !! k = Some q -> pc_source_resolution_id q <> pc_source_resolution_id p) /\
  d' = set_places (<[id := p]> (places (saved d))) d.
Proof.
  unfold insert_place. destruct (_ || _) eqn:E; [done|]. intros [= _ <-]. inv_res.
  rewrite <- eq_None_not_Some in *. split_and!; try done. intros k q Hq Heq.
  match goal with Ha : any_row _ _ = false |- _ => rewrite any_row_false in Ha;
    specialize (Ha _ _ Hq) end. by case_bool_decide.
Qed.

(** ** A reservation *)

(** The database with one more record and its attempt. *)
Record reserved_in (rid aid : string) (h : http_record) (r : resolution) (d d' : db) : Prop := {
  rs_record_new : http_records (saved d) !! rid = None;
  rs_path : h_normalized_path h = resolve_path;
  rs_request : forall k q, http_records (saved d) !! k = Some q ->
    same_request (h_user_id h) (h_http_method h) (h_normalized_path h) (h_idempotency_key h) q = false;
  rs_records : http_records (saved d') = <[rid := h]> (http_records (saved d));
  rs_attempt_new : resolutions (auth d) !! aid = None;
  rs_attempt_record : pr_idempotency_record_id r = rid;
  rs_attempt : forall k q, resolutions (auth d) !! k = Some q -> pr_idempotency_record_id q <> rid;
  rs_token : forall k q t, resolutions (auth d) !! k = Some q ->
    pr_resolution_token_sha256 q = Some t -> pr_resolution_token_sha256 r <> Some t;
  rs_check : resolution_check r = true;
  rs_attempts : resolutions (auth d') = <[aid := r]> (resolutions (auth d));
  rs_places : places (saved d') = places (saved d);
  rs_users : user_rows d' = user_rows d
}.

Lemma reserve_fresh clk keys input rid aid keyID digest d d' :
  reserveResolution clk keys input rid aid keyID digest d = Ok (None, d') ->
  text_in keyID = Some keyID /\
  reserved_in rid aid (resolve_record clk (ri_UserID input) (ri_IdempotencyKey input) keyID digest)
    (pending_resolution clk (ri_UserID input) rid) d d'.
Proof.
  unfold reserveResolution. intros Hx.
  apply tx_bind_ok in Hx as (key & d0 & Hk & Hx).
  assert (Htext : text_in keyID = Some key).
  { unfold text_param in Hk. apply lift_ok in Hk as [Hk _]. by apply of_option_ok in Hk. }
  apply text_param_ok in Hk as [-> ->].
  apply tx_bind_ok in Hx as (b & d1 & Hi & Hx). apply insert_http_record_ok in Hi as [Hck Hi].
  destruct b.
  - destruct Hi as (Hnew & Huser & Hreq & ->). apply tx_bind_ok in Hx as ([] & d2 & Hr & Hx).
    apply mret_ok in Hx as [_ <-]. apply insert_resolution_ok in Hr as (Hfr & Hc & Hrec & ->).
    split; [done|]. by constructor.
  - subst d1. apply tx_bind_ok in Hx as (kv & d2 & _ & Hx).
    apply tx_bind_ok in Hx as (a & d3 & _ & Hx). by apply mret_ok in Hx as [? _].
Qed.

(** A change of the attempt and of its record in place. *)
Lemma reserved_in_attempt rid aid h r r' d d1 :
  reserved_in rid aid h r d d1 -> pr_idempotency_record_id r' = rid -> resolution_check r' = true ->
  (forall k q t, resolutions (auth d1) !! k = Some q -> k <> aid ->
     pr_resolution_token_sha256 q = Some t -> pr_resolution_token_sha256 r' <> Some t) ->
  reserved_in rid aid h r' d (set_resolutions (<[aid := r']> (resolutions (auth d1))) d1).
Proof.
  intros [] Hrec Hck Htok. constructor; simpl; try done.
  - intros k q t Hq. apply (Htok k); [|congruence]. rewrite rs_attempts0, lookup_insert_ne; [done|congruence].
  - rewrite rs_attempts0. by rewrite insert_insert_eq.
Qed.

Lemma reserved_in_record rid aid h h' r d d1 :
  reserved_in rid aid h r d d1 -> h_user_id h' = h_user_id h -> h_http_method h' = h_http_method h ->
  h_normalized_path h' = h_normalized_path h -> h_idempotency_key h' = h_idempotency_key h ->
  reserved_in rid aid h' r d (set_http_records (<[rid := h']> (http_records (saved d1))) d1).
Proof.
  intros [] Hu Hm Hp Hk. constructor; simpl; try done.
  - congruence.
  - by rewrite Hu, Hm, Hp, Hk.
  - rewrite rs_records0. by rewrite insert_insert_eq.
Qed.

Lemma reserved_rows rid aid h r d d' : reserved_in rid aid h r d d' ->
  http_records (saved d') !! rid = Some h /\ resolutions (auth d') !! aid = Some r.
Proof. intros []. by rewrite rs_records0, rs_attempts0, !lookup_insert_eq. Qed.

Lemma mark_started_ok now aid userID d b d' r :
  resolutions (auth d) !! aid = Some r -> pr_user_id r = userID -> pr_state r = ResPending ->
  mark_started now aid userID d = Ok (b, d') ->
  b = true /\ resolution_check (set_pr_provider_request_started_at (Some now) r) = true /\ d' = set_resolutions (<[aid := set_pr_provider_request_started_at (Some now) r]>
                     (resolutions (auth d))) d.
Proof.
  intros Hr Hu Hs. unfold mark_started. intros (x & d1 & Hx & Hm)%tx_bind_ok.
  apply mret_ok in Hm as [<- <-]. apply (update_resolution_ok _ _ _ _ _ _ _ r) in Hx as (-> & Hck & _ & ->).
  - done.
  - done.
  - unfold is_pending. by rewrite !bool_decide_eq_true_2.
Qed.

(** The attempt of an answered resolution. *)
Inductive answered_attempt (clk : nat -> Z) (keys : HMACKeyRing) (keyID aid : string)
    (outcome : Candidate + option ResolveError) (r0 : resolution)
  : resolution -> http_record -> http_record -> PlaceHTTPResult -> Prop :=
| aa_resolved token c body h :
    outcome = inl c -> placeToken keys keyID aid = Some token ->
    let r := resolved_row (sha256Bytes token) c (cd_DisplayName c) (cd_FormattedAddress c)
               (cd_TimeZoneName c) (clk 0%nat + pg_interval placeResolutionLifetime) r0 in
    resolution_check r = true ->
    resolution_body token (pr_expires_at r) c = Ok body ->
    answered_attempt clk keys keyID aid outcome r0 r h
      (answered_record 200 "application/json" None (fun _ => Some aid) (clk 1%nat) h)
      (MkPlaceResult 200 "application/json" body aid)
| aa_failed cause code status retryable requestID stored h :
    placeFailure cause = (code, status, retryable) ->
    let body := json_marshal (problem_json status (code_text code) retryable (failure_detail code) requestID)
                  ≫= canonicalHTTPBody in
    convert "complete failed place resolution" jsonb_in body = Ok stored ->
    answered_attempt clk keys keyID aid outcome r0
      (set_pr_failure_code (Some (code_text code)) (set_pr_state ResFailed r0)) h
      (answered_record status "application/problem+json" stored h_resource_id (clk 0%nat) h)
      (MkPlaceResult status "application/problem+json" (default [] body) "").

Lemma finalize_failure_ok clk keys keyID rid aid outcome requestID cause d a d' h r :
  http_records (saved d) !! rid = Some h -> h_state h = InProgress ->
  resolutions (auth d) !! aid = Some r -> pr_state r = ResPending ->
  pr_resolution_token_sha256 r = None ->
  finalizeResolutionFailure clk rid aid requestID cause d = Ok (a, d') ->
  exists r' h', answered_attempt clk keys keyID aid outcome r r' h h' a /\ resolution_check r' = true /\
    (forall k q t, resolutions (auth d) !! k = Some q -> k <> aid ->
       pr_resolution_token_sha256 q = Some t -> pr_resolution_token_sha256 r' <> Some t) /\
    d' = set_http_records (<[rid := h']> (http_records (saved d)))
           (set_resolutions (<[aid := r']> (resolutions (auth d))) d).
Proof.
  intros Hh Hst Hr Hp Htok. unfold finalizeResolutionFailure.
  destruct (placeFailure cause) as [[code status] retryable] eqn:Hf. intros Hx.
  apply tx_bind_ok in Hx as (x & d1 & Hu & Hx).
  apply (update_resolution_ok _ _ _ _ _ _ _ r) in Hu as (_ & Hck & _ & ->);
    [|done|unfold is_pending; by rewrite bool_decide_eq_true_2].
  apply tx_bind_ok in Hx as (stored & d1 & (Hc & ->)%lift_ok & Hx).
  apply tx_bind_ok in Hx as (n & d1 & Hu & Hx). apply mret_ok in Hx as [<- <-].
  apply (update_http_record_ok _ _ _ _ _ _ _ h) in Hu as (_ & _ & _ & ->);
    [|done|unfold in_progress; by rewrite bool_decide_eq_true_2].
  do 2 eexists. split_and!; [by eapply aa_failed|exact Hck| |done].
  intros k q t _ _ _. simpl. by rewrite Htok.
Qed.

Lemma finalize_success_ok clk keys keyID rid aid token c d a d' h r :
  http_records (saved d) !! rid = Some h -> h_state h = InProgress ->
  resolutions (auth d) !! aid = Some r -> pr_state r = ResPending ->
  placeToken keys keyID aid = Some token ->
  finalizeResolutionSuccess clk rid aid token c d = Ok (a, d') ->
  exists r' h', answered_attempt clk keys keyID aid (inl c) r r' h h' a /\ resolution_check r' = true /\
    (forall k q t, resolutions (auth d) !! k = Some q -> k <> aid ->
       pr_resolution_token_sha256 q = Some t -> pr_resolution_token_sha256 r' <> Some t) /\
    d' = set_http_records (<[rid := h']> (http_records (saved d)))
           (set_resolutions (<[aid := r']> (resolutions (auth d))) d).
Proof.
  intros Hh Hst Hr Hp Htok. unfold finalizeResolutionSuccess. intros Hx.
  apply tx_bind_ok in Hx as (address & d1 & (-> & ->)%text_param_ok & Hx).
  apply tx_bind_ok in Hx as (name & d1 & (-> & ->)%text_param_ok & Hx).
  apply tx_bind_ok in Hx as (zone & d1 & (-> & ->)%text_param_ok & Hx).
  apply tx_bind_ok in Hx as (x & d1 & Hu & Hx).
  apply (update_resolution_ok _ _ _ _ _ _ _ r) in Hu as (-> & Hck & Hut & ->);
    [|done|unfold is_pending; by rewrite bool_decide_eq_true_2].
  apply tx_bind_ok in Hx as (row & d1 & (Hrow & ->)%lift_ok & Hx).
  apply of_option_ok in Hrow. injection Hrow as <-.
  apply tx_bind_ok in Hx as (body & d1 & (Hb & ->)%lift_ok & Hx).
  apply tx_bind_ok in Hx as (n & d1 & Hu & Hx). apply mret_ok in Hx as [<- <-].
  apply (update_http_record_ok _ _ _ _ _ _ _ h) in Hu as (_ & _ & _ & ->);
    [|done|unfold in_progress; by rewrite bool_decide_eq_true_2].
  do 2 eexists. split_and!; [by eapply aa_resolved|exact Hck|exact Hut|done].
Qed.

Lemma finish_ok clk keys input keyID rid aid outcome d a d' h r :
  http_records (saved d) !! rid = Some h -> h_state h = InProgress ->
  resolutions (auth d) !! aid = Some r -> pr_state r = ResPending ->
  pr_resolution_token_sha256 r = None ->
  finish_resolution clk keys input rid aid keyID outcome d = Ok (a, d') ->
  exists r' h', answered_attempt clk keys keyID aid outcome r r' h h' a /\ resolution_check r' = true /\
    (forall k q t, resolutions (auth d) !! k = Some q -> k <> aid ->
       pr_resolution_token_sha256 q = Some t -> pr_resolution_token_sha256 r' <> Some t) /\
    d' = set_http_records (<[rid := h']> (http_records (saved d)))
           (set_resolutions (<[aid := r']> (resolutions (auth d))) d).
Proof.
  intros Hh Hst Hr Hp Htok. unfold finish_resolution.
  destruct outcome as [c|cause]; [destruct (placeToken keys keyID aid) as [token|] eqn:Ht|].
  - by apply finalize_success_ok.
  - by apply finalize_failure_ok.
  - by apply finalize_failure_ok.
Qed.

(** ** [Resolve] *)

(** The attempt before the provider's answer. *)
Definition open_attempt (r : resolution) : Prop :=
  pr_state r = ResPending /\ pr_resolution_token_sha256 r = None.

(** What a call leaves: nothing new, an open reservation, or an answered one. *)
Inductive resolve_run (clk : nat -> Z) (rng : nat -> bytes) (keys : HMACKeyRing)
    (p : Provider) (input : ResolvePlaceInput) (d : db) : result PlaceHTTPResult -> db -> Prop :=
| rr_same a : (forall x, a = Ok x -> exists kv,
      stored_record (ri_UserID input) "POST" resolve_path (ri_IdempotencyKey input) d = Some kv) ->
    resolve_run clk rng keys p input d a d
| rr_open e h r d' :
    reserved_in (newAuthUUID (rng 1%nat)) (newAuthUUID (rng 0%nat)) h r d d' ->
    h_state h = InProgress -> open_attempt r -> resolve_run clk rng keys p input d (Err e) d'
| rr_done digest marked r0 r h a d' :
    let keyID := CurrentID keys in
    let h0 := resolve_record clk (ri_UserID input) (ri_IdempotencyKey input) keyID digest in
    HMAC keys keyID (ri_RequestIdentity input) = Some digest ->
    pr_user_id r0 = ri_UserID input ->
    reserved_in (newAuthUUID (rng 1%nat)) (newAuthUUID (rng 0%nat)) h r d d' ->
    answered_attempt (shift 6 clk) keys keyID (newAuthUUID (rng 0%nat))
      (provider_outcome (p (ri_UserID input) (ri_Coordinate input)) marked) r0 r h0 h a ->
    resolve_run clk rng keys p input d (Ok a) d'.

Lemma reserve_replay clk keys input rid aid keyID digest d a d' :
  reserveResolution clk keys input rid aid keyID digest d = Ok (Some a, d') ->
  d' = d /\ exists kv,
    stored_record (ri_UserID input) "POST" resolve_path (ri_IdempotencyKey input) d = Some kv.
Proof.
  unfold reserveResolution. intros Hx.
  apply tx_bind_ok in Hx as (key & d0 & (-> & ->)%text_param_ok & Hx).
  apply tx_bind_ok in Hx as (b & d1 & Hi & Hx). apply insert_http_record_ok in Hi as [_ Hi].
  destruct b.
  - apply tx_bind_ok in Hx as ([] & d2 & _ & Hx). by apply mret_ok in Hx as [? _].
  - subst d1. apply tx_bind_ok in Hx as (kv & d2 & (Hkv & ->)%find_row_ok & Hx).
    apply tx_bind_ok in Hx as (r & d3 & Hr & Hx). apply mret_ok in Hx as [_ <-].
    split; [|by exists kv]. destruct kv as [k h]. unfold replay_resolution, resolutionReplayBody in Hr.
    inv_tx; repeat (case_match; inv_tx); done.
Qed.

Lemma Resolve_run clk rng keys p input d a d' :
  Resolve clk rng keys p input d = (a, d') -> resolve_run clk rng keys p input d a d'.
Proof.
  unfold Resolve. destruct (_ || _); [intros [= <- <-]; by apply rr_same|].
  destruct (HMAC _ _ _) as [digest|] eqn:Hd; [|intros [= <- <-]; by apply rr_same].
  unfold run_tx at 1. destruct (reserveResolution _ _ _ _ _ _ _ d) as [[[replay|] d1]|e] eqn:Hres.
  { intros [= <- <-]. apply reserve_replay in Hres as (-> & Hkv). by apply rr_same. }
  2: { intros [= <- <-]. by apply rr_same. }
  apply reserve_fresh in Hres as (_ & Hin).
  set (h0 := resolve_record _ _ _ _ _) in *. set (r0 := pending_resolution _ _ _) in *.
  set (call := p _ _).
  assert (exists marked d2 r1, (if pv_calls call
      then match run_tx (mark_started (clk 5%nat) (newAuthUUID (rng 0%nat)) (ri_UserID input)) d1 with
           | (Ok b, d2) => (b, d2) | (Err _, d2) => (false, d2) end
      else (false, d1)) = (marked, d2) /\
    reserved_in (newAuthUUID (rng 1%nat)) (newAuthUUID (rng 0%nat)) h0 r1 d d2 /\
    open_attempt r1 /\ pr_user_id r1 = ri_UserID input) as (marked & d2 & r1 & -> & Hin2 & Hop & Hus).
  { destruct (pv_calls call); [|by exists false, d1, r0]. unfold run_tx.
    destruct (mark_started _ _ _ d1) as [[b d2]|e] eqn:Hm; [|by exists false, d1, r0].
    apply (mark_started_ok _ _ _ _ _ _ r0) in Hm as (-> & Hck & ->);
      [|by apply (reserved_rows _ _ _ _ _ _ Hin)|done|done].
    exists true. eexists. exists (set_pr_provider_request_started_at (Some (clk 5%nat)) r0).
    split_and!; [done| |done|done].
    apply (reserved_in_attempt _ _ _ r0); [done|done|done|]. by intros. }
  unfold run_tx. destruct (finish_resolution _ _ _ _ _ _ _ d2) as [[x d3]|e] eqn:Hf.
  - intros [= <- <-]. destruct (reserved_rows _ _ _ _ _ _ Hin2) as [Hh Hr]. destruct Hop as [Hp Ht].
    apply (finish_ok _ _ _ _ _ _ _ _ _ _ h0 r1) in Hf as (r' & h' & Ha & Hck & Htok & ->); try done.
    eapply rr_done; [done|exact Hus| |exact Ha].
    assert (reserved_in (newAuthUUID (rng 1%nat)) (newAuthUUID (rng 0%nat)) h0 r' d
      (set_resolutions (<[newAuthUUID (rng 0%nat) := r']> (resolutions (auth d2))) d2)) as Hin3.
    { eapply reserved_in_attempt; [done| |exact Hck|exact Htok].
      destruct Hin2. by destruct Ha. }
    eapply reserved_in_record in Hin3; [exact Hin3|..]; by destruct Ha.
  - intros [= <- <-]. by eapply rr_open.
Qed.

(** ** [CreatePlace] *)

Definition consumed_row (now : Z) (r : resolution) : resolution :=
  set_pr_consumed_at (Some now) (set_pr_state ResConsumed r).

Definition created_place (now : Z) (userID resolutionID : string) (c : Candidate) (r : resolution) : place :=
  Place userID resolutionID (cd_Latitude c) (cd_Longitude c) (pr_formatted_address r)
    (cd_DisplayName c) (cd_TimeZoneName c) now.

(** A new record of a request. *)
Record recorded_in (rid : string) (h : http_record) (d d' : db) : Prop := {
  rc_new : http_records (saved d) !! rid = None;
  rc_request : forall k q, http_records (saved d) !! k = Some q ->
    same_request (h_user_id h) (h_http_method h) (h_normalized_path h) (h_idempotency_key h) q = false;
  rc_records : http_records (saved d') = <[rid := h]> (http_records (saved d));
  rc_users : user_rows d' = user_rows d
}.

Inductive creation (clk : nat -> Z) (rng : nat -> bytes) (input : CreatePlaceInput) (d : db)
  : PlaceHTTPResult -> db -> Prop :=
| cr_replay k h a :
    stored_record (ci_UserID input) "POST" create_path (ci_IdempotencyKey input) d = Some (k, h) ->
    replay_creation (ci_RequestDigest input) h = Ok a -> creation clk rng input d a d
| cr_refused body j h d' :
    (forall k r, resolutions (auth d) !! k = Some r -> usable_resolution (clk 2%nat) (ci_UserID input)
       (sha256Bytes (ci_ResolutionToken input)) k r = false) ->
    placeProblemBody 410 "NOT_FOUND" false "place resolution has expired or was consumed"
      (ci_RequestID input) = Ok body -> jsonb_in body = Some j ->
    h = answered_record 410 "application/problem+json" (Some j) h_resource_id (clk 3%nat)
          (create_record clk input) ->
    recorded_in (newAuthUUID (rng 0%nat)) h d d' ->
    resolutions (auth d') = resolutions (auth d) -> places (saved d') = places (saved d) ->
    creation clk rng input d (MkPlaceResult 410 "application/problem+json" body "") d'
| cr_created k r c body j h d' :
    let pid := newAuthUUID (rng 1%nat) in
    let p := created_place (clk 3%nat) (ci_UserID input) k c r in
    resolutions (auth d) !! k = Some r ->
    usable_resolution (clk 2%nat) (ci_UserID input) (sha256Bytes (ci_ResolutionToken input)) k r = true ->
    stored_candidate "lock place resolution" r = Ok c ->
    place_body pid p = Ok body -> jsonb_in body = Some j ->
    h = answered_record 201 "application/json" (Some j) (fun _ => Some pid) (clk 5%nat)
          (create_record clk input) ->
    recorded_in (newAuthUUID (rng 0%nat)) h d d' ->
    places (saved d) !! pid = None -> place_row_check p = true ->
    resolution_check (consumed_row (clk 4%nat) r) = true ->
    places (saved d') = <[pid := p]> (places (saved d)) ->
    resolutions (auth d') = <[k := consumed_row (clk 4%nat) r]> (resolutions (auth d)) ->
    creation clk rng input d (MkPlaceResult 201 "application/json" body pid) d'.

Lemma CreatePlace_ok clk rng input d a d' :
  CreatePlace clk rng input d = Ok (a, d') -> creation clk rng input d a d'.
Proof.
  unfold CreatePlace. intros ([] & d0 & (_ & ->)%guard_ok & Hx)%tx_bind_ok.
  apply tx_bind_ok in Hx as (b & d1 & Hi & Hx). apply insert_http_record_ok in Hi as [Hck Hi].
  destruct b.
  2: { subst d1. apply tx_bind_ok in Hx as ([k h] & d1 & (Hkv & ->)%find_row_ok & Hx).
       apply lift_ok in Hx as [Hr ->]. by eapply cr_replay. }
  destruct Hi as (Hnew & Huser & Hreq & ->).
  apply tx_bind_ok in Hx as (row & d1 & (-> & ->)%gets_ok & Hx). cbn [set_http_records set_saved auth] in Hx.
  destruct (head _) as [[k r]|] eqn:Hrow.
  - apply head_rows_where in Hrow as [Hr Hus]. unfold create_from in Hx.
    apply tx_bind_ok in Hx as (c & d1 & (Hc & ->)%lift_ok & Hx).
    apply tx_bind_ok in Hx as ([] & d1 & Hp & Hx). apply insert_place_ok in Hp as (Hpn & Hpc & Hps & ->).
    apply tx_bind_ok in Hx as (x & d1 & Hu & Hx).
    apply (update_resolution_ok _ _ _ _ _ _ _ r) in Hu as (_ & Hcc & _ & ->); [|done|done].
    apply tx_bind_ok in Hx as (body & d1 & (Hb & ->)%lift_ok & Hx).
    apply tx_bind_ok in Hx as (j & d1 & (Hj & ->)%lift_ok & Hx). apply of_option_ok in Hj.
    apply tx_bind_ok in Hx as (n & d1 & Hu & Hx). apply mret_ok in Hx as [<- <-].
    apply (update_http_record_ok _ _ _ _ _ _ _ (create_record clk input)) in Hu as (_ & _ & _ & ->);
      [|by cbn; rewrite lookup_insert_eq|done].
    eapply cr_created; try done. constructor; try done. simpl. by rewrite insert_insert_eq.
  - unfold refuse_creation in Hx.
    apply tx_bind_ok in Hx as (body & d1 & (Hb & ->)%lift_ok & Hx).
    apply tx_bind_ok in Hx as (j & d1 & (Hj & ->)%lift_ok & Hx). apply of_option_ok in Hj.
    apply tx_bind_ok in Hx as (n & d1 & Hu & Hx). apply mret_ok in Hx as [<- <-].
    apply (update_http_record_ok _ _ _ _ _ _ _ (create_record clk input)) in Hu as (_ & _ & _ & ->);
      [|by cbn; rewrite lookup_insert_eq|done].
    eapply cr_refused; try done.
    + intros k r Hr. apply not_true_iff_false. intros Hus.
      destruct (rows_where _ _) as [|x l] eqn:E; [|done].
      apply rows_where_none in E. rewrite any_row_false in E. by rewrite (E _ _ Hr) in Hus.
    + constructor; try done. simpl. by rewrite insert_insert_eq.
Qed.

(** ** The transition system *)

(** A record of one of the two requests. *)
Definition place_request (h : http_record) : Prop :=
  h_normalized_path h = resolve_path \/ h_normalized_path h = create_path.

(** The steps of the place tables: every call of [Resolve], whatever its outcome, every
    successful [CreatePlace], and what the rest of the backend does, which leaves the
    attempts and the records of these requests alone. *)
Inductive place_step : db -> db -> Prop :=
| pl_resolve clk rng keys p input a d d' :
    Resolve clk rng keys p input d = (a, d') -> place_step d d'
| pl_create clk rng input a d d' :
    CreatePlace clk rng input d = Ok (a, d') -> place_step d d'
| pl_other d d' :
    resolutions (auth d') = resolutions (auth d) -> places (saved d') = places (saved d) ->
    (forall k h, place_request h ->
       http_records (saved d') !! k = Some h <-> http_records (saved d) !! k = Some h) ->
    place_step d d'.

(** A creation is recorded with its answer. *)
Definition creation_answered (h : http_record) : Prop :=
  h_state h = Completed /\ is_null (h_response_status h) = false /\
  is_null (h_response_content_type h) = false /\ is_null (h_response_body h) = false.

Record place_inv (d : db) : Prop := {
  pi_records : forall k1 k2 h1 h2, http_records (saved d) !! k1 = Some h1 ->
    http_records (saved d) !! k2 = Some h2 -> place_request h1 -> 
    same_request (h_user_id h1) (h_http_method h1) (h_normalized_path h1) (h_idempotency_key h1) h2 = true ->
    k1 = k2;
  pi_attempts : forall k1 k2 r1 r2, resolutions (auth d) !! k1 = Some r1 ->
    resolutions (auth d) !! k2 = Some r2 ->
    pr_idempotency_record_id r1 = pr_idempotency_record_id r2 -> k1 = k2;
  pi_tokens : forall k1 k2 r1 r2 t, resolutions (auth d) !! k1 = Some r1 ->
    resolutions (auth d) !! k2 = Some r2 -> pr_resolution_token_sha256 r1 = Some t ->
    pr_resolution_token_sha256 r2 = Some t -> k1 = k2;
  pi_created : forall k h, http_records (saved d) !! k = Some h -> h_normalized_path h = create_path ->
    creation_answered h;
  pi_checks : forall k r, resolutions (auth d) !! k = Some r -> resolution_check r = true;
  pi_sources : forall k p, places (saved d) !! k = Some p -> exists r,
    resolutions (auth d) !! pc_source_resolution_id p = Some r /\ pr_state r = ResConsumed
}.

(** An attempt changes by being consumed only. *)
Definition attempt_kept (r r' : resolution) : Prop :=
  r' = r \/ (pr_state r = ResResolved /\ exists now, r' = consumed_row now r).

Record places_kept (d d' : db) : Prop := {
  pk_records : forall k h, http_records (saved d) !! k = Some h -> place_request h ->
    http_records (saved d') !! k = Some h;
  pk_attempts : forall k r, resolutions (auth d) !! k = Some r ->
    exists r', resolutions (auth d') !! k = Some r' /\ attempt_kept r r';
  pk_places : forall k p, places (saved d) !! k = Some p -> places (saved d') !! k = Some p
}.

Lemma same_request_iff u m p k h :
  same_request u m p k h = true <->
  h_user_id h = u /\ h_http_method h = m /\ h_normalized_path h = p /\ h_idempotency_key h = k.
Proof. unfold same_request. rewrite !andb_true_iff, !bool_decide_eq_true. tauto. Qed.

(** One more record of a place request. *)
Lemma records_insert d d' rid h :
  place_inv d -> http_records (saved d) !! rid = None ->
  (forall k q, http_records (saved d) !! k = Some q ->
     same_request (h_user_id h) (h_http_method h) (h_normalized_path h) (h_idempotency_key h) q = false) ->
  http_records (saved d') = <[rid := h]> (http_records (saved d)) ->
  (forall k1 k2 h1 h2, http_records (saved d') !! k1 = Some h1 ->
     http_records (saved d') !! k2 = Some h2 -> place_request h1 ->
     same_request (h_user_id h1) (h_http_method h1) (h_normalized_path h1) (h_idempotency_key h1) h2 = true ->
     k1 = k2) /\
  (forall k q, http_records (saved d) !! k = Some q -> http_records (saved d') !! k = Some q).
Proof.
  intros Hinv Hn Hreq ->. split.
  - intros k1 k2 h1 h2 [[<- <-]|[_ H1]]%lookup_insert_Some [[<- <-]|[_ H2]]%lookup_insert_Some Hp Hs.
    + done.
    + by rewrite (Hreq _ _ H2) in Hs.
    + apply same_request_iff in Hs as (Hu & Hm & Hpa & Hk). specialize (Hreq _ _ H1).
      rewrite Hu, Hm, Hpa, Hk in Hreq. apply not_true_iff_false in Hreq. destruct Hreq.
      by apply same_request_iff.
    + by eapply (pi_records _ Hinv).
  - intros k q Hq. rewrite lookup_insert_ne; congruence.
Qed.

Lemma attempt_kept_trans r1 r2 r3 : attempt_kept r1 r2 -> attempt_kept r2 r3 -> attempt_kept r1 r3.
Proof.
  intros [->|(Hs & now & ->)]; [done|]. intros [->|(Hs' & _)]; [right; eauto|done].
Qed.

Lemma attempt_kept_same r r' : attempt_kept r r' ->
  pr_idempotency_record_id r' = pr_idempotency_record_id r /\ pr_user_id r' = pr_user_id r /\
  pr_resolution_token_sha256 r' = pr_resolution_token_sha256 r /\
  pr_expires_at r' = pr_expires_at r /\
  (forall op, stored_candidate op r' = stored_candidate op r) /\
  (pr_state r ∈ [ResResolved; ResConsumed] -> pr_state r' ∈ [ResResolved; ResConsumed]).
Proof.
  intros [->|(Hs & now & ->)]; split_and!; try done.
  intros _. simpl. apply (bool_decide_eq_true_1 _). done.
Qed.

Lemma reserved_inv rid aid h r d d' :
  place_inv d -> reserved_in rid aid h r d d' -> place_inv d' /\ places_kept d d'.
Proof.
  intros Hinv Hin. pose proof Hin as [Hn Hp Hreq HR Han Har Ha Ht Hck HA HP _].
  destruct (records_insert _ _ _ _ Hinv Hn Hreq HR) as [Hrec Hkeep]. split; constructor.
  - exact Hrec.
  - rewrite HA. apply (unique_insert pr_idempotency_record_id); [apply (pi_attempts _ Hinv)|].
    intros k q Hq. rewrite Har. by eapply Ha.
  - rewrite HA. intros k1 k2 r1 r2 t [[<- <-]|[_ H1]]%lookup_insert_Some
      [[<- <-]|[_ H2]]%lookup_insert_Some E1 E2; try done.
    + by destruct (Ht _ _ _ H2 E2).
    + by destruct (Ht _ _ _ H1 E1).
    + by eapply (pi_tokens _ Hinv).
  - rewrite HR. intros k q [[<- <-]|[_ Hq]]%lookup_insert_Some Hpa; [by rewrite Hp in Hpa|].
    by eapply (pi_created _ Hinv).
  - rewrite HA. intros k q [[<- <-]|[_ Hq]]%lookup_insert_Some; [done|by eapply (pi_checks _ Hinv)].
  - rewrite HP. intros k q (x & Hx & Hs)%(pi_sources _ Hinv). exists x. split; [|done].
    rewrite HA, lookup_insert_ne; [done|congruence].
  - intros k q Hq _. by apply Hkeep.
  - intros k q Hq. exists q. split; [|by left]. rewrite HA, lookup_insert_ne; congruence.
  - by rewrite HP.
Qed.

Lemma creation_inv clk rng input d a d' :
  place_inv d -> creation clk rng input d a d' -> place_inv d' /\ places_kept d d'.
Proof.
  intros Hinv [k h x _ _|body j h d1 _ _ _ Hh [Hn Hreq HR _] HA HP
    |k r c body j h d1 pid p Hr Hus _ _ _ Hh [Hn Hreq HR _] Hpn _ Hcc HP HA].
  - split; [done|]. constructor; try done. intros k' r Hr. exists r. split; [done|by left].
  - destruct (records_insert _ _ _ _ Hinv Hn Hreq HR) as [Hrec Hkeep].
    split; constructor; rewrite ?HA, ?HP; try done; try apply Hinv.
    + rewrite HR. intros k q [[<- <-]|[_ Hq]]%lookup_insert_Some Hpa; [by subst h|].
      by eapply (pi_created _ Hinv).
    + intros k q Hq _. by apply Hkeep.
    + intros k r Hr. exists r. split; [done|by left].
  - destruct (records_insert _ _ _ _ Hinv Hn Hreq HR) as [Hrec Hkeep].
    assert (Hst : pr_state r = ResResolved) by (unfold usable_resolution in Hus; by inv_res).
    split; constructor.
    + exact Hrec.
    + rewrite HA. by eapply (unique_update pr_idempotency_record_id); [..|apply (pi_attempts _ Hinv)].
    + rewrite HA. intros k1 k2 r1 r2 t [[<- <-]|[_ H1]]%lookup_insert_Some
        [[<- <-]|[_ H2]]%lookup_insert_Some E1 E2; try done;
        eapply (pi_tokens _ Hinv); eauto.
    + rewrite HR. intros k' q [[<- <-]|[_ Hq]]%lookup_insert_Some Hpa; [by subst h|].
      by eapply (pi_created _ Hinv).
    + rewrite HA. intros k' q [[<- <-]|[_ Hq]]%lookup_insert_Some; [done|by eapply (pi_checks _ Hinv)].
    + rewrite HP, HA. intros k' q [[<- <-]|[_ Hq]]%lookup_insert_Some.
      * exists (consumed_row (clk 4%nat) r). by rewrite lookup_insert_eq.
      * destruct (pi_sources _ Hinv _ _ Hq) as (x & Hx & Hs). exists x. split; [|done].
        rewrite lookup_insert_ne; [done|congruence].
    + intros k' q Hq _. by apply Hkeep.
    + intros k' q Hq. rewrite HA. destruct (decide (k' = k)) as [->|Hk].
      * assert (q = r) as -> by congruence. rewrite lookup_insert_eq. eexists. split; [done|].
        right. eauto.
      * exists q. rewrite lookup_insert_ne by done. split; [done|by left].
    + intros k' q Hq. rewrite HP, lookup_insert_ne; congruence.
Qed.

Lemma place_step_inv d d' : place_inv d -> place_step d d' -> place_inv d' /\ places_kept d d'.
Proof.
  intros Hinv Hstep.
  destruct Hstep as [clk rng keys p input a d d' Hop|clk rng input a d d' Hop|d d' HA HP HR].
  - apply Resolve_run in Hop as [x _|e h r d2 Hin _ _|digest marked r0 r h x d2 keyID h0 _ _ Hin _];
      [|by eapply reserved_inv|by eapply reserved_inv].
    split; [done|]. constructor; try done. intros k r Hr. exists r. split; [done|by left].
  - by eapply creation_inv, CreatePlace_ok.
  - split; constructor; rewrite ?HA, ?HP; try apply Hinv; try done.
    + intros k1 k2 h1 h2 H1 H2 Hp Hs. pose proof Hs as (_ & _ & Hpa & _)%same_request_iff.
      eapply (pi_records _ Hinv); [by apply HR| |exact Hp|exact Hs]. apply HR; [|done].
      unfold place_request in *. by rewrite Hpa.
    + intros k h Hh Hpa. eapply (pi_created _ Hinv); [|done]. apply HR; [by right|done].
    + intros k h Hh Hp. by apply HR.
    + intros k r Hr. exists r. split; [done|by left].
Qed.

Lemma place_steps_inv d d' : place_inv d -> rtc place_step d d' -> place_inv d' /\ places_kept d d'.
Proof.
  intros Hinv Hsteps. induction Hsteps as [d|d d1 d2 Hstep _ IH].
  { split; [done|]. constructor; try done. intros k r Hr. exists r. split; [done|by left]. }
  destruct (place_step_inv _ _ Hinv Hstep) as [Hinv1 [HR HA HP]].
  destruct (IH Hinv1) as [Hinv2 [HR' HA' HP']]. split; [done|]. constructor.
  - intros k h Hh Hp. apply HR'; [by apply HR|done].
  - intros k r Hr. apply HA in Hr as (r1 & Hr1 & Hk1). apply HA' in Hr1 as (r2 & Hr2 & Hk2).
    exists r2. split; [done|]. by eapply attempt_kept_trans.
  - intros k p Hp. by apply HP', HP.
Qed.
End Facts.

Section Props.
Context {PG : Postgres} `{!PostgresLaws PG} {HJ : HttpJson} `{!HttpJsonLaws HJ}.

(** ** Replays *)

Lemma stored_record_found d k h :
  place_inv d -> http_records (saved d) !! k = Some h -> place_request h ->
  stored_record (h_user_id h) (h_http_method h) (h_normalized_path h) (h_idempotency_key h) d
    = Some (k, h).
Proof.
  intros Hinv Hh Hp. unfold stored_record. rewrite (rows_where_unique _ _ k h); [done|done| |].
  - by apply same_request_iff.
  - intros k' h' Hh' Hs. symmetry. by eapply (pi_records _ Hinv).
Qed.

Lemma not_inserted op id h q k d :
  http_record_check h = true -> http_records (saved d) !! k = Some q ->
  same_request (h_user_id h) (h_http_method h) (h_normalized_path h) (h_idempotency_key h) q = true ->
  insert_http_record op id h d = Ok (false, d).
Proof.
  intros Hc Hq Hs. unfold insert_http_record. rewrite Hc. simpl.
  rewrite (proj2 (any_row_true _ _)); [done|]. by exists k, q.
Qed.

Lemma resolution_body_canonical token expires c body :
  resolution_body token expires c = Ok body -> canonicalHTTPBody body = Some body.
Proof.
  unfold resolution_body. intros (x & _ & Hc)%bind_ok. apply of_option_ok in Hc.
  by eapply canonical_again.
Qed.

(** The candidate stored is the one the provider returned. *)
Lemma stored_candidate_resolved op token c expires r :
  stored_candidate op (resolved_row token c (cd_DisplayName c) (cd_FormattedAddress c)
    (cd_TimeZoneName c) expires r) = Ok c.
Proof.
  unfold stored_candidate, resolved_row, nullableString. simpl. destruct c. simpl.
  case_bool_decide; simpl; subst; reflexivity.
Qed.

(** A repeated request finds its record: the digest is the stored one. *)
Ltac replay_head Hdig :=
  do 2 (eapply tx_bind_run; [by apply lift_ok; split; [apply of_option_ok|]|]);
  eapply tx_bind_run;
    [apply (guard_ok _ _ _ tt); rewrite Hdig; by rewrite (proj2 (equalDigest_spec _ _) eq_refl)|];
  eapply tx_bind_run; [by apply (guard_ok _ _ _ tt)|];
  do 2 (eapply tx_bind_run; [by apply lift_ok|]).

Lemma replay_body_resolved keys keyID aid rid token c body r r' d :
  place_inv d -> resolutions (auth d) !! aid = Some r' -> attempt_kept r r' ->
  pr_idempotency_record_id r = rid -> pr_state r = ResResolved ->
  stored_candidate "load place resolution replay candidate" r = Ok c ->
  placeToken keys keyID aid = Some token -> resolution_body token (pr_expires_at r) c = Ok body ->
  resolutionReplayBody keys rid keyID d = Ok (body, d).
Proof.
  intros Hinv Hr' Hk Hrid Hs Hc Ht Hb.
  destruct (attempt_kept_same _ _ Hk) as (Hrec & _ & _ & Hexp & Hcand & Hst).
  unfold resolutionReplayBody. eapply tx_bind_run; [apply find_row_ok; split; [|done]|].
  { rewrite (rows_where_unique _ _ aid r'); [done|done| |].
    - unfold replay_row. rewrite Hrec, Hrid. rewrite !bool_decide_eq_true_2; [done| |done].
      apply Hst. rewrite Hs. by apply (bool_decide_eq_true_1 _).
    - intros k q Hq Hm. unfold replay_row in Hm. inv_res. eapply (pi_attempts _ Hinv); eauto. congruence. }
  cbv beta iota. cbn [fst snd]. rewrite Hcand.
  eapply tx_bind_run; [by apply lift_ok|].
  eapply tx_bind_run; [by apply lift_ok; split; [apply of_option_ok|]|].
  apply lift_ok. split; [|done]. by rewrite Hexp.
Qed.

(** The answer of an answered attempt, given again. *)
Lemma replay_answered clk keys keys' keyID aid outcome rid r0 r r' h0 h a identity digest d :
  place_inv d -> answered_attempt clk keys keyID aid outcome r0 r h0 h a ->
  h_request_digest_key_id h0 = Some keyID -> h_request_digest h0 = digest ->
  HMAC keys keyID identity = Some digest -> ring_key keys' keyID = ring_key keys keyID ->
  resolutions (auth d) !! aid = Some r' -> attempt_kept r r' -> pr_idempotency_record_id r = rid ->
  (ph_Status a <> 200 -> ph_Body a <> []) ->
  replay_resolution keys' identity (rid, h) d =
  Ok (MkPlaceResult (ph_Status a) (ph_ContentType a) (ph_Body a) "", d).
Proof.
  intros Hinv Ha Hkey Hdig Hmac Hring Hr' Hk Hrid Hbody.
  assert (HMAC keys' keyID identity = Some digest) as Hmac' by (unfold HMAC in *; by rewrite Hring).
  destruct Ha as [token c body h0 _ Ht r Hck Hb|cause code status retryable requestID stored h0 Hf body Hc];
    unfold replay_resolution; cbn [answered_record set_h_completed_at set_h_resource_id
      set_h_response_body set_h_response_content_type set_h_response_status set_h_state
      h_request_digest_key_id h_request_digest h_state h_response_status h_response_content_type
      h_response_body] in *; rewrite Hkey.
  - replay_head Hdig. eapply tx_bind_run.
    { rewrite Z.eqb_refl. eapply replay_body_resolved; eauto using stored_candidate_resolved.
      unfold placeToken, HMAC in *. by rewrite Hring. }
    eapply tx_bind_run; [apply lift_ok; split; [|done]; apply of_option_ok;
      by eapply resolution_body_canonical|]. done.
  - replay_head Hdig.
    assert (Hs : status =? 200 = false).
    { unfold placeFailure in Hf. apply Z.eqb_neq. repeat case_match; simplify_eq; done. }
    rewrite Hs. eapply tx_bind_run; [done|].
    assert (exists b j, body = Some b /\ stored = Some j /\ jsonb_in b = Some j) as (b & j & Hb & -> & Hj).
    { destruct body as [b|]; [|by destruct Hbody; [apply Z.eqb_neq|]]. simpl in Hc.
      apply bind_ok in Hc as (j & Hj%of_option_ok & [= <-]). by exists b, j. }
    eapply tx_bind_run; [apply lift_ok; split; [|done]; apply of_option_ok|].
    { subst body. apply bind_Some in Hb as (raw & _ & Hcan). by eapply canonical_stored. }
    simpl. by rewrite Hb.
Qed.

Lemma answered_request clk keys keyID aid outcome r0 r h0 h a :
  answered_attempt clk keys keyID aid outcome r0 r h0 h a ->
  h_user_id h = h_user_id h0 /\ h_http_method h = h_http_method h0 /\
  h_normalized_path h = h_normalized_path h0 /\ h_idempotency_key h = h_idempotency_key h0.
Proof. by intros []. Qed.

(** What a record needs: a key identifier the column takes and a clock that does not
    go back by the thirty days of retention. *)
Definition recordable (clk : nat -> Z) (keys : HMACKeyRing) : Prop :=
  text_in (CurrentID keys) = Some (CurrentID keys) /\
  within 1 64 (char_length (CurrentID keys)) = true /\
  clk 0%nat < clk 1%nat + pg_interval httpRecordLifetime.

Lemma resolve_record_check clk keys userID key digest :
  recordable clk keys -> length digest = 32%nat ->
  http_record_check (resolve_record clk userID key (CurrentID keys) digest) = true.
Proof.
  intros (_ & Hk & Hc) Hl. unfold http_record_check.
  cbn -[pg_interval httpRecordLifetime within char_length CurrentID].
  rewrite (proj2 (Z.ltb_lt _ _) Hc), Hk, Hl. reflexivity.
Qed.

Lemma current_key keys identity : exists digest,
  HMAC keys (CurrentID keys) identity = Some digest /\ length digest = 32%nat.
Proof.
  unfold HMAC, ring_key, CurrentID. rewrite bool_decide_eq_true_2 by done. eexists.
  split; [reflexivity|apply hmac_length].
Qed.

(** The request passes the validation of its fields. *)
Definition valid_resolve (input : ResolvePlaceInput) : bool :=
  validCanonicalUUID (ri_UserID input) && validCanonicalUUID (ri_IdempotencyKey input) &&
  negb (zlen (ri_RequestIdentity input) =? 0) && validCanonicalUUID (ri_RequestID input).

Lemma Resolve_valid clk rng keys p input d a d' :
  Resolve clk rng keys p input d = (Ok a, d') -> valid_resolve input = true.
Proof.
  unfold Resolve, valid_resolve.
  by destruct (validCanonicalUUID (ri_UserID input)), (validCanonicalUUID (ri_IdempotencyKey input)),
    (zlen (ri_RequestIdentity input) =? 0), (validCanonicalUUID (ri_RequestID input)).
Qed.

(** A repeated request answers from its record and changes nothing. *)
Lemma Resolve_repeats clk rng keys p input d k h answer :
  place_inv d -> recordable clk keys -> valid_resolve input = true ->
  http_records (saved d) !! k = Some h -> h_user_id h = ri_UserID input -> h_http_method h = "POST" ->
  h_normalized_path h = resolve_path -> h_idempotency_key h = ri_IdempotencyKey input ->
  replay_resolution keys (ri_RequestIdentity input) (k, h) d = Ok (answer, d) ->
  Resolve clk rng keys p input d = (Ok answer, d).
Proof.
  intros Hinv Hrec Hv Hh Hu Hm Hp Hk Hans. unfold Resolve.
  unfold valid_resolve in Hv. rewrite !andb_true_iff in Hv. destruct Hv as [[[-> ->] Hz] ->].
  apply negb_true_iff in Hz. rewrite Hz. cbn [negb orb].
  destruct (current_key keys (ri_RequestIdentity input)) as (digest & Hd & Hlen). rewrite Hd.
  unfold run_tx at 1.
  assert (reserveResolution clk keys input (newAuthUUID (rng 1%nat)) (newAuthUUID (rng 0%nat))
    (CurrentID keys) digest d = Ok (Some answer, d)) as ->; [|done].
  unfold reserveResolution.
  eapply tx_bind_run; [apply lift_ok; split; [by apply of_option_ok, Hrec|done]|].
  eapply tx_bind_run.
  { eapply not_inserted; [by apply resolve_record_check|exact Hh|]. by apply same_request_iff. }
  cbv iota. eapply tx_bind_run; [apply find_row_ok; split; [|done]|].
  { rewrite <- Hu, <- Hm, <- Hp, <- Hk. apply stored_record_found; [done|done|by left]. }
  eapply tx_bind_run; [exact Hans|done].
Qed.

(** A resolution, once answered, is answered the same ever after: whatever happened
    in between, the use of its token included, repeating the request returns the
    status, content type and body of the first answer, calls no provider and changes
    nothing, also when the keys have changed and the old one is only retained. *)
Theorem resolution_replays clk rng keys p input d a d1 d2 clk' rng' keys' p' :
  place_inv d ->
  stored_record (ri_UserID input) "POST" resolve_path (ri_IdempotencyKey input) d = None ->
  Resolve clk rng keys p input d = (Ok a, d1) -> (ph_Status a <> 200 -> ph_Body a <> []) ->
  rtc place_step d1 d2 -> recordable clk' keys' ->
  ring_key keys' (CurrentID keys) = ring_key keys (CurrentID keys) ->
  Resolve clk' rng' keys' p' input d2 =
  (Ok (MkPlaceResult (ph_Status a) (ph_ContentType a) (ph_Body a) ""), d2).
Proof.
  intros Hinv Hfresh Hop Hbody Hsteps Hrec Hring. pose proof (Resolve_valid _ _ _ _ _ _ _ _ Hop) as Hv.
  destruct (place_step_inv d d1 Hinv (pl_resolve _ _ _ _ _ _ _ _ Hop)) as [Hinv1 _].
  apply Resolve_run in Hop. inversion Hop as [x Hx|e h r d' _ _ _|digest marked r0 r h x d' keyID h0 Hd Hus Hin Ha]; subst.
  { destruct (Hx a eq_refl) as [kv Hkv]. congruence. }
  destruct (place_steps_inv d1 d2 Hinv1 Hsteps) as [Hinv2 [HR HA _]].
  destruct (reserved_rows _ _ _ _ _ _ Hin) as [Hh Hr].
  assert (Hh0 : h_user_id h = ri_UserID input /\ h_http_method h = "POST" /\
    h_normalized_path h = resolve_path /\ h_idempotency_key h = ri_IdempotencyKey input)
    by by destruct (answered_request _ _ _ _ _ _ _ _ _ _ Ha) as (-> & -> & -> & ->).
  destruct Hh0 as (Hu & Hm & Hp & Hk).
  destruct (HA _ _ Hr) as (r' & Hr' & Hkept).
  eapply (Resolve_repeats _ _ _ _ _ _ (newAuthUUID (rng 1%nat)) h); try done.
  { apply HR; [done|by left]. }
  by eapply replay_answered; eauto using rs_attempt_record.
Qed.

(** ** Creating a place *)

Lemma usable_resolution_iff now userID token k r :
  usable_resolution now userID token k r = true <->
  pr_user_id r = userID /\ pr_resolution_token_sha256 r = Some token /\ pr_state r = ResResolved /\
  now < pr_expires_at r.
Proof. unfold usable_resolution. rewrite !andb_true_iff, !bool_decide_eq_true, Z.ltb_lt. tauto. Qed.

(** C31: a resolution's token creates at most one place: after a creation with it, no
    request with the same token, whatever its key, adds another. *)
Theorem resolution_creates_once clk rng input d a d1 d2 clk' rng' input' b d3 :
  place_inv d ->
  stored_record (ci_UserID input) "POST" create_path (ci_IdempotencyKey input) d = None ->
  CreatePlace clk rng input d = Ok (a, d1) -> ph_Status a = 201 -> rtc place_step d1 d2 ->
  ci_ResolutionToken input' = ci_ResolutionToken input ->
  CreatePlace clk' rng' input' d2 = Ok (b, d3) -> places (saved d3) = places (saved d2).
Proof.
  intros Hinv Hfresh Hop Hst Hsteps Htok Hop'.
  destruct (place_step_inv d d1 Hinv (pl_create _ _ _ _ _ _ Hop)) as [Hinv1 _].
  destruct (place_steps_inv d1 d2 Hinv1 Hsteps) as [Hinv2 [_ HA _]].
  apply CreatePlace_ok in Hop. destruct Hop as [k h x Hk _|body j h d0 _ _ _ _ _ _ _
    |k r c body j h d0 pid p Hr Hus _ _ _ _ _ _ _ _ _ HAr]; [congruence|done|].
  apply usable_resolution_iff in Hus as (_ & Ht & Hs & _).
  destruct (HA k (consumed_row (clk 4%nat) r)) as (r2 & Hr2 & Hkept).
  { by rewrite HAr, lookup_insert_eq. }
  destruct Hkept as [->|(Hbad & _)]; [|done].
  apply CreatePlace_ok in Hop'. destruct Hop' as [k' h' x' _ _|body' j' h' d3' _ _ _ _ _ _ HP
    |k' r' c' body' j' h' d3' pid' p' Hr' Hus' _ _ _ _ _ _ _ _ _ _]; [done|done|].
  apply usable_resolution_iff in Hus' as (_ & Ht' & Hs' & _). rewrite Htok in Ht'.
  assert (k' = k) as -> by (eapply (pi_tokens _ Hinv2); eauto).
  assert (r' = consumed_row (clk 4%nat) r) as -> by congruence. done.
Qed.

(** The request passes the validation of its fields. *)
Definition valid_create (input : CreatePlaceInput) : bool :=
  validCanonicalUUID (ci_UserID input) && validCanonicalUUID (ci_IdempotencyKey input) &&
  validOpaqueToken (ci_ResolutionToken input) && validCanonicalUUID (ci_RequestID input).

Lemma valid_create_guard input d : valid_create input = true ->
  guard (negb (validCanonicalUUID (ci_UserID input)) ||
         negb (validCanonicalUUID (ci_IdempotencyKey input)) ||
         negb (validOpaqueToken (ci_ResolutionToken input)) ||
         negb (validCanonicalUUID (ci_RequestID input))) ErrPlaceInput d = Ok (tt, d).
Proof.
  unfold valid_create. rewrite !andb_true_iff. intros [[[-> ->] ->] ->]. by apply guard_ok.
Qed.

Lemma create_record_check clk clk' input :
  clk' 0%nat < clk' 1%nat + pg_interval httpRecordLifetime ->
  http_record_check (create_record clk input) = true ->
  http_record_check (create_record clk' input) = true.
Proof.
  intros Hc. unfold http_record_check. cbn -[pg_interval httpRecordLifetime].
  rewrite (proj2 (Z.ltb_lt _ _) Hc).
  intros Hx. repeat match goal with
  | H : _ && _ = true |- _ => apply andb_true_iff in H as [? ?]
  | |- _ && _ = true => apply andb_true_iff; split
  end; assumption || reflexivity.
Qed.

(** The answer kept in the record of a creation. *)
Lemma created_answer clk rng input d a d1 :
  stored_record (ci_UserID input) "POST" create_path (ci_IdempotencyKey input) d = None ->
  creation clk rng input d a d1 ->
  exists k h, http_records (saved d1) !! k = Some h /\ h_user_id h = ci_UserID input /\
    h_http_method h = "POST" /\ h_normalized_path h = create_path /\
    h_idempotency_key h = ci_IdempotencyKey input /\
    replay_creation (ci_RequestDigest input) h =
      Ok (MkPlaceResult (ph_Status a) (ph_ContentType a) (ph_Body a) "").
Proof.
  intros Hfresh [k h x Hk _|body j h d' _ Hb Hj Hh Hin _ _
    |k r c body j h d' pid p Hr Hus Hc Hb Hj Hh Hin _ _ _ _ _]; [congruence| |];
    exists (newAuthUUID (rng 0%nat)), h; (split; [rewrite (rc_records _ _ _ _ Hin); apply lookup_insert_eq|]);
    rewrite Hh; (split_and!; try done); unfold replay_creation;
    cbn -[equalDigest canonicalHTTPBody]; rewrite (proj2 (equalDigest_spec _ _) eq_refl); cbn -[canonicalHTTPBody].
  - unfold placeProblemBody in Hb. apply bind_ok in Hb as (raw & _ & Hcan). apply of_option_ok in Hcan.
    by rewrite (canonical_stored _ _ _ Hcan Hj).
  - unfold place_body in Hb. apply of_option_ok in Hb. by rewrite (canonical_stored _ _ _ Hb Hj).
Qed.

Lemma guard_not b e e' d : e <> e' -> guard b e d <> Err e'.
Proof. unfold guard, lift, reject_if. destruct b; simpl; congruence. Qed.

Lemma lift_not {A} (m : result A) e d : m <> Err e -> lift m d <> Err e.
Proof. unfold lift. destruct m; simpl; congruence. Qed.

(** Runs the steps of a computation whose errors are all other ones. *)
Ltac not_pending :=
  unfold mbind, res_bind, of_option, reject_if; repeat case_match; simplify_eq; try done.

(** No statement of a creation reports a pending request. *)
Lemma creation_not_pending clk rng input d :
  place_inv d -> CreatePlace clk rng input d <> Err ErrHTTPMutationPending.
Proof.
  intros Hinv. unfold CreatePlace. apply bind_not; [by apply guard_not|]. intros [] d0 (_ & ->)%guard_ok.
  apply bind_not; [unfold insert_http_record; by repeat case_match|]. intros [] d0 Hi.
  - apply bind_not; [done|]. intros [[k r]|] d1 _.
    + unfold create_from. repeat (apply bind_not; [|intros]); try done;
        try (apply lift_not; unfold stored_candidate, place_body, jsonb_param; by not_pending).
      * unfold insert_place. by case_match.
      * unfold update_resolution. by repeat case_match.
      * unfold update_http_record. by repeat case_match.
    + unfold refuse_creation. repeat (apply bind_not; [|intros]); try done;
        try (apply lift_not; unfold placeProblemBody, jsonb_param; by not_pending).
      unfold update_http_record. by repeat case_match.
  - apply insert_http_record_ok in Hi as [_ ->].
    apply bind_not; [unfold find_row; by destruct (stored_record _ _ _ _ _)|].
    intros [k h] d1 (Hk & ->)%find_row_ok. apply head_rows_where in Hk as (Hh & Hs). apply lift_not.
    apply same_request_iff in Hs as (_ & _ & Hp & _).
    destruct (pi_created _ Hinv _ _ Hh Hp) as (Hst & _). unfold replay_creation. cbn [snd]. rewrite Hst.
    by not_pending.
Qed.

(** A creation, carried out or refused, is answered the same ever after: repeating the
    request returns the status, content type and body of the first answer and changes
    nothing; no request for a creation is ever found unanswered. *)
Theorem creation_replays clk rng input d a d1 d2 clk' rng' :
  place_inv d ->
  stored_record (ci_UserID input) "POST" create_path (ci_IdempotencyKey input) d = None ->
  CreatePlace clk rng input d = Ok (a, d1) -> rtc place_step d1 d2 ->
  clk' 0%nat < clk' 1%nat + pg_interval httpRecordLifetime ->
  CreatePlace clk' rng' input d2 =
    Ok (MkPlaceResult (ph_Status a) (ph_ContentType a) (ph_Body a) "", d2) /\
  forall clk'' rng'' input'', CreatePlace clk'' rng'' input'' d2 <> Err ErrHTTPMutationPending.
Proof.
  intros Hinv Hfresh Hop Hsteps Hclk.
  destruct (place_step_inv d d1 Hinv (pl_create _ _ _ _ _ _ Hop)) as [Hinv1 _].
  destruct (place_steps_inv d1 d2 Hinv1 Hsteps) as [Hinv2 [HR _ _]].
  split; [|intros; by apply creation_not_pending].
  assert (Hvc : valid_create input = true /\ http_record_check (create_record clk input) = true).
  { unfold CreatePlace in Hop. apply tx_bind_ok in Hop as ([] & d0 & (Hg & ->)%guard_ok & Hx).
    apply tx_bind_ok in Hx as (ins & d0 & (Hck & _)%insert_http_record_ok & _).
    unfold valid_create. inv_res. rewrite !andb_true_iff. done. }
  destruct Hvc as [Hv Hck].
  apply CreatePlace_ok in Hop.
  destruct (created_answer _ _ _ _ _ _ Hfresh Hop) as (k & h & Hh & Hu & Hm & Hp & Hk & Hrep).
  apply HR in Hh; [|by right]. unfold CreatePlace.
  eapply tx_bind_run; [by apply valid_create_guard|].
  eapply tx_bind_run; [eapply not_inserted; [by eapply create_record_check|exact Hh|]|].
  { by apply same_request_iff. }
  cbv iota. eapply tx_bind_run; [apply find_row_ok; split; [|done]|].
  { rewrite <- Hu, <- Hm, <- Hp, <- Hk. apply stored_record_found; [done|done|by right]. }
  by apply lift_ok.
Qed.

(** ** From a candidate to a place *)

(** What a creation needs besides its resolution: an unused key, unused identifiers
    and a clock that does not go back. *)
Record creatable (clk : nat -> Z) (rng : nat -> bytes) (input : CreatePlaceInput) (d : db) : Prop := {
  ca_valid : valid_create input = true;
  ca_digest : length (ci_RequestDigest input) = 32%nat;
  ca_user : ci_UserID input ∈ users d;
  ca_request : stored_record (ci_UserID input) "POST" create_path (ci_IdempotencyKey input) d = None;
  ca_record : http_records (saved d) !! newAuthUUID (rng 0%nat) = None;
  ca_place : places (saved d) !! newAuthUUID (rng 1%nat) = None;
  ca_retained : clk 0%nat < clk 1%nat + pg_interval httpRecordLifetime;
  ca_forward : clk 0%nat <= clk 5%nat
}.

Lemma create_record_answered clk input status ct body resource now :
  length (ci_RequestDigest input) = 32%nat -> clk 0%nat < clk 1%nat + pg_interval httpRecordLifetime ->
  clk 0%nat <= now -> within 200 599 status = true -> ct ∈ ["application/json"; "application/problem+json"] ->
  http_record_check (create_record clk input) = true /\
  http_record_check (answered_record status ct body resource now (create_record clk input)) = true.
Proof.
  intros Hl Hc Hn Hs Hct. unfold http_record_check. cbn -[pg_interval httpRecordLifetime within].
  rewrite (proj2 (Z.ltb_lt _ _) Hc), (proj2 (Z.leb_le _ _) Hn), Hl, Hs, (bool_decide_eq_true_2 _ Hct).
  split; reflexivity.
Qed.

Lemma not_stored u m p k d : stored_record u m p k d = None ->
  any_row (fun _ => same_request u m p k) (http_records (saved d)) = false.
Proof.
  unfold stored_record. intros Hn. apply rows_where_none.
  by destruct (rows_where _ _) as [|x l].
Qed.

(** A resolved attempt holds what a place needs. *)
Lemma resolved_checks now userID k c r :
  resolution_check r = true -> pr_state r = ResResolved ->
  stored_candidate "lock place resolution" r = Ok c ->
  place_row_check (created_place now userID k c r) = true /\
  resolution_check (consumed_row now r) = true.
Proof.
  unfold resolution_check, place_row_check, stored_candidate, resolution_state_check. intros Hck Hs Hc.
  rewrite Hs in Hck. simpl.
  destruct (pr_latitude r), (pr_longitude r), (pr_display_name r), (pr_time_zone_name r);
    try discriminate Hc. injection Hc as <-. simpl in *.
  rewrite !andb_true_r in *. rewrite !andb_true_iff in *. tauto.
Qed.

(** The attempt with a token is the only usable one. *)
Lemma usable_found now userID token k r d :
  place_inv d -> resolutions (auth d) !! k = Some r -> usable_resolution now userID token k r = true ->
  head (rows_where (usable_resolution now userID token) (resolutions (auth d))) = Some (k, r).
Proof.
  intros Hinv Hr Hus. rewrite (rows_where_unique _ _ k r); [done|done|done|].
  intros k' r' Hr' (_ & Ht' & _)%usable_resolution_iff.
  apply usable_resolution_iff in Hus as (_ & Ht & _). symmetry. by eapply (pi_tokens _ Hinv).
Qed.

Lemma insert_place_runs op id p r d :
  place_inv d -> places (saved d) !! id = None -> place_row_check p = true -> pc_owner_user_id p ∈ users d ->
  resolutions (auth d) !! pc_source_resolution_id p = Some r -> pr_user_id r = pc_owner_user_id p ->
  pr_state r = ResResolved ->
  forall d', auth d' = auth d -> user_rows d' = user_rows d -> places (saved d') = places (saved d) ->
  insert_place op id p d' = Ok (tt, set_places (<[id := p]> (places (saved d))) d').
Proof.
  intros Hinv Hn Hck Hu Hr Hus Hs d' HA HU HP. unfold insert_place, users in *. rewrite HA, HU, HP, Hn, Hck, Hr, Hus.
  rewrite (bool_decide_eq_true_2 (_ ∈ _)), (bool_decide_eq_true_2 (pc_owner_user_id p = _)) by done.
  rewrite bool_decide_eq_false_2 by (by intros [? ?]). simpl.
  rewrite (proj2 (any_row_false _ _)); [done|]. intros k q Hq. apply bool_decide_eq_false. intros Heq.
  destruct (pi_sources _ Hinv _ _ Hq) as (r' & Hr' & Hs'). rewrite Heq in Hr'. congruence.
Qed.

Lemma update_resolution_runs op id f r d :
  place_inv d -> resolutions (auth d) !! id = Some r -> resolution_check (f r) = true ->
  pr_resolution_token_sha256 (f r) = pr_resolution_token_sha256 r ->
  forall d', auth d' = auth d ->
  update_resolution op id (fun _ => true) f d' =
    Ok (Some (f r), set_resolutions (<[id := f r]> (resolutions (auth d))) d').
Proof.
  intros Hinv Hr Hck Ht d' Ha. unfold update_resolution. rewrite Ha, Hr, Hck, Ht.
  rewrite (proj2 (any_row_false _ _)); [done|]. intros k q Hq.
  destruct (bool_decide_reflect (k = id)); [done|].
  destruct (pr_resolution_token_sha256 q) as [t|] eqn:Hq'; [|done]. simpl.
  apply bool_decide_eq_false. intros Heq. eapply n, (pi_tokens _ Hinv); eauto.
Qed.

Lemma CreatePlace_runs clk rng input k r c body j d :
  place_inv d -> creatable clk rng input d -> resolutions (auth d) !! k = Some r ->
  usable_resolution (clk 2%nat) (ci_UserID input) (sha256Bytes (ci_ResolutionToken input)) k r = true ->
  stored_candidate "lock place resolution" r = Ok c ->
  let pid := newAuthUUID (rng 1%nat) in
  let p := created_place (clk 3%nat) (ci_UserID input) k c r in
  place_body pid p = Ok body -> jsonb_in body = Some j ->
  exists d', CreatePlace clk rng input d = Ok (MkPlaceResult 201 "application/json" body pid, d').
Proof.
  intros Hinv [Hv Hl Hu Hreq Hrec Hpl Hc0 Hc5] Hr Hus Hc pid p Hb Hj.
  destruct (create_record_answered clk input 201 "application/json" (Some j) (fun _ => Some pid)
    (clk 5%nat) Hl Hc0 Hc5 eq_refl ltac:(by left)) as [Hck0 Hck1].
  pose proof Hus as (Hru & Ht & Hs & _)%usable_resolution_iff.
  destruct (resolved_checks (clk 3%nat) (ci_UserID input) k c r) as [Hpc _];
    [by eapply (pi_checks _ Hinv)|done|done|].
  destruct (resolved_checks (clk 4%nat) (ci_UserID input) k c r) as [_ Hcc];
    [by eapply (pi_checks _ Hinv)|done|done|].
  eexists. unfold CreatePlace. eapply tx_bind_run; [by apply valid_create_guard|].
  eapply tx_bind_run.
  { unfold insert_http_record. rewrite Hck0.
    cbn [negb create_record h_user_id h_http_method h_normalized_path h_idempotency_key].
    rewrite (not_stored _ _ _ _ _ Hreq), Hrec.
    rewrite (bool_decide_eq_true_2 (_ ∈ _)) by done. by rewrite bool_decide_eq_false_2 by (by intros [? ?]). }
  cbv iota. eapply tx_bind_run; [by apply gets_ok|]. cbn [set_http_records set_saved auth].
  rewrite (usable_found _ _ _ k r) by done. unfold create_from.
  eapply tx_bind_run; [by apply lift_ok|].
  eapply tx_bind_run; [by apply (insert_place_runs _ _ _ r d)|].
  eapply tx_bind_run; [by apply (update_resolution_runs _ _ _ r d)|].
  eapply tx_bind_run; [by apply lift_ok|].
  eapply tx_bind_run; [by apply lift_ok; split; [apply of_option_ok|]|].
  eapply tx_bind_run; [|done]. unfold update_http_record. cbn [set_resolutions set_auth set_places
    set_http_records set_saved saved http_records]. rewrite lookup_insert_eq. cbn [always].
  change (shift 3 clk 2%nat) with (clk 5%nat). fold pid. by rewrite Hck1.
Qed.

(** A candidate becomes a place: after a resolution answered with a candidate, and
    whatever happened since that did not use it, its token creates within ten minutes
    (places being renderable as JSON) a place of the same user with the coordinates, names and time zone the provider
    returned. *)
Theorem resolved_place_is_created clk rng keys p input d a d1 d2 r clk' rng' cin :
  place_inv d ->
  stored_record (ri_UserID input) "POST" resolve_path (ri_IdempotencyKey input) d = None ->
  Resolve clk rng keys p input d = (Ok a, d1) -> ph_Status a = 200 -> rtc place_step d1 d2 ->
  let aid := newAuthUUID (rng 0%nat) in
  resolutions (auth d2) !! aid = Some r -> pr_state r = ResResolved ->
  Some (ci_ResolutionToken cin) = placeToken keys (CurrentID keys) aid ->
  ci_UserID cin = ri_UserID input -> creatable clk' rng' cin d2 ->
  clk' 2%nat < clk 6%nat + pg_interval placeResolutionLifetime ->
  (forall pl, exists body, place_body (newAuthUUID (rng' 1%nat)) pl = Ok body /\ is_Some (jsonb_in body)) ->
  exists c, provider_outcome (p (ri_UserID input) (ri_Coordinate input)) true = inl c /\
  exists body d3,
    CreatePlace clk' rng' cin d2 =
      Ok (MkPlaceResult 201 "application/json" body (newAuthUUID (rng' 1%nat)), d3) /\
    places (saved d3) = <[newAuthUUID (rng' 1%nat) :=
      Place (ri_UserID input) aid (cd_Latitude c) (cd_Longitude c) (nullableString (cd_FormattedAddress c))
        (cd_DisplayName c) (cd_TimeZoneName c) (clk' 3%nat)]> (places (saved d2)).
Proof.
  intros Hinv Hfresh Hop Hst Hsteps aid Hr2 Hs2 Htok Hu Hca Hnow Hren.
  destruct (place_step_inv d d1 Hinv (pl_resolve _ _ _ _ _ _ _ _ Hop)) as [Hinv1 _].
  apply Resolve_run in Hop. inversion Hop as [x Hx|e h q d' _ _ _|digest marked r0 q h x d' keyID h0 _ Hus Hin Ha]; subst.
  { destruct (Hx a eq_refl) as [kv Hkv]. congruence. }
  destruct (place_steps_inv d1 d2 Hinv1 Hsteps) as [Hinv2 [_ HA _]].
  destruct (reserved_rows _ _ _ _ _ _ Hin) as [_ Hr]. destruct (HA _ _ Hr) as (r' & Hr' & Hk).
  assert (r' = r) as -> by (unfold aid in *; congruence).
  destruct Hk as [->|(_ & now & ->)]; [|done].
  destruct Ha as [token c body h0' Hout Ht r1 Hck Hb|cause code status retryable requestID stored h0' Hf];
    [|by unfold placeFailure in Hf; repeat case_match; simplify_eq].
  destruct marked; [|unfold provider_outcome in Hout; by repeat case_match].
  exists c. split; [done|]. unfold keyID in Ht. fold aid in Ht. rewrite Ht in Htok. injection Htok as Htok.
  destruct (Hren (created_place (clk' 3%nat) (ci_UserID cin) aid c r1)) as (body' & Hb' & j & Hj).
  assert (usable_resolution (clk' 2%nat) (ci_UserID cin) (sha256Bytes (ci_ResolutionToken cin)) aid r1 = true).
  { apply usable_resolution_iff. by rewrite Htok, Hu. }
  assert (Hcand : stored_candidate "lock place resolution" r1 = Ok c) by apply stored_candidate_resolved.
  destruct (CreatePlace_runs clk' rng' cin aid r1 c body' j d2) as [d3 H3]; try done.
  exists body', d3. split; [done|]. apply CreatePlace_ok in H3. rewrite <- Hu.
  inversion H3 as [k h x Hk _ E1 E2|body1 j1 h1 d1' Hno|k r' c' body1 j1 h1 d1' pid p' Hr1 Hus1 Hc1 _ _ _ _ _ _ _ HP _]; subst.
  - destruct Hca. congruence.
  - assert (k = aid) as ->.
    { apply usable_resolution_iff in Hus1 as (_ & Ht1 & _), H as (_ & Ht2 & _).
      by eapply (pi_tokens _ Hinv2). }
    assert (r' = r1) as -> by congruence. assert (c' = c) as -> by congruence. exact HP.
Qed.
End Props.
