(* ===== verification/PlaceExamples.v ===== *)
(** * A history of one place

    A coordinate resolved, its token used for a place, and both requests
    repeated, on a concrete server: the theorems on places applied. *)

From S2P Require Import Prelude GoLib Schema Tables Leases GoText SavedTables SavedMutations SavedFacts Opaque Sessions SessionFacts SessionExamples Places PlaceProps.

Section History.
#[local] Existing Instance pg_model.

(** Rendering for the example: the names of the members, as one JSON string. *)
Definition ex_render (j : json) : bytes :=
  Byte.x22 :: bytes_of_string
    (match j with JObject ms => String.concat "," (List.map fst ms) | _ => "value" end) ++ [Byte.x22].

Definition ex_http_json : HttpJson := {|
  json_marshal j := Some (ex_render j);
  canonicalHTTPBody b := if json_Valid b then Some b else None
|}.
#[local] Existing Instance ex_http_json.

#[local] Instance ex_http_json_laws : HttpJsonLaws ex_http_json.
Proof.
  constructor; simpl.
  - intros b c. destruct (json_Valid b) eqn:E; [intros [= <-]; by rewrite E|done].
  - intros b c j. destruct (json_Valid b) eqn:E; [intros [= <-]|done]. rewrite E. intros [= <-].
    by rewrite !E.
Qed.

Definition ex_candidate : Candidate :=
  MkCandidate (S754_zero false) (S754_zero false) "1 Main St" "Cafe" "Europe/Paris".
Definition ex_provider : Provider := fun _ _ => MkProviderCall true (fun _ => inl ex_candidate).
(** A provider that must not be called. *)
Definition ex_down : Provider := fun _ _ => MkProviderCall false (fun _ => inr None).

Definition ex_resolve_input : ResolvePlaceInput :=
  MkResolveInput ex_user ex_trip (bytes_of_string "{}") ex_plan
    (MkCoordinate (S754_zero false) (S754_zero false)).
#[local] Abbreviation ex_resolve k ring p d := (Resolve (ex_at k) (ex_draw k) ring p ex_resolve_input d).
Definition ex_p1 : db := (ex_resolve 0 ex_ring ex_provider ex_d0).2.
Definition ex_attempt : string := newAuthUUID (ex_draw 0 0).
Definition ex_place_token : string := default "" (placeToken ex_ring "a" ex_attempt).
Definition ex_create_input : CreatePlaceInput :=
  MkCreateInput ex_user ex_holder_a (repeat Byte.x00 32) ex_place_token ex_plan.
#[local] Abbreviation ex_create k := (CreatePlace (ex_at 0) (fun n => ex_draw k (S n)) ex_create_input).
Definition ex_p2 : db := committed (ex_create 1) ex_p1.

Definition answers (status : Z) (a : PlaceHTTPResult) : bool :=
  (ph_Status a =? status) && negb (bool_decide (ph_Body a = [])).
Definition answers_200 : PlaceHTTPResult -> bool := answers 200.
Definition answers_201 : PlaceHTTPResult -> bool := answers 201.

Lemma ex_resolve_runs :
  match (ex_resolve 0 ex_ring ex_provider ex_d0).1 with Ok a => answers_200 a | Err _ => false end = true.
Proof. vm_compute. reflexivity. Qed.
Lemma ex_create_runs : returns answers_201 (ex_create 1) ex_p1 = true.
Proof. vm_compute. reflexivity. Qed.

Lemma ex_resolve_answer : exists a,
  ex_resolve 0 ex_ring ex_provider ex_d0 = (Ok a, ex_p1) /\ answers_200 a = true.
Proof.
  pose proof ex_resolve_runs as Hx. unfold ex_p1.
  destruct (ex_resolve 0 ex_ring ex_provider ex_d0) as [[a|e] d1]; [|discriminate Hx].
  exact (ex_intro _ a (conj eq_refl Hx)).
Qed.

Lemma ex_create_answer : exists a, ex_create 1 ex_p1 = Ok (a, ex_p2) /\ answers_201 a = true.
Proof. exact (returns_ok _ _ _ ex_create_runs). Qed.

Lemma answers_ok status a : answers status a = true -> ph_Status a = status /\ ph_Body a <> [].
Proof.
  unfold answers. intros [Hs Hb]%andb_true_iff. apply Z.eqb_eq in Hs. apply negb_true_iff in Hb.
  by apply bool_decide_eq_false in Hb.
Qed.

Lemma place_inv_empty d :
  http_records (saved d) = ∅ -> resolutions (auth d) = ∅ -> places (saved d) = ∅ -> place_inv d.
Proof. intros H1 H2 H3. constructor; rewrite ?H1, ?H2, ?H3; intros *; by rewrite lookup_empty. Qed.

Lemma ex_p_inv0 : place_inv ex_d0.
Proof. by apply place_inv_empty. Qed.
Lemma ex_p_step1 : place_step ex_d0 ex_p1.
Proof. destruct ex_resolve_answer as (a & Ha & _). exact (pl_resolve _ _ _ _ _ _ _ _ Ha). Qed.
Lemma ex_p_inv1 : place_inv ex_p1.
Proof. exact (proj1 (place_step_inv ex_d0 ex_p1 ex_p_inv0 ex_p_step1)). Qed.
Lemma ex_p_step2 : place_step ex_p1 ex_p2.
Proof. destruct ex_create_answer as (a & Ha & _). exact (pl_create _ _ _ _ _ _ Ha). Qed.

(** The request of the resolution again, after the place was created, with new keys and
    no provider. *)
Lemma resolution_replays_witness :
  exists a, ex_resolve 0 ex_ring ex_provider ex_d0 = (Ok a, ex_p1) /\
    ex_resolve 1 ex_new_ring ex_down ex_p2 =
    (Ok (MkPlaceResult (ph_Status a) (ph_ContentType a) (ph_Body a) ""), ex_p2).
Proof.
  destruct ex_resolve_answer as (a & Ha & Hs). apply answers_ok in Hs as [Hs Hb].
  exists a. split; [exact Ha|].
  apply (resolution_replays (ex_at 0) (ex_draw 0) ex_ring ex_provider ex_resolve_input ex_d0 a ex_p1 ex_p2
    (ex_at 1) (ex_draw 1) ex_new_ring ex_down ex_p_inv0 eq_refl Ha).
  - intros _. exact Hb.
  - exact (rtc_once _ _ ex_p_step2).
  - split; [reflexivity|]. split; [reflexivity|]. vm_compute. reflexivity.
  - vm_compute. reflexivity.
Defined.

(** A second creation with the token, under another key. *)
Definition ex_second_input : CreatePlaceInput :=
  MkCreateInput ex_user ex_holder_b (repeat Byte.x00 32) ex_place_token ex_plan.
#[local] Abbreviation ex_again := (CreatePlace (ex_at 0) (fun n => ex_draw 2 (S n)) ex_second_input).
Definition answers_410 : PlaceHTTPResult -> bool := answers 410.
Lemma ex_again_runs : returns answers_410 ex_again ex_p2 = true.
Proof. vm_compute. reflexivity. Qed.
Lemma null_none {A} (x : option A) : is_null x = true -> x = None.
Proof. by destruct x. Qed.

Lemma ex_create_unused :
  stored_record ex_user "POST" create_path ex_holder_a ex_p1 = None.
Proof. apply null_none. vm_compute. reflexivity. Qed.

Lemma ex_same_token : ci_ResolutionToken ex_second_input = ci_ResolutionToken ex_create_input.
Proof. vm_compute. reflexivity. Qed.

Lemma resolution_creates_once_witness :
  exists b, ex_again ex_p2 = Ok (b, committed ex_again ex_p2) /\
    places (saved (committed ex_again ex_p2)) = places (saved ex_p2).
Proof.
  destruct ex_create_answer as (a & Ha & Hs). apply answers_ok in Hs as [Hs _].
  destruct (returns_ok _ _ _ ex_again_runs) as (b & Hb & _). exists b. split; [exact Hb|].
  exact (resolution_creates_once (ex_at 0) (fun n => ex_draw 1 (S n)) ex_create_input ex_p1 a ex_p2 ex_p2
    (ex_at 0) (fun n => ex_draw 2 (S n)) ex_second_input b (committed ex_again ex_p2)
    ex_p_inv1 ex_create_unused Ha Hs (rtc_refl place_step ex_p2) ex_same_token Hb).
Defined.

Lemma creation_replays_witness :
  exists a, ex_create 1 ex_p1 = Ok (a, ex_p2) /\
    ex_create 2 ex_p2 = Ok (MkPlaceResult (ph_Status a) (ph_ContentType a) (ph_Body a) "", ex_p2).
Proof.
  destruct ex_create_answer as (a & Ha & _). exists a. split; [exact Ha|].
  exact (proj1 (creation_replays (ex_at 0) (fun n => ex_draw 1 (S n)) ex_create_input ex_p1 a ex_p2 ex_p2
    (ex_at 0) (fun n => ex_draw 2 (S n)) ex_p_inv1 ex_create_unused Ha (rtc_refl place_step ex_p2)
    ltac:(vm_compute; reflexivity))).
Defined.

(** The resolved attempt, and a creation from it. *)
Definition ex_resolved (r : resolution) : bool := bool_decide (pr_state r = ResResolved).
Lemma ex_attempt_resolved :
  match resolutions (auth ex_p1) !! ex_attempt with Some r => ex_resolved r | None => false end = true.
Proof. vm_compute. reflexivity. Qed.

Lemma ex_creatable : creatable (ex_at 0) (fun n => ex_draw 1 (S n)) ex_create_input ex_p1.
Proof.
  constructor.
  - vm_compute. reflexivity.
  - reflexivity.
  - apply (bool_decide_eq_true_1 _). vm_compute. reflexivity.
  - exact ex_create_unused.
  - apply null_none. vm_compute. reflexivity.
  - apply null_none. vm_compute. reflexivity.
  - vm_compute. reflexivity.
  - vm_compute. discriminate.
Qed.

Lemma ex_place_renders id pl : exists body, place_body id pl = Ok body /\ is_Some (jsonb_in body).
Proof.
  unfold place_body, place_json. cbn [json_marshal ex_http_json default].
  destruct (pc_formatted_address pl); eexists; (split; [vm_compute; reflexivity|]);
    eexists; vm_compute; reflexivity.
Qed.

Lemma resolved_place_is_created_witness :
  exists body d, ex_create 1 ex_p1 =
    Ok (MkPlaceResult 201 "application/json" body (newAuthUUID (ex_draw 1 2)), d) /\
    places (saved d) = <[newAuthUUID (ex_draw 1 2) :=
      Place ex_user ex_attempt (S754_zero false) (S754_zero false) (Some "1 Main St") "Cafe" "Europe/Paris"
        (ex_at 0 3)]> (places (saved ex_p1)).
Proof.
  destruct ex_resolve_answer as (a & Ha & Hs). apply answers_ok in Hs as [Hs _].
  pose proof ex_attempt_resolved as Hr.
  destruct (resolutions (auth ex_p1) !! ex_attempt) as [r|] eqn:Er; [|discriminate Hr].
  apply bool_decide_eq_true in Hr.
  destruct (resolved_place_is_created (ex_at 0) (ex_draw 0) ex_ring ex_provider ex_resolve_input ex_d0 a
    ex_p1 ex_p1 r (ex_at 0) (fun n => ex_draw 1 (S n)) ex_create_input ex_p_inv0 eq_refl Ha Hs
    (rtc_refl place_step ex_p1) Er Hr ltac:(vm_compute; reflexivity) eq_refl ex_creatable
    ltac:(vm_compute; reflexivity) (ex_place_renders _)) as (c & Hc & body & d & Hx & Hp).
  injection Hc as <-. exact (ex_intro _ body (ex_intro _ d (conj Hx Hp))).
Defined.
End History.
