(* ===== verification/HttpText.v ===== *)
(** * Text of the HTTP interface

    What [gateway/http_authentication.go] and [auth/google_oidc.go] use of
    [strings] and [strconv], and the parsers of the gateway: entity tags and
    identifiers. *)

From stdpp Require Import pretty.
From S2P Require Import Prelude GoLib GoText.
From Stdlib Require Import Ascii.

(** ** [strings] *)

Definition HasPrefix (s p : string) : bool :=
  match strip_prefix (bytes_of_string p) (bytes_of_string s) with Some _ => true | None => false end.

Definition TrimPrefix (s p : string) : string :=
  match strip_prefix (bytes_of_string p) (bytes_of_string s) with
  | Some rest => string_of_bytes rest
  | None => s
  end.

(** Drops a final [p]. *)
Definition strip_suffix (p l : bytes) : option bytes :=
  rest ← strip_prefix (rev p) (rev l); Some (rev rest).

Definition HasSuffix (s p : string) : bool :=
  match strip_suffix (bytes_of_string p) (bytes_of_string s) with Some _ => true | None => false end.

Definition TrimSuffix (s p : string) : string :=
  match strip_suffix (bytes_of_string p) (bytes_of_string s) with
  | Some rest => string_of_bytes rest
  | None => s
  end.

Fixpoint contains (p l : bytes) : bool :=
  match strip_prefix p l with
  | Some _ => true
  | None => match l with [] => false | _ :: l => contains p l end
  end.
Definition Contains (s p : string) : bool := contains (bytes_of_string p) (bytes_of_string s).

(** [strings.Split] at a separator of one byte. *)
Fixpoint split_at (c : Z) (l : bytes) : list bytes :=
  match l with
  | [] => [[]]
  | b :: rest =>
      if byte_val b =? c then [] :: split_at c rest
      else match split_at c rest with
           | part :: parts => (b :: part) :: parts
           | [] => [[b]]
           end
  end.
Definition Split (s : string) (c : Z) : list string :=
  List.map string_of_bytes (split_at c (bytes_of_string s)).

(** [strings.ToLower] of ASCII text. *)
Definition lower_char (c : ascii) : ascii :=
  let v := Z.of_N (N_of_ascii c) in
  if (65 <=? v) && (v <=? 90) then ascii_of_N (Z.to_N (v + 32)) else c.
Fixpoint ToLower (s : string) : string :=
  match s with EmptyString => EmptyString | String c s => String (lower_char c) (ToLower s) end.

(** ** [strconv] *)

Definition max_uint64 : Z := 18446744073709551615.

Fixpoint parse_digits (l : bytes) (acc : Z) : option Z :=
  match l with
  | [] => Some acc
  | b :: rest =>
      d ← digit b;
      let n := acc * 10 + d in
      if max_uint64 <? n then None else parse_digits rest n
  end.

(** [strconv.ParseUint(s, 10, 64)]. *)
Definition ParseUint (s : string) : option Z :=
  if bool_decide (s = "") then None else parse_digits (bytes_of_string s) 0.

(** [strconv.ParseInt(s, 10, 64)]. *)
Definition ParseInt (s : string) : option Z :=
  let '(neg, digits) :=
    match bytes_of_string s with
    | b :: rest => if byte_val b =? 43 then (false, rest)
                   else if byte_val b =? 45 then (true, rest) else (false, b :: rest)
    | [] => (false, [])
    end in
  if bool_decide (digits = []) then None
  else
    n ← parse_digits digits 0;
    if negb neg && (max_int64 <? n) then None
    else if neg && (max_int64 + 1 <? n) then None
    else Some (if neg then - n else n).

(** ** The gateway's parsers *)

Definition etag_prefix : string := String quote "trip-revision-".
Definition quote_text : string := String quote EmptyString.

(** [None] for an invalid tag. *)
Definition parseTripETag (value : string) : option Z :=
  if negb (HasPrefix value etag_prefix) || negb (HasSuffix value quote_text) then None
  else
    let raw := TrimSuffix (TrimPrefix value etag_prefix) quote_text in
    if bool_decide (raw = "") || (20 <? len_bytes raw) ||
       ((1 <? len_bytes raw) && bool_decide (String.get 0 raw = Some "0"%char))
    then None
    else ParseUint raw.

Definition hex_char (c : ascii) : bool :=
  let v := Z.of_N (N_of_ascii c) in
  ((48 <=? v) && (v <=? 57)) || ((97 <=? v) && (v <=? 102)).

(** The loop over the characters from [index] on; one outside ASCII is no digit. *)
Fixpoint http_uuid_chars (index : nat) (s : string) : bool :=
  match s with
  | EmptyString => true
  | String c s =>
      (bool_decide (index ∈ [8; 13; 18; 23]%nat) || hex_char c) && http_uuid_chars (S index) s
  end.

Definition char_in (value : string) (index : nat) (l : list ascii) : bool :=
  match String.get index value with Some c => bool_decide (c ∈ l) | None => false end.

(** [strings.ToLower] need only be right on ASCII here: other text fails the loop. *)
Definition validHTTPUUID (value : string) : bool :=
  if negb (bool_decide (String.length value = 36%nat)) || negb (char_in value 8 ["-"%char]) ||
     negb (char_in value 13 ["-"%char]) || negb (char_in value 18 ["-"%char]) ||
     negb (char_in value 23 ["-"%char]) || negb (bool_decide (ToLower value = value))
  then false
  else
    http_uuid_chars 0 value && char_in value 14 ["1"; "2"; "3"; "4"; "5"]%char &&
    char_in value 19 ["8"; "9"; "a"; "b"]%char.

(** [newHTTPID] with what [rand.Read] returned, [None] for an error. *)
Definition newHTTPID (random : option bytes) : string :=
  match random with
  | None => "00000000-0000-4000-8000-000000000000"
  | Some raw => newAuthUUID raw
  end.

(** ** Entity tags *)

Lemma strip_prefix_app p l : strip_prefix p (p ++ l) = Some l.
Proof. induction p as [|x p IH]; [done|]. simpl. by rewrite bool_decide_eq_true_2. Qed.

Lemma strip_suffix_app p l : strip_suffix p (l ++ p) = Some l.
Proof. unfold strip_suffix. rewrite rev_app_distr, strip_prefix_app. simpl. by rewrite rev_involutive. Qed.

Lemma bytes_of_string_app s t : bytes_of_string (s +:+ t) = bytes_of_string s ++ bytes_of_string t.
Proof.
  induction s as [|c s IH]; [done|].
  change (Ascii.byte_of_ascii c :: bytes_of_string (s +:+ t) =
    Ascii.byte_of_ascii c :: (bytes_of_string s ++ bytes_of_string t)). by rewrite IH.
Qed.

Lemma bytes_of_string_length s : length (bytes_of_string s) = String.length s.
Proof.
  unfold bytes_of_string, String.list_byte_of_string. rewrite length_map.
  induction s as [|c s IH]; simpl; auto.
Qed.

Lemma TrimPrefix_app p s : HasPrefix (p +:+ s) p = true /\ TrimPrefix (p +:+ s) p = s.
Proof.
  unfold HasPrefix, TrimPrefix. rewrite bytes_of_string_app, strip_prefix_app.
  by rewrite string_of_bytes_of_string.
Qed.

Lemma TrimSuffix_app p s : HasSuffix (s +:+ p) p = true /\ TrimSuffix (s +:+ p) p = s.
Proof.
  unfold HasSuffix, TrimSuffix. rewrite bytes_of_string_app, strip_suffix_app.
  by rewrite string_of_bytes_of_string.
Qed.

(** Reading back the digits [strconv.FormatInt] prints. *)
Lemma digit_pretty x : (x < 10)%N ->
  bytes_of_string (String (pretty_N_char x) EmptyString) = [byte_of (48 + Z.of_N x)] /\
  digit (byte_of (48 + Z.of_N x)) = Some (Z.of_N x).
Proof.
  intros Hx. assert (x ∈ [0;1;2;3;4;5;6;7;8;9]%N) as Hin by (rewrite !elem_of_cons; lia).
  repeat (apply elem_of_cons in Hin as [->|Hin]; [done|]). by apply not_elem_of_nil in Hin.
Qed.

Lemma parse_pretty_go x s : Z.of_N x <= max_uint64 ->
  parse_digits (bytes_of_string (pretty_N_go x s)) 0 = parse_digits (bytes_of_string s) (Z.of_N x).
Proof.
  revert s. induction (N.lt_wf_0 x) as [x _ IH]. intros s Hx.
  destruct (decide (x = 0%N)) as [->|Hn]; [by rewrite pretty_N_go_0|].
  rewrite pretty_N_go_step by lia.
  assert (x `div` 10 < x)%N by (apply N.div_lt; lia).
  rewrite IH by lia.
  destruct (digit_pretty (x `mod` 10)%N) as [Hb Hd]; [apply N.mod_lt; lia|].
  change (String (pretty_N_char (x `mod` 10)) s) with (String (pretty_N_char (x `mod` 10)) "" +:+ s).
  rewrite bytes_of_string_app, Hb. cbn [app parse_digits]. rewrite Hd. cbn.
  assert (Z.of_N (x `div` 10) * 10 + Z.of_N (x `mod` 10) = Z.of_N x) as ->.
  { rewrite N2Z.inj_div, N2Z.inj_mod. pose proof (Z.div_mod (Z.of_N x) 10). lia. }
  by rewrite (proj2 (Z.ltb_ge _ _) Hx).
Qed.

Lemma pretty_go_length k x s : (x < 10 ^ N.of_nat k)%N ->
  (String.length (pretty_N_go x s) <= k + String.length s)%nat.
Proof.
  revert x s. induction k as [|k IH]; intros x s Hx.
  - assert (x = 0%N) as -> by (simpl in Hx; lia). by rewrite pretty_N_go_0.
  - destruct (decide (x = 0%N)) as [->|Hn]; [rewrite pretty_N_go_0; lia|].
    rewrite pretty_N_go_step by lia. etrans; [apply IH|simpl; lia].
    rewrite Nat2N.inj_succ, N.pow_succ_r' in Hx. apply N.Div0.div_lt_upper_bound. lia.
Qed.

Lemma pretty_go_first x s : (0 < x)%N -> String.get 0 (pretty_N_go x s) <> Some "0"%char.
Proof.
  revert s. induction (N.lt_wf_0 x) as [x _ IH]. intros s Hx. rewrite pretty_N_go_step by lia.
  destruct (decide (x `div` 10 = 0)%N) as [Hz|Hn].
  - rewrite Hz, pretty_N_go_0. cbn. apply N.div_small_iff in Hz; [|lia].
    rewrite N.mod_small by done. intros [= Heq].
    assert (x = 0%N); [|lia]. by apply pretty_N_char_inj; [lia..|].
  - apply IH; [by apply N.div_lt|by apply N.neq_0_lt_0].
Qed.

(** The text of a number is never empty, has no leading zero and at most 20 digits. *)
Lemma FormatInt_text n : 0 <= n <= max_uint64 ->
  let s := FormatInt n in
  s <> "" /\ len_bytes s <= 20 /\ (1 < len_bytes s -> String.get 0 s <> Some "0"%char) /\
  parse_digits (bytes_of_string s) 0 = Some n.
Proof.
  intros Hn. cbn zeta. destruct n as [|p|p]; [by vm_compute| |lia].
  assert (FormatInt (Z.pos p) = pretty_N_go (Npos p) "") as -> by done.
  assert (Z.of_N (Npos p) <= max_uint64) as Hp by lia.
  split_and!.
  - intros Heq. pose proof (parse_pretty_go _ "" Hp) as Hx. rewrite Heq in Hx. by injection Hx.
  - unfold len_bytes, zlen. rewrite bytes_of_string_length.
    pose proof (pretty_go_length 20 (Npos p) "") as Hl. simpl String.length in Hl.
    unfold max_uint64 in *. cut (N.pos p < 10 ^ N.of_nat 20)%N; [lia|].
    change (10 ^ N.of_nat 20)%N with 100000000000000000000%N. lia.
  - intros _. by apply pretty_go_first.
  - by rewrite (parse_pretty_go _ "").
Qed.

Lemma append_assoc (s t u : string) : s +:+ (t +:+ u) = (s +:+ t) +:+ u.
Proof. induction s as [|c s IH]; [done|]. exact (f_equal (String c) IH). Qed.

Lemma etag_text revision : revision_etag revision = etag_prefix +:+ revision +:+ quote_text.
Proof. unfold revision_etag, quoted, etag_prefix. simpl. reflexivity. Qed.

(** The entity tag of a revision is read back as that revision: what a response
    names in [ETag] is what the next request expects in [If-Match]. *)
Theorem etag_roundtrip n : 0 <= n <= max_uint64 -> parseTripETag (revision_etag (FormatInt n)) = Some n.
Proof.
  intros Hn. destruct (FormatInt_text n Hn) as (He & Hl & Hz & Hp). rewrite etag_text. unfold parseTripETag.
  destruct (TrimPrefix_app etag_prefix (FormatInt n +:+ quote_text)) as [-> ->].
  destruct (TrimSuffix_app quote_text (FormatInt n)) as [_ ->].
  rewrite append_assoc. destruct (TrimSuffix_app quote_text (etag_prefix +:+ FormatInt n)) as [-> _].
  unfold ParseUint. rewrite (bool_decide_eq_false_2 _ He), (proj2 (Z.ltb_ge _ _) Hl). simpl.
  destruct (1 <? len_bytes (FormatInt n)) eqn:E; simpl; [|done].
  apply Z.ltb_lt in E. by rewrite bool_decide_eq_false_2 by auto.
Qed.

Lemma etag_roundtrip_witness : parseTripETag (revision_etag (FormatInt 42)) = Some 42.
Proof. apply (etag_roundtrip 42). unfold max_uint64. lia. Defined.

(** ** Identifiers *)

Definition dashes : list nat := [8; 13; 18; 23]%nat.

Lemma uuid_char_split index c :
  uuid_char index c = true <->
  bool_decide (index ∈ dashes) || hex_char c = true /\ (index ∈ dashes -> c = "-"%char).
Proof.
  unfold uuid_char, dashes, hex_char. case_bool_decide as Hd; simpl; [rewrite bool_decide_eq_true|]; naive_solver.
Qed.

Lemma uuid_chars_split index s :
  uuid_chars index s = true <->
  http_uuid_chars index s = true /\
  forall i c, String.get i s = Some c -> (index + i)%nat ∈ dashes -> c = "-"%char.
Proof.
  revert index. induction s as [|c s IH]; intros index; [split; [by split; [|intros []]|done]|].
  cbn [uuid_chars http_uuid_chars]. rewrite !andb_true_iff, IH, uuid_char_split. fold dashes. split.
  - intros [[Hc Hd] [Hs Hall]]. split; [done|]. intros [|i] x Hx Hin.
    + injection Hx as <-. rewrite Nat.add_0_r in Hin. auto.
    + eapply Hall; [exact Hx|]. by rewrite <- Nat.add_succ_comm in Hin.
  - intros [[Hc Hs] Hall]. split; [split; [done|]|split; [done|]].
    + intros Hin. apply (Hall 0%nat c); [done|by rewrite Nat.add_0_r].
    + intros i x Hx Hin. apply (Hall (S i) x); [done|]. by rewrite <- Nat.add_succ_comm.
Qed.

Lemma uuid_chars_lower index s : uuid_chars index s = true -> ToLower s = s.
Proof.
  revert index. induction s as [|c s IH]; intros index; [done|]. cbn [uuid_chars ToLower].
  intros [Hc Hs]%andb_true_iff. rewrite (IH _ Hs). f_equal.
  unfold lower_char. assert (Hv : Z.of_N (N_of_ascii c) < 65 \/ 90 < Z.of_N (N_of_ascii c)).
  { unfold uuid_char in Hc. destruct (bool_decide (index ∈ _)).
    - apply bool_decide_eq_true in Hc as ->. left. done.
    - apply orb_true_iff in Hc. zbool. lia. }
  destruct (_ && _) eqn:E; [|done]. zbool. lia.
Qed.

Lemma char_in_spec value index l :
  char_in value index l = true <-> exists c, String.get index value = Some c /\ c ∈ l.
Proof.
  unfold char_in. destruct (String.get index value) as [c|]; [|naive_solver].
  rewrite bool_decide_eq_true. naive_solver.
Qed.

Lemma char_in_one value index c : char_in value index [c] = true <-> String.get index value = Some c.
Proof.
  rewrite char_in_spec. split; [|intros Hc; exists c; by rewrite list_elem_of_singleton].
  intros (x & Hx & Hin). apply list_elem_of_singleton in Hin. by subst.
Qed.

Lemma get_some value index : (index < String.length value)%nat -> exists c, String.get index value = Some c.
Proof.
  revert index. induction value as [|c s IH]; intros [|n] Hn; simpl in *; [lia|lia|by exists c|].
  apply IH. lia.
Qed.

(** The gateway's test accepts the identifiers of the stores of version 1 to 5 and of
    the RFC variant. *)
Lemma validHTTPUUID_spec value :
  validHTTPUUID value = true <->
  validCanonicalUUID value = true /\ char_in value 14 ["1"; "2"; "3"; "4"; "5"]%char = true /\
  char_in value 19 ["8"; "9"; "a"; "b"]%char = true.
Proof.
  unfold validHTTPUUID, validCanonicalUUID.
  assert (Hd : String.length value = 36%nat ->
    (forall i c, String.get i value = Some c -> i ∈ dashes -> c = "-"%char) <->
    (forall i, i ∈ dashes -> char_in value i ["-"%char] = true)).
  { intros Hl. split; intros Hall i.
    - intros Hin. destruct (get_some value i) as [c Hc].
      { rewrite Hl. unfold dashes in Hin. rewrite !elem_of_cons, elem_of_nil in Hin. lia. }
      rewrite (Hall i c Hc Hin) in Hc. by apply char_in_one.
    - intros c Hc Hin. specialize (Hall i Hin). apply char_in_one in Hall. congruence. }
  destruct (bool_decide_reflect (String.length value = 36%nat)) as [Hl|Hl]; simpl; [|naive_solver].
  specialize (Hd Hl). pose proof (uuid_chars_split 0 value) as Hs. cbn [Nat.add] in Hs. rewrite Hd in Hs.
  pose proof (uuid_chars_lower 0 value) as Hlow.
  assert (Hdash : (forall i, i ∈ dashes -> char_in value i ["-"%char] = true) <->
    char_in value 8 ["-"%char] = true /\ char_in value 13 ["-"%char] = true /\
    char_in value 18 ["-"%char] = true /\ char_in value 23 ["-"%char] = true).
  { unfold dashes. split.
    - intros Hall. split_and!; apply Hall; by apply (bool_decide_eq_true_1 _).
    - intros (H8 & H13 & H18 & H23) i Hi. rewrite !elem_of_cons, elem_of_nil in Hi.
      by destruct Hi as [->|[->|[->|[->|[]]]]]. }
  rewrite Hdash in Hs.
  destruct (char_in value 8 _), (char_in value 13 ["-"%char]), (char_in value 18 _), (char_in value 23 _);
    simpl; try (split; [done|]; intros [Hu%Hs _]; by destruct_and!).
  destruct (bool_decide_reflect (ToLower value = value)) as [|Hne]; simpl.
  - rewrite !andb_true_iff, Hs. tauto.
  - split; [done|]. intros [Hu _]. exfalso. auto.
Qed.

(** Every identifier the stores and the gateway draw is one the gateway accepts in
    a path or a header. *)
Theorem drawn_ids_accepted random :
  length random = 16%nat ->
  validHTTPUUID (newAuthUUID random) = true /\ validHTTPUUID (newHTTPID (Some random)) = true /\
  validHTTPUUID (newHTTPID None) = true.
Proof.
  intros Hl. cut (validHTTPUUID (newAuthUUID random) = true).
  { intros H. split; [exact H|]. split; [exact H|]. vm_compute. reflexivity. }
  destruct (newAuthUUID_bits random Hl) as (Hv & H4 & c & Hc & Hin). apply validHTTPUUID_spec.
  split; [done|]. rewrite !char_in_spec. split; [exists "4"%char|exists c]; (split; [done|]); [|done].
  by apply (bool_decide_eq_true_1 _).
Qed.

Lemma drawn_ids_accepted_witness : validHTTPUUID (newHTTPID (Some (repeat Byte.xff 16))) = true.
Proof. exact (proj1 (proj2 (drawn_ids_accepted (repeat Byte.xff 16) eq_refl))). Defined.
