(* ===== verification/Google.v ===== *)
(** * Google identities

    Models [auth/google_oidc.go].  The OpenID Connect library's check of a
    signed token (signature, audience, expiry) is a parameter: what it returns for
    a token.  So is the decoding of a token's payload. *)

From S2P Require Import Prelude GoLib GoText Opaque HttpText Schema Sessions.

Definition googleIssuer : string := "https://accounts.google.com".
Definition googleLegacyIssuer : string := "accounts.google.com".
Definition maximumTokenBytes : Z := 16 * 1024.
Definition maximumJWKSMaxAge : Z := 24 * Hour.

(** ** What [oidc] and [encoding/json] give *)

Record GoogleClaims := MkClaims {
  cl_AuthorizedParty : string;
  cl_Email : string;
  cl_EmailVerified : bool;
  cl_Name : string
}.

(** [oidc.IDToken]: no [IssuedAt] is the zero time, no claims a decoding error. *)
Record IDToken := MkIDToken {
  it_Issuer : string;
  it_Subject : string;
  it_IssuedAt : option Z;
  it_Nonce : string;
  it_Claims : option GoogleClaims
}.

(** An error of the library: a [TokenExpiredError] or another one, with its message. *)
Record oidc_error := MkOidcError { oe_expired : bool; oe_message : string }.

Record GoogleVerifier := MkGoogleVerifier {
  gv_clientID : string;
  gv_verify : string -> IDToken + oidc_error
}.

(** [json.Unmarshal] of a payload into the struct with the claim [nonce]. *)
Class TokenPayload := payload_nonce : bytes -> option string.

(** ** Tokens *)

Definition ExtractNonce `{TokenPayload} (rawToken : string) : option string :=
  match Split rawToken 46 with
  | [_; part; _] =>
      if bool_decide (part = "") then None
      else
        payload ← DecodeString part;
        if maximumTokenBytes <? zlen payload then None
        else
          nonce ← payload_nonce payload;
          if bool_decide (nonce = "") || (512 <? len_bytes nonce) then None else Some nonce
  | _ => None
  end.

Definition signedTokenValidationStage (e : oidc_error) : string :=
  let message := oe_message e in
  if oe_expired e then "expired"
  else if HasPrefix message "oidc: expected audience " then "audience"
  else if HasPrefix message "oidc: current time " then "not_before"
  else if Contains message "fetching keys context deadline exceeded" ||
          Contains message "fetching keys context canceled" then "keys_timeout"
  else if Contains message "fetching keys " then "keys_fetch"
  else if HasSuffix message "failed to verify id token signature" then "signature"
  else if HasPrefix message "failed to verify signature: " then "signature_or_keys"
  else if HasPrefix message "oidc: malformed jwt: " || HasPrefix message "oidc: id token not signed" ||
          HasPrefix message "oidc: multiple signatures" then "token_format"
  else "signed_token".

(** The identity, or the stage that refused it. *)
Definition Verify (now : Z) (verifier : GoogleVerifier) (rawToken expectedNonce : string)
  : GoogleIdentity + string :=
  if bool_decide (expectedNonce = "") || (len_bytes rawToken =? 0) ||
     (maximumTokenBytes <? len_bytes rawToken) then inr "input"
  else
    match gv_verify verifier rawToken with
    | inr e => inr (signedTokenValidationStage e)
    | inl token =>
        if negb (bool_decide (it_Issuer token = googleIssuer)) &&
           negb (bool_decide (it_Issuer token = googleLegacyIssuer)) then inr "issuer"
        else if bool_decide (it_Subject token = "") || (255 <? len_bytes (it_Subject token))
        then inr "subject"
        else if match it_IssuedAt token with None => true | Some t => now <? t end then inr "issued_at"
        else if negb (len_bytes (it_Nonce token) =? len_bytes expectedNonce) ||
                negb (constant_time_eq (bytes_of_string (it_Nonce token)) (bytes_of_string expectedNonce))
        then inr "nonce"
        else
          match it_Claims token with
          | None => inr "identity_claims"
          | Some claims =>
              if negb (bool_decide (cl_AuthorizedParty claims = "")) &&
                 negb (bool_decide (cl_AuthorizedParty claims = gv_clientID verifier))
              then inr "authorized_party"
              else if (320 <? len_bytes (cl_Email claims)) ||
                      (negb (bool_decide (cl_Email claims = "")) && negb (cl_EmailVerified claims)) ||
                      (200 <? len_bytes (cl_Name claims))
              then inr "profile_claims"
              else
                let displayName := TrimSpace (cl_Name claims) in
                inl (MkGoogleIdentity googleIssuer (it_Subject token) (cl_Email claims)
                       (cl_EmailVerified claims)
                       (if bool_decide (displayName = "") then "LiveRoute user" else displayName))
          end
    end.

(** ** [Cache-Control] of the key set *)

(** [strings.Cut(s, "=")]. *)
Fixpoint cut_equals (l : bytes) : option (bytes * bytes) :=
  match l with
  | [] => None
  | b :: rest =>
      if byte_val b =? 61 then Some ([], rest)
      else '(name, value) ← cut_equals rest; Some (b :: name, value)
  end.

(** [strings.Trim(s, quote)]. *)
Fixpoint trim_left_quotes (l : bytes) : bytes :=
  match l with
  | b :: rest => if byte_val b =? 34 then trim_left_quotes rest else l
  | [] => []
  end.
Definition trim_quotes (l : bytes) : bytes := rev (trim_left_quotes (rev (trim_left_quotes l))).

(** The seconds of a [max-age] directive: [None] when it is another one, [Some None] when
    they are no number.  [strings.EqualFold] with this name folds ASCII letters only. *)
Definition max_age (part : string) : option (option Z) :=
  '(name, raw) ← cut_equals (bytes_of_string part);
  if bool_decide (ToLower (TrimSpace (string_of_bytes name)) = "max-age")
  then Some (ParseInt (string_of_bytes (trim_quotes (TrimSpace_bytes raw))))
  else None.

Definition cap_seconds : Z := maximumJWKSMaxAge / Second.

(** One round of the loop of [capCacheControl]. *)
Definition cap_part (part : string) : string :=
  let trimmed := TrimSpace part in
  match max_age trimmed with
  | None => trimmed
  | Some None => "max-age=0"
  | Some (Some seconds) =>
      if seconds <? 0 then "max-age=0"
      else if cap_seconds <? seconds then "max-age=" +:+ FormatInt cap_seconds
      else trimmed
  end.

Definition capCacheControl (value : string) : string :=
  String.concat ", " (List.map cap_part (Split value 44)).

(** ** Facts *)

(** The claims an accepted token carries. *)
Record token_accepted (now : Z) (clientID expectedNonce : string) (token : IDToken)
    (claims : GoogleClaims) : Prop := {
  ta_issuer : it_Issuer token = googleIssuer \/ it_Issuer token = googleLegacyIssuer;
  ta_subject : it_Subject token <> "" /\ len_bytes (it_Subject token) <= 255;
  ta_issued : exists t, it_IssuedAt token = Some t /\ t <= now;
  ta_nonce : expectedNonce <> "" /\ it_Nonce token = expectedNonce;
  ta_claims : it_Claims token = Some claims;
  ta_party : cl_AuthorizedParty claims = "" \/ cl_AuthorizedParty claims = clientID;
  ta_email : len_bytes (cl_Email claims) <= 320 /\
    (cl_Email claims = "" \/ cl_EmailVerified claims = true);
  ta_name : len_bytes (cl_Name claims) <= 200
}.

Lemma negb_both (b c : bool) : negb b && negb c = false <-> b = true \/ c = true.
Proof. by destruct b, c; naive_solver. Qed.

Lemma bytes_of_string_inj s t : bytes_of_string s = bytes_of_string t <-> s = t.
Proof.
  split; [|by intros ->]. intros Heq. rewrite <- (string_of_bytes_of_string s), Heq.
  apply string_of_bytes_of_string.
Qed.

(** The identity of an accepted token. *)
Definition accepted_identity (token : IDToken) (claims : GoogleClaims) : GoogleIdentity :=
  MkGoogleIdentity googleIssuer (it_Subject token) (cl_Email claims) (cl_EmailVerified claims)
    (if bool_decide (TrimSpace (cl_Name claims) = "") then "LiveRoute user" else TrimSpace (cl_Name claims)).

(** A test that did not refuse. *)
Ltac refused E := match goal with |- (if ?b then _ else _) = _ -> _ => destruct b eqn:E; [done|] end.

Lemma Verify_accepts now verifier raw nonce identity :
  Verify now verifier raw nonce = inl identity ->
  0 < len_bytes raw <= maximumTokenBytes /\
  exists token claims, gv_verify verifier raw = inl token /\
    token_accepted now (gv_clientID verifier) nonce token claims /\
    identity = accepted_identity token claims.
Proof.
  unfold Verify. refused E0. destruct (gv_verify verifier raw) as [token|e]; [|done].
  refused E1. refused E2. refused E3. refused E4.
  destruct (it_Claims token) as [claims|] eqn:E5; [|done]. refused E6. refused E7. intros [= <-].
  apply negb_both in E1, E6. rewrite !bool_decide_eq_true in E1, E6.
  unfold constant_time_eq in E4. inv_res. zbool. split.
  { unfold len_bytes, zlen in *. lia. }
  exists token, claims. split; [done|]. split; [|done]. constructor; try done.
  - destruct (it_IssuedAt token) as [t|]; [|done]. zbool. by exists t.
  - split; [done|]. by apply bytes_of_string_inj.
  - split; [done|]. match goal with H : _ && _ = false |- _ => apply andb_false_iff in H as [H|H] end;
      inv_res; [by left|by right].
Qed.

Lemma accepted_verifies now verifier raw nonce token claims :
  0 < len_bytes raw <= maximumTokenBytes -> gv_verify verifier raw = inl token ->
  token_accepted now (gv_clientID verifier) nonce token claims ->
  Verify now verifier raw nonce = inl (accepted_identity token claims).
Proof.
  intros Hl Hv [Hi [Hs Hsl] (t & Ht & Hle) [Hn <-] Hc Hp [He Hev] Hname]. unfold Verify.
  rewrite Hv, Ht, Hc, (bool_decide_eq_false_2 _ Hn), (bool_decide_eq_false_2 _ Hs).
  rewrite (proj2 (Z.eqb_neq _ _)), !(proj2 (Z.ltb_ge _ _)) by lia. cbn [orb].
  rewrite (proj2 (negb_both _ _)) by (by rewrite !bool_decide_eq_true).
  unfold constant_time_eq. rewrite Z.eqb_refl, bool_decide_eq_true_2 by done. cbn [negb orb].
  rewrite (proj2 (negb_both _ _)) by (by rewrite !bool_decide_eq_true).
  assert (negb (bool_decide (cl_Email claims = "")) && negb (cl_EmailVerified claims) = false) as ->.
  { apply negb_both. by rewrite bool_decide_eq_true. }
  done.
Qed.

Lemma accepted_identity_valid now clientID nonce token claims :
  token_accepted now clientID nonce token claims ->
  validGoogleIdentity (accepted_identity token claims) = true.
Proof.
  intros [_ [Hs Hsl] _ _ _ _ [He Hev] _]. unfold validGoogleIdentity, accepted_identity. simpl.
  rewrite (bool_decide_eq_false_2 _ Hs), !(proj2 (Z.leb_le _ _)) by lia. simpl.
  apply orb_true_iff. by rewrite bool_decide_eq_true.
Qed.

(** A token is accepted exactly when the library verified it and its claims pass: it
    is Google's, for this client, not from the future and carries the expected nonce;
    and the identity returned is one the account store accepts. *)
Theorem google_identity_trusted now verifier raw nonce identity :
  Verify now verifier raw nonce = inl identity <->
  0 < len_bytes raw <= maximumTokenBytes /\
  exists token claims, gv_verify verifier raw = inl token /\
    token_accepted now (gv_clientID verifier) nonce token claims /\
    identity = MkGoogleIdentity googleIssuer (it_Subject token) (cl_Email claims)
      (cl_EmailVerified claims)
      (if bool_decide (TrimSpace (cl_Name claims) = "") then "LiveRoute user"
       else TrimSpace (cl_Name claims)) /\
    validGoogleIdentity identity = true.
Proof.
  split.
  - intros H. pose proof H as (Hl & token & claims & Hv & Hta & Hid)%Verify_accepts.
    split; [done|]. exists token, claims. split_and!; [done..|]. subst identity.
    by apply accepted_identity_valid in Hta.
  - intros (Hl & token & claims & Hv & Hta & -> & _). by apply accepted_verifies.
Qed.

(** ** The capped age *)

Lemma max_age_zero : max_age "max-age=0" = Some (Some 0).
Proof. vm_compute. reflexivity. Qed.
Lemma max_age_cap : max_age ("max-age=" +:+ FormatInt cap_seconds) = Some (Some cap_seconds).
Proof. vm_compute. reflexivity. Qed.
Lemma cap_seconds_nonneg : 0 <= cap_seconds.
Proof. vm_compute. discriminate. Qed.

(** No [max-age] the key set's transport passes on is negative or longer than a day,
    whatever the server sent. *)
Theorem cache_age_capped part seconds :
  max_age (cap_part part) = Some seconds -> exists n, seconds = Some n /\ 0 <= n <= cap_seconds.
Proof.
  pose proof cap_seconds_nonneg as Hcap. unfold cap_part.
  destruct (max_age (TrimSpace part)) as [[n|]|] eqn:E.
  - destruct (n <? 0) eqn:En; [|destruct (cap_seconds <? n) eqn:Ec].
    + rewrite max_age_zero. intros Hs. exists 0. split; [congruence|lia].
    + rewrite max_age_cap. intros Hs. exists cap_seconds. split; [congruence|lia].
    + rewrite E. intros Hs. zbool. exists n. split; [congruence|lia].
  - rewrite max_age_zero. intros Hs. exists 0. split; [congruence|lia].
  - by rewrite E.
Qed.

Example cache_control_examples :
  capCacheControl "public, max-age=172800" = "public, max-age=86400" /\
  capCacheControl "public, max-age=3600" = "public, max-age=3600" /\
  capCacheControl "public" = "public" /\ capCacheControl "max-age=invalid" = "max-age=0" /\
  capCacheControl "Max-Age = -1" = "max-age=0".
Proof. by vm_compute. Qed.

Lemma cache_age_capped_witness : exists n, Some 86400 = Some n /\ 0 <= n <= cap_seconds.
Proof. apply (cache_age_capped "max-age=172800"). vm_compute. reflexivity. Defined.

(** A token accepted under the legacy issuer. *)
Definition ex_id_token : IDToken :=
  MkIDToken googleLegacyIssuer "1234" (Some 5) "n" (Some (MkClaims "" "user@example.com" true " ")).
Definition ex_verifier : GoogleVerifier := MkGoogleVerifier "client" (fun _ => inl ex_id_token).
Example google_accepts :
  Verify 10 ex_verifier "token" "n" =
  inl (MkGoogleIdentity googleIssuer "1234" "user@example.com" true "LiveRoute user").
Proof. by vm_compute. Qed.
