(* ===== verification/HttpApi.v ===== *)
(** * The HTTP interface

    Models [gateway/http_authentication.go]: routing, the admission of a request
    (origin, session, CSRF token, headers), the handlers over the stores, and what
    they answer.  A handler runs on the response writer and the database, one
    transaction after the other; it ends where the code returns.  Of [net/http] and
    [encoding/json], the parsing of cookies, media types, URLs and bodies is what
    the request and the parameters say. *)

From S2P Require Import Prelude GoLib Schema Tables Leases GoText SavedTables SavedMutations Execution Opaque Sessions Places HttpText Google.
From Stdlib Require Import Ascii.

(** ** Requests and responses *)

(** The fields of a request: the headers in order, under their canonical names, the
    cookies [net/http] parsed, the body and whether reading it fails at its end. *)
Record Request := MkRequest {
  rq_Method : string;
  rq_Path : string;
  rq_RawQuery : string;
  rq_Header : list (string * string);
  rq_Cookies : list (string * string);
  rq_ContentLength : Z;
  rq_Body : bytes;
  rq_BodyFails : bool
}.

(** [http.CanonicalHeaderKey] of a valid name. *)
Definition upper_char (c : ascii) : ascii :=
  let v := Z.of_N (N_of_ascii c) in
  if (97 <=? v) && (v <=? 122) then ascii_of_N (Z.to_N (v - 32)) else c.
Fixpoint canonical_key (upper : bool) (s : string) : string :=
  match s with
  | EmptyString => EmptyString
  | String c s =>
      String (if upper then upper_char c else lower_char c)
        (canonical_key (bool_decide (c = "-"%char)) s)
  end.
Definition CanonicalHeaderKey (name : string) : string := canonical_key true name.

Definition header_values (name : string) (h : list (string * string)) : list string :=
  snd <$> List.filter (fun kv => bool_decide (kv.1 = CanonicalHeaderKey name)) h.
Definition header_get (name : string) (h : list (string * string)) : string :=
  default "" (head (header_values name h)).
Definition header_add (name value : string) (h : list (string * string)) : list (string * string) :=
  h ++ [(CanonicalHeaderKey name, value)].
Definition header_set (name value : string) (h : list (string * string)) : list (string * string) :=
  header_add name value (List.filter (fun kv => negb (bool_decide (kv.1 = CanonicalHeaderKey name))) h).

Definition request_cookie (name : string) (r : Request) : option string :=
  snd <$> List.find (fun kv => bool_decide (kv.1 = name)) (rq_Cookies r).

Record Cookie := MkCookie {
  ck_Name : string;
  ck_Value : string;
  ck_Path : string;
  ck_HttpOnly : bool;
  ck_Secure : bool;
  ck_SameSiteLax : bool;
  ck_MaxAge : Z;
  ck_Expires : option Z
}.

(** What a body is the encoding of. *)
Inductive Payload :=
| PJson (j : json)
| PTrip (trip : TripView)
| PTrips (l : TripList)
| PTransition (t : ExecutionTransitionView)
| PBytes (b : bytes).

(** Calls of [StartActivation] and [StartDeactivation], and log lines. *)
Inductive Effect :=
| EActivation (tripID operationID : string)
| EDeactivation (tripID operationID : string)
| ERejected (requestID stage : string).

Section Api.
Context {PG : Postgres} {SS : SavedServer} {TZ : TimeZones} {HJ : HttpJson}.

(** ** Handlers *)

(** The database, the writer's headers and cookies, the calls of [WriteHeader] with
    what they sent, what was written, and the effects. *)
Record HttpState := MkHttp {
  hs_db : db;
  hs_header : list (string * string);
  hs_cookies : list Cookie;
  hs_sent : list (Z * list (string * string) * list Cookie);
  hs_body : list Payload;
  hs_effects : list Effect
}.

(** [None]: the handler returned. *)
Definition http (A : Type) : Type := HttpState -> option A * HttpState.

#[global] Instance http_ret : MRet http := fun A a s => (Some a, s).
#[global] Instance http_bind : MBind http := fun A B f m s =>
  match m s with (Some a, s') => f a s' | (None, s') => (None, s') end.

Definition returned {A} : http A := fun s => (None, s).
Definition map_header (f : list (string * string) -> list (string * string)) : http unit := fun s =>
  (Some tt, MkHttp (hs_db s) (f (hs_header s)) (hs_cookies s) (hs_sent s) (hs_body s) (hs_effects s)).
Definition SetHeader (name value : string) : http unit := map_header (header_set name value).
Definition AddHeader (name value : string) : http unit := map_header (header_add name value).
Definition writer_header (name : string) : http string := fun s =>
  (Some (header_get name (hs_header s)), s).
Definition SetCookie (c : Cookie) : http unit := fun s =>
  (Some tt, MkHttp (hs_db s) (hs_header s) (hs_cookies s ++ [c]) (hs_sent s) (hs_body s) (hs_effects s)).
Definition WriteHeader (status : Z) : http unit := fun s =>
  (Some tt, MkHttp (hs_db s) (hs_header s) (hs_cookies s)
              (hs_sent s ++ [(status, hs_header s, hs_cookies s)]) (hs_body s) (hs_effects s)).
Definition Write (p : Payload) : http unit := fun s =>
  (Some tt, MkHttp (hs_db s) (hs_header s) (hs_cookies s) (hs_sent s) (hs_body s ++ [p]) (hs_effects s)).
Definition emit (e : Effect) : http unit := fun s =>
  (Some tt, MkHttp (hs_db s) (hs_header s) (hs_cookies s) (hs_sent s) (hs_body s) (hs_effects s ++ [e])).
(** A call of a store. *)
Definition store {A} (f : db -> result A * db) : http (result A) := fun s =>
  let '(r, d) := f (hs_db s) in
  (Some r, MkHttp d (hs_header s) (hs_cookies s) (hs_sent s) (hs_body s) (hs_effects s)).
Definition call {A} (m : tx A) : http (result A) := store (run_tx m).

Definition problem {A} (status : Z) (code : string) (retryable : bool) (detail : string) : http A :=
  _ ← SetHeader "Content-Type" "application/problem+json";
  _ ← WriteHeader status;
  requestID ← writer_header "X-Request-ID";
  _ ← Write (PJson (problem_json status code retryable detail requestID));
  returned.

(** [if b { problem; return }]. *)
Definition unless (b : bool) (status : Z) (code : string) (retryable : bool) (detail : string) : http unit :=
  if b then mret tt else problem status code retryable detail.

Definition writeJSON (status : Z) (p : Payload) : http unit :=
  _ ← SetHeader "Content-Type" "application/json";
  _ ← WriteHeader status;
  Write p.

Definition writeStoredHTTPResult (result : PlaceHTTPResult) : http unit :=
  _ ← SetHeader "Content-Type" (ph_ContentType result);
  _ ← WriteHeader (ph_Status result);
  Write (PBytes (ph_Body result)).

(** The value, or an answer for [None]. *)
Definition require {A} (o : option A) (status : Z) (code : string) (retryable : bool) (detail : string)
  : http A :=
  match o with Some a => mret a | None => problem status code retryable detail end.

(** ** Configuration *)

(** The stores are their keys and their provider; a nil store is [false] or [None]. *)
Record HTTPAuthConfig := MkConfig {
  hc_Store : HMACKeyRing;
  hc_Trips : bool;
  hc_Places : option (HMACKeyRing * Provider);
  hc_StartActivation : bool;
  hc_StartDeactivation : bool;
  hc_GoogleVerifier : option GoogleVerifier;
  hc_AllowedOrigins : list string;
  hc_SecureCookies : bool;
  hc_FrontendOrigin : string
}.

Record HTTPAuthHandler := MkHandler { ha_config : HTTPAuthConfig; ha_origins : gset string }.

(** [url.Parse]. *)
Record URL := MkURL {
  url_Scheme : string; url_Host : string; url_Path : string; url_RawQuery : string; url_Fragment : string
}.
Class UrlParse := url_Parse : string -> option URL.

Definition exact_origin `{UrlParse} (origin : string) : bool :=
  match url_Parse origin with
  | None => false
  | Some u =>
      negb (bool_decide (url_Scheme u = "") || bool_decide (url_Host u = "") ||
            negb (bool_decide (url_Path u = "")) || negb (bool_decide (url_RawQuery u = "")) ||
            negb (bool_decide (url_Fragment u = "")) ||
            negb (bool_decide (origin = url_Scheme u +:+ "://" +:+ url_Host u)))
  end.

Definition NewHTTPAuthHandler `{UrlParse} (config : HTTPAuthConfig) : option HTTPAuthHandler :=
  if bool_decide (hc_AllowedOrigins config = []) then None
  else if forallb exact_origin (hc_AllowedOrigins config)
  then Some (MkHandler config (list_to_set (hc_AllowedOrigins config)))
  else None.

(** ** Cookies *)

Definition developmentSessionCookie : string := "liveroute_dev_session".
Definition productionSessionCookie : string := "__Host-liveroute_session".
Definition developmentBindingCookie : string := "liveroute_dev_oidc_binding".
Definition productionBindingCookie : string := "__Secure-liveroute_oidc_binding".

Definition sessionCookieName (config : HTTPAuthConfig) : string :=
  if hc_SecureCookies config then productionSessionCookie else developmentSessionCookie.
Definition bindingCookieName (config : HTTPAuthConfig) : string :=
  if hc_SecureCookies config then productionBindingCookie else developmentBindingCookie.

Definition sessionCookie (config : HTTPAuthConfig) (value : string) (maxAge : Z) : Cookie :=
  MkCookie (sessionCookieName config) value "/" true (hc_SecureCookies config) true maxAge None.
Definition clearSessionCookie (config : HTTPAuthConfig) : Cookie :=
  MkCookie (sessionCookieName config) "" "/" true (hc_SecureCookies config) true (-1) (Some 1).
Definition bindingCookie (config : HTTPAuthConfig) (value : string) (maxAge : Z) : Cookie :=
  MkCookie (bindingCookieName config) value "/api/v1/auth/google" true (hc_SecureCookies config) true
    maxAge None.
Definition clearBindingCookie (config : HTTPAuthConfig) : Cookie :=
  MkCookie (bindingCookieName config) "" "/api/v1/auth/google" true (hc_SecureCookies config) true (-1)
    (Some 1).

(** [int(time.Until(t).Seconds())]. *)
Definition seconds_until (now t : Z) : Z := Z.quot (t - now) Second.

(** ** Bodies *)

Definition maxHTTPBodyBytes : Z := 262144.

(** A decoder with [DisallowUnknownFields]: the value and the input left after it. *)
Class HttpDecode := {
  decode_activate : bytes -> option (option Coordinate * bytes);
  decode_activity : bytes -> option (SavedActivityInput * bytes);
  decode_update : bytes -> option (UpdateSavedTripRequest * bytes);
  decode_create : bytes -> option (CreateSavedTripRequest * bytes);
  decode_coordinate : bytes -> option ((option spec_float * option spec_float) * bytes);
  decode_token : bytes -> option (string * bytes);
  decode_login : bytes -> option ((string * string) * bytes);
  (** [mime.ParseMediaType] without the parameters. *)
  ParseMediaType : string -> option string
}.

Definition json_space (b : Byte.byte) : bool :=
  bool_decide (byte_val b ∈ [9; 10; 13; 32]).

(** The second [Decode] must find the end of the input. *)
Definition decodeJSON {A} (decode : bytes -> option (A * bytes)) (request : Request) : option A :=
  if maxHTTPBodyBytes <? rq_ContentLength request then None
  else
    let limited := take (Z.to_nat (maxHTTPBodyBytes + 1)) (rq_Body request) in
    '(value, rest) ← decode limited;
    if forallb json_space rest && negb (rq_BodyFails request && (zlen (rq_Body request) <=? maxHTTPBodyBytes))
    then Some value else None.

(** Reading one byte of the body finds its end. *)
Definition no_body (request : Request) : bool :=
  bool_decide (rq_Body request = []) && negb (rq_BodyFails request).

(** *** The JSON of the request structs *)

Definition optional {A} (name : string) (f : A -> json) (o : option A) : list (string * json) :=
  match o with Some a => [(name, f a)] | None => [] end.

Definition coordinate_json (c : Coordinate) : json :=
  JObject [("latitude", JFloat (co_Latitude c)); ("longitude", JFloat (co_Longitude c))].

Definition activate_json (location : option Coordinate) : json :=
  JObject [("starting_location", match location with Some c => coordinate_json c | None => JNull end)].

Definition schedule_json (s : SavedScheduleInput) : json :=
  JObject (("state", JText (si_State s)) ::
    optional "start_offset_ms" JInt (si_StartOffsetMS s) ++ optional "end_offset_ms" JInt (si_EndOffsetMS s)).

Definition window_json (w : RelativeWindowInput) : json :=
  JObject [("opens_offset_ms", JInt (wi_OpensOffsetMS w)); ("closes_offset_ms", JInt (wi_ClosesOffsetMS w))].

Definition timing_json (t : SavedActivityTimingInput) : json :=
  JObject ([("open_windows", match ti_OpenWindows t with
                             | Some l => JList (List.map window_json l) | None => JNull end)] ++
    optional "reservation_start_offset_ms" JInt (ti_ReservationStartOffsetMS t) ++
    [("reservation_grace_seconds", JInt (ti_ReservationGraceSeconds t))] ++
    optional "mandatory_deadline_offset_ms" JInt (ti_MandatoryDeadlineOffset t) ++
    [("min_duration_seconds", JInt (ti_MinDurationSeconds t));
     ("preferred_duration_seconds", JInt (ti_PreferredDurationSeconds t));
     ("max_duration_seconds", JInt (ti_MaxDurationSeconds t)); ("mandatory", JBool (ti_Mandatory t));
     ("can_shorten", JBool (ti_CanShorten t)); ("can_move", JBool (ti_CanMove t));
     ("can_skip", JBool (ti_CanSkip t))]).

Definition activity_json (a : SavedActivityInput) : json :=
  JObject [("place_id", JText (ai_PlaceID a)); ("ordinal", JInt (ai_Ordinal a));
           ("schedule", schedule_json (ai_Schedule a));
           ("inbound_travel_mode", JText (ai_InboundTravelMode a));
           ("activity_class", JText (ai_ActivityClass a)); ("priority_rank", JInt (ai_PriorityRank a));
           ("utility_score", JInt (ai_UtilityScore a)); ("timing", timing_json (ai_Timing a))].

Definition display_json (s : DisplayScheduleInput) : json :=
  JObject [("local_date", JText (di_LocalDate s)); ("local_time", JText (di_LocalTime s));
           ("time_zone_name", JText (di_TimeZoneName s))].

(** The fields tagged ["-"] are left out. *)
Definition update_json (r : UpdateSavedTripRequest) : json :=
  JObject (optional "trip_name" JText (us_TripName r) ++
    optional "default_time_zone_name" JText (us_DefaultTimeZoneName r) ++
    optional "display_schedule" display_json (us_DisplaySchedule r) ++
    optional "remove_display_schedule" JBool (us_RemoveDisplaySchedule r)).

(** A request without activities, whose slice may print [null], is refused by the store
    before its digest is used. *)
Definition create_json (r : CreateSavedTripRequest) : json :=
  JObject ([("trip_name", JText (cs_TripName r));
            ("default_time_zone_name", JText (cs_DefaultTimeZoneName r))] ++
    optional "display_schedule" display_json (cs_DisplaySchedule r) ++
    [("activities", JList (List.map activity_json (cs_Activities r)))]).

Definition identity_json (method path ifMatch : string) (body : json) : json :=
  JObject [("method", JText method); ("path", JText path); ("if_match", JText ifMatch);
           ("content_type", JText "application/json"); ("body", body)].

(** The canonical text of a request and its digest. *)
Definition canonicalHTTPIdentity (method path ifMatch : string) (body : json) : option (bytes * bytes) :=
  _ ← json_marshal body;
  raw ← json_marshal (identity_json method path ifMatch body);
  canonical ← canonicalHTTPBody raw;
  Some (canonical, sha256 canonical).

Definition sessionJSON (session : Session) : json :=
  let user := ses_User session in
  JObject [("user", JObject ([("user_id", JText (au_ID user)); ("display_name", JText (au_DisplayName user));
                              ("default_time_zone_name", JText (au_DefaultTimeZoneName user))] ++
                             (if bool_decide (au_Email user = "") then []
                              else [("email", JText (au_Email user))])));
           ("csrf_token", JText (ses_CSRFToken session));
           ("idle_expires_at_unix_ms", JInt (UnixMilli (ses_IdleExpiresAt session)));
           ("absolute_expires_at_unix_ms", JInt (UnixMilli (ses_AbsoluteExpiresAt session)))].

(** ** Admission *)

(** What a request finds: the wall clock, the random bytes of its identifier, and the
    clock readings and random bytes of the authentication and of the operation. *)
Record Env := MkEnv {
  en_now : Z;
  en_id : option bytes;
  en_auth_clk : nat -> Z;
  en_auth_rng : nat -> bytes;
  en_clk : nat -> Z;
  en_rng : nat -> bytes;
  en_race : nat -> db -> db
}.

Definition authentication_unavailable {A} : http A :=
  problem 503 "DURABILITY_UNAVAILABLE" true "authentication is temporarily unavailable".
Definition authentication_failed {A} : http A :=
  problem 401 "UNAUTHENTICATED" false "authentication failed".
Definition authentication_required {A} : http A :=
  problem 401 "UNAUTHENTICATED" false "authentication required".
Definition bad_request {A} (detail : string) : http A := problem 400 "INVALID_ARGUMENT" false detail.
Definition method_not_allowed {A} : http A :=
  problem 405 "INVALID_ARGUMENT" false "method not allowed".

Section Handlers.
Context {DC : HttpDecode} {TP : TokenPayload}.
Variables (handler : HTTPAuthHandler) (env : Env) (request : Request).
#[local] Abbreviation config := (ha_config handler).

Definition request_header (name : string) : string := header_get name (rq_Header request).

Definition checkOrigin : http unit :=
  let origin := request_header "Origin" in
  _ ← unless (bool_decide (origin ∈ ha_origins handler)) 403 "PERMISSION_DENIED" false
        "origin is not allowed";
  if negb (bool_decide (hc_FrontendOrigin config = "")) &&
     bool_decide (origin = hc_FrontendOrigin config)
  then
    _ ← SetHeader "Access-Control-Allow-Origin" origin;
    _ ← SetHeader "Access-Control-Allow-Credentials" "true";
    AddHeader "Vary" "Origin"
  else mret tt.

(** The test of the reading handlers. *)
Definition check_origin_if_present : http unit :=
  if bool_decide (request_header "Origin" = "") then mret tt else checkOrigin.

Definition send_rotation (session : Session) : http unit :=
  if ses_Rotated session then
    _ ← SetCookie (sessionCookie config (ses_Token session)
                     (seconds_until (en_now env) (ses_AbsoluteExpiresAt session)));
    SetHeader "X-LiveRoute-CSRF-Token" (ses_CSRFToken session)
  else mret tt.

Definition authenticateSession (requireCSRF : bool) : http Session :=
  match request_cookie (sessionCookieName config) request with
  | None | Some "" => authentication_required
  | Some token =>
      result ← call (AuthenticateSession (en_auth_clk env) (en_auth_rng env) (hc_Store config) token);
      match result with
      | Err ErrSessionNotFound => authentication_required
      | Err _ => authentication_unavailable
      | Ok session =>
          if requireCSRF && negb (VerifyCSRF (hc_Store config) session (request_header "X-CSRF-Token"))
          then problem 403 "PERMISSION_DENIED" false "CSRF validation failed"
          else _ ← send_rotation session; mret session
      end
  end.

Definition trips_configured : http unit :=
  unless (hc_Trips config) 503 "DURABILITY_UNAVAILABLE" true "trip storage is not configured".
Definition no_query : http unit :=
  if bool_decide (rq_RawQuery request = "") then mret tt
  else bad_request "query parameters are not allowed".
Definition idempotency_key : http string :=
  let key := request_header "Idempotency-Key" in
  if validHTTPUUID key then mret key else bad_request "Idempotency-Key is invalid".
Definition json_content : http unit :=
  if bool_decide (ParseMediaType (request_header "Content-Type") = Some "application/json") then mret tt
  else bad_request "Content-Type must be application/json".

(** The session, the key, the expected revision and the entity tag. *)
Definition admitTripMutation (tripID : string) (requireJSON : bool)
  : http (Session * string * Z * string) :=
  _ ← checkOrigin;
  session ← authenticateSession true;
  _ ← trips_configured;
  _ ← (if negb (validHTTPUUID tripID) || Contains tripID "/" then bad_request "trip id is invalid"
       else mret tt);
  _ ← no_query;
  key ← idempotency_key;
  let ifMatch := request_header "If-Match" in
  _ ← unless (negb (bool_decide (ifMatch = ""))) 428 "PRECONDITION_REQUIRED" false "If-Match is required";
  revision ← require (parseTripETag ifMatch) 400 "INVALID_ARGUMENT" false "If-Match is invalid";
  _ ← (if requireJSON then json_content else mret tt);
  mret (session, key, revision, ifMatch).

Definition admitPlaceMutation : http (Session * string * (HMACKeyRing * Provider)) :=
  _ ← checkOrigin;
  session ← authenticateSession true;
  places ← require (hc_Places config) 503 "PROVIDER_UNAVAILABLE" true "place resolution is not configured";
  _ ← no_query;
  key ← idempotency_key;
  _ ← json_content;
  mret (session, key, places).

(** ** Trips *)

Definition handleTripMutationError {A} (e : err) : http A :=
  match e with
  | ErrSavedTripInput => problem 422 "INVALID_ARGUMENT" false "trip mutation is invalid"
  | ErrTripNotFound => problem 404 "NOT_FOUND" false "trip not found"
  | ErrSavedActivityNotFound => problem 404 "NOT_FOUND" false "activity not found"
  | ErrSavedTripNotInactive => problem 409 "CONFLICT" false "trip must be inactive"
  | ErrExecutionTripConflict => problem 409 "CONFLICT" false "another trip is already executing"
  | ErrActivationUnscheduled | ErrActivationOutsideDay =>
      problem 422 "INVALID_ARGUMENT" false "trip cannot be activated"
  | ErrSavedTripNotExecuting => problem 409 "CONFLICT" false "trip is not executing"
  | ErrLeaseHeld => problem 409 "CONFLICT" true "runtime lease is still held"
  | ErrTripRevisionStale => problem 412 "PRECONDITION_FAILED" false "trip revision does not match"
  | ErrHTTPIdempotencyReused =>
      problem 409 "IDEMPOTENCY_KEY_REUSED" false "Idempotency-Key was already used for a different request"
  | ErrHTTPMutationPending => problem 503 "DURABILITY_UNAVAILABLE" true "trip mutation is still pending"
  | _ => problem 503 "DURABILITY_UNAVAILABLE" true "trip mutation could not be saved"
  end.

(** The result of a trip mutation, or the answer to its error. *)
Definition mutation_result {A} (r : result A) : http A :=
  match r with Ok a => mret a | Err e => handleTripMutationError e end.

Definition no_request_body (detail : string) : http unit :=
  if no_body request then mret tt else bad_request detail.

(** Whether the runtime is told of a transition. *)
Definition starts (result : ActivatedSavedTrip) : bool :=
  negb (at_Duplicate result) || bool_decide (ov_State (etv_Operation (at_Transition result)) = "pending").

Definition answer_transition (result : ActivatedSavedTrip) : http unit :=
  _ ← SetHeader "ETag" (revision_etag (tr_TripRevision (etv_Trip (at_Transition result))));
  writeJSON 202 (PTransition (at_Transition result)).

Definition answer_trip (status : Z) (result : MutatedSavedTrip) : http unit :=
  _ ← SetHeader "ETag" (revision_etag (tr_TripRevision (ms_Trip result)));
  writeJSON status (PTrip (ms_Trip result)).

Definition activateTrip (tripID : string) : http unit :=
  admitted ← admitTripMutation tripID true;
  let '(session, key, revision, ifMatch) := admitted in
  location ← require (decodeJSON decode_activate request ≫= id) 400 "INVALID_ARGUMENT" false
               "starting_location is required";
  identity ← require (canonicalHTTPIdentity "POST" ("/api/v1/trips/" +:+ tripID +:+ "/activate") ifMatch
                        (activate_json (Some location)))
               400 "INVALID_ARGUMENT" false "activation request is invalid";
  outcome ← call (Activate (en_clk env) (en_rng env) (MkActivate (au_ID (ses_User session)) tripID key
                    revision identity.2 (co_Latitude location) (co_Longitude location)));
  result ← mutation_result outcome;
  _ ← (if hc_StartActivation config && starts result
       then emit (EActivation tripID (ov_OperationID (etv_Operation (at_Transition result))))
       else mret tt);
  answer_transition result.

Definition deactivateTrip (tripID : string) : http unit :=
  admitted ← admitTripMutation tripID false;
  let '(session, key, revision, ifMatch) := admitted in
  _ ← no_request_body "deactivation request body is not allowed";
  identity ← require (canonicalHTTPIdentity "POST" ("/api/v1/trips/" +:+ tripID +:+ "/deactivate") ifMatch
                        JNull)
               400 "INVALID_ARGUMENT" false "deactivation request is invalid";
  outcome ← call (Deactivate (en_clk env) (en_rng env) (MkDeactivate (au_ID (ses_User session)) tripID key
                    revision identity.2));
  result ← mutation_result outcome;
  _ ← (if hc_StartDeactivation config && starts result
       then emit (EDeactivation tripID (ov_OperationID (etv_Operation (at_Transition result))))
       else mret tt);
  answer_transition result.

(** The body of an activity mutation. *)
Definition activity_body (kind : saved_mutation_kind) : http (option SavedActivityInput) :=
  match kind with
  | KindDelete => _ ← no_request_body "DELETE request body is not allowed"; mret None
  | _ => a ← require (decodeJSON decode_activity request) 400 "INVALID_ARGUMENT" false "activity is invalid";
         mret (Some a)
  end.

Definition mutateTripActivity (tripID activityID : string) (kind : saved_mutation_kind) : http unit :=
  admitted ← admitTripMutation tripID (negb (bool_decide (kind = KindDelete)));
  let '(session, key, revision, ifMatch) := admitted in
  _ ← (if negb (bool_decide (kind = KindAdd)) && negb (validHTTPUUID activityID)
       then bad_request "activity id is invalid" else mret tt);
  activity ← activity_body kind;
  let path := "/api/v1/trips/" +:+ tripID +:+ "/activities" in
  let path := match kind with KindAdd => path | _ => path +:+ "/" +:+ activityID end in
  let method := match kind with KindAdd => "POST" | KindReplace => "PATCH" | KindDelete => "DELETE" end in
  identity ← require (canonicalHTTPIdentity method path ifMatch
                        (match activity with Some a => activity_json a | None => JNull end))
               400 "INVALID_ARGUMENT" false "activity mutation is invalid";
  let mutation := MkActivityMutation (au_ID (ses_User session)) tripID activityID key revision identity.2
                    activity in
  outcome ← call (match kind with
                  | KindAdd => SavedAddActivity (en_clk env) (en_rng env) mutation
                  | KindReplace => SavedReplaceActivity (en_clk env) (en_rng env) mutation
                  | KindDelete => SavedDeleteActivity (en_clk env) (en_rng env) mutation
                  end);
  result ← mutation_result outcome;
  answer_trip (match kind with KindAdd => 201 | _ => 200 end) result.

Definition updateTrip (tripID : string) : http unit :=
  admitted ← admitTripMutation tripID true;
  let '(session, key, revision, ifMatch) := admitted in
  body ← require (decodeJSON decode_update request) 400 "INVALID_ARGUMENT" false "trip update is invalid";
  identity ← require (canonicalHTTPIdentity "PATCH" ("/api/v1/trips/" +:+ tripID) ifMatch (update_json body))
               400 "INVALID_ARGUMENT" false "trip update is invalid";
  outcome ← call (Update (en_clk env) (en_rng env) (MkUpdateSaved (us_TripName body)
                    (us_DefaultTimeZoneName body) (us_DisplaySchedule body) (us_RemoveDisplaySchedule body)
                    (au_ID (ses_User session)) tripID key revision identity.2));
  result ← mutation_result outcome;
  answer_trip 200 result.

Definition deleteTrip (tripID : string) : http unit :=
  admitted ← admitTripMutation tripID false;
  let '(session, key, revision, ifMatch) := admitted in
  _ ← no_request_body "DELETE request body is not allowed";
  identity ← require (canonicalHTTPIdentity "DELETE" ("/api/v1/trips/" +:+ tripID) ifMatch JNull)
               400 "INVALID_ARGUMENT" false "trip deletion is invalid";
  outcome ← call (Delete (en_clk env) (en_rng env) (MkDeleteSaved (au_ID (ses_User session)) tripID key
                    revision identity.2));
  _ ← mutation_result outcome;
  WriteHeader 204.

Definition createTrip : http unit :=
  _ ← checkOrigin;
  session ← authenticateSession true;
  _ ← trips_configured;
  _ ← no_query;
  key ← idempotency_key;
  _ ← json_content;
  let invalid := "trip request is invalid" in
  input ← require (decodeJSON decode_create request) 400 "INVALID_ARGUMENT" false invalid;
  _ ← require (json_marshal (create_json input)) 400 "INVALID_ARGUMENT" false invalid;
  digestInput ← require (json_marshal (identity_json "POST" "/api/v1/trips" "" (create_json input)))
                  500 "INTERNAL" false "request identity could not be created";
  canonical ← require (canonicalHTTPBody digestInput) 400 "INVALID_ARGUMENT" false invalid;
  outcome ← call (Create (en_clk env) (en_rng env) (MkCreateSaved (au_ID (ses_User session)) key
                    (sha256 canonical) (cs_TripName input) (cs_DefaultTimeZoneName input)
                    (cs_DisplaySchedule input) (cs_Activities input)));
  match outcome with
  | Ok created => answer_trip 201 created
  | Err ErrSavedTripInput => problem 422 "INVALID_ARGUMENT" false invalid
  | Err ErrHTTPIdempotencyReused =>
      problem 409 "IDEMPOTENCY_KEY_REUSED" false "Idempotency-Key was already used for a different request"
  | Err ErrHTTPMutationPending =>
      problem 503 "DURABILITY_UNAVAILABLE" true "trip creation is still pending"
  | Err _ => problem 503 "DURABILITY_UNAVAILABLE" true "trip could not be saved"
  end.

Definition listTrips : http unit :=
  _ ← check_origin_if_present;
  session ← authenticateSession false;
  _ ← trips_configured;
  outcome ← call (query (List_ (au_ID (ses_User session))));
  match outcome with
  | Ok trips => writeJSON 200 (PTrips trips)
  | Err _ => problem 503 "DURABILITY_UNAVAILABLE" true "trips are temporarily unavailable"
  end.

Definition getTrip (tripID : string) : http unit :=
  _ ← check_origin_if_present;
  session ← authenticateSession false;
  _ ← trips_configured;
  _ ← (if validHTTPUUID tripID then mret tt else bad_request "trip id is invalid");
  outcome ← call (query (Get (au_ID (ses_User session)) tripID));
  match outcome with
  | Ok trip => _ ← SetHeader "ETag" (revision_etag (tr_TripRevision trip)); writeJSON 200 (PTrip trip)
  | Err ErrTripNotFound => problem 404 "NOT_FOUND" false "trip not found"
  | Err _ => problem 503 "DURABILITY_UNAVAILABLE" true "trip is temporarily unavailable"
  end.

(** ** Places *)

(** [place.ValidCoordinate]: a comparison with NaN fails. *)
Definition ValidCoordinate (c : Coordinate) : bool :=
  in_range (-90) 90 (co_Latitude c) && in_range (-180) 180 (co_Longitude c).

Definition key_reused {A} : http A :=
  problem 409 "IDEMPOTENCY_KEY_REUSED" false "Idempotency-Key was already used for a different request".

Definition decode_point : option Coordinate :=
  '(latitude, longitude) ← decodeJSON decode_coordinate request;
  x ← latitude; y ← longitude; Some (MkCoordinate x y).

Definition resolvePlace : http unit :=
  admitted ← admitPlaceMutation;
  let '(session, key, (keys, provider)) := admitted in
  let invalid := "place coordinate is invalid" in
  coordinate ← require decode_point 400 "INVALID_ARGUMENT" false invalid;
  _ ← unless (ValidCoordinate coordinate) 422 "INVALID_ARGUMENT" false invalid;
  identity ← require (canonicalHTTPIdentity "POST" "/api/v1/places/resolve" "" (coordinate_json coordinate))
               400 "INVALID_ARGUMENT" false invalid;
  requestID ← writer_header "X-Request-ID";
  outcome ← store (Resolve (en_clk env) (en_rng env) keys provider (MkResolveInput
                     (au_ID (ses_User session)) key identity.1 requestID coordinate));
  match outcome with
  | Ok result => writeStoredHTTPResult result
  | Err ErrHTTPIdempotencyReused => key_reused
  | Err ErrHTTPMutationPending =>
      problem 503 "PROVIDER_UNAVAILABLE" true
        "place resolution outcome is unavailable; use a new key for another explicit attempt"
  | Err ErrPlaceInput => problem 422 "INVALID_ARGUMENT" false invalid
  | Err _ => problem 503 "DURABILITY_UNAVAILABLE" true "place resolution could not be recorded"
  end.

Definition createPlace : http unit :=
  admitted ← admitPlaceMutation;
  let '(session, key, _) := admitted in
  let invalid := "place request is invalid" in
  token ← require (decodeJSON decode_token request) 400 "INVALID_ARGUMENT" false invalid;
  identity ← require (canonicalHTTPIdentity "POST" "/api/v1/places" ""
                        (JObject [("resolution_token", JText token)]))
               400 "INVALID_ARGUMENT" false invalid;
  requestID ← writer_header "X-Request-ID";
  outcome ← call (CreatePlace (en_clk env) (en_rng env) (MkCreateInput (au_ID (ses_User session)) key
                    identity.2 token requestID));
  match outcome with
  | Ok result => writeStoredHTTPResult result
  | Err ErrHTTPIdempotencyReused => key_reused
  | Err ErrHTTPMutationPending =>
      problem 503 "DURABILITY_UNAVAILABLE" true "place creation is still pending"
  | Err ErrPlaceResolutionGone =>
      problem 410 "NOT_FOUND" false "place resolution has expired or was consumed"
  | Err ErrPlaceInput => bad_request invalid
  | Err _ => problem 503 "DURABILITY_UNAVAILABLE" true "place could not be saved"
  end.

(** ** Sessions *)

Definition createNonce : http unit :=
  _ ← checkOrigin;
  outcome ← call (CreateLoginNonce (en_clk env) (en_rng env));
  match outcome with
  | Err _ => authentication_unavailable
  | Ok nonce =>
      _ ← SetCookie (bindingCookie config (ln_Binding nonce)
                       (seconds_until (en_now env) (ln_ExpiresAt nonce)));
      writeJSON 201 (PJson (JObject [("nonce", JText (ln_Nonce nonce));
                                     ("expires_at_unix_ms", JInt (UnixMilli (ln_ExpiresAt nonce)))]))
  end.

Definition validHTTPTimeZone (value : string) : bool :=
  if (len_bytes value =? 0) || (64 <? len_bytes value) || negb (Contains value "/") then false
  else match LoadLocation value with Some _ => true | None => false end.

(** The credential and the time zone of a login. *)
Definition login_input : option (string * string) :=
  '(credential, zone) ← decodeJSON decode_login request;
  if bool_decide (TrimSpace credential = "") || negb (validHTTPTimeZone zone) then None
  else Some (credential, zone).

(** [logGoogleAuthenticationRejection] and the answer. *)
Definition reject_login {A} (stage : string) : http A :=
  requestID ← writer_header "X-Request-ID";
  _ ← emit (ERejected requestID stage);
  authentication_failed.

Definition authenticateGoogle : http unit :=
  _ ← checkOrigin;
  verifier ← require (hc_GoogleVerifier config) 503 "DURABILITY_UNAVAILABLE" true
               "Google authentication is not configured";
  input ← require login_input 400 "INVALID_ARGUMENT" false "login request is invalid";
  binding ← (match request_cookie (bindingCookieName config) request with
             | None | Some "" => reject_login "binding_cookie"
             | Some value => mret value
             end);
  nonce ← (match ExtractNonce input.1 with
           | None => reject_login "credential_nonce"
           | Some nonce => mret nonce
           end);
  identity ← (match Verify (en_now env) verifier input.1 nonce with
              | inr stage => reject_login ("token_" +:+ stage)
              | inl identity => mret identity
              end);
  outcome ← call (CreateSessionForGoogle (en_race env) (en_clk env) (en_rng env) (hc_Store config) nonce
                    binding identity input.2);
  match outcome with
  | Err ErrNonceNotFound => reject_login "nonce_binding"
  | Err ErrAuthenticationInput => reject_login "identity_input"
  | Err _ => authentication_unavailable
  | Ok session =>
      _ ← SetCookie (sessionCookie config (ses_Token session)
                       (seconds_until (en_now env) (ses_AbsoluteExpiresAt session)));
      _ ← SetCookie (clearBindingCookie config);
      writeJSON 200 (PJson (sessionJSON session))
  end.

(** A rotation is sent again here. *)
Definition getSession : http unit :=
  _ ← check_origin_if_present;
  session ← authenticateSession false;
  _ ← send_rotation session;
  writeJSON 200 (PJson (sessionJSON session)).

Definition createWebSocketTicket : http unit :=
  _ ← checkOrigin;
  session ← authenticateSession true;
  outcome ← call (IssueWebSocketTicket (en_clk env) (en_rng env) session);
  match outcome with
  | Err ErrSessionNotFound => authentication_failed
  | Err _ => authentication_unavailable
  | Ok ticket =>
      writeJSON 201 (PJson (JObject [("ticket", JText (tk_Token ticket));
                                     ("expires_at_unix_ms", JInt (UnixMilli (tk_ExpiresAt ticket)))]))
  end.

Definition logout : http unit :=
  _ ← checkOrigin;
  session ← authenticateSession true;
  outcome ← call (Logout (en_clk env) session);
  match outcome with
  | Err _ => problem 503 "DURABILITY_UNAVAILABLE" true "logout is temporarily unavailable"
  | Ok _ => _ ← SetCookie (clearSessionCookie config); WriteHeader 204
  end.

(** ** Routing *)

Definition handleOptions : http unit :=
  _ ← checkOrigin;
  _ ← SetHeader "Access-Control-Allow-Methods" "GET, POST, OPTIONS";
  _ ← SetHeader "Access-Control-Allow-Headers" "Content-Type, If-Match, Idempotency-Key, X-CSRF-Token";
  _ ← SetHeader "Access-Control-Expose-Headers" "ETag, X-Request-ID, X-LiveRoute-CSRF-Token";
  WriteHeader 204.

(** The handler when the method is [method]. *)
Definition only (method : string) (h : http unit) : http unit :=
  if bool_decide (rq_Method request = method) then h else method_not_allowed.

Definition not_found : http unit := problem 404 "NOT_FOUND" false "resource not found".

(** The paths under [/trips/]. *)
Definition route_trip (segments : list string) : http unit :=
  let method m := bool_decide (rq_Method request = m) in
  if negb (bool_decide (head segments = Some "trips")) then not_found
  else
    match segments with
    | [_; tripID] =>
        if method "GET" then getTrip tripID
        else if method "PATCH" then updateTrip tripID
        else if method "DELETE" then deleteTrip tripID
        else method_not_allowed
    | [_; tripID; action] =>
        if bool_decide (action = "activate") && method "POST" then activateTrip tripID
        else if bool_decide (action = "deactivate") && method "POST" then deactivateTrip tripID
        else if bool_decide (action = "activities") && method "POST"
        then mutateTripActivity tripID "" KindAdd
        else not_found
    | [_; tripID; collection; activityID] =>
        if negb (bool_decide (collection = "activities")) then not_found
        else if method "PATCH" then mutateTripActivity tripID activityID KindReplace
        else if method "DELETE" then mutateTripActivity tripID activityID KindDelete
        else method_not_allowed
    | _ => not_found
    end.

Definition route (path : string) : http unit :=
  if bool_decide (path = "/auth/google/nonce") then only "POST" createNonce
  else if bool_decide (path = "/auth/google") then only "POST" authenticateGoogle
  else if bool_decide (path = "/session") then only "GET" getSession
  else if bool_decide (path = "/trips") then
    if bool_decide (rq_Method request = "POST") then createTrip else only "GET" listTrips
  else if bool_decide (path = "/places/resolve") then only "POST" resolvePlace
  else if bool_decide (path = "/places") then only "POST" createPlace
  else if bool_decide (path = "/auth/logout") then only "POST" logout
  else if bool_decide (path = "/auth/ws-ticket") then only "POST" createWebSocketTicket
  else route_trip (Split (TrimPrefix path "/") 47).

Definition serve : http unit :=
  _ ← SetHeader "X-Request-ID" (newHTTPID (en_id env));
  _ ← SetHeader "X-Content-Type-Options" "nosniff";
  _ ← SetHeader "Cache-Control" "no-store";
  if bool_decide (rq_Method request = "OPTIONS") then handleOptions
  else route (TrimPrefix (rq_Path request) "/api/v1").

Definition ServeHTTP (d : db) : HttpState := (serve (MkHttp d [] [] [] [] [])).2.

End Handlers.
End Api.
