(* ===== verification/HttpProps.v ===== *)
(** * The HTTP interface: what requests can do

    Every request is answered once, with sound headers; the application's data
    change for an authorised request only; what a rotation, a preflight and a
    refused login answer. *)

From S2P Require Import Prelude GoLib Schema Tables Leases GoText SavedTables SavedMutations Execution SavedFacts Opaque Sessions SessionFacts Places HttpText Google HttpApi.

(** ** What a handler does to the response

    A handler either goes on without having answered or returns after exactly one
    answer.  [quiet] and [final] state it for the parts and the whole of a handler,
    relative to what holds before ([I]) and after ([J]) the answer; the rules for
    composing handlers are hints of the database [http]. *)

Create HintDb http.

Section Rules.
Context {PG : Postgres}.
Variables (I J : HttpState -> Prop).

(** Keeps [I] if it goes on, and establishes [J] if it returns. *)
Definition quiet {A} (h : http A) : Prop := forall s, I s ->
  match h s with (Some _, s') => I s' | (None, s') => J s' end.

(** Ends in [J] in every case. *)
Definition final {A} (h : http A) : Prop := forall s, I s -> J (h s).2.

Lemma quiet_ret {A} (a : A) : quiet (mret a).
Proof. by intros s. Qed.

Lemma quiet_bind {A B} (m : http A) (f : A -> http B) :
  quiet m -> (forall a, quiet (f a)) -> quiet (m ≫= f).
Proof.
  intros Hm Hf s Hs. specialize (Hm s Hs). unfold mbind, http_bind.
  destruct (m s) as [[a|] s']; [by apply Hf|done].
Qed.

Lemma final_bind {A B} (m : http A) (f : A -> http B) :
  quiet m -> (forall a, final (f a)) -> final (m ≫= f).
Proof.
  intros Hm Hf s Hs. specialize (Hm s Hs). unfold mbind, http_bind.
  destruct (m s) as [[a|] s']; [by apply Hf|done].
Qed.
End Rules.

Lemma http_bind_some {PG : Postgres} {A B} (m : http A) (f : A -> http B) s a s' :
  m s = (Some a, s') -> (m ≫= f) s = f a s'.
Proof. unfold mbind, http_bind. by intros ->. Qed.

Lemma http_bind_none {PG : Postgres} {A B} (m : http A) (f : A -> http B) s s' :
  m s = (None, s') -> (m ≫= f) s = (None, s').
Proof. unfold mbind, http_bind. by intros ->. Qed.

(** A failed call leaves the state as it was. *)
Lemma call_state {PG : Postgres} {A} (m : tx A) s :
  call m s = match m (hs_db s) with
             | Ok (a, d') => (Some (Ok a), MkHttp d' (hs_header s) (hs_cookies s) (hs_sent s) (hs_body s)
                                             (hs_effects s))
             | Err e => (Some (Err e), s)
             end.
Proof. unfold call, store, run_tx. destruct (m (hs_db s)) as [[a d']|e]; [done|by destruct s]. Qed.

#[export] Hint Resolve quiet_ret : http.

(** Goes through the binds, the matches and the tests of a handler. *)
Ltac http_steps :=
  repeat first
  [ solve [eauto with http]
  | apply final_bind; [|intros ?]
  | apply quiet_bind; [|intros ?]
  | match goal with
    | |- final _ _ (match ?x with _ => _ end) => destruct x
    | |- quiet _ _ (match ?x with _ => _ end) => destruct x
    | |- final _ _ (let '_ := ?x in _) => destruct x
    end
  | progress cbv zeta ].

(** ** Headers *)

Lemma header_values_add n n' v h :
  header_values n (header_add n' v h) =
  header_values n h ++ (if bool_decide (CanonicalHeaderKey n' = CanonicalHeaderKey n) then [v] else []).
Proof.
  unfold header_values, header_add. rewrite List.filter_app, fmap_app. f_equal. simpl.
  by case_bool_decide.
Qed.

Lemma header_values_filter n n' h :
  header_values n (List.filter (fun kv => negb (bool_decide (kv.1 = CanonicalHeaderKey n'))) h) =
  if bool_decide (CanonicalHeaderKey n' = CanonicalHeaderKey n) then [] else header_values n h.
Proof.
  unfold header_values. induction h as [|[k v] h IH]; [by case_bool_decide|]. cbn [List.filter fst].
  destruct (bool_decide_reflect (k = CanonicalHeaderKey n')) as [->|Hk]; cbn [negb List.filter fst].
  - rewrite IH. case_bool_decide; [done|]. done.
  - case_bool_decide as Hn; case_bool_decide as Hc; cbn; rewrite IH; [congruence|done|done|done].
Qed.

Lemma header_values_set n n' v h :
  header_values n (header_set n' v h) =
  if bool_decide (CanonicalHeaderKey n' = CanonicalHeaderKey n) then [v] else header_values n h.
Proof.
  unfold header_set. rewrite header_values_add, header_values_filter.
  case_bool_decide; [done|]. by rewrite app_nil_r.
Qed.

(** ** Where a request starts *)

Definition start_header {PG : Postgres} (env : Env) : list (string * string) :=
  header_set "Cache-Control" "no-store" (header_set "X-Content-Type-Options" "nosniff"
    (header_set "X-Request-ID" (newHTTPID (en_id env)) [])).
Definition start_state {PG : Postgres} (env : Env) (d : db) : HttpState :=
  MkHttp d (start_header env) [] [] [] [].

Lemma ServeHTTP_start {PG : Postgres} {SS : SavedServer} {TZ : TimeZones} {HJ : HttpJson}
    {DC : HttpDecode} {TP : TokenPayload} handler env request d :
  ServeHTTP handler env request d =
  ((if bool_decide (rq_Method request = "OPTIONS") then handleOptions handler request
    else route handler env request (TrimPrefix (rq_Path request) "/api/v1")) (start_state env d)).2.
Proof. reflexivity. Qed.

(** The test of an allowed origin changes headers only. *)
Lemma origin_state {PG : Postgres} handler request s :
  request_header request "Origin" ∈ ha_origins handler ->
  exists s', checkOrigin handler request s = (Some tt, s') /\ hs_db s' = hs_db s /\
    hs_cookies s' = hs_cookies s /\ hs_sent s' = hs_sent s /\ hs_body s' = hs_body s /\
    hs_effects s' = hs_effects s.
Proof.
  intros Hin. unfold checkOrigin, unless, mbind, http_bind. rewrite bool_decide_eq_true_2 by done. simpl.
  case_match; by eexists.
Qed.

(** ** Sound responses *)

Section Sound.
Context {PG : Postgres} {SS : SavedServer} {TZ : TimeZones} {HJ : HttpJson}.
Context {DC : HttpDecode} {TP : TokenPayload}.
Variables (handler : HTTPAuthHandler) (env : Env) (request : Request).
#[local] Abbreviation config := (ha_config handler).

(** Out of the page's reach, not sent cross-site, and over TLS when configured. *)
Definition cookie_ok (c : Cookie) : Prop :=
  ck_HttpOnly c = true /\ ck_SameSiteLax c = true /\ ck_Secure c = hc_SecureCookies config /\
  (ck_Name c = sessionCookieName config /\ ck_Path c = "/" \/
   ck_Name c = bindingCookieName config /\ ck_Path c = "/api/v1/auth/google").

(** The origin a response may be read from, if any: the configured frontend. *)
Definition cors_ok (h : list (string * string)) : Prop :=
  header_values "Access-Control-Allow-Origin" h = [] \/
  header_values "Access-Control-Allow-Origin" h = [hc_FrontendOrigin config] /\
    hc_FrontendOrigin config <> "" /\
    header_get "Origin" (rq_Header request) = hc_FrontendOrigin config /\
    hc_FrontendOrigin config ∈ ha_origins handler.

Record head_ok (h : list (string * string)) (cookies : list Cookie) : Prop := {
  hd_id : header_values "X-Request-ID" h = [newHTTPID (en_id env)];
  hd_nosniff : header_values "X-Content-Type-Options" h = ["nosniff"];
  hd_no_store : header_values "Cache-Control" h = ["no-store"];
  hd_cors : cors_ok h;
  hd_cookies : Forall cookie_ok cookies
}.

(** Nothing sent, and the headers sound; one answer sent with sound headers. *)
Definition unanswered (s : HttpState) : Prop :=
  hs_sent s = [] /\ head_ok (hs_header s) (hs_cookies s).
Definition sent_once (s : HttpState) : Prop :=
  exists status h cookies, hs_sent s = [(status, h, cookies)] /\ head_ok h cookies.

#[local] Abbreviation quiet := (quiet unanswered sent_once).
#[local] Abbreviation final := (final unanswered sent_once).

Definition protected_headers : list string :=
  ["X-Request-ID"; "X-Content-Type-Options"; "Cache-Control"; "Access-Control-Allow-Origin"].
Definition unprotected (name : string) : bool :=
  forallb (fun p => negb (bool_decide (CanonicalHeaderKey name = CanonicalHeaderKey p))) protected_headers.

Lemma unprotected_keeps name h cookies (f : list (string * string) -> list (string * string)) :
  unprotected name = true ->
  (forall n, bool_decide (CanonicalHeaderKey name = CanonicalHeaderKey n) = false ->
     header_values n (f h) = header_values n h) ->
  head_ok h cookies -> head_ok (f h) cookies.
Proof.
  unfold unprotected, protected_headers. cbn [forallb]. intros Hu Hf [].
  rewrite !andb_true_iff, !negb_true_iff in Hu. destruct Hu as (H1 & H2 & H3 & H4 & _).
  constructor; unfold cors_ok; rewrite ?Hf by done; done.
Qed.

Lemma quiet_header name v : unprotected name = true -> quiet (SetHeader name v).
Proof.
  intros Hu s [Hs Hh]. split; [done|]. simpl. apply (unprotected_keeps name); [done| |done].
  intros n Hn. by rewrite header_values_set, Hn.
Qed.

Lemma quiet_add_header name v : unprotected name = true -> quiet (AddHeader name v).
Proof.
  intros Hu s [Hs Hh]. split; [done|]. simpl. apply (unprotected_keeps name); [done| |done].
  intros n Hn. by rewrite header_values_add, Hn, app_nil_r.
Qed.

Lemma quiet_cookie c : cookie_ok c -> quiet (SetCookie c).
Proof.
  intros Hc s [Hs []]. split; [done|]. constructor; try done. simpl. apply Forall_app.
  split; [done|by apply Forall_singleton].
Qed.

Lemma quiet_store {A} (f : db -> result A * db) : quiet (store f).
Proof. intros s Hs. unfold store. by destruct (f (hs_db s)). Qed.

Lemma quiet_call {A} (m : tx A) : quiet (call m).
Proof. apply quiet_store. Qed.

Lemma quiet_emit e : quiet (emit e).
Proof. by intros s Hs. Qed.

Lemma quiet_writer_header name : quiet (writer_header name).
Proof. by intros s Hs. Qed.

Lemma final_send status : final (WriteHeader status).
Proof. intros s [Hs Hh]. exists status, (hs_header s), (hs_cookies s). simpl. by rewrite Hs. Qed.

(** An answer with a body. *)
Lemma answered_body status p s : unanswered s ->
  sent_once (Write p (WriteHeader status s).2).2.
Proof. intros [Hs Hh]. exists status, (hs_header s), (hs_cookies s). simpl. by rewrite Hs. Qed.

Lemma final_json status p : final (writeJSON status p).
Proof.
  unfold writeJSON. apply final_bind; [by apply quiet_header|]. intros _ s Hs. by apply answered_body.
Qed.

Lemma final_stored r : final (writeStoredHTTPResult r).
Proof.
  unfold writeStoredHTTPResult. apply final_bind; [by apply quiet_header|]. intros _ s Hs.
  by apply answered_body.
Qed.

Lemma quiet_problem {A} status code retryable detail : quiet (problem (A:=A) status code retryable detail).
Proof.
  unfold problem. apply quiet_bind; [by apply quiet_header|]. intros _ s Hs. by eapply answered_body.
Qed.

Lemma final_problem {A} status code retryable detail : final (problem (A:=A) status code retryable detail).
Proof.
  unfold problem. apply final_bind; [by apply quiet_header|]. intros _ s Hs. by eapply answered_body.
Qed.

#[local] Hint Resolve quiet_store quiet_call quiet_emit quiet_writer_header final_send final_json
  final_stored quiet_problem final_problem : http.
#[local] Hint Extern 1 (HttpProps.quiet _ _ (SetHeader _ _)) => by apply quiet_header : http.
#[local] Hint Extern 1 (HttpProps.quiet _ _ (AddHeader _ _)) => by apply quiet_add_header : http.

Lemma quiet_session_cookie v age : quiet (SetCookie (sessionCookie config v age)).
Proof. apply quiet_cookie. repeat split. by left. Qed.
Lemma quiet_binding_cookie v age : quiet (SetCookie (bindingCookie config v age)).
Proof. apply quiet_cookie. repeat split. by right. Qed.
Lemma quiet_clear_session : quiet (SetCookie (clearSessionCookie config)).
Proof. apply quiet_cookie. repeat split. by left. Qed.
Lemma quiet_clear_binding : quiet (SetCookie (clearBindingCookie config)).
Proof. apply quiet_cookie. repeat split. by right. Qed.
#[local] Hint Resolve quiet_session_cookie quiet_binding_cookie quiet_clear_session quiet_clear_binding : http.

Lemma quiet_unless b status code retryable detail : quiet (unless b status code retryable detail).
Proof. unfold unless. http_steps. Qed.
Lemma quiet_require {A} (o : option A) status code retryable detail :
  quiet (require o status code retryable detail).
Proof. unfold require. http_steps. Qed.
#[local] Hint Resolve quiet_unless quiet_require : http.

(** The allowance goes to the origin of the request when it is the frontend's. *)
Lemma quiet_allow origin :
  origin = header_get "Origin" (rq_Header request) -> origin = hc_FrontendOrigin config ->
  hc_FrontendOrigin config <> "" -> origin ∈ ha_origins handler ->
  quiet (SetHeader "Access-Control-Allow-Origin" origin).
Proof.
  intros Ho Hf Hne Hin s [Hs []]. split; [done|]. simpl.
  constructor; unfold cors_ok; rewrite ?header_values_set; try done.
  right. rewrite bool_decide_eq_true_2 by done. split_and!; [congruence|done|congruence|by rewrite <- Hf].
Qed.

Lemma quiet_origin : quiet (checkOrigin handler request).
Proof.
  unfold checkOrigin, unless, request_header. set (origin := header_get "Origin" _).
  destruct (bool_decide_reflect (origin ∈ ha_origins handler)) as [Hin|Hin].
  - apply quiet_bind; [apply quiet_ret|]. intros _.
    destruct (bool_decide_reflect (hc_FrontendOrigin config = "")) as [He|He]; [apply quiet_ret|].
    destruct (bool_decide_reflect (origin = hc_FrontendOrigin config)) as [Hf|Hf]; [|apply quiet_ret].
    cbn [negb andb]. apply quiet_bind; [by apply quiet_allow|intros _]. http_steps.
  - intros s Hs. exact (quiet_problem (A:=unit) _ _ _ _ s Hs).
Qed.
#[local] Hint Resolve quiet_origin : http.

Lemma quiet_rotation session : quiet (send_rotation handler env session).
Proof. unfold send_rotation. http_steps. Qed.
#[local] Hint Resolve quiet_rotation : http.

Lemma quiet_authenticate csrf : quiet (authenticateSession handler env request csrf).
Proof.
  unfold authenticateSession, authentication_required, authentication_unavailable. http_steps.
Qed.
#[local] Hint Resolve quiet_authenticate : http.

Lemma quiet_origin_if : quiet (check_origin_if_present handler request).
Proof. unfold check_origin_if_present. http_steps. Qed.
Lemma quiet_key : quiet (idempotency_key request).
Proof. unfold idempotency_key, bad_request. http_steps. Qed.
Lemma quiet_content : quiet (json_content request).
Proof. unfold json_content, bad_request. http_steps. Qed.
Lemma quiet_query : quiet (no_query request).
Proof. unfold no_query, bad_request. http_steps. Qed.
#[local] Hint Resolve quiet_origin_if quiet_key quiet_content quiet_query : http.

Lemma quiet_admit_trip tripID json : quiet (admitTripMutation handler env request tripID json).
Proof. unfold admitTripMutation, trips_configured, bad_request. http_steps. Qed.
Lemma quiet_admit_place : quiet (admitPlaceMutation handler env request).
Proof. unfold admitPlaceMutation. http_steps. Qed.
Lemma quiet_result {A} (r : result A) : quiet (mutation_result r).
Proof. unfold mutation_result, handleTripMutationError. http_steps. Qed.
Lemma quiet_no_body detail : quiet (no_request_body request detail).
Proof. unfold no_request_body, bad_request. http_steps. Qed.
Lemma quiet_activity_body kind : quiet (activity_body request kind).
Proof. unfold activity_body. destruct kind; http_steps; apply quiet_no_body. Qed.
Lemma quiet_reject {A} stage : quiet (reject_login (A:=A) stage).
Proof. unfold reject_login, authentication_failed. http_steps. Qed.
Lemma final_reject {A} stage : final (reject_login (A:=A) stage).
Proof. unfold reject_login, authentication_failed. http_steps. Qed.
#[local] Hint Resolve quiet_admit_trip quiet_admit_place quiet_result quiet_no_body quiet_activity_body
  quiet_reject final_reject : http.

Lemma final_transition r : final (answer_transition r).
Proof. unfold answer_transition. http_steps. Qed.
Lemma final_trip status r : final (answer_trip status r).
Proof. unfold answer_trip. http_steps. Qed.
#[local] Hint Resolve final_transition final_trip : http.

Tactic Notation "handler_answers" reference(h) := unfold h, trips_configured, bad_request, key_reused, authentication_failed,
  authentication_unavailable; http_steps.

Lemma final_activate tripID : final (activateTrip handler env request tripID).
Proof. handler_answers activateTrip. Qed.
Lemma final_deactivate tripID : final (deactivateTrip handler env request tripID).
Proof. handler_answers deactivateTrip. Qed.
Lemma final_mutate tripID activityID kind :
  final (mutateTripActivity handler env request tripID activityID kind).
Proof. handler_answers mutateTripActivity. Qed.
Lemma final_update tripID : final (updateTrip handler env request tripID).
Proof. handler_answers updateTrip. Qed.
Lemma final_delete tripID : final (deleteTrip handler env request tripID).
Proof. handler_answers deleteTrip. Qed.
Lemma final_create : final (createTrip handler env request).
Proof. handler_answers createTrip. Qed.
Lemma final_list : final (listTrips handler env request).
Proof. handler_answers listTrips. Qed.
Lemma final_get tripID : final (getTrip handler env request tripID).
Proof. handler_answers getTrip. Qed.
Lemma final_resolve : final (resolvePlace handler env request).
Proof. handler_answers resolvePlace. Qed.
Lemma final_create_place : final (createPlace handler env request).
Proof. handler_answers createPlace. Qed.
Lemma final_nonce : final (createNonce handler env request).
Proof. handler_answers createNonce. Qed.
Lemma final_login : final (authenticateGoogle handler env request).
Proof. handler_answers authenticateGoogle. Qed.
Lemma final_session : final (getSession handler env request).
Proof. handler_answers getSession. Qed.
Lemma final_ticket : final (createWebSocketTicket handler env request).
Proof. handler_answers createWebSocketTicket. Qed.
Lemma final_logout : final (logout handler env request).
Proof. handler_answers logout. Qed.
Lemma final_options : final (handleOptions handler request).
Proof. handler_answers handleOptions. Qed.
#[local] Hint Resolve final_activate final_deactivate final_mutate final_update final_delete final_create
  final_list final_get final_resolve final_create_place final_nonce final_login final_session final_ticket
  final_logout final_options : http.

Lemma final_route path : final (route handler env request path).
Proof. unfold route, only, route_trip, not_found, method_not_allowed. http_steps. Qed.

Lemma serve_answers d : sent_once (ServeHTTP handler env request d).
Proof.
  rewrite ServeHTTP_start.
  assert (unanswered (start_state env d)) as Hi.
  { split; [done|]. constructor; unfold cors_ok; try apply Forall_nil; unfold start_state, start_header; simpl;
      rewrite ?header_values_set; cbn; auto. }
  case_match; [by apply final_options|by apply final_route].
Qed.
End Sound.

(** ** Data that only authorised requests change *)

Section Data.
Context {PG : Postgres} `{!PostgresLaws PG}.

(** The database without accounts, login nonces, sessions and tickets. *)
Definition app_data (d : db) : db :=
  set_sessions ∅ (set_nonces ∅ (set_tickets ∅ (set_identities ∅ (set_user_rows ∅ d)))).

(** A transaction that leaves the application's data alone. *)
Definition framed {A} (m : tx A) : Prop := forall d a d', m d = Ok (a, d') -> app_data d' = app_data d.

Lemma framed_bind {A B} (m : tx A) (f : A -> tx B) :
  framed m -> (forall a, framed (f a)) -> framed (m ≫= f).
Proof.
  intros Hm Hf d b d' (a & d1 & Ha & Hb)%tx_bind_ok. transitivity (app_data d1); [by eapply Hf|by eapply Hm].
Qed.

Lemma framed_ret {A} (a : A) : framed (mret a).
Proof. by intros d b d' [_ <-]%mret_ok. Qed.
Lemma framed_lift {A} (r : result A) : framed (lift r).
Proof. by intros d b d' [_ ->]%lift_ok. Qed.
Lemma framed_guard b e : framed (guard b e).
Proof. by intros d x d' [_ ->]%guard_ok. Qed.
Lemma framed_gets {A} (f : db -> A) : framed (gets f).
Proof. by intros d x d' [_ ->]%gets_ok. Qed.
Lemma framed_find {A} (f : db -> option A) e : framed (find_row f e).
Proof. by intros d x d' [_ ->]%find_row_ok. Qed.
Lemma framed_query {A} (f : db -> result A) : framed (query f).
Proof. unfold query. intros d x d' (a & _ & Hx)%bind_ok. by injection Hx as _ <-. Qed.
Lemma framed_modify f : (forall d, app_data (f d) = app_data d) -> framed (modify f).
Proof. by intros Hf d x d' ->%modify_ok. Qed.
Lemma framed_fail {A} e : framed (A:=A) (fail e).
Proof. done. Qed.
Lemma framed_text op s : framed (text_param op s).
Proof. apply framed_lift. Qed.
Lemma framed_text_null op s : framed (text_param_null op s).
Proof.
  destruct s; [|apply framed_ret]. apply framed_bind; [apply framed_text|intros; apply framed_ret].
Qed.
Lemma framed_insert_user op id u : framed (insert_user op id u).
Proof. intros d x d'. unfold insert_user. case_match; [done|]. by intros [= _ <-]. Qed.
Lemma framed_insert_identity op id e : framed (insert_identity op id e).
Proof. intros d x d'. unfold insert_identity. intros Hx. repeat case_match; simplify_eq; done. Qed.
Lemma framed_update_identity now identity email name : framed (update_identity now identity email name).
Proof. intros d x d'. unfold update_identity. case_match; [done|]. by intros [= _ <-]. Qed.
Lemma framed_insert_session op id s : framed (insert_session op id s).
Proof. intros d x d'. unfold insert_session. intros Hx. repeat case_match; simplify_eq; done. Qed.
Lemma framed_consume_nonce op id now : framed (consume_nonce op id now).
Proof. intros d x d'. unfold consume_nonce. intros Hx. repeat case_match; simplify_eq; done. Qed.

#[local] Hint Resolve framed_ret framed_lift framed_guard framed_gets framed_find framed_query framed_fail
  framed_text framed_text_null framed_insert_user framed_insert_identity framed_update_identity
  framed_insert_session framed_consume_nonce : http.

Ltac framed_steps :=
  repeat first
  [ solve [eauto with http]
  | apply framed_bind; [|intros ?]
  | match goal with |- framed (match ?x with _ => _ end) => destruct x end
  | progress cbv zeta ].

Lemma framed_upsert fuel race clk rng n identity zone :
  (forall n d, app_data (race n d) = app_data d) ->
  framed (upsertExternalIdentity fuel race clk rng n identity zone).
Proof.
  intros Hrace. revert n. induction fuel as [|fuel IH]; intros n; cbn [upsertExternalIdentity]; framed_steps.
  - by apply framed_modify.
  - unfold discard_user. by apply framed_modify.
Qed.

#[local] Hint Resolve framed_upsert : http.

Lemma framed_login `{TimeZones} race clk rng keys nonce binding identity zone :
  (forall n d, app_data (race n d) = app_data d) ->
  framed (CreateSessionForGoogle race clk rng keys nonce binding identity zone).
Proof.
  intros Hrace. unfold CreateSessionForGoogle, insertSession. framed_steps.
Qed.

Lemma framed_nonce clk rng : framed (CreateLoginNonce clk rng).
Proof. by intros d r d' (n & _ & _ & _ & ->)%CreateLoginNonce_ok. Qed.
Lemma framed_authenticate clk rng keys token : framed (AuthenticateSession clk rng keys token).
Proof. by intros d r d' (id & s & u & m & rot & _ & _ & _ & -> & _)%AuthenticateSession_ok. Qed.
Lemma framed_ticket clk rng session : framed (IssueWebSocketTicket clk rng session).
Proof. by intros d r d' (sid & s & t & _ & _ & _ & _ & _ & _ & ->)%IssueWebSocketTicket_ok. Qed.
Lemma framed_logout clk session : framed (Logout clk session).
Proof. by intros d r d' (_ & family & _ & _ & ->)%Logout_ok. Qed.
End Data.

(** C32: every request is answered exactly once, and the response carries its request
    identifier and forbids caching and type sniffing; it can be read from another origin
    only if that is the configured frontend's, and its cookies are out of reach of scripts
    and of other sites, and secure when configured. *)
Theorem one_sound_answer {PG : Postgres} {SS : SavedServer} {TZ : TimeZones} {HJ : HttpJson}
    {DC : HttpDecode} {TP : TokenPayload} handler env request d :
  exists status h cookies,
    hs_sent (ServeHTTP handler env request d) = [(status, h, cookies)] /\
    header_values "X-Request-ID" h = [newHTTPID (en_id env)] /\
    header_values "X-Content-Type-Options" h = ["nosniff"] /\
    header_values "Cache-Control" h = ["no-store"] /\
    cors_ok handler request h /\ Forall (cookie_ok handler) cookies.
Proof.
  destruct (serve_answers handler env request d) as (status & h & cookies & Hs & []).
  by exists status, h, cookies.
Qed.

Section Authorisation.
Context {PG : Postgres} `{!PostgresLaws PG} {SS : SavedServer} {TZ : TimeZones} {HJ : HttpJson}.
Context {DC : HttpDecode} {TP : TokenPayload}.
Variables (handler : HTTPAuthHandler) (env : Env) (request : Request).
#[local] Abbreviation config := (ha_config handler).

(** From an allowed origin, with the cookie of a live session and its CSRF token. *)
Definition authorised (d : db) : bool :=
  bool_decide (request_header request "Origin" ∈ ha_origins handler) &&
  match request_cookie (sessionCookieName config) request with
  | None | Some "" => false
  | Some token =>
      match AuthenticateSession (en_auth_clk env) (en_auth_rng env) (hc_Store config) token d with
      | Ok (session, _) => VerifyCSRF (hc_Store config) session (request_header request "X-CSRF-Token")
      | Err _ => false
      end
  end.

Definition mutating_methods : list string := ["POST"; "PATCH"; "DELETE"].

Section Kept.
Variable d : db.

Definition kept (s : HttpState) : Prop := app_data (hs_db s) = app_data d.
#[local] Abbreviation keeps := (quiet kept kept).

Lemma keeps_header f : keeps (map_header f).
Proof. by intros s. Qed.
Lemma keeps_set n v : keeps (SetHeader n v).
Proof. by intros s. Qed.
Lemma keeps_add n v : keeps (AddHeader n v).
Proof. by intros s. Qed.
Lemma keeps_cookie c : keeps (SetCookie c).
Proof. by intros s. Qed.
Lemma keeps_send n : keeps (WriteHeader n).
Proof. by intros s. Qed.
Lemma keeps_write p : keeps (Write p).
Proof. by intros s. Qed.
Lemma keeps_emit e : keeps (emit e).
Proof. by intros s. Qed.
Lemma keeps_writer_header n : keeps (writer_header n).
Proof. by intros s. Qed.
Lemma keeps_returned {A} : keeps (returned (A:=A)).
Proof. by intros s. Qed.
Lemma keeps_call {A} (m : tx A) : framed m -> keeps (call m).
Proof.
  intros Hm s Hs. unfold call, store, run_tx. destruct (m (hs_db s)) as [[a d']|e] eqn:E; [|done].
  unfold kept in *. simpl. by rewrite (Hm _ _ _ E).
Qed.

#[local] Hint Resolve keeps_set keeps_add keeps_cookie keeps_send keeps_write keeps_emit
  keeps_writer_header keeps_returned framed_query framed_nonce framed_authenticate : http.
#[local] Hint Extern 1 (quiet _ _ (call _)) => apply keeps_call : http.

Tactic Notation "handler_keeps" reference(h) := unfold h, unless, require, bad_request,
  authentication_failed, authentication_required, authentication_unavailable, problem, writeJSON; http_steps.

Lemma keeps_problem {A} status code retryable detail :
  keeps (problem (A:=A) status code retryable detail).
Proof. unfold problem. http_steps. Qed.
Lemma keeps_origin : keeps (checkOrigin handler request).
Proof. handler_keeps checkOrigin. Qed.
Lemma keeps_rotation session : keeps (send_rotation handler env session).
Proof. handler_keeps send_rotation. Qed.
#[local] Hint Resolve keeps_problem keeps_origin keeps_rotation : http.
Lemma keeps_authenticate csrf : keeps (authenticateSession handler env request csrf).
Proof. handler_keeps authenticateSession. Qed.
Lemma keeps_origin_if : keeps (check_origin_if_present handler request).
Proof. handler_keeps check_origin_if_present. Qed.
#[local] Hint Resolve keeps_authenticate keeps_origin_if : http.
Lemma keeps_reject {A} stage : keeps (reject_login (A:=A) stage).
Proof. handler_keeps reject_login. Qed.
#[local] Hint Resolve keeps_reject : http.

Lemma keeps_session : keeps (getSession handler env request).
Proof. handler_keeps getSession. Qed.
Lemma keeps_list : keeps (listTrips handler env request).
Proof. handler_keeps listTrips; handler_keeps trips_configured. Qed.
Lemma keeps_get tripID : keeps (getTrip handler env request tripID).
Proof. handler_keeps getTrip; handler_keeps trips_configured. Qed.
Lemma keeps_nonce : keeps (createNonce handler env request).
Proof. handler_keeps createNonce. Qed.
Lemma keeps_options : keeps (handleOptions handler request).
Proof. handler_keeps handleOptions. Qed.
Lemma keeps_login :
  (forall n d, app_data (en_race env n d) = app_data d) -> keeps (authenticateGoogle handler env request).
Proof. intros Hrace. handler_keeps authenticateGoogle. by apply keeps_call, framed_login. Qed.

(** *** Requests that are not authorised *)

Hypothesis Hno : authorised d = false.

(** The two guards every changing handler starts with stop the request. *)
Lemma guarded {A} (k : Session -> http A) s : hs_db s = d ->
  exists s', (checkOrigin handler request ≫= fun _ => authenticateSession handler env request true ≫= k) s
    = (None, s') /\ kept s'.
Proof.
  intros Hs. unfold authorised in Hno.
  destruct (bool_decide_reflect (request_header request "Origin" ∈ ha_origins handler)) as [Hin|Hin].
  - destruct (origin_state handler request s Hin) as (s1 & H1 & Hd & _). unfold mbind at 1, http_bind at 1. rewrite H1.
    pose proof (keeps_authenticate true s1) as Hk. unfold kept in Hk at 1. rewrite Hd, Hs in Hk.
    specialize (Hk eq_refl). unfold mbind, http_bind.
    assert (exists s2, authenticateSession handler env request true s1 = (None, s2)) as [s2 E].
    { unfold authenticateSession, authentication_required, authentication_unavailable.
      destruct (request_cookie (sessionCookieName config) request) as [token|]; [|by eexists].
      destruct token as [|c token]; [by eexists|]. simpl in Hno.
      unfold call, store, run_tx, mbind, http_bind. rewrite Hd, Hs.
      destruct (AuthenticateSession _ _ _ _ d) as [[session d']|e]; [rewrite Hno|]; simpl;
        [by eexists|]. by destruct e; eexists. }
    rewrite E in *. by exists s2.
  - unfold checkOrigin, unless, mbind, http_bind. rewrite bool_decide_eq_false_2 by done.
    eexists. split; [reflexivity|]. unfold kept. simpl. by rewrite Hs.
Qed.

#[local] Abbreviation refused := (final (fun s => hs_db s = d) kept).

Lemma refused_bind {A B} (m : http A) (f : A -> http B) :
  (forall s, hs_db s = d -> exists s', m s = (None, s') /\ kept s') -> refused (m ≫= f).
Proof.
  intros Hm s Hs. destruct (Hm s Hs) as (s' & E & Hk). unfold mbind, http_bind. by rewrite E.
Qed.

Lemma refused_guarded {A} (k : Session -> http A) :
  refused (checkOrigin handler request ≫= fun _ => authenticateSession handler env request true ≫= k).
Proof. intros s Hs. destruct (guarded k s Hs) as (s' & -> & Hk). done. Qed.

Lemma refused_admit_trip {B} tripID json (f : _ -> http B) :
  refused (admitTripMutation handler env request tripID json ≫= f).
Proof. apply refused_bind. apply guarded. Qed.
Lemma refused_admit_place {B} (f : _ -> http B) :
  refused (admitPlaceMutation handler env request ≫= f).
Proof. apply refused_bind. apply guarded. Qed.
End Kept.

Lemma kept_start d (h : http unit) : quiet (kept d) (kept d) h -> final (fun s => hs_db s = d) (kept d) h.
Proof.
  intros Hq s Hs. specialize (Hq s). unfold kept in Hq at 1. rewrite Hs in Hq. specialize (Hq eq_refl).
  by destruct (h s) as [[]].
Qed.

Ltac refused_handler Hm :=
  let Hno := fresh in
  match goal with E : rq_Method request = _ |- final _ (kept ?d) _ =>
    assert (authorised d = false) as Hno by (apply (Hm _ E); by apply (bool_decide_eq_true_1 _)) end;
  lazymatch goal with
  | |- final _ _ (createTrip _ _ _) => apply (refused_guarded _ Hno)
  | |- final _ _ (logout _ _ _) => apply (refused_guarded _ Hno)
  | |- final _ _ (createWebSocketTicket _ _ _) => apply (refused_guarded _ Hno)
  | |- final _ _ (resolvePlace _ _ _) => apply (refused_admit_place _ Hno)
  | |- final _ _ (createPlace _ _ _) => apply (refused_admit_place _ Hno)
  | |- _ => apply (refused_admit_trip _ Hno)
  end.

(** A branch of the routing, by its handler. *)
Ltac route_branch Hm :=
  lazymatch goal with
  | |- final _ _ (method_not_allowed) => apply kept_start, keeps_problem
  | |- final _ _ (not_found) => apply kept_start, keeps_problem
  | |- final _ _ (getSession _ _ _) => apply kept_start, keeps_session
  | |- final _ _ (listTrips _ _ _) => apply kept_start, keeps_list
  | |- final _ _ (getTrip _ _ _ _) => apply kept_start, keeps_get
  | |- final _ _ (createNonce _ _ _) => apply kept_start, keeps_nonce
  | |- final _ _ (authenticateGoogle _ _ _) => by apply kept_start, keeps_login
  | |- _ => refused_handler Hm
  end.

Lemma route_kept d path :
  (forall n d, app_data (en_race env n d) = app_data d) ->
  (rq_Method request ∈ mutating_methods -> authorised d = false) ->
  final (fun s => hs_db s = d) (kept d) (route handler env request path).
Proof.
  intros Hrace Hbad.
  assert (Hm : forall m, rq_Method request = m -> m ∈ mutating_methods -> authorised d = false)
    by (intros m <-; exact Hbad).
  unfold route, only, route_trip.
  repeat match goal with
  | |- final _ _ (if ?b then _ else _) => destruct b eqn:?
  | |- final _ _ (match ?l with _ => _ end) => destruct l
  | |- final _ _ (let _ := _ in _) => cbv zeta
  | E : _ && _ = true |- _ => apply andb_true_iff in E as [_ E]
  | E : bool_decide (rq_Method request = _) = true |- _ => apply bool_decide_eq_true in E
  end; route_branch Hm.
Qed.

(** C3: the application's data change for an authorised request only: whatever is sent,
    when the trips, plans, places, records or runtime tables differ afterwards, the
    request came from an allowed origin with the cookie of a live session and its CSRF
    token, by [POST], [PATCH] or [DELETE]. *)
Theorem data_changes_authorised d :
  (forall n d, app_data (en_race env n d) = app_data d) ->
  app_data (hs_db (ServeHTTP handler env request d)) = app_data d \/
  authorised d = true /\ rq_Method request ∈ mutating_methods.
Proof.
  intros Hrace. destruct (decide (authorised d = true /\ rq_Method request ∈ mutating_methods)) as [|Hbad];
    [by right|left].
  rewrite ServeHTTP_start. fold (kept d (start_state env d)).
  case_match.
  - by apply kept_start; [apply keeps_options|].
  - apply route_kept; [done| |done]. intros Hin. apply not_true_iff_false. intros Ha. by destruct Hbad.
Qed.
End Authorisation.
