(* ===== verification/HttpSessions.v ===== *)
(** * Logging in and staying logged in over HTTP

    What a login, a request that rotates its session, a refused login and a preflight
    answer, composed with what the session store guarantees. *)

From S2P Require Import Prelude GoLib Schema Tables Leases GoText SavedTables SavedMutations SavedFacts Execution Opaque Sessions SessionFacts SessionProps Places HttpText Google HttpApi HttpProps.

Section Login.
Context {PG : Postgres} `{!PostgresLaws PG} {SS : SavedServer} {TZ : TimeZones} {HJ : HttpJson}.
Context {DC : HttpDecode} {TP : TokenPayload}.
Variables (handler : HTTPAuthHandler) (env : Env) (request : Request).
#[local] Abbreviation config := (ha_config handler).

(** ** The outcome of a login *)

Section Outcome.
Variable d : db.

(** Nothing sent, no cookie set, the database untouched. *)
Definition fresh (s : HttpState) : Prop :=
  hs_db s = d /\ hs_cookies s = [] /\ hs_sent s = [] /\ hs_body s = [].

(** A session was opened and its cookie sent, or the answer is an error without cookies. *)
Definition login_outcome (s : HttpState) : Prop :=
  (exists nonce binding identity zone session h,
     CreateSessionForGoogle (en_race env) (en_clk env) (en_rng env) (hc_Store config) nonce binding identity
       zone d = Ok (session, hs_db s) /\
     hs_cookies s = [sessionCookie config (ses_Token session)
                       (seconds_until (en_now env) (ses_AbsoluteExpiresAt session));
                     clearBindingCookie config] /\
     hs_sent s = [(200, h, hs_cookies s)] /\ hs_body s = [PJson (sessionJSON session)]) \/
  (hs_db s = d /\ exists status h, hs_sent s = [(status, h, [])] /\ status <> 200).

#[local] Abbreviation quiet := (quiet fresh login_outcome).
#[local] Abbreviation final := (final fresh login_outcome).

Lemma login_header f : quiet (map_header f).
Proof. by intros s. Qed.
Lemma login_set n v : quiet (SetHeader n v).
Proof. apply login_header. Qed.
Lemma login_add n v : quiet (AddHeader n v).
Proof. apply login_header. Qed.
Lemma login_emit e : quiet (emit e).
Proof. by intros s. Qed.
Lemma login_writer_header n : quiet (writer_header n).
Proof. by intros s. Qed.

(** An error of the login leaves the database as it was. *)
Lemma login_error status p s : fresh s -> status <> 200 ->
  login_outcome (Write p (WriteHeader status s).2).2.
Proof.
  intros (Hd & Hc & Hs & Hb) Hn. right. simpl. split; [done|]. exists status, (hs_header s).
  by rewrite Hs, Hc.
Qed.

Lemma login_problem {A} status code retryable detail : status <> 200 ->
  quiet (problem (A:=A) status code retryable detail).
Proof.
  intros Hn. unfold problem. apply quiet_bind; [apply login_set|]. intros _ s Hs. by eapply login_error.
Qed.
Lemma login_final {A} status code retryable detail : status <> 200 ->
  final (problem (A:=A) status code retryable detail).
Proof.
  intros Hn. unfold problem. apply final_bind; [apply login_set|]. intros _ s Hs. by eapply login_error.
Qed.

#[local] Hint Resolve login_set login_add login_emit login_writer_header : http.
#[local] Hint Extern 1 (HttpProps.quiet _ _ (problem _ _ _ _)) => by apply login_problem : http.
#[local] Hint Extern 1 (HttpProps.final _ _ (problem _ _ _ _)) => by apply login_final : http.

Lemma login_origin : quiet (checkOrigin handler request).
Proof. unfold checkOrigin, unless. http_steps. Qed.
Lemma login_reject {A} stage : quiet (reject_login (A:=A) stage).
Proof. unfold reject_login, authentication_failed. http_steps. Qed.
Lemma login_reject_final {A} stage : final (reject_login (A:=A) stage).
Proof. unfold reject_login, authentication_failed. http_steps. Qed.
#[local] Hint Resolve login_origin login_reject login_reject_final : http.

Lemma login_unavailable {A} : final (authentication_unavailable (A:=A)).
Proof. unfold authentication_unavailable. http_steps. Qed.

Lemma login_runs : final (authenticateGoogle handler env request).
Proof.
  unfold authenticateGoogle, require.
  apply final_bind; [eauto with http|]. intros _.
  apply final_bind; [http_steps|]. intros verifier. apply final_bind; [http_steps|]. intros [credential zone].
  apply final_bind; [http_steps|]. intros binding. apply final_bind; [http_steps|]. intros nonce.
  apply final_bind; [http_steps|]. intros identity s Hf.
  unfold mbind at 1, http_bind at 1. rewrite call_state. destruct Hf as (Hd & Hc & Hs & Hb). rewrite Hd.
  destruct (CreateSessionForGoogle _ _ _ _ _ _ _ _ d) as [[session d']|e] eqn:E.
  - cbn [snd] in E. left. exists nonce, binding, identity, zone, session. eexists. cbn.
    rewrite Hc, Hs, Hb. done.
  - assert (Hf : fresh s) by done.
    destruct e; cbv beta iota; lazymatch goal with
      | |- context [reject_login] => exact (login_reject_final _ s Hf)
      | |- context [authentication_unavailable] => exact (login_unavailable s Hf)
      end.
Qed.
End Outcome.

Lemma login_serves d :
  rq_Method request = "POST" -> rq_Path request = "/api/v1/auth/google" ->
  login_outcome d (ServeHTTP handler env request d).
Proof.
  intros Hm Hp. rewrite ServeHTTP_start, Hm, Hp. 
  assert (route handler env request (TrimPrefix "/api/v1/auth/google" "/api/v1") =
    authenticateGoogle handler env request) as ->.
  { unfold route, only. rewrite Hm. reflexivity. }
  by apply login_runs.
Qed.

(** A refused login leaves the browser's binding cookie in place: no answer to a
    login other than a success sets or clears a cookie. *)
Theorem failed_login_keeps_binding d status h cookies :
  rq_Method request = "POST" -> rq_Path request = "/api/v1/auth/google" ->
  hs_sent (ServeHTTP handler env request d) = [(status, h, cookies)] -> status <> 200 -> cookies = [].
Proof.
  intros Hm Hp Hs Hn.
  destruct (login_serves d Hm Hp) as [(? & ? & ? & ? & ? & ? & _ & _ & Hs' & _)|(_ & ? & ? & Hs' & _)];
    rewrite Hs in Hs'; congruence.
Qed.
End Login.

(** ** A session over HTTP *)

Section Session.
Context {PG : Postgres} `{!PostgresLaws PG} {SS : SavedServer} {TZ : TimeZones} {HJ : HttpJson}.
Context {DC : HttpDecode} {TP : TokenPayload}.
Implicit Types (handler : HTTPAuthHandler) (env : Env) (request : Request).

(** [GET /session] with the cookie of a session that is not rotated. *)
Lemma session_read handler env request d token session d' :
  rq_Method request = "GET" -> rq_Path request = "/api/v1/session" ->
  request_header request "Origin" = "" ->
  request_cookie (sessionCookieName (ha_config handler)) request = Some token -> token <> "" ->
  AuthenticateSession (en_auth_clk env) (en_auth_rng env) (hc_Store (ha_config handler)) token d =
    Ok (session, d') ->
  ses_Rotated session = false ->
  exists h, hs_sent (ServeHTTP handler env request d) = [(200, h, [])] /\
    hs_body (ServeHTTP handler env request d) = [PJson (sessionJSON session)].
Proof.
  intros Hm Hp Ho Hc Hne Ha Hr. rewrite ServeHTTP_start, Hm, Hp.
  assert (route handler env request (TrimPrefix "/api/v1/session" "/api/v1") =
    getSession handler env request) as ->.
  { unfold route, only. rewrite Hm. reflexivity. }
  change (bool_decide ("GET" = "OPTIONS")) with false. cbv iota.
  unfold getSession. rewrite (http_bind_some _ _ _ tt (start_state env d)).
  2: { unfold check_origin_if_present. by rewrite Ho. }
  rewrite (http_bind_some _ _ _ session (MkHttp d' (start_header env) [] [] [] [])).
  2: { unfold authenticateSession. rewrite Hc. destruct token as [|c token]; [done|].
       erewrite http_bind_some; [|by rewrite call_state; cbn [hs_db start_state]; rewrite Ha].
       cbn [andb]. unfold send_rotation. by rewrite Hr. }
  unfold send_rotation. rewrite Hr. rewrite (http_bind_some _ _ _ tt (MkHttp d' (start_header env) [] [] [] []))
    by done.
  by eexists.
Qed.

Lemma login_token_nonempty race clk rng keys nonce binding identity zone d session d' :
  (forall n d, accounts_only d (race n d)) -> length (rng 0%nat) = 32%nat ->
  CreateSessionForGoogle race clk rng keys nonce binding identity zone d = Ok (session, d') ->
  ses_Token session <> "".
Proof.
  intros Hrace Hl (user & [])%CreateSessionForGoogle_ok; [|done]. rewrite lg_result. simpl. intros He.
  pose proof (newOpaqueToken_valid _ Hl) as Hv. by rewrite He in Hv.
Qed.

(** A login opens a session: the cookie of a successful login, sent within a day with
    [GET /session], is answered with the same user, family and CSRF token. *)
Theorem login_opens_session handler env request d h cookies env' request' c :
  auth_inv d -> (forall n d, accounts_only d (en_race env n d)) ->
  (forall k s, sessions (auth d) !! k = Some s ->
     us_session_family_id s <> newAuthUUID (en_rng env 1%nat)) ->
  length (en_rng env 0%nat) = 32%nat ->
  rq_Method request = "POST" -> rq_Path request = "/api/v1/auth/google" ->
  let s := ServeHTTP handler env request d in
  hs_sent s = [(200, h, cookies)] ->
  c ∈ cookies -> ck_Name c = sessionCookieName (ha_config handler) ->
  rq_Method request' = "GET" -> rq_Path request' = "/api/v1/session" ->
  request_header request' "Origin" = "" ->
  request_cookie (sessionCookieName (ha_config handler)) request' = Some (ck_Value c) ->
  (forall n, en_clk env 2%nat <= en_auth_clk env' n < en_clk env 2%nat + pg_interval sessionRotationAge) ->
  exists session session' h', hs_body s = [PJson (sessionJSON session)] /\
    hs_sent (ServeHTTP handler env' request' (hs_db s)) = [(200, h', [])] /\
    hs_body (ServeHTTP handler env' request' (hs_db s)) = [PJson (sessionJSON session')] /\
    au_ID (ses_User session') = au_ID (ses_User session) /\
    ses_FamilyID session' = ses_FamilyID session /\ ses_CSRFToken session' = ses_CSRFToken session.
Proof.
  intros Hinv Hrace Hfam Hlen Hm Hp s Hs Hc Hcn Hm' Hp' Ho' Hck Hclk.
  pose proof (login_serves handler env request d Hm Hp) as Hout. fold s in Hout.
  destruct Hout as [(nonce & binding & identity & zone & session & h0 & Hl & Hck0 & Hs0 & Hb)|(_ & st & h0 & Hs0 & Hn)];
    rewrite Hs in Hs0; [|congruence].
  injection Hs0 as _ Hcc. rewrite Hck0 in Hcc. subst cookies.
  assert (ck_Value c = ses_Token session) as Hv.
  { rewrite !elem_of_cons, elem_of_nil in Hc. destruct Hc as [->|[->|[]]]; [done|].
    exfalso. revert Hcn. cbn. unfold bindingCookieName, sessionCookieName. by destruct (hc_SecureCookies _). }
  destruct (login_authenticates _ _ _ _ _ _ _ _ _ _ _ (en_auth_clk env') (en_auth_rng env') Hinv Hrace Hfam
    Hlen Hl Hclk) as (r' & d2 & Ha & Hu & Hf & _ & Ht & Hr & _).
  rewrite Hv in Hck.
  destruct (session_read handler env' request' (hs_db s) _ _ _ Hm' Hp' Ho' Hck
    (login_token_nonempty _ _ _ _ _ _ _ _ _ _ _ Hrace Hlen Hl) Ha Hr) as (h' & Hs' & Hb').
  by exists session, r', h'.
Qed.

(** A request that rotates its session but fails the CSRF test answers 403 without the
    new cookie: the browser keeps the replaced token, with which no ticket can be drawn
    again, in any later state. *)
Theorem rotation_lost_without_csrf handler env request d token session d1 :
  auth_inv d ->
  rq_Method request = "POST" -> rq_Path request = "/api/v1/auth/ws-ticket" ->
  request_header request "Origin" ∈ ha_origins handler ->
  request_cookie (sessionCookieName (ha_config handler)) request = Some token -> token <> "" ->
  AuthenticateSession (en_auth_clk env) (en_auth_rng env) (hc_Store (ha_config handler)) token d =
    Ok (session, d1) ->
  ses_Rotated session = true ->
  VerifyCSRF (hc_Store (ha_config handler)) session (request_header request "X-CSRF-Token") = false ->
  let s := ServeHTTP handler env request d in
  hs_db s = d1 /\ (exists h, hs_sent s = [(403, h, [])]) /\
  forall d2 clk rng presented, rtc session_step d1 d2 -> ses_Token presented = token ->
    IssueWebSocketTicket clk rng presented d2 = Err ErrSessionNotFound.
Proof.
  intros Hinv Hm Hp Ho Hc Hne Ha Hr Hcsrf s.
  assert (exists h h', ServeHTTP handler env request d =
    MkHttp d1 h' [] [(403, h', [])] [h] []) as (h & h' & Hs).
  { rewrite ServeHTTP_start, Hm, Hp.
    assert (route handler env request (TrimPrefix "/api/v1/auth/ws-ticket" "/api/v1") =
      createWebSocketTicket handler env request) as ->.
    { unfold route, only. rewrite Hm. reflexivity. }
    change (bool_decide ("POST" = "OPTIONS")) with false. cbv iota. unfold createWebSocketTicket.
    destruct (origin_state handler request (start_state env d) Ho) as (s1 & E1 & Hd1 & Hc1 & Hs1 & Hb1 & He1).
    rewrite (http_bind_some _ _ _ tt s1) by done.
    erewrite http_bind_none; [by do 2 eexists|].
    unfold authenticateSession. rewrite Hc. destruct token as [|x token]; [done|].
    erewrite http_bind_some; [|by rewrite call_state, Hd1; cbn [hs_db start_state]; rewrite Ha].
    cbv iota. rewrite Hcsrf. cbn [negb andb]. rewrite Hc1, Hs1, Hb1, He1. reflexivity. }
  subst s. rewrite Hs. split; [done|]. split; [by eexists|].
  intros d2 clk rng presented Hsteps Htok. by eapply (replaced_draws_no_ticket _ _ _ _ _ _ _ _ _ _ _ Hinv Ha).
Qed.

(** A preflight from an allowed origin is told that [GET], [POST] and [OPTIONS] are the
    methods, though trips and activities are changed by [PATCH] and [DELETE]. *)
Theorem preflight_methods handler env request d :
  rq_Method request = "OPTIONS" -> request_header request "Origin" ∈ ha_origins handler ->
  exists h, hs_sent (ServeHTTP handler env request d) = [(204, h, [])] /\
    header_values "Access-Control-Allow-Methods" h = ["GET, POST, OPTIONS"].
Proof.
  intros Hm Ho. rewrite ServeHTTP_start, Hm. change (bool_decide ("OPTIONS" = "OPTIONS")) with true. cbv iota.
  destruct (origin_state handler request (start_state env d) Ho) as (s1 & E1 & _ & Hc1 & Hs1 & _).
  unfold handleOptions. rewrite (http_bind_some _ _ _ tt s1) by done.
  exists (header_set "Access-Control-Expose-Headers" "ETag, X-Request-ID, X-LiveRoute-CSRF-Token"
    (header_set "Access-Control-Allow-Headers" "Content-Type, If-Match, Idempotency-Key, X-CSRF-Token"
      (header_set "Access-Control-Allow-Methods" "GET, POST, OPTIONS" (hs_header s1)))). split.
  - match goal with |- _ = [(204, ?h, [])] =>
      change (hs_sent s1 ++ [(204, h, hs_cookies s1)] = [(204, h, [])]) end. by rewrite Hc1, Hs1.
  - rewrite !header_values_set. reflexivity.
Qed.
End Session.
