(* ===== verification/HttpExamples.v ===== *)
(** * A history over HTTP

    A login, a session read back, a rotation lost to a wrong CSRF token, a refused login and
    a preflight, on a concrete server: the theorems on the HTTP interface applied. *)

From S2P Require Import Prelude GoLib Schema Tables Leases GoText SavedTables SavedMutations SavedFacts Execution SavedExamples Opaque Sessions SessionFacts SessionExamples Places PlaceExamples HttpText Google HttpApi HttpProps HttpSessions.

Section History.
#[local] Existing Instance pg_model.
#[local] Existing Instance ex_zones.
#[local] Existing Instance ex_http_json.

(** A server whose requests here touch no trip. *)
Definition ex_no_trips : @SavedServer pg_model := {|
  date_in s := if valid_local_date s then Some s else None;
  time_in s := if valid_local_time s then Some s else None;
  pg_format _ _ := None;
  trip_json _ := None;
  json_trip _ := None;
  transition_json _ := None;
  json_transition _ := None
|}.
#[local] Existing Instance ex_no_trips.

(** The nonce in a token's payload, and the login the body decodes to. *)
Definition ex_payload : TokenPayload := fun b => Some (string_of_bytes b).
#[local] Existing Instance ex_payload.
Definition ex_nonce : string := newOpaqueToken (ex_nonce_draw 0).
Definition ex_credential : string :=
  "header." +:+ EncodeToString (bytes_of_string ex_nonce) +:+ ".signature".
Definition ex_decode : HttpDecode := {|
  decode_activate _ := None;
  decode_activity _ := None;
  decode_update _ := None;
  decode_create _ := None;
  decode_coordinate _ := None;
  decode_token _ := None;
  decode_login _ := Some ((ex_credential, "Europe/Paris"), []);
  ParseMediaType s := Some s
|}.
#[local] Existing Instance ex_decode.

Definition ex_google_token : IDToken :=
  MkIDToken googleIssuer "1234" (Some 0) ex_nonce (Some (MkClaims "" "user@example.com" true "User")).
Definition ex_config (accepts : bool) : HTTPAuthConfig :=
  MkConfig ex_ring false None false false
    (Some (MkGoogleVerifier "client" (fun _ => if accepts then inl ex_google_token
                                               else inr (MkOidcError true "expired"))))
    ["http://localhost:5173"] false "http://localhost:5173".
Definition ex_handler (accepts : bool) : HTTPAuthHandler :=
  MkHandler (ex_config accepts) {["http://localhost:5173"]}.

Definition ex_env (day k : Z) : Env :=
  MkEnv 0 (Some (repeat Byte.x00 16)) (ex_at day) (ex_draw k) (ex_at day) (ex_draw k) ex_alone.

Definition ex_post (path : string) (cookies : list (string * string)) : Request :=
  MkRequest "POST" path "" [("Origin", "http://localhost:5173")] cookies 2 (bytes_of_string "{}") false.
Definition ex_login_request : Request :=
  ex_post "/api/v1/auth/google" [("liveroute_dev_oidc_binding", newOpaqueToken (ex_nonce_draw 1))].
Definition ex_session_request : Request :=
  MkRequest "GET" "/api/v1/session" "" [] [("liveroute_dev_session", ex_token)] 0 [] false.

#[local] Abbreviation ex_serve accepts day k request d :=
  (ServeHTTP (ex_handler accepts) (ex_env day k) request d).

(** The answer of a login that succeeds. *)
Definition ex_logged_in : HttpState := ex_serve true 0 1 ex_login_request ex_d1.
Definition is_login (sent : list (Z * list (string * string) * list Cookie)) : bool :=
  match sent with
  | [(status, _, c :: _)] =>
      (status =? 200) && bool_decide (ck_Name c = "liveroute_dev_session") &&
      bool_decide (ck_Value c = ex_token)
  | _ => false
  end.
Lemma ex_logged_in_runs : is_login (hs_sent ex_logged_in) = true.
Proof. vm_compute. reflexivity. Qed.

Lemma is_login_sent sent : is_login sent = true -> exists h c l,
  sent = [(200, h, c :: l)] /\ ck_Name c = "liveroute_dev_session" /\ ck_Value c = ex_token.
Proof.
  unfold is_login. intros Hx. repeat case_match; try discriminate Hx.
  apply andb_true_iff in Hx as [Hx Hv%bool_decide_eq_true].
  apply andb_true_iff in Hx as [Hs%Z.eqb_eq Hn%bool_decide_eq_true]. subst. by do 3 eexists.
Qed.

Lemma ex_clock_in_day (n : nat) :
  en_clk (ex_env 0 1) 2%nat <= ex_at 0 2 < en_clk (ex_env 0 1) 2%nat + pg_interval sessionRotationAge.
Proof. vm_compute. split; congruence. Qed.

Definition ex_read_env : Env :=
  MkEnv 0 (Some (repeat Byte.x00 16)) (fun _ => ex_at 0 2) (ex_draw 5) (ex_at 0) (ex_draw 5) ex_alone.

Lemma login_opens_session_witness : exists session session' h',
  hs_body ex_logged_in = [PJson (sessionJSON session)] /\
  hs_sent (ServeHTTP (ex_handler true) ex_read_env ex_session_request (hs_db ex_logged_in)) =
    [(200, h', [])] /\
  au_ID (ses_User session') = au_ID (ses_User session).
Proof.
  destruct (is_login_sent _ ex_logged_in_runs) as (h & c & l & Hs & Hn & Hv).
  destruct (login_opens_session (ex_handler true) (ex_env 0 1) ex_login_request ex_d1 h (c :: l) ex_read_env
    ex_session_request c ex_inv1 ex_alone_only (no_family_spec _ _ ex_d1_fresh) eq_refl eq_refl eq_refl Hs
    (list_elem_of_here _ _) Hn eq_refl eq_refl eq_refl) as (session & session' & h' & Hb & Hs' & _ & Hu & _).
  - rewrite Hv. reflexivity.
  - exact ex_clock_in_day.
  - exact (ex_intro _ session (ex_intro _ session' (ex_intro _ h' (conj Hb (conj Hs' Hu))))).
Defined.

(** A login Google does not vouch for. *)
Definition is_refused (status : Z) (sent : list (Z * list (string * string) * list Cookie)) : bool :=
  match sent with [(st, _, _)] => st =? status | _ => false end.
Lemma is_refused_sent status sent : is_refused status sent = true ->
  exists h cookies, sent = [(status, h, cookies)].
Proof.
  unfold is_refused. intros Hx. repeat case_match; try discriminate Hx. apply Z.eqb_eq in Hx. subst.
  by do 2 eexists.
Qed.
Lemma ex_refused_runs : is_refused 401 (hs_sent (ex_serve false 0 1 ex_login_request ex_d1)) = true.
Proof. vm_compute. reflexivity. Qed.

Lemma failed_login_keeps_binding_witness :
  exists h, hs_sent (ex_serve false 0 1 ex_login_request ex_d1) = [(401, h, [])].
Proof.
  destruct (is_refused_sent _ _ ex_refused_runs) as (h & cookies & Hs). exists h. rewrite Hs.
  rewrite (failed_login_keeps_binding (ex_handler false) (ex_env 0 1) ex_login_request ex_d1 401 h cookies
    eq_refl eq_refl Hs); [reflexivity|lia].
Defined.

(** A ticket asked for on the third day with a wrong CSRF token. *)
Definition ex_ticket_request : Request :=
  ex_post "/api/v1/auth/ws-ticket" [("liveroute_dev_session", ex_token)].
Lemma ex_origin_allowed accepts : "http://localhost:5173" ∈ ha_origins (ex_handler accepts).
Proof. cbn [ha_origins ex_handler]. by apply elem_of_singleton. Qed.

Lemma rotation_lost_without_csrf_witness :
  exists h, hs_sent (ex_serve true 2 2 ex_ticket_request ex_d2) = [(403, h, [])].
Proof.
  destruct (returns_ok _ _ _ ex_rotate_runs) as (session & Ha & Hf).
  apply andb_true_iff in Hf as [[Hr _]%andb_true_iff _].
  assert (Hcsrf : VerifyCSRF ex_ring session (request_header ex_ticket_request "X-CSRF-Token") = false).
  { unfold VerifyCSRF. by destruct (ring_key ex_ring (ses_CSRFKeyID session)). }
  exact (proj1 (proj2 (rotation_lost_without_csrf (ex_handler true) (ex_env 2 2) ex_ticket_request ex_d2
    ex_token session _ ex_inv2 eq_refl eq_refl (ex_origin_allowed true) eq_refl ltac:(vm_compute; discriminate)
    Ha Hr Hcsrf))).
Defined.

Definition ex_preflight : Request :=
  MkRequest "OPTIONS" "/api/v1/trips" "" [("Origin", "http://localhost:5173")] [] 0 [] false.
Lemma preflight_methods_witness : exists h,
  hs_sent (ex_serve true 0 1 ex_preflight ex_d0) = [(204, h, [])] /\
  header_values "Access-Control-Allow-Methods" h = ["GET, POST, OPTIONS"].
Proof. exact (preflight_methods (ex_handler true) (ex_env 0 1) ex_preflight ex_d0 eq_refl (ex_origin_allowed true)). Defined.

(** The login changes accounts and sessions only. *)
Lemma data_changes_authorised_witness :
  app_data (hs_db ex_logged_in) = app_data ex_d1 \/
  authorised (ex_handler true) (ex_env 0 1) ex_login_request ex_d1 = true /\
    rq_Method ex_login_request ∈ mutating_methods.
Proof.
  exact (data_changes_authorised (ex_handler true) (ex_env 0 1) ex_login_request ex_d1
    (fun n d => eq_refl)).
Defined.
End History.
