(* ===== verification/JsonText.v ===== *)
(** * JSON text

    What the backend uses of [encoding/json] on bytes: the encoding of a string
    ([json.Marshal]), the decoding of one, and [json.Decoder] read token by token
    ([Token], [More], [Decode]).  The scanner is [GoLib.JsonScan]. *)

From S2P Require Import Prelude GoLib.
From Stdlib.Strings Require Import Byte.

(** ** Runes *)

Definition RuneError : Z := 65533.

Definition within_range (lo hi c : Z) : bool := (lo <=? c) && (c <=? hi).

(** [utf8.DecodeRune]: the rune and the bytes after it; an invalid encoding is
    [RuneError] of width one. *)
Definition continuation (c : Z) : bool := within_range 128 191 c.

Definition DecodeRune (l : bytes) : option (Z * bytes) :=
  match l with
  | [] => None
  | a :: rest =>
      let x := byte_val a in
      let bad := Some (RuneError, rest) in
      if x <? 128 then Some (x, rest)
      else if within_range 194 223 x then
        match rest with
        | b :: rest' =>
            if continuation (byte_val b)
            then Some (Z.land x 31 * 64 + Z.land (byte_val b) 63, rest') else bad
        | [] => bad
        end
      else if within_range 224 239 x then
        match rest with
        | b :: c :: rest' =>
            let lo := if x =? 224 then 160 else 128 in
            let hi := if x =? 237 then 159 else 191 in
            if within_range lo hi (byte_val b) && continuation (byte_val c)
            then Some (Z.land x 15 * 4096 + Z.land (byte_val b) 63 * 64 + Z.land (byte_val c) 63, rest')
            else bad
        | _ => bad
        end
      else if within_range 240 244 x then
        match rest with
        | b :: c :: d :: rest' =>
            let lo := if x =? 240 then 144 else 128 in
            let hi := if x =? 244 then 143 else 191 in
            if within_range lo hi (byte_val b) && continuation (byte_val c) && continuation (byte_val d)
            then Some (Z.land x 7 * 262144 + Z.land (byte_val b) 63 * 4096 +
                       Z.land (byte_val c) 63 * 64 + Z.land (byte_val d) 63, rest')
            else bad
        | _ => bad
        end
      else bad
  end.

(** [utf8.AppendRune]. *)
Definition surrogate (r : Z) : bool := within_range 55296 57343 r.
Definition EncodeRune (r : Z) : bytes :=
  let r := if (r <? 0) || (1114111 <? r) || surrogate r then RuneError else r in
  if r <? 128 then [byte_of r]
  else if r <? 2048 then [byte_of (192 + r / 64); byte_of (128 + r mod 64)]
  else if r <? 65536 then
    [byte_of (224 + r / 4096); byte_of (128 + r / 64 mod 64); byte_of (128 + r mod 64)]
  else [byte_of (240 + r / 262144); byte_of (128 + r / 4096 mod 64);
        byte_of (128 + r / 64 mod 64); byte_of (128 + r mod 64)].

(** ** Writing a string *)

Definition hex_lower (n : Z) : Byte.byte := byte_of (if n <? 10 then 48 + n else 87 + n).

(** [\u] and four hexadecimal digits. *)
Definition unicode_escape (r : Z) : bytes :=
  [byte_of 92; byte_of 117; hex_lower (r / 4096 mod 16); hex_lower (r / 256 mod 16);
   hex_lower (r / 16 mod 16); hex_lower (r mod 16)].

(** A byte below 128, with [escapeHTML]. *)
Definition escape_ascii (c : Z) : bytes :=
  if (c =? 92) || (c =? 34) then [byte_of 92; byte_of c]
  else if c =? 8 then [byte_of 92; byte_of 98]
  else if c =? 12 then [byte_of 92; byte_of 102]
  else if c =? 10 then [byte_of 92; byte_of 110]
  else if c =? 13 then [byte_of 92; byte_of 114]
  else if c =? 9 then [byte_of 92; byte_of 116]
  else if (c <? 32) || (c =? 60) || (c =? 62) || (c =? 38) then unicode_escape c
  else [byte_of c].

Fixpoint escape (fuel : nat) (l : bytes) : bytes :=
  match fuel with
  | O => []
  | S fuel =>
      match DecodeRune l with
      | None => []
      | Some (r, rest) =>
          (if r <? 128 then escape_ascii r
           else if (r =? RuneError) && bool_decide (length rest + 1 = length l)%nat
                   || (r =? 8232) || (r =? 8233) then unicode_escape r
           else take (length l - length rest) l) ++ escape fuel rest
      end
  end.

(** [json.Marshal] of a string. *)
Definition json_quote (s : bytes) : bytes :=
  byte_of 34 :: escape (length s) s ++ [byte_of 34].

(** ** Reading a string *)

Definition hex_value (b : Byte.byte) : option Z :=
  let c := byte_val b in
  if within_range 48 57 c then Some (c - 48)
  else if within_range 97 102 c then Some (c - 87)
  else if within_range 65 70 c then Some (c - 55) else None.

(** [getu4]: [\uXXXX] at the front. *)
Definition getu4 (l : bytes) : option (Z * bytes) :=
  match l with
  | bs :: u :: a :: b :: c :: d :: rest =>
      if (byte_val bs =? 92) && (byte_val u =? 117) then
        a ← hex_value a; b ← hex_value b; c ← hex_value c; d ← hex_value d;
        Some (a * 4096 + b * 256 + c * 16 + d, rest)
      else None
  | _ => None
  end.

(** [utf16.DecodeRune]. *)
Definition surrogate_pair (r1 r2 : Z) : option Z :=
  if within_range 55296 56319 r1 && within_range 56320 57343 r2
  then Some ((r1 - 55296) * 1024 + (r2 - 56320) + 65536) else None.

Definition unescape_char (c : Z) : option Z :=
  if bool_decide (c ∈ [34; 92; 47; 39]) then Some c
  else if c =? 98 then Some 8
  else if c =? 102 then Some 12
  else if c =? 110 then Some 10
  else if c =? 114 then Some 13
  else if c =? 116 then Some 9 else None.

(** [unquoteBytes] between the quotes. *)
Fixpoint unescape (fuel : nat) (l : bytes) : option bytes :=
  match fuel with
  | O => match l with [] => Some [] | _ => None end
  | S fuel =>
      match l with
      | [] => Some []
      | a :: rest =>
          let c := byte_val a in
          if c =? 92 then
            match getu4 l with
            | Some (r, rest') =>
                let '(r, rest') :=
                  if surrogate r then
                    match r2 ← getu4 rest'; x ← surrogate_pair r r2.1; Some (x, r2.2) with
                    | Some (x, rest'') => (x, rest'')
                    | None => (RuneError, rest')
                    end
                  else (r, rest') in
                out ← unescape fuel rest'; Some (EncodeRune r ++ out)
            | None =>
                match rest with
                | b :: rest' =>
                    x ← unescape_char (byte_val b);
                    out ← unescape fuel rest'; Some (byte_of x :: out)
                | [] => None
                end
            end
          else if (c =? 34) || (c <? 32) then None
          else
            match DecodeRune l with
            | Some (r, rest') => out ← unescape fuel rest'; Some (EncodeRune r ++ out)
            | None => None
            end
      end
  end.

(** [unquote] of a literal with its quotes. *)
Definition unquote (l : bytes) : option bytes :=
  match l with
  | q :: rest =>
      if byte_val q =? 34 then
        match rev rest with
        | q' :: body => if byte_val q' =? 34 then unescape (length body) (rev body) else None
        | [] => None
        end
      else None
  | [] => None
  end.

Example quote_roundtrips :
  forallb (fun s => bool_decide (unquote (json_quote (bytes_of_string s)) = Some (bytes_of_string s)))
    [""; "plain"; "<a&b>"; "tab	and \ slash"] = true.
Proof. vm_compute. reflexivity. Qed.

(** ** [json.Decoder] *)

(** The decoder's [tokenState]. *)
Inductive token_state :=
| TopValue | ArrayStart | ArrayValue | ArrayComma
| ObjectStart | ObjectKey | ObjectColon | ObjectValue | ObjectComma.
#[global] Instance token_state_eq_dec : EqDecision token_state.
Proof. solve_decision. Defined.

Record Decoder := MkDecoder {
  de_input : bytes;
  de_state : token_state;
  de_stack : list token_state
}.
Definition NewDecoder (raw : bytes) : Decoder := MkDecoder raw TopValue [].

(** A scalar, as decoded into an [any] with [UseNumber]. *)
Inductive scalar := SNull | SBool (b : bool) | SNumber (text : bytes) | SString (s : bytes).
Inductive token := Delim (c : Z) | Scalar (v : scalar).

(** [EOF] is [io.EOF], every other error [Malformed]. *)
Inductive json_error := EOF | Malformed.

Fixpoint skip_space (l : bytes) : bytes :=
  match l with
  | b :: rest => if JsonScan.is_space (byte_val b) then skip_space rest else l
  | [] => []
  end.

(** [readValue]: the text of the next value and the input after it. *)
Definition value_ends (s : JsonScan.scan) : bool :=
  match JsonScan.step s 32 with Some (JsonScan.EndTop, _) => true | _ => false end.
Fixpoint read_value (s : JsonScan.scan) (input acc : bytes) : json_error + (bytes * bytes) :=
  match input with
  | [] => if JsonScan.eof s then inr (rev acc, [])
          else inl (if forallb (fun b => JsonScan.is_space (byte_val b)) acc then EOF else Malformed)
  | b :: rest =>
      match JsonScan.step s (byte_val b) with
      | Some (JsonScan.EndTop, stack) =>
          if bool_decide (s.2 = []) then inr (rev acc, input) else inr (rev (b :: acc), rest)
      | Some s' => read_value s' rest (b :: acc)
      | None => if value_ends s then inr (rev acc, input) else inl Malformed
      end
  end.

Definition tokenValueAllowed (s : token_state) : bool :=
  match s with TopValue | ArrayStart | ArrayValue | ObjectValue => true | _ => false end.
Definition tokenValueEnd (s : token_state) : token_state :=
  match s with
  | ArrayStart | ArrayValue => ArrayComma
  | ObjectValue => ObjectComma
  | _ => s
  end.

(** [tokenPrepareForDecode]. *)
Definition tokenPrepareForDecode (d : Decoder) : json_error + Decoder :=
  let expect c next :=
    match skip_space (de_input d) with
    | [] => inl EOF
    | b :: rest => if byte_val b =? c then inr (MkDecoder rest next (de_stack d)) else inl Malformed
    end in
  match de_state d with
  | ArrayComma => expect 44 ArrayValue
  | ObjectColon => expect 58 ObjectValue
  | _ => inr d
  end.

(** [Decode] as far as the text of the value. *)
Definition decode_text (d : Decoder) : json_error + (bytes * Decoder) :=
  match tokenPrepareForDecode d with
  | inl e => inl e
  | inr d =>
      if tokenValueAllowed (de_state d) then
        match read_value (JsonScan.BeginValue, []) (de_input d) [] with
        | inl e => inl e
        | inr (text, rest) =>
            inr (skip_space text, MkDecoder rest (tokenValueEnd (de_state d)) (de_stack d))
        end
      else inl Malformed
  end.

(** The literal a text that starts no array and no object is. *)
Definition literal_value (text : bytes) : option scalar :=
  match text with
  | [] => None
  | b :: _ =>
      let c := byte_val b in
      if c =? 34 then SString <$> unquote text
      else if c =? 116 then Some (SBool true)
      else if c =? 102 then Some (SBool false)
      else if c =? 110 then Some SNull
      else Some (SNumber text)
  end.

(** [Decode(&s)] of a string variable: [null] leaves it as it is. *)
Definition decode_string (d : Decoder) (old : bytes) : json_error + (bytes * Decoder) :=
  match decode_text d with
  | inl e => inl e
  | inr (text, d') =>
      match literal_value text with
      | Some (SString s) => inr (s, d')
      | Some SNull => inr (old, d')
      | _ => inl Malformed
      end
  end.

Definition push_token (next : token_state) (c : Z) (rest : bytes) (d : Decoder)
  : json_error + (token * Decoder) :=
  if tokenValueAllowed (de_state d)
  then inr (Delim c, MkDecoder rest next (de_state d :: de_stack d)) else inl Malformed.

Definition pop_token (s1 s2 : token_state) (c : Z) (rest : bytes) (d : Decoder)
  : json_error + (token * Decoder) :=
  if bool_decide (de_state d = s1) || bool_decide (de_state d = s2) then
    match de_stack d with
    | s :: stack => inr (Delim c, MkDecoder rest (tokenValueEnd s) stack)
    | [] => inl Malformed
    end
  else inl Malformed.

(** A scalar where a value is allowed, or the name of a member. *)
Definition scalar_token (d : Decoder) (after : token_state) : json_error + (token * Decoder) :=
  match read_value (JsonScan.BeginValue, []) (de_input d) [] with
  | inl e => inl e
  | inr (text, rest) =>
      match literal_value (skip_space text) with
      | Some v => inr (Scalar v, MkDecoder rest after (de_stack d))
      | None => inl Malformed
      end
  end.

(** [Token]; the fuel counts the separators skipped. *)
Fixpoint token_loop (fuel : nat) (d : Decoder) : json_error + (token * Decoder) :=
  match fuel with
  | O => inl Malformed
  | S fuel =>
      match skip_space (de_input d) with
      | [] => inl EOF
      | b :: rest =>
          let c := byte_val b in
          let again next := token_loop fuel (MkDecoder rest next (de_stack d)) in
          if c =? 91 then push_token ArrayStart c rest d
          else if c =? 93 then pop_token ArrayStart ArrayComma c rest d
          else if c =? 123 then push_token ObjectStart c rest d
          else if c =? 125 then pop_token ObjectStart ObjectComma c rest d
          else if c =? 58 then
            if bool_decide (de_state d = ObjectColon) then again ObjectValue else inl Malformed
          else if c =? 44 then
            match de_state d with
            | ArrayComma => again ArrayValue
            | ObjectComma => again ObjectKey
            | _ => inl Malformed
            end
          else if (c =? 34) && (bool_decide (de_state d = ObjectStart) || bool_decide (de_state d = ObjectKey))
          then scalar_token d ObjectColon
          else if tokenValueAllowed (de_state d)
          then scalar_token d (tokenValueEnd (de_state d))
          else inl Malformed
      end
  end.
Definition Token (d : Decoder) : json_error + (token * Decoder) :=
  token_loop (S (length (de_input d))) d.

(** [More]. *)
Definition More (d : Decoder) : bool :=
  match skip_space (de_input d) with
  | [] => false
  | b :: _ => negb ((byte_val b =? 93) || (byte_val b =? 125))
  end.
