(* ===== verification/PlannerMessages.v ===== *)
(** * Messages of the planner stream

    The messages of [proto/liveroute/v1/planner.proto] as the Go code sees them: an
    enum is its number, a message field that can be absent an [option], a [oneof]
    an inductive type.  Field names carry a prefix for the message.  The generated
    marshalling code is the class [PlannerProto]. *)

From S2P Require Import Prelude GoLib Schema.
From Stdlib Require Import SpecFloat.

(** ** Enums *)

Definition STATUS_CODE_UNSPECIFIED : Z := 0.
Definition STATUS_CODE_OK : Z := 1.
Definition STATUS_CODE_DUPLICATE : Z := 2.
Definition STATUS_CODE_STALE : Z := 3.
Definition STATUS_CODE_INVALID_ARGUMENT : Z := 4.
Definition STATUS_CODE_NOT_FOUND : Z := 7.
Definition STATUS_CODE_COMMAND_EXPIRED : Z := 12.
Definition STATUS_CODE_INFEASIBLE : Z := 14.
Definition STATUS_CODE_SNAPSHOT_NOT_READY : Z := 19.

(** [StatusCode_name]: the names in the order of their numbers. *)
Definition status_names : list string :=
  ["STATUS_CODE_UNSPECIFIED"; "STATUS_CODE_OK"; "STATUS_CODE_DUPLICATE"; "STATUS_CODE_STALE";
   "STATUS_CODE_INVALID_ARGUMENT"; "STATUS_CODE_UNAUTHENTICATED"; "STATUS_CODE_PERMISSION_DENIED";
   "STATUS_CODE_NOT_FOUND"; "STATUS_CODE_IDEMPOTENCY_KEY_REUSED"; "STATUS_CODE_INACTIVE_TRIP";
   "STATUS_CODE_RESOURCE_EXHAUSTED"; "STATUS_CODE_DEADLINE_EXCEEDED"; "STATUS_CODE_COMMAND_EXPIRED";
   "STATUS_CODE_CANCELLED"; "STATUS_CODE_INFEASIBLE"; "STATUS_CODE_PROVIDER_UNAVAILABLE";
   "STATUS_CODE_DURABILITY_UNAVAILABLE"; "STATUS_CODE_UNAVAILABLE"; "STATUS_CODE_UNSUPPORTED_VERSION";
   "STATUS_CODE_SNAPSHOT_NOT_READY"; "STATUS_CODE_SNAPSHOT_INCOMPATIBLE"; "STATUS_CODE_INTERNAL";
   "STATUS_CODE_MATRIX_TOO_LARGE"].

Definition STALE_REASON_PLAN_PROPOSAL : Z := 6.

Definition EVENT_DISPOSITION_UNSPECIFIED : Z := 0.
Definition EVENT_DISPOSITION_ACCEPTED : Z := 1.
Definition EVENT_DISPOSITION_DUPLICATE : Z := 2.
Definition EVENT_DISPOSITION_STALE : Z := 3.

Definition TRAVEL_MODE_WALKING : Z := 1.
Definition TRAVEL_MODE_DRIVING : Z := 2.
Definition ACTIVITY_CLASS_FIXED : Z := 1.
Definition ACTIVITY_CLASS_FLEXIBLE : Z := 2.

Definition ACTIVITY_STATE_UNSPECIFIED : Z := 0.
Definition ACTIVITY_STATE_PLANNED : Z := 1.
Definition ACTIVITY_STATE_STARTED : Z := 2.
Definition ACTIVITY_STATE_COMPLETED : Z := 3.
Definition ACTIVITY_STATE_SKIPPED : Z := 4.

Definition PLAN_DECISION_ACCEPT : Z := 1.
Definition PLAN_DECISION_REJECT : Z := 2.

Definition SEGMENT_DISPOSITION_PRESERVED : Z := 1.
Definition SEGMENT_DISPOSITION_MOVED : Z := 2.
Definition SEGMENT_DISPOSITION_SHORTENED : Z := 3.
Definition SEGMENT_DISPOSITION_SKIPPED : Z := 4.
Definition SEGMENT_DISPOSITION_ADDED : Z := 5.

Definition NOTIFICATION_TYPE_UNSPECIFIED : Z := 0.
Definition NOTIFICATION_TYPE_INFEASIBLE_SCHEDULE : Z := 5.
Definition PLAN_REASON_CODE_UNSPECIFIED : Z := 0.
Definition PLAN_REASON_CODE_NO_FEASIBLE_PLAN : Z := 10.
Definition PLAN_QUALITY_COMPLETE : Z := 1.
Definition PLAN_QUALITY_BEST_SO_FAR : Z := 2.
Definition PLAN_QUALITY_NO_NEW_PROPOSAL : Z := 3.
Definition ROUTING_QUALITY_UNSPECIFIED : Z := 0.
Definition RECOVERY_STATE_UNSPECIFIED : Z := 0.
Definition SNAPSHOT_REASON_PERIODIC : Z := 1.
Definition SNAPSHOT_REASON_SHUTDOWN : Z := 4.

(** ** Trips and plans *)

Record PbLocation := MkPbLocation { lo_latitude : spec_float; lo_longitude : spec_float }.
Record PbTimeWindow := MkPbTimeWindow { tw_opens_at_unix_ms : Z; tw_closes_at_unix_ms : Z }.

Record ActivityTiming := MkActivityTiming {
  ti_open_windows : list PbTimeWindow;
  ti_reservation_start_unix_ms : option Z;
  ti_reservation_grace_seconds : Z;
  ti_min_duration_seconds : Z;
  ti_preferred_duration_seconds : Z;
  ti_max_duration_seconds : Z;
  ti_mandatory : bool;
  ti_can_shorten : bool;
  ti_can_move : bool;
  ti_can_skip : bool;
  ti_mandatory_deadline_unix_ms : option Z
}.

Record PbActivity := MkPbActivity {
  pa_activity_id : string;
  pa_place_id : string;
  pa_display_name : string;
  pa_location : option PbLocation;
  pa_time_zone_name : string;
  pa_inbound_travel_mode : Z;
  pa_activity_class : Z;
  pa_activity_state : Z;
  pa_priority_rank : Z;
  pa_utility_score : Z;
  pa_timing : option ActivityTiming;
  pa_activity_delay_seconds : Z;
  pa_found_closed_at_unix_ms : option Z
}.

Record TravelDelayState := MkTravelDelayState {
  ts_from_activity_id : string;
  ts_to_activity_id : string;
  ts_additional_seconds : Z;
  ts_observed_at_unix_ms : Z
}.

Record TripDefinition := MkTripDefinition {
  td_trip_id : string;
  td_owner_user_id : string;
  td_default_time_zone_name : string;
  td_activities : list PbActivity;
  td_completed_prefix_count : Z;
  td_current_activity_id : string;
  td_current_plan_id : string;
  td_travel_delays : list TravelDelayState
}.

Record PbPlanSegment := MkPbPlanSegment {
  gs_activity_id : string;
  gs_state : Z;
  gs_scheduled_start_unix_ms : option Z;
  gs_scheduled_end_unix_ms : option Z
}.

Record PbCurrentPlan := MkPbCurrentPlan {
  gp_plan_id : string;
  gp_plan_revision : Z;
  gp_origin : Z;
  gp_segments : list PbPlanSegment;
  gp_created_at_unix_ms : Z;
  gp_source_proposal_id : option string
}.

Record RouteLeg := MkRouteLeg {
  rg_duration_seconds : Z; rg_distance_meters : Z; rg_reachable : bool
}.

Record ProposalSegment := MkProposalSegment {
  sg_activity_id : string;
  sg_location : option PbLocation;
  sg_time_zone_name : string;
  sg_scheduled_start_unix_ms : option Z;
  sg_scheduled_end_unix_ms : option Z;
  sg_inbound_route : option RouteLeg;
  sg_disposition : Z;
  sg_reasons : list Z
}.

Record PlanProposal := MkPlanProposal {
  pl_proposal_id : string;
  pl_source_runtime_epoch : Z;
  pl_source_planner_state_version : Z;
  pl_base_current_plan_id : string;
  pl_source_trip_revision : Z;
  pl_source_accepted_mutation_sequence : Z;
  pl_preserved_prefix : list ProposalSegment;
  pl_revised_suffix : list ProposalSegment;
  pl_created_at_unix_ms : Z
}.

Record PlannerStats := MkPlannerStats {
  st_candidates_evaluated : Z;
  st_candidates_pruned : Z;
  st_search_depth : Z;
  st_queue_wait_microseconds : Z;
  st_provider_microseconds : Z;
  st_planner_microseconds : Z;
  st_serialization_microseconds : Z;
  st_deadline_hit : bool
}.

Record ResultQuality := MkResultQuality {
  ql_plan_quality : Z; ql_routing_quality : Z; ql_recovery_state : Z
}.

Record StoredPlanProposal := MkStoredPlanProposal {
  sp_proposal : option PlanProposal;
  sp_notification : Z;
  sp_reasons : list Z;
  sp_stats : option PlannerStats;
  sp_quality : option ResultQuality
}.

(** ** Events *)

Record PlanDecisionEvent := MkPlanDecisionEvent {
  pv_decision : Z;
  pv_proposal_id : string;
  pv_source_runtime_epoch : Z;
  pv_source_planner_state_version : Z;
  pv_base_current_plan_id : string;
  pv_resulting_current_plan : option PbCurrentPlan
}.

Inductive TripEditOperation :=
| OperationAdd (activity : option PbActivity) (ordinal : Z)
| OperationReplace (activity : option PbActivity)
| OperationRemove (activity_id : string)
| OperationReorder (activity_ids : list string).

Inductive TripEvent :=
| LocationUpdated (location : option PbLocation)
| VelocityUpdated (meters_per_second : spec_float)
| HeadingUpdated (degrees : spec_float)
| ActivityStatusChanged (activity_id : string) (state : Z)
| ActivityDelayed (activity_id : string) (delay_seconds : Z)
| TripEdited (operation : option TripEditOperation) (resulting_current_plan : option PbCurrentPlan)
| ReservationChanged (activity_id : string) (reservation_start_unix_ms : option Z)
    (reservation_grace_seconds : Z)
| MandatoryDeadlineChanged (activity_id : string) (latest_finish_unix_ms : Z)
| RouteDeviationDetected (location : option PbLocation) (distance_from_route_meters : Z)
| OperatingHoursChanged (activity_id : string) (open_windows : list PbTimeWindow)
| PlaceFoundClosed (activity_id : string) (observed_at_unix_ms : Z)
| TravelDelay (from_activity_id to_activity_id : string) (additional_seconds : Z)
| PlanDecided (decision : PlanDecisionEvent)
| AdvisoryUpdate (kind : Z) (source : string) (opaque_payload : bytes)
| CurrentPlanReplaced (current_plan : option PbCurrentPlan).

Record ApplyTripEvent := MkApplyTripEvent {
  ev_event_id : string;
  ev_occurred_at_unix_ms : Z;
  ev_command_expires_at_unix_ms : option Z;
  ev_event : option TripEvent
}.

#[local] Instance pb_float_eq_dec : EqDecision spec_float.
Proof. solve_decision. Defined.
#[local] Instance PbLocation_eq_dec : EqDecision PbLocation.
Proof. solve_decision. Defined.
#[local] Instance PbTimeWindow_eq_dec : EqDecision PbTimeWindow.
Proof. solve_decision. Defined.
#[local] Instance ActivityTiming_eq_dec : EqDecision ActivityTiming.
Proof. solve_decision. Defined.
#[local] Instance PbActivity_eq_dec : EqDecision PbActivity.
Proof. solve_decision. Defined.
#[local] Instance PbPlanSegment_eq_dec : EqDecision PbPlanSegment.
Proof. solve_decision. Defined.
#[local] Instance PbCurrentPlan_eq_dec : EqDecision PbCurrentPlan.
Proof. solve_decision. Defined.
#[local] Instance PlanDecisionEvent_eq_dec : EqDecision PlanDecisionEvent.
Proof. solve_decision. Defined.
#[local] Instance TripEditOperation_eq_dec : EqDecision TripEditOperation.
Proof. solve_decision. Defined.
#[local] Instance TripEvent_eq_dec : EqDecision TripEvent.
Proof. solve_decision. Defined.
#[global] Instance ApplyTripEvent_eq_dec : EqDecision ApplyTripEvent.
Proof. solve_decision. Defined.

(** [GetPlanDecision]. *)
Definition GetPlanDecision (event : ApplyTripEvent) : option PlanDecisionEvent :=
  match ev_event event with Some (PlanDecided d) => Some d | _ => None end.

(** ** Requests *)

Record PbSnapshotBlob := MkPbSnapshotBlob {
  bl_snapshot_schema_version : Z;
  bl_source_runtime_epoch : Z;
  bl_source_planner_state_version : Z;
  bl_trip_revision : Z;
  bl_covered_finalized_mutation_sequence : Z;
  bl_payload_size_bytes : Z;
  bl_checksum_sha256 : bytes;
  bl_payload : bytes
}.

Inductive BootstrapBase := BaseSnapshot (b : PbSnapshotBlob) | BaseFullTrip (t : TripDefinition).

(** [BootstrapTrip] without the observation the backend never sends. *)
Record BootstrapTrip := MkBootstrapTrip {
  bt_base : BootstrapBase;
  bt_finalized_mutation_sequence : Z;
  bt_trip_revision : Z;
  bt_current_plan : option PbCurrentPlan
}.

Record RequestSnapshot := MkRequestSnapshot {
  rs_reason : Z;
  rs_minimum_finalized_mutation_sequence : Z;
  rs_minimum_planner_state_version : Z
}.

Inductive RequestPayload :=
| AskBootstrap (b : BootstrapTrip)
| AskApply (e : ApplyTripEvent)
| AskSnapshot (r : RequestSnapshot)
| AskConfirm (finalized_mutation_sequence : Z).

Record PlannerStreamRequest := MkPlannerStreamRequest {
  pq_request_id : string;
  pq_trip_id : string;
  pq_runtime_epoch : Z;
  pq_mutation_sequence : Z;
  pq_observation_sequence : Z;
  pq_expected_planner_state_version : option Z;
  pq_expires_at_unix_ms : Z;
  pq_expected_trip_revision : option Z;
  pq_payload : RequestPayload
}.

(** ** Responses *)

Record EventAcknowledged := MkEventAcknowledged {
  ea_disposition : Z;
  ea_status : Z;
  ea_retryable : bool;
  ea_stale_reason : Z;
  ea_event_id : string;
  ea_resolved_mutation_sequence : Z;
  ea_resolved_observation_sequence : Z;
  ea_replan_scheduled : bool;
  ea_safe_message : string;
  ea_resulting_current_plan_id : string
}.

Record ReplanResult := MkReplanResult {
  re_status : Z;
  re_retryable : bool;
  re_proposal : option PlanProposal;
  re_notification : Z;
  re_reasons : list Z;
  re_stats : option PlannerStats;
  re_quality : option ResultQuality;
  re_safe_message : string
}.

Record PlannerError := MkPlannerError { pe_status : Z; pe_retryable : bool; pe_safe_message : string }.

Record TripSnapshot := MkTripSnapshot {
  sn_status : Z; sn_retryable : bool; sn_snapshot : option PbSnapshotBlob
}.

Record FinalizedMutationsAcknowledged := MkFinalizedAck {
  ma_status : Z; ma_retryable : bool; ma_finalized_mutation_sequence : Z
}.

Record TripBootstrapped := MkTripBootstrapped {
  tb_status : Z;
  tb_retryable : bool;
  tb_current_plan_id : string;
  tb_accepted_mutation_sequence : Z;
  tb_finalized_mutation_sequence : Z;
  tb_safe_message : string
}.

(** The payloads the backend reads; [OtherPayload] stands for the rest of the
    [oneof] and for an unset one. *)
Inductive ResponsePayload :=
| EventAcknowledgedPayload (a : EventAcknowledged)
| ReplanResultPayload (r : ReplanResult)
| TripSnapshotPayload (s : TripSnapshot)
| ErrorPayload (e : PlannerError)
| FinalizedPayload (a : FinalizedMutationsAcknowledged)
| TripBootstrappedPayload (b : TripBootstrapped)
| OtherPayload.

Record PlannerStreamResponse := MkPlannerStreamResponse {
  ps_request_id : string;
  ps_trip_id : string;
  ps_runtime_epoch : Z;
  ps_accepted_mutation_sequence : Z;
  ps_accepted_observation_sequence : Z;
  ps_planner_state_version : Z;
  ps_trip_revision : Z;
  ps_payload : ResponsePayload
}.

Definition GetEventAcknowledged (r : PlannerStreamResponse) : option EventAcknowledged :=
  match ps_payload r with EventAcknowledgedPayload a => Some a | _ => None end.
Definition GetReplanResult (r : PlannerStreamResponse) : option ReplanResult :=
  match ps_payload r with ReplanResultPayload a => Some a | _ => None end.
Definition GetTripSnapshot (r : PlannerStreamResponse) : option TripSnapshot :=
  match ps_payload r with TripSnapshotPayload a => Some a | _ => None end.
Definition GetError (r : PlannerStreamResponse) : option PlannerError :=
  match ps_payload r with ErrorPayload a => Some a | _ => None end.
Definition GetFinalizedMutationsAcknowledged (r : PlannerStreamResponse)
  : option FinalizedMutationsAcknowledged :=
  match ps_payload r with FinalizedPayload a => Some a | _ => None end.
Definition GetTripBootstrapped (r : PlannerStreamResponse) : option TripBootstrapped :=
  match ps_payload r with TripBootstrappedPayload a => Some a | _ => None end.

(** ** Marshalling *)

(** The deterministic marshalling of the generated code, and its inverse.  A
    snapshot is decoded as far as its current plan. *)
Class PlannerProto := {
  MarshalEvent : ApplyTripEvent -> option bytes;
  UnmarshalEvent : bytes -> option ApplyTripEvent;
  MarshalProposal : StoredPlanProposal -> option bytes;
  UnmarshalSnapshotPlan : bytes -> option (option PbCurrentPlan);
  UnmarshalPlan : bytes -> option PbCurrentPlan
}.

(** What is relied on: marshalled bytes read back. *)
Class PlannerProtoLaws (PP : PlannerProto) : Prop := {
  event_reads_back : forall e b, MarshalEvent e = Some b -> UnmarshalEvent b = Some e
}.
