(* ===== verification/StoredEvent.v ===== *)
(** * Stored planner events

    Models [plannerwire/stored_event.go]: the JSON envelope in which the outbox keeps
    an event, the base64 text of its deterministic protobuf bytes. *)

From S2P Require Import Prelude GoLib Schema Tables Opaque JsonText PlannerMessages.
From Stdlib.Strings Require Import Byte.

(** ** [base64.StdEncoding] *)

(** The two characters in which the standard alphabet differs. *)
Definition std_char (b : Byte.byte) : Byte.byte :=
  if byte_val b =? 45 then byte_of 43 else if byte_val b =? 95 then byte_of 47 else b.
Definition url_char (b : Byte.byte) : option Byte.byte :=
  if byte_val b =? 43 then Some (byte_of 45)
  else if byte_val b =? 47 then Some (byte_of 95)
  else if (byte_val b =? 45) || (byte_val b =? 95) then None else Some b.

Definition padding (n : nat) : bytes :=
  match (n mod 4)%nat with 2%nat => [byte_of 61; byte_of 61] | 3%nat => [byte_of 61] | _ => [] end.

Definition std_encode (l : bytes) : bytes :=
  let groups := List.map (fun n => std_char (enc_char n)) (sextets l) in
  groups ++ padding (length groups).

(** The groups before the padding; the padding must fill up the last four. *)
Fixpoint split_padding (l : bytes) : bytes * bytes :=
  match l with
  | b :: rest =>
      if byte_val b =? 61 then ([], l)
      else let '(groups, pad) := split_padding rest in (b :: groups, pad)
  | [] => ([], [])
  end.

(** The bits a strict decoder requires to be zero. *)
Definition trailing_bits (groups : list Z) : Z :=
  match (length groups mod 4)%nat with
  | 2%nat => List.last groups 0 mod 16
  | 3%nat => List.last groups 0 mod 4
  | _ => 0
  end.

(** [base64.StdEncoding.Strict().DecodeString]: line breaks are skipped. *)
Definition std_decode (text : bytes) : option bytes :=
  let '(chars, pad) := split_padding (List.filter (fun b => negb (is_newline b)) text) in
  if bool_decide (pad = padding (length chars)) then
    groups ← mapM (fun b => url ← url_char b; dec_char url) chars;
    if trailing_bits groups =? 0 then octets groups else None
  else None.

(** ** The envelope *)

Definition StoredEventFormat : string := "liveroute.v1.ApplyTripEvent/protobuf;version=1".

Record storedEventEnvelope := MkEnvelope { se_Format : bytes; se_ProtobufBase64 : bytes }.

(** [json.Marshal] of the envelope. *)
Definition envelope_text (e : storedEventEnvelope) : bytes :=
  bytes_of_string "{" ++ json_quote (bytes_of_string "format") ++ bytes_of_string ":" ++
  json_quote (se_Format e) ++ bytes_of_string "," ++
  json_quote (bytes_of_string "protobuf_base64") ++ bytes_of_string ":" ++
  json_quote (se_ProtobufBase64 e) ++ bytes_of_string "}".

(** The loop over the members; the fuel is the input's length. *)
Fixpoint envelope_members (fuel : nat) (d : Decoder) (seen : list bytes) (e : storedEventEnvelope)
  : option (Decoder * list bytes * storedEventEnvelope) :=
  if More d then
    match fuel with
    | O => None
    | S fuel =>
        match Token d with
        | inr (Scalar (SString name), d) =>
            if bool_decide (name ∈ seen) then None
            else if bool_decide (name = bytes_of_string "format") then
              match decode_string d (se_Format e) with
              | inr (v, d) => envelope_members fuel d (name :: seen) (MkEnvelope v (se_ProtobufBase64 e))
              | inl _ => None
              end
            else if bool_decide (name = bytes_of_string "protobuf_base64") then
              match decode_string d (se_ProtobufBase64 e) with
              | inr (v, d) => envelope_members fuel d (name :: seen) (MkEnvelope (se_Format e) v)
              | inl _ => None
              end
            else None
        | _ => None
        end
    end
  else Some (d, seen, e).

Definition decodeEnvelope (payload : bytes) : option storedEventEnvelope :=
  match Token (NewDecoder payload) with
  | inr (Delim c, d) =>
      if c =? 123 then
        m ← envelope_members (length payload) d [] (MkEnvelope [] []);
        let '(d, seen, e) := m in
        match Token d with
        | inl _ => None
        | inr (_, d) =>
            match Token d with
            | inl EOF =>
                if bool_decide (bytes_of_string "format" ∈ seen) &&
                   bool_decide (bytes_of_string "protobuf_base64" ∈ seen)
                then Some e else None
            | _ => None
            end
        end
      else None
  | _ => None
  end.

Section StoredEvent.
Context {PP : PlannerProto}.

Definition validateEvent (event : ApplyTripEvent) : bool :=
  negb (bool_decide (ev_event_id event = "") || (ev_occurred_at_unix_ms event <=? 0) ||
        is_null (ev_event event)).

Definition EncodeStoredEvent (event : ApplyTripEvent) : result bytes :=
  _ ← reject_if (negb (validateEvent event)) (ErrInvalid "stored planner event is incomplete");
  wire ← of_option (MarshalEvent event) (ErrInvalid "marshal planner event");
  Ok (envelope_text (MkEnvelope (bytes_of_string StoredEventFormat) (std_encode wire))).

Definition DecodeStoredEvent (payload : bytes) : result ApplyTripEvent :=
  envelope ← of_option (decodeEnvelope payload) (ErrInvalid "stored planner event object");
  _ ← reject_if (negb (bool_decide (se_Format envelope = bytes_of_string StoredEventFormat)))
        (ErrInvalid "unsupported stored planner event format");
  wire ← of_option (std_decode (se_ProtobufBase64 envelope))
           (ErrInvalid "stored planner event base64 is not canonical");
  _ ← reject_if (negb (bool_decide (std_encode wire = se_ProtobufBase64 envelope)))
        (ErrInvalid "stored planner event base64 is not canonical");
  event ← of_option (UnmarshalEvent wire) (ErrInvalid "decode stored planner event protobuf");
  _ ← reject_if (negb (bool_decide (MarshalEvent event = Some wire)))
        (ErrInvalid "stored planner event protobuf is not canonical");
  _ ← reject_if (negb (validateEvent event)) (ErrInvalid "stored planner event is incomplete");
  Ok event.
End StoredEvent.

Example envelope_reads_back :
  let e := MkEnvelope (bytes_of_string StoredEventFormat) (std_encode (bytes_of_string "ab>?~")) in
  decodeEnvelope (envelope_text e) = Some e /\
  std_decode (se_ProtobufBase64 e) = Some (bytes_of_string "ab>?~").
Proof. vm_compute. done. Qed.

(** ** Stored planner events read back

    What [EncodeStoredEvent] writes is valid JSON, and [DecodeStoredEvent] reads the
    event from it again. *)

(** ** Plain text *)

(** A character that stands for itself in a JSON string. *)
Definition plain (b : Byte.byte) : Prop :=
  32 <= byte_val b < 128 /\ byte_val b <> 34 /\ byte_val b <> 92 /\ byte_val b <> 60 /\ byte_val b <> 62 /\
  byte_val b <> 38.

Definition q : Byte.byte := Byte.x22.

Lemma escape_plain l n : (length l <= n)%nat -> Forall plain l -> escape n l = l.
Proof.
  revert n. induction l as [|b l IH]; intros n Hn Hl; [by destruct n|].
  apply Forall_cons in Hl as [(Hb & H1 & H2 & H3 & H4 & H5) Hl]. simpl in Hn. destruct n as [|n]; [lia|].
  cbn [escape DecodeRune]. rewrite (proj2 (Z.ltb_lt (byte_val b) 128)) by lia. cbn iota beta.
  rewrite (proj2 (Z.ltb_lt (byte_val b) 128)) by lia.
  unfold escape_ascii. rewrite !(proj2 (Z.eqb_neq _ _)), (proj2 (Z.ltb_ge _ _)) by lia.
  cbn [orb]. rewrite IH by (done || lia). by rewrite byte_of_val.
Qed.

Lemma quote_plain l : Forall plain l -> json_quote l = q :: l ++ [q].
Proof. intros H. unfold json_quote. by rewrite escape_plain. Qed.

Lemma unescape_plain l n : (length l <= n)%nat -> Forall plain l -> unescape n l = Some l.
Proof.
  revert n. induction l as [|b l IH]; intros n Hn Hl; [by destruct n|].
  apply Forall_cons in Hl as [(Hb & H1 & H2 & H3 & H4 & H5) Hl]. simpl in Hn. destruct n as [|n]; [lia|].
  cbn [unescape]. rewrite !(proj2 (Z.eqb_neq _ _)), (proj2 (Z.ltb_ge _ _)) by lia. cbn [orb DecodeRune].
  rewrite (proj2 (Z.ltb_lt (byte_val b) 128)) by lia. rewrite IH by (done || lia). cbn [mbind option_bind].
  unfold EncodeRune. unfold surrogate, within_range.
  rewrite (proj2 (Z.ltb_ge (byte_val b) 0)), (proj2 (Z.ltb_ge 1114111 (byte_val b))),
    (proj2 (Z.leb_gt 55296 (byte_val b))) by lia. cbn [orb andb].
  rewrite (proj2 (Z.ltb_lt (byte_val b) 128)) by lia. by rewrite byte_of_val.
Qed.

Lemma literal_plain l : Forall plain l -> literal_value (q :: l ++ [q]) = Some (SString l).
Proof.
  intros H. unfold literal_value, unquote. change (byte_val q =? 34) with true. cbn iota.
  rewrite rev_app_distr. cbn [rev app]. change (byte_val q =? 34) with true. cbn iota.
  rewrite rev_involutive, unescape_plain; [done|by rewrite length_rev|done].
Qed.

(** ** Reading a quoted text *)

Lemma step_plain b stack : plain b ->
  JsonScan.step (JsonScan.InString, stack) (byte_val b) = Some (JsonScan.InString, stack).
Proof.
  intros (Hb & H1 & H2 & _). simpl. by rewrite !(proj2 (Z.eqb_neq _ _)), (proj2 (Z.ltb_ge _ _)) by lia.
Qed.

Lemma run_plain l rest stack : Forall plain l ->
  JsonScan.run (JsonScan.InString, stack) (l ++ rest) = JsonScan.run (JsonScan.InString, stack) rest.
Proof.
  induction 1 as [|b l Hb Hl IH]; [done|]. cbn [app JsonScan.run]. rewrite step_plain by done. exact IH.
Qed.

Lemma read_after rest acc : read_value (JsonScan.EndValue, []) rest acc = inr (rev acc, rest).
Proof.
  destruct rest as [|b rest]; [done|]. cbn [read_value JsonScan.step JsonScan.end_value].
  by destruct (JsonScan.is_space (byte_val b)).
Qed.

Lemma read_plain l rest acc : Forall plain l ->
  read_value (JsonScan.InString, []) (l ++ q :: rest) acc = inr (rev acc ++ l ++ [q], rest).
Proof.
  intros H. revert acc. induction H as [|b l Hb Hl IH]; intros acc.
  - cbn [app]. etransitivity; [apply read_after|]. done.
  - cbn [app read_value]. rewrite step_plain by done. rewrite IH. cbn [rev]. by rewrite <- app_assoc.
Qed.

Lemma read_quoted l rest : Forall plain l ->
  read_value (JsonScan.BeginValue, []) (q :: l ++ q :: rest) [] = inr (q :: l ++ [q], rest).
Proof. intros H. etransitivity; [apply (read_plain l rest [q] H)|]. done. Qed.

(** The name of a member, and its value. *)
Lemma name_token l rest st stack : Forall plain l -> st = ObjectStart ->
  Token (MkDecoder (q :: l ++ q :: rest) st stack) = inr (Scalar (SString l), MkDecoder rest ObjectColon stack).
Proof.
  intros H ->. unfold Token. cbn [token_loop de_input skip_space]. change (JsonScan.is_space (byte_val q)) with false.
  cbn iota. change (byte_val q) with 34. cbn -[read_value literal_value skip_space]. unfold scalar_token. cbn [de_input].
  rewrite read_quoted by done. cbn -[literal_value]. change (JsonScan.is_space (byte_val q)) with false. cbn iota.
  by rewrite literal_plain.
Qed.

Lemma next_name_token l rest stack : Forall plain l ->
  Token (MkDecoder (Byte.x2c :: q :: l ++ q :: rest) ObjectComma stack) =
  inr (Scalar (SString l), MkDecoder rest ObjectColon stack).
Proof.
  intros H. unfold Token. cbn [length de_input]. remember (S (length (q :: l ++ q :: rest))) as n eqn:En.
  cbn [token_loop de_input skip_space]. change (JsonScan.is_space (byte_val Byte.x2c)) with false.
  cbn iota. change (byte_val Byte.x2c) with 44. cbn -[token_loop length]. subst n.
  cbn [token_loop de_input skip_space]. change (JsonScan.is_space (byte_val q)) with false.
  cbn iota. change (byte_val q) with 34. cbn -[read_value literal_value skip_space]. unfold scalar_token. cbn [de_input].
  rewrite read_quoted by done. cbn -[literal_value]. change (JsonScan.is_space (byte_val q)) with false. cbn iota.
  by rewrite literal_plain.
Qed.

Lemma string_value l rest stack old : Forall plain l ->
  decode_string (MkDecoder (Byte.x3a :: q :: l ++ q :: rest) ObjectColon stack) old =
  inr (l, MkDecoder rest ObjectComma stack).
Proof.
  intros H. unfold decode_string, decode_text, tokenPrepareForDecode. cbn [de_state de_input skip_space].
  change (JsonScan.is_space (byte_val Byte.x3a)) with false. cbn iota. change (byte_val Byte.x3a =? 58) with true.
  cbn iota. cbn [de_state tokenValueAllowed de_input de_stack]. rewrite read_quoted by done. cbn [skip_space].
  change (JsonScan.is_space (byte_val q)) with false. cbn iota. by rewrite literal_plain.
Qed.

(** ** Base64 *)

Lemma std_plain n : 0 <= n < 64 -> plain (std_char (enc_char n)) /\ byte_val (std_char (enc_char n)) <> 61 /\
  is_newline (std_char (enc_char n)) = false /\ (url_char (std_char (enc_char n)) ≫= dec_char) = Some n.
Proof.
  intros Hn. pose (P n := let b := std_char (enc_char n) in
    (32 <=? byte_val b) && (byte_val b <? 128) && negb (byte_val b =? 34) && negb (byte_val b =? 92) &&
    negb (byte_val b =? 60) && negb (byte_val b =? 62) && negb (byte_val b =? 38) && negb (byte_val b =? 61) &&
    negb (is_newline b) && bool_decide ((url_char b ≫= dec_char) = Some n)).
  assert (HP : P n = true).
  { revert n Hn. apply for_groups. vm_compute. reflexivity. }
  unfold P in HP. cbv zeta in HP. rewrite !andb_true_iff, !negb_true_iff in HP.
  destruct HP as [[[[[[[[[H1 H2] H3] H4] H5] H6] H7] H8] H9] H10]. zbool.
  apply bool_decide_eq_true_1 in H10. unfold plain. split_and!; try done; lia.
Qed.

Definition std_groups (l : bytes) : bytes := List.map (fun n => std_char (enc_char n)) (sextets l).

Lemma std_groups_chars l : Forall (fun b => plain b /\ byte_val b <> 61 /\ is_newline b = false) (std_groups l).
Proof.
  unfold std_groups. apply Forall_map. eapply Forall_impl; [apply sextets_range|].
  intros n Hn. destruct (std_plain n Hn) as (? & ? & ? & _). done.
Qed.

Lemma padding_chars n : Forall (fun b => b = Byte.x3d) (padding n).
Proof. unfold padding. repeat case_match; repeat constructor. Qed.

Lemma std_encode_plain l : Forall plain (std_encode l).
Proof.
  unfold std_encode. apply Forall_app. split.
  - eapply Forall_impl; [apply std_groups_chars|]. by intros b (? & _).
  - eapply Forall_impl; [apply padding_chars|]. intros b ->. unfold plain. cbv. split_and!; congruence.
Qed.

Lemma split_groups l n : Forall (fun b => plain b /\ byte_val b <> 61 /\ is_newline b = false) l ->
  split_padding (List.filter (fun b => negb (is_newline b)) (l ++ padding n)) = (l, padding n).
Proof.
  induction 1 as [|b l (_ & Hb & Hnl) Hl IH].
  - unfold padding. by repeat case_match.
  - cbn [app List.filter]. rewrite Hnl. cbn [negb split_padding].
    rewrite (proj2 (Z.eqb_neq _ _)) by done. by rewrite IH.
Qed.

Lemma decode_groups l :
  mapM (fun b => url ← url_char b; dec_char url) (std_groups l) = Some (sextets l).
Proof.
  unfold std_groups. pose proof (sextets_range l) as H. induction H as [|n s Hn Hs IH]; [done|].
  cbn [List.map mapM]. destruct (std_plain n Hn) as (_ & _ & _ & E).
  change (url ← url_char (std_char (enc_char n)); dec_char url) with (url_char (std_char (enc_char n)) ≫= dec_char).
  rewrite E. cbn [mbind option_bind]. by rewrite IH.
Qed.

Lemma trailing_four a b c d l : trailing_bits (a :: b :: c :: d :: l) = trailing_bits l.
Proof.
  unfold trailing_bits. change (length (a :: b :: c :: d :: l)) with (4 + length l)%nat.
  replace ((4 + length l) mod 4)%nat with (length l mod 4)%nat by (rewrite <- (Nat.Div0.mod_add (length l) 1 4); f_equal; lia).
  destruct l; [done|]. done.
Qed.

Lemma sextets_trailing l : trailing_bits (sextets l) = 0.
Proof.
  induction l as [|a|a b|a b c l IH] using triples_ind; cbn [sextets]; [done| | |by rewrite trailing_four].
  - cbn. pose proof (byte_val_range a). Z.to_euclidean_division_equations; lia.
  - cbn. pose proof (byte_val_range a). pose proof (byte_val_range b). Z.to_euclidean_division_equations; lia.
Qed.

Lemma std_roundtrip l : std_decode (std_encode l) = Some l.
Proof.
  unfold std_decode, std_encode. fold (std_groups l). rewrite split_groups by apply std_groups_chars.
  rewrite bool_decide_eq_true_2 by done. rewrite decode_groups. cbn [mbind option_bind].
  rewrite sextets_trailing. cbn. apply octets_sextets.
Qed.

(** ** The envelope *)

Definition envelope_head : bytes :=
  Byte.x7b :: q :: bytes_of_string "format" ++ q :: Byte.x3a :: q :: bytes_of_string StoredEventFormat ++
  q :: Byte.x2c :: q :: bytes_of_string "protobuf_base64" ++ [q; Byte.x3a; q].

Lemma envelope_text_plain l : Forall plain l ->
  envelope_text (MkEnvelope (bytes_of_string StoredEventFormat) l) = envelope_head ++ l ++ [q; Byte.x7d].
Proof.
  intros H. unfold envelope_text. cbn [se_Format se_ProtobufBase64]. rewrite (quote_plain l) by done.
  assert (E : bytes_of_string "{" ++ json_quote (bytes_of_string "format") ++ bytes_of_string ":" ++
    json_quote (bytes_of_string StoredEventFormat) ++ bytes_of_string "," ++
    json_quote (bytes_of_string "protobuf_base64") ++ bytes_of_string ":" ++ [q] = envelope_head)
    by (vm_compute; reflexivity).
  assert (F : (q :: l ++ [q]) ++ bytes_of_string "}" = [q] ++ l ++ [q; Byte.x7d])
    by (cbn [app]; by rewrite <- app_assoc).
  rewrite F, <- E, <- !app_assoc. reflexivity.
Qed.

Lemma plain_dec l : forallb (fun b => (32 <=? byte_val b) && (byte_val b <? 128) &&
  negb (bool_decide (byte_val b ∈ [34; 92; 60; 62; 38]))) l = true -> Forall plain l.
Proof.
  rewrite forallb_forall. intros H. apply List.Forall_forall. intros b Hb. specialize (H b Hb).
  rewrite !andb_true_iff, negb_true_iff, bool_decide_eq_false, !elem_of_cons in H. destruct H as [[H1 H2] H3]. zbool.
  unfold plain. split_and!; try lia; intros E; apply H3; tauto.
Qed.

(** The text is valid JSON. *)
Lemma envelope_valid_json l : Forall plain l ->
  json_Valid (envelope_text (MkEnvelope (bytes_of_string StoredEventFormat) l)) = true.
Proof.
  intros H. rewrite envelope_text_plain by done. unfold json_Valid.
  assert (Hrun : forall a b s, JsonScan.run s (a ++ b) = s' ← JsonScan.run s a; JsonScan.run s' b).
  { induction a as [|x a IH]; intros b s; [done|]. cbn [app JsonScan.run].
    destruct (JsonScan.step s (byte_val x)); [apply IH|done]. }
  rewrite Hrun.
  assert (E : JsonScan.run (JsonScan.BeginValue, []) envelope_head =
    Some (JsonScan.InString, [JsonScan.ParseObjectValue])) by (vm_compute; reflexivity).
  rewrite E. cbn [mbind option_bind]. rewrite run_plain by done. vm_compute. reflexivity.
Qed.

(** The tokens of the envelope. *)
Lemma open_token rest : Token (MkDecoder (Byte.x7b :: rest) TopValue []) =
  inr (Delim 123, MkDecoder rest ObjectStart [TopValue]).
Proof. reflexivity. Qed.
Lemma close_token : Token (MkDecoder [Byte.x7d] ObjectComma [TopValue]) = inr (Delim 125, MkDecoder [] TopValue []).
Proof. reflexivity. Qed.
Lemma end_token : Token (MkDecoder [] TopValue []) = inl EOF.
Proof. reflexivity. Qed.

Lemma members_first fmt k rest : Forall plain fmt ->
  envelope_members (S k) (MkDecoder (q :: bytes_of_string "format" ++ q :: Byte.x3a :: q :: fmt ++ q :: rest)
    ObjectStart [TopValue]) [] (MkEnvelope [] []) =
  envelope_members k (MkDecoder rest ObjectComma [TopValue]) [bytes_of_string "format"] (MkEnvelope fmt []).
Proof.
  intros H. cbn [envelope_members]. change (More (MkDecoder (q :: _) _ _)) with true. cbn iota.
  rewrite name_token by (done || (apply plain_dec; vm_compute; reflexivity)).
  rewrite bool_decide_eq_false_2 by apply not_elem_of_nil. rewrite bool_decide_eq_true_2 by done.
  by rewrite string_value.
Qed.

Lemma members_second fmt l k rest : Forall plain l ->
  envelope_members (S k) (MkDecoder (Byte.x2c :: q :: bytes_of_string "protobuf_base64" ++ q :: Byte.x3a :: q ::
    l ++ q :: rest) ObjectComma [TopValue]) [bytes_of_string "format"] (MkEnvelope fmt []) =
  envelope_members k (MkDecoder rest ObjectComma [TopValue])
    [bytes_of_string "protobuf_base64"; bytes_of_string "format"] (MkEnvelope fmt l).
Proof.
  intros H. cbn [envelope_members]. change (More (MkDecoder (Byte.x2c :: _) _ _)) with true. cbn iota.
  rewrite next_name_token by (apply plain_dec; vm_compute; reflexivity).
  rewrite (bool_decide_eq_false_2 (_ ∈ _)) by (apply (bool_decide_eq_false_1 _); vm_compute; reflexivity).
  rewrite (bool_decide_eq_false_2 (_ = _)) by (vm_compute; discriminate).
  rewrite bool_decide_eq_true_2 by done. by rewrite string_value.
Qed.

Lemma members_done k seen e :
  envelope_members k (MkDecoder [Byte.x7d] ObjectComma [TopValue]) seen e =
  Some (MkDecoder [Byte.x7d] ObjectComma [TopValue], seen, e).
Proof. by destruct k. Qed.

(** The envelope read back. *)
Lemma envelope_roundtrip l : Forall plain l ->
  decodeEnvelope (envelope_text (MkEnvelope (bytes_of_string StoredEventFormat) l)) =
  Some (MkEnvelope (bytes_of_string StoredEventFormat) l).
Proof.
  intros H. rewrite envelope_text_plain by done. unfold decodeEnvelope.
  assert (Hn : exists k, length (envelope_head ++ l ++ [q; Byte.x7d]) = S (S (S k))).
  { unfold envelope_head. cbn [app length]. eauto. }
  destruct Hn as (k & ->).
  assert (E : envelope_head ++ l ++ [q; Byte.x7d] =
    Byte.x7b :: q :: bytes_of_string "format" ++ q :: Byte.x3a :: q :: bytes_of_string StoredEventFormat ++
    q :: Byte.x2c :: q :: bytes_of_string "protobuf_base64" ++ q :: Byte.x3a :: q :: l ++ q :: [Byte.x7d])
    by (vm_compute; reflexivity).
  rewrite E. unfold NewDecoder. rewrite open_token. change (123 =? 123) with true. cbn iota.
  rewrite members_first by (apply plain_dec; vm_compute; reflexivity).
  rewrite members_second by done. rewrite members_done. cbn [mbind option_bind]. rewrite close_token. cbn iota.
  rewrite end_token. reflexivity.
Qed.

Section StoredEventFacts.
Context {PP : PlannerProto} {PL : PlannerProtoLaws PP}.

Lemma encoded_valid_json event payload : EncodeStoredEvent event = Ok payload -> json_Valid payload = true.
Proof.
  unfold EncodeStoredEvent. intros H. inv_res. apply envelope_valid_json, std_encode_plain.
Qed.

(** C21: a stored planner event reads back.  Whatever [EncodeStoredEvent] accepts is
    written as valid JSON, and [DecodeStoredEvent] gives exactly the event that was
    encoded: no event is changed or refused on its way through the outbox. *)
Theorem stored_event_roundtrip event payload :
  EncodeStoredEvent event = Ok payload ->
  json_Valid payload = true /\ DecodeStoredEvent payload = Ok event.
Proof.
  intros H. split; [by eapply encoded_valid_json|]. unfold EncodeStoredEvent in H. inv_res.
  match goal with H : MarshalEvent event = Some _ |- _ => rename H into Ew end.
  unfold DecodeStoredEvent. rewrite envelope_roundtrip by apply std_encode_plain. cbn [of_option mbind].
  unfold mbind, res_bind. cbn [se_Format se_ProtobufBase64].
  rewrite bool_decide_eq_true_2 by done. cbn [negb reject_if]. rewrite std_roundtrip. cbn [of_option].
  rewrite bool_decide_eq_true_2 by done. cbn [negb reject_if]. rewrite (event_reads_back _ _ Ew). cbn [of_option].
  rewrite bool_decide_eq_true_2 by done. cbn [negb reject_if].
  match goal with H : validateEvent event = true |- _ => rewrite H end. done.
Qed.
End StoredEventFacts.
