(* ===== verification/Worker.v ===== *)
(** * Background workers

    What the goroutines of [dispatch] do outside their own memory: calls of the
    stores, exchanges with the planner, random identifiers and the clock.  A worker
    is a function of a [WorkerEnv] that decides everything else: what other
    transactions commit before each call, which calls fail and whether a failed one
    was committed, what the planner answers.  The worker keeps a log of its calls. *)

From S2P Require Import Prelude GoLib Schema Tables Leases Commands Finalization Mutations Proposals Decisions OutboxStore CanonicalState Mirror Snapshots Recovery Bootstrap System GoText PlannerMessages.

Section Worker.
Context {PG : Postgres}.

(** ** The stores' interface *)

(** The methods of [outboxStore], [leaseStore], [mirrorFinalizer],
    [runtimeCommandStore], [confirmationStore], [canonicalBootstrapStore],
    [recoverySnapshotStore], [snapshotPersistence] and [proposalStore]. *)
Inductive StoreCall : Type -> Type :=
| CallClaim (owner : string) (batch duration : Z) : StoreCall (list ClaimedOutboxRow)
| CallRetry (row : ClaimedOutboxRow) (owner status : string) (delay : Z) : StoreCall unit
| CallPause (row : ClaimedOutboxRow) (owner reason : string) : StoreCall unit
| CallPending (limit : Z) : StoreCall (list PendingFinalizationConfirmation)
| CallCurrent (tripID holderID : string) : StoreCall RuntimeLease
| CallMirror (r : FinalizeCanonicalMirrorRequest) : StoreCall FinalizedCanonicalMirror
| CallMutation (r : FinalizeAcceptedMutationRequest) : StoreCall FinalizedCommand
| CallAcceptance (r : FinalizeProposalDecisionRequest) : StoreCall FinalizedCommand
| CallRejection (r : FinalizeProposalDecisionRequest) : StoreCall FinalizedCommand
| CallStale (r : FinalizeProposalDecisionRequest) : StoreCall FinalizedCommand
| CallTerminal (r : FinalizeTerminalCommandRequest) : StoreCall FinalizedCommand
| CallConfirm (tripID : string) (sequence : Z) : StoreCall ConfirmedFinalizedMutations
| CallLoad (tripID : string) : StoreCall CanonicalTripState
| CallBootstrap (r : ResolveCanonicalBootstrapRequest) : StoreCall ResolvedCanonicalBootstrap
| CallRecovery (tripID : string) : StoreCall StoredSnapshot
| CallSnapshot (b : SnapshotBlob) : StoreCall StoredSnapshot
| CallPropose (r : PersistProposalRequest) : StoreCall PersistedProposal.

(** What the database does. *)
Definition perform (locked : gset string) (clk : nat -> Z) {A} (c : StoreCall A)
  : db -> result A * db :=
  match c with
  | CallClaim owner batch duration => ClaimDue clk locked owner batch duration
  | CallRetry row owner status delay => run_tx (ReleaseForRetry clk row owner status delay)
  | CallPause row owner reason => run_tx (PauseInternal clk row owner reason)
  | CallPending limit => run_tx (PendingFinalizationConfirmations limit)
  | CallCurrent tripID holderID => run_tx (Current clk tripID holderID)
  | CallMirror r => FinalizeCanonicalMirror clk r
  | CallMutation r => run_tx (FinalizeAcceptedMutation clk r)
  | CallAcceptance r => run_tx (FinalizeProposalAcceptance clk r)
  | CallRejection r => run_tx (FinalizeProposalRejection clk r)
  | CallStale r => run_tx (FinalizeStaleProposalDecision clk r)
  | CallTerminal r => run_tx (FinalizeTerminal clk r)
  | CallConfirm tripID sequence => run_tx (ConfirmFinalizedMutations clk tripID sequence)
  | CallLoad tripID => run_tx (Load tripID)
  | CallBootstrap r => run_tx (ResolveCanonicalBootstrap clk r)
  | CallRecovery tripID => LoadForRecovery clk tripID
  | CallSnapshot b => run_tx (PersistSnapshot clk b)
  | CallPropose r => run_tx (Persist clk r)
  end.

(** The numbers of a request that the code keeps as [uint64]. *)
Definition unsigned_call {A} (c : StoreCall A) : Prop :=
  match c with CallMutation r => 0 <= fa_ExpectedTripRevision r | _ => True end.

(** ** Runs *)

(** A call works, does not reach the database, or is committed with its answer lost. *)
Inductive fault := Works | Unreached | AnswerLost.

Record WorkerEnv := MkWorkerEnv {
  we_others : nat -> db -> db;
  we_fault : nat -> fault;
  we_clk : nat -> nat -> Z;
  we_locked : nat -> gset string;
  we_exchange : nat -> PlannerStreamRequest -> option PlannerStreamResponse;
  we_random : nat -> option bytes;
  we_jitter : nat -> Z -> option Z;
  we_now : nat -> Z
}.

Inductive WorkerEvent :=
| Performed {A} (c : StoreCall A) (answer : result A)
| Exchanged (request : PlannerStreamRequest) (answer : option PlannerStreamResponse)
| Announced (c : FinalizedCommand) (response : PlannerStreamResponse)
| Published (p : PersistedProposal) (response : PlannerStreamResponse).

Record Worker := MkWorker { wk_db : db; wk_calls : nat; wk_log : list WorkerEvent }.

Definition work (A : Type) : Type := Worker -> A * Worker.
#[global] Instance work_ret : MRet work := fun A a w => (a, w).
#[global] Instance work_bind : MBind work := fun A B f m w => let '(a, w') := m w in f a w'.

(** [if err != nil { return err }]. *)
Definition try_ok {A B} (m : work (result A)) (f : A -> work (result B)) : work (result B) :=
  r ← m; match r with Ok a => f a | Err e => mret (Err e) end.

Context (env : WorkerEnv).

Definition unreachable : err := ErrDatabase "connection".

Definition invoke {A} (c : StoreCall A) : work (result A) := fun w =>
  let n := wk_calls w in
  let d := we_others env n (wk_db w) in
  match we_fault env n with
  | Unreached => (Err unreachable, MkWorker d (S n) (wk_log w))
  | f =>
      let '(r, d') := perform (we_locked env n) (we_clk env n) c d in
      (match f with AnswerLost => Err unreachable | _ => r end,
       MkWorker d' (S n) (wk_log w ++ [Performed c r]))
  end.

Definition Exchange (request : PlannerStreamRequest) : work (option PlannerStreamResponse) := fun w =>
  let n := wk_calls w in
  let answer := we_exchange env n request in
  (answer, MkWorker (wk_db w) (S n) (wk_log w ++ [Exchanged request answer])).

(** [plannertransport.NewRequestID]. *)
Definition NewRequestID : work (option string) := fun w =>
  (newAuthUUID <$> we_random env (wk_calls w), MkWorker (wk_db w) (S (wk_calls w)) (wk_log w)).

Definition jitter : work (Z -> option Z) := fun w =>
  (we_jitter env (wk_calls w), MkWorker (wk_db w) (S (wk_calls w)) (wk_log w)).

(** [now().Add(timeout).UnixMilli()]. *)
Definition expires_at (timeout : Z) : work Z := fun w =>
  (UnixMilli (we_now env (wk_calls w) + timeout), MkWorker (wk_db w) (S (wk_calls w)) (wk_log w)).

Definition announce (e : WorkerEvent) : work unit := fun w =>
  (tt, MkWorker (wk_db w) (wk_calls w) (wk_log w ++ [e])).

End Worker.

Arguments work {PG} A.

(** ** What a worker does to the database

    Every call of a worker is a sequence of steps of [System.step].  [runs] is a
    triple for pieces of workers; [sound] is the invariant all of them keep: the
    database is one the system reaches, and every command finalized in the log was
    acknowledged by the planner before.  The rules are hints of the database [work]. *)

Section WorkerFacts.
Context {PG : Postgres}.

(** ** Calls are steps *)

Lemma run_tx_steps {A} (m : tx A) d :
  (forall a d', m d = Ok (a, d') -> rtc step d d') -> rtc step d (run_tx m d).2.
Proof.
  intros H. unfold run_tx. destruct (m d) as [[a d']|e] eqn:E; [by eapply H|done].
Qed.

Lemma run_tx_reads {A} (m : tx A) d :
  (forall a d', m d = Ok (a, d') -> d' = d) -> rtc step d (run_tx m d).2.
Proof. intros H. apply run_tx_steps. intros a d' E. by rewrite (H _ _ E). Qed.

Lemma Pending_reads limit d a d' : PendingFinalizationConfirmations limit d = Ok (a, d') -> d' = d.
Proof. unfold PendingFinalizationConfirmations. intros H. by inv_tx. Qed.

Lemma Load_reads tripID d a d' : Load tripID d = Ok (a, d') -> d' = d.
Proof.
  unfold Load, scan_current_plan, lock_trip_row. intros H. by inv_tx.
Qed.

Lemma recover_steps clk cs : forall n d, rtc step d (recover clk n cs d).2.
Proof.
  induction cs as [|c cs IH]; intros n d; simpl; [done|]. case_bool_decide; [done|].
  unfold run_tx. destruct (invalidate _ _ _ _) as [[u d']|e] eqn:E; [|done].
  eapply rtc_l; [by eapply step_invalidate|apply IH].
Qed.

Lemma perform_steps locked clk {A} (c : StoreCall A) d :
  unsigned_call c -> rtc step d (perform locked clk c d).2.
Proof.
  intros Hu. destruct c; simpl;
    try (apply run_tx_steps; intros a d' E; apply rtc_once; by eauto using step).
  - apply rtc_once. eapply step_claim. apply surjective_pairing.
  - apply run_tx_reads, Pending_reads.
  - apply run_tx_reads. intros a d' (?&?&?&?&?&?&?&?&?&?&E)%Current_ok. exact E.
  - apply rtc_once. eapply step_mirror. apply surjective_pairing.
  - apply run_tx_reads, Load_reads.
  - unfold LoadForRecovery. destruct (negb _); [done|]. destruct (scan_snapshots _); [|done].
    apply recover_steps.
Qed.
(** ** Commands finalized *)

(** The command a call finalizes, and whether as accepted. *)
Record Finalization := MkFinalization {
  fz_trip : string;
  fz_intent : string;
  fz_outbox : string;
  fz_event : string;
  fz_sequence : Z;
  fz_accepted : bool
}.

Definition decision_finalization (r : FinalizeProposalDecisionRequest) (accepted : bool) : Finalization :=
  MkFinalization (fd_TripID r) (fd_IntentID r) (fd_OutboxID r) (fd_EventID r) (fd_MutationSequence r)
    accepted.

Definition finalizes_call {A} (c : StoreCall A) : option Finalization :=
  match c with
  | CallMirror r => Some (MkFinalization (fm_TripID r) (fm_IntentID r) (fm_OutboxID r) (fm_EventID r)
                            (fm_MutationSequence r) true)
  | CallMutation r => Some (MkFinalization (fa_TripID r) (fa_IntentID r) (fa_OutboxID r) (fa_EventID r)
                              (fa_MutationSequence r) true)
  | CallAcceptance r | CallRejection r => Some (decision_finalization r true)
  | CallStale r => Some (decision_finalization r false)
  | CallTerminal r => Some (MkFinalization (ft_TripID r) (ft_IntentID r) (ft_OutboxID r) (ft_EventID r)
                              (ft_MutationSequence r) false)
  | _ => None
  end.

Definition finalizes (e : WorkerEvent) : option Finalization :=
  match e with Performed c _ => finalizes_call c | _ => None end.

(** The exchange in which the planner acknowledged the command's event under a
    lease the worker held. *)
Record acknowledges (log : list WorkerEvent) (holder : string) (f : Finalization)
    (request : PlannerStreamRequest) (response : PlannerStreamResponse) : Prop := {
  ak_sent : Exchanged request (Some response) ∈ log;
  ak_trip : pq_trip_id request = fz_trip f;
  ak_sequence : pq_mutation_sequence request = fz_sequence f;
  ak_event : exists e, pq_payload request = AskApply e /\ ev_event_id e = fz_event f;
  ak_lease : exists lease, Performed (CallCurrent (fz_trip f) holder) (Ok lease) ∈ log /\
    pq_runtime_epoch request = rl_RuntimeEpoch lease;
  ak_correlated : ps_request_id response = pq_request_id request /\
    ps_trip_id response = pq_trip_id request /\ ps_runtime_epoch response = pq_runtime_epoch request;
  ak_ack : exists ack, GetEventAcknowledged response = Some ack /\ ea_event_id ack = fz_event f /\
    fz_sequence f <= ea_resolved_mutation_sequence ack /\
    ((ea_disposition ack = EVENT_DISPOSITION_ACCEPTED \/ ea_disposition ack = EVENT_DISPOSITION_DUPLICATE)
     <-> fz_accepted f = true)
}.

Definition acknowledged (log : list WorkerEvent) (holder : string) (f : Finalization) : Prop :=
  exists request response, acknowledges log holder f request response.

Definition justified (holder : string) (log : list WorkerEvent) : Prop :=
  forall l1 e l2 f, log = l1 ++ e :: l2 -> finalizes e = Some f -> acknowledged l1 holder f.

Lemma acknowledged_app log log' holder f :
  acknowledged log holder f -> acknowledged (log ++ log') holder f.
Proof.
  intros (rq & rs & [H1 H2 H3 H4 (l & Hl & He) H6 H7]). exists rq, rs.
  constructor; try done; [set_solver|]. exists l. split; [set_solver|done].
Qed.

(** What holds of every entry and the entries before it still does with one more. *)
Lemma log_snoc {A} (Q : list A -> A -> Prop) log e :
  (forall l1 x l2, log = l1 ++ x :: l2 -> Q l1 x) -> Q log e ->
  forall l1 x l2, log ++ [e] = l1 ++ x :: l2 -> Q l1 x.
Proof.
  intros Hj He l1 x l2 Heq. induction l2 as [|y l2 _] using rev_ind.
  - by apply app_inj_tail in Heq as [-> ->].
  - rewrite app_comm_cons, app_assoc in Heq. apply app_inj_tail in Heq as [-> ->]. by eapply Hj.
Qed.

Lemma justified_snoc holder log e :
  justified holder log -> (forall f, finalizes e = Some f -> acknowledged log holder f) ->
  justified holder (log ++ [e]).
Proof.
  intros Hj He l1 x l2 f Heq. revert f.
  apply (log_snoc (fun l x => forall f, finalizes x = Some f -> acknowledged l holder f) log e) with l2;
    [|done..]. intros l1' x' l2' Heq' f Hf. by eapply Hj.
Qed.

Lemma justified_nil holder : justified holder [].
Proof. intros l1 e l2 f H. by destruct l1. Qed.

(** ** Triples *)

Definition runs {A} (P : Worker -> Prop) (m : work A) (Q : A -> Worker -> Prop) : Prop :=
  forall w, P w -> Q (m w).1 (m w).2.

Lemma runs_ret {A} (P : Worker -> Prop) (a : A) (Q : A -> Worker -> Prop) :
  (forall w, P w -> Q a w) -> runs P (mret a) Q.
Proof. intros H w. apply H. Qed.

Lemma runs_bind {A B} P (m : work A) (f : A -> work B) (R : A -> Worker -> Prop) Q :
  runs P m R -> (forall a, runs (R a) (f a) Q) -> runs P (m ≫= f) Q.
Proof.
  intros Hm Hf w Hw. unfold mbind, work_bind. specialize (Hm w Hw). destruct (m w) as [a w'].
  by apply Hf.
Qed.

Lemma runs_conseq {A} (P P' : Worker -> Prop) (m : work A) (Q Q' : A -> Worker -> Prop) :
  runs P' m Q' -> (forall w, P w -> P' w) -> (forall a w, Q' a w -> Q a w) -> runs P m Q.
Proof. intros H HP HQ w Hw. by apply HQ, H, HP. Qed.

(** Other transactions are steps of the system as well. *)
Definition honest (env : WorkerEnv) : Prop := forall n d, rtc step d (we_others env n d).

Context (env : WorkerEnv) (Hothers : honest env) (holder : string) (d0 : db).

Definition sound (w : Worker) : Prop := rtc step d0 (wk_db w) /\ justified holder (wk_log w).

(** Only the planner's answer and the lease are remembered of the log. *)
Definition holds_in_log (Q : list WorkerEvent -> Prop) : Prop := forall l e, Q l -> Q (l ++ [e]).

Lemma runs_invoke {A} (c : StoreCall A) (Q : list WorkerEvent -> Prop) :
  unsigned_call c -> holds_in_log Q ->
  (forall f, finalizes_call c = Some f -> forall l, Q l -> acknowledged l holder f) ->
  runs (fun w => sound w /\ Q (wk_log w)) (invoke env c)
    (fun r w => (sound w /\ Q (wk_log w)) /\ forall a, r = Ok a -> Performed c (Ok a) ∈ wk_log w).
Proof.
  intros Hu HQ Hf w [[Hd Hj] Hq]. unfold invoke.
  assert (Hd1 : rtc step d0 (we_others env (wk_calls w) (wk_db w))) by (etrans; [exact Hd|apply Hothers]).
  pose proof (perform_steps (we_locked env (wk_calls w)) (we_clk env (wk_calls w)) c
    (we_others env (wk_calls w) (wk_db w)) Hu) as Hs.
  destruct (we_fault env (wk_calls w)); simpl; [|done|];
    destruct (perform _ _ _ _) as [r d'] eqn:E; simpl in *;
    (split; [split; [split|by apply HQ]|]);
    [by etrans| |intros a ->; set_solver|by etrans| |done];
    apply justified_snoc; eauto.
Qed.

Lemma runs_exchange request (Q : list WorkerEvent -> Prop) :
  holds_in_log Q ->
  runs (fun w => sound w /\ Q (wk_log w)) (Exchange env request)
    (fun r w => (sound w /\ Q (wk_log w)) /\ Exchanged request r ∈ wk_log w).
Proof.
  intros HQ w [[Hd Hj] Hq]. simpl. split; [split; [split; [done|]|by apply HQ]|set_solver].
  by apply justified_snoc.
Qed.

Lemma runs_announce e (Q : list WorkerEvent -> Prop) :
  finalizes e = None -> holds_in_log Q ->
  runs (fun w => sound w /\ Q (wk_log w)) (announce e) (fun _ w => sound w /\ Q (wk_log w)).
Proof.
  intros He HQ w [[Hd Hj] Hq]. simpl. split; [split; [done|]|by apply HQ].
  apply justified_snoc; [done|congruence].
Qed.

End WorkerFacts.
