(* ===== verification/Dispatcher.v ===== *)
(** * The outbox dispatcher

    Models [dispatch/dispatcher.go] and [dispatch/runtime_finalizer.go]: one pass
    over the outbox.  A claimed row is decoded, sent to the planner under the
    current lease, and the acknowledgement decides whether the row is retried,
    paused or finalized in the stores and confirmed. *)

From S2P Require Import Prelude GoLib Schema Tables Leases Commands Finalization Mutations Proposals Decisions OutboxStore Mirror GoText HttpText JsonText PlannerMessages StoredEvent Worker.

(** ** Statuses *)

(** [status.String()]. *)
Definition status_string (status : Z) : string :=
  match (if status <? 0 then None else status_names !! Z.to_nat status) with
  | Some name => name
  | None => FormatInt status
  end.

Definition statusName (status : Z) : string :=
  let name := TrimPrefix (status_string status) "STATUS_CODE_" in
  if bool_decide (name = "") || bool_decide (name = "UNSPECIFIED") then "INTERNAL" else name.

Definition terminalStatus (status : Z) : option TerminalStatus :=
  if status =? STATUS_CODE_STALE then Some TerminalStatusStale
  else if status =? STATUS_CODE_INVALID_ARGUMENT then Some TerminalStatusInvalidArgument
  else if status =? STATUS_CODE_NOT_FOUND then Some TerminalStatusNotFound
  else if status =? STATUS_CODE_COMMAND_EXPIRED then Some TerminalStatusCommandExpired
  else if status =? STATUS_CODE_INFEASIBLE then Some TerminalStatusInfeasible
  else None.

Definition accepted_disposition (a : EventAcknowledged) : bool :=
  (ea_disposition a =? EVENT_DISPOSITION_ACCEPTED) || (ea_disposition a =? EVENT_DISPOSITION_DUPLICATE).
Definition accepted_status (status : Z) : bool :=
  (status =? STATUS_CODE_OK) || (status =? STATUS_CODE_DUPLICATE).

Definition eventMatchesCommand (kind : CommandKind) (event : ApplyTripEvent) : bool :=
  match kind, ev_event event with
  | CommandActivityStatusChanged, Some (ActivityStatusChanged _ _) => true
  | CommandActivityDelayed, Some (ActivityDelayed _ _) => true
  | CommandReservationChanged, Some (ReservationChanged _ _ _) => true
  | CommandMandatoryDeadlineChanged, Some (MandatoryDeadlineChanged _ _) => true
  | CommandOperatingHoursChanged, Some (OperatingHoursChanged _ _) => true
  | CommandPlaceFoundClosed, Some (PlaceFoundClosed _ _) => true
  | CommandTravelDelay, Some (TravelDelay _ _ _) => true
  | CommandAcceptProposal, Some (PlanDecided d) => pv_decision d =? PLAN_DECISION_ACCEPT
  | CommandRejectProposal, Some (PlanDecided d) => pv_decision d =? PLAN_DECISION_REJECT
  | CommandTripEdited, Some (TripEdited _ _) => true
  | CommandReplaceCurrentPlan, Some (CurrentPlanReplaced _) => true
  | _, _ => false
  end.

Section Dispatcher.
Context {PG : Postgres} {PP : PlannerProto}.

(** ** Finalizing a runtime-first command *)

(** [json.Marshal] of the anonymous struct. *)
Definition stableOutcome (eventID status : string) (plannerStateVersion : Z) : bytes :=
  bytes_of_string "{" ++ json_quote (bytes_of_string "event_id") ++ bytes_of_string ":" ++
  json_quote (bytes_of_string eventID) ++ bytes_of_string "," ++
  json_quote (bytes_of_string "status") ++ bytes_of_string ":" ++
  json_quote (bytes_of_string status) ++ bytes_of_string "," ++
  json_quote (bytes_of_string "planner_state_version") ++ bytes_of_string ":" ++
  bytes_of_string (FormatInt plannerStateVersion) ++ bytes_of_string "}".

Definition mutation_state (state : Z) : string :=
  if state =? ACTIVITY_STATE_PLANNED then "planned"
  else if state =? ACTIVITY_STATE_STARTED then "started"
  else if state =? ACTIVITY_STATE_COMPLETED then "completed"
  else if state =? ACTIVITY_STATE_SKIPPED then "skipped" else "".

Definition acceptedMutation (event : ApplyTripEvent) : result AcceptedMutation :=
  match ev_event event with
  | Some (ActivityStatusChanged id state) =>
      Ok (MkMutation (Some (MkStatus id (mutation_state state))) None None None None None None)
  | Some (ActivityDelayed id delay) =>
      Ok (MkMutation None (Some (MkDelay id delay)) None None None None None)
  | Some (ReservationChanged id start grace) =>
      Ok (MkMutation None None (Some (MkReservation id start grace)) None None None None)
  | Some (MandatoryDeadlineChanged id latest) =>
      Ok (MkMutation None None None (Some (MkDeadline id latest)) None None None)
  | Some (OperatingHoursChanged id windows) =>
      Ok (MkMutation None None None None
            (Some (MkHours id ((fun w => MkWindow (tw_opens_at_unix_ms w) (tw_closes_at_unix_ms w)) <$> windows)))
            None None)
  | Some (PlaceFoundClosed id at_) =>
      Ok (MkMutation None None None None None (Some (MkClosed id at_)) None)
  | Some (TravelDelay from to seconds) =>
      Ok (MkMutation None None None None None None
            (Some (MkTravel from to seconds (ev_occurred_at_unix_ms event))))
  | _ => Err (ErrInvalid "unsupported accepted runtime event")
  end.

Definition proposalRequest (row : ClaimedOutboxRow) (decision : PlanDecisionEvent)
    (plannerStateVersion : Z) (outcome : bytes) : FinalizeProposalDecisionRequest :=
  MkDecisionRequest (cl_TripID row) (cl_CommandIntentID row) (cl_ID row) (cl_EventID row)
    (cl_MutationSequence row) (cl_ExpectedTripRevision row) plannerStateVersion
    (MkIdentity (pv_proposal_id decision) (pv_source_runtime_epoch decision)
       (pv_source_planner_state_version decision) (pv_base_current_plan_id decision))
    outcome.

Context (env : WorkerEnv).

Definition finalizeAccepted (row : ClaimedOutboxRow) (event : ApplyTripEvent)
    (response : PlannerStreamResponse) : work (result FinalizedCommand) :=
  let version := ps_planner_state_version response in
  let outcome := stableOutcome (cl_EventID row) "OK" version in
  match GetPlanDecision event with
  | Some decision =>
      let request := proposalRequest row decision version outcome in
      if pv_decision decision =? PLAN_DECISION_ACCEPT then invoke env (CallAcceptance request)
      else if pv_decision decision =? PLAN_DECISION_REJECT then invoke env (CallRejection request)
      else mret (Err (ErrInvalid "accepted proposal decision is invalid"))
  | None =>
      match acceptedMutation event with
      | Err e => mret (Err e)
      | Ok mutation =>
          invoke env (CallMutation (MkMutationRequest (cl_TripID row) (cl_CommandIntentID row)
            (cl_ID row) (cl_EventID row) (cl_MutationSequence row) (cl_ExpectedTripRevision row)
            version mutation outcome))
      end
  end.

Definition Finalize (row : ClaimedOutboxRow) (event : ApplyTripEvent)
    (response : PlannerStreamResponse) (ack : EventAcknowledged) : work (result FinalizedCommand) :=
  if accepted_disposition ack then finalizeAccepted row event response
  else match terminalStatus (ea_status ack) with
  | None => mret (Err (ErrInvalid "runtime acknowledgement is not terminal"))
  | Some status =>
      let version := ps_planner_state_version response in
      let outcome := stableOutcome (cl_EventID row) (statusName (ea_status ack)) version in
      let terminal := CallTerminal (MkTerminalRequest (cl_TripID row) (cl_CommandIntentID row)
        (cl_ID row) (cl_EventID row) (cl_MutationSequence row) (cl_ExpectedTripRevision row)
        version status outcome) in
      match GetPlanDecision event with
      | Some decision =>
          if (ea_status ack =? STATUS_CODE_STALE) && (ea_stale_reason ack =? STALE_REASON_PLAN_PROPOSAL)
          then invoke env (CallStale (proposalRequest row decision version outcome))
          else invoke env terminal
      | None => invoke env terminal
      end
  end.

(** ** The dispatcher *)

Record DispatcherConfig := MkDispatcherConfig {
  dp_ClaimOwner : string;
  dp_LeaseHolder : string;
  dp_BatchSize : Z;
  dp_ClaimDuration : Z;
  dp_AttemptTimeout : Z;
  dp_onRuntimeFinalized : bool
}.

(** [New]; the stores are never nil. *)
Definition valid_dispatcher (config : DispatcherConfig) : bool :=
  negb (bool_decide (dp_ClaimOwner config = "") || bool_decide (dp_LeaseHolder config = "") ||
        (dp_BatchSize config <=? 0) || (dp_ClaimDuration config <=? 0) ||
        (dp_AttemptTimeout config <=? 0) || (dp_ClaimDuration config <? dp_AttemptTimeout config)).

Context (config : DispatcherConfig).

Definition retry (row : ClaimedOutboxRow) (status : string) : work (result unit) :=
  rand ← jitter env;
  match RetryDelay rand (cl_AttemptCount row) with
  | Err e => mret (Err e)
  | Ok delay => invoke env (CallRetry row (dp_ClaimOwner config) status delay)
  end.

Definition pause (row : ClaimedOutboxRow) (status : string) : work (result unit) :=
  invoke env (CallPause row (dp_ClaimOwner config) status).

Definition retried (row : ClaimedOutboxRow) (status : string) : work (bool * result unit) :=
  r ← retry row status; mret (false, r).
Definition paused (row : ClaimedOutboxRow) (status : string) : work (bool * result unit) :=
  r ← pause row status; mret (false, r).

Definition confirmation_matches (requestID tripID : string) (runtimeEpoch sequence : Z)
    (response : PlannerStreamResponse) : bool :=
  bool_decide (ps_request_id response = requestID) && bool_decide (ps_trip_id response = tripID) &&
  (ps_runtime_epoch response =? runtimeEpoch) &&
  match GetFinalizedMutationsAcknowledged response with
  | Some ack => accepted_status (ma_status ack) && (sequence <=? ma_finalized_mutation_sequence ack)
  | None => false
  end.

Definition confirm (tripID : string) (runtimeEpoch sequence : Z) : work (result unit) :=
  requestID ← NewRequestID env;
  match requestID with
  | None => mret (Err (ErrDatabase "generate request id"))
  | Some requestID =>
      expires ← expires_at env (dp_AttemptTimeout config);
      response ← Exchange env (MkPlannerStreamRequest requestID tripID runtimeEpoch 0 0 None expires None
                                 (AskConfirm sequence));
      match response with
      | None => mret (Err (ErrDatabase "exchange"))
      | Some response =>
          if confirmation_matches requestID tripID runtimeEpoch sequence response then
            r ← invoke env (CallConfirm tripID sequence);
            mret (_ ← r; Ok tt)
          else mret (Err (ErrInvalid "planner finalization confirmation conflicts with request"))
      end
  end.

Fixpoint confirm_all (values : list PendingFinalizationConfirmation) : work (result unit) :=
  match values with
  | [] => mret (Ok tt)
  | value :: values =>
      lease ← invoke env (CallCurrent (pf_TripID value) (dp_LeaseHolder config));
      match lease with
      | Err _ => confirm_all values
      | Ok lease =>
          r ← confirm (pf_TripID value) (rl_RuntimeEpoch lease) (pf_FinalizedMutationSequence value);
          match r with Err e => mret (Err e) | Ok _ => confirm_all values end
      end
  end.

Definition recoverConfirmations : work (result unit) :=
  values ← invoke env (CallPending (dp_BatchSize config));
  match values with Err e => mret (Err e) | Ok values => confirm_all values end.

(** The event of a row that may be sent, or [None] for an invalid one. *)
Definition stored_event (row : ClaimedOutboxRow) : option ApplyTripEvent :=
  if negb (cl_EventSchemaVersion row =? 1) then None
  else match DecodeStoredEvent (cl_EventPayload row) with
  | Err _ => None
  | Ok event =>
      if negb (bool_decide (ev_event_id event = cl_EventID row)) ||
         negb (eventMatchesCommand (cl_CommandKind row) event) then None
      else if bool_decide (cl_ApplicationOrder row = canonical_first) &&
              ((cl_ResultingTripRevision row =? 0) || bool_decide (cl_ResultingCurrentPlanID row = "") ||
               (negb (bool_decide (cl_CommandKind row = CommandTripEdited)) &&
                negb (bool_decide (cl_CommandKind row = CommandReplaceCurrentPlan)))) then None
      else Some event
  end.

Definition apply_request (row : ClaimedOutboxRow) (event : ApplyTripEvent) (lease : RuntimeLease)
    (requestID : string) (expires : Z) : PlannerStreamRequest :=
  MkPlannerStreamRequest requestID (cl_TripID row) (rl_RuntimeEpoch lease) (cl_MutationSequence row) 0
    (pv_source_planner_state_version <$> GetPlanDecision event) expires
    (Some (cl_ExpectedTripRevision row)) (AskApply event).

(** What an answer means for the row. *)
Inductive Verdict := VRetry (status : string) | VPause | VFinalize (ack : EventAcknowledged).

Definition correlated (row : ClaimedOutboxRow) (requestID : string) (epoch : Z)
    (response : PlannerStreamResponse) (ack : EventAcknowledged) : bool :=
  bool_decide (ps_request_id response = requestID) && bool_decide (ps_trip_id response = cl_TripID row) &&
  (ps_runtime_epoch response =? epoch) && bool_decide (ea_event_id ack = cl_EventID row) &&
  (cl_MutationSequence row <=? ea_resolved_mutation_sequence ack).

Definition verdict (row : ClaimedOutboxRow) (requestID : string) (epoch : Z)
    (response : PlannerStreamResponse) : Verdict :=
  match GetEventAcknowledged response with
  | None =>
      match GetError response with
      | Some e => if pe_retryable e then VRetry (statusName (pe_status e)) else VPause
      | None => VPause
      end
  | Some ack =>
      let checked := if correlated row requestID epoch response ack then VFinalize ack else VPause in
      match cl_ApplicationOrder row with
      | canonical_first =>
          if negb (accepted_disposition ack) || negb (accepted_status (ea_status ack)) then
            if ea_retryable ack then VRetry (statusName (ea_status ack)) else VPause
          else checked
      | runtime_first =>
          if ea_retryable ack then VRetry (statusName (ea_status ack))
          else if negb (accepted_status (ea_status ack)) &&
                  (is_null (terminalStatus (ea_status ack)) ||
                   (ea_disposition ack =? EVENT_DISPOSITION_UNSPECIFIED)) then VPause
          else checked
      end
  end.

Definition mirror_request (row : ClaimedOutboxRow) (response : PlannerStreamResponse)
    (ack : EventAcknowledged) : FinalizeCanonicalMirrorRequest :=
  MkMirrorRequest (cl_TripID row) (cl_CommandIntentID row) (cl_ID row) (cl_EventID row)
    (cl_MutationSequence row) (cl_ExpectedTripRevision row) (ps_trip_revision response)
    (ea_resulting_current_plan_id ack).

(** Finalize in the stores, then confirm. *)
Definition settle (row : ClaimedOutboxRow) (event : ApplyTripEvent) (lease : RuntimeLease)
    (response : PlannerStreamResponse) (ack : EventAcknowledged) : work (bool * result unit) :=
  finalized ←
    match cl_ApplicationOrder row with
    | runtime_first =>
        r ← Finalize row event response ack;
        match r with
        | Err e => mret (Err e)
        | Ok c =>
            _ ← (if dp_onRuntimeFinalized config then announce (Announced c response) else mret tt);
            mret (Ok tt)
        end
    | canonical_first =>
        r ← invoke env (CallMirror (mirror_request row response ack)); mret (_ ← r; Ok tt)
    end;
  match finalized with
  | Err e => mret (false, Err e)
  | Ok _ =>
      r ← confirm (cl_TripID row) (rl_RuntimeEpoch lease) (cl_MutationSequence row);
      mret (true, r)
  end.

Definition dispatch (row : ClaimedOutboxRow) : work (bool * result unit) :=
  match stored_event row with
  | None => paused row "INVALID_STORED_EVENT"
  | Some event =>
      lease ← invoke env (CallCurrent (cl_TripID row) (dp_LeaseHolder config));
      match lease with
      | Err _ => retried row "UNAVAILABLE"
      | Ok lease =>
          requestID ← NewRequestID env;
          match requestID with
          | None => retried row "INTERNAL"
          | Some requestID =>
              expires ← expires_at env (dp_AttemptTimeout config);
              response ← Exchange env (apply_request row event lease requestID expires);
              match response with
              | None => retried row "UNAVAILABLE"
              | Some response =>
                  match verdict row requestID (rl_RuntimeEpoch lease) response with
                  | VRetry status => retried row status
                  | VPause => paused row "INTERNAL"
                  | VFinalize ack => settle row event lease response ack
                  end
              end
          end
      end
  end.

(** The loop over the batch: the rows resolved and the failures. *)
Definition tally (acc : Z * list err) (r : bool * result unit) : Z * list err :=
  (if r.1 then acc.1 + 1 else acc.1, match r.2 with Err e => acc.2 ++ [e] | Ok _ => acc.2 end).
Fixpoint dispatch_all (rows : list ClaimedOutboxRow) (acc : Z * list err) : work (Z * list err) :=
  match rows with
  | [] => mret acc
  | row :: rows => r ← dispatch row; dispatch_all rows (tally acc r)
  end.

Definition RunOnce : work (Z * list err) :=
  recovered ← recoverConfirmations;
  match recovered with
  | Err e => mret (0, [e])
  | Ok _ =>
      rows ← invoke env (CallClaim (dp_ClaimOwner config) (dp_BatchSize config) (dp_ClaimDuration config));
      match rows with
      | Err e => mret (0, [e])
      | Ok rows => dispatch_all rows (0, [])
      end
  end.

End Dispatcher.
