(* ===== verification/DispatchProps.v ===== *)
(** * What a pass of the dispatcher achieves

    The dispatcher refines the system of stores, finalizes only what the planner
    acknowledged, and settles a waiting mirror when the planner answers. *)

From S2P Require Import Prelude GoLib Schema Tables Leases Commands Finalization Mutations Proposals Decisions OutboxStore Mirror System GoText PlannerMessages StoredEvent Worker Dispatcher.

(** ** The dispatcher keeps the system's invariants

    A pass of the dispatcher, whatever the planner answers, whichever calls fail and
    whatever other transactions do in between, is a run of [System.step], and it
    finalizes a command only on the planner's acknowledgement of it. *)

Create HintDb work discriminated.

Section DispatchFacts.
Context {PG : Postgres} {PP : PlannerProto}.
Context (env : WorkerEnv) (Hothers : honest env) (config : DispatcherConfig) (d0 : db).
#[local] Abbreviation holder := (dp_LeaseHolder config).
#[local] Abbreviation sound := (sound holder d0).

(** ** Pieces that finalize nothing *)

Definition keeps {A} (m : work A) : Prop := forall Q, holds_in_log Q ->
  runs (fun w => sound w /\ Q (wk_log w)) m (fun _ w => sound w /\ Q (wk_log w)).

Lemma keeps_ret {A} (a : A) : keeps (mret a).
Proof. intros Q _. by apply runs_ret. Qed.

Lemma keeps_bind {A B} (m : work A) (f : A -> work B) :
  keeps m -> (forall a, keeps (f a)) -> keeps (m ≫= f).
Proof. intros Hm Hf Q HQ. eapply runs_bind; [by apply Hm|]. intros a. by apply Hf. Qed.

Lemma keeps_invoke {A} (c : StoreCall A) :
  finalizes_call c = None -> unsigned_call c -> keeps (invoke env c).
Proof.
  intros Hf Hu Q HQ. eapply runs_conseq; [by apply (runs_invoke env Hothers holder d0 c Q Hu HQ); rewrite Hf|done|].
  by intros a w [? _].
Qed.

Lemma keeps_exchange request : keeps (Exchange env request).
Proof.
  intros Q HQ. eapply runs_conseq; [exact (runs_exchange env Hothers holder d0 request Q HQ)|done|]. by intros a w [? _].
Qed.

Lemma keeps_announce e : finalizes e = None -> keeps (announce e).
Proof. intros He Q HQ. exact (runs_announce holder d0 e Q He HQ). Qed.

Lemma keeps_request_id : keeps (NewRequestID env).
Proof. intros Q _ w H. exact H. Qed.
Lemma keeps_jitter : keeps (jitter env).
Proof. intros Q _ w H. exact H. Qed.
Lemma keeps_expires timeout : keeps (expires_at env timeout).
Proof. intros Q _ w H. exact H. Qed.

#[local] Hint Extern 1 (keeps (invoke _ _)) => (apply keeps_invoke; [reflexivity|exact I]) : work.
#[local] Hint Resolve keeps_ret keeps_bind keeps_exchange keeps_announce keeps_request_id
  keeps_jitter keeps_expires : work.

Lemma keeps_retry row status : keeps (retry env config row status).
Proof. unfold retry. apply keeps_bind; [auto with work|]. intros rand. destruct (RetryDelay _ _); auto with work. Qed.

Lemma keeps_retried row status : keeps (retried env config row status).
Proof. apply keeps_bind; [apply keeps_retry|auto with work]. Qed.

Lemma keeps_paused row status : keeps (paused env config row status).
Proof. apply keeps_bind; [by apply keeps_invoke|auto with work]. Qed.

Lemma keeps_confirm tripID epoch sequence : keeps (confirm env config tripID epoch sequence).
Proof.
  unfold confirm. apply keeps_bind; [auto with work|]. intros [id|]; [|auto with work].
  apply keeps_bind; [auto with work|]. intros expires. apply keeps_bind; [auto with work|].
  intros [response|]; [|auto with work]. destruct (confirmation_matches _ _ _ _ _); [|auto with work].
  apply keeps_bind; [by apply keeps_invoke|auto with work].
Qed.
#[local] Hint Resolve keeps_retried keeps_paused keeps_confirm : work.

Lemma keeps_confirm_all values : keeps (confirm_all env config values).
Proof.
  induction values as [|v values IH]; simpl; [auto with work|].
  apply keeps_bind; [by apply keeps_invoke|]. intros [lease|e]; [|done].
  apply keeps_bind; [auto with work|]. intros [u|e]; auto with work.
Qed.

Lemma keeps_recover : keeps (recoverConfirmations env config).
Proof.
  apply keeps_bind; [by apply keeps_invoke|]. intros [l|e]; [apply keeps_confirm_all|auto with work].
Qed.

(** ** Finalizing *)

(** The command of a claimed row, as an acknowledgement settles it. *)
Definition row_finalization (row : ClaimedOutboxRow) (accepted : bool) : Finalization :=
  MkFinalization (cl_TripID row) (cl_CommandIntentID row) (cl_ID row) (cl_EventID row)
    (cl_MutationSequence row) accepted.

Lemma acknowledged_grows f : holds_in_log (fun l => acknowledged l holder f).
Proof. intros l e. apply acknowledged_app. Qed.

Lemma finalizes_row {A} (c : StoreCall A) row accepted :
  unsigned_call c -> finalizes_call c = Some (row_finalization row accepted) ->
  runs (fun w => sound w /\ acknowledged (wk_log w) holder (row_finalization row accepted))
    (invoke env c) (fun _ w => sound w).
Proof.
  intros Hu Hc. eapply runs_conseq.
  - apply (runs_invoke env Hothers holder d0 c _ Hu (acknowledged_grows (row_finalization row accepted))).
    intros f Hf l Hl. congruence.
  - done.
  - by intros a w [[? _] _].
Qed.

Lemma runs_stops {A} (a : A) (P : Worker -> Prop) : runs (fun w => sound w /\ P w) (mret a) (fun _ w => sound w).
Proof. apply runs_ret. by intros w [? _]. Qed.

Lemma Finalize_sound row event response ack :
  0 <= cl_ExpectedTripRevision row ->
  runs (fun w => sound w /\ acknowledged (wk_log w) holder (row_finalization row (accepted_disposition ack)))
    (Finalize env row event response ack) (fun _ w => sound w).
Proof.
  intros Hr. unfold Finalize, finalizeAccepted.
  destruct (accepted_disposition ack).
  - destruct (GetPlanDecision event).
    + repeat case_match; first [by apply finalizes_row | apply runs_stops].
    + destruct (acceptedMutation event); [by apply finalizes_row|apply runs_stops].
  - destruct (terminalStatus _); [|apply runs_stops].
    repeat case_match; by apply finalizes_row.
Qed.

Lemma keeps_sound {A} (m : work A) : keeps m -> runs sound m (fun _ w => sound w).
Proof.
  intros H. eapply runs_conseq; [by apply (H (fun _ => True))|done|]. by intros a w [? _].
Qed.

Lemma settle_sound row event lease response ack :
  0 <= cl_ExpectedTripRevision row ->
  (cl_ApplicationOrder row = canonical_first -> accepted_disposition ack = true) ->
  runs (fun w => sound w /\ acknowledged (wk_log w) holder (row_finalization row (accepted_disposition ack)))
    (settle env config row event lease response ack) (fun _ w => sound w).
Proof.
  intros Hr Hc. unfold settle. eapply (runs_bind _ _ _ (fun _ w => sound w)).
  - destruct (cl_ApplicationOrder row).
    + eapply runs_bind; [by apply Finalize_sound|]. intros [c|e]; [|by apply runs_ret].
      apply keeps_sound. destruct (dp_onRuntimeFinalized config); auto with work.
    + rewrite Hc by done. eapply runs_bind; [by apply finalizes_row|]. intros r. by apply runs_ret.
  - intros [u|e]; [|by apply runs_ret]. apply keeps_sound. auto with work.
Qed.

(** What a finalizing verdict has checked. *)
Lemma verdict_finalize row requestID epoch response ack :
  verdict row requestID epoch response = VFinalize ack ->
  GetEventAcknowledged response = Some ack /\ correlated row requestID epoch response ack = true /\
  (cl_ApplicationOrder row = canonical_first -> accepted_disposition ack = true).
Proof.
  unfold verdict. intros H. repeat case_match; simplify_eq; try done; split_and!; try done.
  intros _. by destruct (accepted_disposition ack).
Qed.

Lemma stored_event_id row event : stored_event row = Some event -> ev_event_id event = cl_EventID row.
Proof. unfold stored_event. intros H. repeat case_match; simplify_eq. inv_res. done. Qed.

Lemma correlated_acknowledges log row event lease requestID expires response ack :
  stored_event row = Some event ->
  Performed (CallCurrent (cl_TripID row) holder) (Ok lease) ∈ log ->
  Exchanged (apply_request row event lease requestID expires) (Some response) ∈ log ->
  GetEventAcknowledged response = Some ack ->
  correlated row requestID (rl_RuntimeEpoch lease) response ack = true ->
  acknowledged log holder (row_finalization row (accepted_disposition ack)).
Proof.
  intros Hev Hl Hx Ha Hc. unfold correlated in Hc. inv_res. zbool.
  eexists _, _. constructor; [exact Hx|done..| | | |].
  - exists event. split; [done|]. by apply stored_event_id.
  - by exists lease.
  - by split_and!.
  - exists ack. split_and!; try done. unfold row_finalization, accepted_disposition. cbn [fz_accepted].
    by rewrite orb_true_iff, !Z.eqb_eq.
Qed.

Lemma grows_elem e : holds_in_log (fun l => e ∈ l).
Proof. intros l x Hl. set_solver. Qed.

Lemma dispatch_sound row :
  0 <= cl_ExpectedTripRevision row -> runs sound (dispatch env config row) (fun _ w => sound w).
Proof.
  intros Hr. unfold dispatch. destruct (stored_event row) as [event|] eqn:Hev;
    [|apply keeps_sound; auto with work].
  eapply runs_bind.
  { eapply runs_conseq; [by apply (runs_invoke env Hothers holder d0 _ (fun _ => True))|done|].
    intros a w H. exact H. }
  intros [lease|e]; [|eapply runs_conseq; [apply keeps_sound, keeps_retried| |done]; naive_solver].
  pose (have := fun l : list WorkerEvent => Performed (CallCurrent (cl_TripID row) holder) (Ok lease) ∈ l).
  apply (runs_conseq _ (fun w => sound w /\ have (wk_log w)) _ _ (fun _ w => sound w));
    [|naive_solver|done].
  eapply runs_bind; [by apply keeps_request_id, grows_elem|]. intros [requestID|];
    [|eapply runs_conseq; [apply keeps_sound, keeps_retried|naive_solver|done]].
  eapply runs_bind; [by apply keeps_expires, grows_elem|]. intros expires.
  eapply runs_bind; [exact (runs_exchange env Hothers holder d0 _ _ (grows_elem _))|]. intros [response|];
    [|eapply runs_conseq; [apply keeps_sound, keeps_retried|naive_solver|done]].
  destruct (verdict _ _ _ _) as [status| |ack] eqn:Hv;
    [eapply runs_conseq; [apply keeps_sound; auto with work|naive_solver|done]..|].
  apply verdict_finalize in Hv as (Ha & Hc & Hcan).
  eapply runs_conseq; [by apply settle_sound| |done].
  intros w [[Hs Hl] Hx]. split; [done|]. by eapply correlated_acknowledges.
Qed.

Lemma dispatch_all_sound rows : forall acc,
  Forall (fun row => 0 <= cl_ExpectedTripRevision row) rows ->
  runs sound (dispatch_all env config rows acc) (fun _ w => sound w).
Proof.
  induction rows as [|row rows IH]; intros acc Hf; simpl; [by apply runs_ret|].
  apply Forall_cons in Hf as [Hr Hf]. eapply runs_bind; [by apply dispatch_sound|]. intros r. by apply IH.
Qed.

(** The rows a claim returns carry unsigned numbers. *)
Lemma claimed_unsigned locked clk owner n dur d rows d' :
  ClaimDue clk locked owner n dur d = (Ok rows, d') ->
  Forall (fun row => 0 <= cl_ExpectedTripRevision row) rows.
Proof.
  intros (o & cs & _ & _ & _ & _ & -> & Hf)%ClaimDue_ok. rewrite merge_sort_Permutation.
  induction Hf as [|[k x] c l cs Hs _ IH]; [done|]. constructor; [|done].
  unfold scan_claimed in Hs. inv_res. simpl. apply uint64_range.
Qed.

Lemma claim_sound :
  runs sound (invoke env (CallClaim (dp_ClaimOwner config) (dp_BatchSize config) (dp_ClaimDuration config)))
    (fun r w => sound w /\ forall rows, r = Ok rows ->
       Forall (fun row => 0 <= cl_ExpectedTripRevision row) rows).
Proof.
  intros w Hw. split.
  - apply (keeps_sound (invoke env (CallClaim (dp_ClaimOwner config) (dp_BatchSize config)
             (dp_ClaimDuration config)))); [by apply keeps_invoke|done].
  - unfold invoke. intros rows. destruct (we_fault _ _); [|done|];
      destruct (perform _ _ _ _) as [r d'] eqn:E; simpl; [|done]. intros ->. by eapply claimed_unsigned.
Qed.

Lemma RunOnce_sound : runs sound (RunOnce env config) (fun _ w => sound w).
Proof.
  eapply runs_bind; [apply keeps_sound, keeps_recover|]. intros [u|e]; [|by apply runs_ret].
  eapply runs_bind; [apply claim_sound|]. intros [rows|e]; [|apply runs_ret; naive_solver].
  intros w [Hs Hf]. by apply dispatch_all_sound; [apply Hf|].
Qed.

End DispatchFacts.

Section DispatchProps.
Context {PG : Postgres} {PP : PlannerProto}.

(** ** Safety *)


(** C5: no command is finalized without the planner's acknowledgement.  Every call of a
    pass that finalizes a command comes after an exchange in which the planner was
    sent the command's event, with its trip, its sequence and the epoch of a lease
    this backend was found to hold, and answered this very request for that trip and
    epoch with an acknowledgement of the event that resolves the sequence; and the
    command is finalized as accepted exactly if the acknowledgement accepts it. *)
Theorem finalized_on_acknowledgement env config d n l1 e l2 f :
  honest env -> wk_log (RunOnce env config (MkWorker d n [])).2 = l1 ++ e :: l2 ->
  finalizes e = Some f -> acknowledged l1 (dp_LeaseHolder config) f.
Proof.
  intros He Hl Hf. eapply (RunOnce_sound env He config d); [|exact Hl|exact Hf].
  split; [done|apply justified_nil].
Qed.

(** ** Settling a mirror *)

(** An environment in which nothing fails and nobody else writes. *)
Record undisturbed (env : WorkerEnv) : Prop := {
  ud_others : forall n d, we_others env n d = d;
  ud_works : forall n, we_fault env n = Works;
  ud_random : forall n, is_Some (we_random env n)
}.

Lemma invoke_runs env {A} (c : StoreCall A) w r d' :
  undisturbed env ->
  perform (we_locked env (wk_calls w)) (we_clk env (wk_calls w)) c (wk_db w) = (r, d') ->
  invoke env c w = (r, MkWorker d' (S (wk_calls w)) (wk_log w ++ [Performed c r])).
Proof. intros [Ho Hw _] H. unfold invoke. by rewrite Ho, Hw, H. Qed.

(** A planner that applies what it is sent: it answers an event with the revision
    and plan it leads to, and a confirmation with its sequence. *)
Definition applied (revision : Z) (plan : string) (request : PlannerStreamRequest) : PlannerStreamResponse :=
  MkPlannerStreamResponse (pq_request_id request) (pq_trip_id request) (pq_runtime_epoch request)
    (pq_mutation_sequence request) 0 1 revision
    match pq_payload request with
    | AskApply e => EventAcknowledgedPayload (MkEventAcknowledged EVENT_DISPOSITION_ACCEPTED
        STATUS_CODE_OK false 0 (ev_event_id e) (pq_mutation_sequence request) 0 true "" plan)
    | AskConfirm sequence => FinalizedPayload (MkFinalizedAck STATUS_CODE_OK false sequence)
    | _ => OtherPayload
    end.

(** A stored canonical-first command whose event waits for the planner. *)
Record waiting_mirror (d : db) (ko : string) (o : outbox_row) (i : intent) (revision : Z) (plan : string)
  : Prop := {
  wm_row : outbox d !! ko = Some o;
  wm_pending : o_delivery_state o = DeliveryPending;
  wm_unconfirmed : o_finalization_confirmed_at o = None;
  wm_unblocked : has_predecessor o d = false;
  wm_intent : intents d !! o_command_intent_id o = Some i;
  wm_order : i_application_order i = canonical_first;
  wm_kind : i_command_kind i = CommandTripEdited \/ i_command_kind i = CommandReplaceCurrentPlan;
  wm_state : i_state i = IntentApplied;
  wm_sync : i_runtime_sync_state i = SyncPending;
  wm_check : intent_check i = true;
  wm_revision : i_resulting_trip_revision i = Some revision;
  wm_plan : i_resulting_current_plan_id i = Some plan;
  wm_ids : Forall (fun s => validCanonicalUUID s = true)
    [o_trip_id o; o_command_intent_id o; ko; i_event_id i; plan];
  wm_range : 0 < o_mutation_sequence o <= max_int64 /\ 0 <= i_expected_trip_revision i <= max_int64 /\
    0 <= revision <= max_int64;
  wm_column : forall t, trips d !! o_trip_id o = Some t -> t_finalized_mutation_sequence t <= max_int64
}.

Section Mirrored.
Context {PL : PostgresLaws PG}.
Context (d : db) (ko : string) (o : outbox_row) (i : intent) (revision : Z) (plan : string).
Context (Hd : reachable d) (Hm : waiting_mirror d ko o i revision plan).

(** What the rows of the command say of each other. *)
Lemma waiting_trip : i_trip_id i = o_trip_id o /\ i_mutation_sequence i = o_mutation_sequence o /\
  exists t, trips d !! o_trip_id o = Some t /\ o_mutation_sequence o <= t_finalized_mutation_sequence t.
Proof.
  apply reachable_consistent in Hd as [Hs _ Ho _ _ _]. destruct Hm.
  destruct (om_row _ _ Ho ko o wm_row0) as (j & Hj & Ht & Hq & _). assert (j = i) as -> by congruence.
  split_and!; [done..|]. destruct (sq_intent _ _ Hs _ _ wm_intent0) as (t & Htr & _ & Hp & _).
  exists t. rewrite Ht in Htr. split; [done|]. rewrite <- Hq. apply Z.nlt_ge. intros H. apply Hp in H. congruence.
Qed.

(** After the acknowledgement nothing up to the command's sequence is undelivered. *)
Lemma covered_is_resolved o' k x :
  delivery_resolved o' = true -> <[ko := o']> (outbox d) !! k = Some x ->
  covered (o_trip_id o) (o_mutation_sequence o) x = true -> delivery_resolved x = true.
Proof.
  intros Ho'. destruct (decide (k = ko)) as [->|Hk]; [rewrite lookup_insert_eq; naive_solver|].
  rewrite lookup_insert_ne by done. intros Hx Hc. unfold covered in Hc. inv_res. zbool.
  rewrite delivered_resolved. destruct (decide (o_mutation_sequence x = o_mutation_sequence o)) as [He|He].
  - apply reachable_consistent in Hd as [Hs _ Ho _ _ _].
    destruct (om_row _ _ Ho ko o (wm_row _ _ _ _ _ _ Hm)) as (j & Hj & Htj & Hqj & _).
    destruct (om_row _ _ Ho k x Hx) as (j' & Hj' & Htj' & Hqj' & _). destruct Hk.
    apply (om_unique _ _ Ho k ko x o); [done|apply Hm|]. apply (sq_unique _ _ Hs _ _ j' j); congruence.
  - assert (Hp := has_predecessor_false _ _ (wm_unblocked _ _ _ _ _ _ Hm) k x Hx).
    rewrite Hp; [done|done|lia].
Qed.

Definition mirrored (now : Z) : db :=
  set_intents (<[o_command_intent_id o := set_i_runtime_sync_state SyncSynced i]> (intents d))
    (set_outbox (<[ko := resolve_outbox DeliveryAccepted "OK" now o]> (outbox d)) d).

Definition acknowledgement : FinalizeCanonicalMirrorRequest :=
  MkMirrorRequest (o_trip_id o) (o_command_intent_id o) ko (i_event_id i)
    (uint64 (o_mutation_sequence o)) (uint64 (i_expected_trip_revision i)) revision plan.

Lemma acknowledgement_settles clk : exists m,
  FinalizeCanonicalMirror clk acknowledgement d = (Ok m, mirrored (clk 0%nat)).
Proof.
  destruct waiting_trip as (Ht & Hq & t & Htr & _). pose proof Hm as [].
  assert (Hids := wm_ids0). rewrite !Forall_cons in Hids. destruct Hids as (H1 & H2 & H3 & H4 & H5 & _).
  destruct wm_range0 as (Hr1 & Hr2 & Hr3).
  assert (Hu1 : uint64 (o_mutation_sequence o) = o_mutation_sequence o)
    by (apply uint64_small; unfold max_int64 in *; lia).
  assert (Hu2 : uint64 (i_expected_trip_revision i) = i_expected_trip_revision i)
    by (apply uint64_small; unfold max_int64 in *; lia).
  assert (Hrows : mirror_rows acknowledgement i o d).
  { constructor; try done. unfold validateCanonicalMirrorFinalization, acknowledgement. simpl.
    rewrite H1, H2, H3, H4. simpl. rewrite Hu1, Hu2, !(proj2 (Z.ltb_ge _ _)) by lia. done. }
  assert (Hid : canonicalMirrorIdentityMatches acknowledgement i = true).
  { unfold canonicalMirrorIdentityMatches. simpl. rewrite wm_revision0, wm_plan0, wm_state0, H5, Hq.
    rewrite Hu1, Hu2, !int64_small by lia.
    rewrite (bool_decide_eq_true_2 (i_event_id i = i_event_id i)), (bool_decide_eq_true_2 (plan = plan)) by done.
    rewrite !Z.eqb_refl. destruct wm_kind0 as [->| ->]; reflexivity. }
  assert (Hb : exists m, mirror_body clk acknowledgement i o d = Ok (Ok m, mirrored (clk 0%nat))).
  { eexists. unfold mirror_body. rewrite wm_sync0, wm_pending0, Hid.
    do 3 (eapply tx_bind_run; [reflexivity|]). eapply tx_bind_run.
    - unfold update_intent. cbn [fm_IntentID acknowledgement intents set_outbox]. rewrite wm_intent0.
      change (intent_check (set_i_runtime_sync_state SyncSynced i)) with (intent_check i).
      rewrite wm_check0. reflexivity.
    - unfold mirrored. cbn [fm_OutboxID acknowledgement outbox set_outbox set_intents intents].
      rewrite (alter_insert_Some _ _ _ _ wm_row0). reflexivity. }
  destruct Hb as [m Hb]. exists m. unfold FinalizeCanonicalMirror.
  by rewrite (mirror_tx_rows _ _ _ _ _ Hrows), Hb.
Qed.

Definition confirmed (now later : Z) : db :=
  set_outbox (update_rows (unconfirmed (o_trip_id o) (o_mutation_sequence o))
    (fun x => set_o_updated_at later (set_o_finalization_confirmed_at (Some later) x))
    (outbox (mirrored now))) (mirrored now).

Lemma confirmation_settles clk now : exists c,
  ConfirmFinalizedMutations clk (o_trip_id o) (uint64 (o_mutation_sequence o)) (mirrored now) =
    Ok (c, confirmed now (clk 0%nat)).
Proof.
  destruct waiting_trip as (Ht & Hq & t & Htr & Hfin). pose proof Hm as [].
  assert (Hids := wm_ids0). rewrite !Forall_cons in Hids. destruct Hids as (H1 & _).
  destruct wm_range0 as (Hr1 & _ & _).
  assert (Hu1 : uint64 (o_mutation_sequence o) = o_mutation_sequence o)
    by (apply uint64_small; unfold max_int64 in *; lia).
  rewrite Hu1. eexists. unfold ConfirmFinalizedMutations. run_tx_step.
  { unfold validateFinalizationConfirmation. rewrite H1. simpl.
    rewrite (proj2 (Z.eqb_neq _ _)), (proj2 (Z.ltb_ge _ _)) by lia. reflexivity. }
  eapply tx_bind_run; [by apply lock_trip_row_ok|]. specialize (wm_column0 t Htr).
  run_tx_step.
  { rewrite uint64_small by (unfold max_int64 in *; lia). by rewrite !(proj2 (Z.ltb_ge _ _)) by lia. }
  run_tx_step; [reflexivity|]. rewrite int64_small by (unfold max_int64 in *; lia). run_tx_step.
  { apply any_row_false. intros k x Hx. destruct (covered _ _ x) eqn:Hc; [|done].
    rewrite (covered_is_resolved (resolve_outbox DeliveryAccepted "OK" now o) k x); done. }
  run_tx_step; [reflexivity|]. rewrite (proj2 (Z.ltb_lt _ _)); [reflexivity|].
  destruct (Z.eq_dec (count_rows (unconfirmed (o_trip_id o) (o_mutation_sequence o)) (outbox (mirrored now))) 0)
    as [Hz|Hz]; [|pose proof (count_rows_nonneg (unconfirmed (o_trip_id o) (o_mutation_sequence o))
                                (outbox (mirrored now))); lia].
  rewrite count_rows_zero, any_row_false in Hz. exfalso.
  specialize (Hz ko (resolve_outbox DeliveryAccepted "OK" now o)). simpl in Hz.
  rewrite lookup_insert_eq in Hz. specialize (Hz eq_refl). revert Hz. unfold unconfirmed, covered. simpl.
  by rewrite bool_decide_eq_true_2, Z.leb_refl, wm_unconfirmed0.
Qed.

Lemma scanned_row row : scan_claimed d (ko, o) = Ok row ->
  cl_ID row = ko /\ cl_CommandIntentID row = o_command_intent_id o /\ cl_TripID row = o_trip_id o /\
  cl_MutationSequence row = uint64 (o_mutation_sequence o) /\ cl_EventID row = i_event_id i /\
  cl_ExpectedTripRevision row = uint64 (i_expected_trip_revision i) /\
  cl_ApplicationOrder row = canonical_first.
Proof.
  unfold scan_claimed. rewrite (wm_intent _ _ _ _ _ _ Hm). intros H. inv_res. split_and!; try done. apply Hm.
Qed.

Lemma lease_found clk holder l :
  leases d !! o_trip_id o = Some l -> uuid_in holder = Some (l_holder_id l) -> holder <> "" ->
  0 < l_runtime_epoch l -> clk 0%nat < l_lease_expires_at l ->
  run_tx (Current clk (o_trip_id o) holder) d = (Ok (runtime_lease (o_trip_id o) l), d).
Proof.
  intros Hl Hh Hn He Hc. pose proof (wm_ids _ _ _ _ _ _ Hm) as Hids. rewrite !Forall_cons in Hids.
  destruct Hids as (Hv & _). unfold run_tx.
  rewrite (proj2 (Current_ok clk (o_trip_id o) holder d (runtime_lease (o_trip_id o) l) d)); [done|].
  exists (o_trip_id o), l. split_and!; try done; [by apply uuid_in_canonical|].
  intros Hz. by rewrite Hz in Hv.
Qed.
End Mirrored.

Lemma verdict_applied row event lease requestID expires revision plan :
  stored_event row = Some event -> cl_ApplicationOrder row = canonical_first ->
  let request := apply_request row event lease requestID expires in
  verdict row requestID (rl_RuntimeEpoch lease) (applied revision plan request) =
  VFinalize (MkEventAcknowledged EVENT_DISPOSITION_ACCEPTED STATUS_CODE_OK false 0 (ev_event_id event)
    (cl_MutationSequence row) 0 true "" plan).
Proof.
  intros Hev Ho. cbv zeta. unfold verdict. simpl. rewrite Ho. simpl. unfold correlated. simpl.
  by rewrite (stored_event_id _ _ Hev), !bool_decide_eq_true_2, Z.eqb_refl, Z.leb_refl.
Qed.

Lemma confirm_runs env config tripID epoch sequence revision plan w (after : (nat -> Z) -> db) :
  undisturbed env ->
  (forall n request, we_exchange env n request = Some (applied revision plan request)) ->
  (forall clk, exists c, ConfirmFinalizedMutations clk tripID sequence (wk_db w) = Ok (c, after clk)) ->
  exists n l, confirm env config tripID epoch sequence w =
    (Ok tt, MkWorker (after (we_clk env (S (S (S (wk_calls w)))))) n l).
Proof.
  intros Hu Hx Hc. unfold confirm, mbind, work_bind, NewRequestID, expires_at, Exchange.
  destruct (ud_random _ Hu (wk_calls w)) as [raw ->]. simpl. rewrite Hx. unfold confirmation_matches. simpl.
  rewrite !bool_decide_eq_true_2, Z.eqb_refl, Z.leb_refl by done. simpl.
  destruct (Hc (we_clk env (S (S (S (wk_calls w)))))) as [c Hrun].
  erewrite (invoke_runs env (CallConfirm tripID sequence)); [|done|].
  2:{ simpl. unfold run_tx. rewrite Hrun. reflexivity. }
  by do 2 eexists.
Qed.

(** Sending a valid row under the lease reaches the finalization. *)
Lemma dispatch_settles env config row event lease revision plan w :
  undisturbed env -> stored_event row = Some event -> cl_ApplicationOrder row = canonical_first ->
  run_tx (Current (we_clk env (wk_calls w)) (cl_TripID row) (dp_LeaseHolder config)) (wk_db w) =
    (Ok lease, wk_db w) ->
  (forall n request, we_exchange env n request = Some (applied revision plan request)) ->
  exists response n l,
    let ack := MkEventAcknowledged EVENT_DISPOSITION_ACCEPTED STATUS_CODE_OK false 0 (ev_event_id event)
                 (cl_MutationSequence row) 0 true "" plan in
    ps_trip_revision response = revision /\
    dispatch env config row w = settle env config row event lease response ack (MkWorker (wk_db w) n l).
Proof.
  intros Hu Hev Ho Hl Hx. destruct (ud_random _ Hu (S (wk_calls w))) as [raw Hraw].
  unfold dispatch. rewrite Hev. unfold mbind, work_bind.
  rewrite (invoke_runs env (CallCurrent (cl_TripID row) (dp_LeaseHolder config)) w _ _ Hu Hl).
  unfold NewRequestID, expires_at, Exchange. simpl. rewrite Hraw. simpl. rewrite Hx.
  pose proof (verdict_applied row event lease (newAuthUUID raw)
    (UnixMilli (we_now env (S (S (wk_calls w))) + dp_AttemptTimeout config)) revision plan Hev Ho) as Hv.
  cbv zeta in Hv. rewrite Hv. do 3 eexists. cbv zeta. split; [|reflexivity]. reflexivity.
Qed.

Lemma settle_runs env config row event lease response ack w m w1 w2 :
  cl_ApplicationOrder row = canonical_first ->
  invoke env (CallMirror (mirror_request row response ack)) w = (Ok m, w1) ->
  confirm env config (cl_TripID row) (rl_RuntimeEpoch lease) (cl_MutationSequence row) w1 = (Ok tt, w2) ->
  settle env config row event lease response ack w = ((true, Ok tt), w2).
Proof.
  intros Ho Hi Hc. unfold settle, mbind, work_bind. rewrite Ho, Hi. unfold mret, work_ret.
  cbn [res_bind]. by rewrite Hc.
Qed.

(** C9: an acknowledged mirror is settled.  In a reachable database, let a
    canonical-first command wait with nothing undelivered before it, let its outbox
    row be claimed and hold a valid event, and let this backend hold the trip's
    lease.  If the planner applies the event and reports the command's revision and
    plan, dispatching the row completes without error: the row is delivered and
    confirmed, the command is synced, and the database is still a reachable one. *)
Theorem mirror_is_delivered {PL : PostgresLaws PG} env config w ko o i revision plan row event l :
  undisturbed env -> reachable (wk_db w) -> waiting_mirror (wk_db w) ko o i revision plan ->
  scan_claimed (wk_db w) (ko, o) = Ok row -> stored_event row = Some event ->
  leases (wk_db w) !! o_trip_id o = Some l -> uuid_in (dp_LeaseHolder config) = Some (l_holder_id l) ->
  dp_LeaseHolder config <> "" -> 0 < l_runtime_epoch l ->
  we_clk env (wk_calls w) 0%nat < l_lease_expires_at l ->
  (forall n request, we_exchange env n request = Some (applied revision plan request)) ->
  exists w' o', dispatch env config row w = ((true, Ok tt), w') /\
    outbox (wk_db w') !! ko = Some o' /\ o_delivery_state o' = DeliveryAccepted /\
    is_Some (o_finalization_confirmed_at o') /\
    intents (wk_db w') !! o_command_intent_id o = Some (set_i_runtime_sync_state SyncSynced i) /\
    reachable (wk_db w').
Proof.
  intros Hu Hr Hm Hs Hev Hl Hh Hn He Hc Hx.
  destruct (scanned_row _ _ _ _ _ _ Hm row Hs) as (E1 & E2 & E3 & E4 & E5 & E6 & E7).
  destruct (dispatch_settles env config row event (runtime_lease (o_trip_id o) l) revision plan w)
    as (response & n & log & Hrev & Hd); [done..| |done|].
  { rewrite E3. by eapply lease_found. }
  cbv zeta in Hd. set (ack := MkEventAcknowledged _ _ _ _ _ _ _ _ _ _) in Hd.
  assert (Hreq : mirror_request row response ack = acknowledgement ko o i revision plan).
  { unfold mirror_request, acknowledgement. by rewrite E1, E2, E3, E4, E5, E6, Hrev. }
  set (now := we_clk env n 0%nat).
  destruct (acknowledgement_settles _ _ _ _ _ _ Hr Hm (we_clk env n)) as [m Hack].
  pose proof (invoke_runs env (CallMirror (acknowledgement ko o i revision plan))
    (MkWorker (wk_db w) n log) _ _ Hu Hack) as Hinv. rewrite <- Hreq in Hinv.
  match type of Hinv with _ = (_, ?x) => set (w2 := x) in Hinv end.
  destruct (confirm_runs env config (o_trip_id o) (uint64 (l_runtime_epoch l))
    (uint64 (o_mutation_sequence o)) revision plan w2
    (fun clk => confirmed (wk_db w) ko o i now (clk 0%nat)) Hu Hx) as (n' & log2 & Hconf).
  { intros clk. by apply (confirmation_settles _ _ _ _ _ _ Hr Hm). }
  set (d' := confirmed _ _ _ _ _ _) in Hconf.
  exists (MkWorker d' n' log2). eexists. split_and!.
  - rewrite Hd. eapply settle_runs; [exact E7|exact Hinv|]. rewrite E3, E4. exact Hconf.
  - simpl. rewrite lookup_update_rows, lookup_insert_eq. simpl. unfold unconfirmed, covered. simpl.
    rewrite bool_decide_eq_true_2, Z.leb_refl, (wm_unconfirmed _ _ _ _ _ _ Hm) by done. reflexivity.
  - done.
  - by eexists.
  - simpl. by rewrite lookup_insert_eq.
  - destruct Hr as (d00 & Hno & Hst). exists d00. split; [done|]. etrans; [exact Hst|].
    etrans; apply rtc_once; [by eapply step_mirror|].
    destruct (confirmation_settles _ _ _ _ _ _ (ex_intro _ d00 (conj Hno Hst)) Hm
      (we_clk env (S (S (S (wk_calls w2))))) now) as [c Hcf].
    by eapply step_confirm.
Qed.

End DispatchProps.
