(* ===== verification/DispatchExamples.v ===== *)
(** * A dispatched edit

    A trip created on an empty server, leased and reordered; the dispatcher claims
    the edit's row and a planner that applies it acknowledges.  The theorems on the
    dispatcher are applied here. *)

From S2P Require Import Prelude GoLib Wire Schema Tables Leases Commands Finalization Mutations Proposals Decisions OutboxStore CanonicalState Canonical CanonicalFacts CanonicalLoad Mirror System PlannerMessages StoredEvent Worker Dispatcher DispatchProps.

(** ** The event *)

Definition ex_event : ApplyTripEvent :=
  MkApplyTripEvent ex_message2 5 None (Some (TripEdited (Some (OperationReorder [ex_activity_b; ex_activity_a])) None)).
Definition ex_wire : bytes := bytes_of_string "reorder".

(** A marshalling that knows this event. *)
#[global] Instance ex_proto : PlannerProto := {
  MarshalEvent e := if decide (e = ex_event) then Some ex_wire else None;
  UnmarshalEvent b := if decide (b = ex_wire) then Some ex_event else None;
  MarshalProposal _ := Some [];
  UnmarshalSnapshotPlan _ := None;
  UnmarshalPlan _ := None
}.
#[global] Instance ex_proto_laws : PlannerProtoLaws ex_proto.
Proof. constructor. intros e b. simpl. case_decide; [|done]. intros [= <-]. subst e. reflexivity. Qed.

Definition ex_payload : bytes :=
  match EncodeStoredEvent ex_event with Ok b => b | Err _ => [] end.

(** ** The database *)

Definition ex_sent_edit : edit :=
  EditReorder (MkReorder (MkEdit ex_trip ex_user ex_intent2 ex_outbox2 ex_message2 ex_message2 ex_plan2 1
    None 8 [Draft ex_activity_b true (Some 0) (Some 60); Draft ex_activity_a false None None]
    (bytes_of_string "{}") ex_payload None (sha256 (bytes_of_string "{}"))
    (bytes_of_string "{}")) [ex_activity_b; ex_activity_a]).

Definition ex_waiting : @db pg_model := committed (run_edit ex_clock5 ex_sent_edit) ex_sys_leased.
Definition ex_dispatched : @db pg_model :=
  (ClaimDue (ex_clock 6000) ∅ ex_holder_b 8 (10 * Second) ex_waiting).2.

Lemma ex_dispatched_reachable : reachable ex_dispatched.
Proof.
  destruct (ex_created_ok "planned" ltac:(vm_compute; reflexivity)) as (c1 & H1 & _).
  destruct (committed_ok (Acquire (ex_clock 0) ex_trip ex_holder_a (10 * Second))
    (ex_created "planned") ltac:(vm_compute; reflexivity)) as [c2 H2].
  destruct (committed_ok (run_edit ex_clock5 ex_sent_edit) ex_sys_leased
    ltac:(vm_compute; reflexivity)) as [c3 H3].
  exists ex_empty. split; [repeat split; reflexivity|].
  eapply rtc_l; [exact (step_create _ _ _ _ _ H1)|].
  eapply rtc_l; [apply step_lease; exact (step_acquire _ _ _ _ _ _ _ _ H2)|].
  eapply rtc_l; [exact (step_edit _ _ _ _ _ H3)|].
  apply rtc_once. eapply (step_claim _ (ex_clock 6000) ∅ ex_holder_b 8 (10 * Second)). apply surjective_pairing.
Qed.

(** ** The environment *)

Definition ex_worker_env : @WorkerEnv pg_model :=
  MkWorkerEnv (fun _ d => d) (fun _ => Works) (fun _ => ex_clock 6000) (fun _ => ∅)
    (fun _ request => Some (applied 2 ex_plan2 request)) (fun _ => Some (replicate 16 Byte.x01))
    (fun _ _ => Some 0) (fun _ => 0).

Definition ex_dispatcher : DispatcherConfig :=
  MkDispatcherConfig ex_holder_b ex_holder_a 8 (10 * Second) (5 * Second) true.

Lemma ex_env_undisturbed : undisturbed ex_worker_env.
Proof. constructor; intros; [reflexivity..|by eexists]. Qed.
Lemma ex_env_honest : honest ex_worker_env.
Proof. intros n d. apply rtc_refl. Qed.

Definition ex_worker : @Worker pg_model := MkWorker ex_dispatched 0 [].

(** A test evaluation decided holds of the row. *)
Lemma checked {A} (f : A -> bool) x a : option_map f x = Some true -> x = Some a -> f a = true.
Proof. intros H ->. by injection H. Qed.

(** What evaluation decides of the claimed row and its command. *)
Definition ex_mirror_waits (blocked : bool) (o : @outbox_row pg_model) (i : @intent pg_model) : bool :=
  bool_decide (o_delivery_state o = DeliveryPending) && is_null (o_finalization_confirmed_at o) &&
  negb blocked && bool_decide (o_command_intent_id o = ex_intent2) &&
  bool_decide (o_trip_id o = ex_trip) && (o_mutation_sequence o =? 2) &&
  bool_decide (i_application_order i = canonical_first) &&
  bool_decide (i_command_kind i = CommandTripEdited) && bool_decide (i_state i = IntentApplied) &&
  bool_decide (i_runtime_sync_state i = SyncPending) && intent_check i &&
  bool_decide (i_resulting_trip_revision i = Some 2) &&
  bool_decide (i_resulting_current_plan_id i = Some ex_plan2) &&
  bool_decide (i_event_id i = ex_message2) && (i_expected_trip_revision i =? 1).

Lemma ex_mirror_waits_spec blocked o i : ex_mirror_waits blocked o i = true ->
  blocked = false /\ o_command_intent_id o = ex_intent2 /\ o_trip_id o = ex_trip /\
  forall d, outbox d !! ex_outbox2 = Some o -> intents d !! ex_intent2 = Some i -> has_predecessor o d = false ->
    (forall t, trips d !! ex_trip = Some t -> t_finalized_mutation_sequence t <= max_int64) ->
    waiting_mirror d ex_outbox2 o i 2 ex_plan2.
Proof.
  unfold ex_mirror_waits. intros H. inv_res. zbool. split_and!; [done..|]. intros d Ho Hi Hp Ht.
  constructor; try done; try congruence; [by destruct (o_finalization_confirmed_at o)|by left| | |].
  - rewrite H10, H11, H1. repeat constructor.
  - unfold max_int64. lia.
  - intros t. rewrite H10. apply Ht.
Qed.

Definition ex_mirror_rows : option bool :=
  o ← outbox ex_dispatched !! ex_outbox2;
  i ← intents ex_dispatched !! ex_intent2;
  Some (ex_mirror_waits (has_predecessor o ex_dispatched) o i).

Lemma ex_waiting_mirror : exists o i,
  waiting_mirror ex_dispatched ex_outbox2 o i 2 ex_plan2 /\ o_trip_id o = ex_trip.
Proof.
  assert (H : ex_mirror_rows = Some true) by (vm_compute; reflexivity).
  assert (Ht : option_map (fun t => t_finalized_mutation_sequence t <=? max_int64)
            (trips ex_dispatched !! ex_trip) = Some true) by (vm_compute; reflexivity).
  unfold ex_mirror_rows in H.
  destruct (outbox ex_dispatched !! ex_outbox2) as [o|] eqn:Ho; [|discriminate H].
  destruct (intents ex_dispatched !! ex_intent2) as [i|] eqn:Hi; [|discriminate H].
  injection H as H. exists o, i. apply ex_mirror_waits_spec in H as (Hp & _ & HT & Hw). split; [|exact HT].
  apply (Hw ex_dispatched Ho Hi Hp). intros t Htr. apply Z.leb_le.
  exact (checked _ _ _ Ht Htr).
Qed.

(** ** Witnesses *)

Definition ex_row_decodes (o : @outbox_row pg_model) : bool :=
  match scan_claimed ex_dispatched (ex_outbox2, o) with
  | Ok row => negb (is_null (stored_event row))
  | Err _ => false
  end.

Lemma ex_claimed_row o : outbox ex_dispatched !! ex_outbox2 = Some o ->
  exists row event, scan_claimed ex_dispatched (ex_outbox2, o) = Ok row /\ stored_event row = Some event.
Proof.
  intros Ho. assert (H : option_map ex_row_decodes (outbox ex_dispatched !! ex_outbox2) = Some true)
    by (vm_compute; reflexivity).
  apply (fun H => checked _ _ _ H Ho) in H. unfold ex_row_decodes in H.
  destruct (scan_claimed ex_dispatched (ex_outbox2, o)) as [row|e]; [|discriminate H]. exists row.
  destruct (stored_event row) as [event|]; [|discriminate H]. exists event. split; reflexivity.
Qed.

Definition ex_lease_held (l : lease) : bool :=
  bool_decide (l_holder_id l = ex_holder_a) && (0 <? l_runtime_epoch l) && (6000 <? l_lease_expires_at l).

Lemma ex_lease_row : exists l, leases ex_dispatched !! ex_trip = Some l /\ l_holder_id l = ex_holder_a /\
  0 < l_runtime_epoch l /\ 6000 < l_lease_expires_at l.
Proof.
  assert (H : option_map ex_lease_held (leases ex_dispatched !! ex_trip) = Some true)
    by (vm_compute; reflexivity).
  destruct (leases ex_dispatched !! ex_trip) as [l|] eqn:E; [|discriminate H].
  apply (fun H => checked ex_lease_held (Some l) l H eq_refl) in H. unfold ex_lease_held in H. apply andb_true_iff in H as [[H1%bool_decide_eq_true H2%Z.ltb_lt]%andb_true_iff H3%Z.ltb_lt].
  exists l. split; [reflexivity|]. split; [exact H1|]. split; [exact H2|exact H3].
Qed.

Lemma mirror_is_delivered_witness : exists row w',
  dispatch ex_worker_env ex_dispatcher row ex_worker = ((true, Ok tt), w') /\ reachable (wk_db w').
Proof.
  destruct ex_waiting_mirror as (o & i & Hm & HT).
  destruct (ex_claimed_row o (wm_row _ _ _ _ _ _ Hm)) as (row & event & Hs & Hev).
  destruct ex_lease_row as (l & Hl & Hh & He & Hx). rewrite <- HT in Hl.
  assert (Hholder : @uuid_in pg_model ex_holder_a = Some (l_holder_id l)) by (rewrite Hh; vm_compute; reflexivity).
  destruct (mirror_is_delivered ex_worker_env ex_dispatcher ex_worker ex_outbox2 o i 2 ex_plan2 row event l
    ex_env_undisturbed ex_dispatched_reachable Hm Hs Hev Hl Hholder ltac:(discriminate) He Hx
    (fun n request => eq_refl)) as (w' & o' & Hd & _ & _ & _ & _ & Hr).
  exists row, w'. split; [exact Hd|exact Hr].
Defined.

#[local] Abbreviation ex_pass := (RunOnce ex_worker_env ex_dispatcher (MkWorker ex_waiting 0 [])).


Definition ex_finalization : Finalization :=
  MkFinalization ex_trip ex_intent2 ex_outbox2 ex_message2 2 true.

Lemma ex_pass_finalizes : exists l1 e l2, wk_log ex_pass.2 = l1 ++ e :: l2 /\ finalizes e = Some ex_finalization.
Proof.
  assert (H : (e ← wk_log ex_pass.2 !! 4%nat; finalizes e) = Some ex_finalization) by (vm_compute; reflexivity).
  destruct (wk_log ex_pass.2 !! 4%nat) as [e|] eqn:E; [|discriminate H].
  exists (take 4 (wk_log ex_pass.2)), e, (drop 5 (wk_log ex_pass.2)). split; [|exact H].
  symmetry. apply take_drop_middle. exact E.
Qed.

Lemma finalized_on_acknowledgement_witness : exists log, acknowledged log ex_holder_a ex_finalization.
Proof.
  destruct ex_pass_finalizes as (l1 & e & l2 & Hl & Hf). exists l1.
  exact (finalized_on_acknowledgement ex_worker_env ex_dispatcher ex_waiting 0 l1 e l2 ex_finalization
    ex_env_honest Hl Hf).
Defined.
