(* ===== verification/Supervisor.v ===== *)
(** * The runtime supervisor

    Models [dispatch/runtime_supervisor.go]: which trips have a planner runtime in
    this process.  Every section the code runs under [mu] is one function of the
    supervisor's fields; between them a goroutine acquires the lease and bootstraps
    the planner, or renews the lease.  [sup_step] is any of these sections by any
    goroutine, so that a run of it is an interleaving of the code. *)

From S2P Require Import Prelude GoLib Wire Schema Tables Leases Worker.

(** ** Fields *)

Record RuntimeVersions := MkVersions {
  rv_RuntimeEpoch : Z;
  rv_PlannerStateVersion : Z;
  rv_AcceptedMutationSequence : Z;
  rv_AcceptedObservationSequence : Z
}.

(** [wait.result] once [wait.done] is closed. *)
Inductive ActivationResult := Activated | ActivationClosed | ActivationFailed (e : err).

(** A context with its cancel function and the [activationWait] made with it share
    an identity.  [su_panicked] records the close of a closed channel. *)
Record Supervisor := MkSupervisor {
  su_active : gmap string nat;
  su_activating : gmap string nat;
  su_state : gmap string RuntimeVersions;
  su_nextObservation : gmap string Z;
  su_closed : bool;
  su_fresh : nat;
  su_done : gmap nat ActivationResult;
  su_cancelled : gset nat;
  su_panicked : bool
}.

(** The condition of the constructor; the stores are never nil. *)
Definition valid_supervisor (holderID : string) (leaseDuration renewalMargin maxActiveTrips : Z) : bool :=
  validCanonicalUUID holderID && (0 <? leaseDuration) && (0 <? renewalMargin) &&
  (renewalMargin <? leaseDuration) && (0 <? maxActiveTrips).

Definition NewRuntimeSupervisor : Supervisor := MkSupervisor ∅ ∅ ∅ ∅ false 0 ∅ ∅ false.

Definition set_maps (active activating : gmap string nat) (state : gmap string RuntimeVersions)
    (next : gmap string Z) (s : Supervisor) : Supervisor :=
  MkSupervisor active activating state next (su_closed s) (su_fresh s) (su_done s) (su_cancelled s)
    (su_panicked s).

(** [wait.result = r; close(wait.done)]. *)
Definition close_wait (n : nat) (r : ActivationResult) (s : Supervisor) : Supervisor :=
  MkSupervisor (su_active s) (su_activating s) (su_state s) (su_nextObservation s) (su_closed s)
    (su_fresh s) (<[n := r]> (su_done s)) (su_cancelled s)
    (su_panicked s || bool_decide (is_Some (su_done s !! n))).

(** [cancel()]. *)
Definition cancel (n : nat) (s : Supervisor) : Supervisor :=
  MkSupervisor (su_active s) (su_activating s) (su_state s) (su_nextObservation s) (su_closed s)
    (su_fresh s) (su_done s) ({[n]} ∪ su_cancelled s) (su_panicked s).

(** ** [Activate] *)

Inductive BeginResult := BeginClosed | BeginActive | BeginWaits (n : nat) | BeginCapacity | Begun (n : nat).

(** Up to the first unlock: refused, already active, waiting for another
    activation, or begun. *)
Definition activate_begin (maxActiveTrips : Z) (tripID : string) (s : Supervisor)
  : BeginResult * Supervisor :=
  if su_closed s then (BeginClosed, s)
  else match su_active s !! tripID with
  | Some _ =>
      match su_activating s !! tripID with
      | Some n => (BeginWaits n, s)
      | None => (BeginActive, s)
      end
  | None =>
      if maxActiveTrips <=? Z.of_nat (size (su_active s)) then (BeginCapacity, s)
      else
        let n := su_fresh s in
        (Begun n, MkSupervisor (<[tripID := n]> (su_active s)) (<[tripID := n]> (su_activating s))
           (su_state s) (su_nextObservation s) (su_closed s) (S n) (su_done s) (su_cancelled s)
           (su_panicked s))
  end.

(** The lease was not acquired or the bootstrap failed. *)
Definition activate_failed (tripID : string) (n : nat) (e : err) (s : Supervisor) : Supervisor :=
  let s := cancel n s in
  if bool_decide (su_activating s !! tripID = Some n) then
    close_wait n (ActivationFailed e)
      (set_maps (delete tripID (su_active s)) (delete tripID (su_activating s)) (su_state s)
         (su_nextObservation s) s)
  else s.

(** The bootstrap succeeded; [true] if the renewal starts. *)
Definition activate_finish (tripID : string) (n : nat) (epoch accepted : Z) (s : Supervisor)
  : bool * Supervisor :=
  if negb (bool_decide (su_activating s !! tripID = Some n)) then (false, cancel n s)
  else if su_closed s then
    (false, cancel n (close_wait n ActivationClosed
       (set_maps (delete tripID (su_active s)) (delete tripID (su_activating s)) (su_state s)
          (su_nextObservation s) s)))
  else
    (true, close_wait n Activated
       (set_maps (su_active s) (delete tripID (su_activating s))
          (<[tripID := MkVersions epoch 0 accepted 0]> (su_state s))
          (<[tripID := 0]> (su_nextObservation s)) s)).

(** ** Deactivation *)

Definition deactivate (tripID : string) (s : Supervisor) : Supervisor :=
  match su_active s !! tripID with
  | Some n =>
      cancel n (set_maps (delete tripID (su_active s)) (su_activating s) (delete tripID (su_state s))
                  (delete tripID (su_nextObservation s)) s)
  | None => s
  end.

(** What the first section of [Deactivate] reads: the epoch to release, or whether
    the current lease has to be looked up. *)
Inductive ReleasePlan := ReleaseEpoch (epoch : Z) | ReleaseCurrent | ReleaseNothing.
Definition release_plan (tripID : string) (s : Supervisor) : ReleasePlan :=
  match su_state s !! tripID with
  | Some v => ReleaseEpoch (rv_RuntimeEpoch v)
  | None => if bool_decide (is_Some (su_activating s !! tripID)) then ReleaseCurrent else ReleaseNothing
  end.

(** [Deactivate] between its sections: whether it goes on to [deactivate], given
    what [Release] and [Current] return. *)
Definition released (r : result unit) : bool :=
  match r with Ok _ | Err ErrLeaseLost => true | Err _ => false end.
Definition deactivation_goes_on (plan : ReleasePlan) (current : result Z) (release : Z -> result unit) : bool :=
  match plan with
  | ReleaseEpoch epoch => released (release epoch)
  | ReleaseCurrent =>
      match current with
      | Ok epoch => released (release epoch)
      | Err ErrLeaseLost => true
      | Err _ => false
      end
  | ReleaseNothing => true
  end.

(** ** Versions *)

Definition ActiveTripCount (s : Supervisor) : Z := Z.of_nat (size (su_active s)).
Definition RuntimeState (tripID : string) (s : Supervisor) : option RuntimeVersions := su_state s !! tripID.

Inductive SupervisorError := ErrRuntimeInactive | ErrRuntimeEpoch.

Definition ReserveObservation (tripID : string) (s : Supervisor)
  : option (RuntimeVersions * Z) * Supervisor :=
  match su_state s !! tripID with
  | None => (None, s)
  | Some v =>
      let next := uint64 (default 0 (su_nextObservation s !! tripID) + 1) in
      (Some (v, next), set_maps (su_active s) (su_activating s) (su_state s)
                         (<[tripID := next]> (su_nextObservation s)) s)
  end.

(** The larger of the old and the reported version. *)
Definition raise (old new : Z) : Z := if old <? new then new else old.

Definition commit_versions (tripID : string) (epoch : Z) (f : RuntimeVersions -> RuntimeVersions)
    (s : Supervisor) : option SupervisorError * Supervisor :=
  match su_state s !! tripID with
  | None => (Some ErrRuntimeInactive, s)
  | Some v =>
      if negb (rv_RuntimeEpoch v =? epoch) then (Some ErrRuntimeEpoch, s)
      else (None, set_maps (su_active s) (su_activating s) (<[tripID := f v]> (su_state s))
                    (su_nextObservation s) s)
  end.

Definition CommitObservation (tripID : string) (epoch observation mutation version : Z)
  : Supervisor -> option SupervisorError * Supervisor :=
  commit_versions tripID epoch (fun v =>
    MkVersions (rv_RuntimeEpoch v) (raise (rv_PlannerStateVersion v) version)
      (raise (rv_AcceptedMutationSequence v) mutation)
      (raise (rv_AcceptedObservationSequence v) observation)).

Definition CommitMutation (tripID : string) (epoch mutation version : Z)
  : Supervisor -> option SupervisorError * Supervisor :=
  commit_versions tripID epoch (fun v =>
    MkVersions (rv_RuntimeEpoch v) (raise (rv_PlannerStateVersion v) version)
      (raise (rv_AcceptedMutationSequence v) mutation) (rv_AcceptedObservationSequence v)).

(** ** [Close] *)

(** The loops over [active] and [activating]. *)
Definition close_active (s : Supervisor) : Supervisor :=
  foldr (fun kv s => cancel kv.2 (set_maps (delete kv.1 (su_active s)) (su_activating s)
                        (delete kv.1 (su_state s)) (delete kv.1 (su_nextObservation s)) s))
    s (map_to_list (su_active s)).
Definition close_activating (s : Supervisor) : Supervisor :=
  foldr (fun kv s => close_wait kv.2 ActivationClosed
                       (set_maps (su_active s) (delete kv.1 (su_activating s)) (su_state s)
                          (su_nextObservation s) s))
    s (map_to_list (su_activating s)).
Definition mark_closed (s : Supervisor) : Supervisor :=
  MkSupervisor (su_active s) (su_activating s) (su_state s) (su_nextObservation s) true (su_fresh s)
    (su_done s) (su_cancelled s) (su_panicked s).
Definition CloseSupervisor (s : Supervisor) : Supervisor :=
  if su_closed s then s else close_activating (close_active (mark_closed s)).

(** ** Goroutines *)

(** An activation between its sections, and a renewal with its epoch. *)
Inductive Goroutine := Bootstrapping (tripID : string) | Renewing (tripID : string) (epoch : Z).

Record Process := MkProcess { pr_sup : Supervisor; pr_threads : gmap nat Goroutine }.
Definition new_process : Process := MkProcess NewRuntimeSupervisor ∅.

Inductive Action :=
| DoBegin (tripID : string) (r : BeginResult)
| DoFail (n : nat) (tripID : string) (e : err)
| DoFinish (n : nat) (tripID : string) (epoch accepted : Z)
| DoRenewalEnds (n : nat)
| DoLeaseLost (n : nat) (tripID : string)
| DoDeactivate (tripID : string)
| DoReserve (tripID : string) (answer : option (RuntimeVersions * Z))
| DoCommitObservation (tripID : string) (epoch observation mutation version : Z)
| DoCommitMutation (tripID : string) (epoch mutation version : Z)
| DoClose.

Section Supervisor.
Context (maxActiveTrips : Z).

(** One section of one goroutine.  A renewal ends when its context is done, which is
    cancelled by the supervisor or with the context [Activate] was called with, and
    may as well be in [Renew], which then fails. *)
Inductive sup_step : Process -> Action -> Process -> Prop :=
| sup_begin s th tripID n s' :
    activate_begin maxActiveTrips tripID s = (Begun n, s') ->
    sup_step (MkProcess s th) (DoBegin tripID (Begun n)) (MkProcess s' (<[n := Bootstrapping tripID]> th))
| sup_refused s th tripID r s' :
    activate_begin maxActiveTrips tripID s = (r, s') -> (forall n, r <> Begun n) ->
    sup_step (MkProcess s th) (DoBegin tripID r) (MkProcess s' th)
| sup_fail s th n tripID e :
    th !! n = Some (Bootstrapping tripID) ->
    sup_step (MkProcess s th) (DoFail n tripID e) (MkProcess (activate_failed tripID n e s) (delete n th))
| sup_finish s th n tripID epoch accepted started s' :
    th !! n = Some (Bootstrapping tripID) -> activate_finish tripID n epoch accepted s = (started, s') ->
    sup_step (MkProcess s th) (DoFinish n tripID epoch accepted)
      (MkProcess s' (if started then <[n := Renewing tripID epoch]> th else delete n th))
| sup_renewal_ends s th n tripID epoch :
    th !! n = Some (Renewing tripID epoch) ->
    sup_step (MkProcess s th) (DoRenewalEnds n) (MkProcess s (delete n th))
| sup_lease_lost s th n tripID epoch :
    th !! n = Some (Renewing tripID epoch) ->
    sup_step (MkProcess s th) (DoLeaseLost n tripID) (MkProcess (deactivate tripID s) (delete n th))
| sup_deactivate s th tripID :
    sup_step (MkProcess s th) (DoDeactivate tripID) (MkProcess (deactivate tripID s) th)
| sup_reserve s th tripID r s' :
    ReserveObservation tripID s = (r, s') ->
    sup_step (MkProcess s th) (DoReserve tripID r) (MkProcess s' th)
| sup_commit_observation s th tripID epoch observation mutation version r s' :
    CommitObservation tripID epoch observation mutation version s = (r, s') ->
    sup_step (MkProcess s th) (DoCommitObservation tripID epoch observation mutation version)
      (MkProcess s' th)
| sup_commit_mutation s th tripID epoch mutation version r s' :
    CommitMutation tripID epoch mutation version s = (r, s') ->
    sup_step (MkProcess s th) (DoCommitMutation tripID epoch mutation version) (MkProcess s' th)
| sup_close s th : sup_step (MkProcess s th) DoClose (MkProcess (CloseSupervisor s) th).

(** A run with its actions. *)
Inductive sup_run : Process -> list Action -> Process -> Prop :=
| run_nil p : sup_run p [] p
| run_cons p a p' l p'' : sup_step p a p' -> sup_run p' l p'' -> sup_run p (a :: l) p''.
End Supervisor.
