(* ===== verification/SupervisorProps.v ===== *)
(** * Properties of the runtime supervisor *)

From S2P Require Import Prelude GoLib Schema Tables Leases Worker Supervisor.

(** ** What the supervisor keeps in every interleaving

    [sup_inv] holds in every run: the capacity, the emptiness of a closed
    supervisor, and the discipline of the channels.  [runtime_inv] holds in the runs
    without [Deactivate]: the versions of a trip are there exactly while its runtime
    is active, and every activation has the goroutine that will end its wait. *)

Create HintDb sup discriminated.

(** ** [Close] *)

Lemma lookup_delete_all {A B} (l : list (string * B)) (m : gmap string A) k :
  foldr (fun kv m => delete kv.1 m) m l !! k = if bool_decide (k ∈ l.*1) then None else m !! k.
Proof.
  induction l as [|[k' b] l IH]; simpl; [done|]. rewrite lookup_delete, IH.
  repeat case_decide; repeat case_bool_decide; set_solver.
Qed.

Lemma delete_all_keys {A} (m : gmap string A) :
  foldr (fun kv m => delete kv.1 m) m (map_to_list m) = ∅.
Proof.
  apply map_empty. intros k. rewrite lookup_delete_all. case_bool_decide as Hk; [done|].
  destruct (m !! k) as [a|] eqn:E; [|done]. destruct Hk. apply list_elem_of_fmap. exists (k, a).
  by rewrite elem_of_map_to_list.
Qed.

Lemma close_active_maps s :
  su_active (close_active s) = ∅ /\ su_activating (close_active s) = su_activating s /\
  (forall t, su_state (close_active s) !! t = if bool_decide (is_Some (su_active s !! t)) then None else su_state s !! t) /\
  (forall t, su_nextObservation (close_active s) !! t =
     if bool_decide (is_Some (su_active s !! t)) then None else su_nextObservation s !! t) /\
  su_closed (close_active s) = su_closed s /\ su_fresh (close_active s) = su_fresh s /\
  su_done (close_active s) = su_done s /\ su_panicked (close_active s) = su_panicked s.
Proof.
  assert (Hg : forall l s, let s' := foldr (fun kv s => cancel kv.2 (set_maps (delete kv.1 (su_active s))
      (su_activating s) (delete kv.1 (su_state s)) (delete kv.1 (su_nextObservation s)) s)) s l in
    su_active s' = foldr (fun kv m => delete kv.1 m) (su_active s) l /\
    su_activating s' = su_activating s /\
    su_state s' = foldr (fun kv m => delete kv.1 m) (su_state s) l /\
    su_nextObservation s' = foldr (fun kv m => delete kv.1 m) (su_nextObservation s) l /\
    su_closed s' = su_closed s /\ su_fresh s' = su_fresh s /\
    su_done s' = su_done s /\ su_panicked s' = su_panicked s).
  { induction l as [|kv l IH]; intros s0; simpl; [done|].
    destruct (IH s0) as (-> & -> & -> & -> & -> & -> & -> & ->). done. }
  unfold close_active. destruct (Hg (map_to_list (su_active s)) s) as (-> & -> & -> & -> & -> & -> & -> & ->).
  assert (Hk : forall t, t ∈ (map_to_list (su_active s)).*1 <-> is_Some (su_active s !! t)).
  { intros t. rewrite list_elem_of_fmap. split.
    - intros ([k n] & -> & Hin%elem_of_map_to_list). by exists n.
    - intros [n Hn]. exists (t, n). by rewrite elem_of_map_to_list. }
  split_and!; try done; [apply delete_all_keys|..]; intros t; rewrite lookup_delete_all;
    by rewrite (bool_decide_ext _ _ (Hk t)).
Qed.

Lemma close_activating_maps s :
  (forall t t' n, su_activating s !! t = Some n -> su_activating s !! t' = Some n -> t = t') ->
  (forall t n, su_activating s !! t = Some n -> su_done s !! n = None) ->
  su_active (close_activating s) = su_active s /\ su_activating (close_activating s) = ∅ /\
  su_state (close_activating s) = su_state s /\
  su_nextObservation (close_activating s) = su_nextObservation s /\
  su_closed (close_activating s) = su_closed s /\ su_fresh (close_activating s) = su_fresh s /\
  su_panicked (close_activating s) = su_panicked s /\
  (forall n, su_done (close_activating s) !! n = None <->
     su_done s !! n = None /\ forall t, su_activating s !! t <> Some n).
Proof.
  intros Hinj Hopen.
  assert (Hg : forall l, NoDup (l.*2) -> Forall (fun kv => su_done s !! kv.2 = None) l ->
    let s' := foldr (fun kv s => close_wait kv.2 ActivationClosed (set_maps (su_active s)
      (delete kv.1 (su_activating s)) (su_state s) (su_nextObservation s) s)) s l in
    su_active s' = su_active s /\
    su_activating s' = foldr (fun kv m => delete kv.1 m) (su_activating s) l /\
    su_state s' = su_state s /\ su_nextObservation s' = su_nextObservation s /\
    su_closed s' = su_closed s /\ su_fresh s' = su_fresh s /\ su_panicked s' = su_panicked s /\
    (forall n, su_done s' !! n = None <-> su_done s !! n = None /\ n ∉ l.*2)).
  { induction l as [|[t n] l IH]; intros Hnd Hf; simpl; [set_solver|].
    apply NoDup_cons in Hnd as [Hn Hnd]. apply Forall_cons in Hf as [Hd Hf].
    destruct (IH Hnd Hf) as (-> & -> & -> & -> & -> & -> & -> & Hdone).
    split_and!; try done.
    - rewrite bool_decide_eq_false_2; [by rewrite orb_false_r|].
      intros [x Hx]. by rewrite (proj2 (Hdone n)) in Hx.
    - intros m. rewrite lookup_insert. case_decide as E.
      + subst m. set_solver.
      + rewrite Hdone. set_solver. }
  unfold close_activating.
  destruct (Hg (map_to_list (su_activating s))) as (-> & -> & -> & -> & -> & -> & -> & Hdone).
  - apply NoDup_fmap_2_strong; [|apply NoDup_map_to_list].
    intros [t n] [t' n'] H1%elem_of_map_to_list H2%elem_of_map_to_list. simpl. intros <-.
    f_equal. by eapply Hinj.
  - apply Forall_forall. intros [t n] Ht%elem_of_map_to_list. by eapply Hopen.
  - split_and!; try done; [apply delete_all_keys|]. intros n. rewrite Hdone. apply and_iff_compat_l.
    rewrite list_elem_of_fmap. split.
    + intros Hn t Ht. apply Hn. exists (t, n). by rewrite elem_of_map_to_list.
    + intros Hn ([t n'] & -> & Ht%elem_of_map_to_list). by eapply Hn.
Qed.

Lemma close_activating_state s :
  su_state (close_activating s) = su_state s /\ su_nextObservation (close_activating s) = su_nextObservation s.
Proof. unfold close_activating. induction (map_to_list (su_activating s)) as [|kv l IH]; simpl; [done|exact IH]. Qed.

(** ** Every run *)

Record sup_inv (max : Z) (p : Process) : Prop := {
  si_capacity : Z.of_nat (size (su_active (pr_sup p))) <= max;
  si_closed : su_closed (pr_sup p) = true ->
    su_active (pr_sup p) = ∅ /\ su_activating (pr_sup p) = ∅;
  si_panic : su_panicked (pr_sup p) = false;
  si_open : forall t n, su_activating (pr_sup p) !! t = Some n ->
    (n < su_fresh (pr_sup p))%nat /\ su_done (pr_sup p) !! n = None;
  si_unique : forall t t' n, su_activating (pr_sup p) !! t = Some n ->
    su_activating (pr_sup p) !! t' = Some n -> t = t';
  si_done : forall n, is_Some (su_done (pr_sup p) !! n) -> (n < su_fresh (pr_sup p))%nat;
  si_threads : forall n, is_Some (pr_threads p !! n) -> (n < su_fresh (pr_sup p))%nat
}.

Lemma sup_inv_new max : 0 <= max -> sup_inv max new_process.
Proof. intros H. constructor; simpl; try done; intros; simplify_map_eq; by destruct H0. Qed.

(** Ending the activation that is registered for a trip. *)
Lemma sup_inv_ends max s th th' t n r active' st nx :
  sup_inv max (MkProcess s th) -> su_activating s !! t = Some n ->
  (size active' <= size (su_active s))%nat -> (su_closed s = true -> active' = ∅) ->
  (forall m, is_Some (th' !! m) -> is_Some (th !! m)) ->
  sup_inv max (MkProcess (close_wait n r (set_maps active' (delete t (su_activating s)) st nx s)) th').
Proof.
  intros [Hc Hcl Hp Ho Hu Hd Ht] Hn Hs Hs' Hth. simpl in *. destruct (Ho t n Hn) as [Hlt Hnone].
  constructor; simpl.
  - lia.
  - intros H. split; [by apply Hs'|]. destruct (Hcl H) as [_ ->]. by rewrite delete_empty.
  - rewrite Hp, bool_decide_eq_false_2; [done|]. rewrite Hnone. by intros [].
  - intros t' m [Hne Hm]%lookup_delete_Some. destruct (Ho t' m Hm) as [? Hnm]. split; [done|].
    rewrite lookup_insert_ne; [done|]. intros <-. by destruct (Hne (Hu t t' n Hn Hm)).
  - intros t1 t2 m [_ H1]%lookup_delete_Some [_ H2]%lookup_delete_Some. by eapply Hu.
  - intros m. rewrite lookup_insert. case_decide; [by subst|]. apply Hd.
  - intros m Hm. apply Ht. by apply Hth.
Qed.

(** A step that touches neither the channels nor [activating]. *)
Lemma sup_inv_same max s th s' th' :
  sup_inv max (MkProcess s th) -> (size (su_active s') <= size (su_active s))%nat ->
  (su_closed s = true -> su_active s = ∅ -> su_active s' = ∅) ->
  su_activating s' = su_activating s -> su_closed s' = su_closed s -> su_fresh s' = su_fresh s ->
  su_done s' = su_done s -> su_panicked s' = su_panicked s ->
  (forall m, is_Some (th' !! m) -> is_Some (th !! m)) -> sup_inv max (MkProcess s' th').
Proof.
  intros [Hc Hcl Hp Ho Hu Hd Ht] Hs Hs' Ha Hc' Hf Hdn Hp' Hth. simpl in *.
  constructor; simpl; rewrite ?Ha, ?Hc', ?Hf, ?Hdn, ?Hp'; try done; [lia| |].
  - intros H. destruct (Hcl H) as [? ?]. split; [by apply Hs'|done].
  - intros m Hm. apply Ht. by apply Hth.
Qed.

Lemma deleted_thread (n : nat) (th : gmap nat Goroutine) m : is_Some (delete n th !! m) -> is_Some (th !! m).
Proof. intros [x [_ Hx]%lookup_delete_Some]. by exists x. Qed.
Lemma updated_thread (n : nat) g (th : gmap nat Goroutine) m :
  is_Some (th !! n) -> is_Some (<[n := g]> th !! m) -> is_Some (th !! m).
Proof. intros Hn. rewrite lookup_insert. case_decide; by subst. Qed.
#[export] Hint Resolve deleted_thread updated_thread : sup.

Lemma size_delete_le (m : gmap string nat) t : (size (delete t m) <= size m)%nat.
Proof. rewrite map_size_delete. case_match; unfold id; lia. Qed.
#[export] Hint Resolve size_delete_le : sup.

Lemma deactivate_inv max s th t th' :
  sup_inv max (MkProcess s th) -> (forall m, is_Some (th' !! m) -> is_Some (th !! m)) ->
  sup_inv max (MkProcess (deactivate t s) th').
Proof.
  intros H Hth. unfold deactivate. destruct (su_active s !! t) as [n|] eqn:E;
    eapply sup_inv_same; try done; simpl; [apply size_delete_le|].
  intros _ He. by rewrite He in E.
Qed.

Lemma begin_inv max s th t n s' :
  sup_inv max (MkProcess s th) -> activate_begin max t s = (Begun n, s') ->
  sup_inv max (MkProcess s' (<[n := Bootstrapping t]> th)).
Proof.
  intros [Hc Hcl Hp Ho Hu Hd Ht]. simpl in *. unfold activate_begin.
  destruct (su_closed s) eqn:Ecl; [done|]. destruct (su_active s !! t) eqn:Ea; [by destruct (su_activating s !! t)|].
  destruct (_ <=? _) eqn:Em; [done|]. intros [= <- <-]. zbool. constructor; simpl; try done.
  - rewrite map_size_insert_None by done. lia.
  - intros t' m [[<- <-]|[Hne Hm]]%lookup_insert_Some.
    + split; [lia|]. destruct (su_done s !! su_fresh s) eqn:E; [|done].
      assert (su_fresh s < su_fresh s)%nat by (apply Hd; by eexists). lia.
    + destruct (Ho t' m Hm). split; [lia|done].
  - intros t1 t2 m [[<- <-]|[? H1]]%lookup_insert_Some [[<- E]|[? H2]]%lookup_insert_Some; try done.
    + destruct (Ho t2 _ H2). lia.
    + destruct (Ho t1 _ H1). lia.
    + by eapply Hu.
  - intros m Hm. specialize (Hd m Hm). lia.
  - intros m Hm. rewrite lookup_insert in Hm. case_decide; [lia|]. specialize (Ht m Hm). lia.
Qed.

Lemma finish_inv max s th t n epoch accepted started s' :
  sup_inv max (MkProcess s th) -> th !! n = Some (Bootstrapping t) ->
  activate_finish t n epoch accepted s = (started, s') ->
  sup_inv max (MkProcess s' (if started then <[n := Renewing t epoch]> th else delete n th)).
Proof.
  intros H Hn. unfold activate_finish. case_bool_decide as Ha; simpl.
  - destruct (su_closed s) eqn:Ecl; intros [= <- <-].
    + eapply (sup_inv_same max (close_wait n ActivationClosed (set_maps (delete t (su_active s))
        (delete t (su_activating s)) (su_state s) (su_nextObservation s) s)) (delete n th)); try done.
      eapply sup_inv_ends; try done; eauto with sup. intros Hc. destruct (si_closed _ _ H Hc) as [E _].
      simpl in E. rewrite E. by rewrite delete_empty.
    + eapply sup_inv_ends; try done; [by rewrite Ecl|]. intros m. apply updated_thread. by eexists.
  - intros [= <- <-]. eapply sup_inv_same; try done. eauto with sup.
Qed.

Lemma close_inv max s th : sup_inv max (MkProcess s th) -> sup_inv max (MkProcess (CloseSupervisor s) th).
Proof.
  intros H. unfold CloseSupervisor. destruct (su_closed s) eqn:E; [done|].
  destruct H as [Hc Hcl Hp Ho Hu Hd Ht]. simpl in *.
  destruct (close_active_maps (mark_closed s)) as (A1 & A2 & _ & _ & A5 & A6 & A7 & A8).
  destruct (close_activating_maps (close_active (mark_closed s))) as (B1 & B2 & _ & _ & B5 & B6 & B7 & B8);
    [rewrite A2; apply Hu|rewrite A2, A7; intros t n Hn; by apply (Ho t)|].
  constructor; simpl; rewrite ?B1, ?B2, ?B5, ?B6, ?B7, ?A1, ?A5, ?A6, ?A8; simpl; try done.
  - rewrite map_size_empty. lia.
  - intros n Hs. destruct (decide (n < su_fresh s)%nat); [done|]. destruct Hs as [x Hx].
    enough (su_done (close_activating (close_active (mark_closed s))) !! n = None) by congruence.
    apply B8. rewrite A7, A2. simpl. split.
    + destruct (su_done s !! n) eqn:E'; [|done]. destruct n0. apply Hd. by eexists.
    + intros t Hn. destruct (Ho t n Hn). lia.
Qed.

Lemma sup_step_inv max p a p' : sup_inv max p -> sup_step max p a p' -> sup_inv max p'.
Proof.
  intros H Hs. destruct Hs.
  - by eapply begin_inv.
  - assert (s' = s) as ->; [|done]. revert H0. unfold activate_begin.
    repeat case_match; intros; simplify_eq; naive_solver.
  - unfold activate_failed. simpl. case_bool_decide.
    + apply (sup_inv_ends max (cancel n s) th (delete n th) tripID n); try done; eauto with sup.
      * eapply sup_inv_same; by try done.
      * intros Hc. destruct (si_closed _ _ H Hc) as [E _]. simpl in *. rewrite E. by rewrite delete_empty.
    + eapply sup_inv_same; try done. eauto with sup.
  - by eapply finish_inv.
  - eapply sup_inv_same; try done. eauto with sup.
  - eapply deactivate_inv; [done|]. eauto with sup.
  - by eapply deactivate_inv.
  - unfold ReserveObservation in *. repeat case_match; simplify_eq; [|done]. by eapply sup_inv_same.
  - unfold CommitObservation, commit_versions in *. repeat case_match; simplify_eq; try done. by eapply sup_inv_same.
  - unfold CommitMutation, commit_versions in *. repeat case_match; simplify_eq; try done. by eapply sup_inv_same.
  - by apply close_inv.
Qed.

Lemma sup_run_inv max p l p' : sup_inv max p -> sup_run max p l p' -> sup_inv max p'.
Proof. intros H Hr. induction Hr; [done|]. eauto using sup_step_inv. Qed.

(** ** Runs without [Deactivate] *)

Record runtime_inv (p : Process) : Prop := {
  ri_activating : forall t n, su_activating (pr_sup p) !! t = Some n ->
    su_active (pr_sup p) !! t = Some n /\ pr_threads p !! n = Some (Bootstrapping t);
  ri_state : forall t, is_Some (su_state (pr_sup p) !! t) <->
    is_Some (su_active (pr_sup p) !! t) /\ su_activating (pr_sup p) !! t = None;
  ri_next : forall t, is_Some (su_nextObservation (pr_sup p) !! t) <-> is_Some (su_state (pr_sup p) !! t);
  ri_boot : forall n t, pr_threads p !! n = Some (Bootstrapping t) ->
    su_activating (pr_sup p) !! t = Some n \/ su_closed (pr_sup p) = true;
  ri_renew : forall n t e, pr_threads p !! n = Some (Renewing t e) ->
    (su_active (pr_sup p) !! t = Some n /\ su_activating (pr_sup p) !! t = None /\
     exists v, su_state (pr_sup p) !! t = Some v /\ rv_RuntimeEpoch v = e) \/ su_closed (pr_sup p) = true;
  ri_waits : forall n, (n < su_fresh (pr_sup p))%nat -> su_done (pr_sup p) !! n = None ->
    exists t, su_activating (pr_sup p) !! t = Some n
}.

Lemma runtime_inv_new : runtime_inv new_process.
Proof.
  constructor; simpl; intros; simplify_map_eq; try lia; rewrite ?lookup_empty; split; try (by intros []);
    by intros [[] _].
Qed.

Lemma begin_runtime max s th t n s' :
  sup_inv max (MkProcess s th) -> runtime_inv (MkProcess s th) -> activate_begin max t s = (Begun n, s') ->
  runtime_inv (MkProcess s' (<[n := Bootstrapping t]> th)).
Proof.
  intros Hs [H1 H2 H3 H4 H5 H6]. unfold activate_begin. simpl in *.
  destruct (su_closed s) eqn:Ecl; [done|]. destruct (su_active s !! t) eqn:Ea; [by destruct (su_activating s !! t)|].
  destruct (_ <=? _); [done|]. intros [= <- <-].
  assert (Hna : su_activating s !! t = None).
  { destruct (su_activating s !! t) as [m|] eqn:E; [|done]. destruct (H1 t m E). congruence. }
  assert (Hfresh : th !! su_fresh s = None).
  { destruct (th !! su_fresh s) eqn:E; [|done].
    assert (su_fresh s < su_fresh s)%nat by (apply (si_threads _ _ Hs); by eexists). lia. }
  constructor; simpl.
  - intros t' m [[<- <-]|[Hne Hm]]%lookup_insert_Some; [by rewrite !lookup_insert_eq|].
    destruct (H1 t' m Hm). rewrite !lookup_insert_ne; [done| |done]. intros <-. congruence.
  - intros t'. rewrite H2. destruct (decide (t = t')) as [<-|Hne]; [|by rewrite !lookup_insert_ne].
    rewrite !lookup_insert_eq, Ea. split; [by intros [[] _]|]. by intros [_ ?].
  - done.
  - intros m t' [[<- [= <-]]|[Hne Hm]]%lookup_insert_Some; [left; by rewrite lookup_insert_eq|].
    destruct (H4 m t' Hm) as [Hx|]; [|by right]. left. rewrite lookup_insert_ne; [done|]. intros <-. congruence.
  - intros m t' e [[<- [=]]|[Hne Hm]]%lookup_insert_Some.
    destruct (H5 m t' e Hm) as [(Hx & Hy & Hz)|]; [|by right]. left.
    rewrite !lookup_insert_ne by (intros <-; congruence). done.
  - intros m Hm Hd. destruct (decide (m = su_fresh s)) as [->|]; [exists t; by rewrite lookup_insert_eq|].
    destruct (H6 m) as [t' Ht']; [lia|done|]. exists t'. rewrite lookup_insert_ne; [done|]. intros <-. congruence.
Qed.

(** Ending an activation without a runtime. *)
Lemma fail_runtime max s th t n r :
  sup_inv max (MkProcess s th) -> runtime_inv (MkProcess s th) -> th !! n = Some (Bootstrapping t) ->
  su_activating s !! t = Some n ->
  runtime_inv (MkProcess (close_wait n r (set_maps (delete t (su_active s)) (delete t (su_activating s))
    (su_state s) (su_nextObservation s) s)) (delete n th)).
Proof.
  intros Hs [H1 H2 H3 H4 H5 H6] Hn Ha. simpl in *. pose proof (si_unique _ _ Hs) as Hu. simpl in Hu.
  constructor; simpl.
  - intros t' m [Hne Hm]%lookup_delete_Some. destruct (H1 t' m Hm).
    rewrite !lookup_delete_ne; [done| |done]. intros <-. by destruct (Hne (Hu t t' n Ha Hm)).
  - intros t'. rewrite H2. destruct (decide (t = t')) as [<-|Hne]; [|by rewrite !lookup_delete_ne].
    rewrite !lookup_delete_eq, Ha. split; [by intros [_ [=]]|by intros [[] _]].
  - done.
  - intros m t' [Hne Hm]%lookup_delete_Some. destruct (H4 m t' Hm) as [Hx|]; [|by right]. left.
    rewrite lookup_delete_ne; [done|]. intros <-. congruence.
  - intros m t' e [Hne Hm]%lookup_delete_Some. destruct (H5 m t' e Hm) as [(Hx & Hy & Hz)|]; [|by right]. left.
    rewrite !lookup_delete_ne by (intros <-; congruence). done.
  - intros m Hm. rewrite lookup_insert. case_decide as E; [done|]. intros Hd. destruct (H6 m Hm Hd) as [t' Ht'].
    exists t'. rewrite lookup_delete_ne; [done|]. intros <-. congruence.
Qed.

Lemma cancel_runtime s th n : runtime_inv (MkProcess s th) -> runtime_inv (MkProcess (cancel n s) th).
Proof. intros [H1 H2 H3 H4 H5 H6]. by constructor. Qed.

(** A goroutine of a closed supervisor ends. *)
Lemma closed_runtime s th n :
  su_closed s = true -> su_activating s = ∅ -> runtime_inv (MkProcess s th) ->
  runtime_inv (MkProcess s (delete n th)).
Proof.
  intros Hc Ha [H1 H2 H3 H4 H5 H6]. simpl in *. constructor; simpl; auto.
  intros t m. by rewrite Ha, lookup_empty.
Qed.

Lemma finish_runtime max s th t n epoch accepted started s' :
  sup_inv max (MkProcess s th) -> runtime_inv (MkProcess s th) -> th !! n = Some (Bootstrapping t) ->
  activate_finish t n epoch accepted s = (started, s') ->
  runtime_inv (MkProcess s' (if started then <[n := Renewing t epoch]> th else delete n th)).
Proof.
  intros Hs Hr Hn. unfold activate_finish. case_bool_decide as Ha; simpl.
  - destruct (su_closed s) eqn:Ecl; intros [= <- <-].
    { apply cancel_runtime. by eapply fail_runtime. }
    destruct Hr as [H1 H2 H3 H4 H5 H6]. simpl in *. pose proof (si_unique _ _ Hs) as Hu. simpl in Hu.
    destruct (H1 t n Ha) as [Hact _]. constructor; simpl.
    + intros t' m [Hne Hm]%lookup_delete_Some. destruct (H1 t' m Hm). split; [done|].
      rewrite lookup_insert_ne; [done|]. intros <-. by destruct (Hne (Hu t t' n Ha Hm)).
    + intros t'. destruct (decide (t = t')) as [<-|Hne].
      * rewrite lookup_insert_eq, lookup_delete_eq, Hact. done.
      * by rewrite lookup_insert_ne, lookup_delete_ne.
    + intros t'. rewrite !lookup_insert. case_decide; [done|]. apply H3.
    + intros m t' [[<- [=]]|[Hne Hm]]%lookup_insert_Some. destruct (H4 m t' Hm) as [Hx|]; [|by right].
      left. rewrite lookup_delete_ne; [done|]. intros <-. congruence.
    + intros m t' e [[<- [= <- <-]]|[Hne Hm]]%lookup_insert_Some.
      * left. rewrite lookup_delete_eq, lookup_insert_eq. split_and!; try done. by eexists.
      * destruct (H5 m t' e Hm) as [(Hx & Hy & Hz)|]; [|by right]. left.
        rewrite lookup_delete_ne, lookup_insert_ne by (intros <-; congruence). done.
    + intros m Hm. rewrite lookup_insert. case_decide; [done|]. intros Hd. destruct (H6 m Hm Hd) as [t' Ht'].
      exists t'. rewrite lookup_delete_ne; [done|]. intros <-. congruence.
  - intros [= <- <-]. apply cancel_runtime. destruct (ri_boot _ Hr n t Hn) as [?|Hc]; [done|].
    apply closed_runtime; [done| |done]. by apply (si_closed _ _ Hs).
Qed.

Lemma ended_runtime s th t n epoch :
  runtime_inv (MkProcess s th) -> th !! n = Some (Renewing t epoch) -> runtime_inv (MkProcess s (delete n th)).
Proof.
  intros [H1 H2 H3 H4 H5 H6] Hn. simpl in *. constructor; simpl; try done.
  - intros t' m Hm. destruct (H1 t' m Hm). rewrite lookup_delete_ne; [done|congruence].
  - intros m t' [Hne Hm]%lookup_delete_Some. eauto.
  - intros m t' e [Hne Hm]%lookup_delete_Some. eauto.
Qed.

Lemma lost_runtime max s th t n epoch :
  sup_inv max (MkProcess s th) -> runtime_inv (MkProcess s th) -> th !! n = Some (Renewing t epoch) ->
  runtime_inv (MkProcess (deactivate t s) (delete n th)).
Proof.
  intros Hs Hr Hn. destruct (ri_renew _ Hr n t epoch Hn) as [(Ha & Hna & _)|Hc].
  - simpl in *. unfold deactivate. rewrite Ha. apply cancel_runtime. destruct Hr as [H1 H2 H3 H4 H5 H6]. simpl in *.
    constructor; simpl.
    + intros t' m Hm. destruct (H1 t' m Hm). rewrite !lookup_delete_ne; [done|congruence..].
    + intros t'. destruct (decide (t = t')) as [<-|Hne]; [|by rewrite !lookup_delete_ne].
      rewrite !lookup_delete_eq. split; [by intros []|by intros [[] _]].
    + intros t'. destruct (decide (t = t')) as [<-|Hne]; [|by rewrite !lookup_delete_ne].
      by rewrite !lookup_delete_eq.
    + intros m t' [Hne Hm]%lookup_delete_Some. eauto.
    + intros m t' e [Hne Hm]%lookup_delete_Some. destruct (H5 m t' e Hm) as [(Hx & Hy & Hz)|]; [|by right]. left.
      rewrite !lookup_delete_ne by (intros <-; congruence). done.
    + done.
  - destruct (si_closed _ _ Hs Hc) as [He Ha]. simpl in *. unfold deactivate. rewrite He, lookup_empty.
    by apply closed_runtime.
Qed.

(** A commit replaces the versions of one trip and keeps their epoch. *)
Lemma commit_runtime s th t epoch f r s' :
  (forall v, rv_RuntimeEpoch (f v) = rv_RuntimeEpoch v) -> runtime_inv (MkProcess s th) ->
  commit_versions t epoch f s = (r, s') -> runtime_inv (MkProcess s' th).
Proof.
  intros Hf Hr. unfold commit_versions. destruct (su_state s !! t) as [v|] eqn:Ev; [|by intros [= <- <-]].
  destruct (negb _); intros [= <- <-]; [done|]. destruct Hr as [H1 H2 H3 H4 H5 H6]. simpl in *.
  assert (Hd : forall t', is_Some (<[t := f v]> (su_state s) !! t') <-> is_Some (su_state s !! t')).
  { intros t'. rewrite lookup_insert. case_decide; [subst; by rewrite Ev|done]. }
  constructor; simpl; try done.
  - intros t'. by rewrite Hd.
  - intros t'. by rewrite Hd.
  - intros m t' e Hm. destruct (H5 m t' e Hm) as [(Hx & Hy & v' & Hv' & He)|]; [|by right]. left.
    split_and!; try done. rewrite lookup_insert. case_decide as E; [|eauto]. subst t'. exists (f v).
    split; [done|]. rewrite Hf. congruence.
Qed.

Lemma close_runtime max s th :
  sup_inv max (MkProcess s th) -> runtime_inv (MkProcess s th) -> runtime_inv (MkProcess (CloseSupervisor s) th).
Proof.
  intros [_ _ _ Ho Hu _ _] Hr. unfold CloseSupervisor. destruct (su_closed s) eqn:E; [done|].
  destruct Hr as [H1 H2 H3 H4 H5 H6]. simpl in *.
  destruct (close_active_maps (mark_closed s)) as (A1 & A2 & A3 & A4 & A5 & A6 & A7 & A8).
  destruct (close_activating_maps (close_active (mark_closed s))) as (B1 & B2 & B3 & B4 & B5 & B6 & B7 & B8);
    [rewrite A2; apply Hu|rewrite A2, A7; intros t n Hn; by apply (Ho t)|].
  assert (Hst : forall t, su_state (close_active (mark_closed s)) !! t = None).
  { intros t. rewrite A3. case_bool_decide as Hc; [done|]. simpl in *.
    destruct (su_state s !! t) eqn:Es; [|done]. destruct Hc. apply (H2 t). by eexists. }
  assert (Hnx : forall t, su_nextObservation (close_active (mark_closed s)) !! t = None).
  { intros t. rewrite A4. case_bool_decide as Hc; [done|]. simpl in *.
    destruct (su_nextObservation s !! t) eqn:Es; [|done]. destruct Hc. apply (H2 t), (H3 t). by eexists. }
  constructor; simpl; rewrite ?B1, ?B2, ?B3, ?B4, ?B5, ?A1, ?A5; simpl.
  - intros t n. by rewrite lookup_empty.
  - intros t. rewrite Hst, lookup_empty. split; [by intros []|by intros [[] _]].
  - intros t. rewrite Hst, Hnx. done.
  - by right.
  - by right.
  - intros n Hn Hd. apply B8 in Hd as [Hd Hno]. rewrite A7 in Hd. rewrite A2 in Hno. rewrite B6, A6 in Hn.
    destruct (H6 n Hn Hd) as [t Ht]. by destruct (Hno t).
Qed.

Lemma sup_step_runtime max p a p' :
  (forall t, a <> DoDeactivate t) -> sup_inv max p -> runtime_inv p -> sup_step max p a p' -> runtime_inv p'.
Proof.
  intros Hno Hi Hr Hs. destruct Hs.
  - by eapply begin_runtime.
  - assert (s' = s) as ->; [|done]. revert H. unfold activate_begin.
    repeat case_match; intros; simplify_eq; naive_solver.
  - unfold activate_failed. simpl. destruct (ri_boot _ Hr n tripID H) as [Ha|Hc].
    + simpl in Ha. rewrite bool_decide_eq_true_2 by done.
      apply (fail_runtime max (cancel n s)); [|by apply cancel_runtime|done..]. by eapply sup_inv_same.
    + destruct (si_closed _ _ Hi Hc) as [_ Ha]. simpl in *. rewrite Ha, lookup_empty. simpl.
      apply cancel_runtime. by apply closed_runtime.
  - by eapply finish_runtime.
  - by eapply ended_runtime.
  - by eapply lost_runtime.
  - by destruct (Hno tripID).
  - unfold ReserveObservation in *. destruct (su_state s !! tripID) as [v|] eqn:E; simplify_eq; [|done].
    destruct Hr as [H1 H2 H3 H4 H5 H6]. constructor; simpl in *; try done. intros t.
    rewrite lookup_insert. case_decide; [subst; by rewrite E|done].
  - unfold CommitObservation in *. by eapply commit_runtime; [|done|eassumption].
  - unfold CommitMutation in *. by eapply commit_runtime; [|done|eassumption].
  - by eapply close_runtime.
Qed.

Lemma sup_run_runtime max p l p' :
  Forall (fun a => forall t, a <> DoDeactivate t) l -> sup_inv max p -> runtime_inv p ->
  sup_run max p l p' -> runtime_inv p'.
Proof.
  intros Hf Hi Hr Hs. induction Hs as [|p a p' l p'' Ha _ IH]; [done|]. apply Forall_cons in Hf as [Hna Hf].
  apply IH; [done|by eapply sup_step_inv|by eapply sup_step_runtime].
Qed.

(** ** Invariants *)

(** C8: whatever the goroutines do in whatever order, the supervisor never holds more
    runtimes than its capacity, a closed one holds none and starts none, and no
    activation's channel is closed twice, which would end the process. *)
Theorem supervisor_safe max l p :
  0 <= max -> sup_run max new_process l p ->
  ActiveTripCount (pr_sup p) <= max /\ su_panicked (pr_sup p) = false /\
  (su_closed (pr_sup p) = true ->
     ActiveTripCount (pr_sup p) = 0 /\ su_activating (pr_sup p) = ∅ /\
     forall t, (activate_begin max t (pr_sup p)).1 = BeginClosed).
Proof.
  intros Hm Hr. pose proof (sup_run_inv _ _ _ _ (sup_inv_new max Hm) Hr) as [H1 H2 H3 _ _ _ _].
  unfold ActiveTripCount. split_and!; try done. intros Hc. destruct (H2 Hc) as [Ha Hb].
  rewrite Ha, map_size_empty. split_and!; try done. intros t. unfold activate_begin. by rewrite Hc.
Qed.

(** Without calls of [Deactivate], the versions of a trip are kept exactly while its
    runtime is active and past its activation, a renewal renews the epoch the
    versions carry, and nobody waits for ever: every activation that has not
    ended has a goroutine at work whose success and whose failure end it. *)
Theorem runtime_state_matches max l p :
  0 <= max -> sup_run max new_process l p -> Forall (fun a => forall t, a <> DoDeactivate t) l ->
  let s := pr_sup p in
  (forall t, is_Some (RuntimeState t s) <-> is_Some (su_active s !! t) /\ su_activating s !! t = None) /\
  (forall n t e, pr_threads p !! n = Some (Renewing t e) -> su_closed s = false ->
     exists v, RuntimeState t s = Some v /\ rv_RuntimeEpoch v = e) /\
  (forall n, (n < su_fresh s)%nat -> su_done s !! n = None ->
     exists t, pr_threads p !! n = Some (Bootstrapping t) /\
       (forall e, is_Some (su_done (activate_failed t n e s) !! n)) /\
       (forall epoch accepted, is_Some (su_done (activate_finish t n epoch accepted s).2 !! n))).
Proof.
  intros Hm Hr Hf. pose proof (sup_run_runtime _ _ _ _ Hf (sup_inv_new max Hm) runtime_inv_new Hr)
    as [H1 H2 _ _ H5 H6]. cbv zeta. split_and!.
  - apply H2.
  - intros n t e Hn Hc. destruct (H5 n t e Hn) as [(_ & _ & Hv)|]; [exact Hv|congruence].
  - intros n Hn Hd. destruct (H6 n Hn Hd) as [t Ht]. exists t. split; [by apply (H1 t)|]. split.
    + intros e. unfold activate_failed. simpl. rewrite bool_decide_eq_true_2 by done. simpl.
      by rewrite lookup_insert_eq.
    + intros epoch accepted. unfold activate_finish. rewrite bool_decide_eq_true_2 by done. simpl.
      destruct (su_closed _); simpl; by rewrite lookup_insert_eq.
Qed.

(** ** Versions *)

(** [v'] is [v] with versions that may have grown. *)
Record advances (v v' : RuntimeVersions) : Prop := {
  ad_epoch : rv_RuntimeEpoch v' = rv_RuntimeEpoch v;
  ad_state : rv_PlannerStateVersion v <= rv_PlannerStateVersion v';
  ad_mutation : rv_AcceptedMutationSequence v <= rv_AcceptedMutationSequence v';
  ad_observation : rv_AcceptedObservationSequence v <= rv_AcceptedObservationSequence v'
}.
#[global] Instance advances_preorder : PreOrder advances.
Proof. split; [by split|]. intros v1 v2 v3 [] []. split; [congruence|lia..]. Qed.

Lemma raise_le old new : old <= raise old new.
Proof. unfold raise. destruct (_ <? _) eqn:E; zbool; lia. Qed.

Definition observed (t : string) (p : Process) : Z := default 0 (su_nextObservation (pr_sup p) !! t).

Definition advanced (t : string) (v' : RuntimeVersions) (p p' : Process) : Prop :=
  exists v, su_state (pr_sup p) !! t = Some v /\ advances v v' /\
    (observed t p' = observed t p \/ observed t p' = uint64 (observed t p + 1)).

Lemma kept t v p p' :
  su_state (pr_sup p) !! t = Some v ->
  su_nextObservation (pr_sup p') !! t = su_nextObservation (pr_sup p) !! t -> advanced t v p p'.
Proof. intros Hv Hn. exists v. split_and!; [done..|]. left. unfold observed. by rewrite Hn. Qed.

Lemma deactivate_advanced tripID t v' s th th' :
  su_state (deactivate tripID s) !! t = Some v' ->
  advanced t v' (MkProcess s th) (MkProcess (deactivate tripID s) th').
Proof.
  unfold deactivate. destruct (su_active s !! tripID); simpl; [|by intros; apply kept].
  intros [Hne Hv]%lookup_delete_Some. apply kept; [done|]. simpl. by rewrite lookup_delete_ne.
Qed.

Lemma commit_advanced tripID epoch f r t v' s s' th :
  (forall v, advances v (f v)) -> commit_versions tripID epoch f s = (r, s') -> su_state s' !! t = Some v' ->
  advanced t v' (MkProcess s th) (MkProcess s' th).
Proof.
  intros Hf. unfold commit_versions. destruct (su_state s !! tripID) as [v|] eqn:E;
    [|intros [= <- <-] ?; by apply kept].
  destruct (negb _); intros [= <- <-]; [intros ?; by apply kept|]. simpl.
  intros [[-> <-]|[Hne Hv]]%lookup_insert_Some; [|by apply kept]. exists v. split_and!; [done..|by left].
Qed.

(** A step that activates no runtime of the trip keeps its versions or advances them. *)
Lemma step_advances max p a p' t v' :
  sup_step max p a p' -> (forall n epoch accepted, a <> DoFinish n t epoch accepted) ->
  su_state (pr_sup p') !! t = Some v' -> advanced t v' p p'.
Proof.
  intros Hs Hno Hv. destruct Hs; simpl in *.
  - unfold activate_begin in H. repeat case_match; simplify_eq. by apply kept.
  - unfold activate_begin in H. repeat case_match; simplify_eq; by apply kept.
  - unfold activate_failed in *. simpl in *. case_bool_decide; by apply kept.
  - unfold activate_finish in H0. destruct (negb _); [simplify_eq; by apply kept|].
    destruct (su_closed s); simplify_eq; [by apply kept|]. simpl in *.
    destruct (decide (tripID = t)) as [->|Hne]; [by destruct (Hno n epoch accepted)|].
    rewrite lookup_insert_ne in Hv by done. apply kept; [done|]. simpl. by rewrite lookup_insert_ne.
  - by apply kept.
  - by apply deactivate_advanced.
  - by apply deactivate_advanced.
  - unfold ReserveObservation in H. case_match; simplify_eq; [|by apply kept]. exists v'. split_and!; [done..|].
    unfold observed. simpl. rewrite lookup_insert. case_decide; [subst; by right|by left].
  - eapply commit_advanced; [|exact H|done]. intros v. split; simpl; try done; apply raise_le.
  - eapply commit_advanced; [|exact H|done]. intros v. split; simpl; try done; apply raise_le.
  - unfold CloseSupervisor in *. destruct (su_closed s); [by apply kept|].
    destruct (close_activating_state (close_active (mark_closed s))) as [Es En].
    destruct (close_active_maps (mark_closed s)) as (_ & _ & A3 & A4 & _). rewrite Es, A3 in Hv.
    case_bool_decide as Hc; [done|]. apply kept; [done|]. simpl. by rewrite En, A4, bool_decide_eq_false_2.
Qed.

(** The observations handed out in a run that activates no runtime of the trip. *)
Lemma run_advances max p l p' t v' :
  sup_run max p l p' -> Forall (fun a => forall n epoch accepted, a <> DoFinish n t epoch accepted) l ->
  su_state (pr_sup p') !! t = Some v' ->
  exists v, su_state (pr_sup p) !! t = Some v /\ advances v v' /\
    (0 <= observed t p -> observed t p + Z.of_nat (length l) < 2 ^ 64 ->
     observed t p <= observed t p' <= observed t p + Z.of_nat (length l)).
Proof.
  intros Hr. revert v'. induction Hr as [p|p a p' l p'' Ha _ IH]; intros v' Hf Hv.
  - exists v'. split_and!; [done..|]. simpl. lia.
  - apply Forall_cons in Hf as [Hna Hf]. destruct (IH v' Hf Hv) as (v1 & Hv1 & Had & Hb).
    destruct (step_advances _ _ _ _ _ _ Ha Hna Hv1) as (v & Hv0 & Had0 & Ho). exists v.
    split_and!; [done|by etrans|]. intros H0 Hl. rewrite length_cons in *. destruct Ho as [Ho|Ho]; rewrite Ho in Hb.
    + lia.
    + rewrite uint64_small in Hb by lia. lia.
Qed.

(** C37: while a runtime stays active, its epoch is fixed, the versions it reports only
    grow, and observations are numbered in the order they are reserved: a later
    reservation never repeats an earlier number.  (The counter has 64 bits; the run
    is shorter than that.) *)
Theorem observations_increase max t p v a p1 l p2 v2 b p3 :
  sup_step max p (DoReserve t (Some (v, a))) p1 -> sup_run max p1 l p2 ->
  Forall (fun x => forall n epoch accepted, x <> DoFinish n t epoch accepted) l ->
  sup_step max p2 (DoReserve t (Some (v2, b))) p3 ->
  a + Z.of_nat (length l) + 1 < 2 ^ 64 -> a < b /\ advances v v2.
Proof.
  intros H1 Hr Hf H2 Hl. inversion H1; subst. inversion H2; subst.
  unfold ReserveObservation in *. destruct (su_state s !! t) as [v0|] eqn:E1; [|done].
  destruct (su_state s0 !! t) as [v3|] eqn:E2; [|done]. simplify_eq.
  destruct (run_advances _ _ _ _ _ _ Hr Hf E2) as (v1 & Hv1 & Had & Hb). simpl in *. simplify_eq.
  unfold observed in Hb. simpl in Hb. rewrite lookup_insert_eq in Hb. simpl in Hb.
  pose proof (uint64_range (default 0 (su_nextObservation s !! t) + 1)) as Hrange.
  split; [|done]. rewrite (uint64_small (default 0 (su_nextObservation s0 !! t) + 1)); lia.
Qed.

(** ** [Deactivate] during an activation and during a renewal *)

Lemma begin_new max t s :
  su_closed s = false -> su_active s !! t = None -> Z.of_nat (size (su_active s)) < max ->
  activate_begin max t s = (Begun (su_fresh s), MkSupervisor (<[t := su_fresh s]> (su_active s))
    (<[t := su_fresh s]> (su_activating s)) (su_state s) (su_nextObservation s) false (S (su_fresh s))
    (su_done s) (su_cancelled s) (su_panicked s)).
Proof. intros Hc Ha Hm. unfold activate_begin. by rewrite Hc, Ha, (proj2 (Z.leb_gt _ _)). Qed.

(** [Deactivate] during an activation does not stop it.  It takes the trip off
    [active] and leaves it in [activating]; the bootstrap then installs the runtime's
    versions for a trip that is not active: telemetry is accepted for it, and neither
    another [Deactivate] nor [Close] removes it. *)
Theorem deactivated_activation_runs_on max t epoch accepted :
  0 < max -> exists p,
  let v := MkVersions epoch 0 accepted 0 in
  sup_run max new_process [DoBegin t (Begun 0); DoDeactivate t; DoFinish 0 t epoch accepted] p /\
  su_active (pr_sup p) !! t = None /\ RuntimeState t (pr_sup p) = Some v /\
  (ReserveObservation t (pr_sup p)).1 = Some (v, 1) /\
  RuntimeState t (deactivate t (pr_sup p)) = Some v /\
  RuntimeState t (CloseSupervisor (pr_sup p)) = Some v.
Proof.
  intros Hm. eexists. cbv zeta. split; [|split_and!].
  - eapply run_cons; [apply sup_begin, begin_new; [done..|]; simpl; rewrite map_size_empty; lia|].
    eapply run_cons; [apply sup_deactivate|]. unfold deactivate. simpl. rewrite lookup_insert_eq.
    eapply run_cons; [|apply run_nil]. eapply sup_finish; [by rewrite lookup_insert_eq|].
    unfold activate_finish. simpl. rewrite lookup_insert_eq. reflexivity.
  - simpl. by rewrite lookup_delete_eq.
  - unfold RuntimeState. simpl. by rewrite lookup_insert_eq.
  - unfold ReserveObservation. simpl. by rewrite !lookup_insert_eq.
  - unfold deactivate, RuntimeState. simpl. rewrite lookup_delete_eq. simpl. by rewrite lookup_insert_eq.
  - unfold CloseSupervisor, RuntimeState. cbn [su_closed pr_sup close_wait set_maps cancel].
    match goal with |- context[close_activating (close_active ?x)] =>
      destruct (close_activating_state (close_active x)) as [-> _];
      destruct (close_active_maps x) as (_ & _ & Hst & _); rewrite Hst end.
    simpl. by rewrite lookup_delete_eq, lookup_insert_eq.
Qed.

(** An activation nobody will end: not registered, and its goroutine is gone. *)
Record stranded (n : nat) (p : Process) : Prop := {
  sd_made : (n < su_fresh (pr_sup p))%nat;
  sd_open : su_done (pr_sup p) !! n = None;
  sd_gone : pr_threads p !! n = None;
  sd_lost : forall t, su_activating (pr_sup p) !! t <> Some n
}.

Lemma step_stranded max n p a p' : sup_inv max p -> stranded n p -> sup_step max p a p' -> stranded n p'.
Proof.
  intros Hi [H1 H2 H3 H4] Hs.
  assert (Hth : forall m g, is_Some (pr_threads p !! m) -> <[m := g]> (pr_threads p) !! n = None).
  { intros m g [x Hx]. rewrite lookup_insert_ne; [done|]. intros ->. congruence. }
  destruct Hs; simpl in *.
  - unfold activate_begin in H. repeat case_match; simplify_eq. constructor; simpl; try done; [lia| |].
    + rewrite lookup_insert_ne; [done|lia].
    + intros t. rewrite lookup_insert. case_decide; [intros [= ?]; lia|apply H4].
  - assert (s' = s) as ->; [|done]. revert H. unfold activate_begin.
    repeat case_match; intros; simplify_eq; naive_solver.
  - assert (Hne : n0 <> n) by congruence. unfold activate_failed. simpl. case_bool_decide;
      (constructor; simpl; [done| | |]); rewrite ?lookup_insert_ne, ?lookup_delete_ne by done; try done.
    intros t [_ Ht]%lookup_delete_Some. by eapply H4.
  - assert (Hne : n0 <> n) by congruence. unfold activate_finish in H0. repeat case_match; simplify_eq;
      (constructor; simpl; [done| | |]); rewrite ?lookup_insert_ne, ?lookup_delete_ne by done; try done;
      intros t [_ Ht]%lookup_delete_Some; by eapply H4.
  - constructor; simpl; try done. by rewrite lookup_delete_None; right.
  - unfold deactivate. case_match; (constructor; simpl; try done; by rewrite lookup_delete_None; right).
  - unfold deactivate. case_match; by constructor.
  - unfold ReserveObservation in H. case_match; simplify_eq; by constructor.
  - unfold CommitObservation, commit_versions in H. repeat case_match; simplify_eq; by constructor.
  - unfold CommitMutation, commit_versions in H. repeat case_match; simplify_eq; by constructor.
  - unfold CloseSupervisor. destruct (su_closed s); [by constructor|].
    destruct Hi as [_ _ _ Ho Hu _ _]. simpl in *.
    destruct (close_active_maps (mark_closed s)) as (_ & A2 & _ & _ & _ & A6 & A7 & _).
    destruct (close_activating_maps (close_active (mark_closed s))) as (_ & B2 & _ & _ & _ & B6 & _ & B8);
      [rewrite A2; apply Hu|rewrite A2, A7; intros t m Hm; by apply (Ho t)|].
    constructor; simpl; rewrite ?B6, ?A6, ?B2; try done. apply B8. by rewrite A7, A2.
Qed.

(** A caller that waits for an activation which [Deactivate] and a new [Activate]
    overtook waits for ever: the goroutine of the old one finds the new one
    registered and returns, and nothing closes the channel in any continuation. *)
Theorem deactivation_strands_waiters max t epoch accepted :
  0 < max -> exists p,
  sup_run max new_process [DoBegin t (Begun 0); DoBegin t (BeginWaits 0); DoDeactivate t; DoBegin t (Begun 1);
    DoFinish 0 t epoch accepted] p /\
  forall l p', sup_run max p l p' -> su_done (pr_sup p') !! 0%nat = None.
Proof.
  intros Hm. assert (Hrun : exists p, sup_run max new_process [DoBegin t (Begun 0); DoBegin t (BeginWaits 0);
      DoDeactivate t; DoBegin t (Begun 1); DoFinish 0 t epoch accepted] p /\ stranded 0 p).
  { eexists. split.
    - eapply run_cons; [apply sup_begin, begin_new; [done..|]; simpl; rewrite map_size_empty; lia|].
      eapply run_cons; [apply (sup_refused _ _ _ _ (BeginWaits 0))|].
      { unfold activate_begin. simpl. by rewrite !lookup_insert_eq. }
      { done. }
      eapply run_cons; [apply sup_deactivate|]. unfold deactivate. simpl. rewrite lookup_insert_eq.
      eapply run_cons; [apply sup_begin, begin_new; simpl; [done|by rewrite lookup_delete_eq|]|].
      { rewrite map_size_delete, lookup_insert_eq, map_size_insert_None by done. rewrite map_size_empty. simpl. lia. }
      eapply run_cons; [|apply run_nil]. eapply sup_finish; [by rewrite lookup_insert_ne, lookup_insert_eq|].
      unfold activate_finish. simpl. rewrite lookup_insert_eq. simpl. reflexivity.
    - constructor; simpl; [lia|done|by rewrite lookup_delete_eq|].
      intros t'. rewrite lookup_insert. case_decide; [done|]. by rewrite lookup_insert_ne. }
  destruct Hrun as (p & Hp & Hs). exists p. split; [done|].
  pose proof (sup_run_inv max _ _ _ (sup_inv_new max ltac:(lia)) Hp) as Hi. clear Hp.
  intros l p' Hr. induction Hr as [p|p a p' l p'' Ha _ IH]; [apply Hs|].
  apply IH; [by eapply step_stranded|by eapply sup_step_inv].
Qed.

(** A renewal that [Deactivate] cancelled while it was in [Renew] returns an error and
    deactivates the trip, although the trip was activated again in between. *)
Theorem stale_renewal_ends_activation max t e1 a1 e2 a2 :
  0 < max -> exists p p',
  sup_run max new_process [DoBegin t (Begun 0); DoFinish 0 t e1 a1; DoDeactivate t; DoBegin t (Begun 1);
    DoFinish 1 t e2 a2] p /\
  RuntimeState t (pr_sup p) = Some (MkVersions e2 0 a2 0) /\ pr_threads p !! 0%nat = Some (Renewing t e1) /\
  sup_step max p (DoLeaseLost 0 t) p' /\ RuntimeState t (pr_sup p') = None /\ 1%nat ∈ su_cancelled (pr_sup p').
Proof.
  intros Hm. do 2 eexists. split; [|split; [|split; [|split; [eapply sup_lease_lost|]]]].
  - eapply run_cons; [apply sup_begin, begin_new; [done..|]; simpl; rewrite map_size_empty; lia|].
    eapply run_cons; [eapply sup_finish; [by rewrite lookup_insert_eq|]|].
    { unfold activate_finish. simpl. rewrite lookup_insert_eq. reflexivity. }
    eapply run_cons; [apply sup_deactivate|]. unfold deactivate. simpl. rewrite lookup_insert_eq.
    eapply run_cons; [apply sup_begin, begin_new; simpl; [done|by rewrite lookup_delete_eq|]|].
    { rewrite map_size_delete, lookup_insert_eq, map_size_insert_None by done. rewrite map_size_empty. simpl. lia. }
    eapply run_cons; [|apply run_nil]. eapply sup_finish; [by rewrite lookup_insert_eq|].
    unfold activate_finish. simpl. rewrite lookup_insert_eq. reflexivity.
  - unfold RuntimeState. simpl. by rewrite lookup_insert_eq.
  - simpl. rewrite lookup_insert_ne, lookup_insert_ne by done. by rewrite lookup_insert_eq.
  - simpl. rewrite lookup_insert_ne, lookup_insert_ne by done. by rewrite lookup_insert_eq.
  - unfold deactivate, RuntimeState. simpl. rewrite lookup_insert_eq. simpl. rewrite lookup_delete_eq.
    split; [done|set_solver].
Qed.

(** ** Witnesses *)

Definition ex_supervised : list Action :=
  [DoBegin "t" (Begun 0); DoFinish 0 "t" 3 7; DoReserve "t" (Some (MkVersions 3 0 7 0, 1));
   DoCommitObservation "t" 3 1 8 2; DoReserve "t" (Some (MkVersions 3 2 8 1, 2))].

Lemma ex_supervised_runs : exists p1 p2 p3 p4 p5,
  sup_step 4 new_process (DoBegin "t" (Begun 0)) p1 /\ sup_step 4 p1 (DoFinish 0 "t" 3 7) p2 /\
  sup_step 4 p2 (DoReserve "t" (Some (MkVersions 3 0 7 0, 1))) p3 /\
  sup_step 4 p3 (DoCommitObservation "t" 3 1 8 2) p4 /\
  sup_step 4 p4 (DoReserve "t" (Some (MkVersions 3 2 8 1, 2))) p5.
Proof.
  do 5 eexists. split; [eapply sup_begin; vm_compute; reflexivity|].
  split; [eapply sup_finish; vm_compute; reflexivity|].
  split; [eapply sup_reserve; vm_compute; reflexivity|].
  split; [eapply sup_commit_observation; vm_compute; reflexivity|].
  eapply sup_reserve; vm_compute; reflexivity.
Qed.

Lemma ex_supervised_run : exists p, sup_run 4 new_process ex_supervised p.
Proof.
  destruct ex_supervised_runs as (p1 & p2 & p3 & p4 & p5 & H1 & H2 & H3 & H4 & H5). exists p5.
  eapply run_cons; [exact H1|]. eapply run_cons; [exact H2|]. eapply run_cons; [exact H3|].
  eapply run_cons; [exact H4|]. eapply run_cons; [exact H5|]. apply run_nil.
Qed.

Lemma supervisor_safe_witness : exists p,
  sup_run 4 new_process ex_supervised p /\ ActiveTripCount (pr_sup p) <= 4.
Proof.
  destruct ex_supervised_run as (p & Hp). exists p. split; [exact Hp|].
  apply (supervisor_safe 4 ex_supervised p); [lia|exact Hp].
Defined.

Lemma runtime_state_matches_witness : exists p, sup_run 4 new_process ex_supervised p /\
  forall t, is_Some (RuntimeState t (pr_sup p)) <->
    is_Some (su_active (pr_sup p) !! t) /\ su_activating (pr_sup p) !! t = None.
Proof.
  destruct ex_supervised_run as (p & Hp). exists p. split; [exact Hp|].
  apply (runtime_state_matches 4 ex_supervised p); [lia|exact Hp|].
  repeat constructor; discriminate.
Defined.

Lemma observations_increase_witness : 1 < 2 /\ advances (MkVersions 3 0 7 0) (MkVersions 3 2 8 1).
Proof.
  destruct ex_supervised_runs as (p1 & p2 & p3 & p4 & p5 & H1 & H2 & H3 & H4 & H5).
  apply (observations_increase 4 "t" p2 (MkVersions 3 0 7 0) 1 p3 [DoCommitObservation "t" 3 1 8 2] p4
    (MkVersions 3 2 8 1) 2 p5 H3); [|repeat constructor; discriminate|exact H5|simpl; lia].
  eapply run_cons; [exact H4|apply run_nil].
Defined.

Lemma deactivated_activation_runs_on_witness : exists p, su_active (pr_sup p) !! "t" = None /\
  RuntimeState "t" (pr_sup p) = Some (MkVersions 3 0 7 0).
Proof.
  destruct (deactivated_activation_runs_on 4 "t" 3 7 ltac:(lia)) as (p & _ & Ha & Hv & _).
  exists p. split; [exact Ha|exact Hv].
Defined.
