(* ===== verification/Coordinators.v ===== *)
(** * Bootstrap, snapshots, proposals and telemetry

    Models [dispatch/bootstrap.go], [dispatch/snapshot_coordinator.go],
    [dispatch/proposal_consumer.go] and [dispatch/telemetry.go]: the workers that
    bring a planner up to the canonical state, store its snapshots and its
    proposals, and send it observations. *)

From S2P Require Import Prelude GoLib Wire Schema Tables Leases Proposals CanonicalState Snapshots Bootstrap GoText PlannerMessages Worker Dispatcher Supervisor.
From Stdlib Require Import SpecFloat.

(** ** The canonical state as a planner message *)

Definition travelMode (value : string) : Z :=
  if bool_decide (value = "walking") then TRAVEL_MODE_WALKING else TRAVEL_MODE_DRIVING.
Definition activityClass (value : string) : Z :=
  if bool_decide (value = "fixed") then ACTIVITY_CLASS_FIXED else ACTIVITY_CLASS_FLEXIBLE.
Definition activityState (value : string) : Z :=
  if bool_decide (value = "planned") then ACTIVITY_STATE_PLANNED
  else if bool_decide (value = "started") then ACTIVITY_STATE_STARTED
  else if bool_decide (value = "completed") then ACTIVITY_STATE_COMPLETED
  else if bool_decide (value = "skipped") then ACTIVITY_STATE_SKIPPED
  else ACTIVITY_STATE_UNSPECIFIED.

Definition bootstrap_window (w : CanonicalOpenWindow) : PbTimeWindow :=
  MkPbTimeWindow (UnixMilli (ow_OpensAt w)) (UnixMilli (ow_ClosesAt w)).

Definition bootstrap_activity (a : CanonicalActivity) : PbActivity :=
  MkPbActivity (ca_ID a) (ca_PlaceID a) (ca_DisplayName a)
    (Some (MkPbLocation (ca_Latitude a) (ca_Longitude a))) (ca_TimeZoneName a)
    (travelMode (ca_InboundTravelMode a)) (activityClass (ca_ActivityClass a))
    (activityState (ca_ActivityState a)) (ca_PriorityRank a) (ca_UtilityScore a)
    (Some (MkActivityTiming (bootstrap_window <$> ca_OpenWindows a) (UnixMilli <$> ca_ReservationStart a)
       (ca_ReservationGraceSeconds a) (ca_MinDurationSeconds a) (ca_PreferredDurationSeconds a)
       (ca_MaxDurationSeconds a) (ca_Mandatory a) (ca_CanShorten a) (ca_CanMove a) (ca_CanSkip a)
       (UnixMilli <$> ca_MandatoryDeadline a)))
    (ca_ActivityDelaySeconds a) (UnixMilli <$> ca_FoundClosedAt a).

Definition bootstrap_delay (d : CanonicalTravelDelay) : TravelDelayState :=
  MkTravelDelayState (cd_FromActivityID d) (cd_ToActivityID d) (cd_AdditionalSeconds d)
    (UnixMilli (cd_ObservedAt d)).

(** [dispatch.canonicalUUID]: the test of [persistence.validCanonicalUUID]; a byte of
    a rune that is not ASCII fails either loop at the rune's first byte. *)
Definition dispatchUUID (value : string) : bool := validCanonicalUUID value.

(** ** Proposals *)

Fixpoint ordered_from (previous : Z) (reasons : list Z) : bool :=
  match reasons with
  | [] => true
  | reason :: reasons =>
      if (reason <=? previous) || (PLAN_REASON_CODE_NO_FEASIBLE_PLAN <? reason) then false
      else ordered_from reason reasons
  end.
Definition orderedReasons (reasons : list Z) : bool := ordered_from PLAN_REASON_CODE_UNSPECIFIED reasons.

(** The bounds of the code; every comparison with a NaN is false. *)
Definition outside (limit : positive) (f : spec_float) : bool :=
  SFltb f (float64_of_pos true limit) || SFltb (float64_of_pos false limit) f.

Definition segment_metadata (segment : ProposalSegment) : bool :=
  dispatchUUID (sg_activity_id segment) &&
  match sg_location segment with
  | None => false
  | Some l => negb (outside 90 (lo_latitude l)) && negb (outside 180 (lo_longitude l))
  end &&
  negb (bool_decide (sg_time_zone_name segment = "")) && orderedReasons (sg_reasons segment).

Definition validateProposalSegment (segment : ProposalSegment) (prefix : bool) : result unit :=
  let disposition := sg_disposition segment in
  if negb (segment_metadata segment) then Err (ErrInvalid "metadata is invalid")
  else if prefix && negb (disposition =? SEGMENT_DISPOSITION_PRESERVED) then
    Err (ErrInvalid "preserved prefix has a non-preserved disposition")
  else if disposition =? SEGMENT_DISPOSITION_SKIPPED then
    if negb (is_null (sg_scheduled_start_unix_ms segment)) || negb (is_null (sg_scheduled_end_unix_ms segment)) ||
       negb (is_null (sg_inbound_route segment))
    then Err (ErrInvalid "skipped segment has schedule or route data") else Ok tt
  else if negb (disposition =? SEGMENT_DISPOSITION_PRESERVED) &&
          negb (disposition =? SEGMENT_DISPOSITION_MOVED) && negb (disposition =? SEGMENT_DISPOSITION_ADDED) then
    Err (ErrInvalid "disposition is invalid")
  else match sg_scheduled_start_unix_ms segment, sg_scheduled_end_unix_ms segment with
  | Some starts, Some ends =>
      if ends <=? starts then Err (ErrInvalid "schedule is invalid")
      else if (negb prefix && is_null (sg_inbound_route segment)) ||
              match sg_inbound_route segment with Some r => negb (rg_reachable r) | None => false end
      then Err (ErrInvalid "route is invalid") else Ok tt
  | _, _ => Err (ErrInvalid "schedule is invalid")
  end.

(** The loop over the segments: the activities seen and the end of the last
    scheduled one. *)
Fixpoint validate_segments (index prefix : nat) (seen : gset string) (prior : option Z)
    (segments : list ProposalSegment) : result unit :=
  match segments with
  | [] => Ok tt
  | segment :: segments =>
      _ ← validateProposalSegment segment (bool_decide (index < prefix)%nat);
      if bool_decide (sg_activity_id segment ∈ seen) then Err (ErrInvalid "proposal repeats an activity")
      else
        let seen := {[sg_activity_id segment]} ∪ seen in
        if sg_disposition segment =? SEGMENT_DISPOSITION_SKIPPED then
          validate_segments (S index) prefix seen prior segments
        else if match prior with
                | Some e => default 0 (sg_scheduled_start_unix_ms segment) <? e
                | None => false
                end then Err (ErrInvalid "proposal segments overlap")
        else validate_segments (S index) prefix seen
               (Some (default 0 (sg_scheduled_end_unix_ms segment))) segments
  end.

Definition result_metadata (result : ReplanResult) : bool :=
  (re_status result =? STATUS_CODE_OK) && negb (re_retryable result) &&
  match re_quality result with
  | None => false
  | Some q =>
      ((ql_plan_quality q =? PLAN_QUALITY_COMPLETE) || (ql_plan_quality q =? PLAN_QUALITY_BEST_SO_FAR)) &&
      negb (ql_routing_quality q =? ROUTING_QUALITY_UNSPECIFIED) &&
      negb (ql_recovery_state q =? RECOVERY_STATE_UNSPECIFIED)
  end &&
  (NOTIFICATION_TYPE_UNSPECIFIED <? re_notification result) &&
  (re_notification result <? NOTIFICATION_TYPE_INFEASIBLE_SCHEDULE) && orderedReasons (re_reasons result).

Definition source_matches (response : PlannerStreamResponse) (proposal : PlanProposal) : bool :=
  dispatchUUID (pl_proposal_id proposal) && dispatchUUID (pl_base_current_plan_id proposal) &&
  (pl_source_runtime_epoch proposal =? ps_runtime_epoch response) &&
  (pl_source_planner_state_version proposal =? ps_planner_state_version response) &&
  (pl_source_trip_revision proposal =? ps_trip_revision response) &&
  (pl_source_accepted_mutation_sequence proposal =? ps_accepted_mutation_sequence response) &&
  (0 <? pl_created_at_unix_ms proposal).

Definition validateProposalResult (response : PlannerStreamResponse) (answer : ReplanResult)
    (proposal : PlanProposal) : result unit :=
  if negb (result_metadata answer) then Err (ErrInvalid "proposal result metadata is invalid")
  else if negb (source_matches response proposal) then
    Err (ErrInvalid "proposal source conflicts with response envelope")
  else
    let segments := pl_preserved_prefix proposal ++ pl_revised_suffix proposal in
    if (zlen segments =? 0) || (64 <? zlen segments) then
      Err (ErrInvalid "proposal segment count is invalid")
    else validate_segments 0 (length (pl_preserved_prefix proposal)) ∅ None segments.

Definition envelope_valid (response : PlannerStreamResponse) : bool :=
  dispatchUUID (ps_request_id response) && dispatchUUID (ps_trip_id response) &&
  negb (ps_runtime_epoch response =? 0) && negb (ps_trip_revision response =? 0) &&
  negb (ps_accepted_mutation_sequence response =? 0).

Section Coordinators.
Context {PG : Postgres} {PP : PlannerProto}.

Definition fullBootstrap (state : CanonicalTripState) : result BootstrapTrip :=
  match UnmarshalPlan (cp_Payload (ct_CurrentPlan state)) with
  | None => Err (ErrInvalid "canonical current-plan payload is invalid")
  | Some plan =>
      if negb (bool_decide (gp_plan_id plan = ct_CurrentPlanID state)) then
        Err (ErrInvalid "canonical current-plan payload is invalid")
      else
        Ok (MkBootstrapTrip
              (BaseFullTrip (MkTripDefinition (ct_TripID state) (ct_OwnerUserID state)
                 (ct_DefaultTimeZoneName state) (bootstrap_activity <$> ct_Activities state)
                 (ct_CompletedPrefixCount state) (default "" (ct_CurrentActivityID state))
                 (ct_CurrentPlanID state) (bootstrap_delay <$> ct_TravelDelays state)))
              (ct_FinalizedMutationSequence state) (ct_TripRevision state) (Some plan))
  end.

(** ** Bootstrap *)

Context (env : WorkerEnv).

(** [ResolvedCanonicalBootstrap] with the fields [recoveryPayload] sets. *)
Definition expected_bootstrap (tripID : string) (revision sequence : Z) (planID : string)
  : ResolvedCanonicalBootstrap :=
  MkBootstrap tripID revision sequence sequence planID 0 0 None false.

Definition snapshot_blob (b : SnapshotBlob) : PbSnapshotBlob :=
  MkPbSnapshotBlob (sb_SchemaVersion b) (sb_SourceRuntimeEpoch b) (sb_SourcePlannerStateVersion b)
    (sb_TripRevision b) (sb_CoveredFinalizedMutationSequence b) (uint32 (zlen (sb_Payload b)))
    (sb_Checksum b) (sb_Payload b).

(** The snapshot's payload and what the planner has to answer, or [None] if its plan
    cannot be read. *)
Definition snapshot_payload (tripID : string) (b : SnapshotBlob)
  : option (BootstrapTrip * ResolvedCanonicalBootstrap) :=
  match UnmarshalSnapshotPlan (sb_Payload b) with
  | Some (Some plan) =>
      if bool_decide (gp_plan_id plan = "") then None
      else Some (MkBootstrapTrip (BaseSnapshot (snapshot_blob b)) (sb_CoveredFinalizedMutationSequence b)
                   (sb_TripRevision b) None,
                 expected_bootstrap tripID (sb_TripRevision b) (sb_CoveredFinalizedMutationSequence b)
                   (gp_plan_id plan))
  | _ => None
  end.

Definition state_payload (state : CanonicalTripState)
  : result (BootstrapTrip * ResolvedCanonicalBootstrap) :=
  payload ← fullBootstrap state;
  Ok (payload, expected_bootstrap (ct_TripID state) (ct_TripRevision state)
                 (ct_FinalizedMutationSequence state) (ct_CurrentPlanID state)).

Definition recoveryPayload (tripID : string)
  : work (result (BootstrapTrip * ResolvedCanonicalBootstrap * bool)) :=
  snapshot ← invoke env (CallRecovery tripID);
  match snapshot with
  | Ok s =>
      match snapshot_payload tripID (ss_SnapshotBlob s) with
      | Some p => mret (Ok (p, false))
      | None => mret (Err (ErrInvalid "compatible snapshot payload is invalid"))
      end
  | Err ErrSnapshotNotFound =>
      try_ok (invoke env (CallLoad tripID)) (fun state => mret (p ← state_payload state; Ok (p, true)))
  | Err e => mret (Err e)
  end.

Definition bootstrap_matches (requestID tripID : string) (epoch : Z) (expected : ResolvedCanonicalBootstrap)
    (response : PlannerStreamResponse) : option TripBootstrapped :=
  match GetTripBootstrapped response with
  | None => None
  | Some ack =>
      if bool_decide (ps_request_id response = requestID) && bool_decide (ps_trip_id response = tripID) &&
         (ps_runtime_epoch response =? epoch) && accepted_status (tb_status ack) &&
         bool_decide (tb_current_plan_id ack = bs_CurrentPlanID expected) &&
         (tb_accepted_mutation_sequence ack =? bs_FinalizedMutationSequence expected) &&
         (tb_finalized_mutation_sequence ack =? bs_FinalizedMutationSequence expected) &&
         (ps_trip_revision response =? bs_TripRevision expected)
      then Some ack else None
  end.

(** [NewRequestID], the deadline and [Exchange], as every worker does them. *)
Definition ask (timeout : Z) (tripID : string) (epoch : Z) (payload : RequestPayload)
  : work (result (string * PlannerStreamResponse)) :=
  requestID ← NewRequestID env;
  match requestID with
  | None => mret (Err (ErrDatabase "generate request id"))
  | Some requestID =>
      expires ← expires_at env timeout;
      response ← Exchange env (MkPlannerStreamRequest requestID tripID epoch 0 0 None expires None payload);
      mret match response with
           | None => Err (ErrDatabase "exchange")
           | Some response => Ok (requestID, response)
           end
  end.

Definition RunBootstrap (holderID : string) (timeout : Z) (tripID : string)
  : work (result ResolvedCanonicalBootstrap) :=
  try_ok (invoke env (CallCurrent tripID holderID)) (fun lease =>
  try_ok (recoveryPayload tripID) (fun '(payload, expected, canonical) =>
  try_ok (ask timeout tripID (rl_RuntimeEpoch lease) (AskBootstrap payload)) (fun '(requestID, response) =>
    match bootstrap_matches requestID tripID (rl_RuntimeEpoch lease) expected response with
    | None => mret (Err (ErrInvalid "planner bootstrap acknowledgement conflicts with canonical state"))
    | Some ack =>
        if negb canonical then mret (Ok expected)
        else invoke env (CallBootstrap (MkBootstrapRequest tripID (ps_trip_revision response)
               (tb_accepted_mutation_sequence ack) (tb_finalized_mutation_sequence ack)
               (tb_current_plan_id ack)))
    end))).

(** ** Snapshots *)

(** The snapshot a response carries for the request, if it may be stored. *)
Definition captured (requestID tripID : string) (epoch minimumSequence minimumVersion : Z)
    (response : PlannerStreamResponse) : result SnapshotBlob :=
  match GetTripSnapshot response with
  | Some answer =>
      if negb (bool_decide (ps_request_id response = requestID)) ||
         negb (bool_decide (ps_trip_id response = tripID)) || negb (ps_runtime_epoch response =? epoch)
      then Err (ErrInvalid "snapshot response is not correlated")
      else if sn_status answer =? STATUS_CODE_SNAPSHOT_NOT_READY then Err ErrSnapshotNotReady
      else if negb (sn_status answer =? STATUS_CODE_OK) || sn_retryable answer then
        Err (ErrInvalid "planner rejected snapshot request")
      else match sn_snapshot answer with
      | None => Err (ErrInvalid "snapshot metadata conflicts with response")
      | Some blob =>
          if negb (zlen (bl_checksum_sha256 blob) =? 32) ||
             negb (bl_payload_size_bytes blob =? uint32 (zlen (bl_payload blob))) ||
             negb (bl_source_runtime_epoch blob =? ps_runtime_epoch response) ||
             negb (bl_source_planner_state_version blob =? ps_planner_state_version response) ||
             negb (bl_trip_revision blob =? ps_trip_revision response) ||
             (bl_covered_finalized_mutation_sequence blob <? minimumSequence) ||
             (bl_source_planner_state_version blob <? minimumVersion)
          then Err (ErrInvalid "snapshot metadata conflicts with response")
          else Ok (MkBlob requestID tripID (bl_snapshot_schema_version blob) (bl_source_runtime_epoch blob)
                     (bl_source_planner_state_version blob) (bl_trip_revision blob)
                     (bl_covered_finalized_mutation_sequence blob) (bl_payload blob)
                     (bl_checksum_sha256 blob))
      end
  | None => Err (ErrInvalid "snapshot response is not correlated")
  end.

Definition Capture (holderID : string) (timeout : Z) (tripID : string)
    (reason minimumSequence minimumVersion : Z) : work (result StoredSnapshot) :=
  if negb (dispatchUUID tripID) || (reason <? SNAPSHOT_REASON_PERIODIC) || (SNAPSHOT_REASON_SHUTDOWN <? reason)
  then mret (Err (ErrInvalid "invalid snapshot request"))
  else
    try_ok (invoke env (CallCurrent tripID holderID)) (fun lease =>
    try_ok (ask timeout tripID (rl_RuntimeEpoch lease)
              (AskSnapshot (MkRequestSnapshot reason minimumSequence minimumVersion)))
      (fun '(requestID, response) =>
       match captured requestID tripID (rl_RuntimeEpoch lease) minimumSequence minimumVersion response with
       | Err e => mret (Err e)
       | Ok blob => invoke env (CallSnapshot blob)
       end)).

(** ** Proposals *)

(** [Ok None] for a result without a proposal. *)
Definition persistenceRequest (holderID : string) (response : PlannerStreamResponse)
  : result (option PersistProposalRequest) :=
  if negb (envelope_valid response) then Err (ErrInvalid "invalid planner-result envelope")
  else match GetReplanResult response with
  | None => Err (ErrInvalid "notification is not a replan result")
  | Some answer =>
      match re_proposal answer with
      | None =>
          if match re_quality answer with Some q => ql_plan_quality q | None => 0 end =?
             PLAN_QUALITY_NO_NEW_PROPOSAL
          then Ok None
          else Err (ErrInvalid "proposal absence conflicts with result quality")
      | Some proposal =>
          _ ← validateProposalResult response answer proposal;
          match MarshalProposal (MkStoredPlanProposal (Some proposal) (re_notification answer)
                  (re_reasons answer) (re_stats answer) (re_quality answer)) with
          | None => Err (ErrInvalid "serialize stored proposal")
          | Some payload =>
              Ok (Some (MkPersist (pl_proposal_id proposal) (ps_trip_id response)
                (MkSource (pl_source_runtime_epoch proposal) (pl_source_planner_state_version proposal)
                   (pl_source_trip_revision proposal) (pl_source_accepted_mutation_sequence proposal)
                   (pl_base_current_plan_id proposal))
                (MkFreshness holderID (ps_runtime_epoch response) (ps_planner_state_version response)
                   (ps_accepted_mutation_sequence response))
                payload (sha256 payload) (pl_created_at_unix_ms proposal * Millisecond)))
          end
      end
  end.

(** What an attempt to store a proposal means: done, discarded, refused, or to be
    tried again. *)
Inductive Attempt := Stored (p : PersistedProposal) | Discarded | Refused (e : err) | Again (e : err).
Definition attempt (r : result PersistedProposal) : Attempt :=
  match r with
  | Ok p => Stored p
  | Err ErrProposalStale => Discarded
  | Err ErrProposalIdentityConflict => Refused ErrProposalIdentityConflict
  | Err ErrProposalPayloadInvalid => Refused ErrProposalPayloadInvalid
  | Err ErrTripNotFound => Refused ErrTripNotFound
  | Err e => Again e
  end.

(** The loop around [Persist]: the context is found done after [waits] delays. *)
Fixpoint persist_until (waits : nat) (request : PersistProposalRequest)
  : work (result (option PersistedProposal)) :=
  r ← invoke env (CallPropose request);
  match attempt r with
  | Stored p => mret (Ok (Some p))
  | Discarded => mret (Ok None)
  | Refused e => mret (Err e)
  | Again _ =>
      match waits with
      | O => mret (Err (ErrDatabase "context"))
      | S waits => persist_until waits request
      end
  end.

Definition persistForPublication (holderID : string) (waits : nat) (response : PlannerStreamResponse)
  : work (result (option PersistedProposal)) :=
  match persistenceRequest holderID response with
  | Err e => mret (Err e)
  | Ok None => mret (Ok None)
  | Ok (Some request) => persist_until waits request
  end.

(** [ProposalConsumer.Persist]: one attempt. *)
Definition PersistOnce (holderID : string) (response : PlannerStreamResponse)
  : work (result (option PersistedProposal)) :=
  match persistenceRequest holderID response with
  | Err e => mret (Err e)
  | Ok None => mret (Ok None)
  | Ok (Some request) =>
      r ← invoke env (CallPropose request);
      mret match r with
           | Ok p => Ok (Some p)
           | Err ErrProposalStale => Ok None
           | Err e => Err e
           end
  end.

(** The hook set by [SetOnStored]; [None] if there is none. *)
Definition hook : Type := option (PersistedProposal -> PlannerStreamResponse -> result unit).

(** [Run] on the notifications it receives, each with the delays its context
    allows; it ends when they end or at the first error. *)
Fixpoint consume (holderID : string) (onStored : hook) (l : list (nat * PlannerStreamResponse))
  : work (result unit) :=
  match l with
  | [] => mret (Ok tt)
  | (waits, response) :: l =>
      try_ok (persistForPublication holderID waits response) (fun stored =>
        match stored, onStored with
        | Some p, Some f =>
            if pd_Publishable p then
              _ ← announce (Published p response);
              match f p response with
              | Err e => mret (Err e)
              | Ok _ => consume holderID onStored l
              end
            else consume holderID onStored l
        | _, _ => consume holderID onStored l
        end)
  end.

End Coordinators.

(** ** Telemetry *)

(** [Dispatch] between its two sections: the request and the test of the answer. *)
Definition telemetry_request (tripID requestID : string) (epoch observation expires : Z)
    (event : ApplyTripEvent) : PlannerStreamRequest :=
  MkPlannerStreamRequest requestID tripID epoch 0 observation None expires None
    (AskApply (MkApplyTripEvent requestID (ev_occurred_at_unix_ms event)
       (ev_command_expires_at_unix_ms event) (ev_event event))).

Definition telemetry_acknowledged (tripID requestID : string) (epoch : Z)
    (response : PlannerStreamResponse) : option EventAcknowledged :=
  match GetEventAcknowledged response with
  | None => None
  | Some ack =>
      if bool_decide (ps_request_id response = requestID) && bool_decide (ps_trip_id response = tripID) &&
         (ps_runtime_epoch response =? epoch) && bool_decide (ea_event_id ack = requestID)
      then Some ack else None
  end.

Inductive TelemetryError :=
| TelemetryInactive | TelemetryNoRequestID | TelemetryExchange | TelemetryCorrelation
| TelemetryCommit (e : SupervisorError).

(** [between] is what other goroutines do to the supervisor during the exchange. *)
Definition DispatchTelemetry (exchange : PlannerStreamRequest -> option PlannerStreamResponse)
    (random : option bytes) (expires : Z) (between : Supervisor -> Supervisor) (tripID : string)
    (event : ApplyTripEvent) (s : Supervisor)
  : (TelemetryError + PlannerStreamResponse) * Z * Supervisor :=
  match ReserveObservation tripID s with
  | (None, s) => (inl TelemetryInactive, 0, s)
  | (Some (state, observation), s) =>
      match newAuthUUID <$> random with
      | None => (inl TelemetryNoRequestID, 0, s)
      | Some requestID =>
          let epoch := rv_RuntimeEpoch state in
          let s := between s in
          match exchange (telemetry_request tripID requestID epoch observation expires event) with
          | None => (inl TelemetryExchange, observation, s)
          | Some response =>
              match telemetry_acknowledged tripID requestID epoch response with
              | None => (inl TelemetryCorrelation, observation, s)
              | Some ack =>
                  match CommitObservation tripID (ps_runtime_epoch response)
                          (ea_resolved_observation_sequence ack) (ps_accepted_mutation_sequence response)
                          (ps_planner_state_version response) s with
                  | (Some e, s) => (inl (TelemetryCommit e), observation, s)
                  | (None, s) => (inr response, observation, s)
                  end
              end
          end
      end
  end.

Definition TelemetryDisposition (response : option PlannerStreamResponse) : string * string * bool :=
  match response ≫= GetEventAcknowledged with
  | None => ("rejected", "INTERNAL", false)
  | Some ack =>
      let status := statusName (ea_status ack) in
      if ea_disposition ack =? EVENT_DISPOSITION_ACCEPTED then ("accepted", status, false)
      else if ea_disposition ack =? EVENT_DISPOSITION_DUPLICATE then ("accepted", status, false)
      else if ea_disposition ack =? EVENT_DISPOSITION_STALE then ("dropped", status, false)
      else ("rejected", status, ea_retryable ack)
  end.
