(* ===== verification/CoordinatorProps.v ===== *)
(** * Properties of the coordinating workers *)

From S2P Require Import Prelude GoLib Wire Schema Tables Leases Commands Finalization Mutations Proposals Decisions OutboxStore CanonicalState Mirror Snapshots Recovery Bootstrap System Convergence GoText PlannerMessages Worker Dispatcher DispatchProps Supervisor Coordinators.

(** ** Facts on the coordinating workers

    Their calls are steps of the system, a convergence runs through when the rows
    keep their checks, and what [validate_segments] accepts. *)

Create HintDb advance discriminated.

Section CoordinatorFacts.
Context {PG : Postgres} {PP : PlannerProto}.

(** ** Steps *)

Section Advancing.
Context (env : WorkerEnv) (Hothers : honest env).

Definition advancing {A} (m : work A) : Prop := forall w, rtc step (wk_db w) (wk_db (m w).2).

Lemma advancing_ret {A} (a : A) : advancing (mret a).
Proof. intros w. done. Qed.
Lemma advancing_bind {A B} (m : work A) (f : A -> work B) :
  advancing m -> (forall a, advancing (f a)) -> advancing (m ≫= f).
Proof.
  intros Hm Hf w. unfold mbind, work_bind. specialize (Hm w). destruct (m w) as [a w']. simpl in *.
  etrans; [exact Hm|apply Hf].
Qed.
Lemma advancing_invoke {A} (c : StoreCall A) : unsigned_call c -> advancing (invoke env c).
Proof.
  intros Hu w. unfold invoke. pose proof (Hothers (wk_calls w) (wk_db w)) as Ho.
  pose proof (perform_steps (we_locked env (wk_calls w)) (we_clk env (wk_calls w)) c
    (we_others env (wk_calls w) (wk_db w)) Hu) as Hs.
  destruct (we_fault _ _); [|exact Ho|]; destruct (perform _ _ _ _) as [r d']; simpl in *; by etrans.
Qed.
Lemma advancing_exchange request : advancing (Exchange env request).
Proof. intros w. done. Qed.
Lemma advancing_announce e : advancing (announce e).
Proof. intros w. done. Qed.
Lemma advancing_id : advancing (NewRequestID env).
Proof. intros w. done. Qed.
Lemma advancing_expires timeout : advancing (expires_at env timeout).
Proof. intros w. done. Qed.

#[local] Hint Extern 1 (advancing (invoke _ _)) => (apply advancing_invoke; exact I) : advance.
#[local] Hint Resolve advancing_ret advancing_bind advancing_exchange advancing_announce advancing_id
  advancing_expires : advance.

Lemma advancing_try {A B} (m : work (result A)) (f : A -> work (result B)) :
  advancing m -> (forall a, advancing (f a)) -> advancing (try_ok m f).
Proof. intros Hm Hf. apply advancing_bind; [done|]. intros [a|e]; auto with advance. Qed.
#[local] Hint Resolve advancing_try : advance.

Lemma advancing_ask timeout tripID epoch payload : advancing (ask env timeout tripID epoch payload).
Proof. apply advancing_bind; [auto with advance|]. intros [id|]; auto with advance. Qed.
#[local] Hint Resolve advancing_ask : advance.

Lemma advancing_recovery tripID : advancing (recoveryPayload env tripID).
Proof.
  apply advancing_bind; [auto with advance|]. intros [s|e].
  - destruct (snapshot_payload _ _); auto with advance.
  - destruct e; auto with advance.
Qed.
#[local] Hint Resolve advancing_recovery : advance.

Lemma advancing_bootstrap holderID timeout tripID : advancing (RunBootstrap env holderID timeout tripID).
Proof.
  apply advancing_try; [auto with advance|]. intros lease. apply advancing_try; [auto with advance|].
  intros [[payload expected] canonical]. apply advancing_try; [auto with advance|].
  intros [requestID response]. destruct (bootstrap_matches _ _ _ _ _); [|auto with advance].
  destruct (negb canonical); auto with advance.
Qed.

Lemma advancing_capture holderID timeout tripID reason seq version :
  advancing (Capture env holderID timeout tripID reason seq version).
Proof.
  unfold Capture. destruct (_ || _ : bool); [auto with advance|]. apply advancing_try; [auto with advance|].
  intros lease. apply advancing_try; [auto with advance|]. intros [requestID response].
  destruct (captured _ _ _ _ _ _); auto with advance.
Qed.

Lemma advancing_persist waits request : advancing (persist_until env waits request).
Proof.
  induction waits as [|waits IH]; simpl; (apply advancing_bind; [auto with advance|]);
    intros r; destruct (attempt r); auto with advance.
Qed.

Lemma advancing_consume holderID onStored l : advancing (consume env holderID onStored l).
Proof.
  induction l as [|[waits response] l IH]; simpl; [auto with advance|]. apply advancing_try.
  - unfold persistForPublication. destruct (persistenceRequest _ _) as [[r|]|]; auto with advance.
    apply advancing_persist.
  - intros stored. destruct stored as [p|], onStored as [f|]; try done. destruct (pd_Publishable p); [|done].
    apply advancing_bind; [auto with advance|]. intros _. destruct (f p response); auto with advance.
Qed.
End Advancing.

(** ** Convergence runs through *)

(** Every command satisfies the table's checks. *)
Definition checked_intents (d : db) : Prop := forall k i, intents d !! k = Some i -> intent_check i = true.

Lemma settle_mirror_runs T at_ c d :
  checked_intents d -> exists d', settle_mirror T at_ c d = Ok (tt, d') /\ checked_intents d'.
Proof.
  intros Hc. unfold settle_mirror.
  assert (H1 : exists d1, (if is_canonical c && sync_waiting c then
      update_intent "resolve bootstrap mirror intent" (cm_intentID c) (fun i =>
        if bool_decide (i_trip_id i = T) then set_i_runtime_sync_state SyncSynced i else i)
    else mret tt) d = Ok (tt, d1) /\ checked_intents d1).
  { destruct (_ && _); [|by exists d]. unfold update_intent.
    destruct (intents d !! cm_intentID c) as [i|] eqn:E; [|by exists d].
    assert (Hi : intent_check (if bool_decide (i_trip_id i = T) then set_i_runtime_sync_state SyncSynced i
      else i) = true) by (case_bool_decide; exact (Hc _ _ E)).
    rewrite Hi. eexists. split; [done|]. intros k x. simpl.
    intros [[_ <-]|[_ Hx]]%lookup_insert_Some; [exact Hi|by eapply Hc]. }
  destruct H1 as (d1 & H1 & Hc1).
  assert (H2 : exists d2, (if is_canonical c && delivery_waiting c then
      update_outbox (cm_outboxID c) (of_trip T (accept_row at_))
    else if is_null (cm_finalizationConfirmed c) then
      update_outbox (cm_outboxID c) (of_trip T (confirm_row at_)) else mret tt) d1 = Ok (tt, d2) /\
    checked_intents d2) by (repeat case_match; eexists; split; done).
  destruct H2 as (d2 & H2 & Hc2). exists d2. split; [|done]. eapply tx_bind_run; [exact H1|exact H2].
Qed.

Lemma settle_runs_through T at_ l : forall d,
  checked_intents d -> exists d', for_each (settle_mirror T at_) l d = Ok (tt, d').
Proof.
  induction l as [|c l IH]; intros d Hc; simpl; [by exists d|].
  destruct (settle_mirror_runs T at_ c d Hc) as (d1 & H1 & Hc1). destruct (IH d1 Hc1) as [d2 H2].
  exists d2. by eapply tx_bind_run.
Qed.

(** In a consistent database nothing but a wrong report refuses a convergence. *)
Lemma converge_runs clk r t d :
  consistent d -> checked_intents d -> validateCanonicalBootstrapResolution r = Ok tt ->
  trips d !! rb_TripID r = Some t -> t_trip_revision t = int64 (rb_TripRevision r) ->
  t_finalized_mutation_sequence t = int64 (rb_FinalizedMutationSequence r) ->
  rb_AcceptedMutationSequence r = rb_FinalizedMutationSequence r ->
  t_current_plan_id t = Some (rb_CurrentPlanID r) ->
  exists c d', ResolveCanonicalBootstrap clk r d = Ok (c, d') /\
    bs_AcceptedMutationSequence c = rb_AcceptedMutationSequence r.
Proof.
  intros Hd Hc Hv Ht Hrev Hf Ha Hp. set (T := rb_TripID r) in *.
  set (l := covered_mirrors T (int64 (rb_FinalizedMutationSequence r)) d).
  set (at_ := if (0 <? zlen (List.filter mirror_waiting l)) ||
    (0 <? zlen (List.filter (fun c => is_null (cm_finalizationConfirmed c)) l)) then Some (clk 0%nat)
    else head (omap cm_finalizationConfirmed l)).
  destruct (settle_runs_through T at_ l d Hc) as [d' Hd']. do 2 eexists. split; cycle 1.
  1: shelve. unfold ResolveCanonicalBootstrap. run_tx_step; [exact Hv|].
  eapply tx_bind_run; [by apply lock_trip_row_ok|]. run_tx_step; [by rewrite Hp|]. run_tx_step.
  { by rewrite Hrev, Hf, Ha, !Z.eqb_refl, bool_decide_eq_true_2. }
  run_tx_step; [reflexivity|]. run_tx_step.
  { apply not_true_iff_false. intros (m & Hin & Hb)%existsb_exists. apply list_elem_of_In in Hin.
    rewrite <- Hf in Hin. by rewrite (covered_free d T t m Hd Ht Hin) in Hb. }
  eapply tx_bind_run; [exact Hd'|]. reflexivity.
  Unshelve. reflexivity.
Qed.

Lemma Load_trip tripID d state d' : Load tripID d = Ok (state, d') ->
  d' = d /\ validCanonicalUUID tripID = true /\ exists t, trips d !! tripID = Some t /\
    ct_TripID state = tripID /\ 0 < t_trip_revision t /\ 0 < t_finalized_mutation_sequence t /\
    ct_TripRevision state = uint64 (t_trip_revision t) /\
    ct_FinalizedMutationSequence state = uint64 (t_finalized_mutation_sequence t) /\
    t_current_plan_id t = Some (ct_CurrentPlanID state) /\ validCanonicalUUID (ct_CurrentPlanID state) = true.
Proof.
  unfold Load, scan_current_plan, lock_trip_row. intros H. inv_tx. zbool. split; [done|]. split; [done|].
  eexists. by split_and!.
Qed.
End CoordinatorFacts.

(** ** What a valid proposal is *)

Definition proposal_segments (proposal : PlanProposal) : list ProposalSegment :=
  pl_preserved_prefix proposal ++ pl_revised_suffix proposal.

Definition scheduled (segment : ProposalSegment) : Prop :=
  sg_disposition segment <> SEGMENT_DISPOSITION_SKIPPED.

(** [s2] starts when [s1] has ended. *)
Definition follows (s1 s2 : ProposalSegment) : Prop :=
  exists e s, sg_scheduled_end_unix_ms s1 = Some e /\ sg_scheduled_start_unix_ms s2 = Some s /\ e <= s.

Lemma segment_times segment prefix :
  validateProposalSegment segment prefix = Ok tt -> scheduled segment ->
  exists s e, sg_scheduled_start_unix_ms segment = Some s /\ sg_scheduled_end_unix_ms segment = Some e /\ s < e.
Proof.
  unfold validateProposalSegment, scheduled. intros H Hs. repeat case_match; simplify_eq; zbool; try done;
    (eexists _, _; by split_and!).
Qed.

(** Of any two scheduled segments the later follows the earlier. *)
Definition in_order (l : list ProposalSegment) : Prop :=
  forall i j s1 s2, (i < j)%nat -> l !! i = Some s1 -> l !! j = Some s2 -> scheduled s1 -> scheduled s2 ->
    follows s1 s2.

Lemma in_order_cons s l :
  in_order (s :: l) <-> (forall x, x ∈ l -> scheduled s -> scheduled x -> follows s x) /\ in_order l.
Proof.
  split.
  - intros H. split.
    + intros x [j Hj]%list_elem_of_lookup. by apply (H 0%nat (S j)); [lia|..].
    + intros i j s1 s2 Hij. apply (H (S i) (S j)). lia.
  - intros [H1 H2] i j s1 s2 Hij Hi Hj. destruct j as [|j]; [lia|]. simpl in Hj.
    destruct i as [|i]; simpl in Hi; [|apply (H2 i j); try done; lia]. simplify_eq.
    apply H1. by eapply list_elem_of_lookup_2.
Qed.

Lemma fresh_cons (s : ProposalSegment) l (seen : gset string) :
  NoDup (sg_activity_id <$> s :: l) /\ (forall x, x ∈ s :: l -> sg_activity_id x ∉ seen) <->
  sg_activity_id s ∉ seen /\ NoDup (sg_activity_id <$> l) /\
  (forall x, x ∈ l -> sg_activity_id x ∉ ({[sg_activity_id s]} ∪ seen : gset string)).
Proof.
  rewrite fmap_cons, NoDup_cons, list_elem_of_fmap. split.
  - intros [[Hn Hd] Hs]. split_and!; [apply Hs; left|done|]. intros x Hx.
    pose proof (Hs x (list_elem_of_further _ _ _ Hx)).
    assert (sg_activity_id x <> sg_activity_id s) by naive_solver. set_solver.
  - intros (Hs & Hd & Hl). split_and!; [|done|].
    + intros (x & Hx & Hin). specialize (Hl x Hin). set_solver.
    + intros x [->|Hx]%elem_of_cons; [done|]. specialize (Hl x Hx). set_solver.
Qed.

(** [l] starts after [prior]. *)
Definition starts_after (prior : option Z) (l : list ProposalSegment) : Prop :=
  forall e s, prior = Some e -> s ∈ l -> scheduled s ->
    exists st, sg_scheduled_start_unix_ms s = Some st /\ e <= st.

(** The loop from the middle: [prior] is the end of the last scheduled segment. *)
Lemma validate_segments_exact prefix l : forall index seen prior,
  validate_segments index prefix seen prior l = Ok tt <->
  (forall i s, l !! i = Some s -> validateProposalSegment s (bool_decide (index + i < prefix)%nat) = Ok tt) /\
  (NoDup (sg_activity_id <$> l) /\ forall s, s ∈ l -> sg_activity_id s ∉ seen) /\
  starts_after prior l /\ in_order l.
Proof.
  induction l as [|s l IH]; intros index seen prior.
  { simpl. split; [intros _|done]. split_and!; [done|constructor|set_solver|intros e s _; set_solver|done]. }
  rewrite fresh_cons, in_order_cons. cbn [validate_segments].
  destruct (validateProposalSegment s (bool_decide (index < prefix)%nat)) as [[]|e] eqn:Hs; simpl.
  2:{ split; [done|]. intros (H & _). specialize (H 0%nat s eq_refl). rewrite Nat.add_0_r in H. congruence. }
  destruct (decide (sg_activity_id s ∈ seen)) as [Hin|Hin];
    [rewrite bool_decide_eq_true_2 by done; naive_solver|rewrite (bool_decide_eq_false_2 (_ ∈ seen)) by done].
  assert (Hshift : (forall i x, (s :: l) !! i = Some x ->
      validateProposalSegment x (bool_decide (index + i < prefix)%nat) = Ok tt) <->
    (forall i x, l !! i = Some x ->
      validateProposalSegment x (bool_decide (S index + i < prefix)%nat) = Ok tt)).
  { split; intros H i x Hi.
    - specialize (H (S i) x Hi). by rewrite Nat.add_succ_r in H.
    - destruct i as [|i]; simpl in Hi; [simplify_eq; by rewrite Nat.add_0_r|].
      rewrite Nat.add_succ_r. by apply H. }
  rewrite Hshift. destruct (_ =? _) eqn:Hsk; zbool.
  - rewrite IH. split; intros (H1 & H2 & H3 & H4); split_and!; try done; try (by apply H2); [| |by apply H4].
    + intros e x He [->|Hx]%elem_of_cons Hsx; [by destruct Hsx|by eapply H3].
    + intros e x He Hx. apply H3; [done|by right].
  - destruct (segment_times _ _ Hs Hsk) as (st & en & Hst & Hen & Hlt). rewrite Hst, Hen. simpl.
    destruct (match prior with Some e => st <? e | None => false end) eqn:Hp.
    { split; [done|]. intros (_ & _ & H & _). destruct prior as [e|]; [|done]. zbool.
      destruct (H e s eq_refl) as (st' & ? & ?); [left|done|]. simplify_eq. lia. }
    assert (Hgood : forall e, prior = Some e -> e <= st) by (intros e ->; by apply Z.ltb_ge).
    rewrite IH. split; intros (H1 & H2 & H3 & H4); split_and!; try done; try (by apply H2); [| | |by apply H4].
    + intros e x He [->|Hx]%elem_of_cons Hsx; [exists st; eauto|].
      destruct (H3 en x eq_refl Hx Hsx) as (stx & ? & ?). exists stx. split; [done|]. specialize (Hgood e He). lia.
    + intros x Hx _ Hsx. destruct (H3 en x eq_refl Hx Hsx) as (stx & ? & ?). exists en, stx. by split_and!.
    + intros e x [= <-] Hx Hsx. destruct (proj1 H4 x Hx Hsk Hsx) as (e & stx & ? & ? & ?).
      exists stx. split; [done|]. simplify_eq. lia.
Qed.

(** C19: the checks on a planner's proposal are exact.  A proposal passes exactly if the
    result's status, quality and reasons are in order, its source is the state the
    response reports, it has 1 to 64 segments, each valid on its own and the
    preserved ones first, no activity appears twice, and of any two scheduled
    segments, not only neighbours, the later starts after the earlier has ended. *)
Theorem proposal_checks_exact response answer proposal :
  let l := proposal_segments proposal in
  validateProposalResult response answer proposal = Ok tt <->
  result_metadata answer = true /\ source_matches response proposal = true /\ 0 < zlen l <= 64 /\
  (forall i s, l !! i = Some s ->
     validateProposalSegment s (bool_decide (i < length (pl_preserved_prefix proposal))%nat) = Ok tt) /\
  NoDup (sg_activity_id <$> l) /\ in_order l.
Proof.
  cbv zeta. unfold validateProposalResult. fold (proposal_segments proposal).
  destruct (result_metadata answer); simpl; [|naive_solver].
  destruct (source_matches response proposal); simpl; [|naive_solver].
  assert (Hn : 0 <= zlen (proposal_segments proposal)) by (unfold zlen; lia).
  destruct (_ =? 0) eqn:E0; simpl; zbool; [split; [done|intros (_ & _ & ? & _); lia]|].
  destruct (64 <? _) eqn:E64; zbool; [split; [done|intros (_ & _ & ? & _); lia]|].
  rewrite validate_segments_exact. simpl. split.
  - intros (H1 & [H2 _] & _ & H4). split_and!; try done. lia.
  - intros (_ & _ & _ & H1 & H2 & H4). split_and!; done.
Qed.

Section CoordinatorProps.
Context {PG : Postgres} {PP : PlannerProto}.

(** ** The workers refine the system *)


(** ** Publication *)

(** The proposal of the response was stored, as it was received, and may be published. *)
Record stored_first (holderID : string) (log : list WorkerEvent) (p : PersistedProposal)
    (response : PlannerStreamResponse) (request : PersistProposalRequest) (answer : ReplanResult)
    (proposal : PlanProposal) : Prop := {
  sf_performed : Performed (CallPropose request) (Ok p) ∈ log;
  sf_publishable : pd_Publishable p = true;
  sf_answer : GetReplanResult response = Some answer;
  sf_proposal : re_proposal answer = Some proposal;
  sf_valid : validateProposalResult response answer proposal = Ok tt;
  sf_identity : pp_ProposalID request = pl_proposal_id proposal /\ pp_TripID request = ps_trip_id response;
  sf_payload : MarshalProposal (MkStoredPlanProposal (Some proposal) (re_notification answer)
    (re_reasons answer) (re_stats answer) (re_quality answer)) = Some (pp_Payload request);
  sf_checksum : pp_Checksum request = sha256 (pp_Payload request)
}.

Lemma persistenceRequest_ok holderID response request :
  persistenceRequest holderID response = Ok (Some request) -> exists answer proposal,
  GetReplanResult response = Some answer /\ re_proposal answer = Some proposal /\
  validateProposalResult response answer proposal = Ok tt /\
  (pp_ProposalID request = pl_proposal_id proposal /\ pp_TripID request = ps_trip_id response) /\
  MarshalProposal (MkStoredPlanProposal (Some proposal) (re_notification answer)
    (re_reasons answer) (re_stats answer) (re_quality answer)) = Some (pp_Payload request) /\
  pp_Checksum request = sha256 (pp_Payload request).
Proof.
  unfold persistenceRequest. intros H. destruct (negb _); [done|].
  destruct (GetReplanResult response) as [answer|]; [|done].
  destruct (re_proposal answer) as [proposal|] eqn:Hp; [|by case_match].
  destruct (validateProposalResult _ _ _) as [[]|] eqn:Hv; [|done]. simpl in H.
  destruct (MarshalProposal _) as [payload|] eqn:Hm; [|done]. simplify_eq.
  exists answer, proposal. by split_and!.
Qed.

Definition published_after (holderID : string) (log : list WorkerEvent) (e : WorkerEvent) : Prop :=
  forall p response, e = Published p response ->
    exists request answer proposal, stored_first holderID log p response request answer proposal.
Definition orderly (holderID : string) (w : Worker) : Prop :=
  forall l1 e l2, wk_log w = l1 ++ e :: l2 -> published_after holderID l1 e.

Lemma orderly_performed holderID w db n {A} (c : StoreCall A) r :
  orderly holderID w -> orderly holderID (MkWorker db n (wk_log w ++ [Performed c r])).
Proof. intros H l1 e l2. apply (log_snoc (published_after holderID)); [exact H|by intros p response]. Qed.

Lemma invoke_orderly env holderID {A} (c : StoreCall A) :
  runs (orderly holderID) (invoke env c)
    (fun r w => orderly holderID w /\ forall a, r = Ok a -> Performed c (Ok a) ∈ wk_log w).
Proof.
  intros w Hw. unfold invoke. destruct (we_fault _ _); simpl; [|done|]; destruct (perform _ _ _ _) as [r d'];
    simpl; (split; [by apply orderly_performed|]); [intros a ->; set_solver|done].
Qed.

Lemma persist_until_orderly env holderID request waits :
  runs (orderly holderID) (persist_until env waits request)
    (fun r w => orderly holderID w /\ forall p, r = Ok (Some p) -> Performed (CallPropose request) (Ok p) ∈ wk_log w).
Proof.
  induction waits as [|waits IH]; simpl; (eapply runs_bind; [apply invoke_orderly|]); intros r;
    destruct (attempt r) eqn:Ha; try (apply runs_ret; intros w [Hw _]; split; [done|by intros]);
    try (apply runs_ret; intros w [Hw Hp]; split; [done|]; intros q [= <-]; apply Hp; clear -Ha;
      destruct r as [|[]]; simpl in Ha; congruence).
  eapply runs_conseq; [apply IH|naive_solver|done].
Qed.

Lemma consume_orderly env holderID onStored l :
  runs (orderly holderID) (consume env holderID onStored l) (fun _ w => orderly holderID w).
Proof.
  induction l as [|[waits response] l IH]; [by apply runs_ret|]. cbn [consume]. unfold try_ok.
  eapply (runs_bind _ _ _ (fun r w => orderly holderID w /\ forall p, r = Ok (Some p) ->
    exists request, persistenceRequest holderID response = Ok (Some request) /\
      Performed (CallPropose request) (Ok p) ∈ wk_log w)).
  { unfold persistForPublication. destruct (persistenceRequest _ _) as [[request|]|e];
      [|by apply runs_ret; intros w Hw; split..].
    eapply runs_conseq; [apply persist_until_orderly|done|]. intros r w [Hw Hp]. split; [done|].
    intros p Hr. exists request. split; [done|by apply Hp]. }
  intros [stored|e]; [|apply runs_ret; by intros w [? _]].
  destruct stored as [p|], onStored as [f|];
    try (eapply runs_conseq; [apply IH|by intros w [? _]|done]).
  destruct (pd_Publishable p) eqn:Hpub; [|eapply runs_conseq; [apply IH|by intros w [? _]|done]].
  eapply (runs_bind _ _ _ (fun _ w => orderly holderID w)).
  - intros w [Hw Hp]. simpl. intros l1 e l2. apply (log_snoc (published_after holderID)); [exact Hw|].
    intros p' response' [= <- <-]. destruct (Hp p eq_refl) as (request & Hreq & Hin).
    destruct (persistenceRequest_ok _ _ _ Hreq) as (answer & proposal & ?&?&?&?&?&?).
    exists request, answer, proposal. by constructor.
  - intros _. destruct (f p response); [apply IH|by apply runs_ret].
Qed.

(** C15: a proposal is stored before anybody sees it.  Whenever the consumer hands a
    proposal to the publication hook, it has before committed exactly this proposal:
    the payload is the marshalled proposal of the response with its checksum, it
    passed every check on proposals, and the store answered that it may be
    published. *)
Theorem published_after_stored env holderID onStored l d n l1 p response l2 :
  wk_log (consume env holderID onStored l (MkWorker d n [])).2 = l1 ++ Published p response :: l2 ->
  exists request answer proposal, stored_first holderID l1 p response request answer proposal.
Proof.
  intros H. eapply (consume_orderly env holderID onStored l (MkWorker d n [])); [|exact H|done].
  intros l1' e l2' Hnil. by destruct l1'.
Qed.

End CoordinatorProps.
