(* ===== verification/PlannerRecovery.v ===== *)
(** * Bringing a planner up

    What a bootstrap achieves from the canonical state and from a snapshot, with a
    planner that loads what it is sent. *)

From S2P Require Import Prelude GoLib Wire Schema Tables Leases Commands Finalization Mutations Proposals Decisions OutboxStore CanonicalState Mirror Snapshots Recovery Bootstrap System Convergence GoText PlannerMessages Worker Dispatcher DispatchProps Supervisor Coordinators CoordinatorProps.

Section PlannerRecovery.
Context {PG : Postgres} {PP : PlannerProto}.

(** ** A planner that loads what it is sent *)

Definition loaded_plan (base : BootstrapBase) : string :=
  match base with
  | BaseFullTrip t => td_current_plan_id t
  | BaseSnapshot b =>
      match UnmarshalSnapshotPlan (bl_payload b) with Some (Some p) => gp_plan_id p | _ => "" end
  end.

Definition bootstrapped (request : PlannerStreamRequest) : PlannerStreamResponse :=
  match pq_payload request with
  | AskBootstrap b =>
      MkPlannerStreamResponse (pq_request_id request) (pq_trip_id request) (pq_runtime_epoch request)
        (bt_finalized_mutation_sequence b) 0 1 (bt_trip_revision b)
        (TripBootstrappedPayload (MkTripBootstrapped STATUS_CODE_OK false (loaded_plan (bt_base b))
           (bt_finalized_mutation_sequence b) (bt_finalized_mutation_sequence b) ""))
  | _ =>
      MkPlannerStreamResponse (pq_request_id request) (pq_trip_id request) (pq_runtime_epoch request)
        0 0 0 0 OtherPayload
  end.

Lemma bootstrapped_matches requestID tripID epoch expires b expected :
  loaded_plan (bt_base b) = bs_CurrentPlanID expected ->
  bt_finalized_mutation_sequence b = bs_FinalizedMutationSequence expected ->
  bt_trip_revision b = bs_TripRevision expected ->
  bootstrap_matches requestID tripID epoch expected
    (bootstrapped (MkPlannerStreamRequest requestID tripID epoch 0 0 None expires None (AskBootstrap b))) =
  Some (MkTripBootstrapped STATUS_CODE_OK false (bs_CurrentPlanID expected)
    (bs_FinalizedMutationSequence expected) (bs_FinalizedMutationSequence expected) "").
Proof.
  intros Hp Hs Hr. unfold bootstrap_matches. simpl. rewrite Hp, Hs, Hr.
  by rewrite !bool_decide_eq_true_2, !Z.eqb_refl by done.
Qed.

(** ** Runs that nothing disturbs *)

Context (env : WorkerEnv) (Hu : undisturbed env).

Lemma try_runs {A B} (m : work (result A)) (f : A -> work (result B)) w a w' :
  m w = (Ok a, w') -> try_ok m f w = f a w'.
Proof. intros H. unfold try_ok, mbind, work_bind. by rewrite H. Qed.

Lemma ask_runs timeout tripID epoch payload answer w :
  (forall n request, pq_payload request = payload -> we_exchange env n request = Some (answer request)) ->
  exists requestID expires,
  let request := MkPlannerStreamRequest requestID tripID epoch 0 0 None expires None payload in
  ask env timeout tripID epoch payload w =
    (Ok (requestID, answer request),
     MkWorker (wk_db w) (S (S (S (wk_calls w)))) (wk_log w ++ [Exchanged request (Some (answer request))])).
Proof.
  intros Hx. destruct (ud_random _ Hu (wk_calls w)) as [raw Hraw].
  unfold ask, mbind, work_bind, NewRequestID, expires_at, Exchange. rewrite Hraw. simpl.
  rewrite Hx by done. by do 2 eexists.
Qed.

Context (holderID tripID : string) (timeout : Z) (w : Worker) (lease : RuntimeLease).
Context (Hlease : run_tx (Current (we_clk env (wk_calls w)) tripID holderID) (wk_db w) = (Ok lease, wk_db w)).
#[local] Abbreviation w1 := (MkWorker (wk_db w) (S (wk_calls w))
  (wk_log w ++ [Performed (CallCurrent tripID holderID) (Ok lease)])).

Lemma lease_runs : invoke env (CallCurrent tripID holderID) w = (Ok lease, w1).
Proof. by apply (invoke_runs env (CallCurrent tripID holderID)). Qed.

(** ** From the canonical state *)

Lemma recovery_from_state state plan :
  LoadForRecovery (we_clk env (S (wk_calls w))) tripID (wk_db w) = (Err ErrSnapshotNotFound, wk_db w) ->
  Load tripID (wk_db w) = Ok (state, wk_db w) ->
  UnmarshalPlan (cp_Payload (ct_CurrentPlan state)) = Some plan -> gp_plan_id plan = ct_CurrentPlanID state ->
  exists b l,
    recoveryPayload env tripID w1 = (Ok (b, expected_bootstrap (ct_TripID state) (ct_TripRevision state)
      (ct_FinalizedMutationSequence state) (ct_CurrentPlanID state), true),
      MkWorker (wk_db w) (S (S (S (wk_calls w)))) l) /\
    loaded_plan (bt_base b) = ct_CurrentPlanID state /\
    bt_finalized_mutation_sequence b = ct_FinalizedMutationSequence state /\
    bt_trip_revision b = ct_TripRevision state.
Proof.
  intros Hnone Hload Hplan Hid. unfold recoveryPayload, mbind, work_bind.
  erewrite (invoke_runs env (CallRecovery tripID) w1); [|done|exact Hnone]. cbn beta iota.
  erewrite try_runs; [|apply (invoke_runs env (CallLoad tripID)); [done|]; simpl; unfold run_tx;
    rewrite Hload; reflexivity].
  unfold state_payload, fullBootstrap. rewrite Hplan, Hid, bool_decide_eq_true_2 by done. simpl.
  do 2 eexists. split; [reflexivity|]. by split_and!.
Qed.


(** ** From a snapshot *)

Lemma recovery_from_snapshot s plan :
  LoadForRecovery (we_clk env (S (wk_calls w))) tripID (wk_db w) = (Ok s, wk_db w) ->
  UnmarshalSnapshotPlan (sb_Payload (ss_SnapshotBlob s)) = Some (Some plan) -> gp_plan_id plan <> "" ->
  let b := ss_SnapshotBlob s in
  recoveryPayload env tripID w1 =
    (Ok (MkBootstrapTrip (BaseSnapshot (snapshot_blob b)) (sb_CoveredFinalizedMutationSequence b)
           (sb_TripRevision b) None,
         expected_bootstrap tripID (sb_TripRevision b) (sb_CoveredFinalizedMutationSequence b)
           (gp_plan_id plan), false),
     MkWorker (wk_db w) (S (S (wk_calls w))) (wk_log w1 ++ [Performed (CallRecovery tripID) (Ok s)])).
Proof.
  intros Hs Hp Hid. cbv zeta. unfold recoveryPayload, mbind, work_bind.
  erewrite (invoke_runs env (CallRecovery tripID) w1); [|done|exact Hs]. cbn beta iota.
  unfold snapshot_payload. by rewrite Hp, bool_decide_eq_false_2 by done.
Qed.

(** A bootstrap from a snapshot sends it and changes nothing. *)
Lemma snapshot_bootstrap_runs s plan :
  LoadForRecovery (we_clk env (S (wk_calls w))) tripID (wk_db w) = (Ok s, wk_db w) ->
  UnmarshalSnapshotPlan (sb_Payload (ss_SnapshotBlob s)) = Some (Some plan) -> gp_plan_id plan <> "" ->
  (forall n request, we_exchange env n request = Some (bootstrapped request)) ->
  let b := ss_SnapshotBlob s in
  exists request w', RunBootstrap env holderID timeout tripID w =
      (Ok (expected_bootstrap tripID (sb_TripRevision b) (sb_CoveredFinalizedMutationSequence b)
             (gp_plan_id plan)), w') /\
    wk_db w' = wk_db w /\ Exchanged request (Some (bootstrapped request)) ∈ wk_log w' /\
    pq_payload request = AskBootstrap (MkBootstrapTrip (BaseSnapshot (snapshot_blob b))
      (sb_CoveredFinalizedMutationSequence b) (sb_TripRevision b) None).
Proof.
  intros Hs Hp Hid Hx. pose proof (recovery_from_snapshot s plan Hs Hp Hid) as Hrec. cbv zeta in *.
  match type of Hrec with _ = (Ok (?b, _, _), ?x) => set (payload := b) in *; set (w2 := x) in * end.
  destruct (ask_runs timeout tripID (rl_RuntimeEpoch lease) (AskBootstrap payload) bootstrapped w2)
    as (requestID & expires & Hask); [by intros; apply Hx|]. cbv zeta in Hask.
  match type of Hask with _ = (_, ?x) => set (w3 := x) in Hask end.
  eexists _, w3. split; [|split_and!; [done| |]].
  - unfold RunBootstrap. rewrite (try_runs _ _ _ _ _ lease_runs), (try_runs _ _ _ _ _ Hrec). cbn beta iota.
    rewrite (try_runs _ _ _ _ _ Hask). cbn beta iota. rewrite bootstrapped_matches; [reflexivity| |done..].
    simpl. by rewrite Hp.
  - simpl. apply elem_of_app. right. by left.
  - reflexivity.
Qed.

(** C38: a bootstrap from a snapshot forgets what was delivered since.  If the newest
    valid snapshot covers less than an outbox row that was delivered, the bootstrap
    succeeds with the snapshot's sequence and leaves the database as it is; the new
    runtime has not seen that command, and no dispatcher ever claims its row again to
    send it. *)
Theorem snapshot_bootstrap_skips_delivered s plan ko o :
  LoadForRecovery (we_clk env (S (wk_calls w))) tripID (wk_db w) = (Ok s, wk_db w) ->
  UnmarshalSnapshotPlan (sb_Payload (ss_SnapshotBlob s)) = Some (Some plan) -> gp_plan_id plan <> "" ->
  (forall n request, we_exchange env n request = Some (bootstrapped request)) ->
  outbox (wk_db w) !! ko = Some o -> o_trip_id o = tripID -> delivery_resolved o = true ->
  sb_CoveredFinalizedMutationSequence (ss_SnapshotBlob s) < o_mutation_sequence o ->
  exists r w', RunBootstrap env holderID timeout tripID w = (Ok r, w') /\
    bs_AcceptedMutationSequence r < o_mutation_sequence o /\ wk_db w' = wk_db w /\
    forall clk locked owner batch duration rows d',
      ClaimDue clk locked owner batch duration (wk_db w') = (Ok rows, d') -> ko ∉ (cl_ID <$> rows).
Proof.
  intros Hs Hp Hid Hx Ho _ Hres Hlt.
  destruct (snapshot_bootstrap_runs s plan Hs Hp Hid Hx) as (request & w' & Hrun & Hdb & _).
  exists (expected_bootstrap tripID (sb_TripRevision (ss_SnapshotBlob s))
    (sb_CoveredFinalizedMutationSequence (ss_SnapshotBlob s)) (gp_plan_id plan)), w'.
  split; [exact Hrun|]. split; [exact Hlt|]. split; [exact Hdb|].
  intros clk locked owner batch duration rows d' (ow & cs & _ & _ & _ & _ & -> & Hf)%ClaimDue_ok.
  rewrite Hdb in Hf. intros (c & -> & Hc)%list_elem_of_fmap. rewrite merge_sort_Permutation in Hc.
  destruct (claimed_candidate _ _ _ _ _ _ _ Hf Hc) as (x & Hin & _).
  destruct (elem_of_candidates _ _ _ _ _ _ Hin) as (Hx' & Hdue & _).
  apply due_true in Hdue as (Hpending & _). assert (x = o) as -> by congruence.
  unfold delivery_resolved in Hres. by rewrite Hpending in Hres.
Qed.
End PlannerRecovery.

(** ** Capture and recover *)

Section Captured.
Context {PG : Postgres} {PP : PlannerProto}.

(** What a successful capture did. *)
Lemma Capture_ok env holderID timeout tripID reason sequence version w s w' :
  undisturbed env ->
  Capture env holderID timeout tripID reason sequence version w = (Ok s, w') ->
  exists requestID epoch request response b clk, Exchanged request (Some response) ∈ wk_log w' /\
    captured requestID tripID epoch sequence version response = Ok b /\
    PersistSnapshot clk b (wk_db w) = Ok (s, wk_db w').
Proof.
  intros Hu. unfold Capture. destruct (_ || _ : bool); [done|].
  unfold try_ok, ask, NewRequestID, expires_at, Exchange. unfold mbind, work_bind.
  destruct (perform (we_locked env (wk_calls w)) (we_clk env (wk_calls w)) (CallCurrent tripID holderID) (wk_db w))
    as [r0 d0] eqn:E0. rewrite (invoke_runs env _ _ _ _ Hu E0).
  assert (d0 = wk_db w) as ->.
  { simpl in E0. unfold run_tx in E0. destruct (Current _ _ _ _) as [[l d1]|e] eqn:Ec; simplify_eq; [|done].
    by apply Current_ok in Ec as (?&?&?&?&?&?&?&?&?&?&?). }
  destruct r0 as [lease|e]; [|done]. destruct (ud_random _ Hu (S (wk_calls w))) as [raw Hraw].
  cbn [wk_calls wk_db wk_log]. rewrite Hraw. simpl. destruct (we_exchange _ _ _) as [response|] eqn:Ex; [|done]. simpl.
  destruct (captured _ _ _ _ _ _) as [b|e] eqn:Hb; [|done].
  match goal with |- invoke _ _ ?x = _ -> _ => set (w3 := x) end.
  destruct (perform (we_locked env (wk_calls w3)) (we_clk env (wk_calls w3)) (CallSnapshot b) (wk_db w3))
    as [r1 d1] eqn:E1. rewrite (invoke_runs env _ _ _ _ Hu E1). intros [= -> <-].
  simpl in E1. unfold run_tx in E1. destruct (PersistSnapshot _ _ _) as [[s' d2]|] eqn:Ep; simplify_eq.
  do 6 eexists. split_and!; [|exact Hb|exact Ep]. simpl.
  apply elem_of_app. left. apply elem_of_app. right. by left.
Qed.

Lemma captured_blob requestID tripID epoch sequence version response b :
  captured requestID tripID epoch sequence version response = Ok b ->
  exists answer blob, GetTripSnapshot response = Some answer /\ sn_snapshot answer = Some blob /\
    snapshot_blob b = blob /\ sb_TripID b = tripID /\
    sb_CoveredFinalizedMutationSequence b = bl_covered_finalized_mutation_sequence blob /\
    sb_TripRevision b = bl_trip_revision blob /\ sequence <= bl_covered_finalized_mutation_sequence blob.
Proof.
  unfold captured. destruct (GetTripSnapshot response) as [answer|]; [|done]. intros H.
  destruct (_ || _ || _ : bool) eqn:E1 in H; [done|]. destruct (_ =? _) eqn:E2 in H; [done|].
  destruct (_ || _ : bool) eqn:E3 in H; [done|]. destruct (sn_snapshot answer) as [blob|] eqn:Eb; [|done].
  destruct (_ || _ : bool) eqn:E4 in H; [done|]. injection H as <-. inv_res. zbool.
  exists answer, blob. split_and!; try done. unfold snapshot_blob. simpl. destruct blob; simpl in *. congruence.
Qed.

(** C24: a planner gets back the snapshot it gave.  After a capture stored a snapshot, a
    bootstrap of the trip, also by another backend that holds the lease, sends the
    planner exactly the blob it had answered the capture with, byte for byte, and
    with a planner that loads it the bootstrap succeeds at the sequence it covers. *)
Theorem captured_snapshot_sent_back env env' holderID holderID' timeout timeout' tripID reason sequence version
    w s w1 lease plan :
  undisturbed env -> undisturbed env' -> typed_rows (wk_db w) ->
  Capture env holderID timeout tripID reason sequence version w = (Ok s, w1) ->
  ss_Duplicate s = false -> blob_unsigned (ss_SnapshotBlob s) ->
  run_tx (Current (we_clk env' (wk_calls w1)) tripID holderID') (wk_db w1) = (Ok lease, wk_db w1) ->
  UnmarshalSnapshotPlan (sb_Payload (ss_SnapshotBlob s)) = Some (Some plan) -> gp_plan_id plan <> "" ->
  (forall n request, we_exchange env' n request = Some (bootstrapped request)) ->
  exists request response answer blob request' r w2,
    Exchanged request (Some response) ∈ wk_log w1 /\ GetTripSnapshot response = Some answer /\
    sn_snapshot answer = Some blob /\
    RunBootstrap env' holderID' timeout' tripID w1 = (Ok r, w2) /\
    bs_AcceptedMutationSequence r = bl_covered_finalized_mutation_sequence blob /\
    sequence <= bl_covered_finalized_mutation_sequence blob /\
    Exchanged request' (Some (bootstrapped request')) ∈ wk_log w2 /\
    pq_payload request' = AskBootstrap (MkBootstrapTrip (BaseSnapshot blob)
      (bl_covered_finalized_mutation_sequence blob) (bl_trip_revision blob) None).
Proof.
  intros Hu Hu' Ht Hcap Hdup Hun Hlease Hp Hid Hx.
  destruct (Capture_ok _ _ _ _ _ _ _ _ _ _ Hu Hcap)
    as (requestID & epoch & request & response & b & clk & Hin & Hb & Hper).
  assert (Eb : ss_SnapshotBlob s = b /\ LoadForRecovery (we_clk env' (S (wk_calls w1))) tripID (wk_db w1) =
    (Ok s, wk_db w1)).
  { pose proof (captured_blob _ _ _ _ _ _ _ Hb) as (_ & _ & _ & _ & _ & <- & _).
    pose proof Hper as (_ & t & _ & [(_ & Hs & _)|(-> & _)])%PersistSnapshot_ok; [congruence|].
    by eapply (stored_snapshot_found clk). }
  destruct Eb as [Eb Hload]. destruct (captured_blob _ _ _ _ _ _ _ Hb)
    as (answer & blob & Ha & Hsn & <- & Htrip & Hc & Hr & Hle).
  destruct (snapshot_bootstrap_runs env' Hu' holderID' tripID timeout' w1 lease Hlease s plan Hload Hp Hid Hx)
    as (request' & w2 & Hrun & _ & Hex & Hpay).
  do 7 eexists. split_and!; [exact Hin|exact Ha|exact Hsn|exact Hrun| |exact Hle|exact Hex|].
  - simpl. by rewrite Eb, Hc.
  - by rewrite Hpay, Eb, Hc, Hr.
Qed.
End Captured.
