(* ===== verification/CoordinatorExamples.v ===== *)
(** * A planner brought up

    The example trip bootstrapped from its canonical state, its snapshot captured and
    sent back, and a proposal stored and published.  The theorems on the coordinating
    workers are applied here. *)

From S2P Require Import Prelude GoLib Wire Schema Tables Leases Commands Finalization Mutations Proposals Decisions OutboxStore CanonicalState Canonical CanonicalFacts CanonicalLoad Mirror Snapshots Recovery Bootstrap System Convergence PlannerMessages StoredEvent Worker Dispatcher DispatchProps DispatchExamples Supervisor Coordinators CoordinatorProps PlannerRecovery.
From Stdlib Require Import SpecFloat.

#[local] Existing Instance pg_model.

(** ** The messages *)

Definition ex_pb_plan (id : string) : PbCurrentPlan := MkPbCurrentPlan id 1 1 [] 1 None.

(** A marshalling for the example: the plans are told by the trip's payloads. *)
#[local] Instance ex_recovery_proto : PlannerProto := {
  MarshalEvent e := if decide (e = ex_event) then Some ex_wire else None;
  UnmarshalEvent b := if decide (b = ex_wire) then Some ex_event else None;
  MarshalProposal _ := Some ex_stored_proposal;
  UnmarshalSnapshotPlan b := if decide (b = ex_snapshot_payload) then Some (Some (ex_pb_plan ex_plan)) else None;
  UnmarshalPlan _ := Some (ex_pb_plan ex_plan2)
}.

Definition ex_pb_blob (epoch : Z) : PbSnapshotBlob :=
  MkPbSnapshotBlob 1 epoch 0 1 0 (uint32 (zlen ex_snapshot_payload)) (sha256 ex_snapshot_payload)
    ex_snapshot_payload.

(** A planner that loads what it is sent and gives the snapshot of the first plan. *)
Definition ex_planner (request : PlannerStreamRequest) : PlannerStreamResponse :=
  match pq_payload request with
  | AskSnapshot _ =>
      MkPlannerStreamResponse (pq_request_id request) (pq_trip_id request) (pq_runtime_epoch request) 0 0 0 1
        (TripSnapshotPayload (MkTripSnapshot STATUS_CODE_OK false (Some (ex_pb_blob (pq_runtime_epoch request)))))
  | _ => bootstrapped request
  end.

Definition ex_env (planner : PlannerStreamRequest -> PlannerStreamResponse) : @WorkerEnv pg_model :=
  MkWorkerEnv (fun _ d => d) (fun _ => Works) (fun _ => ex_clock 6000) (fun _ => ∅)
    (fun _ request => Some (planner request)) (fun _ => Some (replicate 16 Byte.x01))
    (fun _ _ => Some 0) (fun _ => 0).

Lemma ex_planner_undisturbed planner : undisturbed (ex_env planner).
Proof. constructor; intros; [reflexivity..|by eexists]. Qed.
Lemma ex_planner_honest planner : honest (ex_env planner).
Proof. intros n d. apply rtc_refl. Qed.

(** ** Tests that evaluate *)

Lemma lease_of env holderID (w : @Worker pg_model) :
  match Current (we_clk env (wk_calls w)) ex_trip holderID (wk_db w) with Ok _ => true | Err _ => false end = true ->
  exists lease, run_tx (Current (we_clk env (wk_calls w)) ex_trip holderID) (wk_db w) = (Ok lease, wk_db w).
Proof.
  unfold run_tx. destruct (Current _ _ _ _) as [[l d']|e] eqn:E; [|discriminate]. intros _.
  apply Current_ok in E as (?&?&?&?&?&?&?&?&?&?&->). exists l. reflexivity.
Qed.

Lemma checked_intents_test (d : @db pg_model) :
  forallb (fun kv => intent_check kv.2) (map_to_list (intents d)) = true -> checked_intents d.
Proof.
  rewrite forallb_forall. intros H k i Hi. apply (H (k, i)). by apply list_elem_of_In, elem_of_map_to_list.
Qed.

Lemma ex_waiting_reachable : reachable ex_waiting.
Proof.
  destruct (ex_created_ok "planned" ltac:(vm_compute; reflexivity)) as (c1 & H1 & _).
  destruct (committed_ok (Acquire (ex_clock 0) ex_trip ex_holder_a (10 * Second))
    (ex_created "planned") ltac:(vm_compute; reflexivity)) as [c2 H2].
  destruct (committed_ok (run_edit ex_clock5 ex_sent_edit) ex_sys_leased
    ltac:(vm_compute; reflexivity)) as [c3 H3].
  exists ex_empty. split; [repeat split; reflexivity|].
  eapply rtc_l; [exact (step_create _ _ _ _ _ H1)|].
  eapply rtc_l; [apply step_lease; exact (step_acquire _ _ _ _ _ _ _ _ H2)|].
  apply rtc_once. exact (step_edit _ _ _ _ _ H3).
Qed.

(** ** From the canonical state *)

#[local] Abbreviation ex_start := (MkWorker ex_waiting 0 []).
#[local] Abbreviation ex_booting := (ex_env bootstrapped).


Lemma ex_waiting_range t : trips ex_waiting !! ex_trip = Some t ->
  t_trip_revision t <= max_int64 /\ t_finalized_mutation_sequence t <= max_int64.
Proof.
  intros Ht. assert (H : option_map (fun t => (t_trip_revision t <=? max_int64) &&
    (t_finalized_mutation_sequence t <=? max_int64)) (trips ex_waiting !! ex_trip) = Some true)
    by (vm_compute; reflexivity).
  apply (fun H => checked _ _ _ H Ht) in H. apply andb_true_iff in H as [H1%Z.leb_le H2%Z.leb_le].
  split; [exact H1|exact H2].
Qed.

Lemma ex_waiting_loads : exists state, Load ex_trip ex_waiting = Ok (state, ex_waiting) /\
  ct_CurrentPlanID state = ex_plan2.
Proof.
  assert (H : match Load ex_trip ex_waiting with Ok (s, _) => bool_decide (ct_CurrentPlanID s = ex_plan2) | Err _ => false end = true)
    by (vm_compute; reflexivity).
  destruct (Load ex_trip ex_waiting) as [[s d']|e] eqn:E; [|discriminate H].
  apply bool_decide_eq_true in H. exists s. split; [|exact H].
  rewrite (Load_reads _ _ _ _ E). reflexivity.
Qed.


(** ** From a snapshot *)

(** The dispatcher delivers the edit, and a snapshot from before it is stored. *)
Definition ex_delivered : @db pg_model :=
  wk_db (RunOnce ex_worker_env ex_dispatcher (MkWorker ex_waiting 0 [])).2.
Definition ex_behind : @db pg_model := committed (PersistSnapshot (ex_clock 5) (ex_blob "51" 1 0)) ex_delivered.

Definition ex_delivered_row (o : @outbox_row pg_model) : bool :=
  bool_decide (o_trip_id o = ex_trip) && delivery_resolved o && (o_mutation_sequence o =? 2).

Lemma ex_behind_row : exists o, outbox ex_behind !! ex_outbox2 = Some o /\ o_trip_id o = ex_trip /\
  delivery_resolved o = true /\ o_mutation_sequence o = 2.
Proof.
  assert (H : option_map ex_delivered_row (outbox ex_behind !! ex_outbox2) = Some true) by (vm_compute; reflexivity).
  destruct (outbox ex_behind !! ex_outbox2) as [o|] eqn:E; [|discriminate H].
  apply (fun H => checked ex_delivered_row (Some o) o H eq_refl) in H. unfold ex_delivered_row in H.
  apply andb_true_iff in H as [[H1%bool_decide_eq_true H2]%andb_true_iff H3%Z.eqb_eq].
  exists o. split; [reflexivity|]. split; [exact H1|]. split; [exact H2|exact H3].
Qed.

Lemma ex_behind_recovers : exists s, LoadForRecovery (ex_clock 6000) ex_trip ex_behind = (Ok s, ex_behind) /\
  sb_Payload (ss_SnapshotBlob s) = ex_snapshot_payload /\ sb_CoveredFinalizedMutationSequence (ss_SnapshotBlob s) = 0.
Proof.
  destruct (committed_ok (PersistSnapshot (ex_clock 5) (ex_blob "51" 1 0)) ex_delivered
    ltac:(vm_compute; reflexivity)) as [s Hs].
  assert (Hd : ss_Duplicate s = false).
  { assert (H : match PersistSnapshot (ex_clock 5) (ex_blob "51" 1 0) ex_delivered with
                | Ok (s, _) => negb (ss_Duplicate s) | Err _ => false end = true) by (vm_compute; reflexivity).
    rewrite Hs in H. apply negb_true_iff. exact H. }
  destruct (stored_snapshot_found (ex_clock 5) (ex_clock 6000) (ex_blob "51" 1 0) ex_delivered s ex_behind
    (ex_blob_unsigned "51" 1 0 ltac:(lia) ltac:(lia)) (typed_rows_test ex_delivered ltac:(vm_compute; reflexivity))
    Hs Hd) as [Eb Hl].
  exists s. rewrite Eb. split; [exact Hl|]. split; reflexivity.
Qed.

Lemma snapshot_bootstrap_skips_delivered_witness : exists r w',
  RunBootstrap ex_booting ex_holder_a Second ex_trip (MkWorker ex_behind 0 []) = (Ok r, w') /\
  bs_AcceptedMutationSequence r < 2.
Proof.
  destruct (lease_of ex_booting ex_holder_a (MkWorker ex_behind 0 []) ltac:(vm_compute; reflexivity))
    as [lease Hlease].
  destruct ex_behind_recovers as (s & Hs & Hp & Hc). destruct ex_behind_row as (o & Ho & HT & Hr & Hq).
  assert (Hplan : UnmarshalSnapshotPlan (sb_Payload (ss_SnapshotBlob s)) = Some (Some (ex_pb_plan ex_plan)))
    by (rewrite Hp; vm_compute; reflexivity).
  assert (Hlt : sb_CoveredFinalizedMutationSequence (ss_SnapshotBlob s) < o_mutation_sequence o)
    by (rewrite Hc, Hq; reflexivity).
  destruct (snapshot_bootstrap_skips_delivered ex_booting (ex_planner_undisturbed bootstrapped) ex_holder_a
    ex_trip Second (MkWorker ex_behind 0 []) lease Hlease s (ex_pb_plan ex_plan) ex_outbox2 o Hs Hplan
    ltac:(discriminate) (fun n request => eq_refl) Ho HT Hr Hlt) as (r & w' & Hrun & Hb & _).
  rewrite Hq in Hb. exists r, w'. split; [exact Hrun|exact Hb].
Defined.

#[local] Abbreviation ex_capture := (Capture (ex_env ex_planner) ex_holder_a Second ex_trip
  SNAPSHOT_REASON_PERIODIC 0 0 ex_start).

Definition ex_capture_test (r : result StoredSnapshot) : bool :=
  match r with
  | Ok s => let b := ss_SnapshotBlob s in
      negb (ss_Duplicate s) && bool_decide (sb_Payload b = ex_snapshot_payload) &&
      forallb (fun z => 0 <=? z) [sb_SourceRuntimeEpoch b; sb_SourcePlannerStateVersion b;
        sb_CoveredFinalizedMutationSequence b; sb_TripRevision b]
  | Err _ => false
  end.

Lemma ex_captured : exists s w1, ex_capture = (Ok s, w1) /\ ss_Duplicate s = false /\
  sb_Payload (ss_SnapshotBlob s) = ex_snapshot_payload /\ blob_unsigned (ss_SnapshotBlob s).
Proof.
  assert (H : ex_capture_test ex_capture.1 = true) by (vm_compute; reflexivity).
  destruct ex_capture as [[s|e] w1]; [|discriminate H]. exists s, w1. unfold ex_capture_test in H.
  cbn [fst] in H. apply andb_true_iff in H as [[H1%negb_true_iff H2%bool_decide_eq_true]%andb_true_iff H3].
  split; [reflexivity|]. split; [exact H1|]. split; [exact H2|]. cbn [forallb] in H3.
  apply andb_true_iff in H3 as [A H3]. apply andb_true_iff in H3 as [B H3].
  apply andb_true_iff in H3 as [C H3]. apply andb_true_iff in H3 as [D _].
  constructor; apply Z.leb_le; assumption.
Qed.

Lemma captured_snapshot_sent_back_witness : exists r w2,
  RunBootstrap ex_booting ex_holder_a Second ex_trip ex_capture.2 = (Ok r, w2).
Proof.
  destruct (lease_of ex_booting ex_holder_a ex_capture.2 ltac:(vm_compute; reflexivity)) as [lease Hlease].
  destruct ex_captured as (s & w1 & Hcap & Hd & Hp & Hb). rewrite Hcap in Hlease |- *.
  assert (Hplan : UnmarshalSnapshotPlan (sb_Payload (ss_SnapshotBlob s)) = Some (Some (ex_pb_plan ex_plan)))
    by (rewrite Hp; vm_compute; reflexivity).
  destruct (captured_snapshot_sent_back (ex_env ex_planner) ex_booting ex_holder_a ex_holder_a Second Second
    ex_trip SNAPSHOT_REASON_PERIODIC 0 0 ex_start s w1 lease (ex_pb_plan ex_plan)
    (ex_planner_undisturbed ex_planner) (ex_planner_undisturbed bootstrapped)
    (typed_rows_test ex_waiting ltac:(vm_compute; reflexivity)) Hcap Hd Hb Hlease Hplan ltac:(discriminate)
    (fun n request => eq_refl)) as (_ & _ & _ & _ & _ & r & w2 & _ & _ & _ & Hrun & _).
  exists r, w2. exact Hrun.
Defined.

(** ** A proposal *)

Definition ex_segment (id : string) (disposition : Z) (times : option (Z * Z)) : ProposalSegment :=
  MkProposalSegment id (Some (MkPbLocation (S754_zero false) (S754_zero false))) "UTC" (fst <$> times)
    (snd <$> times) ((fun _ => MkRouteLeg 1 1 true) <$> times) disposition [].

Definition ex_pb_proposal : PlanProposal :=
  MkPlanProposal ex_proposal_id 1 4 ex_plan 1 1 []
    [ex_segment ex_activity_a SEGMENT_DISPOSITION_PRESERVED (Some (100, 200));
     ex_segment ex_activity_b SEGMENT_DISPOSITION_SKIPPED None] 5.

Definition ex_notification : PlannerStreamResponse :=
  MkPlannerStreamResponse ex_intent2 ex_trip 1 1 0 4 1
    (ReplanResultPayload (MkReplanResult STATUS_CODE_OK false (Some ex_pb_proposal) 4 [] None
       (Some (MkResultQuality PLAN_QUALITY_COMPLETE 1 1)) "")).

#[local] Abbreviation ex_consumed := (consume ex_booting ex_holder_a (Some (fun _ _ => Ok tt))
  [(0%nat, ex_notification)] (MkWorker ex_sys_leased 0 [])).

Lemma published_after_stored_witness : exists log p request answer proposal,
  stored_first ex_holder_a log p ex_notification request answer proposal.
Proof.
  assert (Hp : exists p, wk_log ex_consumed.2 !! 1%nat = Some (Published p ex_notification))
    by (eexists; vm_compute; reflexivity).
  destruct Hp as [p Hp]. exists (take 1 (wk_log ex_consumed.2)), p.
  exact (published_after_stored ex_booting ex_holder_a (Some (fun _ _ => Ok tt)) [(0%nat, ex_notification)]
    ex_sys_leased 0 (take 1 (wk_log ex_consumed.2)) p ex_notification (drop 2 (wk_log ex_consumed.2))
    (eq_sym (take_drop_middle _ _ _ Hp))).
Defined.
