(* ===== verification/StrictJson.v ===== *)
(** * Strict JSON

    Models [decodeStrictJSON] of [gateway/schema.go] and [canonicaljson/canonical.go]:
    a value read token by token into maps and slices, refusing an object that names a
    member twice and anything after the value. *)

From S2P Require Import Prelude GoLib GoText JsonText.

(** The [any] the code builds with [UseNumber]; the members of an object are a map,
    here in the order they were read. *)
#[local] Set Warnings "-register-all".
Inductive any :=
| ANull
| ABool (b : bool)
| ANumber (text : bytes)
| AString (s : bytes)
| AArray (l : list any)
| AObject (members : list (bytes * any)).

Inductive decode_error :=
| TokenError (e : json_error) | NameNotString | DuplicateMember | BadTerminator | UnexpectedDelimiter
| TrailingData | OutOfFuel.

Definition any_of (v : scalar) : any :=
  match v with SNull => ANull | SBool b => ABool b | SNumber t => ANumber t | SString s => AString s end.

(** [decoder.Token()] that has to be the closing delimiter. *)
Definition terminator (c : Z) (v : any) (d : Decoder) : decode_error + (any * Decoder) :=
  match Token d with
  | inl e => inl (TokenError e)
  | inr (Delim c', d) => if c' =? c then inr (v, d) else inl BadTerminator
  | inr (Scalar _, _) => inl BadTerminator
  end.

(** The recursion of the code; [fuel] bounds its depth and the turns of its loops. *)
Fixpoint decodeJSONValue (fuel : nat) (d : Decoder) : decode_error + (any * Decoder) :=
  match fuel with
  | O => inl OutOfFuel
  | S fuel =>
      match Token d with
      | inl e => inl (TokenError e)
      | inr (Scalar v, d) => inr (any_of v, d)
      | inr (Delim c, d) =>
          if c =? 123 then decode_members fuel [] d
          else if c =? 91 then decode_elements fuel [] d
          else inl UnexpectedDelimiter
      end
  end
with decode_members (fuel : nat) (object : list (bytes * any)) (d : Decoder)
  : decode_error + (any * Decoder) :=
  match fuel with
  | O => inl OutOfFuel
  | S fuel =>
      if More d then
        match Token d with
        | inl e => inl (TokenError e)
        | inr (Scalar (SString key), d) =>
            if bool_decide (key ∈ object.*1) then inl DuplicateMember
            else match decodeJSONValue fuel d with
            | inl e => inl e
            | inr (member, d) => decode_members fuel (object ++ [(key, member)]) d
            end
        | inr _ => inl NameNotString
        end
      else terminator 125 (AObject object) d
  end
with decode_elements (fuel : nat) (array : list any) (d : Decoder) : decode_error + (any * Decoder) :=
  match fuel with
  | O => inl OutOfFuel
  | S fuel =>
      if More d then
        match decodeJSONValue fuel d with
        | inl e => inl e
        | inr (member, d) => decode_elements fuel (array ++ [member]) d
        end
      else terminator 93 (AArray array) d
  end.

(** [decoder.Decode(&extra)] has to answer [io.EOF]. *)
Definition at_end (d : Decoder) : bool :=
  match decode_text d with inl EOF => true | _ => false end.

Definition decodeStrictJSON (raw : bytes) : decode_error + any :=
  match decodeJSONValue (S (2 * length raw)) (NewDecoder raw) with
  | inl e => inl e
  | inr (value, d) => if at_end d then inr value else inl TrailingData
  end.

(** [canonicaljson.Marshal]: the same reading, rendered by the RFC 8785 library. *)
Definition canonicalMarshal (rfc8785 : any -> option bytes) (raw : bytes) : option bytes :=
  match decodeStrictJSON raw with inl _ => None | inr value => rfc8785 value end.

(** ** Every token takes input *)

Lemma skip_space_length l : (length (skip_space l) <= length l)%nat.
Proof. induction l as [|b l IH]; simpl; [done|]. destruct (JsonScan.is_space _); simpl; lia. Qed.

Lemma read_value_length input : forall s acc text rest,
  read_value s input acc = inr (text, rest) ->
  (length text + length rest = length acc + length input)%nat.
Proof.
  induction input as [|b input IH]; intros s acc text rest; simpl.
  - destruct (JsonScan.eof s); [|done]. intros [= <- <-]. simpl. rewrite length_rev. lia.
  - intros H. repeat case_match; simplify_eq; simpl; rewrite ?length_rev, ?length_app, ?length_rev; simpl;
      try lia; apply IH in H; simpl in H; lia.
Qed.

Lemma scalar_token_shorter d after t d' :
  scalar_token d after = inr (t, d') -> (length (de_input d') < length (de_input d))%nat.
Proof.
  unfold scalar_token. destruct (read_value _ _ _) as [|[text rest]] eqn:E; [done|].
  apply read_value_length in E. simpl in E. destruct (literal_value (skip_space text)) eqn:El; [|done].
  intros [= <- <-]. simpl. pose proof (skip_space_length text). destruct (skip_space text); [done|].
  simpl in *. lia.
Qed.

Lemma token_loop_shorter fuel : forall d t d',
  token_loop fuel d = inr (t, d') -> (length (de_input d') < length (de_input d))%nat.
Proof.
  induction fuel as [|fuel IH]; intros d t d' H; [done|]. cbn [token_loop] in H.
  pose proof (skip_space_length (de_input d)) as Hs.
  destruct (skip_space (de_input d)) as [|b rest]; [done|]. simpl in Hs.
  unfold push_token, pop_token in H. repeat case_match; simplify_eq; simpl; try lia;
    first [apply IH in H; simpl in H; lia | by eapply scalar_token_shorter].
Qed.

Lemma Token_shorter d t d' : Token d = inr (t, d') -> (length (de_input d') < length (de_input d))%nat.
Proof. apply token_loop_shorter. Qed.

Lemma terminator_shorter c v d r d' :
  terminator c v d = inr (r, d') -> (length (de_input d') < length (de_input d))%nat.
Proof.
  unfold terminator. destruct (Token d) as [|[[c'|s] d1]] eqn:E; [done| |done]. case_match; [|done].
  intros [= <- <-]. by eapply Token_shorter.
Qed.

Lemma decoding_shorter fuel :
  (forall d v d', decodeJSONValue fuel d = inr (v, d') -> (length (de_input d') < length (de_input d))%nat) /\
  (forall o d v d', decode_members fuel o d = inr (v, d') -> (length (de_input d') < length (de_input d))%nat) /\
  (forall l d v d', decode_elements fuel l d = inr (v, d') -> (length (de_input d') < length (de_input d))%nat).
Proof.
  induction fuel as [|fuel (IH1 & IH2 & IH3)]; [done|]. split_and!.
  - intros d v d' H. simpl in H. destruct (Token d) as [|[[c|s] d1]] eqn:E; [done| |].
    + apply Token_shorter in E. repeat case_match; simplify_eq; [apply IH2 in H|apply IH3 in H]; lia.
    + apply Token_shorter in E. by simplify_eq.
  - intros o d v d' H. simpl in H. destruct (More d); [|by eapply terminator_shorter].
    destruct (Token d) as [|[[c|s] d1]] eqn:E; [done|done|]. apply Token_shorter in E.
    destruct s; try done. case_bool_decide; [done|].
    destruct (decodeJSONValue fuel d1) as [|[v2 d2]] eqn:E2; [done|]. apply IH1 in E2. apply IH2 in H. lia.
  - intros l d v d' H. simpl in H. destruct (More d); [|by eapply terminator_shorter].
    destruct (decodeJSONValue fuel d) as [|[v2 d2]] eqn:E2; [done|]. apply IH1 in E2. apply IH3 in H. lia.
Qed.

Lemma terminator_fuel c v d : terminator c v d <> inl OutOfFuel.
Proof. unfold terminator. by repeat case_match. Qed.

Lemma decoding_has_fuel fuel :
  (forall d, (2 * length (de_input d) + 1 <= fuel)%nat -> decodeJSONValue fuel d <> inl OutOfFuel) /\
  (forall o d, (2 * length (de_input d) + 2 <= fuel)%nat -> decode_members fuel o d <> inl OutOfFuel) /\
  (forall l d, (2 * length (de_input d) + 2 <= fuel)%nat -> decode_elements fuel l d <> inl OutOfFuel).
Proof.
  induction fuel as [|fuel (IH1 & IH2 & IH3)]; [split_and!; intros; lia|]. split_and!.
  - intros d Hd. simpl. destruct (Token d) as [|[[c|s] d1]] eqn:E; [done| |done].
    apply Token_shorter in E. repeat case_match; [apply IH2; lia|apply IH3; lia|done].
  - intros o d Hd. simpl. destruct (More d); [|apply terminator_fuel].
    destruct (Token d) as [|[[c|s] d1]] eqn:E; [done|done|]. apply Token_shorter in E.
    destruct s; try done. case_bool_decide; [done|].
    destruct (decodeJSONValue fuel d1) as [e|[v2 d2]] eqn:E2.
    + intros [= ->]. revert E2. apply IH1. lia.
    + apply (proj1 (decoding_shorter fuel)) in E2. apply IH2. lia.
  - intros l d Hd. simpl. destruct (More d); [|apply terminator_fuel].
    destruct (decodeJSONValue fuel d) as [e|[v2 d2]] eqn:E2.
    + intros [= ->]. revert E2. apply IH1. lia.
    + apply (proj1 (decoding_shorter fuel)) in E2. apply IH3. lia.
Qed.

(** ** No member twice *)

(** No object in the value names a member twice. *)
Fixpoint unique (v : any) : Prop :=
  match v with
  | AArray l => foldr (fun x P => unique x /\ P) True l
  | AObject ms => NoDup ms.*1 /\ foldr (fun kv P => unique kv.2 /\ P) True ms
  | _ => True
  end.

Lemma foldr_and {A} (Q : A -> Prop) l : foldr (fun x P => Q x /\ P) True l <-> Forall Q l.
Proof. induction l as [|x l IH]; simpl; [done|]. by rewrite Forall_cons, IH. Qed.

Lemma terminator_value c v d r d' : terminator c v d = inr (r, d') -> r = v.
Proof. unfold terminator. intros H. by repeat case_match; simplify_eq. Qed.

Lemma decoding_unique fuel :
  (forall d v d', decodeJSONValue fuel d = inr (v, d') -> unique v) /\
  (forall o d v d', unique (AObject o) -> decode_members fuel o d = inr (v, d') -> unique v) /\
  (forall l d v d', unique (AArray l) -> decode_elements fuel l d = inr (v, d') -> unique v).
Proof.
  induction fuel as [|fuel (IH1 & IH2 & IH3)]; [done|]. split_and!.
  - intros d v d' H. simpl in H. destruct (Token d) as [|[[c|s] d1]]; [done| |].
    + repeat case_match; simplify_eq; [eapply IH2; [|exact H]|eapply IH3; [|exact H]]; [|done].
      split; [constructor|done].
    + injection H as <- <-. by destruct s.
  - intros o d v d' Ho H. simpl in H. destruct (More d); [|by apply terminator_value in H as ->].
    destruct (Token d) as [|[[c|s] d1]]; [done|done|]. destruct s as [| | |key]; try done.
    destruct (bool_decide _) eqn:Hk in H; [done|]. apply bool_decide_eq_false in Hk.
    destruct (decodeJSONValue fuel d1) as [|[v2 d2]] eqn:E2; [done|]. apply IH1 in E2.
    eapply IH2; [|exact H]. destruct Ho as [Hn Hf]. simpl. rewrite fmap_app. split.
    + apply NoDup_app. split_and!; [done|set_solver|simpl; by apply NoDup_singleton].
    + rewrite (foldr_and (fun kv => unique kv.2)) in Hf |- *. apply Forall_app. split; [done|].
      by repeat constructor.
  - intros l d v d' Hl H. simpl in H. destruct (More d); [|by apply terminator_value in H as ->].
    destruct (decodeJSONValue fuel d) as [|[v2 d2]] eqn:E2; [done|]. apply IH1 in E2.
    eapply IH3; [|exact H]. simpl in *. rewrite (foldr_and unique) in Hl |- *. apply Forall_app.
    split; [done|]. by repeat constructor.
Qed.

(** C39: reading a message ends, with a value or a refusal, on every input: the depth of
    the recursion and the turns of its loops are bounded by the length of the text;
    and no object of a value that was read names a member twice, so that the schema
    validator, the handlers and the request digest see the same members. *)
Theorem strict_json_total_unique raw :
  decodeStrictJSON raw <> inl OutOfFuel /\ (forall v, decodeStrictJSON raw = inr v -> unique v).
Proof.
  unfold decodeStrictJSON. destruct (decodeJSONValue _ _) as [e|[v d]] eqn:E.
  - split; [|done]. intros [= ->]. revert E. apply decoding_has_fuel. simpl. lia.
  - split; [by case_match|]. intros x. case_match; [|done]. intros [= <-].
    by eapply (proj1 (decoding_unique _)).
Qed.

Example strict_json_examples :
  decodeStrictJSON (bytes_of_string "{'a' : [1, null], 'b':{}}") = inl (TokenError Malformed) /\
  decodeStrictJSON (bytes_of_string " [1, null] ") =
    inr (AArray [ANumber (bytes_of_string "1"); ANull]) /\
  decodeStrictJSON (bytes_of_string "[] 1") = inl TrailingData.
Proof. split_and!; vm_compute; reflexivity. Qed.
