(* ===== verification/Gateway.v ===== *)
(** * Fan-out and admission of the WebSocket gateway

    Models [gateway/subscription_hub.go], [gateway/trip_admission.go] and the
    identifiers of [gateway/handler.go].  A sink is known by its identity.  Every
    section the code runs under a mutex, and every channel operation, is one
    function of the fields; runs are sequences of them in any order. *)

From S2P Require Import Prelude GoLib GoText HttpText JsonText StrictJson.
From Stdlib Require Import Ascii.

(** ** Identifiers *)

Fixpoint hex_decode (l : bytes) : option (list Z) :=
  match l with
  | [] => Some []
  | a :: b :: l =>
      x ← hex_value a; y ← hex_value b; rest ← hex_decode l; Some (16 * x + y :: rest)
  | [_] => None
  end.

(** [decoded[i]] of the array the text was decoded into. *)
Definition decoded_at (l : list Z) (i : nat) : Z := default 0 (l !! i).

Definition gatewayUUID (value : string) : bool :=
  if negb (bool_decide (String.length value = 36%nat)) || negb (char_in value 8 ["-"%char]) ||
     negb (char_in value 13 ["-"%char]) || negb (char_in value 18 ["-"%char]) ||
     negb (char_in value 23 ["-"%char]) then false
  else match hex_decode (List.filter (fun b => negb (byte_val b =? 45)) (bytes_of_string value)) with
  | None => false
  | Some decoded =>
      let version := Z.land (decoded_at decoded 6) 240 in
      (16 <=? version) && (version <=? 80) && (Z.land (decoded_at decoded 8) 192 =? 128) &&
      bool_decide (ToLower value = value)
  end.

(** ** Messages *)

Record AuthenticatedMessage := MkMessage {
  am_UserID : string;
  am_Message : list (bytes * any);
  am_Raw : bytes;
  am_Sink : nat
}.

(** [m[name]] of a decoded object, and the assertion that it is a string. *)
Fixpoint member (name : string) (l : list (bytes * any)) : option any :=
  match l with
  | [] => None
  | (k, v) :: l => if bool_decide (k = bytes_of_string name) then Some v else member name l
  end.
Definition string_member (name : string) (l : list (bytes * any)) : option string :=
  match member name l with Some (AString s) => Some (string_of_bytes s) | _ => None end.

(** ** [SubscriptionHub] *)

Record SubscriptionHub := MkHub {
  hb_maxSubscriptions : Z;
  hb_byTrip : gmap string (gset nat);
  hb_bySink : gmap nat (gset string)
}.

Definition NewSubscriptionHub (maxSubscriptions : Z) : option SubscriptionHub :=
  if maxSubscriptions <=? 0 then None else Some (MkHub maxSubscriptions ∅ ∅).

Definition trip_sinks (hub : SubscriptionHub) (tripID : string) : gset nat :=
  default ∅ (hb_byTrip hub !! tripID).
Definition sink_trips (hub : SubscriptionHub) (sink : nat) : gset string :=
  default ∅ (hb_bySink hub !! sink).

Inductive SubscribeResult := Subscribed | SubscriptionInvalid | SubscriptionCapacity.

Definition Subscribe (tripID : string) (sink : nat) (hub : SubscriptionHub)
  : SubscribeResult * SubscriptionHub :=
  if negb (gatewayUUID tripID) then (SubscriptionInvalid, hub)
  else
    let trip := trip_sinks hub tripID in
    let hub := MkHub (hb_maxSubscriptions hub) (<[tripID := trip]> (hb_byTrip hub)) (hb_bySink hub) in
    if bool_decide (sink ∈ trip) then (Subscribed, hub)
    else if hb_maxSubscriptions hub <=? Z.of_nat (size (sink_trips hub sink)) then (SubscriptionCapacity, hub)
    else (Subscribed, MkHub (hb_maxSubscriptions hub) (<[tripID := {[sink]} ∪ trip]> (hb_byTrip hub))
                        (<[sink := {[tripID]} ∪ sink_trips hub sink]> (hb_bySink hub))).

(** A map from which an empty set is deleted. *)
Definition put_set {K A} `{Countable K} `{Countable A} (k : K) (s : gset A) (m : gmap K (gset A))
  : gmap K (gset A) :=
  if bool_decide (s = ∅) then delete k m else <[k := s]> m.

Definition removeLocked (tripID : string) (sink : nat) (hub : SubscriptionHub) : SubscriptionHub :=
  match hb_byTrip hub !! tripID with
  | None => hub
  | Some trip =>
      MkHub (hb_maxSubscriptions hub) (put_set tripID (trip ∖ {[sink]}) (hb_byTrip hub))
        (put_set sink (sink_trips hub sink ∖ {[tripID]}) (hb_bySink hub))
  end.

Definition Unsubscribe (tripID : string) (sink : nat) (hub : SubscriptionHub) : SubscriptionHub :=
  if negb (gatewayUUID tripID) then hub else removeLocked tripID sink hub.

Definition RemoveSink (sink : nat) (hub : SubscriptionHub) : SubscriptionHub :=
  foldr (fun tripID => removeLocked tripID sink) hub (elements (sink_trips hub sink)).

Definition SubscriptionCount (tripID : string) (hub : SubscriptionHub) : Z :=
  if negb (gatewayUUID tripID) then 0 else Z.of_nat (size (trip_sinks hub tripID)).

(** [PublishTrip] under the lock: whom it will publish to. *)
Definition publish_targets (tripID : string) (payload : bytes) (hub : SubscriptionHub) : option (list nat) :=
  if negb (gatewayUUID tripID) || (zlen payload =? 0) then None else Some (elements (trip_sinks hub tripID)).

(** Its loop: [publish] tells whether a sink took the payload, [others] is what other
    goroutines do to the hub before each sink is published to.  The first result is
    whether the first error is nil. *)
Fixpoint publish_loop (publish : nat -> bool) (others : nat -> SubscriptionHub -> SubscriptionHub)
    (tripID : string) (sinks : list nat) (hub : SubscriptionHub) : bool * SubscriptionHub :=
  match sinks with
  | [] => (true, hub)
  | sink :: sinks =>
      let hub := others sink hub in
      if publish sink then publish_loop publish others tripID sinks hub
      else (false, (publish_loop publish others tripID sinks (Unsubscribe tripID sink hub)).2)
  end.

Definition PublishTrip (publish : nat -> bool) (others : nat -> SubscriptionHub -> SubscriptionHub)
    (tripID : string) (payload : bytes) (hub : SubscriptionHub) : bool * SubscriptionHub :=
  match publish_targets tripID payload hub with
  | None => (false, hub)
  | Some sinks => publish_loop publish others tripID sinks hub
  end.

(** ** [TripCommandAdmission] *)

(** A trip's queue, and the message its worker is handling. *)
Record tripQueue := MkQueue { tq_items : list AuthenticatedMessage; tq_handling : option AuthenticatedMessage }.

Record TripCommandAdmission := MkAdmission {
  ad_capacity : Z;
  ad_maxTrips : Z;
  ad_queues : gmap string tripQueue;
  ad_cancelled : bool
}.

Definition NewTripCommandAdmission (queueCapacity maxTrips : Z) : option TripCommandAdmission :=
  if (queueCapacity <=? 0) || (maxTrips <=? 0) then None
  else Some (MkAdmission queueCapacity maxTrips ∅ false).

Inductive SubmitResult := AdmissionOk | AdmissionInvalid | AdmissionClosed | AdmissionCapacity.

Definition set_queue (tripID : string) (q : tripQueue) (a : TripCommandAdmission) : TripCommandAdmission :=
  MkAdmission (ad_capacity a) (ad_maxTrips a) (<[tripID := q]> (ad_queues a)) (ad_cancelled a).

(** [Submit] up to the unlock: the trip of the message, with its queue and worker. *)
Definition submit_queue (message : AuthenticatedMessage) (a : TripCommandAdmission)
  : (SubmitResult + string) * TripCommandAdmission :=
  match string_member "trip_id" (am_Message message) with
  | Some tripID =>
      if negb (gatewayUUID tripID) then (inl AdmissionInvalid, a)
      else if ad_cancelled a then (inl AdmissionClosed, a)
      else match ad_queues a !! tripID with
      | Some _ => (inr tripID, a)
      | None =>
          if ad_maxTrips a <=? Z.of_nat (size (ad_queues a)) then (inl AdmissionCapacity, a)
          else (inr tripID, set_queue tripID (MkQueue [] None) a)
      end
  | None => (inl AdmissionInvalid, a)
  end.

(** The send that does not block. *)
Definition submit_send (tripID : string) (message : AuthenticatedMessage) (a : TripCommandAdmission)
  : SubmitResult * TripCommandAdmission :=
  match ad_queues a !! tripID with
  | Some q =>
      if zlen (tq_items q) <? ad_capacity a
      then (AdmissionOk, set_queue tripID (MkQueue (tq_items q ++ [message]) (tq_handling q)) a)
      else (AdmissionCapacity, a)
  | None => (AdmissionCapacity, a)
  end.

(** [run]: a worker that handles nothing takes the oldest message; the handler returns. *)
Definition worker_takes (tripID : string) (a : TripCommandAdmission)
  : option (AuthenticatedMessage * TripCommandAdmission) :=
  match ad_queues a !! tripID with
  | Some (MkQueue (message :: items) None) => Some (message, set_queue tripID (MkQueue items (Some message)) a)
  | _ => None
  end.
Definition worker_done (tripID : string) (a : TripCommandAdmission) : option TripCommandAdmission :=
  match ad_queues a !! tripID with
  | Some (MkQueue items (Some _)) => Some (set_queue tripID (MkQueue items None) a)
  | _ => None
  end.

Definition cancel_admission (a : TripCommandAdmission) : TripCommandAdmission :=
  MkAdmission (ad_capacity a) (ad_maxTrips a) (ad_queues a) true.

Inductive AdmissionAction :=
| DoQueue (message : AuthenticatedMessage) (r : SubmitResult + string)
| DoSend (tripID : string) (message : AuthenticatedMessage) (r : SubmitResult)
| DoHandle (tripID : string) (message : AuthenticatedMessage)
| DoHandled (tripID : string)
| DoCancel.

(** One section or channel operation of any goroutine. *)
Inductive admission_step : TripCommandAdmission -> AdmissionAction -> TripCommandAdmission -> Prop :=
| adm_queue a message r a' :
    submit_queue message a = (r, a') -> admission_step a (DoQueue message r) a'
| adm_send a tripID message r a' :
    is_Some (ad_queues a !! tripID) -> submit_send tripID message a = (r, a') ->
    admission_step a (DoSend tripID message r) a'
| adm_take a tripID message a' :
    worker_takes tripID a = Some (message, a') -> admission_step a (DoHandle tripID message) a'
| adm_done a tripID a' : worker_done tripID a = Some a' -> admission_step a (DoHandled tripID) a'
| adm_cancel a : admission_step a DoCancel (cancel_admission a).

Inductive admission_run : TripCommandAdmission -> list AdmissionAction -> TripCommandAdmission -> Prop :=
| admission_nil a : admission_run a [] a
| admission_snoc a l a' x a'' :
    admission_run a l a' -> admission_step a' x a'' -> admission_run a (l ++ [x]) a''.
