(* ===== verification/GatewayProps.v ===== *)
(** * Properties of the fan-out and the admission *)

From S2P Require Import Prelude GoLib GoText HttpText JsonText StrictJson Gateway.
From Stdlib Require Import Ascii.

(** ** Subscriptions *)

(** One operation of any goroutine on the hub. *)
Inductive hub_step : SubscriptionHub -> SubscriptionHub -> Prop :=
| hub_subscribe tripID sink hub : hub_step hub (Subscribe tripID sink hub).2
| hub_unsubscribe tripID sink hub : hub_step hub (Unsubscribe tripID sink hub)
| hub_remove sink hub : hub_step hub (RemoveSink sink hub).

Record hub_inv (max : Z) (hub : SubscriptionHub) : Prop := {
  hi_max : hb_maxSubscriptions hub = max;
  hi_indexes : forall t s, s ∈ trip_sinks hub t <-> t ∈ sink_trips hub s;
  hi_bound : forall s, Z.of_nat (size (sink_trips hub s)) <= max;
  hi_full : forall s, hb_bySink hub !! s <> Some ∅
}.

Lemma put_set_default {K A} `{Countable K} `{Countable A} (k : K) (s : gset A) m k' :
  default ∅ (put_set k s m !! k') = if bool_decide (k' = k) then s else default ∅ (m !! k').
Proof.
  unfold put_set. case_bool_decide as Hs; case_bool_decide as Hk; subst;
    by rewrite ?lookup_delete_eq, ?lookup_insert_eq, ?lookup_delete_ne, ?lookup_insert_ne by done.
Qed.

Lemma removeLocked_sinks hub tripID sink t :
  trip_sinks (removeLocked tripID sink hub) t =
  if bool_decide (t = tripID) then trip_sinks hub t ∖ {[sink]} else trip_sinks hub t.
Proof.
  unfold removeLocked, trip_sinks. destruct (hb_byTrip hub !! tripID) as [trip|] eqn:E; simpl.
  - rewrite put_set_default. case_bool_decide; subst; [by rewrite E|done].
  - case_bool_decide; subst; [rewrite E; simpl; set_solver|done].
Qed.

Lemma removeLocked_inv max hub tripID sink : hub_inv max hub -> hub_inv max (removeLocked tripID sink hub).
Proof.
  intros Hi. pose proof Hi as [Hm Hx Hb Hf]. pose proof (removeLocked_sinks hub tripID sink) as Hs.
  unfold removeLocked in *. destruct (hb_byTrip hub !! tripID) as [trip|] eqn:E; [|done].
  set (hub' := MkHub _ _ _) in *.
  assert (Ht : forall s, sink_trips hub' s = if bool_decide (s = sink) then sink_trips hub s ∖ {[tripID]} else sink_trips hub s).
  { intros s. unfold sink_trips, hub'. simpl. rewrite put_set_default. by case_bool_decide; subst. }
  constructor; [done| | |].
  - intros t s. rewrite Hs, Ht. specialize (Hx t s). repeat case_bool_decide; subst; set_solver.
  - intros s. rewrite Ht. specialize (Hb s). case_bool_decide; [|done].
    assert (size (sink_trips hub s ∖ {[tripID]}) <= size (sink_trips hub s))%nat; [|lia].
    apply subseteq_size. set_solver.
  - intros s. unfold hub'. simpl. unfold put_set. case_bool_decide.
    + rewrite lookup_delete. case_decide; [done|apply Hf].
    + rewrite lookup_insert. case_decide; [by intros [= ?]|apply Hf].
Qed.

Lemma Subscribe_inv max hub tripID sink : hub_inv max hub -> hub_inv max (Subscribe tripID sink hub).2.
Proof.
  intros [Hm Hx Hb Hf]. unfold Subscribe. destruct (negb _); [done|].
  set (hub1 := MkHub _ (<[tripID := trip_sinks hub tripID]> _) _).
  assert (Hs1 : forall t, trip_sinks hub1 t = trip_sinks hub t).
  { intros t. unfold hub1, trip_sinks at 1. simpl. rewrite lookup_insert. by case_decide; subst. }
  assert (Hi1 : hub_inv max hub1).
  { constructor; [done| |done|done]. intros t s. rewrite Hs1. apply Hx. }
  case_bool_decide as Hin; [done|]. change (hb_maxSubscriptions hub1) with (hb_maxSubscriptions hub).
  change (sink_trips hub1 sink) with (sink_trips hub sink). destruct (_ <=? _) eqn:Hc; [done|]. zbool. simpl.
  set (hub2 := MkHub _ _ _).
  assert (Hs2 : forall t, trip_sinks hub2 t =
    if bool_decide (t = tripID) then {[sink]} ∪ trip_sinks hub t else trip_sinks hub t).
  { intros t. unfold hub2, trip_sinks at 1. simpl. rewrite lookup_insert. case_decide; case_bool_decide; subst;
      try done. change (default ∅ (hb_byTrip hub1 !! t) = trip_sinks hub t). apply Hs1. }
  assert (Ht2 : forall s, sink_trips hub2 s =
    if bool_decide (s = sink) then {[tripID]} ∪ sink_trips hub s else sink_trips hub s).
  { intros s. unfold hub2, sink_trips at 1. simpl. rewrite lookup_insert.
    by case_decide; case_bool_decide; subst. }
  constructor; [done| | |].
  - intros t s. rewrite Hs2, Ht2. specialize (Hx t s). repeat case_bool_decide; subst; set_solver.
  - intros s. rewrite Ht2. specialize (Hb s). case_bool_decide; subst; [|done].
    rewrite size_union, size_singleton; [lia|]. specialize (Hx tripID sink). set_solver.
  - intros s. unfold hub2. simpl. rewrite lookup_insert. case_decide; [|apply Hf]. intros [= ?]. set_solver.
Qed.

Lemma RemoveSink_inv max hub sink : hub_inv max hub -> hub_inv max (RemoveSink sink hub).
Proof.
  intros Hi. unfold RemoveSink. induction (elements (sink_trips hub sink)) as [|t l IH]; simpl; [done|].
  by apply removeLocked_inv.
Qed.

Lemma RemoveSink_sinks sink hub t :
  trip_sinks (RemoveSink sink hub) t =
  if bool_decide (t ∈ sink_trips hub sink) then trip_sinks hub t ∖ {[sink]} else trip_sinks hub t.
Proof.
  assert (H : forall l, trip_sinks (foldr (fun tripID => removeLocked tripID sink) hub l) t =
    if bool_decide (t ∈ l) then trip_sinks hub t ∖ {[sink]} else trip_sinks hub t).
  { induction l as [|t' l IH]; [done|]. simpl. rewrite removeLocked_sinks, IH.
    repeat case_bool_decide; set_solver. }
  unfold RemoveSink. rewrite H.
  by rewrite (bool_decide_ext _ _ (elem_of_elements (sink_trips hub sink) t)).
Qed.

Lemma hub_step_inv max hub hub' : hub_step hub hub' -> hub_inv max hub -> hub_inv max hub'.
Proof.
  intros [] Hi; [by apply Subscribe_inv| |by apply RemoveSink_inv].
  unfold Unsubscribe. destruct (negb _); [done|]. by apply removeLocked_inv.
Qed.

Lemma hub_inv_new max hub : NewSubscriptionHub max = Some hub -> hub_inv max hub.
Proof.
  unfold NewSubscriptionHub. destruct (_ <=? _) eqn:E; [done|]. intros [= <-]. zbool.
  constructor; [done|done| |done]. intros s. change (sink_trips (MkHub max ∅ ∅) s) with (∅ : gset string).
  rewrite size_empty. lia.
Qed.

(** Whatever operations run on the hub, in whatever order, its two indexes agree, no
    sink is subscribed to more trips than allowed, a sink without subscriptions is
    not kept, and a sink that is removed is published to no more: no trip has it. *)
Theorem hub_consistent max hub hub' :
  NewSubscriptionHub max = Some hub -> rtc hub_step hub hub' ->
  (forall t s, s ∈ trip_sinks hub' t <-> t ∈ sink_trips hub' s) /\
  (forall s, Z.of_nat (size (sink_trips hub' s)) <= max) /\
  (forall s, is_Some (hb_bySink hub' !! s) <-> exists t, s ∈ trip_sinks hub' t) /\
  (forall s t, s ∉ trip_sinks (RemoveSink s hub') t).
Proof.
  intros Hn Hr. assert (Hi : hub_inv max hub') .
  { apply hub_inv_new in Hn. clear -Hn Hr. induction Hr; [done|]. apply IHHr. by eapply hub_step_inv. }
  destruct Hi as [Hm Hx Hb Hf]. split_and!; [done|done| |].
  - intros s. unfold sink_trips in Hx. split.
    + intros [ts Hs]. destruct (set_choose_or_empty ts) as [[t Ht]|He].
      * exists t. apply Hx. by rewrite Hs.
      * destruct (Hf s). rewrite Hs. f_equal. by apply leibniz_equiv.
    + intros [t Ht%Hx]. destruct (hb_bySink hub' !! s); [done|]. simpl in Ht. set_solver.
  - intros s t. rewrite RemoveSink_sinks. specialize (Hx t s). case_bool_decide; set_solver.
Qed.

(** A publication reaches the trip's subscribers and drops the broken ones.  Without
    other operations in between, after [PublishTrip] the trip's sinks are those of
    before that took the payload, the other trips' are unchanged, and it reports an
    error exactly if one did not. *)
Theorem publication_drops_broken publish tripID payload hub ok hub' :
  gatewayUUID tripID = true -> payload <> [] ->
  PublishTrip publish (fun _ h => h) tripID payload hub = (ok, hub') ->
  (forall s, s ∈ trip_sinks hub' tripID <-> s ∈ trip_sinks hub tripID /\ publish s = true) /\
  (forall t, t <> tripID -> trip_sinks hub' t = trip_sinks hub t) /\
  (ok = true <-> forall s, s ∈ trip_sinks hub tripID -> publish s = true).
Proof.
  intros Hu Hp. unfold PublishTrip, publish_targets. rewrite Hu. simpl.
  destruct (zlen payload =? 0) eqn:E; [zbool; by destruct payload|].
  assert (H : forall l h, let r := publish_loop publish (fun _ h => h) tripID l h in
    (forall s, s ∈ trip_sinks r.2 tripID <-> s ∈ trip_sinks h tripID /\ (s ∈ l -> publish s = true)) /\
    (forall t, t <> tripID -> trip_sinks r.2 t = trip_sinks h t) /\
    (r.1 = true <-> forall s, s ∈ l -> publish s = true)).
  { induction l as [|x l IH]; intros h; [split_and!; set_solver|]. cbv zeta in *. simpl.
    destruct (publish x) eqn:Ex.
    - destruct (IH h) as (H1 & H2 & H3). split_and!; [|done|].
      + intros s. rewrite H1, elem_of_cons. naive_solver.
      + rewrite H3. setoid_rewrite elem_of_cons. naive_solver.
    - destruct (IH (Unsubscribe tripID x h)) as (H1 & H2 & _). unfold Unsubscribe in *. rewrite Hu in *.
      simpl in *. split_and!.
      + intros s. rewrite H1, removeLocked_sinks, bool_decide_eq_true_2, elem_of_cons by done.
        rewrite elem_of_difference, elem_of_singleton. split; [naive_solver|].
        intros [Hs Hall]. split_and!; [done| |naive_solver]. intros ->.
        by rewrite Hall in Ex; [|left].
      + intros t Ht. rewrite H2 by done. by rewrite removeLocked_sinks, bool_decide_eq_false_2.
      + split; [done|]. intros Hall. by rewrite Hall in Ex; [|left]. }
  simpl. intros Hr. specialize (H (elements (trip_sinks hub tripID)) hub). cbv zeta in H. rewrite Hr in H.
  simpl in H. destruct H as (H1 & H2 & H3). setoid_rewrite elem_of_elements in H1.
  setoid_rewrite elem_of_elements in H3. split_and!; [|done|done]. intros s. rewrite H1. naive_solver.
Qed.

(** A subscription refused for capacity leaves an empty entry for its trip: the map of
    trips grows with every refusal. *)
Theorem refused_subscription_leaks tripID sink hub hub' :
  Subscribe tripID sink hub = (SubscriptionCapacity, hub') -> hb_byTrip hub !! tripID = None ->
  hb_byTrip hub' !! tripID = Some ∅ /\ size (hb_byTrip hub') = S (size (hb_byTrip hub)).
Proof.
  unfold Subscribe, trip_sinks. intros H E. rewrite E in H. simpl in H. repeat case_match; simplify_eq.
  simpl. split; [by rewrite lookup_insert_eq|]. by rewrite map_size_insert_None.
Qed.

(** ** Admission *)

(** The messages of a trip that were admitted and that were handled, in order. *)
Definition admitted_of (tripID : string) (x : AdmissionAction) : option AuthenticatedMessage :=
  match x with
  | DoSend t m AdmissionOk => if bool_decide (t = tripID) then Some m else None
  | _ => None
  end.
Definition handled_of (tripID : string) (x : AdmissionAction) : option AuthenticatedMessage :=
  match x with DoHandle t m => if bool_decide (t = tripID) then Some m else None | _ => None end.

Definition waiting (tripID : string) (a : TripCommandAdmission) : list AuthenticatedMessage :=
  match ad_queues a !! tripID with Some q => tq_items q | None => [] end.

Record admission_inv (capacity maxTrips : Z) (l : list AdmissionAction) (a : TripCommandAdmission) : Prop := {
  ai_config : ad_capacity a = capacity /\ ad_maxTrips a = maxTrips;
  ai_trips : Z.of_nat (size (ad_queues a)) <= maxTrips;
  ai_items : forall t q, ad_queues a !! t = Some q -> zlen (tq_items q) <= capacity;
  ai_fifo : forall t, omap (handled_of t) l ++ waiting t a = omap (admitted_of t) l
}.

Lemma waiting_set t tripID q a :
  waiting t (set_queue tripID q a) = if bool_decide (t = tripID) then tq_items q else waiting t a.
Proof.
  unfold waiting, set_queue. simpl. rewrite lookup_insert.
  by case_decide; case_bool_decide; subst.
Qed.

Lemma omap_snoc {A B} (f : A -> option B) l x : omap f (l ++ [x]) = omap f l ++ option_list (f x).
Proof. rewrite omap_app. simpl. by destruct (f x). Qed.

(** Replacing the queue of a trip that has one. *)
Lemma set_queue_inv capacity maxTrips l x a tripID q q' :
  admission_inv capacity maxTrips l a -> ad_queues a !! tripID = Some q -> zlen (tq_items q') <= capacity ->
  (forall t, t <> tripID -> handled_of t x = None /\ admitted_of t x = None) ->
  option_list (handled_of tripID x) ++ tq_items q' = tq_items q ++ option_list (admitted_of tripID x) ->
  admission_inv capacity maxTrips (l ++ [x]) (set_queue tripID q' a).
Proof.
  intros [Hc Ht Hi Hf] Hq Hq' Hother Hsame. constructor; [done| | |].
  - simpl. by rewrite map_size_insert_Some by done.
  - intros t y. simpl. rewrite lookup_insert. case_decide; [by intros [= <-]|apply Hi].
  - intros t. rewrite !omap_snoc, waiting_set, <- Hf. case_bool_decide; subst.
    + rewrite <- (app_assoc _ (option_list _)), Hsame, app_assoc. f_equal. unfold waiting. by rewrite Hq.
    + destruct (Hother t) as [-> ->]; [done|]. simpl. by rewrite !app_nil_r.
Qed.

Lemma same_inv capacity maxTrips l x a a' :
  admission_inv capacity maxTrips l a -> (forall t, handled_of t x = None /\ admitted_of t x = None) ->
  ad_queues a' = ad_queues a -> ad_capacity a' = ad_capacity a -> ad_maxTrips a' = ad_maxTrips a ->
  admission_inv capacity maxTrips (l ++ [x]) a'.
Proof.
  intros [Hc Ht Hi Hf] Hx Hq H1 H2. constructor; [by rewrite H1, H2|by rewrite Hq|by rewrite Hq|].
  intros t. rewrite !omap_snoc. destruct (Hx t) as [-> ->]. simpl. rewrite !app_nil_r. unfold waiting.
  rewrite Hq. apply Hf.
Qed.

Lemma admission_step_inv capacity maxTrips l a x a' :
  0 <= capacity -> admission_step a x a' -> admission_inv capacity maxTrips l a ->
  admission_inv capacity maxTrips (l ++ [x]) a'.
Proof.
  intros Hcap Hs Hi. pose proof Hi as [[Hc Hm] Ht _ Hf]. destruct Hs as [a message r a' H|a tripID message r a' Hq H|
    a tripID message a' H|a tripID a' H|a].
  - unfold submit_queue in H. repeat case_match; simplify_eq; try (eapply same_inv; [exact Hi|by split|reflexivity..]).
    zbool. constructor; [done| | |].
    + simpl. rewrite map_size_insert_None by done. lia.
    + intros t q. simpl. rewrite lookup_insert. case_decide; [intros [= <-]; by unfold zlen|apply Hi].
    + intros t. rewrite !omap_snoc, waiting_set. simpl. rewrite !app_nil_r, <- Hf.
      case_bool_decide; [subst|done]. unfold waiting.
      match goal with H : ad_queues a !! _ = None |- _ => by rewrite H end.
  - unfold submit_send in H. destruct (ad_queues a !! tripID) as [q|] eqn:E; [|by destruct Hq].
    destruct (_ <? _) eqn:El; simplify_eq; [|eapply same_inv; [exact Hi|by split|reflexivity..]]. zbool.
    eapply set_queue_inv; [done|exact E| | |].
    + simpl. unfold zlen in *. rewrite length_app. simpl. lia.
    + intros t Hne. simpl. by rewrite bool_decide_eq_false_2.
    + simpl. by rewrite bool_decide_eq_true_2.
  - unfold worker_takes in H. destruct (ad_queues a !! tripID) as [[items h]|] eqn:E; [|done].
    destruct items as [|m items], h; simplify_eq.
    pose proof (ai_items _ _ _ _ Hi _ _ E) as Hl. simpl in Hl. unfold zlen in *. simpl in Hl.
    eapply set_queue_inv; [done|exact E| | |].
    + unfold zlen. simpl. lia.
    + intros t Hne. simpl. by rewrite bool_decide_eq_false_2.
    + simpl. rewrite bool_decide_eq_true_2 by done. simpl. by rewrite app_nil_r.
  - unfold worker_done in H. destruct (ad_queues a !! tripID) as [[items h]|] eqn:E; [|done].
    destruct h; simplify_eq. eapply set_queue_inv; [done|exact E| |done|].
    + exact (ai_items _ _ _ _ Hi _ _ E).
    + simpl. by rewrite app_nil_r.
  - eapply same_inv; [exact Hi|by split|reflexivity..].
Qed.

Lemma admission_run_inv capacity maxTrips a0 l a :
  NewTripCommandAdmission capacity maxTrips = Some a0 -> admission_run a0 l a ->
  admission_inv capacity maxTrips l a.
Proof.
  unfold NewTripCommandAdmission. destruct (_ || _ : bool) eqn:E; [done|]. intros [= <-] Hr.
  apply orb_false_iff in E as [E1 E2]. zbool. remember (MkAdmission _ _ _ _) as a0 eqn:Ha.
  induction Hr as [a|a l a' x a'' _ IH Hs]; [subst|by eapply admission_step_inv; [lia|exact Hs|apply IH]].
  constructor; [done| |done|]; simpl.
  - rewrite map_size_empty. lia.
  - intros t. unfold waiting. simpl. by rewrite lookup_empty.
Qed.

(** C23: admission is first in, first out.  In every run the messages of a trip are
    handled in the order they were admitted, none is lost, changed or handled twice,
    and what is not handled yet waits; no queue exceeds its capacity and no more
    trips have one than allowed. *)
Theorem admission_fifo capacity maxTrips a0 l a :
  NewTripCommandAdmission capacity maxTrips = Some a0 -> admission_run a0 l a ->
  (forall t, omap (handled_of t) l ++ waiting t a = omap (admitted_of t) l) /\
  (forall t, zlen (waiting t a) <= capacity) /\ Z.of_nat (size (ad_queues a)) <= maxTrips.
Proof.
  intros Hn Hr. pose proof (admission_run_inv _ _ _ _ _ Hn Hr) as [Hc Ht Hi Hf]. split_and!; [done| |done].
  intros t. unfold waiting. destruct (ad_queues a !! t) as [q|] eqn:E; [by eapply Hi|].
  unfold NewTripCommandAdmission in Hn. destruct (_ || _ : bool) eqn:E'; [done|].
  apply orb_false_iff in E' as [E' _]. zbool. unfold zlen. simpl. lia.
Qed.

(** A queue once made is never removed. *)
Lemma admission_step_keeps a x a' : admission_step a x a' ->
  ad_maxTrips a' = ad_maxTrips a /\ (size (ad_queues a) <= size (ad_queues a'))%nat /\
  (forall t, Z.of_nat (size (ad_queues a)) = ad_maxTrips a -> ad_queues a !! t = None -> ad_queues a' !! t = None).
Proof.
  intros Hs. destruct Hs as [a message r a' H|a tripID message r a' [q Hq] H|a tripID message a' H|a tripID a' H|a].
  - unfold submit_queue in H. repeat case_match; simplify_eq; try (split_and!; [done|lia|done]). zbool.
    split_and!; [done|simpl; rewrite map_size_insert_None by done; lia|intros t Hz Ht; lia].
  - unfold submit_send in H. rewrite Hq in H. case_match; simplify_eq; split_and!; [done| | |done|lia|done]; simpl.
    + by rewrite map_size_insert_Some.
    + intros t _ Ht. rewrite lookup_insert. case_decide; [congruence|done].
  - unfold worker_takes in H. destruct (ad_queues a !! tripID) as [[[|m items] [h|]]|] eqn:E; simplify_eq.
    split_and!; [done|simpl; by rewrite map_size_insert_Some|].
    intros t _ Ht. simpl. rewrite lookup_insert. case_decide; [congruence|done].
  - unfold worker_done in H. destruct (ad_queues a !! tripID) as [[items [h|]]|] eqn:E; simplify_eq.
    split_and!; [done|simpl; by rewrite map_size_insert_Some|].
    intros t _ Ht. simpl. rewrite lookup_insert. case_decide; [congruence|done].
  - done.
Qed.

(** The places for trips are used up for ever.  Once as many trips as allowed have
    sent a message, every message of any other trip is refused, in every continuation
    and however long the others have been idle: no queue is ever removed. *)
Theorem admission_never_recovers capacity maxTrips a0 l a l' a' tripID message :
  NewTripCommandAdmission capacity maxTrips = Some a0 -> admission_run a0 l a ->
  Z.of_nat (size (ad_queues a)) = maxTrips -> ad_queues a !! tripID = None ->
  admission_run a l' a' -> string_member "trip_id" (am_Message message) = Some tripID ->
  gatewayUUID tripID = true ->
  (submit_queue message a').1 = inl AdmissionCapacity \/ (submit_queue message a').1 = inl AdmissionClosed.
Proof.
  intros Hn Hr Hfull Hnone Hr' Hmsg Hu.
  pose proof (admission_run_inv _ _ _ _ _ Hn Hr) as [[_ Hmax] _ _ _].
  assert (Hl : Z.of_nat (size (ad_queues a')) = ad_maxTrips a' /\ ad_queues a' !! tripID = None).
  { assert (Hbound : forall l2 a2, admission_run a l2 a2 -> Z.of_nat (size (ad_queues a2)) <= ad_maxTrips a2).
    { intros l2 a2 H2. assert (H3 : admission_run a0 (l ++ l2) a2).
      { clear -Hr H2. induction H2 as [|a l2 a' x a'' _ IH Hs]; [by rewrite app_nil_r|].
        rewrite app_assoc. by eapply admission_snoc; [apply IH|]. }
      pose proof (admission_run_inv _ _ _ _ _ Hn H3) as [[_ ->] ? _ _]. done. }
    rewrite <- Hmax in Hfull. clear -Hr' Hfull Hnone Hbound. revert Hbound Hfull Hnone.
    induction Hr' as [a|a l2 a' x a'' Hr2 IH Hs]; intros Hbound Hfull Hnone; [done|].
    destruct (IH Hbound Hfull Hnone) as [Hf' Hn']. destruct (admission_step_keeps _ _ _ Hs) as (E1 & E2 & E3).
    split; [|by apply E3]. pose proof (Hbound _ _ (admission_snoc _ _ _ _ _ Hr2 Hs)). lia. }
  destruct Hl as [Hfull' Hnone']. unfold submit_queue. rewrite Hmsg, Hu. simpl.
  destruct (ad_cancelled a'); [by right|]. rewrite Hnone', (proj2 (Z.leb_le _ _)) by lia. by left.
Qed.

(** ** Identifiers *)

(** The gateway's test of identifiers removes every dash before it decodes: it accepts
    a text with dashes in place of digits, which the stores refuse. *)
Theorem gateway_identifier_lax :
  let value := "00000000-0000-4000-8000-0000000000--" in
  gatewayUUID value = true /\ validCanonicalUUID value = false /\ validHTTPUUID value = false.
Proof. vm_compute. split_and!; reflexivity. Qed.
