(* ===== verification/WebSocket.v ===== *)
(** * WebSocket sessions

    Models [gateway/handler.go] with [gateway/schema.go]: admission of a connection,
    the loops of a session over its bounded queues, and shutdown.  The frames a
    connection delivers, the clock, the random identifiers and what the authenticator
    answers are arguments of the steps; the compiled JSON schemas are parameters. *)

From S2P Require Import Prelude GoLib GoText HttpText JsonText StrictJson Places Gateway.

(** ** Configuration *)

Record GatewayConfig := MkGatewayConfig {
  gc_BackendInstanceID : string;
  gc_FrameLimit : Z;
  gc_DecodedMessageLimit : Z;
  gc_InboundQueueCapacity : Z;
  gc_OutboundQueueCapacity : Z;
  gc_HeartbeatInterval : Z;
  gc_IdleTimeout : Z;
  gc_AuthenticationTimeout : Z;
  gc_AllowOriginlessLocalClients : bool;
  gc_AllowedOrigins : list string;
  gc_MaxOutstandingResyncIDs : Z;
  gc_OnMessage : bool
}.

(** [Config.validate]; the validator and the authenticator are never nil. *)
Definition valid_gateway (c : GatewayConfig) : bool :=
  gatewayUUID (gc_BackendInstanceID c) &&
  negb ((gc_FrameLimit c <=? 0) || (262144 <? gc_FrameLimit c) || (gc_DecodedMessageLimit c <=? 0) ||
        (262144 <? gc_DecodedMessageLimit c)) &&
  negb ((gc_InboundQueueCapacity c <=? 0) || (gc_OutboundQueueCapacity c <=? 0) ||
        (gc_HeartbeatInterval c <=? 0) || (gc_IdleTimeout c <=? 0) || (gc_AuthenticationTimeout c <=? 0)) &&
  negb ((gc_MaxOutstandingResyncIDs c <=? 0) || (128 <? gc_MaxOutstandingResyncIDs c)).

(** The [Origin] header, and whether the remote host is a loopback address. *)
Definition originAllowed (c : GatewayConfig) (origin : string) (loopback : bool) : bool :=
  if negb (bool_decide (origin = "")) then bool_decide (origin ∈ gc_AllowedOrigins c)
  else gc_AllowOriginlessLocalClients c && loopback.

(** ** Envelopes *)

(** The compiled schemas. *)
Class EnvelopeSchemas := { client_schema : any -> bool; server_schema : any -> bool }.

(** What [client-envelope] requires of the messages the session itself reads: a ping
    has a message id and a payload object. *)
Class EnvelopeSchemasLaws (ES : EnvelopeSchemas) : Prop := {
  ping_shape : forall envelope, client_schema (AObject envelope) = true ->
    string_member "kind" envelope = Some "ping" ->
    is_Some (string_member "message_id" envelope) /\ exists ms, member "payload" envelope = Some (AObject ms)
}.

Section WebSocket.
Context {ES : EnvelopeSchemas} {HJ : HttpJson}.

Definition ValidateClient (raw : bytes) : option (list (bytes * any)) :=
  match decodeStrictJSON raw with
  | inl _ => None
  | inr value =>
      if negb (client_schema value) then None
      else match value with AObject envelope => Some envelope | _ => None end
  end.

Definition ValidateServer (raw : bytes) : bool :=
  match decodeStrictJSON raw with inl _ => false | inr value => server_schema value end.

(** ** Sessions *)

Definition StatusGoingAway : Z := 1001.
Definition StatusProtocolError : Z := 1002.
Definition StatusMessageTooBig : Z := 1009.
Definition StatusInternalError : Z := 1011.

(** The code and reason the connection was closed with come with [se_closed]; a
    session that [se_running] is in its read loop.  [se_panicked] records a failed
    type assertion.  [se_written] and [se_handled] are what the loops took from the
    queues, and [se_logins] the successful authentications. *)
Record session := MkSession {
  se_id : nat;
  se_outbound : list bytes;
  se_inbound : list AuthenticatedMessage;
  se_closed : option (Z * string);
  se_lastActivity : Z;
  se_userID : string;
  se_authenticated : bool;
  se_running : bool;
  se_panicked : bool;
  se_written : list bytes;
  se_handled : list AuthenticatedMessage;
  se_logins : list (string * string)
}.

Definition newSession (id : nat) (now : Z) : session :=
  MkSession id [] [] None now "" false true false [] [] [].

Definition set_closed (c : option (Z * string)) (s : session) : session :=
  MkSession (se_id s) (se_outbound s) (se_inbound s) c (se_lastActivity s) (se_userID s)
    (se_authenticated s) (se_running s) (se_panicked s) (se_written s) (se_handled s) (se_logins s).
Definition set_outbound (out written : list bytes) (s : session) : session :=
  MkSession (se_id s) out (se_inbound s) (se_closed s) (se_lastActivity s) (se_userID s)
    (se_authenticated s) (se_running s) (se_panicked s) written (se_handled s) (se_logins s).
Definition set_inbound (inb handled : list AuthenticatedMessage) (s : session) : session :=
  MkSession (se_id s) (se_outbound s) inb (se_closed s) (se_lastActivity s) (se_userID s)
    (se_authenticated s) (se_running s) (se_panicked s) (se_written s) handled (se_logins s).
Definition set_activity (now : Z) (s : session) : session :=
  MkSession (se_id s) (se_outbound s) (se_inbound s) (se_closed s) now (se_userID s)
    (se_authenticated s) (se_running s) (se_panicked s) (se_written s) (se_handled s) (se_logins s).
Definition login (token userID : string) (s : session) : session :=
  MkSession (se_id s) (se_outbound s) (se_inbound s) (se_closed s) (se_lastActivity s) userID
    true (se_running s) (se_panicked s) (se_written s) (se_handled s) (se_logins s ++ [(token, userID)]).
(** [return] from the read loop, in a panic or not. *)
Definition leave (panicked : bool) (s : session) : session :=
  MkSession (se_id s) (se_outbound s) (se_inbound s) (se_closed s) (se_lastActivity s) (se_userID s)
    (se_authenticated s) false (se_panicked s || panicked) (se_written s) (se_handled s) (se_logins s).

(** [close]. *)
Definition close_session (code : Z) (reason : string) (s : session) : session :=
  match se_closed s with Some _ => s | None => set_closed (Some (code, reason)) s end.

Context (config : GatewayConfig).

(** [enqueue]. *)
Definition enqueue (raw : bytes) (s : session) : bool * session :=
  match se_closed s with
  | Some _ => (false, s)
  | None =>
      if zlen (se_outbound s) <? gc_OutboundQueueCapacity config
      then (true, set_outbound (se_outbound s ++ [raw]) (se_written s) s)
      else (false, close_session 4029 "connection capacity exhausted" s)
  end.

Inductive PublishResult := PublishedEnvelope | InvalidEnvelope | ConnectionCapacity.

Definition PublishServerEnvelope (raw : bytes) (s : session) : PublishResult * session :=
  if negb (ValidateServer raw) then (InvalidEnvelope, s)
  else match enqueue raw s with
  | (true, s) => (PublishedEnvelope, s)
  | (false, s) => (ConnectionCapacity, s)
  end.

(** [sendConnection]; the members of the map in the order of their names. *)
Definition connection_envelope (uuid kind status : string) (retryable : bool) (inReply : string)
    (payload : json) : json :=
  JObject ((if bool_decide (inReply = "") then [] else [("in_reply_to_message_id", JText inReply)]) ++
    [("kind", JText kind); ("payload", payload); ("protocol_version", JText "liveroute.v1");
     ("retryable", JBool retryable); ("server_message_id", JText uuid); ("status", JText status)]).

Definition sendConnection (uuid kind status : string) (retryable : bool) (inReply : string) (payload : json)
    (s : session) : session :=
  match json_marshal (connection_envelope uuid kind status retryable inReply payload) with
  | None => s
  | Some raw =>
      match PublishServerEnvelope raw s with
      | (PublishedEnvelope, s) => s
      | (ConnectionCapacity, s) => close_session 4029 "connection capacity exhausted" s
      | (InvalidEnvelope, s) => close_session StatusInternalError "invalid server message" s
      end
  end.

Definition pingResponse (now : Z) (payload : list (bytes * any)) : json :=
  JObject [("nonce", JText (default "" (string_member "nonce" payload)));
           ("received_at_unix_ms", JInt (UnixMilli now))].

Definition ready_payload (userID : string) : json :=
  JObject [("backend_instance_id", JText (gc_BackendInstanceID config));
           ("heartbeat_interval_ms", JInt (duration_milliseconds (gc_HeartbeatInterval config)));
           ("idle_timeout_ms", JInt (duration_milliseconds (gc_IdleTimeout config)));
           ("max_frame_bytes", JInt (gc_FrameLimit config));
           ("max_outstanding_resync_ids", JInt (gc_MaxOutstandingResyncIDs config));
           ("user_id", JText userID)].

(** What [connection.Read] returns: a deadline, another error with the peer's close
    code if it sent one, or a frame. *)
Inductive ReadResult :=
| ReadDeadline
| ReadError (code : option Z)
| ReadFrame (text : bool) (raw : bytes).

Definition readCloseCode (code : option Z) : Z :=
  match code with Some c => if 0 <=? c then c else StatusInternalError | None => StatusInternalError end.

Definition ends (code : Z) (reason : string) (s : session) : session :=
  leave false (close_session code reason s).

(** The frame of an unauthenticated client.  [auth] is the authenticator's answer. *)
Definition authenticate_frame (auth : string -> option string) (uuid : string) (kind : option string)
    (envelope : list (bytes * any)) (s : session) : session :=
  if negb (bool_decide (kind = Some "authenticate")) then ends 4001 "authentication required" s
  else match member "payload" envelope with
  | Some (AObject payload) =>
      match string_member "token" payload with
      | None => ends 4001 "authentication failed" s
      | Some token =>
          match auth token with
          | None => ends 4001 "authentication failed" s
          | Some userID =>
              if negb (gatewayUUID userID) then ends 4001 "authentication failed" s
              else sendConnection uuid "connection_ready" "OK" false "" (ready_payload userID)
                     (login token userID s)
          end
      end
  | _ => ends 4001 "authentication failed" s
  end.

(** An authenticated client's message. *)
Definition admit_frame (uuid : string) (kind : option string) (envelope : list (bytes * any)) (raw : bytes)
    (s : session) : session :=
  if bool_decide (kind = Some "authenticate") then ends StatusProtocolError "duplicate authentication" s
  else if negb (gc_OnMessage config) then s
  else if zlen (se_inbound s) <? gc_InboundQueueCapacity config then
    set_inbound (se_inbound s ++ [MkMessage (se_userID s) envelope raw (se_id s)]) (se_handled s) s
  else
    ends 4029 "connection capacity exhausted"
      (sendConnection uuid "error" "RESOURCE_EXHAUSTED" true ""
         (JObject [("safe_message", JText "connection capacity exhausted")]) s).

(** A ping is answered at any time; the assertions on it may panic. *)
Definition answer_ping (now : Z) (uuid : string) (envelope : list (bytes * any)) (s : session) : session :=
  match string_member "message_id" envelope, member "payload" envelope with
  | Some id, Some (AObject payload) => sendConnection uuid "pong" "OK" true id (pingResponse now payload) s
  | _, _ => leave true s
  end.

(** One turn of the read loop. *)
Definition receive (auth : string -> option string) (now : Z) (uuid : string) (r : ReadResult) (s : session)
  : session :=
  match r with
  | ReadDeadline =>
      ends 4008 (if se_authenticated s then "idle timeout" else "authentication timeout") s
  | ReadError code => ends (readCloseCode code) "connection read failed" s
  | ReadFrame text raw =>
      let s := set_activity now s in
      if negb text then ends StatusProtocolError "text frames required" s
      else if gc_DecodedMessageLimit config <? zlen raw then ends StatusMessageTooBig "message too large" s
      else match ValidateClient raw with
      | None => ends StatusProtocolError "invalid message" s
      | Some envelope =>
          let kind := string_member "kind" envelope in
          if bool_decide (kind = Some "ping") then answer_ping now uuid envelope s
          else if bool_decide (kind = Some "pong") then s
          else if negb (se_authenticated s) then authenticate_frame auth uuid kind envelope s
          else admit_frame uuid kind envelope raw s
      end
  end.

(** [messageLoop] and [writeLoop] take the oldest; a failed write closes. *)
Definition take_inbound (s : session) : option session :=
  match se_inbound s with
  | m :: rest => Some (set_inbound rest (se_handled s ++ [m]) s)
  | [] => None
  end.
Definition take_outbound (written : bool) (s : session) : option session :=
  match se_outbound s with
  | raw :: rest =>
      Some (if written then set_outbound rest (se_written s ++ [raw]) s
            else close_session StatusInternalError "connection write failed" (set_outbound rest (se_written s) s))
  | [] => None
  end.

(** A tick of [heartbeatLoop]. *)
Definition heartbeat (now : Z) (uuid nonce : string) (s : session) : session :=
  if gc_IdleTimeout config <=? now - se_lastActivity s then close_session 4008 "idle timeout" s
  else sendConnection uuid "ping" "OK" true ""
         (JObject [("nonce", JText nonce); ("sent_at_unix_ms", JInt (UnixMilli now))]) s.

(** One operation of one of the session's goroutines, of a publisher, or of [Shutdown]. *)
Inductive socket_step : session -> session -> Prop :=
| ses_receive auth now uuid r s : se_running s = true -> socket_step s (receive auth now uuid r s)
| ses_message s s' : take_inbound s = Some s' -> socket_step s s'
| ses_write written s s' : take_outbound written s = Some s' -> socket_step s s'
| ses_heartbeat now uuid nonce s : socket_step s (heartbeat now uuid nonce s)
| ses_publish raw s : socket_step s (PublishServerEnvelope raw s).2
| ses_shutdown s : socket_step s (close_session StatusGoingAway "backend restart" s).

End WebSocket.

(** ** The handler's sessions *)

Record Handler := MkHandler { ha_sessions : gset nat; ha_shuttingDown : bool }.

Definition addSession (id : nat) (h : Handler) : bool * Handler :=
  if ha_shuttingDown h then (false, h) else (true, MkHandler ({[id]} ∪ ha_sessions h) (ha_shuttingDown h)).
Definition removeSession (id : nat) (h : Handler) : Handler :=
  MkHandler (ha_sessions h ∖ {[id]}) (ha_shuttingDown h).
(** The sessions [Shutdown] closes, in some order. *)
Definition ShutdownHandler (h : Handler) : list nat * Handler :=
  (elements (ha_sessions h), MkHandler (ha_sessions h) true).

(** [ServeHTTP] until the session runs. *)
Inductive Admission := ServiceUnavailable | OriginDenied | GoingAway | Serving.
Definition serve_connection (config : GatewayConfig) (origin : string) (loopback shutting : bool) (id : nat)
    (h : Handler) : Admission * Handler :=
  if shutting then (ServiceUnavailable, h)
  else if negb (originAllowed config origin loopback) then (OriginDenied, h)
  else match addSession id h with (true, h) => (Serving, h) | (false, h) => (GoingAway, h) end.
