(* ===== verification/WebSocketProps.v ===== *)
(** * Properties of a WebSocket session *)

From S2P Require Import Prelude GoLib GoText HttpText JsonText StrictJson Places Gateway WebSocket.

Section WebSocketProps.
Context {ES : EnvelopeSchemas} {HJ : HttpJson} (config : GatewayConfig).

(** ** Who sent what *)

(** A message of the session that may be handled for the user. *)
Record admissible (id : nat) (user : string) (m : AuthenticatedMessage) : Prop := {
  av_user : am_UserID m = user;
  av_sink : am_Sink m = id;
  av_valid : ValidateClient (am_Raw m) = Some (am_Message m);
  av_kind : forall k, k ∈ ["authenticate"; "ping"; "pong"] -> string_member "kind" (am_Message m) <> Some k
}.

Definition identified (id : nat) (s : session) : Prop :=
  se_id s = id /\
  ((se_authenticated s = false /\ se_logins s = [] /\ se_inbound s = [] /\ se_handled s = []) \/
   exists token user, se_logins s = [(token, user)] /\ gatewayUUID user = true /\
     se_authenticated s = true /\ se_userID s = user /\ Forall (admissible id user) (se_handled s ++ se_inbound s)).

(** The fields that tell who is who. *)
Definition same_identity_fields (s s' : session) : Prop :=
  se_id s' = se_id s /\ se_authenticated s' = se_authenticated s /\ se_logins s' = se_logins s /\
  se_userID s' = se_userID s /\ se_inbound s' = se_inbound s /\ se_handled s' = se_handled s.

Lemma identified_same id s s' : same_identity_fields s s' -> identified id s -> identified id s'.
Proof. intros (H1 & H2 & H3 & H4 & H5 & H6). unfold identified. by rewrite H1, H2, H3, H4, H5, H6. Qed.

Lemma close_fields code reason s : same_identity_fields s (close_session code reason s).
Proof. unfold close_session. by destruct (se_closed s). Qed.
Lemma ends_fields code reason s : same_identity_fields s (ends code reason s).
Proof. apply close_fields. Qed.
Lemma same_fields_trans s1 s2 s3 :
  same_identity_fields s1 s2 -> same_identity_fields s2 s3 -> same_identity_fields s1 s3.
Proof. unfold same_identity_fields. intros (?&?&?&?&?&?) (?&?&?&?&?&?). split_and!; congruence. Qed.

Lemma publish_fields raw s : same_identity_fields s (PublishServerEnvelope config raw s).2.
Proof.
  unfold PublishServerEnvelope, enqueue. destruct (negb _); [done|]. destruct (se_closed s) eqn:E; [done|].
  destruct (_ <? _); [done|]. apply close_fields.
Qed.
Lemma send_fields uuid kind status retryable inReply payload s :
  same_identity_fields s (sendConnection config uuid kind status retryable inReply payload s).
Proof.
  unfold sendConnection. destruct (json_marshal _) as [raw|]; [|done].
  pose proof (publish_fields raw s) as H. destruct (PublishServerEnvelope config raw s) as [[] s']; simpl in *;
    [done|eapply same_fields_trans; [exact H|apply close_fields]..].
Qed.

Lemma receive_identified id auth now uuid r s :
  identified id s -> identified id (receive config auth now uuid r s).
Proof.
  intros Hi. unfold receive. destruct r as [|code|text raw];
    [eapply identified_same; [apply ends_fields|done]..|].
  assert (Ha : identified id (set_activity now s)) by exact Hi.
  change (se_authenticated s) with (se_authenticated (set_activity now s)).
  set (s1 := set_activity now s) in *. clearbody s1. clear Hi.
  destruct (negb text); [eapply identified_same; [apply ends_fields|done]|].
  destruct (_ <? _); [eapply identified_same; [apply ends_fields|done]|].
  destruct (ValidateClient raw) as [envelope|] eqn:Hv; [|eapply identified_same; [apply ends_fields|done]].
  destruct (bool_decide _) eqn:Hping.
  { unfold answer_ping. repeat case_match; try done.
    eapply identified_same; [apply send_fields|done]. }
  destruct (bool_decide (_ = Some "pong")) eqn:Hpong; [done|].
  apply bool_decide_eq_false in Hping, Hpong. destruct Ha as [Hid Ha].
  destruct (se_authenticated s1) eqn:Hauth; simpl.
  - destruct Ha as [(? & _)|(token & user & Hl & Hu & _ & Hus & Hf)]; [done|].
    unfold admit_frame. destruct (bool_decide (_ = Some "authenticate")) eqn:Hk.
    { eapply identified_same; [apply ends_fields|]. split; [done|]. right. by exists token, user. }
    destruct (negb (gc_OnMessage config)); [split; [done|]; right; by exists token, user|].
    destruct (_ <? _).
    + split; [done|]. right. exists token, user. simpl. split_and!; try done. rewrite app_assoc.
      apply Forall_app. split; [done|]. apply Forall_singleton. apply bool_decide_eq_false in Hk.
      constructor; [done..|]. intros k. rewrite !elem_of_cons, elem_of_nil. intros [->|[->|[->|[]]]]; done.
    + eapply identified_same; [eapply same_fields_trans; [apply send_fields|apply ends_fields]|].
      split; [done|]. right. by exists token, user.
  - destruct Ha as [(_ & Hl & Hin & Hha)|(? & ? & _ & _ & ? & _)]; [|done].
    assert (Hs : identified id s1) by (split; [done|by left]).
    unfold authenticate_frame. destruct (negb (bool_decide _)); [eapply identified_same; [apply ends_fields|done]|].
    repeat case_match; try (eapply identified_same; [apply ends_fields|done]).
    eapply identified_same; [apply send_fields|]. split; [done|]. right.
    match goal with H : auth ?t = Some ?u |- _ => exists t, u end. simpl. rewrite Hl, Hha, Hin.
    split_and!; try done. match goal with H : negb _ = false |- _ => by apply negb_false_iff in H end.
Qed.

Lemma socket_step_identified id s s' : socket_step config s s' -> identified id s -> identified id s'.
Proof.
  intros Hs Hi. destruct Hs as [auth now uuid r s _|s s' H|written s s' H|now uuid nonce s|raw s|s].
  - by apply receive_identified.
  - unfold take_inbound in H. destruct (se_inbound s) as [|m rest] eqn:E; [done|]. simplify_eq.
    destruct Hi as [Hid Hi]. split; [done|]. simpl.
    destruct Hi as [(? & ? & Hin & ?)|(token & user & ? & ? & ? & ? & Hf)]; [congruence|]. right.
    exists token, user. split_and!; try done. rewrite E in Hf. by rewrite <- app_assoc.
  - unfold take_outbound in H. destruct (se_outbound s); [done|]. destruct written; simplify_eq; [done|].
    eapply identified_same; [apply close_fields|done].
  - unfold heartbeat. destruct (_ <=? _); (eapply identified_same; [|done]); [apply close_fields|apply send_fields].
  - eapply identified_same; [apply publish_fields|done].
  - eapply identified_same; [apply close_fields|done].
Qed.

(** C16: only an authenticated user's messages are handled.  In every run of a session at
    most one login succeeds; before it no message is queued or handled, and every
    message queued or handled carries the user the authenticator named, this session
    as its sink, and the members its own text was validated to have, and is no
    message of the connection itself. *)
Theorem session_handles_its_user id now s :
  rtc (socket_step config) (newSession id now) s ->
  (se_logins s = [] /\ se_handled s = [] /\ se_inbound s = []) \/
  exists token user, se_logins s = [(token, user)] /\ gatewayUUID user = true /\
    Forall (admissible id user) (se_handled s ++ se_inbound s).
Proof.
  intros Hr. assert (Hi : identified id s).
  { assert (H0 : identified id (newSession id now)) by (split; [done|by left]).
    revert H0. induction Hr; [done|]. intros H0. apply IHHr. by eapply socket_step_identified. }
  destruct Hi as [_ [(_ & ? & ? & ?)|(token & user & ? & ? & _ & _ & ?)]]; [by left|right].
  by exists token, user.
Qed.

(** ** Queues and frames *)

Record session_sound (s : session) : Prop := {
  so_inbound : zlen (se_inbound s) <= gc_InboundQueueCapacity config;
  so_outbound : zlen (se_outbound s) <= gc_OutboundQueueCapacity config;
  so_frames : Forall (fun raw => ValidateServer raw = true) (se_written s ++ se_outbound s);
  so_panic : se_panicked s = false
}.

(** The fields [session_sound] is about. *)
Definition same_queues (s s' : session) : Prop :=
  se_inbound s' = se_inbound s /\ se_outbound s' = se_outbound s /\ se_written s' = se_written s /\
  se_panicked s' = se_panicked s.

Lemma sound_same s s' : same_queues s s' -> session_sound s -> session_sound s'.
Proof. intros (H1 & H2 & H3 & H4) []. constructor; by rewrite ?H1, ?H2, ?H3, ?H4. Qed.

Lemma close_sound code reason s : session_sound s -> session_sound (close_session code reason s).
Proof. apply sound_same. unfold close_session. by destruct (se_closed s). Qed.
Lemma ends_sound code reason s : session_sound s -> session_sound (ends code reason s).
Proof.
  intros H. apply (sound_same (close_session code reason s)); [|by apply close_sound].
  unfold ends, leave, same_queues. simpl. by rewrite orb_false_r.
Qed.

Lemma publish_sound raw s : session_sound s -> session_sound (PublishServerEnvelope config raw s).2.
Proof.
  intros Hs. unfold PublishServerEnvelope, enqueue. destruct (ValidateServer raw) eqn:Hv; [|done]. simpl.
  destruct (se_closed s); [done|]. destruct (_ <? _) eqn:E; [|by apply close_sound]. zbool.
  destruct Hs. constructor; simpl; [done| | |done].
  - unfold zlen in *. rewrite length_app. simpl. lia.
  - rewrite app_assoc. apply Forall_app. split; [done|]. by apply Forall_singleton.
Qed.

Lemma send_sound uuid kind status retryable inReply payload s :
  session_sound s -> session_sound (sendConnection config uuid kind status retryable inReply payload s).
Proof.
  intros Hs. unfold sendConnection. destruct (json_marshal _) as [raw|]; [|done].
  pose proof (publish_sound raw s Hs) as H. destruct (PublishServerEnvelope config raw s) as [[] s']; simpl in *;
    [done|by apply close_sound..].
Qed.

Create HintDb session discriminated.
#[local] Hint Resolve close_sound ends_sound publish_sound send_sound : session.

Lemma ValidateClient_ok raw envelope : ValidateClient raw = Some envelope -> client_schema (AObject envelope) = true.
Proof.
  unfold ValidateClient. intros H. repeat case_match; simplify_eq.
  match goal with H : negb _ = false |- _ => by apply negb_false_iff in H end.
Qed.

Lemma receive_sound {EL : EnvelopeSchemasLaws ES} auth now uuid r s :
  session_sound s -> session_sound (receive config auth now uuid r s).
Proof.
  intros Hs. unfold receive. destruct r as [|code|text raw]; [auto with session..|].
  assert (Ha : session_sound (set_activity now s)) by (by apply (sound_same s)).
  destruct (negb text); [auto with session|]. destruct (_ <? _); [auto with session|].
  destruct (ValidateClient raw) as [envelope|] eqn:Hv; [|auto with session].
  destruct (bool_decide _) eqn:Hping.
  { apply bool_decide_eq_true in Hping. apply ValidateClient_ok in Hv.
    destruct (ping_shape envelope Hv Hping) as [[id Hid] [ms Hms]]. unfold answer_ping.
    rewrite Hid, Hms. auto with session. }
  destruct (bool_decide (_ = Some "pong")); [done|]. destruct (negb _).
  - unfold authenticate_frame. destruct (negb (bool_decide _)); [auto with session|].
    repeat case_match; auto with session. apply send_sound. by apply (sound_same s).
  - unfold admit_frame. destruct (bool_decide (_ = Some "authenticate")); [auto with session|].
    destruct (negb (gc_OnMessage config)); [done|]. destruct (_ <? _) eqn:E; [|auto with session]. zbool.
    destruct Ha. constructor; simpl; [|done..]. unfold zlen in *. rewrite length_app. simpl in *. lia.
Qed.

Lemma socket_step_sound {EL : EnvelopeSchemasLaws ES} s s' :
  socket_step config s s' -> session_sound s -> session_sound s'.
Proof.
  intros Hs Hi. destruct Hs as [auth now uuid r s _|s s' H|written s s' H|now uuid nonce s|raw s|s];
    auto with session.
  - by apply receive_sound.
  - unfold take_inbound in H. destruct (se_inbound s) as [|m rest] eqn:E; [done|]. simplify_eq.
    destruct Hi. rewrite E in *. constructor; simpl; [|done..]. unfold zlen in *. simpl in *. lia.
  - unfold take_outbound in H. destruct (se_outbound s) as [|x rest] eqn:E; [done|]. destruct Hi. rewrite E in *.
    assert (Hx : forall w, Forall (fun raw => ValidateServer raw = true) (w ++ rest) ->
      session_sound (set_outbound rest w s)).
    { intros w Hw. constructor; simpl; [done| |done|done]. unfold zlen in *. simpl in *. lia. }
    apply Forall_app in so_frames0 as [Hw [Hx1 Hx2]%Forall_cons].
    destruct written; simplify_eq; [apply Hx|apply close_sound, Hx]; apply Forall_app; split; try done.
    apply Forall_app. split; [done|]. by apply Forall_singleton.
  - unfold heartbeat. destruct (_ <=? _); auto with session.
Qed.

(** C25: a session stays within its bounds.  In every run neither queue exceeds its
    capacity, every frame queued or written to the client passed the server schema,
    and no frame a client sends makes the session panic. *)
Theorem session_stays_sound {EL : EnvelopeSchemasLaws ES} id now s :
  valid_gateway config = true -> rtc (socket_step config) (newSession id now) s ->
  zlen (se_inbound s) <= gc_InboundQueueCapacity config /\
  zlen (se_outbound s) <= gc_OutboundQueueCapacity config /\
  Forall (fun raw => ValidateServer raw = true) (se_written s ++ se_outbound s) /\ se_panicked s = false.
Proof.
  intros Hc Hr. assert (Hi : session_sound s); [|by destruct Hi].
  assert (H0 : session_sound (newSession id now)).
  { unfold valid_gateway in Hc. inv_res. zbool. constructor; simpl; try done; unfold zlen; simpl; lia. }
  revert H0. induction Hr; [done|]. intros H0. apply IHHr. by eapply socket_step_sound.
Qed.

(** ** After the close *)

Lemma closed_once s s' c : socket_step config s s' -> se_closed s = Some c ->
  se_closed s' = Some c /\ exists sent, se_outbound s = sent ++ se_outbound s'.
Proof.
  assert (Hcl : forall code reason x, se_closed x = Some c -> close_session code reason x = x).
  { intros code reason x Hx. unfold close_session. by rewrite Hx. }
  assert (Hpub : forall raw x, se_closed x = Some c -> (PublishServerEnvelope config raw x).2 = x).
  { intros raw x Hx. unfold PublishServerEnvelope, enqueue. rewrite Hx. by destruct (negb _). }
  assert (Hsend : forall u k st r i p x, se_closed x = Some c -> sendConnection config u k st r i p x = x).
  { intros u k st r i p x Hx. unfold sendConnection. destruct (json_marshal _) as [raw|]; [|done].
    pose proof (Hpub raw x Hx) as H. destruct (PublishServerEnvelope config raw x) as [[] y]; simpl in H; subst;
      [done|by apply Hcl..]. }
  intros Hs Hc. destruct Hs as [auth now uuid r s _|s s' H|written s s' H|now uuid nonce s|raw s|s].
  - unfold receive, answer_ping, authenticate_frame, admit_frame, ends.
    repeat case_match; rewrite ?Hsend, ?Hcl by (rewrite ?Hsend; done); simpl; (split; [done|by exists []]).
  - unfold take_inbound in H. destruct (se_inbound s); simplify_eq. split; [done|by exists []].
  - unfold take_outbound in H. destruct (se_outbound s) as [|x rest] eqn:E; [done|].
    destruct written; simplify_eq; rewrite ?Hcl by done; (split; [done|by exists [x]]).
  - unfold heartbeat. destruct (_ <=? _); rewrite ?Hcl, ?Hsend by done; (split; [done|by exists []]).
  - rewrite Hpub by done. split; [done|by exists []].
  - rewrite Hcl by done. split; [done|by exists []].
Qed.

(** A session is closed once.  After the connection was closed with a code, no run
    closes it with another, and nothing is queued for the client any more. *)
Theorem session_closed_for_good s s' c :
  rtc (socket_step config) s s' -> se_closed s = Some c ->
  se_closed s' = Some c /\ exists sent, se_outbound s = sent ++ se_outbound s'.
Proof.
  intros Hr. induction Hr as [s|s s1 s' Hs _ IH]; intros Hc; [split; [done|by exists []]|].
  destruct (closed_once _ _ _ Hs Hc) as [Hc1 [l1 E1]]. destruct (IH Hc1) as [Hc2 [l2 E2]].
  split; [done|]. exists (l1 ++ l2). by rewrite E1, E2, app_assoc.
Qed.
End WebSocketProps.
