(* ===== verification/Transport.v ===== *)
(** * The planner stream client

    Models [plannertransport/client.go]: callers hand their requests to the goroutine
    that serves the stream, which correlates the answers by request identifier and
    passes everything else on as a notification.  Every channel operation and every
    turn of the loop of [serve] is one function; a run is any sequence of them. *)

From S2P Require Import Prelude GoLib GoText PlannerMessages.

Definition ProtocolVersion : string := "liveroute.v1".
Definition RequiredCapabilities : list string :=
  ["canonical_first_plan_sync"; "durable_plan_proposals"; "epoch_scoped_observations";
   "finalized_mutation_watermark"; "result_quality_metadata"; "snapshot_schema_1";
   "user_authoritative_current_plan"].

Definition containsCapabilities (actual required : list string) : bool :=
  forallb (fun value => bool_decide (value ∈ actual)) required.

(** [StreamReady]. *)
Record StreamReadyMessage := MkStreamReady {
  sr_protocol_version : string; sr_capabilities : list string; sr_status : Z
}.

(** [openStream] on what the factory, the random source, [Send] and [Recv] return. *)
Definition openStream (factory : bool) (random : option bytes) (sent : bool)
    (answer : option (string * option StreamReadyMessage)) : bool :=
  factory &&
  match newAuthUUID <$> random, answer with
  | Some requestID, Some (id, Some ready) =>
      sent && bool_decide (id = requestID) && (sr_status ready =? STATUS_CODE_OK) &&
      bool_decide (sr_protocol_version ready = ProtocolVersion) &&
      containsCapabilities (sr_capabilities ready) RequiredCapabilities
  | _, _ => false
  end.

(** ** The client *)

Inductive TransportError := ErrContext | ErrDuplicateRequest | ErrStreamUnavailable.

(** A call is known by the identity of its [response] channel. *)
Record Call := MkCall { xc_id : nat; xc_request : PlannerStreamRequest }.

(** [tp_made] are the requests of all calls, in the order of their identities;
    [tp_stream] is the stream being served, and [tp_opened] counts them.
    [tp_answers] holds what was sent to each call's channel, which has room for one
    result, with the stream served then, and [tp_sent] the stream each call's request
    was sent on. *)
Record TransportClient := MkTransport {
  tp_requests : list Call;
  tp_notifications : list PlannerStreamResponse;
  tp_pending : gmap string Call;
  tp_stream : option nat;
  tp_opened : nat;
  tp_ready : bool;
  tp_failures : Z;
  tp_closed : bool;
  tp_made : list PlannerStreamRequest;
  tp_answers : gmap nat (list ((PlannerStreamResponse + TransportError) * option nat));
  tp_sent : gmap nat nat
}.

Definition new_transport : TransportClient := MkTransport [] [] ∅ None 0 false 0 false [] ∅ ∅.

Definition answer (n : nat) (r : PlannerStreamResponse + TransportError) (c : TransportClient) : TransportClient :=
  MkTransport (tp_requests c) (tp_notifications c) (tp_pending c) (tp_stream c) (tp_opened c) (tp_ready c)
    (tp_failures c) (tp_closed c) (tp_made c)
    (<[n := default [] (tp_answers c !! n) ++ [(r, tp_stream c)]]> (tp_answers c)) (tp_sent c).
Definition set_pending (p : gmap string Call) (c : TransportClient) : TransportClient :=
  MkTransport (tp_requests c) (tp_notifications c) p (tp_stream c) (tp_opened c) (tp_ready c)
    (tp_failures c) (tp_closed c) (tp_made c) (tp_answers c) (tp_sent c).
Definition set_requests (r : list Call) (made : list PlannerStreamRequest) (c : TransportClient)
  : TransportClient :=
  MkTransport r (tp_notifications c) (tp_pending c) (tp_stream c) (tp_opened c) (tp_ready c)
    (tp_failures c) (tp_closed c) made (tp_answers c) (tp_sent c).
Definition set_notifications (l : list PlannerStreamResponse) (c : TransportClient) : TransportClient :=
  MkTransport (tp_requests c) l (tp_pending c) (tp_stream c) (tp_opened c) (tp_ready c)
    (tp_failures c) (tp_closed c) (tp_made c) (tp_answers c) (tp_sent c).
Definition mark_sent (n stream : nat) (c : TransportClient) : TransportClient :=
  MkTransport (tp_requests c) (tp_notifications c) (tp_pending c) (tp_stream c) (tp_opened c) (tp_ready c)
    (tp_failures c) (tp_closed c) (tp_made c) (tp_answers c) (<[n := stream]> (tp_sent c)).
Definition cancel_client (c : TransportClient) : TransportClient :=
  MkTransport (tp_requests c) (tp_notifications c) (tp_pending c) (tp_stream c) (tp_opened c) (tp_ready c)
    (tp_failures c) true (tp_made c) (tp_answers c) (tp_sent c).

Section Transport.
Context (admissionCapacity notificationCapacity : Z).

(** [Exchange] up to the send on [requests], which blocks while the channel is full. *)
Definition submit_call (request : PlannerStreamRequest) (c : TransportClient) : option TransportClient :=
  if bool_decide (pq_request_id request = "") || negb (zlen (tp_requests c) <? admissionCapacity) then None
  else Some (set_requests (tp_requests c ++ [MkCall (length (tp_made c)) request]) (tp_made c ++ [request]) c).

(** [run] opened a stream, or has none and waits unless the client is closed: the
    client may be closed while a stream is being opened. *)
Definition stream_opened (c : TransportClient) : TransportClient :=
  MkTransport (tp_requests c) (tp_notifications c) ∅ (Some (tp_opened c)) (S (tp_opened c)) true 0
    (tp_closed c) (tp_made c) (tp_answers c) (tp_sent c).
Definition stream_failed (c : TransportClient) : TransportClient :=
  MkTransport (tp_requests c) (tp_notifications c) (tp_pending c) None (tp_opened c) false
    (if tp_closed c then tp_failures c else uint64 (tp_failures c + 1)) (tp_closed c) (tp_made c)
    (tp_answers c) (tp_sent c).

(** [failPending], and the return from [serve]. *)
Definition failPending (c : TransportClient) : TransportClient :=
  set_pending ∅ (foldr (fun kv => answer (xc_id kv.2) (inr ErrStreamUnavailable)) c
                   (map_to_list (tp_pending c))).
Definition serve_returns (c : TransportClient) : TransportClient := stream_failed (failPending c).

(** A request is taken: [expired] if its context is done, [sent] if [Send] succeeds. *)
Definition serve_request (expired sent : bool) (c : TransportClient) : option TransportClient :=
  match tp_stream c, tp_requests c with
  | Some stream, call :: rest =>
      let c := set_requests rest (tp_made c) c in
      let id := pq_request_id (xc_request call) in
      Some (if expired then answer (xc_id call) (inr ErrContext) c
            else if bool_decide (is_Some (tp_pending c !! id)) then
              answer (xc_id call) (inr ErrDuplicateRequest) c
            else if sent then mark_sent (xc_id call) stream (set_pending (<[id := call]> (tp_pending c)) c)
            else serve_returns (answer (xc_id call) (inr ErrStreamUnavailable) c))
  | _, _ => None
  end.

(** Something is received. *)
Definition serve_response (incoming : option PlannerStreamResponse) (c : TransportClient)
  : option TransportClient :=
  match tp_stream c, incoming with
  | None, _ => None
  | Some _, None => Some (serve_returns c)
  | Some _, Some response =>
      Some match tp_pending c !! ps_request_id response with
           | Some call =>
               answer (xc_id call) (inl response)
                 (set_pending (delete (ps_request_id response) (tp_pending c)) c)
           | None =>
               if zlen (tp_notifications c) <? notificationCapacity
               then set_notifications (tp_notifications c ++ [response]) c
               else serve_returns c
           end
  end.

(** The consumer takes a notification. *)
Definition take_notification (c : TransportClient) : option (PlannerStreamResponse * TransportClient) :=
  match tp_notifications c with
  | response :: rest => Some (response, set_notifications rest c)
  | [] => None
  end.

Inductive transport_step : TransportClient -> TransportClient -> Prop :=
| tr_submit request c c' : submit_call request c = Some c' -> transport_step c c'
| tr_open factory random sent answer c :
    tp_stream c = None -> openStream factory random sent answer = true -> transport_step c (stream_opened c)
| tr_open_failed factory random sent answer c :
    tp_stream c = None -> openStream factory random sent answer = false -> transport_step c (stream_failed c)
| tr_request expired sent c c' : serve_request expired sent c = Some c' -> transport_step c c'
| tr_response incoming c c' : serve_response incoming c = Some c' -> transport_step c c'
| tr_notification response c c' : take_notification c = Some (response, c') -> transport_step c c'
| tr_close c : transport_step c (cancel_client c)
| tr_closed c : is_Some (tp_stream c) -> tp_closed c = true -> transport_step c (serve_returns c).

End Transport.

(** ** Reconnecting *)

(** [random] is [rand.Int(rand.Reader, n)]. *)
Definition reconnect_ceiling (failures : Z) : Z :=
  let shift := if 0 <? failures then failures - 1 else 0 in
  let shift := if 7 <? shift then 7 else shift in
  let ceiling := 100 * Millisecond * Z.shiftl 1 shift in
  if 10 * Second <? ceiling then 10 * Second else ceiling.
Definition reconnectDelay (random : Z -> option Z) (failures : Z) : Z :=
  let ceiling := reconnect_ceiling failures in
  match random (ceiling + 1) with None => ceiling | Some value => value end.
