(* ===== verification/TransportProps.v ===== *)
(** * Properties of the planner stream client *)

From S2P Require Import Prelude GoLib GoText PlannerMessages Transport.

(** ** Correlation *)

(** What the channel of a call was sent. *)
Definition results (n : nat) (c : TransportClient) : list ((PlannerStreamResponse + TransportError) * option nat) :=
  default [] (tp_answers c !! n).

(** A call that waits for its result. *)
Record open_call (call : Call) (c : TransportClient) : Prop := {
  oc_made : tp_made c !! xc_id call = Some (xc_request call);
  oc_unanswered : results (xc_id call) c = []
}.

Record transport_inv (c : TransportClient) : Prop := {
  ti_queued : forall call, call ∈ tp_requests c -> open_call call c;
  ti_distinct : NoDup (xc_id <$> tp_requests c);
  ti_pending : forall id call, tp_pending c !! id = Some call -> open_call call c /\
    pq_request_id (xc_request call) = id /\ xc_id call ∉ (xc_id <$> tp_requests c) /\
    tp_sent c !! xc_id call = tp_stream c;
  ti_once : forall n, (length (results n c) <= 1)%nat;
  ti_correlated : forall n response k, (inl response, k) ∈ results n c -> exists request,
    tp_made c !! n = Some request /\ ps_request_id response = pq_request_id request /\
    tp_sent c !! n = k;
  ti_made : forall n, results n c <> [] -> is_Some (tp_made c !! n);
  ti_served : tp_stream c = None -> tp_pending c = ∅;
  ti_ready : tp_ready c = true <-> is_Some (tp_stream c)
}.

Lemma results_answer n m r c :
  results n (answer m r c) = if bool_decide (n = m) then results n c ++ [(r, tp_stream c)] else results n c.
Proof.
  unfold results, answer. simpl. rewrite lookup_insert. by case_decide; case_bool_decide; subst.
Qed.

(** Answering a call that is open and in neither place. *)
Lemma answer_inv call r c :
  transport_inv c -> open_call call c -> xc_id call ∉ (xc_id <$> tp_requests c) ->
  (forall id x, tp_pending c !! id = Some x -> xc_id x <> xc_id call) ->
  (forall response, r = inl response -> ps_request_id response = pq_request_id (xc_request call) /\
     tp_sent c !! xc_id call = tp_stream c) ->
  transport_inv (answer (xc_id call) r c).
Proof.
  intros [H1 H2 H3 H4 H5 H6 H7 H8] [Hm Hr] Hq Hp Hin.
  assert (Hopen : forall x, xc_id x <> xc_id call -> open_call x c -> open_call x (answer (xc_id call) r c)).
  { intros x Hne [Hx1 Hx2]. constructor; [done|]. by rewrite results_answer, bool_decide_eq_false_2. }
  constructor; try done.
  - intros x Hx. apply Hopen; [|by apply H1]. intros E. apply Hq. rewrite <- E. by apply list_elem_of_fmap_2.
  - intros id x Hx. destruct (H3 id x Hx) as (Ho & Hrest). split; [|done]. apply Hopen; [by eapply Hp|done].
  - intros n. rewrite results_answer. case_bool_decide; [subst; rewrite Hr; simpl; lia|apply H4].
  - intros n response k. rewrite results_answer. case_bool_decide as En; [subst|apply H5].
    rewrite Hr. simpl. rewrite list_elem_of_singleton. intros [= Er ->].
    destruct (Hin response) as [Hid Hs]; [done|]. by exists (xc_request call).
  - intros n. rewrite results_answer. case_bool_decide; [subst; by eexists|apply H6].
Qed.

(** Taking a call out of [pending]. *)
Lemma forget_inv p c : transport_inv c -> p ⊆ tp_pending c -> transport_inv (set_pending p c).
Proof.
  intros [H1 H2 H3 H4 H5 H6 H7 H8] Hp. constructor; try done.
  - intros call Hc. destruct (H1 call Hc). by constructor.
  - intros id call Hc. destruct (H3 id call) as ([? ?] & ?); [by eapply lookup_weaken|]. split; [by constructor|done].
  - intros Hs. simpl. apply H7 in Hs. simpl in Hs. rewrite Hs in Hp. by apply map_empty_subseteq in Hp || (apply map_eq; intros i; specialize (Hp i); by destruct (p !! i)).
Qed.

(** A call that is in neither place: it has been taken out to be answered. *)
Record detached (call : Call) (c : TransportClient) : Prop := {
  de_open : open_call call c;
  de_queued : xc_id call ∉ (xc_id <$> tp_requests c);
  de_pending : forall id x, tp_pending c !! id = Some x -> xc_id x <> xc_id call
}.

(** Answering with an error a call that was taken out. *)
Lemma error_inv call e c : transport_inv c -> detached call c -> transport_inv (answer (xc_id call) (inr e) c).
Proof. intros Hi [Ho Hq Hp]. by apply answer_inv. Qed.

Lemma error_detached call x e c :
  detached call c -> xc_id call <> xc_id x -> detached call (answer (xc_id x) (inr e) c).
Proof.
  intros [[Hm Hr] Hq Hp] Hne. constructor; [|done..].
  constructor; [done|]. by rewrite results_answer, bool_decide_eq_false_2.
Qed.

(** Two waiting calls under different request identifiers are different calls. *)
Lemma pending_distinct id id' x y c :
  transport_inv c -> tp_pending c !! id = Some x -> tp_pending c !! id' = Some y -> id <> id' -> xc_id x <> xc_id y.
Proof.
  intros Hi Hx Hy Hne E. destruct (ti_pending c Hi id x Hx) as ([Hm _] & <- & _).
  destruct (ti_pending c Hi id' y Hy) as ([Hm' _] & <- & _). rewrite E in Hm. congruence.
Qed.

(** [serve] takes the first request. *)
Lemma take_request call rest c :
  transport_inv c -> tp_requests c = call :: rest ->
  let c' := set_requests rest (tp_made c) c in transport_inv c' /\ detached call c'.
Proof.
  intros [H1 H2 H3 H4 H5 H6 H7 H8] Hq c'. rewrite Hq in *. apply NoDup_cons in H2 as [Hn H2].
  split.
  - constructor; try done.
    + intros x Hx. destruct (H1 x) as [? ?]; [by right|]. by constructor.
    + intros id x Hx. destruct (H3 id x Hx) as ([? ?] & Hid & Hnq & Hs). split; [by constructor|].
      split; [done|]. split; [|done]. intros Hin. apply Hnq. by right.
  - constructor.
    + destruct (H1 call) as [? ?]; [by left|]. by constructor.
    + done.
    + intros id x Hx E. destruct (H3 id x Hx) as (_ & _ & Hnq & _). apply Hnq. rewrite E. by left.
Qed.

(** [failPending]: everything that was waiting is answered. *)
Lemma fail_all l c :
  transport_inv c -> (forall call, call ∈ l -> detached call c) -> NoDup (xc_id <$> l) ->
  let c' := foldr (fun call => answer (xc_id call) (inr ErrStreamUnavailable)) c l in
  transport_inv c' /\ (forall call, detached call c -> xc_id call ∉ (xc_id <$> l) -> detached call c').
Proof.
  intros Hi. induction l as [|call l IH]; intros Hd Hn; [done|].
  simpl in Hn. apply NoDup_cons in Hn as [Hnot Hn].
  destruct IH as [Hi' Hd']; [|done|]. { intros x Hx. apply Hd. by right. }
  simpl. split.
  - apply error_inv; [done|]. apply Hd'; [|done]. apply Hd. by left.
  - intros x Hx Hin. apply error_detached; [apply Hd'; [done|] |]; intros E; apply Hin; [by right|].
    simpl. rewrite E. by left.
Qed.

Lemma set_pending_fold p (l : list (string * Call)) c :
  set_pending p (foldr (fun kv => answer (xc_id kv.2) (inr ErrStreamUnavailable)) c l) =
  foldr (fun call => answer (xc_id call) (inr ErrStreamUnavailable)) (set_pending p c) (snd <$> l).
Proof.
  induction l as [|kv l IH]; [done|]. rewrite fmap_cons, !foldr_cons, <- IH. reflexivity.
Qed.

Lemma pending_list_distinct c : transport_inv c -> NoDup (xc_id <$> (map_to_list (tp_pending c)).*2).
Proof.
  intros Hi. rewrite <- list_fmap_compose. apply NoDup_fmap_2_strong, NoDup_map_to_list.
  intros [i x] [j y] Hx%elem_of_map_to_list Hy%elem_of_map_to_list E. simpl in E.
  destruct (decide (i = j)) as [->|Hne]; [congruence|].
  by destruct (pending_distinct i j x y c Hi Hx Hy Hne).
Qed.

Lemma failPending_inv c : transport_inv c -> transport_inv (failPending c).
Proof.
  intros Hi. unfold failPending. rewrite set_pending_fold.
  apply fail_all; [apply forget_inv; [done|apply map_empty_subseteq]| |by apply pending_list_distinct].
  intros call Hc. apply list_elem_of_fmap in Hc as ([id x] & -> & Hx%elem_of_map_to_list).
  destruct (ti_pending c Hi id x Hx) as ([? ?] & _ & ? & _). constructor; [by constructor|done|done].
Qed.

Lemma failPending_none c : tp_pending (failPending c) = ∅.
Proof. done. Qed.

Lemma serve_returns_inv c : transport_inv c -> transport_inv (serve_returns c).
Proof.
  intros Hi%failPending_inv. unfold serve_returns. pose proof (failPending_none c) as Hp.
  revert Hi Hp. generalize (failPending c). intros d [H1 H2 H3 H4 H5 H6 H7 H8] Hp.
  constructor; try done.
  - intros x Hx. destruct (H1 x Hx). by constructor.
  - intros id x Hx. simpl in Hx. by rewrite Hp in Hx.
  - simpl. split; [done|]. by intros [? ?].
Qed.

Section Steps.
Context (admissionCapacity notificationCapacity : Z).
Abbreviation client_step := (transport_step admissionCapacity notificationCapacity).

Lemma submit_inv request c c' :
  transport_inv c -> submit_call admissionCapacity request c = Some c' -> transport_inv c'.
Proof.
  intros [H1 H2 H3 H4 H5 H6 H7 H8]. unfold submit_call. case_match; [done|]. intros [= <-].
  assert (Hfresh : forall n r, tp_made c !! n = Some r -> n <> length (tp_made c)).
  { intros n r Hn%lookup_lt_Some. lia. }
  assert (Hopen : forall x, open_call x c -> open_call x (set_requests
    (tp_requests c ++ [MkCall (length (tp_made c)) request]) (tp_made c ++ [request]) c)).
  { intros x [Hx1 Hx2]. constructor; [by apply lookup_app_l_Some|done]. }
  assert (Hnone : results (length (tp_made c)) c = []).
  { destruct (results _ c) eqn:E; [done|]. destruct (H6 (length (tp_made c))) as [r Hr]; [by rewrite E|].
    by apply Hfresh in Hr. }
  assert (Hnew : length (tp_made c) ∉ (xc_id <$> tp_requests c)).
  { intros (x & E & Hx)%list_elem_of_fmap. destruct (H1 x Hx) as [Hm _]. by apply (Hfresh _ _ Hm). }
  constructor; try done; simpl.
  - intros x [Hx | ->%list_elem_of_singleton]%elem_of_app; [by apply Hopen, H1|].
    constructor; [simpl; by rewrite lookup_app_r, Nat.sub_diag|done].
  - rewrite fmap_app. apply NoDup_app. split; [done|]. split; [|apply NoDup_singleton].
    intros n Hn E. apply list_elem_of_singleton in E as ->. done.
  - intros id x Hx. destruct (H3 id x Hx) as (Ho & Hid & Hq & Hs). split; [by apply Hopen|].
    split; [done|]. split; [|done]. rewrite fmap_app, elem_of_app.
    intros [Hin | E%list_elem_of_singleton]; [done|]. destruct Ho as [Hm _]. by apply (Hfresh _ _ Hm).
  - intros n response k Hin. destruct (H5 n response k Hin) as (r & Hr & ? & ?).
    exists r. split; [by apply lookup_app_l_Some|done].
  - intros n Hn. destruct (H6 n Hn) as [r Hr]. exists r. by apply lookup_app_l_Some.
Qed.

Lemma opened_inv c : transport_inv c -> tp_stream c = None -> transport_inv (stream_opened c).
Proof.
  intros [H1 H2 H3 H4 H5 H6 H7 H8] Hs. constructor; try done.
  intros x Hx. destruct (H1 x Hx). by constructor.
Qed.

Lemma failed_inv c : transport_inv c -> tp_stream c = None -> transport_inv (stream_failed c).
Proof.
  intros [H1 H2 H3 H4 H5 H6 H7 H8] Hs. specialize (H7 Hs). constructor; try done.
  - intros x Hx. destruct (H1 x Hx). by constructor.
  - intros id x Hx. simpl in Hx. by rewrite H7 in Hx.
  - simpl. split; [done|]. by intros [? ?].
Qed.

(** The request is sent and waits under its identifier. *)
Lemma sent_inv call stream c :
  transport_inv c -> detached call c -> tp_stream c = Some stream ->
  tp_pending c !! pq_request_id (xc_request call) = None ->
  transport_inv (mark_sent (xc_id call) stream
    (set_pending (<[pq_request_id (xc_request call) := call]> (tp_pending c)) c)).
Proof.
  intros [H1 H2 H3 H4 H5 H6 H7 H8] [[Hm Hr] Hq Hp] Hs Hnone. constructor; try done; simpl.
  - intros x Hx. destruct (H1 x Hx). by constructor.
  - intros id x. rewrite lookup_insert_Some. intros [[<- <-]|[Hne Hx]].
    + split; [by constructor|]. split; [done|]. split; [done|]. by rewrite lookup_insert_eq.
    + destruct (H3 id x Hx) as ([? ?] & Hid & Hnq & Hsx). split; [by constructor|].
      split; [done|]. split; [done|]. rewrite lookup_insert_ne; [done|]. intros E. by apply (Hp id x Hx).
  - intros n response k Hin. destruct (H5 n response k Hin) as (r & Hr' & ? & ?).
    exists r. split; [done|]. split; [done|]. rewrite lookup_insert_ne; [done|]. intros E. subst n.
    change (results (xc_id call) _) with (results (xc_id call) c) in Hin. rewrite Hr in Hin. by apply elem_of_nil in Hin.
  - intros E. by rewrite Hs in E.
Qed.

Lemma request_inv expired sent c c' :
  transport_inv c -> serve_request expired sent c = Some c' -> transport_inv c'.
Proof.
  intros Hi. unfold serve_request. destruct (tp_stream c) as [stream|] eqn:Hs; [|done].
  destruct (tp_requests c) as [|call rest] eqn:Hq; [done|]. intros [= <-].
  destruct (take_request call rest c Hi Hq) as [Hi' Hd].
  destruct expired; [by apply error_inv|]. case_bool_decide as Hp; [by apply error_inv|].
  destruct sent; [|by apply serve_returns_inv, error_inv].
  apply (sent_inv call stream (set_requests rest (tp_made c) c)); [done..|]. by apply eq_None_not_Some.
Qed.

Lemma response_inv incoming c c' :
  transport_inv c -> serve_response notificationCapacity incoming c = Some c' -> transport_inv c'.
Proof.
  intros Hi. unfold serve_response. destruct (tp_stream c) as [stream|] eqn:Hs; [|done].
  destruct incoming as [response|]; intros [= <-]; [|by apply serve_returns_inv].
  destruct (tp_pending c !! _) as [call|] eqn:Hp.
  - destruct (ti_pending c Hi _ _ Hp) as ([Hm Hr] & Hid & Hq & Hsent).
    apply answer_inv; [apply forget_inv; [done|apply delete_subseteq]|by constructor|done| |].
    + intros id x Hx. simpl in Hx. apply lookup_delete_Some in Hx as [Hne Hx]. apply (pending_distinct id (ps_request_id response) x call c Hi Hx Hp). by symmetry.
    + intros ? [= <-]. by rewrite Hid.
  - case_match; [|by apply serve_returns_inv]. destruct Hi as [H1 H2 H3 H4 H5 H6 H7 H8].
    constructor; try done.
    + intros x Hx. destruct (H1 x Hx). by constructor.
    + intros id x Hx. destruct (H3 id x Hx) as ([? ?] & ?). split; [by constructor|done].
Qed.

Lemma silent_inv c c' :
  transport_inv c -> tp_requests c' = tp_requests c -> tp_pending c' = tp_pending c -> tp_stream c' = tp_stream c ->
  tp_ready c' = tp_ready c -> tp_made c' = tp_made c -> tp_answers c' = tp_answers c -> tp_sent c' = tp_sent c ->
  transport_inv c'.
Proof.
  intros [H1 H2 H3 H4 H5 H6 H7 H8] E1 E2 E3 E4 E5 E6 E7.
  assert (Er : forall n, results n c' = results n c) by (intros; unfold results; by rewrite E6).
  assert (Ho : forall x, open_call x c -> open_call x c').
  { intros x [? ?]. constructor; [by rewrite E5|by rewrite Er]. }
  constructor; rewrite ?E1, ?E2, ?E3, ?E4, ?E5, ?E7; try done.
  - intros x Hx. by apply Ho, H1.
  - intros id x Hx. destruct (H3 id x Hx). split; [by apply Ho|done].
  - intros n. rewrite Er. apply H4.
  - intros n r k. rewrite Er. apply H5.
  - intros n. rewrite Er. apply H6.
Qed.

Lemma transport_step_inv c c' : client_step c c' -> transport_inv c -> transport_inv c'.
Proof.
  intros Hs Hi. destruct Hs.
  - by eapply submit_inv.
  - by apply opened_inv.
  - by apply failed_inv.
  - by eapply request_inv.
  - by eapply response_inv.
  - unfold take_notification in *. case_match; [done|]. simplify_eq. by eapply silent_inv.
  - by eapply silent_inv.
  - by apply serve_returns_inv.
Qed.

Lemma new_transport_inv : transport_inv new_transport.
Proof.
  assert (Hr : forall n, results n new_transport = []) by (intros; unfold results; simpl; by rewrite lookup_empty).
  constructor; simpl.
  - intros x Hx. by apply elem_of_nil in Hx.
  - apply NoDup_nil_2.
  - intros id x Hx. by rewrite lookup_empty in Hx.
  - intros n. rewrite Hr. simpl. lia.
  - intros n r k. rewrite Hr. intros Hx. by apply elem_of_nil in Hx.
  - intros n Hn. by rewrite Hr in Hn.
  - done.
  - split; [done|]. by intros [? ?].
Qed.

(** Every call is answered, queued or waiting for its response. *)
Definition accounted (c : TransportClient) : Prop :=
  forall n, (n < length (tp_made c))%nat -> results n c <> [] \/ n ∈ (xc_id <$> tp_requests c) \/
    exists id x, tp_pending c !! id = Some x /\ xc_id x = n.

Lemma answer_kept n m r c : results n c <> [] \/ n = m -> results n (answer m r c) <> [].
Proof.
  intros H. rewrite results_answer. case_bool_decide as E; [by destruct (results n c)|]. by destruct H.
Qed.

Lemma failed_answered n c :
  results n c <> [] \/ (exists id x, tp_pending c !! id = Some x /\ xc_id x = n) -> results n (failPending c) <> [].
Proof.
  intros H. unfold failPending. rewrite set_pending_fold.
  assert (H' : results n c <> [] \/ n ∈ (xc_id <$> (map_to_list (tp_pending c)).*2)).
  { destruct H as [H|(id & x & Hx & <-)]; [by left|right]. apply list_elem_of_fmap_2.
    apply (list_elem_of_fmap_2' snd _ (id, x)); [by apply elem_of_map_to_list|done]. }
  clear H. revert H'. generalize ((map_to_list (tp_pending c)).*2). intros l.
  induction l as [|x l IH]; [by intros [?|?%elem_of_nil]|]. rewrite fmap_cons, elem_of_cons. intros H.
  rewrite foldr_cons. apply answer_kept. destruct H as [H|[->|H]]; [left; apply IH; by left|by right|left; apply IH; by right].
Qed.

Lemma failed_same c : tp_made (failPending c) = tp_made c /\ tp_requests (failPending c) = tp_requests c.
Proof. unfold failPending. simpl. induction (map_to_list (tp_pending c)) as [|x l IH]; [done|]. by destruct IH. Qed.

Lemma serve_returns_accounted c : accounted c -> accounted (serve_returns c).
Proof.
  intros H n Hn. destruct (failed_same c) as [Em Eq].
  change (n < length (tp_made (failPending c)))%nat in Hn. rewrite Em in Hn.
  destruct (H n Hn) as [Hr|[Hq|Hp]].
  - left. apply (failed_answered n c). by left.
  - right; left. change (n ∈ (xc_id <$> tp_requests (failPending c))). by rewrite Eq.
  - left. apply (failed_answered n c). by right.
Qed.

(** The first request leaves the queue, and its call is answered or waits. *)
Lemma request_accounted expired sent c c' :
  accounted c -> serve_request expired sent c = Some c' -> accounted c'.
Proof.
  intros H. unfold serve_request. destruct (tp_stream c) as [stream|]; [|done].
  destruct (tp_requests c) as [|call rest] eqn:Hq; [done|]. intros [= <-].
  assert (Ha : forall e, accounted (answer (xc_id call) (inr e) (set_requests rest (tp_made c) c))).
  { intros e n Hn. destruct (H n Hn) as [Hr|[Hin|Hp]].
    - left. apply answer_kept. by left.
    - rewrite Hq in Hin. apply elem_of_cons in Hin as [->|Hin]; [|by right; left].
      left. apply answer_kept. by right.
    - by right; right. }
  destruct expired; [apply Ha|]. case_bool_decide as Hp; [apply Ha|].
  destruct sent; [|by apply serve_returns_accounted].
  intros n Hn. simpl. destruct (H n Hn) as [Hr|[Hin|(id & x & Hx & <-)]]; [by left| |].
  - rewrite Hq in Hin. apply elem_of_cons in Hin as [->|Hin]; [|by right; left].
    right; right. exists (pq_request_id (xc_request call)), call. split; [apply lookup_insert_eq|done].
  - right; right. exists id, x. split; [|done]. rewrite lookup_insert_ne; [done|]. intros E. apply Hp. exists x. by rewrite E.
Qed.

Lemma response_accounted incoming c c' :
  accounted c -> serve_response notificationCapacity incoming c = Some c' -> accounted c'.
Proof.
  intros H. unfold serve_response. destruct (tp_stream c) as [stream|]; [|done].
  destruct incoming as [response|]; intros [= <-]; [|by apply serve_returns_accounted].
  destruct (tp_pending c !! _) as [call|] eqn:Hp.
  - intros n Hn. destruct (H n Hn) as [Hr|[Hin|(id & x & Hx & <-)]]; [left; apply answer_kept; by left|by right; left|].
    destruct (decide (id = ps_request_id response)) as [->|Hne].
    + left. apply answer_kept. right. congruence.
    + right; right. exists id, x. split; [|done]. simpl. by rewrite lookup_delete_ne.
  - case_match; [exact H|by apply serve_returns_accounted].
Qed.

Lemma transport_step_accounted c c' : client_step c c' -> transport_inv c -> accounted c -> accounted c'.
Proof.
  intros Hs Hi H.
  destruct Hs as [request c c' E|factory random sent a c E E'|factory random sent a c E E'
                 |expired sent c c' E|incoming c c' E|response c c' E|c|c E E'].
  - unfold submit_call in E. case_match; [done|]. simplify_eq. intros n. simpl.
    rewrite length_app, fmap_app, elem_of_app. simpl. intros Hn.
    destruct (decide (n = length (tp_made c))) as [->|Hne]; [right; left; right; by left|].
    destruct (H n) as [?|[?|?]]; [lia|by left|by right; left; left|by right; right].
  - intros n Hn. destruct (H n Hn) as [?|[?|(id & x & Hx & <-)]]; [by left|by right; left|].
    rewrite (ti_served c Hi E), lookup_empty in Hx. done.
  - exact H.
  - by eapply request_accounted.
  - by eapply response_accounted.
  - unfold take_notification in *. case_match; [done|]. simplify_eq. exact H.
  - exact H.
  - by apply serve_returns_accounted.
Qed.

Lemma transport_reachable c : rtc client_step new_transport c -> transport_inv c /\ accounted c.
Proof.
  intros Hr. enough (forall d, rtc client_step d c -> transport_inv d /\ accounted d -> transport_inv c /\ accounted c) as Hs.
  { apply (Hs new_transport Hr). split; [apply new_transport_inv|]. intros n Hn. simpl in Hn. lia. }
  clear Hr. intros d. induction 1 as [|x y z Hxy Hyz IH]; [done|]. intros [Hi Ha]. apply IH.
  split; [by eapply transport_step_inv|by eapply transport_step_accounted].
Qed.

(** C17: however submissions, requests, responses, stream failures and reconnections
    interleave, no call is lost and none is answered twice: every call of the planner
    client has exactly one result or is still queued or waiting, a response reaches only
    the call whose request carries its identifier and was sent on the stream the response
    came from, without a stream nothing waits, and the client reports itself ready
    exactly while it serves a negotiated stream. *)
Theorem planner_calls_correlated c :
  rtc client_step new_transport c ->
  (forall n request, tp_made c !! n = Some request ->
     (exists r, results n c = [r]) \/
     results n c = [] /\ (MkCall n request ∈ tp_requests c \/
                          tp_pending c !! pq_request_id request = Some (MkCall n request))) /\
  (forall n response k, (inl response, k) ∈ results n c -> exists request,
     tp_made c !! n = Some request /\ ps_request_id response = pq_request_id request /\ tp_sent c !! n = k) /\
  (tp_stream c = None -> tp_pending c = ∅) /\
  (tp_ready c = true <-> is_Some (tp_stream c)).
Proof.
  intros [Hi Ha]%transport_reachable. split; [|split; [apply Hi|split; apply Hi]].
  intros n request Hm. destruct (results n c) as [|r l] eqn:Hr.
  - right. split; [done|]. destruct (Ha n) as [?|[Hin|(id & x & Hx & <-)]].
    + by apply lookup_lt_Some in Hm.
    + done.
    + left. apply list_elem_of_fmap in Hin as (x & -> & Hx). destruct (ti_queued c Hi x Hx) as [Hmx _].
      rewrite Hm in Hmx. injection Hmx as ->. by destruct x.
    + right. destruct (ti_pending c Hi id x Hx) as ([Hmx _] & <- & _). rewrite Hm in Hmx. injection Hmx as ->. by destruct x.
  - left. exists r. pose proof (ti_once c Hi n) as Hl. rewrite Hr in Hl. simpl in Hl. destruct l; [done|simpl in Hl; lia].
Qed.

End Steps.

(** ** Reconnecting *)

Lemma reconnect_ceiling_bound failures :
  0 <= failures -> 100 * Millisecond <= reconnect_ceiling failures <= 10 * Second.
Proof.
  intros Hf. unfold reconnect_ceiling.
  set (shift := if 0 <? failures then failures - 1 else 0).
  set (s := if 7 <? shift then 7 else shift).
  assert (Hs : 0 <= s <= 7) by (unfold s, shift; repeat case_match; lia).
  rewrite Z.shiftl_mul_pow2 by lia.
  assert (1 <= 2 ^ s <= 2 ^ 7) by (split; [change 1 with (2 ^ 0)|]; apply Z.pow_le_mono_r; lia).
  assert (Millisecond = 1000000 /\ Second = 1000000000) as [-> ->] by done.
  case_match; lia.
Qed.

(** Whatever the random source draws, the client waits between nothing and ten
    seconds before it reconnects, and the bound doubles with each failure in a row from
    100 milliseconds up to that limit. *)
Theorem reconnect_delay_bounded (random : Z -> option Z) failures :
  (forall n v, random n = Some v -> 0 <= v < n) -> 0 <= failures < 2 ^ 64 ->
  0 <= reconnectDelay random failures <= reconnect_ceiling failures /\
  reconnect_ceiling failures <= 10 * Second /\
  (1 <= failures <= 7 -> reconnect_ceiling failures = 100 * Millisecond * 2 ^ (failures - 1)).
Proof.
  intros Hr Hf. pose proof (reconnect_ceiling_bound failures ltac:(lia)) as Hc.
  assert (Millisecond = 1000000) as Hms by done. split; [|split; [lia|]].
  - unfold reconnectDelay. case_match eqn:E; [apply Hr in E; lia|]. lia.
  - intros Hk. assert (failures = 1 \/ failures = 2 \/ failures = 3 \/ failures = 4 \/ failures = 5 \/ failures = 6 \/ failures = 7)
      as Hcases by lia. by repeat destruct Hcases as [->|Hcases]; [..|subst].
Qed.

Lemma reconnect_delay_bounded_witness :
  0 <= reconnectDelay (fun n => Some (n / 2)) 3 <= reconnect_ceiling 3 /\ reconnect_ceiling 3 <= 10 * Second /\
  (1 <= 3 <= 7 -> reconnect_ceiling 3 = 100 * Millisecond * 2 ^ (3 - 1)).
Proof.
  apply (reconnect_delay_bounded (fun n => if 0 <? n then Some (n / 2) else None) 3); [|lia].
  intros n v. case_match; [|done]. intros [= <-]. apply Z.ltb_lt in H. split; [apply Z.div_pos; lia|]. apply Z.div_lt; lia.
Defined.
