(* ===== verification/GatewayExamples.v ===== *)
(** * Runs of the hub, the admission, a session and the stream client

    Concrete inputs at which the hypotheses of the theorems on the gateway and on the
    planner stream hold. *)

From S2P Require Import Prelude GoLib GoText HttpText JsonText StrictJson Places Gateway GatewayProps WebSocket WebSocketProps PlannerMessages Transport TransportProps.

(** JSON text with apostrophes for quotes. *)
Definition apostrophes (s : string) : bytes :=
  (fun b => if byte_val b =? 39 then Byte.x22 else b) <$> bytes_of_string s.

Definition ex_t1 : string := "00000000-0000-4000-8000-000000000001".
Definition ex_t2 : string := "00000000-0000-4000-8000-000000000002".
Definition ex_u1 : string := "00000000-0000-4000-8000-0000000000a1".

(** ** Hub *)

Definition ex_hub : SubscriptionHub :=
  (Subscribe ex_t2 8 (Subscribe ex_t1 8 (Subscribe ex_t1 7 (MkHub 2 ∅ ∅)).2).2).2.

Lemma ex_hub_steps : rtc hub_step (MkHub 2 ∅ ∅) ex_hub.
Proof. do 3 (eapply rtc_l; [apply hub_subscribe|]). apply rtc_refl. Qed.

Lemma hub_consistent_witness :
  NewSubscriptionHub 2 = Some (MkHub 2 ∅ ∅) /\ (8%nat ∈ trip_sinks ex_hub ex_t1) /\
  ((forall t s, s ∈ trip_sinks ex_hub t <-> t ∈ sink_trips ex_hub s) /\
   (forall s, Z.of_nat (size (sink_trips ex_hub s)) <= 2) /\
   (forall s, is_Some (hb_bySink ex_hub !! s) <-> exists t, s ∈ trip_sinks ex_hub t) /\
   (forall s t, s ∉ trip_sinks (RemoveSink s ex_hub) t)).
Proof.
  split; [reflexivity|]. split; [apply (bool_decide_eq_true_1 (8%nat ∈ trip_sinks ex_hub ex_t1)); vm_compute; reflexivity|].
  apply (hub_consistent 2 (MkHub 2 ∅ ∅) ex_hub); [reflexivity|apply ex_hub_steps].
Defined.

(** Sink 7 is broken. *)
Lemma publication_drops_broken_witness : exists ok hub',
  PublishTrip (fun s => negb (Nat.eqb s 7)) (fun _ h => h) ex_t1 [Byte.x20] ex_hub = (ok, hub') /\
  (forall s, s ∈ trip_sinks hub' ex_t1 <-> s ∈ trip_sinks ex_hub ex_t1 /\ negb (Nat.eqb s 7) = true).
Proof.
  destruct (PublishTrip (fun s => negb (Nat.eqb s 7)) (fun _ h => h) ex_t1 [Byte.x20] ex_hub) as [ok hub'] eqn:E.
  exists ok, hub'. split; [reflexivity|].
  apply (publication_drops_broken (fun s => negb (Nat.eqb s 7)) ex_t1 [Byte.x20] ex_hub ok hub');
    [vm_compute; reflexivity|discriminate|exact E].
Defined.

(** ** Admission *)

Definition ex_ws_message (trip : string) : AuthenticatedMessage :=
  MkMessage ex_u1 [(bytes_of_string "trip_id", AString (bytes_of_string trip))] [] 1.

Definition ex_admission : TripCommandAdmission := MkAdmission 1 1 ∅ false.
Definition ex_queued : TripCommandAdmission := (submit_queue (ex_ws_message ex_t1) ex_admission).2.
Definition ex_admitted : TripCommandAdmission := (submit_send ex_t1 (ex_ws_message ex_t1) ex_queued).2.
Definition ex_actions : list AdmissionAction :=
  [DoQueue (ex_ws_message ex_t1) (inr ex_t1); DoSend ex_t1 (ex_ws_message ex_t1) AdmissionOk].

Lemma ex_admission_run : admission_run ex_admission ex_actions ex_admitted.
Proof.
  change ex_actions with (([] ++ [DoQueue (ex_ws_message ex_t1) (inr ex_t1)]) ++ [DoSend ex_t1 (ex_ws_message ex_t1) AdmissionOk]).
  eapply admission_snoc; [eapply admission_snoc; [apply admission_nil|]|].
  - apply (adm_queue _ _ _ ex_queued). vm_compute. reflexivity.
  - apply adm_send; [eexists; vm_compute; reflexivity|vm_compute; reflexivity].
Qed.

Lemma admission_fifo_witness :
  NewTripCommandAdmission 1 1 = Some ex_admission /\
  waiting ex_t1 ex_admitted = [ex_ws_message ex_t1] /\
  (forall t, omap (handled_of t) ex_actions ++ waiting t ex_admitted = omap (admitted_of t) ex_actions) /\
  (forall t, zlen (waiting t ex_admitted) <= 1) /\ Z.of_nat (size (ad_queues ex_admitted)) <= 1.
Proof.
  split; [reflexivity|]. split; [vm_compute; reflexivity|].
  apply (admission_fifo 1 1 ex_admission ex_actions ex_admitted); [reflexivity|apply ex_admission_run].
Defined.

Lemma admission_never_recovers_witness :
  (submit_queue (ex_ws_message ex_t2) ex_admitted).1 = inl AdmissionCapacity \/
  (submit_queue (ex_ws_message ex_t2) ex_admitted).1 = inl AdmissionClosed.
Proof.
  apply (admission_never_recovers 1 1 ex_admission ex_actions ex_admitted [] ex_admitted ex_t2 (ex_ws_message ex_t2));
    [reflexivity|apply ex_admission_run|vm_compute; reflexivity|vm_compute; reflexivity|apply admission_nil
    |vm_compute; reflexivity|vm_compute; reflexivity].
Defined.

(** ** A session *)

(** A schema that asks of pings what the session reads of them. *)
Definition ex_client_schema (v : any) : bool :=
  match v with
  | AObject m =>
      if bool_decide (string_member "kind" m = Some "ping") then
        match string_member "message_id" m, member "payload" m with
        | Some _, Some (AObject _) => true
        | _, _ => false
        end
      else true
  | _ => false
  end.
#[local] Instance ex_schemas : EnvelopeSchemas :=
  {| client_schema := ex_client_schema; server_schema v := match v with AObject _ => true | _ => false end |}.
#[local] Instance ex_schemas_laws : EnvelopeSchemasLaws ex_schemas.
Proof.
  constructor. intros m H Hk. simpl in H. rewrite bool_decide_eq_true_2 in H by done.
  destruct (string_member "message_id" m); [|done]. split; [by eexists|].
  destruct (member "payload" m) as [[]|]; try done. by eexists.
Qed.
#[local] Instance ex_json : HttpJson :=
  {| json_marshal _ := Some (bytes_of_string "{}"); canonicalHTTPBody b := Some b |}.

Definition ex_gateway : GatewayConfig :=
  MkGatewayConfig ex_u1 262144 262144 2 2 Second (30 * Second) (5 * Second) true [] 16 true.

Definition ex_authenticate : bytes := apostrophes "{'kind':'authenticate','payload':{'token':'t'}}".
Definition ex_command : bytes := apostrophes "{'kind':'trip_command','trip_id':'00000000-0000-4000-8000-000000000001'}".
Definition ex_auth (token : string) : option string := if bool_decide (token = "t") then Some ex_u1 else None.

Definition ex_ws_login : session :=
  receive ex_gateway ex_auth 1 ex_t1 (ReadFrame true ex_authenticate) (newSession 1 0).
Definition ex_ws_session : session :=
  receive ex_gateway ex_auth 2 ex_t2 (ReadFrame true ex_command) ex_ws_login.

Lemma ex_ws_run : rtc (socket_step ex_gateway) (newSession 1 0) ex_ws_session.
Proof.
  eapply rtc_l; [apply (ses_receive ex_gateway ex_auth 1 ex_t1 (ReadFrame true ex_authenticate)); vm_compute; reflexivity|].
  eapply rtc_l; [apply (ses_receive ex_gateway ex_auth 2 ex_t2 (ReadFrame true ex_command)); vm_compute; reflexivity|].
  apply rtc_refl.
Qed.

Lemma session_handles_its_user_witness :
  length (se_inbound ex_ws_session) = 1%nat /\ se_logins ex_ws_session = [("t", ex_u1)] /\
  ((se_logins ex_ws_session = [] /\ se_handled ex_ws_session = [] /\ se_inbound ex_ws_session = []) \/
   exists token user, se_logins ex_ws_session = [(token, user)] /\ gatewayUUID user = true /\
     Forall (admissible 1 user) (se_handled ex_ws_session ++ se_inbound ex_ws_session)).
Proof.
  split; [vm_compute; reflexivity|]. split; [vm_compute; reflexivity|].
  apply (session_handles_its_user ex_gateway 1 0 ex_ws_session). apply ex_ws_run.
Defined.

Lemma session_stays_sound_witness :
  valid_gateway ex_gateway = true /\ length (se_outbound ex_ws_session) = 1%nat /\
  zlen (se_inbound ex_ws_session) <= 2 /\ zlen (se_outbound ex_ws_session) <= 2 /\
  Forall (fun raw => ValidateServer raw = true) (se_written ex_ws_session ++ se_outbound ex_ws_session) /\
  se_panicked ex_ws_session = false.
Proof.
  split; [vm_compute; reflexivity|]. split; [vm_compute; reflexivity|].
  apply (session_stays_sound ex_gateway 1 0 ex_ws_session); [vm_compute; reflexivity|apply ex_ws_run].
Defined.

(** A second authentication closes the session; a heartbeat after it changes nothing. *)
Definition ex_ended : session :=
  receive ex_gateway ex_auth 3 ex_t2 (ReadFrame true ex_authenticate) ex_ws_login.

Lemma session_closed_for_good_witness :
  let s := heartbeat ex_gateway Second ex_t1 "n" ex_ended in
  se_closed s = Some (StatusProtocolError, "duplicate authentication") /\
  exists sent, se_outbound ex_ended = sent ++ se_outbound s.
Proof.
  apply (session_closed_for_good ex_gateway ex_ended _ (StatusProtocolError, "duplicate authentication"));
    [eapply rtc_l; [apply ses_heartbeat|apply rtc_refl]|vm_compute; reflexivity].
Defined.

(** ** The stream client *)

Definition ex_ask : PlannerStreamRequest :=
  MkPlannerStreamRequest ex_t1 ex_t2 1 0 0 None 1000 None (AskConfirm 0).
Definition ex_reply : PlannerStreamResponse :=
  MkPlannerStreamResponse ex_t1 ex_t2 1 0 0 0 1 (FinalizedPayload (MkFinalizedAck STATUS_CODE_OK false 0)).

Definition ex_random : bytes := repeat Byte.x00 16.
Definition ex_ready : string * option StreamReadyMessage :=
  (newAuthUUID ex_random, Some (MkStreamReady ProtocolVersion RequiredCapabilities STATUS_CODE_OK)).

(** A call is made before the stream opens, sent on it and answered. *)
Definition ex_called : TransportClient := set_requests [MkCall 0 ex_ask] [ex_ask] new_transport.
Definition ex_served : TransportClient := default new_transport (serve_request false true (stream_opened ex_called)).
Definition ex_answered : TransportClient := default new_transport (serve_response 1 (Some ex_reply) ex_served).

Lemma ex_transport_run : rtc (transport_step 1 1) new_transport ex_answered.
Proof.
  eapply rtc_l; [apply (tr_submit _ _ ex_ask _ ex_called); vm_compute; reflexivity|].
  eapply rtc_l; [apply (tr_open _ _ true (Some ex_random) true (Some ex_ready)); vm_compute; reflexivity|].
  eapply rtc_l; [apply (tr_request _ _ false true _ ex_served); vm_compute; reflexivity|].
  eapply rtc_l; [apply (tr_response _ _ (Some ex_reply) _ ex_answered); vm_compute; reflexivity|].
  apply rtc_refl.
Qed.

Lemma planner_calls_correlated_witness :
  results 0 ex_answered = [(inl ex_reply, Some 0%nat)] /\
  ((forall n request, tp_made ex_answered !! n = Some request ->
     (exists r, results n ex_answered = [r]) \/
     results n ex_answered = [] /\ (MkCall n request ∈ tp_requests ex_answered \/
       tp_pending ex_answered !! pq_request_id request = Some (MkCall n request))) /\
   (forall n response k, (inl response, k) ∈ results n ex_answered -> exists request,
     tp_made ex_answered !! n = Some request /\ ps_request_id response = pq_request_id request /\
     tp_sent ex_answered !! n = k) /\
   (tp_stream ex_answered = None -> tp_pending ex_answered = ∅) /\
   (tp_ready ex_answered = true <-> is_Some (tp_stream ex_answered))).
Proof.
  split; [vm_compute; reflexivity|]. apply (planner_calls_correlated 1 1 ex_answered). apply ex_transport_run.
Defined.
