(* ===== verification/ClientCommands.v ===== *)
(** * Commands of clients

    Models the data of the command adapters of [gateway]: the structs their messages are
    read into ([create_trip.go], [replace_current_plan.go], [trip_edited.go],
    [runtime_mutation.go], [proposal_decision.go]), the identity of a message, and what
    the structs are turned into for the stores and for the planner. *)

From S2P Require Import Prelude GoLib Wire Schema Tables Commands CanonicalState Canonical GoText HttpText JsonText PlannerMessages StoredEvent StrictJson Gateway Transport.
From Stdlib Require Import SpecFloat.

(** ** Reading JSON into structs

    What [json.Unmarshal] does with the messages of the gateway, on the value that
    [decodeStrictJSON] reads.  The text was read strictly before, so that no object
    names a member twice, and the client schema closes every object the structs stand
    for ([additionalProperties] is false), so that a field is the member of exactly
    its name. *)

(** ** Numbers *)

(** A decimal [m * 10^e] rounded to the nearest [float64], ties to even. *)
Definition decimal_float (negative : bool) (m e : Z) : spec_float :=
  if m =? 0 then S754_zero negative
  else
    let '(q, e', l) := SFdiv_core_binary 53 1024 (m * 10 ^ Z.max e 0) 0 (10 ^ Z.max (- e) 0) 0 in
    binary_round_aux 53 1024 negative q e' l.

(** The digits at the head of a text: their value, their number and the rest. *)
Fixpoint read_digits (l : bytes) (acc n : Z) : Z * Z * bytes :=
  match l with
  | b :: rest =>
      match digit b with
      | Some d => read_digits rest (10 * acc + d) (n + 1)
      | None => (acc, n, l)
      end
  | [] => (acc, n, [])
  end.

Definition read_exponent (l : bytes) : Z :=
  match l with
  | _ :: b :: rest =>
      if byte_val b =? 45 then - (read_digits rest 0 0).1.1
      else if byte_val b =? 43 then (read_digits rest 0 0).1.1
      else (read_digits (b :: rest) 0 0).1.1
  | _ => 0
  end.

(** [strconv.ParseFloat(s, 64)] of a JSON number; a value out of range is an error. *)
Definition ParseFloat (l : bytes) : option spec_float :=
  let '(negative, l) := match l with b :: rest => if byte_val b =? 45 then (true, rest) else (false, l) | [] => (false, l) end in
  let '(whole, _, l) := read_digits l 0 0 in
  let '(m, places, l) :=
    match l with b :: rest => if byte_val b =? 46 then read_digits rest whole 0 else (whole, 0, l) | [] => (whole, 0, l) end in
  let f := decimal_float negative m (read_exponent l - places) in
  if IsInf f then None else Some f.

(** ** Values *)

Definition json_string (v : any) : option string :=
  match v with AString s => Some (string_of_bytes s) | _ => None end.
Definition json_bool (v : any) : option bool := match v with ABool b => Some b | _ => None end.
Definition json_float (v : any) : option spec_float := match v with ANumber t => ParseFloat t | _ => None end.
Definition json_int (low high : Z) (v : any) : option Z :=
  match v with
  | ANumber t =>
      z ← ParseInt (string_of_bytes t);
      if (low <=? z) && (z <=? high) then Some z else None
  | _ => None
  end.
Definition json_uint (high : Z) (v : any) : option Z :=
  match v with
  | ANumber t => z ← ParseUint (string_of_bytes t); if z <=? high then Some z else None
  | _ => None
  end.

Definition json_int64 : any -> option Z := json_int (- 2 ^ 63) (2 ^ 63 - 1).
Definition json_int32 : any -> option Z := json_int (- 2 ^ 31) (2 ^ 31 - 1).
Definition json_uint32 : any -> option Z := json_uint (2 ^ 32 - 1).
Definition json_uint64 : any -> option Z := json_uint (2 ^ 64 - 1).

(** ** Fields *)

(** The members of the object a struct is read from; [null] leaves it as it is. *)
Definition struct (v : any) : option (list (bytes * any)) :=
  match v with AObject ms => Some ms | ANull => Some [] | _ => None end.

(** A field keeps its zero value if its member is missing or [null]. *)
Definition field {A} (zero : A) (read : any -> option A) (name : string) (ms : list (bytes * any)) : option A :=
  match member name ms with
  | None | Some ANull => Some zero
  | Some v => read v
  end.
(** A field that is a pointer. *)
Definition pointer {A} (read : any -> option A) : string -> list (bytes * any) -> option (option A) :=
  field None (fun v => Some <$> read v).

Fixpoint read_all {A} (read : any -> option A) (l : list any) : option (list A) :=
  match l with
  | [] => Some []
  | v :: l => x ← read v; rest ← read_all read l; Some (x :: rest)
  end.
(** A field that is a slice; an element that is [null] is the zero value. *)
Definition slice {A} (zero : A) (read : any -> option A) : string -> list (bytes * any) -> option (list A) :=
  field [] (fun v => match v with
                     | AArray l => read_all (fun x => match x with ANull => Some zero | _ => read x end) l
                     | _ => None
                     end).

(** [json.Unmarshal(raw, &value)], the scanner's test first. *)
Definition Unmarshal {A} (read : any -> option A) (raw : bytes) : option A :=
  if negb (json_Valid raw) then None
  else match decodeStrictJSON raw with inl _ => None | inr v => read v end.

(** [json.Unmarshal] of a [json.RawMessage] field; a missing one is empty text. *)
Definition UnmarshalRaw {A} (read : any -> option A) (raw : option any) : option A := raw ≫= read.

(** ** [create_trip.go] *)

Record createWindow := MkCreateWindow { kw_OpensAt : Z; kw_ClosesAt : Z }.

Record createActivityTiming := MkCreateTiming {
  kt_OpenWindows : list createWindow;
  kt_ReservationStart : option Z;
  kt_ReservationGraceSeconds : Z;
  kt_MinDurationSeconds : Z;
  kt_PreferredDurationSeconds : Z;
  kt_MaxDurationSeconds : Z;
  kt_Mandatory : bool;
  kt_CanShorten : bool;
  kt_CanMove : bool;
  kt_CanSkip : bool;
  kt_MandatoryDeadline : option Z
}.

Record createLocation := MkCreateLocation { kl_Latitude : spec_float; kl_Longitude : spec_float }.

Record createActivity := MkCreateActivity {
  ka_ActivityID : string;
  ka_PlaceID : string;
  ka_DisplayName : string;
  ka_Location : createLocation;
  ka_TimeZoneName : string;
  ka_InboundTravelMode : string;
  ka_ActivityClass : string;
  ka_ActivityState : string;
  ka_PriorityRank : Z;
  ka_UtilityScore : Z;
  ka_Timing : createActivityTiming;
  ka_ActivityDelay : Z;
  ka_FoundClosedAt : option Z
}.

Record createSegment := MkCreateSegment {
  ks_ActivityID : string; ks_State : string; ks_Start : option Z; ks_End : option Z
}.
Record createUserPlan := MkCreateUserPlan { kp_PlanID : string; kp_Segments : list createSegment }.

Record createTripPayload := MkCreateTripPayload {
  kx_DefaultTimeZoneName : string;
  kx_Activities : list createActivity;
  kx_CurrentPlan : createUserPlan
}.

(** The envelope of every command, with its payload. *)
Record commandEnvelope (P : Type) := MkCommandEnvelope {
  ke_ProtocolVersion : string;
  ke_MessageID : string;
  ke_Kind : string;
  ke_TripID : string;
  ke_Payload : P
}.
Arguments MkCommandEnvelope {P}.
Arguments ke_ProtocolVersion {P}. Arguments ke_MessageID {P}. Arguments ke_Kind {P}.
Arguments ke_TripID {P}. Arguments ke_Payload {P}.

Definition zero_location : createLocation := MkCreateLocation (S754_zero false) (S754_zero false).
Definition zero_timing : createActivityTiming := MkCreateTiming [] None 0 0 0 0 false false false false None.
Definition zero_activity : createActivity :=
  MkCreateActivity "" "" "" zero_location "" "" "" "" 0 0 zero_timing 0 None.
Definition zero_plan : createUserPlan := MkCreateUserPlan "" [].

Definition read_window (v : any) : option createWindow :=
  ms ← struct v;
  opens ← field 0 json_int64 "opens_at_unix_ms" ms;
  closes ← field 0 json_int64 "closes_at_unix_ms" ms;
  Some (MkCreateWindow opens closes).

Definition read_timing (v : any) : option createActivityTiming :=
  ms ← struct v;
  windows ← slice (MkCreateWindow 0 0) read_window "open_windows" ms;
  start ← pointer json_int64 "reservation_start_unix_ms" ms;
  grace ← field 0 json_uint32 "reservation_grace_seconds" ms;
  minimum ← field 0 json_uint32 "min_duration_seconds" ms;
  preferred ← field 0 json_uint32 "preferred_duration_seconds" ms;
  maximum ← field 0 json_uint32 "max_duration_seconds" ms;
  mandatory ← field false json_bool "mandatory" ms;
  shorten ← field false json_bool "can_shorten" ms;
  move ← field false json_bool "can_move" ms;
  skip ← field false json_bool "can_skip" ms;
  deadline ← pointer json_int64 "mandatory_deadline_unix_ms" ms;
  Some (MkCreateTiming windows start grace minimum preferred maximum mandatory shorten move skip deadline).

Definition read_location (v : any) : option createLocation :=
  ms ← struct v;
  latitude ← field (S754_zero false) json_float "latitude" ms;
  longitude ← field (S754_zero false) json_float "longitude" ms;
  Some (MkCreateLocation latitude longitude).

Definition read_activity (v : any) : option createActivity :=
  ms ← struct v;
  id ← field "" json_string "activity_id" ms;
  place ← field "" json_string "place_id" ms;
  name ← field "" json_string "display_name" ms;
  location ← field zero_location read_location "location" ms;
  zone ← field "" json_string "time_zone_name" ms;
  mode ← field "" json_string "inbound_travel_mode" ms;
  class ← field "" json_string "activity_class" ms;
  state ← field "" json_string "activity_state" ms;
  rank ← field 0 json_int32 "priority_rank" ms;
  utility ← field 0 json_int32 "utility_score" ms;
  timing ← field zero_timing read_timing "timing" ms;
  delay ← field 0 json_uint32 "activity_delay_seconds" ms;
  closed ← pointer json_int64 "found_closed_at_unix_ms" ms;
  Some (MkCreateActivity id place name location zone mode class state rank utility timing delay closed).

Definition read_segment (v : any) : option createSegment :=
  ms ← struct v;
  id ← field "" json_string "activity_id" ms;
  state ← field "" json_string "state" ms;
  start ← pointer json_int64 "scheduled_start_unix_ms" ms;
  finish ← pointer json_int64 "scheduled_end_unix_ms" ms;
  Some (MkCreateSegment id state start finish).

Definition read_plan (v : any) : option createUserPlan :=
  ms ← struct v;
  id ← field "" json_string "plan_id" ms;
  segments ← slice (MkCreateSegment "" "" None None) read_segment "segments" ms;
  Some (MkCreateUserPlan id segments).

Definition read_create (v : any) : option createTripPayload :=
  ms ← struct v;
  zone ← field "" json_string "default_time_zone_name" ms;
  activities ← slice zero_activity read_activity "activities" ms;
  plan ← field zero_plan read_plan "current_plan" ms;
  Some (MkCreateTripPayload zone activities plan).

Definition read_envelope {P} (zero : P) (read : any -> option P) (v : any) : option (commandEnvelope P) :=
  ms ← struct v;
  version ← field "" json_string "protocol_version" ms;
  id ← field "" json_string "message_id" ms;
  kind ← field "" json_string "kind" ms;
  trip ← field "" json_string "trip_id" ms;
  payload ← field zero read "payload" ms;
  Some (MkCommandEnvelope version id kind trip payload).

(** ** [replace_current_plan.go] *)

Record planPayload := MkPlanPayload {
  kr_CommandKind : string;
  kr_ExpectedTripRevision : string;
  kr_CurrentPlan : createUserPlan;
  kr_CommandExpiresAt : option Z
}.

Definition read_plan_payload (v : any) : option planPayload :=
  ms ← struct v;
  kind ← field "" json_string "command_kind" ms;
  command ← field ("", zero_plan) (fun v =>
    ms ← struct v;
    revision ← field "" json_string "expected_trip_revision" ms;
    plan ← field zero_plan read_plan "current_plan" ms;
    Some (revision, plan)) "command" ms;
  expires ← pointer json_int64 "command_expires_at_unix_ms" ms;
  Some (MkPlanPayload kind command.1 command.2 expires).

(** ** [trip_edited.go] *)

(** The pointers of [tripEditOperation]. *)
Record tripEditOperation := MkTripEditOperation {
  ko_Add : option (createActivity * Z);
  ko_Replace : option createActivity;
  ko_Remove : option string;
  ko_Reorder : option (list string)
}.
Record editPayload := MkEditPayload {
  kq_CommandKind : string;
  kq_ExpectedTripRevision : string;
  kq_Operation : tripEditOperation;
  kq_CurrentPlan : createUserPlan;
  kq_CommandExpiresAt : option Z
}.

Definition zero_operation : tripEditOperation := MkTripEditOperation None None None None.

Definition read_add (v : any) : option (createActivity * Z) :=
  ms ← struct v;
  activity ← field zero_activity read_activity "activity" ms;
  ordinal ← field 0 json_uint32 "ordinal" ms;
  Some (activity, ordinal).

Definition read_operation (v : any) : option tripEditOperation :=
  ms ← struct v;
  add ← pointer read_add "add" ms;
  replace ← pointer read_activity "replace" ms;
  remove ← pointer (fun v => ms ← struct v; field "" json_string "activity_id" ms) "remove" ms;
  reorder ← pointer (fun v => ms ← struct v; slice "" json_string "activity_ids" ms) "reorder" ms;
  Some (MkTripEditOperation add replace remove reorder).

Definition read_edit_payload (v : any) : option editPayload :=
  ms ← struct v;
  kind ← field "" json_string "command_kind" ms;
  command ← field ("", zero_operation, zero_plan) (fun v =>
    ms ← struct v;
    revision ← field "" json_string "expected_trip_revision" ms;
    operation ← field zero_operation read_operation "operation" ms;
    plan ← field zero_plan read_plan "current_plan" ms;
    Some (revision, operation, plan)) "command" ms;
  expires ← pointer json_int64 "command_expires_at_unix_ms" ms;
  Some (MkEditPayload kind command.1.1 command.1.2 command.2 expires).

(** ** [runtime_mutation.go], [proposal_decision.go] *)

(** [ky_Command] is a [json.RawMessage]. *)
Record runtimeMutationPayload := MkRuntimePayload {
  ky_CommandKind : string;
  ky_Command : option any;
  ky_CommandExpiresAt : option Z
}.

Definition read_runtime_payload (v : any) : option runtimeMutationPayload :=
  ms ← struct v;
  kind ← field "" json_string "command_kind" ms;
  expires ← pointer json_int64 "command_expires_at_unix_ms" ms;
  Some (MkRuntimePayload kind (member "command" ms) expires).

(** The command of each kind, as the event it becomes. *)
Definition activityStateProto (state : string) : Z :=
  if bool_decide (state = "planned") then ACTIVITY_STATE_PLANNED
  else if bool_decide (state = "started") then ACTIVITY_STATE_STARTED
  else if bool_decide (state = "completed") then ACTIVITY_STATE_COMPLETED
  else if bool_decide (state = "skipped") then ACTIVITY_STATE_SKIPPED
  else ACTIVITY_STATE_UNSPECIFIED.

Definition window_proto (w : createWindow) : PbTimeWindow := MkPbTimeWindow (kw_OpensAt w) (kw_ClosesAt w).

Definition read_status (v : any) : option TripEvent :=
  ms ← struct v;
  _ ← field "" json_string "expected_trip_revision" ms;
  id ← field "" json_string "activity_id" ms;
  state ← field "" json_string "state" ms;
  Some (ActivityStatusChanged id (activityStateProto state)).
Definition read_delayed (v : any) : option TripEvent :=
  ms ← struct v;
  _ ← field "" json_string "expected_trip_revision" ms;
  id ← field "" json_string "activity_id" ms;
  delay ← field 0 json_uint32 "delay_seconds" ms;
  Some (ActivityDelayed id delay).
Definition read_reservation (v : any) : option TripEvent :=
  ms ← struct v;
  _ ← field "" json_string "expected_trip_revision" ms;
  id ← field "" json_string "activity_id" ms;
  start ← pointer json_int64 "reservation_start_unix_ms" ms;
  grace ← field 0 json_uint32 "reservation_grace_seconds" ms;
  Some (ReservationChanged id start grace).
Definition read_deadline (v : any) : option TripEvent :=
  ms ← struct v;
  _ ← field "" json_string "expected_trip_revision" ms;
  id ← field "" json_string "activity_id" ms;
  finish ← field 0 json_int64 "latest_finish_unix_ms" ms;
  Some (MandatoryDeadlineChanged id finish).
Definition read_hours (v : any) : option TripEvent :=
  ms ← struct v;
  _ ← field "" json_string "expected_trip_revision" ms;
  id ← field "" json_string "activity_id" ms;
  windows ← slice (MkCreateWindow 0 0) read_window "open_windows" ms;
  Some (OperatingHoursChanged id (window_proto <$> windows)).
Definition read_closed (v : any) : option TripEvent :=
  ms ← struct v;
  _ ← field "" json_string "expected_trip_revision" ms;
  id ← field "" json_string "activity_id" ms;
  observed ← field 0 json_int64 "observed_at_unix_ms" ms;
  Some (PlaceFoundClosed id observed).
Definition read_travel (v : any) : option TripEvent :=
  ms ← struct v;
  _ ← field "" json_string "expected_trip_revision" ms;
  from ← field "" json_string "from_activity_id" ms;
  to ← field "" json_string "to_activity_id" ms;
  seconds ← field 0 json_uint32 "additional_seconds" ms;
  Some (TravelDelay from to seconds).

Record proposalDecisionCommand := MkDecisionCommand {
  kd_ProposalID : string;
  kd_SourceRuntimeEpoch : string;
  kd_SourcePlannerStateVersion : string;
  kd_BaseCurrentPlanID : string
}.
Definition read_decision (v : any) : option proposalDecisionCommand :=
  ms ← struct v;
  id ← field "" json_string "proposal_id" ms;
  epoch ← field "" json_string "source_runtime_epoch" ms;
  version ← field "" json_string "source_planner_state_version" ms;
  base ← field "" json_string "base_current_plan_id" ms;
  Some (MkDecisionCommand id epoch version base).

(** [persistence.CommandKind(kind)]. *)
Definition command_kind (kind : string) : CommandKind :=
  if bool_decide (kind = "create_trip") then CommandCreateTrip
  else if bool_decide (kind = "activity_status_changed") then CommandActivityStatusChanged
  else if bool_decide (kind = "activity_delayed") then CommandActivityDelayed
  else if bool_decide (kind = "replace_current_plan") then CommandReplaceCurrentPlan
  else if bool_decide (kind = "trip_edited") then CommandTripEdited
  else if bool_decide (kind = "reservation_changed") then CommandReservationChanged
  else if bool_decide (kind = "mandatory_deadline_changed") then CommandMandatoryDeadlineChanged
  else if bool_decide (kind = "operating_hours_changed") then CommandOperatingHoursChanged
  else if bool_decide (kind = "place_found_closed") then CommandPlaceFoundClosed
  else if bool_decide (kind = "travel_delay") then CommandTravelDelay
  else if bool_decide (kind = "accept_proposal") then CommandAcceptProposal
  else if bool_decide (kind = "reject_proposal") then CommandRejectProposal
  else CommandOther kind.

Definition isOrdinaryRuntimeMutation (kind : CommandKind) : bool :=
  match kind with
  | CommandActivityStatusChanged | CommandActivityDelayed | CommandReservationChanged
  | CommandMandatoryDeadlineChanged | CommandOperatingHoursChanged | CommandPlaceFoundClosed
  | CommandTravelDelay => true
  | _ => false
  end.

Definition runtimeExpectedRevision (command : option any) : option Z :=
  revision ← UnmarshalRaw (fun v => ms ← struct v; field "" json_string "expected_trip_revision" ms) command;
  ParseUint revision.

(** The event of [runtimeMutationEvent]. *)
Definition mutation_event (kind : CommandKind) (command : option any) : option TripEvent :=
  match kind with
  | CommandActivityStatusChanged => UnmarshalRaw read_status command
  | CommandActivityDelayed => UnmarshalRaw read_delayed command
  | CommandReservationChanged => UnmarshalRaw read_reservation command
  | CommandMandatoryDeadlineChanged => UnmarshalRaw read_deadline command
  | CommandOperatingHoursChanged => UnmarshalRaw read_hours command
  | CommandPlaceFoundClosed => UnmarshalRaw read_closed command
  | CommandTravelDelay => UnmarshalRaw read_travel command
  | _ => None
  end.
Definition runtimeMutationEvent (kind : CommandKind) (e : commandEnvelope runtimeMutationPayload) (now : Z)
  : option ApplyTripEvent :=
  event ← mutation_event kind (ky_Command (ke_Payload e));
  Some (MkApplyTripEvent (ke_MessageID e) (UnixMilli now) None (Some event)).

(** ** Identity of a message *)

(** [canonicalizeClientMessage]: the message without its identifier, rendered by the
    RFC 8785 library, which orders the members. *)
Definition canonicalizeClientMessage (rfc8785 : any -> option bytes) (raw : bytes) : option bytes :=
  _ ← canonicalMarshal rfc8785 raw;
  v ← Unmarshal (fun v => match v with AObject _ | ANull => Some v | _ => None end) raw;
  rfc8785 (match v with
           | AObject ms => AObject (List.filter (fun m => negb (bool_decide (m.1 = bytes_of_string "message_id"))) ms)
           | v => v
           end).

(** ** For the stores *)

(** [time.UnixMilli(ms).UTC()], in nanoseconds. *)
Definition time_UnixMilli (ms : Z) : Z := ms * Millisecond.
Definition millisTime (value : option Z) : option Z := time_UnixMilli <$> value.

Definition toCanonicalWindows (windows : list createWindow) : list CanonicalOpenWindow :=
  (fun w => MkOpenWindow (time_UnixMilli (kw_OpensAt w)) (time_UnixMilli (kw_ClosesAt w))) <$> windows.

Definition toCanonicalActivity (a : createActivity) (ordinal : Z) : CanonicalActivity :=
  let t := ka_Timing a in
  MkActivity (ka_ActivityID a) ordinal (ka_PlaceID a) (ka_DisplayName a) (kl_Latitude (ka_Location a))
    (kl_Longitude (ka_Location a)) (ka_TimeZoneName a) (ka_InboundTravelMode a) (ka_ActivityClass a)
    (ka_ActivityState a) (ka_ActivityDelay a) (millisTime (ka_FoundClosedAt a)) (ka_PriorityRank a)
    (ka_UtilityScore a) (millisTime (kt_ReservationStart t)) (kt_ReservationGraceSeconds t)
    (millisTime (kt_MandatoryDeadline t)) (kt_MinDurationSeconds t) (kt_PreferredDurationSeconds t)
    (kt_MaxDurationSeconds t) (kt_Mandatory t) (kt_CanShorten t) (kt_CanMove t) (kt_CanSkip t)
    (toCanonicalWindows (kt_OpenWindows t)).

(** The drafts of the segments; only the edits refuse a scheduled one without times. *)
Definition segment_draft (s : createSegment) : CanonicalPlanSegmentDraft :=
  if bool_decide (ks_State s = "scheduled") then Draft (ks_ActivityID s) true (ks_Start s) (ks_End s)
  else Draft (ks_ActivityID s) false None None.
Definition segment_complete (s : createSegment) : bool :=
  negb (bool_decide (ks_State s = "scheduled")) || negb (is_null (ks_Start s) || is_null (ks_End s)).
Definition planSegments (plan : createUserPlan) : option (list CanonicalPlanSegmentDraft) :=
  if forallb segment_complete (kp_Segments plan) then Some (segment_draft <$> kp_Segments plan) else None.

(** ** For the planner *)

Definition travelModeProto (mode : string) : Z :=
  if bool_decide (mode = "driving") then TRAVEL_MODE_DRIVING else TRAVEL_MODE_WALKING.
Definition activityClassProto (class : string) : Z :=
  if bool_decide (class = "fixed") then ACTIVITY_CLASS_FIXED else ACTIVITY_CLASS_FLEXIBLE.

Definition activityProto (a : createActivity) : PbActivity :=
  let t := ka_Timing a in
  MkPbActivity (ka_ActivityID a) (ka_PlaceID a) (ka_DisplayName a)
    (Some (MkPbLocation (kl_Latitude (ka_Location a)) (kl_Longitude (ka_Location a)))) (ka_TimeZoneName a)
    (travelModeProto (ka_InboundTravelMode a)) (activityClassProto (ka_ActivityClass a))
    (activityStateProto (ka_ActivityState a)) (ka_PriorityRank a) (ka_UtilityScore a)
    (Some (MkActivityTiming (window_proto <$> kt_OpenWindows t) (kt_ReservationStart t)
       (kt_ReservationGraceSeconds t) (kt_MinDurationSeconds t) (kt_PreferredDurationSeconds t)
       (kt_MaxDurationSeconds t) (kt_Mandatory t) (kt_CanShorten t) (kt_CanMove t) (kt_CanSkip t)
       (kt_MandatoryDeadline t)))
    (ka_ActivityDelay a) (ka_FoundClosedAt a).

Definition PLAN_ENTRY_STATE_SCHEDULED : Z := 1.
Definition PLAN_ENTRY_STATE_OMITTED : Z := 2.
Definition PLAN_ORIGIN_USER_AUTHORED : Z := 1.
Definition PLAN_ORIGIN_ACCEPTED_ENGINE_PROPOSAL : Z := 2.

Definition segment_proto (s : createSegment) : PbPlanSegment :=
  if bool_decide (ks_State s = "scheduled")
  then MkPbPlanSegment (ks_ActivityID s) PLAN_ENTRY_STATE_SCHEDULED (ks_Start s) (ks_End s)
  else MkPbPlanSegment (ks_ActivityID s) PLAN_ENTRY_STATE_OMITTED None None.
Definition currentPlanProto (metadata : CanonicalPlanMetadata) (draft : createUserPlan) : PbCurrentPlan :=
  MkPbCurrentPlan (cm_ID metadata) (cm_Revision metadata) PLAN_ORIGIN_USER_AUTHORED
    (segment_proto <$> kp_Segments draft) (UnixMilli (cm_CreatedAt metadata)) None.

Definition edit_operation (o : tripEditOperation) : option TripEditOperation :=
  match ko_Add o, ko_Replace o, ko_Remove o, ko_Reorder o with
  | Some (a, ordinal), _, _, _ => Some (OperationAdd (Some (activityProto a)) ordinal)
  | None, Some a, _, _ => Some (OperationReplace (Some (activityProto a)))
  | None, None, Some id, _ => Some (OperationRemove id)
  | None, None, None, Some ids => Some (OperationReorder ids)
  | None, None, None, None => None
  end.

(** Protobuf messages the adapter of proposal decisions reads and writes. *)
Class ProposalProto := {
  UnmarshalProposal : bytes -> option StoredPlanProposal;
  MarshalPlan : PbCurrentPlan -> option bytes
}.

Definition decided_segment (s : ProposalSegment) : option PbPlanSegment :=
  if sg_disposition s =? SEGMENT_DISPOSITION_SKIPPED
  then Some (MkPbPlanSegment (sg_activity_id s) PLAN_ENTRY_STATE_OMITTED None None)
  else if is_null (sg_scheduled_start_unix_ms s) || is_null (sg_scheduled_end_unix_ms s) then None
  else Some (MkPbPlanSegment (sg_activity_id s) PLAN_ENTRY_STATE_SCHEDULED
               (sg_scheduled_start_unix_ms s) (sg_scheduled_end_unix_ms s)).
