(* ===== verification/Adapters.v ===== *)
(** * Command adapters

    Models the handlers of [gateway/create_trip.go], [replace_current_plan.go],
    [trip_edited.go], [runtime_mutation.go], [proposal_decision.go] and their selection
    in [command_dispatcher.go]: a client's message becomes a request to a store and the
    stored result an acknowledgement. *)

From S2P Require Import Prelude GoLib GoText Wire Schema Tables Leases Commands Proposals CanonicalState Canonical HttpText JsonText PlannerMessages StoredEvent Places StrictJson Gateway ClientCommands Transport.

(** ** Calls of the stores *)

Inductive AdapterError :=
| StoreError (e : err) | CommandExpired | CommandKindUnsupported | MessageUnsupported | CommandInvalid (what : string).

(** How a call of a store ends. *)
Inductive call_fault := CallWorks | CallUnreached | CallAnswerLost.

Section AdapterMonad.
Context {PG : Postgres}.

(** Everything a handler does not decide: what others commit before each call of a store
    and which calls fail, with their transaction committed or not, the clocks, and the
    random source. *)
Record AdapterEnv := MkAdapterEnv {
  ax_others : nat -> db -> db;
  ax_fault : nat -> call_fault;
  ax_clk : nat -> nat -> Z;
  ax_now : Z;
  ax_random : nat -> bytes
}.

Definition gw (A : Type) : Type := db -> (AdapterError + A) * db.
#[global] Instance gw_ret : MRet gw := fun _ a d => (inr a, d).
#[global] Instance gw_bind : MBind gw := fun _ _ f m d =>
  match m d with (inl e, d) => (inl e, d) | (inr a, d) => f a d end.
Definition refuse {A} (e : AdapterError) : gw A := fun d => (inl e, d).
Definition need {A} (o : option A) (what : string) : gw A :=
  match o with Some a => mret a | None => refuse (CommandInvalid what) end.
Definition check (b : bool) (what : string) : gw unit :=
  if b then mret tt else refuse (CommandInvalid what).

End AdapterMonad.

Section Adapters.
Context {PG : Postgres} {PP : PlannerProto} {QP : ProposalProto} {HJ : HttpJson}.
Context (env : AdapterEnv) (rfc8785 : any -> option bytes) (maxPendingCanonicalMirror : Z).

(** The [n]th call of a store. *)
Definition call_store {A} (n : nat) (m : (nat -> Z) -> tx A) : gw A := fun d =>
  let d := ax_others env n d in
  match ax_fault env n with
  | CallUnreached => (inl (StoreError (ErrDatabase "unreachable")), d)
  | CallAnswerLost => (inl (StoreError (ErrDatabase "connection lost")), (run_tx (m (ax_clk env n)) d).2)
  | CallWorks =>
      match run_tx (m (ax_clk env n)) d with
      | (Ok a, d) => (inr a, d)
      | (Err e, d) => (inl (StoreError e), d)
      end
  end.

Definition newUUID (n : nat) : string := newAuthUUID (ax_random env n).

(** ** Acknowledgements *)

Definition command_acknowledgement (tripID messageID : string) (revision sequence : Z) (payload : list (string * json)) : json :=
  JObject [("accepted_mutation_sequence", JText (FormatInt sequence)); ("accepted_observation_sequence", JText "0");
           ("in_reply_to_message_id", JText messageID); ("kind", JText "command_acknowledgement");
           ("payload", JObject payload); ("planner_state_version", JText "0");
           ("protocol_version", JText ProtocolVersion); ("retryable", JBool false); ("runtime_epoch", JText "0");
           ("server_message_id", JText (newUUID 9)); ("status", JText "OK"); ("trip_id", JText tripID);
           ("trip_revision", JText (FormatInt revision))].

Definition canonicalCommittedAcknowledgement (tripID messageID : string) (r : RecordedCommand) (outcome : json)
  : gw bytes :=
  need (json_marshal (command_acknowledgement tripID messageID (default 0 (rc_ResultingTripRevision r)) (rc_MutationSequence r)
          [("message_id", JText messageID); ("mutation_sequence", JText (FormatInt (rc_MutationSequence r)));
           ("outcome", outcome); ("phase", JText "canonical_committed"); ("recovery_state", JText "not_advancing")]))
    "encode acknowledgement".

Definition runtimeDurableAcknowledgement (tripID messageID : string) (r : RecordedCommand) : gw bytes :=
  need (json_marshal (command_acknowledgement tripID messageID (rc_ExpectedTripRevision r) (rc_MutationSequence r)
          [("message_id", JText messageID); ("mutation_sequence", JText (FormatInt (rc_MutationSequence r)));
           ("phase", JText "durable_recorded"); ("recovery_state", JText "not_advancing")]))
    "encode acknowledgement".

(** ** What the handlers share *)

Definition canonicalize (m : AuthenticatedMessage) : gw bytes :=
  need (canonicalizeClientMessage rfc8785 (am_Raw m)) "canonicalize command".

Definition identity_valid {P} (kind : string) (e : commandEnvelope P) (m : AuthenticatedMessage) : bool :=
  bool_decide (ke_ProtocolVersion e = ProtocolVersion) && bool_decide (ke_Kind e = kind) &&
  negb (bool_decide (ke_MessageID e = "")) && negb (bool_decide (ke_TripID e = "")) &&
  negb (bool_decide (am_UserID m = "")).

Definition canonicalCommandExpiry (value : option Z) : gw (option Z) :=
  match value with
  | None => mret None
  | Some ms => if time_UnixMilli ms <=? ax_now env then refuse CommandExpired else mret (Some (time_UnixMilli ms))
  end.
Definition runtimeCommandExpiry (value : option Z) : option Z := time_UnixMilli <$> value.

(** ** [CreateTripAdapter] *)

Definition create_request (m : AuthenticatedMessage) (e : commandEnvelope createTripPayload) (canonical outcome : bytes)
  : CreateTripRequest :=
  let p := ke_Payload e in
  MkCreateTrip (ke_TripID e) (am_UserID m) (kx_DefaultTimeZoneName p) (newUUID 0) (ke_MessageID e) (ke_MessageID e)
    (kp_PlanID (kx_CurrentPlan p))
    (imap (fun index a => toCanonicalActivity a (uint32 (Z.of_nat index))) (kx_Activities p)) []
    (segment_draft <$> kp_Segments (kx_CurrentPlan p)) canonical (sha256 canonical) outcome.

Definition create_outcome (planID : string) : json :=
  JObject [("current_plan_id", JText planID); ("trip_revision", JText "1")].

Definition HandleCreate (m : AuthenticatedMessage) : gw bytes :=
  canonical ← canonicalize m;
  e ← need (Unmarshal (read_envelope (MkCreateTripPayload "" [] zero_plan) read_create) (am_Raw m))
        "decode create-trip command";
  _ ← check (identity_valid "create_trip" e m) "create-trip envelope identity is invalid";
  let outcome := create_outcome (kp_PlanID (kx_CurrentPlan (ke_Payload e))) in
  payload ← need (json_marshal outcome) "encode create-trip outcome";
  result ← call_store 0 (fun clk => CreateTrip clk (create_request m e canonical payload));
  canonicalCommittedAcknowledgement (ke_TripID e) (ke_MessageID e) result outcome.

(** ** [ReplaceCurrentPlanAdapter] *)

Definition edit_request_of {P} (m : AuthenticatedMessage) (e : commandEnvelope P) (planID : string) (revision : Z)
    (expires : option Z) (segments : list CanonicalPlanSegmentDraft) (canonical outcome : bytes)
    (event : CanonicalPlanMetadata -> TripEvent) : ReplaceCurrentPlanRequest :=
  MkEdit (ke_TripID e) (am_UserID m) (newUUID 0) (newUUID 1) (ke_MessageID e) (ke_MessageID e) planID revision expires
    maxPendingCanonicalMirror segments canonical []
    (Some (fun metadata =>
       match EncodeStoredEvent (MkApplyTripEvent (ke_MessageID e) (UnixMilli (cm_CreatedAt metadata)) None
                                  (Some (event metadata))) with
       | Ok payload => Some payload
       | Err _ => None
       end))
    (sha256 canonical) outcome.

Definition replace_outcome (revision : Z) (planID : string) : json :=
  JObject [("current_plan_id", JText planID); ("trip_revision", JText (FormatInt (uint64 (revision + 1))))].

Definition HandleReplace (m : AuthenticatedMessage) : gw bytes :=
  canonical ← canonicalize m;
  e ← need (Unmarshal (read_envelope (MkPlanPayload "" "" zero_plan None) read_plan_payload) (am_Raw m))
        "decode replace-current-plan command";
  let p := ke_Payload e in
  _ ← check (identity_valid "trip_command" e m &&
             bool_decide (command_kind (kr_CommandKind p) = CommandReplaceCurrentPlan))
        "replace-current-plan envelope identity is invalid";
  revision ← need (ParseUint (kr_ExpectedTripRevision p)) "replace-current-plan revision is invalid";
  expires ← canonicalCommandExpiry (kr_CommandExpiresAt p);
  segments ← need (planSegments (kr_CurrentPlan p)) "scheduled plan segment is incomplete";
  let outcome := replace_outcome revision (kp_PlanID (kr_CurrentPlan p)) in
  payload ← need (json_marshal outcome) "encode replace-current-plan outcome";
  result ← call_store 0 (fun clk => ReplaceCurrentPlan clk
    (edit_request_of m e (kp_PlanID (kr_CurrentPlan p)) revision expires segments canonical payload
       (fun metadata => CurrentPlanReplaced (Some (currentPlanProto metadata (kr_CurrentPlan p))))));
  canonicalCommittedAcknowledgement (ke_TripID e) (ke_MessageID e) result outcome.

(** ** [TripEditedAdapter] *)

(** The callback of [tripEditedEvent]; the operation is one of the four when it runs. *)
Definition edited_event (p : editPayload) (metadata : CanonicalPlanMetadata) : TripEvent :=
  TripEdited (edit_operation (kq_Operation p)) (Some (currentPlanProto metadata (kq_CurrentPlan p))).

(** [apply]. *)
Definition apply_edit (o : tripEditOperation) (r : ReplaceCurrentPlanRequest) : gw RecordedCommand :=
  match ko_Add o, ko_Replace o, ko_Remove o, ko_Reorder o with
  | Some (a, ordinal), _, _, _ =>
      call_store 0 (fun clk => AddActivity clk (MkAdd r ordinal (toCanonicalActivity a ordinal)))
  | None, Some a, _, _ => call_store 0 (fun clk => ReplaceActivity clk (MkReplaceActivity r (toCanonicalActivity a 0)))
  | None, None, Some id, _ => call_store 0 (fun clk => RemoveActivity clk (MkRemove r id))
  | None, None, None, Some ids => call_store 0 (fun clk => ReorderActivities clk (MkReorder r ids))
  | None, None, None, None => refuse (CommandInvalid "trip-edited operation is missing")
  end.

Definition edited_outcome (planID : string) : json := JObject [("current_plan_id", JText planID)].

Definition HandleEdited (m : AuthenticatedMessage) : gw bytes :=
  canonical ← canonicalize m;
  e ← need (Unmarshal (read_envelope (MkEditPayload "" "" zero_operation zero_plan None) read_edit_payload) (am_Raw m))
        "decode trip-edited command";
  let p := ke_Payload e in
  _ ← check (identity_valid "trip_command" e m && bool_decide (command_kind (kq_CommandKind p) = CommandTripEdited))
        "trip-edited envelope identity is invalid";
  revision ← need (ParseUint (kq_ExpectedTripRevision p)) "trip-edited revision is invalid";
  expires ← canonicalCommandExpiry (kq_CommandExpiresAt p);
  segments ← need (planSegments (kq_CurrentPlan p)) "scheduled plan segment is incomplete";
  let outcome := edited_outcome (kp_PlanID (kq_CurrentPlan p)) in
  payload ← need (json_marshal outcome) "encode trip-edited outcome";
  result ← apply_edit (kq_Operation p)
    (edit_request_of m e (kp_PlanID (kq_CurrentPlan p)) revision expires segments canonical payload (edited_event p));
  canonicalCommittedAcknowledgement (ke_TripID e) (ke_MessageID e) result outcome.

(** ** [RuntimeMutationAdapter] *)

Definition zero_runtime : runtimeMutationPayload := MkRuntimePayload "" None None.

Definition encode_event (event : ApplyTripEvent) : option bytes :=
  match EncodeStoredEvent event with Ok payload => Some payload | Err _ => None end.

Definition record_request (m : AuthenticatedMessage) (e : commandEnvelope runtimeMutationPayload) (revision : Z)
    (kind : CommandKind) (canonical event : bytes) (planned : option PlannedCurrentPlan)
  : RecordRuntimeCommandRequest :=
  MkRecordRequest (newUUID 0) (newUUID 1) (ke_TripID e) (am_UserID m) (ke_MessageID e) (ke_MessageID e) revision kind
    (runtimeCommandExpiry (ky_CommandExpiresAt (ke_Payload e))) (sha256 canonical) canonical event planned.

Definition HandleMutation (m : AuthenticatedMessage) : gw bytes :=
  canonical ← canonicalize m;
  e ← need (Unmarshal (read_envelope zero_runtime read_runtime_payload) (am_Raw m)) "decode runtime command";
  _ ← check (identity_valid "trip_command" e m) "runtime command envelope identity is invalid";
  let p := ke_Payload e in
  let kind := command_kind (ky_CommandKind p) in
  _ ← check (isOrdinaryRuntimeMutation kind) "runtime command kind is not an ordinary mutation";
  revision ← need (runtimeExpectedRevision (ky_Command p)) "runtime revision is invalid";
  event ← need (runtimeMutationEvent kind e (ax_now env)) "decode runtime mutation";
  payload ← need (encode_event (MkApplyTripEvent (ev_event_id event) (ev_occurred_at_unix_ms event)
                    (ky_CommandExpiresAt p) (ev_event event))) "encode runtime planner event";
  result ← call_store 0 (fun clk => RecordRuntimeFirst clk (record_request m e revision kind canonical payload None));
  runtimeDurableAcknowledgement (ke_TripID e) (ke_MessageID e) result.

(** ** [ProposalDecisionAdapter] *)

Definition plannedAcceptedCurrentPlan (preparation : ProposalAcceptancePreparation) (proposalID : string)
  : option PlannedCurrentPlan :=
  stored ← UnmarshalProposal (pr_Payload preparation);
  _ ← (if bool_decide (MarshalProposal stored = Some (pr_Payload preparation)) then Some tt else None);
  proposal ← sp_proposal stored;
  _ ← (if bool_decide (pl_proposal_id proposal = proposalID) then Some tt else None);
  segments ← mapM decided_segment (pl_preserved_prefix proposal ++ pl_revised_suffix proposal);
  payload ← MarshalPlan (MkPbCurrentPlan (newUUID 2) (pr_NextPlanRevision preparation)
    PLAN_ORIGIN_ACCEPTED_ENGINE_PROPOSAL segments (unix_milli (pr_CreatedAt preparation)) (Some proposalID));
  Some (MkPlannedCurrentPlan (newUUID 2) payload (sha256 payload)).

Definition planned_for (kind : CommandKind) (preparation : ProposalAcceptancePreparation) (proposalID : string)
  : option (option PlannedCurrentPlan) :=
  if bool_decide (kind = CommandAcceptProposal) then Some <$> plannedAcceptedCurrentPlan preparation proposalID
  else Some None.

Definition decision_event (e : commandEnvelope runtimeMutationPayload) (kind : CommandKind)
    (c : proposalDecisionCommand) (epoch version : Z) : ApplyTripEvent :=
  MkApplyTripEvent (ke_MessageID e) (UnixMilli (ax_now env)) (ky_CommandExpiresAt (ke_Payload e))
    (Some (PlanDecided (MkPlanDecisionEvent
       (if bool_decide (kind = CommandAcceptProposal) then PLAN_DECISION_ACCEPT else PLAN_DECISION_REJECT)
       (kd_ProposalID c) epoch version (kd_BaseCurrentPlanID c) None))).

Definition source_current (s : ProposalSource) (c : proposalDecisionCommand) (epoch version : Z) : bool :=
  (ps_RuntimeEpoch s =? epoch) && (ps_PlannerStateVersion s =? version) &&
  bool_decide (ps_BaseCurrentPlanID s = kd_BaseCurrentPlanID c).

Definition HandleDecision (m : AuthenticatedMessage) : gw bytes :=
  canonical ← canonicalize m;
  e ← need (Unmarshal (read_envelope zero_runtime read_runtime_payload) (am_Raw m)) "decode proposal decision";
  _ ← check (identity_valid "trip_command" e m) "proposal decision envelope identity is invalid";
  let p := ke_Payload e in
  c ← need (UnmarshalRaw read_decision (ky_Command p)) "decode proposal decision identity";
  epoch ← need (ParseUint (kd_SourceRuntimeEpoch c)) "proposal runtime epoch is invalid";
  version ← need (ParseUint (kd_SourcePlannerStateVersion c)) "proposal planner state version is invalid";
  _ ← check (gatewayUUID (kd_ProposalID c) && gatewayUUID (kd_BaseCurrentPlanID c) && negb (epoch =? 0))
        "proposal decision identity is invalid";
  let kind := command_kind (ky_CommandKind p) in
  _ ← check (bool_decide (kind = CommandAcceptProposal) || bool_decide (kind = CommandRejectProposal))
        "command is not a proposal decision";
  preparation ← call_store 0 (fun clk => PrepareProposalAcceptance clk (ke_TripID e) (kd_ProposalID c));
  _ ← (if source_current (pr_Source preparation) c epoch version then mret tt
       else refuse (StoreError ErrProposalStale));
  planned ← need (planned_for kind preparation (kd_ProposalID c)) "plan accepted proposal";
  event ← need (encode_event (decision_event e kind c epoch version)) "encode proposal decision event";
  result ← call_store 1 (fun clk => RecordRuntimeFirst clk
    (record_request m e (ps_TripRevision (pr_Source preparation)) kind canonical event planned));
  runtimeDurableAcknowledgement (ke_TripID e) (ke_MessageID e) result.

(** ** [CommandDispatcher] *)

Definition tripCommandKind (m : AuthenticatedMessage) : option string :=
  match member "payload" (am_Message m) with
  | Some (AObject payload) =>
      kind ← string_member "command_kind" payload;
      if bool_decide (kind = "") then None else Some kind
  | _ => None
  end.

Definition DispatchCommand (m : AuthenticatedMessage) : gw bytes :=
  match string_member "kind" (am_Message m) with
  | None => refuse (CommandInvalid "websocket message kind is missing")
  | Some kind =>
      if bool_decide (kind = "create_trip") then HandleCreate m
      else if bool_decide (kind = "trip_command") then
        commandKind ← need (tripCommandKind m) "trip command kind is missing";
        match command_kind commandKind with
        | CommandReplaceCurrentPlan => HandleReplace m
        | CommandTripEdited => HandleEdited m
        | CommandAcceptProposal | CommandRejectProposal => HandleDecision m
        | CommandCreateTrip | CommandOther _ => refuse CommandKindUnsupported
        | _ => HandleMutation m
        end
      else refuse MessageUnsupported
  end.
End Adapters.
