(* ===== verification/AdapterProps.v ===== *)
(** * Properties of the command adapters *)

From S2P Require Import Prelude GoLib GoText Wire Schema Tables Leases Commands Finalization Proposals CanonicalState Canonical CanonicalFacts CanonicalLoad System HttpText JsonText PlannerMessages StoredEvent Places StrictJson Gateway ClientCommands Transport Adapters.

Create HintDb adapters.

#[export] Hint Extern 1 (Reflexive _) => apply _ : adapters.

Section AdapterProps.
Context {PG : Postgres} {PP : PlannerProto} {QP : ProposalProto} {HJ : HttpJson}.
Context (env : AdapterEnv) (rfc8785 : any -> option bytes) (maxPendingCanonicalMirror : Z).
Abbreviation dispatch := (DispatchCommand env rfc8785 maxPendingCanonicalMirror).

(** ** What a handler may do to the database *)

(** A relation between the databases before and after that a handler keeps. *)
Definition changes {A} (R : db -> db -> Prop) (m : gw A) : Prop := forall d, R d (m d).2.

Lemma changes_ret {A} R `{!Reflexive R} (a : A) : changes R (mret a : gw A).
Proof. by intros d. Qed.
Lemma changes_refuse {A} R `{!Reflexive R} e : changes R (refuse e : gw A).
Proof. by intros d. Qed.
Lemma changes_need {A} R `{!Reflexive R} (o : option A) what : changes R (need o what).
Proof. intros d. by destruct o. Qed.
Lemma changes_check R `{!Reflexive R} b what : changes R (check b what).
Proof. intros d. by destruct b. Qed.
Lemma changes_bind {A B} R `{!Transitive R} (m : gw A) (f : A -> gw B) :
  changes R m -> (forall a, changes R (f a)) -> changes R (m ≫= f).
Proof.
  intros Hm Hf d. specialize (Hm d). unfold mbind, gw_bind. destruct (m d) as [[e|a] d1]; [done|].
  simpl in Hm. etransitivity; [exact Hm|]. apply Hf.
Qed.
Lemma changes_store {A} R `{!PreOrder R} n (m : (nat -> Z) -> tx A) :
  (forall d, R d (ax_others env n d)) ->
  (forall clk d a d', m clk d = Ok (a, d') -> R d d') -> changes R (call_store env n m).
Proof.
  intros Ho Hm d. unfold call_store. specialize (Ho d). revert Ho. generalize (ax_others env n d). intros d1 Ho.
  assert (R d (run_tx (m (ax_clk env n)) d1).2).
  { unfold run_tx. destruct (m _ d1) as [[a d2]|e] eqn:E; simpl; [|done]. etransitivity; [done|]. by eapply Hm. }
  destruct (ax_fault env n); [|done|done]. by destruct (run_tx _ d1) as [[]].
Qed.

#[local] Hint Resolve changes_ret changes_refuse changes_need changes_check : adapters.

(** ** Refinement *)

Definition honest_others : Prop := forall n d, rtc step d (ax_others env n d).

Lemma changes_steps_store {A} n (m : (nat -> Z) -> tx A) : honest_others ->
  (forall clk d a d', m clk d = Ok (a, d') -> rtc step d d') -> changes (rtc step) (call_store env n m).
Proof. intros Ho Hm. apply changes_store; [apply _|apply Ho|done]. Qed.

Lemma prepare_reads clk tripID proposalID d c d' :
  PrepareProposalAcceptance clk tripID proposalID d = Ok (c, d') -> d' = d.
Proof. unfold PrepareProposalAcceptance, scan_current_plan, locked_proposal. intros H. inv_op. done. Qed.

Ltac handler := repeat first
  [ apply changes_bind; [apply _| |intros]
  | match goal with |- changes _ (match ?x with _ => _ end) => destruct x end
  | solve [auto with adapters]
  | apply changes_steps_store; [done|intros ? ? ? ? ?H] ].

Lemma edit_steps o r : honest_others -> changes (rtc step) (apply_edit env o r).
Proof.
  intros Ho. unfold apply_edit. handler; apply rtc_once.
  - by eapply (step_edit _ _ (EditAdd _)).
  - by eapply (step_edit _ _ (EditReplace _)).
  - by eapply (step_edit _ _ (EditRemove _)).
  - by eapply (step_edit _ _ (EditReorder _)).
Qed.

Lemma dispatch_changes m : honest_others -> changes (rtc step) (dispatch m).
Proof.
  intros Ho.
  unfold DispatchCommand, HandleCreate, HandleReplace, HandleEdited, HandleMutation, HandleDecision,
    canonicalize, canonicalCommandExpiry, canonicalCommittedAcknowledgement, runtimeDurableAcknowledgement.
  handler.
  all: first [ by apply edit_steps
             | by eapply rtc_once, step_create
             | by eapply rtc_once, (step_edit _ _ (EditPlan _))
             | by eapply rtc_once, step_record
             | match goal with H : PrepareProposalAcceptance _ _ _ _ = _ |- _ => apply prepare_reads in H as -> end;
               apply rtc_refl ].
Qed.


(** ** Ownership *)

(** The trip a message names. *)
Definition message_trip (raw : bytes) : option string :=
  Unmarshal (fun v => ms ← struct v; field "" json_string "trip_id" ms) raw.

Definition owned_by (tripID user : string) (d : db) : Prop :=
  exists t, trips d !! tripID = Some t /\ t_owner_user_id t = user.

(** [R] is what others do to the database. *)
Context (R : db -> db -> Prop) `{!PreOrder R} (Hothers : forall n d, R d (ax_others env n d)).

(** A handler that changes or acknowledges something only if [Own] holds afterwards. *)
Definition only_if {A} (Own : db -> Prop) (m : gw A) : Prop := forall d r d',
  m d = (r, d') -> (R d d' \/ Own d') /\ (forall a, r = inr a -> Own d').

(** A handler that neither changes nor reads anything. *)
Definition unchanging {A} (m : gw A) : Prop := forall d, (m d).2 = d.

Lemma unchanging_need {A} (o : option A) what : unchanging (need o what).
Proof. intros d. by destruct o. Qed.

Section Owner.
Context (Own : db -> Prop).
Abbreviation for_owner := (only_if Own).

Lemma owner_refuse {A} e : for_owner (refuse e : gw A).
Proof. intros d r d' [= <- <-]. by split; [left|]. Qed.
Lemma owner_need {A B} (o : option A) what (f : A -> gw B) :
  (forall a, o = Some a -> for_owner (f a)) -> for_owner (need o what ≫= f).
Proof.
  intros H d r d'. unfold mbind, gw_bind, need. destruct o as [a|]; simpl; [by apply H|apply owner_refuse].
Qed.
Lemma owner_check {B} b what (f : unit -> gw B) :
  (b = true -> for_owner (f tt)) -> for_owner (check b what ≫= f).
Proof.
  intros H d r d'. unfold mbind, gw_bind, check. destruct b; simpl; [by apply H|apply owner_refuse].
Qed.
Lemma owner_unchanging {A B} (m : gw A) (f : A -> gw B) :
  unchanging m -> (forall a, for_owner (f a)) -> for_owner (m ≫= f).
Proof.
  intros Hm Hf d r d'. specialize (Hm d). unfold mbind, gw_bind. destruct (m d) as [[e|a] d1]; simpl in *; subst d1.
  - apply owner_refuse.
  - apply Hf.
Qed.

Lemma owner_store {A B} n (m : (nat -> Z) -> tx A) (f : A -> gw B) :
  (forall clk d a d', m clk d = Ok (a, d') -> Own d') -> (forall a, unchanging (f a)) ->
  for_owner (call_store env n m ≫= f).
Proof.
  intros Hm Hf d r d'. unfold mbind, gw_bind, call_store, run_tx. pose proof (Hothers n d) as Ho.
  revert Ho. generalize (ax_others env n d). intros d0 Ho.
  destruct (m (ax_clk env n) d0) as [[a d1]|e] eqn:E; destruct (ax_fault env n); simpl.
  all: try (intros [= <- <-]; split; [by (left + (right; eapply Hm))|done]).
  intros H. specialize (Hf a d1). rewrite H in Hf. simpl in Hf. subst d1.
  apply Hm in E. split; [by right|done].
Qed.
Lemma owner_read {A B} n (m : (nat -> Z) -> tx A) (f : A -> gw B) :
  (forall clk d a d', m clk d = Ok (a, d') -> d' = d) -> (forall a, for_owner (f a)) ->
  for_owner (call_store env n m ≫= f).
Proof.
  intros Hm Hf d r d'. unfold mbind, gw_bind, call_store, run_tx. pose proof (Hothers n d) as Ho.
  revert Ho. generalize (ax_others env n d). intros d0 Ho.
  destruct (m (ax_clk env n) d0) as [[a d1]|e] eqn:E; [apply Hm in E as ->|]; destruct (ax_fault env n); simpl.
  all: try (intros [= <- <-]; by split; [left|]).
  intros H. destruct (Hf _ _ _ _ H) as [[Hr|Hown] Ha]; (split; [|exact Ha]); [left; by etransitivity|by right].
Qed.
End Owner.

Lemma record_owned clk r d c d' :
  RecordRuntimeFirst clk r d = Ok (c, d') -> owned_by (rr_TripID r) (rr_OwnerUserID r) d'.
Proof.
  intros H. pose proof H as H'. apply RecordRuntimeFirst_ok in H' as [[-> _]|(t & payload & event & Hn)].
  - unfold RecordRuntimeFirst in H. apply tx_bind_ok in H as (? & ? & Hv & H). apply lift_ok in Hv as [_ ->].
    apply tx_bind_ok in H as (t & ? & Hf & _). apply find_row_ok in Hf as [Hf ->].
    apply bind_Some in Hf as (t' & Ht & Hown). case_bool_decide; simplify_eq. by exists t.
  - destruct Hn as [_ Ht Ho _ _ _ _ _ _ _ -> _]. eexists. simpl. split; [apply lookup_insert_eq|done].
Qed.

Lemma edit_owned clk e d c d' :
  run_edit clk e d = Ok (c, d') -> owned_by (er_TripID (edit_request e)) (er_OwnerUserID (edit_request e)) d'.
Proof.
  intros H. pose proof H as H'. apply run_edit_ok in H' as [[-> _]|(t & cp & current & d1 & He)].
  - destruct (run_edit_skeleton clk e) as (what & body & E). rewrite E in H.
    apply tx_bind_ok in H as (? & ? & Hv & H). apply lift_ok in Hv as [_ ->].
    unfold canonical_edit, lock_edit_trip in H. inv_op. by eexists.
  - destruct He as [Had _ _ _ [_ _ (? & ? & ? & _ & _ & _ & ->) _]]. eexists. simpl.
    split; [apply lookup_insert_eq|]. simpl. apply Had.
Qed.

Lemma create_owned clk r d c d' :
  CreateTrip clk r d = Ok (c, d') -> owned_by (cr_TripID r) (cr_OwnerUserID r) d'.
Proof.
  intros H. pose proof H as H'. apply CreateTrip_ok in H' as [[-> Hdup]|(zone & d2 & d3 & Hc)].
  - unfold CreateTrip in H. inv_op. destruct (trips d !! cr_TripID r) as [t|] eqn:Ht.
    + unfold create_existing in *. inv_op. by exists t.
    + by inv_op.
  - destruct Hc as [_ Hnew _ Hdr Hdl _ (i & _ & _ & ->)]. apply ds_frame in Hdr as [_ Et _ _ _ _ _ _].
    apply dl_frame in Hdl. eexists. simpl. rewrite Hdl. simpl. rewrite Et. simpl.
    split; [apply lookup_insert_eq|done].
Qed.

Lemma envelope_trip {P} (zero : P) read raw e :
  Unmarshal (read_envelope zero read) raw = Some e -> message_trip raw = Some (ke_TripID e).
Proof.
  unfold message_trip, Unmarshal, read_envelope. case_match; [done|]. case_match; [done|]. intros H'.
  repeat match goal with H : (_ ≫= _) = Some _ |- _ => apply bind_Some in H as (? & ? & ?) end.
  simplify_option_eq. done.
Qed.

(** What the handlers need to know of their message. *)
Definition owns_message (m : AuthenticatedMessage) (d : db) : Prop :=
  exists tripID, message_trip (am_Raw m) = Some tripID /\ owned_by tripID (am_UserID m) d.

Lemma edit_owns m o r {B} (f : RecordedCommand -> gw B) :
  message_trip (am_Raw m) = Some (er_TripID r) ->
  er_OwnerUserID r = am_UserID m -> (forall a, unchanging (f a)) ->
  only_if (owns_message m) (apply_edit env o r ≫= f).
Proof.
  intros Ht Hu Hf. unfold apply_edit. repeat case_match.
  5: { intros d x d' [= <- <-]. by split; [left|]. }
  all: apply owner_store; [|done]; intros clk d1 a1 d1' Hok; exists (er_TripID r); (split; [done|]);
    rewrite <- Hu.
  - by apply (edit_owned clk (EditAdd _) _ _ _ Hok).
  - by apply (edit_owned clk (EditReplace _) _ _ _ Hok).
  - by apply (edit_owned clk (EditRemove _) _ _ _ Hok).
  - by apply (edit_owned clk (EditReorder _) _ _ _ Hok).
Qed.

Ltac owner := repeat first
  [ apply owner_need; intros ? ?
  | apply owner_check; intros ?
  | apply owner_refuse
  | apply owner_unchanging; [apply unchanging_need|intros ?]
  | match goal with |- only_if _ (match ?x with _ => _ end) => destruct x end
  | apply owner_unchanging; [intros ?; unfold canonicalCommandExpiry; repeat case_match; done|intros ?] ].

Lemma create_owns m : only_if (owns_message m) (HandleCreate env rfc8785 m).
Proof.
  unfold HandleCreate, canonicalize. owner. apply owner_store; [|intros; apply unchanging_need].
  intros clk d c d' Hok%create_owned. eexists. split; [by eapply envelope_trip|exact Hok].
Qed.
Lemma replace_owns m : only_if (owns_message m) (HandleReplace env rfc8785 maxPendingCanonicalMirror m).
Proof.
  unfold HandleReplace, canonicalize. owner. apply owner_store; [|intros; apply unchanging_need].
  intros clk d c d' Hok. eexists. split; [by eapply envelope_trip|apply (edit_owned clk (EditPlan _) _ _ _ Hok)].
Qed.
Lemma edited_owns m : only_if (owns_message m) (HandleEdited env rfc8785 maxPendingCanonicalMirror m).
Proof.
  unfold HandleEdited, canonicalize. owner.
  apply edit_owns; [by eapply envelope_trip|done|intros; apply unchanging_need].
Qed.
Lemma mutation_owns m : only_if (owns_message m) (HandleMutation env rfc8785 m).
Proof.
  unfold HandleMutation, canonicalize. owner. apply owner_store; [|intros; apply unchanging_need].
  intros clk d c d' Hok%record_owned. eexists. split; [by eapply envelope_trip|exact Hok].
Qed.
Lemma decision_owns m : only_if (owns_message m) (HandleDecision env rfc8785 m).
Proof.
  unfold HandleDecision, canonicalize. owner. apply owner_read; [intros; by eapply prepare_reads|]. intros p.
  apply owner_unchanging; [intros d; by destruct (source_current _ _ _ _)|intros _]. owner.
  apply owner_store; [|intros; apply unchanging_need].
  intros clk d c d' Hok%record_owned. eexists. split; [by eapply envelope_trip|exact Hok].
Qed.

Lemma dispatch_owns m : only_if (owns_message m) (dispatch m).
Proof.
  unfold DispatchCommand. destruct (string_member _ _) as [kind|]; [|apply owner_refuse].
  case_bool_decide; [apply create_owns|]. case_bool_decide; [|apply owner_refuse].
  apply owner_need. intros k _. destruct (command_kind k);
    eauto using owner_refuse, replace_owns, edited_owns, mutation_owns, decision_owns.
Qed.


End AdapterProps.
#[export] Hint Resolve changes_ret changes_refuse changes_need changes_check : adapters.

(** ** Sending a command again *)

Section Resending.
Context {PG : Postgres} {PP : PlannerProto} {QP : ProposalProto} {HJ : HttpJson}.
Context (rfc8785 : any -> option bytes) (maxPendingCanonicalMirror : Z).
Abbreviation dispatch env := (DispatchCommand env rfc8785 maxPendingCanonicalMirror).

(** The database answers, and nothing else commits in between. *)
Record calm (env : AdapterEnv) : Prop := {
  ca_quiet : forall n d, ax_others env n d = d;
  ca_works : forall n, ax_fault env n = CallWorks;
  ca_random : forall n, length (ax_random env n) = 16%nat
}.

Lemma store_calm {A} env n (m : (nat -> Z) -> tx A) d a d' :
  calm env -> call_store env n m d = (inr a, d') <-> m (ax_clk env n) d = Ok (a, d').
Proof.
  intros [Hq Hw _]. unfold call_store, run_tx. rewrite Hq, Hw.
  destruct (m _ d) as [[x d1]|e]; split; intros H; by simplify_eq.
Qed.

Lemma gw_bind_ok {A B} (m : gw A) (f : A -> gw B) d b d' :
  (m ≫= f) d = (inr b, d') <-> exists a d1, m d = (inr a, d1) /\ f a d1 = (inr b, d').
Proof.
  unfold mbind, gw_bind. destruct (m d) as [[e|a] d1]; split.
  - done.
  - intros (? & ? & [=] & _).
  - eauto.
  - intros (? & ? & [= <- <-] & ?). done.
Qed.
Lemma need_ok {A} (o : option A) what d a d' : need o what d = (inr a, d') <-> o = Some a /\ d' = d.
Proof. destruct o; simpl; split; [intros [= <- <-]; done|by intros [[= ->] ->]|done|by intros [? _]]. Qed.
Lemma check_ok b what d u d' : check b what d = (inr u, d') <-> b = true /\ d' = d.
Proof. destruct b, u; simpl; split; [intros [= <-]; done|by intros [_ ->]|done|by intros [? _]]. Qed.

Lemma bind_need {A B} (o : option A) what (f : A -> gw B) d a : o = Some a -> (need o what ≫= f) d = f a d.
Proof. by intros ->. Qed.
Lemma bind_check {B} b what (f : unit -> gw B) d : b = true -> (check b what ≫= f) d = f tt d.
Proof. by intros ->. Qed.
Lemma bind_store {A B} env n (m : (nat -> Z) -> tx A) (f : A -> gw B) d a d' :
  calm env -> m (ax_clk env n) d = Ok (a, d') -> (call_store env n m ≫= f) d = f a d'.
Proof. intros Hc H. apply store_calm in H; [|done]. unfold mbind, gw_bind. by rewrite H. Qed.

(** Once a command is recorded, recording its message again gives the same sequence and
    revision and changes nothing. *)
Lemma record_repeats clk clk' r r' d c d' :
  RecordRuntimeFirst clk r d = Ok (c, d') -> validateRecordRuntimeCommand r' = Ok tt ->
  rr_TripID r' = rr_TripID r -> rr_OwnerUserID r' = rr_OwnerUserID r ->
  rr_MessageID r' = rr_MessageID r -> rr_PayloadDigest r' = rr_PayloadDigest r ->
  exists c', RecordRuntimeFirst clk' r' d' = Ok (c', d') /\
    rc_MutationSequence c' = rc_MutationSequence c /\ rc_ExpectedTripRevision c' = rc_ExpectedTripRevision c.
Proof.
  intros H Hv Et Eo Em Ed. pose proof (record_owned _ _ _ _ _ H) as (t & Ht & Hown).
  assert (Hrow : exists row b, recordedCommandSelect (rr_TripID r) (rr_MessageID r) d' = Some row /\
    scanRecordedCommand row b = Ok (c, rr_PayloadDigest r, DigestAlgorithmRFC8785SHA256V1)).
  { apply RecordRuntimeFirst_ok in H as [(-> & row & digest & Hsel & Hscan & Hdig)|(t' & payload & event & Hnew)].
    - exists row, true. split; [done|]. unfold constant_time_eq in Hdig. apply bool_decide_eq_true_1 in Hdig. by subst.
    - pose proof (recordedCommandSelect_insert _ _ _ _ _ _ _ _ Hnew) as Hsel.
      destruct Hnew as [_ _ _ _ _ _ _ _ _ _ _ (digest & alg & row & Hrow & Hscan)].
      exists row, false. split; [done|]. rewrite Hsel in Hrow. injection Hrow as <-.
      assert (digest = rr_PayloadDigest r /\ alg = DigestAlgorithmRFC8785SHA256V1) as [-> ->]; [|done].
      clear Hsel. unfold scanRecordedCommand in Hscan. by inv_res. }
  destruct Hrow as (row & b & Hsel & Hscan). pose proof (scanRecordedCommand_duplicate _ _ true _ _ _ Hscan) as Hscan'.
  eexists. split.
  - unfold RecordRuntimeFirst. rewrite Et, Eo, Em, Ed.
    run_tx_step; [exact Hv|]. run_tx_step; [by rewrite Ht; simpl; rewrite bool_decide_eq_true_2|].
    run_tx_step; [exact (eq_sym Hsel)|]. run_tx_step; [exact Hscan'|]. run_tx_step; [|reflexivity].
    unfold constant_time_eq. by rewrite !bool_decide_eq_true_2.
  - done.
Qed.

(** Marshalling fails on text that is no UTF-8, not on a time. *)
Definition marshal_any_time : Prop := forall id t t' expires event,
  is_Some (MarshalEvent (MkApplyTripEvent id t expires event)) ->
  is_Some (MarshalEvent (MkApplyTripEvent id t' expires event)).

Lemma encode_any_time id t t' expires event payload : marshal_any_time -> 0 < t' ->
  encode_event (MkApplyTripEvent id t expires event) = Some payload ->
  exists payload', encode_event (MkApplyTripEvent id t' expires event) = Some payload' /\ json_Valid payload' = true.
Proof.
  intros Hm Ht. unfold encode_event. destruct (EncodeStoredEvent (MkApplyTripEvent id t expires event)) as [p|] eqn:E;
    [|done]. intros _. assert (E' : exists p', EncodeStoredEvent (MkApplyTripEvent id t' expires event) = Ok p').
  { unfold EncodeStoredEvent in *. inv_res.
    match goal with H : MarshalEvent _ = Some _ |- _ =>
      destruct (Hm id t t' expires event ltac:(eauto)) as [w Hw]; rewrite Hw end.
    assert (Hv : validateEvent (MkApplyTripEvent id t' expires event) = true).
    { unfold validateEvent in *. cbn [ev_event_id ev_occurred_at_unix_ms ev_event] in *.
      rewrite (proj2 (Z.leb_gt t' 0)) by lia. rewrite negb_true_iff, !orb_false_iff in *. tauto. }
    rewrite Hv. eexists. reflexivity. }
  destruct E' as [p' E']. rewrite E'. exists p'. split; [done|]. by eapply encoded_valid_json.
Qed.

(** A request of another attempt is as valid. *)
Lemma record_request_valid env env' m e revision kind canonical event event' :
  calm env' -> json_Valid event' = true ->
  validateRecordRuntimeCommand (record_request env m e revision kind canonical event None) = Ok tt ->
  validateRecordRuntimeCommand (record_request env' m e revision kind canonical event' None) = Ok tt.
Proof.
  intros Hc Hj. unfold validateRecordRuntimeCommand. cbn -[validCanonicalUUID json_Valid max_int64].
  assert (forall n, validCanonicalUUID (newUUID env' n) = true) as Hu.
  { intros n. apply newAuthUUID_version. apply Hc. }
  rewrite !Hu, Hj. destruct (validCanonicalUUID (newUUID env 0)), (validCanonicalUUID (newUUID env 1)); try done.
  destruct (json_Valid event); [done|]. intros H. exfalso. inv_res.
Qed.


(** C40: a decision on a proposal may not be sent again.  As soon as the proposal a decision
    names is no longer pending, because this very decision was carried out, the message
    is refused, also if its outcome is stored under its identifier: the adapter looks
    for the pending proposal before the store looks for the message. *)
Theorem decision_not_resent env m d e c p :
  (forall n d, ax_others env n d = d) ->
  Unmarshal (read_envelope zero_runtime read_runtime_payload) (am_Raw m) = Some e ->
  UnmarshalRaw read_decision (ky_Command (ke_Payload e)) = Some c ->
  proposals d !! kd_ProposalID c = Some p -> p_state p <> ProposalPending ->
  exists error, HandleDecision env rfc8785 m d = (inl error, d).
Proof.
  intros Hq He Hc Hp Hs. unfold HandleDecision, canonicalize.
  destruct (canonicalizeClientMessage _ _) as [canonical|]; [|by eexists].
  rewrite (bind_need _ _ _ _ canonical) by done. rewrite (bind_need _ _ _ _ _ He).
  destruct (identity_valid _ _ _) eqn:Hid; [|by eexists]. rewrite bind_check by done. cbv zeta.
  rewrite (bind_need _ _ _ _ _ Hc).
  destruct (ParseUint (kd_SourceRuntimeEpoch c)) as [epoch|] eqn:Ee; [|by eexists]. erewrite bind_need by done.
  destruct (ParseUint (kd_SourcePlannerStateVersion c)) as [version|] eqn:Ev; [|by eexists]. erewrite bind_need by done.
  destruct (gatewayUUID (kd_ProposalID c) && _ && _); [|by eexists]. rewrite bind_check by done.
  destruct (bool_decide (command_kind _ = CommandAcceptProposal) || _); [|by eexists]. rewrite bind_check by done.
  assert (Hprep : forall clk, exists x, PrepareProposalAcceptance clk (ke_TripID e) (kd_ProposalID c) d = Err x).
  { intros clk. destruct (PrepareProposalAcceptance _ _ _ d) as [[a d1]|x] eqn:E; [|by eexists].
    exfalso. unfold PrepareProposalAcceptance, scan_current_plan, locked_proposal in E. inv_op.
    match goal with H : _ ≫= _ = Some _ |- _ => apply bind_Some in H as (p1 & Hb & Hp1) end.
    apply bind_Some in Hb as (p' & Hp' & Ht). repeat case_bool_decide; simplify_eq. }
  destruct (Hprep (ax_clk env 0)) as [x Hx]. unfold mbind, gw_bind, call_store. rewrite Hq. unfold run_tx. rewrite Hx.
  destruct (ax_fault env 0); by eexists.
Qed.

End Resending.
