(* ===== verification/AdapterExamples.v ===== *)
(** * A client's commands

    A mutation of the owner of a trip, sent twice, and one of somebody else; the theorems
    on the command adapters and on stored events are applied here. *)

From S2P Require Import Prelude GoLib GoText Wire Schema Tables Leases Commands Finalization Proposals Decisions CanonicalState Canonical CanonicalFacts CanonicalLoad System HttpText JsonText PlannerMessages StoredEvent DispatchExamples Places StrictJson Gateway ClientCommands Transport Adapters AdapterProps GatewayExamples.

(** ** A stored event *)

Lemma stored_event_roundtrip_witness :
  EncodeStoredEvent ex_event = Ok DispatchExamples.ex_payload /\
  (json_Valid DispatchExamples.ex_payload = true /\ DecodeStoredEvent DispatchExamples.ex_payload = Ok ex_event).
Proof.
  split; [vm_compute; reflexivity|].
  apply (stored_event_roundtrip ex_event DispatchExamples.ex_payload). vm_compute. reflexivity.
Defined.

(** ** Commands *)

#[local] Instance any_proto : PlannerProto := {
  MarshalEvent _ := Some []; UnmarshalEvent _ := None; MarshalProposal _ := Some [];
  UnmarshalSnapshotPlan _ := None; UnmarshalPlan _ := None
}.
#[local] Instance any_proposal : ProposalProto := { UnmarshalProposal _ := None; MarshalPlan _ := None }.
#[local] Instance any_json : HttpJson :=
  {| json_marshal _ := Some (bytes_of_string "{}"); canonicalHTTPBody b := Some b |}.
Definition ex_rfc8785 (_ : any) : option bytes := Some (bytes_of_string "{}").

Definition ex_delayed : bytes := apostrophes ("{'protocol_version':'liveroute.v1','message_id':'" +:+ ex_u1 +:+
  "','kind':'trip_command','trip_id':'" +:+ ex_trip +:+
  "','payload':{'command_kind':'activity_delayed','command':{'expected_trip_revision':'1','activity_id':'" +:+
  ex_activity_a +:+ "','delay_seconds':300}}}").
Definition ex_delayed_message (user : string) : AuthenticatedMessage :=
  MkMessage user (match decodeStrictJSON ex_delayed with inr (AObject ms) => ms | _ => [] end) ex_delayed 1.

Definition ex_adapter_env (t : Z) : @AdapterEnv pg_model :=
  MkAdapterEnv (fun _ d => d) (fun _ => CallWorks) (fun _ => ex_clock t) (1000 * Second)
    (fun n => replicate 16 (byte_of (Z.of_nat n + t))).

Lemma ex_calm t : calm (ex_adapter_env t).
Proof. constructor; intros; reflexivity. Qed.

Definition ex_dispatch (t : Z) (user : string) : db -> (AdapterError + bytes) * db :=
  DispatchCommand (ex_adapter_env t) ex_rfc8785 8 (ex_delayed_message user).
Definition ex_once : @db pg_model := (ex_dispatch 5 ex_user (ex_created "planned")).2.

Example ex_dispatch_acknowledged :
  (ex_dispatch 5 ex_user (ex_created "planned")).1 = inr (bytes_of_string "{}") /\
  (ex_dispatch 5 ex_u1 (ex_created "planned")).1 = inl (StoreError ErrTripNotFound).
Proof. split; vm_compute; reflexivity. Qed.



Lemma ex_handled :
  DispatchCommand (ex_adapter_env 5) ex_rfc8785 8 (ex_delayed_message ex_user) =
  HandleMutation (ex_adapter_env 5) ex_rfc8785 (ex_delayed_message ex_user).
Proof.
  unfold DispatchCommand.
  assert (E : string_member "kind" (am_Message (ex_delayed_message ex_user)) = Some "trip_command")
    by (vm_compute; reflexivity).
  assert (E' : tripCommandKind (ex_delayed_message ex_user) = Some "activity_delayed") by (vm_compute; reflexivity).
  rewrite E, E'. reflexivity.
Qed.


(** A decision on the proposal that the trip's owner has accepted. *)
Definition ex_decided_text : bytes := apostrophes ("{'protocol_version':'liveroute.v1','message_id':'" +:+ ex_message2 +:+
  "','kind':'trip_command','trip_id':'" +:+ ex_trip +:+
  "','payload':{'command_kind':'accept_proposal','command':{'proposal_id':'" +:+ ex_proposal_id +:+
  "','source_runtime_epoch':'1','source_planner_state_version':'4','base_current_plan_id':'" +:+ ex_plan +:+ "'}}}").
Definition ex_decided_message : AuthenticatedMessage := MkMessage ex_user [] ex_decided_text 1.

Lemma decision_not_resent_witness : exists error,
  HandleDecision (ex_adapter_env 5) ex_rfc8785 ex_decided_message ex_published = (inl error, ex_published).
Proof.
  destruct (proposals ex_published !! ex_proposal_id) as [p|] eqn:Hp; [|exfalso; revert Hp; vm_compute; discriminate].
  assert (Hs : option_map p_state (proposals ex_published !! ex_proposal_id) = Some ProposalAccepted)
    by (vm_compute; reflexivity).
  assert (He : Unmarshal (read_envelope zero_runtime read_runtime_payload) (am_Raw ex_decided_message) =
    Some (MkCommandEnvelope "liveroute.v1" ex_message2 "trip_command" ex_trip (MkRuntimePayload "accept_proposal"
      (Some (AObject [(bytes_of_string "proposal_id", AString (bytes_of_string ex_proposal_id));
         (bytes_of_string "source_runtime_epoch", AString (bytes_of_string "1"));
         (bytes_of_string "source_planner_state_version", AString (bytes_of_string "4"));
         (bytes_of_string "base_current_plan_id", AString (bytes_of_string ex_plan))])) None)))
    by (vm_compute; reflexivity).
  apply (decision_not_resent ex_rfc8785 (ex_adapter_env 5) ex_decided_message ex_published _
    (MkDecisionCommand ex_proposal_id "1" "4" ex_plan) p (fun _ _ => eq_refl) He); [vm_compute; reflexivity|exact Hp|].
  rewrite Hp in Hs. injection Hs as Hs. rewrite Hs. discriminate.
Defined.
