(* ===== verification/StateJson.v ===== *)
(** * What a client is told about a trip

    Models [gateway/state_json.go], [gateway/state_envelope.go],
    [gateway/error_envelope.go] and [gateway/telemetry.go]: the canonical state, the
    pending proposal, outcomes and errors as envelopes, and the observations a client
    sends.  A [map[string]any] is the list of its members in the order of their names,
    which is the order [json.Marshal] writes them in. *)

From S2P Require Import Prelude GoLib GoText Wire Schema Tables Commands Finalization CanonicalState HttpText JsonText PlannerMessages StoredEvent Coordinators Places StrictJson Gateway ClientCommands Transport Supervisor.
From Stdlib Require Import SpecFloat.

(** ** [map[string]any] *)

Definition go_map : Type := list (string * json).

(** [m[name] = value]. *)
Fixpoint put_member (name : string) (value : json) (m : go_map) : go_map :=
  match m with
  | [] => [(name, value)]
  | (k, v) :: rest =>
      match String.compare name k with
      | Lt => (name, value) :: m
      | Eq => (name, value) :: rest
      | Gt => (k, v) :: put_member name value rest
      end
  end.
Definition make_map (l : go_map) : go_map := fold_left (fun m kv => put_member kv.1 kv.2 m) l [].
Definition put_optional (name : string) (value : option json) (m : go_map) : go_map :=
  match value with Some v => put_member name v m | None => m end.
Definition delete_member (name : string) (m : go_map) : go_map :=
  List.filter (fun kv => negb (bool_decide (kv.1 = name))) m.
Definition get_member (name : string) (m : go_map) : option json :=
  snd <$> List.find (fun kv => bool_decide (kv.1 = name)) m.

(** ** Names of enumerations *)

Definition planOriginJSON (value : Z) : option string :=
  if value =? PLAN_ORIGIN_USER_AUTHORED then Some "user_authored"
  else if value =? PLAN_ORIGIN_ACCEPTED_ENGINE_PROPOSAL then Some "accepted_engine_proposal"
  else None.

Definition segmentDispositionJSON (value : Z) : option string :=
  if value =? SEGMENT_DISPOSITION_PRESERVED then Some "preserved"
  else if value =? SEGMENT_DISPOSITION_MOVED then Some "moved"
  else if value =? SEGMENT_DISPOSITION_SHORTENED then Some "shortened"
  else if value =? SEGMENT_DISPOSITION_SKIPPED then Some "skipped"
  else if value =? SEGMENT_DISPOSITION_ADDED then Some "added"
  else None.

(** The constants of the protocol in their order, from 1. *)
Definition name_of (names : list string) (value : Z) : option string :=
  if value <? 1 then None else names !! Z.to_nat (value - 1).

Definition planReasonJSON : Z -> option string :=
  name_of ["late_departure"; "activity_delay"; "route_deviation"; "hours_changed"; "place_closed";
           "reservation_at_risk"; "travel_delay"; "user_edit"; "deadline_budget"; "no_feasible_plan"].
(** A missing key of a Go map reads as the empty string. *)
Definition notificationJSON (value : Z) : string :=
  default "" (name_of ["none"; "low_slack_warning"; "critical_lateness"; "plan_change_suggested";
                       "infeasible_schedule"] value).
Definition planQualityJSON : Z -> option string := name_of ["complete"; "best_so_far"; "no_new_proposal"].
Definition routingQualityJSON : Z -> option string := name_of ["fresh"; "stale_cache"; "unavailable"].
Definition recoveryStateJSON : Z -> option string := name_of ["current"; "not_advancing"].

(** ** The trip *)

Definition state_window_json (w : CanonicalOpenWindow) : json :=
  JObject (make_map [("opens_at_unix_ms", JInt (UnixMilli (ow_OpensAt w)));
                     ("closes_at_unix_ms", JInt (UnixMilli (ow_ClosesAt w)))]).

Definition activityTimingJSON (a : CanonicalActivity) : go_map :=
  put_optional "mandatory_deadline_unix_ms" (JInt ∘ UnixMilli <$> ca_MandatoryDeadline a)
    (put_optional "reservation_start_unix_ms" (JInt ∘ UnixMilli <$> ca_ReservationStart a)
       (make_map [("open_windows", JList (state_window_json <$> ca_OpenWindows a));
                  ("reservation_grace_seconds", JInt (ca_ReservationGraceSeconds a));
                  ("min_duration_seconds", JInt (ca_MinDurationSeconds a));
                  ("preferred_duration_seconds", JInt (ca_PreferredDurationSeconds a));
                  ("max_duration_seconds", JInt (ca_MaxDurationSeconds a));
                  ("mandatory", JBool (ca_Mandatory a));
                  ("can_shorten", JBool (ca_CanShorten a));
                  ("can_move", JBool (ca_CanMove a));
                  ("can_skip", JBool (ca_CanSkip a))])).

Definition location_json (latitude longitude : spec_float) : json :=
  JObject (make_map [("latitude", JFloat latitude); ("longitude", JFloat longitude)]).

Definition state_activity_json (index : nat) (a : CanonicalActivity) : option json :=
  if negb (ca_Ordinal a =? uint32 (Z.of_nat index)) || negb (gatewayUUID (ca_ID a)) ||
     bool_decide (ca_PlaceID a = "") || bool_decide (ca_DisplayName a = "") ||
     bool_decide (ca_TimeZoneName a = "") then None
  else
    Some (JObject (put_optional "found_closed_at_unix_ms" (JInt ∘ UnixMilli <$> ca_FoundClosedAt a)
      (make_map [("activity_id", JText (ca_ID a)); ("place_id", JText (ca_PlaceID a));
                 ("display_name", JText (ca_DisplayName a));
                 ("location", location_json (ca_Latitude a) (ca_Longitude a));
                 ("time_zone_name", JText (ca_TimeZoneName a));
                 ("inbound_travel_mode", JText (ca_InboundTravelMode a));
                 ("activity_class", JText (ca_ActivityClass a));
                 ("activity_state", JText (ca_ActivityState a));
                 ("priority_rank", JInt (ca_PriorityRank a)); ("utility_score", JInt (ca_UtilityScore a));
                 ("activity_delay_seconds", JInt (ca_ActivityDelaySeconds a));
                 ("timing", JObject (activityTimingJSON a))]))).

Fixpoint activities_json (index : nat) (l : list CanonicalActivity) : option (list json) :=
  match l with
  | [] => Some []
  | a :: l => value ← state_activity_json index a; rest ← activities_json (S index) l; Some (value :: rest)
  end.

Definition delay_json (d : CanonicalTravelDelay) : option json :=
  if negb (gatewayUUID (cd_FromActivityID d)) || negb (gatewayUUID (cd_ToActivityID d)) then None
  else Some (JObject (make_map [("from_activity_id", JText (cd_FromActivityID d));
                                ("to_activity_id", JText (cd_ToActivityID d));
                                ("additional_seconds", JInt (cd_AdditionalSeconds d));
                                ("observed_at_unix_ms", JInt (UnixMilli (cd_ObservedAt d)))])).

Definition durableTripJSON (s : CanonicalTripState) : option go_map :=
  if negb (gatewayUUID (ct_TripID s)) || negb (gatewayUUID (ct_OwnerUserID s)) ||
     bool_decide (ct_DefaultTimeZoneName s = "") || negb (gatewayUUID (ct_CurrentPlanID s)) then None
  else
    activities ← activities_json 0 (ct_Activities s);
    delays ← mapM delay_json (ct_TravelDelays s);
    let trip := make_map [("trip_id", JText (ct_TripID s)); ("owner_user_id", JText (ct_OwnerUserID s));
                          ("default_time_zone_name", JText (ct_DefaultTimeZoneName s));
                          ("activities", JList activities);
                          ("completed_prefix_count", JInt (ct_CompletedPrefixCount s));
                          ("current_plan_id", JText (ct_CurrentPlanID s));
                          ("travel_delays", JList delays)] in
    match ct_CurrentActivityID s with
    | None => Some trip
    | Some id => if gatewayUUID id then Some (put_member "current_activity_id" (JText id) trip) else None
    end.

(** ** Its current plan *)

Definition plan_segment_json (s : PbPlanSegment) : option json :=
  if negb (gatewayUUID (gs_activity_id s)) then None
  else
    let value := make_map [("activity_id", JText (gs_activity_id s))] in
    if gs_state s =? PLAN_ENTRY_STATE_SCHEDULED then
      match gs_scheduled_start_unix_ms s, gs_scheduled_end_unix_ms s with
      | Some starts, Some ends =>
          Some (JObject (put_member "scheduled_end_unix_ms" (JInt ends)
            (put_member "scheduled_start_unix_ms" (JInt starts) (put_member "state" (JText "scheduled") value))))
      | _, _ => None
      end
    else if gs_state s =? PLAN_ENTRY_STATE_OMITTED then Some (JObject (put_member "state" (JText "omitted") value))
    else None.

Definition plan_metadata (plan : PbCurrentPlan) (current : CanonicalCurrentPlan) : bool :=
  gatewayUUID (gp_plan_id plan) && bool_decide (gp_plan_id plan = cp_ID current) &&
  (gp_plan_revision plan =? cp_Revision current) &&
  (gp_created_at_unix_ms plan =? UnixMilli (cp_CreatedAt current)).

Section StateJson.
Context {PG : Postgres} {PP : PlannerProto} {QP : ProposalProto} {HJ : HttpJson}.

Definition currentPlanJSON (s : CanonicalTripState) : option go_map :=
  plan ← UnmarshalPlan (cp_Payload (ct_CurrentPlan s));
  if negb (plan_metadata plan (ct_CurrentPlan s)) then None
  else
    origin ← planOriginJSON (gp_origin plan);
    segments ← mapM plan_segment_json (gp_segments plan);
    let result := make_map [("plan_id", JText (gp_plan_id plan));
                            ("plan_revision", JText (FormatInt (gp_plan_revision plan)));
                            ("origin", JText origin); ("segments", JList segments);
                            ("created_at_unix_ms", JInt (gp_created_at_unix_ms plan))] in
    match gp_source_proposal_id plan with
    | None => Some result
    | Some id => if gatewayUUID id then Some (put_member "source_proposal_id" (JText id) result) else None
    end.

(** ** Its pending proposal *)

Definition planReasonsJSON (reasons : list Z) : option (list json) :=
  mapM (fun r => JText <$> planReasonJSON r) reasons.

Definition route_json (r : RouteLeg) : json :=
  JObject (make_map [("duration_seconds", JInt (rg_duration_seconds r));
                     ("distance_meters", JInt (rg_distance_meters r)); ("reachable", JBool (rg_reachable r))]).

Definition proposal_segment_json (s : ProposalSegment) : option json :=
  match sg_location s with
  | None => None
  | Some l =>
      if negb (gatewayUUID (sg_activity_id s)) || bool_decide (sg_time_zone_name s = "") then None
      else
        disposition ← segmentDispositionJSON (sg_disposition s);
        reasons ← planReasonsJSON (sg_reasons s);
        Some (JObject (put_optional "inbound_route" (route_json <$> sg_inbound_route s)
          (put_optional "scheduled_end_unix_ms" (JInt <$> sg_scheduled_end_unix_ms s)
             (put_optional "scheduled_start_unix_ms" (JInt <$> sg_scheduled_start_unix_ms s)
                (make_map [("activity_id", JText (sg_activity_id s));
                           ("location", location_json (lo_latitude l) (lo_longitude l));
                           ("time_zone_name", JText (sg_time_zone_name s));
                           ("disposition", JText disposition); ("reasons", JList reasons)])))))
  end.
Definition proposalSegmentsJSON (segments : list ProposalSegment) : option (list json) :=
  mapM proposal_segment_json segments.

Definition proposalStatsJSON (stats : option PlannerStats) : json :=
  let s := default (MkPlannerStats 0 0 0 0 0 0 0 false) stats in
  JObject (make_map [("candidates_evaluated", JText (FormatInt (st_candidates_evaluated s)));
                     ("candidates_pruned", JText (FormatInt (st_candidates_pruned s)));
                     ("search_depth", JInt (st_search_depth s));
                     ("queue_wait_microseconds", JInt (st_queue_wait_microseconds s));
                     ("provider_microseconds", JInt (st_provider_microseconds s));
                     ("planner_microseconds", JInt (st_planner_microseconds s));
                     ("serialization_microseconds", JInt (st_serialization_microseconds s));
                     ("deadline_hit", JBool (st_deadline_hit s))]).

Definition resultQualityJSON (quality : option ResultQuality) : option json :=
  q ← quality;
  plan ← planQualityJSON (ql_plan_quality q);
  routing ← routingQualityJSON (ql_routing_quality q);
  recovery ← recoveryStateJSON (ql_recovery_state q);
  Some (JObject (make_map [("plan_quality", JText plan); ("routing_quality", JText routing);
                           ("recovery_state", JText recovery)])).

Definition proposal_identity (p : PlanProposal) (preserved revised : list json) : json :=
  JObject (make_map [("proposal_id", JText (pl_proposal_id p));
                     ("source_runtime_epoch", JText (FormatInt (pl_source_runtime_epoch p)));
                     ("source_planner_state_version", JText (FormatInt (pl_source_planner_state_version p)));
                     ("base_current_plan_id", JText (pl_base_current_plan_id p));
                     ("source_trip_revision", JText (FormatInt (pl_source_trip_revision p)));
                     ("source_accepted_mutation_sequence", JText (FormatInt (pl_source_accepted_mutation_sequence p)));
                     ("preserved_prefix", JList preserved); ("revised_suffix", JList revised);
                     ("created_at_unix_ms", JInt (pl_created_at_unix_ms p))]).

Definition storedProposalJSON (payload : bytes) : option go_map :=
  stored ← UnmarshalProposal payload;
  if negb (bool_decide (MarshalProposal stored = Some payload)) then None
  else
    plan ← sp_proposal stored;
    if negb (gatewayUUID (pl_proposal_id plan)) || negb (gatewayUUID (pl_base_current_plan_id plan)) then None
    else
      preserved ← proposalSegmentsJSON (pl_preserved_prefix plan);
      revised ← proposalSegmentsJSON (pl_revised_suffix plan);
      reasons ← planReasonsJSON (sp_reasons stored);
      quality ← resultQualityJSON (sp_quality stored);
      Some (make_map [("proposal", proposal_identity plan preserved revised);
                      ("notification", JText (notificationJSON (sp_notification stored)));
                      ("reasons", JList reasons); ("stats", proposalStatsJSON (sp_stats stored));
                      ("quality", quality)]).

(** ** The payload of a state message *)

Definition sync_name (s : sync_state) : string :=
  match s with
  | SyncNotRequired => "not_required" | SyncPending => "pending" | SyncSynced => "synced"
  | SyncPausedInternal => "paused_internal"
  end.

(** The states of [sync_state] are the four names the code tests for. *)
Definition SubscriptionStatePayload (s : CanonicalTripState) (pendingProposal : bytes) (subscribed : bool)
    (runtimeSyncState : sync_state) : option go_map :=
  trip ← durableTripJSON s;
  currentPlan ← currentPlanJSON s;
  let payload := make_map [("subscribed", JBool subscribed); ("trip", JObject trip);
                           ("current_plan", JObject currentPlan);
                           ("runtime_sync_state", JText (sync_name runtimeSyncState))] in
  if zlen pendingProposal =? 0 then Some payload
  else
    proposal ← storedProposalJSON pendingProposal;
    Some (put_member "latest_pending_proposal" (JObject proposal) payload).

(** ** Envelopes *)

Record TripVersions := MkTripVersions {
  tv_TripRevision : string;
  tv_RuntimeEpoch : string;
  tv_PlannerStateVersion : string;
  tv_AcceptedMutationSequence : string;
  tv_AcceptedObservationSequence : string
}.
Definition ZeroTripVersions : TripVersions := MkTripVersions "0" "0" "0" "0" "0".

Definition StateVersions (s : CanonicalTripState) (r : RuntimeVersions) : TripVersions :=
  MkTripVersions (FormatInt (ct_TripRevision s)) (FormatInt (rv_RuntimeEpoch r))
    (FormatInt (rv_PlannerStateVersion r)) (FormatInt (rv_AcceptedMutationSequence r))
    (FormatInt (rv_AcceptedObservationSequence r)).

Definition statuses : list string :=
  ["OK"; "DUPLICATE"; "STALE"; "INVALID_ARGUMENT"; "UNAUTHENTICATED"; "PERMISSION_DENIED"; "NOT_FOUND";
   "IDEMPOTENCY_KEY_REUSED"; "INACTIVE_TRIP"; "RESOURCE_EXHAUSTED"; "DEADLINE_EXCEEDED"; "COMMAND_EXPIRED";
   "CANCELLED"; "INFEASIBLE"; "PROVIDER_UNAVAILABLE"; "DURABILITY_UNAVAILABLE"; "UNAVAILABLE";
   "UNSUPPORTED_VERSION"; "SNAPSHOT_NOT_READY"; "SNAPSHOT_INCOMPATIBLE"; "INTERNAL"; "MATRIX_TOO_LARGE"].
Definition validStatus (value : string) : bool := bool_decide (value ∈ statuses).

Definition canonicalUint64 (value : string) : bool :=
  if bool_decide (value = "0") then true
  else
    match bytes_of_string value with
    | [] => false
    | first :: _ =>
        if (20 <? Z.of_nat (String.length value)) || (byte_val first =? 48) then false
        else forallb (fun b => (48 <=? byte_val b) && (byte_val b <=? 57)) (bytes_of_string value)
    end.
Definition validTripVersions (v : TripVersions) : bool :=
  forallb canonicalUint64 [tv_TripRevision v; tv_RuntimeEpoch v; tv_PlannerStateVersion v;
                           tv_AcceptedMutationSequence v; tv_AcceptedObservationSequence v].
Definition validStaleReason (value : string) : bool :=
  bool_decide (value ∈ ["epoch"; "mutation_sequence"; "observation_sequence"; "trip_revision";
                        "planner_state_version"; "plan_proposal"]).

(** The members every envelope about a trip has; [id] is its fresh identifier. *)
Definition trip_envelope (id kind status : string) (retryable : bool) (tripID : string) (v : TripVersions)
    (payload : go_map) : go_map :=
  make_map [("protocol_version", JText ProtocolVersion); ("server_message_id", JText id);
            ("kind", JText kind); ("status", JText status); ("retryable", JBool retryable);
            ("trip_id", JText tripID); ("trip_revision", JText (tv_TripRevision v));
            ("runtime_epoch", JText (tv_RuntimeEpoch v));
            ("planner_state_version", JText (tv_PlannerStateVersion v));
            ("accepted_mutation_sequence", JText (tv_AcceptedMutationSequence v));
            ("accepted_observation_sequence", JText (tv_AcceptedObservationSequence v));
            ("payload", JObject payload)].

Definition state_kind (kind : string) : bool :=
  bool_decide (kind = "subscription_state") || bool_decide (kind = "resynchronization_state").

Definition BuildTripStateEnvelope (id kind status : string) (retryable : bool) (tripID messageID : string)
    (v : TripVersions) (payload : go_map) : option json :=
  if negb (state_kind kind) then None
  else if negb (gatewayUUID tripID) ||
          (negb (bool_decide (messageID = "")) && negb (gatewayUUID messageID)) ||
          negb (validStatus status) || negb (validTripVersions v) then None
  else
    let envelope := trip_envelope id kind status retryable tripID v payload in
    Some (JObject (if bool_decide (messageID = "") then envelope
                   else put_member "in_reply_to_message_id" (JText messageID) envelope)).

Definition BuildPlanProposalEnvelope (id tripID : string) (v : TripVersions) (payload : bytes) : option json :=
  if negb (gatewayUUID tripID) || negb (validTripVersions v) || (zlen payload =? 0) then None
  else
    proposal ← storedProposalJSON payload;
    Some (JObject (trip_envelope id "plan_proposal" "OK" false tripID v proposal)).

Definition disposition_valid (disposition : string) : bool :=
  bool_decide (disposition ∈ ["accepted"; "coalesced"; "dropped"; "rejected"]).

Definition BuildTelemetryStatusEnvelope (id tripID messageID : string) (v : TripVersions) (status : string)
    (retryable : bool) (disposition : string) (observationSequence : Z) : option json :=
  if negb (gatewayUUID tripID) || negb (gatewayUUID messageID) || negb (validTripVersions v) ||
     negb (validStatus status) || negb (disposition_valid disposition) then None
  else
    let payload := put_optional "observation_sequence"
      (if observationSequence =? 0 then None else Some (JText (FormatInt observationSequence)))
      (make_map [("message_id", JText messageID); ("disposition", JText disposition)]) in
    Some (JObject (put_member "in_reply_to_message_id" (JText messageID)
                     (trip_envelope id "telemetry_status" status retryable tripID v payload))).

(** The phase of a resolved command; a pending one has none. *)
Definition finalized_phase (s : intent_state) : option string :=
  match s with
  | IntentApplied => Some "planner_applied" | IntentRejected => Some "rejected"
  | IntentExpired => Some "expired" | IntentPending => None
  end.

Definition finalized_versions (f : FinalizedCommand) (r : RuntimeVersions) : TripVersions :=
  MkTripVersions (FormatInt (fc_ResultingTripRevision f)) (FormatInt (rv_RuntimeEpoch r))
    (FormatInt (fc_ResultingPlannerStateVersion f)) (FormatInt (rv_AcceptedMutationSequence r))
    (FormatInt (rv_AcceptedObservationSequence r)).

Definition BuildRuntimeCommandFinalizedEnvelope (id : string) (f : FinalizedCommand) (r : RuntimeVersions)
  : option json :=
  phase ← finalized_phase (fc_State f);
  let v := finalized_versions f r in
  if negb (gatewayUUID (fc_TripID f)) || negb (gatewayUUID (fc_EventID f)) || (fc_MutationSequence f =? 0) ||
     negb (validStatus (fc_Status f)) || negb (validTripVersions v) then None
  else
    Some (JObject (put_member "in_reply_to_message_id" (JText (fc_EventID f))
      (trip_envelope id "command_acknowledgement" (fc_Status f) false (fc_TripID f) v
         (make_map [("phase", JText phase); ("message_id", JText (fc_EventID f));
                    ("mutation_sequence", JText (FormatInt (fc_MutationSequence f)));
                    ("recovery_state", JText "current")])))).

Definition BuildTripErrorEnvelope (id tripID messageID : string) (v : TripVersions) (status : string)
    (retryable : bool) (safeMessage staleReason : string) : option json :=
  if negb (gatewayUUID tripID) || negb (gatewayUUID messageID) || negb (validStatus status) ||
     negb (validTripVersions v) || bool_decide (safeMessage = "") then None
  else if negb (bool_decide (staleReason = "")) && negb (validStaleReason staleReason) then None
  else
    let payload := put_optional "stale_reason"
      (if bool_decide (staleReason = "") then None else Some (JText staleReason))
      (make_map [("safe_message", JText safeMessage)]) in
    Some (JObject (put_member "in_reply_to_message_id" (JText messageID)
                     (trip_envelope id "error" status retryable tripID v payload))).

(** ** Outcomes *)

(** Phase, status, whether to try again, and the state of recovery. *)
Definition outcome_phase (o : CommandOutcome) : string :=
  match co_State o with
  | IntentApplied =>
      if bool_decide (co_RuntimeSyncState o = SyncPending) &&
         (bool_decide (co_Kind o = CommandTripEdited) || bool_decide (co_Kind o = CommandReplaceCurrentPlan))
      then "canonical_committed"
      else if bool_decide (co_RuntimeSyncState o = SyncSynced) then "runtime_synced"
      else "planner_applied"
  | IntentRejected => "rejected"
  | IntentExpired => "expired"
  | IntentPending => "durable_recorded"
  end.
Definition outcome_status (o : CommandOutcome) : string :=
  match co_State o with
  | IntentExpired => "COMMAND_EXPIRED"
  | _ => match co_OutcomeStatus o with
         | Some status => if validStatus status then status else "OK"
         | None => "OK"
         end
  end.
Definition outcome_recovery (o : CommandOutcome) : string :=
  if bool_decide (co_RuntimeSyncState o = SyncPending) || bool_decide (co_RuntimeSyncState o = SyncPausedInternal)
  then "not_advancing" else "current".
Definition commandOutcomeMetadata (o : CommandOutcome) : string * string * bool * string :=
  (outcome_phase o, outcome_status o, bool_decide (co_State o = IntentPending), outcome_recovery o).

(** The value [json.Unmarshal] gives an [any]: numbers are [float64]. *)
Fixpoint json_of_any (v : any) : option json :=
  match v with
  | ANull => Some JNull
  | ABool b => Some (JBool b)
  | ANumber t => JFloat <$> ParseFloat t
  | AString s => Some (JText (string_of_bytes s))
  | AArray l =>
      JList <$> (fix go l := match l with
                             | [] => Some []
                             | x :: l => y ← json_of_any x; rest ← go l; Some (y :: rest)
                             end) l
  | AObject ms =>
      (JObject ∘ make_map) <$>
        (fix go (ms : list (bytes * any)) := match ms with
                                             | [] => Some []
                                             | (k, x) :: ms =>
                                                 y ← json_of_any x; rest ← go ms; Some ((string_of_bytes k, y) :: rest)
                                             end) ms
  end.

Definition outcome_payload (raw : bytes) : option json :=
  Unmarshal (fun v => match v with AObject _ | ANull => json_of_any v | _ => None end) raw.

Definition BuildCommandOutcome (messageID : string) (o : CommandOutcome) : option go_map :=
  if negb (gatewayUUID messageID) then None
  else
    let '(phase, status, retryable, recovery) := commandOutcomeMetadata o in
    let value := make_map [("message_id", JText messageID); ("phase", JText phase); ("status", JText status);
                           ("retryable", JBool retryable);
                           ("mutation_sequence", JText (FormatInt (co_MutationSequence o)));
                           ("recovery_state", JText recovery)] in
    if zlen (co_OutcomePayload o) =? 0 then Some value
    else payload ← outcome_payload (co_OutcomePayload o); Some (put_member "outcome" payload value).

(** ** Observations *)

Record telemetryPayload := MkTelemetryPayload {
  kt_ObservationKind : string; kt_ObservedAt : Z; kt_Observation : option any
}.
Definition read_telemetry (v : any) : option telemetryPayload :=
  ms ← struct v;
  kind ← field "" json_string "observation_kind" ms;
  observed ← field 0 json_int64 "observed_at_unix_ms" ms;
  Some (MkTelemetryPayload kind observed (member "observation" ms)).

Definition finite (f : spec_float) : bool := negb (IsNaN f) && negb (IsInf f).
Definition located (l : createLocation) : bool :=
  finite (kl_Latitude l) && finite (kl_Longitude l) && negb (outside 90 (kl_Latitude l)) &&
  negb (outside 180 (kl_Longitude l)).
Definition pb_location (l : createLocation) : option PbLocation :=
  Some (MkPbLocation (kl_Latitude l) (kl_Longitude l)).

Definition observation_event (kind : string) (observation : option any) : option TripEvent :=
  if bool_decide (kind = "location") then
    l ← UnmarshalRaw read_location observation;
    if located l then Some (LocationUpdated (pb_location l)) else None
  else if bool_decide (kind = "velocity") then
    f ← UnmarshalRaw (fun v => ms ← struct v; field (S754_zero false) json_float "meters_per_second" ms) observation;
    if finite f && negb (SFltb f (S754_zero false)) then Some (VelocityUpdated f) else None
  else if bool_decide (kind = "heading") then
    f ← UnmarshalRaw (fun v => ms ← struct v; field (S754_zero false) json_float "degrees" ms) observation;
    if finite f && negb (SFltb f (S754_zero false)) && negb (SFltb (float64_of_pos false 360) f)
    then Some (HeadingUpdated f) else None
  else if bool_decide (kind = "route_deviation") then
    '(l, distance) ← UnmarshalRaw (fun v =>
       ms ← struct v;
       l ← field zero_location read_location "location" ms;
       distance ← field 0 json_uint64 "distance_from_route_meters" ms;
       Some (l, distance)) observation;
    if located l && (distance <=? 2 ^ 32 - 1) then Some (RouteDeviationDetected (pb_location l) (uint32 distance))
    else None
  else None.

Definition ParseTelemetryEvent (raw : bytes) : option (string * ApplyTripEvent) :=
  e ← Unmarshal (read_envelope (MkTelemetryPayload "" 0 None) read_telemetry) raw;
  let p := ke_Payload e in
  if negb (bool_decide (ke_ProtocolVersion e = ProtocolVersion)) ||
     negb (bool_decide (ke_Kind e = "telemetry_update")) || negb (gatewayUUID (ke_MessageID e)) ||
     negb (gatewayUUID (ke_TripID e)) || (kt_ObservedAt p =? 0) then None
  else
    event ← observation_event (kt_ObservationKind p) (kt_Observation p);
    Some (ke_MessageID e, MkApplyTripEvent "" (kt_ObservedAt p) None (Some event)).

End StateJson.
