(* ===== verification/Messages.v ===== *)
(** * Handling a client's message

    Models the message handling of [cmd/liveroute-backend/main.go]: what happens between
    the admission of a message and its answers, over the database, the runtime
    supervisor and the subscription hub, together with the hooks that publish finalized
    commands and proposals.  [ActivateRuntime] is [RuntimeSupervisor.Activate] as a whole: its
    sections of [Supervisor] around the acquisition of the lease and the bootstrap. *)

From S2P Require Import Prelude GoLib GoText Wire Schema Tables Leases Commands Finalization Proposals CanonicalState Canonical Bootstrap HttpText JsonText PlannerMessages StoredEvent Worker Dispatcher Supervisor Coordinators Places StrictJson Gateway ClientCommands Transport Adapters StateJson.

(** ** Errors *)

(** [MessageOther] is any error the code does not name, [ErrRuntimeCapacity] and
    [ErrRuntimeClosed] among them. *)
Inductive MessageError :=
| MessageStore (e : err)
| MessageExpired
| AccessDenied
| CapacityExhausted
| MessageOther.

Definition ErrorStatus (e : MessageError) : string * bool * string :=
  match e with
  | MessageStore ErrTripNotFound | MessageStore ErrPendingProposalNotFound => ("NOT_FOUND", false, "")
  | AccessDenied => ("PERMISSION_DENIED", false, "")
  | MessageStore ErrTripRevisionStale | MessageStore ErrProposalStale => ("STALE", false, "trip_revision")
  | MessageStore ErrIdempotencyKeyReused => ("IDEMPOTENCY_KEY_REUSED", false, "")
  | MessageExpired => ("COMMAND_EXPIRED", false, "")
  | MessageStore ErrCanonicalMirrorCapacity | CapacityExhausted => ("RESOURCE_EXHAUSTED", true, "")
  | MessageStore ErrDurableCommandBlocked | MessageStore ErrLeaseHeld | MessageStore ErrLeaseLost =>
      ("UNAVAILABLE", true, "")
  | MessageStore _ | MessageOther => ("INTERNAL", false, "")
  end.

Definition adapter_error (e : AdapterError) : MessageError :=
  match e with
  | StoreError e => MessageStore e
  | CommandExpired => MessageExpired
  | CommandKindUnsupported | MessageUnsupported | CommandInvalid _ => MessageOther
  end.

(** [canonicalUUID] of [main.go]: the test of [persistence.validCanonicalUUID]. *)
Definition mainUUID (value : string) : bool := validCanonicalUUID value.

(** [message.Message[name].(string)], the empty string if it is none. *)
Definition text_member (name : string) (m : AuthenticatedMessage) : string :=
  default "" (string_member name (am_Message m)).
Definition messageID (m : AuthenticatedMessage) : string := text_member "message_id" m.

Definition requestedMessageIDs (m : AuthenticatedMessage) : list string :=
  match member "payload" (am_Message m) with
  | Some (AObject payload) =>
      match member "outstanding_message_ids" payload with
      | Some (AArray values) =>
          omap (fun v => match v with AString s => Some (string_of_bytes s) | _ => None end) values
      | _ => []
      end
  | _ => []
  end.

Section Messages.
Context {PG : Postgres} {PP : PlannerProto} {QP : ProposalProto} {HJ : HttpJson}.

(** ** The world of a handler *)

(** An envelope as it is handed to a session; [About] is the marshalled map. *)
Inductive Envelope := About (m : go_map) | Acknowledged (raw : bytes).
Record Sent := MkSent { sn_sink : nat; sn_trip : string; sn_envelope : Envelope }.

Record World := MkWorld {
  wd_db : db;
  wd_calls : nat;
  wd_sup : Supervisor;
  wd_hub : SubscriptionHub;
  wd_sent : list Sent
}.

(** Everything the handlers do not decide: the database and the planner as for the
    workers, what other goroutines do to the supervisor and the hub, whether a session
    takes an envelope, and the random identifiers. *)
Record MessageEnv := MkMessageEnv {
  mx_worker : WorkerEnv;
  mx_sup : nat -> Supervisor -> Supervisor;
  mx_hub : nat -> SubscriptionHub -> SubscriptionHub;
  mx_takes : nat -> nat -> bool;
  mx_random : nat -> bytes
}.

Record Settings := MkSettings {
  st_holderID : string;
  st_leaseDuration : Z;
  st_timeout : Z;
  st_maxActiveTrips : Z;
  st_maxPendingCanonicalMirror : Z
}.

Definition hm (A : Type) : Type := World -> (MessageError + A) * World.
#[global] Instance hm_ret : MRet hm := fun _ a w => (inr a, w).
#[global] Instance hm_bind : MBind hm := fun _ _ f m w =>
  match m w with (inl e, w) => (inl e, w) | (inr a, w) => f a w end.
Definition throw {A} (e : MessageError) : hm A := fun w => (inl e, w).
Definition caught {A} (m : hm A) : hm (MessageError + A) := fun w => let '(r, w) := m w in (inr r, w).
Definition required {A} (o : option A) : hm A := match o with Some a => mret a | None => throw MessageOther end.
Definition set_db (d : db) (calls : nat) (w : World) : World :=
  MkWorld d calls (wd_sup w) (wd_hub w) (wd_sent w).

Context (env : MessageEnv) (rfc8785 : any -> option bytes) (settings : Settings).
Abbreviation we := (mx_worker env).

(** A call of a store. *)
Definition ask_store {A} (m : (nat -> Z) -> tx A) : hm A := fun w =>
  let n := wd_calls w in
  let d := we_others we n (wd_db w) in
  match we_fault we n with
  | Unreached => (inl (MessageStore unreachable), set_db d (S n) w)
  | AnswerLost => (inl (MessageStore unreachable), set_db (run_tx (m (we_clk we n)) d).2 (S n) w)
  | Works =>
      let '(r, d) := run_tx (m (we_clk we n)) d in
      (match r with Ok a => inr a | Err e => inl (MessageStore e) end, set_db d (S n) w)
  end.

(** A section under the supervisor's or the hub's mutex. *)
Definition with_sup {A} (f : Supervisor -> A * Supervisor) : hm A := fun w =>
  let n := wd_calls w in
  let '(a, s) := f (mx_sup env n (wd_sup w)) in
  (inr a, MkWorld (wd_db w) (S n) s (wd_hub w) (wd_sent w)).
Definition with_hub {A} (f : SubscriptionHub -> A * SubscriptionHub) : hm A := fun w =>
  let n := wd_calls w in
  let '(a, h) := f (mx_hub env n (wd_hub w)) in
  (inr a, MkWorld (wd_db w) (S n) (wd_sup w) h (wd_sent w)).

Definition freshID : hm string := fun w =>
  (inr (newAuthUUID (mx_random env (wd_calls w))),
   MkWorld (wd_db w) (S (wd_calls w)) (wd_sup w) (wd_hub w) (wd_sent w)).

(** [message.Sink.PublishServerEnvelope]. *)
Definition send (sink : nat) (tripID : string) (e : Envelope) : hm unit := fun w =>
  if mx_takes env (wd_calls w) sink
  then (inr tt, MkWorld (wd_db w) (S (wd_calls w)) (wd_sup w) (wd_hub w) (wd_sent w ++ [MkSent sink tripID e]))
  else (inl CapacityExhausted, MkWorld (wd_db w) (S (wd_calls w)) (wd_sup w) (wd_hub w) (wd_sent w)).

(** The last step of every builder, [json.Marshal]. *)
Definition built (o : option json) : hm go_map :=
  match o with
  | Some (JObject m) => if is_null (json_marshal (JObject m)) then throw MessageOther else mret m
  | _ => throw MessageOther
  end.

(** ** [RuntimeSupervisor.Activate] *)

Definition run_bootstrap (tripID : string) : hm ResolvedCanonicalBootstrap := fun w =>
  let '(r, k) := RunBootstrap we (st_holderID settings) (st_timeout settings) tripID
                   (MkWorker (wd_db w) (wd_calls w) []) in
  (match r with Ok b => inr b | Err e => inl (MessageStore e) end, set_db (wk_db k) (wk_calls k) w).

Definition bring_up (tripID : string) : hm (RuntimeLease * ResolvedCanonicalBootstrap) :=
  lease ← ask_store (fun clk => Acquire clk tripID (st_holderID settings) (st_leaseDuration settings));
  bootstrap ← run_bootstrap tripID;
  mret (lease, bootstrap).

(** The error kept for those who wait; any other than of a store is an error of the
    caller's context. *)
Definition kept_error (e : MessageError) : err :=
  match e with MessageStore e => e | _ => unreachable end.

Definition ActivateRuntime (tripID : string) : hm unit :=
  if negb (dispatchUUID tripID) then throw MessageOther
  else
    began ← with_sup (activate_begin (st_maxActiveTrips settings) tripID);
    match began with
    | BeginClosed | BeginCapacity => throw MessageOther
    | BeginActive => mret tt
    | BeginWaits n =>
        result ← with_sup (fun s => (su_done s !! n, s));
        match result with
        | Some Activated => mret tt
        | Some (ActivationFailed e) => throw (MessageStore e)
        | Some ActivationClosed | None => throw MessageOther
        end
    | Begun n =>
        answer ← caught (bring_up tripID);
        match answer with
        | inl e => _ ← with_sup (fun s => (tt, activate_failed tripID n (kept_error e) s)); throw e
        | inr (lease, bootstrap) =>
            started ← with_sup (activate_finish tripID n (rl_RuntimeEpoch lease) (bs_AcceptedMutationSequence bootstrap));
            if started : bool then mret tt else throw MessageOther
        end
    end.

(** ** Reading *)

Definition authorizedState (tripID userID : string) : hm CanonicalTripState :=
  state ← ask_store (fun _ => Load tripID);
  if bool_decide (ct_OwnerUserID state = userID) then mret state else throw AccessDenied.

Definition pendingProposal (tripID : string) : hm bytes :=
  answer ← caught (ask_store (fun _ => LatestPendingPayload tripID));
  match answer with
  | inr payload => mret payload
  | inl (MessageStore ErrPendingProposalNotFound) => mret []
  | inl e => throw e
  end.

Definition no_versions : RuntimeVersions := MkVersions 0 0 0 0.
Definition runtimeVersions (tripID : string) : hm RuntimeVersions :=
  with_sup (fun s => (default no_versions (RuntimeState tripID s), s)).

Definition runtimeSyncState (state : CanonicalTripState) (runtime : RuntimeVersions) (tripID : string) : hm sync_state :=
  if negb (rv_RuntimeEpoch runtime =? 0) then
    mret (if rv_AcceptedMutationSequence runtime <? ct_FinalizedMutationSequence state then SyncPending else SyncSynced)
  else ask_store (fun _ => RuntimeSyncState tripID).

(** Everything that is read for a state message. *)
Definition read_state (state : CanonicalTripState) (tripID : string) (subscribed : bool)
  : hm (RuntimeVersions * go_map) :=
  pending ← pendingProposal tripID;
  runtime ← runtimeVersions tripID;
  sync ← runtimeSyncState state runtime tripID;
  payload ← required (SubscriptionStatePayload state pending subscribed sync);
  mret (runtime, payload).

Definition unknown_outcome (id : string) : go_map :=
  make_map [("message_id", JText id); ("phase", JText "rejected"); ("status", JText "NOT_FOUND");
            ("retryable", JBool false); ("recovery_state", JText "current")].

(** [byMessageID[outcome.MessageID] = outcome]: the last of an identifier is kept. *)
Definition by_message (stored : list CommandOutcome) : gmap string CommandOutcome :=
  fold_left (fun m o => <[co_MessageID o := o]> m) stored ∅.
Definition outcome_json (byMessageID : gmap string CommandOutcome) (id : string) : option json :=
  match byMessageID !! id with
  | None => Some (JObject (unknown_outcome id))
  | Some o => JObject <$> BuildCommandOutcome id o
  end.

Definition commandsOutcomes (tripID : string) (requested : list string) : hm (list json) :=
  if zlen requested =? 0 then mret []
  else
    stored ← ask_store (fun _ => LoadOutcomes tripID requested);
    required (mapM (outcome_json (by_message stored)) requested).

(** ** Answers *)

Definition safe_message : string := "request could not be completed".

Definition publishError (m : AuthenticatedMessage) (e : MessageError) : hm unit :=
  let tripID := text_member "trip_id" m in
  if negb (mainUUID tripID) || negb (mainUUID (messageID m)) then mret tt
  else
    let '(status, retryable, stale) := ErrorStatus e in
    id ← freshID;
    _ ← caught (envelope ← built (BuildTripErrorEnvelope id tripID (messageID m) ZeroTripVersions status retryable
                                    safe_message stale);
                send (am_Sink m) tripID (About envelope));
    mret tt.

(** The versions shown to the sender: zeros unless the trip loads and is the sender's. *)
Definition shown_versions (m : AuthenticatedMessage) (tripID : string) : hm TripVersions :=
  loaded ← caught (ask_store (fun _ => Load tripID));
  match loaded with
  | inr state =>
      if bool_decide (ct_OwnerUserID state = am_UserID m) then
        runtime ← runtimeVersions tripID; mret (StateVersions state runtime)
      else mret ZeroTripVersions
  | inl _ => mret ZeroTripVersions
  end.

Definition publishErrorWithState (m : AuthenticatedMessage) (e : MessageError) : hm unit :=
  let tripID := text_member "trip_id" m in
  if negb (mainUUID tripID) || negb (mainUUID (messageID m)) then mret tt
  else
    versions ← shown_versions m tripID;
    let '(status, retryable, stale) := ErrorStatus e in
    id ← freshID;
    _ ← caught (envelope ← built (BuildTripErrorEnvelope id tripID (messageID m) versions status retryable
                                    safe_message stale);
                send (am_Sink m) tripID (About envelope));
    mret tt.

Definition publishTelemetryFailure (m : AuthenticatedMessage) (e : MessageError) : hm unit :=
  let tripID := text_member "trip_id" m in
  if negb (mainUUID tripID) || negb (mainUUID (messageID m)) then throw e
  else
    let '(status, retryable, _) := ErrorStatus e in
    let '(status, retryable) :=
      if bool_decide (status = "INTERNAL") then ("UNAVAILABLE", true) else (status, retryable) in
    versions ← shown_versions m tripID;
    id ← freshID;
    envelope ← caught (built (BuildTelemetryStatusEnvelope id tripID (messageID m) versions status retryable "rejected" 0));
    match envelope with
    | inl _ => throw e
    | inr envelope => send (am_Sink m) tripID (About envelope)
    end.

Definition publishTelemetryAdmissionDrop (m : AuthenticatedMessage) : hm unit :=
  let tripID := text_member "trip_id" m in
  if negb (mainUUID tripID) || negb (mainUUID (messageID m)) then mret tt
  else
    id ← freshID;
    _ ← caught (envelope ← built (BuildTelemetryStatusEnvelope id tripID (messageID m) ZeroTripVersions
                                    "RESOURCE_EXHAUSTED" true "dropped" 0);
                send (am_Sink m) tripID (About envelope));
    mret tt.

Definition publishSubscriptionState (m : AuthenticatedMessage) (subscribed : bool) : hm unit :=
  let tripID := text_member "trip_id" m in
  state ← authorizedState tripID (am_UserID m);
  '(runtime, payload) ← read_state state tripID subscribed;
  id ← freshID;
  envelope ← built (BuildTripStateEnvelope id "subscription_state" "OK" false tripID (messageID m)
                      (StateVersions state runtime) payload);
  send (am_Sink m) tripID (About envelope).

(** ** Handlers *)

Definition subscribe (tripID : string) (sink : nat) : hm unit :=
  answer ← with_hub (Subscribe tripID sink);
  match answer with
  | Subscribed => mret tt
  | SubscriptionInvalid => throw MessageOther
  | SubscriptionCapacity => throw CapacityExhausted
  end.

Definition handleSubscribe (m : AuthenticatedMessage) (wanted : bool) : hm unit :=
  let tripID := text_member "trip_id" m in
  _ ← authorizedState tripID (am_UserID m);
  _ ← (if wanted then _ ← ActivateRuntime tripID; subscribe tripID (am_Sink m)
       else with_hub (fun h => (tt, Unsubscribe tripID (am_Sink m) h)));
  publishSubscriptionState m wanted.

Definition handleResynchronize (m : AuthenticatedMessage) : hm unit :=
  let tripID := text_member "trip_id" m in
  _ ← authorizedState tripID (am_UserID m);
  _ ← ActivateRuntime tripID;
  _ ← subscribe tripID (am_Sink m);
  state ← authorizedState tripID (am_UserID m);
  '(runtime, payload) ← read_state state tripID true;
  outcomes ← commandsOutcomes tripID (requestedMessageIDs m);
  let payload := put_member "outcomes" (JList outcomes) (delete_member "subscribed" payload) in
  id ← freshID;
  envelope ← built (BuildTripStateEnvelope id "resynchronization_state" "OK" false tripID (messageID m)
                      (StateVersions state runtime) payload);
  send (am_Sink m) tripID (About envelope).

(** [telemetry.Dispatch]. *)
Definition dispatch_observation (tripID : string) (event : ApplyTripEvent)
  : hm ((TelemetryError + PlannerStreamResponse) * Z) := fun w =>
  let n := wd_calls w in
  let '(r, sequence, s) :=
    DispatchTelemetry (we_exchange we n) (we_random we n) (UnixMilli (we_now we n + st_timeout settings))
      (mx_sup env (S n)) tripID event (mx_sup env n (wd_sup w)) in
  (inr (r, sequence), MkWorld (wd_db w) (S (S n)) s (wd_hub w) (wd_sent w)).

Definition handleTelemetry (m : AuthenticatedMessage) : hm unit :=
  let tripID := text_member "trip_id" m in
  _ ← authorizedState tripID (am_UserID m);
  activated ← caught (ActivateRuntime tripID);
  match activated with
  | inl e => publishTelemetryFailure m e
  | inr _ =>
      '(clientMessageID, event) ← required (ParseTelemetryEvent (am_Raw m));
      if negb (bool_decide (clientMessageID = messageID m)) then throw MessageOther
      else
        '(answer, sequence) ← dispatch_observation tripID event;
        match answer with
        | inl _ => publishTelemetryFailure m MessageOther
        | inr response =>
            let '(disposition, status, retryable) := TelemetryDisposition (Some response) in
            runtime ← runtimeVersions tripID;
            state ← authorizedState tripID (am_UserID m);
            id ← freshID;
            envelope ← built (BuildTelemetryStatusEnvelope id tripID (messageID m) (StateVersions state runtime)
                                status retryable disposition sequence);
            send (am_Sink m) tripID (About envelope)
        end
  end.

(** The dispatcher's adapters under this environment, from call [n] on. *)
Definition adapter_env (n : nat) : AdapterEnv :=
  MkAdapterEnv (fun k => we_others we (n + k))
    (fun k => match we_fault we (n + k) with
              | Works => CallWorks | Unreached => CallUnreached | AnswerLost => CallAnswerLost
              end)
    (fun k => we_clk we (n + k)) (we_now we n) (fun k => mx_random env (n + k)).

Definition dispatch_command (m : AuthenticatedMessage) : hm bytes := fun w =>
  let n := wd_calls w in
  let '(r, d) := DispatchCommand (adapter_env n) rfc8785 (st_maxPendingCanonicalMirror settings) m (wd_db w) in
  (match r with inl e => inl (adapter_error e) | inr raw => inr raw end, set_db d (n + 10) w).

(** A command: its trip is activated before, or after it was created. *)
Definition handleCommand (m : AuthenticatedMessage) (kind : string) : hm unit :=
  let tripID := text_member "trip_id" m in
  _ ← (if bool_decide (kind = "create_trip") then mret tt else ActivateRuntime tripID);
  raw ← dispatch_command m;
  _ ← caught (send (am_Sink m) tripID (Acknowledged raw));
  if bool_decide (kind = "create_trip") then _ ← caught (ActivateRuntime tripID); mret tt else mret tt.

Definition handler (m : AuthenticatedMessage) : hm unit :=
  let kind := text_member "kind" m in
  if bool_decide (kind = "subscribe_trip") then handleSubscribe m true
  else if bool_decide (kind = "unsubscribe_trip") then handleSubscribe m false
  else if bool_decide (kind = "resynchronize_trip") then handleResynchronize m
  else if bool_decide (kind = "telemetry_update") then handleTelemetry m
  else handleCommand m kind.

(** Every error is answered. *)
Definition handleMessage (m : AuthenticatedMessage) (w : World) : World :=
  match handler m w with
  | (inr _, w) => w
  | (inl e, w) => (publishErrorWithState m e w).2
  end.

(** A message that was not admitted. *)
Definition handleRefused (m : AuthenticatedMessage) (e : MessageError) (w : World) : World :=
  (if bool_decide (text_member "kind" m = "telemetry_update") then publishTelemetryAdmissionDrop m w
   else publishError m e w).2.

(** ** Publication to the subscribers of a trip *)

(** [SubscriptionHub.PublishTrip]: one envelope to every subscribed session; the answer
    is whether all of them took it. *)
Definition publish_trip (tripID : string) (envelope : go_map) : hm bool := fun w =>
  let n := wd_calls w in
  let hub := mx_hub env n (wd_hub w) in
  match json_marshal (JObject envelope) with
  | None => (inl MessageOther, w)
  | Some raw =>
      match publish_targets tripID raw hub with
      | None => (inr false, MkWorld (wd_db w) (S n) (wd_sup w) hub (wd_sent w))
      | Some sinks =>
          let '(all, hub') := PublishTrip (mx_takes env n) (fun _ h => h) tripID raw hub in
          (inr all, MkWorld (wd_db w) (S n) (wd_sup w) hub'
             (wd_sent w ++ ((fun sink => MkSent sink tripID (About envelope)) <$> List.filter (mx_takes env n) sinks)))
      end
  end.

Definition broadcastSubscriptionState (tripID : string) : hm unit :=
  state ← ask_store (fun _ => Load tripID);
  '(runtime, payload) ← read_state state tripID true;
  id ← freshID;
  envelope ← built (BuildTripStateEnvelope id "subscription_state" "OK" false tripID ""
                      (StateVersions state runtime) payload);
  _ ← publish_trip tripID envelope;
  mret tt.

(** The hook of the dispatcher: versions, acknowledgement, new state. *)
Definition onRuntimeFinalized (f : FinalizedCommand) (response : PlannerStreamResponse) : hm unit :=
  _ ← with_sup (CommitMutation (fc_TripID f) (ps_runtime_epoch response) (ps_accepted_mutation_sequence response)
                  (ps_planner_state_version response));
  id ← freshID;
  answer ← caught (built (BuildRuntimeCommandFinalizedEnvelope id f
    (MkVersions (ps_runtime_epoch response) 0 (ps_accepted_mutation_sequence response)
       (ps_accepted_observation_sequence response))));
  match answer with
  | inl _ => mret tt
  | inr envelope =>
      _ ← caught (publish_trip (fc_TripID f) envelope);
      _ ← caught (broadcastSubscriptionState (fc_TripID f));
      mret tt
  end.

(** The hook of the proposal consumer; its error is the consumer's. *)
Definition response_versions (response : PlannerStreamResponse) : TripVersions :=
  MkTripVersions (FormatInt (ps_trip_revision response)) (FormatInt (ps_runtime_epoch response))
    (FormatInt (ps_planner_state_version response)) (FormatInt (ps_accepted_mutation_sequence response))
    (FormatInt (ps_accepted_observation_sequence response)).
Definition onStored (p : PersistedProposal) (response : PlannerStreamResponse) : hm unit :=
  id ← freshID;
  envelope ← built (BuildPlanProposalEnvelope id (pd_TripID p) (response_versions response) (pd_Payload p));
  all ← publish_trip (pd_TripID p) envelope;
  if all : bool then mret tt else throw MessageOther.

End Messages.
