(* ===== verification/MessageFacts.v ===== *)
(** * Ownership and what the handlers may send

    Every step of the system keeps the owners of the trips.  On top of it, a logic for
    the handlers of [Messages]: an operation is [safe] if it takes the database along
    steps of the system and keeps the subscriptions and the envelopes sent so far within
    what the owners of the trips may see. *)

From S2P Require Import Prelude GoLib GoText Wire Schema Tables Leases Commands Finalization Mutations Proposals Decisions OutboxStore CanonicalState Canonical CanonicalFacts Mirror Snapshots Bootstrap CanonicalLoad System HttpText JsonText PlannerMessages StoredEvent Worker Dispatcher Supervisor Coordinators CoordinatorProps Places StrictJson Gateway GatewayProps ClientCommands Transport Adapters AdapterProps StateJson Messages.

Create HintDb messages.

(** ** The owners of trips *)

Section Owners.
Context {PG : Postgres}.

(** Every trip stays and keeps its owner. *)
Definition owners_kept (d d' : db) : Prop := forall k t, trips d !! k = Some t ->
  exists t', trips d' !! k = Some t' /\ t_owner_user_id t' = t_owner_user_id t.

#[global] Instance owners_kept_preorder : PreOrder owners_kept.
Proof.
  split; [intros d k t Ht; by exists t|]. intros d d1 d2 H H' k t Ht.
  destruct (H k t Ht) as (t1 & Ht1 & <-). apply H'. done.
Qed.

Lemma owners_same d d' : trips d' = trips d -> owners_kept d d'.
Proof. intros E k t Ht. exists t. by rewrite E. Qed.

Lemma owners_update d d' k0 t0 t0' : trips d' = <[k0 := t0']> (trips d) -> trips d !! k0 = Some t0 ->
  t_owner_user_id t0' = t_owner_user_id t0 -> owners_kept d d'.
Proof.
  intros E H0 Ho k t Ht. rewrite E. destruct (decide (k = k0)) as [->|Hne].
  - exists t0'. rewrite lookup_insert_eq. split; [done|]. congruence.
  - exists t. by rewrite lookup_insert_ne.
Qed.

Lemma owners_insert d d' k0 t0' : trips d' = <[k0 := t0']> (trips d) -> trips d !! k0 = None -> owners_kept d d'.
Proof.
  intros E H0 k t Ht. exists t. rewrite E. rewrite lookup_insert_ne; [done|]. intros ->. congruence.
Qed.

Lemma decision_owners clk accept r d c d' :
  finalizeProposalDecision clk accept r d = Ok (c, d') -> owners_kept d d'.
Proof.
  intros H. apply finalizeProposalDecision_ok in H as [[_ ->]|(t & plan_id & i & o & p & payload & H & _)]; [done|].
  destruct H as [_ Ht _ _ _ _ _ _ _ _ _ _ _ _ _ _ _ _ ->]. by eapply owners_update.
Qed.

Lemma lease_owners releases d d' : lease_step releases d d' -> owners_kept d d'.
Proof.
  intros [clk tr ho du d0 r d1 H|clk tr ho ep du d0 r d1 H|tr ho ep d0 u d1 _ H]; apply owners_same.
  - unfold Acquire, uuid_param in H. inv_tx.
    match goal with H : lockTrip _ _ = _ |- _ => apply lockTrip_ok in H as (_ & _ & ->) end.
    destruct (leases _ !! _) as [current|]; [|by inv_tx]. repeat (case_match; inv_tx).
    by match goal with H : stale_old_proposals _ _ _ _ = _ |- _ => apply update_proposals_ok in H as [_ ->] end.
  - by apply Renew_ok in H as (? & ? & _ & _ & _ & _ & _ & _ & ->).
  - by apply Release_ok in H as (? & ? & _ & _ & _ & _ & ->).
Qed.

Lemma create_owners clk r d c d' : CreateTrip clk r d = Ok (c, d') -> owners_kept d d'.
Proof.
  intros H. apply CreateTrip_ok in H as [[-> _]|(zone & d2 & d3 & H)]; [done|].
  destruct H as [_ Hnew _ Hdr Hdl _ (i & _ & _ & ->)]. apply ds_frame in Hdr as [_ Et _ _ _ _ _ _].
  apply dl_frame in Hdl. eapply owners_insert; [|exact Hnew]. simpl. rewrite Hdl. simpl. by rewrite Et.
Qed.

Lemma edit_owners clk e d c d' : run_edit clk e d = Ok (c, d') -> owners_kept d d'.
Proof.
  intros H. apply run_edit_ok in H as [[-> _]|(t & cp & current & d1 & H)]; [done|].
  destruct H as [Had _ _ Hst Hpub]. apply edit_statements_frame in Hst as [_ Et _ _ _ _ _ _]. simpl in *.
  destruct Had as [Ht _ _ _ _ _ _ _ _ _]. destruct Hpub as [_ _ (command & outcome & event & _ & _ & _ & ->) _].
  eapply owners_update; [simpl; by rewrite Et|exact Ht|done].
Qed.

Lemma claimed_owners id owner attempt now f d u d' :
  update_claimed id owner attempt now f d = Ok (u, d') -> owners_kept d d'.
Proof. unfold update_claimed. intros H. inv_tx. by apply owners_same. Qed.

Lemma step_owners d d' : step d d' -> owners_kept d d'.
Proof.
  intros [].
  - by eapply lease_owners.
  - match goal with H : RecordRuntimeFirst _ _ _ = _ |- _ =>
      apply RecordRuntimeFirst_ok in H as [[-> _]|(t & payload & event & [_ Ht _ _ _ _ _ _ _ _ -> _])] end;
      [done|by eapply owners_update].
  - match goal with H : FinalizeTerminal _ _ _ = _ |- _ =>
      apply FinalizeTerminal_ok in H as [[_ ->]|(t & i & o & payload & [_ Ht _ _ _ _ _ _ _ _ _ _ _ _ _ _ ->] & _)] end;
      [done|by eapply owners_update].
  - match goal with H : ConfirmFinalizedMutations _ _ _ _ = _ |- _ =>
      unfold ConfirmFinalizedMutations, lock_trip_row in H end. inv_tx. case_match; inv_tx; [|done]. by apply owners_same.
  - match goal with H : FinalizeAcceptedMutation _ _ _ = _ |- _ =>
      apply FinalizeAcceptedMutation_ok in H as [[_ ->]|(kind & t & i & o & payload & d1 & Hx & _)] end; [done| |done].
    destruct Hx as [_ Ht _ _ _ _ _ _ _ _ _ _ _ _ _ _ _ Happ ->].
    apply applyAcceptedMutation_frame in Happ as [_ Et _ _ _ _ _ _].
    eapply owners_update; [simpl; by rewrite Et|exact Ht|done].
  - match goal with H : Persist _ _ _ = _ |- _ =>
      apply Persist_ok in H as [[_ ->]|(t & l & [_ Ht _ _ _ _ _ _ ->] & _)] end; [done|by apply owners_same].
  - match goal with H : FinalizeProposalAcceptance _ _ _ = _ |- _ =>
      apply FinalizeProposalAcceptance_ok in H as
        [[_ ->]|(t & i & o & p & plan & plan_id & body & checksum & payload & Hx & _)] end; [done|].
    destruct Hx as [_ _ Ht _ _ _ _ _ _ _ _ _ _ _ _ _ _ _ _ _ _ _ _ _ _ _ _ _ ->]. by eapply owners_update.
  - match goal with H : FinalizeProposalRejection _ _ _ = _ |- _ => unfold FinalizeProposalRejection in H end.
    inv_tx. by eapply decision_owners.
  - by eapply decision_owners.
  - match goal with H : ClaimDue _ _ _ _ _ _ = _ |- _ => unfold ClaimDue in H end.
    repeat case_match; simplify_eq; try done. by apply owners_same.
  - match goal with H : ReleaseForRetry _ _ _ _ _ _ = _ |- _ => unfold ReleaseForRetry, uuid_param in H end.
    inv_tx. by eapply claimed_owners.
  - match goal with H : PauseInternal _ _ _ _ _ = _ |- _ => unfold PauseInternal, uuid_param in H end.
    inv_tx. by eapply claimed_owners.
  - by eapply create_owners.
  - by eapply edit_owners.
  - match goal with H : FinalizeCanonicalMirror _ _ _ = _ |- _ => unfold FinalizeCanonicalMirror in H end.
    match goal with H : context [mirror_tx ?c ?r d] |- _ => destruct (mirror_tx c r d) as [[a d1]|e] eqn:E end;
      simplify_eq; [|done].
    apply mirror_tx_ok in E as (i & o & [_ _ Hi _ _ Ho _ _] & Hb). unfold mirror_body, pauseCanonicalMirror in Hb.
    repeat case_match; inv_op; try done; by apply owners_same.
  - match goal with H : PersistSnapshot _ _ _ = _ |- _ => apply PersistSnapshot_ok in H
      as (_ & t & _ & [(-> & _)|(_ & _ & _ & _ & _ & valid & invalid & Hx)]) end; [done|].
    rewrite (sg_result _ _ _ _ _ _ Hx). by apply owners_same.
  - match goal with H : invalidate _ _ _ _ = _ |- _ => unfold invalidate, invalidate_row, lock_trip_row in H end.
    inv_tx. by apply owners_same.
  - match goal with H : ResolveCanonicalBootstrap _ _ _ = _ |- _ =>
      apply ResolveCanonicalBootstrap_ok in H as (t & H); rewrite (cv_result _ _ _ _ _ _ H) end. by apply owners_same.
Qed.

Lemma steps_owners d d' : rtc step d d' -> owners_kept d d'.
Proof. induction 1; [done|]. etransitivity; [by apply step_owners|done]. Qed.

Lemma owned_steps tripID user d d' : rtc step d d' -> owned_by tripID user d -> owned_by tripID user d'.
Proof.
  intros H%steps_owners (t & Ht & <-). destruct (H _ _ Ht) as (t' & Ht' & Eo). by exists t'.
Qed.

End Owners.

(** ** The sinks of a trip *)

Lemma Subscribe_sinks tripID sink hub t s :
  s ∈ trip_sinks (Subscribe tripID sink hub).2 t -> s ∈ trip_sinks hub t \/ (t = tripID /\ s = sink).
Proof.
  unfold Subscribe. destruct (negb _); [by left|].
  assert (Hkeep : forall t, default ∅ (<[tripID := trip_sinks hub tripID]> (hb_byTrip hub) !! t) = trip_sinks hub t).
  { intros t0. rewrite lookup_insert. by case_decide; subst. }
  case_bool_decide; [simpl; unfold trip_sinks at 1; simpl; rewrite Hkeep; by left|]. destruct (_ <=? _); simpl.
  - unfold trip_sinks at 1. simpl. rewrite Hkeep. by left.
  - unfold trip_sinks at 1. simpl. rewrite lookup_insert. case_decide as E; subst.
    + simpl. rewrite elem_of_union, elem_of_singleton. naive_solver.
    + rewrite Hkeep. by left.
Qed.
Lemma Unsubscribe_sinks tripID sink hub t s : s ∈ trip_sinks (Unsubscribe tripID sink hub) t -> s ∈ trip_sinks hub t.
Proof.
  unfold Unsubscribe. destruct (negb _); [done|]. rewrite removeLocked_sinks. case_bool_decide; set_solver.
Qed.
Lemma RemoveSink_subset sink hub t s : s ∈ trip_sinks (RemoveSink sink hub) t -> s ∈ trip_sinks hub t.
Proof. rewrite RemoveSink_sinks. case_bool_decide; set_solver. Qed.
Lemma PublishTrip_sinks publish tripID raw hub t s :
  s ∈ trip_sinks (PublishTrip publish (fun _ h => h) tripID raw hub).2 t -> s ∈ trip_sinks hub t.
Proof.
  unfold PublishTrip. destruct (publish_targets _ _ _) as [sinks|]; [|done]. revert hub.
  induction sinks as [|x sinks IH]; intros hub; [done|]. simpl. destruct (publish x); [apply IH|].
  simpl. intros H%IH. by eapply Unsubscribe_sinks.
Qed.

(** ** What may be sent *)

Section Safe.
Context {PG : Postgres} {PP : PlannerProto} {QP : ProposalProto} {HJ : HttpJson}.

(** The user a session was authenticated for. *)
Context (sessions : nat -> string).

(** Only sessions of its owner are subscribed to a trip. *)
Definition private (hub : SubscriptionHub) (d : db) : Prop := forall tripID sink,
  sink ∈ trip_sinks hub tripID -> owned_by tripID (sessions sink) d.

(** An error or a refused observation with zeros for the trip's versions. *)
Definition says_nothing (e : Envelope) : Prop := exists m, e = About m /\
  (get_member "kind" m = Some (JText "error") \/ get_member "kind" m = Some (JText "telemetry_status")) /\
  Forall (fun name => get_member name m = Some (JText "0"))
    ["trip_revision"; "runtime_epoch"; "planner_state_version"; "accepted_mutation_sequence";
     "accepted_observation_sequence"].

Definition proper (d : db) (s : Sent) : Prop :=
  owned_by (sn_trip s) (sessions (sn_sink s)) d \/ says_nothing (sn_envelope s).

Record fine (w : World) : Prop := {
  fi_private : private (wd_hub w) (wd_db w);
  fi_sent : Forall (proper (wd_db w)) (wd_sent w)
}.

Lemma private_steps hub d d' : rtc step d d' -> private hub d -> private hub d'.
Proof. intros Hs H tripID sink Hin. eapply owned_steps; [exact Hs|by apply H]. Qed.
Lemma proper_steps d d' s : rtc step d d' -> proper d s -> proper d' s.
Proof. intros Hs [H|H]; [left; by eapply owned_steps|by right]. Qed.
Lemma fine_steps w d calls : rtc step (wd_db w) d -> fine w -> fine (set_db d calls w).
Proof.
  intros Hs [Hp Hf]. constructor; simpl; [by eapply private_steps|].
  eapply Forall_impl; [exact Hf|]. intros s. by apply proper_steps.
Qed.

(** An operation from a world in which [G] holds of the database. *)
Definition safe {A} (G : db -> Prop) (m : hm A) (Q : A -> db -> Prop) : Prop := forall w r w',
  fine w -> G (wd_db w) -> m w = (r, w') ->
  fine w' /\ rtc step (wd_db w) (wd_db w') /\ (forall a, r = inr a -> Q a (wd_db w')).

(** A property of the database that steps keep. *)
Class Stable (G : db -> Prop) : Prop := stable_steps d d' : rtc step d d' -> G d -> G d'.
#[global] Instance stable_true : Stable (fun _ => True).
Proof. by intros d d' _ _. Qed.
#[global] Instance stable_owned tripID user : Stable (owned_by tripID user).
Proof. intros d d'. apply owned_steps. Qed.

Abbreviation any := (fun _ _ => True).

Lemma safe_ret {A} G (a : A) : safe G (mret a) any.
Proof. intros w r w' Hf _ [= <- <-]. done. Qed.
Lemma safe_throw {A} G e Q : safe G (throw e : hm A) Q.
Proof. intros w r w' Hf _ [= <- <-]. done. Qed.
Lemma safe_required {A} G (o : option A) : safe G (required o) any.
Proof. destruct o; [apply safe_ret|apply safe_throw]. Qed.

Lemma safe_bind {A B} G `{!Stable G} (m : hm A) (f : A -> hm B) Q R :
  safe G m Q -> (forall a, safe (fun d => G d /\ Q a d) (f a) R) -> safe G (m ≫= f) R.
Proof.
  intros Hm Hf w r w' Hw HG. unfold mbind, hm_bind. destruct (m w) as [[e|a] w1] eqn:E.
  - intros [= <- <-]. destruct (Hm _ _ _ Hw HG E) as (H1 & H2 & _). done.
  - intros H. destruct (Hm _ _ _ Hw HG E) as (H1 & H2 & H3).
    assert (HG1 : G (wd_db w1) /\ Q a (wd_db w1)) by (split; [by eapply stable_steps|by apply H3]).
    destruct (Hf a _ _ _ H1 HG1 H) as (H4 & H5 & H6). split_and!; [done|by etransitivity|done].
Qed.

(** The first operation only adds [Own] to what is known, or nothing. *)
Lemma safe_then {A B} G `{!Stable G} (m : hm A) (f : A -> hm B) R :
  safe G m any -> (forall a, safe G (f a) R) -> safe G (m ≫= f) R.
Proof.
  intros Hm Hf. eapply safe_bind; [done|exact Hm|]. intros a w r w' Hw [HG _]. by apply Hf.
Qed.
Lemma safe_weaken {A} (G G' : db -> Prop) (m : hm A) (Q Q' : A -> db -> Prop) :
  (forall d, G' d -> G d) -> (forall a d, Q a d -> Q' a d) -> safe G m Q -> safe G' m Q'.
Proof.
  intros HG HQ H w r w' Hw HG' E. destruct (H w r w' Hw (HG _ HG') E) as (H1 & H2 & H3). eauto 6.
Qed.
Lemma safe_caught {A} G (m : hm A) Q : safe G m Q -> safe G (caught m) any.
Proof.
  intros H w r w' Hw HG. unfold caught. destruct (m w) as [r1 w1] eqn:E. intros [= <- <-].
  by destruct (H _ _ _ Hw HG E) as (? & ? & _).
Qed.

Context (env : MessageEnv) (rfc8785 : StrictJson.any -> option bytes) (settings : Settings).

Record calm_env : Prop := {
  ce_others : honest (mx_worker env);
  ce_hub : forall n hub d, private hub d -> private (mx_hub env n hub) d
}.
Context (Henv : calm_env).

Lemma safe_query {A} G (m : (nat -> Z) -> tx A) (Q : A -> db -> Prop) :
  (forall clk d a d', m clk d = Ok (a, d') -> rtc step d d' /\ Q a d') -> safe G (ask_store env m) Q.
Proof.
  intros Hm w r w' Hw _. unfold ask_store, run_tx. set (n := wd_calls w).
  pose proof (ce_others Henv n (wd_db w)) as Ho. revert Ho. generalize (we_others (mx_worker env) n (wd_db w)).
  intros d1 Ho. destruct (m (we_clk (mx_worker env) n) d1) as [[a d2]|e] eqn:E.
  - apply Hm in E as [Hs HQ]. assert (Hs' : rtc step (wd_db w) d2) by (by etransitivity).
    destruct (we_fault _ n); intros [= <- <-]; (split_and!; [by apply fine_steps|done|]); try done.
    by intros ? [= <-].
  - destruct (we_fault _ n); intros [= <- <-]; by (split_and!; [by apply fine_steps|done|]).
Qed.

Lemma safe_reads {A} G (m : (nat -> Z) -> tx A) :
  (forall clk d a d', m clk d = Ok (a, d') -> d' = d) -> safe G (ask_store env m) any.
Proof. intros Hm. apply safe_query. intros clk d a d' ->%Hm. done. Qed.

Lemma safe_sup {A} G (f : Supervisor -> A * Supervisor) : safe G (with_sup env f) any.
Proof.
  intros w r w' [Hp Hf] _. unfold with_sup. destruct (f _) as [a s]. intros [= <- <-].
  by split; [constructor|].
Qed.
Lemma safe_fresh G : safe G (freshID env) any.
Proof. intros w r w' [Hp Hf] _ [= <- <-]. by split; [constructor|]. Qed.
Lemma safe_built G o : safe G (built o) any.
Proof.
  unfold built. destruct o as [[]|]; try apply safe_throw. destruct (is_null _); [apply safe_throw|apply safe_ret].
Qed.
Lemma built_some o w m w' : built o w = (inr m, w') -> o = Some (JObject m) /\ w' = w.
Proof. unfold built. destruct o as [[]|]; try done. destruct (is_null _); [done|]. by intros [= -> ->]. Qed.

Lemma safe_hub {A} G (f : SubscriptionHub -> A * SubscriptionHub) :
  (forall hub d, G d -> private hub d -> private (f hub).2 d) -> safe G (with_hub env f) any.
Proof.
  intros Hf w r w' [Hp Hs] HG. unfold with_hub. specialize (Hf (mx_hub env (wd_calls w) (wd_hub w)) (wd_db w) HG).
  destruct (f _) as [a h]. intros [= <- <-]. split; [|done]. constructor; [|done]. apply Hf. by apply Henv.
Qed.

Lemma safe_send G sink tripID e :
  (forall d, G d -> proper d (MkSent sink tripID e)) -> safe G (send env sink tripID e) any.
Proof.
  intros Hp w r w' [H1 H2] HG. unfold send. case_match; intros [= <- <-]; (split; [|done]); constructor; try done.
  simpl. apply Forall_app. split; [done|]. apply Forall_singleton. by apply Hp.
Qed.

End Safe.

#[export] Hint Resolve safe_ret safe_throw safe_required safe_sup safe_fresh safe_built : messages.
