(* ===== verification/MessageProps.v ===== *)
(** * Properties of message handling *)

From S2P Require Import Prelude GoLib GoText Wire Schema Tables Leases Commands Finalization Proposals CanonicalState Canonical Bootstrap System HttpText JsonText PlannerMessages StoredEvent Worker Dispatcher Supervisor Coordinators CoordinatorProps Places StrictJson Gateway GatewayProps ClientCommands Transport Adapters AdapterProps StateJson Messages MessageFacts.

Section MessageProps.
Context {PG : Postgres} {PP : PlannerProto} {QP : ProposalProto} {HJ : HttpJson}.
Context (sessions : nat -> string) (rfc8785 : StrictJson.any -> option bytes) (settings : Settings).

(** ** Reading *)

Lemma Load_owner tripID d s d' : Load tripID d = Ok (s, d') ->
  d' = d /\ ct_TripID s = tripID /\ owned_by tripID (ct_OwnerUserID s) d.
Proof.
  intros H. pose proof (Load_reads _ _ _ _ H) as ->. split; [done|].
  unfold Load, lock_trip_row, scan_current_plan in H. inv_op. split; [done|]. by eexists.
Qed.

Lemma latest_reads tripID d a d' : LatestPendingPayload tripID d = Ok (a, d') -> d' = d.
Proof. unfold LatestPendingPayload. intros H. by inv_op. Qed.
Lemma sync_reads tripID d a d' : RuntimeSyncState tripID d = Ok (a, d') -> d' = d.
Proof. unfold RuntimeSyncState. intros H. by inv_op. Qed.
Lemma outcomes_read tripID ids d a d' : LoadOutcomes tripID ids d = Ok (a, d') -> d' = d.
Proof. unfold LoadOutcomes. intros H. inv_op. case_match; by inv_op. Qed.

Section Env.
Context (env : MessageEnv) (Henv : calm_env sessions env).
Abbreviation safe := (safe sessions).
Abbreviation any := (fun _ _ => True).

(** One operation after the other. *)
Ltac andthen := refine (safe_then _ _ _ _ _ _ _).
Ltac safely := repeat first
  [ solve [auto with messages typeclass_instances]
  | andthen; [|intros ?]
  | apply safe_reads; [done|intros ? ? ? ?; first [apply Load_reads|apply latest_reads|apply sync_reads|apply outcomes_read]]
  | match goal with
    | |- MessageFacts.safe _ _ (match ?x with _ => _ end) _ => destruct x
    | |- MessageFacts.safe _ _ (if ?x then _ else _) _ => destruct x
    | |- MessageFacts.safe _ _ (let '(_, _) := ?x in _) _ => destruct x
    end ].

Lemma safe_authorized G tripID userID :
  safe G (authorizedState env tripID userID) (fun _ => owned_by tripID userID).
Proof.
  intros w r w' Hw HG E. unfold authorizedState in E. unfold mbind, hm_bind in E.
  destruct (ask_store env _ w) as [r1 w1] eqn:E1.
  assert (H : MessageFacts.safe sessions G (ask_store env (fun _ => Load tripID))
    (fun s => owned_by tripID (ct_OwnerUserID s))).
  { apply safe_query; [done|]. intros _ d a d' (-> & _ & Ho)%Load_owner. done. }
  destruct (H _ _ _ Hw HG E1) as (H1 & H2 & H3). destruct r1 as [e|s]; [by simplify_eq|].
  case_bool_decide as Ho; unfold mret, hm_ret, throw in E; simplify_eq; (split_and!; [done|done|]); [|done].
  intros ? _. by apply H3.
Qed.

Lemma safe_pending G `{!Stable G} tripID : safe G (pendingProposal env tripID) any.
Proof.
  unfold pendingProposal. andthen; [eapply safe_caught; safely|]. intros []; safely.
Qed.
Lemma safe_versions G tripID : safe G (runtimeVersions env tripID) any.
Proof. apply safe_sup. Qed.
Lemma safe_sync G state runtime tripID : safe G (runtimeSyncState env state runtime tripID) any.
Proof. unfold runtimeSyncState. safely. Qed.
#[local] Hint Resolve safe_pending safe_versions safe_sync : messages.
Lemma safe_read_state G `{!Stable G} state tripID b : safe G (read_state env state tripID b) any.
Proof. unfold read_state. safely. Qed.
Lemma safe_outcomes G `{!Stable G} tripID ids : safe G (commandsOutcomes env tripID ids) any.
Proof. unfold commandsOutcomes. safely. Qed.
#[local] Hint Resolve safe_read_state safe_outcomes : messages.

(** ** Activation *)

Lemma safe_bootstrap G tripID : safe G (run_bootstrap env settings tripID) any.
Proof.
  intros w r w' Hw _. unfold run_bootstrap.
  pose proof (advancing_bootstrap (mx_worker env) (ce_others _ _ Henv) (st_holderID settings) (st_timeout settings)
    tripID (MkWorker (wd_db w) (wd_calls w) [])) as Ha.
  destruct (RunBootstrap _ _ _ _ _) as [r1 k]. intros [= <- <-]. simpl in Ha.
  split_and!; [by apply fine_steps|done|done].
Qed.
#[local] Hint Resolve safe_bootstrap : messages.

Lemma safe_acquire G tripID holderID duration :
  safe G (ask_store env (fun clk => Acquire clk tripID holderID duration)) any.
Proof.
  apply safe_query; [done|]. intros clk d a d' H. split; [|done]. apply rtc_once, step_lease. by econstructor.
Qed.
#[local] Hint Resolve safe_acquire : messages.

Lemma safe_bring_up G `{!Stable G} tripID : safe G (bring_up env settings tripID) any.
Proof. unfold bring_up. safely. Qed.
Lemma safe_activate G `{!Stable G} tripID : safe G (ActivateRuntime env settings tripID) any.
Proof.
  unfold ActivateRuntime. destruct (negb _); [safely|]. andthen; [safely|]. intros []; safely.
  eapply safe_caught. by apply safe_bring_up.
Qed.
#[local] Hint Resolve safe_activate : messages.

(** ** Publication *)

Lemma safe_publish G t e : safe G (publish_trip env t e) any.
Proof.
  intros w r w' [Hp Hs] _. unfold publish_trip. destruct (json_marshal _) as [raw|]; [|by intros [= <- <-]].
  set (hub := mx_hub env (wd_calls w) (wd_hub w)).
  assert (Hhub : private sessions hub (wd_db w)) by (by apply Henv).
  destruct (publish_targets t raw hub) as [sinks|] eqn:Et; [|intros [= <- <-]; by split; [constructor|]].
  assert (Hin : forall x, x ∈ sinks -> x ∈ trip_sinks hub t).
  { unfold publish_targets in Et. destruct (_ || _); [done|]. injection Et as <-. intros x. by rewrite elem_of_elements. }
  destruct (PublishTrip _ _ t raw hub) as [all hub'] eqn:Ep. intros [= <- <-]. split; [|done]. constructor; simpl.
  - intros t' x Hx. apply Hhub. apply (PublishTrip_sinks (mx_takes env (wd_calls w)) t raw). by rewrite Ep.
  - apply Forall_app. split; [done|]. apply Forall_fmap, Forall_forall. intros x Hx.
    apply list_elem_of_In, filter_In in Hx as [Hx%list_elem_of_In _]. left. simpl. by apply Hhub, Hin.
Qed.
#[local] Hint Resolve safe_publish : messages.

Lemma safe_broadcast G `{!Stable G} t : safe G (broadcastSubscriptionState env t) any.
Proof. unfold broadcastSubscriptionState. safely. Qed.
Lemma safe_finalized f response : safe (fun _ => True) (onRuntimeFinalized env f response) any.
Proof.
  unfold onRuntimeFinalized. andthen; [safely|intros _]. andthen; [safely|intros id].
  andthen; [eapply safe_caught; safely|]. intros [|envelope]; [safely|].
  andthen; [eapply safe_caught; safely|intros _].
  andthen; [eapply safe_caught, safe_broadcast; apply _|intros _]. safely.
Qed.
Lemma safe_stored p response : safe (fun _ => True) (onStored env p response) any.
Proof. unfold onStored. safely. Qed.

(** ** Answers *)

(** The map of an envelope about a trip, its versions all zero. *)
Lemma zero_envelope id kind status retryable tripID payload reply :
  kind = "error" \/ kind = "telemetry_status" ->
  says_nothing (About (put_member "in_reply_to_message_id" (JText reply)
    (trip_envelope id kind status retryable tripID ZeroTripVersions payload))).
Proof.
  intros Hk. eexists. split; [reflexivity|]. split; [destruct Hk as [-> | ->]; [left|right]; reflexivity|].
  repeat (apply Forall_cons; split; [reflexivity|]). by apply Forall_nil.
Qed.

Lemma error_says_nothing id tripID reply status retryable safe_text stale m :
  BuildTripErrorEnvelope id tripID reply ZeroTripVersions status retryable safe_text stale = Some (JObject m) ->
  says_nothing (About m).
Proof.
  unfold BuildTripErrorEnvelope. destruct (_ || _); [done|]. destruct (_ && _); [done|]. intros [= <-].
  apply zero_envelope. by left.
Qed.
Lemma telemetry_says_nothing id tripID reply status retryable disposition sequence m :
  BuildTelemetryStatusEnvelope id tripID reply ZeroTripVersions status retryable disposition sequence = Some (JObject m) ->
  says_nothing (About m).
Proof.
  unfold BuildTelemetryStatusEnvelope. destruct (_ || _); [done|]. intros [= <-]. apply zero_envelope. by right.
Qed.

(** Building an envelope and sending it. *)
Lemma safe_build_send G o sink tripID :
  (forall m d, o = Some (JObject m) -> G d -> proper sessions d (MkSent sink tripID (About m))) ->
  safe G (m ← built o; send env sink tripID (About m)) any.
Proof.
  intros Hp w r w' Hw HG. unfold mbind, hm_bind. destruct (built o w) as [[e|m] w1] eqn:E.
  - destruct (safe_built sessions G o _ _ _ Hw HG E) as (? & ? & _). by intros [= <- <-].
  - apply built_some in E as [Eo ->]. intros H. eapply safe_send in H; [exact H| |exact Hw|exact HG].
    intros d HGd. by apply Hp.
Qed.

Context (m : AuthenticatedMessage) (Hm : am_UserID m = sessions (am_Sink m)).
Abbreviation tripID := (text_member "trip_id" m).

Lemma owned_proper d e : owned_by tripID (am_UserID m) d -> proper sessions d (MkSent (am_Sink m) tripID e).
Proof. intros H. left. simpl. by rewrite <- Hm. Qed.

Lemma safe_shown G `{!Stable G} : safe G (shown_versions env m tripID)
  (fun v d => v = ZeroTripVersions \/ owned_by tripID (am_UserID m) d).
Proof.
  unfold shown_versions. eapply (safe_bind _ G _ _ (fun loaded d => match loaded with
    | inr s => owned_by tripID (ct_OwnerUserID s) d | inl _ => True end)).
  - intros w r w' Hw HG. unfold caught. destruct (ask_store env _ w) as [r1 w1] eqn:E. intros [= <- <-].
    assert (H : safe G (ask_store env (fun _ => Load tripID)) (fun s => owned_by tripID (ct_OwnerUserID s))).
    { apply safe_query; [done|]. intros _ d a d' (-> & _ & Ho)%Load_owner. done. }
    destruct (H _ _ _ Hw HG E) as (H1 & H2 & H3). split_and!; [done|done|]. intros a [= <-].
    destruct r1; [done|by apply H3].
  - intros [e|s]; [|case_bool_decide as Ho].
    + intros w r w' Hw _ [= <- <-]. split_and!; [done|done|]. intros ? [= <-]. by left.
    + intros w r w' Hw [_ Hown]. unfold mbind, hm_bind, runtimeVersions, with_sup. intros [= <- <-].
      split_and!; [by destruct Hw|done|]. intros ? _. right. simpl. by rewrite <- Ho.
    + intros w r w' Hw _ [= <- <-]. split_and!; [done|done|]. intros ? [= <-]. by left.
Qed.

#[local] Instance stable_or v : Stable (fun d => v = ZeroTripVersions \/ owned_by tripID (am_UserID m) d).
Proof. intros d d' Hs [->|H]; [by left|right; by eapply owned_steps]. Qed.
#[local] Instance stable_and G G' `{!Stable G, !Stable G'} : Stable (fun d => G d /\ G' d).
Proof. intros d d' Hs [H H']. split; by eapply stable_steps. Qed.

Lemma safe_error_answer G `{!Stable G} e : safe G (publishErrorWithState env m e) any.
Proof.
  unfold publishErrorWithState. destruct (_ || _); [safely|]. eapply safe_bind; [done|by apply safe_shown|].
  intros v. destruct (ErrorStatus e) as [[status retryable] stale]. andthen; [safely|]. intros id.
  andthen; [|intros; safely]. eapply safe_caught, safe_build_send.
  intros env_ d Hb [_ [-> |Hown]]; [right; by eapply error_says_nothing|by apply owned_proper].
Qed.

Lemma safe_telemetry_failure G `{!Stable G} e : safe G (publishTelemetryFailure env m e) any.
Proof.
  unfold publishTelemetryFailure. destruct (_ || _); [safely|]. destruct (ErrorStatus e) as [[status retryable] stale].
  destruct (if bool_decide _ then _ else _) as [status' retryable'].
  eapply safe_bind; [done|by apply safe_shown|]. intros v. andthen; [safely|]. intros id.
  intros w r w' Hw HG. unfold mbind, hm_bind, caught. destruct (built _ w) as [[x|env_] w1] eqn:E.
  - destruct (safe_built sessions (fun _ => True) _ _ _ _ Hw I E) as (? & ? & _). by intros [= <- <-].
  - apply built_some in E as [Eo ->]. apply (safe_send sessions env (fun d => v = ZeroTripVersions \/ owned_by tripID (am_UserID m) d));
      [|done|apply HG].
    intros d [-> |Hown]; [right; by eapply telemetry_says_nothing|by apply owned_proper].
Qed.

(** ** Handlers *)

Lemma safe_subscribe : safe (owned_by tripID (am_UserID m)) (subscribe env tripID (am_Sink m)) any.
Proof.
  unfold subscribe. andthen; [|intros []; safely]. apply safe_hub; [done|].
  intros hub d Hown Hp t s [Hs|[-> ->]]%Subscribe_sinks; [by apply Hp|]. by rewrite <- Hm.
Qed.
Lemma safe_unsubscribe G : safe G (with_hub env (fun h => (tt, Unsubscribe tripID (am_Sink m) h))) any.
Proof. apply safe_hub; [done|]. intros hub d _ Hp t s Hs%Unsubscribe_sinks. by apply Hp. Qed.

(** The end of every answer about the sender's own trip. *)
Lemma safe_answer o : safe (owned_by tripID (am_UserID m))
  (envelope ← built o; send env (am_Sink m) tripID (About envelope)) any.
Proof. apply safe_build_send. intros env_ d _. apply owned_proper. Qed.

(** Once the sender is known to own the trip. *)
Lemma safe_authorized_then {B} G `{!Stable G} (f : CanonicalTripState -> hm B) :
  (forall s, safe (owned_by tripID (am_UserID m)) (f s) any) ->
  safe G (authorizedState env tripID (am_UserID m) ≫= f) any.
Proof.
  intros Hf. eapply safe_bind; [done|apply safe_authorized|]. intros s.
  eapply safe_weaken; [|done|apply Hf]. by intros d [_ H].
Qed.
#[local] Hint Resolve safe_subscribe safe_unsubscribe safe_answer : messages.

Lemma safe_state_message G `{!Stable G} b : safe G (publishSubscriptionState env m b) any.
Proof.
  unfold publishSubscriptionState. apply safe_authorized_then; [done|]. intros s.
  andthen; [safely|]. intros [runtime payload]. safely.
Qed.
#[local] Hint Resolve safe_state_message : messages.

Lemma safe_handleSubscribe b : safe (fun _ => True) (handleSubscribe env settings m b) any.
Proof.
  unfold handleSubscribe. apply safe_authorized_then; [apply _|]. intros _. destruct b; safely.
Qed.

Lemma safe_handleResynchronize : safe (fun _ => True) (handleResynchronize env settings m) any.
Proof.
  unfold handleResynchronize. apply safe_authorized_then; [apply _|]. intros _. safely.
Qed.

Lemma safe_observation G t event : safe G (dispatch_observation env settings t event) any.
Proof.
  intros w r w' [Hp Hs] _. unfold dispatch_observation. destruct (DispatchTelemetry _ _ _ _ _ _ _) as [[r1 x] s].
  intros [= <- <-]. by split; [constructor|].
Qed.
#[local] Hint Resolve safe_observation : messages.

Lemma safe_handleTelemetry : safe (fun _ => True) (handleTelemetry env settings m) any.
Proof.
  unfold handleTelemetry. apply safe_authorized_then; [apply _|]. intros _.
  andthen; [eapply safe_caught, safe_activate; apply _|]. intros [e|_]; [apply safe_telemetry_failure; apply _|].
  andthen; [safely|]. intros [id event]. destruct (negb _); [safely|].
  andthen; [safely|]. intros [[e|response] sequence]; [apply safe_telemetry_failure; apply _|].
  destruct (TelemetryDisposition _) as [[disposition status] retryable]. andthen; [safely|].
  intros runtime. apply safe_authorized_then; [apply _|]. intros s. safely.
Qed.

(** A command is acknowledged to the owner of the trip its message names. *)
Context (Hraw : decodeStrictJSON (am_Raw m) = inr (AObject (am_Message m))).

Lemma owned_message d : owns_message m d -> owned_by tripID (am_UserID m) d.
Proof.
  intros (t & Ht & Hown). enough (t = tripID) as <- by done.
  unfold message_trip, Unmarshal in Ht. rewrite Hraw in Ht. destruct (negb _); [done|]. simpl in Ht.
  unfold field, text_member, string_member in *. destruct (member "trip_id" (am_Message m)) as [[]|]; simpl in *;
    by simplify_eq.
Qed.

Lemma safe_dispatch G : safe G (dispatch_command env rfc8785 settings m)
  (fun _ => owned_by tripID (am_UserID m)).
Proof.
  intros w r w' Hw _. unfold dispatch_command. set (a := adapter_env env (wd_calls w)).
  assert (Ho : forall n d, rtc step d (ax_others a n d)) by (intros n d; apply (ce_others _ _ Henv)).
  pose proof (dispatch_changes a rfc8785 (st_maxPendingCanonicalMirror settings) m Ho (wd_db w)) as Hs.
  destruct (DispatchCommand a _ _ m (wd_db w)) as [r1 d] eqn:E. intros [= <- <-]. simpl in Hs.
  split_and!; [by apply fine_steps|done|]. intros raw Hr. destruct r1 as [e|raw']; [done|].
  destruct (dispatch_owns a rfc8785 _ (rtc step) Ho m _ _ _ E) as [_ Hack].
  apply owned_message. simpl. by eapply Hack.
Qed.

Lemma safe_handleCommand kind : safe (fun _ => True) (handleCommand env rfc8785 settings m kind) any.
Proof.
  unfold handleCommand. andthen; [case_bool_decide; safely|]. intros _.
  eapply safe_bind; [apply _|apply safe_dispatch|]. intros raw.
  eapply (safe_weaken _ (owned_by tripID (am_UserID m))); [by intros d [_ H]|done|].
  andthen; [|].
  - eapply safe_caught, safe_send. intros d. apply owned_proper.
  - intros _. case_bool_decide; [|safely]. andthen; [|intros; safely].
    eapply safe_caught, safe_activate; apply _.
Qed.

Lemma safe_handled w : fine sessions w ->
  fine sessions (handleMessage env rfc8785 settings m w) /\
  rtc step (wd_db w) (wd_db (handleMessage env rfc8785 settings m w)).
Proof.
  intros Hw. unfold handleMessage. destruct (handler env rfc8785 settings m w) as [r w1] eqn:E.
  assert (H : safe (fun _ => True) (handler env rfc8785 settings m) any).
  { unfold handler. repeat case_bool_decide;
      auto using safe_handleSubscribe, safe_handleResynchronize, safe_handleTelemetry, safe_handleCommand. }
  destruct (H _ _ _ Hw I E) as (H1 & H2 & _). destruct r as [e|]; [|done].
  destruct (publishErrorWithState env m e w1) as [r2 w2] eqn:E2.
  assert (He : safe (fun _ => True) (publishErrorWithState env m e) any) by (apply safe_error_answer; apply _).
  destruct (He _ _ _ H1 I E2) as (H3 & H4 & _). simpl. split; [done|]. by etransitivity.
Qed.

(** A message that was not admitted says nothing either. *)
Lemma safe_refused e w : fine sessions w ->
  fine sessions (handleRefused env m e w) /\ rtc step (wd_db w) (wd_db (handleRefused env m e w)).
Proof.
  intros Hw. unfold handleRefused.
  assert (Hboth : safe (fun _ => True) (publishTelemetryAdmissionDrop env m) any /\
                  safe (fun _ => True) (publishError env m e) any).
  { unfold publishTelemetryAdmissionDrop, publishError. destruct (_ || _); [by split; safely|].
    destruct (ErrorStatus e) as [[status retryable] stale].
    split; (andthen; [safely|]); intros id; (andthen; [|intros; safely]);
      eapply safe_caught, safe_build_send; intros env_ d Hb _; right;
      [by eapply telemetry_says_nothing|by eapply error_says_nothing]. }
  destruct Hboth as [H1 H2]. case_bool_decide.
  - destruct (publishTelemetryAdmissionDrop env m w) as [r w'] eqn:E. by destruct (H1 _ _ _ Hw I E) as (? & ? & _).
  - destruct (publishError env m e w) as [r w'] eqn:E. by destruct (H2 _ _ _ Hw I E) as (? & ? & _).
Qed.

End Env.

(** ** Privacy *)

(** What the backend does with messages, finalized commands, stored proposals and closed
    sessions, each in an environment of its own; anything may commit in between. *)
Inductive backend_step (w : World) : World -> Prop :=
| backend_message env m : calm_env sessions env -> am_UserID m = sessions (am_Sink m) ->
    decodeStrictJSON (am_Raw m) = inr (AObject (am_Message m)) ->
    backend_step w (handleMessage env rfc8785 settings m w)
| backend_refused env m e : calm_env sessions env -> backend_step w (handleRefused env m e w)
| backend_finalized env f response : calm_env sessions env ->
    backend_step w (onRuntimeFinalized env f response w).2
| backend_stored env p response : calm_env sessions env -> backend_step w (onStored env p response w).2
| backend_closed sink :
    backend_step w (MkWorld (wd_db w) (wd_calls w) (wd_sup w) (RemoveSink sink (wd_hub w)) (wd_sent w))
| backend_others d : rtc step (wd_db w) d -> backend_step w (set_db d (wd_calls w) w).

Lemma backend_step_fine w w' : backend_step w w' -> fine sessions w -> fine sessions w'.
Proof.
  intros [env m He Hm Hraw|env m e He|env f response He|env p response He|sink|d Hd] Hw.
  - by apply safe_handled.
  - by apply safe_refused.
  - destruct (onRuntimeFinalized env f response w) as [r w1] eqn:E. by eapply safe_finalized.
  - destruct (onStored env p response w) as [r w1] eqn:E. by eapply safe_stored.
  - destruct Hw as [Hp Hs]. constructor; [|done]. intros t s Hin%RemoveSink_subset. by apply Hp.
  - by apply fine_steps.
Qed.


End MessageProps.

(** ** The hook of the proposal consumer *)

Section Hook.
Context {PG : Postgres} {PP : PlannerProto} {QP : ProposalProto} {HJ : HttpJson}.

Lemma publish_loop_failed publish others tripID sinks hub s : s ∈ sinks -> publish s = false ->
  (publish_loop publish others tripID sinks hub).1 = false.
Proof.
  intros Hin Hs. revert hub. induction Hin as [s sinks|s x sinks Hin IH]; intros hub; simpl; [by rewrite Hs|].
  destruct (publish x); [by apply IH|done].
Qed.

(** One subscribed session that does not take a proposal is an error of the hook. *)
Lemma unread_session_fails_hook env p response w s :
  s ∈ trip_sinks (mx_hub env (S (wd_calls w)) (wd_hub w)) (pd_TripID p) ->
  mx_takes env (S (wd_calls w)) s = false -> exists e, (onStored env p response w).1 = inl e.
Proof.
  intros Hin Hs. unfold onStored, mbind, hm_bind, freshID. simpl.
  match goal with |- context [built ?o ?w0] => destruct (built o w0) as [[e|m] w1] eqn:Eb end; [by eexists|].
  apply built_some in Eb as [_ ->]. unfold publish_trip. simpl. destruct (json_marshal _) as [raw|]; [|by eexists].
  destruct (publish_targets _ raw _) as [sinks|] eqn:Et; [|by eexists].
  destruct (PublishTrip _ _ _ _ _) as [all hub'] eqn:Ep. enough (all = false) as -> by (by eexists).
  unfold PublishTrip in Ep. rewrite Et in Ep.
  change all with (all, hub').1. rewrite <- Ep. eapply publish_loop_failed; [|exact Hs].
  unfold publish_targets in Et. destruct (_ || _); [done|]. injection Et as <-. by apply elem_of_elements.
Qed.

(** An error of the hook ends the consumer: no later notification is even stored. *)
Lemma hook_error_ends_consumer env holderID onStored waits response l w p w1 e :
  persistForPublication env holderID waits response w = (Ok (Some p), w1) -> pd_Publishable p = true ->
  onStored p response = Err e ->
  consume env holderID (Some onStored) ((waits, response) :: l) w =
    (Err e, (announce (Published p response) w1).2).
Proof.
  intros Hp Hpub He. cbn [consume]. unfold try_ok, mbind, work_bind. rewrite Hp, Hpub. simpl. by rewrite He.
Qed.

End Hook.
