(* ===== verification/Resynchronization.v ===== *)
(** * What a client learns when it comes back

    A client that reconnects sends the identifiers of the messages it has no answer for;
    the theorem says what [handleResynchronize] of [cmd/liveroute-backend/main.go] tells
    it about each of them. *)

From S2P Require Import Prelude GoLib GoText Wire Schema Tables Leases Commands Finalization Proposals CanonicalState Canonical Bootstrap System HttpText JsonText PlannerMessages StoredEvent Worker Dispatcher Supervisor Coordinators CoordinatorProps Places StrictJson Gateway ClientCommands Transport Adapters StateJson Messages MessageFacts MessageProps.

(** ** Members of a map *)

Lemma get_put name value m : get_member name (put_member name value m) = Some value.
Proof.
  unfold get_member. induction m as [|[k v] m IH]; simpl; [by rewrite bool_decide_eq_true_2|].
  destruct (String.compare name k) eqn:E; simpl; [by rewrite bool_decide_eq_true_2..|].
  rewrite bool_decide_eq_false_2; [exact IH|]. intros <-. pose proof (String.compare_antisym k k) as H. by rewrite E in H.
Qed.

Section Resynchronization.
Context {PG : Postgres} {PP : PlannerProto} {QP : ProposalProto} {HJ : HttpJson}.

(** ** The outcomes in the store *)

(** The commands of a trip that were recorded for a message. *)
Definition recorded (tripID id : string) (d : db) (i : intent) : Prop :=
  exists k, intents d !! k = Some i /\ i_trip_id i = tripID /\ i_message_id i = id.

Lemma LoadOutcomes_ok tripID ids d stored d' : LoadOutcomes tripID ids d = Ok (stored, d') -> ids <> [] ->
  (forall o, o ∈ stored -> exists i, recorded tripID (co_MessageID o) d i /\ outcome_of i = Ok o) /\
  (forall id i, id ∈ ids -> recorded tripID id d i -> exists o, o ∈ stored /\ co_MessageID o = id).
Proof.
  intros H Hne. unfold LoadOutcomes in H. inv_op. rewrite bool_decide_eq_false_2 in * by done. inv_op.
  match goal with H : fold_res _ _ _ = _ |- _ =>
    apply (fold_res_collect (fun row : string * intent => outcome_of row.2)) in H as (bs & -> & Hbs) end. simpl.
  assert (Hrows : forall k i, (k, i) ∈ merge_sort sequence_le (rows_where (fun _ i =>
      bool_decide (i_trip_id i = tripID) && bool_decide (i_message_id i ∈ ids)) (intents d)) <->
    intents d !! k = Some i /\ i_trip_id i = tripID /\ i_message_id i ∈ ids).
  { intros k i. rewrite merge_sort_Permutation, elem_of_rows_where, andb_true_iff, !bool_decide_eq_true. done. }
  assert (Hid : forall i o, outcome_of i = Ok o -> co_MessageID o = i_message_id i).
  { intros i o Ho. unfold outcome_of in Ho. inv_op. done. }
  split.
  - intros o Ho. apply list_elem_of_lookup in Ho as [n Hn]. destruct (Forall2_lookup_r _ _ _ _ _ Hbs Hn) as ([k i] & Hk & Ho).
    simpl in Ho. exists i. split; [|done]. exists k. apply list_elem_of_lookup_2, Hrows in Hk as (? & ? & _).
    split_and!; [done|done|]. by rewrite (Hid _ _ Ho).
  - intros id i Hin (k & Hk & Ht & Hm). assert (Hr : (k, i) ∈ merge_sort sequence_le (rows_where (fun _ i =>
      bool_decide (i_trip_id i = tripID) && bool_decide (i_message_id i ∈ ids)) (intents d)))
      by (apply Hrows; split_and!; [done|done|by rewrite Hm]).
    apply list_elem_of_lookup in Hr as [n Hn]. destruct (Forall2_lookup_l _ _ _ _ _ Hbs Hn) as (o & Ho & Hout).
    simpl in Hout. exists o. split; [by eapply list_elem_of_lookup_2|]. by rewrite (Hid _ _ Hout).
Qed.

(** The last outcome of an identifier, if there is one. *)
Lemma by_message_lookup stored id :
  match by_message stored !! id with
  | Some o => o ∈ stored /\ co_MessageID o = id
  | None => forall o, o ∈ stored -> co_MessageID o <> id
  end.
Proof.
  unfold by_message. induction stored as [|o stored IH] using rev_ind; simpl.
  - rewrite lookup_empty. by intros o ?%not_elem_of_nil.
  - rewrite fold_left_app. simpl. rewrite lookup_insert. case_decide as E.
    + split; [|done]. apply elem_of_app. right. by apply list_elem_of_singleton.
    + destruct (fold_left _ stored ∅ !! id) as [x|].
      * destruct IH as [H ?]. split; [|done]. apply elem_of_app. by left.
      * intros x [H| ->%list_elem_of_singleton]%elem_of_app; [by apply IH|done].
Qed.

(** ** One answer *)

(** The answer for a message: what is recorded of its command, or that nothing is. *)
Definition outcome_answers (tripID : string) (d : db) (id : string) (answer : json) : Prop := exists f,
  answer = JObject f /\ get_member "message_id" f = Some (JText id) /\
  ((exists i o, recorded tripID id d i /\ outcome_of i = Ok o /\
      get_member "phase" f = Some (JText (outcome_phase o)) /\
      get_member "status" f = Some (JText (outcome_status o)) /\
      get_member "mutation_sequence" f = Some (JText (FormatInt (co_MutationSequence o)))) \/
   ((forall i, ~ recorded tripID id d i) /\ get_member "phase" f = Some (JText "rejected") /\
      get_member "status" f = Some (JText "NOT_FOUND"))).

Lemma built_outcome id o f : BuildCommandOutcome id o = Some f ->
  get_member "message_id" f = Some (JText id) /\ get_member "phase" f = Some (JText (outcome_phase o)) /\
  get_member "status" f = Some (JText (outcome_status o)) /\
  get_member "mutation_sequence" f = Some (JText (FormatInt (co_MutationSequence o))).
Proof.
  unfold BuildCommandOutcome, commandOutcomeMetadata. destruct (negb _); [done|]. destruct (_ =? 0).
  - intros [= <-]. done.
  - destruct (outcome_payload _) as [payload|]; [|done]. by intros [= <-].
Qed.

Lemma outcomes_answer tripID ids d stored d' outcomes :
  LoadOutcomes tripID ids d = Ok (stored, d') -> ids <> [] ->
  mapM (outcome_json (by_message stored)) ids = Some outcomes -> Forall2 (outcome_answers tripID d) ids outcomes.
Proof.
  intros Hl Hne Hm%mapM_Some_1. destruct (LoadOutcomes_ok _ _ _ _ _ Hl Hne) as [Hback Hall].
  apply Forall2_same_length_lookup. split; [by eapply Forall2_length|]. intros n id answer Hid Ha.
  assert (Ho := Forall2_lookup_lr _ _ _ _ _ _ Hm Hid Ha). simpl in Ho. unfold outcome_json in Ho.
  pose proof (by_message_lookup stored id) as Hb. destruct (by_message stored !! id) as [o|].
  - destruct Hb as [Hin Eid]. destruct (BuildCommandOutcome id o) as [f|] eqn:Ef; simpl in Ho; [|done].
    injection Ho as <-. exists f. split; [done|]. destruct (built_outcome _ _ _ Ef) as (? & ? & ? & ?).
    split; [done|]. left. destruct (Hback o Hin) as (i & Hi & Hout). exists i, o. by rewrite Eid in Hi.
  - injection Ho as <-. eexists. split; [done|]. split; [done|]. right. split; [|done].
    intros i Hi. destruct (Hall id i) as (o & Hin & Eid); [by eapply list_elem_of_lookup_2|done|]. by apply (Hb o).
Qed.

(** ** Operations that send nothing *)

Context (env : MessageEnv) (settings : Settings) (Henv : honest (mx_worker env)).

Definition unsent {A} (m : hm A) : Prop := forall w r w', m w = (r, w') ->
  wd_sent w' = wd_sent w /\ rtc step (wd_db w) (wd_db w').

Lemma unsent_ret {A} (a : A) : unsent (mret a).
Proof. by intros w r w' [= <- <-]. Qed.
Lemma unsent_throw {A} e : unsent (throw e : hm A).
Proof. by intros w r w' [= <- <-]. Qed.
Lemma unsent_required {A} (o : option A) : unsent (required o).
Proof. destruct o; [apply unsent_ret|apply unsent_throw]. Qed.
Lemma unsent_bind {A B} (m : hm A) (f : A -> hm B) : unsent m -> (forall a, unsent (f a)) -> unsent (m ≫= f).
Proof.
  intros Hm Hf w r w'. unfold mbind, hm_bind. destruct (m w) as [[e|a] w1] eqn:E; intros H.
  - injection H as <- <-. by eapply Hm.
  - destruct (Hm _ _ _ E) as [<- H1]. destruct (Hf _ _ _ _ H) as [-> H2]. split; [done|by etransitivity].
Qed.
Lemma unsent_caught {A} (m : hm A) : unsent m -> unsent (caught m).
Proof.
  intros Hm w r w'. unfold caught. destruct (m w) as [r1 w1] eqn:E. intros [= <- <-]. by eapply Hm.
Qed.
Lemma unsent_query {A} (m : (nat -> Z) -> tx A) :
  (forall clk d a d', m clk d = Ok (a, d') -> rtc step d d') -> unsent (ask_store env m).
Proof.
  intros Hm w r w'. unfold ask_store, run_tx. pose proof (Henv (wd_calls w) (wd_db w)) as Ho. revert Ho.
  generalize (we_others (mx_worker env) (wd_calls w) (wd_db w)). intros d1 Ho.
  destruct (m _ d1) as [[a d2]|e] eqn:E; destruct (we_fault _ _); intros [= <- <-]; (split; [done|]); simpl; try done;
    etransitivity; eauto.
Qed.
Lemma unsent_reads {A} (m : tx A) : (forall d a d', m d = Ok (a, d') -> d' = d) -> unsent (ask_store env (fun _ => m)).
Proof. intros Hm. apply unsent_query. by intros _ d a d' ->%Hm. Qed.
Lemma unsent_sup {A} (f : Supervisor -> A * Supervisor) : unsent (with_sup env f).
Proof. intros w r w'. unfold with_sup. destruct (f _). by intros [= <- <-]. Qed.
Lemma unsent_hub {A} (f : SubscriptionHub -> A * SubscriptionHub) : unsent (with_hub env f).
Proof. intros w r w'. unfold with_hub. destruct (f _). by intros [= <- <-]. Qed.
Lemma unsent_fresh : unsent (freshID env).
Proof. by intros w r w' [= <- <-]. Qed.
Lemma unsent_bootstrap tripID : unsent (run_bootstrap env settings tripID).
Proof.
  intros w r w'. unfold run_bootstrap.
  pose proof (advancing_bootstrap (mx_worker env) Henv (st_holderID settings) (st_timeout settings) tripID
    (MkWorker (wd_db w) (wd_calls w) [])) as Ha.
  destruct (RunBootstrap _ _ _ _ _) as [r1 k]. by intros [= <- <-].
Qed.
Lemma unsent_acquire tripID holderID duration :
  unsent (ask_store env (fun clk => Acquire clk tripID holderID duration)).
Proof. apply unsent_query. intros clk d a d' H. apply rtc_once, step_lease. by econstructor. Qed.

Create HintDb unsent.
#[local] Hint Resolve unsent_ret unsent_throw unsent_required unsent_sup unsent_hub unsent_fresh unsent_bootstrap
  unsent_acquire : unsent.
Ltac sends_nothing := repeat first
  [ solve [auto with unsent]
  | apply unsent_bind; [|intros ?]
  | apply unsent_caught
  | apply unsent_reads; intros ? ? ?; first [apply Load_reads|apply latest_reads|apply sync_reads|apply outcomes_read]
  | case_match ].

Lemma unsent_authorized tripID userID : unsent (authorizedState env tripID userID).
Proof. unfold authorizedState. sends_nothing. Qed.
Lemma unsent_activate tripID : unsent (ActivateRuntime env settings tripID).
Proof. unfold ActivateRuntime, bring_up. sends_nothing. Qed.
Lemma unsent_subscribe tripID sink : unsent (subscribe env tripID sink).
Proof. unfold subscribe. sends_nothing. Qed.
Lemma unsent_state state tripID b : unsent (read_state env state tripID b).
Proof. unfold read_state, pendingProposal, runtimeVersions, runtimeSyncState. sends_nothing. Qed.

(** ** The whole answer *)

Lemma hm_bind_ok {A B} (m : hm A) (f : A -> hm B) w b w' : (m ≫= f) w = (inr b, w') ->
  exists a w1, m w = (inr a, w1) /\ f a w1 = (inr b, w').
Proof. unfold mbind, hm_bind. destruct (m w) as [[e|a] w1]; [done|]. eauto. Qed.

(** The database at which the outcomes are read. *)
Lemma commandsOutcomes_ok tripID ids w outcomes w' : commandsOutcomes env tripID ids w = (inr outcomes, w') ->
  wd_sent w' = wd_sent w /\
  exists d, rtc step (wd_db w) d /\ rtc step d (wd_db w') /\ Forall2 (outcome_answers tripID d) ids outcomes.
Proof.
  unfold commandsOutcomes. destruct (Z.eqb_spec (zlen ids) 0) as [E|E].
  - intros [= <- <-]. destruct ids; [|by unfold zlen in E]. split; [done|]. by exists (wd_db w).
  - assert (Hne : ids <> []) by (intros ->; done).
    intros (stored & w1 & Hq & Hr)%hm_bind_ok. unfold ask_store, run_tx in Hq.
    pose proof (Henv (wd_calls w) (wd_db w)) as Ho. destruct (we_fault _ _); [|done..].
    destruct (LoadOutcomes _ _ _) as [[a d1]|e] eqn:El; [|done]. injection Hq as <- <-.
    pose proof (outcomes_read _ _ _ _ _ El) as ->. unfold required in Hr.
    destruct (mapM _ ids) as [l|] eqn:Em; [|done]. injection Hr as <- <-. split; [done|].
    eexists. split; [exact Ho|]. split; [done|]. by eapply outcomes_answer.
Qed.

(** C22: a client that resynchronizes learns what became of every message it asks about.
    If [handleResynchronize] succeeds, exactly one envelope was sent, to the session that
    asked: a [resynchronization_state] in reply to the message.  Its payload has one
    outcome for every requested identifier, in the order they were requested.  There is a
    state of the database between the beginning and the end of the handler of which they
    all tell: for a message with a recorded command of this trip, the phase, the status
    and the sequence of such a command, and for every other that nothing is known of it. *)
Theorem resynchronization_answers_all m w w' :
  handleResynchronize env settings m w = (inr tt, w') ->
  exists envelope payload outcomes d,
    wd_sent w' = wd_sent w ++ [MkSent (am_Sink m) (text_member "trip_id" m) (About envelope)] /\
    get_member "kind" envelope = Some (JText "resynchronization_state") /\
    (messageID m <> "" -> get_member "in_reply_to_message_id" envelope = Some (JText (messageID m))) /\
    get_member "payload" envelope = Some (JObject payload) /\
    get_member "outcomes" payload = Some (JList outcomes) /\
    rtc step (wd_db w) d /\ rtc step d (wd_db w') /\
    Forall2 (outcome_answers (text_member "trip_id" m) d) (requestedMessageIDs m) outcomes.
Proof.
  unfold handleResynchronize. set (t := text_member "trip_id" m).
  intros (s0 & w0 & E0 & H)%hm_bind_ok. apply unsent_authorized in E0 as [S0 D0].
  apply hm_bind_ok in H as ([] & w1 & E1 & H). apply unsent_activate in E1 as [S1 D1].
  apply hm_bind_ok in H as ([] & w2 & E2 & H). apply unsent_subscribe in E2 as [S2 D2].
  apply hm_bind_ok in H as (state & w3 & E3 & H). apply unsent_authorized in E3 as [S3 D3].
  apply hm_bind_ok in H as ([runtime payload] & w4 & E4 & H). apply unsent_state in E4 as [S4 D4].
  apply hm_bind_ok in H as (outcomes & w5 & E5 & H).
  apply commandsOutcomes_ok in E5 as (S5 & d & Hd & Hd' & Hall).
  apply hm_bind_ok in H as (id & w6 & E6 & H). apply unsent_fresh in E6 as [S6 D6].
  apply hm_bind_ok in H as (envelope & w7 & [Eb ->]%built_some & H).
  unfold BuildTripStateEnvelope in Eb. simpl in Eb. destruct (_ || _) in Eb; [done|]. injection Eb as Eb.
  unfold send in H. destruct (mx_takes _ _ _); [|done]. injection H as <-.
  exists envelope, (put_member "outcomes" (JList outcomes) (delete_member "subscribed" payload)), outcomes, d.
  split; [simpl; congruence|]. rewrite <- Eb.
  split_and!; [by case_bool_decide|by intros; rewrite bool_decide_eq_false_2|by case_bool_decide|apply get_put| |
    by etransitivity|exact Hall].
  do 5 (etransitivity; [eassumption|]). exact Hd.
Qed.

End Resynchronization.
