(* ===== verification/MessageExamples.v ===== *)
(** * A client's messages

    The owner of a trip subscribes to it and somebody else tries to; the theorems on the
    handling of messages are applied here. *)

From S2P Require Import Prelude GoLib GoText Wire Schema Tables Leases Commands Finalization Mutations Proposals Decisions OutboxStore CanonicalState Canonical CanonicalFacts CanonicalLoad System HttpText JsonText PlannerMessages StoredEvent Worker Dispatcher DispatchExamples Supervisor Coordinators CoordinatorProps PlannerRecovery CoordinatorExamples Places StrictJson Gateway ClientCommands Transport Adapters AdapterProps GatewayExamples AdapterExamples StateJson Messages MessageFacts MessageProps Resynchronization.

#[local] Existing Instance pg_model.
#[local] Instance ex_loading : PlannerProto := {
  MarshalEvent _ := Some []; UnmarshalEvent _ := None; MarshalProposal _ := Some [];
  UnmarshalSnapshotPlan _ := None; UnmarshalPlan _ := Some (ex_pb_plan ex_plan)
}.
#[local] Instance ex_any_proposal : ProposalProto := { UnmarshalProposal _ := None; MarshalPlan _ := None }.
#[local] Instance ex_any_json : HttpJson :=
  {| json_marshal _ := Some (bytes_of_string "{}"); canonicalHTTPBody b := Some b |}.

(** Session 1 is the owner's. *)
Definition ex_sessions (sink : nat) : string := if bool_decide (sink = 1%nat) then ex_user else ex_u1.

Definition ex_planning_env : @WorkerEnv pg_model :=
  MkWorkerEnv (fun _ d => d) (fun _ => Works) (fun _ => ex_clock 5) (fun _ => ∅)
    (fun _ request => Some (bootstrapped request)) (fun _ => Some (replicate 16 Byte.x01))
    (fun _ _ => Some 0) (fun _ => 1000 * Second).
Lemma ex_planning_honest : honest ex_planning_env.
Proof. intros n d. apply rtc_refl. Qed.
Definition ex_message_env : MessageEnv :=
  MkMessageEnv ex_planning_env (fun _ s => s) (fun _ h => h) (fun _ _ => true)
    (fun n => replicate 16 (byte_of (Z.of_nat n))).
Definition ex_settings : Settings := MkSettings ex_holder_a (10 * Second) Second 8 8.

Definition ex_text (kind payload : string) : bytes := apostrophes ("{'protocol_version':'liveroute.v1','message_id':'" +:+
  ex_u1 +:+ "','kind':'" +:+ kind +:+ "','trip_id':'" +:+ ex_trip +:+ "','payload':" +:+ payload +:+ "}").
Definition ex_sent_message (kind payload : string) (sink : nat) : AuthenticatedMessage :=
  MkMessage (ex_sessions sink)
    (match decodeStrictJSON (ex_text kind payload) with inr (AObject ms) => ms | _ => [] end) (ex_text kind payload) sink.
Definition ex_handle (kind payload : string) (sink : nat) (w : World) : World :=
  handleMessage ex_message_env ex_rfc8785 ex_settings (ex_sent_message kind payload sink) w.

Definition ex_world : World :=
  MkWorld (ex_created "planned") 0 (MkSupervisor ∅ ∅ ∅ ∅ false 0 ∅ ∅ false) (MkHub 4 ∅ ∅) [].
Definition ex_asked : World := ex_handle "subscribe_trip" "{}" 1 ex_world.
Definition ex_turned_away : World := ex_handle "subscribe_trip" "{}" 2 ex_asked.

Lemma ex_message_calm : calm_env ex_sessions ex_message_env.
Proof. constructor; [apply ex_planning_honest|by intros n hub d H]. Qed.

(** Where the envelopes went, their kinds and statuses. *)
Definition ex_summary (w : World) : list (nat * option json * option json) :=
  (fun s => match sn_envelope s with
            | About m => (sn_sink s, get_member "kind" m, get_member "status" m)
            | Acknowledged _ => (sn_sink s, None, None)
            end) <$> wd_sent w.


(** The owner comes back and asks about two messages, of which one was a command. *)
Definition ex_returning : AuthenticatedMessage :=
  ex_sent_message "resynchronize_trip" ("{'outstanding_message_ids':['" +:+ ex_u1 +:+ "','" +:+ ex_t1 +:+ "']}") 1.
Definition ex_delayed_world : World := ex_handle "trip_command" ("{'command_kind':'activity_delayed','command':{'expected_trip_revision':'1','activity_id':'" +:+
  ex_activity_a +:+ "','delay_seconds':300}}") 1 ex_world.
Definition ex_back : (MessageError + unit) * World :=
  handleResynchronize ex_message_env ex_settings ex_returning ex_delayed_world.

Lemma resynchronization_answers_all_witness :
  requestedMessageIDs ex_returning = [ex_u1; ex_t1] /\
  exists envelope payload outcomes d,
    wd_sent ex_back.2 = wd_sent ex_delayed_world ++ [MkSent 1 ex_trip (About envelope)] /\
    get_member "kind" envelope = Some (JText "resynchronization_state") /\
    (messageID ex_returning <> "" ->
       get_member "in_reply_to_message_id" envelope = Some (JText (messageID ex_returning))) /\
    get_member "payload" envelope = Some (JObject payload) /\
    get_member "outcomes" payload = Some (JList outcomes) /\
    rtc step (wd_db ex_delayed_world) d /\ rtc step d (wd_db ex_back.2) /\
    Forall2 (outcome_answers ex_trip d) (requestedMessageIDs ex_returning) outcomes.
Proof.
  split; [vm_compute; reflexivity|].
  apply (resynchronization_answers_all ex_message_env ex_settings ex_planning_honest ex_returning
    ex_delayed_world ex_back.2).
  assert (H : match ex_back.1 with inr tt => true | inl _ => false end = true) by (vm_compute; reflexivity).
  change (handleResynchronize ex_message_env ex_settings ex_returning ex_delayed_world) with ex_back.
  destruct ex_back as [[e|[]] w]; [discriminate H|reflexivity].
Defined.
(** A command of somebody who does not own the trip changes no command of it, but the
    trip is activated: its lease is taken and its runtime is brought up. *)
Definition ex_intruder : World := ex_handle "trip_command" ("{'command_kind':'activity_delayed','command':{'expected_trip_revision':'1','activity_id':'" +:+
  ex_activity_a +:+ "','delay_seconds':300}}") 2 ex_world.
Example foreign_command_activates :
  ex_summary ex_intruder = [(2%nat, Some (JText "error"), Some (JText "NOT_FOUND"))] /\
  (map_to_list (intents (wd_db ex_intruder))).*1 = (map_to_list (intents (wd_db ex_world))).*1 /\
  leases (wd_db ex_world) !! ex_trip = None /\
  option_map (fun l => (l_holder_id l, l_runtime_epoch l)) (leases (wd_db ex_intruder) !! ex_trip) = Some (ex_holder_a, 1) /\
  bool_decide (is_Some (su_active (wd_sup ex_intruder) !! ex_trip)) = true.
Proof. split_and!; vm_compute; reflexivity. Qed.
